(* ===== verification/_CoqProject ===== *)
-Q . S2P
Prelude.v
PyBytes.v
PyText.v
PyDict.v
PyBisect.v
Types.v
Itch.v
OrderBook.v
RefData.v
Tape.v
Market.v
ItchFile.v
SoupPackets.v
SoupSession.v
Reactor.v
Tcp.v
Client.v
Exchange.v
SimThreads.v
Delivery.v
Bootstrap.v
Day.v
Records.v
WebState.v
Pcap.v
Wsock.v
DbQuery.v
Snapshot.v
StateTypes.v
Bootseq.v
Httpd.v
Gateway.v
GatewayMain.v
SoupClient.v
Capture.v
CaptureNet.v
Fixtures.v
Sources.v
LiveRun.v
Describe.v
Probe.v
Views.v
ViewsMain.v
StateDump.v
Spy.v
WsProbe.v
CompareDb.v
PyJson.v
Sidecar.v
SampleManifest.v
Golden.v
E2e.v
E2eRun.v
Py36.v
PyArgs.v
Cli.v
Dist.v
Bench.v
