(* ===== verification/Prelude.v ===== *)
(** * ProtoFH: a verification library for the Japannext PTS feed handler

    ProtoFH is a Python feed handler.  [src/jnxfeed] connects to the exchange,
    downloads a GLIMPSE snapshot, then follows the ITCH feed over SoupBinTCP and
    keeps order books, reference data and a trade tape; [src/jnxfeed/sim] is the
    exchange simulator it is tested against.  [src/jnxweb] is the web gateway: it
    receives the binary records the handler multicasts, keeps the latest image per
    ticker and pushes it to browsers over WebSockets.  Everything runs on one
    single-threaded reactor.

    ** How Python is modelled (Prelude, PyBytes, PyText, PyDict, PyBisect)

    - A call that may raise is a [res]; a call that also changes state is an [M]: it
      returns the new state also when it raises, since an exception does not undo
      mutations.  [exn] names the exception classes, messages are not modelled.
    - ints are [Z]; struct codes check and cut widths as [struct] does (PyBytes).
      Prices and quantities are unbounded Python ints until they meet a struct.
    - bytes are lists of [Byte.byte], str are [string]s of code points 0..255.
    - dicts whose order matters are association lists (PyDict); dicts used as plain
      maps are [gmap]s.  Sorted price lists use [bisect] as PyBisect defines it.
    - Shared objects (the reactor's [_SocketState], the hub's clients) live in a
      store and are referred to by index.
    - Loops without a structural argument take fuel; each caller passes the length
      of the list or buffer the loop consumes plus one, and the functional theorems
      are stated on the callers, so running out of fuel would falsify them.
    - Interfaces between components are classes: [SessionOf]/[SessionCallbacks],
      [ReactorOf]/[LoopOf], [ConnOf]/[ConnCallbacks], [StateOf]/[StateCallbacks],
      [WsOf]...  Operations of the operating system (sockets, the clock, the
      selector) are members of these classes; nothing is assumed of their results.

    ** Files and the code they model

    Under src/jnxfeed:
    - Types: [types.py]; prices and the constants.
    - Itch: [itch/schema.py], [itch/messages.py], [itch/codec.py]; the field tables,
      the messages and the codec the tables drive.
    - OrderBook, RefData, Tape: [book/orderbook.py], [book/refdata.py],
      [book/tape.py]; Market: [book/market.py], which routes a message to the three.
    - ItchFile: [itchfile.py]; Pcap: [pcapio.py].
    - SoupPackets: [soup/packets.py]; SoupSession: [soup/session.py].
    - Reactor: [net/reactor.py]; Tcp: [net/tcp.py].
    - Client: [glimpse.py] (Module Glimpse) and [handler.py] (Modules Live, Handler):
      two connections on one reactor, driving a Market.
    - Exchange: [sim/exchange.py], its threads in SimThreads.  Delivery, Bootstrap and
      Day compose it with the client's session and the Market.

    Under src/jnxweb:
    - Records: [records.py]; WebState: [state.py] and the datagram handler of
      [mcast.py]; StateTypes: the types of that state.
    - Wsock: [wsock.py], the browser connections and the hub.
    - DbQuery: [dbquery_client.py], with the query skeleton [snapshot.py] repeats;
      Snapshot: [snapshot.py]; Bootseq: the bootstrap on a reactor, any run of it.
    - Httpd: [httpd.py]; Gateway: [__main__.py], the whole process; GatewayMain: the
      sockets it and [tools/mcast_spy.py] open, and [main] from set-up to [finally].

    Command line programs:
    - SoupClient: [jnxfeed/cli/soupclient.py], the blocking client; Capture:
      [jnxfeed/cli/capture.py], Sidecar: its JSON text; CaptureNet: the two together
      over a network.
    - Fixtures and SampleManifest: [jnxfeed/cli/fixtures.py]; Sources and LiveRun:
      [jnxfeed/cli/sources.py], of which LiveRun is the live source; Describe, Probe,
      Views and ViewsMain: [describe.py], [probe.py], [views.py] beside them.
    - StateDump: [tools/proto_state_dump.py]; CompareDb: [tools/dbquery.py] and
      [tools/compare_db_dump.py]; Spy: [tools/mcast_spy.py]; WsProbe:
      [tools/ws_probe.py]; Golden: [tools/gen_golden_vectors.py], over PyJson, the
      standard library's [json]; E2e and E2eRun: [tools/run_e2e.py]; Py36:
      [tools/py36check.py]; Dist: [tools/make_dist.py]; Bench: [bench/bench_replay.py],
      [tools/bench.py] and [tools/run_asan_pipeline.py], over E2eRun's operations.
    - PyArgs: the standard library's [argparse]; Cli: the command line of every program,
      [jnxfeed/__main__.py] and [sim/__main__.py] among them.

    Each operation has the name of its method (with the component's prefix where two
    methods share one: [boot_start], [ws_on_readable], [http_on_readable], ...); the
    object it is a method of is the record of the same name.

    ** What the theorems show

    - The market day: a GLIMPSE download and any number of dropped ITCH connections
      give the client the market of the whole day ([Day.day_from_snapshot]), every
      message once and in order ([Delivery.exactly_once]); the snapshot the simulator
      cuts is equivalent to the messages before the cut
      ([Bootstrap.bootstrap_equivalent]).
    - Refinement: market and order store against abstract specifications
      ([Market.market_refines], [OrderBook.store_sound]); what the views of a book show.
    - Codecs and framing, each as round trips with their converse: ITCH, SoupBinTCP,
      the record format, WebSocket frames, pcap and TCP reassembly.  Streams may be
      cut anywhere.
    - The simulator's threads in any order: every connection is closed in the end, and no
      server accepts more than one once [stop] has begun ([SimThreads.threads_sound]).
    - Sessions and connections: sequence numbers, heartbeats, reconnects with bounded
      backoff, [stop] being final, partial writes, hand-over from snapshot to feed.
    - The reactor: timers in order, cancelled ones never.
    - The gateway: datagrams to images, rings and counters ([WebState.mcast_exact]),
      the merge never regressing, images to every subscribed browser, the invariant
      of the hub, the types of the state under any input ([StateTypes.state_typed]).
    - The bootstrap: one fetch at a time and at most three per request, giving up
      when jnxdb is silent, seeding the state when it answers, retrying when the answer
      is of another epoch than the restart's (Bootseq).
    - The HTTP server: a request is answered by the page it names and the connection
      closed, upgraded to a WebSocket, or answered from jnxdb's ORDERS reply; the
      requests whose error answer raises instead (Gateway); however the loop ends, the
      sockets are closed and the browsers dropped (GatewayMain).
    - Every typable run of every program that takes arguments can be asked for on its
      command line, and is then what runs ([Cli.commands_roundtrip]).
    - The command line programs: a capture's file and sidecar exact under any network
      and any end ([CaptureNet.capture_exact], proved against the interface [Serves]
      and then for SoupClient) and its text read back (Sidecar); a replay of the file
      cut from a capture is the replay of the capture (Sources); a live run reports what
      it handed on and how it ended (LiveRun); what a probe reports (Probe); what the
      book command prints of a file (ViewsMain); the dumped books add up to the dumped
      orders (StateDump); the multicast spy counts as the gateway does (Spy); a
      comparison with jnxdb passes the orders exactly when they are the market's
      (CompareDb); the golden vectors verify, JSON read back (Golden); the probe's
      handshake and frames meet the gateway's (WsProbe); the end-to-end runner's
      comparison and expected trades are exact (E2e) and no program it starts outlives
      it, whatever fails ([E2eRun.no_program_survives]), nor a program of the sanitizer
      run ([Bench.asan_leaves_none]), whose verdict is clean when no line of a log has a
      marker; the source tarball holds exactly the files it should
      ([Dist.dist_exact]); the linter reports exactly the forms it forbids (Py36).

    ** Bounds

    The codec theorems are for messages whose fields fit their wire width; decoding
    has no such hypothesis.  Durations are integer milliseconds and wire timestamps
    integer nanoseconds, where the code uses floats.  [vwap] is an exact rational.

    ** Not modelled, and why

    - Logging, and the texts argparse prints: help, usage and error messages.
    - [jnxweb/static_page.py] is one constant, the page; it is a parameter of Httpd.
    - The operating system: what the socket calls of GatewayMain and the selector answer
      are arguments.
    - [setup.py], one call of setuptools; of the tarball, tar and gzip; the tests and the
      C++ gateway ([cpp/]).
    - Of the command line programs: logs and printed lines that repeat a report, the
      JSON text of the probe's report, timestamps; what the live source of LiveRun
      delivers is an argument of ViewsMain; a time on the command line between two
      milliseconds is outside the models.
    - [heapq] and [selectors] are modelled by their contracts in Reactor; the JSON
      parser for browser frames and [repr] of a float are parameters of Gateway. *)
From stdpp Require Export base tactics option list list_numbers gmap strings sorting.
From Stdlib Require Export ZArith Lia.

#[global] Open Scope Z_scope.
#[global] Set Default Goal Selector "!".

(** * Python exceptions *)

(** The exception classes the modelled code raises or catches.  Only the class
    is modelled, never the message text. *)
Inductive exn : Type :=
| ValueError | AssertionError | NameError | KeyError | IndexError | TypeError | AttributeError | RuntimeError | ZeroDivisionError
| StructError | UnicodeDecodeError | UnicodeEncodeError | OSError
| DecodeError | UnknownMessageType | InvalidMessageLength
| UnknownMessageClass | AlphaFieldTooLong
| ItchFileError | PcapError | RecordError | FrameError | SampleError | SourceError
| SocketTimeout | KeyboardInterrupt | TimeoutExpired | CalledProcessError
| ConnectFailed | LoginRejectedError (code : string) | ConnectionLost | PeerSilent | WaitTimeout | ProtocolError
| OutOfFuel.   (* not Python's: a loop given too little fuel *)

#[export] Instance exn_eq_dec : EqDecision exn.
Proof. solve_decision. Defined.

(** [isinstance(e, ValueError)]: the unicode errors derive from ValueError. *)
Definition is_ValueError (e : exn) : bool :=
  match e with
  | ValueError | UnicodeDecodeError | UnicodeEncodeError => true
  | _ => false
  end.

(** [socket.timeout] derives from OSError. *)
Definition is_OSError (e : exn) : bool :=
  match e with OSError | SocketTimeout => true | _ => false end.

(** [isinstance(e, codec.DecodeError)]. *)
Definition is_DecodeError (e : exn) : bool :=
  match e with
  | DecodeError | UnknownMessageType | InvalidMessageLength => true
  | _ => false
  end.

(** * Results: a value or a raised exception *)

Inductive res (A : Type) : Type :=
| Ok (a : A)
| Raise (e : exn).
Arguments Ok {A} a.
Arguments Raise {A} e.

#[export] Instance res_ret : MRet res := @Ok.
#[export] Instance res_bind : MBind res := fun A B f m =>
  match m with Ok a => f a | Raise e => Raise e end.
#[export] Instance res_fmap : FMap res := fun A B f m =>
  match m with Ok a => Ok (f a) | Raise e => Raise e end.

Definition is_Ok {A} (r : res A) : bool :=
  match r with Ok _ => true | Raise _ => false end.

(** [d\[k\]] and friends: a missing value is the given exception. *)
Definition of_option {A} (e : exn) (o : option A) : res A :=
  match o with Some a => Ok a | None => Raise e end.

(** A list comprehension whose body may raise: left to right, first error wins. *)
Fixpoint rmap {A B} (f : A -> res B) (l : list A) : res (list B) :=
  match l with
  | [] => Ok []
  | x :: l' => y ← f x; ys ← rmap f l'; Ok (y :: ys)
  end.

(** * Stateful code: state passing with exceptions.
    A Python exception does not undo the mutations made before it was raised,
    so the state survives a [Raise]. *)

Definition M (S A : Type) : Type := S -> S * res A.

#[export] Instance M_ret {S} : MRet (M S) := fun A a s => (s, Ok a).
#[export] Instance M_bind {S} : MBind (M S) := fun A B f m s =>
  match m s with
  | (s', Ok a) => f a s'
  | (s', Raise e) => (s', Raise e)
  end.

Definition mget {S} : M S S := fun s => (s, Ok s).
Definition mput {S} (s' : S) : M S () := fun _ => (s', Ok ()).
Definition mmod {S} (f : S -> S) : M S () := fun s => (f s, Ok ()).
Definition mraise {S A} (e : exn) : M S A := fun s => (s, Raise e).
Definition mlift {S A} (r : res A) : M S A := fun s => (s, r).
Definition mgets {S A} (f : S -> A) : M S A := fun s => (s, Ok (f s)).

(** [try: m; except ...: h e], where [h e] is [None] for an exception not listed. *)
Definition mtry {S A} (m : M S A) (h : exn -> option (M S A)) : M S A := fun s =>
  match m s with
  | (s', Ok a) => (s', Ok a)
  | (s', Raise e) => match h e with Some k => k s' | None => (s', Raise e) end
  end.

(** [try: m; finally: f] *)
Definition mfinally {S A} (m : M S A) (f : M S ()) : M S A := fun s =>
  let '(s', r) := m s in
  match f s' with
  | (s2, Ok _) => (s2, r)
  | (s2, Raise e) => (s2, Raise e)
  end.

(** Run a method of a component: the rest of the state is left alone. *)
Definition zoom {S T A} (get : S -> T) (set : T -> S -> S) (m : M T A) : M S A :=
  fun s => let '(t, r) := m (get s) in (set t s, r).

(** A [for] loop: the body runs once per element, in order, until one raises. *)
Fixpoint mfor {S A} (l : list A) (body : A -> M S ()) : M S () :=
  match l with
  | [] => mret ()
  | x :: l' => body x ;; mfor l' body
  end.

(** Like [mfor], collecting the values the body returns. *)
Fixpoint mmapM {S A B} (body : A -> M S B) (l : list A) : M S (list B) :=
  match l with
  | [] => mret []
  | x :: l' => y ← body x; ys ← mmapM body l'; mret (y :: ys)
  end.

(** * Lengths, slices and list updates as Python writes them *)

(** [len(l)]. *)
Definition zlen {A} (l : list A) : Z := Z.of_nat (length l).

(** [l\[a:b\]] for [0 <= a <= b]. *)
Definition slice {A} (a b : nat) (l : list A) : list A := take (b - a) (drop a l).

(** [del l\[i\]]: IndexError out of range. *)
Definition del_at {A} (i : nat) (l : list A) : res (list A) :=
  if decide (i < length l)%nat then Ok (delete i l) else Raise IndexError.

(** [l.insert(i, x)] for [0 <= i]. *)
Definition insert_at {A} (i : nat) (x : A) (l : list A) : list A :=
  take i l ++ x :: drop i l.

(** [l\[i\]] and [l\[i\] = x] for [0 <= i]: IndexError out of range. *)
Definition get_at {A} (i : nat) (l : list A) : res A := of_option IndexError (l !! i).
Definition set_at {A} (i : nat) (x : A) (l : list A) : res (list A) :=
  if decide (i < length l)%nat then Ok (<[i := x]> l) else Raise IndexError.

(** [deque(maxlen=n)]: appending drops entries from the left. *)
Definition deque_append {A} (maxlen : nat) (x : A) (l : list A) : list A :=
  let l' := l ++ [x] in drop (length l' - maxlen) l'.

(** [sum(l)]. *)
Definition zsum (l : list Z) : Z := foldr Z.add 0 l.

(** * Shared automation *)

Create HintDb py.
Create Rewrite HintDb pyrw.

(** Linear arithmetic with division and remainder by constants. *)
Ltac dlia := Z.div_mod_to_equations; lia.

(** Split a boolean test of the goal or the context into its two readings. *)
Ltac zcases :=
  repeat match goal with
  | |- context [Z.ltb ?a ?b] => destruct (Z.ltb_spec a b)
  | |- context [Z.leb ?a ?b] => destruct (Z.leb_spec a b)
  | |- context [Z.eqb ?a ?b] => destruct (Z.eqb_spec a b)
  | H : context [Z.ltb ?a ?b] |- _ => destruct (Z.ltb_spec a b)
  | H : context [Z.leb ?a ?b] |- _ => destruct (Z.leb_spec a b)
  | H : context [Z.eqb ?a ?b] |- _ => destruct (Z.eqb_spec a b)
  end.

Lemma Ok_inj {A} (a b : A) : Ok a = Ok b -> a = b.
Proof. by intros [= ->]. Qed.

(** Open a successful run of the result monad into its successful steps. *)
Ltac inv_ok :=
  repeat match goal with
  | H : Ok _ = Ok _ |- _ => apply Ok_inj in H; try subst
  | H : (_, _) = (_, _) |- _ => apply pair_equal_spec in H as [H ?]; try subst
  | H : Raise _ = Ok _ |- _ => discriminate H
  | H : Ok _ = Raise _ |- _ => discriminate H
  | H : mret _ = Ok _ |- _ => unfold mret, res_ret in H
  | H : mbind _ ?m = Ok _ |- _ =>
      let a := fresh "a" in let Ha := fresh "Hr" in
      destruct m as [a|] eqn:Ha; cbn [mbind res_bind] in H; [|discriminate H]
  | H : fmap _ ?m = Ok _ |- _ =>
      let a := fresh "a" in let Ha := fresh "Hr" in
      destruct m as [a|] eqn:Ha; cbn [fmap res_fmap] in H; [|discriminate H]
  | H : of_option _ ?o = Ok _ |- _ =>
      let a := fresh "a" in let Ha := fresh "Ho" in
      destruct o as [a|] eqn:Ha; cbn [of_option] in H; [|discriminate H]
  end.

(** * Lemmas on results and loops *)

Lemma rmap_length {A B} (f : A -> res B) l ys :
  rmap f l = Ok ys -> length ys = length l.
Proof.
  revert ys; induction l as [|x l IH]; intros ys H; cbn in H; inv_ok; [done|].
  cbn. f_equal. by apply IH.
Qed.

Lemma rmap_Ok_iff {A B} (f : A -> res B) l ys :
  rmap f l = Ok ys <-> Forall2 (fun x y => f x = Ok y) l ys.
Proof.
  revert ys; induction l as [|x l IH]; intros ys; cbn.
  - split; [intros [= <-]; constructor | by inversion 1].
  - split.
    + intros H; inv_ok. constructor; [done|]. by apply IH.
    + inversion 1 as [|? y ? ys' Hx Hl]; subst. rewrite Hx; cbn.
      apply IH in Hl. by rewrite Hl.
Qed.

Lemma rmap_app {A B} (f : A -> res B) l1 l2 :
  rmap f (l1 ++ l2) = (y1 ← rmap f l1; y2 ← rmap f l2; Ok (y1 ++ y2)).
Proof.
  induction l1 as [|x l1 IH]; cbn; [by destruct (rmap f l2)|].
  destruct (f x); cbn; [|done]. rewrite IH.
  destruct (rmap f l1); cbn; [|done]. by destruct (rmap f l2).
Qed.

(** A program from a state, its first step first. *)
Lemma bind_run {S A B} (m : M S A) (f : A -> M S B) s :
  (m ≫= f) s = match m s with (s1, Ok x) => f x s1 | (s1, Raise e) => (s1, Raise e) end.
Proof. done. Qed.

Lemma mfor_app {S A} (l1 l2 : list A) (body : A -> M S ()) s :
  mfor (l1 ++ l2) body s =
  match mfor l1 body s with
  | (s', Ok _) => mfor l2 body s'
  | (s', Raise e) => (s', Raise e)
  end.
Proof.
  revert s; induction l1 as [|x l1 IH]; intros s; cbn; [done|].
  unfold mbind, M_bind. destruct (body x s) as [s' [[]|e]]; [apply IH|done].
Qed.

(** A loop whose body preserves an invariant and never raises under it. *)
Lemma mfor_inv {S A} (P : S -> Prop) (Q : A -> Prop) (l : list A) (body : A -> M S ()) s :
  (forall x s0, Q x -> P s0 -> exists s1, body x s0 = (s1, Ok ()) /\ P s1) ->
  Forall Q l -> P s -> exists s', mfor l body s = (s', Ok ()) /\ P s'.
Proof.
  intros Hstep HQ; revert s; induction HQ as [|x l Hx HQ IH]; intros s Hs; cbn.
  - by eexists.
  - destruct (Hstep x s Hx Hs) as (s1 & E & H1).
    unfold mbind, M_bind. rewrite E. by apply IH.
Qed.

(** * Lemmas on lists *)

Lemma zlen_app {A} (l1 l2 : list A) : zlen (l1 ++ l2) = zlen l1 + zlen l2.
Proof. unfold zlen. rewrite length_app. lia. Qed.

Lemma zlen_nonneg {A} (l : list A) : 0 <= zlen l.
Proof. unfold zlen. lia. Qed.

Lemma zsum_app l1 l2 : zsum (l1 ++ l2) = zsum l1 + zsum l2.
Proof. unfold zsum. induction l1; cbn in *; lia. Qed.

Lemma insert_at_elem {A} (i : nat) (x y : A) l :
  y ∈ insert_at i x l <-> y = x \/ y ∈ l.
Proof.
  unfold insert_at. rewrite <- (take_drop i l) at 3.
  rewrite !elem_of_app, elem_of_cons. tauto.
Qed.

Lemma insert_at_length {A} (i : nat) (x : A) l : length (insert_at i x l) = S (length l).
Proof.
  unfold insert_at. rewrite length_app; cbn [length].
  rewrite <- (take_drop i l) at 3. rewrite length_app. lia.
Qed.

Lemma delete_take_drop {A} (i : nat) (l : list A) :
  delete i l = take i l ++ drop (S i) l.
Proof. revert i; induction l; intros [|i]; cbn; f_equal; auto. Qed.

(** The last [n] elements. *)
Definition lastn {A} (n : nat) (l : list A) : list A := drop (length l - n) l.

Lemma lastn_append {A} n (x : A) l : deque_append n x (lastn n l) = lastn n (l ++ [x]).
Proof.
  unfold deque_append, lastn. rewrite !length_app, length_drop. cbn [length].
  destruct (decide (length l <= n)%nat).
  - replace (length l - n)%nat with 0%nat by lia. rewrite drop_0. f_equal. lia.
  - rewrite <- (drop_app_le l [x] (length l - n)) by lia.
    rewrite drop_drop. f_equal. lia.
Qed.

#[export] Hint Rewrite @zlen_app zsum_app : pyrw.
#[export] Hint Resolve zlen_nonneg : py.

(** Run a stateful computation symbolically, one bind at a time. *)
Ltac munfold := unfold mbind, M_bind, mget, mput, mmod, mraise, mlift, mgets, mret, M_ret in *.

(** ** Frames: computations that never raise and stay inside a relation *)

(** [safe R m]: [m] returns, and takes any state to an [R]-related one. *)
Definition safe {S A} (R : S -> S -> Prop) (m : M S A) : Prop :=
  forall s, exists s' a, m s = (s', Ok a) /\ R s s'.

(** [keeps R m]: [m] takes any state to an [R]-related one, also when it raises. *)
Definition keeps {S A} (R : S -> S -> Prop) (m : M S A) : Prop := forall s, R s (fst (m s)).

Section frames.
  Context {S : Type} (R : S -> S -> Prop) `{!PreOrder R}.

Lemma safe_ret {A} (a : A) : safe R (mret a).
Proof. intros s. exists s, a. by split. Qed.

Lemma safe_mget : safe R mget.
Proof. intros s. exists s, s. by split. Qed.

Lemma safe_mgets {A} (f : S -> A) : safe R (mgets f).
Proof. intros s. exists s, (f s). by split. Qed.

Lemma safe_mmod (f : S -> S) : (forall s, R s (f s)) -> safe R (mmod f).
Proof. intros H s. by exists (f s), tt. Qed.

Lemma safe_bind {A B} (m : M S A) (f : A -> M S B) :
  safe R m -> (forall a, safe R (f a)) -> safe R (m ≫= f).
Proof.
  intros H1 H2 s. destruct (H1 s) as (s1 & a & E1 & R1). destruct (H2 a s1) as (s2 & b & E2 & R2).
  exists s2, b. unfold mbind, M_bind. rewrite E1. split; [done|]. by transitivity s1.
Qed.

Lemma safe_keeps {A} (m : M S A) : safe R m -> keeps R m.
Proof. intros H s. destruct (H s) as (s' & a & E & HR). by rewrite E. Qed.

Lemma keeps_lift {A} (r : res A) : keeps R (mlift r).
Proof. intros s. cbn. reflexivity. Qed.

Lemma keeps_gets {A} (f : S -> A) : keeps R (mgets f).
Proof. intros s. cbn. reflexivity. Qed.

Lemma keeps_try {A} (m : M S A) h : keeps R m -> (forall e k, h e = Some k -> keeps R k) -> keeps R (mtry m h).
Proof.
  intros H1 H2 s. unfold mtry. specialize (H1 s). destruct (m s) as [s1 [a|e]]; [done|].
  destruct (h e) as [k|] eqn:E; [|done]. cbn in H1. transitivity s1; [done|]. by apply (H2 e).
Qed.

Lemma keeps_bind {A B} (m : M S A) (f : A -> M S B) :
  keeps R m -> (forall a, keeps R (f a)) -> keeps R (m ≫= f).
Proof.
  intros H1 H2 s. unfold mbind, M_bind. specialize (H1 s). destruct (m s) as [s1 [a|e]]; [|done].
  cbn in H1. transitivity s1; [done|apply H2].
Qed.

Lemma keeps_mfor {A} (body : A -> M S ()) l : (forall x, x ∈ l -> keeps R (body x)) -> keeps R (mfor l body).
Proof.
  induction l as [|x l IH]; intros H; cbn; [intros s; cbn; reflexivity|].
  apply keeps_bind; [apply H; left|intros _; apply IH; intros; apply H; by right].
Qed.
End frames.

(** Split a computation that may raise into its steps. *)
Ltac keeps_steps :=
  repeat
    match goal with
    | |- forall _, _ => intros
    | |- PreOrder _ => apply _
    | |- keeps _ (mbind _ _) => apply keeps_bind
    | |- keeps _ (mret ?a) => apply (keeps_lift _ (Ok a))
    | |- keeps _ (mraise ?e) => apply (keeps_lift _ (Raise e))
    | |- keeps _ (mlift _) => apply keeps_lift
    | |- keeps _ mget => apply (keeps_gets _ (fun s => s))
    | |- keeps _ (mgets _) => apply keeps_gets
    | |- keeps _ (let _ := _ in _) => cbv zeta
    | |- keeps _ (match ?x with _ => _ end) => destruct x
    end.

(** Split a computation into its steps and leave the primitive ones. *)
Ltac safe_steps :=
  repeat
    match goal with
    | |- forall _, _ => intros
    | |- PreOrder _ => apply _
    | |- safe _ (mbind _ _) => apply safe_bind
    | |- safe _ (mret _) => apply safe_ret
    | |- safe _ mget => apply safe_mget
    | |- safe _ (mgets _) => apply safe_mgets
    | |- safe _ (let _ := _ in _) => cbv zeta
    | |- safe _ (match ?x with _ => _ end) => destruct x
    end.
