(* ===== verification/PyBytes.v ===== *)
(** Python's [bytes], [str], integer literals and [struct], as the modelled code
    uses them.

    [bytes] is a list of 8-bit bytes.  A [str] is a [string] whose characters are
    the code points 0..255 (everything the code decodes is ASCII or latin-1).
    [struct] formats are lists of field codes; integers are unsigned and checked
    against their width, as [struct.pack] checks them. *)
From Stdlib Require Export Strings.Byte.
From S2P Require Export Prelude.

#[global] Set Default Goal Selector "!".

Abbreviation byte := Byte.byte.
Abbreviation bytes := (list Byte.byte).
Abbreviation str := string.

(** * Bytes as integers *)

Definition b2z (b : byte) : Z := Z.of_N (Byte.to_N b).
Definition z2b (z : Z) : byte :=
  match Byte.of_N (Z.to_N (z mod 256)) with Some b => b | None => Byte.x00 end.

#[export] Instance byte_eq_dec : EqDecision byte := Byte.byte_eq_dec.

(** Big-endian integers of [n] bytes. *)
Fixpoint be_bytes (n : nat) (z : Z) : bytes :=
  match n with
  | O => []
  | S n' => be_bytes n' (z / 256) ++ [z2b z]
  end.
Definition be_val (l : bytes) : Z := fold_left (fun acc b => acc * 256 + b2z b) l 0.

(** * str and bytes *)

Definition s2l (s : str) : bytes := String.list_byte_of_string s.
Definition l2s (l : bytes) : str := String.string_of_list_byte l.

Definition is_ascii (b : byte) : bool := b2z b <? 128.

(** [data.decode("ascii")], [text.encode("ascii")], and the same for latin-1,
    which cannot fail on code points below 256. *)
Definition decode_ascii (l : bytes) : res str :=
  if forallb is_ascii l then Ok (l2s l) else Raise UnicodeDecodeError.
Definition encode_ascii (s : str) : res bytes :=
  if forallb is_ascii (s2l s) then Ok (s2l s) else Raise UnicodeEncodeError.
Definition decode_latin1 (l : bytes) : str := l2s l.
Definition encode_latin1 (s : str) : bytes := s2l s.

(** [text.lstrip], [text.rstrip] and [text.strip] of the bytes satisfying [p]. *)
Fixpoint lstrip_b (p : byte -> bool) (l : bytes) : bytes :=
  match l with
  | [] => []
  | b :: t => if p b then lstrip_b p t else l
  end.
Fixpoint rstrip_b (p : byte -> bool) (l : bytes) : bytes :=
  match l with
  | [] => []
  | b :: t =>
      match rstrip_b p t with
      | [] => if p b then [] else [b]
      | r => b :: r
      end
  end.
Definition strip_b (p : byte -> bool) (l : bytes) : bytes := lstrip_b p (rstrip_b p l).

(** Python's [str.isspace] on code points below 256. *)
Definition is_ws (b : byte) : bool :=
  let z := b2z b in
  ((9 <=? z) && (z <=? 13)) || ((28 <=? z) && (z <=? 32)) || (z =? 133) || (z =? 160).
Definition is_sp (b : byte) : bool := b2z b =? 32.

Definition rstrip_spaces (s : str) : str := l2s (rstrip_b is_sp (s2l s)).
Definition strip (s : str) : str := l2s (strip_b is_ws (s2l s)).

(** Decimal digits; [str.isdigit] also accepts the superscripts U+00B2, U+00B3
    and U+00B9, which [int] rejects. *)
Definition is_dec (b : byte) : bool := (48 <=? b2z b) && (b2z b <=? 57).
Definition isdigit_b (b : byte) : bool :=
  is_dec b || (b2z b =? 178) || (b2z b =? 179) || (b2z b =? 185).
Definition isdigit (s : str) : bool :=
  match s2l s with [] => false | l => forallb isdigit_b l end.

(** [int(text)] in base ten: surrounding white space, a sign, and single
    underscores between digits are accepted. *)
Fixpoint int_digits (l : bytes) (acc : Z) (after_digit : bool) : option Z :=
  match l with
  | [] => if after_digit then Some acc else None
  | b :: t =>
      if is_dec b then int_digits t (acc * 10 + (b2z b - 48)) true
      else if (b2z b =? 95) && after_digit then int_digits t acc false
      else None
  end.
Definition int_of_bytes (l : bytes) : res Z :=
  of_option ValueError
    match l with
    | b :: t =>
        if b2z b =? 45 then Z.opp <$> int_digits t 0 false
        else if b2z b =? 43 then int_digits t 0 false
        else int_digits l 0 false
    | [] => None
    end.
Definition py_int (s : str) : res Z := int_of_bytes (strip_b is_ws (s2l s)).

(** [str(z)] for an int. *)
Fixpoint dec_fuel (fuel : nat) (z : Z) (acc : bytes) : bytes :=
  match fuel with
  | O => acc
  | S f =>
      let acc' := z2b (48 + z mod 10) :: acc in
      if z <? 10 then acc' else dec_fuel f (z / 10) acc'
  end.
Definition dec_bytes (z : Z) : bytes := dec_fuel (S (Z.to_nat (Z.log2 z))) z [].
Definition py_str_b (z : Z) : bytes :=
  if z <? 0 then "-"%byte :: dec_bytes (- z) else dec_bytes z.
Definition py_str (z : Z) : str := l2s (py_str_b z).

(** * struct *)

(** Field codes: [U n] is an unsigned integer of [n] bytes (B, H, I, Q), [I4] the
    signed 32-bit i, [Sx n] the n-byte string "ns", [Cx] the one-byte char "c". *)
Inductive code : Type := U (n : nat) | I4 | Sx (n : nat) | Cx.
Inductive sval : Type := VInt (z : Z) | VBytes (l : bytes).
Inductive endian : Type := Big | Little.

#[export] Instance code_eq_dec : EqDecision code.
Proof. solve_decision. Defined.

Definition code_size (c : code) : nat :=
  match c with U n => n | I4 => 4 | Sx n => n | Cx => 1 end.
Definition calcsize (f : list code) : nat := foldr (fun c n => (code_size c + n)%nat) 0%nat f.

Definition byte_order (e : endian) (l : bytes) : bytes :=
  match e with Big => l | Little => rev l end.

Definition pack_one (e : endian) (c : code) (v : sval) : res bytes :=
  match c, v with
  | U n, VInt z =>
      if (0 <=? z) && (z <? 256 ^ Z.of_nat n) then Ok (byte_order e (be_bytes n z))
      else Raise StructError
  | I4, VInt z =>
      if (- 2 ^ 31 <=? z) && (z <? 2 ^ 31) then Ok (byte_order e (be_bytes 4 (z mod 2 ^ 32)))
      else Raise StructError
  | Sx n, VBytes l => Ok (take n l ++ replicate (n - length l) Byte.x00)
  | Cx, VBytes [b] => Ok [b]
  | _, _ => Raise StructError
  end.
Definition unpack_one (e : endian) (c : code) (l : bytes) : sval :=
  match c with
  | U n => VInt (be_val (byte_order e l))
  | I4 => let z := be_val (byte_order e l) in VInt (if z <? 2 ^ 31 then z else z - 2 ^ 32)
  | Sx _ | Cx => VBytes l
  end.

(** [Struct(f).pack(vs...)] and [Struct(f).unpack(l)]. *)
Fixpoint struct_pack (e : endian) (f : list code) (vs : list sval) : res bytes :=
  match f, vs with
  | [], [] => Ok []
  | c :: f', v :: vs' =>
      l ← pack_one e c v; l' ← struct_pack e f' vs'; Ok (l ++ l')
  | _, _ => Raise StructError
  end.
Fixpoint unpack_fields (e : endian) (f : list code) (l : bytes) : list sval :=
  match f with
  | [] => []
  | c :: f' => unpack_one e c (take (code_size c) l) :: unpack_fields e f' (drop (code_size c) l)
  end.
Definition struct_unpack (e : endian) (f : list code) (l : bytes) : res (list sval) :=
  if decide (length l = calcsize f) then Ok (unpack_fields e f l) else Raise StructError.

(** * Files *)

(** [f.read(n)]: up to [n] bytes, fewer at end of file. *)
Definition f_read (n : nat) : M bytes bytes := fun f => (drop n f, Ok (take n f)).

(** * Lemmas *)

Lemma b2z_range b : 0 <= b2z b < 256.
Proof. unfold b2z. pose proof (Byte.to_N_bounded b). lia. Qed.

Lemma b2z_z2b z : b2z (z2b z) = z mod 256.
Proof.
  unfold b2z, z2b. pose proof (Z.mod_pos_bound z 256 ltac:(lia)).
  destruct (Byte.of_N (Z.to_N (z mod 256))) as [b|] eqn:E.
  - apply Byte.to_of_N in E. rewrite E. lia.
  - apply Byte.of_N_None_iff in E. lia.
Qed.

Lemma z2b_b2z b : z2b (b2z b) = b.
Proof.
  unfold z2b. rewrite Z.mod_small by apply b2z_range.
  unfold b2z. rewrite N2Z.id, Byte.of_to_N. done.
Qed.

Lemma b2z_inj a b : b2z a = b2z b -> a = b.
Proof. intros H. by rewrite <- (z2b_b2z a), H, z2b_b2z. Qed.

Lemma b2z_z2b_small z : 0 <= z < 256 -> b2z (z2b z) = z.
Proof. intros. rewrite b2z_z2b. by apply Z.mod_small. Qed.

Lemma s2l_l2s l : s2l (l2s l) = l.
Proof. apply String.list_byte_of_string_of_list_byte. Qed.
Lemma l2s_s2l s : l2s (s2l s) = s.
Proof. apply String.string_of_list_byte_of_string. Qed.
Lemma s2l_cat s t : s2l (s +:+ t) = s2l s ++ s2l t.
Proof. induction s as [|c s IH]; [done|].
  transitivity (Ascii.byte_of_ascii c :: s2l (s +:+ t)); [done|by rewrite IH].
Qed.
Lemma s2l_inj s t : s2l s = s2l t -> s = t.
Proof. intros H. by rewrite <- (l2s_s2l s), H, l2s_s2l. Qed.
Lemma l2s_inj a b : l2s a = l2s b -> a = b.
Proof. intros H. by rewrite <- (s2l_l2s a), H, s2l_l2s. Qed.

#[export] Hint Rewrite s2l_l2s l2s_s2l b2z_z2b z2b_b2z : pyrw.

Lemma fold_be l : forall acc,
  fold_left (fun acc b => acc * 256 + b2z b) l acc
  = acc * 256 ^ zlen l + fold_left (fun acc b => acc * 256 + b2z b) l 0.
Proof.
  unfold zlen. induction l as [|b l IH]; intros acc; cbn [fold_left length]; [lia|].
  rewrite IH, (IH (0 * 256 + _)), Nat2Z.inj_succ, Z.pow_succ_r by lia. lia.
Qed.

Lemma be_val_app l1 l2 : be_val (l1 ++ l2) = be_val l1 * 256 ^ zlen l2 + be_val l2.
Proof. unfold be_val. rewrite fold_left_app. apply fold_be. Qed.

Lemma be_val_range l : 0 <= be_val l < 256 ^ zlen l.
Proof.
  induction l as [|b l IH] using rev_ind; [change (0 <= 0 < 1); lia|].
  rewrite be_val_app, zlen_app, Z.pow_add_r by auto with py.
  change (zlen [b]) with 1. change (be_val [b]) with (0 * 256 + b2z b).
  rewrite Z.pow_1_r. pose proof (b2z_range b). lia.
Qed.

Lemma be_bytes_length n z : length (be_bytes n z) = n.
Proof. revert z; induction n as [|n IH]; intros z; cbn; [done|]. rewrite length_app, IH. cbn. lia. Qed.

Lemma be_val_bytes n z : be_val (be_bytes n z) = z mod 256 ^ Z.of_nat n.
Proof.
  revert z; induction n as [|n IH]; intros z; [cbn; by rewrite Z.mod_1_r|].
  cbn [be_bytes]. rewrite be_val_app, IH, Nat2Z.inj_succ, Z.pow_succ_r by lia.
  change (zlen [z2b z]) with 1. change (be_val [z2b z]) with (0 * 256 + b2z (z2b z)).
  rewrite b2z_z2b, Z.pow_1_r, (Z.rem_mul_r z 256) by lia. lia.
Qed.

Lemma be_bytes_val l : be_bytes (length l) (be_val l) = l.
Proof.
  induction l as [|b l IH] using rev_ind; [done|].
  rewrite length_app, Nat.add_1_r; cbn [be_bytes].
  rewrite be_val_app. change (zlen [b]) with 1.
  change (be_val [b]) with (0 * 256 + b2z b). pose proof (b2z_range b).
  rewrite Z.pow_1_r, Z.add_0_l, Z.div_add_l, Z.div_small, Z.add_0_r, IH by lia.
  do 2 f_equal. apply b2z_inj. rewrite b2z_z2b.
  rewrite Z.add_comm, Z.mod_add, Z.mod_small by lia. done.
Qed.

(** ** Stripping *)

Lemma rstrip_app_all p l pad :
  forallb p pad = true -> rstrip_b p (l ++ pad) = rstrip_b p l.
Proof.
  intros Hp. assert (rstrip_b p pad = []) as E.
  { clear l. induction pad as [|b pad IH]; cbn in *; [done|].
    apply andb_true_iff in Hp as [Hb Hp]. by rewrite IH, Hb. }
  induction l as [|b l IH]; cbn; [done|]. by rewrite IH.
Qed.

Lemma rstrip_suffix p l :
  exists pad, l = rstrip_b p l ++ pad /\ forallb p pad = true.
Proof.
  induction l as [|b l (pad & E & Hp)]; [by exists []|]. cbn.
  destruct (rstrip_b p l) as [|c r] eqn:Er.
  - destruct (p b) eqn:Eb.
    + exists (b :: pad). cbn. cbn in E. rewrite Eb, Hp. by subst.
    + exists pad. cbn in *. by subst.
  - exists pad. cbn in *. by rewrite E at 1.
Qed.

(** A text with no trailing byte in [p] is left alone by [rstrip]. *)
Definition no_trail (p : byte -> bool) (l : bytes) : bool :=
  match last l with Some b => negb (p b) | None => true end.

Lemma rstrip_id p l : no_trail p l = true -> rstrip_b p l = l.
Proof.
  unfold no_trail. induction l as [|b l IH]; [done|].
  destruct l as [|c l].
  - cbn. by destruct (p b).
  - intros H. cbn [last] in *. specialize (IH H).
    change (rstrip_b p (b :: c :: l)) with
      (match rstrip_b p (c :: l) with [] => if p b then [] else [b] | r => b :: r end).
    by rewrite IH.
Qed.

Lemma rstrip_no_trail p l : no_trail p (rstrip_b p l) = true.
Proof.
  unfold no_trail. induction l as [|b l IH]; [done|]. cbn.
  destruct (rstrip_b p l) as [|c r] eqn:Er; [by destruct (p b) eqn:E; cbn; rewrite ?E|done].
Qed.

Lemma rstrip_length p l : (length (rstrip_b p l) <= length l)%nat.
Proof.
  destruct (rstrip_suffix p l) as (pad & E & _).
  rewrite E at 2. rewrite length_app. lia.
Qed.

Lemma rstrip_forallb p q l : forallb q l = true -> forallb q (rstrip_b p l) = true.
Proof.
  intros H. destruct (rstrip_suffix p l) as (pad & E & _).
  rewrite E, forallb_app in H. by apply andb_true_iff in H as [? _].
Qed.

Lemma is_sp_space : is_sp " "%byte = true.
Proof. reflexivity. Qed.

Lemma is_sp_eq b : is_sp b = true -> b = " "%byte.
Proof. intros H. apply Z.eqb_eq in H. by apply b2z_inj. Qed.

Lemma forallb_replicate {A} (p : A -> bool) n x : p x = true -> forallb p (replicate n x) = true.
Proof. intros H. induction n; cbn; [done|]. by rewrite H, IHn. Qed.

Lemma forallb_sp_replicate l : forallb is_sp l = true -> l = replicate (length l) " "%byte.
Proof.
  induction l as [|b l IH]; cbn; [done|]. intros [Hb Hl]%andb_true_iff.
  f_equal; [by apply is_sp_eq|by apply IH].
Qed.

(** Padding with spaces to a width, and [rstrip(" ")], are inverse. *)
Lemma rstrip_pad l n :
  no_trail is_sp l = true ->
  rstrip_b is_sp (l ++ replicate n " "%byte) = l.
Proof.
  intros H. rewrite rstrip_app_all by (by apply forallb_replicate).
  by apply rstrip_id.
Qed.

Lemma pad_rstrip l :
  rstrip_b is_sp l ++ replicate (length l - length (rstrip_b is_sp l)) " "%byte = l.
Proof.
  destruct (rstrip_suffix is_sp l) as (pad & E & Hp).
  rewrite (forallb_sp_replicate _ Hp) in E. rewrite E at 4. f_equal. f_equal.
  rewrite E at 1. rewrite length_app, length_replicate. lia.
Qed.

(** A text with no leading byte in [p] is left alone by [lstrip]. *)
Definition no_lead (p : byte -> bool) (l : bytes) : bool :=
  match l with b :: _ => negb (p b) | [] => true end.

Lemma lstrip_app_all p pad l :
  forallb p pad = true -> lstrip_b p (pad ++ l) = lstrip_b p l.
Proof.
  induction pad as [|b pad IH]; cbn; [done|]. intros [-> H]%andb_true_iff. by apply IH.
Qed.

Lemma lstrip_id p l : no_lead p l = true -> lstrip_b p l = l.
Proof. destruct l as [|b l]; cbn; [done|]. by destruct (p b). Qed.

Lemma strip_pad_left p pad l :
  forallb p pad = true -> no_lead p l = true -> no_trail p l = true ->
  strip_b p (pad ++ l) = l.
Proof.
  intros Hp H1 H2. unfold strip_b.
  destruct l as [|b l].
  - rewrite app_nil_r. replace pad with ([] ++ pad) by done.
    by rewrite rstrip_app_all.
  - rewrite (rstrip_id p (pad ++ b :: l)).
    + rewrite lstrip_app_all by done. by apply lstrip_id.
    + unfold no_trail in *. by rewrite last_app_cons.
Qed.

(** ** Decimal numbers *)

Lemma is_dec_digit d : 0 <= d < 10 -> is_dec (z2b (48 + d)) = true.
Proof. intros. unfold is_dec. rewrite b2z_z2b_small by lia. apply andb_true_iff. lia. Qed.

Fixpoint dec_val (acc : Z) (l : bytes) : Z :=
  match l with [] => acc | b :: t => dec_val (acc * 10 + (b2z b - 48)) t end.

Lemma int_digits_dec l : forall acc seen,
  forallb is_dec l = true -> l <> [] \/ seen = true ->
  int_digits l acc seen = Some (dec_val acc l).
Proof.
  induction l as [|b l IH]; intros acc seen Hd Hn; cbn in *.
  - by destruct Hn as [? | ->].
  - apply andb_true_iff in Hd as [-> Hd]. apply IH; auto.
Qed.

Lemma dec_fuel_val fuel : forall z acc a,
  0 <= z < 2 ^ Z.of_nat fuel -> a = 0 -> dec_val a (dec_fuel fuel z acc) = dec_val z acc.
Proof.
  induction fuel as [|f IH]; intros z acc a Hz ->.
  - cbn in *. f_equal. lia.
  - rewrite Nat2Z.inj_succ, Z.pow_succ_r in Hz by lia. cbn [dec_fuel].
    pose proof (Z.div_mod z 10 ltac:(lia)). pose proof (Z.mod_pos_bound z 10 ltac:(lia)).
    destruct (Z.ltb_spec z 10).
    + cbn [dec_val]. rewrite b2z_z2b_small by lia. rewrite Z.mod_small by lia. f_equal. lia.
    + rewrite IH by lia.
      cbn [dec_val]. rewrite b2z_z2b_small by lia. f_equal. lia.
Qed.

Lemma dec_fuel_digits fuel : forall z acc,
  0 <= z -> forallb is_dec acc = true -> forallb is_dec (dec_fuel fuel z acc) = true.
Proof.
  induction fuel as [|f IH]; intros z acc Hz Ha; cbn [dec_fuel]; [done|].
  assert (forallb is_dec (z2b (48 + z mod 10) :: acc) = true) as Hb.
  { cbn. rewrite is_dec_digit by (apply Z.mod_pos_bound; lia). done. }
  destruct (z <? 10); [done|]. apply IH; [|done]. apply Z.div_pos; lia.
Qed.

Lemma dec_fuel_length fuel : forall n z acc,
  (1 <= n)%nat -> 0 <= z < 10 ^ Z.of_nat n ->
  (length (dec_fuel fuel z acc) <= n + length acc)%nat.
Proof.
  induction fuel as [|f IH]; intros n z acc Hn Hz; cbn [dec_fuel]; [lia|].
  destruct (Z.ltb_spec z 10) as [|Hge]; [cbn; lia|].
  destruct n as [|[|n]]; [lia|cbn in Hz; lia|].
  rewrite Nat2Z.inj_succ, Z.pow_succ_r in Hz by lia.
  etransitivity; [apply (IH (S n))|cbn; lia]; [lia|].
  split; [apply Z.div_pos; lia|]. apply Z.div_lt_upper_bound; lia.
Qed.

Lemma dec_fuel_nonempty fuel : forall z acc, acc <> [] -> dec_fuel fuel z acc <> [].
Proof.
  induction fuel as [|f IH]; intros z acc H; cbn [dec_fuel]; [done|].
  destruct (z <? 10); [done|]. by apply IH.
Qed.

Lemma dec_bytes_val z : 0 <= z -> dec_val 0 (dec_bytes z) = z.
Proof.
  intros Hz. unfold dec_bytes. rewrite dec_fuel_val; [done| |done].
  split; [done|]. pose proof (Z.log2_nonneg z).
  rewrite Nat2Z.inj_succ, Z2Nat.id by done.
  destruct (Z.eq_dec z 0) as [->|]; [cbn; lia|]. apply Z.log2_spec; lia.
Qed.

Lemma dec_bytes_digits z : 0 <= z -> forallb is_dec (dec_bytes z) = true.
Proof. intros. by apply dec_fuel_digits. Qed.

Lemma dec_bytes_nonempty z : dec_bytes z <> [].
Proof.
  unfold dec_bytes. cbn [dec_fuel]. destruct (z <? 10); [done|]. by apply dec_fuel_nonempty.
Qed.

Lemma dec_bytes_length n z :
  (1 <= n)%nat -> 0 <= z < 10 ^ Z.of_nat n -> (length (dec_bytes z) <= n)%nat.
Proof. intros Hn Hz. etransitivity; [by apply (dec_fuel_length _ n)|cbn; lia]. Qed.

Lemma is_dec_bounds b : is_dec b = true -> 48 <= b2z b <= 57.
Proof. unfold is_dec. intros [? ?]%andb_true_iff. lia. Qed.

Lemma is_dec_not_ws b : is_dec b = true -> is_ws b = false.
Proof.
  intros H%is_dec_bounds. unfold is_ws.
  repeat (apply orb_false_iff; split); try apply andb_false_iff; lia.
Qed.

Lemma is_dec_ascii b : is_dec b = true -> is_ascii b = true.
Proof. intros H%is_dec_bounds. unfold is_ascii. lia. Qed.

Lemma forallb_impl {A} (p q : A -> bool) l :
  (forall x, p x = true -> q x = true) -> forallb p l = true -> forallb q l = true.
Proof. intros H. rewrite !forallb_forall. auto. Qed.

Lemma digits_no_lead l : forallb is_dec l = true -> no_lead is_ws l = true.
Proof. destruct l as [|b l]; cbn; [done|]. intros [H _]%andb_true_iff. by rewrite is_dec_not_ws. Qed.

Lemma digits_no_trail l : forallb is_dec l = true -> no_trail is_ws l = true.
Proof.
  unfold no_trail. intros H. destruct (last l) as [b|] eqn:E; [|done].
  rewrite is_dec_not_ws; [done|]. rewrite forallb_forall in H. apply H.
  apply last_Some in E as [l' ->]. apply in_or_app. right. by left.
Qed.

Lemma int_of_dec l :
  forallb is_dec l = true -> l <> [] -> int_of_bytes l = Ok (dec_val 0 l).
Proof.
  intros Hd Hn. destruct l as [|b t]; [done|]. pose proof Hd as Hd'. cbn in Hd.
  apply andb_true_iff in Hd as [Hb Ht]. apply is_dec_bounds in Hb. unfold int_of_bytes.
  destruct (Z.eqb_spec (b2z b) 45); [lia|]. destruct (Z.eqb_spec (b2z b) 43); [lia|].
  rewrite int_digits_dec by auto. done.
Qed.

Lemma strip_digits l : forallb is_dec l = true -> strip_b is_ws l = l.
Proof.
  intros H. unfold strip_b. rewrite rstrip_id by by apply digits_no_trail.
  by apply lstrip_id, digits_no_lead.
Qed.

Lemma py_int_dec l :
  forallb is_dec l = true -> l <> [] -> py_int (l2s l) = Ok (dec_val 0 l).
Proof. intros. unfold py_int. rewrite s2l_l2s, strip_digits by done. by apply int_of_dec. Qed.

Lemma isdigit_dec l : forallb is_dec l = true -> l <> [] -> isdigit (l2s l) = true.
Proof.
  intros Hd Hn. unfold isdigit. rewrite s2l_l2s. destruct l; [done|].
  eapply forallb_impl; [|done]. intros x. unfold isdigit_b. by intros ->.
Qed.

Lemma py_int_str z : 0 <= z -> py_int (py_str z) = Ok z.
Proof.
  intros Hz. unfold py_str, py_str_b. destruct (Z.ltb_spec z 0); [lia|].
  rewrite py_int_dec by (auto using dec_bytes_digits, dec_bytes_nonempty).
  by rewrite dec_bytes_val.
Qed.

Lemma int_of_str_b z : int_of_bytes (py_str_b z) = Ok z.
Proof.
  unfold py_str_b. destruct (Z.ltb_spec z 0).
  - unfold int_of_bytes. change (b2z "-"%byte =? 45) with true. cbn iota.
    rewrite int_digits_dec by (try (left; apply dec_bytes_nonempty); apply dec_bytes_digits; lia). cbn [of_option fmap option_fmap option_map]. rewrite dec_bytes_val by lia. f_equal. lia.
  - rewrite int_of_dec by (apply dec_bytes_nonempty || by apply dec_bytes_digits). by rewrite dec_bytes_val.
Qed.

Lemma strip_none p l : forallb (fun b => negb (p b)) l = true -> strip_b p l = l.
Proof.
  intros H. unfold strip_b. rewrite rstrip_id, lstrip_id; [done|..].
  - destruct l; [done|]. by apply andb_true_iff in H as [? _].
  - unfold no_trail. destruct (last l) as [b|] eqn:E; [|done]. rewrite forallb_forall in H. apply H, list_elem_of_In.
    by apply last_Some_elem_of.
Qed.

Lemma py_str_b_no_ws z : forallb (fun b => negb (is_ws b)) (py_str_b z) = true.
Proof.
  assert (forall y, 0 <= y -> forallb (fun b => negb (is_ws b)) (dec_bytes y) = true) as H.
  { intros y Hy. eapply forallb_impl; [|by apply dec_bytes_digits]. intros b Hb. by rewrite is_dec_not_ws. }
  unfold py_str_b. destruct (Z.ltb_spec z 0); [apply H; lia|by apply H].
Qed.

(** [int(str(z))] *)
Lemma py_int_any z : py_int (py_str z) = Ok z.
Proof. unfold py_int, py_str. rewrite s2l_l2s, strip_none by apply py_str_b_no_ws. apply int_of_str_b. Qed.

(** ** struct *)

Lemma byte_order_involutive e l : byte_order e (byte_order e l) = l.
Proof. destruct e; cbn; [done|apply rev_involutive]. Qed.

Lemma byte_order_length e l : length (byte_order e l) = length l.
Proof. destruct e; cbn; [done|apply length_rev]. Qed.

(** The values [unpack] can return: byte strings have exactly their width. *)
Definition sval_ok (c : code) (v : sval) : Prop :=
  match c, v with Sx n, VBytes l => length l = n | _, _ => True end.

Lemma pack_one_length e c v l : pack_one e c v = Ok l -> length l = code_size c.
Proof.
  destruct c, v as [z|bs]; cbn [pack_one code_size]; try discriminate.
  - case_match; [|discriminate]. intros; inv_ok. by rewrite byte_order_length, be_bytes_length.
  - case_match; [|discriminate]. intros; inv_ok. by rewrite byte_order_length, be_bytes_length.
  - intros; inv_ok. rewrite length_app, length_take, length_replicate. lia.
  - repeat case_match; try discriminate. by intros [= <-].
Qed.

Lemma unpack_pack_one e c v l : sval_ok c v -> pack_one e c v = Ok l -> unpack_one e c l = v.
Proof.
  destruct c as [n| |n|], v as [z|bs]; cbn [pack_one unpack_one sval_ok]; intros Hok H; try discriminate.
  - case_match eqn:E; [|discriminate]. inv_ok. apply andb_true_iff in E as [? ?].
    rewrite byte_order_involutive, be_val_bytes, Z.mod_small; [done|lia].
  - case_match eqn:E; [|discriminate]. inv_ok. apply andb_true_iff in E as [? ?].
    rewrite byte_order_involutive, be_val_bytes. change (256 ^ Z.of_nat 4) with (2 ^ 32).
    rewrite Zmod_mod. f_equal.
    change (2 ^ 32) with 4294967296 in *. change (2 ^ 31) with 2147483648 in *.
    destruct (Z.ltb_spec (z mod 4294967296) 2147483648); dlia.
  - inv_ok. rewrite firstn_all, Nat.sub_diag, app_nil_r. done.
  - repeat case_match; try discriminate. by injection H as <-.
Qed.

Lemma pack_unpack_one e c l : length l = code_size c -> pack_one e c (unpack_one e c l) = Ok l.
Proof.
  destruct c as [n| |n|]; cbn [pack_one unpack_one code_size]; intros Hl.
  - pose proof (be_val_range (byte_order e l)) as Hr. unfold zlen in Hr.
    rewrite byte_order_length, Hl in Hr.
    replace (_ && _) with true by (symmetry; apply andb_true_iff; lia).
    rewrite <- Hl, <- (byte_order_length e l), be_bytes_val, byte_order_involutive. done.
  - pose proof (be_val_range (byte_order e l)) as Hr. unfold zlen in Hr.
    rewrite byte_order_length, Hl in Hr. change (256 ^ Z.of_nat 4) with (2 ^ 32) in Hr.

    change (2 ^ 32) with 4294967296 in *. change (2 ^ 31) with 2147483648 in *.
    set (z := be_val (byte_order e l)) in *.
    replace (_ && _) with true
      by (symmetry; apply andb_true_iff; destruct (Z.ltb_spec z 2147483648); lia).
    replace ((if z <? 2147483648 then z else z - 4294967296) mod 4294967296) with z
      by (destruct (Z.ltb_spec z 2147483648); dlia).
    unfold z. rewrite <- Hl, <- (byte_order_length e l), be_bytes_val, byte_order_involutive. done.
  - rewrite take_ge, Hl, Nat.sub_diag, app_nil_r by lia. done.
  - destruct l as [|b [|]]; cbn in Hl; try lia. done.
Qed.

Lemma struct_pack_length e f vs l : struct_pack e f vs = Ok l -> length l = calcsize f.
Proof.
  revert vs l; induction f as [|c f IH]; intros [|v vs] l H; cbn in H; try discriminate; inv_ok; [done|].
  rewrite length_app. cbn. erewrite (pack_one_length _ _ _ a) by done.
  erewrite (IH _ a0) by done. done.
Qed.

(** Packing then unpacking gives the packed values back. *)
Lemma struct_unpack_pack e f vs l :
  Forall2 sval_ok f vs -> struct_pack e f vs = Ok l -> struct_unpack e f l = Ok vs.
Proof.
  intros Hok Hp. unfold struct_unpack. rewrite decide_True by by eapply struct_pack_length.
  f_equal. revert l Hp. induction Hok as [|c v f vs Hc Hok IH]; intros l Hp; cbn in Hp; inv_ok; [done|].
  pose proof (pack_one_length _ _ _ _ Hr) as Hl. cbn.
  rewrite take_app_length', drop_app_length' by done. erewrite unpack_pack_one by done.
  f_equal. by apply IH.
Qed.

(** Unpacking then packing gives the bytes back. *)
Lemma struct_pack_unpack e f vs l : struct_unpack e f l = Ok vs -> struct_pack e f vs = Ok l.
Proof.
  unfold struct_unpack. case_decide as Hl; [|discriminate]. intros [= <-].
  revert l Hl. induction f as [|c f IH]; intros l Hl; cbn [unpack_fields struct_pack].
  - by destruct l.
  - change (length l = (code_size c + calcsize f)%nat) in Hl.
    rewrite pack_unpack_one by (rewrite length_take; lia). cbn [mbind res_bind].
    rewrite IH by (rewrite length_drop; lia). cbn. by rewrite take_drop.
Qed.

Lemma struct_unpack_ok e f l : length l = calcsize f -> exists vs, struct_unpack e f l = Ok vs.
Proof. intros H. unfold struct_unpack. rewrite decide_True by done. by eexists. Qed.

Lemma unpack_fields_length e f l : length (unpack_fields e f l) = length f.
Proof. revert l; induction f; intros; cbn; [done|]. by f_equal. Qed.

(** ** One integer: [struct.pack(f, z)] and [struct.unpack(f, l)\[0\]] *)

Definition pack1 (e : endian) (c : code) (z : Z) : res bytes := struct_pack e [c] [VInt z].
Definition unpack1 (e : endian) (c : code) (l : bytes) : res Z :=
  vs ← struct_unpack e [c] l;
  match vs with [VInt z] => Ok z | _ => Raise StructError end.

Lemma pack1_U e n z : 0 <= z < 256 ^ Z.of_nat n ->
  pack1 e (U n) z = Ok (byte_order e (be_bytes n z)).
Proof.
  intros Hz. unfold pack1. cbn. rewrite (proj2 (Z.leb_le _ _)), (proj2 (Z.ltb_lt _ _)) by lia.
  cbn. by rewrite app_nil_r.
Qed.

Lemma unpack1_U e n l : length l = n -> unpack1 e (U n) l = Ok (be_val (byte_order e l)).
Proof.
  intros Hl. unfold unpack1, struct_unpack. rewrite decide_True by (cbn; lia). cbn.
  rewrite take_ge by lia. done.
Qed.

Lemma be_val_bytes_small n z : 0 <= z < 256 ^ Z.of_nat n -> be_val (be_bytes n z) = z.
Proof. intros Hz. rewrite be_val_bytes. by apply Z.mod_small. Qed.
