(* ===== verification/PyText.v ===== *)
(** Python's text and binary helpers: [str.splitlines],
    [str.split], [str.partition], [os.path], base64, SHA-1 and the JSON encoder. *)
From S2P Require Export PyBytes.

#[global] Set Default Goal Selector "!".

(** * Splitting *)

(** The line boundaries of [str.splitlines] on code points below 256. *)
Definition is_eol (b : byte) : bool :=
  let z := b2z b in ((10 <=? z) && (z <=? 13)) || ((28 <=? z) && (z <=? 30)) || (z =? 133).

(** [cur] is the current line, reversed; a CR LF pair is one boundary. *)
Fixpoint split_lines (l cur : bytes) : list bytes :=
  match l with
  | [] => match cur with [] => [] | _ => [rev cur] end
  | b :: t =>
      if is_eol b then
        rev cur ::
        match t with
        | c :: t' => if (b2z b =? 13) && (b2z c =? 10) then split_lines t' [] else split_lines t []
        | [] => []
        end
      else split_lines t (b :: cur)
  end.
Definition splitlines (s : str) : list str := l2s <$> split_lines (s2l s) [].

(** [s.split()]: runs of white space separate the words. *)
Fixpoint split_words (l cur : bytes) : list bytes :=
  match l with
  | [] => match cur with [] => [] | _ => [rev cur] end
  | b :: t =>
      if is_ws b then match cur with [] => split_words t [] | _ => rev cur :: split_words t [] end
      else split_words t (b :: cur)
  end.
Definition split_ws (s : str) : list str := l2s <$> split_words (s2l s) [].

(** [s.partition(c)] for one character: the part before it, whether it occurs,
    and the part after it. *)
Fixpoint partition_b (c : byte) (l : bytes) : bytes * bool * bytes :=
  match l with
  | [] => ([], false, [])
  | b :: t =>
      if b2z b =? b2z c then ([], true, t)
      else let '(x, f, y) := partition_b c t in (b :: x, f, y)
  end.

(** [l.find(pat)], and [l.split(pat)] for a non-empty [pat]; each piece takes bytes
    from [l], so its length is enough fuel. *)
Fixpoint find_b (pat l : bytes) : option nat :=
  if bool_decide (take (length pat) l = pat) then Some 0%nat
  else match l with [] => None | _ :: t => S <$> find_b pat t end.
Fixpoint split_fuel (fuel : nat) (pat l : bytes) : list bytes :=
  match fuel with
  | O => [l]
  | S fuel' =>
      match find_b pat l with
      | None => [l]
      | Some i => take i l :: split_fuel fuel' pat (drop (i + length pat) l)
      end
  end.
Definition split_b (pat l : bytes) : list bytes := split_fuel (length l) pat l.

(** [s.lower()] on code points below 256. *)
Definition lower_b (b : byte) : byte :=
  let z := b2z b in
  if ((65 <=? z) && (z <=? 90)) || ((192 <=? z) && (z <=? 222) && negb (z =? 215)) then z2b (z + 32) else b.
Definition lower (s : str) : str := l2s (lower_b <$> s2l s).

Definition startswith (p l : bytes) : bool := bool_decide (take (length p) l = p).
Definition endswith (p l : bytes) : bool := bool_decide (drop (length l - length p) l = p).

(** [data.decode("ascii", "replace")]: U+FFFD, which [str] does not have, is
    stood for by U+00FF; neither is ASCII, white space or a digit. *)
Definition decode_ascii_replace (l : bytes) : str :=
  l2s ((fun b => if is_ascii b then b else z2b 255) <$> l).

(** The truth of an argument that may be absent. *)
Definition given (x : option str) : option str := match x with Some EmptyString => None | _ => x end.

(** * Paths *)

(** [os.path.join] with a relative name that has no slash at its start, and
    [os.path.basename]. *)
Definition dir_prefix (dir : str) : str :=
  match last (s2l dir) with None => "" | Some b => if decide (b = "/"%byte) then dir else dir +:+ "/" end.
Definition path_join (dir name : str) : str := dir_prefix dir +:+ name.

Fixpoint until_slash (l : bytes) : bytes :=
  match l with [] => [] | b :: l => if decide (b = "/"%byte) then [] else b :: until_slash l end.
Definition basename (path : str) : str := l2s (rev (until_slash (rev (s2l path)))).

(** * base64 *)

Definition b64_char (v : Z) : byte :=
  z2b (if v <? 26 then 65 + v else if v <? 52 then 71 + v else if v <? 62 then v - 4
       else if v =? 62 then 43 else 47).
Definition b64_val (b : byte) : option Z :=
  let z := b2z b in
  if (65 <=? z) && (z <=? 90) then Some (z - 65)
  else if (97 <=? z) && (z <=? 122) then Some (z - 71)
  else if (48 <=? z) && (z <=? 57) then Some (z + 4)
  else if z =? 43 then Some 62 else if z =? 47 then Some 63 else None.

Definition b64_pad : byte := "="%byte.

Fixpoint b64encode (l : bytes) : bytes :=
  match l with
  | a :: b :: c :: t =>
      let x := b2z a * 65536 + b2z b * 256 + b2z c in
      b64_char (x / 262144) :: b64_char (x / 4096 mod 64) :: b64_char (x / 64 mod 64) :: b64_char (x mod 64)
      :: b64encode t
  | [a; b] =>
      let x := b2z a * 65536 + b2z b * 256 in
      [b64_char (x / 262144); b64_char (x / 4096 mod 64); b64_char (x / 64 mod 64); b64_pad]
  | [a] => let x := b2z a * 65536 in [b64_char (x / 262144); b64_char (x / 4096 mod 64); b64_pad; b64_pad]
  | [] => []
  end.

(** The sextets [a2b_base64] collects, and the bytes they hold: a last group of
    two needs two pad characters, one of three needs one. *)
Fixpoint b64_groups (vs : list Z) (pads : nat) : res bytes :=
  match vs with
  | a :: b :: c :: d :: t =>
      let x := a * 262144 + b * 4096 + c * 64 + d in
      r ← b64_groups t pads; Ok (z2b (x / 65536) :: z2b (x / 256) :: z2b x :: r)
  | [a; b; c] =>
      if decide (1 <= pads)%nat then
        let x := a * 4096 + b * 64 + c in Ok [z2b (x / 1024); z2b (x / 4)]
      else Raise ValueError
  | [a; b] => if decide (2 <= pads)%nat then Ok [z2b ((a * 64 + b) / 16)] else Raise ValueError
  | [_] => Raise ValueError
  | [] => Ok []
  end.

(** The match of [\[A-Za-z0-9+/\]*={0,2}] against the whole text. *)
Fixpoint b64_scan (l : bytes) : list Z * bytes :=
  match l with
  | b :: t => match b64_val b with Some v => let '(vs, r) := b64_scan t in (v :: vs, r) | None => ([], l) end
  | [] => ([], [])
  end.
Definition b64decode_validate (l : bytes) : res bytes :=
  let '(vs, r) := b64_scan l in
  if decide (r = replicate (length r) b64_pad /\ (length r <= 2)%nat) then b64_groups vs (length r)
  else Raise ValueError.

(** * SHA-1 *)

Definition w32 (z : Z) : Z := z mod 4294967296.
Definition rotl (n z : Z) : Z := w32 (Z.lor (Z.shiftl z n) (Z.shiftr z (32 - n))).

Definition sha1_pad (l : bytes) : bytes :=
  l ++ z2b 128 :: replicate (Z.to_nat ((55 - zlen l) mod 64)) (z2b 0) ++ be_bytes 8 (8 * zlen l).

Definition block_words (l : bytes) : list Z :=
  (fun i => be_val (slice (4 * i) (4 * i + 4) l)) <$> seq 0 16.

(** The message schedule, newest word first. *)
Definition schedule_step (ws : list Z) : list Z :=
  let at_ n := nth n ws 0 in
  rotl 1 (Z.lxor (Z.lxor (at_ 2%nat) (at_ 7%nat)) (Z.lxor (at_ 13%nat) (at_ 15%nat))) :: ws.
Definition sha1_schedule (block : bytes) : list Z := rev (Nat.iter 64 schedule_step (rev (block_words block))).

Definition sha1_round (t : Z) (w : Z) (s : Z * Z * Z * Z * Z) : Z * Z * Z * Z * Z :=
  let '(a, b, c, d, e) := s in
  let '(f, k) :=
    if t <? 20 then (Z.lor (Z.land b c) (Z.land (4294967295 - b) d), 1518500249)
    else if t <? 40 then (Z.lxor (Z.lxor b c) d, 1859775393)
    else if t <? 60 then (Z.lor (Z.lor (Z.land b c) (Z.land b d)) (Z.land c d), 2400959708)
    else (Z.lxor (Z.lxor b c) d, 3395469782) in
  (w32 (rotl 5 a + f + e + k + w), a, rotl 30 b, c, d).

Fixpoint sha1_rounds (t : Z) (ws : list Z) (s : Z * Z * Z * Z * Z) : Z * Z * Z * Z * Z :=
  match ws with [] => s | w :: ws => sha1_rounds (t + 1) ws (sha1_round t w s) end.

Definition sha1_block (s : Z * Z * Z * Z * Z) (block : bytes) : Z * Z * Z * Z * Z :=
  let '(a, b, c, d, e) := s in
  let '(a', b', c', d', e') := sha1_rounds 0 (sha1_schedule block) s in
  (w32 (a + a'), w32 (b + b'), w32 (c + c'), w32 (d + d'), w32 (e + e')).

Fixpoint sha1_blocks (n : nat) (l : bytes) (s : Z * Z * Z * Z * Z) : Z * Z * Z * Z * Z :=
  match n with O => s | S n' => sha1_blocks n' (drop 64 l) (sha1_block s (take 64 l)) end.

Definition sha1 (l : bytes) : bytes :=
  let p := sha1_pad l in
  let '(a, b, c, d, e) :=
    sha1_blocks (length p / 64) p (1732584193, 4023233417, 2562383102, 271733878, 3285377520) in
  be_bytes 4 a ++ be_bytes 4 b ++ be_bytes 4 c ++ be_bytes 4 d ++ be_bytes 4 e.

(** * json.dumps(obj, sort_keys=True) *)

(** The objects the web server sends; a float is given by its [repr]. *)
Inductive json : Type :=
| JNull | JBool (b : bool) | JFloat (repr : bytes) | JInt (z : Z) | JStr (s : str) | JList (l : list json) | JObj (items : list (str * json)).

Definition hex_digit (z : Z) : byte := z2b (if z <? 10 then 48 + z else 87 + z).

(** [ensure_ascii]: everything outside space..tilde is escaped. *)
Definition json_char (b : byte) : bytes :=
  let z := b2z b in
  let esc (c : Z) := [z2b 92; z2b c] in
  if (z =? 34) || (z =? 92) then esc z
  else if z =? 10 then esc 110 else if z =? 13 then esc 114 else if z =? 9 then esc 116
  else if z =? 12 then esc 102 else if z =? 8 then esc 98
  else if (32 <=? z) && (z <=? 126) then [b]
  else esc 117 ++ [z2b 48; z2b 48; hex_digit (z / 16); hex_digit (z mod 16)].
Definition json_str (s : str) : bytes := z2b 34 :: concat (json_char <$> s2l s) ++ [z2b 34].

Definition join (sep : bytes) (ls : list bytes) : bytes :=
  match ls with [] => [] | x :: ls => x ++ concat ((fun y => sep ++ y) <$> ls) end.

Definition key_le (x y : str * bytes) : Prop := String.leb x.1 y.1 = true.
#[export] Instance key_le_dec x y : Decision (key_le x y) := decide (String.leb x.1 y.1 = true).

Fixpoint dumps (j : json) : bytes :=
  match j with
  | JNull => s2l "null"
  | JBool b => s2l (if b then "true" else "false")
  | JFloat r => r
  | JInt z => py_str_b z
  | JStr s => json_str s
  | JList l => s2l "[" ++ join (s2l ", ") (dumps <$> l) ++ s2l "]"
  | JObj items =>
      s2l "{" ++
      join (s2l ", ")
        ((fun kv => json_str kv.1 ++ s2l ": " ++ kv.2)
         <$> merge_sort key_le ((fun kv => (kv.1, dumps kv.2)) <$> items)) ++
      s2l "}"
  end.

Example sha1_abc : sha1 (s2l "abc") = be_bytes 20 968236873715988614170569073515315707566766479517.
Proof. vm_compute. reflexivity. Qed.

Example dumps_example :
  dumps (JObj [("sub", JStr "a/b"); ("n", JList [JInt (-5); JNull])]) = s2l "{" ++ json_str "n" ++ s2l ": [-5, null], "
    ++ json_str "sub" ++ s2l ": " ++ json_str "a/b" ++ s2l "}".
Proof. vm_compute. reflexivity. Qed.

(** * Lemmas *)

Lemma b64_val_char v : 0 <= v < 64 -> b64_val (b64_char v) = Some v.
Proof.
  intros Hv. assert (forallb (fun n => bool_decide (b64_val (b64_char (Z.of_nat n)) = Some (Z.of_nat n))) (seq 0 64) = true) as H
    by (vm_compute; reflexivity).
  rewrite forallb_forall in H. specialize (H (Z.to_nat v)).
  rewrite in_seq, bool_decide_eq_true in H. rewrite Z2Nat.id in H by lia. apply H. lia.
Qed.

Lemma b64_scan_cons v l : 0 <= v < 64 ->
  b64_scan (b64_char v :: l) = let '(vs, r) := b64_scan l in (v :: vs, r).
Proof. intros H. cbn [b64_scan]. by rewrite b64_val_char. Qed.

Lemma z2b_eq z b : z mod 256 = b2z b -> z2b z = b.
Proof. intros H. apply b2z_inj. by rewrite b2z_z2b. Qed.

Lemma b64_scan_encode l : forall (n := length l), exists vs p,
  b64_scan (b64encode l) = (vs, replicate p b64_pad) /\ (p <= 2)%nat /\ b64_groups vs p = Ok l.
Proof.
  intros n. assert (exists k, length l <= k)%nat as [k Hk] by by eexists. clear n. revert l Hk.
  induction k as [|k IH]; intros l Hk.
  { destruct l; [|cbn in Hk; lia]. exists [], 0%nat. repeat split; lia. }
  pose proof b2z_range as R.
  destruct l as [|a [|b [|c t]]].
  - exists [], 0%nat. repeat split; lia.
  - pose proof (R a). cbn [b64encode]. eexists _, 2%nat.
    rewrite !b64_scan_cons by dlia. change (b64_scan [b64_pad; b64_pad]) with (@nil Z, replicate 2 b64_pad). split; [reflexivity|]. split; [lia|].
    cbn [b64_groups]. rewrite decide_True by lia. do 2 f_equal. apply z2b_eq. dlia.
  - pose proof (R a); pose proof (R b). cbn [b64encode]. eexists _, 1%nat.
    rewrite !b64_scan_cons by dlia. change (b64_scan [b64_pad]) with (@nil Z, replicate 1 b64_pad). split; [reflexivity|]. split; [lia|].
    cbn [b64_groups]. rewrite decide_True by lia. f_equal. f_equal; [|f_equal]; apply z2b_eq; dlia.
  - pose proof (R a); pose proof (R b); pose proof (R c).
    destruct (IH t) as (vs & p & E1 & Hp & E2); [cbn in Hk; lia|].
    cbn [b64encode]. eexists _, p. rewrite !b64_scan_cons by dlia. rewrite E1. split; [reflexivity|]. split; [done|].
    cbn [b64_groups]. rewrite E2. cbn [mbind res_bind]. f_equal. repeat f_equal; apply z2b_eq; dlia.
Qed.

Lemma b64_roundtrip l : b64decode_validate (b64encode l) = Ok l.
Proof.
  unfold b64decode_validate. destruct (b64_scan_encode l) as (vs & p & -> & Hp & E).
  rewrite length_replicate, decide_True by done. done.
Qed.

(** Lines joined by line feeds split back. *)
Lemma split_lines_line l t cur : forallb (fun b => negb (is_eol b)) l = true ->
  split_lines (l ++ z2b 10 :: t) cur = rev (rev l ++ cur) :: split_lines t [].
Proof.
  revert cur. induction l as [|b l IH]; intros cur Hl; cbn [app forallb] in *.
  - cbn [split_lines]. change (is_eol (z2b 10)) with true. cbn iota. f_equal.
    destruct t; [done|]. reflexivity.
  - apply andb_true_iff in Hl as [Hb Hl]. cbn [split_lines]. rewrite (proj1 (negb_true_iff _) Hb).
    rewrite IH by done. f_equal. f_equal. cbn [rev]. by rewrite <- app_assoc.
Qed.

Lemma split_lines_all ls : Forall (fun l => forallb (fun b => negb (is_eol b)) l = true) ls ->
  split_lines (concat ((fun l => l ++ [z2b 10]) <$> ls)) [] = ls.
Proof.
  induction 1 as [|l ls Hl _ IH]; [done|]. cbn [fmap list_fmap concat].
  rewrite <- app_assoc. cbn [app]. rewrite split_lines_line by done.
  rewrite app_nil_r, rev_involutive. by f_equal.
Qed.

(** Words joined by single spaces split back. *)
Definition solid (l : bytes) : bool := forallb (fun b => negb (is_ws b)) l && negb (bool_decide (l = [])).

Lemma split_words_cur w t cur : forallb (fun b => negb (is_ws b)) w = true ->
  split_words (w ++ t) cur = split_words t (rev w ++ cur).
Proof.
  revert cur. induction w as [|b w IH]; intros cur Hw; [done|]. cbn in Hw. apply andb_true_iff in Hw as [Hb Hw].
  cbn [app split_words]. apply negb_true_iff in Hb. rewrite Hb, IH by done. cbn. by rewrite <- app_assoc.
Qed.

Lemma split_words_end w : solid w = true -> split_words [] (rev w) = [w].
Proof.
  unfold solid. intros [_ Hn]%andb_true_iff. apply negb_true_iff, bool_decide_eq_false in Hn. cbn.
  destruct (rev w) as [|b r] eqn:E; [apply (f_equal (@rev byte)) in E; by rewrite rev_involutive in E|].
  by rewrite <- E, rev_involutive.
Qed.

Lemma split_words_join ws : Forall (fun w => solid w = true) ws -> split_words (join [z2b 32] ws) [] = ws.
Proof.
  intros H. destruct H as [|w ws Hw H]; [done|]. unfold join. revert w Hw.
  induction H as [|w' ws Hw' _ IH]; intros w Hw; pose proof Hw as [Hn Hne]%andb_true_iff.
  - cbn [fmap list_fmap concat]. rewrite split_words_cur by done. rewrite app_nil_r. by apply split_words_end.
  - rewrite split_words_cur by done. rewrite app_nil_r. cbn [fmap list_fmap concat app split_words].
    change (is_ws (z2b 32)) with true. cbn iota.
    apply negb_true_iff, bool_decide_eq_false in Hne.
    destruct (rev w) as [|b r] eqn:E; [apply (f_equal (@rev byte)) in E; by rewrite rev_involutive in E|].
    rewrite <- E, rev_involutive. f_equal. by apply IH.
Qed.

Lemma partition_b_app c k v : forallb (fun b => negb (b2z b =? b2z c)) k = true ->
  partition_b c (k ++ c :: v) = (k, true, v).
Proof.
  induction k as [|b k IH]; cbn; [by rewrite Z.eqb_refl|]. intros [Hb Hk]%andb_true_iff.
  apply negb_true_iff in Hb. by rewrite Hb, IH.
Qed.

Lemma ws_eol b : is_ws b = false -> is_eol b = false.
Proof. unfold is_ws, is_eol. lia. Qed.

Lemma dec_bytes_solid z : 0 <= z -> solid (py_str_b z) = true /\ forallb is_ascii (py_str_b z) = true.
Proof.
  intros Hz. unfold py_str_b. destruct (Z.ltb_spec z 0); [lia|]. pose proof (dec_bytes_digits z Hz) as Hd. split.
  - apply andb_true_iff. split.
    + eapply forallb_impl; [|exact Hd]. intros b Hb. by rewrite is_dec_not_ws.
    + apply negb_true_iff, bool_decide_eq_false, dec_bytes_nonempty.
  - eapply forallb_impl; [|exact Hd]. apply is_dec_ascii.
Qed.

(** The alphabet of base64. *)
Definition is_b64 (b : byte) : bool := bool_decide (is_Some (b64_val b)) || bool_decide (b = b64_pad).

Lemma is_b64_char v : 0 <= v < 64 -> is_b64 (b64_char v) = true.
Proof. intros Hv. unfold is_b64. rewrite b64_val_char by done. done. Qed.

Lemma b64encode_chars l : forallb is_b64 (b64encode l) = true.
Proof.
  assert (exists k, length l <= k)%nat as [k Hk] by by eexists. revert l Hk.
  induction k as [|k IH]; intros l Hk; [by destruct l; cbn in Hk; [|lia]|].
  pose proof b2z_range as R.
  destruct l as [|a [|b [|c t]]]; [done|pose proof (R a)|pose proof (R a); pose proof (R b)|
    pose proof (R a); pose proof (R b); pose proof (R c)];
    cbn [b64encode forallb]; rewrite ?is_b64_char by dlia; [done..|]. cbn [andb]. apply IH. cbn in Hk. lia.
Qed.

Lemma is_b64_plain b : is_b64 b = true -> is_ascii b = true /\ is_ws b = false /\ b2z b <> 46.
Proof.
  intros H. assert (b2z b = 61 \/ 48 <= b2z b <= 57 \/ 65 <= b2z b <= 90 \/ 97 <= b2z b <= 122 \/ b2z b = 43 \/ b2z b = 47) as Hb.
  { unfold is_b64 in H. apply orb_true_iff in H as [H%bool_decide_eq_true|H%bool_decide_eq_true]; [|subst; by left].
    destruct H as [v Hv]. unfold b64_val in Hv. repeat case_match; try done; lia. }
  unfold is_ascii, is_ws. lia.
Qed.

Lemma b64encode_nonempty l : l <> [] -> b64encode l <> [].
Proof. by destruct l as [|a [|b [|c t]]]. Qed.

(** Bytes that stay in one word of a line. *)
Definition plain_b (b : byte) : bool := is_ascii b && negb (is_ws b).

Lemma plain_solid l : forallb plain_b l = true -> l <> [] -> solid l = true.
Proof.
  intros H Hn. apply andb_true_iff. split; [|by apply negb_true_iff, bool_decide_eq_false].
  eapply forallb_impl; [|exact H]. by intros b [_ Hb]%andb_true_iff.
Qed.

Lemma plain_py_str z : 0 <= z -> forallb plain_b (py_str_b z) = true.
Proof.
  intros Hz. destruct (dec_bytes_solid z Hz) as [[H1 _]%andb_true_iff H2].
  apply forallb_forall. intros b Hb. rewrite forallb_forall in H1, H2. unfold plain_b. by rewrite H1, H2.
Qed.

(** ** find and split *)

Lemma find_b_hit pat l : take (length pat) l = pat -> find_b pat l = Some 0%nat.
Proof. intros H. destruct l; cbn [find_b]; by rewrite bool_decide_true. Qed.

Lemma find_b_miss pat b t : take (length pat) (b :: t) <> pat -> find_b pat (b :: t) = S <$> find_b pat t.
Proof. intros H. cbn [find_b]. by rewrite bool_decide_false. Qed.

Lemma find_b_app pat l j : pat <> [] -> find_b pat l = Some j ->
  (j + length pat <= length l)%nat /\ forall t, find_b pat (l ++ t) = Some j.
Proof.
  intros Hp. revert j. induction l as [|b l IH]; intros j H.
  - cbn in H. case_bool_decide as E; [|done]. destruct pat; [done|]. by destruct (length _).
  - cbn [find_b] in H. case_bool_decide as E.
    + injection H as <-. split.
      * apply (f_equal length) in E. rewrite length_take in E. cbn in *. lia.
      * intros t. apply find_b_hit. rewrite take_app_le; [done|].
        apply (f_equal length) in E. rewrite length_take in E. cbn in *. lia.
    + destruct (find_b pat l) as [k|]; [|done]. injection H as <-. destruct (IH k eq_refl) as [H1 H2].
      split; [cbn; lia|]. intros t. cbn [app]. rewrite find_b_miss; [by rewrite H2|].
      intros E'. apply E. transitivity (take (length pat) ((b :: l) ++ t)); [|exact E'].
      by rewrite take_app_le by (cbn; lia).
Qed.

(** Not found before all of the first occurrence is there. *)
Lemma find_b_prefix pat p t j : pat <> [] -> find_b pat (p ++ t) = Some j -> (length p < j + length pat)%nat ->
  find_b pat p = None.
Proof.
  intros Hp Hf Hl. destruct (find_b pat p) as [k|] eqn:E; [|done].
  destruct (find_b_app pat p k Hp E) as [H1 H2]. rewrite H2 in Hf. injection Hf as ->. lia.
Qed.

(** A piece without the first byte of the pattern is skipped. *)
Lemma find_b_skip c pat l t : c ∉ l -> find_b (c :: pat) (l ++ t) = (fun j => length l + j)%nat <$> find_b (c :: pat) t.
Proof.
  induction l as [|b l IH]; intros Hc; [cbn [app length]; by destruct (find_b (c :: pat) t)|].
  apply not_elem_of_cons in Hc as [Hb Hc]. cbn [app]. rewrite find_b_miss.
  - rewrite IH by done. by destruct (find_b (c :: pat) t).
  - cbn. congruence.
Qed.

Lemma find_b_none c pat l : c ∉ l -> find_b (c :: pat) l = None.
Proof. intros Hc. rewrite <- (app_nil_r l). by rewrite find_b_skip. Qed.

Lemma split_fuel_join c pat l ls fuel : Forall (fun l => c ∉ l) (l :: ls) -> (length ls <= fuel)%nat ->
  split_fuel fuel (c :: pat) (join (c :: pat) (l :: ls)) = l :: ls.
Proof.
  revert fuel l. induction ls as [|l' ls IH]; intros fuel l [Hl Hls]%Forall_cons Hf.
  - cbn. rewrite app_nil_r. destruct fuel; cbn [split_fuel]; [done|]. by rewrite find_b_none.
  - destruct fuel as [|fuel]; [cbn in Hf; lia|]. cbn [split_fuel].
    assert (join (c :: pat) (l :: l' :: ls) = l ++ (c :: pat) ++ join (c :: pat) (l' :: ls)) as ->
      by (unfold join; cbn [fmap list_fmap concat]; by rewrite <- app_assoc).
    rewrite find_b_skip by done. rewrite find_b_hit by apply take_app_length. cbn [fmap option_fmap option_map].
    rewrite Nat.add_0_r, take_app_length. f_equal.
    rewrite app_assoc, drop_app_length' by by rewrite length_app. apply IH; [done|cbn in Hf; lia].
Qed.

Lemma join_length_ge sep l ls : sep <> [] -> (length ls <= length (join sep (l :: ls)))%nat.
Proof.
  intros Hs. unfold join. rewrite length_app. induction ls as [|l' ls IH]; [cbn; lia|].
  cbn [fmap list_fmap concat]. rewrite !length_app in *. cbn [length]. destruct sep; [done|]. cbn [length]. lia.
Qed.

Lemma split_b_join c pat l ls : Forall (fun l => c ∉ l) (l :: ls) ->
  split_b (c :: pat) (join (c :: pat) (l :: ls)) = l :: ls.
Proof. intros H. apply split_fuel_join; [done|]. by apply join_length_ge. Qed.

(** ** Paths *)

Lemma path_join_ne d d' n m : last (s2l n) <> last (s2l m) -> n <> "" -> m <> "" -> path_join d n <> path_join d' m.
Proof.
  intros Hl Hn Hm H%(f_equal s2l). unfold path_join in H. rewrite !s2l_cat in H. apply (f_equal last) in H. rewrite !last_app in H.
  destruct (last (s2l n)) as [a|] eqn:En; [|by apply last_None in En; destruct n].
  destruct (last (s2l m)) as [b|] eqn:Em; [|by apply last_None in Em; destruct m]. congruence.
Qed.

Lemma path_join_same d n m : n <> m -> path_join d n <> path_join d m.
Proof. intros Hn H%(f_equal s2l). unfold path_join in H. rewrite !s2l_cat in H. apply app_inv_head in H. by apply s2l_inj in H. Qed.

Lemma path_join_nonempty d n : n <> "" -> path_join d n <> "".
Proof. unfold path_join. by destruct (dir_prefix d), n. Qed.
