(* ===== verification/PyDict.v ===== *)
(** Insertion-ordered dictionaries: Python's [dict] (3.6 and later) and
    [OrderedDict] where the code iterates over them or prints them.

    A dictionary is the list of its items in insertion order.  Assigning an
    existing key keeps its place; deleting and assigning again moves it to the
    end. *)
From S2P Require Export Prelude.

Section dict.
  Context {K V : Type} `{EqDecision K}.

(** [d.get(k)] *)
Fixpoint dget (k : K) (d : list (K * V)) : option V :=
  match d with
  | [] => None
  | (k', v) :: d' => if decide (k = k') then Some v else dget k d'
  end.

(** [d\[k\] = v] *)
Fixpoint dset (k : K) (v : V) (d : list (K * V)) : list (K * V) :=
  match d with
  | [] => [(k, v)]
  | (k', v') :: d' => if decide (k = k') then (k', v) :: d' else (k', v') :: dset k v d'
  end.

(** [d.pop(k, None)] as far as the dictionary is concerned. *)
Fixpoint dremove (k : K) (d : list (K * V)) : list (K * V) :=
  match d with
  | [] => []
  | (k', v') :: d' => if decide (k = k') then d' else (k', v') :: dremove k d'
  end.

(** [del d\[k\]] *)
Definition ddel (k : K) (d : list (K * V)) : res (list (K * V)) :=
  match dget k d with
  | Some _ => Ok (dremove k d)
  | None => Raise KeyError
  end.

Definition dkeys (d : list (K * V)) : list K := d.*1.
Definition dvalues (d : list (K * V)) : list V := d.*2.

(** Sum of a measure of the values. *)
Definition dsum (f : V -> Z) (d : list (K * V)) : Z := zsum (f <$> dvalues d).

Implicit Types (d : list (K * V)) (k : K) (v : V).

Lemma dget_dset_eq k v d : dget k (dset k v d) = Some v.
Proof. induction d as [|[k' v'] d IH]; cbn; repeat (case_decide; cbn; subst); congruence. Qed.

Lemma dget_dset_ne k k' v d : k <> k' -> dget k' (dset k v d) = dget k' d.
Proof. intros. induction d as [|[k2 v2] d IH]; cbn; repeat (case_decide; cbn; subst); congruence. Qed.

Lemma dget_dset k k' v d : dget k' (dset k v d) = if decide (k = k') then Some v else dget k' d.
Proof. case_decide; subst; auto using dget_dset_eq, dget_dset_ne. Qed.

Lemma dget_None k d : dget k d = None <-> k ∉ dkeys d.
Proof.
  unfold dkeys. induction d as [|[k' v'] d IH]; cbn.
  - split; [intros _ H; by apply elem_of_nil in H|done].
  - rewrite elem_of_cons. case_decide; subst; naive_solver.
Qed.

Lemma dget_Some_elem k v d : dget k d = Some v -> (k, v) ∈ d.
Proof.
  induction d as [|[k' v'] d IH]; cbn; [done|].
  case_decide; [intros [= ->]; subst; left|right; auto].
Qed.

Lemma dget_Some_key k v d : dget k d = Some v -> k ∈ dkeys d.
Proof. intros H%dget_Some_elem. unfold dkeys. apply list_elem_of_fmap. by exists (k, v). Qed.

Lemma elem_dget k v d : NoDup (dkeys d) -> (k, v) ∈ d -> dget k d = Some v.
Proof.
  unfold dkeys. induction d as [|[k' v'] d IH]; cbn; intros Hnd Hin.
  - by apply elem_of_nil in Hin.
  - apply NoDup_cons in Hnd as [Hk Hnd]. apply elem_of_cons in Hin as [[= -> ->]|Hin].
    + by rewrite decide_True.
    + case_decide; [|auto]. subst. destruct Hk.
      apply list_elem_of_fmap. by exists (k', v).
Qed.

(** A new key goes to the end; an old one keeps its place. *)
Lemma dset_new k v d : dget k d = None -> dset k v d = d ++ [(k, v)].
Proof.
  induction d as [|[k' v'] d IH]; cbn; [done|].
  case_decide; [done|]. intros Hd. by rewrite IH.
Qed.

Lemma dkeys_dset_old k v v0 d : dget k d = Some v0 -> dkeys (dset k v d) = dkeys d.
Proof.
  unfold dkeys. induction d as [|[k' v'] d IH]; cbn; [done|].
  case_decide; cbn; [done|]. intros Hd. by rewrite IH.
Qed.

Lemma dset_id k v d : dget k d = Some v -> dset k v d = d.
Proof.
  induction d as [|[k' v'] d IH]; cbn; [done|].
  case_decide; [by intros [= ->]|]. intros Hd. by rewrite IH.
Qed.

Lemma dset_dset k v v' d : dset k v (dset k v' d) = dset k v d.
Proof. induction d as [|[k2 v2] d IH]; cbn; repeat (case_decide; cbn); congruence. Qed.

Lemma NoDup_dset k v d : NoDup (dkeys d) -> NoDup (dkeys (dset k v d)).
Proof.
  intros H. destruct (dget k d) eqn:E.
  - by erewrite dkeys_dset_old.
  - rewrite dset_new by done. unfold dkeys in *. rewrite fmap_app. apply NoDup_app.
    split_and!; [done| |cbn; apply NoDup_singleton].
    intros x Hx ->%list_elem_of_singleton. by apply dget_None in E.
Qed.

Lemma dremove_subset k d : dkeys (dremove k d) ⊆ dkeys d.
Proof.
  unfold dkeys. induction d as [|[k' v'] d IH]; cbn; [done|].
  case_decide; set_solver.
Qed.

Lemma NoDup_dremove k d : NoDup (dkeys d) -> NoDup (dkeys (dremove k d)).
Proof.
  unfold dkeys. induction d as [|[k' v'] d IH]; cbn; intros H; [done|].
  apply NoDup_cons in H as [Hk H]. case_decide; [done|]. cbn. constructor; [|auto].
  intros Hin. apply Hk. by apply (dremove_subset k d).
Qed.

Lemma dget_dremove_eq k d : NoDup (dkeys d) -> dget k (dremove k d) = None.
Proof.
  unfold dkeys. induction d as [|[k' v'] d IH]; cbn; intros H; [done|].
  apply NoDup_cons in H as [Hk H]. case_decide; subst; [by apply dget_None|].
  cbn. rewrite decide_False by done. auto.
Qed.

Lemma dget_dremove_ne k k' d : k <> k' -> dget k' (dremove k d) = dget k' d.
Proof.
  intros Hne. induction d as [|[k2 v2] d IH]; cbn; [done|].
  repeat (case_decide; cbn; subst); congruence.
Qed.

Lemma dget_dremove k k' d : NoDup (dkeys d) ->
  dget k' (dremove k d) = if decide (k = k') then None else dget k' d.
Proof. intros. case_decide; subst; auto using dget_dremove_eq, dget_dremove_ne. Qed.

Lemma ddel_Some k v d : dget k d = Some v -> ddel k d = Ok (dremove k d).
Proof. unfold ddel. by intros ->. Qed.

Lemma dvalues_elem k v d : dget k d = Some v -> v ∈ dvalues d.
Proof. intros H%dget_Some_elem. unfold dvalues. apply list_elem_of_fmap. by exists (k, v). Qed.

Lemma dsum_app f d1 d2 : dsum f (d1 ++ d2) = dsum f d1 + dsum f d2.
Proof. unfold dsum, dvalues. by rewrite !fmap_app, zsum_app. Qed.

Lemma dsum_cons f k v d : dsum f ((k, v) :: d) = f v + dsum f d.
Proof. done. Qed.

Lemma dsum_new f k v d : dget k d = None -> dsum f (dset k v d) = dsum f d + f v.
Proof. intros H. rewrite dset_new, dsum_app by done. unfold dsum at 2. cbn. lia. Qed.

Lemma dsum_old f k v v0 d : dget k d = Some v0 -> dsum f (dset k v d) = dsum f d - f v0 + f v.
Proof.
  induction d as [|[k' v'] d IH]; cbn [dget dset]; [done|].
  case_decide; [intros [= ->]|intros Hd]; rewrite !dsum_cons; [lia|]. rewrite IH by done. lia.
Qed.

Lemma dsum_dremove f k v d : dget k d = Some v -> dsum f (dremove k d) = dsum f d - f v.
Proof.
  induction d as [|[k' v'] d IH]; cbn [dget dremove]; [done|].
  case_decide; [intros [= ->]|intros Hd]; rewrite !dsum_cons; [lia|]. rewrite IH by done. lia.
Qed.

Lemma dsum_nonneg f d : (forall v, v ∈ dvalues d -> 0 <= f v) -> 0 <= dsum f d.
Proof.
  unfold dsum. induction (dvalues d) as [|v l IH]; cbn; intros H; [lia|].
  assert (0 <= f v) by (apply H; left). assert (0 <= zsum (f <$> l)) by (apply IH; intros; apply H; by right).
  unfold zsum in *. lia.
Qed.

Lemma dsum_ge f k v d :
  (forall v', v' ∈ dvalues d -> 0 <= f v') -> dget k d = Some v -> f v <= dsum f d.
Proof.
  induction d as [|[k' v'] d IH]; cbn [dget]; intros Hf H; [done|].
  rewrite dsum_cons. assert (0 <= f v') by (apply Hf; left).
  assert (forall v, v ∈ dvalues d -> 0 <= f v) as Hf' by (intros; apply Hf; by right).
  pose proof (dsum_nonneg f d Hf'). case_decide; [by injection H as ->; lia|].
  specialize (IH Hf' H). lia.
Qed.

(** Deleting never introduces a value. *)
Lemma dremove_elem k x d : x ∈ dremove k d -> x ∈ d.
Proof.
  induction d as [|[k' v'] d IH]; cbn; [done|]. case_decide; [by right|].
  rewrite !elem_of_cons. naive_solver.
Qed.

Lemma dset_elem k v x d : x ∈ dset k v d -> x = (k, v) \/ x ∈ d.
Proof.
  induction d as [|[k' v'] d IH]; cbn.
  - intros ->%list_elem_of_singleton. by left.
  - case_decide; subst; rewrite !elem_of_cons; naive_solver.
Qed.
End dict.

#[export] Hint Resolve NoDup_dset NoDup_dremove : py.
