(* ===== verification/PyBisect.v ===== *)
(** The [bisect] module: binary search in a sorted list, as CPython runs it, and
    the facts its callers rely on. *)
From S2P Require Export Prelude.

(** The loop [while lo < hi: mid = (lo + hi) // 2; ...] where [right mid] says the
    search continues to the right of [mid].  [fuel] bounds the iterations; the
    interval shrinks at each one, so [length l] is enough. *)
Fixpoint bisect_loop (right : Z -> bool) (l : list Z) (fuel lo hi : nat) : nat :=
  match fuel with
  | O => lo
  | S fuel' =>
      if (lo <? hi)%nat then
        let mid := ((lo + hi) / 2)%nat in
        if right (nth mid l 0) then bisect_loop right l fuel' (S mid) hi
        else bisect_loop right l fuel' lo mid
      else lo
  end.

(** [bisect_left(a, x)]: right of [mid] while [a\[mid\] < x]. *)
Definition bisect_left (l : list Z) (x : Z) : nat :=
  bisect_loop (fun a => a <? x) l (length l) 0 (length l).

(** [bisect_right(a, x)]: left of [mid] while [x < a\[mid\]]. *)
Definition bisect_right (l : list Z) (x : Z) : nat :=
  bisect_loop (fun a => negb (x <? a)) l (length l) 0 (length l).

(** [insort(a, x)], which inserts after the equal elements. *)
Definition insort (l : list Z) (x : Z) : list Z := insert_at (bisect_right l x) x l.

(** A position that splits [l] into a part satisfying [p] and a part that does not. *)
Definition split_at (p : Z -> bool) (l : list Z) (i : nat) : Prop :=
  (i <= length l)%nat /\
  Forall (fun a => p a = true) (take i l) /\ Forall (fun a => p a = false) (drop i l).

(** [p] holds on a prefix of [l]. *)
Definition prefix_pred (p : Z -> bool) (l : list Z) : Prop :=
  forall i j, (i <= j < length l)%nat -> p (nth j l 0) = true -> p (nth i l 0) = true.

Lemma bisect_loop_spec p l : prefix_pred p l ->
  forall fuel lo hi,
  (lo <= hi <= length l)%nat -> (hi - lo <= fuel)%nat ->
  (forall j, (j < lo)%nat -> p (nth j l 0) = true) ->
  (forall j, (hi <= j < length l)%nat -> p (nth j l 0) = false) ->
  let i := bisect_loop p l fuel lo hi in
  (i <= length l)%nat /\ (forall j, (j < i)%nat -> p (nth j l 0) = true) /\
  (forall j, (i <= j < length l)%nat -> p (nth j l 0) = false).
Proof.
  intros Hp fuel. induction fuel as [|f IH]; intros lo hi Hb Hf Hl Hr; cbn [bisect_loop].
  - split_and!; [lia|done|]. intros j Hj. apply Hr. lia.
  - destruct (Nat.ltb_spec lo hi) as [Hlt|Hge].
    2: { split_and!; [lia|done|]. intros j Hj. apply Hr. lia. }
    set (mid := ((lo + hi) / 2)%nat).
    assert (lo <= mid < hi)%nat as Hm.
    { unfold mid. split; [apply Nat.div_le_lower_bound|apply Nat.Div0.div_lt_upper_bound]; lia. }
    destruct (p (nth mid l 0)) eqn:Em.
    + apply IH; [lia|lia| |done]. intros j Hj. apply (Hp j mid); [lia|done].
    + apply IH; [lia|lia|done|]. intros j Hj. destruct (p (nth j l 0)) eqn:Ej; [|done].
      rewrite <- Em. symmetry. apply (Hp mid j); [lia|done].
Qed.

Lemma Forall_nth_take {P : Z -> Prop} l i :
  (forall j, (j < i)%nat -> (j < length l)%nat -> P (nth j l 0)) -> Forall P (take i l).
Proof.
  intros H. apply Forall_lookup_2. intros j x Hx.
  apply lookup_take_Some in Hx as [Hx Hj].
  pose proof (lookup_lt_Some _ _ _ Hx). apply (nth_lookup_Some _ _ 0) in Hx. subst. auto.
Qed.

Lemma Forall_nth_drop {P : Z -> Prop} l i :
  (forall j, (i <= j < length l)%nat -> P (nth j l 0)) -> Forall P (drop i l).
Proof.
  intros H. apply Forall_lookup_2. intros j x Hx. rewrite lookup_drop in Hx.
  pose proof (lookup_lt_Some _ _ _ Hx). apply (nth_lookup_Some _ _ 0) in Hx. subst.
  apply H. lia.
Qed.

Lemma bisect_split p l : prefix_pred p l ->
  split_at p l (bisect_loop p l (length l) 0 (length l)).
Proof.
  intros Hp. destruct (bisect_loop_spec p l Hp (length l) 0 (length l)) as (Hi & H1 & H2);
    [lia|lia|lia|lia|].
  split_and!; [done| |].
  - apply Forall_nth_take; auto.
  - by apply Forall_nth_drop.
Qed.

(** ** Sorted lists *)

Abbreviation sorted := (StronglySorted Z.lt).

Lemma sorted_nth l i j : sorted l -> (i < j < length l)%nat -> nth i l 0 < nth j l 0.
Proof.
  intros Hs; revert i j; induction Hs as [|x l Hs IH Hx]; intros i j Hij; cbn in Hij; [lia|].
  destruct i as [|i], j as [|j]; cbn; [lia| |lia|apply IH; lia].
  rewrite Forall_forall in Hx. apply Hx, nth_elem_of. lia.
Qed.

Lemma sorted_prefix (p : Z -> bool) l :
  sorted l -> (forall a b, a < b -> p b = true -> p a = true) -> prefix_pred p l.
Proof.
  intros Hs Hp i j Hij Hj. destruct (decide (i = j)) as [->|]; [done|].
  apply (Hp (nth i l 0) (nth j l 0)); [|done]. apply sorted_nth; [done|lia].
Qed.

Lemma bisect_left_split l x : sorted l -> split_at (fun a => a <? x) l (bisect_left l x).
Proof. intros Hs. apply bisect_split, sorted_prefix; [done|]. intros; zcases; lia. Qed.

Lemma bisect_right_split l x : sorted l -> split_at (fun a => negb (x <? a)) l (bisect_right l x).
Proof. intros Hs. apply bisect_split, sorted_prefix; [done|]. intros a b; zcases; cbn; lia. Qed.

Lemma sorted_app l1 l2 :
  sorted (l1 ++ l2) <-> sorted l1 /\ sorted l2 /\ forall a b, a ∈ l1 -> b ∈ l2 -> a < b.
Proof.
  induction l1 as [|x l1 IH]; cbn.
  - split; [intros H; split_and!; [constructor|done|set_solver]|naive_solver].
  - split.
    + intros H. apply StronglySorted_inv in H as [H Hx]. apply IH in H as (? & ? & Hc).
      rewrite Forall_app in Hx. destruct Hx as [Hx1 Hx2]. rewrite Forall_forall in Hx2.
      split_and!; [by constructor|done|]. intros a b [->|Ha]%elem_of_cons Hb; auto.
    + intros (H1 & H2 & Hc). apply StronglySorted_inv in H1 as [H1 Hx]. constructor.
      * apply IH. split_and!; [done|done|]. intros; apply Hc; [by right|done].
      * apply Forall_app. split; [done|]. rewrite Forall_forall. intros; apply Hc; [left|done].
Qed.

(** Inserting between a smaller prefix and a larger suffix keeps a list sorted. *)
Lemma insert_at_sorted l i x :
  sorted l -> Forall (fun a => a < x) (take i l) -> Forall (fun a => x < a) (drop i l) ->
  sorted (insert_at i x l).
Proof.
  intros Hs H1 H2. unfold insert_at. rewrite <- (take_drop i l) in Hs.
  rewrite Forall_forall in H1, H2. apply sorted_app in Hs as (Ha & Hb & Hc).
  apply sorted_app. split_and!; [done| |].
  - constructor; [done|]. rewrite Forall_forall. auto.
  - intros a b Ha' [->|Hb']%elem_of_cons; auto.
Qed.

Lemma insort_sorted l x : sorted l -> x ∉ l -> sorted (insort l x).
Proof.
  intros Hs Hx. destruct (bisect_right_split l x Hs) as (_ & H1 & H2).
  apply insert_at_sorted; [done| |].
  - rewrite Forall_forall in H1 |- *. intros a Ha. specialize (H1 a Ha).
    assert (a <> x) by (intros ->; apply Hx; rewrite <- (take_drop (bisect_right l x) l); apply elem_of_app; auto).
    zcases; cbn in *; [done|lia].
  - eapply Forall_impl; [exact H2|]. cbn. intros a. zcases; cbn; [lia|done].
Qed.

Lemma insort_elem l x y : y ∈ insort l x <-> y = x \/ y ∈ l.
Proof. apply insert_at_elem. Qed.

(** [bisect_left] finds an element that is there. *)
Lemma bisect_left_found l x : sorted l -> x ∈ l -> l !! bisect_left l x = Some x.
Proof.
  intros Hs Hx. destruct (bisect_left_split l x Hs) as (Hi & H1 & H2).
  rewrite <- (take_drop (bisect_left l x) l) in Hx. apply elem_of_app in Hx as [Hx|Hx].
  - rewrite Forall_forall in H1. specialize (H1 x Hx). cbn in H1. zcases; [lia|done].
  - destruct (drop (bisect_left l x) l) as [|y r] eqn:E; [by apply elem_of_nil in Hx|].
    assert (l !! bisect_left l x = Some y) as Hy.
    { rewrite <- (Nat.add_0_r (bisect_left l x)), <- lookup_drop, E. done. }
    rewrite Hy. f_equal. apply elem_of_cons in Hx as [->|Hx]; [done|].
    inversion H2 as [|? ? Hyx _]; subst. cbn in Hyx. zcases; [done|].
    rewrite <- (take_drop (bisect_left l x) l), E in Hs.
    apply sorted_app in Hs as (_ & Hs & _). inversion Hs as [|? ? _ Hall]; subst.
    rewrite Forall_forall in Hall. specialize (Hall x Hx). lia.
Qed.

Lemma sorted_delete l i : sorted l -> sorted (delete i l).
Proof.
  intros Hs. rewrite delete_take_drop. rewrite <- (take_drop i l) in Hs.
  apply sorted_app in Hs as (H1 & H2 & Hc). apply sorted_app. split_and!; [done| |].
  - destruct (drop i l) as [|y r] eqn:E.
    + replace (drop (S i) l) with (@nil Z); [constructor|].
      symmetry. apply drop_ge. apply (f_equal length) in E. rewrite length_drop in E. cbn in E. lia.
    + replace (drop (S i) l) with r; [by inversion H2|].
      replace (S i) with (i + 1)%nat by lia. by rewrite <- drop_drop, E.
  - intros a b Ha Hb. apply Hc; [done|].
    replace (S i) with (i + 1)%nat in Hb by lia. rewrite <- drop_drop in Hb.
    destruct (drop i l) as [|y r]; [by apply elem_of_nil in Hb|]. by right.
Qed.

(** Deleting the found element removes exactly that element. *)
Lemma delete_bisect_elem l x y :
  sorted l -> x ∈ l -> y ∈ delete (bisect_left l x) l <-> y <> x /\ y ∈ l.
Proof.
  intros Hs Hx. pose proof (bisect_left_found l x Hs Hx) as Hl.
  set (i := bisect_left l x) in *. pose proof (take_drop_middle l i x Hl) as E.
  rewrite delete_take_drop. rewrite <- E in Hs. apply sorted_app in Hs as (_ & H2 & Hc).
  inversion H2 as [|? ? _ Hall]; subst. rewrite Forall_forall in Hall.
  assert (y ∈ l <-> y ∈ take i l \/ y = x \/ y ∈ drop (S i) l) as ->.
  { rewrite <- E at 1. by rewrite elem_of_app, elem_of_cons. }
  rewrite elem_of_app. split; [|naive_solver].
  intros [H|H]; split; auto; intros ->.
  - specialize (Hc x x H ltac:(left)). lia.
  - specialize (Hall x H). lia.
Qed.

Lemma del_at_bisect l x : sorted l -> x ∈ l ->
  del_at (bisect_left l x) l = Ok (delete (bisect_left l x) l).
Proof.
  intros Hs Hx. unfold del_at. rewrite decide_True; [done|].
  apply lookup_lt_is_Some. rewrite bisect_left_found by done. by eexists.
Qed.

(** Two sorted lists with the same elements are equal. *)
Lemma sorted_ext l1 l2 : sorted l1 -> sorted l2 -> (forall x, x ∈ l1 <-> x ∈ l2) -> l1 = l2.
Proof.
  intros H1. revert l2. induction H1 as [|x l1 H1 IH Hx]; intros l2 H2 He.
  - destruct l2 as [|y l2]; [done|]. exfalso. apply (elem_of_nil (A := Z) y), He. left.
  - destruct H2 as [|y l2 H2 Hy].
    { exfalso. apply (elem_of_nil (A := Z) x), He. left. }
    rewrite Forall_forall in Hx, Hy.
    assert (x = y) as <-.
    { pose proof (proj1 (He x) ltac:(left)) as Ha. pose proof (proj2 (He y) ltac:(left)) as Hb.
      apply elem_of_cons in Ha as [|Ha]; [done|]. apply elem_of_cons in Hb as [|Hb]; [done|].
      specialize (Hx _ Hb). specialize (Hy _ Ha). lia. }
    f_equal. apply IH; [done|]. intros z. specialize (He z). rewrite !elem_of_cons in He.
    split; intros Hz.
    + destruct (proj1 He (or_intror Hz)) as [->|]; [|done]. specialize (Hx _ Hz). lia.
    + destruct (proj2 He (or_intror Hz)) as [->|]; [|done]. specialize (Hy _ Hz). lia.
Qed.
