(* ===== verification/Types.v ===== *)
(** jnxfeed/types.py: prices, sides, groups and states.

    Prices are raw integers in tenths of a yen. *)
From S2P Require Export PyBytes.

Definition NO_PRICE : Z := 0x7FFFFFFF.
Definition MAX_PRICE : Z := 0x7FFFFFFE.
Definition PRICE_DECIMALS : nat := 1.

Definition is_no_price (raw : Z) : bool := raw =? NO_PRICE.

(** ["{}.{}".format(raw // 10, raw % 10)]: floor division and remainder. *)
Definition price_to_str (raw : Z) : str :=
  if raw =? NO_PRICE then "-"
  else l2s (py_str_b (raw / 10) ++ "."%byte :: py_str_b (raw mod 10)).

(** [text.split(sep, 1)] where [sep] is one character. *)
Fixpoint split1 (sep : byte) (l : bytes) : option (bytes * bytes) :=
  match l with
  | [] => None
  | b :: t =>
      if decide (b = sep) then Some ([], t)
      else '(x, y) ← split1 sep t; Some (b :: x, y)
  end.

Definition price_from_str (text : str) : res Z :=
  let text := strip_b is_ws (s2l text) in
  if decide (text = ["-"%byte]) then Ok NO_PRICE
  else
    let '(bad, whole, frac) :=
      match split1 "."%byte text with
      | Some (whole, frac) =>
          (negb (Nat.eqb (length frac) PRICE_DECIMALS) || negb (isdigit (l2s frac)), whole, frac)
      | None => (false, text, ["0"%byte])
      end in
    if bad then Raise ValueError
    else if negb (isdigit (l2s whole)) then Raise ValueError
    else w ← py_int (l2s whole); f ← py_int (l2s frac); Ok (w * 10 + f).

Definition BUY : str := "B".
Definition SELL : str := "S".

Definition GROUP_JMARKET_DAY : str := "DAY".
Definition GROUP_JMARKET_NIGHT : str := "NGHT".
Definition GROUP_XMARKET : str := "DAYX".
Definition GROUP_UMARKET : str := "DAYU".
Definition GROUPS : list str :=
  [GROUP_JMARKET_DAY; GROUP_JMARKET_NIGHT; GROUP_XMARKET; GROUP_UMARKET].

Definition TRADING_STATE_TRADING : str := "T".
Definition TRADING_STATE_SUSPENDED : str := "V".
Definition DEFAULT_TRADING_STATE : str := TRADING_STATE_SUSPENDED.
Definition SHORT_SELL_UNRESTRICTED : str := "0".
Definition SHORT_SELL_RESTRICTED : str := "1".
Definition DEFAULT_SHORT_SELL_STATE : str := SHORT_SELL_UNRESTRICTED.

Definition EVENT_START_OF_MESSAGES : str := "O".
Definition EVENT_END_OF_MESSAGES : str := "C".

(** * Lemmas *)

Lemma split1_app sep x y : sep ∉ x -> split1 sep (x ++ sep :: y) = Some (x, y).
Proof.
  induction x as [|b x IH]; cbn; intros H.
  - by rewrite decide_True.
  - apply not_elem_of_cons in H as [? ?]. rewrite decide_False by done. by rewrite IH.
Qed.

Lemma digits_not_elem b l : forallb is_dec l = true -> is_dec b = false -> b ∉ l.
Proof.
  intros H Hb Hin. rewrite forallb_forall in H. rewrite H in Hb; [done|].
  by apply list_elem_of_In.
Qed.

Lemma py_str_b_nonneg z : 0 <= z -> py_str_b z = dec_bytes z.
Proof. intros. unfold py_str_b. destruct (Z.ltb_spec z 0); [lia|done]. Qed.

Lemma dec_bytes_small d : 0 <= d < 10 -> length (dec_bytes d) = 1%nat.
Proof.
  intros. pose proof (dec_bytes_length 1 d ltac:(lia) ltac:(lia)).
  pose proof (dec_bytes_nonempty d). destruct (dec_bytes d); [done|cbn in *; lia].
Qed.

(** The text [price_to_str] gives to a price is never stripped or the dash. *)
Lemma price_text_shape w d :
  forallb is_dec w = true -> w <> [] -> forallb is_dec d = true -> d <> [] ->
  strip_b is_ws (w ++ "."%byte :: d) = w ++ "."%byte :: d /\ w ++ "."%byte :: d <> ["-"%byte].
Proof.
  intros Hw Hwn Hd Hdn. split.
  - unfold strip_b. rewrite rstrip_id, lstrip_id; [done| |].
    + destruct w as [|b w]; [done|]. cbn in *. apply andb_true_iff in Hw as [Hb _].
      by rewrite is_dec_not_ws.
    + unfold no_trail. rewrite last_app_cons. pose proof (digits_no_trail d Hd) as H.
      unfold no_trail in H. destruct d as [|b d]; [done|]. exact H.
  - destruct w as [|b w]; [done|]. destruct w; by destruct d.
Qed.

Lemma price_roundtrip_pos raw : 0 <= raw -> raw <> NO_PRICE ->
  price_from_str (price_to_str raw) = Ok raw.
Proof.
  intros Hr Hn. unfold price_to_str. destruct (Z.eqb_spec raw NO_PRICE); [done|].
  assert (0 <= raw / 10) by (apply Z.div_pos; lia).
  pose proof (Z.mod_pos_bound raw 10 ltac:(lia)) as Hm.
  rewrite !py_str_b_nonneg by lia.
  set (w := dec_bytes (raw / 10)). set (d := dec_bytes (raw mod 10)).
  assert (forallb is_dec w = true) as Hw by (apply dec_bytes_digits; lia).
  assert (forallb is_dec d = true) as Hd by (apply dec_bytes_digits; lia).
  assert (w <> []) as Hwn by apply dec_bytes_nonempty.
  assert (d <> []) as Hdn by apply dec_bytes_nonempty.
  destruct (price_text_shape w d Hw Hwn Hd Hdn) as [Hs Hnd].
  unfold price_from_str. rewrite s2l_l2s, Hs, decide_False by done.
  rewrite split1_app by by apply (digits_not_elem "."%byte w Hw).
  rewrite !isdigit_dec by done. unfold d at 1. rewrite dec_bytes_small by done. cbn [negb orb Nat.eqb PRICE_DECIMALS].
  rewrite !py_int_dec by done. unfold w, d. cbn [mbind res_bind]. rewrite !dec_bytes_val by lia.
  f_equal. dlia.
Qed.

(** * Properties *)

(** Every raw price a 4-byte field can carry, and the sentinel, is printed as
    a text that parses back to it. *)
Theorem price_str_roundtrip raw : 0 <= raw -> price_from_str (price_to_str raw) = Ok raw.
Proof.
  intros Hr. destruct (decide (raw = NO_PRICE)) as [->|]; [reflexivity|].
  by apply price_roundtrip_pos.
Qed.

Lemma price_str_roundtrip_witness :
  0 <= 12345 /\ price_to_str 12345 = "1234.5" /\ price_from_str (price_to_str 12345) = Ok 12345.
Proof. split; [lia|]. split; [vm_compute; reflexivity|]. apply (price_str_roundtrip 12345). lia. Defined.

(** A negative raw value, such as the spread of a crossed book (-0.5 yen), is
    printed as the value one whole yen lower. *)
Theorem price_to_str_negative :
  price_to_str (-5) = "-1.5" /\ price_to_str (-10) = "-1.0".
Proof. by vm_compute. Qed.
