(* ===== verification/Itch.v ===== *)
(** jnxfeed/itch: the field tables ([schema.py]), the messages ([messages.py]) and
    the binary codec ([codec.py]).

    The codec is driven by the tables, as in the source: [STRUCTS] is computed from
    [SCHEMAS], and [decode] and [encode] walk a message's fields. *)
From S2P Require Export Types PyDict.

(** * schema.py *)

Inductive ftype : Type := NUM | ALPHA | PRICE.
Definition field : Type := (str * nat * ftype)%type.

#[export] Instance ftype_eq_dec : EqDecision ftype.
Proof. solve_decision. Defined.

Definition SCHEMAS : list (str * list field) := [
  ("T", [("seconds", 4%nat, NUM)]);
  ("S", [("ns", 4%nat, NUM); ("group", 4%nat, ALPHA); ("event", 1%nat, ALPHA)]);
  ("L", [("ns", 4%nat, NUM); ("tick_table_id", 4%nat, NUM); ("tick_size", 4%nat, NUM);
         ("price_start", 4%nat, PRICE)]);
  ("R", [("ns", 4%nat, NUM); ("orderbook_id", 4%nat, ALPHA); ("isin", 12%nat, ALPHA);
         ("group", 4%nat, ALPHA); ("round_lot", 4%nat, NUM); ("tick_table_id", 4%nat, NUM);
         ("price_decimals", 4%nat, NUM); ("upper_limit", 4%nat, PRICE);
         ("lower_limit", 4%nat, PRICE)]);
  ("H", [("ns", 4%nat, NUM); ("orderbook_id", 4%nat, ALPHA); ("group", 4%nat, ALPHA);
         ("state", 1%nat, ALPHA)]);
  ("Y", [("ns", 4%nat, NUM); ("orderbook_id", 4%nat, ALPHA); ("group", 4%nat, ALPHA);
         ("state", 1%nat, ALPHA)]);
  ("A", [("ns", 4%nat, NUM); ("order_number", 8%nat, NUM); ("side", 1%nat, ALPHA);
         ("qty", 4%nat, NUM); ("orderbook_id", 4%nat, ALPHA); ("group", 4%nat, ALPHA);
         ("price", 4%nat, PRICE)]);
  ("F", [("ns", 4%nat, NUM); ("order_number", 8%nat, NUM); ("side", 1%nat, ALPHA);
         ("qty", 4%nat, NUM); ("orderbook_id", 4%nat, ALPHA); ("group", 4%nat, ALPHA);
         ("price", 4%nat, PRICE); ("attribution", 4%nat, ALPHA); ("order_type", 1%nat, ALPHA)]);
  ("E", [("ns", 4%nat, NUM); ("order_number", 8%nat, NUM); ("executed_qty", 4%nat, NUM);
         ("match_number", 8%nat, NUM)]);
  ("D", [("ns", 4%nat, NUM); ("order_number", 8%nat, NUM)]);
  ("U", [("ns", 4%nat, NUM); ("orig_order_number", 8%nat, NUM);
         ("new_order_number", 8%nat, NUM); ("qty", 4%nat, NUM); ("price", 4%nat, PRICE)]);
  ("G", [("sequence_number", 8%nat, NUM)])
].

Definition MESSAGE_TYPES : list str := dkeys SCHEMAS.

Definition LENGTHS : list (str * nat) := [
  ("T", 5%nat); ("S", 10%nat); ("L", 17%nat); ("R", 45%nat); ("H", 14%nat); ("Y", 14%nat);
  ("A", 30%nat); ("F", 35%nat); ("E", 25%nat); ("D", 13%nat); ("U", 29%nat); ("G", 9%nat)
].

Definition payload_length (msg_type : str) : res nat :=
  fields ← of_option KeyError (dget msg_type SCHEMAS);
  Ok (foldr (fun (f : field) n => (f.1.2 + n)%nat) 0%nat fields).
Definition total_length (msg_type : str) : res nat :=
  n ← payload_length msg_type; Ok (S n).
Definition field_names (msg_type : str) : res (list str) :=
  fields ← of_option KeyError (dget msg_type SCHEMAS);
  Ok (map (fun f : field => f.1.1) fields).

(** * messages.py *)

(** One constructor per NamedTuple, the arguments in field order. *)
Inductive message : Type :=
| TimestampSeconds (seconds : Z)
| SystemEvent (ns : Z) (group event : str)
| PriceTickSize (ns tick_table_id tick_size price_start : Z)
| OrderbookDirectory (ns : Z) (orderbook_id isin group : str)
    (round_lot tick_table_id price_decimals upper_limit lower_limit : Z)
| TradingState (ns : Z) (orderbook_id group state : str)
| ShortSellRestriction (ns : Z) (orderbook_id group state : str)
| OrderAdded (ns order_number : Z) (side : str) (qty : Z) (orderbook_id group : str) (price : Z)
| OrderAddedWithAttributes (ns order_number : Z) (side : str) (qty : Z)
    (orderbook_id group : str) (price : Z) (attribution order_type : str)
| OrderExecuted (ns order_number executed_qty match_number : Z)
| OrderDeleted (ns order_number : Z)
| OrderReplaced (ns orig_order_number new_order_number qty price : Z)
| EndOfSnapshot (sequence_number : Z).

#[export] Instance message_eq_dec : EqDecision message.
Proof. solve_decision. Defined.

(** A decoded field, and any Python object handed to [encode] or [Market.apply]. *)
Inductive fval : Type := FInt (z : Z) | FStr (s : str).
Inductive pyobj : Type := OMsg (m : message) | OOther.

(** [MESSAGE_CLASSES] read from class to type char ([_CLASS_TO_TYPE]). *)
Definition type_char (m : message) : str :=
  match m with
  | TimestampSeconds _ => "T"
  | SystemEvent _ _ _ => "S"
  | PriceTickSize _ _ _ _ => "L"
  | OrderbookDirectory _ _ _ _ _ _ _ _ _ => "R"
  | TradingState _ _ _ _ => "H"
  | ShortSellRestriction _ _ _ _ => "Y"
  | OrderAdded _ _ _ _ _ _ _ => "A"
  | OrderAddedWithAttributes _ _ _ _ _ _ _ _ _ => "F"
  | OrderExecuted _ _ _ _ => "E"
  | OrderDeleted _ _ => "D"
  | OrderReplaced _ _ _ _ _ => "U"
  | EndOfSnapshot _ => "G"
  end.

(** Iterating over a NamedTuple. *)
Definition msg_fields (m : message) : list fval :=
  match m with
  | TimestampSeconds a => [FInt a]
  | SystemEvent a b c => [FInt a; FStr b; FStr c]
  | PriceTickSize a b c d => [FInt a; FInt b; FInt c; FInt d]
  | OrderbookDirectory a b c d e f g h i =>
      [FInt a; FStr b; FStr c; FStr d; FInt e; FInt f; FInt g; FInt h; FInt i]
  | TradingState a b c d => [FInt a; FStr b; FStr c; FStr d]
  | ShortSellRestriction a b c d => [FInt a; FStr b; FStr c; FStr d]
  | OrderAdded a b c d e f g => [FInt a; FInt b; FStr c; FInt d; FStr e; FStr f; FInt g]
  | OrderAddedWithAttributes a b c d e f g h i =>
      [FInt a; FInt b; FStr c; FInt d; FStr e; FStr f; FInt g; FStr h; FStr i]
  | OrderExecuted a b c d => [FInt a; FInt b; FInt c; FInt d]
  | OrderDeleted a b => [FInt a; FInt b]
  | OrderReplaced a b c d e => [FInt a; FInt b; FInt c; FInt d; FInt e]
  | EndOfSnapshot a => [FInt a]
  end.

(** [MESSAGE_CLASSES\[msg_type\]( *values )]. *)
Definition make_msg (msg_type : str) (values : list fval) : res message :=
  if decide (msg_type = "T") then
    match values with [FInt a] => Ok (TimestampSeconds a) | _ => Raise TypeError end
  else if decide (msg_type = "S") then
    match values with [FInt a; FStr b; FStr c] => Ok (SystemEvent a b c) | _ => Raise TypeError end
  else if decide (msg_type = "L") then
    match values with
    | [FInt a; FInt b; FInt c; FInt d] => Ok (PriceTickSize a b c d) | _ => Raise TypeError end
  else if decide (msg_type = "R") then
    match values with
    | [FInt a; FStr b; FStr c; FStr d; FInt e; FInt f; FInt g; FInt h; FInt i] =>
        Ok (OrderbookDirectory a b c d e f g h i) | _ => Raise TypeError end
  else if decide (msg_type = "H") then
    match values with
    | [FInt a; FStr b; FStr c; FStr d] => Ok (TradingState a b c d) | _ => Raise TypeError end
  else if decide (msg_type = "Y") then
    match values with
    | [FInt a; FStr b; FStr c; FStr d] => Ok (ShortSellRestriction a b c d) | _ => Raise TypeError end
  else if decide (msg_type = "A") then
    match values with
    | [FInt a; FInt b; FStr c; FInt d; FStr e; FStr f; FInt g] =>
        Ok (OrderAdded a b c d e f g) | _ => Raise TypeError end
  else if decide (msg_type = "F") then
    match values with
    | [FInt a; FInt b; FStr c; FInt d; FStr e; FStr f; FInt g; FStr h; FStr i] =>
        Ok (OrderAddedWithAttributes a b c d e f g h i) | _ => Raise TypeError end
  else if decide (msg_type = "E") then
    match values with
    | [FInt a; FInt b; FInt c; FInt d] => Ok (OrderExecuted a b c d) | _ => Raise TypeError end
  else if decide (msg_type = "D") then
    match values with [FInt a; FInt b] => Ok (OrderDeleted a b) | _ => Raise TypeError end
  else if decide (msg_type = "U") then
    match values with
    | [FInt a; FInt b; FInt c; FInt d; FInt e] => Ok (OrderReplaced a b c d e) | _ => Raise TypeError end
  else if decide (msg_type = "G") then
    match values with [FInt a] => Ok (EndOfSnapshot a) | _ => Raise TypeError end
  else Raise KeyError.

(** * codec.py *)

Definition _NUM_STRUCT_CODES : list (nat * code) :=
  [(1%nat, U 1); (2%nat, U 2); (4%nat, U 4); (8%nat, U 8)].

Definition _field_struct_code (f : field) : res code :=
  let '(_, size, ftype) := f in
  match ftype with
  | ALPHA => Ok (Sx size)
  | _ => of_option ValueError (dget size _NUM_STRUCT_CODES)
  end.

Definition _struct_format (msg_type : str) : res (list code) :=
  fields ← of_option KeyError (dget msg_type SCHEMAS); rmap _field_struct_code fields.

(** Evaluated at import time; the tables are constants, so it is a constant. *)
Definition STRUCTS : list (str * list code) :=
  match rmap (fun t => f ← _struct_format t; Ok (t, f)) MESSAGE_TYPES with
  | Ok l => l
  | Raise _ => []
  end.

(** The import-time self-check: [STRUCTS\[t\].size + 1 == total_length(t)]. *)
Definition structs_self_check : bool :=
  forallb (fun t =>
    match dget t STRUCTS, total_length t with
    | Some st, Ok n => Nat.eqb (calcsize st + 1) n
    | _, _ => false
    end) MESSAGE_TYPES.

Definition _decode_alpha (raw_bytes : bytes) : res str :=
  match decode_ascii raw_bytes with
  | Ok text => Ok (rstrip_spaces text)
  | Raise _ => Raise DecodeError
  end.

Definition decode_value (fv : field * sval) : res fval :=
  match fv with
  | ((_, _, ALPHA), VBytes raw) => FStr <$> _decode_alpha raw
  | ((_, _, ALPHA), VInt _) => Raise AttributeError
  | (_, VInt z) => Ok (FInt z)
  | (_, VBytes _) => Raise TypeError
  end.

Definition decode (buf : bytes) : res message :=
  match buf with
  | [] => Raise InvalidMessageLength
  | type_byte :: payload =>
      let msg_type := l2s [type_byte] in
      match dget msg_type STRUCTS with
      | None => Raise UnknownMessageType
      | Some st =>
          let expected_len := S (calcsize st) in
          if decide (length buf = expected_len) then
            raw_values ← struct_unpack Big st payload;
            fields ← of_option KeyError (dget msg_type SCHEMAS);
            values ← rmap decode_value (zip fields raw_values);
            make_msg msg_type values
          else Raise InvalidMessageLength
      end
  end.

Definition _encode_alpha (size : nat) (value : str) : res bytes :=
  data ← encode_ascii value;
  if (size <? length data)%nat then Raise AlphaFieldTooLong
  else Ok (data ++ replicate (size - length data) " "%byte).

Definition encode_value (fv : field * fval) : res sval :=
  match fv with
  | ((_, size, ALPHA), FStr s) => VBytes <$> _encode_alpha size s
  | ((_, _, ALPHA), FInt _) => Raise AttributeError
  | (_, FInt z) => Ok (VInt z)
  | (_, FStr _) => Raise StructError
  end.

Definition encode_msg (m : message) : res bytes :=
  let msg_type := type_char m in
  st ← of_option KeyError (dget msg_type STRUCTS);
  fields ← of_option KeyError (dget msg_type SCHEMAS);
  raw_values ← rmap encode_value (zip fields (msg_fields m));
  head ← encode_ascii msg_type;
  body ← struct_pack Big st raw_values;
  Ok (head ++ body).

Definition encode (msg : pyobj) : res bytes :=
  match msg with
  | OMsg m => encode_msg m
  | OOther => Raise UnknownMessageClass
  end.

(** ** Which messages the wire can carry *)

(** A field value that fits its wire field: integers below the field's width;
    alpha text in ASCII, not longer than the field, without trailing spaces. *)
Definition field_ok (f : field) (v : fval) : bool :=
  match f, v with
  | (_, size, ALPHA), FStr s =>
      forallb is_ascii (s2l s) && (length (s2l s) <=? size)%nat && no_trail is_sp (s2l s)
  | (_, _, ALPHA), FInt _ => false
  | (_, size, _), FInt z => (0 <=? z) && (z <? 256 ^ Z.of_nat size)
  | _, FStr _ => false
  end.

Definition msg_ok (m : message) : bool :=
  match dget (type_char m) SCHEMAS with
  | Some fields => forallb (fun fv => field_ok fv.1 fv.2) (zip fields (msg_fields m))
  | None => false
  end.

(** The wire type: what the first byte of a buffer must be, and how long it is. *)
Definition wire_length (msg_type : str) : option nat :=
  match total_length msg_type with Ok n => Some n | Raise _ => None end.

(** Every alpha field of a payload is ASCII. *)
Fixpoint alphas_ascii (fields : list field) (l : bytes) : bool :=
  match fields with
  | [] => true
  | (_, size, ft) :: fields' =>
      (match ft with ALPHA => forallb is_ascii (take size l) | _ => true end)
      && alphas_ascii fields' (drop size l)
  end.

(** * Lemmas *)

Lemma STRUCTS_ok : rmap (fun t => f ← _struct_format t; Ok (t, f)) MESSAGE_TYPES = Ok STRUCTS.
Proof. vm_compute. reflexivity. Qed.

(** The struct compiled for each row of [SCHEMAS]. *)
Definition codes_match (fields : list field) (st : list code) : Prop :=
  Forall2 (fun f c => _field_struct_code f = Ok c) fields st.

Lemma STRUCTS_SCHEMAS t :
  match dget t STRUCTS, dget t SCHEMAS with
  | Some st, Some fields => codes_match fields st
  | None, None => True
  | _, _ => False
  end.
Proof.
  let l := eval vm_compute in STRUCTS in change STRUCTS with l.
  unfold SCHEMAS, codes_match. cbn [dget].
  repeat (case_decide; [by repeat constructor|]). done.
Qed.

Lemma struct_code_size f c : _field_struct_code f = Ok c -> code_size c = f.1.2.
Proof.
  destruct f as [[name size] ft]. unfold _field_struct_code, _NUM_STRUCT_CODES, of_option. cbn [dget fst snd].
  destruct ft; intros Hc; repeat case_decide; simplify_eq; done.
Qed.

Lemma codes_match_calcsize fields st : codes_match fields st ->
  calcsize st = foldr (fun (f : field) n => (f.1.2 + n)%nat) 0%nat fields.
Proof.
  unfold calcsize. induction 1 as [|f c fields st Hc H IH]; cbn [foldr]; [done|].
  rewrite IH. f_equal. by apply struct_code_size.
Qed.

(** Number fields: the code is an unsigned integer of the field's size. *)
Lemma struct_code_num name size ft c :
  ft <> ALPHA -> _field_struct_code (name, size, ft) = Ok c -> c = U size.
Proof.
  unfold _field_struct_code, _NUM_STRUCT_CODES, of_option. cbn [dget].
  destruct ft; intros Hft Hc; [|done|]; repeat case_decide; simplify_eq; done.
Qed.

(** ** One field *)

Definition enc_ok (f : field) (c : code) (v : fval) : Prop :=
  exists raw b, encode_value (f, v) = Ok raw /\ sval_ok c raw /\
    pack_one Big c raw = Ok b /\ decode_value (f, raw) = Ok v.

Lemma encode_alpha_ok size s :
  forallb is_ascii (s2l s) = true -> (length (s2l s) <= size)%nat ->
  _encode_alpha size s = Ok (s2l s ++ replicate (size - length (s2l s)) " "%byte).
Proof.
  intros Ha Hl. unfold _encode_alpha, encode_ascii. rewrite Ha. cbn [mbind res_bind].
  by destruct (Nat.ltb_spec size (length (s2l s))); [lia|].
Qed.

Lemma decode_alpha_pad s n :
  forallb is_ascii (s2l s) = true -> no_trail is_sp (s2l s) = true ->
  _decode_alpha (s2l s ++ replicate n " "%byte) = Ok s.
Proof.
  intros Ha Ht. unfold _decode_alpha, decode_ascii.
  rewrite forallb_app, Ha, forallb_replicate by done. cbn.
  unfold rstrip_spaces. by rewrite s2l_l2s, rstrip_pad, l2s_s2l.
Qed.

Lemma field_encode_ok f c v :
  _field_struct_code f = Ok c -> field_ok f v = true -> enc_ok f c v.
Proof.
  destruct f as [[name size] ft]. intros Hc Hok. unfold enc_ok.
  destruct (decide (ft = ALPHA)) as [->|Hft].
  - destruct v as [|s]; [done|]. cbn in Hok. injection Hc as <-.
    apply andb_true_iff in Hok as [[Ha Hl%Nat.leb_le]%andb_true_iff Ht].
    cbn [encode_value]. rewrite encode_alpha_ok by done. cbn.
    do 2 eexists. split_and!; [done| |done|cbn [decode_value]; by rewrite decode_alpha_pad].
    cbn [sval_ok]. rewrite length_app, length_replicate. lia.
  - apply struct_code_num in Hc; [|done]. subst c.
    assert (exists z, v = FInt z /\ (0 <=? z) && (z <? 256 ^ Z.of_nat size) = true) as (z & -> & Hz).
    { destruct ft, v; try done; by eexists. }
    exists (VInt z). cbn [pack_one]. rewrite Hz. eexists.
    destruct ft; try done; split_and!; done.
Qed.

(** One field: decoding, then encoding. *)
Lemma field_decode_encode f c l v :
  _field_struct_code f = Ok c -> length l = code_size c ->
  decode_value (f, unpack_one Big c l) = Ok v ->
  encode_value (f, v) = Ok (unpack_one Big c l).
Proof.
  destruct f as [[name size] ft]. intros Hc Hl Hd.
  destruct (decide (ft = ALPHA)) as [->|Hft].
  - injection Hc as <-. cbn in *. inv_ok.
    unfold _decode_alpha, decode_ascii in Hr. destruct (forallb is_ascii l) eqn:Ha; [|done]. inv_ok.
    unfold rstrip_spaces. rewrite s2l_l2s. set (t := rstrip_b is_sp l).
    rewrite encode_alpha_ok; rewrite s2l_l2s.
    + cbn. subst t. by rewrite pad_rstrip.
    + by apply rstrip_forallb.
    + apply rstrip_length.
  - apply struct_code_num in Hc; [|done]. subst c. destruct ft; try done; cbn in *; by inv_ok.
Qed.

(** When decoding one field succeeds. *)
Lemma field_decode_ok f c l :
  _field_struct_code f = Ok c ->
  is_Ok (decode_value (f, unpack_one Big c l)) =
  match f.2 with ALPHA => forallb is_ascii l | _ => true end.
Proof.
  destruct f as [[name size] ft]. intros Hc. destruct (decide (ft = ALPHA)) as [->|Hft].
  - injection Hc as <-. cbn. unfold _decode_alpha, decode_ascii. by destruct (forallb is_ascii l).
  - apply struct_code_num in Hc; [|done]. subst c. by destruct ft.
Qed.

(** ** All the fields of a message *)

Lemma fields_encode_ok fields st vs :
  codes_match fields st -> length vs = length fields ->
  forallb (fun fv => field_ok fv.1 fv.2) (zip fields vs) = true ->
  exists raws b, rmap encode_value (zip fields vs) = Ok raws /\ Forall2 sval_ok st raws /\
    struct_pack Big st raws = Ok b /\ rmap decode_value (zip fields raws) = Ok vs.
Proof.
  intros Hm. revert vs. induction Hm as [|f c fields st Hc Hm IH]; intros [|v vs] Hl Hok; try done.
  - by exists [], [].
  - cbn in Hok. apply andb_true_iff in Hok as [Hv Hvs]. injection Hl as Hl.
    destruct (field_encode_ok f c v Hc Hv) as (raw & b & E1 & E2 & E3 & E4).
    destruct (IH vs Hl Hvs) as (raws & bs & F1 & F2 & F3 & F4).
    exists (raw :: raws), (b ++ bs). cbn [zip_with rmap struct_pack].
    rewrite E1, F1, E3, F3, E4, F4. split_and!; [done|by constructor|done|done].
Qed.

Lemma fields_decode_encode fields st l vs :
  codes_match fields st -> length l = calcsize st ->
  rmap decode_value (zip fields (unpack_fields Big st l)) = Ok vs ->
  length vs = length fields /\
  rmap encode_value (zip fields vs) = Ok (unpack_fields Big st l).
Proof.
  intros Hm. revert l vs. induction Hm as [|f c fields st Hc Hm IH]; intros l vs Hl H.
  - cbn in H. by inv_ok.
  - change (length l = (code_size c + calcsize st)%nat) in Hl.
    cbn [unpack_fields zip_with rmap] in H. inv_ok.
    apply IH in Hr0 as [Hlen E]; [|rewrite length_drop; lia].
    split; [cbn; lia|]. cbn [zip_with rmap unpack_fields].
    rewrite (field_decode_encode f c (take (code_size c) l)) by (done || (rewrite length_take; lia)).
    cbn. by rewrite E.
Qed.

Lemma fields_decode_is_ok fields st l :
  codes_match fields st ->
  is_Ok (rmap decode_value (zip fields (unpack_fields Big st l))) = alphas_ascii fields l.
Proof.
  intros Hm. revert l. induction Hm as [|f c fields st Hc Hm IH]; intros l; [done|].
  pose proof (field_decode_ok f c (take (code_size c) l) Hc) as Hf.
  rewrite (struct_code_size f c Hc) in Hf. destruct f as [[name size] ft]. cbn [fst snd] in Hf.
  cbn [unpack_fields zip_with rmap alphas_ascii]. rewrite (struct_code_size _ c Hc). cbn [fst snd].
  rewrite <- (IH (drop size l)), <- Hf.
  destruct (decode_value _) as [v|e]; cbn; [|done]. by destruct (rmap _ _).
Qed.

(** Every decode failure of a field is a [DecodeError]. *)
Lemma fields_decode_error fields st l e :
  codes_match fields st ->
  rmap decode_value (zip fields (unpack_fields Big st l)) = Raise e -> e = DecodeError.
Proof.
  intros Hm. revert l. induction Hm as [|f c fields st Hc Hm IH]; intros l H; [done|].
  cbn [unpack_fields zip_with rmap] in H. destruct f as [[name size] ft].
  destruct (decode_value _) as [v|e'] eqn:E; cbn in H.
  - destruct (rmap _ _) eqn:F; cbn in H; [done|]. injection H as <-. by eapply IH.
  - injection H as <-. destruct (decide (ft = ALPHA)) as [->|Hft].
    + injection Hc as <-. cbn in E. unfold _decode_alpha in E.
      destruct (decode_ascii _); cbn in E; congruence.
    + apply struct_code_num in Hc; [|done]. subst c. by destruct ft.
Qed.

Lemma field_decode_field_ok f c l v :
  _field_struct_code f = Ok c -> length l = code_size c ->
  decode_value (f, unpack_one Big c l) = Ok v -> field_ok f v = true.
Proof.
  destruct f as [[name size] ft]. intros Hc Hl Hd.
  destruct (decide (ft = ALPHA)) as [->|Hft].
  - injection Hc as <-. cbn in *. inv_ok.
    unfold _decode_alpha, decode_ascii in Hr. destruct (forallb is_ascii l) eqn:Ha; [|done]. inv_ok.
    unfold rstrip_spaces. rewrite !s2l_l2s, rstrip_no_trail, rstrip_forallb by done.
    pose proof (rstrip_length is_sp l) as Hle. apply Nat.leb_le in Hle. cbn. by rewrite Hle.
  - apply struct_code_num in Hc; [|done]. subst c. cbn in Hl.
    pose proof (be_val_range l) as Hr. unfold zlen in Hr. rewrite Hl in Hr.
    destruct ft; try done; cbn [decode_value unpack_one byte_order] in Hd; inv_ok;
      cbn [field_ok]; apply andb_true_iff; lia.
Qed.

Lemma fields_decode_fields_ok fields st l vs :
  codes_match fields st -> length l = calcsize st ->
  rmap decode_value (zip fields (unpack_fields Big st l)) = Ok vs ->
  forallb (fun fv => field_ok fv.1 fv.2) (zip fields vs) = true.
Proof.
  intros Hm. revert l vs. induction Hm as [|f c fields st Hc Hm IH]; intros l vs Hl H; [done|].
  change (length l = (code_size c + calcsize st)%nat) in Hl.
  cbn [unpack_fields zip_with rmap] in H. inv_ok. cbn [zip_with forallb fst snd].
  rewrite (IH (drop (code_size c) l) a0) by (done || (rewrite length_drop; lia)).
  erewrite field_decode_field_ok; [done|done| |done]. rewrite length_take. lia.
Qed.

(** ** Messages *)

Lemma make_msg_fields m : make_msg (type_char m) (msg_fields m) = Ok m.
Proof. by destruct m. Qed.

Lemma make_msg_inv t vs m : make_msg t vs = Ok m -> t = type_char m /\ vs = msg_fields m.
Proof.
  unfold make_msg. intros H.
  repeat (case_decide; [subst; repeat case_match; simplify_eq; done|]). done.
Qed.

Lemma type_char_one m : s2l (type_char m) <> [] /\ forallb is_ascii (s2l (type_char m)) = true
  /\ exists b, s2l (type_char m) = [b].
Proof. destruct m; (split_and!; [done|done|by eexists]). Qed.

Lemma type_char_tables m : exists st fields,
  dget (type_char m) STRUCTS = Some st /\ dget (type_char m) SCHEMAS = Some fields /\
  codes_match fields st /\ length (msg_fields m) = length fields.
Proof.
  pose proof (STRUCTS_SCHEMAS (type_char m)) as H.
  assert (exists fields, dget (type_char m) SCHEMAS = Some fields /\
    length (msg_fields m) = length fields) as (fields & E & Hl).
  { destruct m; eexists; split; reflexivity. }
  rewrite E in H. destruct (dget (type_char m) STRUCTS) as [st|]; [|done].
  by exists st, fields.
Qed.

(** Any message with in-range fields is encoded, to a buffer that decodes to it. *)
Lemma encode_decode_msg m : msg_ok m = true ->
  exists b, encode_msg m = Ok b /\ decode b = Ok m.
Proof.
  intros Hok. destruct (type_char_tables m) as (st & fields & Est & Ef & Hm & Hl).
  destruct (type_char_one m) as (_ & Ha & tb & Etb).
  unfold msg_ok in Hok. rewrite Ef in Hok.
  destruct (fields_encode_ok fields st (msg_fields m) Hm Hl Hok) as (raws & b & E1 & E2 & E3 & E4).
  exists (tb :: b). unfold encode_msg. rewrite Est, Ef. cbn [of_option mbind res_bind]. rewrite E1.
  cbn [mbind res_bind]. unfold encode_ascii. rewrite Ha. cbn [mbind res_bind]. rewrite E3, Etb. split; [done|].
  unfold decode. replace (l2s [tb]) with (type_char m) by (rewrite <- Etb; symmetry; apply l2s_s2l).
  rewrite Est. pose proof (struct_pack_length _ _ _ _ E3) as Hlen.
  rewrite decide_True by (cbn; by rewrite Hlen).
  rewrite (struct_unpack_pack _ _ _ _ E2 E3). cbn [mbind res_bind]. rewrite Ef.
  cbn [of_option mbind res_bind]. rewrite E4. cbn [mbind res_bind]. apply make_msg_fields.
Qed.

(** A buffer that decodes is the encoding of its message, and the message has
    in-range fields. *)
Lemma decode_encode_msg b m : decode b = Ok m -> msg_ok m = true /\ encode_msg m = Ok b.
Proof.
  destruct b as [|tb payload]; cbn [decode]; [done|].
  pose proof (STRUCTS_SCHEMAS (l2s [tb])) as HS. intros H.
  destruct (dget (l2s [tb]) STRUCTS) as [st|] eqn:Est; [|done].
  destruct (dget (l2s [tb]) SCHEMAS) as [fields|] eqn:Ef; [|done].
  case_decide as Hl; [|done]. injection Hl as Hl. cbn [of_option] in H. inv_ok.
  cbn [mbind res_bind] in H. inv_ok.
  unfold struct_unpack in Hr. rewrite decide_True in Hr by done. inv_ok.
  apply make_msg_inv in H as [Ht ->].
  pose proof (fields_decode_fields_ok _ _ _ _ HS Hl Hr0) as Hok.
  destruct (fields_decode_encode _ _ _ _ HS Hl Hr0) as [_ He].
  unfold msg_ok, encode_msg. rewrite <- Ht, Est, Ef. split; [done|].
  cbn [of_option mbind res_bind]. rewrite He. cbn [mbind res_bind].
  destruct (type_char_one m) as (_ & Ha & _). rewrite <- Ht in Ha. unfold encode_ascii. rewrite Ha.
  cbn [mbind res_bind]. rewrite (struct_pack_unpack Big st (unpack_fields Big st payload) payload).
  - cbn [mbind res_bind]. by rewrite s2l_l2s.
  - unfold struct_unpack. by rewrite decide_True.
Qed.

(** Every message is short enough for a Sequenced Data packet. *)
Lemma encode_msg_short m b : encode_msg m = Ok b -> zlen b < 65535.
Proof.
  unfold encode_msg. destruct (type_char_tables m) as (st & fields & Est & Ef & _).
  destruct (type_char_one m) as (_ & _ & tb & Etb). rewrite Est, Ef. cbn [of_option mbind res_bind]. intros H.
  inv_ok. unfold encode_ascii in Hr0. case_match; [|done]. injection Hr0 as <-.
  rewrite Etb. unfold zlen. rewrite length_app, (struct_pack_length _ _ _ _ Hr1). cbn [length].
  assert (calcsize st < 1000)%nat; [|lia].
  assert (Forall (fun p => (calcsize p.2 < 1000)%nat) STRUCTS) as HF by (repeat constructor; vm_compute; lia).
  rewrite Forall_forall in HF. apply (HF (type_char m, st)). by apply dget_Some_elem.
Qed.

(** [payload_length] and the compiled struct agree for every type. *)
Lemma wire_length_struct t st : dget t STRUCTS = Some st -> wire_length t = Some (S (calcsize st)).
Proof.
  intros E. pose proof (STRUCTS_SCHEMAS t) as HS. rewrite E in HS.
  unfold wire_length, total_length, payload_length.
  destruct (dget t SCHEMAS) as [fields|]; [|done]. cbn. by rewrite (codes_match_calcsize _ _ HS).
Qed.

Lemma wire_length_none t : dget t STRUCTS = None -> wire_length t = None.
Proof.
  intros E. pose proof (STRUCTS_SCHEMAS t) as HS. rewrite E in HS.
  unfold wire_length, total_length, payload_length. by destruct (dget t SCHEMAS).
Qed.

Lemma rmap_values_shape fields st l vs :
  codes_match fields st -> length l = calcsize st ->
  rmap decode_value (zip fields (unpack_fields Big st l)) = Ok vs ->
  Forall2 (fun f v => match f.2, v with ALPHA, FStr _ => True | ALPHA, FInt _ => False
                     | _, FInt _ => True | _, FStr _ => False end) fields vs.
Proof.
  intros Hm Hl H. pose proof (fields_decode_fields_ok _ _ _ _ Hm Hl H) as Hok.
  destruct (fields_decode_encode _ _ _ _ Hm Hl H) as [Hlen _]. clear -Hok Hlen.
  revert vs Hok Hlen. induction fields as [|[[n s] ft] fields IH]; intros [|v vs] Hok Hlen; try done.
  cbn [zip_with forallb fst snd] in Hok. apply andb_true_iff in Hok as [Hv Hok]. constructor; [|apply IH; [done|by injection Hlen]].
  by destruct ft, v.
Qed.

(** With values of the right shape the NamedTuple constructor succeeds. *)
Lemma make_msg_shape t fields vs :
  dget t SCHEMAS = Some fields ->
  Forall2 (fun f v => match f.2, v with ALPHA, FStr _ => True | ALPHA, FInt _ => False
                     | _, FInt _ => True | _, FStr _ => False end) fields vs ->
  is_Ok (make_msg t vs) = true.
Proof.
  intros E Hs. pose proof (dget_Some_key _ _ _ E) as Hk.
  let l := eval vm_compute in (dkeys SCHEMAS) in change (dkeys SCHEMAS) with l in Hk.
  repeat (apply elem_of_cons in Hk as [->|Hk]; [vm_compute in E; injection E as <-;
    repeat match goal with H : Forall2 _ _ _ |- _ => inversion H; clear H; subst end;
    repeat match goal with H : match ?v with FInt _ => _ | FStr _ => _ end |- _ => destruct v; try done end;
    repeat match goal with H : match _.2 with NUM => _ | ALPHA => _ | PRICE => _ end |- _ =>
      cbn in H; case_match; try done end;
    reflexivity|]).
  by apply elem_of_nil in Hk.
Qed.

(** * Properties *)

(** What [decode] does with any buffer: the empty buffer, an unknown type byte, a
    wrong length and non-ASCII alpha bytes each raise their own error, and every
    other buffer decodes. *)
Lemma decode_cases b :
  match b with
  | [] => decode b = Raise InvalidMessageLength
  | tb :: payload =>
      match wire_length (l2s [tb]), dget (l2s [tb]) SCHEMAS with
      | Some n, Some fields =>
          if decide (length b = n) then
            if alphas_ascii fields payload then exists m, decode b = Ok m
            else decode b = Raise DecodeError
          else decode b = Raise InvalidMessageLength
      | _, _ => decode b = Raise UnknownMessageType
      end
  end.
Proof.
  destruct b as [|tb payload]; [done|]. cbn [decode].
  pose proof (STRUCTS_SCHEMAS (l2s [tb])) as HS.
  destruct (dget (l2s [tb]) STRUCTS) as [st|] eqn:Est.
  2: { rewrite (wire_length_none _ Est). done. }
  rewrite (wire_length_struct _ _ Est).
  destruct (dget (l2s [tb]) SCHEMAS) as [fields|] eqn:Ef; [|done].
  case_decide as Hl; [|done]. injection Hl as Hl.
  unfold struct_unpack. rewrite (decide_True (P := length payload = calcsize st)) by done.
  cbn [of_option mbind res_bind].
  rewrite <- (fields_decode_is_ok _ _ payload HS).
  destruct (rmap decode_value _) as [vs|e] eqn:E; cbn [is_Ok mbind res_bind].
  - pose proof (make_msg_shape _ _ _ Ef (rmap_values_shape _ _ _ _ HS Hl E)) as Hm.
    destruct (make_msg _ vs); [by eexists|done].
  - by rewrite (fields_decode_error _ _ _ _ HS E).
Qed.

(** C17. [encode] and [decode] are inverse: a buffer decodes to a message exactly when it is
    that message's encoding, and every message whose fields fit the wire has one. *)
Theorem codec_roundtrip m :
  (forall b, decode b = Ok m <-> msg_ok m = true /\ encode (OMsg m) = Ok b) /\
  (msg_ok m = true -> exists b, encode (OMsg m) = Ok b).
Proof.
  split.
  - intros b. split; [apply decode_encode_msg|]. intros [Hm He]. destruct (encode_decode_msg m Hm) as (b' & Hb & Hd). change (encode (OMsg m)) with (encode_msg m) in He. congruence.
  - intros Hm. destruct (encode_decode_msg m Hm) as (b & Hb & _). by exists b.
Qed.

Lemma codec_roundtrip_witness :
  let m := OrderAdded 5 42 "B" 100 "1570" "DAY" 12345 in let b := s2l "D" ++ be_bytes 4 7 ++ be_bytes 8 99 in
  (msg_ok m = true /\ exists b, encode (OMsg m) = Ok b) /\ decode b = Ok (OrderDeleted 7 99).
Proof.
  split; [split; [vm_compute; reflexivity|]|].
  - apply codec_roundtrip. vm_compute. reflexivity.
  - apply codec_roundtrip. split; vm_compute; reflexivity.
Defined.

(** C39. Which buffers [decode] accepts, and which error each rejected buffer raises. *)
Theorem decode_total b :
  match b with
  | [] => decode b = Raise InvalidMessageLength
  | tb :: payload =>
      match wire_length (l2s [tb]), dget (l2s [tb]) SCHEMAS with
      | Some n, Some fields =>
          if decide (length b = n) then
            if alphas_ascii fields payload then exists m, decode b = Ok m
            else decode b = Raise DecodeError
          else decode b = Raise InvalidMessageLength
      | _, _ => decode b = Raise UnknownMessageType
      end
  end.
Proof. apply decode_cases. Qed.

(** The published wire lengths, the field tables and the compiled structs agree,
    so the import-time check passes. *)
Theorem schema_lengths_agree :
  structs_self_check = true /\
  Forall (fun tn => wire_length tn.1 = Some tn.2) LENGTHS /\ dkeys LENGTHS = MESSAGE_TYPES.
Proof. split_and!; [vm_compute; done|repeat constructor|reflexivity]. Qed.
