(* ===== verification/OrderBook.v ===== *)
(** jnxfeed/book/orderbook.py: the order store and the price levels of each book.

    [OrderBookStore] keeps the live orders by number and, per book and side, the
    aggregated quantity at each price.  Its methods run in the state monad of
    the prelude, so a raised exception keeps the mutations made before it. *)
From S2P Require Export Itch PyBisect.

Definition BUY : str := "B".
Definition SELL : str := "S".

Record Execution : Type := mkExecution {
  ex_orderbook_id : str; ex_group : str; ex_side : str;
  ex_price : Z; ex_qty : Z; ex_match_number : Z }.

Record Order : Type := mkOrder {
  o_order_number : Z; o_orderbook_id : str; o_group : str; o_side : str;
  o_price : Z; o_remaining_qty : Z }.

#[export] Instance Execution_eq_dec : EqDecision Execution.
Proof. solve_decision. Defined.
#[export] Instance Order_eq_dec : EqDecision Order.
Proof. solve_decision. Defined.

(** * _SideLevels *)

Record SideLevels : Type := mkSide { sl_prices : list Z; sl_qty : gmap Z Z }.

Definition side_init : SideLevels := mkSide [] ∅.

Definition side_add (price qty : Z) (sl : SideLevels) : SideLevels :=
  match sl_qty sl !! price with
  | None => mkSide (insort (sl_prices sl) price) (<[price := qty]> (sl_qty sl))
  | Some cur => mkSide (sl_prices sl) (<[price := cur + qty]> (sl_qty sl))
  end.

Definition side_remove (price qty : Z) : M SideLevels () := fun sl =>
  match sl_qty sl !! price with
  | None => (sl, Raise KeyError)
  | Some c =>
      let cur := c - qty in
      if cur <? 0 then (sl, Raise ValueError)
      else if cur =? 0 then
        let sl' := mkSide (sl_prices sl) (delete price (sl_qty sl)) in
        match del_at (bisect_left (sl_prices sl) price) (sl_prices sl) with
        | Ok prices => (mkSide prices (sl_qty sl'), Ok ())
        | Raise e => (sl', Raise e)
        end
      else (mkSide (sl_prices sl) (<[price := cur]> (sl_qty sl)), Ok ())
  end.

Definition levels_ascending (sl : SideLevels) : res (list (Z * Z)) :=
  rmap (fun p => q ← of_option KeyError (sl_qty sl !! p); Ok (p, q)) (sl_prices sl).

Definition qty_at (sl : SideLevels) (price : Z) : Z := default 0 (sl_qty sl !! price).
Definition side_total_qty (sl : SideLevels) : Z := map_fold (fun _ q acc => q + acc) 0 (sl_qty sl).
Definition side_len (sl : SideLevels) : Z := zlen (sl_prices sl).

(** * Book *)

Record Book : Type := mkBook { b_orderbook_id : str; b_bids : SideLevels; b_asks : SideLevels }.

Definition book_init (orderbook_id : str) : Book := mkBook orderbook_id side_init side_init.

(** [self.bids if side == BUY else self.asks] *)
Definition is_buy (side : str) : bool := bool_decide (side = BUY).
Definition book_side (b : Book) (buy : bool) : SideLevels := if buy then b_bids b else b_asks b.
Definition set_side (buy : bool) (sl : SideLevels) (b : Book) : Book :=
  if buy then mkBook (b_orderbook_id b) sl (b_asks b)
  else mkBook (b_orderbook_id b) (b_bids b) sl.

Definition book_add (side : str) (price qty : Z) (b : Book) : Book :=
  set_side (is_buy side) (side_add price qty (book_side b (is_buy side))) b.

Definition book_remove (side : str) (price qty : Z) : M Book () := fun b =>
  let '(sl, r) := side_remove price qty (book_side b (is_buy side)) in
  (set_side (is_buy side) sl b, r).

(** [levels if depth is None else levels\[:depth\]] *)
Definition cut_depth {A} (depth : option nat) (l : list A) : list A :=
  match depth with None => l | Some d => take d l end.

Definition bid_levels (b : Book) (depth : option nat) : res (list (Z * Z)) :=
  l ← levels_ascending (b_bids b); Ok (cut_depth depth (reverse l)).
Definition ask_levels (b : Book) (depth : option nat) : res (list (Z * Z)) :=
  l ← levels_ascending (b_asks b); Ok (cut_depth depth l).
Definition top (b : Book) (depth : nat) : res (list (Z * Z) * list (Z * Z)) :=
  x ← bid_levels b (Some depth); y ← ask_levels b (Some depth); Ok (x, y).
Definition best_bid (b : Book) : res (option (Z * Z)) :=
  l ← bid_levels b (Some 1%nat); Ok (head l).
Definition best_ask (b : Book) : res (option (Z * Z)) :=
  l ← ask_levels b (Some 1%nat); Ok (head l).

(** * OrderBookStore *)

Record OrderBookStore : Type := mkStore {
  orders : list (Z * Order);          (* order_number -> Order, insertion order *)
  books : gmap str Book;              (* orderbook_id -> Book *)
  collisions : Z; orphan_executes : Z; orphan_deletes : Z; orphan_replaces : Z;
  ref_price_ignored : Z; executed_volume : Z; execution_count : Z }.

Definition store_init : OrderBookStore := mkStore [] ∅ 0 0 0 0 0 0 0.

Definition set_orders (o : list (Z * Order)) (s : OrderBookStore) : OrderBookStore :=
  mkStore o (books s) (collisions s) (orphan_executes s) (orphan_deletes s) (orphan_replaces s)
    (ref_price_ignored s) (executed_volume s) (execution_count s).
Definition set_books (b : gmap str Book) (s : OrderBookStore) : OrderBookStore :=
  mkStore (orders s) b (collisions s) (orphan_executes s) (orphan_deletes s) (orphan_replaces s)
    (ref_price_ignored s) (executed_volume s) (execution_count s).
Definition add_collision (s : OrderBookStore) : OrderBookStore :=
  mkStore (orders s) (books s) (collisions s + 1) (orphan_executes s) (orphan_deletes s)
    (orphan_replaces s) (ref_price_ignored s) (executed_volume s) (execution_count s).
Definition add_orphan_execute (s : OrderBookStore) : OrderBookStore :=
  mkStore (orders s) (books s) (collisions s) (orphan_executes s + 1) (orphan_deletes s)
    (orphan_replaces s) (ref_price_ignored s) (executed_volume s) (execution_count s).
Definition add_orphan_delete (s : OrderBookStore) : OrderBookStore :=
  mkStore (orders s) (books s) (collisions s) (orphan_executes s) (orphan_deletes s + 1)
    (orphan_replaces s) (ref_price_ignored s) (executed_volume s) (execution_count s).
Definition add_orphan_replace (s : OrderBookStore) : OrderBookStore :=
  mkStore (orders s) (books s) (collisions s) (orphan_executes s) (orphan_deletes s)
    (orphan_replaces s + 1) (ref_price_ignored s) (executed_volume s) (execution_count s).
Definition add_ref_price (s : OrderBookStore) : OrderBookStore :=
  mkStore (orders s) (books s) (collisions s) (orphan_executes s) (orphan_deletes s)
    (orphan_replaces s) (ref_price_ignored s + 1) (executed_volume s) (execution_count s).
Definition add_execution (qty : Z) (s : OrderBookStore) : OrderBookStore :=
  mkStore (orders s) (books s) (collisions s) (orphan_executes s) (orphan_deletes s)
    (orphan_replaces s) (ref_price_ignored s) (executed_volume s + qty) (execution_count s + 1).

Definition orphans_total (s : OrderBookStore) : Z :=
  orphan_executes s + orphan_deletes s + orphan_replaces s.
Definition live_order_count (s : OrderBookStore) : Z := zlen (orders s).

(** [self.book(orderbook_id)]: the book, created on first reference. *)
Definition get_book (orderbook_id : str) : M OrderBookStore Book := fun s =>
  match books s !! orderbook_id with
  | Some b => (s, Ok b)
  | None =>
      let b := book_init orderbook_id in
      (set_books (<[orderbook_id := b]> (books s)) s, Ok b)
  end.

(** [self.book(orderbook_id).add(...)] and [....remove(...)]: the book is mutated
    in place, also when [remove] raises. *)
Definition books_add (orderbook_id side : str) (price qty : Z) : M OrderBookStore () :=
  b ← get_book orderbook_id;
  mmod (fun s => set_books (<[orderbook_id := book_add side price qty b]> (books s)) s).
Definition books_remove (orderbook_id side : str) (price qty : Z) : M OrderBookStore () :=
  b ← get_book orderbook_id;
  ((fun s =>
    let '(b', r) := book_remove side price qty b in
    (set_books (<[orderbook_id := b']> (books s)) s, r)) : M OrderBookStore ()).

Definition _remove_order (order : Order) : M OrderBookStore () :=
  s ← mget;
  o ← mlift (ddel (o_order_number order) (orders s));
  mmod (set_orders o) ;;
  books_remove (o_orderbook_id order) (o_side order) (o_price order) (o_remaining_qty order).

Definition _insert (order_number : Z) (orderbook_id group side : str) (price qty : Z)
    : M OrderBookStore () :=
  s ← mget;
  (match dget order_number (orders s) with
   | Some existing => mmod add_collision ;; _remove_order existing
   | None => mret ()
   end) ;;
  mmod (fun s => set_orders
    (dset order_number (mkOrder order_number orderbook_id group side price qty) (orders s)) s) ;;
  books_add orderbook_id side price qty.

Definition _execute (order_number executed_qty match_number : Z)
    : M OrderBookStore (option Execution) :=
  s ← mget;
  match dget order_number (orders s) with
  | None => mmod add_orphan_execute ;; mret None
  | Some order =>
      let qty := if o_remaining_qty order <? executed_qty then o_remaining_qty order else executed_qty in
      let remaining := o_remaining_qty order - qty in
      let order' := mkOrder (o_order_number order) (o_orderbook_id order) (o_group order)
                      (o_side order) (o_price order) remaining in
      mmod (fun s => set_orders (dset order_number order' (orders s)) s) ;;
      books_remove (o_orderbook_id order) (o_side order) (o_price order) qty ;;
      (if remaining =? 0 then
         s ← mget;
         o ← mlift (ddel (o_order_number order) (orders s));
         mmod (set_orders o)
       else mret ()) ;;
      mmod (add_execution qty) ;;
      mret (Some (mkExecution (o_orderbook_id order) (o_group order) (o_side order)
                    (o_price order) qty match_number))
  end.

Definition _delete (order_number : Z) : M OrderBookStore () :=
  s ← mget;
  match dget order_number (orders s) with
  | None => mmod add_orphan_delete
  | Some order => _remove_order order
  end.

Definition _replace (orig_order_number new_order_number qty price : Z) : M OrderBookStore () :=
  s ← mget;
  match dget orig_order_number (orders s) with
  | None => mmod add_orphan_replace
  | Some orig =>
      _remove_order orig ;;
      _insert new_order_number (o_orderbook_id orig) (o_group orig) (o_side orig) price qty
  end.

(** [apply] without the [on_execution] callback, which Market leaves unset. *)
Definition store_apply (msg : message) : M OrderBookStore (option Execution) :=
  let add order_number side qty orderbook_id group price :=
    if order_number =? 0 then mmod add_ref_price ;; mret None
    else _insert order_number orderbook_id group side price qty ;; mret None in
  match msg with
  | OrderAdded _ order_number side qty orderbook_id group price =>
      add order_number side qty orderbook_id group price
  | OrderAddedWithAttributes _ order_number side qty orderbook_id group price _ _ =>
      add order_number side qty orderbook_id group price
  | OrderExecuted _ order_number executed_qty match_number =>
      _execute order_number executed_qty match_number
  | OrderDeleted _ order_number => _delete order_number ;; mret None
  | OrderReplaced _ orig_order_number new_order_number qty price =>
      _replace orig_order_number new_order_number qty price ;; mret None
  | _ => mret None
  end.

Definition store_run (msgs : list message) : M OrderBookStore () :=
  mfor msgs (fun m => store_apply m ;; mret ()).

(** * What the levels should be: the live orders, aggregated *)

(** The quantity order [o] contributes to the level of a book, side and price. *)
Definition contrib (oid : str) (buy : bool) (p : Z) (o : Order) : Z :=
  if bool_decide (o_orderbook_id o = oid) && Bool.eqb (is_buy (o_side o)) buy && (o_price o =? p)
  then o_remaining_qty o else 0.
Definition level_qty (os : list (Z * Order)) (oid : str) (buy : bool) (p : Z) : Z :=
  dsum (contrib oid buy p) os.

(** A side represents a level function: sorted prices, exactly the non-zero levels. *)
Record side_rep (sl : SideLevels) (f : Z -> Z) : Prop := {
  sr_sorted : sorted (sl_prices sl);
  sr_dom : forall p, p ∈ sl_prices sl <-> is_Some (sl_qty sl !! p);
  sr_qty : forall p, sl_qty sl !! p = if f p =? 0 then None else Some (f p) }.

Definition books_rep (bs : gmap str Book) (F : str -> bool -> Z -> Z) : Prop :=
  forall oid, match bs !! oid with
    | Some b => b_orderbook_id b = oid /\ forall buy, side_rep (book_side b buy) (F oid buy)
    | None => forall buy p, F oid buy p = 0
    end.

Record store_inv (s : OrderBookStore) : Prop := {
  si_nodup : NoDup (dkeys (orders s));
  si_order : forall k o, dget k (orders s) = Some o -> o_order_number o = k /\ 0 < o_remaining_qty o;
  si_books : books_rep (books s) (level_qty (orders s)) }.

(** The level function with [d] more at one place. *)
Definition bump (F : str -> bool -> Z -> Z) (oid : str) (buy : bool) (p d : Z) : str -> bool -> Z -> Z :=
  fun oid' buy' p' =>
    if bool_decide (oid = oid') && Bool.eqb buy buy' && (p =? p') then F oid' buy' p' + d
    else F oid' buy' p'.

(** Messages with the quantities a real feed carries: orders are for at least one
    share (order number 0 marks a reference price, whose quantity is meaningless).
    [executed_qty] is never negative on the wire. *)
Definition feed_ok (m : message) : bool :=
  match m with
  | OrderAdded _ n _ qty _ _ _ | OrderAddedWithAttributes _ n _ qty _ _ _ _ _ => (n =? 0) || (0 <? qty)
  | OrderReplaced _ _ _ qty _ => 0 <? qty
  | OrderExecuted _ _ executed_qty _ => 0 <=? executed_qty
  | _ => true
  end.

(** * The abstract store: only the live orders, no levels *)

Definition clamp_exec (o : Order) (executed_qty : Z) : Z := Z.min (o_remaining_qty o) executed_qty.
Definition with_remaining (o : Order) (r : Z) : Order :=
  mkOrder (o_order_number o) (o_orderbook_id o) (o_group o) (o_side o) (o_price o) r.

Definition spec_put (n : Z) (o : Order) (os : list (Z * Order)) : list (Z * Order) :=
  dremove n os ++ [(n, o)].

Definition spec_orders (m : message) (os : list (Z * Order)) : list (Z * Order) :=
  let add n side qty oid grp price :=
    if n =? 0 then os else spec_put n (mkOrder n oid grp side price qty) os in
  match m with
  | OrderAdded _ n side qty oid grp price => add n side qty oid grp price
  | OrderAddedWithAttributes _ n side qty oid grp price _ _ => add n side qty oid grp price
  | OrderExecuted _ n q _ =>
      match dget n os with
      | Some o =>
          if o_remaining_qty o <=? q then dremove n os
          else dset n (with_remaining o (o_remaining_qty o - q)) os
      | None => os
      end
  | OrderDeleted _ n => dremove n os
  | OrderReplaced _ orig new qty price =>
      match dget orig os with
      | Some o =>
          spec_put new (mkOrder new (o_orderbook_id o) (o_group o) (o_side o) price qty)
            (dremove orig os)
      | None => os
      end
  | _ => os
  end.

Definition spec_execution (m : message) (os : list (Z * Order)) : option Execution :=
  match m with
  | OrderExecuted _ n q mn =>
      o ← dget n os;
      Some (mkExecution (o_orderbook_id o) (o_group o) (o_side o) (o_price o) (clamp_exec o q) mn)
  | _ => None
  end.

(** * Lemmas: one side *)

Lemma side_init_rep : side_rep side_init (fun _ => 0).
Proof.
  split; cbn; [constructor| |done]. intros p. rewrite lookup_empty.
  split; [intros H; by apply elem_of_nil in H|by intros [? ?]].
Qed.

Lemma side_rep_ext sl f g : (forall p, f p = g p) -> side_rep sl f -> side_rep sl g.
Proof. intros E [H1 H2 H3]. split; [done|done|]. intros p. by rewrite <- E. Qed.

Lemma side_rep_elem sl f p : side_rep sl f -> p ∈ sl_prices sl <-> f p <> 0.
Proof.
  intros [H1 H2 H3]. rewrite H2, H3. destruct (Z.eqb_spec (f p) 0).
  - split; [by intros [? ?]|done].
  - split; [done|by eexists].
Qed.

Lemma side_add_rep sl f p q :
  side_rep sl f -> 0 <= f p -> 0 < q ->
  side_rep (side_add p q sl) (fun p' => if p =? p' then f p' + q else f p').
Proof.
  intros Hr Hf Hq. pose proof Hr as [H1 H2 H3]. unfold side_add. rewrite H3.
  destruct (Z.eqb_spec (f p) 0) as [E|E]; split; cbn [sl_prices sl_qty].
  - apply insort_sorted; [done|]. rewrite (side_rep_elem sl f) by done. lia.
  - intros p'. rewrite insort_elem, H2, lookup_insert. case_decide; subst; naive_solver.
  - intros p'. rewrite lookup_insert, H3. case_decide as Hp; subst.
    + rewrite Z.eqb_refl, E. destruct (Z.eqb_spec (0 + q) 0); [lia|done].
    + destruct (Z.eqb_spec p p'); [done|]. done.
  - done.
  - intros p'. rewrite H2, lookup_insert. case_decide; subst; [|done].
    rewrite H3. destruct (Z.eqb_spec (f p') 0); [done|]. by split; eexists.
  - intros p'. rewrite lookup_insert, H3. case_decide as Hp; subst.
    + rewrite Z.eqb_refl. destruct (Z.eqb_spec (f p' + q) 0); [lia|done].
    + destruct (Z.eqb_spec p p'); [done|]. done.
Qed.

Lemma side_remove_rep sl f p q :
  side_rep sl f -> 0 < f p -> 0 <= q <= f p ->
  exists sl', side_remove p q sl = (sl', Ok ()) /\
    side_rep sl' (fun p' => if p =? p' then f p' - q else f p').
Proof.
  intros Hr Hf Hq. pose proof Hr as [H1 H2 H3]. unfold side_remove. rewrite H3.
  assert (p ∈ sl_prices sl) as Hp by (apply (side_rep_elem sl f); [done|lia]).
  destruct (Z.eqb_spec (f p) 0) as [E|E]; [lia|]. destruct (Z.ltb_spec (f p - q) 0); [lia|].
  destruct (Z.eqb_spec (f p - q) 0) as [E'|E'].
  - rewrite del_at_bisect by done. eexists. split; [done|]. split; cbn [sl_prices sl_qty].
    + by apply sorted_delete.
    + intros p'. rewrite delete_bisect_elem, H2, lookup_delete by done.
      case_decide; subst; [split; [by intros [? _]|by intros [? ?]]|naive_solver].
    + intros p'. rewrite lookup_delete, H3. destruct (Z.eqb_spec p p') as [->|Hne].
      * rewrite decide_True by done. destruct (Z.eqb_spec (f p' - q) 0); [done|lia].
      * by rewrite decide_False.
  - eexists. split; [done|]. split; cbn [sl_prices sl_qty]; [done| |].
    + intros p'. rewrite H2, lookup_insert. case_decide; subst; [|done].
      rewrite H3. destruct (Z.eqb_spec (f p') 0); [done|]. by split; eexists.
    + intros p'. rewrite lookup_insert, H3. destruct (Z.eqb_spec p p') as [->|Hne].
      * rewrite decide_True by done. destruct (Z.eqb_spec (f p' - q) 0); [lia|done].
      * by rewrite decide_False.
Qed.

(** * Lemmas: the books *)

Lemma book_side_set buy sl b buy' :
  book_side (set_side buy sl b) buy' = if Bool.eqb buy buy' then sl else book_side b buy'.
Proof. by destruct buy, buy'. Qed.

Lemma set_side_id buy sl b : b_orderbook_id (set_side buy sl b) = b_orderbook_id b.
Proof. by destruct buy. Qed.

Lemma books_rep_ext bs F G : (forall o b p, F o b p = G o b p) -> books_rep bs F -> books_rep bs G.
Proof.
  intros E H oid. specialize (H oid). destruct (bs !! oid) as [b|].
  - destruct H as [? H]. split; [done|]. intros buy.
    apply (side_rep_ext _ (F oid buy)); [intros p; apply E|apply H].
  - intros. by rewrite <- E.
Qed.

(** Replacing one side of one book by a side that represents the bumped function. *)
Lemma books_rep_update bs F oid b buy sl p d :
  books_rep bs F -> b_orderbook_id b = oid ->
  (forall buy', side_rep (book_side b buy') (F oid buy')) ->
  side_rep sl (fun p' => if p =? p' then F oid buy p' + d else F oid buy p') ->
  books_rep (<[oid := set_side buy sl b]> bs) (bump F oid buy p d).
Proof.
  intros H Hid Hb Hsl oid'. rewrite lookup_insert. unfold bump. case_decide as E.
  - subst oid'. rewrite set_side_id. split; [done|]. intros buy'. rewrite book_side_set.
    rewrite bool_decide_true by done. cbn [andb].
    destruct (Bool.eqb buy buy') eqn:Eb; [|apply Hb].
    apply Bool.eqb_prop in Eb as <-. done.
  - specialize (H oid'). rewrite bool_decide_false by done. cbn [andb].
    by destruct (bs !! oid').
Qed.

Lemma get_book_rep s F oid : books_rep (books s) F ->
  exists bs b, get_book oid s = (set_books bs s, Ok b) /\ books_rep bs F /\
    b_orderbook_id b = oid /\ (forall buy, side_rep (book_side b buy) (F oid buy)) /\
    bs !! oid = Some b.
Proof.
  intros H. unfold get_book. pose proof (H oid) as Ho. destruct (books s !! oid) as [b|] eqn:E.
  - exists (books s), b. split; [by destruct s|]. by destruct Ho.
  - exists (<[oid := book_init oid]> (books s)), (book_init oid). split; [done|].
    assert (forall buy, side_rep (book_side (book_init oid) buy) (F oid buy)) as Hs.
    { intros buy. apply (side_rep_ext _ (fun _ => 0)); [done|].
      replace (book_side _ buy) with side_init by (by destruct buy). apply side_init_rep. }
    split_and!; [|done|done|by rewrite lookup_insert_eq].
    intros oid'. rewrite lookup_insert. case_decide; subst; [done|]. apply H.
Qed.

Lemma set_books_books bs bs' s : set_books bs (set_books bs' s) = set_books bs s.
Proof. done. Qed.

Lemma books_add_rep s F oid side p q :
  books_rep (books s) F -> 0 <= F oid (is_buy side) p -> 0 < q ->
  exists bs, books_add oid side p q s = (set_books bs s, Ok ()) /\
    books_rep bs (bump F oid (is_buy side) p q).
Proof.
  intros H Hf Hq. destruct (get_book_rep s F oid H) as (bs & b & E & Hb & Hid & Hs & El).
  unfold books_add. munfold. rewrite E. eexists. split; [by rewrite set_books_books|].
  cbn [books set_books]. unfold book_add. apply books_rep_update; [done|done|done|].
  by apply side_add_rep.
Qed.

Lemma books_remove_rep s F oid side p q :
  books_rep (books s) F -> 0 < F oid (is_buy side) p -> 0 <= q <= F oid (is_buy side) p ->
  exists bs, books_remove oid side p q s = (set_books bs s, Ok ()) /\
    books_rep bs (bump F oid (is_buy side) p (- q)).
Proof.
  intros H Hf Hq. destruct (get_book_rep s F oid H) as (bs & b & E & Hb & Hid & Hs & El).
  unfold books_remove. munfold. rewrite E. unfold book_remove.
  destruct (side_remove_rep _ _ p q (Hs (is_buy side)) Hf Hq) as (sl & -> & Hsl).
  eexists. split; [by rewrite set_books_books|].
  cbn [books set_books]. by apply books_rep_update.
Qed.

(** * Lemmas: the aggregated levels *)

Section levels.
  Context (os : list (Z * Order)).
  Hypothesis Hpos : forall k o, dget k os = Some o -> 0 < o_remaining_qty o.

Lemma bump_contrib (F : str -> bool -> Z -> Z) o c oid b p :
  F oid b p + (if bool_decide (o_orderbook_id o = oid) && Bool.eqb (is_buy (o_side o)) b && (o_price o =? p)
               then c else 0)
  = bump F (o_orderbook_id o) (is_buy (o_side o)) (o_price o) c oid b p.
Proof. unfold bump. destruct (_ && _ && _); lia. Qed.

Lemma level_qty_remove k o oid b p : dget k os = Some o ->
  level_qty (dremove k os) oid b p =
  bump (level_qty os) (o_orderbook_id o) (is_buy (o_side o)) (o_price o) (- o_remaining_qty o) oid b p.
Proof.
  intros H. unfold level_qty at 1. rewrite (dsum_dremove _ k o) by done.
  rewrite <- bump_contrib. unfold level_qty, contrib. destruct (_ && _ && _); lia.
Qed.

Lemma level_qty_new k o oid b p :
  level_qty (os ++ [(k, o)]) oid b p =
  bump (level_qty os) (o_orderbook_id o) (is_buy (o_side o)) (o_price o) (o_remaining_qty o) oid b p.
Proof.
  unfold level_qty at 1. rewrite dsum_app. rewrite <- bump_contrib.
  unfold dsum at 2, contrib at 2. cbn. unfold level_qty. lia.
Qed.

Lemma level_qty_set k o q oid b p : dget k os = Some o ->
  level_qty (dset k (with_remaining o (o_remaining_qty o - q)) os) oid b p =
  bump (level_qty os) (o_orderbook_id o) (is_buy (o_side o)) (o_price o) (- q) oid b p.
Proof.
  intros H. unfold level_qty at 1. rewrite (dsum_old _ k _ o) by done.
  rewrite <- bump_contrib. unfold level_qty, contrib, with_remaining.
  cbn [o_orderbook_id o_side o_price o_remaining_qty]. destruct (_ && _ && _); lia.
Qed.

Lemma contrib_nonneg oid b p o : o ∈ dvalues os -> NoDup (dkeys os) -> 0 <= contrib oid b p o.
Proof.
  unfold dvalues. intros ([k v] & -> & Hin)%list_elem_of_fmap Hnd.
  pose proof (Hpos k v (elem_dget _ _ _ Hnd Hin)). unfold contrib. cbn. destruct (_ && _ && _); lia.
Qed.

Lemma level_qty_nonneg oid b p : NoDup (dkeys os) -> 0 <= level_qty os oid b p.
Proof. intros Hnd. apply dsum_nonneg. intros o Ho. by apply contrib_nonneg. Qed.

Lemma level_qty_ge k o : NoDup (dkeys os) -> dget k os = Some o ->
  o_remaining_qty o <= level_qty os (o_orderbook_id o) (is_buy (o_side o)) (o_price o).
Proof.
  intros Hnd H. unfold level_qty. etransitivity.
  2: { apply (dsum_ge _ k o); [|done]. intros v Hv. by apply contrib_nonneg. }
  unfold contrib. rewrite bool_decide_true, Bool.eqb_reflx, Z.eqb_refl by done. cbn. lia.
Qed.
End levels.

Lemma dkeys_app {K V} (d1 d2 : list (K * V)) : dkeys (d1 ++ d2) = dkeys d1 ++ dkeys d2.
Proof. apply fmap_app. Qed.

Lemma dremove_None {K V} `{EqDecision K} (k : K) (d : list (K * V)) :
  dget k d = None -> dremove k d = d.
Proof.
  induction d as [|[k' v'] d IH]; cbn; [done|]. case_decide; [done|]. intros Hd. by rewrite IH.
Qed.

(** * Lemmas: the operations of the store *)

Lemma store_init_inv : store_inv store_init.
Proof.
  split; cbn; [constructor|done|]. intros oid. rewrite lookup_empty. done.
Qed.

(** Taking a live order out: [_remove_order] succeeds and keeps the invariant. *)
Lemma remove_order_ok s k o :
  store_inv s -> dget k (orders s) = Some o ->
  exists bs, _remove_order o s = (set_books bs (set_orders (dremove k (orders s)) s), Ok ()) /\
    store_inv (set_books bs (set_orders (dremove k (orders s)) s)).
Proof.
  intros [Hnd Ho Hb] Hk. destruct (Ho k o Hk) as [En Hq].
  assert (forall k o, dget k (orders s) = Some o -> 0 < o_remaining_qty o) as Hpos by (intros; by eapply Ho).
  pose proof (level_qty_ge _ Hpos k o Hnd Hk) as Hge.
  unfold _remove_order. munfold. rewrite En, (ddel_Some _ o) by done.
  destruct (books_remove_rep (set_orders (dremove k (orders s)) s) (level_qty (orders s))
    (o_orderbook_id o) (o_side o) (o_price o) (o_remaining_qty o)) as (bs & -> & Hbs); [done|lia|lia|].
  exists bs. split; [done|]. split; cbn [orders books set_books set_orders].
  - by apply NoDup_dremove.
  - intros k' o' H'. rewrite dget_dremove in H' by done. case_decide; [done|]. by apply Ho.
  - eapply books_rep_ext; [|done]. intros. symmetry. by apply level_qty_remove.
Qed.

(** A new order with a fresh number and a positive quantity. *)
Lemma put_order_ok s n oid grp side price qty :
  store_inv s -> dget n (orders s) = None -> 0 < qty ->
  let os' := orders s ++ [(n, mkOrder n oid grp side price qty)] in
  exists bs, books_add oid side price qty (set_orders os' s) = (set_books bs (set_orders os' s), Ok ()) /\
    store_inv (set_books bs (set_orders os' s)).
Proof.
  intros [Hnd Ho Hb] Hn Hq os'.
  assert (forall k o, dget k (orders s) = Some o -> 0 < o_remaining_qty o) as Hpos by (intros; by eapply Ho).
  destruct (books_add_rep (set_orders os' s) (level_qty (orders s)) oid side price qty) as (bs & -> & Hbs);
    [done|by apply level_qty_nonneg|done|].
  exists bs. split; [done|]. split; cbn [orders books set_books set_orders].
  - unfold os'. rewrite dkeys_app. apply NoDup_app. split_and!; [done| |apply NoDup_singleton].
    intros x Hx ->%list_elem_of_singleton. by apply dget_None in Hn.
  - intros k o. unfold os'. rewrite <- (dset_new n) by done. rewrite dget_dset.
    case_decide; [intros [= <-]; by subst|apply Ho].
  - eapply books_rep_ext; [|done]. intros. unfold os'. by rewrite level_qty_new.
Qed.

(** [_insert]: a live order with the same number is taken out first. *)
Lemma insert_ok s n oid grp side price qty :
  store_inv s -> 0 < qty ->
  exists s', _insert n oid grp side price qty s = (s', Ok ()) /\ store_inv s' /\
    orders s' = spec_put n (mkOrder n oid grp side price qty) (orders s) /\
    collisions s' = collisions s + (if dget n (orders s) then 1 else 0) /\
    executed_volume s' = executed_volume s /\ execution_count s' = execution_count s /\
    orphans_total s' = orphans_total s.
Proof.
  intros Hs Hq. unfold _insert. munfold. destruct (dget n (orders s)) as [o|] eqn:E.
  - assert (store_inv (add_collision s)) as Hc by by destruct Hs.
    destruct (remove_order_ok (add_collision s) n o Hc E) as (bs & -> & H1).
    set (s1 := set_books bs _) in *.
    assert (dget n (orders s1) = None) as Hn by (apply dget_dremove_eq, Hs).
    destruct (put_order_ok s1 n oid grp side price qty H1 Hn Hq) as (bs2 & E2 & H2).
    rewrite (dset_new n) by done. rewrite E2. eexists. split; [done|]. split; [done|].
    unfold s1. cbn. split_and!; [done|lia|done|done|done].
  - destruct (put_order_ok s n oid grp side price qty Hs E Hq) as (bs2 & E2 & H2).
    rewrite (dset_new n) by done. rewrite E2. eexists. split; [done|]. split; [done|].
    cbn. unfold spec_put. rewrite dremove_None by done. split_and!; [done|lia|done|done|done].
Qed.

(** [_execute] on a live order. *)
Lemma execute_ok s n q mn o :
  store_inv s -> 0 <= q -> dget n (orders s) = Some o ->
  exists s', _execute n q mn s = (s', Ok (spec_execution (OrderExecuted 0 n q mn) (orders s))) /\
    store_inv s' /\ orders s' = spec_orders (OrderExecuted 0 n q mn) (orders s) /\
    executed_volume s' = executed_volume s + clamp_exec o q /\
    execution_count s' = execution_count s + 1 /\
    orphans_total s' = orphans_total s /\ collisions s' = collisions s.
Proof.
  intros Hs Hq E. pose proof Hs as [Hnd Ho Hb]. destruct (Ho n o E) as [En Hr].
  assert (forall k o, dget k (orders s) = Some o -> 0 < o_remaining_qty o) as Hpos by (intros; by eapply Ho).
  pose proof (level_qty_ge _ Hpos n o Hnd E) as Hge.
  unfold _execute, spec_execution, spec_orders, clamp_exec. munfold. rewrite E. cbn [option_bind].
  replace (if o_remaining_qty o <? q then o_remaining_qty o else q) with (o_remaining_qty o `min` q)
    by (destruct (Z.ltb_spec (o_remaining_qty o) q); lia).
  set (d := o_remaining_qty o `min` q). fold (with_remaining o (o_remaining_qty o - d)).
  set (o' := with_remaining o (o_remaining_qty o - d)).
  destruct (books_remove_rep (set_orders (dset n o' (orders s)) s) (level_qty (orders s))
    (o_orderbook_id o) (o_side o) (o_price o) d) as (bs & -> & Hbs); [done|lia|lia|].
  assert (books_rep bs (level_qty (dset n o' (orders s)))) as Hbs'.
  { eapply books_rep_ext; [|done]. intros. symmetry. by apply level_qty_set. }
  destruct (Z.eqb_spec (o_remaining_qty o - d) 0) as [Ez|Ez].
  - destruct (Z.leb_spec (o_remaining_qty o) q); [|lia].
    cbn [orders set_books set_orders]. rewrite En, (ddel_Some n o') by apply dget_dset_eq.
    assert (dremove n (dset n o' (orders s)) = dremove n (orders s)) as Ed.
    { clear. induction (orders s) as [|[k v] l IH]; cbn; [by rewrite decide_True|].
      case_decide; cbn; [by rewrite decide_True|]. by rewrite decide_False, IH. }
    eexists. split; [done|]. split; [|cbn; rewrite Ed; by split_and!].
    split; cbn [orders books set_books set_orders add_execution]; rewrite ?Ed.
    + by apply NoDup_dremove.
    + intros k v H'. rewrite dget_dremove in H' by done. case_decide; [done|]. by apply Ho.
    + replace d with (o_remaining_qty o) in Hbs by lia.
      eapply books_rep_ext; [|exact Hbs]. intros oid b p. symmetry. by apply level_qty_remove.
  - destruct (Z.leb_spec (o_remaining_qty o) q); [lia|].
    eexists. split; [done|].
    replace (o_remaining_qty o - q) with (o_remaining_qty o - d) by lia. fold o'.
    split; [|cbn; by split_and!].
    split; cbn [orders books set_books set_orders add_execution]; [by apply NoDup_dset| |done].
    intros k v. rewrite dget_dset. case_decide; [|apply Ho]. intros [= <-]. subst k. cbn. split; [done|lia].
Qed.

(** * Refinement: every message, on the detailed and on the abstract store *)

Lemma store_apply_refines s m :
  store_inv s -> feed_ok m = true ->
  exists s', store_apply m s = (s', Ok (spec_execution m (orders s))) /\
    store_inv s' /\ orders s' = spec_orders m (orders s).
Proof.
  intros Hs Hm.
  assert (forall n oid grp side price qty, (n =? 0) || (0 <? qty) = true ->
    exists s', (if n =? 0 then mmod add_ref_price ;; mret None
      else _insert n oid grp side price qty ;; mret None) s = (s', Ok (@None Execution)) /\
      store_inv s' /\ orders s' = (if n =? 0 then orders s else spec_put n (mkOrder n oid grp side price qty) (orders s))) as Hadd.
  { intros n oid grp side price qty Hq. destruct (n =? 0); munfold.
    - eexists. split; [done|]. split; [by destruct Hs|done].
    - destruct (insert_ok s n oid grp side price qty Hs ltac:(cbn in Hq; lia)) as (s' & -> & ? & ? & _). by eexists. }
  destruct m as [| | | | | |ns n side qty oid grp price|ns n side qty oid grp price at_ ot|ns n q mn|ns n|ns orig new qty price|];
    cbn [feed_ok] in Hm; cbn [store_apply spec_execution spec_orders];
    try (eexists; split; [reflexivity|by split]).
  - by apply Hadd.
  - by apply Hadd.
  - destruct (dget n (orders s)) as [o|] eqn:E.
    + destruct (execute_ok s n q mn o Hs ltac:(lia) E) as (s' & E1 & H1 & H2 & _).
      exists s'. rewrite E1. cbn [spec_execution spec_orders] in *. rewrite E in *. by split_and!.
    + unfold _execute. munfold. rewrite E. eexists. split; [done|]. split; [by destruct Hs|done].
  - unfold _delete. munfold. destruct (dget n (orders s)) as [o|] eqn:E.
    + destruct (remove_order_ok s n o Hs E) as (bs & -> & ?). eexists. by split_and!.
    + eexists. split; [done|]. split; [by destruct Hs|]. cbn. by rewrite dremove_None.
  - unfold _replace. munfold. destruct (dget orig (orders s)) as [o|] eqn:E.
    + destruct (remove_order_ok s orig o Hs E) as (bs & -> & H1).
      set (s1 := set_books bs _) in *.
      destruct (insert_ok s1 new (o_orderbook_id o) (o_group o) (o_side o) price qty H1 ltac:(lia))
        as (s' & -> & ? & ? & _). by eexists.
    + eexists. split; [done|]. split; [by destruct Hs|done].
Qed.

Lemma store_run_refines msgs s :
  store_inv s -> forallb feed_ok msgs = true ->
  exists s', store_run msgs s = (s', Ok ()) /\ store_inv s' /\
    orders s' = foldl (fun os m => spec_orders m os) (orders s) msgs.
Proof.
  revert s; induction msgs as [|m msgs IH]; intros s Hs Hm; cbn in Hm.
  - by exists s.
  - apply andb_true_iff in Hm as [Hm Hms].
    destruct (store_apply_refines s m Hs Hm) as (s1 & E & H1 & E1).
    destruct (IH s1 H1 Hms) as (s2 & E2 & H2 & E3).
    exists s2. unfold store_run in *. cbn [mfor foldl]. munfold. rewrite E. by rewrite E2, E3, E1.
Qed.

(** * What the views read: the levels, best first *)

(** [l] lists the non-zero levels of [f], each once, in the order of [R]. *)
Definition lists_levels (R : Z -> Z -> Prop) (f : Z -> Z) (l : list (Z * Z)) : Prop :=
  StronglySorted R l.*1 /\ forall p q, (p, q) ∈ l <-> f p = q /\ q <> 0.

Lemma levels_ascending_rep sl f : side_rep sl f ->
  exists l, levels_ascending sl = Ok l /\ lists_levels Z.lt f l.
Proof.
  intros [Hs Hd Hq]. unfold levels_ascending.
  exists ((fun p => (p, f p)) <$> sl_prices sl). split.
  - apply rmap_Ok_iff. apply Forall2_fmap_r. apply Forall_Forall2_diag.
    apply Forall_forall. intros p Hp%Hd. rewrite Hq in Hp |- *.
    destruct (f p =? 0); [by destruct Hp|done].
  - split.
    + rewrite <- list_fmap_compose. unfold compose. cbn. by rewrite list_fmap_id.
    + intros p q. rewrite list_elem_of_fmap. split.
      * intros (p' & [= -> ->] & Hp%Hd). rewrite Hq in Hp. split; [done|].
        destruct (Z.eqb_spec (f p') 0); [by destruct Hp|done].
      * intros [<- H0]. exists p. split; [done|]. apply Hd. rewrite Hq.
        destruct (Z.eqb_spec (f p) 0); [done|by eexists].
Qed.

Lemma StronglySorted_snoc {A} (R : A -> A -> Prop) l x :
  StronglySorted R l -> (forall y, y ∈ l -> R y x) -> StronglySorted R (l ++ [x]).
Proof.
  induction 1 as [|y l Hs IH Hy]; intros Hx; cbn; [by repeat constructor|].
  constructor.
  - apply IH. intros z Hz. apply Hx. by right.
  - apply Forall_app. split; [done|]. constructor; [|constructor]. apply Hx. left.
Qed.

Lemma StronglySorted_reverse {A} (R : A -> A -> Prop) l :
  StronglySorted R l -> StronglySorted (flip R) (reverse l).
Proof.
  induction 1 as [|x l Hs IH Hx]; [constructor|]. rewrite reverse_cons.
  apply StronglySorted_snoc; [done|]. intros y Hy. rewrite elem_of_reverse in Hy. rewrite Forall_forall in Hx. exact (Hx y Hy).
Qed.

Lemma lists_levels_reverse f l : lists_levels Z.lt f l -> lists_levels Z.gt f (reverse l).
Proof.
  intros [Hs He]. split.
  - rewrite fmap_reverse. apply StronglySorted_reverse in Hs. revert Hs.
    induction 1 as [|x l' ? IH Hx]; constructor; [done|]. eapply Forall_impl; [exact Hx|].
    cbn. unfold flip. lia.
  - intros p q. rewrite <- He. apply elem_of_reverse.
Qed.

Lemma books_rep_levels bs F oid b buy : books_rep bs F -> bs !! oid = Some b ->
  exists l, levels_ascending (book_side b buy) = Ok l /\ lists_levels Z.lt (F oid buy) l.
Proof.
  intros H Hb. specialize (H oid). rewrite Hb in H. destruct H as [_ H]. by apply levels_ascending_rep.
Qed.

Lemma get_book_levels s oid : store_inv s ->
  exists b l l', get_book oid s = (fst (get_book oid s), Ok b) /\
    levels_ascending (b_bids b) = Ok l /\ lists_levels Z.lt (level_qty (orders s) oid true) l /\
    levels_ascending (b_asks b) = Ok l' /\ lists_levels Z.lt (level_qty (orders s) oid false) l'.
Proof.
  intros [_ _ Hb]. destruct (get_book_rep s _ oid Hb) as (bs & b & E & _ & _ & Hs & _).
  destruct (levels_ascending_rep _ _ (Hs true)) as (l & El & Hl).
  destruct (levels_ascending_rep _ _ (Hs false)) as (l' & El' & Hl').
  exists b, l, l'. by rewrite E.
Qed.

Lemma store_reach msgs : forallb feed_ok msgs = true ->
  exists s, store_run msgs store_init = (s, Ok ()) /\ store_inv s /\
    orders s = foldl (fun os m => spec_orders m os) [] msgs.
Proof. intros H. apply (store_run_refines msgs store_init store_init_inv H). Qed.

(** * Properties *)

(** C15. No feed of orders with positive quantities makes the store raise; the live
    orders are those of the abstract store, and every level the book keeps is the
    sum of the live orders at its price. *)
Theorem store_sound msgs : forallb feed_ok msgs = true ->
  exists s, store_run msgs store_init = (s, Ok ()) /\
    orders s = foldl (fun os m => spec_orders m os) [] msgs /\
    NoDup (dkeys (orders s)) /\
    (forall k o, dget k (orders s) = Some o -> o_order_number o = k /\ 0 < o_remaining_qty o) /\
    (forall oid b buy p, books s !! oid = Some b ->
       qty_at (book_side b buy) p = level_qty (orders s) oid buy p) /\
    (forall oid buy p, books s !! oid = None -> level_qty (orders s) oid buy p = 0).
Proof.
  intros H. destruct (store_reach msgs H) as (s & E & [Hnd Ho Hb] & Eo). exists s.
  split_and!; [done|done|done|done| |].
  - intros oid b buy p Hl. specialize (Hb oid). rewrite Hl in Hb. destruct Hb as [_ Hb].
    destruct (Hb buy) as [_ _ Hq]. unfold qty_at. rewrite Hq. zcases; cbn; lia.
  - intros oid buy p Hl. specialize (Hb oid). by rewrite Hl in Hb.
Qed.

Definition demo_feed : list message := [
  OrderAdded 1 11 "B" 500 "7203" "DAY" 20000; OrderAdded 2 12 "B" 300 "7203" "DAY" 20000;
  OrderAdded 3 13 "B" 100 "7203" "DAY" 20010; OrderAddedWithAttributes 4 14 "S" 200 "7203" "DAY" 20050 "" "";
  OrderExecuted 5 11 200 901; OrderReplaced 6 12 15 400 20010; OrderDeleted 7 14; OrderExecuted 8 99 1 902].

Lemma store_sound_witness :
  forallb feed_ok demo_feed = true /\
  exists s, store_run demo_feed store_init = (s, Ok ()) /\
    orders s = foldl (fun os m => spec_orders m os) [] demo_feed.
Proof.
  split; [vm_compute; reflexivity|].
  destruct (store_sound demo_feed ltac:(vm_compute; reflexivity)) as (s & E & Eo & _).
  exists s. split; assumption.
Defined.

(** After any such feed the views of a book are its non-zero aggregated levels,
    each price once: bids from the highest price down, asks from the lowest up,
    and [top] is the first [depth] of each. *)
Theorem book_views_sound msgs oid depth : forallb feed_ok msgs = true ->
  exists s b bids asks, store_run msgs store_init = (s, Ok ()) /\ snd (get_book oid s) = Ok b /\
    bid_levels b None = Ok bids /\ lists_levels Z.gt (level_qty (orders s) oid true) bids /\
    ask_levels b None = Ok asks /\ lists_levels Z.lt (level_qty (orders s) oid false) asks /\
    top b depth = Ok (take depth bids, take depth asks) /\
    best_bid b = Ok (head bids) /\ best_ask b = Ok (head asks).
Proof.
  intros H. destruct (store_reach msgs H) as (s & E & Hs & _).
  destruct (get_book_levels s oid Hs) as (b & l & l' & Eb & E1 & H1 & E2 & H2).
  exists s, b, (reverse l), l'. rewrite Eb. unfold top, best_bid, best_ask, bid_levels, ask_levels.
  rewrite E1, E2. cbn [mbind res_bind cut_depth].
  split_and!; [done|done|done|by apply lists_levels_reverse|done|done|done| |].
  - by destruct (reverse l).
  - by destruct l'.
Qed.

Lemma book_views_sound_witness :
  exists s b bids asks, store_run demo_feed store_init = (s, Ok ()) /\
    snd (get_book "7203" s) = Ok b /\
    bid_levels b None = Ok bids /\ ask_levels b None = Ok asks /\ top b 1 = Ok (take 1 bids, take 1 asks).
Proof.
  destruct (book_views_sound demo_feed "7203" 1 ltac:(vm_compute; reflexivity))
    as (s & b & bids & asks & E1 & E2 & E3 & _ & E4 & _ & E5 & _).
  exists s, b, bids, asks. repeat split; assumption.
Defined.

Example demo_views :
  (b ← snd (get_book "7203" (fst (store_run demo_feed store_init))); top b 5)
  = Ok ([(20010, 500); (20000, 300)], []).
Proof. vm_compute. reflexivity. Qed.

(** Shares of the live orders. *)
Definition live_qty (s : OrderBookStore) : Z := dsum o_remaining_qty (orders s).

(** C23. An execution takes out exactly what it reports: never more than the order had
    left, the order leaves the book when nothing is left, and live plus executed
    shares are conserved. *)
Theorem execute_conserves s ns n q mn o : store_inv s -> 0 <= q -> dget n (orders s) = Some o ->
  exists s' x, store_apply (OrderExecuted ns n q mn) s = (s', Ok (Some x)) /\ store_inv s' /\
    ex_qty x = Z.min (o_remaining_qty o) q /\ ex_price x = o_price o /\ ex_match_number x = mn /\
    live_qty s' + executed_volume s' = live_qty s + executed_volume s /\
    executed_volume s' = executed_volume s + ex_qty x /\
    option_map o_remaining_qty (dget n (orders s')) =
      (if o_remaining_qty o <=? q then None else Some (o_remaining_qty o - q)).
Proof.
  intros Hs Hq E. destruct (execute_ok s n q mn o Hs Hq E) as (s' & E1 & Hs' & Eo & Ev & _).
  exists s'. cbn [store_apply]. rewrite E1. cbn [spec_execution spec_orders] in *. rewrite E in *. cbn in *.
  eexists. split; [done|]. cbn. unfold live_qty, clamp_exec in *. rewrite Eo, Ev.
  destruct (Z.leb_spec (o_remaining_qty o) q).
  - rewrite (dsum_dremove _ n o) by done. rewrite dget_dremove_eq by apply Hs.
    split_and!; [done|done|done|done|lia|lia|done].
  - rewrite (dsum_old _ n _ o) by done. rewrite dget_dset_eq. cbn.
    split_and!; [done|done|done|done|lia|lia|done].
Qed.

Lemma execute_conserves_witness :
  let s := fst (store_run [OrderAdded 1 11 "B" 500 "7203" "DAY" 20000] store_init) in
  exists s' x, store_apply (OrderExecuted 2 11 900 7) s = (s', Ok (Some x)) /\ ex_qty x = 500.
Proof.
  intros s.
  assert (store_inv s) as Hs.
  { unfold s. destruct (store_reach [OrderAdded 1 11 "B" 500 "7203" "DAY" 20000] eq_refl) as (s1 & E & H & _).
    rewrite E. exact H. }
  destruct (execute_conserves s 2 11 900 7 (mkOrder 11 "7203" "DAY" "B" 20000 500) Hs)
    as (s' & x & E & _ & Eq & _); [lia|vm_compute; reflexivity|].
  exists s', x. split; [exact E|]. rewrite Eq. reflexivity.
Defined.

(** Executions, deletions and replacements of unknown orders only bump their
    counter, and a reference-price add never touches the book. *)
Theorem orphans_only_counted s :
  (forall ns n q mn, dget n (orders s) = None ->
     store_apply (OrderExecuted ns n q mn) s = (add_orphan_execute s, Ok None)) /\
  (forall ns n, dget n (orders s) = None ->
     store_apply (OrderDeleted ns n) s = (add_orphan_delete s, Ok None)) /\
  (forall ns n n' q p, dget n (orders s) = None ->
     store_apply (OrderReplaced ns n n' q p) s = (add_orphan_replace s, Ok None)) /\
  (forall ns side q oid g p,
     store_apply (OrderAdded ns 0 side q oid g p) s = (add_ref_price s, Ok None)) /\
  Forall (fun f => orders (f s) = orders s /\ books (f s) = books s)
    [add_orphan_execute; add_orphan_delete; add_orphan_replace; add_ref_price].
Proof.
  split_and!; intros; cbn [store_apply]; unfold _execute, _delete, _replace; munfold;
    rewrite ?H; try done. by repeat constructor.
Qed.

(** Two live orders of zero shares at one price: the first deletion drops the
    price level, the second raises KeyError. *)
Theorem zero_qty_delete_raises :
  snd (store_run [OrderAdded 1 1 "B" 0 "7203" "DAY" 100; OrderAdded 2 2 "B" 0 "7203" "DAY" 100;
                  OrderDeleted 3 1; OrderDeleted 4 2] store_init) = Raise KeyError.
Proof. vm_compute. reflexivity. Qed.
