(* ===== verification/RefData.v ===== *)
(** jnxfeed/book/refdata.py: instruments, tick tables and session events.

    The instruments are an insertion-ordered dictionary, as in the source (the
    views and the snapshot builder iterate over it); the tick tables are a map,
    which the code reads by key or sorted by key. *)
From S2P Require Export Itch PyBisect.

Record Instrument : Type := mkInstrument {
  i_orderbook_id : str; i_isin : option str; i_group : option str; i_round_lot : option Z;
  i_tick_table_id : option Z; i_price_decimals : option Z; i_upper_limit : option Z;
  i_lower_limit : option Z; i_trading_state : str; i_short_sell_state : str;
  i_reference_price : option Z; i_directory_missing : bool }.

#[export] Instance Instrument_eq_dec : EqDecision Instrument.
Proof. solve_decision. Defined.

Definition instrument_init (orderbook_id : str) : Instrument :=
  mkInstrument orderbook_id None None None None None None None
    DEFAULT_TRADING_STATE DEFAULT_SHORT_SELL_STATE None true.

(** * TickTable *)

Record TickTable : Type := mkTickTable {
  t_tick_table_id : Z; t_starts : list Z; t_sizes : list Z }.

Definition tick_init (tick_table_id : Z) : TickTable := mkTickTable tick_table_id [] [].

Definition tick_add (price_start tick_size : Z) (t : TickTable) : res TickTable :=
  let i := bisect_left (t_starts t) price_start in
  if (i <? length (t_starts t))%nat && (nth i (t_starts t) 0 =? price_start) then
    sizes ← set_at i tick_size (t_sizes t);
    Ok (mkTickTable (t_tick_table_id t) (t_starts t) sizes)
  else
    Ok (mkTickTable (t_tick_table_id t) (insert_at i price_start (t_starts t))
          (insert_at i tick_size (t_sizes t))).

Definition tick_size (t : TickTable) (price : Z) : res (option Z) :=
  match bisect_right (t_starts t) price with
  | O => Ok None
  | S i => Some <$> get_at i (t_sizes t)
  end.

Definition rows (t : TickTable) : list (Z * Z) := zip (t_starts t) (t_sizes t).
Definition tick_len (t : TickTable) : Z := zlen (t_starts t).

Definition compute_ssp (restricted : str) (base_price last_price : option Z) (uptick : bool)
    (tick_table : option TickTable) : res Z :=
  if negb (bool_decide (restricted = SHORT_SELL_RESTRICTED)) then Ok 0
  else
    match (match last_price with Some p => Some p | None => base_price end) with
    | None => Ok NO_PRICE
    | Some ltp =>
        if ltp =? NO_PRICE then Ok NO_PRICE
        else if uptick then Ok ltp
        else
          tick ← match tick_table with Some t => tick_size t ltp | None => Ok None end;
          match tick with None => Ok NO_PRICE | Some k => Ok (ltp + k) end
    end.

(** * RefData *)

Record RefData : Type := mkRefData {
  instruments : list (str * Instrument);
  tick_tables : gmap Z TickTable;
  system_events : list (Z * str * str) }.

Definition refdata_init : RefData := mkRefData [] ∅ [].

Definition set_instruments (d : list (str * Instrument)) (r : RefData) : RefData :=
  mkRefData d (tick_tables r) (system_events r).
Definition set_tick_tables (d : gmap Z TickTable) (r : RefData) : RefData :=
  mkRefData (instruments r) d (system_events r).

(** [get]: the instrument, created [directory_missing] on first reference. *)
Definition refdata_get (orderbook_id : str) : M RefData Instrument := fun r =>
  match dget orderbook_id (instruments r) with
  | Some inst => (r, Ok inst)
  | None =>
      let inst := instrument_init orderbook_id in
      (set_instruments (dset orderbook_id inst (instruments r)) r, Ok inst)
  end.

Definition refdata_tick_table (tick_table_id : Z) : M RefData TickTable := fun r =>
  match tick_tables r !! tick_table_id with
  | Some t => (r, Ok t)
  | None =>
      let t := tick_init tick_table_id in
      (set_tick_tables (<[tick_table_id := t]> (tick_tables r)) r, Ok t)
  end.

Definition refdata_tick_size (r : RefData) (orderbook_id : str) (price : Z) : res (option Z) :=
  match dget orderbook_id (instruments r) with
  | None => Ok None
  | Some inst =>
      match i_tick_table_id inst with
      | None => Ok None
      | Some id =>
          match tick_tables r !! id with
          | None => Ok None
          | Some t => tick_size t price
          end
      end
  end.

(** [inst = self.get(orderbook_id)] followed by assignments to [inst]'s fields. *)
Definition update_instrument (orderbook_id : str) (f : Instrument -> Instrument) : M RefData () :=
  inst ← refdata_get orderbook_id;
  mmod (fun r => set_instruments (dset orderbook_id (f inst) (instruments r)) r).

Definition set_directory (isin group : str) (round_lot tick_table_id price_decimals upper lower : Z)
    (i : Instrument) : Instrument :=
  mkInstrument (i_orderbook_id i) (Some isin) (Some group) (Some round_lot) (Some tick_table_id)
    (Some price_decimals) (Some upper) (Some lower) (i_trading_state i) (i_short_sell_state i)
    (i_reference_price i) false.
(** [if inst.group is None: inst.group = group] *)
Definition fill_group (group : str) (i : Instrument) : option str :=
  match i_group i with None => Some group | g => g end.
Definition set_trading_state (group state : str) (i : Instrument) : Instrument :=
  mkInstrument (i_orderbook_id i) (i_isin i) (fill_group group i) (i_round_lot i) (i_tick_table_id i)
    (i_price_decimals i) (i_upper_limit i) (i_lower_limit i) state (i_short_sell_state i)
    (i_reference_price i) (i_directory_missing i).
Definition set_short_sell_state (group state : str) (i : Instrument) : Instrument :=
  mkInstrument (i_orderbook_id i) (i_isin i) (fill_group group i) (i_round_lot i) (i_tick_table_id i)
    (i_price_decimals i) (i_upper_limit i) (i_lower_limit i) (i_trading_state i) state
    (i_reference_price i) (i_directory_missing i).
Definition set_reference_price (group : str) (price : Z) (i : Instrument) : Instrument :=
  mkInstrument (i_orderbook_id i) (i_isin i) (fill_group group i) (i_round_lot i) (i_tick_table_id i)
    (i_price_decimals i) (i_upper_limit i) (i_lower_limit i) (i_trading_state i) (i_short_sell_state i)
    (Some price) (i_directory_missing i).

Definition refdata_apply (msg : message) : M RefData bool :=
  match msg with
  | OrderbookDirectory _ oid isin group round_lot tick_table_id price_decimals upper lower =>
      update_instrument oid
        (set_directory isin group round_lot tick_table_id price_decimals upper lower) ;;
      mret true
  | PriceTickSize _ tick_table_id tick_size price_start =>
      t ← refdata_tick_table tick_table_id;
      t' ← mlift (tick_add price_start tick_size t);
      mmod (fun r => set_tick_tables (<[tick_table_id := t']> (tick_tables r)) r) ;;
      mret true
  | TradingState _ oid group state =>
      update_instrument oid (set_trading_state group state) ;; mret true
  | ShortSellRestriction _ oid group state =>
      update_instrument oid (set_short_sell_state group state) ;; mret true
  | SystemEvent ns group event =>
      mmod (fun r => mkRefData (instruments r) (tick_tables r) (system_events r ++ [(ns, group, event)])) ;;
      mret true
  | OrderAdded _ order_number _ _ oid group price =>
      if order_number =? 0 then
        update_instrument oid (set_reference_price group price) ;; mret true
      else mret false
  | _ => mret false
  end.

Definition is_reference_price (msg : message) : bool :=
  match msg with OrderAdded _ order_number _ _ _ _ _ => order_number =? 0 | _ => false end.

(** * Lemmas: a tick table stands for a finite map from starts to sizes *)

Record tick_rep (t : TickTable) (m : gmap Z Z) : Prop := {
  tr_sorted : sorted (t_starts t);
  tr_len : length (t_sizes t) = length (t_starts t);
  tr_look : forall i s z, t_starts t !! i = Some s -> t_sizes t !! i = Some z -> m !! s = Some z;
  tr_dom : forall s, is_Some (m !! s) <-> s ∈ t_starts t }.

Lemma tick_init_rep id : tick_rep (tick_init id) ∅.
Proof.
  split; cbn; [constructor|done|done|]. intros s. rewrite lookup_empty.
  split; [by intros [? ?]|intros H; by apply elem_of_nil in H].
Qed.

Lemma lookup_insert_at {A} (i j : nat) (x y : A) l : (i <= length l)%nat ->
  insert_at i x l !! j = Some y ->
  (j < i /\ l !! j = Some y)%nat \/ (j = i /\ y = x) \/ (i < j /\ l !! (j - 1)%nat = Some y)%nat.
Proof.
  intros Hi. unfold insert_at. intros H. apply lookup_app_Some in H as [H|[Hge H]].
  - apply lookup_take_Some in H as [? ?]. left. by split.
  - rewrite length_take in *. replace (i `min` length l)%nat with i in * by lia.
    destruct (j - i)%nat as [|k] eqn:E.
    + right. left. split; [lia|]. cbn in H. congruence.
    + right. right. split; [lia|]. change (drop i l !! k = Some y) in H. rewrite lookup_drop in H. rewrite <- H. f_equal. lia.
Qed.

Lemma insert_at_lookup_eq {A} i (x : A) l : (i <= length l)%nat -> insert_at i x l !! i = Some x.
Proof. intros Hi. unfold insert_at. by rewrite list_lookup_middle by (rewrite length_take; lia). Qed.

Lemma sorted_lookup_inj l i j x : sorted l -> l !! i = Some x -> l !! j = Some x -> i = j.
Proof.
  intros Hs Hi Hj. pose proof (lookup_lt_Some _ _ _ Hi). pose proof (lookup_lt_Some _ _ _ Hj).
  apply (nth_lookup_Some _ _ 0) in Hi, Hj.
  destruct (Nat.lt_trichotomy i j) as [?|[?|?]]; [|done|];
    [pose proof (sorted_nth l i j Hs)|pose proof (sorted_nth l j i Hs)]; lia.
Qed.

Lemma tick_replace_rep t m s z i : tick_rep t m -> t_starts t !! i = Some s ->
  tick_rep (mkTickTable (t_tick_table_id t) (t_starts t) (<[i := z]> (t_sizes t))) (<[s := z]> m).
Proof.
  intros [Hs Hl Hk Hd] Hi. split; cbn; [done|by rewrite length_insert| |].
  - intros j s' z' H1 H2. rewrite lookup_insert.
    apply list_lookup_insert_Some in H2 as [(<- & -> & _)|[Hne H2]].
    + rewrite Hi in H1. injection H1 as <-. by rewrite decide_True.
    + rewrite decide_False; [by eapply Hk|]. intros <-. apply Hne. by eapply sorted_lookup_inj.
  - intros s'. rewrite lookup_insert. case_decide; [|apply Hd].
    subst. split; [|by eexists]. intros _. by eapply list_elem_of_lookup_2.
Qed.

Lemma tick_insert_rep t m s z i : tick_rep t m -> s ∉ t_starts t ->
  split_at (fun a => a <? s) (t_starts t) i ->
  tick_rep (mkTickTable (t_tick_table_id t) (insert_at i s (t_starts t)) (insert_at i z (t_sizes t)))
    (<[s := z]> m).
Proof.
  intros [Hs Hl Hk Hd] Hin (Hi & H1 & H2).
  assert (forall k s', t_starts t !! k = Some s' -> s <> s') as Hne.
  { intros k s' Hk' <-. apply Hin. by eapply list_elem_of_lookup_2. }
  split; cbn; [|by rewrite !insert_at_length, Hl| |].
  - apply insert_at_sorted; [done| |].
    + eapply Forall_impl; [exact H1|]. cbn. intros; by apply Z.ltb_lt.
    + rewrite Forall_forall in H2 |- *. intros a Ha. specialize (H2 a Ha). cbn in H2.
      assert (a <> s); [|lia]. intros ->. apply Hin. rewrite <- (take_drop i (t_starts t)). set_solver.
  - intros j s' z' Hj1 Hj2. apply lookup_insert_at in Hj1, Hj2; [|lia|lia].
    destruct Hj1 as [[? Ha]|[[? Ha]|[? Ha]]], Hj2 as [[? Hb]|[[? Hb]|[? Hb]]]; try lia; subst.
    + rewrite lookup_insert_ne by by eapply Hne. by eapply Hk.
    + by rewrite lookup_insert_eq.
    + rewrite lookup_insert_ne by by eapply Hne. by eapply Hk.
  - intros s'. rewrite insert_at_elem, lookup_insert, <- Hd. case_decide; subst.
    + split; [by left|by eexists].
    + split; [by right|]. intros [->|?]; done.
Qed.

Lemma tick_add_rep t m s z : tick_rep t m ->
  exists t', tick_add s z t = Ok t' /\ t_tick_table_id t' = t_tick_table_id t /\ tick_rep t' (<[s := z]> m).
Proof.
  intros H. pose proof H as [Hs Hl _ _]. unfold tick_add.
  destruct (decide (s ∈ t_starts t)) as [Hin|Hin].
  - pose proof (bisect_left_found _ _ Hs Hin) as Hf. pose proof (lookup_lt_Some _ _ _ Hf).
    rewrite (proj2 (Nat.ltb_lt _ _)) by done. rewrite (nth_lookup_Some _ _ 0 _ Hf), Z.eqb_refl. cbn [andb].
    unfold set_at. rewrite decide_True by lia. eexists. split_and!; [done|done|]. by apply tick_replace_rep.
  - destruct ((bisect_left (t_starts t) s <? length (t_starts t))%nat && _) eqn:E.
    { exfalso. apply andb_true_iff in E as [E1 E2]. apply Nat.ltb_lt in E1. apply Z.eqb_eq in E2.
      apply Hin. rewrite <- E2. by apply nth_elem_of. }
    eexists. split_and!; [done|done|]. apply tick_insert_rep; [done|done|]. by apply bisect_left_split.
Qed.

(** Two tables that stand for the same map are the same table. *)
Lemma tick_rep_inj t t' m : t_tick_table_id t = t_tick_table_id t' -> tick_rep t m -> tick_rep t' m -> t = t'.
Proof.
  intros Hid [Hs Hl Hk Hd] [Hs' Hl' Hk' Hd']. destruct t as [id st sz], t' as [id' st' sz']; cbn in *. subst id'.
  assert (st = st') as <-. { apply sorted_ext; [done|done|]. intros x. by rewrite <- Hd, <- Hd'. }
  f_equal. apply list_eq_same_length with (n := length st); [lia|lia|].
  intros i x y Hi Hx Hy. destruct (lookup_lt_is_Some_2 st i Hi) as [s Es].
  specialize (Hk i s x Es Hx). specialize (Hk' i s y Es Hy). congruence.
Qed.

(** The tick size in effect: the row with the greatest start not above the price. *)
Definition tick_spec (m : gmap Z Z) (price : Z) (r : option Z) : Prop :=
  match r with
  | Some z => exists s, m !! s = Some z /\ s <= price /\ forall s', is_Some (m !! s') -> s' <= price -> s' <= s
  | None => forall s, is_Some (m !! s) -> price < s
  end.

Lemma tick_size_rep t m p : tick_rep t m -> exists r, tick_size t p = Ok r /\ tick_spec m p r.
Proof.
  intros [Hs Hl Hk Hd]. unfold tick_size.
  destruct (bisect_right_split (t_starts t) p Hs) as (Hi & H1 & H2).
  destruct (bisect_right (t_starts t) p) as [|i].
  - exists None. split; [done|]. intros s Hin%Hd. rewrite Forall_forall in H2. rewrite drop_0 in H2.
    specialize (H2 s Hin). cbn in H2. zcases; [done|done].
  - destruct (lookup_lt_is_Some_2 (t_starts t) i ltac:(lia)) as [s Es].
    destruct (lookup_lt_is_Some_2 (t_sizes t) i ltac:(lia)) as [z Ez].
    exists (Some z). unfold get_at. rewrite Ez. split; [done|]. exists s. split; [by eapply Hk|].
    assert (forall x, x ∈ take (S i) (t_starts t) -> x <= s) as Hmax.
    { intros x [j Hj]%list_elem_of_lookup. apply lookup_take_Some in Hj as [Hj ?].
      destruct (decide (j = i)) as [->|]; [rewrite Hj in Es; injection Es; lia|].
      pose proof (sorted_nth _ j i Hs) as Hlt.
      rewrite (nth_lookup_Some _ _ 0 _ Hj), (nth_lookup_Some _ _ 0 _ Es) in Hlt. lia. }
    rewrite Forall_forall in H1, H2. split.
    + assert (s ∈ take (S i) (t_starts t)) as Hin.
      { apply list_elem_of_lookup. exists i. apply lookup_take_Some. by split; [|lia]. }
      specialize (H1 s Hin). cbn in H1. zcases; [done|lia].
    + intros s' Hin%Hd Hp. rewrite <- (take_drop (S i) (t_starts t)) in Hin.
      apply elem_of_app in Hin as [Hin|Hin]; [by apply Hmax|]. specialize (H2 s' Hin). cbn in H2.
      destruct (Z.ltb_spec p s'); [lia|done].
Qed.

(** * Lemmas: one message on the instruments and on the tick tables *)

(** The instrument a message updates, and how. *)
Definition inst_update (m : message) : option (str * (Instrument -> Instrument)) :=
  match m with
  | OrderbookDirectory _ oid isin group lot tid dec upper lower =>
      Some (oid, set_directory isin group lot tid dec upper lower)
  | TradingState _ oid group state => Some (oid, set_trading_state group state)
  | ShortSellRestriction _ oid group state => Some (oid, set_short_sell_state group state)
  | OrderAdded _ n _ _ oid group price =>
      if n =? 0 then Some (oid, set_reference_price group price) else None
  | _ => None
  end.

Definition inst_apply (m : message) (d : list (str * Instrument)) : list (str * Instrument) :=
  match inst_update m with
  | Some (oid, f) => dset oid (f (default (instrument_init oid) (dget oid d))) d
  | None => d
  end.

Lemma update_instrument_eq oid f r :
  update_instrument oid f r =
  (set_instruments (dset oid (f (default (instrument_init oid) (dget oid (instruments r)))) (instruments r)) r,
   Ok ()).
Proof.
  unfold update_instrument, refdata_get. munfold. destruct (dget oid (instruments r)) eqn:E; cbn; [done|].
  by rewrite dset_dset.
Qed.

(** The rows [L] messages have set, per table. *)
Definition tick_rows (tabs : gmap Z TickTable) (T : gmap Z (gmap Z Z)) : Prop :=
  forall id, match tabs !! id, T !! id with
    | Some t, Some m => t_tick_table_id t = id /\ tick_rep t m
    | None, None => True
    | _, _ => False
    end.

Definition tick_apply (m : message) (T : gmap Z (gmap Z Z)) : gmap Z (gmap Z Z) :=
  match m with
  | PriceTickSize _ id size start => <[id := <[start := size]> (default ∅ (T !! id))]> T
  | _ => T
  end.

Definition is_refdata (m : message) : bool :=
  match m with
  | OrderbookDirectory _ _ _ _ _ _ _ _ _ | PriceTickSize _ _ _ _ | TradingState _ _ _ _
  | ShortSellRestriction _ _ _ _ | SystemEvent _ _ _ => true
  | _ => is_reference_price m
  end.

Lemma refdata_apply_eq m r T : tick_rows (tick_tables r) T ->
  exists r', refdata_apply m r = (r', Ok (is_refdata m)) /\
    instruments r' = inst_apply m (instruments r) /\ tick_rows (tick_tables r') (tick_apply m T).
Proof.
  intros HT. destruct m as [| |ns id size start| | | |ns n side qty oid g p| | | | |];
    cbn [refdata_apply is_refdata is_reference_price inst_apply inst_update tick_apply]; unfold inst_apply;
    cbn [inst_update]; try (eexists; split; [reflexivity|done]);
    try (eexists; munfold; rewrite update_instrument_eq; split; [reflexivity|done]).
  - unfold refdata_tick_table. munfold. pose proof (HT id) as Hid.
    destruct (tick_tables r !! id) as [t|] eqn:Et, (T !! id) as [m|] eqn:Em; try done; cbn [default].
    + destruct Hid as [Hid Hrep]. destruct (tick_add_rep t m start size Hrep) as (t' & -> & Hid' & Hrep').
      eexists. split; [done|]. split; [done|]. intros id'. cbn. rewrite !lookup_insert.
      case_decide; [subst; split; [congruence|done]|apply HT].
    + destruct (tick_add_rep (tick_init id) ∅ start size (tick_init_rep id)) as (t' & -> & Hid' & Hrep').
      eexists. split; [done|]. split; [done|]. intros id'. cbn. rewrite !lookup_insert.
      case_decide; [subst; split; [done|done]|apply HT].
  - destruct (n =? 0); munfold; [rewrite update_instrument_eq|]; eexists; by split.
Qed.

Definition refdata_run (msgs : list message) : M RefData () :=
  mfor msgs (fun m => refdata_apply m ;; mret ()).

Lemma refdata_run_eq msgs r T : tick_rows (tick_tables r) T ->
  exists r', refdata_run msgs r = (r', Ok ()) /\
    instruments r' = foldl (fun d m => inst_apply m d) (instruments r) msgs /\
    tick_rows (tick_tables r') (foldl (fun T m => tick_apply m T) T msgs).
Proof.
  revert r T. induction msgs as [|m msgs IH]; intros r T HT; [by exists r|].
  destruct (refdata_apply_eq m r T HT) as (r1 & E1 & Ei & HT1).
  destruct (IH r1 _ HT1) as (r2 & E2 & Ei2 & HT2).
  exists r2. unfold refdata_run in *. cbn [mfor foldl]. munfold. rewrite E1, E2, Ei2, Ei. done.
Qed.

Lemma tick_rows_init : tick_rows (tick_tables refdata_init) ∅.
Proof. intros id. cbn. by rewrite !lookup_empty. Qed.

(** Tables that hold the same rows are equal. *)
Lemma tick_rows_inj tabs tabs' T : tick_rows tabs T -> tick_rows tabs' T -> tabs = tabs'.
Proof.
  intros H H'. apply map_eq. intros id. specialize (H id). specialize (H' id).
  destruct (tabs !! id) as [t|], (tabs' !! id) as [t'|], (T !! id) as [m|]; try done.
  destruct H as [E H], H' as [E' H']. f_equal. eapply tick_rep_inj; [congruence|done|done].
Qed.

(** Every instrument is stored under its own id and has a group. *)
Definition insts_ok (d : list (str * Instrument)) : Prop :=
  NoDup (dkeys d) /\ forall k i, dget k d = Some i -> i_orderbook_id i = k /\ is_Some (i_group i).

Lemma inst_update_id m oid f i : inst_update m = Some (oid, f) ->
  i_orderbook_id (f i) = i_orderbook_id i /\ is_Some (i_group (f i)).
Proof.
  destruct m; cbn; try done; try (case_match; [|done]); intros [= <- <-]; cbn;
    (split; [done|]); try by eexists; unfold fill_group; destruct (i_group i); by eexists.
  all: unfold fill_group; destruct (i_group i); by eexists.
Qed.

Lemma inst_apply_ok m d : insts_ok d -> insts_ok (inst_apply m d).
Proof.
  intros [Hnd Hd]. unfold inst_apply. destruct (inst_update m) as [[oid f]|] eqn:E; [|done].
  split; [by apply NoDup_dset|]. intros k i. rewrite dget_dset. case_decide; [|apply Hd].
  intros [= <-]. subst k. destruct (inst_update_id m oid f (default (instrument_init oid) (dget oid d)) E) as [-> ?].
  split; [|done]. destruct (dget oid d) eqn:Eo; cbn; [by apply Hd in Eo as [? _]|done].
Qed.

Lemma insts_run_ok msgs d : insts_ok d -> insts_ok (foldl (fun d m => inst_apply m d) d msgs).
Proof. revert d. induction msgs as [|m msgs IH]; intros d Hd; cbn; [done|]. by apply IH, inst_apply_ok. Qed.

Lemma insts_init_ok : insts_ok [].
Proof. split; [constructor|done]. Qed.

(** * Properties *)

(** The rows of table [id] after a feed: the last size sent for each start. *)
Definition rows_of (msgs : list message) (id : Z) : gmap Z Z :=
  foldl (fun m msg =>
    match msg with
    | PriceTickSize _ id' size start => if id' =? id then <[start := size]> m else m
    | _ => m
    end) ∅ msgs.

Lemma rows_of_run msgs T id :
  default ∅ (foldl (fun T m => tick_apply m T) T msgs !! id) =
  foldl (fun m msg =>
    match msg with
    | PriceTickSize _ id' size start => if id' =? id then <[start := size]> m else m
    | _ => m
    end) (default ∅ (T !! id)) msgs.
Proof.
  revert T. induction msgs as [|m msgs IH]; intros T; cbn; [done|]. rewrite IH. f_equal.
  destruct m; cbn [tick_apply]; try done. rewrite lookup_insert.
  case_decide; zcases; subst; done.
Qed.

(** Reference data never raises, whatever the feed; a known table answers with the
    size of the greatest start not above the price, for rows sent in any order,
    and [None] exactly below every start. *)
Theorem tick_size_sound msgs id price :
  exists r, refdata_run msgs refdata_init = (r, Ok ()) /\
    match tick_tables r !! id with
    | Some t => exists z, tick_size t price = Ok z /\ tick_spec (rows_of msgs id) price z
    | None => rows_of msgs id = ∅
    end.
Proof.
  destruct (refdata_run_eq msgs refdata_init ∅ tick_rows_init) as (r & E & _ & HT).
  exists r. split; [done|]. specialize (HT id). pose proof (rows_of_run msgs ∅ id) as Er.
  rewrite lookup_empty in Er. cbn [default] in Er. fold (rows_of msgs id) in Er. rewrite <- Er.
  destruct (tick_tables r !! id) as [t|], (foldl _ ∅ msgs !! id) as [m|]; try done.
  destruct HT as [_ HT]. by apply tick_size_rep.
Qed.

Example tick_size_demo :
  (t ← of_option KeyError (tick_tables (fst (refdata_run
     [PriceTickSize 0 1 50 30000; PriceTickSize 0 1 1 0; PriceTickSize 0 1 10 10000; PriceTickSize 0 1 5 10000]
     refdata_init)) !! 1); rmap (tick_size t) [-1; 0; 9999; 10000; 29999; 30000; 99999])
  = Ok [None; Some 1; Some 1; Some 5; Some 5; Some 50; Some 50].
Proof. vm_compute. reflexivity. Qed.

(** The last value [f] reads from a feed. *)
Definition last_of {B} (f : message -> option B) (msgs : list message) : option B :=
  foldl (fun acc m => match f m with Some b => Some b | None => acc end) None msgs.

Definition h_state (oid : str) (m : message) : option str :=
  match m with TradingState _ o _ s => if decide (o = oid) then Some s else None | _ => None end.
Definition y_state (oid : str) (m : message) : option str :=
  match m with ShortSellRestriction _ o _ s => if decide (o = oid) then Some s else None | _ => None end.
Definition ref_price (oid : str) (m : message) : option Z :=
  match m with
  | OrderAdded _ n _ _ o _ p => if decide (n = 0 /\ o = oid) then Some p else None
  | _ => None
  end.
Definition r_entry (oid : str) (m : message) : option (str * str * Z * Z * Z * Z * Z) :=
  match m with
  | OrderbookDirectory _ o isin g lot tid dec up lo =>
      if decide (o = oid) then Some (isin, g, lot, tid, dec, up, lo) else None
  | _ => None
  end.

(** What the record of [oid] must say after a feed: the last state, restriction
    and reference price sent, the session defaults before any, and the last
    directory entry. *)
Definition inst_spec (msgs : list message) (oid : str) (i : Instrument) : Prop :=
  i_orderbook_id i = oid /\
  i_trading_state i = default DEFAULT_TRADING_STATE (last_of (h_state oid) msgs) /\
  i_short_sell_state i = default DEFAULT_SHORT_SELL_STATE (last_of (y_state oid) msgs) /\
  i_reference_price i = last_of (ref_price oid) msgs /\
  match last_of (r_entry oid) msgs with
  | Some (isin, g, lot, tid, dec, up, lo) =>
      i_directory_missing i = false /\ i_group i = Some g /\ i_isin i = Some isin /\
      i_round_lot i = Some lot /\ i_tick_table_id i = Some tid /\ i_price_decimals i = Some dec /\
      i_upper_limit i = Some up /\ i_lower_limit i = Some lo
  | None => i_directory_missing i = true /\ i_isin i = None /\ i_tick_table_id i = None
  end.

Definition mentions (oid : str) (m : message) : bool :=
  match inst_update m with Some (o, _) => bool_decide (o = oid) | None => false end.

Lemma last_of_snoc {B} (f : message -> option B) msgs m :
  last_of f (msgs ++ [m]) = match f m with Some b => Some b | None => last_of f msgs end.
Proof. unfold last_of. by rewrite foldl_app. Qed.

Lemma inst_spec_step msgs oid i m f :
  inst_spec msgs oid i -> inst_update m = Some (oid, f) -> inst_spec (msgs ++ [m]) oid (f i).
Proof.
  intros (H1 & H2 & H3 & H4 & H5). unfold inst_spec. rewrite !last_of_snoc.
  destruct m as [| | |ns o isin g lot tid dec up lo|ns o g st|ns o g st|ns n side q o g p| | | | |];
    cbn; try done; [..|destruct (Z.eqb_spec n 0); [|done]]; intros [= -> <-]; cbn;
    rewrite ?(decide_True (P := oid = oid)) by done; rewrite ?(decide_True (P := n = 0 /\ oid = oid)) by done;
    split_and!; try done.
  all: destruct (last_of (r_entry oid) msgs) as [[[[[[[? ?] ?] ?] ?] ?] ?]|]; [|done].
  all: unfold fill_group; destruct H5 as (? & Hg & ?); rewrite Hg; done.
Qed.

Lemma inst_spec_other msgs oid i m :
  inst_spec msgs oid i -> mentions oid m = false -> inst_spec (msgs ++ [m]) oid i.
Proof.
  intros H. unfold mentions, inst_spec. rewrite !last_of_snoc.
  destruct m as [| | |ns o isin g lot tid dec up lo|ns o g st|ns o g st|ns n side q o g p| | | | |];
    cbn; try done; [..|destruct (Z.eqb_spec n 0)]; intros Hm; try apply bool_decide_eq_false in Hm;
    rewrite ?decide_False by (try done; naive_solver); done.
Qed.

Lemma inst_spec_init msgs oid : existsb (mentions oid) msgs = false -> inst_spec msgs oid (instrument_init oid).
Proof.
  induction msgs as [|m msgs IH] using rev_ind; [done|].
  rewrite existsb_app. cbn. rewrite orb_false_r. intros [H1 H2]%orb_false_iff. apply inst_spec_other; auto.
Qed.

(** The instrument table holds exactly the books the feed's static messages
    mention, each with the last values sent and the absence defaults. *)
Theorem instruments_sound msgs :
  exists r, refdata_run msgs refdata_init = (r, Ok ()) /\ forall oid,
    match dget oid (instruments r) with
    | Some i => existsb (mentions oid) msgs = true /\ inst_spec msgs oid i
    | None => existsb (mentions oid) msgs = false
    end.
Proof.
  destruct (refdata_run_eq msgs refdata_init ∅ tick_rows_init) as (r & E & Ei & _).
  exists r. split; [done|]. rewrite Ei. clear E Ei. intros oid. cbn [instruments refdata_init].
  induction msgs as [|m msgs IH] using rev_ind; [done|].
  rewrite foldl_app, existsb_app. cbn [foldl existsb]. rewrite orb_false_r.
  set (d := foldl _ [] msgs) in *. unfold inst_apply.
  destruct (mentions oid m) eqn:Em; unfold mentions in Em.
  - destruct (inst_update m) as [[o f]|] eqn:Eu; [|done]. apply bool_decide_eq_true in Em as ->.
    rewrite dget_dset_eq, orb_true_r. split; [done|]. apply inst_spec_step; [|done].
    destruct (dget oid d) as [i|]; cbn; [apply IH|]. by apply inst_spec_init.
  - assert (dget oid (match inst_update m with
      | Some (o, f) => dset o (f (default (instrument_init o) (dget o d))) d | None => d end) = dget oid d) as ->.
    { destruct (inst_update m) as [[o f]|]; [|done]. apply bool_decide_eq_false in Em. by rewrite dget_dset_ne. }
    rewrite orb_false_r. destruct (dget oid d); [|done]. destruct IH. split; [done|].
    by apply inst_spec_other.
Qed.
