(* ===== verification/Tape.v ===== *)
(** jnxfeed/book/tape.py: the rolling trade tape and the statistics per book. *)
From S2P Require Export OrderBook.
From Stdlib Require Export QArith.
#[global] Open Scope Z_scope.

Definition DEFAULT_MAX_ENTRIES : nat := Z.to_nat 10000.
Definition _NS_PER_SECOND : Z := 1000000000.

Record TapeEntry : Type := mkEntry {
  te_timestamp : Z; te_orderbook_id : str; te_price : Z; te_qty : Z; te_match_number : Z }.

#[export] Instance TapeEntry_eq_dec : EqDecision TapeEntry.
Proof. solve_decision. Defined.

Record BookStats : Type := mkStats {
  bs_orderbook_id : str; bs_trade_count : Z; bs_volume : Z; bs_notional : Z;
  bs_last_price : option Z; bs_last_qty : option Z; bs_uptick : bool }.

Definition stats_init (orderbook_id : str) : BookStats := mkStats orderbook_id 0 0 0 None None false.

(** [notional / volume]: the exact quotient; the float rounding is not modelled. *)
Definition vwap (st : BookStats) : option Q :=
  if bs_volume st =? 0 then None
  else Some (inject_Z (bs_notional st) / inject_Z (bs_volume st))%Q.

Definition make_timestamp (seconds ns : Z) : Z := seconds * _NS_PER_SECOND + ns.


Record TradeTape : Type := mkTape {
  max_entries : nat; entries : list TapeEntry; stats : gmap str BookStats;
  trade_count : Z; total_volume : Z }.

Definition tape_init (maxlen : nat) : TradeTape := mkTape maxlen [] ∅ 0 0.

(** The zero/plus/minus tick test of [record]. *)
Definition tick_test (last_price base_price : option Z) (price : Z) (uptick : bool) : bool :=
  let effective_ltp := match last_price with None => base_price | p => p end in
  match effective_ltp with
  | None => uptick
  | Some ltp =>
      if ltp =? NO_PRICE then uptick
      else if price >? ltp then true
      else if price <? ltp then false
      else uptick
  end.

Definition stats_record (execution : Execution) (base_price : option Z) (st : BookStats) : BookStats :=
  mkStats (bs_orderbook_id st) (bs_trade_count st + 1) (bs_volume st + ex_qty execution)
    (bs_notional st + ex_price execution * ex_qty execution)
    (Some (ex_price execution)) (Some (ex_qty execution))
    (tick_test (bs_last_price st) base_price (ex_price execution) (bs_uptick st)).

Definition record (execution : Execution) (timestamp : Z) (base_price : option Z) : M TradeTape TapeEntry :=
  let entry := mkEntry timestamp (ex_orderbook_id execution) (ex_price execution) (ex_qty execution)
                 (ex_match_number execution) in
  mmod (fun t => mkTape (max_entries t) (deque_append (max_entries t) entry (entries t)) (stats t)
                   (trade_count t + 1) (total_volume t + ex_qty execution)) ;;
  mmod (fun t =>
    let st := default (stats_init (ex_orderbook_id execution)) (stats t !! ex_orderbook_id execution) in
    mkTape (max_entries t) (entries t)
      (<[ex_orderbook_id execution := stats_record execution base_price st]> (stats t))
      (trade_count t) (total_volume t)) ;;
  mret entry.

Definition book_stats (t : TradeTape) (orderbook_id : str) : option BookStats := stats t !! orderbook_id.

(** [entries\[-n:\]]; [-0:] is the whole list, and a negative [n] drops [-n] from the front. *)
Definition last_slice {A} (n : Z) (l : list A) : list A :=
  if 0 <? n then drop (length l - Z.to_nat n) l else drop (Z.to_nat (- n)) l.

Definition recent (t : TradeTape) (n : option Z) (orderbook_id : option str) : list TapeEntry :=
  let l := match orderbook_id with
           | None => entries t
           | Some oid => filter (fun e => te_orderbook_id e = oid) (entries t)
           end in
  match n with None => l | Some n => last_slice n l end.

(** * The tape after a sequence of calls *)

(** One call of [record]: the execution, its time and the base price given. *)
Definition call : Type := (Execution * Z * option Z)%type.
Definition entry_of (c : call) : TapeEntry :=
  let '(x, ts, _) := c in mkEntry ts (ex_orderbook_id x) (ex_price x) (ex_qty x) (ex_match_number x).
Definition tape_run (calls : list call) : M TradeTape () :=
  mfor calls (fun c => let '(x, ts, base) := c in record x ts base ;; mret ()).
Definition of_book (oid : str) (calls : list call) : list call :=
  filter (fun c => ex_orderbook_id c.1.1 = oid) calls.

(** The statistics of one book over its own calls. *)
Definition stats_fold (oid : str) (calls : list call) : BookStats :=
  foldl (fun st c => stats_record c.1.1 c.2 st) (stats_init oid) calls.

Record tape_is (t : TradeTape) (calls : list call) : Prop := {
  ti_entries : entries t = lastn (max_entries t) (entry_of <$> calls);
  ti_count : trade_count t = zlen calls;
  ti_volume : total_volume t = zsum ((fun c : call => ex_qty c.1.1) <$> calls);
  ti_stats : forall oid, stats t !! oid =
    match of_book oid calls with [] => None | cs => Some (stats_fold oid cs) end }.

Lemma of_book_snoc oid calls c :
  of_book oid (calls ++ [c]) =
  of_book oid calls ++ (if decide (ex_orderbook_id c.1.1 = oid) then [c] else []).
Proof. unfold of_book. by rewrite filter_app. Qed.

Lemma record_is t calls x ts base : tape_is t calls ->
  exists t', record x ts base t = (t', Ok (entry_of (x, ts, base))) /\
    max_entries t' = max_entries t /\ tape_is t' (calls ++ [(x, ts, base)]).
Proof.
  intros [He Hc Hv Hs]. unfold record. munfold. eexists. split; [done|]. cbn. split; [done|].
  split; cbn.
  - by rewrite He, lastn_append, fmap_app.
  - unfold zlen in *. rewrite length_app. cbn. lia.
  - rewrite fmap_app, zsum_app, Hv. cbn. lia.
  - intros oid. rewrite lookup_insert, of_book_snoc. cbn. case_decide as E.
    + subst oid. rewrite (Hs (ex_orderbook_id x)). unfold stats_fold.
      destruct (of_book (ex_orderbook_id x) calls) as [|c cs]; cbn; [done|].
      by rewrite foldl_app.
    + rewrite app_nil_r. apply Hs.
Qed.

Lemma tape_run_is calls t calls0 : tape_is t calls0 ->
  exists t', tape_run calls t = (t', Ok ()) /\ max_entries t' = max_entries t /\ tape_is t' (calls0 ++ calls).
Proof.
  revert t calls0. induction calls as [|[[x ts] base] calls IH]; intros t calls0 Ht.
  - exists t. by rewrite app_nil_r.
  - destruct (record_is t calls0 x ts base Ht) as (t1 & E1 & Em & H1).
    destruct (IH t1 _ H1) as (t2 & E2 & Em2 & H2). exists t2.
    unfold tape_run in *. cbn [mfor]. munfold. rewrite E1, E2, Em2, Em. by rewrite <- app_assoc in H2.
Qed.

Lemma tape_init_is n : tape_is (tape_init n) [].
Proof. split; cbn; [done|done|done|]. intros oid. by rewrite lookup_empty. Qed.

(** The uptick rule, read off the sequence of prices: the last price that differs
    from the newest one is below it. *)
Definition uptick_ref (prices : list Z) : bool :=
  match reverse prices with
  | [] => false
  | newest :: older =>
      match filter (fun p => p <> newest) older with
      | p :: _ => p <? newest
      | [] => false
      end
  end.

(** The prices the rule compares: the first call's base price, when there is one,
    then the trades. *)
Definition prices_of (calls : list call) : list Z :=
  match calls with
  | [] => []
  | (_, _, base) :: _ =>
      match base with Some p => if p =? NO_PRICE then [] else [p] | None => [] end
      ++ ((fun c : call => ex_price c.1.1) <$> calls)
  end.

Lemma uptick_ref_snoc ps p q : uptick_ref ((ps ++ [p]) ++ [q]) =
  (if q >? p then true else if q <? p then false else uptick_ref (ps ++ [p])).
Proof.
  unfold uptick_ref. rewrite !reverse_app. cbn [reverse rev_append app].
  rewrite filter_cons. rewrite Z.gtb_ltb. case_decide as E.
  - destruct (Z.ltb_spec p q), (Z.ltb_spec q p); try done; lia.
  - subst p. by rewrite Z.ltb_irrefl.
Qed.

Lemma stats_fold_last oid c cs :
  bs_last_price (stats_fold oid (cs ++ [c])) = Some (ex_price c.1.1) /\
  bs_last_qty (stats_fold oid (cs ++ [c])) = Some (ex_qty c.1.1).
Proof. unfold stats_fold. by rewrite foldl_app. Qed.

Lemma prices_of_snoc cs c d : prices_of ((cs ++ [c]) ++ [d]) = prices_of (cs ++ [c]) ++ [ex_price d.1.1].
Proof.
  destruct cs as [|[[x ts] base] cs]; cbn [prices_of app]; [destruct c as [[x ts] base]|];
    rewrite <- ?app_comm_cons; cbn [prices_of app]; rewrite ?fmap_cons, ?fmap_app; cbn;
    rewrite <- ?app_assoc; cbn; rewrite <- ?app_assoc; done.
Qed.

Lemma prices_of_last cs c : exists ps, prices_of (cs ++ [c]) = ps ++ [ex_price c.1.1].
Proof.
  destruct cs as [|[[x ts] base] cs]; cbn.
  - destruct c as [[x ts] base]. cbn. by eexists.
  - rewrite fmap_app. cbn. rewrite app_comm_cons, app_assoc. by eexists.
Qed.

Lemma stats_fold_uptick oid cs :
  Forall (fun c : call => ex_price c.1.1 <> NO_PRICE) cs ->
  bs_uptick (stats_fold oid cs) = uptick_ref (prices_of cs).
Proof.
  induction cs as [|d cs IH] using rev_ind; [done|]. intros [Hcs _]%Forall_app.
  destruct cs as [|c cs _] using rev_ind.
  - destruct d as [[x ts] [base|]]; cbn; [|done]. destruct (base =? NO_PRICE); cbn; [done|].
    symmetry. apply (uptick_ref_snoc [] base (ex_price x)).
  - unfold stats_fold. rewrite foldl_app. cbn [foldl stats_record bs_uptick]. fold (stats_fold oid (cs ++ [c])).
    rewrite (proj1 (stats_fold_last oid c cs)), IH by done. rewrite prices_of_snoc.
    destruct (prices_of_last cs c) as [ps ->]. rewrite uptick_ref_snoc. unfold tick_test.
    apply Forall_app in Hcs as [_ Hc]. rewrite Forall_singleton in Hc. by rewrite (proj2 (Z.eqb_neq _ _) Hc).
Qed.

Lemma stats_fold_sums oid cs :
  bs_trade_count (stats_fold oid cs) = zlen cs /\
  bs_volume (stats_fold oid cs) = zsum ((fun c : call => ex_qty c.1.1) <$> cs) /\
  bs_notional (stats_fold oid cs) = zsum ((fun c : call => ex_price c.1.1 * ex_qty c.1.1) <$> cs).
Proof.
  induction cs as [|c cs IH] using rev_ind; [done|]. destruct IH as (H1 & H2 & H3).
  unfold stats_fold. rewrite foldl_app, !fmap_app, !zsum_app. fold (stats_fold oid cs). cbn.
  unfold zlen in *. rewrite length_app. cbn. lia.
Qed.

(** * Properties *)

(** Whatever the calls: the tape keeps the last [max_entries] trades in order, the
    totals count them all, and each book's statistics are its own counts, sums and
    last price, with the uptick flag the rule defines on its price sequence. *)
Theorem tape_sound maxlen calls :
  Forall (fun c : call => ex_price c.1.1 <> NO_PRICE) calls ->
  exists t, tape_run calls (tape_init maxlen) = (t, Ok ()) /\
    entries t = lastn maxlen (entry_of <$> calls) /\
    trade_count t = zlen calls /\
    total_volume t = zsum ((fun c : call => ex_qty c.1.1) <$> calls) /\
    forall oid, match book_stats t oid with
      | None => of_book oid calls = []
      | Some st =>
          of_book oid calls <> [] /\
          bs_trade_count st = zlen (of_book oid calls) /\
          bs_volume st = zsum ((fun c : call => ex_qty c.1.1) <$> of_book oid calls) /\
          bs_notional st = zsum ((fun c : call => ex_price c.1.1 * ex_qty c.1.1) <$> of_book oid calls) /\
          bs_last_price st = ((fun c : call => ex_price c.1.1) <$> last (of_book oid calls)) /\
          bs_uptick st = uptick_ref (prices_of (of_book oid calls))
      end.
Proof.
  intros Hp. destruct (tape_run_is calls _ [] (tape_init_is maxlen)) as (t & E & Em & [He Hc Hv Hs]).
  exists t. cbn [app max_entries tape_init] in *. rewrite Em in He. split_and!; [done|done|done|done|].
  intros oid. unfold book_stats. rewrite Hs. destruct (of_book oid calls) as [|c cs] eqn:Ec; [done|].
  rewrite <- Ec. destruct (stats_fold_sums oid (of_book oid calls)) as (-> & -> & ->).
  split_and!; [by rewrite Ec|done|done|done| |].
  - destruct (of_book oid calls) as [|d ds _] using rev_ind; [done|].
    rewrite last_snoc. by rewrite (proj1 (stats_fold_last _ _ _)).
  - apply stats_fold_uptick. rewrite Forall_forall in Hp |- *. intros d Hd. apply Hp.
    unfold of_book in Hd. by apply list_elem_of_filter in Hd as [_ ?].
Qed.

Definition demo_calls : list call :=
  let x oid p q mn := mkExecution oid "DAY" "B" p q mn in
  [(x "7203" 100 5 1, 10, Some 90); (x "6758" 50 1 2, 11, None); (x "7203" 100 2 3, 12, Some 200);
   (x "7203" 95 1 4, 13, None); (x "7203" 95 1 5, 14, None)].

Lemma tape_sound_witness :
  exists t, tape_run demo_calls (tape_init 3) = (t, Ok ()) /\ entries t = lastn 3 (entry_of <$> demo_calls).
Proof.
  destruct (tape_sound 3 demo_calls ltac:(repeat constructor; discriminate)) as (t & E & He & _).
  exists t. split; assumption.
Defined.

Example tape_demo :
  let t n := fst (tape_run (take n demo_calls) (tape_init 3)) in
  (map te_match_number (entries (t 5%nat)),
   map (fun n => option_map bs_uptick (book_stats (t n) "7203")) [0; 1; 3; 4; 5]%nat,
   (st ← book_stats (t 5%nat) "7203"; vwap st))
  = ([3; 4; 5], [None; Some true; Some true; Some false; Some false], Some (inject_Z 890 / inject_Z 9)%Q).
Proof. vm_compute. reflexivity. Qed.
