(* ===== verification/Market.v ===== *)
(** jnxfeed/book/market.py: the one entry point that routes every decoded message
    to the reference data, the order store and the tape. *)
From S2P Require Export RefData OrderBook Tape.

(** Class to type char: [_TYPE_CHARS.get(cls)]; [None] for any other object. *)
Definition _TYPE_CHARS (msg : pyobj) : option str :=
  match msg with OMsg m => Some (type_char m) | OOther => None end.

Record Market : Type := mkMarket {
  refdata : RefData; mbooks : OrderBookStore; tape : TradeTape; seconds : Z;
  end_of_snapshot_seq : option Z; message_counts : list (str * Z); unknown_count : Z }.

Definition market_init (tape_max_entries : nat) : Market :=
  mkMarket refdata_init store_init (tape_init tape_max_entries) 0 None [] 0.

Definition set_refdata (r : RefData) (k : Market) : Market :=
  mkMarket r (mbooks k) (tape k) (seconds k) (end_of_snapshot_seq k) (message_counts k) (unknown_count k).
Definition set_mbooks (b : OrderBookStore) (k : Market) : Market :=
  mkMarket (refdata k) b (tape k) (seconds k) (end_of_snapshot_seq k) (message_counts k) (unknown_count k).
Definition set_tape (t : TradeTape) (k : Market) : Market :=
  mkMarket (refdata k) (mbooks k) t (seconds k) (end_of_snapshot_seq k) (message_counts k) (unknown_count k).
Definition set_seconds (s : Z) (k : Market) : Market :=
  mkMarket (refdata k) (mbooks k) (tape k) s (end_of_snapshot_seq k) (message_counts k) (unknown_count k).
Definition set_end (n : Z) (k : Market) : Market :=
  mkMarket (refdata k) (mbooks k) (tape k) (seconds k) (Some n) (message_counts k) (unknown_count k).
Definition set_counts (d : list (str * Z)) (k : Market) : Market :=
  mkMarket (refdata k) (mbooks k) (tape k) (seconds k) (end_of_snapshot_seq k) d (unknown_count k).
Definition add_unknown (k : Market) : Market :=
  mkMarket (refdata k) (mbooks k) (tape k) (seconds k) (end_of_snapshot_seq k) (message_counts k)
    (unknown_count k + 1).

(** The reference price of an instrument that exists; never creates one. *)
Definition base_price_of (insts : list (str * Instrument)) (oid : str) : option Z :=
  match dget oid insts with Some inst => i_reference_price inst | None => None end.

Definition count_message (char : str) (k : Market) : Market :=
  set_counts (dset char (default 0 (dget char (message_counts k)) + 1) (message_counts k)) k.

(** The [OrderExecuted] branch of [apply]. *)
Definition apply_executed (ns : Z) (m : message) : M Market (option Execution) :=
  execution ← zoom mbooks set_mbooks (store_apply m);
  match execution with
  | Some x =>
      k ← mget;
      let base_price := base_price_of (instruments (refdata k)) (ex_orderbook_id x) in
      zoom tape set_tape (record x (make_timestamp (seconds k) ns) base_price) ;;
      mret (Some x)
  | None => mret None
  end.

Definition market_apply (msg : pyobj) : M Market (option Execution) :=
  match msg with
  | OOther => mmod add_unknown ;; mret None
  | OMsg m =>
      mmod (count_message (type_char m)) ;;
      let to_refdata := zoom refdata set_refdata (refdata_apply m) ;; mret None in
      let to_books := zoom mbooks set_mbooks (store_apply m) in
      match m with
      | TimestampSeconds s => mmod (set_seconds s) ;; mret None
      | EndOfSnapshot n => mmod (set_end n) ;; mret None
      | OrderAdded _ order_number _ _ _ _ _ =>
          if order_number =? 0 then to_refdata else to_books ;; mret None
      | OrderAddedWithAttributes _ _ _ _ _ _ _ _ _ | OrderDeleted _ _ | OrderReplaced _ _ _ _ _ =>
          to_books ;; mret None
      | OrderExecuted ns _ _ _ =>
          apply_executed ns m
      | _ => to_refdata
      end
  end.

Definition market_run (objs : list pyobj) : M Market () :=
  mfor objs (fun o => market_apply o ;; mret ()).

(** [counters()]: numbers, and one table by type. *)
Inductive cval : Type := CInt (z : Z) | CDict (d : list (str * Z)).

(** [sorted(d.items())] for distinct keys. *)
Definition key_le (a b : str * Z) : Prop := String.leb a.1 b.1 = true.
#[export] Instance key_le_dec : RelDecision key_le.
Proof. intros a b. unfold key_le. apply _. Defined.
Definition sorted_items (d : list (str * Z)) : list (str * Z) := merge_sort key_le d.

Definition counters (k : Market) : list (str * cval) := [
  ("messages", CInt (zsum (dvalues (message_counts k))));
  ("by_type", CDict (sorted_items (message_counts k)));
  ("unknown", CInt (unknown_count k));
  ("instruments", CInt (zlen (instruments (refdata k))));
  ("live_orders", CInt (live_order_count (mbooks k)));
  ("books", CInt (Z.of_nat (size (books (mbooks k)))));
  ("collisions", CInt (collisions (mbooks k)));
  ("orphan_executes", CInt (orphan_executes (mbooks k)));
  ("orphan_deletes", CInt (orphan_deletes (mbooks k)));
  ("orphan_replaces", CInt (orphan_replaces (mbooks k)));
  ("executions", CInt (execution_count (mbooks k)));
  ("executed_volume", CInt (executed_volume (mbooks k)));
  ("trades_on_tape", CInt (zlen (entries (tape k)))) ].

(** * The abstract market: what a feed means, without levels, bisection or counters *)

Record amarket : Type := mkA {
  am_seconds : Z; am_insts : list (str * Instrument); am_rows : gmap Z (gmap Z Z);
  am_orders : list (Z * Order); am_calls : list call; am_end : option Z }.

Definition am_init : amarket := mkA 0 [] ∅ [] [] None.

Definition am_call (m : message) (a : amarket) : list call :=
  match m, spec_execution m (am_orders a) with
  | OrderExecuted ns _ _ _, Some x =>
      [(x, make_timestamp (am_seconds a) ns, base_price_of (am_insts a) (ex_orderbook_id x))]
  | _, _ => []
  end.

Definition am_step (a : amarket) (o : pyobj) : amarket :=
  match o with
  | OOther => a
  | OMsg m =>
      mkA (match m with TimestampSeconds s => s | _ => am_seconds a end)
        (inst_apply m (am_insts a)) (tick_apply m (am_rows a)) (spec_orders m (am_orders a))
        (am_calls a ++ am_call m a)
        (match m with EndOfSnapshot n => Some n | _ => am_end a end)
  end.

Definition obj_ok (o : pyobj) : bool := match o with OMsg m => feed_ok m | OOther => true end.

(** The detailed market implements the abstract one. *)
Record market_rep (k : Market) (a : amarket) : Prop := {
  mr_seconds : seconds k = am_seconds a;
  mr_insts : instruments (refdata k) = am_insts a;
  mr_rows : tick_rows (tick_tables (refdata k)) (am_rows a);
  mr_orders : orders (mbooks k) = am_orders a;
  mr_store : store_inv (mbooks k);
  mr_tape : tape_is (tape k) (am_calls a);
  mr_end : end_of_snapshot_seq k = am_end a;
  mr_count : execution_count (mbooks k) = trade_count (tape k);
  mr_volume : executed_volume (mbooks k) = total_volume (tape k) }.

(** What a feed amounts to. *)
Definition obj_run (ms : list message) : amarket := foldl am_step am_init (OMsg <$> ms).

Lemma market_init_rep n : market_rep (market_init n) am_init.
Proof. split; first [apply tick_rows_init|apply store_init_inv|apply tape_init_is|done]. Qed.

Lemma count_message_rep c k a : market_rep k a -> market_rep (count_message c k) a.
Proof. by intros []. Qed.

(** Only an execution moves the execution counters. *)
Lemma store_apply_counts s m :
  store_inv s -> feed_ok m = true -> spec_execution m (orders s) = None ->
  execution_count (fst (store_apply m s)) = execution_count s /\
  executed_volume (fst (store_apply m s)) = executed_volume s.
Proof.
  intros Hs Hm Hx.
  assert (forall n oid grp side price qty, (n =? 0) || (0 <? qty) = true ->
    let s' := fst ((if n =? 0 then mmod add_ref_price ;; mret None
      else _insert n oid grp side price qty ;; mret (@None Execution)) s) in
    execution_count s' = execution_count s /\ executed_volume s' = executed_volume s) as Hadd.
  { intros n oid grp side price qty Hq. destruct (n =? 0); munfold; [done|].
    destruct (insert_ok s n oid grp side price qty Hs ltac:(cbn in Hq; lia)) as (s' & -> & _ & _ & _ & ? & ? & _). done. }
  destruct m as [| | | | | |ns n side qty oid grp price|ns n side qty oid grp price at_ ot|ns n q mn|ns n|ns orig new qty price|];
    cbn [feed_ok] in Hm; try done.
  - by apply Hadd.
  - by apply Hadd.
  - cbn [store_apply spec_execution] in *. unfold _execute. munfold.
    destruct (dget n (orders s)) eqn:E; [cbn in Hx; discriminate Hx|done].
  - cbn [store_apply]. unfold _delete. munfold. destruct (dget n (orders s)) eqn:E; [|done].
    destruct (remove_order_ok s n _ Hs E) as (bs & -> & _). done.
  - cbn [store_apply]. unfold _replace. munfold. destruct (dget orig (orders s)) as [o|] eqn:E; [|done].
    destruct (remove_order_ok s orig o Hs E) as (bs & -> & H1).
    destruct (insert_ok (set_books bs (set_orders (dremove orig (orders s)) s)) new (o_orderbook_id o) (o_group o)
      (o_side o) price qty H1 ltac:(lia)) as (s' & -> & _ & _ & _ & ? & ? & _). done.
Qed.

(** A message the reference data consumes. *)
Lemma to_refdata_rep m k a : market_rep k a ->
  spec_orders m (am_orders a) = am_orders a -> am_call m a = [] ->
  (match m with TimestampSeconds _ | EndOfSnapshot _ => False | _ => True end) ->
  exists k', zoom refdata set_refdata (refdata_apply m) k = (k', Ok (is_refdata m)) /\
    market_rep k' (am_step a (OMsg m)).
Proof.
  intros [] Ho Hc Hm. destruct (refdata_apply_eq m (refdata k) (am_rows a) mr_rows0) as (r' & E & Ei & HT).
  unfold zoom. rewrite E. eexists. split; [done|].
  split; cbn; rewrite ?Ho, ?Hc, ?app_nil_r; try done; [by destruct m|congruence|by destruct m].
Qed.

(** A message the order store consumes, without an execution. *)
Lemma to_books_rep m k a : market_rep k a -> feed_ok m = true ->
  spec_execution m (am_orders a) = None -> inst_update m = None -> tick_apply m (am_rows a) = am_rows a ->
  (match m with TimestampSeconds _ | EndOfSnapshot _ => False | _ => True end) ->
  exists k', zoom mbooks set_mbooks (store_apply m) k = (k', Ok None) /\ market_rep k' (am_step a (OMsg m)).
Proof.
  intros [] Hm Hx Hi Ht Hn.
  destruct (store_apply_refines (mbooks k) m mr_store0 Hm) as (s' & E & Hs' & Eo).
  rewrite <- mr_orders0 in Hx.
  destruct (store_apply_counts (mbooks k) m mr_store0 Hm Hx) as [H1 H2]. rewrite E in H1, H2. cbn in H1, H2.
  unfold zoom. rewrite E, Hx. eexists. split; [done|].
  assert (am_call m a = []) as Hc.
  { unfold am_call. destruct m; try done. by rewrite <- mr_orders0, Hx. }
  split; cbn; unfold inst_apply; rewrite ?Hi, ?Ht, ?Hc, ?app_nil_r; try done;
    [by destruct m|congruence|by destruct m|lia|lia].
Qed.

(** An [E]: the execution, when there is one, goes to the tape with the session
    clock and the base price. *)
Lemma execute_rep k a ns n q mn : market_rep k a -> feed_ok (OrderExecuted ns n q mn) = true ->
  exists k', apply_executed ns (OrderExecuted ns n q mn) k =
    (k', Ok (spec_execution (OrderExecuted ns n q mn) (am_orders a))) /\
  market_rep k' (am_step a (OMsg (OrderExecuted ns n q mn))).
Proof.
  intros Hr Hm. pose proof Hr as []. unfold apply_executed. munfold.
  destruct (dget n (orders (mbooks k))) as [o|] eqn:E.
  2: { destruct (to_books_rep (OrderExecuted ns n q mn) k a Hr) as (k' & -> & Hk'); [done| |done|done|done|].
    - cbn. by rewrite <- mr_orders0, E.
    - exists k'. split; [|done]. cbn. by rewrite <- mr_orders0, E. }
  destruct (execute_ok (mbooks k) n q mn o mr_store0 ltac:(cbn in Hm; lia) E) as (s' & E1 & Hs' & Eo & Ev & Ec & _).
  unfold zoom at 1. cbn [store_apply]. rewrite E1. cbn [spec_execution spec_orders] in *. rewrite E in *.
  rewrite mr_orders0 in E. cbn [mbind option_bind].
  set (x := mkExecution _ _ _ _ _ _). unfold zoom. cbn [tape set_mbooks seconds refdata].
  destruct (record_is (tape k) (am_calls a) x (make_timestamp (seconds k) ns)
    (base_price_of (instruments (refdata k)) (ex_orderbook_id x)) mr_tape0) as (t' & Et & _ & Ht).
  rewrite Et. eexists. split; [by rewrite E|].
  assert (am_call (OrderExecuted ns n q mn) a =
    [(x, make_timestamp (seconds k) ns, base_price_of (instruments (refdata k)) (ex_orderbook_id x))]) as Hc.
  { unfold am_call. cbn [spec_execution]. rewrite E. cbn. by rewrite mr_seconds0, mr_insts0. }
  split; cbn -[am_call spec_orders]; rewrite ?Hc; try done.
  - rewrite Eo, mr_orders0. cbn. by rewrite E.
  - destruct Ht as [_ Hc1 _ _], mr_tape0 as [_ Hc2 _ _].
    rewrite Ec, mr_count0, Hc1, Hc2. unfold zlen. rewrite length_app. cbn. lia.
  - destruct Ht as [_ _ Hv1 _], mr_tape0 as [_ _ Hv2 _].
    rewrite Ev, mr_volume0, Hv1, Hv2, fmap_app, zsum_app. cbn. lia.
Qed.

Lemma market_apply_rep k a o : market_rep k a -> obj_ok o = true ->
  exists k', market_apply o k =
      (k', Ok (match o with OMsg m => spec_execution m (am_orders a) | OOther => None end)) /\
    market_rep k' (am_step a o).
Proof.
  intros Hr Ho. destruct o as [m|]; [|exists (add_unknown k); split; [done|by destruct Hr]].
  cbn [obj_ok] in Ho. cbn [market_apply]. munfold.
  apply (count_message_rep (type_char m)) in Hr. set (k1 := count_message _ k) in *. clearbody k1. clear k.
  destruct m as [s| | | | | |ns n side qty oid grp price| |ns n q mn| | |sn];
    cbn [spec_execution];
    try (match goal with |- context [refdata_apply ?m] =>
      destruct (to_refdata_rep m k1 a Hr) as (k' & -> & Hk'); [done|done|done|]; exists k'; by split end);
    try (match goal with |- context [store_apply ?m] =>
      destruct (to_books_rep m k1 a Hr) as (k' & -> & Hk'); [done|done|done|done|done|]; exists k'; by split end).
  - eexists. split; [done|]. destruct Hr. split; cbn; rewrite ?app_nil_r; done.
  - destruct (Z.eqb_spec n 0) as [->|Hn].
    + destruct (to_refdata_rep (OrderAdded ns 0 side qty oid grp price) k1 a Hr) as (k' & -> & Hk');
        [done|done|done|]. exists k'. by split.
    + destruct (to_books_rep (OrderAdded ns n side qty oid grp price) k1 a Hr) as (k' & -> & Hk');
        [done|done| |done|done|]; [|exists k'; by split].
      cbn. by rewrite (proj2 (Z.eqb_neq _ _)).
  - apply (execute_rep k1 a ns n q mn Hr Ho).
  - eexists. split; [done|]. destruct Hr. split; cbn; rewrite ?app_nil_r; done.
Qed.

Lemma market_run_rep objs k a : market_rep k a -> forallb obj_ok objs = true ->
  exists k', market_run objs k = (k', Ok ()) /\ market_rep k' (foldl am_step a objs).
Proof.
  revert k a. induction objs as [|o objs IH]; intros k a Hr Ho; [by exists k|].
  cbn in Ho. apply andb_true_iff in Ho as [Ho Hos].
  destruct (market_apply_rep k a o Hr Ho) as (k1 & E1 & H1).
  destruct (IH k1 _ H1 Hos) as (k2 & E2 & H2). exists k2.
  unfold market_run in *. cbn [mfor foldl]. munfold. by rewrite E1, E2.
Qed.

(** ** The counters *)

Definition counts_step (d : list (str * Z)) (o : pyobj) : list (str * Z) :=
  match o with
  | OMsg m => dset (type_char m) (default 0 (dget (type_char m) d) + 1) d
  | OOther => d
  end.

Lemma market_apply_counts k o :
  message_counts (fst (market_apply o k)) = counts_step (message_counts k) o /\
  unknown_count (fst (market_apply o k)) = unknown_count k + (match o with OOther => 1 | _ => 0 end).
Proof.
  assert (forall m k, let k' := fst ((zoom refdata set_refdata (refdata_apply m) ;; mret (@None Execution)) k) in
    message_counts k' = message_counts k /\ unknown_count k' = unknown_count k) as H1.
  { intros m k0. unfold zoom. munfold. by destruct (refdata_apply m (refdata k0)) as [? [|]]. }
  assert (forall m k, let k' := fst ((zoom mbooks set_mbooks (store_apply m) ;; mret (@None Execution)) k) in
    message_counts k' = message_counts k /\ unknown_count k' = unknown_count k) as H2.
  { intros m k0. unfold zoom. munfold. by destruct (store_apply m (mbooks k0)) as [? [|]]. }
  assert (forall ns m k, let k' := fst (apply_executed ns m k) in
    message_counts k' = message_counts k /\ unknown_count k' = unknown_count k) as H3.
  { intros ns m k0. unfold apply_executed, zoom. munfold.
    destruct (store_apply m (mbooks k0)) as [? [[x|]|]]; [|done|done]. done. }
  destruct o as [m|]; [|done]. cbn [market_apply counts_step].
  rewrite Z.add_0_r. munfold.
  assert (forall k', message_counts k' = message_counts (count_message (type_char m) k) /\
    unknown_count k' = unknown_count (count_message (type_char m) k) ->
    message_counts k' = dset (type_char m) (default 0 (dget (type_char m) (message_counts k)) + 1)
      (message_counts k) /\ unknown_count k' = unknown_count k) as Hc by done.
  apply Hc. destruct m; try done; try apply H1; try apply H2; try apply H3.
  destruct (_ =? 0); [apply H1|apply H2].
Qed.

Definition count_of (c : str) (objs : list pyobj) : Z :=
  zlen (filter (fun o => _TYPE_CHARS o = Some c) objs).

Definition count_of_other (objs : list pyobj) : Z :=
  zlen (filter (fun o => _TYPE_CHARS o = None) objs).

Record counts_are (d : list (str * Z)) (objs : list pyobj) : Prop := {
  ca_nodup : NoDup (dkeys d);
  ca_get : forall c, default 0 (dget c d) = count_of c objs;
  ca_sum : zsum (dvalues d) + count_of_other objs = zlen objs }.

Lemma zlen_filter_snoc {A} (P : A -> Prop) `{!forall x, Decision (P x)} l x :
  zlen (filter P (l ++ [x])) = zlen (filter P l) + (if decide (P x) then 1 else 0).
Proof.
  rewrite filter_app, zlen_app. f_equal. rewrite filter_cons, filter_nil. by case_decide.
Qed.

Lemma dvalues_sum (d : list (str * Z)) : zsum (dvalues d) = dsum id d.
Proof. unfold dsum. by rewrite list_fmap_id. Qed.

Lemma counts_step_are d objs o : counts_are d objs -> counts_are (counts_step d o) (objs ++ [o]).
Proof.
  intros [Hn Hg Hs]. unfold count_of_other, count_of in *.
  destruct o as [m|]; cbn [counts_step]; (split; [by auto with py| |]).
  - intros c. unfold count_of. rewrite dget_dset, zlen_filter_snoc, <- Hg. cbn.
    repeat case_decide; simplify_eq; cbn; try done; rewrite ?Z.add_0_r; try done; congruence.
  - unfold count_of_other. rewrite zlen_filter_snoc, zlen_app, <- Hs. cbn. rewrite decide_False by done.
    rewrite !dvalues_sum. destruct (dget (type_char m) d) as [v|] eqn:E.
    + rewrite (dsum_old _ _ _ v) by done. cbn. unfold zlen; cbn. unfold id. lia.
    + rewrite dsum_new by done. cbn. unfold zlen; cbn. unfold id. lia.
  - intros c. unfold count_of. rewrite zlen_filter_snoc, <- Hg. cbn. rewrite decide_False by done. by rewrite Z.add_0_r.
  - unfold count_of_other. rewrite zlen_filter_snoc, zlen_app, <- Hs. cbn [_TYPE_CHARS].
    rewrite decide_True by done. unfold zlen; cbn [length]. lia.
Qed.

Lemma market_run_counts objs k done_ :
  counts_are (message_counts k) done_ -> unknown_count k = count_of_other done_ ->
  is_Ok (snd (market_run objs k)) = true ->
  counts_are (message_counts (fst (market_run objs k))) (done_ ++ objs) /\
  unknown_count (fst (market_run objs k)) = count_of_other (done_ ++ objs).
Proof.
  revert k done_. induction objs as [|o objs IH]; intros k done_ H1 H2.
  - intros _. by rewrite app_nil_r.
  - unfold market_run. cbn [mfor]. munfold. destruct (market_apply_counts k o) as [E1 E2].
    destruct (market_apply o k) as [k1 [x|e]]; [|done]. cbn [fst] in *. intros Hok.
    rewrite cons_middle, app_assoc. apply IH; [rewrite E1; by apply counts_step_are| |done].
    rewrite E2, H2. unfold count_of_other. rewrite zlen_filter_snoc. by destruct o.
Qed.

(** * Properties *)

(** C12. Any feed of well-formed messages, foreign objects included, runs through the
    market without an exception; the result is the abstract market: clock, static
    data, live orders and end-of-snapshot mark are the fold of the messages, the
    tape is exactly the executions with the clock and the base price of their
    moment, and the execution counters agree with the tape. *)
Theorem market_refines n objs : forallb obj_ok objs = true ->
  let a := foldl am_step am_init objs in
  exists k, market_run objs (market_init n) = (k, Ok ()) /\
    seconds k = am_seconds a /\ instruments (refdata k) = am_insts a /\
    orders (mbooks k) = am_orders a /\ end_of_snapshot_seq k = am_end a /\
    tape_is (tape k) (am_calls a) /\
    tick_rows (tick_tables (refdata k)) (am_rows a) /\ store_inv (mbooks k) /\
    execution_count (mbooks k) = trade_count (tape k) /\
    executed_volume (mbooks k) = total_volume (tape k).
Proof.
  intros Ho a. destruct (market_run_rep objs _ _ (market_init_rep n) Ho) as (k & E & []).
  exists k. by split_and!.
Qed.

Definition demo_objs : list pyobj :=
  [OMsg (TimestampSeconds 32400); OMsg (OrderAdded 0 0 "B" 0 "7203" "DAY" 19000)]
  ++ map OMsg demo_feed ++ [OOther; OMsg (EndOfSnapshot 42)].

Lemma market_refines_witness :
  forallb obj_ok demo_objs = true /\
  exists k, market_run demo_objs (market_init 10) = (k, Ok ()) /\
    orders (mbooks k) = am_orders (foldl am_step am_init demo_objs).
Proof.
  split; [vm_compute; reflexivity|].
  destruct (market_refines 10 demo_objs ltac:(vm_compute; reflexivity)) as (k & E & _ & _ & Eo & _).
  exists k. split; assumption.
Defined.

Example market_demo :
  let k := fst (market_run demo_objs (market_init 10)) in
  (entries (tape k), seconds k, end_of_snapshot_seq k, unknown_count k, sorted_items (message_counts k))
  = ([mkEntry 32400000000005 "7203" 20000 200 901], 32400, Some 42, 1,
     [("A", 4); ("D", 1); ("E", 2); ("F", 1); ("G", 1); ("T", 1); ("U", 1)]).
Proof. vm_compute. reflexivity. Qed.

(** [counters()] after any such feed: every applied object is counted once, by its
    type or as unknown, and the figures of the books and of the tape agree. *)
Theorem counters_exact n objs : forallb obj_ok objs = true ->
  exists k, market_run objs (market_init n) = (k, Ok ()) /\
    (forall c, default 0 (dget c (message_counts k)) = count_of c objs) /\
    zsum (dvalues (message_counts k)) + unknown_count k = zlen objs /\
    dget "messages" (counters k) = Some (CInt (zlen objs - count_of_other objs)) /\
    dget "by_type" (counters k) = Some (CDict (sorted_items (message_counts k))) /\
    Permutation (sorted_items (message_counts k)) (message_counts k) /\
    dget "executions" (counters k) = Some (CInt (zlen (am_calls (foldl am_step am_init objs)))).
Proof.
  intros Ho. destruct (market_run_rep objs _ _ (market_init_rep n) Ho) as (k & E & Hr).
  destruct (market_run_counts objs (market_init n) []) as [[Hn Hg Hs] Hu];
    [|done|by rewrite E|].
  { split; cbn; [constructor|by intros c|done]. }
  rewrite E in *. cbn [fst app] in *. exists k. split_and!; [done|done|lia| |done| |].
  - unfold counters. cbn [dget]. rewrite decide_True by done. do 2 f_equal. lia.
  - apply merge_sort_Permutation.
  - destruct Hr as [_ _ _ _ _ [_ Hc _ _] _ He _]. rewrite <- Hc, <- He. reflexivity.
Qed.

Lemma counters_exact_witness :
  exists k, market_run demo_objs (market_init 10) = (k, Ok ()) /\
    zsum (dvalues (message_counts k)) + unknown_count k = zlen demo_objs.
Proof.
  destruct (counters_exact 10 demo_objs ltac:(vm_compute; reflexivity)) as (k & E & _ & Es & _).
  exists k. split; assumption.
Defined.
