(* ===== verification/ItchFile.v ===== *)
(** jnxfeed/itchfile.py: the length-prefixed ITCH data files.

    A file is its bytes; an open file object is read from the front.  A generator
    is the list of what it yields, and how it ends. *)
From S2P Require Export PyBytes.

Definition MAX_MESSAGE_LEN : Z := 0xFFFF.

(** Writing appends to the file's bytes; the header is written before the body. *)
Definition write_message (message : bytes) : M bytes () :=
  let length := zlen message in
  if MAX_MESSAGE_LEN <? length then mraise ValueError
  else
    h ← mlift (pack1 Big (U 2) length);
    mmod (fun f => f ++ h) ;;
    mmod (fun f => f ++ message).

(** One turn of the loop of [iter_messages]: [None] at a clean end of file. *)
Definition next_message : M bytes (option bytes) :=
  header ← f_read 2;
  if bool_decide (header = []) then mret None
  else if negb (Nat.eqb (length header) 2) then mraise ItchFileError
  else
    n ← mlift (unpack1 Big (U 2) header);
    message ← f_read (Z.to_nat n);
    if negb (zlen message =? n) then mraise ItchFileError
    else mret (Some message).

(** The generator run to its end: what it yields and how it ends.  Every turn that
    yields consumes two bytes, so the file's length is enough fuel. *)
Fixpoint iter_loop (fuel : nat) (f : bytes) : list bytes * res () :=
  match fuel with
  | O => ([], Ok ())
  | S fuel' =>
      match next_message f with
      | (_, Raise e) => ([], Raise e)
      | (_, Ok None) => ([], Ok ())
      | (f', Ok (Some message)) =>
          let '(l, r) := iter_loop fuel' f' in (message :: l, r)
      end
  end.
Definition iter_messages (f : bytes) : list bytes * res () := iter_loop (S (length f)) f.

(** A directory of files, by path. *)
Abbreviation files := (gmap str bytes).

Definition read_file (fs : files) (path : str) : list bytes * res () :=
  match fs !! path with
  | None => ([], Raise OSError)
  | Some f => iter_messages f
  end.

(** [ItchFileWriter]: mode "wb" truncates, "ab" keeps what is there. *)
Record ItchFileWriter : Type := mkWriter { w_path : str; w_closed : bool }.

Definition writer_open (path : str) (append : bool) : M files ItchFileWriter :=
  mmod (fun fs => <[path := if append then default [] (fs !! path) else []]> fs) ;;
  mret (mkWriter path false).
Definition writer_write (w : ItchFileWriter) (message : bytes) : M files () :=
  if w_closed w then mraise ValueError
  else zoom (fun fs : files => default [] (fs !! w_path w)) (fun f fs => <[w_path w := f]> fs)
         (write_message message).
(** The file holds what was written, whether the interpreter still buffers it or not. *)
Definition writer_flush (w : ItchFileWriter) : M files () := if w_closed w then mraise ValueError else mret ().
Definition writer_close (w : ItchFileWriter) : ItchFileWriter := mkWriter (w_path w) true.

(** [with ItchFileWriter(path, append) as w: for x in msgs: w.write(x)] *)
Definition write_all (path : str) (append : bool) (msgs : list bytes) : M files () :=
  w ← writer_open path append; mfor msgs (writer_write w).

(** * Lemmas *)

Definition short (m : bytes) : Prop := zlen m <= MAX_MESSAGE_LEN.

(** The bytes of one record. *)
Definition frame16 (m : bytes) : bytes := be_bytes 2 (zlen m) ++ m.

Lemma write_message_ok m f : short m -> write_message m f = (f ++ frame16 m, Ok ()).
Proof.
  unfold short, write_message, MAX_MESSAGE_LEN. intros Hm. pose proof (zlen_nonneg m).
  destruct (Z.ltb_spec 65535 (zlen m)); [lia|]. munfold. rewrite pack1_U by (cbn; lia).
  cbn [byte_order]. unfold frame16. by rewrite app_assoc.
Qed.

Lemma write_message_cases m f : write_message m f = (f ++ frame16 m, Ok ()) \/ write_message m f = (f, Raise ValueError).
Proof.
  destruct (Z.le_gt_cases (zlen m) MAX_MESSAGE_LEN) as [Hs|Hs]; [left; by apply write_message_ok|]. right.
  unfold write_message. by rewrite (proj2 (Z.ltb_lt _ _)).
Qed.

Lemma next_message_frame m f : short m -> next_message (frame16 m ++ f) = (f, Ok (Some m)).
Proof.
  unfold short, MAX_MESSAGE_LEN. intros Hm. pose proof (zlen_nonneg m).
  unfold next_message, f_read. munfold. unfold frame16. rewrite <- app_assoc.
  rewrite take_app_length', drop_app_length' by by rewrite be_bytes_length.
  rewrite bool_decide_false by by intros E%(f_equal length).
  rewrite be_bytes_length. cbn [Nat.eqb negb]. rewrite unpack1_U by apply be_bytes_length.
  cbn [byte_order]. rewrite be_val_bytes_small by (cbn; lia).
  assert (Z.to_nat (zlen m) = length m) as -> by (unfold zlen; lia).
  rewrite take_app_length, drop_app_length, Z.eqb_refl. done.
Qed.

Lemma iter_frames ms fuel f : Forall short ms -> (length ms <= fuel)%nat ->
  iter_loop fuel (concat (map frame16 ms) ++ f) =
  let '(l, r) := iter_loop (fuel - length ms) f in (ms ++ l, r).
Proof.
  intros Hs. revert fuel. induction Hs as [|m ms Hm Hs IH]; intros fuel Hf; cbn [length concat map] in *.
  - rewrite Nat.sub_0_r. by destruct (iter_loop fuel _).
  - destruct fuel as [|fuel]; [lia|]. cbn [iter_loop]. rewrite <- app_assoc, next_message_frame by done.
    rewrite IH by lia. cbn [Nat.sub]. by destruct (iter_loop (fuel - length ms) f).
Qed.

Lemma frames_length ms : (2 * length ms <= length (concat (map frame16 ms)))%nat.
Proof.
  induction ms as [|m ms IH]; cbn [length concat map]; [lia|].
  rewrite length_app. unfold frame16 at 1. rewrite length_app, be_bytes_length. lia.
Qed.

Lemma iter_messages_frames ms f : Forall short ms ->
  iter_messages (concat (map frame16 ms) ++ f) =
  let '(l, r) := iter_loop (S (length f) + length (concat (map frame16 ms)) - length ms) f in (ms ++ l, r).
Proof.
  intros Hs. unfold iter_messages. pose proof (frames_length ms).
  rewrite iter_frames by (done || (rewrite ?length_app; lia)).
  rewrite length_app. by replace (S (length f) + length (concat (map frame16 ms)) - length ms)%nat with
    (S (length (concat (map frame16 ms)) + length f) - length ms)%nat by lia.
Qed.

Lemma iter_loop_nil fuel : iter_loop fuel [] = ([], Ok ()).
Proof. by destruct fuel. Qed.

Lemma writer_write_ok path ms f fs : fs !! path = Some f -> Forall short ms ->
  mfor ms (writer_write (mkWriter path false)) fs =
  (<[path := f ++ concat (map frame16 ms)]> fs, Ok ()).
Proof.
  intros Hf Hs. revert f fs Hf. induction Hs as [|m ms Hm Hs IH]; intros f fs Hf; cbn [mfor concat map].
  - rewrite app_nil_r. by rewrite insert_id.
  - munfold. unfold writer_write at 1, zoom. cbn [w_closed w_path]. rewrite Hf. cbn [default].
    rewrite write_message_ok by done.
    rewrite (IH (f ++ frame16 m)) by apply lookup_insert_eq. by rewrite insert_insert_eq, app_assoc.
Qed.

(** * Properties *)

(** Files round trip: what is written, also in several sessions that append, is
    read back message by message with a clean end. *)
Theorem itchfile_roundtrip fs path ms ms' : Forall short ms -> Forall short ms' ->
  let fs1 := fst (write_all path false ms fs) in
  let fs2 := fst (write_all path true ms' fs1) in
  snd (write_all path false ms fs) = Ok () /\ snd (write_all path true ms' fs1) = Ok () /\
  read_file fs1 path = (ms, Ok ()) /\ read_file fs2 path = (ms ++ ms', Ok ()) /\
  forall path', path' <> path -> fs2 !! path' = fs !! path'.
Proof.
  intros H1 H2. unfold write_all, writer_open. munfold.
  rewrite (writer_write_ok path ms []) by (done || apply lookup_insert_eq). cbn [fst snd app].
  rewrite insert_insert_eq. cbv zeta. rewrite lookup_insert_eq. cbn [default].
  rewrite (writer_write_ok path ms' (concat (map frame16 ms))) by (done || apply lookup_insert_eq).
  cbn [fst snd]. rewrite !insert_insert_eq. unfold read_file. rewrite !lookup_insert_eq.
  split_and!; [done|done| | |].
  - rewrite <- (app_nil_r (concat _)), iter_messages_frames by done.
    by rewrite iter_loop_nil, app_nil_r.
  - rewrite <- concat_app, <- map_app, <- (app_nil_r (concat _)), iter_messages_frames by by apply Forall_app.
    by rewrite iter_loop_nil, app_nil_r.
  - intros p Hp. by rewrite lookup_insert_ne.
Qed.

Lemma itchfile_roundtrip_witness :
  read_file (fst (write_all "f" false [["A"%byte; "B"%byte]; []] ∅)) "f" = ([["A"%byte; "B"%byte]; []], Ok ()).
Proof.
  destruct (itchfile_roundtrip ∅ "f" [["A"%byte; "B"%byte]; []] []) as (_ & _ & E & _);
    [repeat constructor; vm_compute; discriminate|constructor|exact E].
Defined.

(** A file cut anywhere inside a record yields the records before the cut and
    then raises ItchFileError; it never yields a partial message. *)
Theorem itchfile_truncated ms m n : Forall short ms -> short m -> (0 < n < length (frame16 m))%nat ->
  iter_messages (concat (map frame16 ms) ++ take n (frame16 m)) = (ms, Raise ItchFileError).
Proof.
  intros Hs Hm Hn. rewrite iter_messages_frames by done. pose proof (frames_length ms).
  destruct (_ - _)%nat as [|k] eqn:E; [lia|]. clear E. cbn [iter_loop].
  assert (next_message (take n (frame16 m)) = ([], Raise ItchFileError)) as ->; [|by rewrite app_nil_r].
  unfold next_message, f_read. munfold. rewrite take_take.
  destruct (decide (n <= 1)%nat) as [Hle|Hle].
  - assert (n = 1%nat) as -> by lia. unfold frame16. rewrite drop_ge by (rewrite length_take; lia). cbn. done.
  - replace (2 `min` n)%nat with 2%nat by lia. unfold frame16, short, MAX_MESSAGE_LEN in *.
    rewrite length_app, be_bytes_length in Hn. pose proof (zlen_nonneg m).
    rewrite take_app_length' by by rewrite be_bytes_length.
    rewrite bool_decide_false by by intros E%(f_equal length).
    rewrite be_bytes_length. cbn [Nat.eqb negb]. rewrite unpack1_U by apply be_bytes_length.
    cbn [byte_order]. rewrite be_val_bytes_small by (cbn; lia).
    rewrite take_app_ge by (rewrite be_bytes_length; lia). rewrite be_bytes_length.
    rewrite drop_app_length' by by rewrite be_bytes_length.
    rewrite !take_ge by (rewrite length_take; unfold zlen; lia).
    rewrite drop_ge by (rewrite length_take; unfold zlen; lia).
    destruct (Z.eqb_spec (zlen (take (n - 2) m)) (zlen m)) as [E|]; [|done].
    unfold zlen in E. rewrite length_take in E. lia.
Qed.

Lemma itchfile_truncated_witness :
  iter_messages (concat (map frame16 [["A"%byte]]) ++ take 2 (frame16 ["B"%byte]))
  = ([["A"%byte]], Raise ItchFileError).
Proof.
  apply (itchfile_truncated [["A"%byte]] ["B"%byte] 2);
    [repeat constructor; vm_compute; discriminate|vm_compute; discriminate|cbn; lia].
Defined.
