(* ===== verification/SoupPackets.v ===== *)
(** jnxfeed/soup/packets.py: the SoupBinTCP packets and the reassembly of a TCP
    stream into packets. *)
From S2P Require Export PyBytes PyDict.

Definition TYPE_LOGIN_ACCEPTED : byte := "A".
Definition TYPE_LOGIN_REJECTED : byte := "J".
Definition TYPE_SEQUENCED_DATA : byte := "S".
Definition TYPE_SERVER_HEARTBEAT : byte := "H".
Definition TYPE_END_OF_SESSION : byte := "Z".
Definition TYPE_DEBUG : byte := "+".
Definition TYPE_LOGIN_REQUEST : byte := "L".
Definition TYPE_UNSEQUENCED_DATA : byte := "U".
Definition TYPE_CLIENT_HEARTBEAT : byte := "R".
Definition TYPE_LOGOUT_REQUEST : byte := "O".

Definition REJECT_NOT_AUTHORIZED : str := "A".
Definition REJECT_SESSION_UNAVAILABLE : str := "S".

Definition _SESSION_WIDTH : nat := 10.
Definition _SEQUENCE_WIDTH : nat := 20.
Definition _USERNAME_WIDTH : nat := 6.
Definition _PASSWORD_WIDTH : nat := 10.

(** The packet NamedTuples. *)
Inductive packet : Type :=
| LoginAccepted (session : str) (sequence : Z)
| LoginRejected (reject_code : str)
| SequencedData (message : bytes)
| ServerHeartbeat
| EndOfSession
| DebugPacket (payload : bytes)
| LoginRequest (username password requested_session : str) (requested_sequence : Z)
| UnsequencedData (message : bytes)
| ClientHeartbeat
| LogoutRequest.

#[export] Instance packet_eq_dec : EqDecision packet.
Proof. solve_decision. Defined.

(** * Encoding *)

Definition _pad_right (value : str) (width : nat) : res bytes :=
  raw ← encode_ascii value;
  if (width <? length raw)%nat then Raise ValueError
  else Ok (raw ++ replicate (width - length raw) " "%byte).
Definition _pad_left (value : str) (width : nat) : res bytes :=
  raw ← encode_ascii value;
  if (width <? length raw)%nat then Raise ValueError
  else Ok (replicate (width - length raw) " "%byte ++ raw).

Definition _frame (type_byte : byte) (payload : bytes) : res bytes :=
  let body := type_byte :: payload in
  h ← pack1 Big (U 2) (zlen body); Ok (h ++ body).

Definition encode_login_accepted (session : str) (sequence : Z) : res bytes :=
  a ← _pad_left session _SESSION_WIDTH;
  b ← _pad_left (py_str sequence) _SEQUENCE_WIDTH;
  _frame TYPE_LOGIN_ACCEPTED (a ++ b).
Definition encode_login_rejected (reject_code : str) : res bytes :=
  payload ← encode_ascii reject_code;
  if negb (Nat.eqb (length payload) 1) then Raise ValueError
  else _frame TYPE_LOGIN_REJECTED payload.
Definition encode_sequenced_data (message : bytes) : res bytes := _frame TYPE_SEQUENCED_DATA message.
Definition encode_server_heartbeat : res bytes := _frame TYPE_SERVER_HEARTBEAT [].
Definition encode_end_of_session : res bytes := _frame TYPE_END_OF_SESSION [].
Definition encode_debug (payload : bytes) : res bytes := _frame TYPE_DEBUG payload.
Definition encode_login_request (username password requested_session : str) (requested_sequence : Z)
    : res bytes :=
  a ← _pad_right username _USERNAME_WIDTH;
  b ← _pad_right password _PASSWORD_WIDTH;
  c ← _pad_left requested_session _SESSION_WIDTH;
  d ← _pad_left (py_str requested_sequence) _SEQUENCE_WIDTH;
  _frame TYPE_LOGIN_REQUEST (a ++ b ++ c ++ d).
Definition encode_unsequenced_data (message : bytes) : res bytes := _frame TYPE_UNSEQUENCED_DATA message.
Definition encode_client_heartbeat : res bytes := _frame TYPE_CLIENT_HEARTBEAT [].
Definition encode_logout_request : res bytes := _frame TYPE_LOGOUT_REQUEST [].

(** [encode]: the lookup in [_ENCODERS] by the packet's class. *)
Definition encode_packet (p : packet) : res bytes :=
  match p with
  | LoginAccepted session sequence => encode_login_accepted session sequence
  | LoginRejected reject_code => encode_login_rejected reject_code
  | SequencedData message => encode_sequenced_data message
  | ServerHeartbeat => encode_server_heartbeat
  | EndOfSession => encode_end_of_session
  | DebugPacket payload => encode_debug payload
  | LoginRequest username password requested_session requested_sequence =>
      encode_login_request username password requested_session requested_sequence
  | UnsequencedData message => encode_unsequenced_data message
  | ClientHeartbeat => encode_client_heartbeat
  | LogoutRequest => encode_logout_request
  end.

(** * Decoding *)

(** [text.strip()], then [isdigit] or ValueError, then [int]. *)
Definition decode_seq (raw : bytes) : res Z :=
  text ← decode_ascii raw;
  let seq_text := strip text in
  if negb (isdigit seq_text) then Raise ValueError else py_int seq_text.

Definition _decode_login_accepted (payload : bytes) : res packet :=
  let width := (_SESSION_WIDTH + _SEQUENCE_WIDTH)%nat in
  if negb (Nat.eqb (length payload) width) then Raise ValueError
  else
    session ← decode_ascii (slice 0 _SESSION_WIDTH payload);
    sequence ← decode_seq (slice _SESSION_WIDTH width payload);
    Ok (LoginAccepted (strip session) sequence).
Definition _decode_login_rejected (payload : bytes) : res packet :=
  if negb (Nat.eqb (length payload) 1) then Raise ValueError
  else reject_code ← decode_ascii payload; Ok (LoginRejected reject_code).
Definition _decode_sequenced_data (payload : bytes) : res packet := Ok (SequencedData payload).
Definition _require_empty_payload (payload : bytes) : res () :=
  match payload with [] => Ok () | _ => Raise ValueError end.
Definition _decode_server_heartbeat (payload : bytes) : res packet :=
  _require_empty_payload payload ;; Ok ServerHeartbeat.
Definition _decode_end_of_session (payload : bytes) : res packet :=
  _require_empty_payload payload ;; Ok EndOfSession.
Definition _decode_debug (payload : bytes) : res packet := Ok (DebugPacket payload).
Definition _decode_login_request (payload : bytes) : res packet :=
  let width := (_USERNAME_WIDTH + _PASSWORD_WIDTH + _SESSION_WIDTH + _SEQUENCE_WIDTH)%nat in
  if negb (Nat.eqb (length payload) width) then Raise ValueError
  else
    username ← decode_ascii (slice 0 6 payload);
    password ← decode_ascii (slice 6 16 payload);
    requested_session ← decode_ascii (slice 16 26 payload);
    requested_sequence ← decode_seq (slice 26 46 payload);
    Ok (LoginRequest (rstrip_spaces username) (rstrip_spaces password) (strip requested_session)
          requested_sequence).
Definition _decode_unsequenced_data (payload : bytes) : res packet := Ok (UnsequencedData payload).
Definition _decode_client_heartbeat (payload : bytes) : res packet :=
  _require_empty_payload payload ;; Ok ClientHeartbeat.
Definition _decode_logout_request (payload : bytes) : res packet :=
  _require_empty_payload payload ;; Ok LogoutRequest.

Definition _DECODERS : list (byte * (bytes -> res packet)) := [
  (TYPE_LOGIN_ACCEPTED, _decode_login_accepted);
  (TYPE_LOGIN_REJECTED, _decode_login_rejected);
  (TYPE_SEQUENCED_DATA, _decode_sequenced_data);
  (TYPE_SERVER_HEARTBEAT, _decode_server_heartbeat);
  (TYPE_END_OF_SESSION, _decode_end_of_session);
  (TYPE_DEBUG, _decode_debug);
  (TYPE_LOGIN_REQUEST, _decode_login_request);
  (TYPE_UNSEQUENCED_DATA, _decode_unsequenced_data);
  (TYPE_CLIENT_HEARTBEAT, _decode_client_heartbeat);
  (TYPE_LOGOUT_REQUEST, _decode_logout_request) ].

Definition decode_frame (frame : bytes) : res packet :=
  match frame with
  | [] => Raise ValueError
  | type_byte :: payload =>
      match dget type_byte _DECODERS with
      | None => Raise ValueError
      | Some decoder => decoder payload
      end
  end.

(** * FrameBuffer: the state is the buffered bytes *)

(** The loop of [feed].  The frame is cut from the buffer before it is decoded;
    each turn cuts at least two bytes, so the buffer's length is enough fuel. *)
Fixpoint feed_loop (fuel : nat) : M bytes (list packet) := fun buf =>
  match fuel with
  | O => (buf, Ok [])
  | S fuel' =>
      if (length buf <? 2)%nat then (buf, Ok [])
      else
        match unpack1 Big (U 2) (take 2 buf) with
        | Raise e => (buf, Raise e)
        | Ok n =>
            let total := (2 + Z.to_nat n)%nat in
            if (length buf <? total)%nat then (buf, Ok [])
            else
              let frame := slice 2 total buf in
              let buf' := drop total buf in
              match decode_frame frame with
              | Raise e => (buf', Raise e)
              | Ok p =>
                  match feed_loop fuel' buf' with
                  | (buf'', Ok ps) => (buf'', Ok (p :: ps))
                  | (buf'', Raise e) => (buf'', Raise e)
                  end
              end
        end
  end.

Definition feed (data : bytes) : M bytes (list packet) := fun buf =>
  let buf := buf ++ data in feed_loop (S (length buf)) buf.

Definition pending_bytes (buf : bytes) : Z := zlen buf.

(** Feeding a list of reads, one after the other. *)
Fixpoint feed_all (chunks : list bytes) : M bytes (list packet) :=
  match chunks with
  | [] => mret []
  | c :: cs => ps ← feed c; qs ← feed_all cs; mret (ps ++ qs)
  end.

(** ** Which packets the wire can carry *)

Definition text_ok (p : byte -> bool) (width : nat) (s : str) : bool :=
  forallb is_ascii (s2l s) && (length (s2l s) <=? width)%nat && no_lead p (s2l s) && no_trail p (s2l s).

Definition packet_ok (p : packet) : bool :=
  match p with
  | LoginAccepted session sequence =>
      text_ok is_ws 10 session && (0 <=? sequence) && (sequence <? 10 ^ 20)
  | LoginRejected reject_code => forallb is_ascii (s2l reject_code) && Nat.eqb (length (s2l reject_code)) 1
  | SequencedData m | DebugPacket m | UnsequencedData m => zlen m <? 65535
  | LoginRequest username password requested_session requested_sequence =>
      text_ok (fun _ => false) 6 username && no_trail is_sp (s2l username)
      && text_ok (fun _ => false) 10 password && no_trail is_sp (s2l password)
      && text_ok is_ws 10 requested_session
      && (0 <=? requested_sequence) && (requested_sequence <? 10 ^ 20)
  | _ => true
  end.

(** * Lemmas: fields *)

Lemma frame_ok t payload : zlen payload < 65535 ->
  _frame t payload = Ok (be_bytes 2 (zlen (t :: payload)) ++ t :: payload).
Proof.
  intros H. unfold _frame. pose proof (zlen_nonneg payload).
  rewrite pack1_U by (unfold zlen in *; cbn; lia). done.
Qed.

Lemma pad_left_ok s width : forallb is_ascii (s2l s) = true -> (length (s2l s) <= width)%nat ->
  _pad_left s width = Ok (replicate (width - length (s2l s)) " "%byte ++ s2l s).
Proof.
  intros Ha Hl. unfold _pad_left, encode_ascii. rewrite Ha. cbn [mbind res_bind].
  by destruct (Nat.ltb_spec width (length (s2l s))); [lia|].
Qed.

Lemma pad_right_ok s width : forallb is_ascii (s2l s) = true -> (length (s2l s) <= width)%nat ->
  _pad_right s width = Ok (s2l s ++ replicate (width - length (s2l s)) " "%byte).
Proof.
  intros Ha Hl. unfold _pad_right, encode_ascii. rewrite Ha. cbn [mbind res_bind].
  by destruct (Nat.ltb_spec width (length (s2l s))); [lia|].
Qed.

Lemma ascii_pad_left n l : forallb is_ascii l = true -> forallb is_ascii (replicate n " "%byte ++ l) = true.
Proof. intros H. rewrite forallb_app, H, forallb_replicate; done. Qed.

Lemma strip_padded n s : no_lead is_ws (s2l s) = true -> no_trail is_ws (s2l s) = true ->
  strip (l2s (replicate n " "%byte ++ s2l s)) = s.
Proof.
  intros H1 H2. unfold strip. rewrite s2l_l2s, strip_pad_left; [apply l2s_s2l| |done|done].
  by apply forallb_replicate.
Qed.

Lemma seq_text_facts z : 0 <= z < 10 ^ 20 ->
  forallb is_dec (s2l (py_str z)) = true /\ s2l (py_str z) <> [] /\ (length (s2l (py_str z)) <= 20)%nat.
Proof.
  intros Hz. unfold py_str, py_str_b. rewrite s2l_l2s. destruct (Z.ltb_spec z 0); [lia|].
  split_and!; [apply dec_bytes_digits; lia|apply dec_bytes_nonempty|by apply dec_bytes_length; [lia|]].
Qed.

Lemma pad_left_seq z : 0 <= z < 10 ^ 20 ->
  exists l, _pad_left (py_str z) _SEQUENCE_WIDTH = Ok l /\ length l = 20%nat /\ decode_seq l = Ok z.
Proof.
  intros Hz. destruct (seq_text_facts z Hz) as (Hd & Hn & Hl).
  assert (forallb is_ascii (s2l (py_str z)) = true) as Ha by (eapply forallb_impl; [apply is_dec_ascii|done]).
  rewrite pad_left_ok by done. eexists. split; [done|]. split.
  - unfold _SEQUENCE_WIDTH. rewrite length_app, length_replicate. lia.
  - unfold decode_seq, decode_ascii. rewrite ascii_pad_left by done. cbn [mbind res_bind].
    rewrite strip_padded by (auto using digits_no_lead, digits_no_trail).
    rewrite <- (l2s_s2l (py_str z)) at 1. rewrite isdigit_dec by done. cbn [negb]. apply py_int_str. lia.
Qed.

Lemma pad_left_session s : text_ok is_ws 10 s = true ->
  exists l, _pad_left s _SESSION_WIDTH = Ok l /\ length l = 10%nat /\
    decode_ascii l = Ok (l2s l) /\ strip (l2s l) = s.
Proof.
  unfold text_ok. intros [[[Ha Hl]%andb_true_iff H1]%andb_true_iff H2]%andb_true_iff.
  apply Nat.leb_le in Hl. rewrite pad_left_ok by done. eexists. split; [done|]. split_and!.
  - unfold _SESSION_WIDTH. rewrite length_app, length_replicate. lia.
  - unfold decode_ascii. by rewrite ascii_pad_left.
  - by apply strip_padded.
Qed.

Lemma pad_right_text s width : text_ok (fun _ => false) width s = true -> no_trail is_sp (s2l s) = true ->
  exists l, _pad_right s width = Ok l /\ length l = width /\
    decode_ascii l = Ok (l2s l) /\ rstrip_spaces (l2s l) = s.
Proof.
  unfold text_ok. intros [[[Ha Hl]%andb_true_iff _]%andb_true_iff _]%andb_true_iff Ht.
  apply Nat.leb_le in Hl. rewrite pad_right_ok by done. eexists. split; [done|]. split_and!.
  - rewrite length_app, length_replicate. lia.
  - unfold decode_ascii. rewrite forallb_app, Ha, forallb_replicate; done.
  - unfold rstrip_spaces. rewrite s2l_l2s, rstrip_pad by done. apply l2s_s2l.
Qed.

Lemma slice_app_l {A} n (a l : list A) : length a = n -> slice 0 n (a ++ l) = a.
Proof. intros <-. unfold slice. by rewrite Nat.sub_0_r, drop_0, take_app_length. Qed.

Lemma slice_app_r {A} i j n (a l : list A) : length a = n -> (n <= i)%nat ->
  slice i j (a ++ l) = slice (i - n) (j - n) l.
Proof.
  intros <- Hi. unfold slice. rewrite drop_app_ge by done. f_equal. lia.
Qed.

(** ** A frame *)

(** The bytes of one packet: the length of the body, then the body. *)
Definition framed (body : bytes) : bytes := be_bytes 2 (zlen body) ++ body.

(** [p] is encoded as the frame of a body that decodes to [p]. *)
Definition encodes (e : res bytes) (p : packet) : Prop :=
  exists body, e = Ok (framed body) /\ 1 <= zlen body < 65536 /\ decode_frame body = Ok p.

Lemma encodes_frame t payload p : zlen payload < 65535 -> decode_frame (t :: payload) = Ok p ->
  encodes (_frame t payload) p.
Proof.
  intros Hl Hd. exists (t :: payload). split; [by apply frame_ok|]. split; [|done].
  unfold zlen in *. cbn [length]. lia.
Qed.

Lemma encodes_login_accepted session sequence :
  text_ok is_ws 10 session = true -> 0 <= sequence < 10 ^ 20 ->
  encodes (encode_login_accepted session sequence) (LoginAccepted session sequence).
Proof.
  intros Hs Hq. destruct (pad_left_session _ Hs) as (a & Ea & La & Da & Sa).
  destruct (pad_left_seq sequence Hq) as (b & Eb & Lb & Db).
  unfold encode_login_accepted. rewrite Ea, Eb. cbn [mbind res_bind].
  apply encodes_frame; [unfold zlen; rewrite length_app; lia|].
  change (_decode_login_accepted (a ++ b) = Ok (LoginAccepted session sequence)).
  unfold _decode_login_accepted, _SESSION_WIDTH, _SEQUENCE_WIDTH. rewrite length_app, La, Lb.
  cbn [Nat.eqb negb Nat.add].
  rewrite slice_app_l, (slice_app_r 10 30 10) by done. cbn [Nat.sub].
  rewrite Da. cbn [mbind res_bind]. rewrite <- (app_nil_r b), slice_app_l by done. rewrite Db. cbn. by rewrite Sa.
Qed.

Lemma encodes_login_rejected r :
  forallb is_ascii (s2l r) = true -> length (s2l r) = 1%nat ->
  encodes (encode_login_rejected r) (LoginRejected r).
Proof.
  intros Ha Hl. unfold encode_login_rejected, encode_ascii. rewrite Ha. cbn [mbind res_bind]. rewrite Hl.
  cbn [Nat.eqb negb]. apply encodes_frame; [unfold zlen; lia|].
  change (_decode_login_rejected (s2l r) = Ok (LoginRejected r)).
  unfold _decode_login_rejected, decode_ascii. rewrite Hl, Ha. cbn. by rewrite l2s_s2l.
Qed.

Lemma encodes_login_request u p s q :
  text_ok (fun _ => false) 6 u = true -> no_trail is_sp (s2l u) = true ->
  text_ok (fun _ => false) 10 p = true -> no_trail is_sp (s2l p) = true ->
  text_ok is_ws 10 s = true -> 0 <= q < 10 ^ 20 ->
  encodes (encode_login_request u p s q) (LoginRequest u p s q).
Proof.
  intros Hu Hu2 Hp Hp2 Hs Hq.
  destruct (pad_right_text _ _ Hu Hu2) as (a & Ea & La & Da & Sa).
  destruct (pad_right_text _ _ Hp Hp2) as (b & Eb & Lb & Db & Sb).
  destruct (pad_left_session _ Hs) as (c & Ec & Lc & Dc & Sc).
  destruct (pad_left_seq q Hq) as (d & Ed & Ld & Dd).
  unfold encode_login_request, _USERNAME_WIDTH, _PASSWORD_WIDTH. rewrite Ea, Eb, Ec, Ed. cbn [mbind res_bind].
  apply encodes_frame; [unfold zlen; rewrite !length_app; lia|].
  change (_decode_login_request (a ++ b ++ c ++ d) = Ok (LoginRequest u p s q)).
  unfold _decode_login_request, _USERNAME_WIDTH, _PASSWORD_WIDTH, _SESSION_WIDTH, _SEQUENCE_WIDTH.
  rewrite !length_app, La, Lb, Lc, Ld. cbn [Nat.eqb negb Nat.add].
  rewrite slice_app_l, !(slice_app_r _ _ 6 a) by (done || lia). cbn [Nat.sub].
  rewrite slice_app_l, !(slice_app_r _ _ 10 b) by (done || lia). cbn [Nat.sub].
  rewrite slice_app_l, !(slice_app_r _ _ 10 c) by (done || lia). cbn [Nat.sub].
  rewrite Da, Db, Dc. cbn [mbind res_bind]. rewrite <- (app_nil_r d), slice_app_l by done.
  rewrite Dd. cbn. by rewrite Sa, Sb, Sc.
Qed.

Lemma encode_packet_ok p : packet_ok p = true -> encodes (encode_packet p) p.
Proof.
  destruct p as [session sequence|reject_code|m| | |m|username password rs rseq|m| |];
    cbn [packet_ok encode_packet]; rewrite ?andb_true_iff; intros H.
  - apply encodes_login_accepted; [apply H|lia].
  - apply encodes_login_rejected; [apply H|apply Nat.eqb_eq, H].
  - apply encodes_frame; [lia|done].
  - by apply encodes_frame.
  - by apply encodes_frame.
  - apply encodes_frame; [lia|done].
  - apply encodes_login_request; try apply H. lia.
  - apply encodes_frame; [lia|done].
  - by apply encodes_frame.
  - by apply encodes_frame.
Qed.

(** * Lemmas: reassembly *)

Lemma take_framed body rest : take 2 (framed body ++ rest) = be_bytes 2 (zlen body).
Proof. unfold framed. rewrite <- app_assoc, take_app_length'; [done|by rewrite be_bytes_length]. Qed.

Lemma framed_length body : length (framed body) = (2 + length body)%nat.
Proof. unfold framed. by rewrite length_app, be_bytes_length. Qed.

(** The header of a buffer that starts with two bytes. *)
Definition body_len (buf : bytes) : nat := Z.to_nat (be_val (take 2 buf)).

Lemma feed_loop_S fuel buf :
  feed_loop (S fuel) buf =
  if (length buf <? 2)%nat then (buf, Ok [])
  else if (length buf <? 2 + body_len buf)%nat then (buf, Ok [])
  else
    match decode_frame (slice 2 (2 + body_len buf) buf) with
    | Raise e => (drop (2 + body_len buf) buf, Raise e)
    | Ok p =>
        match feed_loop fuel (drop (2 + body_len buf) buf) with
        | (buf'', Ok ps) => (buf'', Ok (p :: ps))
        | (buf'', Raise e) => (buf'', Raise e)
        end
    end.
Proof.
  cbn [feed_loop]. destruct (Nat.ltb_spec (length buf) 2); [done|].
  rewrite unpack1_U by (rewrite length_take; lia). done.
Qed.

(** More fuel than the buffer needs changes nothing. *)
Lemma feed_loop_fuel f1 f2 buf : (length buf < f1)%nat -> (length buf < f2)%nat ->
  feed_loop f1 buf = feed_loop f2 buf.
Proof.
  revert f2 buf. induction f1 as [|f1 IH]; intros [|f2] buf H1 H2; [lia|lia|lia|].
  rewrite !feed_loop_S. destruct (Nat.ltb_spec (length buf) 2); [done|].
  destruct (Nat.ltb_spec (length buf) (2 + body_len buf)); [done|].
  destruct (decode_frame _); [|done].
  rewrite (IH f2) by (rewrite length_drop; lia). done.
Qed.

(** A complete frame at the front of the buffer is delivered first. *)
Lemma feed_loop_framed fuel body rest : zlen body < 65536 -> (length (framed body ++ rest) < fuel)%nat ->
  feed_loop fuel (framed body ++ rest) =
  match decode_frame body with
  | Raise e => (rest, Raise e)
  | Ok p =>
      match feed_loop fuel rest with
      | (buf', Ok ps) => (buf', Ok (p :: ps))
      | (buf', Raise e) => (buf', Raise e)
      end
  end.
Proof.
  intros Hb Hf. rewrite length_app, framed_length in Hf. pose proof (zlen_nonneg body).
  destruct fuel as [|fuel]; [lia|]. rewrite feed_loop_S.
  assert (body_len (framed body ++ rest) = length body) as ->.
  { unfold body_len. rewrite take_framed, be_val_bytes_small by (cbn; lia). unfold zlen. lia. }
  rewrite length_app, framed_length.
  destruct (Nat.ltb_spec (2 + length body + length rest) 2); [lia|].
  destruct (Nat.ltb_spec (2 + length body + length rest) (2 + length body)); [lia|].
  rewrite drop_app_length' by by rewrite framed_length.
  assert (slice 2 (2 + length body) (framed body ++ rest) = body) as ->.
  { unfold slice, framed. rewrite <- app_assoc, drop_app_length' by by rewrite be_bytes_length.
    by rewrite take_app_length' by lia. }
  rewrite (feed_loop_fuel fuel (S fuel)) by lia. done.
Qed.

(** The buffer only shrinks. *)
Lemma feed_loop_shrinks fuel buf buf' r : feed_loop fuel buf = (buf', r) -> (length buf' <= length buf)%nat.
Proof.
  revert buf r. induction fuel as [|fuel IH]; intros buf r H; [by injection H as <- <-|].
  rewrite feed_loop_S in H. destruct (length buf <? 2)%nat; [by injection H as <- <-|].
  destruct (length buf <? 2 + body_len buf)%nat; [by injection H as <- <-|].
  destruct (decode_frame _); [|injection H as <- _; rewrite length_drop; lia].
  destruct (feed_loop fuel (drop _ buf)) as [b2 [qs|e]] eqn:E; injection H as <- _;
    apply IH in E; rewrite length_drop in E; lia.
Qed.

(** Feeding in two parts what can be fed at once. *)
Lemma feed_loop_app fuel buf data buf' ps : (length (buf ++ data) < fuel)%nat ->
  feed_loop fuel (buf ++ data) = (buf', Ok ps) ->
  exists buf1 ps1 ps2, feed_loop fuel buf = (buf1, Ok ps1) /\
    feed_loop fuel (buf1 ++ data) = (buf', Ok ps2) /\ ps = ps1 ++ ps2.
Proof.
  revert buf ps. induction fuel as [|fuel IH]; intros buf ps Hf H; [lia|].
  rewrite feed_loop_S. destruct (Nat.ltb_spec (length buf) 2); [by exists buf, [], ps|].
  assert (body_len (buf ++ data) = body_len buf) as El.
  { unfold body_len. by rewrite take_app_le by lia. }
  destruct (Nat.ltb_spec (length buf) (2 + body_len buf)); [by exists buf, [], ps|].
  rewrite feed_loop_S, El in H. rewrite length_app in *.
  destruct (Nat.ltb_spec (length buf + length data) 2); [lia|].
  destruct (Nat.ltb_spec (length buf + length data) (2 + body_len buf)); [lia|].
  assert (slice 2 (2 + body_len buf) (buf ++ data) = slice 2 (2 + body_len buf) buf) as Es.
  { unfold slice. rewrite drop_app_le by lia. rewrite take_app_le; [done|]. rewrite length_drop. lia. }
  rewrite Es in H. destruct (decode_frame _) as [p|e]; [|done].
  rewrite drop_app_le in H by lia.
  destruct (feed_loop fuel (drop (2 + body_len buf) buf ++ data)) as [b2 [qs|e]] eqn:E; [|done].
  injection H as -> <-.
  apply IH in E as (buf1 & ps1 & ps2 & E1 & E2 & ->); [|rewrite length_app, length_drop; lia].
  exists buf1, (p :: ps1), ps2. rewrite E1. split; [done|]. split; [|done].
  assert (length buf1 <= length (drop (2 + body_len buf) buf))%nat as Hb1.
  { by eapply feed_loop_shrinks. }
  rewrite length_drop in Hb1. rewrite <- E2. apply feed_loop_fuel; rewrite length_app; lia.
Qed.

Lemma feed_app_ok buf c1 c2 buf' ps : feed (c1 ++ c2) buf = (buf', Ok ps) ->
  exists buf1 ps1 ps2, feed c1 buf = (buf1, Ok ps1) /\ feed c2 buf1 = (buf', Ok ps2) /\ ps = ps1 ++ ps2.
Proof.
  unfold feed. rewrite app_assoc. intros H. set (f := S (length ((buf ++ c1) ++ c2))) in *.
  destruct (feed_loop_app f (buf ++ c1) c2 buf' ps ltac:(unfold f; lia) H) as (buf1 & ps1 & ps2 & E1 & E2 & ->).
  exists buf1, ps1, ps2. pose proof (feed_loop_shrinks _ _ _ _ E1) as Hs.
  rewrite <- E1, <- E2. subst f. repeat rewrite length_app in *.
  split_and!; [| |done]; apply feed_loop_fuel; repeat rewrite length_app; lia.
Qed.

(** A buffer [feed] has left holds no complete frame. *)
Lemma feed_loop_rest fuel buf buf' ps : (length buf < fuel)%nat ->
  feed_loop fuel buf = (buf', Ok ps) -> feed_loop (S (length buf')) buf' = (buf', Ok []).
Proof.
  revert buf ps. induction fuel as [|fuel IH]; intros buf ps Hf H; [lia|].
  rewrite feed_loop_S in H. destruct (Nat.ltb_spec (length buf) 2).
  { injection H as <- <-. rewrite feed_loop_S. by rewrite (proj2 (Nat.ltb_lt _ _)). }
  destruct (Nat.ltb_spec (length buf) (2 + body_len buf)).
  { injection H as <- <-. rewrite feed_loop_S. destruct (_ <? 2)%nat; [done|]. by rewrite (proj2 (Nat.ltb_lt _ _)). }
  destruct (decode_frame _); [|done].
  destruct (feed_loop fuel (drop _ buf)) as [b2 [qs|e]] eqn:E; [|done]. injection H as -> <-.
  eapply IH; [|done]. rewrite length_drop. lia.
Qed.

Lemma feed_all_concat chunks buf buf' ps :
  feed (concat chunks) buf = (buf', Ok ps) -> feed_loop (S (length buf)) buf = (buf, Ok []) ->
  feed_all chunks buf = (buf', Ok ps).
Proof.
  revert buf ps. induction chunks as [|c cs IH]; intros buf ps H Hb; cbn [concat feed_all] in *.
  - unfold feed in H. rewrite app_nil_r in H. rewrite Hb in H. injection H as -> <-. done.
  - apply feed_app_ok in H as (buf1 & ps1 & ps2 & E1 & E2 & ->).
    munfold. rewrite E1. rewrite (IH buf1 ps2 E2); [done|]. unfold feed in E1.
    eapply feed_loop_rest; [|exact E1]. lia.
Qed.

Lemma feed_stream packets stream :
  forallb packet_ok packets = true -> rmap encode_packet packets = Ok stream ->
  feed (concat stream) [] = ([], Ok packets).
Proof.
  intros Hp Hs. unfold feed. cbn [app]. generalize (Nat.lt_succ_diag_r (length (concat stream))).
  generalize (S (length (concat stream))). intros fuel. revert stream Hp Hs.
  induction packets as [|p packets IH]; intros stream Hp Hs Hf; cbn in Hs; inv_ok; [by destruct fuel|].
  cbn in Hp. apply andb_true_iff in Hp as [Hp Hps].
  destruct (encode_packet_ok p Hp) as (body & E & Hl & Hd).
  match goal with H : encode_packet p = Ok _ |- _ => rewrite E in H; injection H as <- end.
  cbn [concat] in *. rewrite feed_loop_framed by (done || lia). rewrite length_app in Hf.
  rewrite Hd, IH; [done|done|done|lia].
Qed.

(** * Properties *)

(** Every packet round trips through its wire bytes, and a frame that decodes is
    at most 65537 bytes with its length prefix. *)
Theorem packet_roundtrip p : packet_ok p = true ->
  exists l, encode_packet p = Ok l /\ decode_frame (drop 2 l) = Ok p /\
    be_val (take 2 l) = zlen (drop 2 l) /\ zlen l <= 65537.
Proof.
  intros H. destruct (encode_packet_ok p H) as (body & E & Hl & Hd). exists (framed body). split; [done|].
  unfold framed. rewrite drop_app_length', take_app_length' by by rewrite be_bytes_length.
  split; [done|]. split; [rewrite be_val_bytes_small; cbn; lia|].
  rewrite zlen_app. unfold zlen in *. rewrite be_bytes_length. lia.
Qed.

Lemma packet_roundtrip_witness :
  exists l, encode_packet (LoginRequest "AB" "secret" "SIM0000001" 42) = Ok l /\
    decode_frame (drop 2 l) = Ok (LoginRequest "AB" "secret" "SIM0000001" 42).
Proof.
  destruct (packet_roundtrip (LoginRequest "AB" "secret" "SIM0000001" 42) ltac:(vm_compute; reflexivity))
    as (l & E & D & _).
  exists l. split; assumption.
Defined.

(** However TCP cuts or merges the stream: feeding the reads one by one gives the
    packets that feeding everything at once gives, and leaves the same buffer. *)
Theorem feed_chunks chunks buf' ps :
  feed (concat chunks) [] = (buf', Ok ps) -> feed_all chunks [] = (buf', Ok ps).
Proof. intros H. by apply feed_all_concat. Qed.

Lemma feed_chunks_witness :
  feed_all [[x00]; [x01; "H"; x00]; [x02]%byte]%byte [] = ([x00; x02]%byte, Ok [ServerHeartbeat]).
Proof. apply feed_chunks. vm_compute. reflexivity. Defined.

(** C20. A stream of encoded packets, cut anywhere by TCP, is reassembled into exactly
    those packets with nothing left over. *)
Theorem stream_roundtrip packets stream chunks :
  forallb packet_ok packets = true -> rmap encode_packet packets = Ok stream ->
  concat chunks = concat stream ->
  feed_all chunks [] = ([], Ok packets).
Proof. intros Hp Hs Hc. apply feed_all_concat; [|done]. rewrite Hc. by apply feed_stream. Qed.

Definition demo_packets : list packet :=
  [LoginAccepted "SIM0000001" 7; SequencedData [x00; x41; xff]; ServerHeartbeat; EndOfSession]%byte.

Lemma stream_roundtrip_witness :
  exists stream, rmap encode_packet demo_packets = Ok stream /\
    feed_all (map (fun b => [b]) (concat stream)) [] = ([], Ok demo_packets).
Proof.
  eexists. split; [vm_compute; reflexivity|].
  eapply stream_roundtrip; [vm_compute; reflexivity|vm_compute; reflexivity|vm_compute; reflexivity].
Defined.

(** A frame that does not decode raises, and takes with it the packets decoded
    earlier in the same read: they are never delivered. *)
Theorem bad_frame_loses_packets :
  feed (framed ["H"%byte] ++ framed ["?"%byte] ++ framed ["Z"%byte]) []
  = (framed ["Z"%byte], Raise ValueError).
Proof. vm_compute. reflexivity. Qed.
