(* ===== verification/SoupSession.v ===== *)
(** jnxfeed/soup/session.py: the sans-I/O SoupBinTCP client session.

    The session is one component of a larger world [W] (the connector, the
    handler, the market).  [SessionOf W] says where the world keeps the session and
    [SessionCallbacks W] what its five callbacks do; a callback may touch the whole
    world, the session included, while [on_bytes] is still running.  Times
    are integer milliseconds of the monotonic clock. *)
From S2P Require Export SoupPackets.

Definition HEARTBEAT_INTERVAL : Z := 1000.
Definition DEFAULT_SILENCE_TIMEOUT : Z := 15000.

Inductive session_state : Type :=
| STATE_CONNECTED | STATE_LOGIN_SENT | STATE_LIVE | STATE_ENDED | STATE_FAILED.

#[export] Instance session_state_eq_dec : EqDecision session_state.
Proof. solve_decision. Defined.

Record SoupSession : Type := mkSession {
  username : str; password : str; heartbeat_interval : Z; silence_timeout : Z;
  session_id : str; next_seq : Z; sstate : session_state; reject_code : option str;
  _frames : bytes; _out : bytes; _last_sent : option Z; _last_received : option Z }.

Definition session_init (username password requested_session : str) (requested_seq : Z) : SoupSession :=
  mkSession username password HEARTBEAT_INTERVAL DEFAULT_SILENCE_TIMEOUT requested_session requested_seq
    STATE_CONNECTED None [] [] None None.

Definition ss_resume (sid : str) (seq : Z) (s : SoupSession) : SoupSession :=
  mkSession (username s) (password s) (heartbeat_interval s) (silence_timeout s) sid seq (sstate s)
    (reject_code s) (_frames s) (_out s) (_last_sent s) (_last_received s).
Definition ss_state (st : session_state) (s : SoupSession) : SoupSession :=
  mkSession (username s) (password s) (heartbeat_interval s) (silence_timeout s) (session_id s) (next_seq s)
    st (reject_code s) (_frames s) (_out s) (_last_sent s) (_last_received s).
Definition ss_reject (c : option str) (s : SoupSession) : SoupSession :=
  mkSession (username s) (password s) (heartbeat_interval s) (silence_timeout s) (session_id s) (next_seq s)
    (sstate s) c (_frames s) (_out s) (_last_sent s) (_last_received s).
Definition ss_frames (b : bytes) (s : SoupSession) : SoupSession :=
  mkSession (username s) (password s) (heartbeat_interval s) (silence_timeout s) (session_id s) (next_seq s)
    (sstate s) (reject_code s) b (_out s) (_last_sent s) (_last_received s).
Definition ss_out (b : bytes) (s : SoupSession) : SoupSession :=
  mkSession (username s) (password s) (heartbeat_interval s) (silence_timeout s) (session_id s) (next_seq s)
    (sstate s) (reject_code s) (_frames s) b (_last_sent s) (_last_received s).
Definition ss_sent (t : option Z) (s : SoupSession) : SoupSession :=
  mkSession (username s) (password s) (heartbeat_interval s) (silence_timeout s) (session_id s) (next_seq s)
    (sstate s) (reject_code s) (_frames s) (_out s) t (_last_received s).
Definition ss_received (t : option Z) (s : SoupSession) : SoupSession :=
  mkSession (username s) (password s) (heartbeat_interval s) (silence_timeout s) (session_id s) (next_seq s)
    (sstate s) (reject_code s) (_frames s) (_out s) (_last_sent s) t.

(** * The methods that touch only the session *)

(** [self._out += sp.encode(pkt)] *)
Definition queue (p : packet) : M SoupSession () :=
  l ← mlift (encode_packet p); mmod (fun s => ss_out (_out s ++ l) s).

Definition reset (s : SoupSession) : SoupSession :=
  mkSession (username s) (password s) (heartbeat_interval s) (silence_timeout s) (session_id s) (next_seq s)
    STATE_CONNECTED None [] [] None None.

Definition start (now : Z) (requested_session : option str) (requested_seq : option Z) : M SoupSession () :=
  s ← mget;
  if bool_decide (sstate s <> STATE_CONNECTED) then mraise RuntimeError
  else
    mmod (ss_resume (default (session_id s) requested_session) (default (next_seq s) requested_seq)) ;;
    s ← mget;
    queue (LoginRequest (username s) (password s) (session_id s) (next_seq s)) ;;
    mmod (ss_sent (Some now)) ;;
    mmod (ss_state STATE_LOGIN_SENT).

Definition logout (now : option Z) : M SoupSession () :=
  queue LogoutRequest ;;
  match now with Some t => mmod (ss_sent (Some t)) | None => mret () end.

Definition pending_output : M SoupSession bytes := fun s => (ss_out [] s, Ok (_out s)).
Definition has_pending_output (s : SoupSession) : bool := negb (bool_decide (_out s = [])).

(** * The interface to the world *)

Class SessionOf (W : Type) : Type := {
  sess : W -> SoupSession;
  set_sess : SoupSession -> W -> W }.

Class SessionCallbacks (W : Type) : Type := {
  on_login_accepted : str -> Z -> M W ();
  on_login_rejected : str -> M W ();
  on_message : Z -> bytes -> M W ();
  on_end_of_session : M W ();
  on_peer_silent : M W () }.

Class SessionLaws (W : Type) `{SessionOf W} : Prop := {
  sess_set : forall s w, sess (set_sess s w) = s;
  set_set : forall s s' w, set_sess s (set_sess s' w) = set_sess s w;
  set_get : forall w, set_sess (sess w) w = w }.

Section session.
  Context {W : Type} `{SessionOf W} `{SessionCallbacks W}.

(** Run a method of the session inside the world. *)
Definition on_sess {A} (m : M SoupSession A) : M W A := zoom sess set_sess m.

Definition _handle_packet (pkt : packet) : M W () :=
  match pkt with
  | LoginAccepted session sequence =>
      on_sess (mmod (fun s => ss_state STATE_LIVE (ss_resume session sequence s))) ;;
      w ← mget;
      on_login_accepted (session_id (sess w)) (next_seq (sess w))
  | LoginRejected code =>
      on_sess (mmod (fun s => ss_reject (Some code) (ss_state STATE_FAILED s))) ;;
      on_login_rejected code
  | SequencedData message =>
      w ← mget;
      let seq := next_seq (sess w) in
      on_sess (mmod (fun s => ss_resume (session_id s) (next_seq s + 1) s)) ;;
      on_message seq message
  | EndOfSession =>
      on_sess (mmod (ss_state STATE_ENDED)) ;;
      on_end_of_session
  | _ => mret ()
  end.

(** [FrameBuffer.feed] on the session's buffer: nothing is handled when it raises. *)
Definition session_feed (data : bytes) : M SoupSession (list packet) :=
  zoom _frames ss_frames (feed data).

Definition on_bytes (data : bytes) (now : Z) : M W () :=
  on_sess (mmod (ss_received (Some now))) ;;
  pkts ← on_sess (session_feed data);
  mfor pkts _handle_packet.

Definition on_tick (now : Z) : M W () :=
  w ← mget;
  let s := sess w in
  if bool_decide (sstate s = STATE_LOGIN_SENT \/ sstate s = STATE_LIVE) then
    if match _last_received s with Some t => silence_timeout s <=? now - t | None => false end then
      on_peer_silent
    else if match _last_sent s with Some t => heartbeat_interval s <=? now - t | None => false end then
      on_sess (queue ClientHeartbeat) ;;
      on_sess (mmod (ss_sent (Some now)))
    else mret ()
  else mret ().
End session.

(** * A world that only records the callbacks *)

Inductive event : Type :=
| EvLoginAccepted (session : str) (seq : Z)
| EvLoginRejected (code : str)
| EvMessage (seq : Z) (payload : bytes)
| EvEndOfSession
| EvPeerSilent.

Abbreviation recorder := (SoupSession * list event)%type.
Definition ev (e : event) : M recorder () := mmod (fun w => (w.1, w.2 ++ [e])).

#[export] Instance recorder_session : SessionOf recorder := {|
  sess := fst;
  set_sess := fun s w => (s, w.2) |}.
#[export] Instance recorder_callbacks : SessionCallbacks recorder := {|
  on_login_accepted := fun sid seq => ev (EvLoginAccepted sid seq);
  on_login_rejected := fun c => ev (EvLoginRejected c);
  on_message := fun seq m => ev (EvMessage seq m);
  on_end_of_session := ev EvEndOfSession;
  on_peer_silent := ev EvPeerSilent |}.

#[export] Instance recorder_laws : SessionLaws recorder.
Proof. split; intros; [done|done|by destruct w]. Qed.

(** ** What a packet does to the resume point and which event it causes *)

Definition packet_event (seq : Z) (p : packet) : option event :=
  match p with
  | LoginAccepted sid n => Some (EvLoginAccepted sid n)
  | LoginRejected c => Some (EvLoginRejected c)
  | SequencedData m => Some (EvMessage seq m)
  | EndOfSession => Some EvEndOfSession
  | _ => None
  end.
Definition packet_seq (seq : Z) (p : packet) : Z :=
  match p with LoginAccepted _ n => n | SequencedData _ => seq + 1 | _ => seq end.
Definition packet_sid (sid : str) (p : packet) : str :=
  match p with LoginAccepted s _ => s | _ => sid end.
Definition packet_state (st : session_state) (p : packet) : session_state :=
  match p with
  | LoginAccepted _ _ => STATE_LIVE
  | LoginRejected _ => STATE_FAILED
  | EndOfSession => STATE_ENDED
  | _ => st
  end.

(** The events of a stream of packets, each message numbered. *)
Fixpoint packet_events (seq : Z) (ps : list packet) : list event :=
  match ps with
  | [] => []
  | p :: ps' => option_list (packet_event seq p) ++ packet_events (packet_seq seq p) ps'
  end.

Lemma handle_packet_rec p s evs :
  exists s', _handle_packet p (s, evs) = ((s', evs ++ option_list (packet_event (next_seq s) p)), Ok ()) /\
    next_seq s' = packet_seq (next_seq s) p /\ session_id s' = packet_sid (session_id s) p /\
    sstate s' = packet_state (sstate s) p /\ _frames s' = _frames s /\ _out s' = _out s.
Proof.
  destruct p; cbn [_handle_packet packet_event packet_seq option_list];
    unfold on_sess, zoom, ev; munfold; cbn; rewrite ?app_nil_r; eexists; split_and!; done.
Qed.

Lemma handle_packets_rec ps s evs :
  exists s', mfor ps _handle_packet (s, evs) = ((s', evs ++ packet_events (next_seq s) ps), Ok ()) /\
    next_seq s' = foldl packet_seq (next_seq s) ps /\ session_id s' = foldl packet_sid (session_id s) ps /\
    sstate s' = foldl packet_state (sstate s) ps /\ _frames s' = _frames s /\ _out s' = _out s.
Proof.
  revert s evs. induction ps as [|p ps IH]; intros s evs; cbn [mfor packet_events foldl].
  - exists s. by rewrite app_nil_r.
  - destruct (handle_packet_rec p s evs) as (s1 & E & Hn & Hi & Hs & Hf & Ho).
    destruct (IH s1 (evs ++ option_list (packet_event (next_seq s) p))) as (s2 & E2 & Hn2 & Hi2 & Hs2 & Hf2 & Ho2).
    exists s2. munfold. rewrite E, E2, Hn. rewrite Hn in Hn2. rewrite Hi in Hi2. rewrite Hs in Hs2.
    rewrite app_assoc. split_and!; congruence.
Qed.

(** Reading the wire chunk by chunk. *)
Definition on_reads (reads : list (bytes * Z)) : M recorder () :=
  mfor reads (fun r => on_bytes r.1 r.2).

Lemma on_bytes_rec data now s evs buf' ps :
  feed data (_frames s) = (buf', Ok ps) ->
  exists s', on_bytes data now (s, evs) = ((s', evs ++ packet_events (next_seq s) ps), Ok ()) /\
    _frames s' = buf' /\ next_seq s' = foldl packet_seq (next_seq s) ps /\
    session_id s' = foldl packet_sid (session_id s) ps /\ sstate s' = foldl packet_state (sstate s) ps /\
    _out s' = _out s.
Proof.
  intros Hf. unfold on_bytes, on_sess, session_feed, zoom. munfold. cbn -[feed].
  rewrite Hf. set (s1 := ss_frames buf' _).
  destruct (handle_packets_rec ps s1 evs) as (s' & E & Hn & Hi & Hs & Hfr & Ho).
  exists s'. unfold s1 in *. cbn in *. rewrite E. by split_and!.
Qed.

Lemma packet_events_app seq ps qs :
  packet_events seq (ps ++ qs) = packet_events seq ps ++ packet_events (foldl packet_seq seq ps) qs.
Proof.
  revert seq. induction ps as [|p ps IH]; intros seq; cbn; [done|]. by rewrite IH, app_assoc.
Qed.

Lemma on_reads_rec reads s evs buf' ps :
  feed_all (map fst reads) (_frames s) = (buf', Ok ps) ->
  exists s', on_reads reads (s, evs) = ((s', evs ++ packet_events (next_seq s) ps), Ok ()) /\
    _frames s' = buf' /\ next_seq s' = foldl packet_seq (next_seq s) ps /\
    session_id s' = foldl packet_sid (session_id s) ps /\ sstate s' = foldl packet_state (sstate s) ps.
Proof.
  revert s evs ps. induction reads as [|[d t] reads IH]; intros s evs ps H; cbn [map fst feed_all] in H.
  - injection H as <- <-. exists s. cbn. by rewrite app_nil_r.
  - munfold. destruct (feed d (_frames s)) as [b1 [ps1|e]] eqn:E1; [|done].
    destruct (feed_all (map fst reads) b1) as [b2 [ps2|e]] eqn:E2; [|done]. injection H as <- <-.
    destruct (on_bytes_rec d t s evs _ _ E1) as (s1 & Eb & Hf & Hn & Hi & Hs & _).
    rewrite <- Hf in E2. destruct (IH s1 (evs ++ packet_events (next_seq s) ps1) _ E2)
      as (s2 & Er & Hf2 & Hn2 & Hi2 & Hs2).
    exists s2. unfold on_reads in *. cbn [mfor fst snd]. munfold. rewrite Eb, Er, Hn, packet_events_app, app_assoc.
    rewrite !foldl_app. split_and!; congruence.
Qed.

(** * Properties *)

(** Messages numbered from [n]. *)
Definition numbered (n : Z) (ms : list bytes) : list event :=
  imap (fun i m => EvMessage (n + Z.of_nat i) m) ms.

Lemma packet_events_data n ms : packet_events n (map SequencedData ms) = numbered n ms.
Proof.
  unfold numbered. revert n. induction ms as [|m ms IH]; intros n; cbn; [done|].
  rewrite Z.add_0_r, IH. f_equal. apply imap_ext. intros. cbn. f_equal. lia.
Qed.

Lemma packet_seq_data n ms : foldl packet_seq n (map SequencedData ms) = n + zlen ms.
Proof.
  revert n. induction ms as [|m ms IH]; intros n; cbn; [unfold zlen; cbn; lia|].
  rewrite IH. unfold zlen. cbn. lia.
Qed.

(** C16. However the bytes of a session are cut into reads: the callbacks are the login,
    then every message once, in order, numbered consecutively from the sequence
    the server accepted, whatever heartbeats are in between; the session ends up
    live with the resume point one past the last message. *)
Theorem session_delivers sid n ms stream reads s :
  packet_ok (LoginAccepted sid n) = true -> Forall (fun m => zlen m < 65535) ms ->
  rmap encode_packet (LoginAccepted sid n :: ServerHeartbeat :: map SequencedData ms) = Ok stream ->
  concat (map fst reads) = concat stream -> _frames s = [] ->
  exists s', on_reads reads (s, []) = ((s', EvLoginAccepted sid n :: numbered n ms), Ok ()) /\
    sstate s' = STATE_LIVE /\ session_id s' = sid /\ next_seq s' = n + zlen ms /\ _frames s' = [].
Proof.
  intros Hp Hms Hs Hr Hf.
  set (ps := LoginAccepted sid n :: ServerHeartbeat :: map SequencedData ms) in *.
  assert (forallb packet_ok ps = true) as Hok.
  { unfold ps. cbn [forallb]. rewrite Hp. cbn [andb packet_ok]. clear - Hms.
    induction Hms as [|m ms Hm _ IH]; cbn; [done|]. by rewrite (proj2 (Z.ltb_lt _ _)). }
  assert (feed_all (map fst reads) (_frames s) = ([], Ok ps)) as Hfeed.
  { rewrite Hf. apply feed_all_concat; [|done]. rewrite Hr. by apply feed_stream. }
  destruct (on_reads_rec reads s [] _ _ Hfeed) as (s' & E & Hf' & Hn & Hi & Hst).
  exists s'. unfold ps in *. cbn [packet_events packet_event packet_seq option_list app foldl packet_sid packet_state] in *.
  rewrite E, packet_events_data, Hn, packet_seq_data, Hi, Hst. split_and!; try done.
  - clear. induction ms; [done|]. by cbn.
  - clear. induction ms; [done|]. by cbn.
Qed.

Lemma session_delivers_witness :
  exists stream s', rmap encode_packet (LoginAccepted "SIM0000001" 7 :: ServerHeartbeat ::
      map SequencedData [["A"%byte]; ["B"%byte; "C"%byte]]) = Ok stream /\
    on_reads (map (fun b => ([b], 5)) (concat stream)) (session_init "U" "P" "" 1, [])
    = ((s', EvLoginAccepted "SIM0000001" 7 :: numbered 7 [["A"%byte]; ["B"%byte; "C"%byte]]), Ok ()) /\
    next_seq s' = 9.
Proof.
  eexists.
  destruct (session_delivers "SIM0000001" 7 [["A"%byte]; ["B"%byte; "C"%byte]] _
    (map (fun b => ([b], 5)) (concat ltac:(let l := eval vm_compute in
      (rmap encode_packet (LoginAccepted "SIM0000001" 7 :: ServerHeartbeat ::
      map SequencedData [["A"%byte]; ["B"%byte; "C"%byte]])) in match l with Ok ?x => exact x end)))
    (session_init "U" "P" "" 1) ltac:(vm_compute; reflexivity)
    ltac:(repeat constructor; vm_compute; reflexivity) ltac:(vm_compute; reflexivity)
    ltac:(vm_compute; reflexivity) eq_refl) as (s' & E & _ & _ & En & _).
  exists s'. split; [vm_compute; reflexivity|]. split; [exact E|exact En].
Defined.

(** A tick of a logged-in session: either the peer is reported silent, and nothing
    else happens, or afterwards less than a heartbeat interval of outbound silence
    has passed, at the price of at most one heartbeat; a session in any other
    state ignores the tick. *)
Theorem tick_keeps_alive now s evs t : 0 < heartbeat_interval s -> _last_sent s = Some t ->
  exists s' evs', on_tick now (s, evs) = ((s', evs'), Ok ()) /\
    (sstate s <> STATE_LOGIN_SENT /\ sstate s <> STATE_LIVE /\ s' = s /\ evs' = evs \/
     (exists r, _last_received s = Some r /\ silence_timeout s <= now - r) /\
       evs' = evs ++ [EvPeerSilent] /\ s' = s \/
     evs' = evs /\ sstate s' = sstate s /\ next_seq s' = next_seq s /\
       (exists t', _last_sent s' = Some t' /\ now - t' < heartbeat_interval s) /\
       (_out s' = _out s \/ _out s' = _out s ++ framed [TYPE_CLIENT_HEARTBEAT])).
Proof.
  intros Hh Ht. unfold on_tick. munfold. cbn [sess recorder_session fst].
  destruct (bool_decide _) eqn:Ed.
  2: { apply bool_decide_eq_false in Ed. exists s, evs. split; [done|]. left. split_and!; [naive_solver..|done|done]. }
  destruct (match _last_received s with Some _ => _ | None => _ end) eqn:Er.
  - exists s, (evs ++ [EvPeerSilent]). split; [done|]. right. left. split; [|done].
    destruct (_last_received s) as [r|]; [|done]. exists r. split; [done|lia].
  - rewrite Ht. destruct (Z.leb_spec (heartbeat_interval s) (now - t)).
    + eexists _, _. split; [vm_compute; reflexivity|]. right. right. cbn. split_and!; [done..| |by right].
      exists now. split; [done|lia].
    + exists s, evs. split; [done|]. right. right. split_and!; [done..| |by left]. by exists t.
Qed.

Lemma tick_keeps_alive_witness :
  let s := fst (start 0 None None (session_init "U" "P" "" 1)) in
  exists s' evs', on_tick 1000 (s, []) = ((s', evs'), Ok ()).
Proof.
  intros s. destruct (tick_keeps_alive 1000 s [] 0) as (s' & evs' & E & _);
    [vm_compute; reflexivity|vm_compute; reflexivity|]. exists s', evs'. exact E.
Defined.

(** [reset] and [start] on a new connection log in at the maintained resume point,
    and nothing of the old connection's buffers is left. *)
Lemma start_ok now s : sstate s = STATE_CONNECTED ->
  packet_ok (LoginRequest (username s) (password s) (session_id s) (next_seq s)) = true ->
  exists body, start now None None s =
    (mkSession (username s) (password s) (heartbeat_interval s) (silence_timeout s) (session_id s) (next_seq s)
      STATE_LOGIN_SENT (reject_code s) (_frames s) (_out s ++ framed body) (Some now) (_last_received s), Ok ()) /\
    encode_packet (LoginRequest (username s) (password s) (session_id s) (next_seq s)) = Ok (framed body) /\
    decode_frame body = Ok (LoginRequest (username s) (password s) (session_id s) (next_seq s)).
Proof.
  intros Hs Hp. destruct (encode_packet_ok _ Hp) as (body & E & _ & Ed). exists body. split; [|done].
  unfold start, queue. munfold. rewrite bool_decide_false by (rewrite Hs; naive_solver).
  cbn -[encode_packet]. rewrite E. done.
Qed.
