(* ===== verification/Reactor.v ===== *)
(** jnxfeed/net/reactor.py: the event loop.

    Callbacks are named by a type [CB] (the world says what each name runs).  The
    [_SocketState] objects are shared between [_states] and the selector's keys, so
    they live in a store and are referred to by index.  [heapq] is modelled by its
    contract: the list is kept ordered, so its head is the least handle.  The
    selector and the clock belong to the operating system: they are operations of
    the interfaces [ReactorOf] and [LoopOf]. *)
From S2P Require Export Prelude PyDict.

Definition EVENT_READ : Z := 1.
Definition EVENT_WRITE : Z := 2.

Record TimerHandle (CB : Type) : Type := mkTimer {
  deadline : Z; tseq : Z; callback : CB; cancelled : bool }.
Arguments mkTimer {CB} _ _ _ _.
Arguments deadline {CB} _.
Arguments tseq {CB} _.
Arguments callback {CB} _.
Arguments cancelled {CB} _.

Record SocketState (CB : Type) : Type := mkSockState { read_cb : option CB; write_cb : option CB }.
Arguments mkSockState {CB} _ _.
Arguments read_cb {CB} _.
Arguments write_cb {CB} _.

Record Reactor (CB : Type) : Type := mkReactor {
  objs : list (SocketState CB);        (* the _SocketState objects *)
  states : gmap nat nat;               (* _states: socket -> object *)
  selector : gmap nat (Z * nat);       (* socket -> mask and key.data *)
  timers : list (TimerHandle CB);
  timer_seq : Z;
  running : bool }.
Arguments mkReactor {CB} _ _ _ _ _ _.
Arguments objs {CB} _.
Arguments states {CB} _.
Arguments selector {CB} _.
Arguments timers {CB} _.
Arguments timer_seq {CB} _.
Arguments running {CB} _.

Definition reactor_init {CB} : Reactor CB := mkReactor [] ∅ ∅ [] 0 false.

(** [TimerHandle.__lt__]: the tuples [(deadline, seq)] compared. *)
Definition timer_lt {CB} (a b : TimerHandle CB) : bool :=
  (deadline a <? deadline b) || ((deadline a =? deadline b) && (tseq a <? tseq b)).

Section ops.
  Context {CB : Type}.

Definition set_timers (l : list (TimerHandle CB)) (r : Reactor CB) : Reactor CB :=
  mkReactor (objs r) (states r) (selector r) l (timer_seq r) (running r).
Definition set_running (b : bool) (r : Reactor CB) : Reactor CB :=
  mkReactor (objs r) (states r) (selector r) (timers r) (timer_seq r) b.

(** ** Socket interest *)

(** The three values [read_cb] and [write_cb] take: None, False or a callback. *)
Inductive interest : Type := Leave | Clear | SetTo (cb : CB).

Definition new_cb (i : interest) (cur : option CB) : option CB :=
  match i with Leave => cur | Clear => None | SetTo cb => Some cb end.

Definition mask_of (st : SocketState CB) : Z :=
  Z.lor (match read_cb st with Some _ => EVENT_READ | None => 0 end)
        (match write_cb st with Some _ => EVENT_WRITE | None => 0 end).

Definition obj_at (r : Reactor CB) (o : nat) : SocketState CB :=
  default (mkSockState None None) (objs r !! o).

(** The part of [_set_interest] after the lookup of the state object [o]. *)
Definition commit_interest (sock o : nat) (objs1 : list (SocketState CB)) (states1 : gmap nat nat)
    (rd wr : interest) (r : Reactor CB) : Reactor CB :=
  let st := default (mkSockState None None) (objs1 !! o) in
  let st' := mkSockState (new_cb rd (read_cb st)) (new_cb wr (write_cb st)) in
  let objs2 := <[o := st']> objs1 in
  let mask := mask_of st' in
  if mask =? 0 then
    mkReactor objs2 (delete sock states1) (delete sock (selector r)) (timers r) (timer_seq r) (running r)
  else
    mkReactor objs2 states1 (<[sock := (mask, o)]> (delete sock (selector r))) (timers r) (timer_seq r)
      (running r).

Definition _set_interest (sock : nat) (rd wr : interest) (r : Reactor CB) : Reactor CB :=
  match states r !! sock with
  | Some o => commit_interest sock o (objs r) (states r) rd wr r
  | None =>
      let o := length (objs r) in
      commit_interest sock o (objs r ++ [mkSockState None None]) (<[sock := o]> (states r)) rd wr r
  end.

Definition register_read (sock : nat) (cb : CB) : Reactor CB -> Reactor CB := _set_interest sock (SetTo cb) Leave.
Definition register_write (sock : nat) (cb : CB) : Reactor CB -> Reactor CB := _set_interest sock Leave (SetTo cb).
Definition unregister_read (sock : nat) : Reactor CB -> Reactor CB := _set_interest sock Clear Leave.
Definition unregister_write (sock : nat) : Reactor CB -> Reactor CB := _set_interest sock Leave Clear.

(** [unregister] forgets the socket; the state object keeps its callbacks. *)
Definition unregister (sock : nat) (r : Reactor CB) : Reactor CB :=
  match states r !! sock with
  | None => r
  | Some _ =>
      mkReactor (objs r) (delete sock (states r)) (delete sock (selector r)) (timers r) (timer_seq r) (running r)
  end.

(** ** Timers *)

Fixpoint heappush (h : TimerHandle CB) (l : list (TimerHandle CB)) : list (TimerHandle CB) :=
  match l with
  | [] => [h]
  | x :: l' => if timer_lt h x then h :: l else x :: heappush h l'
  end.

(** [call_later] at clock [now]: the handle is its sequence number. *)
Definition call_later (now delay : Z) (fn : CB) (r : Reactor CB) : Reactor CB * Z :=
  let h := mkTimer (now + delay) (timer_seq r) fn false in
  (mkReactor (objs r) (states r) (selector r) (heappush h (timers r)) (timer_seq r + 1) (running r),
   timer_seq r).

(** [handle.cancel()]: no effect on a handle that has left the heap. *)
Definition timer_cancel (h : Z) (r : Reactor CB) : Reactor CB :=
  set_timers
    ((fun t => if tseq t =? h then mkTimer (deadline t) (tseq t) (callback t) true else t) <$> timers r) r.

Fixpoint drop_cancelled (l : list (TimerHandle CB)) : list (TimerHandle CB) :=
  match l with
  | t :: l' => if cancelled t then drop_cancelled l' else l
  | [] => []
  end.

Definition _next_timeout (now : Z) (r : Reactor CB) : Reactor CB * option Z :=
  let l := drop_cancelled (timers r) in
  (set_timers l r, match l with [] => None | t :: _ => Some (Z.max 0 (deadline t - now)) end).
End ops.
Arguments interest : clear implicits.

(** * The loop, in the world that owns the reactor *)

(** Where the world keeps the reactor, and its clock [time.monotonic()]. *)
Class ReactorOf (W CB : Type) : Type := {
  rx : W -> Reactor CB;
  set_rx : Reactor CB -> W -> W;
  monotonic : M W Z }.

(** What a callback name runs, and the selector: the ready keys, each its
    [key.data] and mask. *)
Class LoopOf (W CB : Type) : Type := {
  run_cb : CB -> M W ();
  select : option Z -> M W (list (nat * Z)) }.

Section loop.
  Context {W CB : Type} `{ReactorOf W CB} `{LoopOf W CB}.

Definition on_rx {A} (f : Reactor CB -> Reactor CB * A) : M W A := fun w =>
  let '(r, a) := f (rx w) in (set_rx r w, Ok a).
Definition mod_rx (f : Reactor CB -> Reactor CB) : M W () := mmod (fun w => set_rx (f (rx w)) w).

Definition schedule (delay : Z) (fn : CB) : M W Z :=
  now ← monotonic; on_rx (call_later now delay fn).

(** The [while] of [_run_due_timers], at the clock read on entry. *)
Fixpoint due_loop (fuel : nat) (now : Z) : M W () := fun w =>
  match fuel with
  | O => (w, Ok ())
  | S fuel' =>
      match timers (rx w) with
      | [] => (w, Ok ())
      | t :: l =>
          if deadline t <=? now then
            let w1 := set_rx (set_timers l (rx w)) w in
            if cancelled t then due_loop fuel' now w1
            else
              match run_cb (callback t) w1 with
              | (w2, Raise e) => (w2, Raise e)
              | (w2, Ok _) => if running (rx w2) then due_loop fuel' now w2 else (w2, Ok ())
              end
          else (w, Ok ())
      end
  end.
Definition _run_due_timers (fuel : nat) : M W () := now ← monotonic; due_loop fuel now.

(** Dispatch of one ready key: the callbacks are read when they are called. *)
Definition dispatch (o : nat) (mask : Z) : M W () :=
  w ← mget;
  (if negb (Z.land mask EVENT_READ =? 0) then
     match read_cb (obj_at (rx w) o) with Some cb => run_cb cb | None => mret () end
   else mret ()) ;;
  w ← mget;
  if running (rx w) && negb (Z.land mask EVENT_WRITE =? 0) then
    match write_cb (obj_at (rx w) o) with Some cb => run_cb cb | None => mret () end
  else mret ().

(** [for key, mask in events]: left as soon as [stop] was called. *)
Fixpoint dispatch_all (events : list (nat * Z)) : M W () :=
  match events with
  | [] => mret ()
  | (o, mask) :: events' =>
      dispatch o mask ;;
      w ← mget;
      if running (rx w) then dispatch_all events' else mret ()
  end.

(** One turn of [run]. *)
Definition turn (fuel : nat) : M W () :=
  _run_due_timers fuel ;;
  w ← mget;
  if running (rx w) then
    now ← monotonic;
    timeout ← on_rx (_next_timeout now);
    events ← select timeout;
    w ← mget;
    if running (rx w) then dispatch_all events else mret ()
  else mret ().

Fixpoint run_loop (turns fuel : nat) : M W () := fun w =>
  match turns with
  | O => (w, Ok ())
  | S turns' =>
      if running (rx w) then
        match turn fuel w with
        | (w', Ok _) => run_loop turns' fuel w'
        | (w', Raise e) => (w', Raise e)
        end
      else (w, Ok ())
  end.

Definition run (turns fuel : nat) : M W () := mod_rx (set_running true) ;; run_loop turns fuel.
Definition stop : M W () := mod_rx (set_running false).
End loop.

(** * Lemmas: the running flag *)

(** [_running] is only written by [run] and [stop]. *)
Section running_flag.
Context {CB : Type}.
Implicit Types r : Reactor CB.

Lemma running_set_interest sock rd wr r : running (_set_interest sock rd wr r) = running r.
Proof. unfold _set_interest, commit_interest. by destruct (states r !! sock); case_match. Qed.

Lemma running_register_read sock cb r : running (register_read sock cb r) = running r.
Proof. apply running_set_interest. Qed.

Lemma running_register_write sock cb r : running (register_write sock cb r) = running r.
Proof. apply running_set_interest. Qed.

Lemma running_unregister_write sock r : running (unregister_write sock r) = running r.
Proof. apply running_set_interest. Qed.

Lemma running_unregister sock r : running (unregister sock r) = running r.
Proof. unfold unregister. by destruct (states r !! sock). Qed.

Lemma running_timer_cancel h r : running (timer_cancel h r) = running r.
Proof. done. Qed.

Lemma running_call_later now d cb r : running (call_later now d cb r).1 = running r.
Proof. done. Qed.

Lemma running_next_timeout now r : running (_next_timeout now r).1 = running r.
Proof. done. Qed.
End running_flag.
#[export] Hint Resolve running_register_read running_register_write running_unregister_write running_unregister
  running_timer_cancel running_call_later running_next_timeout : py.

(** ** The loop inside a relation its callbacks and the selector keep *)
Section keeps_loop.
Context {W CB : Type} `{ReactorOf W CB} `{LoopOf W CB} (R : W -> W -> Prop) `{!PreOrder R}.
Context (Hrx : forall f, (forall r, running (f r) = running r) -> keeps R (mod_rx f)) (Hrunning : keeps R (mod_rx (set_running true)))
  (Hclock : keeps R monotonic) (Hcb : forall cb, keeps R (run_cb cb)) (Hselect : forall t, keeps R (select t)).

Lemma keeps_set_timers l w : R w (set_rx (set_timers l (rx w)) w).
Proof. exact (Hrx (set_timers l) (fun _ => eq_refl) w). Qed.

Lemma keeps_due_loop fuel now : keeps R (due_loop fuel now).
Proof.
  induction fuel as [|fuel IH]; intros w; cbn [due_loop]; [reflexivity|].
  destruct (timers (rx w)) as [|t l]; [reflexivity|]. destruct (deadline t <=? now); [|reflexivity].
  pose proof (keeps_set_timers l w) as H1. set (w1 := set_rx _ w) in *. destruct (cancelled t).
  - etransitivity; [exact H1|apply IH].
  - pose proof (Hcb (callback t) w1) as H2. destruct (run_cb (callback t) w1) as [w2 [[]|e]]; [|by etransitivity].
    etransitivity; [exact H1|]. etransitivity; [exact H2|]. cbn [fst]. destruct (running (rx w2)); [apply IH|reflexivity].
Qed.

Lemma keeps_dispatch o mask : keeps R (dispatch o mask).
Proof. unfold dispatch. keeps_steps; first [apply Hcb|apply (keeps_lift _ (Ok tt))]. Qed.

Lemma keeps_dispatch_all events : keeps R (dispatch_all events).
Proof.
  induction events as [|[o mask] events IH]; cbn [dispatch_all]; [apply (keeps_lift _ (Ok tt))|].
  keeps_steps; [apply keeps_dispatch|exact IH].
Qed.

Lemma keeps_on_next_timeout now : keeps R (on_rx (_next_timeout now)).
Proof. intros w. exact (keeps_set_timers _ w). Qed.

Lemma keeps_turn fuel : keeps R (turn fuel).
Proof.
  unfold turn, _run_due_timers. keeps_steps; try first [apply Hclock|apply keeps_due_loop|apply keeps_on_next_timeout|apply Hselect].
  apply keeps_dispatch_all.
Qed.

Lemma keeps_run turns fuel : keeps R (run turns fuel).
Proof.
  unfold run. apply keeps_bind; [done|exact Hrunning|]. intros _. induction turns as [|turns IH]; intros w; cbn [run_loop]; [reflexivity|].
  destruct (running (rx w)); [|reflexivity]. pose proof (keeps_turn fuel w) as Ht. destruct (turn fuel w) as [w' [[]|e]]; [|done].
  etransitivity; [exact Ht|apply IH].
Qed.
End keeps_loop.

(** * Lemmas: interest *)

Section interest_inv.
  Context {CB : Type}.

(** The selector watches exactly the sockets with a callback, for the events that
    have one, and its keys point at the socket's state object. *)
Record interest_inv (r : Reactor CB) : Prop := {
  ii_obj : forall s o, states r !! s = Some o -> (o < length (objs r))%nat;
  ii_inj : forall s s' o, states r !! s = Some o -> states r !! s' = Some o -> s = s';
  ii_sel : forall s, selector r !! s =
    match states r !! s with
    | Some o => Some (mask_of (obj_at r o), o)
    | None => None
    end;
  ii_mask : forall s o, states r !! s = Some o -> mask_of (obj_at r o) <> 0 }.

Lemma reactor_init_inv : interest_inv (reactor_init (CB := CB)).
Proof. split; cbn; intros *; rewrite ?lookup_empty; done. Qed.

Lemma commit_inv s o objs1 states1 rd wr (r : Reactor CB) : interest_inv r ->
  (o < length objs1)%nat -> (length (objs r) <= length objs1)%nat -> states1 !! s = Some o ->
  (forall s', s' <> s -> states1 !! s' = states r !! s' /\ states r !! s' <> Some o) ->
  (forall o', (o' < length (objs r))%nat -> objs1 !! o' = objs r !! o') ->
  interest_inv (commit_interest s o objs1 states1 rd wr r).
Proof.
  intros [Ho Hi Hs Hm] Hlt Hlen Es Hother Hobjs. unfold commit_interest.
  set (st' := mkSockState _ _). set (m := mask_of st').
  assert (forall s' o', s' <> s -> states1 !! s' = Some o' ->
    o' <> o /\ (o' < length (objs r))%nat /\
    default (mkSockState None None) (<[o := st']> objs1 !! o') = obj_at r o') as Hat.
  { intros s' o' Hne E. destruct (Hother s' Hne) as [E1 E2]. rewrite E1 in E.
    assert (o' <> o) by congruence. pose proof (Ho s' o' E). split_and!; [done|done|].
    rewrite list_lookup_insert_ne by done. unfold obj_at. by rewrite Hobjs. }
  assert (default (mkSockState None None) (<[o := st']> objs1 !! o) = st') as Hself
    by by rewrite list_lookup_insert_eq.
  destruct (Z.eqb_spec m 0) as [Ez|Ez]; split; unfold obj_at in *; cbn.
  - intros s1 o1 [Hne E]%lookup_delete_Some. rewrite length_insert.
    destruct (Hat s1 o1 ltac:(done) E). lia.
  - intros s1 s2 o1 [Hne E]%lookup_delete_Some [Hne2 E2]%lookup_delete_Some.
    destruct (Hother s1 ltac:(done)) as [E3 _], (Hother s2 ltac:(done)) as [E4 _]. rewrite E3 in E. rewrite E4 in E2.
    by eapply Hi.
  - intros s1. rewrite !lookup_delete. case_decide; [done|]. rewrite Hs.
    destruct (Hother s1 ltac:(done)) as [<- _]. destruct (states1 !! s1) as [o1|] eqn:E1; [|done].
    destruct (Hat s1 o1 ltac:(done) E1) as (_ & _ & ->). done.
  - intros s1 o1 [Hne E]%lookup_delete_Some. destruct (Hat s1 o1 ltac:(done) E) as (_ & _ & ->).
    destruct (Hother s1 ltac:(done)) as [E3 _]. rewrite E3 in E. by eapply Hm.
  - intros s1 o1 E. rewrite length_insert. destruct (decide (s1 = s)) as [->|Hne]; [congruence|].
    destruct (Hat s1 o1 Hne E). lia.
  - intros s1 s2 o1 E1 E2.
    destruct (decide (s1 = s)) as [->|Hne1], (decide (s2 = s)) as [->|Hne2]; [done|..].
    + destruct (Hat s2 o1 Hne2 E2). congruence.
    + destruct (Hat s1 o1 Hne1 E1). congruence.
    + destruct (Hother s1 Hne1) as [E3 _], (Hother s2 Hne2) as [E4 _]. rewrite E3 in E1. rewrite E4 in E2.
      by eapply Hi.
  - intros s1. rewrite lookup_insert, lookup_delete. case_decide as E; [subst s1; by rewrite Es, Hself|].
    rewrite Hs. destruct (Hother s1 ltac:(done)) as [<- _].
    destruct (states1 !! s1) as [o1|] eqn:E1; [|done].
    destruct (Hat s1 o1 ltac:(done) E1) as (_ & _ & ->). done.
  - intros s1 o1 E. destruct (decide (s1 = s)) as [->|Hne].
    + rewrite Es in E. injection E as <-. by rewrite Hself.
    + destruct (Hat s1 o1 Hne E) as (_ & _ & ->). destruct (Hother s1 Hne) as [E3 _]. rewrite E3 in E. by eapply Hm.
Qed.

Lemma set_interest_inv s rd wr (r : Reactor CB) : interest_inv r -> interest_inv (_set_interest s rd wr r).
Proof.
  intros Hr. pose proof Hr as [Ho Hi _ _]. unfold _set_interest. destruct (states r !! s) as [o|] eqn:Es.
  - apply commit_inv; [done|by eapply Ho|lia|done| |done].
    intros s' Hne. split; [done|]. intros E. apply Hne. by eapply Hi.
  - apply commit_inv; [done|rewrite length_app; cbn; lia|rewrite length_app; lia|by rewrite lookup_insert_eq| |].
    + intros s' Hne. split; [by rewrite lookup_insert_ne|]. intros E. specialize (Ho _ _ E). lia.
    + intros o' Ho'. by rewrite lookup_app_l.
Qed.

Lemma unregister_inv s (r : Reactor CB) : interest_inv r -> interest_inv (unregister s r).
Proof.
  intros [Ho Hi Hs Hm]. unfold unregister. destruct (states r !! s) as [o|] eqn:Es; [|done].
  split; cbn.
  - intros s1 o1 [_ E]%lookup_delete_Some. by eapply Ho.
  - intros s1 s2 o1 [_ E1]%lookup_delete_Some [_ E2]%lookup_delete_Some. by eapply Hi.
  - intros s1. rewrite !lookup_delete. case_decide; [done|]. apply Hs.
  - intros s1 o1 [_ E]%lookup_delete_Some. by eapply Hm.
Qed.
End interest_inv.

(** * Lemmas: timers *)

Section timer_order.
  Context {CB : Type}.
  Implicit Types (l : list (TimerHandle CB)) (t h : TimerHandle CB).

Definition before t h : Prop := timer_lt t h = true.

Lemma timer_lt_trans t1 t2 t3 : before t1 t2 -> before t2 t3 -> before t1 t3.
Proof. unfold before, timer_lt. lia. Qed.

Lemma timer_lt_total t h : tseq t <> tseq h -> timer_lt h t = false -> before t h.
Proof. unfold before, timer_lt. lia. Qed.

Lemma heappush_perm h l : heappush h l ≡ₚ h :: l.
Proof.
  induction l as [|x l IH]; cbn; [done|]. destruct (timer_lt h x); [done|].
  rewrite IH. apply perm_swap.
Qed.

Lemma heappush_sorted h l : (forall t, t ∈ l -> tseq t <> tseq h) ->
  StronglySorted before l -> StronglySorted before (heappush h l).
Proof.
  intros Hne Hs. induction Hs as [|x l Hs IH Hx]; cbn; [by repeat constructor|].
  destruct (timer_lt h x) eqn:E.
  - constructor; [by constructor|]. constructor; [done|].
    eapply Forall_impl; [exact Hx|]. intros t. by apply timer_lt_trans.
  - constructor; [apply IH; intros; apply Hne; by right|].
    rewrite heappush_perm. constructor; [|done]. apply timer_lt_total; [|done]. apply Hne. left.
Qed.

(** The heap is ordered and its sequence numbers are below the counter. *)
Record timers_inv (r : Reactor CB) : Prop := {
  tv_sorted : StronglySorted before (timers r);
  tv_seq : forall t, t ∈ timers r -> tseq t < timer_seq r }.

Lemma call_later_inv now delay cb r : timers_inv r -> timers_inv (fst (call_later now delay cb r)).
Proof.
  intros [Hs Hq]. split; cbn.
  - apply heappush_sorted; [|done]. cbn. intros t Ht. specialize (Hq t Ht). lia.
  - intros t. rewrite heappush_perm, elem_of_cons. intros [->|Ht]; cbn; [lia|]. specialize (Hq t Ht). lia.
Qed.

Lemma cancel_inv (h : Z) r : timers_inv r -> timers_inv (timer_cancel h r).
Proof.
  intros [Hs Hq]. split; cbn.
  - clear Hq. induction Hs as [|x l Hs IH Hx]; cbn; constructor; [done|].
    apply Forall_fmap. eapply Forall_impl; [exact Hx|]. cbn. intros t.
    unfold before, timer_lt. destruct (tseq x =? h), (tseq t =? h); cbn; done.
  - intros t (t' & -> & Ht)%list_elem_of_fmap. specialize (Hq t' Ht). by destruct (tseq t' =? h).
Qed.

Lemma drop_cancelled_suffix l : exists p, l = p ++ drop_cancelled l /\ Forall (fun t => cancelled t = true) p.
Proof.
  induction l as [|t l [p [E Hp]]]; cbn; [by exists []|]. destruct (cancelled t) eqn:Ec.
  - exists (t :: p). split; [by rewrite E at 1|]. by constructor.
  - by exists [].
Qed.

Definition due (now : Z) (t : TimerHandle CB) : bool := deadline t <=? now.
Definition fires (now : Z) (t : TimerHandle CB) : bool := due now t && negb (cancelled t).

Lemma sorted_due_split now l : StronglySorted before l ->
  forall t l', l = t :: l' -> due now t = false -> filter (fun t => due now t = true) l = [].
Proof.
  intros Hs t l' -> Ht. apply StronglySorted_inv in Hs as [_ Hx].
  rewrite filter_cons_False by (rewrite Ht; done). induction Hx as [|h l' Hh Hl IH]; [done|].
  rewrite filter_cons_False; [done|]. unfold before, timer_lt, due in *. lia.
Qed.
End timer_order.

(** * A world that records what fires *)

Definition timer_world (CB : Type) : Type := (Reactor CB * Z * list CB)%type.

#[export] Instance timer_world_reactor CB : ReactorOf (timer_world CB) CB := {|
  rx := fun w => w.1.1;
  set_rx := fun r w => (r, w.1.2, w.2);
  monotonic := mgets (fun w => w.1.2) |}.
#[export] Instance timer_world_loop CB : LoopOf (timer_world CB) CB := {|
  run_cb := fun cb => mmod (fun w => (w.1, w.2 ++ [cb]));
  select := fun _ => mret [] |}.

Inductive timer_op (CB : Type) : Type :=
| TCall (now delay : Z) (cb : CB)
| TCancel (h : Z).
Arguments TCall {CB} _ _ _.
Arguments TCancel {CB} _.

Definition timer_op_apply {CB} (r : Reactor CB) (o : timer_op CB) : Reactor CB :=
  match o with TCall now delay cb => fst (call_later now delay cb r) | TCancel h => timer_cancel h r end.

(** All handles ever created, in creation order, with what was cancelled. *)
Definition created_step {CB} (l : list (TimerHandle CB)) (o : timer_op CB) : list (TimerHandle CB) :=
  match o with
  | TCall now delay cb => l ++ [mkTimer (now + delay) (zlen l) cb false]
  | TCancel h => (fun t => if tseq t =? h then mkTimer (deadline t) (tseq t) (callback t) true else t) <$> l
  end.

Lemma timer_ops_inv {CB} (ops : list (timer_op CB)) (r : Reactor CB) l :
  timers_inv r -> timers r ≡ₚ l -> timer_seq r = zlen l ->
  let r' := foldl timer_op_apply r ops in let l' := foldl created_step l ops in
  timers_inv r' /\ timers r' ≡ₚ l' /\ timer_seq r' = zlen l' /\ running r' = running r.
Proof.
  revert r l. induction ops as [|o ops IH]; intros r l Hr Hp Hq; cbn; [done|].
  assert (running (timer_op_apply r o) = running r) as <- by by destruct o.
  apply IH; destruct o as [now delay cb|h]; cbn.
  - by apply call_later_inv.
  - by apply cancel_inv.
  - rewrite heappush_perm, Hp, Hq. apply Permutation_cons_append.
  - by rewrite Hp.
  - rewrite zlen_app, Hq. done.
  - unfold zlen in *. by rewrite length_fmap.
Qed.

Lemma due_loop_fires {CB} fuel now (r : Reactor CB) clock log :
  StronglySorted before (timers r) -> running r = true -> (length (timers r) < fuel)%nat ->
  exists r', due_loop fuel now ((r, clock, log) : timer_world CB) =
      ((r', clock, log ++ (callback <$> filter (fun t => fires now t = true) (timers r))), Ok ()) /\
    timers r' = filter (fun t => due now t = false) (timers r).
Proof.
  revert r log. induction fuel as [|fuel IH]; intros r log Hs Hr Hf; [lia|].
  cbn [due_loop rx timer_world_reactor fst snd]. destruct (timers r) as [|t l] eqn:El.
  - exists r. by rewrite app_nil_r, El.
  - pose proof (StronglySorted_inv Hs) as [Hs' _]. cbn [length] in Hf.
    change (deadline t <=? now) with (due now t). destruct (due now t) eqn:Ed.
    + destruct (IH (set_timers l r) (if cancelled t then log else log ++ [callback t])) as (r' & E & Et);
        [done|done|cbn; lia|].
      exists r'. cbn [set_rx timer_world_reactor fst snd]. rewrite (filter_cons_False (fun t => due now t = false) t) by (rewrite Ed; done).
      split; [|done]. destruct (cancelled t) eqn:Ec.
      * rewrite E. rewrite (filter_cons_False _ t) by (unfold fires; by rewrite Ed, Ec). done.
      * rewrite (filter_cons_True _ t) by (unfold fires; by rewrite Ed, Ec). rewrite fmap_cons.
        cbn [run_cb timer_world_loop]. unfold mmod. cbn [rx timer_world_reactor running set_timers fst snd].
        rewrite Hr. cbn [timers set_timers] in E.
        cbn [fst snd] in E. rewrite E. by rewrite <- app_assoc.
    + exists r. pose proof (sorted_due_split now _ Hs t l eq_refl Ed) as Hnil. split.
      * assert (filter (fun t => fires now t = true) (t :: l) = []) as ->; [|by rewrite app_nil_r].
        apply elem_of_nil_inv. intros x [Hx Hin]%list_elem_of_filter.
        apply (elem_of_nil (A := TimerHandle CB) x). rewrite <- Hnil. apply list_elem_of_filter.
        split; [|done]. unfold fires in Hx. by apply andb_true_iff in Hx as [? _].
      * rewrite El. clear -Hnil. induction (t :: l) as [|x k IH]; [done|].
        rewrite filter_cons in Hnil |- *. destruct (due now x) eqn:E; [done|].
        rewrite decide_True by done. f_equal. apply IH. by rewrite decide_False in Hnil by congruence.
Qed.

(** * Properties *)

(** A call on the reactor's interest methods. *)
Inductive interest_op (CB : Type) : Type :=
| IRead (s : nat) (cb : CB) | IWrite (s : nat) (cb : CB) | IUnRead (s : nat) | IUnWrite (s : nat)
| IUnregister (s : nat).
Arguments IRead {CB} _ _.
Arguments IWrite {CB} _ _.
Arguments IUnRead {CB} _.
Arguments IUnWrite {CB} _.
Arguments IUnregister {CB} _.

Definition interest_apply {CB} (r : Reactor CB) (o : interest_op CB) : Reactor CB :=
  match o with
  | IRead s cb => register_read s cb r
  | IWrite s cb => register_write s cb r
  | IUnRead s => unregister_read s r
  | IUnWrite s => unregister_write s r
  | IUnregister s => unregister s r
  end.

(** The callbacks a caller has in force for a socket. *)
Definition cbs_step {CB} (f : nat -> option CB * option CB) (o : interest_op CB) : nat -> option CB * option CB :=
  fun s =>
  match o with
  | IRead s' cb => if decide (s = s') then (Some cb, (f s).2) else f s
  | IWrite s' cb => if decide (s = s') then ((f s).1, Some cb) else f s
  | IUnRead s' => if decide (s = s') then (None, (f s).2) else f s
  | IUnWrite s' => if decide (s = s') then ((f s).1, None) else f s
  | IUnregister s' => if decide (s = s') then (None, None) else f s
  end.

(** The callbacks the reactor has for a socket. *)
Definition cbs_of {CB} (r : Reactor CB) (s : nat) : option CB * option CB :=
  match states r !! s with
  | Some o => (read_cb (obj_at r o), write_cb (obj_at r o))
  | None => (None, None)
  end.

Lemma mask_zero {CB} (st : SocketState CB) : mask_of st = 0 <-> read_cb st = None /\ write_cb st = None.
Proof. unfold mask_of. destruct (read_cb st), (write_cb st); cbn; naive_solver. Qed.

Lemma cbs_set_interest {CB} s rd wr (r : Reactor CB) s' : interest_inv r ->
  cbs_of (_set_interest s rd wr r) s' =
  if decide (s' = s) then (new_cb rd (cbs_of r s).1, new_cb wr (cbs_of r s).2) else cbs_of r s'.
Proof.
  intros [Ho Hi _ _].
  assert (forall o objs1 states1, (o < length objs1)%nat -> states1 !! s = Some o ->
    (forall s', s' <> s -> states1 !! s' = states r !! s' /\ states r !! s' <> Some o) ->
    (forall o', (o' < length (objs r))%nat -> objs1 !! o' = objs r !! o') ->
    default (mkSockState None None) (objs1 !! o) = mkSockState (cbs_of r s).1 (cbs_of r s).2 ->
    cbs_of (commit_interest s o objs1 states1 rd wr r) s' =
    if decide (s' = s) then (new_cb rd (cbs_of r s).1, new_cb wr (cbs_of r s).2) else cbs_of r s') as Hc.
  { intros o objs1 states1 Hlt Es Hother Hobjs Hst. unfold commit_interest. rewrite Hst. cbn [read_cb write_cb].
    set (st' := mkSockState _ _). unfold cbs_of at 1.
    assert (s' <> s -> (match states1 !! s' with
      | Some o' => (read_cb (default (mkSockState None None) (<[o:=st']> objs1 !! o')),
                    write_cb (default (mkSockState None None) (<[o:=st']> objs1 !! o')))
      | None => (None, None) end) = cbs_of r s') as Hne.
    { intros Hne. destruct (Hother s' Hne) as [E1 E2]. rewrite E1. unfold cbs_of.
      destruct (states r !! s') as [o'|] eqn:E'; [|done].
      rewrite list_lookup_insert_ne by congruence. unfold obj_at. by rewrite Hobjs by by eapply Ho. }
    destruct (Z.eqb_spec (mask_of st') 0) as [Ez|Ez]; unfold obj_at; cbn [states objs].
    - rewrite lookup_delete. case_decide as E; [subst|]; repeat case_decide; try done; [|by apply Hne].
      apply mask_zero in Ez as [H1 H2]. unfold st' in *. cbn in H1, H2. by rewrite H1, H2.
    - case_decide as E; [|by apply Hne]. subst. rewrite Es, list_lookup_insert_eq by done. done. }
  unfold _set_interest. destruct (states r !! s) as [o|] eqn:Es.
  - apply Hc; [by eapply Ho|done| |done|].
    + intros s1 Hne. split; [done|]. intros E. apply Hne. by eapply Hi.
    + unfold cbs_of. rewrite Es. unfold obj_at. by destruct (default _ (objs r !! o)).
  - apply Hc; [rewrite length_app; cbn; lia|by rewrite lookup_insert_eq| | |].
    + intros s1 Hne. split; [by rewrite lookup_insert_ne|]. intros E. specialize (Ho _ _ E). lia.
    + intros o' Ho'. by rewrite lookup_app_l.
    + rewrite lookup_app_r, Nat.sub_diag by done. unfold cbs_of. by rewrite Es.
Qed.

Lemma interest_run {CB} (ops : list (interest_op CB)) (r : Reactor CB) f :
  interest_inv r -> (forall s, cbs_of r s = f s) ->
  let r' := foldl interest_apply r ops in
  interest_inv r' /\ forall s, cbs_of r' s = foldl cbs_step f ops s.
Proof.
  revert r f. induction ops as [|o ops IH]; intros r f Hr Hf; cbn; [done|]. apply IH.
  - destruct o; try apply set_interest_inv; try done. by apply unregister_inv.
  - intros s. destruct o as [s' cb|s' cb|s'|s'|s']; cbn [interest_apply cbs_step];
      unfold register_read, register_write, unregister_read, unregister_write;
      rewrite ?cbs_set_interest by done; cbn [new_cb]; rewrite <- ?Hf;
      try (case_decide; [subst|]; done).
    unfold unregister, cbs_of. destruct (states r !! s') as [o|] eqn:Es.
    + cbn [states]. rewrite lookup_delete. case_decide; [subst; by rewrite decide_True|].
      rewrite decide_False by congruence. done.
    + case_decide; [subst; by rewrite Es|done].
Qed.

(** ** The heap and the interest together *)

Section heap.
  Context {CB : Type}.
  Implicit Types (r : Reactor CB).

Lemma cancel_seqs hd (r : Reactor CB) : tseq <$> timers (timer_cancel hd r) = tseq <$> timers r.
Proof. cbn. rewrite <- list_fmap_compose. apply list_fmap_ext. intros ? t _. cbn. by case_match. Qed.

Lemma cancel_elem hd (r : Reactor CB) t : t ∈ timers (timer_cancel hd r) -> cancelled t = false ->
  t ∈ timers r /\ tseq t <> hd.
Proof.
  cbn. intros (t' & -> & Ht)%list_elem_of_fmap. destruct (Z.eqb_spec (tseq t') hd); [done|]. done.
Qed.

Lemma cancel_elem' hd (r : Reactor CB) t : t ∈ timers r -> tseq t <> hd -> t ∈ timers (timer_cancel hd r).
Proof. intros Ht Hne. cbn. apply list_elem_of_fmap. exists t. by rewrite (proj2 (Z.eqb_neq _ _) Hne). Qed.

Lemma cancel_interest hd (r : Reactor CB) : interest_inv r -> interest_inv (timer_cancel hd r).
Proof. intros [H1 H2 H3 H4]. by split. Qed.

Lemma cbs_unregister s (r : Reactor CB) s' :
  cbs_of (unregister s r) s' = if decide (s' = s) then (None, None) else cbs_of r s'.
Proof.
  unfold unregister, cbs_of. destruct (states r !! s) as [o|] eqn:Es.
  - cbn [states]. rewrite lookup_delete. case_decide as E1; case_decide as E2; try done; congruence.
  - case_decide; [subst; by rewrite Es|done].
Qed.

Lemma seq_unique (r : Reactor CB) t t' : NoDup (tseq <$> timers r) -> t ∈ timers r -> t' ∈ timers r ->
  tseq t = tseq t' -> t = t'.
Proof.
  intros Hnd (i & Hi)%list_elem_of_lookup (j & Hj)%list_elem_of_lookup E.
  enough (i = j) as -> by congruence. eapply (NoDup_lookup _ i j (tseq t) Hnd); rewrite list_lookup_fmap.
  - by rewrite Hi.
  - by rewrite Hj, E.
Qed.

Lemma set_interest_timers s rd wr (r : Reactor CB) :
  timers (_set_interest s rd wr r) = timers r /\ timer_seq (_set_interest s rd wr r) = timer_seq r.
Proof. unfold _set_interest, commit_interest. repeat case_match; done. Qed.


Lemma unregister_timers k r : timers (unregister k r) = timers r /\ timer_seq (unregister k r) = timer_seq r.
Proof. unfold unregister. by destruct (states r !! k). Qed.

Record rx_inv (r : Reactor CB) : Prop := {
  ri_interest : interest_inv r; ri_timers : timers_inv r; ri_seq : NoDup (tseq <$> timers r) }.

(** A timer that will fire: its handle and its callback. *)
Definition armed (r : Reactor CB) (h : Z) (cb : CB) : Prop :=
  exists t, t ∈ timers r /\ tseq t = h /\ cancelled t = false /\ callback t = cb.

Lemma armed_lt r h cb : rx_inv r -> armed r h cb -> h < timer_seq r.
Proof. intros [_ [_ Hq] _] (t & Ht & <- & _). by apply Hq. Qed.

Lemma armed_fun r h cb cb' : rx_inv r -> armed r h cb -> armed r h cb' -> cb = cb'.
Proof.
  intros [_ _ Hn] (t & Ht & E & _ & <-) (t' & Ht' & E' & _ & <-). f_equal. apply (seq_unique r); [done..|congruence].
Qed.

(** Changes of interest leave the heap alone. *)
Lemma armed_same r r' h cb : timers r' = timers r -> armed r' h cb <-> armed r h cb.
Proof. intros E. unfold armed. by rewrite E. Qed.

Lemma rx_interest s rd wr r : rx_inv r -> rx_inv (_set_interest s rd wr r).
Proof.
  intros [H1 [H2 H3] H4]. destruct (set_interest_timers s rd wr r) as [E1 E2].
  split; [by apply set_interest_inv|split; by rewrite ?E1, ?E2|by rewrite E1].
Qed.

Lemma rx_unregister s r : rx_inv r -> rx_inv (unregister s r).
Proof.
  intros [H1 [H2 H3] H4]. destruct (unregister_timers s r) as [E1 E2].
  split; [by apply unregister_inv|split; by rewrite ?E1, ?E2|by rewrite E1].
Qed.

Lemma rx_cancel h0 r : rx_inv r -> rx_inv (timer_cancel h0 r) /\ forall h cb, armed (timer_cancel h0 r) h cb <-> armed r h cb /\ h <> h0.
Proof.
  intros [H1 H2 H3]. split.
  - split; [by apply cancel_interest|by apply cancel_inv|by rewrite cancel_seqs].
  - intros h cb. split.
    + intros (t & Ht & <- & Hc & <-). destruct (cancel_elem _ _ _ Ht Hc). split; [by exists t|done].
    + intros [(t & Ht & <- & Hc & <-) Hne]. exists t. split; [by apply cancel_elem'|done].
Qed.

Lemma rx_call_later now d fn r : rx_inv r -> rx_inv (call_later now d fn r).1 /\
  (forall h cb, armed (call_later now d fn r).1 h cb <-> armed r h cb \/ h = timer_seq r /\ cb = fn) /\
  forall s, cbs_of (call_later now d fn r).1 s = cbs_of r s.
Proof.
  intros [H1 H2 H3]. split; [|split; [|done]].
  - split; [by destruct H1; split|by apply call_later_inv|]. cbn. rewrite heappush_perm. cbn. constructor; [|done].
    intros (t & E & Ht)%list_elem_of_fmap. destruct H2 as [_ Hq]. specialize (Hq t Ht). lia.
  - intros h cb. unfold armed. cbn. setoid_rewrite heappush_perm. setoid_rewrite elem_of_cons. split.
    + intros (t & [->|Ht] & <- & Hc & <-); [by right|]. left. by exists t.
    + intros [(t & Ht & <- & Hc & <-)|[-> ->]]; [exists t; naive_solver|]. eexists. split; [by left|done].
Qed.

(** The least timer leaves the heap. *)
Lemma rx_pop t l r : timers r = t :: l -> rx_inv r -> rx_inv (set_timers l r) /\
  forall h cb, armed (set_timers l r) h cb <-> armed r h cb /\ h <> tseq t.
Proof.
  intros E [H1 [H2 H4] H3]. rewrite E in H2, H3. split.
  - split; [by destruct H1; split| |cbn; by apply NoDup_cons in H3 as [_ ?]].
    split; cbn; [by apply StronglySorted_inv in H2 as [? _]|]. intros u Hu. apply H4. rewrite E. by right.
  - intros h cb. unfold armed. cbn. rewrite E. apply NoDup_cons in H3 as [Hn _]. split.
    + intros (u & Hu & <- & Hc & <-). split; [exists u; split; [by right|done]|]. intros Eq. apply Hn. rewrite <- Eq.
      apply list_elem_of_fmap. by exists u.
    + intros [(u & [->|Hu]%elem_of_cons & <- & Hc & <-) Hne]; [done|]. by exists u.
Qed.

(** Cancelling a handle that is not in the heap. *)
Lemma cancel_gone h r : (forall t, t ∈ timers r -> tseq t <> h) -> timer_cancel h r = r.
Proof.
  intros Hn. destruct r as [o s sel ts q b]. unfold timer_cancel, set_timers. cbn in *. f_equal.
  induction ts as [|t ts IH]; [done|]. cbn. rewrite (proj2 (Z.eqb_neq _ _)) by (apply Hn; left). f_equal.
  apply IH. intros u Hu. apply Hn. by right.
Qed.
End heap.

(** After any [register] and [unregister] calls the selector watches exactly the
    sockets that have a callback, for exactly the events they have one for. *)
Theorem interest_exact {CB} (ops : list (interest_op CB)) s :
  let r := foldl interest_apply reactor_init ops in
  let '(rd, wr) := foldl cbs_step (fun _ => (None, None)) ops s in
  option_map fst (selector r !! s) =
    match rd, wr with
    | None, None => None
    | Some _, None => Some EVENT_READ
    | None, Some _ => Some EVENT_WRITE
    | Some _, Some _ => Some (EVENT_READ + EVENT_WRITE)
    end /\
  forall o m, selector r !! s = Some (m, o) -> read_cb (obj_at r o) = rd /\ write_cb (obj_at r o) = wr.
Proof.
  destruct (interest_run ops reactor_init (fun _ => (None, None)) reactor_init_inv) as [[_ _ Hs Hm] Hc].
  { intros s0. done. }
  specialize (Hc s). specialize (Hs s). specialize (Hm s). cbv zeta. rewrite <- Hc. unfold cbs_of.
  set (r := foldl _ _ _) in *. rewrite Hs. destruct (states r !! s) as [o|]; [|done].
  specialize (Hm o eq_refl). unfold mask_of in *.
  destruct (read_cb (obj_at r o)) eqn:E1, (write_cb (obj_at r o)) eqn:E2; cbn in *; try done;
    (split; [done|]); intros o' m [= <- <-]; by rewrite E1, E2.
Qed.

(** C38. Timers scheduled and cancelled in any order: [_run_due_timers] calls exactly
    the timers that are due and not cancelled, by deadline and then by order of
    scheduling, never one before its deadline, and keeps the others. *)
Theorem timers_fire_in_order {CB} (ops : list (timer_op CB)) now :
  let r := foldl timer_op_apply (set_running true reactor_init) ops in
  let w : timer_world CB := (r, now, []) in
  timers r ≡ₚ foldl created_step [] ops /\ StronglySorted before (timers r) /\
  exists r', _run_due_timers (S (length (timers r))) w =
      ((r', now, callback <$> filter (fun t => fires now t = true) (timers r)), Ok ()) /\
    timers r' = filter (fun t => due now t = false) (timers r).
Proof.
  intros r w. destruct (timer_ops_inv ops (set_running true reactor_init) []) as ([Hs Hq] & Hp & _ & Hr);
    [|done|done|].
  { split; cbn; [constructor|]. intros t Ht. by apply elem_of_nil in Ht. }
  fold r in Hs, Hp, Hr. split_and!; [done|done|]. unfold w, _run_due_timers. munfold.
  cbn [monotonic timer_world_reactor]. unfold mgets. cbn [fst snd].
  destruct (due_loop_fires (S (length (timers r))) now r now []) as (r' & E & Et);
    [done|done|lia|]. exists r'. by rewrite E.
Qed.

Example timers_demo :
  (_run_due_timers 9 ((foldl timer_op_apply (set_running true reactor_init)
     [TCall 0 50 1%nat; TCall 0 10 2%nat; TCall 5 5 3%nat; TCall 0 90 4%nat; TCall 0 20 5%nat; TCancel 4], 60, []) : timer_world nat)).1.2
  = [2; 3; 1]%nat.
Proof. vm_compute. reflexivity. Qed.
