(* ===== verification/Tcp.v ===== *)
(** jnxfeed/net/tcp.py: the connector that runs a session over a reconnecting
    socket.

    The connector lives in a world with a reactor, a session and an operating
    system; [ConnOf] says where it is kept, how its bound methods are named as
    reactor callbacks and what the socket calls return, [ConnCallbacks] what its
    three callbacks do.  Durations are integer milliseconds, the backoff factor an integer. *)
From S2P Require Export Reactor SoupSession.

Inductive conn_state : Type := STATE_IDLE | STATE_CONNECTING | CONN_CONNECTED | STATE_STOPPED.

#[export] Instance conn_state_eq_dec : EqDecision conn_state.
Proof. solve_decision. Defined.

Record TcpSoupConnector : Type := mkConn {
  tick_interval : Z; max_retries : option Z;
  backoff_initial : Z; backoff_max : Z; backoff_factor : Z; connect_timeout : Z;
  cstate : conn_state; attempts : Z; _backoff : Z;
  _sock : option nat; _send_buf : bytes;
  _tick_handle : option Z; _connect_deadline_handle : option Z; _retry_handle : option Z }.

Definition conn_init (tick_interval : Z) (max_retries : option Z)
    (backoff_initial backoff_max backoff_factor connect_timeout : Z) : TcpSoupConnector :=
  mkConn tick_interval max_retries backoff_initial backoff_max backoff_factor connect_timeout
    STATE_IDLE 0 backoff_initial None [] None None None.

Definition c_state (x : conn_state) (c : TcpSoupConnector) : TcpSoupConnector :=
  mkConn (tick_interval c) (max_retries c) (backoff_initial c) (backoff_max c) (backoff_factor c)
    (connect_timeout c) x (attempts c) (_backoff c) (_sock c) (_send_buf c) (_tick_handle c)
    (_connect_deadline_handle c) (_retry_handle c).
Definition c_attempts (x : Z) (c : TcpSoupConnector) : TcpSoupConnector :=
  mkConn (tick_interval c) (max_retries c) (backoff_initial c) (backoff_max c) (backoff_factor c)
    (connect_timeout c) (cstate c) x (_backoff c) (_sock c) (_send_buf c) (_tick_handle c)
    (_connect_deadline_handle c) (_retry_handle c).
Definition c_backoff (x : Z) (c : TcpSoupConnector) : TcpSoupConnector :=
  mkConn (tick_interval c) (max_retries c) (backoff_initial c) (backoff_max c) (backoff_factor c)
    (connect_timeout c) (cstate c) (attempts c) x (_sock c) (_send_buf c) (_tick_handle c)
    (_connect_deadline_handle c) (_retry_handle c).
Definition c_sock (x : option nat) (c : TcpSoupConnector) : TcpSoupConnector :=
  mkConn (tick_interval c) (max_retries c) (backoff_initial c) (backoff_max c) (backoff_factor c)
    (connect_timeout c) (cstate c) (attempts c) (_backoff c) x (_send_buf c) (_tick_handle c)
    (_connect_deadline_handle c) (_retry_handle c).
Definition c_send_buf (x : bytes) (c : TcpSoupConnector) : TcpSoupConnector :=
  mkConn (tick_interval c) (max_retries c) (backoff_initial c) (backoff_max c) (backoff_factor c)
    (connect_timeout c) (cstate c) (attempts c) (_backoff c) (_sock c) x (_tick_handle c)
    (_connect_deadline_handle c) (_retry_handle c).
Definition c_tick (x : option Z) (c : TcpSoupConnector) : TcpSoupConnector :=
  mkConn (tick_interval c) (max_retries c) (backoff_initial c) (backoff_max c) (backoff_factor c)
    (connect_timeout c) (cstate c) (attempts c) (_backoff c) (_sock c) (_send_buf c) x
    (_connect_deadline_handle c) (_retry_handle c).
Definition c_deadline (x : option Z) (c : TcpSoupConnector) : TcpSoupConnector :=
  mkConn (tick_interval c) (max_retries c) (backoff_initial c) (backoff_max c) (backoff_factor c)
    (connect_timeout c) (cstate c) (attempts c) (_backoff c) (_sock c) (_send_buf c) (_tick_handle c)
    x (_retry_handle c).
Definition c_retry (x : option Z) (c : TcpSoupConnector) : TcpSoupConnector :=
  mkConn (tick_interval c) (max_retries c) (backoff_initial c) (backoff_max c) (backoff_factor c)
    (connect_timeout c) (cstate c) (attempts c) (_backoff c) (_sock c) (_send_buf c) (_tick_handle c)
    (_connect_deadline_handle c) x.

(** The bound methods the connector registers with the reactor. *)
Inductive conn_cb : Type :=
| OnConnectWritable | OnConnectTimeout | OnReadable | TrySend | OnTick | AttemptConnect.

(** What the socket calls return. *)
Inductive connect_res : Type := ConnectDone | ConnectPending | ConnectError.
Inductive recv_res : Type := RecvData (data : bytes) | RecvBlock | RecvError.
Inductive send_res : Type := SendBytes (n : nat) | SendBlock | SendError.

Class ConnOf (W CB : Type) : Type := {
  conn : W -> TcpSoupConnector;
  set_conn : TcpSoupConnector -> W -> W;
  conn_name : conn_cb -> CB;
  sys_socket : M W nat;
  sys_connect : nat -> M W connect_res;
  sys_so_error : nat -> M W Z;
  sys_recv : nat -> M W recv_res;
  sys_send : nat -> bytes -> M W send_res;
  sys_close : nat -> M W () }.

Class ConnCallbacks (W : Type) : Type := {
  on_connect_failed : exn -> M W ();
  on_give_up : M W ();
  on_disconnect : option exn -> M W () }.

Section connector.
  Context {W CB : Type} `{ReactorOf W CB} `{SessionOf W} `{SessionCallbacks W} `{ConnOf W CB} `{ConnCallbacks W}.

Definition mod_conn (f : TcpSoupConnector -> TcpSoupConnector) : M W () :=
  mmod (fun w => set_conn (f (conn w)) w).
Definition get_conn : M W TcpSoupConnector := mgets conn.

(** [if handle is not None: handle.cancel(); handle = None] *)
Definition cancel_handle (h : option Z) : M W () :=
  match h with Some h => mod_rx (timer_cancel h) | None => mret () end.

Definition _cancel_timers : M W () :=
  c ← get_conn; cancel_handle (_tick_handle c) ;; mod_conn (c_tick None) ;;
  c ← get_conn; cancel_handle (_connect_deadline_handle c) ;; mod_conn (c_deadline None) ;;
  c ← get_conn; cancel_handle (_retry_handle c) ;; mod_conn (c_retry None).

Definition _close_socket : M W () :=
  _cancel_timers ;;
  c ← get_conn;
  (match _sock c with
   | Some sock => mod_rx (unregister sock) ;; sys_close sock
   | None => mret ()
   end) ;;
  mod_conn (fun c => c_send_buf [] (c_sock None c)).

Definition conn_stop : M W () :=
  mod_conn (c_state STATE_STOPPED) ;;
  _cancel_timers ;;
  _close_socket.

Definition _schedule_retry : M W () :=
  c ← get_conn;
  if decide (cstate c = STATE_STOPPED) then mret ()
  else if match max_retries c with Some n => n <=? attempts c | None => false end then
    mod_conn (c_state STATE_STOPPED) ;;
    on_give_up
  else
    mod_conn (c_state STATE_IDLE) ;;
    let delay := _backoff c in
    mod_conn (c_backoff (Z.min (_backoff c * backoff_factor c) (backoff_max c))) ;;
    h ← schedule delay (conn_name AttemptConnect);
    mod_conn (c_retry (Some h)).

Definition _handle_disconnect (exc : option exn) : M W () :=
  _close_socket ;;
  c ← get_conn;
  if decide (cstate c = STATE_STOPPED) then mret ()
  else
    on_disconnect exc ;;
    _schedule_retry.

Definition _handle_connect_error (exc : exn) : M W () :=
  _close_socket ;;
  on_connect_failed exc ;;
  _schedule_retry.

Definition _attempt_connect : M W () :=
  c ← get_conn;
  if decide (cstate c = STATE_STOPPED) then mret ()
  else
    mod_conn (fun c => c_attempts (attempts c + 1) c) ;;
    sock ← sys_socket;
    mod_conn (fun c => c_state STATE_CONNECTING (c_sock (Some sock) c)) ;;
    r ← sys_connect sock;
    match r with
    | ConnectError => _handle_connect_error OSError
    | _ =>
        mod_rx (register_write sock (conn_name OnConnectWritable)) ;;
        c ← get_conn;
        h ← schedule (connect_timeout c) (conn_name OnConnectTimeout);
        mod_conn (c_deadline (Some h))
    end.

Definition _try_send : M W () :=
  c ← get_conn;
  if decide (_send_buf c = []) then
    match _sock c with
    | Some sock => mod_rx (unregister_write sock)
    | None => mret ()
    end
  else
    match _sock c with
    | None => mret ()
    | Some sock =>
        r ← sys_send sock (_send_buf c);
        match r with
        | SendBlock => mod_rx (register_write sock (conn_name TrySend))
        | SendError => _handle_disconnect (Some OSError)
        | SendBytes n =>
            mod_conn (fun c => c_send_buf (drop n (_send_buf c)) c) ;;
            c ← get_conn;
            if decide (_send_buf c = []) then mod_rx (unregister_write sock)
            else mod_rx (register_write sock (conn_name TrySend))
        end
    end.

Definition _flush_send : M W () :=
  data ← on_sess pending_output;
  mod_conn (fun c => c_send_buf (_send_buf c ++ data) c) ;;
  _try_send.

Definition conn_flush : M W () :=
  c ← get_conn; if decide (cstate c = CONN_CONNECTED) then _flush_send else mret ().

Definition _check_terminal : M W () :=
  w ← mget;
  match sstate (sess w) with
  | STATE_ENDED => conn_stop
  | STATE_FAILED => conn_stop
  | _ => mret ()
  end.

Definition _schedule_tick : M W () :=
  c ← get_conn;
  h ← schedule (tick_interval c) (conn_name OnTick);
  mod_conn (c_tick (Some h)).

Definition _on_connected : M W () :=
  mod_conn (c_state CONN_CONNECTED) ;;
  on_sess (mmod reset) ;;
  now ← monotonic;
  on_sess (start now None None) ;;
  c ← get_conn;
  (match _sock c with
   | Some sock => mod_rx (register_read sock (conn_name OnReadable))
   | None => mraise ValueError            (* selector.register(None, ...) *)
   end) ;;
  _flush_send ;;
  _schedule_tick.

Definition _on_connect_timeout : M W () :=
  c ← get_conn;
  if decide (cstate c = STATE_CONNECTING) then _handle_connect_error OSError else mret ().

Definition _on_connect_writable : M W () :=
  c ← get_conn;
  if decide (cstate c = STATE_CONNECTING) then
    match _sock c with
    | None => mraise AttributeError
    | Some sock =>
        err ← sys_so_error sock;
        mod_rx (unregister_write sock) ;;
        cancel_handle (_connect_deadline_handle c) ;;
        mod_conn (c_deadline None) ;;
        if negb (err =? 0) then _handle_connect_error OSError else _on_connected
    end
  else mret ().

Definition _on_readable : M W () :=
  c ← get_conn;
  match _sock c with
  | None => mret ()
  | Some sock =>
      r ← sys_recv sock;
      match r with
      | RecvBlock => mret ()
      | RecvError => _handle_disconnect (Some OSError)
      | RecvData [] => _handle_disconnect None
      | RecvData data =>
          now ← monotonic;
          on_bytes data now ;;
          w ← mget;
          (if decide (sstate (sess w) = STATE_LIVE) then
             mod_conn (fun c => c_attempts 0 (c_backoff (backoff_initial c) c))
           else mret ()) ;;
          _flush_send ;;
          _check_terminal
      end
  end.

Definition _on_tick : M W () :=
  c ← get_conn;
  if decide (cstate c = CONN_CONNECTED) then
    now ← monotonic;
    on_tick now ;;
    _flush_send ;;
    _check_terminal ;;
    c ← get_conn;
    if decide (cstate c = CONN_CONNECTED) then _schedule_tick else mret ()
  else mret ().

Definition conn_start : M W () :=
  c ← get_conn;
  (if decide (cstate c = STATE_STOPPED) then mod_conn (c_state STATE_IDLE) else mret ()) ;;
  _attempt_connect.

Definition reconnect (exc : option exn) : M W () :=
  c ← get_conn;
  if decide (cstate c = CONN_CONNECTED) then _handle_disconnect exc else mret ().

(** What each registered callback runs. *)
Definition run_conn_cb (cb : conn_cb) : M W () :=
  match cb with
  | OnConnectWritable => _on_connect_writable
  | OnConnectTimeout => _on_connect_timeout
  | OnReadable => _on_readable
  | TrySend => _try_send
  | OnTick => _on_tick
  | AttemptConnect => _attempt_connect
  end.
End connector.

(** ** Frames: what the control operations leave alone

    A preorder on worlds that the reactor, the connector's own fields, the
    session's buffers, the system calls and the callbacks respect is respected by
    the operations other components call, and these never raise. *)
Section frame.
  Context {W CB : Type} `{ReactorOf W CB} `{SessionOf W} `{ConnOf W CB} `{ConnCallbacks W}.
  Context (R : W -> W -> Prop) `{!PreOrder R}.
  Context (Hrx : forall f, (forall r, running (f r) = running r) -> safe R (mod_rx f)) (Hconn : forall f, safe R (mod_conn f))
    (Hclock : safe R monotonic) (Hon : forall A (f : Reactor CB -> Reactor CB * A), (forall r, running (f r).1 = running r) -> safe R (on_rx f))
    (Hsock : safe R sys_socket) (Hconnect : forall s, safe R (sys_connect s))
    (Hsend : forall s d, safe R (sys_send s d)) (Hclose : forall s, safe R (sys_close s))
    (Hout : safe R (on_sess pending_output))
    (Hfailed : forall e, safe R (on_connect_failed e)) (Hgive : safe R on_give_up)
    (Hdisc : forall e, safe R (on_disconnect e)).

Ltac frame := safe_steps; auto with py.

Lemma safe_cancel_timers : safe R _cancel_timers.
Proof. unfold _cancel_timers, get_conn, cancel_handle. frame. Qed.

Lemma safe_close_socket : safe R _close_socket.
Proof. unfold _close_socket, get_conn. frame. apply safe_cancel_timers. Qed.

Lemma safe_stop : safe R conn_stop.
Proof. unfold conn_stop. frame; [apply safe_cancel_timers|apply safe_close_socket]. Qed.

Lemma safe_schedule_retry : safe R _schedule_retry.
Proof. unfold _schedule_retry, get_conn, schedule. frame. Qed.

Lemma safe_handle_disconnect e : safe R (_handle_disconnect e).
Proof. unfold _handle_disconnect, get_conn. frame; [apply safe_close_socket|apply safe_schedule_retry]. Qed.

Lemma safe_try_send : safe R _try_send.
Proof. unfold _try_send, get_conn. frame. apply safe_handle_disconnect. Qed.

Lemma safe_flush : safe R conn_flush.
Proof. unfold conn_flush, _flush_send, get_conn. frame. apply safe_try_send. Qed.

Lemma safe_reconnect e : safe R (reconnect e).
Proof. unfold reconnect, get_conn. frame. apply safe_handle_disconnect. Qed.

Lemma safe_attempt_connect : safe R _attempt_connect.
Proof.
  unfold _attempt_connect, _handle_connect_error, get_conn, schedule. frame;
    first [apply safe_close_socket|apply safe_schedule_retry].
Qed.

Lemma safe_start : safe R conn_start.
Proof. unfold conn_start, get_conn. frame. apply safe_attempt_connect. Qed.

(** The callbacks the reactor calls run the session's too and may raise. *)
Context `{SessionCallbacks W}.
Context (Hsess : forall A (m : M SoupSession A), keeps R (on_sess m)) (Herr : forall s, safe R (sys_so_error s))
  (Hrecv : forall s, safe R (sys_recv s)) (Hacc : forall i n, keeps R (on_login_accepted i n))
  (Hrej : forall c, keeps R (on_login_rejected c)) (Hmsg : forall n d, keeps R (on_message n d))
  (Hend : keeps R on_end_of_session) (Hsilent : keeps R on_peer_silent).

Ltac kframe := keeps_steps; try solve [auto with py | apply safe_keeps; auto with py].

Lemma keeps_handle_packet p : keeps R (_handle_packet p).
Proof. destruct p; cbn [_handle_packet]; kframe. Qed.

Lemma keeps_on_bytes data now : keeps R (on_bytes data now).
Proof. unfold on_bytes. kframe. apply keeps_mfor; [done|]. intros p _. apply keeps_handle_packet. Qed.

Lemma keeps_flush_send : keeps R _flush_send.
Proof. unfold _flush_send. kframe. apply safe_keeps, safe_try_send. Qed.

Lemma keeps_connect_error e : keeps R (_handle_connect_error e).
Proof. unfold _handle_connect_error. kframe; [apply safe_keeps, safe_close_socket|apply safe_keeps, safe_schedule_retry]. Qed.

Lemma keeps_check_terminal : keeps R _check_terminal.
Proof. unfold _check_terminal. kframe; apply safe_keeps, safe_stop. Qed.

Lemma keeps_schedule_tick : keeps R _schedule_tick.
Proof. unfold _schedule_tick, get_conn, schedule. kframe. Qed.

Lemma keeps_connected : keeps R _on_connected.
Proof. unfold _on_connected, get_conn. kframe; first [apply keeps_flush_send|apply keeps_schedule_tick]. Qed.

Lemma keeps_session_tick now : keeps R (on_tick now).
Proof. unfold on_tick. kframe. Qed.

Lemma keeps_conn_cb cb : keeps R (run_conn_cb cb).
Proof.
  destruct cb; cbn [run_conn_cb]; unfold _on_connect_writable, _on_connect_timeout, _on_readable, _on_tick, get_conn, cancel_handle;
    kframe; first [apply keeps_connect_error|apply keeps_connected|apply safe_keeps, safe_handle_disconnect|apply keeps_on_bytes|apply keeps_flush_send
      |apply keeps_check_terminal|apply keeps_session_tick|apply keeps_schedule_tick|apply safe_keeps, safe_try_send|apply safe_keeps, safe_attempt_connect].
Qed.
End frame.

(** A stopped connector is inert: whatever callback still reaches it, nothing in
    the world changes and no system call is made. *)
Lemma run_stopped {W CB} `{ReactorOf W CB} `{SessionOf W} `{SessionCallbacks W} `{ConnOf W CB}
    `{ConnCallbacks W} (w : W) cb :
  cstate (conn w) = STATE_STOPPED -> _sock (conn w) = None ->
  _send_buf (conn w) = [] -> run_conn_cb cb w = (w, Ok ()).
Proof.
  intros Hs Hk Hb.
  destruct cb; cbn [run_conn_cb]; unfold _on_connect_writable, _on_connect_timeout, _on_readable, _try_send,
    _on_tick, _attempt_connect, get_conn; munfold; rewrite ?Hs, ?Hk, ?Hb; done.
Qed.

(** * One connector on a scripted network *)

Inductive conn_event : Type :=
| EvConnectFailed | EvGiveUp | EvDisconnect (exc : option exn)
| EvSession (e : event)
| EvSent (sock : nat) (data : bytes)
| EvClosed (sock : nat).

(** The script lists what the system calls return; an empty script means a pending
    connection, no data and a full send buffer. *)
Record link : Type := mkLink {
  l_rx : Reactor conn_cb; l_sess : SoupSession; l_conn : TcpSoupConnector; l_clock : Z;
  l_nsock : nat; l_connects : list connect_res; l_errors : list Z; l_recvs : list recv_res;
  l_sends : list send_res; l_log : list conn_event }.

Definition l_set_rx (r : Reactor conn_cb) (w : link) : link :=
  mkLink r (l_sess w) (l_conn w) (l_clock w) (l_nsock w) (l_connects w) (l_errors w) (l_recvs w)
    (l_sends w) (l_log w).
Definition l_set_sess (s : SoupSession) (w : link) : link :=
  mkLink (l_rx w) s (l_conn w) (l_clock w) (l_nsock w) (l_connects w) (l_errors w) (l_recvs w)
    (l_sends w) (l_log w).
Definition l_set_conn (c : TcpSoupConnector) (w : link) : link :=
  mkLink (l_rx w) (l_sess w) c (l_clock w) (l_nsock w) (l_connects w) (l_errors w) (l_recvs w)
    (l_sends w) (l_log w).
Definition l_event (e : conn_event) (w : link) : link :=
  mkLink (l_rx w) (l_sess w) (l_conn w) (l_clock w) (l_nsock w) (l_connects w) (l_errors w) (l_recvs w)
    (l_sends w) (l_log w ++ [e]).
Definition hd_or {A} (d : A) (l : list A) : A := match l with x :: _ => x | [] => d end.
Definition logs (e : conn_event) : M link () := mmod (l_event e).

#[export] Instance link_reactor : ReactorOf link conn_cb := {|
  rx := l_rx; set_rx := l_set_rx; monotonic := mgets l_clock |}.

#[export] Instance link_session : SessionOf link := {|
  sess := l_sess; set_sess := l_set_sess |}.
#[export] Instance link_session_callbacks : SessionCallbacks link := {|
  on_login_accepted := fun sid seq => logs (EvSession (EvLoginAccepted sid seq));
  on_login_rejected := fun c => logs (EvSession (EvLoginRejected c));
  on_message := fun seq m => logs (EvSession (EvMessage seq m));
  on_end_of_session := logs (EvSession EvEndOfSession);
  on_peer_silent := logs (EvSession EvPeerSilent) |}.

#[export] Instance link_conn : ConnOf link conn_cb := {|
  conn := l_conn; set_conn := l_set_conn; conn_name := fun cb => cb;
  sys_socket := fun w =>
    (mkLink (l_rx w) (l_sess w) (l_conn w) (l_clock w) (S (l_nsock w)) (l_connects w) (l_errors w)
      (l_recvs w) (l_sends w) (l_log w), Ok (l_nsock w));
  sys_connect := fun _ w =>
    (mkLink (l_rx w) (l_sess w) (l_conn w) (l_clock w) (l_nsock w) (tail (l_connects w)) (l_errors w)
      (l_recvs w) (l_sends w) (l_log w), Ok (hd_or ConnectPending (l_connects w)));
  sys_so_error := fun _ w =>
    (mkLink (l_rx w) (l_sess w) (l_conn w) (l_clock w) (l_nsock w) (l_connects w) (tail (l_errors w))
      (l_recvs w) (l_sends w) (l_log w), Ok (hd_or 0 (l_errors w)));
  sys_recv := fun _ w =>
    (mkLink (l_rx w) (l_sess w) (l_conn w) (l_clock w) (l_nsock w) (l_connects w) (l_errors w)
      (tail (l_recvs w)) (l_sends w) (l_log w), Ok (hd_or RecvBlock (l_recvs w)));
  sys_send := fun s data w =>
    let w' := mkLink (l_rx w) (l_sess w) (l_conn w) (l_clock w) (l_nsock w) (l_connects w) (l_errors w)
      (l_recvs w) (tail (l_sends w)) (l_log w) in
    match hd_or SendBlock (l_sends w) with
    | SendBytes n =>
        let n := Nat.min n (length data) in (l_event (EvSent s (take n data)) w', Ok (SendBytes n))
    | r => (w', Ok r)
    end;
  sys_close := fun s => logs (EvClosed s) |}.
#[export] Instance link_conn_callbacks : ConnCallbacks link := {|
  on_connect_failed := fun _ => logs EvConnectFailed;
  on_give_up := logs EvGiveUp;
  on_disconnect := fun exc => logs (EvDisconnect exc) |}.

Definition link_init (c : TcpSoupConnector) (s : SoupSession) (connects : list connect_res) : link :=
  mkLink reactor_init s c 0 0 connects [] [] [] [].

(** The bytes a socket has accepted. *)
Definition wire (sock : nat) (l : list conn_event) : bytes :=
  concat (map (fun e => match e with EvSent s d => if Nat.eqb s sock then d else [] | _ => [] end) l).

Lemma wire_app sock l1 l2 : wire sock (l1 ++ l2) = wire sock l1 ++ wire sock l2.
Proof. unfold wire. by rewrite map_app, concat_app. Qed.

Lemma wire_sent sock l d : wire sock (l ++ [EvSent sock d]) = wire sock l ++ d.
Proof. rewrite wire_app. unfold wire at 2. cbn. by rewrite Nat.eqb_refl, app_nil_r. Qed.

(** Symbolic execution of the connector on the link. *)
Ltac link_cbn :=
  cbn [conn set_conn sess set_sess rx set_rx conn_name sys_socket sys_connect sys_so_error sys_recv sys_send
       sys_close on_connect_failed on_give_up on_disconnect monotonic link_conn link_session link_reactor link_conn_callbacks link_session_callbacks
       l_set_rx l_set_sess l_set_conn l_event l_rx l_sess l_conn l_clock l_nsock l_connects l_errors l_recvs
       l_sends l_log tick_interval max_retries backoff_initial backoff_max backoff_factor connect_timeout
       cstate attempts _backoff _sock _send_buf _tick_handle _connect_deadline_handle _retry_handle
       c_state c_attempts c_backoff c_sock c_send_buf c_tick c_deadline c_retry fst snd hd_or] in *.
Ltac link_run :=
  unfold mod_conn, get_conn, mod_rx, schedule, on_rx, on_sess, zoom, logs, cancel_handle in *; munfold;
  link_cbn; munfold; link_cbn.

Definition cancel_opt (h : option Z) (r : Reactor conn_cb) : Reactor conn_cb :=
  match h with Some h => timer_cancel h r | None => r end.

Lemma cancel_opt_live h r t : t ∈ timers (cancel_opt h r) -> cancelled t = false ->
  Some (tseq t) <> h /\ t ∈ timers r.
Proof.
  destruct h as [h|]; cbn; [|done]. intros (t' & -> & Ht)%list_elem_of_fmap.
  destruct (Z.eqb_spec (tseq t') h); cbn; [done|]. intros _. split; [congruence|done].
Qed.

Lemma cancel_timers_link w :
  let c := l_conn w in
  _cancel_timers w =
  (l_set_conn (c_retry None (c_deadline None (c_tick None c)))
     (l_set_rx (cancel_opt (_retry_handle c) (cancel_opt (_connect_deadline_handle c)
        (cancel_opt (_tick_handle c) (l_rx w)))) w), Ok ()).
Proof.
  unfold _cancel_timers. link_run.
  destruct w as [r s c k n co er re se lg]; destruct c as [? ? ? ? ? ? ? ? ? ? ? th dh rh]. link_run.
  destruct th, dh, rh; link_run; reflexivity.
Qed.

(** No live timer is left under a handle the connector held. *)
Definition no_live_handle (c : TcpSoupConnector) (r : Reactor conn_cb) : Prop :=
  forall t, t ∈ timers r -> cancelled t = false ->
    Some (tseq t) <> _tick_handle c /\ Some (tseq t) <> _connect_deadline_handle c /\
    Some (tseq t) <> _retry_handle c.

Definition closed_link (w : link) : link :=
  let c := l_conn w in
  let r := cancel_opt (_retry_handle c) (cancel_opt (_connect_deadline_handle c)
             (cancel_opt (_tick_handle c) (l_rx w))) in
  let w1 := l_set_conn (c_send_buf [] (c_sock None (c_retry None (c_deadline None (c_tick None c))))) (l_set_rx r w) in
  match _sock c with
  | Some sock => l_set_rx (unregister sock r) (l_event (EvClosed sock) w1)
  | None => w1
  end.

Lemma close_socket_link w : _close_socket w = (closed_link w, Ok ()).
Proof.
  unfold _close_socket. link_run. rewrite cancel_timers_link. link_run. unfold closed_link.
  destruct (_sock (l_conn w)); link_run; reflexivity.
Qed.

Lemma unregister_gone {CB} k (r : Reactor CB) : states (unregister k r) !! k = None.
Proof. unfold unregister. destruct (states r !! k) eqn:E; [cbn; by rewrite lookup_delete_eq|done]. Qed.

Lemma closed_conn w : l_conn (closed_link w) =
  c_send_buf [] (c_sock None (c_retry None (c_deadline None (c_tick None (l_conn w))))).
Proof. unfold closed_link. by destruct (_sock (l_conn w)). Qed.

Lemma closed_timers w : timers (l_rx (closed_link w)) =
  timers (cancel_opt (_retry_handle (l_conn w)) (cancel_opt (_connect_deadline_handle (l_conn w))
    (cancel_opt (_tick_handle (l_conn w)) (l_rx w)))).
Proof. unfold closed_link. destruct (_sock (l_conn w)); cbn; [|done]. apply unregister_timers. Qed.

Lemma cancel_all_no_live c r :
  no_live_handle c (cancel_opt (_retry_handle c) (cancel_opt (_connect_deadline_handle c)
    (cancel_opt (_tick_handle c) r))).
Proof.
  intros t Ht Hl. apply cancel_opt_live in Ht as [H1 Ht]; [|done]. apply cancel_opt_live in Ht as [H2 Ht]; [|done].
  by apply cancel_opt_live in Ht as [H3 _].
Qed.

(** The world after [stop]. *)
Definition stopped_link (w : link) : link :=
  let c := l_conn w in
  closed_link (l_set_conn (c_retry None (c_deadline None (c_tick None (c_state STATE_STOPPED c))))
    (l_set_rx (cancel_opt (_retry_handle c) (cancel_opt (_connect_deadline_handle c)
        (cancel_opt (_tick_handle c) (l_rx w)))) w)).

Lemma stop_link w : conn_stop w = (stopped_link w, Ok ()).
Proof.
  unfold conn_stop. link_run. rewrite cancel_timers_link. link_run. rewrite close_socket_link. done.
Qed.

(** C37. [stop] from any state: stopped, no socket, nothing buffered, every timer the
    connector held cancelled, the socket forgotten by the reactor; from there no
    callback does anything. *)
Theorem stop_is_final w cb :
  exists w', conn_stop w = (w', Ok ()) /\ cstate (l_conn w') = STATE_STOPPED /\ _sock (l_conn w') = None /\
    _send_buf (l_conn w') = [] /\ no_live_handle (l_conn w) (l_rx w') /\
    (forall sock, _sock (l_conn w) = Some sock -> states (l_rx w') !! sock = None) /\
    run_conn_cb cb w' = (w', Ok ()).
Proof.
  assert (cstate (l_conn (stopped_link w)) = STATE_STOPPED /\ _sock (l_conn (stopped_link w)) = None /\
    _send_buf (l_conn (stopped_link w)) = []) as (E1 & E2 & E3) by (unfold stopped_link; by rewrite closed_conn).
  exists (stopped_link w). rewrite stop_link. split_and!; [done|done|done|done| | |].
  - intros t. unfold stopped_link. rewrite closed_timers. cbn. apply cancel_all_no_live.
  - intros sock Hs. unfold stopped_link, closed_link. cbn. rewrite Hs. apply unregister_gone.
  - by apply run_stopped.
Qed.

(** ** Sending *)

Lemma try_send_link w sock :
  _sock (l_conn w) = Some sock -> head (l_sends w) <> Some SendError ->
  exists w', _try_send w = (w', Ok ()) /\
    wire sock (l_log w') ++ _send_buf (l_conn w') = wire sock (l_log w) ++ _send_buf (l_conn w) /\
    l_sess w' = l_sess w /\ cstate (l_conn w') = cstate (l_conn w) /\ _sock (l_conn w') = Some sock /\
    l_rx w' = (if decide (_send_buf (l_conn w') = []) then unregister_write sock (l_rx w)
               else register_write sock TrySend (l_rx w)).
Proof.
  intros Hk He. unfold _try_send. link_run. rewrite Hk.
  destruct (decide (_send_buf (l_conn w) = [])) as [E|E].
  { eexists. split; [reflexivity|]. cbn. rewrite E. by rewrite decide_True. }
  destruct w as [r s c k n co er re se lg]. link_run.
  destruct se as [|[m| |] se]; cbn [head tail hd_or] in *; try done.
  - eexists. split; [reflexivity|]. cbn. rewrite decide_False by done. done.
  - link_run. destruct (decide (drop (m `min` length (_send_buf c)) (_send_buf c) = [])) as [E2|E2].
    all: eexists; split; [reflexivity|]; cbn -[wire]; rewrite wire_sent, <- app_assoc, take_drop.
    + by rewrite decide_True.
    + by rewrite decide_False.
  - eexists. split; [reflexivity|]. cbn. rewrite decide_False by done. done.
Qed.

Lemma flush_link w sock :
  _sock (l_conn w) = Some sock -> head (l_sends w) <> Some SendError ->
  exists w', _flush_send w = (w', Ok ()) /\
    wire sock (l_log w') ++ _send_buf (l_conn w') =
      (wire sock (l_log w) ++ _send_buf (l_conn w)) ++ _out (l_sess w) /\
    l_sess w' = ss_out [] (l_sess w) /\ cstate (l_conn w') = cstate (l_conn w) /\
    _sock (l_conn w') = Some sock /\
    l_rx w' = (if decide (_send_buf (l_conn w') = []) then unregister_write sock (l_rx w)
               else register_write sock TrySend (l_rx w)).
Proof.
  intros Hk He. unfold _flush_send, pending_output. link_run.
  destruct (try_send_link (l_set_conn (c_send_buf (_send_buf (l_conn w) ++ _out (l_sess w)) (l_conn w))
    (l_set_sess (ss_out [] (l_sess w)) w)) sock Hk He) as (w' & E & Hw & Hs & Hst & Hso & Hr).
  exists w'. link_run. rewrite E. split; [done|]. cbn in *. by rewrite Hw, Hs, app_assoc.
Qed.

(** [_flush_send] never loses, repeats or reorders a byte: unless the socket fails,
    what the socket has taken followed by what is still buffered is the old stream
    followed by the session's new output, and the reactor watches the socket for
    writing exactly when something is left. *)
Theorem flush_keeps_stream w sock :
  _sock (l_conn w) = Some sock -> head (l_sends w) <> Some SendError -> interest_inv (l_rx w) ->
  exists w', _flush_send w = (w', Ok ()) /\
    wire sock (l_log w') ++ _send_buf (l_conn w') =
      (wire sock (l_log w) ++ _send_buf (l_conn w)) ++ _out (l_sess w) /\
    _out (l_sess w') = [] /\ cstate (l_conn w') = cstate (l_conn w) /\ _sock (l_conn w') = Some sock /\
    (cbs_of (l_rx w') sock).2 = (if decide (_send_buf (l_conn w') = []) then None else Some TrySend).
Proof.
  intros Hk He Hi. destruct (flush_link w sock Hk He) as (w' & E & Hw & Hs & Hst & Hso & Hr).
  exists w'. rewrite Hs. split_and!; try done. rewrite Hr. unfold unregister_write, register_write.
  destruct (decide (_send_buf (l_conn w') = [])); by rewrite cbs_set_interest, decide_True.
Qed.

Definition demo_link (sends : list send_res) : link :=
  mkLink reactor_init (ss_out (s2l "hello") (session_init "U" "P" "" 1))
    (c_sock (Some 3%nat) (c_state CONN_CONNECTED (conn_init 250 None 500 10000 2 10000)))
    0 4 [] [] [] sends [].

Lemma flush_keeps_stream_witness :
  exists w', _flush_send (demo_link [SendBytes 2]) = (w', Ok ()) /\
    wire 3 (l_log w') ++ _send_buf (l_conn w') = s2l "hello".
Proof.
  destruct (flush_keeps_stream (demo_link [SendBytes 2]) 3 eq_refl ltac:(discriminate) reactor_init_inv)
    as (w' & E & Hw & _). exists w'. split; [exact E|exact Hw].
Defined.

(** ** Reconnecting *)

(** A new connection logs in at the maintained resume point: when the socket comes
    up and takes what it is given, the first bytes on it are one Login Request
    with the session id and next sequence number of the session, and nothing of
    the old connection. *)
Theorem reconnect_resumes w sock :
  cstate (l_conn w) = STATE_CONNECTING -> _sock (l_conn w) = Some sock -> _send_buf (l_conn w) = [] ->
  hd_or 0 (l_errors w) = 0 -> head (l_sends w) <> Some SendError -> wire sock (l_log w) = [] ->
  let s := l_sess w in
  packet_ok (LoginRequest (username s) (password s) (session_id s) (next_seq s)) = true ->
  exists w' body, _on_connect_writable w = (w', Ok ()) /\ cstate (l_conn w') = CONN_CONNECTED /\
    sstate (l_sess w') = STATE_LOGIN_SENT /\ session_id (l_sess w') = session_id s /\
    next_seq (l_sess w') = next_seq s /\ _frames (l_sess w') = [] /\
    wire sock (l_log w') ++ _send_buf (l_conn w') = framed body /\
    decode_frame body = Ok (LoginRequest (username s) (password s) (session_id s) (next_seq s)).
Proof.
  intros Hc Hk Hb He Hse Hw s Hp. unfold _on_connect_writable. link_run. rewrite Hc, Hk.
  rewrite decide_True by done. link_run. rewrite He. cbn [Z.eqb negb].
  destruct (start_ok (l_clock w) (reset s) eq_refl Hp) as (body & Es & _ & Ed).
  destruct w as [r s0 c k n co er re se lg]. subst s. link_cbn.
  destruct c as [? ? ? ? ? ? ? ? ? ? ? ? dh ?]; cbn in Hc, Hk, Hb; subst; destruct dh as [dh|]; link_run; unfold _on_connected, _schedule_tick; link_run;
    rewrite Es; link_run.
  all: match goal with |- context [_flush_send ?w0] =>
    destruct (flush_link w0 sock eq_refl Hse) as (w1 & Ef & Hwi & Hs1 & Hst1 & Hso1 & _) end.
  all: rewrite Ef; eexists _, body; split; [reflexivity|]; cbn -[wire] in *; rewrite Hwi, Hw, Hs1, Hst1; done.
Qed.

Lemma reconnect_resumes_witness :
  let w := mkLink reactor_init (ss_resume "SIM0000001" 42 (session_init "U" "P" "" 1))
    (c_sock (Some 3%nat) (c_state STATE_CONNECTING (conn_init 250 None 500 10000 2 10000)))
    0 4 [] [] [] [SendBytes 7] [] in
  exists w' body, _on_connect_writable w = (w', Ok ()) /\
    decode_frame body = Ok (LoginRequest "U" "P" "SIM0000001" 42).
Proof.
  intros w. destruct (reconnect_resumes w 3 eq_refl eq_refl eq_refl eq_refl ltac:(discriminate) eq_refl
    ltac:(vm_compute; reflexivity)) as (w' & body & E & _ & _ & _ & _ & _ & _ & Ed).
  exists w', body. split; [exact E|exact Ed].
Defined.

(** ** Failing *)

(** The delay before retry number [k]: bounded exponential backoff. *)
Fixpoint backoff_at (c : TcpSoupConnector) (k : nat) : Z :=
  match k with
  | O => backoff_initial c
  | S k' => Z.min (backoff_at c k' * backoff_factor c) (backoff_max c)
  end.

Definition fail_link (c : TcpSoupConnector) (n : nat) : link :=
  link_init c (session_init "U" "P" "" 1) (replicate n ConnectError).

(** [k] attempts, each started by the retry timer. *)
Fixpoint attempts_run (k : nat) : M link () :=
  match k with O => mret () | S k' => attempts_run k' ;; run_conn_cb AttemptConnect end.


(** What each failed attempt leaves in the log. *)
Definition fail_log (k : nat) : list conn_event :=
  flat_map (fun i => [EvClosed i; EvConnectFailed]) (seq 0 k).

Definition idle_conn (c : TcpSoupConnector) (k : nat) (rh : option Z) : TcpSoupConnector :=
  c_retry rh (c_backoff (backoff_at c k) (c_attempts (Z.of_nat k) c)).

Definition fresh (c : TcpSoupConnector) : Prop :=
  c = conn_init (tick_interval c) (max_retries c) (backoff_initial c) (backoff_max c) (backoff_factor c)
        (connect_timeout c).

Lemma fail_log_S k : fail_log (S k) = fail_log k ++ [EvClosed k; EvConnectFailed].
Proof. unfold fail_log. rewrite seq_S, flat_map_app. done. Qed.

Lemma call_later_elem now d (cb : conn_cb) r :
  mkTimer (now + d) (timer_seq r) cb false ∈ timers (fst (call_later now d cb r)).
Proof. cbn. rewrite heappush_perm. left. Qed.

(** The same on a world given by its fields, call by value. *)
Ltac link_cbv :=
  cbv beta iota delta [conn set_conn sess set_sess rx set_rx conn_name sys_socket sys_connect sys_so_error sys_recv sys_send
       sys_close on_connect_failed on_give_up on_disconnect monotonic link_conn link_session link_reactor link_conn_callbacks link_session_callbacks
       l_set_rx l_set_sess l_set_conn l_event l_rx l_sess l_conn l_clock l_nsock l_connects l_errors l_recvs
       l_sends l_log tick_interval max_retries backoff_initial backoff_max backoff_factor connect_timeout
       cstate attempts _backoff _sock _send_buf _tick_handle _connect_deadline_handle _retry_handle
       c_state c_attempts c_backoff c_sock c_send_buf c_tick c_deadline c_retry fst snd hd_or
       mret mbind M_ret M_bind mget mput mmod mraise mlift mgets mod_conn get_conn mod_rx schedule on_rx on_sess
       zoom logs cancel_handle cancel_opt closed_link idle_conn conn_init].

(** One attempt whose [connect] fails. *)
Lemma attempt_fail c k n r s rh : fresh c ->
  exists r' h, run_conn_cb AttemptConnect
      (mkLink r s (idle_conn c k rh) 0 k (ConnectError :: n) [] [] [] (fail_log k)) =
    (if match max_retries c with Some m => m <=? Z.of_nat (S k) | None => false end then
       mkLink r' s (c_state STATE_STOPPED (c_retry None (c_backoff (backoff_at c k) (c_attempts (Z.of_nat (S k)) c))))
         0 (S k) n [] [] [] (fail_log (S k) ++ [EvGiveUp])
     else mkLink r' s (idle_conn c (S k) (Some h)) 0 (S k) n [] [] [] (fail_log (S k)), Ok ()) /\
    (match max_retries c with Some m => m <=? Z.of_nat (S k) | None => false end = false ->
     mkTimer (backoff_at c k) h AttemptConnect false ∈ timers r').
Proof.
  intros Hf. rewrite fail_log_S.
  replace (Z.of_nat (S k)) with (Z.of_nat k + 1) by lia.
  set (b := match max_retries c with Some m => _ | None => false end).
  cbn [run_conn_cb]. unfold _attempt_connect. link_run. rewrite Hf. unfold idle_conn, conn_init. link_run.
  rewrite decide_False by done. link_run. unfold _handle_connect_error, _schedule_retry. link_run.
  rewrite close_socket_link. unfold closed_link. link_run. rewrite decide_False by done.
  fold b. replace (Z.of_nat (S k)) with (Z.of_nat k + 1) by lia. destruct b eqn:Eb; unfold b in Eb.
  - eexists _, 0. split; [|done]. link_cbv. rewrite <- !app_assoc. cbn [app]. reflexivity.
  - link_run. match goal with |- context [call_later ?a ?d ?cb ?r0] => pose proof (call_later_elem a d cb r0) as Hin end.
    eexists _, _. split; [|intros _; exact Hin]. unfold call_later. link_cbv. rewrite <- !app_assoc. cbn [app].
    reflexivity.
Qed.

Lemma fail_run c m k : fresh c -> match max_retries c with Some n => Z.of_nat k < n | None => True end ->
  (k <= m)%nat ->
  exists r rh, attempts_run k (fail_link c m) =
    (mkLink r (session_init "U" "P" "" 1) (idle_conn c k rh) 0 k (replicate (m - k) ConnectError)
       [] [] [] (fail_log k), Ok ()) /\
    (k <> 0%nat -> exists h, rh = Some h /\ mkTimer (backoff_at c (k - 1)) h AttemptConnect false ∈ timers r).
Proof.
  intros Hf. induction k as [|k IH]; intros Hn Hk.
  - exists reactor_init, None. split; [|done]. cbn. rewrite Nat.sub_0_r.
    unfold fail_link, link_init. do 2 f_equal. unfold fresh in Hf. rewrite Hf. reflexivity.
  - destruct IH as (r & rh & E & _); [destruct (max_retries c); [lia|done]|lia|].
    cbn [attempts_run]. munfold. rewrite E. replace (m - k)%nat with (S (m - S k)) by lia. cbn [replicate].
    destruct (attempt_fail c k (replicate (m - S k) ConnectError) r (session_init "U" "P" "" 1) rh Hf)
      as (r' & h & E' & Ht).
    assert (match max_retries c with Some n => n <=? Z.of_nat (S k) | None => false end = false) as Hb.
    { revert Hn. destruct (max_retries c); [|done]. intros Hn. apply Z.leb_gt. lia. }
    rewrite E', Hb. exists r', (Some h). split; [done|]. intros _. exists h. split; [done|].
    replace (S k - 1)%nat with k by lia. by apply Ht.
Qed.

Lemma fresh_facts c : fresh c -> cstate c = STATE_IDLE /\ _sock c = None /\ _send_buf c = [].
Proof. unfold fresh. by intros ->. Qed.

Lemma backoff_bounds c k : 0 <= backoff_initial c <= backoff_max c -> 1 <= backoff_factor c ->
  backoff_initial c <= backoff_at c k <= backoff_max c.
Proof. intros H1 H2. induction k; cbn; nia. Qed.

(** When every [connect] fails: attempt after attempt is made, each retry timer set
    with the bounded exponential backoff, which never exceeds [backoff_max]; after
    [max_retries] attempts the connector gives up exactly once, is stopped, and no
    further attempt is made. *)
Theorem retry_schedule c n extra : fresh c -> max_retries c = Some (Z.of_nat n) -> (0 < n)%nat ->
  0 <= backoff_initial c <= backoff_max c -> 1 <= backoff_factor c ->
  (forall k, (0 < k < n)%nat -> exists w h, attempts_run k (fail_link c n) = (w, Ok ()) /\
     cstate (l_conn w) = STATE_IDLE /\ attempts (l_conn w) = Z.of_nat k /\
     _retry_handle (l_conn w) = Some h /\
     mkTimer (backoff_at c (k - 1)) h AttemptConnect false ∈ timers (l_rx w) /\
     backoff_initial c <= backoff_at c (k - 1) <= backoff_max c) /\
  exists w, attempts_run (n + extra) (fail_link c n) = (w, Ok ()) /\
    cstate (l_conn w) = STATE_STOPPED /\ _sock (l_conn w) = None /\ l_nsock w = n /\
    l_log w = fail_log n ++ [EvGiveUp].
Proof.
  intros Hf Hn Hpos Hb Hfac. split.
  - intros k Hk. destruct (fail_run c n k Hf) as (r & rh & E & Ht); [rewrite Hn; lia|lia|].
    destruct (Ht ltac:(lia)) as (h & -> & Hin). eexists _, h. split; [exact E|].
    destruct (fresh_facts c Hf) as (? & _ & _). cbn. split_and!; try done; by apply backoff_bounds.
  - destruct n as [|n]; [lia|]. destruct (fail_run c (S n) n Hf) as (r & rh & E & _); [rewrite Hn; lia|lia|].
    replace (S n - n)%nat with 1%nat in E by lia. cbn [replicate] in E.
    destruct (attempt_fail c n [] r (session_init "U" "P" "" 1) rh Hf) as (r' & h & E' & _).
    rewrite Hn, Z.leb_refl in E'.
    assert (attempts_run (S n) (fail_link c (S n)) = (mkLink r' (session_init "U" "P" "" 1)
      (c_state STATE_STOPPED (c_retry None (c_backoff (backoff_at c n) (c_attempts (Z.of_nat (S n)) c))))
      0 (S n) [] [] [] [] (fail_log (S n) ++ [EvGiveUp]), Ok ())) as Es.
    { cbn [attempts_run]. munfold. rewrite E. apply E'. }
    destruct (fresh_facts c Hf) as (_ & Hk & Hsb). match type of Es with _ = (?w, _) => exists w end. split; [|cbn -[fail_log]; by split_and!].
    induction extra as [|x IH]; [rewrite Nat.add_0_r; exact Es|].
    replace (S n + S x)%nat with (S (S n + x)) by lia. cbn [attempts_run]. munfold. rewrite IH.
    by apply run_stopped.
Qed.

Lemma retry_schedule_witness :
  let c := conn_init 250 (Some 3) 500 1500 2 10000 in
  exists w, attempts_run 5 (fail_link c 3) = (w, Ok ()) /\ l_log w = fail_log 3 ++ [EvGiveUp].
Proof.
  intros c. destruct (retry_schedule c 3 2 eq_refl eq_refl ltac:(lia) ltac:(cbn; lia) ltac:(cbn; lia))
    as (_ & w & E & _ & _ & _ & El). exists w. split; [exact E|exact El].
Defined.
