(* ===== verification/Client.v ===== *)
(** jnxfeed/glimpse.py and jnxfeed/handler.py: the snapshot client and the feed
    handler, on one reactor.

    [client] is the whole client process: reactor, clock, scripted operating
    system, market, and for each of the two connections (GLIMPSE, ITCH) a session
    and a connector.  The two connections are two instances of the interfaces of
    [SoupSession] and [Tcp] on the same world; [Module Live] is the ITCH side of
    the handler, [Module Glimpse] the snapshot client, [Module Handler] the
    handler's control.  Calls of its owner's callbacks are recorded in [k_log]. *)
From S2P Require Export Tcp Market.

(** [CInterval]: a timer of the handler's owner on the same reactor. *)
Inductive client_cb : Type := CGlimpse (cb : conn_cb) | CItch (cb : conn_cb) | CGlimpseTimeout | CInterval.

Inductive handler_state : Type := HS_INIT | HS_SNAPSHOT | HS_LIVE | HS_ENDED | HS_FAILED.

#[export] Instance handler_state_eq_dec : EqDecision handler_state.
Proof. solve_decision. Defined.

(** The reason texts, by what they say. *)
Inductive reason : Type :=
| LoginRejectedReason (code : str)        (* "login rejected: code ..." *)
| LostBeforeEnd                            (* "connection lost before end of snapshot" *)
| LostBeforeEndZ                           (* "... (server sent Z)" *)
| SnapshotTimeout                          (* "snapshot timeout after ..." *)
| SnapshotFailed (r : reason)              (* "snapshot failed: ..." *)
| ItchLoginRejected (code : str)
| RetriesExhausted
| EndOfMessages                            (* "ITCH end of messages (S event C)" *)
| EndOfSoupSession                         (* "SoupBinTCP end of session (Z)" *)
| StoppedByCaller.

Record GlimpseClient : Type := mkGlimpse {
  g_timeout : Z; g_next_live_seq : option Z; g_message_count : Z; g_done : bool; g_watchdog : option Z }.

Record FeedHandler : Type := mkHandler {
  h_username : str; h_password : str; h_glimpse_host : bool; h_requested_seq : Z;
  h_snapshot_timeout : Z; h_tick_interval : Z; h_max_retries : option Z;
  h_backoff_initial : Z; h_backoff_max : Z; h_connect_timeout : Z;
  h_state : handler_state; h_end_reason : option reason; h_reconnects : Z;
  h_glimpse : bool;          (* self._glimpse is not None *)
  h_connector : bool }.      (* self._session, self._connector are not None *)

(** What the handler's callers see. *)
Inductive handler_event : Type :=
| HLive (next_seq : Z) | HEnded (r : reason) | HFailed (r : reason) | HMessage (seq : Z) (m : message)
| HInterval.   (* the owner's interval callback *)

(** The variables of the handler's owner: the [state] of the live source. *)
Record owner : Type := mkOwner { w_count : Z; w_failure : option reason }.

Record client : Type := mkClient {
  k_rx : Reactor client_cb; k_clock : Z;
  k_nsock : nat; k_connects : list connect_res; k_errors : list Z; k_recvs : list recv_res; k_sends : list send_res;
  k_market : Market;
  k_gsess : SoupSession; k_gconn : TcpSoupConnector; k_glimpse : GlimpseClient;
  k_isess : SoupSession; k_iconn : TcpSoupConnector; k_handler : FeedHandler;
  k_sent : list (nat * bytes); k_log : list handler_event; k_owner : owner }.

Definition k_set_rx (x : Reactor client_cb) (w : client) : client :=
  mkClient x (k_clock w) (k_nsock w) (k_connects w) (k_errors w) (k_recvs w) (k_sends w) (k_market w)
    (k_gsess w) (k_gconn w) (k_glimpse w) (k_isess w) (k_iconn w) (k_handler w) (k_sent w) (k_log w) (k_owner w).
Definition k_set_os (n : nat) (c : list connect_res) (e : list Z) (r : list recv_res) (s : list send_res)
    (sent : list (nat * bytes)) (w : client) : client :=
  mkClient (k_rx w) (k_clock w) n c e r s (k_market w)
    (k_gsess w) (k_gconn w) (k_glimpse w) (k_isess w) (k_iconn w) (k_handler w) sent (k_log w) (k_owner w).
Definition k_set_market (x : Market) (w : client) : client :=
  mkClient (k_rx w) (k_clock w) (k_nsock w) (k_connects w) (k_errors w) (k_recvs w) (k_sends w) x
    (k_gsess w) (k_gconn w) (k_glimpse w) (k_isess w) (k_iconn w) (k_handler w) (k_sent w) (k_log w) (k_owner w).
Definition k_set_gsess (x : SoupSession) (w : client) : client :=
  mkClient (k_rx w) (k_clock w) (k_nsock w) (k_connects w) (k_errors w) (k_recvs w) (k_sends w) (k_market w)
    x (k_gconn w) (k_glimpse w) (k_isess w) (k_iconn w) (k_handler w) (k_sent w) (k_log w) (k_owner w).
Definition k_set_gconn (x : TcpSoupConnector) (w : client) : client :=
  mkClient (k_rx w) (k_clock w) (k_nsock w) (k_connects w) (k_errors w) (k_recvs w) (k_sends w) (k_market w)
    (k_gsess w) x (k_glimpse w) (k_isess w) (k_iconn w) (k_handler w) (k_sent w) (k_log w) (k_owner w).
Definition k_set_glimpse (x : GlimpseClient) (w : client) : client :=
  mkClient (k_rx w) (k_clock w) (k_nsock w) (k_connects w) (k_errors w) (k_recvs w) (k_sends w) (k_market w)
    (k_gsess w) (k_gconn w) x (k_isess w) (k_iconn w) (k_handler w) (k_sent w) (k_log w) (k_owner w).
Definition k_set_isess (x : SoupSession) (w : client) : client :=
  mkClient (k_rx w) (k_clock w) (k_nsock w) (k_connects w) (k_errors w) (k_recvs w) (k_sends w) (k_market w)
    (k_gsess w) (k_gconn w) (k_glimpse w) x (k_iconn w) (k_handler w) (k_sent w) (k_log w) (k_owner w).
Definition k_set_iconn (x : TcpSoupConnector) (w : client) : client :=
  mkClient (k_rx w) (k_clock w) (k_nsock w) (k_connects w) (k_errors w) (k_recvs w) (k_sends w) (k_market w)
    (k_gsess w) (k_gconn w) (k_glimpse w) (k_isess w) x (k_handler w) (k_sent w) (k_log w) (k_owner w).
Definition k_set_handler (x : FeedHandler) (w : client) : client :=
  mkClient (k_rx w) (k_clock w) (k_nsock w) (k_connects w) (k_errors w) (k_recvs w) (k_sends w) (k_market w)
    (k_gsess w) (k_gconn w) (k_glimpse w) (k_isess w) (k_iconn w) x (k_sent w) (k_log w) (k_owner w).
Definition k_event (e : handler_event) (w : client) : client :=
  mkClient (k_rx w) (k_clock w) (k_nsock w) (k_connects w) (k_errors w) (k_recvs w) (k_sends w) (k_market w)
    (k_gsess w) (k_gconn w) (k_glimpse w) (k_isess w) (k_iconn w) (k_handler w) (k_sent w) (k_log w ++ [e]) (k_owner w).

Definition k_set_owner (x : owner) (w : client) : client :=
  mkClient (k_rx w) (k_clock w) (k_nsock w) (k_connects w) (k_errors w) (k_recvs w) (k_sends w) (k_market w)
    (k_gsess w) (k_gconn w) (k_glimpse w) (k_isess w) (k_iconn w) (k_handler w) (k_sent w) (k_log w) x.

(** * The operating system of the client *)

#[export] Instance client_reactor : ReactorOf client client_cb := {|
  rx := k_rx; set_rx := k_set_rx; monotonic := mgets k_clock |}.

Definition k_socket : M client nat := fun w =>
  (k_set_os (S (k_nsock w)) (k_connects w) (k_errors w) (k_recvs w) (k_sends w) (k_sent w) w, Ok (k_nsock w)).
Definition k_connect (_ : nat) : M client connect_res := fun w =>
  (k_set_os (k_nsock w) (tail (k_connects w)) (k_errors w) (k_recvs w) (k_sends w) (k_sent w) w,
   Ok (hd_or ConnectPending (k_connects w))).
Definition k_so_error (_ : nat) : M client Z := fun w =>
  (k_set_os (k_nsock w) (k_connects w) (tail (k_errors w)) (k_recvs w) (k_sends w) (k_sent w) w,
   Ok (hd_or 0 (k_errors w))).
Definition k_recv (_ : nat) : M client recv_res := fun w =>
  (k_set_os (k_nsock w) (k_connects w) (k_errors w) (tail (k_recvs w)) (k_sends w) (k_sent w) w,
   Ok (hd_or RecvBlock (k_recvs w))).
(** With an empty script the socket takes everything. *)
Definition k_send (sock : nat) (data : bytes) : M client send_res := fun w =>
  match hd_or (SendBytes (length data)) (k_sends w) with
  | SendBytes n =>
      let n := Nat.min n (length data) in
      (k_set_os (k_nsock w) (k_connects w) (k_errors w) (k_recvs w) (tail (k_sends w))
         (k_sent w ++ [(sock, take n data)]) w, Ok (SendBytes n))
  | r => (k_set_os (k_nsock w) (k_connects w) (k_errors w) (k_recvs w) (tail (k_sends w)) (k_sent w) w, Ok r)
  end.

(** The two connections. *)
Definition glimpse_session : SessionOf client := {| sess := k_gsess; set_sess := k_set_gsess |}.
Definition itch_session : SessionOf client := {| sess := k_isess; set_sess := k_set_isess |}.
Definition glimpse_conn : ConnOf client client_cb := {|
  conn := k_gconn; set_conn := k_set_gconn; conn_name := CGlimpse; sys_socket := k_socket;
  sys_connect := k_connect; sys_so_error := k_so_error; sys_recv := k_recv; sys_send := k_send;
  sys_close := fun _ => mret () |}.
Definition itch_conn : ConnOf client client_cb := {|
  conn := k_iconn; set_conn := k_set_iconn; conn_name := CItch; sys_socket := k_socket;
  sys_connect := k_connect; sys_so_error := k_so_error; sys_recv := k_recv; sys_send := k_send;
  sys_close := fun _ => mret () |}.

Definition get_handler : M client FeedHandler := mgets k_handler.
Definition get_glimpse : M client GlimpseClient := mgets k_glimpse.
Definition mod_handler (f : FeedHandler -> FeedHandler) : M client () :=
  mmod (fun w => k_set_handler (f (k_handler w)) w).
Definition mod_glimpse (f : GlimpseClient -> GlimpseClient) : M client () :=
  mmod (fun w => k_set_glimpse (f (k_glimpse w)) w).

Definition h_set_state (st : handler_state) (h : FeedHandler) : FeedHandler :=
  mkHandler (h_username h) (h_password h) (h_glimpse_host h) (h_requested_seq h) (h_snapshot_timeout h)
    (h_tick_interval h) (h_max_retries h) (h_backoff_initial h) (h_backoff_max h) (h_connect_timeout h)
    st (h_end_reason h) (h_reconnects h) (h_glimpse h) (h_connector h).
Definition h_set_reason (r : reason) (h : FeedHandler) : FeedHandler :=
  mkHandler (h_username h) (h_password h) (h_glimpse_host h) (h_requested_seq h) (h_snapshot_timeout h)
    (h_tick_interval h) (h_max_retries h) (h_backoff_initial h) (h_backoff_max h) (h_connect_timeout h)
    (h_state h) (Some r) (h_reconnects h) (h_glimpse h) (h_connector h).
Definition h_add_reconnect (h : FeedHandler) : FeedHandler :=
  mkHandler (h_username h) (h_password h) (h_glimpse_host h) (h_requested_seq h) (h_snapshot_timeout h)
    (h_tick_interval h) (h_max_retries h) (h_backoff_initial h) (h_backoff_max h) (h_connect_timeout h)
    (h_state h) (h_end_reason h) (h_reconnects h + 1) (h_glimpse h) (h_connector h).
Definition h_set_glimpse (b : bool) (h : FeedHandler) : FeedHandler :=
  mkHandler (h_username h) (h_password h) (h_glimpse_host h) (h_requested_seq h) (h_snapshot_timeout h)
    (h_tick_interval h) (h_max_retries h) (h_backoff_initial h) (h_backoff_max h) (h_connect_timeout h)
    (h_state h) (h_end_reason h) (h_reconnects h) b (h_connector h).
Definition h_set_connector (b : bool) (h : FeedHandler) : FeedHandler :=
  mkHandler (h_username h) (h_password h) (h_glimpse_host h) (h_requested_seq h) (h_snapshot_timeout h)
    (h_tick_interval h) (h_max_retries h) (h_backoff_initial h) (h_backoff_max h) (h_connect_timeout h)
    (h_state h) (h_end_reason h) (h_reconnects h) (h_glimpse h) b.

(** [codec.decode(payload)] and [self.market.apply(msg)]. *)
Definition apply_payload (payload : bytes) : M client message :=
  msg ← mlift (Itch.decode payload);
  zoom k_market k_set_market (market_apply (OMsg msg)) ;;
  mret msg.

(** ** The callbacks of the handler's owner

    Every call of one is recorded in [k_log]; what the call does then is its owner's. *)
Class EndCallbacks : Type := { on_ended_cb : reason -> M client (); on_failed_cb : reason -> M client () }.
Class MessageCallback : Type := { on_message_cb : Z -> message -> M client () }.

(** [_noop]. *)
Definition no_end_callbacks : EndCallbacks := {| on_ended_cb _ := mret (); on_failed_cb _ := mret () |}.
Definition no_message_callback : MessageCallback := {| on_message_cb _ _ := mret () |}.

(** An owner that at most stops the reactor and sets variables of its own. *)
Class EndLaws (EC : EndCallbacks) : Prop := {
  ended_rx : forall r w, exists x o, on_ended_cb r w = (k_set_owner o (k_set_rx x w), Ok ());
  failed_rx : forall r w, exists x o, on_failed_cb r w = (k_set_owner o (k_set_rx x w), Ok ()) }.

Lemma no_end_laws : EndLaws no_end_callbacks.
Proof. split; intros r w; exists (k_rx w), (k_owner w); by destruct w. Qed.

(** * The ITCH side of the handler *)

Module Live.
Section live.
Context {EC : EndCallbacks} {MC : MessageCallback}.
#[local] Existing Instance itch_session.
#[local] Existing Instance itch_conn.

Definition _transition (st : handler_state) : M client () := mod_handler (h_set_state st).

Definition is_terminal (st : handler_state) : bool :=
  match st with HS_ENDED | HS_FAILED => true | _ => false end.

Definition stop_connector : M client () :=
  h ← get_handler; if h_connector h then conn_stop else mret ().

Definition _end (r : reason) : M client () :=
  h ← get_handler;
  if is_terminal (h_state h) then mret ()
  else
    mod_handler (h_set_reason r) ;;
    stop_connector ;;
    _transition HS_ENDED ;;
    mmod (k_event (HEnded r)) ;; on_ended_cb r.

Definition _fail (r : reason) : M client () :=
  h ← get_handler;
  if is_terminal (h_state h) then mret ()
  else
    mod_handler (h_set_reason r) ;;
    stop_connector ;;
    _transition HS_FAILED ;;
    mmod (k_event (HFailed r)) ;; on_failed_cb r.

Definition _on_disconnect (exc : option exn) : M client () :=
  h ← get_handler;
  if decide (h_state h = HS_LIVE) then mod_handler h_add_reconnect else mret ().

Definition _on_give_up : M client () := _fail RetriesExhausted.

#[local] Instance callbacks : ConnCallbacks client := {|
  on_connect_failed := fun _ => mret ();
  on_give_up := _on_give_up;
  on_disconnect := _on_disconnect |}.

Definition _on_login_accepted (sid : str) (next_seq : Z) : M client () :=
  _transition HS_LIVE ;;
  mmod (k_event (HLive next_seq)).

Definition _on_login_rejected (code : str) : M client () := _fail (ItchLoginRejected code).

Definition _on_itch_message (seq : Z) (payload : bytes) : M client () :=
  msg ← apply_payload payload;
  mmod (k_event (HMessage seq msg)) ;; on_message_cb seq msg ;;
  match msg with
  | SystemEvent _ _ event =>
      if decide (event = EVENT_END_OF_MESSAGES) then _end EndOfMessages else mret ()
  | _ => mret ()
  end.

Definition _on_end_of_session : M client () := _end EndOfSoupSession.

Definition _on_peer_silent : M client () :=
  h ← get_handler; if h_connector h then reconnect None else mret ().

#[local] Instance session_callbacks : SessionCallbacks client := {|
  on_login_accepted := _on_login_accepted;
  on_login_rejected := _on_login_rejected;
  on_message := _on_itch_message;
  on_end_of_session := _on_end_of_session;
  on_peer_silent := _on_peer_silent |}.

Definition _start_itch (requested_seq : Z) : M client () :=
  h ← get_handler;
  mmod (k_set_isess (session_init (h_username h) (h_password h) "" requested_seq)) ;;
  mmod (k_set_iconn (conn_init (h_tick_interval h) (h_max_retries h) (h_backoff_initial h)
                       (h_backoff_max h) 2 (h_connect_timeout h))) ;;
  mod_handler (h_set_connector true) ;;
  conn_start.

Definition _on_snapshot_complete (next_live_seq message_count : Z) : M client () :=
  mod_handler (h_set_glimpse false) ;;
  _start_itch next_live_seq.

Definition _on_snapshot_failed (r : reason) : M client () :=
  mod_handler (h_set_glimpse false) ;;
  _fail (SnapshotFailed r).

(** The ITCH connection's reactor callbacks, the packets of its session, and the
    calls [stop] makes on it. *)
Definition run_itch (cb : conn_cb) : M client () := run_conn_cb cb.
Definition handle_itch (p : packet) : M client () := _handle_packet p.
Definition logout_itch : M client () :=
  now ← monotonic; on_sess (logout (Some now)) ;; conn_flush.
Definition stop_itch : M client () := conn_stop.
End live.
End Live.

(** * The snapshot client *)

Module Glimpse.
Section glimpse.
Context {EC : EndCallbacks} {MC : MessageCallback}.
#[local] Existing Instance glimpse_session.
#[local] Existing Instance glimpse_conn.

Definition g_set_done (g : GlimpseClient) : GlimpseClient :=
  mkGlimpse (g_timeout g) (g_next_live_seq g) (g_message_count g) true (g_watchdog g).
Definition g_set_next (n : Z) (g : GlimpseClient) : GlimpseClient :=
  mkGlimpse (g_timeout g) (Some n) (g_message_count g) (g_done g) (g_watchdog g).
Definition g_count (g : GlimpseClient) : GlimpseClient :=
  mkGlimpse (g_timeout g) (g_next_live_seq g) (g_message_count g + 1) (g_done g) (g_watchdog g).
Definition g_set_watchdog (h : option Z) (g : GlimpseClient) : GlimpseClient :=
  mkGlimpse (g_timeout g) (g_next_live_seq g) (g_message_count g) (g_done g) h.

Definition stop : M client () :=
  g ← get_glimpse;
  (match g_watchdog g with
   | Some h => mod_rx (timer_cancel h) ;; mod_glimpse (g_set_watchdog None)
   | None => mret ()
   end) ;;
  conn_stop.

Definition _fail (r : reason) : M client () :=
  g ← get_glimpse;
  if g_done g then mret ()
  else
    mod_glimpse g_set_done ;;
    stop ;;
    Live._on_snapshot_failed r.

#[local] Instance callbacks : ConnCallbacks client := {|
  on_connect_failed := fun _ => mret ();
  on_give_up := _fail LostBeforeEnd;
  on_disconnect := fun _ => _fail LostBeforeEnd |}.

(** Clean logout, best effort. *)
Definition logout_glimpse : M client () :=
  now ← monotonic; on_sess (logout (Some now)) ;; conn_flush.

Definition _complete (next_live_seq : Z) : M client () :=
  mod_glimpse g_set_done ;;
  mod_glimpse (g_set_next next_live_seq) ;;
  logout_glimpse ;;
  stop ;;
  g ← get_glimpse;
  Live._on_snapshot_complete next_live_seq (g_message_count g).

Definition _on_message (seq : Z) (payload : bytes) : M client () :=
  g ← get_glimpse;
  if g_done g then mret ()
  else
    msg ← apply_payload payload;
    match msg with
    | EndOfSnapshot n => _complete n
    | _ => mod_glimpse g_count
    end.

Definition _on_login_rejected (code : str) : M client () := _fail (LoginRejectedReason code).
Definition _on_end_of_session : M client () := _fail LostBeforeEndZ.
Definition _on_timeout : M client () :=
  mod_glimpse (g_set_watchdog None) ;; _fail SnapshotTimeout.

#[local] Instance session_callbacks : SessionCallbacks client := {|
  on_login_accepted := fun _ _ => mret ();
  on_login_rejected := _on_login_rejected;
  on_message := _on_message;
  on_end_of_session := _on_end_of_session;
  on_peer_silent := mret () |}.

Definition start : M client () :=
  g ← get_glimpse;
  h ← schedule (g_timeout g) CGlimpseTimeout;
  mod_glimpse (g_set_watchdog (Some h)) ;;
  conn_start.

Definition run_glimpse (cb : conn_cb) : M client () := run_conn_cb cb.
Definition handle_glimpse (p : packet) : M client () := _handle_packet p.
End glimpse.
End Glimpse.

(** * The handler's control *)

Module Handler.
Section handler.
Context {EC : EndCallbacks} {MC : MessageCallback}.

Definition start : M client () :=
  h ← get_handler;
  if decide (h_state h = HS_INIT) then
    if h_glimpse_host h then
      Live._transition HS_SNAPSHOT ;;
      mmod (k_set_gsess (session_init (h_username h) (h_password h) "" 1)) ;;
      mmod (k_set_gconn (conn_init (h_tick_interval h) (Some 1) 500 10000 2 (h_connect_timeout h))) ;;
      mmod (k_set_glimpse (mkGlimpse (h_snapshot_timeout h) None 0 false None)) ;;
      mod_handler (h_set_glimpse true) ;;
      Glimpse.start
    else Live._start_itch (h_requested_seq h)
  else mraise RuntimeError.

Definition stop : M client () :=
  h ← get_handler;
  (if h_glimpse h then Glimpse.stop else mret ()) ;;
  (if h_connector h then Live.logout_itch ;; Live.stop_itch else mret ()) ;;
  h ← get_handler;
  if Live.is_terminal (h_state h) then mret ()
  else
    mod_handler (h_set_reason StoppedByCaller) ;;
    Live._transition HS_ENDED ;;
    mmod (k_event (HEnded StoppedByCaller)) ;; on_ended_cb StoppedByCaller.

(** [interval]: what the owner's timer runs. *)
Definition run_client_cb (interval : M client ()) (cb : client_cb) : M client () :=
  match cb with
  | CInterval => interval
  | CGlimpse c => Glimpse.run_glimpse c
  | CItch c => Live.run_itch c
  | CGlimpseTimeout => Glimpse._on_timeout
  end.
End handler.
End Handler.

Definition handler_init (username password : str) (glimpse : bool) (requested_seq : Z) : FeedHandler :=
  mkHandler username password glimpse requested_seq 30000 250 None 500 10000 10000 HS_INIT None 0 false false.

Definition client_init (h : FeedHandler) (connects : list connect_res) (recvs : list recv_res) : client :=
  mkClient reactor_init 0 0 connects [] recvs [] (market_init DEFAULT_MAX_ENTRIES)
    (session_init (h_username h) (h_password h) "" 1) (conn_init 250 (Some 1) 500 10000 2 10000)
    (mkGlimpse 30000 None 0 false None) (session_init (h_username h) (h_password h) "" 1)
    (conn_init 250 None 500 10000 2 10000) h [] [] (mkOwner 0 None).

(** * Lemmas: frames *)

(** Nothing but the connections, the reactor and the operating system has moved. *)
Definition quiet (w w' : client) : Prop :=
  k_log w' = k_log w /\ k_handler w' = k_handler w /\ k_market w' = k_market w /\
  k_glimpse w' = k_glimpse w /\ k_isess w' = k_isess w.

#[export] Instance quiet_preorder : PreOrder quiet.
Proof.
  split; [by intros w|]. intros w1 w2 w3 (?&?&?&?&?) (?&?&?&?&?). unfold quiet. by split_and!; etransitivity.
Qed.

(** The GLIMPSE connection has moved, the ITCH side and the market have not. *)
Definition glimpse_only (w w' : client) : Prop :=
  k_log w' = k_log w /\ k_handler w' = k_handler w /\ k_market w' = k_market w /\
  k_isess w' = k_isess w /\ k_iconn w' = k_iconn w /\ k_connects w' = k_connects w /\
  g_done (k_glimpse w') = g_done (k_glimpse w) /\ g_next_live_seq (k_glimpse w') = g_next_live_seq (k_glimpse w) /\
  g_message_count (k_glimpse w') = g_message_count (k_glimpse w).

#[export] Instance glimpse_only_preorder : PreOrder glimpse_only.
Proof.
  split; [by intros w|]. intros w1 w2 w3 (?&?&?&?&?&?&?&?&?) (?&?&?&?&?&?&?&?&?). unfold glimpse_only.
  by split_and!; etransitivity.
Qed.

Lemma safe_on_rx (R : client -> client -> Prop) {A} (f : Reactor client_cb -> Reactor client_cb * A) :
  (forall w r, R w (k_set_rx r w)) -> safe R (on_rx f).
Proof.
  intros H w. unfold on_rx. cbn. destruct (f (k_rx w)) as [r a] eqn:E. exists (k_set_rx r w), a. by split.
Qed.

Lemma safe_k_send (R : client -> client -> Prop) s d :
  (forall w n c e r s sent, c = k_connects w -> R w (k_set_os n c e r s sent w)) -> safe R (k_send s d).
Proof. intros H w. unfold k_send. destruct (hd_or _ (k_sends w)); eexists _, _; (split; [done|]); by apply H. Qed.

Lemma safe_stop_itch : safe quiet Live.stop_connector.
Proof.
  unfold Live.stop_connector, get_handler. safe_steps.
  apply safe_stop; intros; first [apply _|apply safe_mmod; done|by apply safe_ret].
Qed.

Lemma stop_connector_quiet w : exists w', Live.stop_connector w = (w', Ok ()) /\ quiet w w'.
Proof. destruct (safe_stop_itch w) as (w' & [] & E & Hq). by exists w'. Qed.

(** * Ending once *)

Definition is_end_event (e : handler_event) : bool :=
  match e with HEnded _ | HFailed _ => true | _ => false end.
Definition ends (l : list handler_event) : nat := length (List.filter is_end_event l).

(** A terminal handler has reported its end exactly once, any other has not. *)
Definition end_ok (w : client) : Prop :=
  ends (k_log w) = if Live.is_terminal (h_state (k_handler w)) then 1%nat else 0%nat.
Definition keeps_end (w w' : client) : Prop := end_ok w -> end_ok w'.

#[export] Instance keeps_end_preorder : PreOrder keeps_end.
Proof. split; unfold keeps_end; [by intros w|auto]. Qed.

Lemma quiet_end w w' : quiet w w' -> keeps_end w w'.
Proof. intros (E1 & E2 & _). unfold keeps_end, end_ok. by rewrite E1, E2. Qed.

Lemma ends_app l1 l2 : ends (l1 ++ l2) = (ends l1 + ends l2)%nat.
Proof. unfold ends. by rewrite List.filter_app, length_app. Qed.

(** From here on the owner's message callback does nothing; at an end it may stop the
    reactor. *)
Section lemmas.
Context {EC : EndCallbacks} {EL : EndLaws EC}.
#[local] Existing Instance no_message_callback.

(** [_end] and [_fail]: nothing in a terminal state, else one report. *)
Lemma end_eq r w :
  exists w', Live._end r w = (w', Ok ()) /\ keeps_end w w' /\ Live.is_terminal (h_state (k_handler w')) = true /\
    k_market w' = k_market w /\ k_isess w' = k_isess w /\
    k_log w' = k_log w ++ (if Live.is_terminal (h_state (k_handler w)) then [] else [HEnded r]).
Proof.
  unfold Live._end, get_handler, mod_handler. munfold.
  destruct (Live.is_terminal (h_state (k_handler w))) eqn:Et.
  - exists w. rewrite app_nil_r. by split_and!.
  - destruct (stop_connector_quiet (k_set_handler (h_set_reason r (k_handler w)) w)) as (w1 & E & Hl & Hh & Hm & _ & Hi).
    rewrite E. unfold Live._transition, mod_handler. munfold. match goal with |- context [on_ended_cb r ?w2] => destruct (ended_rx r w2) as (x & o & ->) end.
    eexists. split; [reflexivity|]. cbn. rewrite Hl, Hm, Hi. cbn. split_and!; try done.
    unfold keeps_end, end_ok. cbn -[ends]. rewrite Hl, Et. cbn -[ends]. rewrite ends_app. intros ->. done.
Qed.

Lemma fail_eq r w :
  exists w', Live._fail r w = (w', Ok ()) /\ keeps_end w w' /\ Live.is_terminal (h_state (k_handler w')) = true /\
    k_market w' = k_market w /\
    k_log w' = k_log w ++ (if Live.is_terminal (h_state (k_handler w)) then [] else [HFailed r]).
Proof.
  unfold Live._fail, get_handler, mod_handler. munfold.
  destruct (Live.is_terminal (h_state (k_handler w))) eqn:Et.
  - exists w. rewrite app_nil_r. by split_and!.
  - destruct (stop_connector_quiet (k_set_handler (h_set_reason r (k_handler w)) w)) as (w1 & E & Hl & Hh & Hm & _).
    rewrite E. unfold Live._transition, mod_handler. munfold. match goal with |- context [on_failed_cb r ?w2] => destruct (failed_rx r w2) as (x & o & ->) end.
    eexists. split; [reflexivity|]. cbn. rewrite Hl, Hm. cbn. split_and!; try done.
    unfold keeps_end, end_ok. cbn -[ends]. rewrite Hl, Et. cbn -[ends]. rewrite ends_app. intros ->. done.
Qed.

(** What can happen to a live handler: a packet other than a login acceptance, a
    silent peer, or the caller's [stop]. *)
Inductive action : Type := APacket (p : packet) | APeerSilent | AStop.
Definition action_ok (a : action) : bool :=
  match a with APacket (LoginAccepted _ _) => false | _ => true end.
Definition run_action (a : action) : M client () :=
  match a with
  | APacket p => Live.handle_itch p
  | APeerSilent => Live._on_peer_silent
  | AStop => Handler.stop
  end.

Lemma keeps_market {A} (m : M Market A) : keeps keeps_end (zoom k_market k_set_market m).
Proof. intros w. unfold zoom. destruct (m (k_market w)). by intros ?. Qed.

Lemma keeps_itch_sess {A} (m : M SoupSession A) : keeps keeps_end (zoom k_isess k_set_isess m).
Proof. intros w. unfold zoom. destruct (m (k_isess w)). by intros ?. Qed.

Lemma keeps_message seq payload : keeps keeps_end (Live._on_itch_message seq payload).
Proof.
  unfold Live._on_itch_message, apply_payload. apply keeps_bind; [apply _| |].
  - apply keeps_bind; [apply _|apply keeps_lift, _|]. intros m. apply keeps_bind; [apply _|apply keeps_market|].
    intros _. intros w. by intros ?.
  - intros m. apply keeps_bind; [apply _| |].
    + intros w. unfold keeps_end, end_ok. cbn -[ends]. rewrite ends_app. intros ->. by rewrite Nat.add_0_r.
    + intros _. apply keeps_bind; [apply _|intros w; by intros ?|]. intros _.
      destruct m; try (intros w; by intros ?). case_decide; [|intros w; by intros ?].
      intros w. destruct (end_eq EndOfMessages w) as (w' & -> & ? & _). done.
Qed.

Lemma keeps_packet p : action_ok (APacket p) = true -> keeps keeps_end (Live.handle_itch p).
Proof.
  intros Hp. destruct p; try done; unfold Live.handle_itch; cbn [_handle_packet];
    try (intros w; by intros ?).
  - apply keeps_bind; [apply _|apply keeps_itch_sess|]. intros _ w.
    destruct (fail_eq (ItchLoginRejected reject_code) w) as (w' & E & ? & _). cbn.
    unfold Live._on_login_rejected. by rewrite E.
  - apply keeps_bind; [apply _|intros w; by intros ?|]. intros w0.
    apply keeps_bind; [apply _|apply keeps_itch_sess|]. intros _. apply keeps_message.
  - apply keeps_bind; [apply _|apply keeps_itch_sess|]. intros _ w.
    destruct (end_eq EndOfSoupSession w) as (w' & E & ? & _). cbn.
    unfold Live._on_end_of_session. by rewrite E.
Qed.

Lemma keeps_disconnect exc : keeps keeps_end (Live._on_disconnect exc).
Proof.
  unfold Live._on_disconnect, get_handler, mod_handler. intros w. munfold.
  case_decide; [|by intros ?]. unfold keeps_end, end_ok. cbn. done.
Qed.

(** [safe] for the relation [keeps_end], where the callbacks may end the handler. *)
Lemma safe_end_disconnect exc : safe keeps_end (Live._on_disconnect exc).
Proof.
  intros w. pose proof (keeps_disconnect exc w) as H.
  unfold Live._on_disconnect, get_handler, mod_handler in *. munfold. case_decide; by eexists _, tt.
Qed.

Lemma safe_end_fail r : safe keeps_end (Live._fail r).
Proof. intros w. destruct (fail_eq r w) as (w' & E & H & _). by exists w', tt. Qed.

Lemma keeps_silent : keeps keeps_end Live._on_peer_silent.
Proof.
  apply safe_keeps. unfold Live._on_peer_silent, get_handler. safe_steps.
  apply safe_reconnect; intros;
    first [apply _|apply safe_end_disconnect|apply safe_end_fail|apply safe_mmod; intros; by intros ?
          |apply safe_on_rx; intros; by intros ?|by apply safe_mgets; apply _|by apply safe_ret].
Qed.

Lemma safe_g_stop (R : client -> client -> Prop) `{!PreOrder R} :
  (forall w r, R w (k_set_rx r w)) -> (forall w c, R w (k_set_gconn c w)) ->
  (forall w h, R w (k_set_glimpse (Glimpse.g_set_watchdog h (k_glimpse w)) w)) -> safe R Glimpse.stop.
Proof.
  intros H1 H2 H3. unfold Glimpse.stop, get_glimpse, mod_glimpse. safe_steps;
    try (apply safe_mmod; intros; auto; done).
  all: apply safe_stop; intros; first [apply _|apply safe_mmod; intros; by auto|by apply safe_ret].
Qed.

Lemma safe_logout_out (w : client) : exists s, logout (Some (k_clock w)) (k_isess w) = (s, Ok ()).
Proof. unfold logout, queue. munfold. cbn. by eexists. Qed.

Lemma safe_logout_itch (R : client -> client -> Prop) `{!PreOrder R} :
  (forall w s, R w (k_set_isess s w)) -> (forall w r, R w (k_set_rx r w)) -> (forall w c, R w (k_set_iconn c w)) ->
  (forall w n c e r s sent, c = k_connects w -> R w (k_set_os n c e r s sent w)) ->
  (forall e, safe R (Live._on_disconnect e)) -> safe R Live._on_give_up ->
  safe R Live.logout_itch.
Proof.
  intros H1 H2 H3 H4 H5 H6. unfold Live.logout_itch. safe_steps.
  - by apply safe_mgets.
  - intros w. unfold on_sess, zoom. cbn. unfold logout, queue. munfold. cbn. eexists _, tt. split; [done|]. apply H1.
  - apply safe_flush; intros;
      first [apply _|apply safe_mmod; by auto|apply safe_on_rx; by auto|apply safe_k_send; by auto
            |by apply safe_mgets|by apply safe_ret|by auto|idtac].
    intros w. eexists _, _. split; [reflexivity|]. apply H1.
Qed.

Lemma keeps_stop : keeps keeps_end Handler.stop.
Proof.
  unfold Handler.stop, get_handler, mod_handler.
  apply keeps_bind; [apply _|intros w; by intros ?|]. intros h.
  apply keeps_bind; [apply _| |].
  { destruct (h_glimpse h); [|intros w; by intros ?]. apply safe_keeps, safe_g_stop; [apply _|..]; by intros; intros ?. }
  intros _. apply keeps_bind; [apply _| |].
  { destruct (h_connector h); [|intros w; by intros ?]. apply safe_keeps. apply safe_bind; [apply _| |].
    - apply safe_logout_itch; try apply _; try (by intros; intros ?); [apply safe_end_disconnect|apply safe_end_fail].
    - intros _. unfold Live.stop_itch. apply safe_stop; intros;
        first [apply _|apply safe_mmod; intros; by intros ?|by apply safe_ret]. }
  intros _ w. munfold. destruct (Live.is_terminal (h_state (k_handler w))) eqn:Et; [by intros ?|].
  unfold Live._transition, mod_handler. munfold.
  match goal with |- context [on_ended_cb _ ?w2] => destruct (ended_rx StoppedByCaller w2) as (x & o & ->) end.
  unfold keeps_end, end_ok. cbn -[ends]. rewrite Et, ends_app. intros ->. done.
Qed.

(** A handler reports its end at most once: over any sequence of packets (login
    acceptances aside), silent-peer reports and [stop] calls, [on_ended] and
    [on_failed] together are called once if the handler is then in a terminal
    state, and never if it is not; this also holds when a message raises. *)
Theorem ended_once acts w : forallb action_ok acts = true -> end_ok w ->
  let w' := fst (mfor acts run_action w) in
  (ends (k_log w') <= 1)%nat /\
  (ends (k_log w') = 1%nat <-> h_state (k_handler w') = HS_ENDED \/ h_state (k_handler w') = HS_FAILED).
Proof.
  intros Ha Hw w'.
  assert (end_ok w') as H.
  { revert Hw. apply (keeps_mfor keeps_end). intros a Hin.
    rewrite forallb_forall in Ha. specialize (Ha a). rewrite <- list_elem_of_In in Ha. specialize (Ha Hin).
    destruct a as [p| |]; [by apply keeps_packet|apply keeps_silent|apply keeps_stop]. }
  unfold end_ok in H. rewrite H. destruct (h_state (k_handler w')); cbn; naive_solver lia.
Qed.

Definition msg_bytes (m : message) : bytes := match encode_msg m with Ok l => l | Raise _ => [] end.

Lemma ended_once_witness :
  let w := client_init (handler_init "U" "P" false 1) [] [] in
  (ends (k_log (fst (mfor [APacket (SequencedData (msg_bytes (SystemEvent 0 "DAY" "C"))); APacket EndOfSession; AStop]
    run_action w))) <= 1)%nat.
Proof. intros w. apply ended_once; reflexivity. Defined.

(** * Live messages *)

Definition is_end_message (m : message) : bool :=
  match m with SystemEvent _ _ e => bool_decide (e = EVENT_END_OF_MESSAGES) | _ => false end.

Lemma live_message w payload m a :
  Itch.decode payload = Ok m -> feed_ok m = true -> is_end_message m = false -> market_rep (k_market w) a ->
  exists w', Live.handle_itch (SequencedData payload) w = (w', Ok ()) /\
    k_log w' = k_log w ++ [HMessage (next_seq (k_isess w)) m] /\
    next_seq (k_isess w') = next_seq (k_isess w) + 1 /\ k_handler w' = k_handler w /\
    market_rep (k_market w') (am_step a (OMsg m)).
Proof.
  intros Hd Hm He Hr. destruct (market_apply_rep (k_market w) a (OMsg m) Hr Hm) as (k' & E & Hk').
  unfold Live.handle_itch. cbn [_handle_packet]. unfold on_sess, zoom. munfold. cbn [sess set_sess itch_session].
  cbn [on_message Live.session_callbacks]. unfold Live._on_itch_message, apply_payload, zoom. munfold. cbn -[market_apply Itch.decode].
  rewrite Hd, E. cbn [fst snd].
  eexists. split; [|split; [|split; [|split]]].
  - destruct m; try reflexivity. cbn in He. apply bool_decide_eq_false in He. by rewrite decide_False.
  - done.
  - done.
  - done.
  - done.
Qed.

Lemma live_messages payloads ms w a :
  Forall2 (fun p m => Itch.decode p = Ok m) payloads ms ->
  forallb feed_ok ms = true -> forallb (fun m => negb (is_end_message m)) ms = true ->
  market_rep (k_market w) a ->
  exists w', mfor (map SequencedData payloads) Live.handle_itch w = (w', Ok ()) /\
    k_log w' = k_log w ++ imap (fun i m => HMessage (next_seq (k_isess w) + Z.of_nat i) m) ms /\
    next_seq (k_isess w') = next_seq (k_isess w) + zlen ms /\ k_handler w' = k_handler w /\
    market_rep (k_market w') (foldl am_step a (map OMsg ms)).
Proof.
  intros Hd. revert w a. induction Hd as [|p m ps ms Hp Hd IH]; intros w a Hf He Hr.
  - exists w. cbn. rewrite app_nil_r, Z.add_0_r. done.
  - cbn in Hf, He. apply andb_true_iff in Hf as [Hf Hfs]. apply andb_true_iff in He as [He Hes].
    apply negb_true_iff in He.
    destruct (live_message w p m a Hp Hf He Hr) as (w1 & E1 & Hl1 & Hn1 & Hh1 & Hr1).
    destruct (IH w1 _ Hfs Hes Hr1) as (w2 & E2 & Hl2 & Hn2 & Hh2 & Hr2).
    exists w2. cbn [map mfor foldl imap]. munfold. rewrite E1, E2. split; [done|].
    rewrite Hl2, Hn2, Hh2, Hl1, Hn1, Hh1. split_and!; [| |done|done].
    + rewrite <- app_assoc. cbn. rewrite Z.add_0_r. do 2 f_equal. apply imap_ext. intros. cbn. f_equal. lia.
    + unfold zlen. cbn. lia.
Qed.

(** Live messages are applied to the market in order, each exactly once, and
    reported after it was applied, numbered from the session's resume point; the
    handler stays as it is. *)
Theorem live_applies_in_order w payloads ms a :
  Forall2 (fun p m => Itch.decode p = Ok m) payloads ms ->
  forallb feed_ok ms = true -> forallb (fun m => negb (is_end_message m)) ms = true ->
  market_rep (k_market w) a ->
  exists w', mfor (map SequencedData payloads) Live.handle_itch w = (w', Ok ()) /\
    k_log w' = k_log w ++ imap (fun i m => HMessage (next_seq (k_isess w) + Z.of_nat i) m) ms /\
    next_seq (k_isess w') = next_seq (k_isess w) + zlen ms /\ k_handler w' = k_handler w /\
    market_rep (k_market w') (foldl am_step a (map OMsg ms)).
Proof. apply live_messages. Qed.

Lemma live_applies_in_order_witness :
  let w := client_init (handler_init "U" "P" false 1) [] [] in
  exists w', mfor (map SequencedData (map msg_bytes demo_feed)) Live.handle_itch w = (w', Ok ()) /\
    next_seq (k_isess w') = 9.
Proof.
  intros w. destruct (live_applies_in_order w (map msg_bytes demo_feed) demo_feed am_init)
    as (w' & E & _ & Hn & _); [repeat constructor; vm_compute; reflexivity|vm_compute; reflexivity
    |vm_compute; reflexivity|apply market_init_rep|].
  exists w'. split; [exact E|exact Hn].
Defined.

(** The end of the feed does not stop the batch it arrived in: a message that
    follows the end-of-messages event in the same read is still applied and
    reported, after [on_ended]. *)
Theorem batch_continues_after_end w payload m a :
  h_state (k_handler w) = HS_LIVE -> Itch.decode payload = Ok m -> feed_ok m = true -> is_end_message m = false ->
  market_rep (k_market w) a ->
  let e := SystemEvent 0 "" EVENT_END_OF_MESSAGES in
  exists w' n, mfor [SequencedData (msg_bytes e); SequencedData payload] Live.handle_itch w = (w', Ok ()) /\
    k_log w' = k_log w ++ [HMessage n e; HEnded EndOfMessages; HMessage (n + 1) m] /\
    market_rep (k_market w') (am_step (am_step a (OMsg e)) (OMsg m)).
Proof.
  intros Hs Hd Hf He Hr e.
  destruct (market_apply_rep (k_market w) a (OMsg e) Hr eq_refl) as (k' & E & Hk').
  assert (exists w1, Live.handle_itch (SequencedData (msg_bytes e)) w = (w1, Ok ()) /\
    k_log w1 = k_log w ++ [HMessage (next_seq (k_isess w)) e; HEnded EndOfMessages] /\
    next_seq (k_isess w1) = next_seq (k_isess w) + 1 /\ k_market w1 = k') as (w1 & E1 & Hl1 & Hn1 & Hm1).
  { unfold Live.handle_itch. cbn [_handle_packet]. unfold on_sess, zoom. munfold. cbn [sess set_sess itch_session].
    cbn [on_message Live.session_callbacks]. unfold Live._on_itch_message, apply_payload, zoom. munfold.
    assert (Itch.decode (msg_bytes e) = Ok e) as -> by (vm_compute; reflexivity).
    cbn -[market_apply Live._end]. rewrite E. cbn -[Live._end]. rewrite decide_True by done.
    match goal with |- context [Live._end _ ?w0] =>
      destruct (end_eq EndOfMessages w0) as (w1 & -> & _ & _ & Hm1 & Hn1 & Hl1) end.
    exists w1. split; [done|]. cbn in Hm1, Hl1, Hn1. rewrite Hs in Hl1. cbn in Hl1. rewrite Hl1, Hm1, Hn1.
    by rewrite <- app_assoc. }
  rewrite <- Hm1 in Hk'. destruct (live_message w1 payload m _ Hd Hf He Hk') as (w2 & E2 & Hl2 & _ & _ & Hr2).
  exists w2, (next_seq (k_isess w)). cbn [mfor]. munfold. rewrite E1, E2. split; [done|]. split; [|done].
  rewrite Hl2, Hl1, Hn1. by rewrite <- app_assoc.
Qed.

Lemma batch_continues_after_end_witness :
  let w := k_set_handler (h_set_state HS_LIVE (handler_init "U" "P" false 1))
             (client_init (handler_init "U" "P" false 1) [] []) in
  exists w' n, k_log w' = [HMessage n (SystemEvent 0 "" "C"); HEnded EndOfMessages; HMessage (n + 1) (TimestampSeconds 7)].
Proof.
  intros w. destruct (batch_continues_after_end w (msg_bytes (TimestampSeconds 7)) (TimestampSeconds 7) am_init)
    as (w' & n & _ & E & _); [reflexivity|vm_compute; reflexivity|reflexivity|reflexivity|apply market_init_rep|].
  exists w', n. exact E.
Defined.

(** * The hand-over from the snapshot to the live feed *)

(** While the snapshot is done, the GLIMPSE connection moves nothing else. *)
Definition when_done (w w' : client) : Prop := g_done (k_glimpse w) = true -> glimpse_only w w'.

#[export] Instance when_done_preorder : PreOrder when_done.
Proof.
  split; [intros w _; reflexivity|]. intros w1 w2 w3 H1 H2 Hd.
  specialize (H1 Hd). transitivity w2; [done|]. apply H2. destruct H1 as (_&_&_&_&_&_&E&_). by rewrite E.
Qed.

Lemma safe_done_fail r : safe when_done (Glimpse._fail r).
Proof.
  intros w. unfold Glimpse._fail, get_glimpse. munfold. destruct (g_done (k_glimpse w)) eqn:Ed.
  - exists w, tt. split; [done|]. intros _. reflexivity.
  - unfold mod_glimpse. munfold.
    assert (PreOrder (fun _ _ : client => True)) by (split; by repeat intro).
    destruct (safe_g_stop (fun _ _ => True) (fun _ _ => I) (fun _ _ => I) (fun _ _ => I)
      (k_set_glimpse (Glimpse.g_set_done (k_glimpse w)) w)) as (w1 & [] & E & _).
    rewrite E. unfold Live._on_snapshot_failed, mod_handler. munfold.
    destruct (fail_eq (SnapshotFailed r) (k_set_handler (h_set_glimpse false (k_handler w1)) w1)) as (w2 & E2 & _).
    rewrite E2. exists w2, tt. split; [done|]. intros Hd. congruence.
Qed.

Lemma safe_logout_glimpse : safe when_done Glimpse.logout_glimpse.
Proof.
  unfold Glimpse.logout_glimpse. safe_steps.
  - by apply safe_mgets; apply _.
  - intros w. unfold on_sess, zoom. cbn. unfold logout, queue. munfold. cbn. by eexists _, tt.
  - apply safe_flush; intros;
      first [apply _|apply safe_mmod; done|by apply safe_on_rx|by apply safe_k_send; intros; subst
            |by apply safe_mgets; apply _|apply safe_ret; apply _|apply safe_done_fail|idtac].
    intros w. by eexists _, _.
Qed.

(** [_start_itch] when the connection is not refused at once. *)
Lemma start_itch_eq n w : hd_or ConnectPending (k_connects w) <> ConnectError ->
  exists w', Live._start_itch n w = (w', Ok ()) /\
    k_log w' = k_log w /\ k_market w' = k_market w /\ k_glimpse w' = k_glimpse w /\
    k_handler w' = h_set_connector true (k_handler w) /\
    cstate (k_iconn w') = STATE_CONNECTING /\ attempts (k_iconn w') = 1 /\
    k_isess w' = session_init (h_username (k_handler w)) (h_password (k_handler w)) "" n.
Proof.
  intros Hc. unfold Live._start_itch, get_handler, mod_handler, conn_start, _attempt_connect, get_conn, mod_conn,
    mod_rx, schedule, on_rx. munfold. cbn. rewrite decide_False by done. cbn. rewrite decide_False by done. cbn.
  destruct (hd_or ConnectPending (k_connects w)); [| |done]; cbn; eexists; (split; [reflexivity|]); by cbn.
Qed.

(** The [G] of the snapshot hands over to the live feed: the snapshot is done, the
    handler is not ended or failed, and exactly then the ITCH session exists, with
    a blank requested session and the sequence number the [G] carried; whatever the
    GLIMPSE socket does during the logout. *)
Theorem snapshot_hands_over w payload n a :
  Itch.decode payload = Ok (EndOfSnapshot n) -> g_done (k_glimpse w) = false ->
  hd_or ConnectPending (k_connects w) <> ConnectError -> market_rep (k_market w) a ->
  exists w', Glimpse.handle_glimpse (SequencedData payload) w = (w', Ok ()) /\
    g_done (k_glimpse w') = true /\ g_next_live_seq (k_glimpse w') = Some n /\
    k_log w' = k_log w /\ h_state (k_handler w') = h_state (k_handler w) /\
    h_connector (k_handler w') = true /\ h_glimpse (k_handler w') = false /\
    cstate (k_iconn w') = STATE_CONNECTING /\
    session_id (k_isess w') = "" /\ next_seq (k_isess w') = n /\
    market_rep (k_market w') (am_step a (OMsg (EndOfSnapshot n))).
Proof.
  intros Hd Hg Hc Hr.
  destruct (market_apply_rep (k_market w) a (OMsg (EndOfSnapshot n)) Hr eq_refl) as (k' & Ek & Hk').
  unfold Glimpse.handle_glimpse. cbn [_handle_packet]. unfold on_sess, zoom. munfold.
  cbn [sess set_sess glimpse_session on_message Glimpse.session_callbacks].
  unfold Glimpse._on_message, get_glimpse, apply_payload, zoom. munfold.
  cbn -[market_apply Itch.decode Glimpse._complete]. rewrite Hg, Hd.
  cbn -[market_apply Glimpse._complete]. rewrite Ek. cbn -[Glimpse._complete].
  unfold Glimpse._complete, mod_glimpse, get_glimpse. munfold. cbn [fst snd].
  match goal with |- context [Glimpse.logout_glimpse ?w0] =>
    destruct (safe_logout_glimpse w0) as (w1 & [] & E1 & H1) end.
  rewrite E1. specialize (H1 eq_refl).
  destruct (safe_g_stop glimpse_only ltac:(by intros) ltac:(by intros) ltac:(by intros) w1) as (w2 & [] & E2 & H2).
  rewrite E2. pose proof (transitivity H1 H2) as H12. clear H1 H2 E1 E2.
  destruct H12 as (Hl & Hh & Hm & _ & _ & Hcn & Hdn & Hnx & _). cbn in Hl, Hh, Hm, Hcn, Hdn, Hnx.
  unfold Live._on_snapshot_complete, mod_handler. munfold.
  destruct (start_itch_eq n (k_set_handler (h_set_glimpse false (k_handler w2)) w2)) as
    (w3 & E3 & Hl3 & Hm3 & Hg3 & Hh3 & Hc3 & _ & Hs3); [cbn; by rewrite Hcn|].
  rewrite E3. exists w3. rewrite Hl3, Hg3, Hh3, Hs3, Hm3. cbn. rewrite Hl, Hh, Hm, Hdn, Hnx. by split_and!.
Qed.

Lemma snapshot_hands_over_witness :
  let w := client_init (handler_init "U" "P" true 1) [] [] in
  exists w', Glimpse.handle_glimpse (SequencedData (msg_bytes (EndOfSnapshot 42))) w = (w', Ok ()) /\
    next_seq (k_isess w') = 42.
Proof.
  intros w. destruct (snapshot_hands_over w (msg_bytes (EndOfSnapshot 42)) 42 am_init)
    as (w' & E & _ & _ & _ & _ & _ & _ & _ & _ & Hn & _);
    [vm_compute; reflexivity|reflexivity|discriminate|apply market_init_rep|].
  exists w'. split; [exact E|exact Hn].
Defined.
End lemmas.
