(* ===== verification/Exchange.v ===== *)
(** jnxfeed/sim/exchange.py: the exchange simulator's two servers.

    A connection handler is a function of the reads of its socket: it appends what
    it sends to [x_out].  Every handler runs on its own connection over the shared
    messages; SimThreads has the threads.  [_linger], which reads on at the end, sends
    nothing and is there too.  The clock readings of the pacing loop are an argument. *)
From S2P Require Export SoupSession Market.

Inductive speed_spec : Type := SPEED_MAX | SPEED_REALTIME | SPEED_RATE (delay : Z).

(** [glimpse_cut]: None, an int, or a float below one, as a fraction. *)
Inductive cut_spec : Type := CutNone | CutInt (n : nat) | CutFraction (num den : nat).

Record ExchangeSimulator : Type := mkSim {
  x_messages : list bytes; x_username : str; x_password : str; x_session_id : str;
  x_speed : speed_spec; x_drop_after : option nat; x_heartbeat_interval : Z; x_glimpse_cut : nat;
  x_itch_logins : list packet; x_glimpse_logins : list packet;
  x_dropped : bool; x_stopping : bool;
  (* the connection being served *)
  x_last_send : Z; x_prev_t : option Z; x_clock : list Z; x_out : list bytes }.

Definition sim_init (messages : list bytes) (username password session_id : str) (speed : speed_spec)
    (drop_after : option nat) (heartbeat_interval : Z) (glimpse_cut : cut_spec) : ExchangeSimulator :=
  mkSim messages username password session_id speed drop_after heartbeat_interval
    (match glimpse_cut with
     | CutNone => (length messages / 2)%nat
     | CutInt n => n
     | CutFraction num den => (length messages * num / den)%nat
     end) [] [] false false 0 None [] [].

Definition x_set_logins (a b : list packet) (x : ExchangeSimulator) : ExchangeSimulator :=
  mkSim (x_messages x) (x_username x) (x_password x) (x_session_id x) (x_speed x) (x_drop_after x)
    (x_heartbeat_interval x) (x_glimpse_cut x) a b (x_dropped x) (x_stopping x) (x_last_send x) (x_prev_t x)
    (x_clock x) (x_out x).
Definition x_set_dropped (x : ExchangeSimulator) : ExchangeSimulator :=
  mkSim (x_messages x) (x_username x) (x_password x) (x_session_id x) (x_speed x) (x_drop_after x)
    (x_heartbeat_interval x) (x_glimpse_cut x) (x_itch_logins x) (x_glimpse_logins x) true (x_stopping x)
    (x_last_send x) (x_prev_t x) (x_clock x) (x_out x).
Definition x_set_pace (last : Z) (prev : option Z) (clock : list Z) (x : ExchangeSimulator) : ExchangeSimulator :=
  mkSim (x_messages x) (x_username x) (x_password x) (x_session_id x) (x_speed x) (x_drop_after x)
    (x_heartbeat_interval x) (x_glimpse_cut x) (x_itch_logins x) (x_glimpse_logins x) (x_dropped x) (x_stopping x)
    last prev clock (x_out x).
Definition x_sendall (data : bytes) (x : ExchangeSimulator) : ExchangeSimulator :=
  mkSim (x_messages x) (x_username x) (x_password x) (x_session_id x) (x_speed x) (x_drop_after x)
    (x_heartbeat_interval x) (x_glimpse_cut x) (x_itch_logins x) (x_glimpse_logins x) (x_dropped x) (x_stopping x)
    (x_last_send x) (x_prev_t x) (x_clock x) (x_out x ++ [data]).

Abbreviation MX := (M ExchangeSimulator).

(** [conn.sendall(sp.encode(pkt))] *)
Definition send_packet (p : packet) : MX () := l ← mlift (encode_packet p); mmod (x_sendall l).

(** [time.monotonic()]: the next reading; the last one repeats. *)
Definition x_now : MX Z := fun x =>
  match x_clock x with
  | [] => (x, Ok 0)
  | [t] => (x, Ok t)
  | t :: l => (x_set_pace (x_last_send x) (x_prev_t x) l x, Ok t)
  end.

(** [_read_login]: the first Login Request in the reads; other packets are ignored,
    and an empty read gives up. *)
Fixpoint read_login (reads : list bytes) (buf : bytes) : res (option packet) :=
  match reads with
  | [] => Ok None
  | data :: reads' =>
      if decide (data = []) then Ok None
      else
        match feed data buf with
        | (_, Raise e) => Raise e
        | (buf', Ok pkts) =>
            match List.find (fun p => match p with LoginRequest _ _ _ _ => true | _ => false end) pkts with
            | Some p => Ok (Some p)
            | None => read_login reads' buf'
            end
        end
  end.
Definition _read_login (reads : list bytes) : res (option packet) := read_login reads [].

Definition _validate_credentials (user pass : str) : MX bool :=
  x ← mget;
  if decide (user <> x_username x \/ pass <> x_password x) then
    send_packet (LoginRejected REJECT_NOT_AUTHORIZED) ;; mret false
  else mret true.

(** [message\[0:1\] == b"T"] and [int.from_bytes(message\[1:5\], "big")]. *)
Definition t_seconds (message : bytes) : option Z :=
  match message with
  | b :: rest => if decide (b = "T"%byte) then Some (be_val (take 4 rest)) else None
  | [] => None
  end.

(** The [while] of [_pace]: [n] bounds the clock readings it takes; a clock whose last
    reading is before the deadline never ends it. *)
Fixpoint pace_loop (n : nat) (deadline : Z) : MX bool :=
  match n with
  | O => mraise OutOfFuel
  | S n' =>
      x ← mget;
      if x_stopping x then mret false
      else
        now ← x_now;
        if deadline <=? now then mret true
        else
          x ← mget;
          (if x_heartbeat_interval x <=? now - x_last_send x then
             send_packet ServerHeartbeat ;;
             mmod (fun x => x_set_pace now (x_prev_t x) (x_clock x) x)
           else mret ()) ;;
          pace_loop n' deadline
  end.

Definition _pace (message : bytes) : MX bool :=
  x ← mget;
  match x_speed x with
  | SPEED_MAX => mret true
  | speed =>
      delay ←
        (match speed with
         | SPEED_REALTIME =>
             match t_seconds message with
             | Some seconds =>
                 let prev := x_prev_t x in
                 mmod (fun x => x_set_pace (x_last_send x) (Some seconds) (x_clock x) x) ;;
                 mret (match prev with
                       | Some p => if p <? seconds then (seconds - p) * 1000 else 0
                       | None => 0
                       end)
             | None => mret 0
             end
         | SPEED_RATE d => mret d
         | SPEED_MAX => mret 0
         end);
      start ← x_now;
      x ← mget;
      pace_loop (S (length (x_clock x))) (start + delay)
  end.

(** The [for] over [self.messages\[seq - 1:\]] in [_handle_itch]; the result says
    whether the stream was sent to its end. *)
Fixpoint replay (messages : list bytes) (sent : nat) : MX bool :=
  match messages with
  | [] => mret true
  | message :: messages' =>
      x ← mget;
      if x_stopping x then mret false
      else if match x_drop_after x with Some d => negb (x_dropped x) && (d <=? sent)%nat | None => false end then
        mmod x_set_dropped ;; mret false
      else
        ok ← _pace message;
        if (ok : bool) then
          send_packet (SequencedData message) ;;
          now ← x_now;
          mmod (fun x => x_set_pace now (x_prev_t x) (x_clock x) x) ;;
          replay messages' (S sent)
        else mret false
  end.

Definition _handle_itch (reads : list bytes) : MX () :=
  login ← mlift (_read_login reads);
  match login with
  | Some (LoginRequest user pass requested requested_sequence) =>
      mmod (fun x => x_set_logins (x_itch_logins x ++ [LoginRequest user pass requested requested_sequence])
                       (x_glimpse_logins x) x) ;;
      ok ← _validate_credentials user pass;
      if (ok : bool) then
        x ← mget;
        if decide (requested <> "" /\ requested <> x_session_id x) then
          send_packet (LoginRejected REJECT_SESSION_UNAVAILABLE)
        else
          let seq := if requested_sequence =? 0 then zlen (x_messages x) + 1 else requested_sequence in
          let seq := Z.max seq 1 in
          send_packet (LoginAccepted (x_session_id x) seq) ;;
          now ← x_now;
          mmod (fun x => x_set_pace now None (x_clock x) x) ;;
          finished ← replay (drop (Z.to_nat (seq - 1)) (x_messages x)) 0;
          if (finished : bool) then send_packet EndOfSession else mret ()
      else mret ()
  | _ => mret ()
  end.

(** * The GLIMPSE server *)

(** [codec.encode(...)] of the snapshot's messages, in order. *)
Definition snapshot_time (k : Market) : list message :=
  if seconds k =? 0 then [] else [TimestampSeconds (seconds k)].

(** [sorted(market.refdata.tick_tables)] *)
Definition table_ids (r : RefData) : list Z := merge_sort Z.le (map_to_list (tick_tables r)).*1.

Definition snapshot_ticks (r : RefData) : res (list message) :=
  ls ← rmap (fun id => t ← of_option KeyError (tick_tables r !! id);
               Ok (map (fun row : Z * Z => PriceTickSize 0 id row.2 row.1) (rows t))) (table_ids r);
  Ok (concat ls).

(** A directory entry with a missing field cannot be encoded. *)
Definition snapshot_instrument (i : Instrument) : res (list message) :=
  let group := default "" (i_group i) in
  dir ← (if i_directory_missing i then Ok []
         else
           isin ← of_option AttributeError (i_isin i);
           lot ← of_option StructError (i_round_lot i);
           tid ← of_option StructError (i_tick_table_id i);
           dec ← of_option StructError (i_price_decimals i);
           up ← of_option StructError (i_upper_limit i);
           lo ← of_option StructError (i_lower_limit i);
           Ok [OrderbookDirectory 0 (i_orderbook_id i) isin group lot tid dec up lo]);
  Ok (dir ++ [TradingState 0 (i_orderbook_id i) group (i_trading_state i);
              ShortSellRestriction 0 (i_orderbook_id i) group (i_short_sell_state i)]
          ++ match i_reference_price i with
             | Some p => [OrderAdded 0 0 "B" 0 (i_orderbook_id i) group p]
             | None => []
             end).

Definition snapshot_order (o : Order) : message :=
  OrderAdded 0 (o_order_number o) (o_side o) (o_remaining_qty o) (o_orderbook_id o) (o_group o) (o_price o).

Definition snapshot_messages (k : Market) : res (list message) :=
  ticks ← snapshot_ticks (refdata k);
  insts ← rmap snapshot_instrument (dvalues (instruments (refdata k)));
  Ok (snapshot_time k ++ ticks ++ concat insts ++ map snapshot_order (dvalues (orders (mbooks k)))).

(** [for raw in self.messages\[:cut\]: market.apply(codec.decode(raw))] *)
Definition apply_raw (raw : list bytes) : M Market () :=
  mfor raw (fun r => m ← mlift (Itch.decode r); market_apply (OMsg m) ;; mret ()).

Definition build_snapshot (x : ExchangeSimulator) : res (list bytes * Z) :=
  let cut := Nat.min (x_glimpse_cut x) (length (x_messages x)) in
  match apply_raw (take cut (x_messages x)) (market_init DEFAULT_MAX_ENTRIES) with
  | (_, Raise e) => Raise e
  | (k, Ok _) =>
      ms ← snapshot_messages k;
      out ← rmap encode_msg ms;
      Ok (out, Z.of_nat cut + 1)
  end.

(** The [for] over the snapshot; the result says whether it was sent to its end. *)
Fixpoint send_snapshot (snapshot : list bytes) : MX bool :=
  match snapshot with
  | [] => mret true
  | message :: snapshot' =>
      x ← mget;
      if x_stopping x then mret false
      else send_packet (SequencedData message) ;; send_snapshot snapshot'
  end.

Definition _handle_glimpse (reads : list bytes) : MX () :=
  login ← mlift (_read_login reads);
  match login with
  | Some (LoginRequest user pass requested requested_sequence) =>
      mmod (fun x => x_set_logins (x_itch_logins x)
                       (x_glimpse_logins x ++ [LoginRequest user pass requested requested_sequence]) x) ;;
      ok ← _validate_credentials user pass;
      if (ok : bool) then
        if decide (requested <> "") then send_packet (LoginRejected REJECT_SESSION_UNAVAILABLE)
        else
          x ← mget;
          send_packet (LoginAccepted (x_session_id x) 1) ;;
          snap ← mlift (build_snapshot x);
          let '(snapshot, next_seq) := snap in
          finished ← send_snapshot snapshot;
          if (finished : bool) then
            g ← mlift (encode_msg (EndOfSnapshot next_seq));
            send_packet (SequencedData g)
          else mret ()
      else mret ()
  | _ => mret ()
  end.

(** * Lemmas: what the ITCH server sends *)

(** A simulator at full speed that is not stopping. *)
Definition plain (x : ExchangeSimulator) : Prop := x_speed x = SPEED_MAX /\ x_stopping x = false.

(** The messages a connection that starts at the front of [ms] gets before the
    scripted disconnect. *)
Definition served (x : ExchangeSimulator) (ms : list bytes) : list bytes :=
  match x_drop_after x with
  | Some d => if x_dropped x then ms else take d ms
  | None => ms
  end.

Definition cut_off (x : ExchangeSimulator) (ms : list bytes) : bool :=
  match x_drop_after x with
  | Some d => negb (x_dropped x) && (d <? length ms)%nat
  | None => false
  end.

(** The parts of the simulator a connection does not change. *)
Definition same_sim (x x' : ExchangeSimulator) : Prop :=
  x_messages x' = x_messages x /\ x_username x' = x_username x /\ x_password x' = x_password x /\
  x_session_id x' = x_session_id x /\ x_speed x' = x_speed x /\ x_drop_after x' = x_drop_after x /\
  x_stopping x' = x_stopping x /\ x_glimpse_cut x' = x_glimpse_cut x.

#[export] Instance same_sim_preorder : PreOrder same_sim.
Proof.
  split; [by intros x|]. intros x1 x2 x3 (?&?&?&?&?&?&?&?) (?&?&?&?&?&?&?&?). unfold same_sim.
  by split_and!; etransitivity.
Qed.

Lemma send_packet_ok p l x : encode_packet p = Ok l -> send_packet p x = (x_sendall l x, Ok ()).
Proof. intros H. unfold send_packet. munfold. by rewrite H. Qed.

Lemma x_now_same x : exists x' t, x_now x = (x', Ok t) /\ same_sim x x' /\ x_dropped x' = x_dropped x /\
  x_out x' = x_out x.
Proof. unfold x_now. destruct (x_clock x) as [|t [|u l]]; by eexists _, _. Qed.

(** What a packet is on the wire. *)
Definition wire_of (p : packet) : bytes := match encode_packet p with Ok l => l | Raise _ => [] end.

Lemma wire_of_ok p : packet_ok p = true -> encode_packet p = Ok (wire_of p).
Proof. intros H. destruct (encode_packet_ok p H) as (b & E & _). unfold wire_of. by rewrite E. Qed.

Lemma served_cut x ms :
  let n := match x_drop_after x with
           | Some d => if x_dropped x then length ms else (d - 0)%nat | None => length ms end in
  served x ms = take n ms /\ cut_off x ms = (n <? length ms)%nat.
Proof.
  unfold served, cut_off. destruct (x_drop_after x) as [d|]; [destruct (x_dropped x)|];
    rewrite ?Nat.sub_0_r, ?Nat.ltb_irrefl, ?firstn_all; done.
Qed.

Lemma replay_ok ms sent x : plain x -> Forall (fun m => zlen m < 65535) ms ->
  (match x_drop_after x with Some d => x_dropped x = false -> (sent <= d)%nat | None => True end) ->
  exists x' fin, replay ms sent x = (x', Ok fin) /\ same_sim x x' /\
    let n := match x_drop_after x with
             | Some d => if x_dropped x then length ms else (d - sent)%nat | None => length ms end in
    x_out x' = x_out x ++ map wire_of (map SequencedData (take n ms)) /\
    fin = negb (n <? length ms)%nat /\ x_dropped x' = (x_dropped x || (n <? length ms)%nat).
Proof.
  intros Hp Hms. revert sent x Hp. induction Hms as [|m ms Hm Hms IH]; intros sent x [Hs Hst] Hd.
  - exists x, true. cbn [replay]. split; [done|]. split; [done|]. rewrite take_nil. cbn.
    by rewrite app_nil_r, orb_false_r.
  - cbn [replay]. munfold. rewrite Hst.
    destruct (match x_drop_after x with Some d => _ | None => _ end) eqn:Ed.
    + exists (x_set_dropped x), false. split; [done|]. split; [done|].
      destruct (x_drop_after x) as [d|]; [|done]. apply andb_true_iff in Ed as [Ed1 Ed2].
      apply negb_true_iff in Ed1. rewrite Ed1 in *. apply Nat.leb_le in Ed2. specialize (Hd eq_refl).
      replace (d - sent)%nat with 0%nat by lia. cbn. by rewrite app_nil_r.
    + unfold _pace. munfold. rewrite Hs.
      rewrite (send_packet_ok _ (wire_of (SequencedData m))) by (apply wire_of_ok; cbn; lia).
      destruct (x_now_same (x_sendall (wire_of (SequencedData m)) x)) as (x1 & t & -> & Hx1 & Hd1 & Ho1).
      set (x2 := x_set_pace _ _ _ x1).
      assert (same_sim x x2) as H2 by (transitivity x1; [by transitivity (x_sendall (wire_of (SequencedData m)) x)|done]).
      assert (x_dropped x2 = x_dropped x) as Hd2 by (unfold x2; cbn; by rewrite Hd1).
      assert (x_drop_after x2 = x_drop_after x) as Ha2 by apply H2.
      destruct (IH (S sent) x2) as (x3 & fin & E3 & H3 & Ho3 & Hf3 & Hdr3).
      { destruct H2 as (_&_&_&_&E5&_&E7&_). unfold plain. by rewrite E5, E7. }
      { rewrite Ha2, Hd2. destruct (x_drop_after x) as [d|]; [|done]. intros Hf. rewrite Hf in Ed. cbn in Ed.
        apply Nat.leb_gt in Ed. lia. }
      exists x3, fin. rewrite E3. split; [done|]. split; [by transitivity x2|].
      rewrite Ho3, Hf3, Hdr3, Ha2, Hd2. unfold x2. cbn [x_out x_set_pace]. rewrite Ho1. cbn [x_out x_sendall].
      rewrite <- app_assoc. cbn [length].
      destruct (x_drop_after x) as [d|]; [destruct (x_dropped x)|]; try by cbn.
      cbn in Ed. apply Nat.leb_gt in Ed. replace (d - sent)%nat with (S (d - S sent)) by lia. cbn. done.
Qed.

Lemma read_login_ok user pass req seq : packet_ok (LoginRequest user pass req seq) = true ->
  _read_login [wire_of (LoginRequest user pass req seq)] = Ok (Some (LoginRequest user pass req seq)).
Proof.
  intros Hp. unfold _read_login. cbn [read_login].
  assert (feed (concat [wire_of (LoginRequest user pass req seq)]) [] = ([], Ok [LoginRequest user pass req seq])) as Hf.
  { apply feed_stream; cbn [forallb rmap]; [by rewrite Hp|]. by rewrite (wire_of_ok _ Hp). }
  cbn [concat] in Hf. rewrite app_nil_r in Hf. rewrite Hf.
  destruct (encode_packet_ok _ Hp) as (b & E & Hl & _).
  rewrite decide_False; [done|]. unfold wire_of. rewrite E. unfold framed. intros H%(f_equal length).
  rewrite length_app, be_bytes_length in H. cbn in H. lia.
Qed.

(** A simulator whose texts and messages fit the wire. *)
Record sim_ok (x : ExchangeSimulator) : Prop := {
  so_plain : plain x;
  so_out : x_out x = [];
  so_messages : Forall (fun m => zlen m < 65535) (x_messages x);
  so_len : zlen (x_messages x) + 1 < 10 ^ 20;
  so_session : text_ok is_ws 10 (x_session_id x) = true }.

(** The ITCH server's answer to a login with good credentials. *)
Definition itch_answer (x : ExchangeSimulator) (requested_sequence : Z) : list packet :=
  let seq := Z.max (if requested_sequence =? 0 then zlen (x_messages x) + 1 else requested_sequence) 1 in
  let rest := drop (Z.to_nat (seq - 1)) (x_messages x) in
  LoginAccepted (x_session_id x) seq :: map SequencedData (served x rest)
  ++ (if cut_off x rest then [] else [EndOfSession]).

Lemma handle_itch_ok x req seq :
  sim_ok x -> (req = "" \/ req = x_session_id x) -> 0 <= seq < 10 ^ 20 ->
  packet_ok (LoginRequest (x_username x) (x_password x) req seq) = true ->
  exists x', _handle_itch [wire_of (LoginRequest (x_username x) (x_password x) req seq)] x = (x', Ok ()) /\
    same_sim x x' /\ x_out x' = map wire_of (itch_answer x seq) /\
    x_dropped x' = (x_dropped x || cut_off x (drop (Z.to_nat (Z.max (if seq =? 0 then zlen (x_messages x) + 1
                                                       else seq) 1 - 1)) (x_messages x))).
Proof.
  intros [[Hsp Hst] Hout Hms Hlen Hsid] Hreq Hseq Hp.
  unfold _handle_itch. munfold. rewrite (read_login_ok _ _ _ _ Hp).
  unfold _validate_credentials. munfold. cbn [x_username x_password x_set_logins].
  rewrite decide_False by naive_solver. rewrite decide_False by (cbn; naive_solver).
  set (sq := Z.max _ 1). cbn [x_messages x_set_logins x_session_id] in sq |- *.
  assert (1 <= sq < 10 ^ 20) as Hsq by (unfold sq; destruct (seq =? 0); lia).
  rewrite (send_packet_ok _ (wire_of (LoginAccepted (x_session_id x) sq))).
  2: { apply wire_of_ok. cbn [packet_ok]. rewrite Hsid. cbn. lia. }
  match goal with |- context [x_now ?w] => destruct (x_now_same w) as (x1 & t & -> & Hx1 & Hd1 & Ho1) end.
  set (x2 := x_set_pace _ _ _ x1).
  assert (same_sim x x2 /\ x_dropped x2 = x_dropped x /\ x_out x2 = [wire_of (LoginAccepted (x_session_id x) sq)])
    as (H2 & Hd2 & Ho2).
  { split_and!; [|unfold x2; cbn; by rewrite Hd1|unfold x2; cbn; by rewrite Ho1; cbn; rewrite Hout].
    transitivity x1; [|done]. etransitivity; [|exact Hx1]. done. }
  set (rest := drop (Z.to_nat (sq - 1)) (x_messages x)).
  pose proof H2 as (_ & _ & _ & _ & E5 & E6 & E7 & _).
  destruct (replay_ok rest 0 x2) as (x3 & fin & E3 & H3 & Ho3 & Hf3 & Hdr3).
  { split; congruence. }
  { by apply Forall_drop. }
  { destruct (x_drop_after x2); [lia|done]. }
  rewrite E3, E6, Hd2 in *. cbv zeta in Ho3, Hf3, Hdr3.
  destruct (served_cut x rest) as [Hsv Hct]. rewrite <- Hsv in Ho3. rewrite <- Hct in Hf3, Hdr3.
  assert (same_sim x x3) as H13 by by transitivity x2.
  unfold itch_answer. fold sq rest. destruct (cut_off x rest); cbn [negb] in Hf3; subst fin.
  - exists x3. split; [done|]. split; [done|]. rewrite Ho3, Ho2, app_nil_r. split; [done|done].
  - rewrite (send_packet_ok _ (wire_of EndOfSession)) by done. eexists. split; [reflexivity|]. split; [done|].
    cbn [x_out x_sendall]. rewrite Ho3, Ho2. cbn [map]. rewrite !map_app. split; [done|exact Hdr3].
Qed.

(** * Lemmas: what the GLIMPSE server sends *)

Lemma send_snapshot_ok ms x : x_stopping x = false -> Forall (fun m => zlen m < 65535) ms ->
  exists x', send_snapshot ms x = (x', Ok true) /\ same_sim x x' /\
    x_out x' = x_out x ++ map wire_of (map SequencedData ms).
Proof.
  intros Hst Hms. revert x Hst. induction Hms as [|m ms Hm _ IH]; intros x Hst; cbn [send_snapshot].
  - exists x. cbn. by rewrite app_nil_r.
  - munfold. rewrite Hst, (send_packet_ok _ (wire_of (SequencedData m))) by (apply wire_of_ok; cbn; lia).
    destruct (IH (x_sendall (wire_of (SequencedData m)) x) Hst) as (x' & E & Hs & Ho).
    exists x'. rewrite E. split; [done|]. split; [etransitivity; [|exact Hs]; done|].
    rewrite Ho. cbn. by rewrite <- app_assoc.
Qed.

(** The answer to a good login: the snapshot and its end mark, numbered from 1. *)
Definition glimpse_answer (x : ExchangeSimulator) (snap : list bytes) (g : bytes) : list packet :=
  LoginAccepted (x_session_id x) 1 :: map SequencedData (snap ++ [g]).

Lemma build_snapshot_same x x' : same_sim x x' -> build_snapshot x' = build_snapshot x.
Proof. intros (E1 & _ & _ & _ & _ & _ & _ & E2). unfold build_snapshot. by rewrite E1, E2. Qed.

Lemma handle_glimpse_ok x seq snap n g :
  x_stopping x = false -> x_out x = [] -> text_ok is_ws 10 (x_session_id x) = true ->
  packet_ok (LoginRequest (x_username x) (x_password x) "" seq) = true ->
  build_snapshot x = Ok (snap, n) -> encode_msg (EndOfSnapshot n) = Ok g ->
  Forall (fun m => zlen m < 65535) (snap ++ [g]) ->
  exists x', _handle_glimpse [wire_of (LoginRequest (x_username x) (x_password x) "" seq)] x = (x', Ok ()) /\
    same_sim x x' /\ x_out x' = map wire_of (glimpse_answer x snap g).
Proof.
  intros Hst Hout Hsid Hp Hb Hg Hms. apply Forall_app in Hms as [Hsnap Hgl]. apply Forall_cons in Hgl as [Hgl _].
  unfold _handle_glimpse. munfold. rewrite (read_login_ok _ _ _ _ Hp).
  unfold _validate_credentials. munfold. cbn [x_username x_password x_set_logins].
  rewrite decide_False by naive_solver. rewrite decide_False by naive_solver. cbn [x_session_id x_set_logins].
  rewrite (send_packet_ok _ (wire_of (LoginAccepted (x_session_id x) 1))).
  2: { apply wire_of_ok. cbn [packet_ok]. by rewrite Hsid. }
  match goal with |- context [build_snapshot ?w] => rewrite (build_snapshot_same x w) by done end.
  rewrite Hb.
  match goal with |- context [send_snapshot snap ?w] => destruct (send_snapshot_ok snap w) as (x1 & E1 & H1 & Ho1);
    [done|done|]; rewrite E1 end.
  rewrite Hg, (send_packet_ok _ (wire_of (SequencedData g))) by (apply wire_of_ok; cbn; lia).
  eexists. split; [reflexivity|]. split; [etransitivity; [|exact H1]; done|].
  unfold glimpse_answer. cbn [x_out x_sendall map] in *. rewrite Ho1, !map_app. cbn. by rewrite Hout.
Qed.
