(* ===== verification/SimThreads.v ===== *)
(** jnxfeed/sim/exchange.py, the threads: the two accept loops, a thread per connection
    and [stop], interleaved step by step.

    A step is what runs without another thread in between that matters: a call of the
    socket, a section under [_lock], a test of [_stopping].  The handlers are Exchange's;
    here a handler runs until it returns or raises, whatever it does.  Connections are
    numbered in the order they are accepted; a closed socket stays closed. *)
From S2P Require Export Exchange.

#[global] Set Default Goal Selector "!".

(** [_linger]: the results of [recv], until an empty one or an exception. *)
Fixpoint _linger (recvs : list (res bytes)) : res () :=
  match recvs with
  | [] | Ok [] :: _ => Ok ()
  | Ok _ :: recvs => _linger recvs
  | Raise e :: _ => if is_OSError e then Ok () else Raise e
  end.

Inductive server : Type := ItchServer | GlimpseServer.
#[export] Instance server_dec : EqDecision server.
Proof. solve_decision. Defined.

(** Where an accept loop is: at the test of [_stopping], in [accept], with a connection to
    append to [_conns], with one to start a thread for, with a thread to append to
    [_threads], returned. *)
Inductive accept_pc : Type := ALoop | AWaiting | AAccepted (c : nat) | AAppended (c : nat) | AStarted (c : nat) | AEnded.

(** Where a connection's thread is: in the handler, at [conn.close()], at the removal from
    [_conns], returned. *)
Inductive conn_pc : Type := CHandler | CClosing | CRemoving | CEnded.

#[export] Instance conn_pc_dec : EqDecision conn_pc.
Proof. solve_decision. Defined.

(** Where [stop] is: not called, the flag set, the listeners closed, closing its copy of
    [_conns], joining the threads, returned. *)
Inductive stop_pc : Type :=
| SNot | SFlagged | SItchClosed | SListenersClosed | SClosing (copied todo : list nat) | SJoining (copied : list nat) (i : nat) | SReturned (copied : list nat).

Inductive thread : Type := AcceptThread (sv : server) | ConnThread (c : nat).

Record sim_threads : Type := mkThreads {
  t_stopping : bool; t_listening : server -> bool; t_accept : server -> accept_pc; t_handlers : gmap nat conn_pc;
  t_open : gset nat; t_conns : list nat; t_threads : list thread; t_next : nat; t_stop : stop_pc }.

(** After [start]. *)
Definition sim_started : sim_threads :=
  mkThreads false (fun _ => true) (fun _ => ALoop) ∅ ∅ [] [AcceptThread ItchServer; AcceptThread GlimpseServer] 0 SNot.

(** [list.remove] of the first occurrence, when there is one. *)
Fixpoint remove_first (c : nat) (l : list nat) : list nat :=
  match l with
  | [] => []
  | d :: l => if decide (d = c) then l else d :: remove_first c l
  end.

Definition fn_set {A} (f : server -> A) (sv : server) (a : A) : server -> A := fun sv' => if decide (sv' = sv) then a else f sv'.
Definition set_accept (sv : server) (pc : accept_pc) (s : sim_threads) : sim_threads :=
  mkThreads (t_stopping s) (t_listening s) (fn_set (t_accept s) sv pc) (t_handlers s) (t_open s) (t_conns s) (t_threads s) (t_next s) (t_stop s).
Definition set_handler (c : nat) (pc : conn_pc) (s : sim_threads) : sim_threads :=
  mkThreads (t_stopping s) (t_listening s) (t_accept s) (<[c := pc]> (t_handlers s)) (t_open s) (t_conns s) (t_threads s) (t_next s) (t_stop s).
Definition open_conn (s : sim_threads) : sim_threads :=
  mkThreads (t_stopping s) (t_listening s) (t_accept s) (t_handlers s) ({[t_next s]} ∪ t_open s) (t_conns s) (t_threads s) (S (t_next s)) (t_stop s).
Definition close_conn (c : nat) (s : sim_threads) : sim_threads :=
  mkThreads (t_stopping s) (t_listening s) (t_accept s) (t_handlers s) (t_open s ∖ {[c]}) (t_conns s) (t_threads s) (t_next s) (t_stop s).
Definition set_conns (l : list nat) (s : sim_threads) : sim_threads :=
  mkThreads (t_stopping s) (t_listening s) (t_accept s) (t_handlers s) (t_open s) l (t_threads s) (t_next s) (t_stop s).
Definition add_thread (t : thread) (s : sim_threads) : sim_threads :=
  mkThreads (t_stopping s) (t_listening s) (t_accept s) (t_handlers s) (t_open s) (t_conns s) (t_threads s ++ [t]) (t_next s) (t_stop s).
Definition set_stopping (s : sim_threads) : sim_threads :=
  mkThreads true (t_listening s) (t_accept s) (t_handlers s) (t_open s) (t_conns s) (t_threads s) (t_next s) (t_stop s).
Definition close_listener (sv : server) (s : sim_threads) : sim_threads :=
  mkThreads (t_stopping s) (fn_set (t_listening s) sv false) (t_accept s) (t_handlers s) (t_open s) (t_conns s) (t_threads s) (t_next s) (t_stop s).
Definition set_stop (pc : stop_pc) (s : sim_threads) : sim_threads :=
  mkThreads (t_stopping s) (t_listening s) (t_accept s) (t_handlers s) (t_open s) (t_conns s) (t_threads s) (t_next s) pc.

(** What [accept] does in one turn of the loop. *)
Inductive accepted : Type := Connected | TimedOut | Failed.

(** The next step of an accept loop; [a] is used in [accept] alone, and a closed listener
    accepts nothing. *)
Definition accept_step (sv : server) (a : accepted) (s : sim_threads) : option sim_threads :=
  match t_accept s sv with
  | ALoop => Some (set_accept sv (if t_stopping s then AEnded else AWaiting) s)
  | AWaiting =>
      match a with
      | Connected => if t_listening s sv then Some (set_accept sv (AAccepted (t_next s)) (open_conn s)) else None
      | TimedOut => Some (set_accept sv ALoop s)
      | Failed => Some (set_accept sv AEnded s)
      end
  | AAccepted c => Some (set_accept sv (AAppended c) (set_conns (t_conns s ++ [c]) s))
  | AAppended c => Some (set_accept sv (AStarted c) (set_handler c CHandler s))
  | AStarted c => Some (set_accept sv ALoop (add_thread (ConnThread c) s))
  | AEnded => None
  end.

(** [_run_conn]. *)
Definition conn_step (c : nat) (s : sim_threads) : option sim_threads :=
  match t_handlers s !! c with
  | Some CHandler => Some (set_handler c CClosing s)
  | Some CClosing => Some (set_handler c CRemoving (close_conn c s))
  | Some CRemoving => Some (set_handler c CEnded (set_conns (remove_first c (t_conns s)) s))
  | _ => None
  end.

(** [stop]; a join ends with its thread or after its timeout. *)
Definition stop_step (s : sim_threads) : option sim_threads :=
  match t_stop s with
  | SNot => Some (set_stop SFlagged (set_stopping s))
  | SFlagged => Some (set_stop SItchClosed (close_listener ItchServer s))
  | SItchClosed => Some (set_stop SListenersClosed (close_listener GlimpseServer s))
  | SListenersClosed => Some (set_stop (SClosing (t_conns s) (t_conns s)) s)
  | SClosing copied (c :: todo) => Some (set_stop (SClosing copied todo) (close_conn c s))
  | SClosing copied [] => Some (set_stop (SJoining copied 0) s)
  | SJoining copied i => Some (set_stop (if (i <? length (t_threads s))%nat then SJoining copied (S i) else SReturned copied) s)
  | SReturned _ => None
  end.

Inductive action : Type := Accept (sv : server) (a : accepted) | Conn (c : nat) | Stop.
Definition do_action (a : action) (s : sim_threads) : option sim_threads :=
  match a with Accept sv a => accept_step sv a s | Conn c => conn_step c s | Stop => stop_step s end.

Inductive reaches (s : sim_threads) : sim_threads -> Prop :=
| reaches_refl : reaches s s
| reaches_step s1 s2 a : reaches s s1 -> do_action a s1 = Some s2 -> reaches s s2.

Fixpoint do_actions (l : list action) (s : sim_threads) : option sim_threads :=
  match l with [] => Some s | a :: l => s ← do_action a s; do_actions l s end.

(** Every thread has returned. *)
Definition quiet (s : sim_threads) : Prop := (forall sv, t_accept s sv = AEnded) /\ forall c pc, t_handlers s !! c = Some pc -> pc = CEnded.

(** * The invariant *)

(** The accept loop that holds a connection. *)
Definition holds (pc : accept_pc) (c : nat) : Prop := pc = AAccepted c \/ pc = AAppended c.

(** What [stop] has closed of the connections it copied. *)
Definition stop_closed (s : sim_threads) : Prop :=
  match t_stop s with
  | SClosing copied todo => forall c, c ∈ copied -> (c < t_next s)%nat /\ (c ∈ todo \/ c ∉ t_open s)
  | SJoining copied _ | SReturned copied => forall c, c ∈ copied -> (c < t_next s)%nat /\ c ∉ t_open s
  | _ => True
  end.

Record wf (s : sim_threads) : Prop := mkWf {
  wf_nodup : NoDup (t_conns s);
  wf_fresh c : c ∈ t_conns s -> (c < t_next s)%nat;
  wf_held sv c : holds (t_accept s sv) c -> (c < t_next s)%nat;
  wf_unique sv sv' c : holds (t_accept s sv) c -> holds (t_accept s sv') c -> sv = sv';
  wf_accepted sv c : t_accept s sv = AAccepted c -> c ∉ t_conns s;
  wf_conns c : c ∈ t_conns s -> (exists sv, t_accept s sv = AAppended c) \/ exists pc, t_handlers s !! c = Some pc /\ pc <> CEnded;
  wf_open c : c ∈ t_open s -> (exists sv, holds (t_accept s sv) c) \/ exists pc, t_handlers s !! c = Some pc /\ (pc = CHandler \/ pc = CClosing);
  wf_stop : stop_closed s }.

Lemma fn_set_eq {A} (f : server -> A) sv a : fn_set f sv a sv = a.
Proof. unfold fn_set. by rewrite decide_True. Qed.
Lemma fn_set_ne {A} (f : server -> A) sv a sv' : sv' <> sv -> fn_set f sv a sv' = f sv'.
Proof. intros H. unfold fn_set. by rewrite decide_False. Qed.

Lemma remove_first_spec c d l : NoDup l -> d ∈ remove_first c l <-> d ∈ l /\ d <> c.
Proof.
  induction 1 as [|x l Hx Hn IH]; cbn; [split; [by intros ?%elem_of_nil|by intros [?%elem_of_nil _]]|].
  case_decide as Hd; [subst; rewrite elem_of_cons; split; [intros H; split; [by right|by intros ->]|by intros [[->|H] Hne]]|].
  rewrite !elem_of_cons, IH. naive_solver.
Qed.
Lemma remove_first_nodup c l : NoDup l -> NoDup (remove_first c l).
Proof.
  induction 1 as [|x l Hx Hn IH]; cbn; [constructor|]. case_decide; [done|]. constructor; [|done]. rewrite remove_first_spec by done. tauto.
Qed.

Lemma wf_started : wf sim_started.
Proof.
  split; cbn; try done; try (by intros c ?%elem_of_nil); try (by intros ? ? [?|?]); try (by intros ? ? ? [?|?]); try constructor.
Qed.

(** Closing a connection keeps the invariant but for what [stop] says of it. *)
Lemma wf_close c s : wf s -> wf (set_stop (t_stop s) (close_conn c s)).
Proof.
  intros []. split; cbn; try done.
  - intros d Hd. apply wf_open0. set_solver.
  - unfold stop_closed in *. cbn. destruct (t_stop s); try done; set_solver.
Qed.

(** An accept loop that moves on without a connection in hand. *)
Lemma wf_accept_free sv pc s : wf s -> (forall c, ~ holds pc c) -> (forall c, ~ holds (t_accept s sv) c) -> wf (set_accept sv pc s).
Proof.
  intros [] Hpc Hold.
  assert (forall sv' c, holds (fn_set (t_accept s) sv pc sv') c -> holds (t_accept s sv') c) as Hh.
  { intros sv' c. destruct (decide (sv' = sv)) as [->|Hne]; [rewrite fn_set_eq; by intros ?%Hpc|by rewrite fn_set_ne]. }
  assert (forall sv' c, holds (t_accept s sv') c -> fn_set (t_accept s) sv pc sv' = t_accept s sv') as Hk.
  { intros sv' c H. apply fn_set_ne. intros ->. by apply Hold in H. }
  split; cbn; try done; eauto.
  - intros sv' c E. apply (wf_accepted0 sv'). destruct (decide (sv' = sv)) as [->|Hne]; [|by rewrite fn_set_ne in E].
    rewrite fn_set_eq in E. destruct (Hpc c). by left.
  - intros c Hc. destruct (wf_conns0 c Hc) as [(sv' & E)|H]; [left|by right]. exists sv'. rewrite (Hk sv' c); [done|by right].
  - intros c Hc. destruct (wf_open0 c Hc) as [(sv' & E)|H]; [left|by right]. exists sv'. by rewrite (Hk sv' c).
Qed.

Lemma not_holds pc : match pc with AAccepted _ | AAppended _ => False | _ => True end -> forall c, ~ holds pc c.
Proof. by intros H c [->| ->]. Qed.

Lemma wf_connected sv s : wf s -> t_accept s sv = AWaiting -> wf (set_accept sv (AAccepted (t_next s)) (open_conn s)).
Proof.
  intros [] Hpc.
  assert (forall sv' c, holds (fn_set (t_accept s) sv (AAccepted (t_next s)) sv') c ->
            (sv' = sv /\ c = t_next s) \/ (sv' <> sv /\ holds (t_accept s sv') c)) as Hh.
  { intros sv' c. destruct (decide (sv' = sv)) as [->|Hne]; [|rewrite fn_set_ne by done; auto]. rewrite fn_set_eq. intros [[= ->]|?]; [auto|done]. }
  assert (forall sv' c, holds (t_accept s sv') c -> fn_set (t_accept s) sv (AAccepted (t_next s)) sv' = t_accept s sv') as Hk.
  { intros sv' c H. apply fn_set_ne. intros ->. by apply (not_holds AWaiting) with c; [|rewrite <- Hpc]. }
  split; cbn; try done.
  - intros c Hc. apply wf_fresh0 in Hc. lia.
  - intros sv' c [[_ ->]|[_ H]]%Hh; [lia|]. apply wf_held0 in H. lia.
  - intros sv1 sv2 c [[-> ->]|[_ H1]]%Hh [[-> E2]|[_ H2]]%Hh; [done|apply wf_held0 in H2; lia|subst; apply wf_held0 in H1; lia|by eapply wf_unique0].
  - intros sv' c E Hc. destruct (Hh sv' c (or_introl E)) as [[_ ->]|[Hne _]]; [apply wf_fresh0 in Hc; lia|].
    rewrite fn_set_ne in E by done. by apply (wf_accepted0 sv' c).
  - intros c Hc. destruct (wf_conns0 c Hc) as [(sv' & E)|H]; [left|by right]. exists sv'. by rewrite (Hk sv' c); [|right].
  - intros c [->%elem_of_singleton|Hc]%elem_of_union; [left; exists sv; rewrite fn_set_eq; by left|].
    destruct (wf_open0 c Hc) as [(sv' & E)|H]; [left|by right]. exists sv'. by rewrite (Hk sv' c).
  - unfold stop_closed in *. cbn. destruct (t_stop s) as [| | | |copied todo|copied i|copied]; try done; intros c Hc; destruct (wf_stop0 c Hc) as [Hlt Ho]; (split; [lia|]).
    + destruct Ho as [|Ho]; [by left|right]. rewrite not_elem_of_union, not_elem_of_singleton. split; [lia|done].
    + rewrite not_elem_of_union, not_elem_of_singleton. split; [lia|done].
    + rewrite not_elem_of_union, not_elem_of_singleton. split; [lia|done].
Qed.

Lemma wf_append sv c s : wf s -> t_accept s sv = AAccepted c -> wf (set_accept sv (AAppended c) (set_conns (t_conns s ++ [c]) s)).
Proof.
  intros [] Hpc.
  assert (forall sv' d, holds (fn_set (t_accept s) sv (AAppended c) sv') d -> holds (t_accept s sv') d) as Hh.
  { intros sv' d. destruct (decide (sv' = sv)) as [->|Hne]; [rewrite fn_set_eq|by rewrite fn_set_ne]. intros [?|[= ->]]; [done|by left]. }
  split; cbn; try done.
  - apply NoDup_app. split; [done|]. split; [|apply NoDup_singleton]. intros d Hd ->%list_elem_of_singleton. by apply (wf_accepted0 sv c).
  - intros d [Hd| ->%list_elem_of_singleton]%elem_of_app; [by apply wf_fresh0|]. apply (wf_held0 sv). by left.
  - intros sv' d H. by apply (wf_held0 sv'), Hh.
  - intros sv1 sv2 d H1 H2. by apply (wf_unique0 sv1 sv2 d); apply Hh.
  - intros sv' d E. destruct (decide (sv' = sv)) as [->|Hne]; [by rewrite fn_set_eq in E|]. rewrite fn_set_ne in E by done.
    rewrite elem_of_app, list_elem_of_singleton. intros [Hd| ->]; [by apply (wf_accepted0 sv' d)|]. apply Hne, (wf_unique0 _ _ c); by left.
  - intros d [Hd| ->%list_elem_of_singleton]%elem_of_app; [|left; exists sv; by rewrite fn_set_eq].
    destruct (wf_conns0 d Hd) as [(sv' & E)|H]; [left|by right]. exists sv'. rewrite fn_set_ne; [done|]. intros ->. congruence.
  - intros d Hd. destruct (wf_open0 d Hd) as [(sv' & H)|H]; [left; exists sv'|by right]. destruct (decide (sv' = sv)) as [->|Hne]; [|by rewrite fn_set_ne].
    rewrite fn_set_eq. right. rewrite Hpc in H. by destruct H as [[= ->]|].
Qed.

Lemma wf_start sv c s : wf s -> t_accept s sv = AAppended c -> wf (set_accept sv (AStarted c) (set_handler c CHandler s)).
Proof.
  intros [] Hpc.
  assert (forall sv' d, holds (fn_set (t_accept s) sv (AStarted c) sv') d -> sv' <> sv /\ holds (t_accept s sv') d) as Hh.
  { intros sv' d. destruct (decide (sv' = sv)) as [->|Hne]; [rewrite fn_set_eq; by intros [?|?]|by rewrite fn_set_ne]. }
  assert (forall sv' d, holds (t_accept s sv') d -> d <> c -> fn_set (t_accept s) sv (AStarted c) sv' = t_accept s sv') as Hk.
  { intros sv' d H Hne. apply fn_set_ne. intros ->. rewrite Hpc in H. by destruct H as [|[= ->]]. }
  split; cbn; try done.
  - intros sv' d [_ H]%Hh. by apply (wf_held0 sv').
  - intros sv1 sv2 d [_ H1]%Hh [_ H2]%Hh. by apply (wf_unique0 sv1 sv2 d).
  - intros sv' d E. destruct (Hh sv' d (or_introl E)) as [Hne _]. rewrite fn_set_ne in E by done. by apply (wf_accepted0 sv').
  - intros d Hd. destruct (decide (d = c)) as [->|Hne]; [right; exists CHandler; by rewrite lookup_insert_eq|]. rewrite lookup_insert_ne by done.
    destruct (wf_conns0 d Hd) as [(sv' & E)|H]; [left|by right]. exists sv'. by rewrite (Hk sv' d); [|right|].
  - intros d Hd. destruct (decide (d = c)) as [->|Hne]; [right; exists CHandler; rewrite lookup_insert_eq; auto|]. rewrite lookup_insert_ne by done.
    destruct (wf_open0 d Hd) as [(sv' & E)|H]; [left|by right]. exists sv'. by rewrite (Hk sv' d).
Qed.

Lemma wf_accept sv a s s' : wf s -> accept_step sv a s = Some s' -> wf s'.
Proof.
  intros Hw. unfold accept_step. destruct (t_accept s sv) as [| |c|c|c|] eqn:Hpc; [| | | | |done].
  - intros [= <-]. apply wf_accept_free; [done| |rewrite Hpc; by apply not_holds]. destruct (t_stopping s); by apply not_holds.
  - destruct a; [destruct (t_listening s sv); [|done]; intros [= <-]; by apply wf_connected|intros [= <-]..];
      (apply wf_accept_free; [done|by apply not_holds|rewrite Hpc; by apply not_holds]).
  - intros [= <-]. by apply wf_append.
  - intros [= <-]. by apply wf_start.
  - intros [= <-]. apply (wf_accept_free sv ALoop (add_thread (ConnThread c) s)); [|by apply not_holds|cbn; rewrite Hpc; by apply not_holds].
    by destruct Hw.
Qed.

Lemma wf_conn c s s' : wf s -> conn_step c s = Some s' -> wf s'.
Proof.
  intros Hw. unfold conn_step. destruct (t_handlers s !! c) as [[]|] eqn:Hc; [| | |done|done]; intros [= <-].
  - destruct Hw. split; cbn; try done; intros d Hd; destruct (decide (d = c)) as [->|Hne]; rewrite ?lookup_insert_eq, ?lookup_insert_ne by done; eauto.
  - apply (wf_close c) in Hw. destruct Hw. split; cbn in *; try done; intros d Hd;
      (destruct (decide (d = c)) as [->|Hne]; [rewrite lookup_insert_eq; eauto|rewrite lookup_insert_ne by done; eauto]). set_solver.
  - destruct Hw. split; cbn; try done.
    + by apply remove_first_nodup.
    + intros d [Hd _]%remove_first_spec; auto.
    + intros sv d E [Hd _]%remove_first_spec; [|done]. by apply (wf_accepted0 sv d).
    + intros d [Hd Hne]%remove_first_spec; [|done]. rewrite lookup_insert_ne by done. auto.
    + intros d Hd. destruct (decide (d = c)) as [->|Hne]; [|rewrite lookup_insert_ne by done; auto].
      destruct (wf_open0 c Hd) as [H|(pc & E & [->| ->])]; [by left|congruence..].
Qed.

Lemma wf_stop_step s s' : wf s -> stop_step s = Some s' -> wf s'.
Proof.
  intros Hw. unfold stop_step. destruct (t_stop s) as [| | | |copied [|c todo]|copied i|copied] eqn:Es; [..|done]; intros [= <-].
  - by destruct Hw.
  - by destruct Hw.
  - by destruct Hw.
  - destruct Hw. split; cbn; try done. unfold stop_closed. cbn. auto.
  - destruct Hw. split; cbn; try done. unfold stop_closed in *. rewrite Es in wf_stop0. cbn. intros d Hd.
    destruct (wf_stop0 d Hd) as [H1 [H2|H2]]; [by apply elem_of_nil in H2|done].
  - apply (wf_close c) in Hw. destruct Hw. split; cbn in *; try done. unfold stop_closed in *. rewrite Es in wf_stop0. cbn in *. intros d Hd.
    destruct (wf_stop0 d Hd) as [H1 [H2|H2]]; (split; [done|]); [|by right]. apply elem_of_cons in H2 as [->|H2]; [right; set_solver|by left].
  - destruct Hw, (i <? length (t_threads s))%nat; split; cbn; try done; unfold stop_closed in *; rewrite Es in wf_stop0; exact wf_stop0.
Qed.

Lemma wf_reaches s : reaches sim_started s -> wf s.
Proof.
  induction 1 as [|s1 s2 [sv a|c|] _ IH E]; [apply wf_started|by eapply wf_accept|by eapply wf_conn|by eapply wf_stop_step].
Qed.

(** * Accepting after [stop] *)

Definition waiting (s : sim_threads) (sv : server) : nat := match t_accept s sv with AWaiting => 1 | _ => 0 end.

(** The connections that server [sv] accepts in a run. *)
Definition takes (sv : server) (a : action) (s : sim_threads) : nat :=
  match a with Accept sv' Connected => if decide (sv' = sv) then waiting s sv else 0 | _ => 0 end.
Fixpoint accepts (sv : server) (l : list action) (s : sim_threads) : nat :=
  match l with
  | [] => 0
  | a :: l => takes sv a s + match do_action a s with Some s' => accepts sv l s' | None => 0 end
  end.

(** Once the flag is set it stays, and each accept loop takes at most the connection it
    is waiting for. *)
Lemma stopping_step a s s' : t_stopping s = true -> do_action a s = Some s' ->
  t_stopping s' = true /\ t_next s' = (t_next s + takes ItchServer a s + takes GlimpseServer a s)%nat /\
  forall sv, (takes sv a s + waiting s' sv <= waiting s sv)%nat.
Proof.
  intros Hs E. destruct a as [sv a|c|]; cbn [do_action] in E.
  - unfold accept_step in E. unfold takes, waiting.
    destruct (t_accept s sv) as [| |c|c|c|] eqn:Hpc; [rewrite Hs in E|destruct a; [destruct (t_listening s sv); [|done]|..]|..|done];
      injection E as <-; (split; [done|]); (split; [|intros sv']);
      cbn; unfold fn_set; destruct sv; try destruct sv'; try destruct a; repeat case_decide; simplify_eq; rewrite ?Hpc; try done; lia.
  - unfold conn_step in E. destruct (t_handlers s !! c) as [[]|]; try done; injection E as <-; (split; [done|]); (split; [cbn; lia|done]).
  - unfold stop_step in E. destruct (t_stop s) as [| | | |copied [|c todo]|copied i|copied]; try done; injection E as <-; (split; [done|]);
      (split; [cbn; lia|done]).
Qed.

Lemma waiting_one s sv : (waiting s sv <= 1)%nat.
Proof. unfold waiting. destruct (t_accept s sv); lia. Qed.

Lemma stopping_run l s s' : t_stopping s = true -> do_actions l s = Some s' ->
  t_stopping s' = true /\ t_next s' = (t_next s + accepts ItchServer l s + accepts GlimpseServer l s)%nat /\
  forall sv, (accepts sv l s + waiting s' sv <= waiting s sv)%nat.
Proof.
  revert s. induction l as [|a l IH]; intros s Hs; cbn [do_actions accepts].
  { intros [= <-]. split; [done|]. split; [lia|]. intros sv. lia. }
  intros E. destruct (do_action a s) as [s1|] eqn:Ea; [|done]. destruct (stopping_step a s s1 Hs Ea) as (Hs1 & Hn1 & Hw1).
  destruct (IH s1 Hs1 E) as (Hs2 & Hn2 & Hw2). split; [done|]. split; [lia|]. intros sv. specialize (Hw1 sv). specialize (Hw2 sv). lia.
Qed.

(** * Properties *)

(** C33. Whatever the order in which the accept loops, the connections' threads and [stop]
    run: when all have returned no connection is open and [_conns] is empty; the
    connections [stop] copied are closed when it returns; in any run from a state with
    [_stopping] set, it stays set and each server accepts at most one more connection,
    and no other connection is made. *)
Theorem threads_sound s : reaches sim_started s ->
  (quiet s -> t_open s = ∅ /\ t_conns s = []) /\
  (forall copied c, t_stop s = SReturned copied -> c ∈ copied -> c ∉ t_open s) /\
  (forall l s', t_stopping s = true -> do_actions l s = Some s' ->
     t_stopping s' = true /\ t_next s' = (t_next s + accepts ItchServer l s + accepts GlimpseServer l s)%nat /\
     forall sv, (accepts sv l s <= 1)%nat).
Proof.
  intros Hr. pose proof (wf_reaches s Hr) as Hw. split; [|split].
  - intros [Ha Hc].
    assert (forall sv c, ~ holds (t_accept s sv) c) as Hh by (intros sv; rewrite Ha; by apply not_holds).
    split.
    + apply set_eq. intros c. split; [|by intros ?%elem_of_empty]. intros Ho.
      destruct (wf_open s Hw c Ho) as [(sv & H)|(pc & E & Hpc)]; [by apply Hh in H|]. apply Hc in E as ->. by destruct Hpc.
    + destruct (t_conns s) as [|c l] eqn:E; [done|]. destruct (wf_conns s Hw c) as [(sv & H)|(pc & Ec & Hpc)].
      * rewrite E. left.
      * destruct (Hh sv c). by right.
      * by apply Hc in Ec as ->.
  - intros copied c Es Hc. pose proof (wf_stop s Hw) as H. unfold stop_closed in H. rewrite Es in H. by apply H.
  - intros l s' Hs Hs'. destruct (stopping_run l s s' Hs Hs') as (H1 & H2 & H3). split; [done|]. split; [done|].
    intros sv. specialize (H3 sv). pose proof (waiting_one s sv). lia.
Qed.

Lemma do_actions_reaches l s0 s s' : reaches s0 s -> do_actions l s = Some s' -> reaches s0 s'.
Proof.
  revert s. induction l as [|a l IH]; intros s Hr; cbn [do_actions]; [by intros [= <-]|]. intros E.
  destruct (do_action a s) as [s1|] eqn:Ea; [|done]. apply (IH s1); [by eapply reaches_step|exact E].
Qed.

(** A connection accepted before [stop] and appended after it has copied [_conns] is
    still open when [stop] returns; its thread closes it in the end. *)
Definition late_append : list action :=
  [Accept ItchServer Connected; Accept ItchServer Connected; Stop; Stop; Stop; Stop; Stop;
   Accept ItchServer Connected; Accept ItchServer Connected; Accept ItchServer Connected; Accept ItchServer Connected; Stop; Stop; Stop; Stop].
Definition late_end : list action :=
  [Conn 0; Conn 0; Conn 0; Accept GlimpseServer Connected].

Lemma threads_sound_witness : exists s s',
  reaches sim_started s /\ t_stop s = SReturned [] /\ t_open s = {[0%nat]} /\
  do_actions late_end s = Some s' /\ (t_open s' = ∅ /\ t_conns s' = []).
Proof.
  destruct (do_actions late_append sim_started) as [s|] eqn:E; [|by vm_compute in E].
  assert (reaches sim_started s) as Hr by (apply (do_actions_reaches late_append _ sim_started); [constructor|exact E]).
  assert (t_stop s = SReturned [] /\ t_open s = {[0%nat]}) as [E1 E2].
  { assert (Some s = do_actions late_append sim_started) as E' by (by rewrite E). vm_compute in E'. injection E' as ->. split; reflexivity. }
  destruct (do_actions late_end s) as [s'|] eqn:El.
  2: { assert (Some s = do_actions late_append sim_started) as E' by (by rewrite E). vm_compute in E'. injection E' as ->. by vm_compute in El. }
  assert (reaches sim_started s') as Hr' by (by apply (do_actions_reaches late_end _ s)).
  exists s, s'. split; [exact Hr|]. split; [exact E1|]. split; [exact E2|]. split; [exact El|].
  apply (threads_sound s' Hr'). split.
  - assert (Some s' = (s ← do_actions late_append sim_started; do_actions late_end s)) as E' by (by rewrite E). vm_compute in E'. injection E' as ->. by intros [].
  - assert (Some s' = (s ← do_actions late_append sim_started; do_actions late_end s)) as E' by (by rewrite E). vm_compute in E'. injection E' as ->.
    apply (bool_decide_unpack (map_Forall (fun _ pc => pc = CEnded) _)). vm_compute. exact I.
Defined.
