(* ===== verification/Delivery.v ===== *)
(** The client session against the exchange simulator, over any number of
    connections: exactly-once delivery.

    One connection is: [reset] and [start] of the session, the server's
    [_handle_itch] on the bytes of the login, and any reads whose bytes are a
    prefix of what the server sent (the connection may drop in the middle of a
    packet). *)
From S2P Require Export Exchange.
From stdpp Require Import relations.
#[local] Open Scope Z_scope.

Definition new_conn (x : ExchangeSimulator) : ExchangeSimulator :=
  mkSim (x_messages x) (x_username x) (x_password x) (x_session_id x) (x_speed x) (x_drop_after x)
    (x_heartbeat_interval x) (x_glimpse_cut x) (x_itch_logins x) (x_glimpse_logins x) (x_dropped x) (x_stopping x)
    (x_last_send x) (x_prev_t x) (x_clock x) [].

Definition world : Type := (ExchangeSimulator * recorder)%type.

Inductive connection (complete : bool) : world -> world -> Prop :=
| Connection x s evs now s1 out s2 x' reads s3 evs' :
    start now None None (reset s) = (s1, Ok ()) ->
    pending_output s1 = (s2, Ok out) ->
    _handle_itch [out] (new_conn x) = (x', Ok ()) ->
    (if complete then concat (map fst reads) = concat (x_out x')
     else concat (map fst reads) `prefix_of` concat (x_out x')) ->
    on_reads reads (s2, evs) = ((s3, evs'), Ok ()) ->
    connection complete (x, (s, evs)) (x', (s3, evs')).

(** The messages the callbacks have reported, with their sequence numbers. *)
Definition delivered (evs : list event) : list (Z * bytes) :=
  omap (fun e => match e with EvMessage n m => Some (n, m) | _ => None end) evs.

Definition numbered_from (n : Z) (ms : list bytes) : list (Z * bytes) :=
  imap (fun i m => (n + Z.of_nat i, m)) ms.

Lemma delivered_app l1 l2 : delivered (l1 ++ l2) = delivered l1 ++ delivered l2.
Proof. apply omap_app. Qed.

Lemma delivered_login sid n l :
  delivered (option_list (Some (EvLoginAccepted sid n)) ++ l) = delivered l.
Proof. done. Qed.

Lemma delivered_numbered n ms : delivered (numbered n ms) = numbered_from n ms.
Proof.
  unfold numbered, numbered_from, delivered. generalize Z.of_nat as f. intros f. revert f.
  induction ms as [|m ms IH]; intros f; cbn; [done|]. f_equal. apply (IH (f ∘ S)).
Qed.

Lemma numbered_from_app n l1 l2 :
  numbered_from n (l1 ++ l2) = numbered_from n l1 ++ numbered_from (n + zlen l1) l2.
Proof.
  unfold numbered_from. rewrite imap_app. f_equal. apply imap_ext. intros. cbn. f_equal. unfold zlen. lia.
Qed.

Lemma take_length_take {A} n (l : list A) : take (length (take n l)) l = take n l.
Proof.
  rewrite length_take. destruct (decide (n <= length l)%nat); [by rewrite Nat.min_l|].
  rewrite Nat.min_r, !take_ge by lia. done.
Qed.

(** A prefix of the server's answer. *)
Lemma answer_prefix ps1 ps2 ms (tl : list packet) : (length tl <= 1)%nat ->
  ps1 ++ ps2 = map SequencedData ms ++ tl ->
  (exists j, (j <= length ms)%nat /\ ps1 = map SequencedData (take j ms)) \/ (ps1 = map SequencedData ms ++ tl).
Proof.
  intros Htl E. destruct (decide (length ps1 <= length ms)%nat) as [Hle|Hgt].
  - left. exists (length ps1). split; [done|].
    apply (f_equal (take (length ps1))) in E. rewrite take_app_length in E.
    rewrite take_app_le in E by (rewrite length_map; lia). rewrite E at 1. by rewrite firstn_map.
  - right. pose proof (f_equal length E) as El. rewrite !length_app, length_map in El.
    assert (ps2 = []) as -> by (destruct ps2; [done|cbn in El; lia]). by rewrite app_nil_r in E.
Qed.

Section delivery.
  Context (x0 : ExchangeSimulator) (c : nat).   (* [c] messages are not asked for *)
  Hypothesis Hplain : plain x0.
  Hypothesis Hmsgs : Forall (fun m => zlen m < 65535) (x_messages x0).
  Hypothesis Hlen : zlen (x_messages x0) + 1 < 10 ^ 20.
  Hypothesis Hsid : text_ok is_ws 10 (x_session_id x0) = true.
  Hypothesis Hcred : packet_ok (LoginRequest (x_username x0) (x_password x0) "" 1) = true.

Let ms := x_messages x0.

(** After [k] messages. *)
Record progress (k : nat) (w : world) : Prop := {
  pr_sim : same_sim x0 w.1;
  pr_dropped : (x_dropped x0 = true -> x_dropped w.1 = true);
  pr_user : username w.2.1 = x_username x0 /\ password w.2.1 = x_password x0;
  pr_k : (c <= k <= length ms)%nat;
  pr_seq : next_seq w.2.1 = 1 + Z.of_nat k;
  pr_sid : session_id w.2.1 = "" \/ session_id w.2.1 = x_session_id x0;
  pr_delivered : delivered w.2.2 = numbered_from (1 + Z.of_nat c) (drop c (take k ms)) }.

Lemma login_ok sid seq : sid = "" \/ sid = x_session_id x0 -> 0 <= seq < 10 ^ 20 ->
  packet_ok (LoginRequest (x_username x0) (x_password x0) sid seq) = true.
Proof.
  intros Hs Hq. cbn [packet_ok] in *. rewrite !andb_true_iff in Hcred |- *.
  destruct Hcred as [[[[[[H1 H2] H3] H4] _] _] _]. split_and!; try done; [|lia|lia].
  by destruct Hs as [->| ->].
Qed.

(** The session's own login texts never change. *)
Lemma on_reads_user reads s evs s' evs' : on_reads reads (s, evs) = ((s', evs'), Ok ()) ->
  username s' = username s /\ password s' = password s.
Proof.
  assert (forall p s evs, username (fst (fst (_handle_packet p (s, evs)))) = username s /\
    password (fst (fst (_handle_packet p (s, evs)))) = password s) as Hp by (intros p ? ?; by destruct p).
  assert (forall ps s evs, username (fst (fst (mfor ps _handle_packet (s, evs)))) = username s /\
    password (fst (fst (mfor ps _handle_packet (s, evs)))) = password s) as Hps.
  { induction ps as [|p ps IH]; intros s1 evs1; [done|]. cbn [mfor]. munfold.
    specialize (Hp p s1 evs1). destruct (_handle_packet p (s1, evs1)) as [[s2 evs2] [[]|e]]; [|done].
    cbn in Hp. destruct Hp as [<- <-]. apply IH. }
  revert s evs. induction reads as [|[d t] reads IH]; intros s evs; unfold on_reads; cbn [mfor fst snd]; munfold.
  { by intros [= -> _]. }
  unfold on_bytes at 1, on_sess, session_feed, zoom. munfold. cbn -[feed].
  destruct (feed d (_frames s)) as [b [ps|e]]; cbn; [|done].
  match goal with |- context [mfor ps _handle_packet ?w] => destruct w as [s1 evs1] eqn:Ew end.
  injection Ew as <- <-. specialize (Hps ps).
  match goal with |- context [mfor ps _handle_packet (?s1, ?e1)] => specialize (Hps s1 e1);
    destruct (mfor ps _handle_packet (s1, e1)) as [[s2 evs2] [[]|e]] end; [|done].
  cbn in Hps. destruct Hps as [<- <-]. apply IH.
Qed.

(** What the client makes of a prefix of the server's answer. *)
Lemma handle_answer_prefix k s ps1 ps2 x :
  next_seq s = 1 + Z.of_nat k -> (k <= length ms)%nat -> x_messages x = ms -> x_session_id x = x_session_id x0 ->
  session_id s = "" \/ session_id s = x_session_id x0 ->
  ps1 ++ ps2 = itch_answer x (next_seq s) ->
  exists j, (k + j <= length ms)%nat /\
    delivered (packet_events (next_seq s) ps1) = numbered_from (1 + Z.of_nat k) (take j (drop k ms)) /\
    foldl packet_seq (next_seq s) ps1 = 1 + Z.of_nat (k + j) /\
    (foldl packet_sid (session_id s) ps1 = "" \/ foldl packet_sid (session_id s) ps1 = x_session_id x0) /\
    (ps2 = [] -> cut_off x (drop k ms) = false ->
       (k + j)%nat = length ms /\ foldl packet_state (sstate s) ps1 = STATE_ENDED).
Proof.
  intros Hseq Hk Hm Hx Hsess E.
  unfold itch_answer in E. rewrite Hm, Hx in E.
  assert (Z.max (if next_seq s =? 0 then zlen ms + 1 else next_seq s) 1 = 1 + Z.of_nat k) as Hsq.
  { rewrite Hseq. destruct (Z.eqb_spec (1 + Z.of_nat k) 0); lia. }
  rewrite Hsq in E. replace (Z.to_nat (1 + Z.of_nat k - 1)) with k in E by lia.
  destruct ps1 as [|p ps1].
  { exists 0%nat. cbn [app] in E. subst ps2. cbn. rewrite Nat.add_0_r, Hseq.
    split_and!; [done|done|done|done|discriminate]. }
  cbn [app] in E. injection E as -> E.
  assert (exists n, served x (drop k ms) = take n (drop k ms) /\
    (cut_off x (drop k ms) = false -> served x (drop k ms) = drop k ms)) as (n & Hsv & Hfull).
  { unfold served, cut_off. destruct (x_drop_after x) as [d|]; [destruct (x_dropped x)|].
    - exists (length (drop k ms)). by rewrite firstn_all.
    - exists d. split; [done|]. cbn. intros Hc%Nat.ltb_ge. by apply take_ge.
    - exists (length (drop k ms)). by rewrite firstn_all. }
  cbn [packet_events packet_event packet_seq option_list app foldl packet_sid packet_state].
  apply answer_prefix in E as Ep; [|by destruct (cut_off x _); cbn; lia].
  destruct Ep as [(j & Hj & ->)|Eall].
  - rewrite packet_events_data. exists (length (take j (served x (drop k ms)))).
    assert (take (length (take j (served x (drop k ms)))) (drop k ms) = take j (served x (drop k ms))) as Etk.
    { rewrite Hsv, take_take. apply take_length_take. }
    assert (length (take j (served x (drop k ms))) <= length ms - k)%nat as Hlen1.
    { rewrite Hsv, take_take, length_take, length_drop. lia. }
    split_and!; [lia| | | |].
    + rewrite delivered_login. by rewrite delivered_numbered, Etk.
    + rewrite packet_seq_data. unfold zlen. lia.
    + right. clear. induction (take j _); [done|]. done.
    + intros -> Hc. exfalso. rewrite Hc in E. rewrite app_nil_r in E.
      apply (f_equal length) in E. rewrite length_app, !length_map, length_take in E. cbn in E. lia.
  - exists (length (served x (drop k ms))). subst ps1.
    assert (take (length (served x (drop k ms))) (drop k ms) = served x (drop k ms)) as Etk.
    { rewrite Hsv. apply take_length_take. }
    assert (length (served x (drop k ms)) <= length ms - k)%nat as Hlen1.
    { rewrite Hsv, length_take, length_drop. lia. }
    rewrite packet_events_app, packet_events_data, !foldl_app, packet_seq_data.
    split_and!; [lia| | | |].
    + rewrite delivered_login, delivered_app, delivered_numbered, Etk. destruct (cut_off x (drop k ms)); cbn; by rewrite app_nil_r.
    + destruct (cut_off x (drop k ms)); cbn; unfold zlen; lia.
    + right. assert (forall l, foldl packet_sid (x_session_id x0) (map SequencedData l) = x_session_id x0) as -> by
        (induction l; done). by destruct (cut_off x (drop k ms)).
    + intros _ Hc. rewrite Hc. cbn. rewrite (Hfull Hc), length_drop. split; [lia|done].
Qed.

(** Every packet of the answer fits the wire. *)
Lemma answer_fits x seq : same_sim x0 x -> 0 <= seq < 10 ^ 20 ->
  forallb packet_ok (itch_answer x seq) = true.
Proof.
  intros (Em & _ & _ & Es & _) Hq. unfold itch_answer. cbn [forallb]. rewrite forallb_app.
  apply andb_true_iff. split; [|apply andb_true_iff; split].
  - cbn [packet_ok]. rewrite Es, Hsid, Em. cbn. destruct (seq =? 0); lia.
  - apply forallb_forall. intros p Hp%list_elem_of_In. apply list_elem_of_fmap in Hp as (m & -> & Hm).
    cbn. apply Z.ltb_lt. revert m Hm. rewrite <- Forall_forall. rewrite Em. unfold served.
    destruct (x_drop_after x); [destruct (x_dropped x)|]; try apply Forall_take; by apply Forall_drop.
  - by destruct (cut_off x _).
Qed.

Lemma wires ps : forallb packet_ok ps = true -> rmap encode_packet ps = Ok (map wire_of ps).
Proof.
  induction ps as [|p ps IH]; cbn; [done|]. intros [Hp Hps]%andb_true_iff.
  rewrite (wire_of_ok p Hp), (IH Hps). done.
Qed.

(** The reads of a prefix of the stream, as packets. *)
Lemma reads_prefix ps (reads : list (bytes * Z)) rest : forallb packet_ok ps = true ->
  concat (map fst reads) ++ rest = concat (map wire_of ps) ->
  exists buf ps1 ps2, feed_all (map fst reads) [] = (buf, Ok ps1) /\ ps = ps1 ++ ps2 /\ (rest = [] -> ps2 = []).
Proof.
  intros Hp E. pose proof (feed_stream ps _ Hp (wires ps Hp)) as Hf.
  rewrite <- E in Hf. destruct rest as [|b rest].
  - rewrite app_nil_r in Hf. exists [], ps, []. split; [by apply feed_all_concat|]. by rewrite app_nil_r.
  - apply feed_app_ok in Hf as (buf & ps1 & ps2 & E1 & _ & ->). exists buf, ps1, ps2.
    split; [by apply feed_all_concat|]. done.
Qed.

(** One connection. *)
Lemma connection_progress complete k w w' : progress k w -> connection complete w w' ->
  exists j, progress (k + j) w' /\
    (complete = true -> cut_off w.1 (drop k ms) = false -> (k + j)%nat = length ms /\ sstate w'.2.1 = STATE_ENDED).
Proof.
  intros [Hsim Hdr [Hu Hpw] Hk Hq Hsi Hdel] Hc.
  destruct Hc as [x s evs now s1 out s2 x' reads s3 evs' Hst Hout Hsrv Hpre Hrd]. cbn [fst snd] in *.
  assert (0 <= next_seq s < 10 ^ 20) as Hqr by (unfold ms, zlen in *; lia).
  pose proof (login_ok _ _ Hsi Hqr) as Hlog. rewrite <- Hu, <- Hpw in Hlog.
  destruct (start_ok now (reset s) eq_refl Hlog) as (body & E1 & Eb & _).
  rewrite E1 in Hst. injection Hst as <-. injection Hout as <- <-. cbn [_out reset app] in Hsrv.
  cbn [username password session_id next_seq reset] in Eb.
  pose proof Hsim as (Em & Eu & Ep & Es & Esp & Eda & Est & _).
  assert (framed body = wire_of (LoginRequest (x_username (new_conn x)) (x_password (new_conn x)) (session_id s) (next_seq s)))
    as Hb.
  { cbn. rewrite Eu, Ep, <- Hu, <- Hpw. unfold wire_of. by rewrite Eb. }
  rewrite Hb in Hsrv.
  destruct (handle_itch_ok (new_conn x) (session_id s) (next_seq s)) as (x1 & E2 & Hs1 & Ho1 & Hd1).
  { destruct Hplain. split; [split; cbn; congruence|done| | |]; cbn; by rewrite ?Em, ?Es. }
  { cbn. rewrite Es. destruct Hsi; auto. }
  { done. }
  { cbn. by rewrite Eu, Ep, <- Hu, <- Hpw. }
  rewrite E2 in Hsrv. injection Hsrv as ->.
  assert (exists rest, concat (map fst reads) ++ rest = concat (map wire_of (itch_answer (new_conn x) (next_seq s))) /\
    (complete = true -> rest = [])) as (rest & Erest & Hcmp).
  { rewrite <- Ho1. destruct complete.
    - exists []. rewrite app_nil_r. done.
    - destruct Hpre as [rest ->]. by exists rest. }
  destruct (reads_prefix _ _ _ (answer_fits (new_conn x) (next_seq s) Hsim Hqr) Erest) as (buf & ps1 & ps2 & Hfeed & Eps & Hnil).
  match type of Hrd with on_reads _ (?sess, _) = _ => set (s5 := sess) in Hrd end.
  destruct (handle_answer_prefix k s5 ps1 ps2 (new_conn x)) as (j & Hj & Hev & Hnx & Hsd & Hfin); [done|lia|done..|].
  destruct (on_reads_rec reads s5 evs buf ps1 Hfeed) as (s4 & E4 & _ & Hn4 & Hi4 & Hst4).
  pose proof E4 as [Hu4 Hp4]%on_reads_user.
  rewrite E4 in Hrd. injection Hrd as -> <-.
  exists j. split.
  - split; cbn [fst snd].
    + etransitivity; [exact Hsim|]. exact Hs1.
    + intros Hd. rewrite Hd1. cbn. by rewrite Hdr.
    + by rewrite Hu4, Hp4.
    + lia.
    + by rewrite Hn4.
    + by rewrite Hi4.
    + rewrite delivered_app, Hdel. etransitivity; [exact (f_equal (app _) Hev)|]. rewrite <- take_take_drop.
      rewrite drop_app_le by (rewrite length_take; lia). rewrite numbered_from_app. f_equal. f_equal.
      unfold zlen. rewrite length_drop, length_take. lia.
  - intros -> Hcut. rewrite Hst4. apply Hfin; [by apply Hnil, Hcmp|done].
Qed.
End delivery.

(** Any number of connections that may each drop at any byte. *)
Lemma connections_progress x0 c k w w' :
  plain x0 -> Forall (fun m => zlen m < 65535) (x_messages x0) -> zlen (x_messages x0) + 1 < 10 ^ 20 ->
  text_ok is_ws 10 (x_session_id x0) = true ->
  packet_ok (LoginRequest (x_username x0) (x_password x0) "" 1) = true ->
  progress x0 c k w -> rtc (connection false) w w' -> exists j, progress x0 c (k + j) w'.
Proof.
  intros H1 H2 H3 H4 H5 Hp Hr. revert k Hp. induction Hr as [w|w w1 w2 Hc _ IH]; intros k Hp.
  - exists 0%nat. by rewrite Nat.add_0_r.
  - destruct (connection_progress x0 c H1 H2 H3 H4 H5 _ _ _ _ Hp Hc) as (j & Hj & _).
    destruct (IH _ Hj) as (j' & Hj'). exists (j + j')%nat. by rewrite Nat.add_assoc.
Qed.

(** From a fresh session that starts after [c] messages. *)
Lemma deliveries x0 c w :
  plain x0 -> Forall (fun m => zlen m < 65535) (x_messages x0) -> zlen (x_messages x0) + 1 < 10 ^ 20 ->
  text_ok is_ws 10 (x_session_id x0) = true -> (c <= length (x_messages x0))%nat ->
  packet_ok (LoginRequest (x_username x0) (x_password x0) "" 1) = true ->
  rtc (connection false) (x0, (session_init (x_username x0) (x_password x0) "" (1 + Z.of_nat c), [])) w ->
  exists k, progress x0 c k w /\
    forall w', connection true w w' -> x_drop_after x0 = None \/ x_dropped w.1 = true ->
      delivered w'.2.2 = numbered_from (1 + Z.of_nat c) (drop c (x_messages x0)) /\ sstate w'.2.1 = STATE_ENDED.
Proof.
  intros H1 H2 H3 H4 Hc0 H5 Hr.
  assert (progress x0 c c (x0, (session_init (x_username x0) (x_password x0) "" (1 + Z.of_nat c), []))) as H0.
  { split; cbn; try done; try lia; try by left. rewrite drop_ge by (rewrite length_take; lia). done. }
  destruct (connections_progress _ _ _ _ _ H1 H2 H3 H4 H5 H0 Hr) as (j0 & Hk). set (k := (c + j0)%nat) in *.
  exists k. split; [done|]. intros w' Hc Hd.
  destruct (connection_progress x0 c H1 H2 H3 H4 H5 _ _ _ _ Hk Hc) as (j & Hj & Hfin).
  destruct Hfin as [Ej Hst]; [done| |].
  - unfold cut_off. destruct (pr_sim _ _ _ _ Hk) as (_&_&_&_&_&Ed&_). rewrite Ed.
    destruct Hd as [->| ->]; [done|]. by destruct (x_drop_after x0).
  - split; [|done]. rewrite (pr_delivered _ _ _ _ Hj), Ej. by rewrite firstn_all.
Qed.

(** * Property *)

(** C2. A client whose session starts after the first [c] messages, against a server at
    full speed: after any number of connections, each dropped at any byte of the
    server's answer, the messages reported so far are the ones from there on, each
    once, in order, under its own sequence number, and the resume point is the next
    one; after one more connection that runs to its end, and that the server's
    scripted disconnect does not cut, every message from there on has been reported
    exactly once and the session has ended. *)
Theorem exactly_once x0 c user pass w :
  plain x0 -> Forall (fun m => zlen m < 65535) (x_messages x0) -> zlen (x_messages x0) + 1 < 10 ^ 20 ->
  text_ok is_ws 10 (x_session_id x0) = true -> (c <= length (x_messages x0))%nat ->
  user = x_username x0 -> pass = x_password x0 -> packet_ok (LoginRequest user pass "" 1) = true ->
  rtc (connection false) (x0, (session_init user pass "" (1 + Z.of_nat c), [])) w ->
  exists k, (c <= k <= length (x_messages x0))%nat /\
    delivered w.2.2 = numbered_from (1 + Z.of_nat c) (drop c (take k (x_messages x0))) /\
    next_seq w.2.1 = 1 + Z.of_nat k /\
    forall w', connection true w w' -> x_drop_after x0 = None \/ x_dropped w.1 = true ->
      delivered w'.2.2 = numbered_from (1 + Z.of_nat c) (drop c (x_messages x0)) /\ sstate w'.2.1 = STATE_ENDED.
Proof.
  intros H1 H2 H3 H4 Hc0 -> -> H5 Hr. destruct (deliveries x0 c w H1 H2 H3 H4 Hc0 H5 Hr) as (k & Hk & Hfin).
  exists k. split; [apply Hk|]. split; [apply Hk|]. split; [apply Hk|exact Hfin].
Qed.

(** Two messages; the first connection drops in the middle of the first one. *)
Definition demo_sim : ExchangeSimulator :=
  sim_init [["A"%byte; "B"%byte]; ["C"%byte]] "U" "P" "SIM0000001" SPEED_MAX None 1000 CutNone.
Definition demo_start : world := (demo_sim, (session_init "U" "P" "" 1, [])).

(** The first [n] bytes of the server's answer to the client's next connection, and
    the world after reading them. *)
Definition demo_answer (n : nat) (w : world) : bytes :=
  let '(x, (s, evs)) := w in
  let s1 := fst (start 0 None None (reset s)) in
  take n (concat (x_out (fst (_handle_itch [_out s1] (new_conn x))))).

Definition demo_connect (n : nat) (w : world) : world :=
  let '(x, (s, evs)) := w in
  let s1 := fst (start 0 None None (reset s)) in
  (fst (_handle_itch [_out s1] (new_conn x)), fst (on_reads [(demo_answer n w, 0)] (ss_out [] s1, evs))).

Lemma demo_connection (complete : bool) n (w : world) :
  snd (start 0 None None (reset w.2.1)) = Ok () ->
  snd (_handle_itch [_out (fst (start 0 None None (reset w.2.1)))] (new_conn w.1)) = Ok () ->
  snd (on_reads [(demo_answer n w, 0)] (ss_out [] (fst (start 0 None None (reset w.2.1))), w.2.2)) = Ok () ->
  (if complete then demo_answer n w = concat (x_out (demo_connect n w).1)
   else demo_answer n w `prefix_of` concat (x_out (demo_connect n w).1)) ->
  connection complete w (demo_connect n w).
Proof.
  destruct w as [x [s evs]]. cbn [fst snd]. intros H1 H2 H3 H4. unfold demo_connect in *.
  destruct (start 0 None None (reset s)) as [s1 r1] eqn:E1. cbn [fst snd] in *. subst r1.
  destruct (_handle_itch [_out s1] (new_conn x)) as [x' r2] eqn:E2. cbn [fst snd] in *. subst r2.
  destruct (on_reads _ _) as [[s3 evs'] r3] eqn:E3. cbn [fst snd] in *. subst r3.
  eapply (Connection _ _ _ _ 0 _ _ _ _ [(demo_answer n (x, (s, evs)), 0)]);
    [exact E1|reflexivity|exact E2| |exact E3].
  cbn [map fst concat]. rewrite app_nil_r. exact H4.
Qed.

Definition demo_mid : world := Eval vm_compute in demo_connect 40 demo_start.

Lemma exactly_once_witness :
  let w := demo_mid in let w' := demo_connect 1000 w in
  exists k, delivered w.2.2 = numbered_from 1 (drop 0 (take k (x_messages demo_sim))) /\
    delivered w'.2.2 = numbered_from 1 (x_messages demo_sim).
Proof.
  intros w w'. destruct (exactly_once demo_sim 0 "U" "P" w) as (k & _ & Hk & _ & Hfin).
  - split; reflexivity.
  - repeat constructor; vm_compute; reflexivity.
  - vm_compute; reflexivity.
  - vm_compute; lia.
  - apply Nat.le_0_l.
  - reflexivity.
  - reflexivity.
  - vm_compute; reflexivity.
  - apply rtc_once, (demo_connection false 40 demo_start); [vm_compute; reflexivity..|].
    exists (drop 40 (demo_answer 1000 demo_start)). vm_compute. reflexivity.
  - exists k. split; [exact Hk|]. apply Hfin.
    + apply (demo_connection true); vm_compute; reflexivity.
    + left. reflexivity.
Defined.
