(* ===== verification/Bootstrap.v ===== *)
(** The snapshot bootstrap: a market filled from the exchange simulator's snapshot
    and the messages after the cut is the market of the whole day.

    [build_snapshot] (jnxfeed/sim/exchange.py) re-emits the state of a market as ITCH
    messages; a client applies them, the [G] with the next sequence number, and then
    the live messages from there.  This file has no definitions of the program: it
    proves that the two ways to the same market agree. *)
From S2P Require Export Exchange.

#[global] Set Default Goal Selector "!".

(** * Messages that fit the wire *)

Definition num (size : nat) (z : Z) : bool := (0 <=? z) && (z <? 256 ^ Z.of_nat size).
Definition alpha (size : nat) (s : str) : bool :=
  forallb is_ascii (s2l s) && (length (s2l s) <=? size)%nat && no_trail is_sp (s2l s).

Definition wire_fields (m : message) : list bool :=
  match m with
  | TimestampSeconds s => [num 4 s]
  | SystemEvent ns g e => [num 4 ns; alpha 4 g; alpha 1 e]
  | PriceTickSize ns id z s => [num 4 ns; num 4 id; num 4 z; num 4 s]
  | OrderbookDirectory ns oid isin g lot tid dec up lo =>
      [num 4 ns; alpha 4 oid; alpha 12 isin; alpha 4 g; num 4 lot; num 4 tid; num 4 dec; num 4 up; num 4 lo]
  | TradingState ns oid g st => [num 4 ns; alpha 4 oid; alpha 4 g; alpha 1 st]
  | ShortSellRestriction ns oid g st => [num 4 ns; alpha 4 oid; alpha 4 g; alpha 1 st]
  | OrderAdded ns n side q oid g p => [num 4 ns; num 8 n; alpha 1 side; num 4 q; alpha 4 oid; alpha 4 g; num 4 p]
  | OrderAddedWithAttributes ns n side q oid g p at_ ot =>
      [num 4 ns; num 8 n; alpha 1 side; num 4 q; alpha 4 oid; alpha 4 g; num 4 p; alpha 4 at_; alpha 1 ot]
  | OrderExecuted ns n q mn => [num 4 ns; num 8 n; num 4 q; num 8 mn]
  | OrderDeleted ns n => [num 4 ns; num 8 n]
  | OrderReplaced ns o n q p => [num 4 ns; num 8 o; num 8 n; num 4 q; num 4 p]
  | EndOfSnapshot n => [num 8 n]
  end.

Lemma msg_ok_fields m : msg_ok m = forallb id (wire_fields m).
Proof. destruct m; reflexivity. Qed.

Lemma msg_ok_iff m : msg_ok m = true <-> Forall (fun b => b = true) (wire_fields m).
Proof. rewrite msg_ok_fields, forallb_forall, Forall_forall. by setoid_rewrite list_elem_of_In. Qed.

(** * What of the state a feed determines, and that nothing else matters *)

Definition same_parts (a b : amarket) : Prop :=
  am_seconds a = am_seconds b /\ am_insts a = am_insts b /\ am_rows a = am_rows b /\ am_orders a = am_orders b.

Lemma am_step_same a b o : same_parts a b -> same_parts (am_step a o) (am_step b o) /\
  exists cs, am_calls (am_step a o) = am_calls a ++ cs /\ am_calls (am_step b o) = am_calls b ++ cs.
Proof.
  intros (E1 & E2 & E3 & E4). destruct o as [m|]; cbn [am_step].
  - split; [unfold same_parts; cbn; rewrite E1, E2, E3, E4; done|].
    exists (am_call m a). cbn [am_calls]. split; [done|]. f_equal.
    unfold am_call. by rewrite E1, E2, E4.
  - split; [done|]. exists []. by rewrite !app_nil_r.
Qed.

Lemma am_run_same objs a b : same_parts a b -> same_parts (foldl am_step a objs) (foldl am_step b objs) /\
  exists cs, am_calls (foldl am_step a objs) = am_calls a ++ cs /\ am_calls (foldl am_step b objs) = am_calls b ++ cs.
Proof.
  revert a b. induction objs as [|o objs IH]; intros a b H; cbn.
  - split; [done|]. exists []. by rewrite !app_nil_r.
  - destruct (am_step_same a b o H) as (H1 & c1 & Ea & Eb). destruct (IH _ _ H1) as (H2 & c2 & Ea2 & Eb2).
    split; [done|]. exists (c1 ++ c2). by rewrite Ea2, Ea, Eb2, Eb, !app_assoc.
Qed.

(** The four parts, message by message. *)
Definition seconds_apply (m : message) (s : Z) : Z := match m with TimestampSeconds s' => s' | _ => s end.
Definition run_seconds (ms : list message) (s : Z) : Z := foldl (fun s m => seconds_apply m s) s ms.
Definition run_insts (ms : list message) (d : list (str * Instrument)) : list (str * Instrument) :=
  foldl (fun d m => inst_apply m d) d ms.
Definition run_rows (ms : list message) (T : gmap Z (gmap Z Z)) : gmap Z (gmap Z Z) :=
  foldl (fun T m => tick_apply m T) T ms.
Definition run_orders (ms : list message) (os : list (Z * Order)) : list (Z * Order) :=
  foldl (fun os m => spec_orders m os) os ms.

Lemma am_run_parts ms a : let a' := foldl am_step a (map OMsg ms) in
  am_seconds a' = run_seconds ms (am_seconds a) /\ am_insts a' = run_insts ms (am_insts a) /\
  am_rows a' = run_rows ms (am_rows a) /\ am_orders a' = run_orders ms (am_orders a).
Proof.
  revert a. induction ms as [|m ms IH]; intros a; [done|]. cbn. destruct (IH (am_step a (OMsg m))) as (E1 & E2 & E3 & E4).
  cbn in *. rewrite E1, E2, E3, E4. split_and!; done.
Qed.

(** Messages that leave a part alone. *)
Lemma run_skip {A} (f : message -> A -> A) ms (x : A) :
  (forall m y, m ∈ ms -> f m y = y) -> foldl (fun y m => f m y) x ms = x.
Proof.
  intros H. induction ms as [|m ms IH]; cbn; [done|]. rewrite H by left. apply IH. intros; apply H. by right.
Qed.

Lemma foldl_concat {A} (f : message -> A -> A) ls (x : A) :
  foldl (fun y m => f m y) x (concat ls) = foldl (fun y l => foldl (fun y m => f m y) y l) x ls.
Proof. revert x. induction ls as [|l ls IH]; intros x; cbn; [done|]. by rewrite foldl_app. Qed.

(** * The snapshot's messages give back what they were made from *)

(** ** Orders *)

Lemma orders_replay os os0 : NoDup (dkeys (os0 ++ os)) -> (forall k o, (k, o) ∈ os -> k <> 0 /\ o_order_number o = k) ->
  run_orders (map snapshot_order (dvalues os)) os0 = os0 ++ os.
Proof.
  revert os0. induction os as [|[k o] os IH]; intros os0 Hnd Hok; [by rewrite app_nil_r|].
  destruct (Hok k o) as [Hk Hn]; [left|].
  cbn [dvalues list_fmap fmap map run_orders foldl snapshot_order snd spec_orders]. rewrite Hn, (proj2 (Z.eqb_neq _ _)) by done.
  assert (spec_put k (mkOrder k (o_orderbook_id o) (o_group o) (o_side o) (o_price o) (o_remaining_qty o)) os0
    = os0 ++ [(k, o)]) as ->.
  { unfold spec_put. rewrite dremove_None.
    - destruct o as [n oid g sd p q]. cbn in *. by subst n.
    - apply dget_None. rewrite dkeys_app in Hnd. apply NoDup_app in Hnd as (_ & Hnd & _). intros Hin.
      apply (Hnd k Hin). left. }
  change (run_orders (map snapshot_order (dvalues os)) (os0 ++ [(k, o)]) = os0 ++ (k, o) :: os). rewrite IH; [by rewrite <- app_assoc| |].
  - by rewrite <- app_assoc.
  - intros k' o' Hin. apply Hok. by right.
Qed.

(** ** Tick tables *)

Definition tick_msgs (id : Z) (l : list (Z * Z)) : list message :=
  map (fun row : Z * Z => PriceTickSize 0 id row.2 row.1) l.
Definition insert_rows (l : list (Z * Z)) (m : gmap Z Z) : gmap Z Z := foldl (fun m row => <[row.1 := row.2]> m) m l.

Lemma run_tick_msgs id l T : l <> [] -> run_rows (tick_msgs id l) T = <[id := insert_rows l (default ∅ (T !! id))]> T.
Proof.
  revert T. induction l as [|[s z] l IH]; intros T Hne; [done|].
  change (run_rows (tick_msgs id l) (<[id := <[s := z]> (default ∅ (T !! id))]> T)
    = <[id := insert_rows l (<[s := z]> (default ∅ (T !! id)))]> T).
  destruct l as [|r l]; [done|]. rewrite IH by done. by rewrite lookup_insert_eq, insert_insert_eq.
Qed.

Lemma insert_rows_lookup l m s z : NoDup l.*1 -> insert_rows l m !! s = Some z <->
  (s, z) ∈ l \/ s ∉ l.*1 /\ m !! s = Some z.
Proof.
  revert m. induction l as [|[s' z'] l IH]; intros m Hnd; cbn.
  - split; [intros H; right; split; [by intros ?%elem_of_nil|done]|]. intros [H|[_ H]]; [by apply elem_of_nil in H|done].
  - cbn in Hnd. apply NoDup_cons in Hnd as [Hn Hnd]. fold (insert_rows l (<[s' := z']> m)). rewrite IH by done.
    rewrite !elem_of_cons, lookup_insert. destruct (decide (s' = s)) as [->|Hne].
    + split.
      * intros [H|[H [= ->]]]; [by left; right|by left; left].
      * intros [[[= ->]|H]|[H _]]; [by right|by left|naive_solver].
    + split; [intros [H|[H1 H2]]; [by left; right|right; split; [naive_solver|done]]|].
      intros [[[= -> ->]|H]|[H1 H2]]; [done|by left|right; split; [naive_solver|done]].
Qed.

Lemma sorted_NoDup l : sorted l -> NoDup l.
Proof.
  intros Hs. apply NoDup_alt. intros i j x Hi Hj. by eapply sorted_lookup_inj.
Qed.

Lemma rows_fst t m : tick_rep t m -> (rows t).*1 = t_starts t.
Proof. intros [_ Hl _ _]. unfold rows. rewrite fst_zip; [done|lia]. Qed.

Lemma rows_insert t m : tick_rep t m -> insert_rows (rows t) ∅ = m.
Proof.
  intros H. pose proof H as [Hs Hl Hk Hd]. apply map_eq. intros s.
  assert (NoDup (rows t).*1) as Hnd. { rewrite (rows_fst _ _ H). by apply sorted_NoDup. }
  apply option_eq. intros z. rewrite insert_rows_lookup by done. rewrite lookup_empty. split.
  - intros [Hin|[_ ?]]; [|done]. unfold rows in Hin. apply list_elem_of_lookup in Hin as [i Hi].
    apply lookup_zip_Some in Hi as [H1 H2]. by eapply Hk.
  - intros Hz. left. assert (s ∈ t_starts t) as [i Hi]%list_elem_of_lookup by (apply Hd; by eexists).
    destruct (lookup_lt_is_Some_2 (t_sizes t) i) as [z' Hz']; [rewrite Hl; by eapply lookup_lt_Some|].
    apply list_elem_of_lookup. exists i. unfold rows. rewrite lookup_zip_with, Hi. cbn. rewrite Hz'. cbn.
    specialize (Hk i s z' Hi Hz'). congruence.
Qed.

Definition ticks_of (tabs : gmap Z TickTable) (id : Z) : list message :=
  match tabs !! id with Some t => tick_msgs id (rows t) | None => [] end.

Lemma rmap_all {A B} (f : A -> res B) (g : A -> B) l : (forall x, x ∈ l -> f x = Ok (g x)) -> rmap f l = Ok (map g l).
Proof.
  induction l as [|x l IH]; intros H; cbn; [done|]. rewrite H by left. cbn. rewrite IH; [done|]. intros; apply H. by right.
Qed.

Lemma table_ids_spec r : NoDup (table_ids r) /\ forall id, id ∈ table_ids r <-> is_Some (tick_tables r !! id).
Proof.
  unfold table_ids. split.
  - rewrite merge_sort_Permutation. apply NoDup_fst_map_to_list.
  - intros id. rewrite merge_sort_Permutation, list_elem_of_fmap. split.
    + intros ([k t] & -> & H%elem_of_map_to_list). by eexists.
    + intros [t Ht]. exists (id, t). split; [done|]. by apply elem_of_map_to_list.
Qed.

Lemma snapshot_ticks_ok r : snapshot_ticks r = Ok (concat (map (ticks_of (tick_tables r)) (table_ids r))).
Proof.
  unfold snapshot_ticks. rewrite (rmap_all _ (ticks_of (tick_tables r))); [done|].
  intros id [t Ht]%table_ids_spec. unfold ticks_of. by rewrite Ht.
Qed.

Lemma tables_replay tabs T ids : tick_rows tabs T -> (forall id m, T !! id = Some m -> m <> ∅) -> forall T0,
  NoDup ids -> (forall id, id ∈ ids -> is_Some (tabs !! id) /\ T0 !! id = None) ->
  forall id, run_rows (concat (map (ticks_of tabs) ids)) T0 !! id = if decide (id ∈ ids) then T !! id else T0 !! id.
Proof.
  intros HT Hne. induction ids as [|k ids IH]; intros T0 Hnd Hin id; cbn [map concat].
  { rewrite decide_False; [done|]. by intros ?%elem_of_nil. }
  apply NoDup_cons in Hnd as [Hk Hnd]. unfold run_rows at 1. rewrite foldl_app. fold (run_rows (ticks_of tabs k) T0).
  destruct (Hin k) as [[t Ht] Hk0]; [left|]. pose proof (HT k) as Hrep. rewrite Ht in Hrep.
  destruct (T !! k) as [m|] eqn:Em; [|done]. destruct Hrep as [_ Hrep].
  assert (run_rows (ticks_of tabs k) T0 = <[k := m]> T0) as ->.
  { unfold ticks_of. rewrite Ht, run_tick_msgs, Hk0; cbn [default].
    - by rewrite (rows_insert _ _ Hrep).
    - intros E. apply (Hne k m Em). by rewrite <- (rows_insert _ _ Hrep), E. }
  fold (run_rows (concat (map (ticks_of tabs) ids)) (<[k := m]> T0)). rewrite IH; [|done|].
  - destruct (decide (id = k)) as [->|Hne'].
    + rewrite decide_False by done. rewrite lookup_insert_eq, decide_True by left. done.
    + rewrite lookup_insert_ne by done. destruct (decide (id ∈ ids)).
      * by rewrite decide_True by by right.
      * rewrite decide_False; [done|]. by intros [|]%elem_of_cons.
  - intros id' Hid'. destruct (Hin id') as [? ?]; [by right|]. split; [done|]. rewrite lookup_insert_ne; [done|]. by intros ->.
Qed.

Lemma rows_replay r T : tick_rows (tick_tables r) T -> (forall id m, T !! id = Some m -> m <> ∅) ->
  run_rows (concat (map (ticks_of (tick_tables r)) (table_ids r))) ∅ = T.
Proof.
  intros HT Hne. destruct (table_ids_spec r) as [Hnd Hin]. apply map_eq. intros id.
  rewrite (tables_replay _ T); [|done|done|done|intros id' H; split; [by apply Hin|by rewrite lookup_empty]].
  case_decide as H; [done|]. rewrite lookup_empty. rewrite Hin in H. specialize (HT id).
  destruct (tick_tables r !! id); [by destruct H|]. by destruct (T !! id).
Qed.

(** ** Instruments *)

(** An instrument that has either a whole directory entry or nothing of one. *)
Definition inst_shape (i : Instrument) : Prop :=
  is_Some (i_group i) /\
  if i_directory_missing i then
    i_isin i = None /\ i_round_lot i = None /\ i_tick_table_id i = None /\ i_price_decimals i = None /\
    i_upper_limit i = None /\ i_lower_limit i = None
  else
    is_Some (i_isin i) /\ is_Some (i_round_lot i) /\ is_Some (i_tick_table_id i) /\ is_Some (i_price_decimals i) /\
    is_Some (i_upper_limit i) /\ is_Some (i_lower_limit i).

Lemma inst_replay i d : inst_shape i -> dget (i_orderbook_id i) d = None -> exists ms,
  snapshot_instrument i = Ok ms /\ run_insts ms d = d ++ [(i_orderbook_id i, i)] /\
  (forall m, m ∈ ms -> exists f, inst_update m = Some (i_orderbook_id i, f)) /\
  forall m, m ∈ ms -> (forall os, spec_orders m os = os) /\ (forall T, tick_apply m T = T) /\ (forall s, seconds_apply m s = s).
Proof.
  intros [[g Hg] Hsh] Hnew. destruct i as [oid isin grp lot tid dec up lo ts ss rp miss]. cbn in *. subst grp.
  set (d1 := d ++ _). unfold snapshot_instrument; cbn [i_directory_missing i_group i_orderbook_id default i_isin i_round_lot
    i_tick_table_id i_price_decimals i_upper_limit i_lower_limit i_trading_state i_short_sell_state i_reference_price].
  assert (forall ms, run_insts ms d = d1 -> (forall m, m ∈ ms -> exists f, inst_update m = Some (oid, f)) ->
    (forall m, m ∈ ms -> (forall os, spec_orders m os = os) /\ (forall T, tick_apply m T = T) /\ (forall s, seconds_apply m s = s)) ->
    exists ms0, Ok ms = Ok ms0 /\ run_insts ms0 d = d1 /\ (forall m, m ∈ ms0 -> exists f, inst_update m = Some (oid, f)) /\
      forall m, m ∈ ms0 -> (forall os, spec_orders m os = os) /\ (forall T, tick_apply m T = T) /\ (forall s, seconds_apply m s = s)) as Hex
    by (intros ms; exists ms; done).
  destruct miss.
  - destruct Hsh as (-> & -> & -> & -> & -> & ->). cbn [mbind res_bind app]. apply Hex.
    + unfold run_insts. destruct rp; cbn [app foldl inst_apply inst_update Z.eqb]; unfold inst_apply; cbn [inst_update Z.eqb];
        rewrite ?dset_dset, ?dget_dset_eq, Hnew, ?dset_dset, dset_new by done; done.
    + intros m Hm. destruct rp; cbn in Hm; set_unfold in Hm; naive_solver.
    + intros m Hm. destruct rp; cbn in Hm; set_unfold in Hm; naive_solver.
  - destruct Hsh as ([? ->] & [? ->] & [? ->] & [? ->] & [? ->] & [? ->]). cbn [mbind res_bind of_option app]. apply Hex.
    + unfold run_insts. destruct rp; cbn [app foldl]; unfold inst_apply; cbn [inst_update Z.eqb];
        rewrite ?dset_dset, ?dget_dset_eq, Hnew, ?dset_dset, dset_new by done; done.
    + intros m Hm. destruct rp; cbn in Hm; set_unfold in Hm; naive_solver.
    + intros m Hm. destruct rp; cbn in Hm; set_unfold in Hm; naive_solver.
Qed.

(** What a message does to no part but the instruments. *)
Definition only_insts (m : message) : Prop :=
  (forall os, spec_orders m os = os) /\ (forall T, tick_apply m T = T) /\ (forall s, seconds_apply m s = s).

Lemma insts_replay ds : forall d0, NoDup (dkeys (d0 ++ ds)) ->
  (forall k i, (k, i) ∈ ds -> i_orderbook_id i = k /\ inst_shape i) ->
  exists mss, rmap snapshot_instrument (dvalues ds) = Ok mss /\ run_insts (concat mss) d0 = d0 ++ ds /\
    (forall m, m ∈ concat mss -> only_insts m) /\
    forall m, m ∈ concat mss -> exists k i ms, (k, i) ∈ ds /\ snapshot_instrument i = Ok ms /\ m ∈ ms.
Proof.
  induction ds as [|[k i] ds IH]; intros d0 Hnd Hok; cbn [dvalues list_fmap fmap rmap].
  { exists []. cbn. rewrite app_nil_r. split_and!; try done; by intros m ?%elem_of_nil. }
  destruct (Hok k i) as [Hk Hsh]; [left|].
  assert (dget k d0 = None) as Hnew.
  { apply dget_None. rewrite dkeys_app in Hnd. apply NoDup_app in Hnd as (_ & Hnd & _). intros Hin. apply (Hnd k Hin). left. }
  rewrite <- Hk in Hnew. destruct (inst_replay i d0 Hsh Hnew) as (ms & Ems & Er & _ & Ho). rewrite Hk in Er.
  destruct (IH (d0 ++ [(k, i)])) as (mss & E & Er2 & Ho2 & Hin).
  { by rewrite <- app_assoc. }
  { intros k' i' H. apply Hok. by right. }
  exists (ms :: mss). cbn [snd]. rewrite Ems. cbn [mbind res_bind]. change (ds.*2) with (dvalues ds). rewrite E. cbn [concat mbind res_bind].
  split; [done|]. split; [|split].
  - unfold run_insts. rewrite foldl_app. fold (run_insts ms d0). rewrite Er. fold (run_insts (concat mss) (d0 ++ [(k, i)])).
    by rewrite Er2, <- app_assoc.
  - intros m [Hm|Hm]%elem_of_app; [by apply Ho|by apply Ho2].
  - intros m [Hm|Hm]%elem_of_app; [exists k, i, ms; split_and!; [left|done|done]|].
    destruct (Hin m Hm) as (k' & i' & ms' & ? & ? & ?). exists k', i', ms'. split_and!; [by right|done|done].
Qed.

(** * The state of a feed that came over the wire fits the wire *)

Definition opt_num (size : nat) (o : option Z) : Prop := forall z, o = Some z -> num size z = true.
Definition opt_alpha (size : nat) (o : option str) : Prop := forall s, o = Some s -> alpha size s = true.

Record inst_wire (i : Instrument) : Prop := {
  iw_oid : alpha 4 (i_orderbook_id i) = true;
  iw_group : opt_alpha 4 (i_group i);
  iw_isin : opt_alpha 12 (i_isin i);
  iw_lot : opt_num 4 (i_round_lot i); iw_tid : opt_num 4 (i_tick_table_id i); iw_dec : opt_num 4 (i_price_decimals i);
  iw_up : opt_num 4 (i_upper_limit i); iw_lo : opt_num 4 (i_lower_limit i);
  iw_ts : alpha 1 (i_trading_state i) = true; iw_ss : alpha 1 (i_short_sell_state i) = true;
  iw_ref : opt_num 4 (i_reference_price i) }.

Record wire_ok (a : amarket) : Prop := {
  wo_seconds : num 4 (am_seconds a) = true;
  wo_insts_ok : insts_ok (am_insts a);
  wo_insts : forall k i, dget k (am_insts a) = Some i -> inst_shape i /\ inst_wire i;
  wo_rows : forall id m, am_rows a !! id = Some m -> m <> ∅ /\ num 4 id = true /\
    forall s z, m !! s = Some z -> num 4 s = true /\ num 4 z = true;
  wo_nodup : NoDup (dkeys (am_orders a));
  wo_orders : forall k o, dget k (am_orders a) = Some o ->
    k <> 0 /\ o_order_number o = k /\ 0 < o_remaining_qty o /\ msg_ok (snapshot_order o) = true }.

(** A replacement that gives an order the number 0 would make it look like a
    reference price to whoever receives the snapshot. *)
Definition boot_ok (m : message) : bool :=
  feed_ok m && match m with OrderReplaced _ _ new _ _ => negb (new =? 0) | _ => true end.

Lemma num_0 size : num size 0 = true.
Proof. unfold num. apply andb_true_iff. split; [done|]. apply Z.ltb_lt. apply Z.pow_pos_nonneg; lia. Qed.

Lemma num_le size a b : num size b = true -> 0 <= a <= b -> num size a = true.
Proof. unfold num. intros. apply andb_true_iff. lia. Qed.

Lemma am_init_wire : wire_ok am_init.
Proof.
  split; cbn -[lookup]; try done; [apply insts_init_ok|constructor].
Qed.

(** Split [msg_ok m = true] into its fields. *)
Ltac wire H := apply msg_ok_iff in H; cbn [wire_fields] in H;
  repeat match type of H with Forall _ (_ :: _) =>
    let H1 := fresh "Hw" in apply Forall_cons in H as [H1 H]; cbn in H1 end; clear H.
Ltac opts := intros ? [= <-]; done.

Lemma inst_update_wire m oid f i : msg_ok m = true -> inst_update m = Some (oid, f) ->
  i = instrument_init oid \/ inst_shape i /\ inst_wire i /\ i_orderbook_id i = oid -> inst_shape (f i) /\ inst_wire (f i).
Proof.
  intros Hm Hu Hi.
  assert (inst_wire i /\ (is_Some (i_group i) \/ i = instrument_init oid) /\
    (if i_directory_missing i then
       i_isin i = None /\ i_round_lot i = None /\ i_tick_table_id i = None /\ i_price_decimals i = None /\
       i_upper_limit i = None /\ i_lower_limit i = None
     else is_Some (i_isin i) /\ is_Some (i_round_lot i) /\ is_Some (i_tick_table_id i) /\ is_Some (i_price_decimals i) /\
       is_Some (i_upper_limit i) /\ is_Some (i_lower_limit i))) as (W & Hg & Hs).
  { destruct Hi as [->|([Hg Hs] & W & _)]; [|split_and!; [done|by left|done]].
    split_and!; [|by right|done..]. assert (alpha 4 oid = true) as Ho.
    { destruct m; cbn in Hu; try done;
    try match type of Hu with context [?n =? 0] => destruct (n =? 0); [|done] end; injection Hu as <- _; by wire Hm. }
    split; cbn; try done; intros ? [=]. }
  assert (forall g, is_Some (fill_group g i)) as Hfill. { intros g. unfold fill_group. destruct (i_group i); by eexists. }
  assert (forall g, alpha 4 g = true -> opt_alpha 4 (fill_group g i)) as Hfw.
  { intros g Hgw s. unfold fill_group. destruct (i_group i) eqn:E; [|by intros [= <-]].
    intros [= <-]. by apply (iw_group _ W). }
  destruct W. unfold inst_shape.
  destruct m; cbn in Hu; try done;
    try match type of Hu with context [?n =? 0] => destruct (n =? 0); [|done] end; injection Hu as <- <-; wire Hm; cbn;
    (split; [split; [by eauto|by eauto]|]); split; cbn; eauto; try opts.
Qed.

(** ** Live orders *)

Definition order_wire (k : Z) (o : Order) : Prop :=
  k <> 0 /\ o_order_number o = k /\ 0 < o_remaining_qty o /\ msg_ok (snapshot_order o) = true.
Definition orders_wire (os : list (Z * Order)) : Prop :=
  NoDup (dkeys os) /\ forall k o, dget k os = Some o -> order_wire k o.

Lemma orders_wire_remove n os : orders_wire os -> orders_wire (dremove n os).
Proof.
  intros [Hnd H]. split; [by apply NoDup_dremove|]. intros k o. rewrite dget_dremove by done. case_decide; [done|]. apply H.
Qed.

Lemma orders_wire_put n o os : orders_wire os -> order_wire n o -> orders_wire (spec_put n o os).
Proof.
  intros [Hnd H] Ho. unfold spec_put. rewrite <- dset_new by by apply dget_dremove_eq.
  split; [by apply NoDup_dset, NoDup_dremove|]. intros k o'. rewrite dget_dset. case_decide as E.
  - intros [= <-]. by subst.
  - rewrite dget_dremove by done. case_decide; [done|]. apply H.
Qed.

Lemma orders_wire_set n o os : orders_wire os -> order_wire n o -> orders_wire (dset n o os).
Proof.
  intros [Hnd H] Ho. split; [by apply NoDup_dset|]. intros k o'. rewrite dget_dset. case_decide; [|apply H].
  intros [= <-]. by subst.
Qed.

Lemma snapshot_order_wire n oid g sd p q :
  num 8 n = true -> alpha 1 sd = true -> num 4 q = true -> alpha 4 oid = true -> alpha 4 g = true -> num 4 p = true ->
  msg_ok (snapshot_order (mkOrder n oid g sd p q)) = true.
Proof. intros. apply msg_ok_iff. cbn [wire_fields snapshot_order o_order_number o_side o_remaining_qty o_orderbook_id o_group o_price].
  repeat constructor; done || apply num_0. Qed.

Lemma order_wire_fields o : msg_ok (snapshot_order o) = true ->
  num 8 (o_order_number o) = true /\ alpha 1 (o_side o) = true /\ num 4 (o_remaining_qty o) = true /\
  alpha 4 (o_orderbook_id o) = true /\ alpha 4 (o_group o) = true /\ num 4 (o_price o) = true.
Proof. intros H. unfold snapshot_order in H. wire H. done. Qed.

Lemma spec_orders_wire m os : msg_ok m = true -> boot_ok m = true -> orders_wire os -> orders_wire (spec_orders m os).
Proof.
  intros Hm [Hf Hb]%andb_true_iff Hos.
  assert (forall n sd q oid g p, (n =? 0) || (0 <? q) = true ->
    num 8 n = true -> alpha 1 sd = true -> num 4 q = true -> alpha 4 oid = true -> alpha 4 g = true -> num 4 p = true ->
    orders_wire (if n =? 0 then os else spec_put n (mkOrder n oid g sd p q) os)) as Hadd.
  { intros n sd q oid g p Hq. intros. destruct (Z.eqb_spec n 0); [done|]. apply orders_wire_put; [done|].
    split_and!; [done|done|cbn in *; lia|by apply snapshot_order_wire]. }
  destruct m as [| | | | | |ns n sd q oid g p|ns n sd q oid g p at_ ot|ns n q mn|ns n|ns orig new q p|]; cbn [spec_orders]; try done.
  - wire Hm. by apply Hadd.
  - wire Hm. by apply Hadd.
  - destruct (dget n os) as [o|] eqn:E; [|done]. destruct (Z.leb_spec (o_remaining_qty o) q); [by apply orders_wire_remove|].
    apply orders_wire_set; [done|]. destruct Hos as [_ Hos]. destruct (Hos n o E) as (Hn & Ho & Hq & Hw).
    cbn in Hf. split_and!; [done|done|cbn; lia|]. destruct (order_wire_fields o Hw) as (? & ? & Hr & ? & ? & ?).
    apply snapshot_order_wire; try done. eapply num_le; [exact Hr|lia].
  - by apply orders_wire_remove.
  - destruct (dget orig os) as [o|] eqn:E; [|done]. destruct (proj2 Hos orig o E) as (_ & _ & _ & Hw).
    destruct (order_wire_fields o Hw) as (? & ? & _ & ? & ? & _). wire Hm. cbn in Hf, Hb.
    apply orders_wire_put; [by apply orders_wire_remove|]. split_and!; [lia|done|cbn; lia|by apply snapshot_order_wire].
Qed.

(** ** One message *)

Lemma am_step_wire a m : msg_ok m = true -> boot_ok m = true -> wire_ok a -> wire_ok (am_step a (OMsg m)).
Proof.
  intros Hm Hb [Ws Wi Ww Wr Wn Wo].
  destruct (spec_orders_wire m (am_orders a) Hm Hb (conj Wn Wo)) as [Wn' Wo'].
  split; cbn [am_step am_seconds am_insts am_rows am_orders]; try done.
  - destruct m; try done. by wire Hm.
  - by apply inst_apply_ok.
  - intros k i. unfold inst_apply. destruct (inst_update m) as [[oid f]|] eqn:Eu; [|apply Ww].
    rewrite dget_dset. case_decide as E; [|apply Ww]. intros [= <-]. apply (inst_update_wire m oid f); [done|done|].
    destruct (dget oid (am_insts a)) as [i|] eqn:Ei; cbn [default]; [right|by left].
    destruct (Ww _ _ Ei). destruct Wi as [_ Wi]. destruct (Wi _ _ Ei). done.
  - destruct m as [| |ns tid z s| | | | | | | | |]; cbn [tick_apply]; try apply Wr. wire Hm.
    intros id mm. rewrite lookup_insert. case_decide as E; [|apply Wr]. subst id. intros [= <-].
    split; [apply insert_non_empty|]. split; [done|]. intros s' z'. rewrite lookup_insert. case_decide as E'.
    + intros [= <-]. by subst.
    + destruct (am_rows a !! tid) as [m0|] eqn:Em; cbn [default]; [by apply (Wr tid m0 Em)|]. by rewrite lookup_empty.
Qed.

Lemma am_run_wire ms a : Forall (fun m => msg_ok m = true /\ boot_ok m = true) ms -> wire_ok a ->
  wire_ok (foldl am_step a (map OMsg ms)).
Proof.
  intros H. revert a. induction H as [|m ms [Hm Hb] _ IH]; intros a Ha; cbn; [done|]. by apply IH, am_step_wire.
Qed.

(** * The snapshot of a market *)

(** Messages the wire carries, a client accepts, and that execute nothing. *)
Definition snap_ok (m : message) : Prop :=
  msg_ok m = true /\ feed_ok m = true /\ match m with OrderExecuted _ _ _ _ => False | _ => True end.

Lemma msg_ok_build m : Forall (fun b => b = true) (wire_fields m) -> msg_ok m = true.
Proof. apply msg_ok_iff. Qed.

Lemma inst_msgs_ok i ms m : inst_shape i -> inst_wire i -> snapshot_instrument i = Ok ms -> m ∈ ms -> snap_ok m.
Proof.
  intros [[g Hg] Hs] [W1 W2 W3 W4 W5 W6 W7 W8 W9 W10 W11]. unfold snapshot_instrument. rewrite Hg. cbn [default].
  specialize (W2 g Hg). destruct (i_directory_missing i).
  - cbn [mbind res_bind app]. intros [= <-] Hm. destruct (i_reference_price i) as [p|] eqn:Er; cbn in Hm; set_unfold in Hm;
      repeat destruct Hm as [->|Hm]; try done; (split; [|done]); apply msg_ok_build; cbn [wire_fields];
      repeat constructor; auto using num_0.
  - destruct Hs as ([? E1] & [? E2] & [? E3] & [? E4] & [? E5] & [? E6]).
    rewrite E1, E2, E3, E4, E5, E6. cbn [mbind res_bind of_option app].
    intros [= <-] Hm. destruct (i_reference_price i) as [p|] eqn:Er; cbn in Hm; set_unfold in Hm;
      repeat destruct Hm as [->|Hm]; try done; (split; [|done]); apply msg_ok_build; cbn [wire_fields];
      repeat constructor; auto using num_0.
Qed.

Lemma tick_msgs_ok id l m : num 4 id = true -> (forall s z, (s, z) ∈ l -> num 4 s = true /\ num 4 z = true) ->
  m ∈ tick_msgs id l -> snap_ok m /\ (forall d, inst_apply m d = d) /\ (forall os, spec_orders m os = os) /\
    (forall s, seconds_apply m s = s).
Proof.
  intros Hid Hl Hm. unfold tick_msgs in Hm. apply list_elem_of_fmap in Hm as ([s z] & -> & Hin).
  destruct (Hl _ _ Hin). split; [|done]. split; [|done]. apply msg_ok_build. cbn. repeat constructor; auto using num_0.
Qed.

Lemma am_calls_quiet ms a : Forall (fun m => match m with OrderExecuted _ _ _ _ => False | _ => True end) ms ->
  am_calls (foldl am_step a (map OMsg ms)) = am_calls a.
Proof.
  intros H. revert a. induction H as [|m ms Hm _ IH]; intros a; cbn; [done|]. rewrite IH. cbn [am_step am_calls].
  unfold am_call. destruct m; try done; by rewrite app_nil_r.
Qed.

Lemma rmap_encode ms : Forall (fun m => msg_ok m = true) ms ->
  exists out, rmap encode_msg ms = Ok out /\ Forall2 (fun r m => Itch.decode r = Ok m) out ms.
Proof.
  induction 1 as [|m ms Hm _ (out & E & H)]; cbn; [by exists []|].
  destruct (encode_decode_msg m Hm) as (b & Eb & Hb). exists (b :: out). rewrite Eb. cbn. rewrite E. cbn. by split; [|constructor].
Qed.

Lemma elem_of_concat {A} (x : A) ls : x ∈ concat ls -> exists l, l ∈ ls /\ x ∈ l.
Proof.
  induction ls as [|l ls IH]; cbn; [by intros ?%elem_of_nil|]. intros [H|H]%elem_of_app.
  - exists l. by split; [left|].
  - destruct (IH H) as (l' & ? & ?). exists l'. by split; [right|].
Qed.

Section snapshot.
  Context (k : Market) (a : amarket) (Hk : market_rep k a) (Ha : wire_ok a).

Let ticks := concat (map (ticks_of (tick_tables (refdata k))) (table_ids (refdata k))).
Let os := map snapshot_order (dvalues (orders (mbooks k))).

Lemma ticks_ok m : m ∈ ticks -> snap_ok m /\ (forall d, inst_apply m d = d) /\ (forall os, spec_orders m os = os) /\
  (forall s, seconds_apply m s = s).
Proof.
  intros (l & (id & -> & Hid)%list_elem_of_fmap & Hm)%elem_of_concat.
  unfold ticks_of in Hm. pose proof (mr_rows _ _ Hk id) as Hr.
  destruct (tick_tables (refdata k) !! id) as [t|]; [|by apply elem_of_nil in Hm].
  destruct (am_rows a !! id) as [mm|] eqn:Em; [|done]. destruct Hr as [_ Hr].
  destruct (wo_rows _ Ha id mm Em) as (_ & Hn & Hrow). eapply tick_msgs_ok; [exact Hn| |exact Hm].
  intros s z Hin. apply Hrow. rewrite <- (rows_insert _ _ Hr). apply insert_rows_lookup; [|by left].
  rewrite (rows_fst _ _ Hr). by apply sorted_NoDup, Hr.
Qed.

Lemma order_msgs_ok m : m ∈ os -> snap_ok m /\ (forall d, inst_apply m d = d) /\ (forall s, seconds_apply m s = s) /\
  (forall T, tick_apply m T = T).
Proof.
  intros (o & -> & Ho)%list_elem_of_fmap. apply list_elem_of_fmap in Ho as ([n o'] & -> & Ho). cbn [snd].
  rewrite (mr_orders _ _ Hk) in Ho. apply elem_dget in Ho; [|apply Ha].
  destruct (wo_orders _ Ha _ _ Ho) as (Hn & E & Hq & Hw). split; [|split_and!; try done].
  - split; [done|]. split; [|done]. cbn. lia.
  - intros d. unfold inst_apply. cbn. by rewrite E, (proj2 (Z.eqb_neq _ _)).
Qed.

Lemma snapshot_ok : exists ms, snapshot_messages k = Ok ms /\ Forall snap_ok ms /\
  same_parts (foldl am_step am_init (map OMsg ms)) a /\ am_calls (foldl am_step am_init (map OMsg ms)) = [].
Proof.
  destruct (insts_replay (am_insts a) []) as (mss & Em & Er & Ho & Hin).
  { apply Ha. }
  { intros n i H. apply elem_dget in H; [|apply Ha]. split; [by apply (proj2 (wo_insts_ok _ Ha))|by apply (wo_insts _ Ha n)]. }
  unfold snapshot_messages. rewrite snapshot_ticks_ok. cbn [mbind res_bind]. rewrite (mr_insts _ _ Hk), Em. cbn [mbind res_bind].
  fold ticks os. set (ms := snapshot_time k ++ ticks ++ concat mss ++ os).
  assert (forall m, m ∈ snapshot_time k -> m = TimestampSeconds (am_seconds a)) as Ht.
  { intros m. unfold snapshot_time. rewrite (mr_seconds _ _ Hk). destruct (_ =? 0); [by intros ?%elem_of_nil|].
    by intros ->%list_elem_of_singleton. }
  assert (Forall snap_ok ms) as Hok.
  { apply Forall_forall. intros m. subst ms. rewrite !elem_of_app. intros [Hm|[Hm|[Hm|Hm]]].
    - rewrite (Ht m Hm). split; [|done]. apply msg_ok_build. cbn. repeat constructor. apply Ha.
    - by apply ticks_ok.
    - destruct (Hin m Hm) as (n & i & l & H1 & H2 & H3). apply elem_dget in H1; [|apply Ha].
      destruct (wo_insts _ Ha _ _ H1). by eapply inst_msgs_ok.
    - by apply order_msgs_ok. }
  exists ms. split; [done|]. split; [done|]. split.
  2:{ rewrite am_calls_quiet; [done|]. eapply Forall_impl; [exact Hok|]. by intros m (_ & _ & ?). }
  destruct (am_run_parts ms am_init) as (E1 & E2 & E3 & E4). cbn in E1, E2, E3, E4.
  unfold same_parts. rewrite E1, E2, E3, E4. clear E1 E2 E3 E4. subst ms.
  unfold run_seconds, run_insts, run_rows, run_orders. rewrite !foldl_app. split_and!.
  - rewrite (run_skip seconds_apply ticks) by (intros; by apply ticks_ok).
    rewrite (run_skip seconds_apply (concat mss)) by (intros; by apply Ho).
    rewrite (run_skip seconds_apply os) by (intros; by apply order_msgs_ok).
    unfold snapshot_time. rewrite (mr_seconds _ _ Hk). destruct (Z.eqb_spec (am_seconds a) 0) as [->|]; done.
  - rewrite (run_skip inst_apply (snapshot_time k)) by (intros m y Hm; by rewrite (Ht m Hm)).
    rewrite (run_skip inst_apply ticks) by (intros; by apply ticks_ok).
    rewrite (run_skip inst_apply os) by (intros; by apply order_msgs_ok). exact Er.
  - rewrite (run_skip tick_apply (snapshot_time k)) by (intros m y Hm; by rewrite (Ht m Hm)).
    rewrite (run_skip tick_apply (concat mss)) by (intros; by apply Ho).
    rewrite (run_skip tick_apply os) by (intros; by apply order_msgs_ok).
    apply rows_replay; [apply Hk|]. intros id m Hm. by apply (wo_rows _ Ha id m).
  - rewrite (run_skip spec_orders (snapshot_time k)) by (intros m y Hm; by rewrite (Ht m Hm)).
    rewrite (run_skip spec_orders ticks) by (intros; by apply ticks_ok).
    rewrite (run_skip spec_orders (concat mss)) by (intros; by apply Ho).
    subst os. rewrite (mr_orders _ _ Hk). apply (orders_replay _ []); [apply Ha|].
    intros n o H. apply elem_dget in H; [|apply Ha]. by destruct (wo_orders _ Ha _ _ H) as (? & ? & _).
Qed.
End snapshot.

(** * Equal live orders, equal books *)

Lemma side_rep_inj sl sl' f : side_rep sl f -> side_rep sl' f -> sl = sl'.
Proof.
  intros [S1 D1 Q1] [S2 D2 Q2]. destruct sl as [p q], sl' as [p' q']; cbn in *.
  assert (q = q') as <- by (apply map_eq; intros z; by rewrite Q1, Q2).
  f_equal. apply sorted_ext; [done|done|]. intros z. by rewrite D1, D2.
Qed.

Lemma get_book_reps s oid : store_inv s -> exists b, (get_book oid s).2 = Ok b /\ b_orderbook_id b = oid /\
  forall buy, side_rep (book_side b buy) (level_qty (orders s) oid buy).
Proof.
  intros [_ _ Hb]. specialize (Hb oid). unfold get_book. destruct (books s !! oid) as [b|].
  - exists b. destruct Hb. done.
  - exists (book_init oid). split; [done|]. split; [done|]. intros buy.
    apply (side_rep_ext _ (fun _ => 0)); [intros p; by rewrite Hb|]. destruct buy; apply side_init_rep.
Qed.

Lemma books_equal s s' oid : store_inv s -> store_inv s' -> orders s = orders s' ->
  (get_book oid s).2 = (get_book oid s').2.
Proof.
  intros H H' E. destruct (get_book_reps s oid H) as (b & -> & Ei & Hb).
  destruct (get_book_reps s' oid H') as (b' & -> & Ei' & Hb'). rewrite E in Hb. f_equal.
  pose proof (side_rep_inj _ _ _ (Hb true) (Hb' true)). pose proof (side_rep_inj _ _ _ (Hb false) (Hb' false)).
  destruct b, b'; cbn in *. congruence.
Qed.

(** * Raw messages *)

Definition decodes (raw : list bytes) (ms : list message) : Prop := Forall2 (fun r m => Itch.decode r = Ok m) raw ms.

Lemma apply_raw_run raw ms k : decodes raw ms -> apply_raw raw k = market_run (map OMsg ms) k.
Proof.
  intros H. revert k. unfold apply_raw, market_run. induction H as [|r m raw ms Hr _ IH]; intros k; [done|].
  cbn [mfor map]. munfold. rewrite Hr. destruct (market_apply (OMsg m) k) as [k' [x|e]]; [apply IH|done].
Qed.

Lemma decodes_wire raw ms : decodes raw ms -> Forall (fun m => msg_ok m = true) ms.
Proof. induction 1 as [|r m raw ms Hr _ IH]; constructor; [by apply decode_encode_msg in Hr as [? _]|done]. Qed.

(** The message that ends a snapshot. *)
Lemma end_message n : num 8 n = true -> exists g, encode_msg (EndOfSnapshot n) = Ok g /\ Itch.decode g = Ok (EndOfSnapshot n).
Proof. intros Hn. apply encode_decode_msg, msg_ok_build. cbn. by repeat constructor. Qed.

Definition snapshot_cut (x : ExchangeSimulator) : nat := Nat.min (x_glimpse_cut x) (length (x_messages x)).

Lemma feed_objs ms : forallb boot_ok ms = true -> forallb obj_ok (map OMsg ms) = true.
Proof.
  rewrite forallb_forall. intros H. apply forallb_forall. intros o Ho.
  apply in_map_iff in Ho as (m & <- & Hm). cbn. by apply H, andb_true_iff in Hm as [? _].
Qed.

Lemma decodes_short raw ms : decodes raw ms -> Forall (fun m => zlen m < 65535) raw.
Proof.
  intros Hd. eapply Forall2_Forall_l; [exact Hd|]. apply Forall_forall.
  intros m _ b [_ Hm]%decode_encode_msg. by eapply encode_msg_short.
Qed.

(** What the snapshot builder returns. *)
Lemma build_snapshot_ok x ms : decodes (x_messages x) ms -> forallb boot_ok ms = true -> exists k snap sms,
  market_run (map OMsg (take (snapshot_cut x) ms)) (market_init DEFAULT_MAX_ENTRIES) = (k, Ok ()) /\
  market_rep k (foldl am_step am_init (map OMsg (take (snapshot_cut x) ms))) /\
  build_snapshot x = Ok (snap, Z.of_nat (snapshot_cut x) + 1) /\ decodes snap sms /\ Forall snap_ok sms /\
  same_parts (foldl am_step am_init (map OMsg sms)) (foldl am_step am_init (map OMsg (take (snapshot_cut x) ms))) /\
  am_calls (foldl am_step am_init (map OMsg sms)) = [].
Proof.
  intros Hd Hb. set (cut := snapshot_cut x). set (pre := take cut ms).
  assert (forallb boot_ok pre = true) as Hpre.
  { rewrite <- (take_drop cut ms), forallb_app in Hb. by apply andb_true_iff in Hb as [? _]. }
  assert (decodes (take cut (x_messages x)) pre) as Hdp by by apply Forall2_take.
  destruct (market_run_rep _ _ _ (market_init_rep DEFAULT_MAX_ENTRIES) (feed_objs _ Hpre)) as (k & Ek & Hk).
  assert (wire_ok (foldl am_step am_init (map OMsg pre))) as Hw.
  { apply am_run_wire; [|apply am_init_wire]. pose proof (decodes_wire _ _ Hdp) as Hm. rewrite forallb_forall in Hpre.
    apply Forall_forall. intros m Hin. rewrite Forall_forall in Hm. split; [by apply Hm|apply Hpre]. by apply list_elem_of_In. }
  destruct (snapshot_ok k _ Hk Hw) as (sms & Es & Hok & Hsame & Hcalls).
  destruct (rmap_encode sms) as (snap & Eo & Hds); [eapply Forall_impl; [exact Hok|by intros m (? & _)]|].
  exists k, snap, sms. split_and!; try done.
  unfold build_snapshot. fold (snapshot_cut x). fold cut. rewrite (apply_raw_run _ pre) by done. rewrite Ek, Es. cbn [mbind res_bind].
  by rewrite Eo.
Qed.

(** What agrees between a market that saw the whole day [ms] and one that saw a snapshot
    at [cut]: everything but the tape, which has the executions after the first [cut]
    messages and no other. *)
Definition same_market (ms : list message) (cut : nat) (k1 k2 : Market) : Prop :=
  seconds k1 = seconds k2 /\ instruments (refdata k1) = instruments (refdata k2) /\
  tick_tables (refdata k1) = tick_tables (refdata k2) /\ orders (mbooks k1) = orders (mbooks k2) /\
  (forall oid, (get_book oid (mbooks k1)).2 = (get_book oid (mbooks k2)).2) /\
  tape_is (tape k1) (am_calls (obj_run ms)) /\
  exists after, am_calls (obj_run ms) = am_calls (obj_run (take cut ms)) ++ after /\ tape_is (tape k2) after.

Lemma boot_markets x ms n :
  decodes (x_messages x) ms -> forallb boot_ok ms = true -> zlen ms + 1 < 2 ^ 64 ->
  exists snap g k1 k2,
    build_snapshot x = Ok (snap, Z.of_nat (snapshot_cut x) + 1) /\
    encode_msg (EndOfSnapshot (Z.of_nat (snapshot_cut x) + 1)) = Ok g /\
    Itch.decode g = Ok (EndOfSnapshot (Z.of_nat (snapshot_cut x) + 1)) /\
    Forall (fun m => zlen m < 65535) (snap ++ [g]) /\
    apply_raw (x_messages x) (market_init n) = (k1, Ok ()) /\
    apply_raw (snap ++ [g] ++ drop (snapshot_cut x) (x_messages x)) (market_init n) = (k2, Ok ()) /\
    same_market ms (snapshot_cut x) k1 k2.
Proof.
  intros Hd Hb Hlen. destruct (build_snapshot_ok x ms Hd Hb) as (_ & snap & sms & _ & _ & Eb & Hds & Hok & Hsame & Hcalls).
  set (cut := snapshot_cut x) in *.
  assert (cut <= length ms)%nat as Hcut.
  { subst cut. unfold snapshot_cut. apply Forall2_length in Hd. lia. }
  destruct (end_message (Z.of_nat cut + 1)) as (g & Eg & Hg).
  { unfold num. apply andb_true_iff. change (256 ^ Z.of_nat 8) with (2 ^ 64). unfold zlen in Hlen. lia. }
  set (whole := map OMsg ms). set (boot := map OMsg (sms ++ [EndOfSnapshot (Z.of_nat cut + 1)] ++ drop cut ms)).
  assert (forallb obj_ok boot = true) as Hboot.
  { subst boot. rewrite !map_app, !forallb_app. cbn [map forallb obj_ok feed_ok]. rewrite !andb_true_iff. split_and!; try done.
    - apply forallb_forall. intros o (m & <- & Hm)%in_map_iff. rewrite Forall_forall in Hok.
      destruct (Hok m) as (_ & ? & _); [by apply list_elem_of_In|done].
    - apply feed_objs. rewrite <- (take_drop cut ms), forallb_app in Hb. by apply andb_true_iff in Hb as [_ ?]. }
  destruct (market_run_rep whole _ _ (market_init_rep n) (feed_objs _ Hb)) as (k1 & E1 & H1).
  destruct (market_run_rep boot _ _ (market_init_rep n) Hboot) as (k2 & E2 & H2).
  exists snap, g, k1, k2.
  assert (same_parts (foldl am_step am_init whole) (foldl am_step am_init boot) /\ exists after,
    am_calls (obj_run ms) = am_calls (obj_run (take cut ms)) ++ after /\ am_calls (foldl am_step am_init boot) = after)
    as [(S1 & S2 & S3 & S4) (after & C1 & C2)].
  { change (obj_run ms) with (foldl am_step am_init whole). change (obj_run (take cut ms)) with (foldl am_step am_init (map OMsg (take cut ms))).
    assert (whole = map OMsg (take cut ms) ++ map OMsg (drop cut ms)) as -> by (subst whole; by rewrite <- map_app, take_drop).
    subst boot. rewrite !map_app, !foldl_app. cbn [map foldl].
    set (a1 := foldl am_step am_init (map OMsg (take cut ms))) in *. set (a2 := foldl am_step am_init (map OMsg sms)) in *.
    assert (same_parts a1 (am_step a2 (OMsg (EndOfSnapshot (Z.of_nat cut + 1))))) as Hs.
    { destruct Hsame as (? & ? & ? & ?). unfold same_parts. by cbn. }
    destruct (am_run_same (map OMsg (drop cut ms)) _ _ Hs) as (Hs' & cs & Ec1 & Ec2). split; [done|].
    exists cs. split; [done|]. rewrite Ec2. cbn. by rewrite Hcalls. }
  unfold same_market. split_and!; try done.
  - apply Forall_app. split; [|constructor; [by eapply encode_msg_short|constructor]].
    by eapply decodes_short.
  - by rewrite (apply_raw_run _ ms).
  - rewrite <- E2. apply apply_raw_run.
    apply Forall2_app; [done|]. apply Forall2_app; [by constructor|]. by apply Forall2_drop.
  - by rewrite (mr_seconds _ _ H1), (mr_seconds _ _ H2).
  - by rewrite (mr_insts _ _ H1), (mr_insts _ _ H2).
  - pose proof (mr_rows _ _ H1) as R1. pose proof (mr_rows _ _ H2) as R2. rewrite <- S3 in R2. by eapply tick_rows_inj.
  - by rewrite (mr_orders _ _ H1), (mr_orders _ _ H2).
  - intros oid. apply books_equal; [apply H1|apply H2|]. by rewrite (mr_orders _ _ H1), (mr_orders _ _ H2).
  - apply H1.
  - exists after. rewrite <- C2 at 2. split; [done|apply H2].
Qed.

(** C13. Bootstrapping from a snapshot is bootstrapping from the whole day.  The messages
    of the day decode and carry positive quantities, and no replacement reuses the
    number 0: then the snapshot can be built for every cut, and a market that
    applies its messages, the end mark with the next sequence number and the day's
    messages from there has the clock, instruments, tick tables, live orders (in the
    same order) and books of a market that applied the whole day; its tape holds
    exactly the executions after the cut. *)
Theorem bootstrap_equivalent x ms n :
  decodes (x_messages x) ms -> forallb boot_ok ms = true -> zlen ms + 1 < 2 ^ 64 ->
  exists snap g k1 k2,
    build_snapshot x = Ok (snap, Z.of_nat (snapshot_cut x) + 1) /\
    encode_msg (EndOfSnapshot (Z.of_nat (snapshot_cut x) + 1)) = Ok g /\
    apply_raw (x_messages x) (market_init n) = (k1, Ok ()) /\
    apply_raw (snap ++ [g] ++ drop (snapshot_cut x) (x_messages x)) (market_init n) = (k2, Ok ()) /\
    same_market ms (snapshot_cut x) k1 k2.
Proof.
  intros Hd Hb Hl. destruct (boot_markets x ms n Hd Hb Hl) as (snap & g & k1 & k2 & ? & ? & _ & _ & ? & ? & ?).
  by exists snap, g, k1, k2.
Qed.

(** A morning: a listing, a tick table, two orders, then an execution and a replace
    after the cut. *)
Definition morning : list message :=
  [ TimestampSeconds 28800; PriceTickSize 1 7 0 1; PriceTickSize 1 7 10000 5;
    OrderbookDirectory 2 "1301" "JP3257200000" "DAY" 100 7 1 20000 5000;
    TradingState 3 "1301" "DAY" "T"; OrderAdded 4 1 "B" 500 "1301" "DAY" 9000;
    OrderAddedWithAttributes 5 2 "S" 300 "1301" "DAY" 9010 "ABCD" "L";
    TimestampSeconds 28801; OrderExecuted 6 1 200 77; OrderReplaced 7 2 3 400 9020; OrderDeleted 8 1 ].

Definition morning_sim : ExchangeSimulator :=
  Eval vm_compute in
  sim_init (map (fun m => match encode_msg m with Ok b => b | Raise _ => [] end) morning)
    "U" "P" "SIM0000001" SPEED_MAX None 1000 (CutInt 9).

Lemma morning_decodes : decodes (x_messages morning_sim) morning.
Proof. repeat constructor. Qed.

Lemma bootstrap_equivalent_witness : exists snap g k1 k2,
  build_snapshot morning_sim = Ok (snap, 10) /\ length snap = 8%nat /\
  apply_raw (x_messages morning_sim) (market_init 10) = (k1, Ok ()) /\
  apply_raw (snap ++ [g] ++ drop 9 (x_messages morning_sim)) (market_init 10) = (k2, Ok ()) /\
  same_market morning 9 k1 k2.
Proof.
  destruct (bootstrap_equivalent morning_sim morning 10 morning_decodes) as (snap & g & k1 & k2 & E & _ & E1 & E2 & H).
  - vm_compute. reflexivity.
  - vm_compute. reflexivity.
  - exists snap, g, k1, k2. split; [exact E|]. split; [|by split; [|split]].
    revert E. vm_compute. by intros [= <-].
Defined.
