(* ===== verification/Day.v ===== *)
(** One trading day end to end: a client that starts in the middle of it.

    The client logs in to the GLIMPSE server, takes the snapshot up to its end mark,
    then follows the ITCH server from the sequence number the mark carries, over
    connections that may drop anywhere.  What its market ends up with is what the
    whole day gives.  No definitions of the program here: this file composes
    SoupSession, Exchange, Delivery and Bootstrap. *)
From S2P Require Export Delivery Bootstrap.

(** A GLIMPSE connection that runs to its end: [start] of the session, the server's
    [_handle_glimpse] on the bytes of the login, and reads of all that it sent. *)
Inductive glimpse_connection : world -> world -> Prop :=
| GlimpseConnection x s evs now s1 out s2 x' reads s3 evs' :
    start now None None s = (s1, Ok ()) ->
    pending_output s1 = (s2, Ok out) ->
    _handle_glimpse [out] (new_conn x) = (x', Ok ()) ->
    concat (map fst reads) = concat (x_out x') ->
    on_reads reads (s2, evs) = ((s3, evs'), Ok ()) ->
    glimpse_connection (x, (s, evs)) (x', (s3, evs')).

(** The payloads of the messages the callbacks reported, in order. *)
Definition payloads (w : world) : list bytes := (delivered w.2.2).*2.

Lemma numbered_from_payloads n ms : (numbered_from n ms).*2 = ms.
Proof.
  unfold numbered_from. generalize Z.of_nat as f. intros f. revert f.
  induction ms as [|m ms IH]; intros f; [done|]. cbn. f_equal. apply (IH (f ∘ S)).
Qed.

Lemma glimpse_delivers x w snap n g :
  x_stopping x = false -> text_ok is_ws 10 (x_session_id x) = true ->
  packet_ok (LoginRequest (x_username x) (x_password x) "" 1) = true ->
  build_snapshot x = Ok (snap, n) -> encode_msg (EndOfSnapshot n) = Ok g ->
  Forall (fun m => zlen m < 65535) (snap ++ [g]) ->
  glimpse_connection (x, (session_init (x_username x) (x_password x) "" 1, [])) w ->
  same_sim x w.1 /\ delivered w.2.2 = numbered_from 1 (snap ++ [g]).
Proof.
  intros Hst Hsid Hp Hb Hg Hms Hc. inversion Hc as [? ? ? now s1 out s2 x' reads s3 evs' Hs Ho Hsrv Hpre Hrd]; subst.
  destruct (start_ok now (session_init (x_username x) (x_password x) "" 1) eq_refl Hp) as (body & E1 & Eb & _).
  rewrite E1 in Hs. injection Hs as <-. injection Ho as <- <-. cbn [_out app session_init] in Hsrv.
  cbn [username password session_id next_seq session_init] in Eb.
  assert (framed body = wire_of (LoginRequest (x_username x) (x_password x) "" 1)) as Hbody
    by (unfold wire_of; by rewrite Eb).
  rewrite Hbody in Hsrv.
  destruct (handle_glimpse_ok (new_conn x) 1 snap n g) as (x1 & E2 & Hs1 & Ho1); try done.
  cbn [x_username x_password new_conn] in E2. rewrite E2 in Hsrv. injection Hsrv as ->.
  set (ps := glimpse_answer (new_conn x) snap g) in *.
  assert (forallb packet_ok ps = true) as Hps.
  { unfold ps, glimpse_answer. cbn [forallb packet_ok x_session_id new_conn]. rewrite Hsid. cbn.
    apply forallb_forall. intros p Hin%list_elem_of_In. apply list_elem_of_fmap in Hin as (m & -> & Hm).
    cbn. apply Z.ltb_lt. rewrite Forall_forall in Hms. by apply Hms. }
  destruct (reads_prefix ps reads [] Hps) as (buf & ps1 & ps2 & Hfeed & Eps & Hnil).
  { by rewrite app_nil_r, Hpre, Ho1. }
  rewrite (Hnil eq_refl), app_nil_r in Eps. subst ps1.
  match type of Hrd with on_reads _ (?sess, _) = _ => set (s5 := sess) in Hrd end.
  destruct (on_reads_rec reads s5 [] buf ps Hfeed) as (s4 & E4 & _). rewrite E4 in Hrd. injection Hrd as -> <-.
  cbn [fst snd]. split; [etransitivity; [|exact Hs1]; done|].
  unfold ps, glimpse_answer. cbn [packet_events packet_event packet_seq app].
  rewrite packet_events_data, <- delivered_numbered. done.
Qed.

(** * Property *)

(** C1. A client started in the middle of the day.  It takes the GLIMPSE snapshot, then
    asks the ITCH server for the sequence number of the snapshot's end mark; its
    connections may drop at any byte before the last one runs to its end.  The
    payloads it was given, applied in order, are the market of a client that saw the
    whole day: same clock, instruments, tick tables, live orders and books, and a
    tape of exactly the executions after the cut. *)
Theorem day_from_snapshot x ms tape_max wg seq w w' :
  plain x -> zlen ms + 1 < 2 ^ 64 ->
  text_ok is_ws 10 (x_session_id x) = true ->
  packet_ok (LoginRequest (x_username x) (x_password x) "" 1) = true ->
  decodes (x_messages x) ms -> forallb boot_ok ms = true ->
  glimpse_connection (x, (session_init (x_username x) (x_password x) "" 1, [])) wg ->
  Itch.decode (List.last (payloads wg) []) = Ok (EndOfSnapshot seq) ->
  rtc (connection false) (wg.1, (session_init (x_username x) (x_password x) "" seq, [])) w ->
  connection true w w' -> x_drop_after x = None \/ x_dropped w.1 = true ->
  exists k1 k2,
    apply_raw (x_messages x) (market_init tape_max) = (k1, Ok ()) /\
    apply_raw (payloads wg ++ payloads w') (market_init tape_max) = (k2, Ok ()) /\
    same_market ms (snapshot_cut x) k1 k2.
Proof.
  intros Hpl Hlen Hsid Hp Hd Hb Hg Hend Hr Hc Hdrop.
  destruct (boot_markets x ms tape_max Hd Hb Hlen) as (snap & g & k1 & k2 & Es & Eg & Dg & Hsh & E1 & E2 & Hk).
  destruct (glimpse_delivers x wg snap _ g (proj2 Hpl) Hsid Hp Es Eg Hsh Hg) as [Hsame Hdel].
  assert (payloads wg = snap ++ [g]) as Hpw by (unfold payloads; by rewrite Hdel, numbered_from_payloads).
  rewrite Hpw, last_last, Dg in Hend. injection Hend as Hseq.
  pose proof Hsame as (Em & Eu & Ep & Ei & Esp & Eda & Est & Ecut).
  set (cut := snapshot_cut x) in *.
  assert (zlen (x_messages x) = zlen ms) as Hzl by (unfold zlen; by rewrite (Forall2_length _ _ _ Hd)).
  destruct (deliveries wg.1 cut w) as (k & _ & Hfin).
  - destruct Hpl. by split; congruence.
  - rewrite Em. by eapply decodes_short.
  - rewrite Em, Hzl. lia.
  - by rewrite Ei.
  - rewrite Em. unfold cut, snapshot_cut. lia.
  - by rewrite Eu, Ep.
  - rewrite Eu, Ep. replace (1 + Z.of_nat cut) with seq by lia. done.
  - destruct (Hfin w' Hc) as [Hw' _]; [by rewrite Eda|].
    exists k1, k2. split; [done|]. split; [|done].
    rewrite Hpw. unfold payloads. rewrite Hw', numbered_from_payloads, Em, <- app_assoc. exact E2.
Qed.

(** The morning of Bootstrap: the GLIMPSE session, then an ITCH connection that drops
    in the middle of a packet, then one that runs to its end. *)
Definition glimpse_connect (x : ExchangeSimulator) (s : SoupSession) : world :=
  let s1 := fst (start 0 None None s) in
  let x' := fst (_handle_glimpse [_out s1] (new_conn x)) in
  (x', fst (on_reads [(concat (x_out x'), 0)] (ss_out [] s1, []))).

Lemma glimpse_connect_connection x s :
  snd (start 0 None None s) = Ok () ->
  snd (_handle_glimpse [_out (fst (start 0 None None s))] (new_conn x)) = Ok () ->
  snd (on_reads [(concat (x_out (glimpse_connect x s).1), 0)] (ss_out [] (fst (start 0 None None s)), [])) = Ok () ->
  glimpse_connection (x, (s, [])) (glimpse_connect x s).
Proof.
  intros H1 H2 H3. unfold glimpse_connect in *.
  destruct (start 0 None None s) as [s1 r1] eqn:E1. cbn [fst snd] in *. subst r1.
  destruct (_handle_glimpse [_out s1] (new_conn x)) as [x' r2] eqn:E2. cbn [fst snd] in *. subst r2.
  destruct (on_reads _ _) as [[s3 evs'] r3] eqn:E3. cbn [fst snd] in *. subst r3.
  eapply (GlimpseConnection _ _ _ 0 _ _ _ _ [(concat (x_out x'), 0)]);
    [exact E1|reflexivity|exact E2| |exact E3].
  cbn [map fst concat]. by rewrite app_nil_r.
Qed.

Definition morning_glimpse : world := Eval vm_compute in glimpse_connect morning_sim (session_init "U" "P" "" 1).

Definition morning_start : world := (morning_glimpse.1, (session_init "U" "P" "" 10, [])).
Definition morning_mid : world := Eval vm_compute in demo_connect 40 morning_start.

Lemma morning_glimpse_connection : glimpse_connection (morning_sim, (session_init "U" "P" "" 1, [])) morning_glimpse.
Proof.
  replace morning_glimpse with (glimpse_connect morning_sim (session_init "U" "P" "" 1)) by (vm_compute; reflexivity).
  apply glimpse_connect_connection; vm_compute; reflexivity.
Qed.

Lemma day_from_snapshot_witness : exists k1 k2,
  apply_raw (x_messages morning_sim) (market_init 10) = (k1, Ok ()) /\
  apply_raw (payloads morning_glimpse ++ payloads (demo_connect 1000 morning_mid)) (market_init 10) = (k2, Ok ()) /\
  same_market morning 9 k1 k2.
Proof.
  apply (day_from_snapshot morning_sim morning 10 morning_glimpse 10 morning_mid).
  - by split.
  - vm_compute. reflexivity.
  - vm_compute. reflexivity.
  - vm_compute. reflexivity.
  - exact morning_decodes.
  - vm_compute. reflexivity.
  - exact morning_glimpse_connection.
  - vm_compute. reflexivity.
  - apply rtc_once, (demo_connection false 40 morning_start); [vm_compute; reflexivity..|].
    exists (drop 40 (demo_answer 1000 morning_start)). vm_compute. reflexivity.
  - apply (demo_connection true); vm_compute; reflexivity.
  - left. reflexivity.
Defined.
