(* ===== verification/Records.v ===== *)
(** jnxweb/records.py: the record wire format of the multicast feed and of the
    database link, decoded into dicts and encoded from them.

    A decoded record is the insertion-ordered dict the source builds, as its list
    of items.  [encode_record] reads its argument with [rec.get(key, default)]: a
    missing key is the default, and a value of the wrong type raises. *)
From S2P Require Export PyBytes PyDict.

Definition RECORD_MAGIC : Z := 0x4A58.
Definition RECORD_VERSION : Z := 2.
Definition RECORD_HEADER_SIZE : nat := 8.

Definition KIND_UPDATE : str := "U".
Definition KIND_ORDER : str := "O".
Definition KIND_TICK : str := "K".
Definition KIND_SYNC_BEGIN : str := "B".
Definition KIND_SYNC_END : str := "E".
Definition KIND_GET_STATE : str := "G".
Definition KIND_HELLO : str := "H".
Definition KIND_RESET : str := "R".

Definition BOOK_DEPTH : nat := 10.
Definition NO_PRICE : Z := 0x7FFFFFFF.

(** * The struct formats *)

Definition _HEADER : list code := [U 2; U 1; Cx; U 2; U 2].
Definition update_head : list code :=
  [U 8; U 8; Sx 10; U 8; U 8; Cx; Sx 4; Sx 4; Sx 12; U 4; U 4; U 1; U 4; U 4; U 1; Cx; Cx; U 4; Cx; U 4; U 1; U 1].
Definition update_tail : list code :=
  [U 8; U 8; U 4; U 4; U 4; U 4; U 8; U 8; U 8; U 8; U 4; Cx; U 8; U 8; Cx; U 4; U 4; Cx].
Definition _UPDATE_BODY : list code := update_head ++ replicate 60 (U 4) ++ update_tail.
Definition _ORDER_BODY : list code := [U 8; Sx 4; Sx 4; Cx; U 4; U 4; Cx].
Definition _TICK_BODY : list code := [U 4; U 4; U 4].
Definition _HELLO_BODY : list code := [U 8; U 8].
Definition _SYNC_END_BODY : list code := [Sx 10; U 8; U 8].

Definition BODY_SIZES : list (str * nat) := [
  (KIND_UPDATE, calcsize _UPDATE_BODY); (KIND_ORDER, calcsize _ORDER_BODY); (KIND_TICK, calcsize _TICK_BODY);
  (KIND_SYNC_BEGIN, 0%nat); (KIND_SYNC_END, calcsize _SYNC_END_BODY); (KIND_GET_STATE, 0%nat);
  (KIND_HELLO, calcsize _HELLO_BODY); (KIND_RESET, 0%nat)].

(** The import-time assertions. *)
Definition sizes_pinned : bool :=
  (calcsize _UPDATE_BODY =? 429)%nat && (calcsize _ORDER_BODY =? 26)%nat && (calcsize _TICK_BODY =? 12)%nat
  && (calcsize _HELLO_BODY =? 16)%nat && (calcsize _SYNC_END_BODY =? 26)%nat.

(** * Dicts *)

Abbreviation level := (Z * Z * Z)%type.
Inductive rval : Type := RInt (z : Z) | RStr (s : str) | RLevels (l : list level).
Definition rdict : Type := list (str * rval).

#[export] Instance rval_eq_dec : EqDecision rval.
Proof. solve_decision. Defined.

(** * Decoding *)

Definition _alpha (raw : sval) : res rval :=
  match raw with
  | VBytes l => s ← decode_ascii l; Ok (RStr (rstrip_spaces s))
  | VInt _ => Raise AttributeError
  end.
Definition _char (raw : sval) : res rval :=
  match raw with VBytes l => Ok (RStr (decode_latin1 l)) | VInt _ => Raise AttributeError end.
(** An integer the struct unpacked. *)
Definition _int (raw : sval) : res rval :=
  match raw with VInt z => Ok (RInt z) | VBytes _ => Raise TypeError end.

(** One item of the dict: [rec\[key\] = conv(v\[i\])]. *)
Definition item (v : list sval) (key : str) (conv : sval -> res rval) (i : nat) : res (str * rval) :=
  x ← get_at i v; y ← conv x; Ok (key, y).

Definition read_item (v : list sval) (f : str * (sval -> res rval) * nat) : res (str * rval) :=
  item v f.1.1 f.1.2 f.2.

(** [bids.append((v\[i\], v\[i + 1\], v\[i + 2\]))], [n] times. *)
Fixpoint read_levels (n : nat) (i : nat) (v : list sval) : res (list level) :=
  match n with
  | O => Ok []
  | S n' =>
      a ← get_at i v; b ← get_at (i + 1) v; c ← get_at (i + 2) v;
      ls ← read_levels n' (i + 3) v;
      match a, b, c with
      | VInt a, VInt b, VInt c => Ok ((a, b, c) :: ls)
      | _, _, _ => Raise TypeError
      end
  end.

Definition decode_header (buf : bytes) : res (str * nat) :=
  if (length buf <? RECORD_HEADER_SIZE)%nat then Raise RecordError
  else
    h ← struct_unpack Big _HEADER (take RECORD_HEADER_SIZE buf);
    match h with
    | [VInt magic; VInt version; VBytes kind_b; VInt body_len; VInt _] =>
        if negb (magic =? RECORD_MAGIC) then Raise RecordError
        else if negb (version =? RECORD_VERSION) then Raise RecordError
        else
          let kind := decode_latin1 kind_b in
          match dget kind BODY_SIZES with
          | None => Raise RecordError
          | Some size => if negb (body_len =? Z.of_nat size) then Raise RecordError else Ok (kind, size)
          end
    | _ => Raise StructError
    end.

Definition items_envelope (v : list sval) : res rdict :=
  rmap (read_item v) [
    ("epoch", _int, 0%nat); ("pub_seq", _int, 1%nat); ("session", _alpha, 2%nat); ("exch_seq", _int, 3%nat);
    ("exch_ns", _int, 4%nat); ("trigger", _char, 5%nat); ("ticker", _alpha, 6%nat); ("group", _alpha, 7%nat);
    ("isin", _alpha, 8%nat); ("round_lot", _int, 9%nat); ("tick_table_id", _int, 10%nat);
    ("price_decimals", _int, 11%nat); ("upper_limit", _int, 12%nat); ("lower_limit", _int, 13%nat);
    ("flags", _int, 14%nat); ("trading_state", _char, 15%nat); ("short_sell_restriction", _char, 16%nat);
    ("reference_price", _int, 17%nat); ("last_system_event", _char, 18%nat); ("short_sell_price", _int, 19%nat);
    ("level_count_bid", _int, 20%nat); ("level_count_ask", _int, 21%nat)].

Definition items_rest (v : list sval) (i : nat) : res rdict :=
  rmap (read_item v) [
    ("total_bid_qty", _int, (i + 0)%nat); ("total_ask_qty", _int, (i + 1)%nat); ("total_bid_orders", _int, (i + 2)%nat);
    ("total_ask_orders", _int, (i + 3)%nat); ("last_price", _int, (i + 4)%nat); ("last_qty", _int, (i + 5)%nat);
    ("last_match_number", _int, (i + 6)%nat); ("last_trade_ns", _int, (i + 7)%nat); ("cum_qty", _int, (i + 8)%nat);
    ("cum_turnover", _int, (i + 9)%nat); ("trade_count", _int, (i + 10)%nat); ("delta_op", _char, (i + 11)%nat);
    ("delta_order_number", _int, (i + 12)%nat); ("delta_orig_order_number", _int, (i + 13)%nat); ("delta_side", _char, (i + 14)%nat);
    ("delta_price", _int, (i + 15)%nat); ("delta_qty", _int, (i + 16)%nat); ("delta_order_type", _char, (i + 17)%nat)].

(** [rec\[k\] > BOOK_DEPTH] for the level counts just stored. *)
Definition count_too_deep (k : str) (rec : rdict) : bool :=
  match dget k rec with Some (RInt n) => Z.of_nat BOOK_DEPTH <? n | _ => false end.

Definition _decode_update_body (body : bytes) : res rdict :=
  v ← struct_unpack Big _UPDATE_BODY body;
  env ← items_envelope v;
  let rec := ("kind", RStr KIND_UPDATE) :: env in
  if count_too_deep "level_count_bid" rec || count_too_deep "level_count_ask" rec then Raise RecordError
  else
    bids ← read_levels BOOK_DEPTH 22 v;
    asks ← read_levels BOOK_DEPTH (22 + 3 * BOOK_DEPTH) v;
    rest ← items_rest v (22 + 6 * BOOK_DEPTH);
    Ok (rec ++ [("bids", RLevels bids); ("asks", RLevels asks)] ++ rest).

Definition _decode_order_body (body : bytes) : res rdict :=
  v ← struct_unpack Big _ORDER_BODY body;
  items ← rmap (read_item v) [
    ("order_number", _int, 0%nat); ("ticker", _alpha, 1%nat); ("group", _alpha, 2%nat); ("side", _char, 3%nat);
    ("price", _int, 4%nat); ("qty_remaining", _int, 5%nat); ("order_type", _char, 6%nat)];
  Ok (("kind", RStr KIND_ORDER) :: items).

Definition _decode_tick_body (body : bytes) : res rdict :=
  v ← struct_unpack Big _TICK_BODY body;
  items ← rmap (read_item v) [
    ("table_id", _int, 0%nat); ("price_start", _int, 1%nat); ("tick_size", _int, 2%nat)];
  Ok (("kind", RStr KIND_TICK) :: items).

Definition _decode_hello_body (body : bytes) : res rdict :=
  v ← struct_unpack Big _HELLO_BODY body;
  items ← rmap (read_item v) [("epoch", _int, 0%nat); ("last_exch_seq", _int, 1%nat)];
  Ok (("kind", RStr KIND_HELLO) :: items).

Definition _decode_sync_end_body (body : bytes) : res rdict :=
  v ← struct_unpack Big _SYNC_END_BODY body;
  items ← rmap (read_item v)
    [("session", _alpha, 0%nat); ("last_exch_seq", _int, 1%nat); ("epoch", _int, 2%nat)];
  Ok (("kind", RStr KIND_SYNC_END) :: items).

Definition _decode_empty_body (kind : str) (body : bytes) : res rdict :=
  match body with [] => Ok [("kind", RStr kind)] | _ => Raise RecordError end.

Definition _BODY_DECODERS : list (str * (bytes -> res rdict)) := [
  (KIND_UPDATE, _decode_update_body); (KIND_ORDER, _decode_order_body); (KIND_TICK, _decode_tick_body);
  (KIND_HELLO, _decode_hello_body); (KIND_SYNC_END, _decode_sync_end_body)].

Definition decode_record (buf : bytes) : res rdict :=
  h ← decode_header buf;
  let '(kind, body_len) := h in
  let total := (RECORD_HEADER_SIZE + body_len)%nat in
  if negb (length buf =? total)%nat then Raise RecordError
  else
    let body := slice RECORD_HEADER_SIZE total buf in
    match dget kind _BODY_DECODERS with
    | None => _decode_empty_body kind body
    | Some decoder => decoder body
    end.

(** The [while offset < n] loop on [data\[offset:\]]; each turn consumes at least a header. *)
Fixpoint stream_loop (fuel : nat) (data : bytes) : res (list rdict) :=
  match fuel, data with
  | _, [] => Ok []
  | O, _ => Raise RuntimeError
  | S fuel', _ =>
      if (length data <? RECORD_HEADER_SIZE)%nat then Raise RecordError
      else
        h ← decode_header (take RECORD_HEADER_SIZE data);
        let total := (RECORD_HEADER_SIZE + h.2)%nat in
        if (length data <? total)%nat then Raise RecordError
        else
          rec ← decode_record (take total data);
          recs ← stream_loop fuel' (drop total data);
          Ok (rec :: recs)
  end.
Definition decode_stream (data : bytes) : res (list rdict) := stream_loop (length data) data.

(** * Encoding *)

Definition _alpha_enc (value : str) (width : nat) : res bytes :=
  raw ← encode_ascii value;
  if (width <? length raw)%nat then Raise RecordError
  else Ok (raw ++ replicate (width - length raw) " "%byte).
Definition _char_enc (value : str) : res bytes :=
  match s2l value with [] => Ok [Byte.x00] | [b] => Ok [b] | _ => Raise RecordError end.

Definition encode_header (kind : str) (body_len : nat) : res bytes :=
  match dget kind BODY_SIZES with
  | None => Raise RecordError
  | Some size =>
      if negb (body_len =? size)%nat then Raise RecordError
      else
        k ← encode_ascii kind;
        struct_pack Big _HEADER [VInt RECORD_MAGIC; VInt RECORD_VERSION; VBytes k; VInt (Z.of_nat body_len); VInt 0]
  end.

(** An argument of [Struct.pack]: [rec.get(key, 0)], [_alpha_enc(rec.get(key, ""), width)]
    and [_char_enc(rec.get(key, ""))]; what is not an integer makes [pack] raise. *)
Inductive conv : Type := CInt | CAlpha (width : nat) | CChar.
Definition arg (rec : rdict) (f : str * conv) : res sval :=
  match f.2, dget f.1 rec with
  | CInt, None => Ok (VInt 0)
  | CInt, Some (RInt z) => Ok (VInt z)
  | CInt, Some _ => Ok (VBytes [])
  | CAlpha w, None => VBytes <$> _alpha_enc "" w
  | CAlpha w, Some (RStr s) => VBytes <$> _alpha_enc s w
  | CAlpha w, Some _ => Raise AttributeError
  | CChar, None => VBytes <$> _char_enc ""
  | CChar, Some (RStr s) => VBytes <$> _char_enc s
  | CChar, Some (RInt z) => if z =? 0 then VBytes <$> _char_enc "" else Raise AttributeError
  | CChar, Some (RLevels l) => match l with [] => VBytes <$> _char_enc "" | _ => Raise AttributeError end
  end.

(** [list(rec.get(key, \[\]))], padded to the book depth. *)
Definition side_levels (rec : rdict) (key : str) : res (list level) :=
  l ← match dget key rec with
      | None => Ok []
      | Some (RLevels l) => Ok l
      | Some _ => Raise TypeError
      end;
  Ok (l ++ replicate (BOOK_DEPTH - length l) (0, 0, 0)).
Definition level_count (rec : rdict) (key : str) : res Z :=
  match dget key rec with None => Ok 0 | Some (RInt z) => Ok z | Some _ => Raise TypeError end.

(** [bids\[i\] if i < n_bid else (0, 0, 0)], for the ten slots. *)
Definition level_values (n : Z) (l : list level) : list sval :=
  concat (map (fun i : nat =>
    let '(px, qty, cnt) := if Z.of_nat i <? n then default (0, 0, 0) (l !! i) else (0, 0, 0) in
    [VInt px; VInt qty; VInt cnt]) (seq 0 BOOK_DEPTH)).

Definition envelope_args : list (str * conv) := [
  ("epoch", CInt); ("pub_seq", CInt); ("session", CAlpha 10); ("exch_seq", CInt); ("exch_ns", CInt);
  ("trigger", CChar); ("ticker", CAlpha 4); ("group", CAlpha 4); ("isin", CAlpha 12); ("round_lot", CInt);
  ("tick_table_id", CInt); ("price_decimals", CInt); ("upper_limit", CInt); ("lower_limit", CInt);
  ("flags", CInt); ("trading_state", CChar); ("short_sell_restriction", CChar); ("reference_price", CInt);
  ("last_system_event", CChar); ("short_sell_price", CInt)].
Definition rest_args : list (str * conv) := [
  ("total_bid_qty", CInt); ("total_ask_qty", CInt); ("total_bid_orders", CInt); ("total_ask_orders", CInt);
  ("last_price", CInt); ("last_qty", CInt); ("last_match_number", CInt); ("last_trade_ns", CInt);
  ("cum_qty", CInt); ("cum_turnover", CInt); ("trade_count", CInt); ("delta_op", CChar);
  ("delta_order_number", CInt); ("delta_orig_order_number", CInt); ("delta_side", CChar);
  ("delta_price", CInt); ("delta_qty", CInt); ("delta_order_type", CChar)].

Definition encode_body (kind : str) (f : list code) (vs : list sval) : res bytes :=
  body ← struct_pack Big f vs; h ← encode_header kind (length body); Ok (h ++ body).

Definition encode_update (rec : rdict) : res bytes :=
  bids ← side_levels rec "bids";
  asks ← side_levels rec "asks";
  n_bid ← level_count rec "level_count_bid";
  n_ask ← level_count rec "level_count_ask";
  if (Z.of_nat BOOK_DEPTH <? n_bid) || (Z.of_nat BOOK_DEPTH <? n_ask) then Raise RecordError
  else
    env ← rmap (arg rec) envelope_args;
    rest ← rmap (arg rec) rest_args;
    encode_body KIND_UPDATE _UPDATE_BODY
      (env ++ [VInt n_bid; VInt n_ask] ++ (level_values n_bid bids ++ level_values n_ask asks) ++ rest).

Definition encode_order (rec : rdict) : res bytes :=
  vs ← rmap (arg rec) [("order_number", CInt); ("ticker", CAlpha 4); ("group", CAlpha 4); ("side", CChar);
                       ("price", CInt); ("qty_remaining", CInt); ("order_type", CChar)];
  encode_body KIND_ORDER _ORDER_BODY vs.
Definition encode_tick (rec : rdict) : res bytes :=
  vs ← rmap (arg rec) [("table_id", CInt); ("price_start", CInt); ("tick_size", CInt)];
  encode_body KIND_TICK _TICK_BODY vs.
Definition encode_hello (rec : rdict) : res bytes :=
  vs ← rmap (arg rec) [("epoch", CInt); ("last_exch_seq", CInt)];
  encode_body KIND_HELLO _HELLO_BODY vs.
Definition encode_sync_end (rec : rdict) : res bytes :=
  vs ← rmap (arg rec) [("session", CAlpha 10); ("last_exch_seq", CInt); ("epoch", CInt)];
  encode_body KIND_SYNC_END _SYNC_END_BODY vs.

Definition encode_control (kind : str) : res bytes :=
  if decide (kind = KIND_SYNC_BEGIN \/ kind = KIND_GET_STATE \/ kind = KIND_RESET) then encode_header kind 0
  else Raise RecordError.

Definition _KIND_ENCODERS : list (str * (rdict -> res bytes)) := [
  (KIND_UPDATE, encode_update); (KIND_ORDER, encode_order); (KIND_TICK, encode_tick);
  (KIND_HELLO, encode_hello); (KIND_SYNC_END, encode_sync_end)].

Definition encode_record (rec : rdict) : res bytes :=
  match dget "kind" rec with
  | Some (RStr kind) =>
      match dget kind _KIND_ENCODERS with
      | Some encoder => encoder rec
      | None => encode_control kind
      end
  | Some (RInt _) | None => Raise RecordError
  | Some (RLevels _) => Raise TypeError
  end.

(** * Lemmas: one field *)

(** A struct field read and written by its code. *)
Definition conv_of (c : code) : sval -> res rval :=
  match c with U _ | I4 => _int | Sx _ => _alpha | Cx => _char end.
Definition arg_of (c : code) : conv := match c with U _ | I4 => CInt | Sx n => CAlpha n | Cx => CChar end.

(** The values a field of the formats above can have on the wire. *)
Definition typed (c : code) (v : sval) : Prop :=
  match c, v with
  | U n, VInt z => 0 <= z < 256 ^ Z.of_nat n
  | Sx n, VBytes l => length l = n
  | Cx, VBytes l => length l = 1%nat
  | _, _ => False
  end.
Definition unsigned (c : code) : bool := match c with I4 => false | _ => true end.

(** The dict values the field can carry. *)
Definition fits (c : code) (y : rval) : bool :=
  match c, y with
  | U n, RInt z => (0 <=? z) && (z <? 256 ^ Z.of_nat n)
  | Sx n, RStr s => forallb is_ascii (s2l s) && (length (s2l s) <=? n)%nat && no_trail is_sp (s2l s)
  | Cx, RStr s => (length (s2l s) =? 1)%nat
  | _, _ => false
  end.

Lemma unpack_typed f l : forallb unsigned f = true -> length l = calcsize f ->
  Forall2 typed f (unpack_fields Big f l).
Proof.
  revert l. induction f as [|c f IH]; intros l Hf Hl; cbn in *; [constructor|].
  apply andb_true_iff in Hf as [Hc Hf]. change (length l = (code_size c + calcsize f)%nat) in Hl.
  constructor; [|apply IH; [done|rewrite length_drop; lia]].
  assert (length (take (code_size c) l) = code_size c) as Ht by (rewrite length_take; lia).
  destruct c; cbn in *; try done. pose proof (be_val_range (take n l)) as H. unfold zlen in H. by rewrite Ht in H.
Qed.

Lemma typed_pack c v : typed c v -> exists b, pack_one Big c v = Ok b.
Proof.
  destruct c, v; cbn; try done; intros H; eauto.
  - rewrite (proj2 (Z.leb_le _ _)), (proj2 (Z.ltb_lt _ _)) by lia. cbn. eauto.
  - destruct l as [|b [|]]; try done. eauto.
Qed.

Lemma typed_sval_ok c v : typed c v -> sval_ok c v.
Proof. by destruct c, v. Qed.

Lemma alpha_enc_ok s n : forallb is_ascii (s2l s) = true -> (length (s2l s) <= n)%nat ->
  _alpha_enc s n = Ok (s2l s ++ replicate (n - length (s2l s)) " "%byte).
Proof.
  intros Ha Hn. unfold _alpha_enc, encode_ascii. rewrite Ha. cbn [mbind res_bind]. by rewrite (proj2 (Nat.ltb_ge _ _)).
Qed.

(** What was decoded from a field is encoded back to the same field. *)
Lemma arg_conv c v y rec k : typed c v -> conv_of c v = Ok y -> dget k rec = Some y ->
  arg rec (k, arg_of c) = Ok v.
Proof.
  intros Ht Hc Hk. unfold arg. destruct c as [n| |n|], v as [z|l]; cbn in Ht, Hc; try done; cbn [fst snd arg_of].
  - injection Hc as <-. by rewrite Hk.
  - unfold decode_ascii in Hc. destruct (forallb is_ascii l) eqn:Ha; [|done]. cbn in Hc. injection Hc as <-.
    rewrite Hk. unfold rstrip_spaces. rewrite s2l_l2s.
    rewrite alpha_enc_ok; rewrite s2l_l2s; [|by apply rstrip_forallb|rewrite <- Ht; apply rstrip_length].
    cbn. do 2 f_equal. rewrite <- Ht. apply pad_rstrip.
  - injection Hc as <-. rewrite Hk. unfold _char_enc, decode_latin1. rewrite s2l_l2s.
    by destruct l as [|b [|]].
Qed.

(** What fits a field is decoded back from it. *)
Lemma conv_arg c y rec k : fits c y = true -> dget k rec = Some y ->
  exists v, arg rec (k, arg_of c) = Ok v /\ typed c v /\ conv_of c v = Ok y.
Proof.
  intros Hf Hk. unfold arg. destruct c as [n| |n|], y as [z|s|ls]; cbn in Hf; try done; cbn [fst snd arg_of];
    rewrite Hk.
  - apply andb_true_iff in Hf. eexists. split; [done|]. cbn. split; [lia|done].
  - rewrite !andb_true_iff in Hf. destruct Hf as [[Ha Hl] Ht]. apply Nat.leb_le in Hl.
    rewrite alpha_enc_ok by done. cbn. eexists. split; [done|]. cbn. split.
    + rewrite length_app, length_replicate. lia.
    + unfold decode_ascii. rewrite forallb_app, Ha, forallb_replicate by done. cbn.
      unfold rstrip_spaces. rewrite s2l_l2s, rstrip_pad by done. by rewrite l2s_s2l.
  - apply Nat.eqb_eq in Hf. unfold _char_enc. destruct (s2l s) as [|b [|]] eqn:Es; try done.
    exists (VBytes [b]). split; [done|]. split; [done|]. cbn [conv_of _char]. unfold decode_latin1.
    by rewrite <- Es, l2s_s2l.
Qed.

(** * Lemmas: a run of fields *)

Definition fields := list (str * code).

(** The item lists of the decoders, from position [i]. *)
Definition specs (i : nat) (fs : fields) : list (str * (sval -> res rval) * nat) :=
  imap (fun j '(k, c) => (k, conv_of c, (i + j)%nat)) fs.
Definition args (fs : fields) : list (str * conv) := map (fun f => (f.1, arg_of f.2)) fs.

(** The items are the fields' keys with the values converted one by one. *)
Definition items_of (fs : fields) (v : list sval) (items : rdict) : Prop :=
  Forall3 (fun f x kv => kv.1 = f.1 /\ conv_of f.2 x = Ok kv.2) fs v items.

Lemma specs_cons i k c fs : specs i ((k, c) :: fs) = (k, conv_of c, (i + 0)%nat) :: specs (S i) fs.
Proof. unfold specs. cbn. f_equal. apply imap_ext. intros ? [] _. cbn. by rewrite Nat.add_succ_r. Qed.

Lemma read_item_lookup (v : list sval) k f i x : v !! i = Some x -> read_item v (k, f, i) = (y ← f x; Ok (k, y)).
Proof. intros H. unfold read_item, item, get_at. cbn [fst snd]. by rewrite H. Qed.

Lemma read_item_at pre x post k f :
  read_item (pre ++ x :: post) (k, f, (length pre + 0)%nat) = (y ← f x; Ok (k, y)).
Proof. apply read_item_lookup. by rewrite Nat.add_0_r, lookup_app_r, Nat.sub_diag by lia. Qed.

Lemma items_spec fs pre w post items : length w = length fs ->
  rmap (read_item (pre ++ w ++ post)) (specs (length pre) fs) = Ok items <-> items_of fs w items.
Proof.
  unfold items_of. revert pre w items. induction fs as [|[k c] fs IH]; intros pre [|x w] items Hl; try done.
  - cbn. split; [intros [= <-]; constructor|by inversion 1].
  - rewrite specs_cons. cbn [rmap app]. rewrite read_item_at.
    specialize (IH (pre ++ [x]) w). rewrite <- app_assoc, length_app, Nat.add_1_r in IH. cbn in IH.
    split.
    + destruct (conv_of c x) as [y|] eqn:Ey; [|done]. cbn.
      destruct (rmap _ _) as [its|] eqn:Er; [|done]. cbn. intros [= <-]. constructor; [done|].
      apply IH; [by injection Hl|done].
    + inversion 1 as [|? ? [k' y] ? ? its [Hk Hy] Hf]; subst. cbn in *. subst. rewrite Hy. cbn.
      apply IH in Hf; [|by injection Hl]. by rewrite Hf.
Qed.

Lemma args_cons k c fs : args ((k, c) :: fs) = (k, arg_of c) :: args fs.
Proof. done. Qed.

Lemma args_of_items fs w items rec : Forall2 typed fs.*2 w -> items_of fs w items ->
  (forall k y, (k, y) ∈ items -> dget k rec = Some y) -> rmap (arg rec) (args fs) = Ok w.
Proof.
  intros Ht Hi Hrec. unfold items_of in Hi. induction Hi as [|[k c] x [k' y] fs w items [Hk Hy] Hi IH].
  - done.
  - inversion Ht; subst. cbn [fst snd] in *. subst. rewrite args_cons. cbn [rmap].
    rewrite (arg_conv c x y rec k); [|done|done|apply Hrec; left].
    cbn [mbind res_bind]. rewrite IH; [done|done|]. intros. apply Hrec. by right.
Qed.

Fixpoint fits_all (fs : fields) (items : rdict) : bool :=
  match fs, items with
  | [], [] => true
  | (k, c) :: fs, (k', y) :: items => bool_decide (k = k') && fits c y && fits_all fs items
  | _, _ => false
  end.

Lemma items_of_args fs items rec : fits_all fs items = true ->
  (forall k y, (k, y) ∈ items -> dget k rec = Some y) ->
  exists w, rmap (arg rec) (args fs) = Ok w /\ Forall2 typed fs.*2 w /\ items_of fs w items.
Proof.
  revert items. induction fs as [|[k c] fs IH]; intros [|[k' y] items] Hf Hrec; try done.
  - exists []. repeat split; constructor.
  - cbn in Hf. rewrite !andb_true_iff, bool_decide_eq_true in Hf. destruct Hf as [[<- Hy] Hf].
    destruct (conv_arg c y rec k Hy) as (v & Ev & Hv & Hc); [apply Hrec; left|].
    destruct (IH items Hf) as (w & Ew & Hw & Hi); [intros; apply Hrec; by right|].
    exists (v :: w). rewrite args_cons. cbn [rmap]. rewrite Ev. cbn [mbind res_bind]. rewrite Ew.
    split; [done|]. split; constructor; done.
Qed.

Lemma items_of_keys fs w items : items_of fs w items -> items.*1 = fs.*1.
Proof. unfold items_of. induction 1 as [|? ? ? ? ? ? [? ?] ? IH]; cbn; congruence. Qed.

Lemma items_of_length fs w items : items_of fs w items -> length w = length fs.
Proof. unfold items_of. induction 1; cbn; congruence. Qed.

Lemma fits_all_keys fs items : fits_all fs items = true -> items.*1 = fs.*1.
Proof.
  revert items. induction fs as [|[k c] fs IH]; intros [|[k' y] items] H; try done. cbn in *.
  rewrite !andb_true_iff, bool_decide_eq_true in H. destruct H as [[<- _] H]. f_equal. by apply IH.
Qed.

Lemma struct_pack_typed f v : Forall2 typed f v -> exists b, struct_pack Big f v = Ok b /\
  struct_unpack Big f b = Ok v.
Proof.
  intros H. assert (exists b, struct_pack Big f v = Ok b) as [b Eb].
  { induction H as [|c x f v Hc H [b Eb]]; cbn; [by eexists|]. destruct (typed_pack c x Hc) as [d ->].
    cbn. rewrite Eb. cbn. by eexists. }
  exists b. split; [done|]. apply struct_unpack_pack with (vs := v); [|done].
  eapply Forall2_impl; [done|]. apply typed_sval_ok.
Qed.

Lemma unpack_typed_ok f l v : forallb unsigned f = true -> struct_unpack Big f l = Ok v -> Forall2 typed f v.
Proof.
  unfold struct_unpack. case_decide; [|done]. intros Hf [= <-]. by apply unpack_typed.
Qed.

(** * Lemmas: the levels *)

Definition flat (ls : list level) : list sval :=
  concat (map (fun l : level => [VInt l.1.1; VInt l.1.2; VInt l.2]) ls).

Lemma read_levels_ok pre ls post :
  read_levels (length ls) (length pre) (pre ++ flat ls ++ post) = Ok ls.
Proof.
  revert pre. induction ls as [|[[a b] c] ls IH]; intros pre; [done|].
  cbn [length read_levels]. unfold get_at.
  assert (forall i X, (pre ++ X) !! (length pre + i)%nat = (X !! i : option sval)) as Hat.
  { intros. rewrite lookup_app_r by lia. f_equal. lia. }
  rewrite <- (Nat.add_0_r (length pre)) at 1. rewrite !Hat.
  change (flat ((a, b, c) :: ls)) with ([VInt a; VInt b; VInt c] ++ flat ls).
  cbn [app lookup list_lookup of_option mbind res_bind].
  specialize (IH (pre ++ [VInt a; VInt b; VInt c])). rewrite length_app, <- app_assoc in IH.
  cbn [length app] in IH. by rewrite IH.
Qed.

Lemma levels_flat n w : Forall2 typed (replicate (3 * n) (U 4)) w ->
  exists ls, length ls = n /\ w = flat ls.
Proof.
  revert w. induction n as [|n IH]; intros w H; [inversion H; by exists []|].
  replace (3 * S n)%nat with (S (S (S (3 * n)))) in H by lia. cbn [replicate] in H.
  inversion H as [|? a ? ? Ha H1]; subst. inversion H1 as [|? b ? ? Hb H2]; subst.
  inversion H2 as [|? c ? ? Hc H3]; subst. destruct (IH _ H3) as (ls & <- & ->).
  destruct a as [a|], b as [b|], c as [c|]; try done. by exists ((a, b, c) :: ls).
Qed.

Definition level_fits (l : level) : bool := fits (U 4) (RInt l.1.1) && fits (U 4) (RInt l.1.2) && fits (U 4) (RInt l.2).

Lemma flat_typed ls : forallb level_fits ls = true -> Forall2 typed (replicate (3 * length ls) (U 4)) (flat ls).
Proof.
  induction ls as [|[[a b] c] ls IH]; cbn [forallb]; [constructor|]. rewrite andb_true_iff. intros [Hl Hls].
  change (flat ((a, b, c) :: ls)) with (VInt a :: VInt b :: VInt c :: flat ls).
  change (length ((a, b, c) :: ls)) with (S (length ls)). generalize dependent (length ls). intros n IH.
  replace (3 * S n)%nat with (S (S (S (3 * n)))) by lia. cbn [replicate].
  unfold level_fits in Hl. cbn [fits fst snd] in Hl.
  rewrite !andb_true_iff, !Z.leb_le, !Z.ltb_lt in Hl. destruct Hl as [[Ha Hb] Hc].
  do 3 (constructor; [cbn [typed]; assumption|]). by apply IH.
Qed.

Lemma map_seq_lookup {A B} (f : nat -> B) (g : A -> B) ls i :
  (forall j x, ls !! j = Some x -> f (i + j)%nat = g x) -> map f (seq i (length ls)) = map g ls.
Proof.
  revert i. induction ls as [|x ls IH]; intros i H; [done|]. cbn. f_equal.
  - rewrite <- (Nat.add_0_r i). by apply H.
  - apply IH. intros j y Hj. rewrite Nat.add_succ_comm. by apply H.
Qed.

Definition zero_level (l : level) : bool := bool_decide (l = (0, 0, 0)).

Lemma level_values_ok n ls : length ls = BOOK_DEPTH -> forallb zero_level (drop (Z.to_nat n) ls) = true ->
  level_values n ls = flat ls.
Proof.
  intros Hl Hz. unfold level_values, flat. rewrite <- Hl. f_equal. apply map_seq_lookup.
  intros j [[a b] c] Hj. cbn [Nat.add]. destruct (Z.ltb_spec (Z.of_nat j) n) as [Hn|Hn].
  { by rewrite Hj. }
  assert ((a, b, c) ∈ drop (Z.to_nat n) ls) as Hin.
  { apply list_elem_of_lookup. exists (j - Z.to_nat n)%nat. rewrite lookup_drop. rewrite <- Hj. f_equal. lia. }
  rewrite forallb_forall in Hz. specialize (Hz _ (proj1 (list_elem_of_In _ _) Hin)).
  apply bool_decide_eq_true in Hz. by injection Hz as -> -> ->.
Qed.

(** * Lemmas: the bodies *)

Definition env_fields : fields := [
  ("epoch", U 8); ("pub_seq", U 8); ("session", Sx 10); ("exch_seq", U 8); ("exch_ns", U 8);
  ("trigger", Cx); ("ticker", Sx 4); ("group", Sx 4); ("isin", Sx 12); ("round_lot", U 4);
  ("tick_table_id", U 4); ("price_decimals", U 1); ("upper_limit", U 4); ("lower_limit", U 4);
  ("flags", U 1); ("trading_state", Cx); ("short_sell_restriction", Cx); ("reference_price", U 4);
  ("last_system_event", Cx); ("short_sell_price", U 4)].
Definition count_fields : fields := [("level_count_bid", U 1); ("level_count_ask", U 1)].
Definition rest_fields : fields := [
  ("total_bid_qty", U 8); ("total_ask_qty", U 8); ("total_bid_orders", U 4); ("total_ask_orders", U 4);
  ("last_price", U 4); ("last_qty", U 4); ("last_match_number", U 8); ("last_trade_ns", U 8);
  ("cum_qty", U 8); ("cum_turnover", U 8); ("trade_count", U 4); ("delta_op", Cx);
  ("delta_order_number", U 8); ("delta_orig_order_number", U 8); ("delta_side", Cx);
  ("delta_price", U 4); ("delta_qty", U 4); ("delta_order_type", Cx)].
Definition flat_fields : list (str * fields) := [
  (KIND_ORDER, [("order_number", U 8); ("ticker", Sx 4); ("group", Sx 4); ("side", Cx); ("price", U 4);
                ("qty_remaining", U 4); ("order_type", Cx)]);
  (KIND_TICK, [("table_id", U 4); ("price_start", U 4); ("tick_size", U 4)]);
  (KIND_HELLO, [("epoch", U 8); ("last_exch_seq", U 8)]);
  (KIND_SYNC_END, [("session", Sx 10); ("last_exch_seq", U 8); ("epoch", U 8)])].

(** A decoder and an encoder of one flat body. *)
Lemma flat_bodies kind fs : dget kind flat_fields = Some fs ->
  exists dec enc,
    dget kind _BODY_DECODERS = Some dec /\ dget kind _KIND_ENCODERS = Some enc /\
    (forall body, dec body = (v ← struct_unpack Big fs.*2 body;
       items ← rmap (read_item v) (specs 0 fs); Ok (("kind", RStr kind) :: items))) /\
    (forall rec, enc rec = (vs ← rmap (arg rec) (args fs); encode_body kind fs.*2 vs)) /\
    dget kind BODY_SIZES = Some (calcsize fs.*2) /\ forallb unsigned fs.*2 = true /\
    NoDup ("kind" :: fs.*1).
Proof.
  unfold flat_fields. cbn [dget].
  repeat (case_decide; [intros [= <-]; subst kind; eexists _, _; split_and!;
    [reflexivity|reflexivity|done|done|reflexivity|reflexivity|by apply (bool_decide_unpack _); vm_compute]|]). done.
Qed.

Lemma update_tables :
  update_head = (env_fields ++ count_fields).*2 /\ update_tail = rest_fields.*2 /\
  forallb unsigned _UPDATE_BODY = true /\
  NoDup (("kind" :: (env_fields ++ count_fields).*1) ++ ["bids"; "asks"] ++ rest_fields.*1).
Proof. split_and!; [done|done|done|]. apply (bool_decide_unpack _). by vm_compute. Qed.

(** The dict of an UPDATE, with the levels. *)
Definition update_dict (env : rdict) (nb na : Z) (bids asks : list level) (rest : rdict) : rdict :=
  (("kind", RStr KIND_UPDATE) :: env ++ [("level_count_bid", RInt nb); ("level_count_ask", RInt na)])
  ++ [("bids", RLevels bids); ("asks", RLevels asks)] ++ rest.

Lemma update_keys env nb na bids asks rest : env.*1 = env_fields.*1 -> rest.*1 = rest_fields.*1 ->
  NoDup (dkeys (update_dict env nb na bids asks rest)).
Proof.
  intros He Hr. unfold dkeys, update_dict. rewrite !fmap_app, fmap_cons, fmap_app, He, Hr. apply update_tables.
Qed.

Definition deep (nb na : Z) : bool := (Z.of_nat BOOK_DEPTH <? nb) || (Z.of_nat BOOK_DEPTH <? na).

(** The two level counts of a decoded envelope. *)
Lemma counts_too_deep env nb na : env.*1 = env_fields.*1 ->
  let rec := ("kind", RStr KIND_UPDATE) :: env ++ [("level_count_bid", RInt nb); ("level_count_ask", RInt na)] in
  count_too_deep "level_count_bid" rec || count_too_deep "level_count_ask" rec = deep nb na.
Proof.
  intros He rec. unfold count_too_deep.
  assert (NoDup (dkeys rec)) as Hnd.
  { unfold rec, dkeys. rewrite fmap_cons, fmap_app, He. apply (bool_decide_unpack _). by vm_compute. }
  rewrite (elem_dget "level_count_bid" (RInt nb)), (elem_dget "level_count_ask" (RInt na)); try done;
    right; apply elem_of_app; right; [right; left|left].
Qed.

Lemma flat_length ls : length (flat ls) = (3 * length ls)%nat.
Proof. induction ls as [|[[a b] c] ls IH]; [done|]. change (flat (_ :: ls)) with ([VInt a; VInt b; VInt c] ++ flat ls).
  rewrite length_app, IH. cbn. lia. Qed.

(** The values of an UPDATE body, in their groups. *)
Definition update_vals (v : list sval) (nb na : Z) (bids asks : list level) (w : list sval) : list sval :=
  v ++ [VInt nb; VInt na] ++ flat bids ++ flat asks ++ w.

Record update_shape (v : list sval) (nb na : Z) (bids asks : list level) (w : list sval) : Prop := {
  us_v : Forall2 typed env_fields.*2 v;
  us_nb : typed (U 1) (VInt nb);
  us_na : typed (U 1) (VInt na);
  us_bids : length bids = BOOK_DEPTH;
  us_asks : length asks = BOOK_DEPTH;
  us_w : Forall2 typed rest_fields.*2 w }.

Lemma update_body_split : _UPDATE_BODY =
  env_fields.*2 ++ [U 1; U 1] ++ replicate (3 * BOOK_DEPTH) (U 4) ++ replicate (3 * BOOK_DEPTH) (U 4) ++ rest_fields.*2.
Proof. reflexivity. Qed.

Lemma update_shape_ok vs : Forall2 typed _UPDATE_BODY vs ->
  exists v nb na bids asks w, vs = update_vals v nb na bids asks w /\ update_shape v nb na bids asks w.
Proof.
  rewrite update_body_split. intros Eu.
  apply Forall2_app_inv_l in Eu as (v & r1 & Hv & H1 & ->).
  apply Forall2_app_inv_l in H1 as (cs & r2 & Hc & H2 & ->).
  apply Forall2_app_inv_l in H2 as (lb & r3 & Hb & H3 & ->).
  apply Forall2_app_inv_l in H3 as (la & w & Ha & Hw & ->).
  apply levels_flat in Hb as (bids & Lb & ->). apply levels_flat in Ha as (asks & La & ->).
  inversion Hc as [|? nb ? ? Hn1 Hc2]; subst. inversion Hc2 as [|? na ? ? Hn2 Hc3]; subst. inversion Hc3; subst.
  destruct nb as [nb|], na as [na|]; try done. exists v, nb, na, bids, asks, w. by split.
Qed.

Lemma Ok_items (fs : fields) (w : list sval) (env : rdict) :
  (forall items, length w = length fs -> Ok env = Ok items <-> items_of fs w items) ->
  length w = length fs -> items_of fs w env.
Proof. intros H Hl. by apply H. Qed.

(** The decoder on the grouped values. *)
Lemma decode_update_spec body v nb na bids asks w rec : update_shape v nb na bids asks w ->
  struct_unpack Big _UPDATE_BODY body = Ok (update_vals v nb na bids asks w) ->
  _decode_update_body body = Ok rec <->
  exists env rest, deep nb na = false /\ items_of env_fields v env /\ items_of rest_fields w rest /\
    rec = update_dict env nb na bids asks rest.
Proof.
  intros [Hv _ _ Lb La Hw] Eu.
  pose proof (Forall2_length _ _ _ Hv) as Lv. change (20%nat = length v) in Lv.
  pose proof (Forall2_length _ _ _ Hw) as Lw. change (18%nat = length w) in Lw.
  unfold _decode_update_body. rewrite Eu. cbn [mbind res_bind].
  set (vs := update_vals v nb na bids asks w).
  assert (items_envelope vs = (env ← rmap (read_item vs) (specs 0 env_fields);
    Ok (env ++ [("level_count_bid", RInt nb); ("level_count_ask", RInt na)]))) as ->.
  { change (items_envelope vs) with
      (rmap (read_item vs) (specs 0 env_fields ++ [("level_count_bid", _int, 20%nat); ("level_count_ask", _int, 21%nat)])).
    assert (vs !! 20%nat = Some (VInt nb) /\ vs !! 21%nat = Some (VInt na)) as [Hl1 Hl2].
    { unfold vs, update_vals. by split; rewrite lookup_app_r, <- Lv by lia. }
    rewrite rmap_app. cbn [rmap]. by rewrite (read_item_lookup _ _ _ _ _ Hl1), (read_item_lookup _ _ _ _ _ Hl2). }
  pose proof (items_spec env_fields [] v ([VInt nb; VInt na] ++ flat bids ++ flat asks ++ w)) as He.
  change (length []) with 0%nat in He. change (([] : list sval) ++ ?l) with l in He. fold (update_vals v nb na bids asks w) in He. fold vs in He.
  assert (items_rest vs (22 + 6 * BOOK_DEPTH) = rmap (read_item vs) (specs 82 rest_fields)) as -> by reflexivity.
  pose proof (items_spec rest_fields (v ++ [VInt nb; VInt na] ++ flat bids ++ flat asks) w []) as Hr.
  rewrite app_nil_r, <- !app_assoc in Hr. fold (update_vals v nb na bids asks w) in Hr. fold vs in Hr.
  rewrite !length_app, !flat_length, Lb, La, <- Lv in Hr. cbn [length Nat.add Nat.mul BOOK_DEPTH] in Hr.
  assert (read_levels BOOK_DEPTH 22 vs = Ok bids) as Hb.
  { pose proof (read_levels_ok (v ++ [VInt nb; VInt na]) bids (flat asks ++ w)) as H.
    rewrite length_app, <- Lv, Lb, <- app_assoc in H. exact H. }
  assert (read_levels BOOK_DEPTH (22 + 3 * BOOK_DEPTH) vs = Ok asks) as Ha.
  { pose proof (read_levels_ok (v ++ [VInt nb; VInt na] ++ flat bids) asks w) as H.
    rewrite !length_app, flat_length, <- Lv, La, Lb, <- !app_assoc in H. exact H. }
  rewrite Hb, Ha. split.
  - destruct (rmap (read_item vs) (specs 0 env_fields)) as [env|] eqn:Ee; [|done]. cbn [mbind res_bind].
    apply Ok_items in He; [|by rewrite <- Lv]. pose proof (items_of_keys _ _ _ He) as Ke.
    rewrite (counts_too_deep _ _ _ Ke). destruct (deep nb na); [done|].
    destruct (rmap (read_item vs) (specs 82 rest_fields)) as [rest|] eqn:Er; [|done]. cbn [mbind res_bind].
    apply Ok_items in Hr; [|by rewrite <- Lw]. intros [= <-]. by exists env, rest.
  - intros (env & rest & Hd & Hie & Hir & ->). pose proof (items_of_keys _ _ _ Hie) as Ke.
    apply He in Hie; [|by rewrite <- Lv]. apply Hr in Hir; [|by rewrite <- Lw].
    rewrite Hie. cbn [mbind res_bind]. rewrite (counts_too_deep _ _ _ Ke), Hd, Hir. done.
Qed.

Definition unused_zero (n : Z) (ls : list level) : bool := forallb zero_level (drop (Z.to_nat n) ls).

(** The encoder on a dict with the decoder's shape. *)
Lemma encode_update_spec v nb na bids asks w env rest : update_shape v nb na bids asks w ->
  items_of env_fields v env -> items_of rest_fields w rest -> deep nb na = false ->
  unused_zero nb bids = true -> unused_zero na asks = true ->
  encode_update (update_dict env nb na bids asks rest)
  = encode_body KIND_UPDATE _UPDATE_BODY (update_vals v nb na bids asks w).
Proof.
  intros [Hv _ _ Lb La Hw] He Hr Hd Zb Za. unfold encode_update.
  pose proof (update_keys env nb na bids asks rest (items_of_keys _ _ _ He) (items_of_keys _ _ _ Hr)) as Hnd.
  set (rec := update_dict env nb na bids asks rest) in *.
  assert (forall k y, (k, y) ∈ rec -> dget k rec = Some y) as Hrec by (intros; by apply elem_dget).
  assert (forall k y, (k, y) ∈ env -> dget k rec = Some y) as Henv.
  { intros k y Hin. apply Hrec. unfold rec, update_dict. apply elem_of_app. left. right. apply elem_of_app. by left. }
  assert (forall k y, (k, y) ∈ rest -> dget k rec = Some y) as Hrest.
  { intros k y Hin. apply Hrec. unfold rec, update_dict. rewrite !elem_of_app. by right; right. }
  assert (dget "bids" rec = Some (RLevels bids) /\ dget "asks" rec = Some (RLevels asks) /\
    dget "level_count_bid" rec = Some (RInt nb) /\ dget "level_count_ask" rec = Some (RInt na)) as (E1 & E2 & E3 & E4).
  { split_and!; apply Hrec; unfold rec, update_dict; rewrite !elem_of_app, !elem_of_cons, !elem_of_app, !elem_of_cons;
      naive_solver. }
  unfold side_levels, level_count. rewrite E1, E2, E3, E4. cbn [mbind res_bind].
  change (_ || _) with (deep nb na). rewrite Hd.
  change envelope_args with (args env_fields). change rest_args with (args rest_fields).
  rewrite (args_of_items _ _ _ _ Hv He Henv), (args_of_items _ _ _ _ Hw Hr Hrest). cbn [mbind res_bind].
  rewrite Lb, La, Nat.sub_diag. cbn [replicate]. rewrite !app_nil_r, !level_values_ok by done.
  unfold update_vals. by rewrite <- !app_assoc.
Qed.

(** ** Headers *)

Lemma header_ok kind size : dget kind BODY_SIZES = Some size ->
  exists h, encode_header kind size = Ok h /\ length h = 8%nat /\ slice 6 8 h = [Byte.x00; Byte.x00] /\
    forall rest, decode_header (h ++ rest) = Ok (kind, size).
Proof.
  unfold BODY_SIZES. cbn [dget].
  repeat (case_decide; [intros [= <-]; subst kind; eexists; split_and!;
    [vm_compute; reflexivity|reflexivity|reflexivity|intros rest; vm_compute; reflexivity]|]). done.
Qed.

Lemma kind_ascii kind n : dget kind BODY_SIZES = Some n -> encode_ascii kind = Ok (s2l kind).
Proof. unfold BODY_SIZES. cbn [dget]. by repeat (case_decide; [intros _; subst; reflexivity|]). Qed.

Lemma header_canonical buf kind size : decode_header buf = Ok (kind, size) ->
  slice 6 8 buf = [Byte.x00; Byte.x00] ->
  dget kind BODY_SIZES = Some size /\ (8 <= length buf)%nat /\ encode_header kind size = Ok (take 8 buf).
Proof.
  unfold decode_header, RECORD_HEADER_SIZE. destruct (Nat.ltb_spec (length buf) 8) as [|Hl]; [done|].
  intros H Hres.
  do 8 (destruct buf as [|? buf]; [cbn in Hl; lia|]).
  assert (b5 = Byte.x00 /\ b6 = Byte.x00) as [-> ->] by by injection Hres.
  change (take 8 _) with [b; b0; b1; b2; b3; b4; Byte.x00; Byte.x00] in *.
  assert (struct_unpack Big _HEADER [b; b0; b1; b2; b3; b4; Byte.x00; Byte.x00] =
    Ok [VInt (be_val [b; b0]); VInt (be_val [b1]); VBytes [b2]; VInt (be_val [b3; b4]); VInt 0]) as Eu by reflexivity.
  pose proof (struct_pack_unpack _ _ _ _ Eu) as Hp. rewrite Eu in H. cbn [mbind res_bind] in H.
  destruct (Z.eqb_spec (be_val [b; b0]) RECORD_MAGIC) as [Em|]; [|done]. cbn [negb] in H.
  destruct (Z.eqb_spec (be_val [b1]) RECORD_VERSION) as [Ev|]; [|done]. cbn [negb] in H.
  destruct (dget (decode_latin1 [b2]) BODY_SIZES) as [n|] eqn:Ek; [|done].
  destruct (Z.eqb_spec (be_val [b3; b4]) (Z.of_nat n)) as [En|]; [|done]. cbn [negb] in H. injection H as <- <-.
  split; [done|]. split; [done|]. unfold encode_header. rewrite Ek, Nat.eqb_refl, (kind_ascii _ _ Ek).
  cbn [negb mbind res_bind]. unfold decode_latin1. by rewrite s2l_l2s, <- Em, <- Ev, <- En.
Qed.

Lemma encode_body_ok kind f vs body : dget kind BODY_SIZES = Some (calcsize f) -> struct_pack Big f vs = Ok body ->
  exists h, encode_body kind f vs = Ok (h ++ body) /\ encode_header kind (calcsize f) = Ok h /\ length h = 8%nat /\
    slice 6 8 h = [Byte.x00; Byte.x00] /\ forall rest, decode_header (h ++ rest) = Ok (kind, calcsize f).
Proof.
  intros Hk Hp. destruct (header_ok _ _ Hk) as (h & Eh & Lh & Hs & Hd). exists h.
  unfold encode_body. rewrite Hp. cbn [mbind res_bind]. rewrite (struct_pack_length _ _ _ _ Hp), Eh. done.
Qed.

(** [decode_record] of a header and its body. *)
Lemma decode_record_app kind size h body : (forall rest, decode_header (h ++ rest) = Ok (kind, size)) ->
  length h = 8%nat -> length body = size ->
  decode_record (h ++ body) =
  match dget kind _BODY_DECODERS with None => _decode_empty_body kind body | Some dec => dec body end.
Proof.
  intros Hd Hh Hb. unfold decode_record. rewrite Hd. cbn [mbind res_bind]. unfold RECORD_HEADER_SIZE.
  rewrite length_app, Hh, Hb, Nat.eqb_refl. cbn [negb]. unfold slice.
  rewrite drop_app_length' by done. rewrite take_ge by lia. done.
Qed.

(** ** Which dicts are records *)

(** Every field fits its wire field, the levels are ten per side, and the slots
    beyond the level count are zero. *)
Definition levels_ok (n : Z) (ls : list level) : bool :=
  (length ls =? BOOK_DEPTH)%nat && forallb level_fits ls && unused_zero n ls.
Definition rec_ok (rec : rdict) : bool :=
  match rec with
  | (k0, RStr kind) :: items =>
      bool_decide (k0 = "kind") &&
      if decide (kind = KIND_UPDATE) then
        fits_all env_fields (take 20 items) && fits_all rest_fields (drop 24 items) &&
        match take 4 (drop 20 items) with
        | [(k1, RInt nb); (k2, RInt na); (k3, RLevels bids); (k4, RLevels asks)] =>
            bool_decide ((k1, k2, k3, k4) = ("level_count_bid", "level_count_ask", "bids", "asks")) &&
            (0 <=? nb) && (nb <=? 10) && (0 <=? na) && (na <=? 10) && levels_ok nb bids && levels_ok na asks
        | _ => false
        end
      else
        match dget kind flat_fields, items with
        | Some fs, _ => fits_all fs items
        | None, [] => bool_decide (kind = KIND_SYNC_BEGIN \/ kind = KIND_GET_STATE \/ kind = KIND_RESET)
        | None, _ => false
        end
  | _ => false
  end.

(** A record whose bytes [encode_record] gives back: nothing was dropped by
    decoding. *)
Definition lossless (rec : rdict) : bool :=
  match dget "level_count_bid" rec, dget "level_count_ask" rec, dget "bids" rec, dget "asks" rec with
  | Some (RInt nb), Some (RInt na), Some (RLevels bids), Some (RLevels asks) =>
      unused_zero nb bids && unused_zero na asks
  | _, _, _, _ => true
  end.

Lemma update_lossless env nb na bids asks rest : env.*1 = env_fields.*1 -> rest.*1 = rest_fields.*1 ->
  lossless (update_dict env nb na bids asks rest) = unused_zero nb bids && unused_zero na asks.
Proof.
  intros He Hr. pose proof (update_keys env nb na bids asks rest He Hr) as Hnd. unfold lossless.
  rewrite (elem_dget "level_count_bid" (RInt nb)), (elem_dget "level_count_ask" (RInt na)),
    (elem_dget "bids" (RLevels bids)), (elem_dget "asks" (RLevels asks)); [done|done| |done| |done| |done|];
    unfold update_dict; rewrite !elem_of_app, !elem_of_cons, !elem_of_app, !elem_of_cons; naive_solver.
Qed.

(** The flat kinds, in one statement for both directions. *)
Lemma flat_dict_keys kind (fs : fields) (items : rdict) : NoDup ("kind" :: fs.*1) -> items.*1 = fs.*1 ->
  forall k y, (k, y) ∈ items -> dget k (("kind", RStr kind) :: items) = Some y.
Proof.
  intros Hnd Hk k y Hin. apply elem_dget; [|by right]. unfold dkeys. by rewrite fmap_cons, Hk.
Qed.

Lemma kinds kind size : dget kind BODY_SIZES = Some size ->
  kind = KIND_UPDATE \/ (exists fs, dget kind flat_fields = Some fs) \/
  ((kind = KIND_SYNC_BEGIN \/ kind = KIND_GET_STATE \/ kind = KIND_RESET) /\ size = 0%nat).
Proof.
  unfold BODY_SIZES. cbn [dget]. repeat (case_decide; [intros [= <-]; subst kind; vm_compute; eauto 8|]). done.
Qed.

Lemma control_kinds kind : kind = KIND_SYNC_BEGIN \/ kind = KIND_GET_STATE \/ kind = KIND_RESET ->
  dget kind _BODY_DECODERS = None /\ dget kind _KIND_ENCODERS = None /\ dget kind BODY_SIZES = Some 0%nat /\
  encode_control kind = encode_header kind 0.
Proof. by intros [-> |[-> | ->]]. Qed.

(** An UPDATE dict that fits, and the values it is packed to. *)
Lemma update_fits env nb na bids asks rest :
  fits_all env_fields env = true -> fits_all rest_fields rest = true -> 0 <= nb <= 10 -> 0 <= na <= 10 ->
  levels_ok nb bids = true -> levels_ok na asks = true ->
  exists v w, update_shape v nb na bids asks w /\ items_of env_fields v env /\ items_of rest_fields w rest /\
    Forall2 typed _UPDATE_BODY (update_vals v nb na bids asks w).
Proof.
  intros He Hr Hnb Hna Hb Ha. set (rec := update_dict env nb na bids asks rest).
  assert (forall k y, (k, y) ∈ rec -> dget k rec = Some y) as Hrec.
  { intros. apply elem_dget; [|done]. apply update_keys; by apply fits_all_keys. }
  destruct (items_of_args env_fields env rec He) as (v & _ & Hv & Hie).
  { intros k y Hin. apply Hrec. unfold rec, update_dict. apply elem_of_app. left. right. apply elem_of_app. by left. }
  destruct (items_of_args rest_fields rest rec Hr) as (w & _ & Hw & Hir).
  { intros k y Hin. apply Hrec. unfold rec, update_dict. rewrite !elem_of_app. by right; right. }
  unfold levels_ok in Hb, Ha. rewrite !andb_true_iff, Nat.eqb_eq in Hb, Ha.
  destruct Hb as [[Lb Fb] _], Ha as [[La Fa] _].
  exists v, w. split_and!; [split; try done; cbn; lia|done|done|].
  rewrite update_body_split. unfold update_vals.
  apply Forall2_app; [done|]. apply Forall2_app; [repeat constructor; cbn; lia|].
  rewrite <- Lb at 1. rewrite <- La. apply Forall2_app; [by apply flat_typed|]. apply Forall2_app; [by apply flat_typed|done].
Qed.

Lemma update_roundtrip env nb na bids asks rest :
  fits_all env_fields env = true -> fits_all rest_fields rest = true -> 0 <= nb <= 10 -> 0 <= na <= 10 ->
  levels_ok nb bids = true -> levels_ok na asks = true ->
  exists l, encode_update (update_dict env nb na bids asks rest) = Ok l /\
    decode_record l = Ok (update_dict env nb na bids asks rest).
Proof.
  intros He Hr Hnb Hna Hb Ha.
  destruct (update_fits _ _ _ _ _ _ He Hr Hnb Hna Hb Ha) as (v & w & Hs & Hie & Hir & Ht).
  destruct (struct_pack_typed _ _ Ht) as (body & Ep & Eu).
  destruct (encode_body_ok KIND_UPDATE _ _ _ eq_refl Ep) as (h & Eb & _ & Lh & _ & Hd).
  assert (deep nb na = false) as Hdeep by (apply orb_false_iff; rewrite !Z.ltb_ge; change (Z.of_nat BOOK_DEPTH) with 10; lia).
  unfold levels_ok in Hb, Ha. rewrite !andb_true_iff in Hb, Ha.
  exists (h ++ body). rewrite (encode_update_spec _ _ _ _ _ _ _ _ Hs Hie Hir Hdeep) by tauto. split; [done|].
  rewrite (decode_record_app _ _ _ _ Hd Lh) by by eapply struct_pack_length.
  change (_decode_update_body body = Ok (update_dict env nb na bids asks rest)).
  apply (decode_update_spec _ _ _ _ _ _ _ _ Hs Eu). by exists env, rest.
Qed.

Lemma record_roundtrip rec : rec_ok rec = true ->
  exists l, encode_record rec = Ok l /\ decode_record l = Ok rec.
Proof.
  destruct rec as [|[k0 [|kind|]] items]; try done. cbn [rec_ok]. intros [Hk0 H]%andb_true_iff.
  apply bool_decide_eq_true in Hk0 as ->. unfold encode_record. cbn [dget]. rewrite decide_True by done.
  destruct (decide (kind = KIND_UPDATE)) as [->|Hu].
  - rewrite !andb_true_iff in H. destruct H as [[He Hr] Hm].
    destruct (take 4 (drop 20 items)) as [|[k1 [nb| |]] [|[k2 [na| |]] [|[k3 [| |bids]] [|[k4 [| |asks]] [|]]]]] eqn:Em; try done.
    rewrite !andb_true_iff, bool_decide_eq_true in Hm. destruct Hm as [[[[[[Hk Hn1] Hn2] Hn3] Hn4] Hb] Ha].
    injection Hk as -> -> -> ->.
    assert (("kind", RStr KIND_UPDATE) :: items = update_dict (take 20 items) nb na bids asks (drop 24 items)) as ->.
    { unfold update_dict. cbn [app]. f_equal. rewrite <- app_assoc. cbn [app].
      rewrite <- (take_drop 20 items) at 1. f_equal. rewrite <- (take_drop 4 (drop 20 items)), Em, drop_drop. done. }
    apply update_roundtrip; done || lia.
  - destruct (dget kind flat_fields) as [fs|] eqn:Ef.
    + destruct (flat_bodies _ _ Ef) as (dec & enc & Ed & Ee & Hdec & Henc & Hsz & Hun & Hnd).
      rewrite Ee, Henc.
      destruct (items_of_args fs items (("kind", RStr kind) :: items) H) as (w & Ew & Hw & Hi).
      { apply (flat_dict_keys kind fs); [done|]. by apply fits_all_keys. }
      rewrite Ew. cbn [mbind res_bind]. destruct (struct_pack_typed _ _ Hw) as (body & Ep & Eu).
      destruct (encode_body_ok _ _ _ _ Hsz Ep) as (h & Eb & _ & Lh & _ & Hd). exists (h ++ body). split; [done|].
      rewrite (decode_record_app _ _ _ _ Hd Lh) by by eapply struct_pack_length.
      rewrite Ed, Hdec, Eu. cbn [mbind res_bind].
      apply (items_spec fs [] w []) in Hi; [|by eapply items_of_length]. cbn [app length] in Hi.
      rewrite app_nil_r in Hi. by rewrite Hi.
    + destruct items; [|done]. apply bool_decide_eq_true in H.
      destruct (control_kinds _ H) as (E1 & E2 & E3 & E4). rewrite E2, E4.
      destruct (header_ok _ _ E3) as (h & Eh & Lh & _ & Hd). exists h. split; [done|].
      rewrite <- (app_nil_r h) at 1. by rewrite (decode_record_app _ _ _ _ Hd Lh), E1.
Qed.

Lemma decode_header_kind buf kind n : decode_header buf = Ok (kind, n) -> dget kind BODY_SIZES = Some n.
Proof.
  unfold decode_header. destruct (_ <? _)%nat; [done|]. destruct (struct_unpack _ _ _); [|done]. cbn [mbind res_bind].
  intros H. repeat (case_match; try done). by simplify_eq.
Qed.

(** A record that decodes says its own length in its header. *)
Lemma decode_record_length l rec : decode_record l = Ok rec ->
  exists kind n, decode_header l = Ok (kind, n) /\ length l = (8 + n)%nat.
Proof.
  unfold decode_record. destruct (decode_header l) as [[kind n]|]; [|done]. cbn [mbind res_bind].
  destruct (Nat.eqb_spec (length l) (RECORD_HEADER_SIZE + n)) as [E|]; [|done]. intros _. by exists kind, n.
Qed.

(** * Properties *)

(** Every record dict goes over the wire and back: [decode_record] of what
    [encode_record] makes of it is the same dict, items in the same order, and the
    bytes are as long as the kind's frozen size says. *)
Theorem records_roundtrip rec : rec_ok rec = true ->
  exists l kind n, encode_record rec = Ok l /\ decode_record l = Ok rec /\
    dget kind BODY_SIZES = Some n /\ zlen l = 8 + Z.of_nat n /\ sizes_pinned = true.
Proof.
  intros H. destruct (record_roundtrip rec H) as (l & E & D).
  destruct (decode_record_length l rec D) as (kind & n & Eh & El). exists l, kind, n.
  split_and!; [done|done| |unfold zlen; lia|by vm_compute].
  by eapply decode_header_kind.
Qed.

(** A partial dict is completed by the encoder's defaults. *)
Definition demo_partial : rdict :=
  [("kind", RStr KIND_UPDATE); ("epoch", RInt 3); ("pub_seq", RInt 7); ("ticker", RStr "7203");
   ("trigger", RStr "E"); ("level_count_bid", RInt 1); ("bids", RLevels [(10005, 300, 2)])].
Definition demo_wire : bytes := match encode_record demo_partial with Ok l => l | Raise _ => [] end.
Definition demo_update : rdict := match decode_record demo_wire with Ok r => r | Raise _ => [] end.

Lemma records_roundtrip_witness :
  exists l, encode_record demo_update = Ok l /\ decode_record l = Ok demo_update /\ zlen l = 437.
Proof.
  destruct (records_roundtrip demo_update) as (l & kind & n & E & D & _); [vm_compute; reflexivity|].
  exists l. split; [exact E|]. split; [exact D|].
  assert (encode_record demo_update = Ok demo_wire) as E2 by (vm_compute; reflexivity).
  rewrite E2 in E. injection E as <-. vm_compute. reflexivity.
Defined.

(** What decodes is what was encoded: a record whose reserved header bytes and
    unused level slots are zero is the encoding of the dict it decodes to. *)
Theorem records_canonical l rec : decode_record l = Ok rec ->
  slice 6 8 l = [Byte.x00; Byte.x00] -> lossless rec = true -> encode_record rec = Ok l.
Proof.
  unfold decode_record. intros H Hres Hll.
  destruct (decode_header l) as [[kind size]|] eqn:Eh; [|done]. cbn [mbind res_bind] in H.
  destruct (header_canonical _ _ _ Eh Hres) as (Hsz & Hl & Ehd).
  destruct (Nat.eqb_spec (length l) (RECORD_HEADER_SIZE + size)) as [Hlen|]; [|done]. cbn [negb] in H.
  unfold RECORD_HEADER_SIZE in *.
  assert (slice 8 (8 + size) l = drop 8 l) as Hb by (unfold slice; rewrite take_ge; [done|rewrite length_drop; lia]).
  rewrite Hb in H.
  assert (forall f vs, dget kind BODY_SIZES = Some (calcsize f) -> struct_unpack Big f (drop 8 l) = Ok vs ->
    encode_body kind f vs = Ok l) as Henc.
  { intros f vs Hf Hu%struct_pack_unpack. destruct (encode_body_ok _ _ _ _ Hf Hu) as (h & E1 & E2 & _).
    rewrite Hsz in Hf. injection Hf as ->. rewrite Ehd in E2. injection E2 as <-. by rewrite take_drop in E1. }
  destruct (kinds _ _ Hsz) as [->|[[fs Ef]|[Hc ->]]].
  - change (_decode_update_body (drop 8 l) = Ok rec) in H.
    destruct (struct_unpack Big _UPDATE_BODY (drop 8 l)) as [vs|] eqn:Eu;
      [|by unfold _decode_update_body in H; rewrite Eu in H].
    apply (unpack_typed_ok _UPDATE_BODY _ _ eq_refl) in Eu as Ht.
    destruct (update_shape_ok _ Ht) as (v & nb & na & bids & asks & w & -> & Hs).
    apply (decode_update_spec _ _ _ _ _ _ _ _ Hs Eu) in H as (env & rest & Hd & He & Hr & ->).
    rewrite update_lossless in Hll by by eapply items_of_keys. apply andb_true_iff in Hll as [Zb Za].
    change (encode_record (update_dict env nb na bids asks rest)) with (encode_update (update_dict env nb na bids asks rest)).
    rewrite (encode_update_spec _ _ _ _ _ _ _ _ Hs He Hr Hd Zb Za). by apply Henc.
  - destruct (flat_bodies _ _ Ef) as (dec & enc & Ed & Ee & Hdec & Hencr & Hsz' & Hun & Hnd).
    rewrite Ed, Hdec in H. destruct (struct_unpack Big fs.*2 (drop 8 l)) as [w|] eqn:Eu; [|done]. cbn [mbind res_bind] in H.
    destruct (rmap (read_item w) (specs 0 fs)) as [items|] eqn:Ei; [|done]. cbn [mbind res_bind] in H. injection H as <-.
    apply (unpack_typed_ok _ _ _ Hun) in Eu as Ht.
    pose proof (items_spec fs [] w [] items) as Hi. cbn [app length] in Hi. rewrite app_nil_r in Hi.
    apply Hi in Ei; [|rewrite <- (Forall2_length _ _ _ Ht); by rewrite length_fmap].
    unfold encode_record. cbn [dget]. rewrite decide_True by done. rewrite Ee, Hencr.
    rewrite (args_of_items _ _ _ _ Ht Ei); [|apply (flat_dict_keys kind fs); [done|by eapply items_of_keys]].
    cbn [mbind res_bind]. by apply Henc.
  - destruct (control_kinds _ Hc) as (E1 & E2 & E3 & E4). rewrite E1 in H.
    destruct (drop 8 l) as [|b t] eqn:El; [|done]. injection H as <-.
    unfold encode_record. cbn [dget]. rewrite decide_True by done. rewrite E2, E4, Ehd. f_equal.
    rewrite <- (take_drop 8 l) at 2. by rewrite El, app_nil_r.
Qed.

Lemma records_canonical_witness : encode_record demo_update = Ok demo_wire.
Proof.
  apply records_canonical; [vm_compute; reflexivity|vm_compute; reflexivity|vm_compute; reflexivity].
Defined.

(** ** Streams of records *)

Lemma decode_header_take buf : (8 <= length buf)%nat -> decode_header (take 8 buf) = decode_header buf.
Proof.
  intros H. unfold decode_header, RECORD_HEADER_SIZE. rewrite length_take, take_take.
  destruct (Nat.ltb_spec (8 `min` length buf) 8), (Nat.ltb_spec (length buf) 8); try lia. done.
Qed.

Lemma decode_header_app l t kind n : decode_header l = Ok (kind, n) -> decode_header (l ++ t) = Ok (kind, n).
Proof.
  intros H. assert (8 <= length l)%nat as Hl.
  { unfold decode_header, RECORD_HEADER_SIZE in H. by destruct (Nat.ltb_spec (length l) 8). }
  rewrite <- decode_header_take in H by done. rewrite <- decode_header_take by (rewrite length_app; lia).
  by rewrite take_app_le by done.
Qed.

Lemma stream_loop_S fuel data : data <> [] ->
  stream_loop (S fuel) data =
  if (length data <? RECORD_HEADER_SIZE)%nat then Raise RecordError
  else
    h ← decode_header (take RECORD_HEADER_SIZE data);
    let total := (RECORD_HEADER_SIZE + h.2)%nat in
    if (length data <? total)%nat then Raise RecordError
    else rec ← decode_record (take total data); recs ← stream_loop fuel (drop total data); Ok (rec :: recs).
Proof. by destruct data. Qed.

Lemma stream_loop_cons fuel l rest rec : decode_record l = Ok rec ->
  stream_loop (S fuel) (l ++ rest) = (recs ← stream_loop fuel rest; Ok (rec :: recs)).
Proof.
  intros H. destruct (decode_record_length _ _ H) as (kind & n & Eh & El).
  rewrite stream_loop_S by (intros E%(f_equal length); rewrite length_app in E; cbn in E; lia).
  unfold RECORD_HEADER_SIZE in *. rewrite length_app in *.
  destruct (Nat.ltb_spec (length l + length rest) 8); [lia|].
  rewrite decode_header_take by (rewrite length_app; lia). rewrite (decode_header_app _ _ _ _ Eh). cbn [mbind res_bind snd].
  destruct (Nat.ltb_spec (length l + length rest) (8 + n)); [lia|].
  rewrite take_app_length', drop_app_length' by done. by rewrite H.
Qed.

Lemma stream_app recs ls tail fuel : Forall2 (fun r l => decode_record l = Ok r) recs ls ->
  (length (concat ls ++ tail) <= fuel)%nat ->
  exists fuel', (length tail <= fuel')%nat /\
    stream_loop fuel (concat ls ++ tail) = (rs ← stream_loop fuel' tail; Ok (recs ++ rs)).
Proof.
  intros H. revert fuel. induction H as [|r l recs ls Hr _ IH]; intros fuel Hf.
  - exists fuel. split; [done|]. cbn [concat app]. by destruct (stream_loop fuel tail).
  - cbn [concat] in *. rewrite <- app_assoc in *.
    destruct (decode_record_length _ _ Hr) as (kind & n & _ & El).
    destruct fuel as [|fuel]; [rewrite length_app in Hf; lia|].
    destruct (IH fuel) as (fuel' & Hf' & E); [rewrite length_app in Hf; lia|].
    exists fuel'. split; [done|]. rewrite (stream_loop_cons _ _ _ _ Hr), E.
    by destruct (stream_loop fuel' tail).
Qed.

(** A captured stream: the records that were encoded into it come back in order;
    cut anywhere inside one more record, it is rejected. *)
Theorem stream_exact recs ls l rec n : Forall (fun r => rec_ok r = true) recs -> rmap encode_record recs = Ok ls ->
  rec_ok rec = true -> encode_record rec = Ok l -> (0 < n < length l)%nat ->
  decode_stream (concat ls) = Ok recs /\ decode_stream (concat ls ++ take n l) = Raise RecordError.
Proof.
  intros Hok He Hr Hl Hn.
  assert (forall r l, rec_ok r = true -> encode_record r = Ok l -> decode_record l = Ok r) as Hdec.
  { clear. intros r l Hr Hl. destruct (record_roundtrip r Hr) as (l' & E & D). congruence. }
  assert (Forall2 (fun r l => decode_record l = Ok r) recs ls) as Hf.
  { apply rmap_Ok_iff in He. clear - Hok He Hdec. induction He; [constructor|].
    apply Forall_cons in Hok as [? ?]. constructor; auto. }
  split.
  - unfold decode_stream. rewrite <- (app_nil_r (concat ls)). set (fuel := length _).
    destruct (stream_app recs ls [] fuel Hf) as (f & _ & ->); [done|]. destruct f; cbn; by rewrite app_nil_r.
  - unfold decode_stream. set (fuel := length _).
    destruct (stream_app recs ls (take n l) fuel Hf) as (f & Hlf & ->); [done|].
    destruct (decode_record_length _ _ (Hdec _ _ Hr Hl)) as (kind & m & Eh & El).
    rewrite length_take in Hlf. destruct f as [|f]; [lia|].
    assert (take n l <> []) as Hne by (intros E%(f_equal length); rewrite length_take in E; cbn in E; lia).
    rewrite (stream_loop_S _ _ Hne), length_take. unfold RECORD_HEADER_SIZE.
    destruct (Nat.ltb_spec (n `min` length l) 8); [done|].
    rewrite take_take, (Nat.min_l 8 n), decode_header_take, Eh by lia. cbn [mbind res_bind snd].
    by rewrite (proj2 (Nat.ltb_lt _ _)) by lia.
Qed.

Lemma stream_exact_witness :
  decode_stream (demo_wire ++ demo_wire) = Ok [demo_update; demo_update] /\
  decode_stream ((demo_wire ++ demo_wire) ++ take 100 demo_wire) = Raise RecordError.
Proof.
  destruct (stream_exact [demo_update; demo_update] [demo_wire; demo_wire] demo_wire demo_update 100) as [E1 E2].
  - repeat constructor; vm_compute; reflexivity.
  - vm_compute. reflexivity.
  - vm_compute. reflexivity.
  - vm_compute. reflexivity.
  - vm_compute. lia.
  - split; [exact E1|exact E2].
Defined.

(** The reserved header bytes are not kept: a record with other bytes there
    decodes, and is encoded differently. *)
Theorem reserved_not_kept :
  let l := take 6 demo_wire ++ [Byte.x00; Byte.x01] ++ drop 8 demo_wire in
  decode_record l = Ok demo_update /\ encode_record demo_update = Ok demo_wire /\ l <> demo_wire.
Proof. split_and!; [by vm_compute|by vm_compute|]. intros H%(f_equal (slice 6 8)). by vm_compute in H. Qed.

(** A byte above 127 in an alpha field is not a [RecordError]. *)
Lemma alpha_not_record_error :
  decode_record (take 51 demo_wire ++ [Byte.xff] ++ drop 52 demo_wire) = Raise UnicodeDecodeError.
Proof. by vm_compute. Qed.
