(* ===== verification/WebState.v ===== *)
(** jnxweb/state.py and the datagram handler of jnxweb/mcast.py: the latest UPDATE
    per ticker, the trade rings and the feed statistics.

    The two callbacks of [State] are an interface of the world the state lives in
    ([StateCallbacks]); [time.time()] is the argument [now]. *)
From S2P Require Export Records.

Definition TRADE_RING_SIZE : nat := 50.

Record State : Type := mkState {
  tickers : gmap str rdict; _trades : gmap str (list rdict);
  updates : Z; bad : Z; gaps : Z; restarts : Z; snapshots : Z; snapshot_rows : Z;
  last_epoch : option Z; last_restart_ts : option Z; start_ts : Z; _expected_pub_seq : option Z }.

Definition state_init (now : Z) : State := mkState ∅ ∅ 0 0 0 0 0 0 None None now None.

Definition st_maps (t : gmap str rdict) (r : gmap str (list rdict)) (s : State) : State :=
  mkState t r (updates s) (bad s) (gaps s) (restarts s) (snapshots s) (snapshot_rows s) (last_epoch s)
    (last_restart_ts s) (start_ts s) (_expected_pub_seq s).
Definition st_updates (n : Z) (s : State) : State :=
  mkState (tickers s) (_trades s) n (bad s) (gaps s) (restarts s) (snapshots s) (snapshot_rows s) (last_epoch s)
    (last_restart_ts s) (start_ts s) (_expected_pub_seq s).
Definition st_bad (n : Z) (s : State) : State :=
  mkState (tickers s) (_trades s) (updates s) n (gaps s) (restarts s) (snapshots s) (snapshot_rows s) (last_epoch s)
    (last_restart_ts s) (start_ts s) (_expected_pub_seq s).
Definition st_gaps (n : Z) (e : option Z) (s : State) : State :=
  mkState (tickers s) (_trades s) (updates s) (bad s) n (restarts s) (snapshots s) (snapshot_rows s) (last_epoch s)
    (last_restart_ts s) (start_ts s) e.
Definition st_restarts (n : Z) (ts : option Z) (s : State) : State :=
  mkState (tickers s) (_trades s) (updates s) (bad s) (gaps s) n (snapshots s) (snapshot_rows s) (last_epoch s)
    ts (start_ts s) (_expected_pub_seq s).
Definition st_epoch (e : option Z) (s : State) : State :=
  mkState (tickers s) (_trades s) (updates s) (bad s) (gaps s) (restarts s) (snapshots s) (snapshot_rows s) e
    (last_restart_ts s) (start_ts s) None.
Definition st_snapshots (n m : Z) (s : State) : State :=
  mkState (tickers s) (_trades s) (updates s) (bad s) (gaps s) (restarts s) n m (last_epoch s)
    (last_restart_ts s) (start_ts s) (_expected_pub_seq s).

(** * Reading a decoded record *)

(** [rec\[key\]], where the decoders put an int, and where they put a str. *)
Definition rec_item (key : str) (rec : rdict) : res rval := of_option KeyError (dget key rec).
Definition rec_int (key : str) (rec : rdict) : res Z :=
  x ← rec_item key rec; match x with RInt z => Ok z | _ => Raise TypeError end.
Definition rec_str (key : str) (rec : rdict) : res str :=
  x ← rec_item key rec; match x with RStr s => Ok s | _ => Raise TypeError end.
(** [not rec.get(key)] *)
Definition rec_falsy (key : str) (rec : rdict) : bool :=
  match dget key rec with
  | None => true
  | Some (RInt z) => z =? 0
  | Some (RStr s) => bool_decide (s = "")
  | Some (RLevels l) => bool_decide (l = [])
  end.

(** The ring entry of a record's trade. *)
Definition trade_entry (rec : rdict) : res rdict :=
  a ← rec_item "exch_seq" rec; b ← rec_item "exch_ns" rec;
  c ← rec_item "last_price" rec; d ← rec_item "last_qty" rec;
  Ok [("exch_seq", a); ("exch_ns", b); ("price", c); ("qty", d)].

Definition record_bad (s : State) : State := st_bad (bad s + 1) s.
Definition _clear_all (s : State) : State := st_maps ∅ ∅ s.

Class StateOf (W : Type) : Type := { st : W -> State; set_st : State -> W -> W }.
Class StateCallbacks (W : Type) : Type := { on_ticker_update : str -> M W (); on_restart : Z -> M W () }.
Class StateLaws (W : Type) `{StateOf W} : Prop := {
  st_set : forall s w, st (set_st s w) = s;
  set_st_set : forall s s' w, set_st s (set_st s' w) = set_st s w;
  set_st_get : forall w, set_st (st w) w = w }.

Section state.
  Context {W : Type} `{StateOf W} `{StateCallbacks W}.

Definition on_st (f : State -> State) : M W () := mmod (fun w => set_st (f (st w)) w).

(** An epoch change: the old per-ticker state is gone. *)
Definition restart (epoch now : Z) : M W () :=
  on_st _clear_all ;;
  on_st (fun s => st_restarts (restarts s + 1) (Some now) s).

(** The ring of the ticker, made if it is not there, gets the record's trade. *)
Definition append_trade (ticker : str) (rec : rdict) : M W () :=
  w ← mget;
  (match _trades (st w) !! ticker with
   | Some _ => mret ()
   | None => on_st (fun s => st_maps (tickers s) (<[ticker := []]> (_trades s)) s)
   end) ;;
  entry ← mlift (trade_entry rec);
  on_st (fun s =>
    st_maps (tickers s) (<[ticker := deque_append TRADE_RING_SIZE entry (default [] (_trades s !! ticker))]> (_trades s)) s).

Definition apply_update (rec : rdict) (now : Z) : M W () :=
  epoch ← mlift (rec_int "epoch" rec);
  w ← mget;
  (match last_epoch (st w) with
   | Some e => if epoch =? e then mret () else restart epoch now ;; on_restart epoch
   | None => mret ()
   end) ;;
  w ← mget;
  (if decide (last_epoch (st w) = Some epoch) then mret () else on_st (st_epoch (Some epoch))) ;;
  seq ← mlift (rec_int "pub_seq" rec);
  on_st (fun s =>
    let gap := match _expected_pub_seq s with Some e => if e <? seq then seq - e else 0 | None => 0 end in
    st_gaps (gaps s + gap) (Some (seq + 1)) s) ;;
  ticker ← mlift (rec_str "ticker" rec);
  on_st (fun s => st_maps (<[ticker := rec]> (tickers s)) (_trades s) s) ;;
  trigger ← mlift (rec_str "trigger" rec);
  (if decide (trigger = "E") then append_trade ticker rec else mret ()) ;;
  on_st (fun s => st_updates (updates s + 1) s) ;;
  on_ticker_update ticker.

(** [_seed_trade]: [ring\[-1\]] is the newest entry; an empty ring is falsy. *)
Definition _seed_trade (ticker : str) (rec : rdict) : M W () :=
  if rec_falsy "last_trade_ns" rec || rec_falsy "last_qty" rec then mret ()
  else
    w ← mget;
    match last (default [] (_trades (st w) !! ticker)) with
    | Some newest =>
        seq ← mlift (rec_int "exch_seq" rec);
        have ← mlift (match dget "exch_seq" newest with None => Ok 0 | Some (RInt z) => Ok z | Some _ => Raise TypeError end);
        if seq <=? have then mret () else append_trade ticker rec
    | None => append_trade ticker rec
    end.

Definition insert_row (ticker : str) (rec : rdict) : M W bool :=
  on_st (fun s => st_maps (<[ticker := rec]> (tickers s)) (_trades s) s) ;;
  _seed_trade ticker rec ;;
  on_ticker_update ticker ;;
  mret true.

(** The body of the [for] over the snapshot's rows; the result says whether the
    row was merged. *)
Definition merge_row (rec : rdict) : M W bool :=
  ticker ← mlift (rec_str "ticker" rec);
  w ← mget;
  fresher ← mlift (match tickers (st w) !! ticker with
                   | Some cur => a ← rec_int "exch_seq" cur; b ← rec_int "exch_seq" rec; Ok (b <=? a)
                   | None => Ok false
                   end);
  if (fresher : bool) then mret false else insert_row ticker rec.

Definition merge_snapshot (rows : list rdict) (snap_epoch now : Z) : M W Z :=
  w ← mget;
  let live := last_epoch (st w) in
  if match live with Some e => snap_epoch <? e | None => false end then mret 0
  else
    (match live with
     | Some e =>
         if e <? snap_epoch then
           restart snap_epoch now ;; on_st (st_epoch (Some snap_epoch)) ;; on_restart snap_epoch
         else mret ()
     | None => on_st (st_epoch (Some snap_epoch))
     end) ;;
    flags ← mmapM merge_row rows;
    let merged := zlen (filter (fun b : bool => b = true) flags) in
    on_st (fun s => st_snapshots (snapshots s + 1) (snapshot_rows s + merged) s) ;;
    mret merged.

(** ** Queries *)

(** [sorted(self.tickers.keys())] *)
Definition ticker_list (s : State) : list str := merge_sort String.leb (map_to_list (tickers s)).*1.

(** The trades newest first. *)
Definition snapshot (ticker : str) (s : State) : option (rdict * list rdict) :=
  rec ← tickers s !! ticker; Some (rec, reverse (default [] (_trades s !! ticker))).

Definition stats (now : Z) (s : State) : list (str * option Z) :=
  [("updates", Some (updates s)); ("bad", Some (bad s)); ("gaps", Some (gaps s)); ("restarts", Some (restarts s));
   ("snapshots", Some (snapshots s)); ("snapshot_rows", Some (snapshot_rows s)); ("last_epoch", last_epoch s);
   ("tickers", Some (Z.of_nat (size (tickers s)))); ("uptime", Some (now - start_ts s))].

(** ** jnxweb/mcast.py: one datagram *)

Definition _handle_datagram (data : bytes) (now : Z) : M W () :=
  match decode_record data with
  | Raise RecordError => on_st record_bad
  | Raise e => mraise e
  | Ok rec =>
      if decide (dget "kind" rec = Some (RStr KIND_UPDATE)) then apply_update rec now
      else on_st record_bad
  end.

(** The [while True] of [_on_readable] over what [recv] returns until it would block. *)
Definition mcast_on_readable (datagrams : list (bytes * Z)) : M W () :=
  mfor datagrams (fun d => _handle_datagram d.1 d.2).
End state.

(** * Lemmas *)

(** A world that records the callbacks. *)
Inductive web_event : Type := EvTicker (ticker : str) | EvRestart (epoch : Z).
Abbreviation web := (State * list web_event)%type.

#[export] Instance web_state : StateOf web := {| st := fst; set_st := fun s w => (s, w.2) |}.
#[export] Instance web_callbacks : StateCallbacks web := {|
  on_ticker_update := fun t => mmod (fun w => (w.1, w.2 ++ [EvTicker t]));
  on_restart := fun e => mmod (fun w => (w.1, w.2 ++ [EvRestart e])) |}.
#[export] Instance web_laws : StateLaws web.
Proof. split; intros; [done|done|by destruct w]. Qed.

(** What [apply_update] reads of a record. *)
Record upd : Type := mkUpd {
  u_epoch : Z; u_seq : Z; u_ticker : str; u_trigger : str; u_entry : rdict; u_rec : rdict }.
Definition view (rec : rdict) : option upd :=
  match rec_int "epoch" rec, rec_int "pub_seq" rec, rec_str "ticker" rec, rec_str "trigger" rec, trade_entry rec with
  | Ok e, Ok q, Ok t, Ok g, Ok x => Some (mkUpd e q t g x rec)
  | _, _, _, _, _ => None
  end.

(** ** A decoded UPDATE has every key *)

Definition value_of (c : code) (y : rval) : Prop :=
  match c with U _ | I4 => exists z, y = RInt z | Sx _ | Cx => exists s, y = RStr s end.

Lemma items_value fs v items k c : items_of fs v items -> (k, c) ∈ fs ->
  exists y, (k, y) ∈ items /\ value_of c y.
Proof.
  unfold items_of. induction 1 as [|[k' c'] x [k2 y] fs v items [Hk Hy] _ IH]; intros Hin.
  - by apply elem_of_nil in Hin.
  - apply elem_of_cons in Hin as [[= -> ->]|Hin].
    + cbn in Hk, Hy. subst. exists y. split; [left|].
      destruct c' as [?| |?|], x as [z|l]; cbn in Hy; try done; try (injection Hy as <-; by eexists).
      destruct (decode_ascii l); [|done]. injection Hy as <-. by eexists.
    + destruct (IH Hin) as (y' & Hy' & Hv). exists y'. split; [by right|done].
Qed.

Lemma decode_record_update l rec : decode_record l = Ok rec -> dget "kind" rec = Some (RStr KIND_UPDATE) ->
  exists v nb na bids asks w env rest, update_shape v nb na bids asks w /\ items_of env_fields v env /\
    items_of rest_fields w rest /\ rec = update_dict env nb na bids asks rest.
Proof.
  unfold decode_record. destruct (decode_header l) as [[kind size]|] eqn:Eh; [|done]. cbn [mbind res_bind].
  destruct (negb _); [done|]. intros H Hk. apply decode_header_kind in Eh.
  destruct (kinds _ _ Eh) as [->|[[fs Ef]|[Hc ->]]].
  - set (body := slice _ _ _) in H. change (_decode_update_body body = Ok rec) in H.
    destruct (struct_unpack Big _UPDATE_BODY body) as [vs|] eqn:Eu;
      [|by unfold _decode_update_body in H; rewrite Eu in H].
    apply (unpack_typed_ok _UPDATE_BODY _ _ eq_refl) in Eu as Ht.
    destruct (update_shape_ok _ Ht) as (v & nb & na & bids & asks & w & -> & Hs).
    apply (decode_update_spec _ _ _ _ _ _ _ _ Hs Eu) in H as (env & rest & _ & He & Hr & ->).
    by exists v, nb, na, bids, asks, w, env, rest.
  - destruct (flat_bodies _ _ Ef) as (dec & enc & Ed & _ & Hdec & _). rewrite Ed, Hdec in H.
    destruct (struct_unpack _ _ _); [|done]. cbn [mbind res_bind] in H. destruct (rmap _ _); [|done].
    cbn [mbind res_bind] in H. injection H as <-. cbn [dget] in Hk. rewrite decide_True in Hk by done.
    injection Hk as ->. by vm_compute in Ef.
  - destruct (control_kinds _ Hc) as (E1 & _). rewrite E1 in H. unfold _decode_empty_body in H.
    destruct (slice _ _ _); [|done]. injection H as <-. cbn [dget] in Hk. rewrite decide_True in Hk by done.
    injection Hk as ->. by destruct Hc as [?|[?|?]].
Qed.

Lemma decoded_items l rec : decode_record l = Ok rec -> dget "kind" rec = Some (RStr KIND_UPDATE) ->
  forall k c, (k, c) ∈ env_fields \/ (k, c) ∈ rest_fields -> exists y, dget k rec = Some y /\ value_of c y.
Proof.
  intros H Hk. destruct (decode_record_update _ _ H Hk) as (v & nb & na & bids & asks & w & env & rest & _ & He & Hr & Erec).
  pose proof (update_keys env nb na bids asks rest (items_of_keys _ _ _ He) (items_of_keys _ _ _ Hr)) as Hnd.
  rewrite <- Erec in Hnd. intros k c [Hin|Hin].
  - destruct (items_value _ _ _ _ _ He Hin) as (y & Hy & Hc). exists y. split; [|done]. apply elem_dget; [done|].
    rewrite Erec. unfold update_dict. apply elem_of_app. left. right. apply elem_of_app. by left.
  - destruct (items_value _ _ _ _ _ Hr Hin) as (y & Hy & Hc). exists y. split; [|done]. apply elem_dget; [done|].
    rewrite Erec. unfold update_dict. rewrite !elem_of_app. by right; right.
Qed.

Ltac update_item Hv k c y := let E := fresh "E" in
  destruct (Hv k c) as (y & E & ?); [first [left; apply (bool_decide_unpack _); vm_compute; done
                                          |right; apply (bool_decide_unpack _); vm_compute; done]|].

Lemma decoded_view l rec : decode_record l = Ok rec -> dget "kind" rec = Some (RStr KIND_UPDATE) ->
  exists u, view rec = Some u /\ u_rec u = rec.
Proof.
  intros H Hk. pose proof (decoded_items l rec H Hk) as Hv.
  update_item Hv "epoch" (U 8) y1. update_item Hv "pub_seq" (U 8) y2. update_item Hv "ticker" (Sx 4) y3.
  update_item Hv "trigger" Cx y4. update_item Hv "exch_seq" (U 8) y5. update_item Hv "exch_ns" (U 8) y6.
  update_item Hv "last_price" (U 4) y7. update_item Hv "last_qty" (U 4) y8. cbn in *. destruct_and?.
  repeat match goal with H : exists _, _ |- _ => destruct H as [? ->] end.
  unfold view, trade_entry, rec_int, rec_str, rec_item.
  repeat match goal with H : dget _ rec = _ |- _ => rewrite H; clear H end.
  eexists. split; reflexivity.
Qed.

(** ** The feed of updates *)

(** [f] summed over the neighbours of a list. *)
Fixpoint adj_sum {A} (f : A -> A -> Z) (l : list A) : Z :=
  match l with
  | a :: ((b :: _) as t) => f a b + adj_sum f t
  | _ => 0
  end.

Lemma adj_sum_snoc {A} (f : A -> A -> Z) l x :
  adj_sum f (l ++ [x]) = adj_sum f l + match last l with Some y => f y x | None => 0 end.
Proof.
  induction l as [|a l IH]; [done|]. destruct l as [|b l]; [cbn; lia|].
  change (adj_sum f ((a :: b :: l) ++ [x])) with (f a b + adj_sum f ((b :: l) ++ [x])).
  rewrite IH. change (adj_sum f (a :: b :: l)) with (f a b + adj_sum f (b :: l)).
  change (last (a :: b :: l)) with (last (b :: l)). lia.
Qed.

(** The updates since the last epoch change. *)
Fixpoint take_while {A} (p : A -> bool) (l : list A) : list A :=
  match l with [] => [] | a :: l => if p a then a :: take_while p l else [] end.
Definition current (us : list upd) : list upd :=
  match last us with
  | Some u => reverse (take_while (fun v => u_epoch v =? u_epoch u) (reverse us))
  | None => []
  end.

Lemma current_snoc us u :
  current (us ++ [u]) =
  match last us with
  | Some v => (if u_epoch v =? u_epoch u then current us else []) ++ [u]
  | None => [u]
  end.
Proof.
  unfold current at 1. rewrite last_snoc, reverse_snoc. cbn [take_while]. rewrite Z.eqb_refl, reverse_cons.
  destruct (last us) as [v|] eqn:El.
  - apply last_Some in El as [us' ->]. unfold current. rewrite last_snoc.
    destruct (Z.eqb_spec (u_epoch v) (u_epoch u)) as [->|Hne]; [done|].
    rewrite reverse_snoc. cbn [take_while]. by rewrite (proj2 (Z.eqb_neq _ _) Hne).
  - by apply last_None in El as ->.
Qed.

Definition of_ticker (t : str) (us : list upd) : list upd := filter (fun u => u_ticker u = t) us.
Definition trades_of (t : str) (us : list upd) : list rdict :=
  u_entry <$> filter (fun u => u_trigger u = "E") (of_ticker t us).
Definition new_epoch (u v : upd) : Z := if u_epoch u =? u_epoch v then 0 else 1.
Definition gap_between (u v : upd) : Z := if u_epoch u =? u_epoch v then Z.max 0 (u_seq v - (u_seq u + 1)) else 0.

(** The callbacks of one update after another. *)
Fixpoint feed_events (prev : option upd) (us : list upd) : list web_event :=
  match us with
  | [] => []
  | u :: us =>
      match prev with
      | Some p => if u_epoch p =? u_epoch u then [] else [EvRestart (u_epoch u)]
      | None => []
      end ++ EvTicker (u_ticker u) :: feed_events (Some u) us
  end.

Lemma feed_events_snoc prev us u : feed_events prev (us ++ [u]) =
  feed_events prev us ++
  match (match last us with Some v => Some v | None => prev end) with
  | Some p => if u_epoch p =? u_epoch u then [] else [EvRestart (u_epoch u)]
  | None => []
  end ++ [EvTicker (u_ticker u)].
Proof.
  revert prev. induction us as [|v us IH]; intros prev; cbn [feed_events app].
  - reflexivity.
  - rewrite IH, last_cons, <- app_assoc. cbn [app]. by destruct (last us).
Qed.

(** The state after a feed. *)
Record feed_state (us : list upd) (s : State) : Prop := {
  fs_tickers : forall t, tickers s !! t = u_rec <$> last (of_ticker t (current us));
  fs_trades : forall t, default [] (_trades s !! t) = lastn TRADE_RING_SIZE (trades_of t (current us));
  fs_updates : updates s = Z.of_nat (length us);
  fs_restarts : restarts s = adj_sum new_epoch us;
  fs_gaps : gaps s = adj_sum gap_between us;
  fs_epoch : last_epoch s = u_epoch <$> last us;
  fs_expected : _expected_pub_seq s = (fun u => u_seq u + 1) <$> last us }.

Lemma view_reads rec u : view rec = Some u ->
  rec_int "epoch" rec = Ok (u_epoch u) /\ rec_int "pub_seq" rec = Ok (u_seq u) /\
  rec_str "ticker" rec = Ok (u_ticker u) /\ rec_str "trigger" rec = Ok (u_trigger u) /\
  trade_entry rec = Ok (u_entry u) /\ u_rec u = rec.
Proof. unfold view. repeat (case_match; try done). by intros [= <-]. Qed.

(** The maps after one update, from the maps [t] and [r] before it. *)
Definition upd_tickers (u : upd) (t : gmap str rdict) : gmap str rdict := <[u_ticker u := u_rec u]> t.
Definition upd_trades (u : upd) (r : gmap str (list rdict)) : gmap str (list rdict) :=
  if decide (u_trigger u = "E")
  then <[u_ticker u := deque_append TRADE_RING_SIZE (u_entry u) (default [] (r !! u_ticker u))]> r else r.

Lemma append_trade_eq ticker rec x s evs : trade_entry rec = Ok x ->
  append_trade ticker rec ((s, evs) : web) =
  ((st_maps (tickers s) (<[ticker := deque_append TRADE_RING_SIZE x (default [] (_trades s !! ticker))]> (_trades s)) s,
    evs), Ok ()).
Proof.
  intros E. unfold append_trade, on_st. munfold. cbn [st fst web_state].
  destruct (_trades s !! ticker) as [l|] eqn:El; rewrite E; cbn -[deque_append]; [by rewrite El|].
  unfold st_maps. cbn -[deque_append]. by rewrite lookup_insert_eq, insert_insert_eq.
Qed.

Lemma apply_update_eq rec u now s evs : view rec = Some u ->
  let changed := match last_epoch s with Some e => negb (u_epoch u =? e) | None => false end in
  let t := if changed then ∅ else tickers s in
  let r := if changed then ∅ else _trades s in
  let gap := match last_epoch s, _expected_pub_seq s with
             | Some e, Some q => if u_epoch u =? e then Z.max 0 (u_seq u - q) else 0
             | _, _ => 0 end in
  apply_update rec now ((s, evs) : web) =
  ((mkState (upd_tickers u t) (upd_trades u r) (updates s + 1) (bad s) (gaps s + gap)
      (restarts s + if changed then 1 else 0) (snapshots s) (snapshot_rows s) (Some (u_epoch u))
      (if changed then Some now else last_restart_ts s) (start_ts s) (Some (u_seq u + 1)),
    evs ++ (if changed then [EvRestart (u_epoch u)] else []) ++ [EvTicker (u_ticker u)]), Ok ()).
Proof.
  intros Hv. destruct (view_reads _ _ Hv) as (E1 & E2 & E3 & E4 & E5 & E6).
  unfold apply_update, restart, on_st. munfold. rewrite E1. subst rec.
  destruct s as [ti tr up ba ga re sn sr le lr ts ex]. cbn [st fst last_epoch web_state].
  assert (forall q : Z, (if q <? u_seq u then u_seq u - q else 0) = Z.max 0 (u_seq u - q)) as Hgap by (intros; zcases; lia).
  destruct le as [e|]; [destruct (Z.eqb_spec (u_epoch u) e) as [->|Hne]|];
    cbn -[rec_int rec_str decide append_trade];
    rewrite ?(decide_True (P := Some e = Some e)) by done;
    rewrite ?(decide_False (P := Some e = Some (u_epoch u))), ?(decide_False (P := None = Some (u_epoch u))) by congruence;
    cbn -[rec_int rec_str decide append_trade]; rewrite E2; cbn -[rec_int rec_str decide append_trade]; rewrite E3;
    cbn -[rec_int rec_str decide append_trade]; rewrite E4; cbn -[rec_int rec_str decide append_trade];
    unfold upd_trades, upd_tickers.
  all: destruct (decide (u_trigger u = "E")); [rewrite (append_trade_eq _ _ _ _ _ E5)|]; cbn -[deque_append].
  all: try destruct ex; unfold mmod; cbn -[deque_append]; by rewrite ?Hgap, ?Z.add_0_r, <- ?app_assoc.
Qed.

Lemma of_ticker_snoc t us u : of_ticker t (us ++ [u]) = of_ticker t us ++ (if decide (u_ticker u = t) then [u] else []).
Proof. unfold of_ticker. by rewrite filter_app, filter_cons, filter_nil. Qed.

Lemma trades_of_snoc t us u : trades_of t (us ++ [u]) =
  trades_of t us ++ (if decide (u_ticker u = t /\ u_trigger u = "E") then [u_entry u] else []).
Proof.
  unfold trades_of. rewrite of_ticker_snoc, filter_app, fmap_app. f_equal.
  destruct (decide (u_ticker u = t)) as [Ht|Ht].
  - rewrite filter_cons, filter_nil. by destruct (decide (u_trigger u = "E")), (decide (u_ticker u = t /\ u_trigger u = "E")); try tauto.
  - rewrite filter_nil. destruct (decide _); [tauto|done].
Qed.

(** The maps follow one more update on top of the records [base]. *)
Lemma maps_step base u (t : gmap str rdict) (r : gmap str (list rdict)) :
  (forall k, t !! k = u_rec <$> last (of_ticker k base)) ->
  (forall k, default [] (r !! k) = lastn TRADE_RING_SIZE (trades_of k base)) ->
  (forall k, upd_tickers u t !! k = u_rec <$> last (of_ticker k (base ++ [u]))) /\
  (forall k, default [] (upd_trades u r !! k) = lastn TRADE_RING_SIZE (trades_of k (base ++ [u]))).
Proof.
  intros Ht Hr. split; intros k.
  - unfold upd_tickers. rewrite of_ticker_snoc. destruct (decide (u_ticker u = k)) as [<-|Hk].
    + by rewrite lookup_insert_eq, last_snoc.
    + by rewrite lookup_insert_ne, app_nil_r.
  - unfold upd_trades. rewrite trades_of_snoc.
    destruct (decide (u_trigger u = "E")) as [Hg|Hg]; [destruct (decide (u_ticker u = k)) as [<-|Hk]|].
    + rewrite lookup_insert_eq, decide_True by done. cbn [default]. rewrite Hr. apply lastn_append.
    + rewrite lookup_insert_ne, decide_False, app_nil_r by tauto. apply Hr.
    + rewrite decide_False, app_nil_r by tauto. apply Hr.
Qed.

Lemma apply_update_step rec u now s evs us : view rec = Some u -> feed_state us s -> evs = feed_events None us ->
  exists s', apply_update rec now ((s, evs) : web) = ((s', feed_events None (us ++ [u])), Ok ()) /\
    feed_state (us ++ [u]) s' /\ bad s' = bad s.
Proof.
  intros Hv [Ht Hr Hu Hre Hg He Hex] ->. rewrite (apply_update_eq _ _ _ _ _ Hv).
  set (changed := match last_epoch s with Some e => negb (u_epoch u =? e) | None => false end).
  assert (feed_events None us ++ (if changed then [EvRestart (u_epoch u)] else []) ++ [EvTicker (u_ticker u)]
    = feed_events None (us ++ [u])) as ->.
  { rewrite feed_events_snoc. f_equal. f_equal. unfold changed. rewrite He. destruct (last us) as [v|]; [|done].
    cbn. rewrite (Z.eqb_sym (u_epoch v)). by destruct (_ =? _). }
  eexists. split; [reflexivity|]. split; [|done].
  assert (exists base, current (us ++ [u]) = base ++ [u] /\
    (forall k, (if changed then ∅ else tickers s) !! k = u_rec <$> last (of_ticker k base)) /\
    (forall k, default [] ((if changed then ∅ else _trades s) !! k) = lastn TRADE_RING_SIZE (trades_of k base)))
    as (base & Eb & Hbt & Hbr).
  { rewrite current_snoc. unfold changed. rewrite He. destruct (last us) as [v|] eqn:El.
    - eexists. split; [done|]. cbn. rewrite (Z.eqb_sym (u_epoch v)). by destruct (u_epoch u =? u_epoch v).
    - apply last_None in El as ->. exists []. split; [done|]. cbn. by split; intros k; rewrite ?Ht, ?Hr. }
  destruct (maps_step base u _ _ Hbt Hbr) as [Ht' Hr'].
  split; cbn [tickers _trades updates restarts gaps last_epoch _expected_pub_seq].
  + intros k. rewrite Eb. apply Ht'.
  + intros k. rewrite Eb. apply Hr'.
  + rewrite Hu, length_app. cbn. lia.
  + rewrite adj_sum_snoc, Hre. unfold changed. rewrite He. unfold new_epoch. destruct (last us) as [v|]; [|cbn; lia].
    cbn. rewrite (Z.eqb_sym (u_epoch v)). by destruct (_ =? _).
  + rewrite adj_sum_snoc, Hg, He, Hex. unfold gap_between. destruct (last us) as [v|]; [|cbn; lia].
    cbn. by rewrite (Z.eqb_sym (u_epoch v)).
  + by rewrite last_snoc.
  + by rewrite last_snoc.
Qed.

(** ** The snapshot merge *)

(** What [merge_snapshot] reads of a row. *)
Record row_view (rec : rdict) (t : str) (q : Z) : Prop := {
  rv_ticker : rec_str "ticker" rec = Ok t;
  rv_seq : rec_int "exch_seq" rec = Ok q;
  rv_entry : exists x, trade_entry rec = Ok x }.
Definition exch_seq (rec : rdict) : Z := match rec_int "exch_seq" rec with Ok q => q | Raise _ => 0 end.
Definition ticker_of (rec : rdict) : str := match rec_str "ticker" rec with Ok t => t | Raise _ => "" end.
Definition readable (rec : rdict) : Prop := row_view rec (ticker_of rec) (exch_seq rec).

(** What a decoded UPDATE has. *)
Lemma decoded_readable l rec : decode_record l = Ok rec -> dget "kind" rec = Some (RStr KIND_UPDATE) -> readable rec.
Proof.
  intros H Hk. pose proof (decoded_items l rec H Hk) as Hv.
  update_item Hv "ticker" (Sx 4) y3. update_item Hv "exch_seq" (U 8) y5. update_item Hv "exch_ns" (U 8) y6.
  update_item Hv "last_price" (U 4) y7. update_item Hv "last_qty" (U 4) y8. cbn in *.
  repeat match goal with H : exists _, _ |- _ => destruct H as [? ->] end.
  unfold readable, ticker_of, exch_seq. split; unfold trade_entry, rec_int, rec_str, rec_item;
    repeat match goal with H : dget _ rec = _ |- _ => rewrite H end; [done|done|by eexists].
Qed.

(** The cached records and the newest trade of every ring can be compared. *)
Record merge_inv (t : gmap str rdict) (r : gmap str (list rdict)) : Prop := {
  mi_tickers : map_Forall (fun _ rec => readable rec) t;
  mi_rings : map_Forall (fun _ ring => forall x, last ring = Some x -> exists z, dget "exch_seq" x = Some (RInt z)) r }.

Lemma last_deque_append {A} n (x : A) l : (0 < n)%nat -> last (deque_append n x l) = Some x.
Proof.
  intros Hn. unfold deque_append. rewrite length_app. cbn [length].
  rewrite drop_app_le by lia. by rewrite last_snoc.
Qed.

Lemma trade_entry_seq rec x q : trade_entry rec = Ok x -> rec_int "exch_seq" rec = Ok q ->
  dget "exch_seq" x = Some (RInt q).
Proof.
  unfold trade_entry, rec_int, rec_item. intros H Hq.
  destruct (dget "exch_seq" rec) as [y|]; [|done]. cbn [of_option mbind res_bind] in *. destruct y; try done. simplify_eq.
  repeat (match goal with H : context [of_option _ ?o] |- _ => destruct o; [|done] end; cbn [of_option mbind res_bind] in H).
  by injection H as <-.
Qed.

Lemma seed_trade_ok t q rec s evs : row_view rec t q -> merge_inv (tickers s) (_trades s) ->
  exists r, _seed_trade t rec ((s, evs) : web) = ((st_maps (tickers s) r s, evs), Ok ()) /\ merge_inv (tickers s) r.
Proof.
  intros [_ Hq [x Hx]] [Ht Hr]. unfold _seed_trade.
  assert (st_maps (tickers s) (_trades s) s = s) as Hid by by destruct s.
  destruct (_ || _); [exists (_trades s); by rewrite Hid|].
  assert (forall r', r' = <[t := deque_append TRADE_RING_SIZE x (default [] (_trades s !! t))]> (_trades s) ->
    merge_inv (tickers s) r') as Happ.
  { intros r' ->. split; [done|]. apply map_Forall_insert_2; [|done].
    intros y. rewrite last_deque_append by (unfold TRADE_RING_SIZE; lia). intros [= <-]. exists q. by eapply trade_entry_seq. }
  munfold. cbn [st fst web_state].
  destruct (last (default [] (_trades s !! t))) as [newest|] eqn:El.
  - rewrite Hq. destruct (_trades s !! t) as [ring|] eqn:Er; [|done]. cbn in El.
    destruct (Hr t ring Er newest El) as [z Hz]. rewrite Hz.
    destruct (q <=? z); [exists (_trades s); rewrite Hid; by split|].
    rewrite (append_trade_eq _ _ _ _ _ Hx), Er. eexists. split; [done|by apply Happ].
  - rewrite (append_trade_eq _ _ _ _ _ Hx). eexists. split; [done|by apply Happ].
Qed.

(** The record a ticker keeps when a row arrives: the newer one, the live one on a tie. *)
Definition freshest (cur : option rdict) (row : rdict) : option rdict :=
  match cur with
  | Some c => if exch_seq row <=? exch_seq c then Some c else Some row
  | None => Some row
  end.
Definition rows_of (t : str) (rows : list rdict) : list rdict := filter (fun r => ticker_of r = t) rows.

(** The parts of the state a merge leaves alone. *)
Definition same_counts (s s' : State) : Prop :=
  updates s' = updates s /\ bad s' = bad s /\ gaps s' = gaps s /\ last_epoch s' = last_epoch s /\
  restarts s' = restarts s /\ snapshots s' = snapshots s /\ snapshot_rows s' = snapshot_rows s /\
  _expected_pub_seq s' = _expected_pub_seq s.

Lemma insert_row_ok rec s evs : readable rec -> merge_inv (tickers s) (_trades s) ->
  exists s', insert_row (ticker_of rec) rec ((s, evs) : web) = ((s', evs ++ [EvTicker (ticker_of rec)]), Ok true) /\
    merge_inv (tickers s') (_trades s') /\ same_counts s s' /\ tickers s' = <[ticker_of rec := rec]> (tickers s).
Proof.
  intros Hv [Ht Hr]. unfold insert_row, on_st. munfold. cbn [st fst web_state].
  set (s1 := st_maps _ _ s).
  destruct (seed_trade_ok (ticker_of rec) _ rec s1 evs Hv) as (r & E & Hi).
  { split; [|exact Hr]. by apply map_Forall_insert_2. }
  change (set_st s1 (s, evs)) with ((s1, evs) : web). rewrite E. eexists. split; [reflexivity|].
  split; [exact Hi|]. split; [by repeat split|done].
Qed.

Lemma merge_row_ok rec s evs : readable rec -> merge_inv (tickers s) (_trades s) ->
  exists s' b, merge_row rec ((s, evs) : web)
      = ((s', evs ++ if (b : bool) then [EvTicker (ticker_of rec)] else []), Ok b) /\
    merge_inv (tickers s') (_trades s') /\ same_counts s s' /\
    forall t, tickers s' !! t = foldl freshest (tickers s !! t) (rows_of t [rec]).
Proof.
  intros Hv Hi. pose proof Hv as [Et Eq _]. unfold merge_row. munfold. rewrite Et. cbn [st fst web_state].
  assert (forall t, rows_of t [rec] = if decide (ticker_of rec = t) then [rec] else []) as Hrows.
  { intros t. unfold rows_of. by rewrite filter_cons, filter_nil. }
  destruct (insert_row_ok rec s evs Hv Hi) as (s' & E & Hi' & Hc & Htk).
  assert (forall c, tickers s !! ticker_of rec = c -> freshest c rec = Some rec ->
    forall t, tickers s' !! t = foldl freshest (tickers s !! t) (rows_of t [rec])) as Hins.
  { intros c Ec Hf t. rewrite Htk, Hrows. destruct (decide (ticker_of rec = t)) as [<-|].
    - rewrite lookup_insert_eq. cbn. by rewrite Ec, Hf.
    - by rewrite lookup_insert_ne. }
  destruct (tickers s !! ticker_of rec) as [cur|] eqn:Ec.
  - pose proof (mi_tickers _ _ Hi (ticker_of rec) cur Ec) as [_ Eqc _]. rewrite Eqc, Eq. cbn [mbind res_bind].
    destruct (Z.leb_spec (exch_seq rec) (exch_seq cur)) as [Hle|Hgt].
    + exists s, false. rewrite app_nil_r. split_and!; [done|done|by repeat split|].
      intros t. rewrite Hrows. destruct (decide (ticker_of rec = t)) as [<-|]; [|done].
      cbn. rewrite Ec. cbn. by rewrite (proj2 (Z.leb_le _ _) Hle).
    + exists s', true. split_and!; [done|done|done|]. apply (Hins (Some cur)); [done|].
      cbn. by rewrite (proj2 (Z.leb_gt _ _) Hgt).
  - exists s', true. split_and!; [done|done|done|]. by apply (Hins None).
Qed.

Lemma rows_of_cons t r rows : rows_of t (r :: rows) = rows_of t [r] ++ rows_of t rows.
Proof. unfold rows_of. by rewrite <- filter_app. Qed.

Lemma merge_rows_ok rows s evs : Forall readable rows -> merge_inv (tickers s) (_trades s) ->
  exists s' flags evs', mmapM merge_row rows ((s, evs) : web) = ((s', evs ++ evs'), Ok flags) /\
    merge_inv (tickers s') (_trades s') /\ same_counts s s' /\
    length evs' = length (filter (fun b : bool => b = true) flags) /\
    forall t, tickers s' !! t = foldl freshest (tickers s !! t) (rows_of t rows).
Proof.
  intros Hr. revert s evs. induction Hr as [|r rows Hr _ IH]; intros s evs Hi.
  - exists s, [], []. rewrite app_nil_r. by split_and!.
  - destruct (merge_row_ok r s evs Hr Hi) as (s1 & b & E1 & Hi1 & Hc1 & Ht1).
    destruct (IH s1 (evs ++ if b then [EvTicker (ticker_of r)] else []) Hi1) as (s2 & fl & ev2 & E2 & Hi2 & Hc2 & Hl2 & Ht2).
    exists s2, (b :: fl), ((if b then [EvTicker (ticker_of r)] else []) ++ ev2).
    cbn [mmapM]. munfold. rewrite E1, E2, <- app_assoc. split_and!; [done|done| | |].
    + destruct Hc1 as (?&?&?&?&?&?&?&?), Hc2 as (?&?&?&?&?&?&?&?). repeat split; congruence.
    + rewrite length_app, filter_cons, Hl2. destruct b; [by rewrite decide_True|by rewrite decide_False].
    + intros t. by rewrite Ht2, Ht1, (rows_of_cons t r rows), foldl_app.
Qed.

(** The freshest of a list: it is there, and nothing is newer. *)
Lemma freshest_spec rows cur :
  match foldl freshest cur rows with
  | Some c => (cur = Some c \/ c ∈ rows) /\ (forall d, cur = Some d -> exch_seq d <= exch_seq c) /\
      forall r, r ∈ rows -> exch_seq r <= exch_seq c
  | None => cur = None /\ rows = []
  end.
Proof.
  revert cur. induction rows as [|r rows IH]; intros cur; cbn [foldl].
  - destruct cur as [c|]; [|done]. split_and!; [by left|intros d [= ->]; lia|]. intros r Hr. by apply elem_of_nil in Hr.
  - specialize (IH (freshest cur r)).
    assert (exists c, freshest cur r = Some c /\ (cur = Some c \/ c = r) /\ exch_seq r <= exch_seq c /\
      forall d, cur = Some d -> exch_seq d <= exch_seq c) as (c & Ec & Hc & Hr & Hd).
    { destruct cur as [d|]; cbn; [destruct (Z.leb_spec (exch_seq r) (exch_seq d))|]; eexists; split_and!; eauto;
        try lia; intros ? [= <-]; lia. }
    rewrite Ec in *. destruct (foldl freshest (Some c) rows) as [m|]; [|by destruct IH].
    destruct IH as (Hm & Hle & Hall). specialize (Hle c eq_refl). split_and!.
    + destruct Hm as [[= <-]|Hm]; [destruct Hc as [->| ->]; [by left|right; left]|right; by right].
    + intros d Hd'. specialize (Hd d Hd'). lia.
    + intros x Hx. apply elem_of_cons in Hx as [->|Hx]; [lia|by apply Hall].
Qed.

(** The merge once the snapshot is not stale. *)
Lemma merge_tail rows e s1 evs1 : Forall readable rows -> merge_inv (tickers s1) (_trades s1) -> last_epoch s1 = Some e ->
  exists s' evs' n,
    (flags ← mmapM merge_row rows;
     let merged := zlen (filter (fun b : bool => b = true) flags) in
     on_st (fun s => st_snapshots (snapshots s + 1) (snapshot_rows s + merged) s) ;;
     mret merged) ((s1, evs1) : web) = ((s', evs'), Ok n) /\
    last_epoch s' = Some e /\ updates s' = updates s1 /\ gaps s' = gaps s1 /\ restarts s' = restarts s1 /\
    snapshots s' = snapshots s1 + 1 /\ snapshot_rows s' = snapshot_rows s1 + n /\ zlen evs' = zlen evs1 + n /\
    forall t, tickers s' !! t = foldl freshest (tickers s1 !! t) (rows_of t rows).
Proof.
  intros Hr Hi1 He1. destruct (merge_rows_ok rows s1 evs1 Hr Hi1) as (s2 & fl & ev2 & E & _ & Hc & Hl & Ht).
  destruct Hc as (C1 & C2 & C3 & C4 & C5 & C6 & C7 & C8). unfold on_st. munfold. rewrite E.
  eexists _, _, _. split; [reflexivity|].
  cbn -[zlen filter]. rewrite C1, C3, C4, C5, C6, C7. split_and!; try done.
  rewrite zlen_app. unfold zlen. rewrite Hl. done.
Qed.

Lemma merge_snapshot_run rows e now s evs : Forall readable rows -> merge_inv (tickers s) (_trades s) ->
  match last_epoch s with Some live => e <? live | None => false end = false ->
  let newer := match last_epoch s with Some live => live <? e | None => false end in
  exists s' evs' n, merge_snapshot rows e now ((s, evs) : web) = ((s', evs'), Ok n) /\
    last_epoch s' = Some e /\ updates s' = updates s /\ gaps s' = gaps s /\
    restarts s' = restarts s + (if newer then 1 else 0) /\
    snapshots s' = snapshots s + 1 /\ snapshot_rows s' = snapshot_rows s + n /\
    zlen evs' = zlen evs + (if newer then 1 else 0) + n /\
    forall t, tickers s' !! t = foldl freshest ((if newer then ∅ else tickers s) !! t) (rows_of t rows).
Proof.
  intros Hr Hi Hst newer. unfold merge_snapshot.
  unfold mbind at 1, M_bind at 1, mget at 1. cbn [st fst web_state]. rewrite Hst. subst newer.
  destruct (last_epoch s) as [live|] eqn:El; [destruct (Z.ltb_spec live e) as [Hlt|Hge]|].
  - set (s1 := st_epoch (Some e) (st_restarts (restarts s + 1) (Some now) (_clear_all s))).
    destruct (merge_tail rows e s1 (evs ++ [EvRestart e]) Hr) as (s' & evs' & n & E & H); [by split|done|].
    exists s', evs', n. split; [exact E|]. rewrite zlen_app in H. change (zlen [EvRestart e]) with 1 in H. exact H.
  - assert (live = e) as -> by lia. destruct (merge_tail rows e s evs Hr Hi El) as (s' & evs' & n & E & H).
    exists s', evs', n. split; [exact E|]. rewrite !Z.add_0_r. exact H.
  - destruct (merge_tail rows e (st_epoch (Some e) s) evs Hr Hi eq_refl) as (s' & evs' & n & E & H).
    exists s', evs', n. split; [exact E|]. rewrite !Z.add_0_r. exact H.
Qed.

(** * Properties *)

(** What a datagram is to the receiver. *)
Definition good (data : bytes) : option upd :=
  match decode_record data with
  | Ok rec => if decide (dget "kind" rec = Some (RStr KIND_UPDATE)) then view rec else None
  | Raise _ => None
  end.

(** One datagram. *)
Lemma datagram_step data now s us : (forall e, decode_record data = Raise e -> e = RecordError) ->
  feed_state us s ->
  exists s', _handle_datagram data now ((s, feed_events None us) : web) =
      ((s', feed_events None (us ++ option_list (good data))), Ok ()) /\
    feed_state (us ++ option_list (good data)) s' /\ bad s' = bad s + (1 - zlen (option_list (good data))).
Proof.
  intros Hd Hs. unfold _handle_datagram, good.
  assert (exists s', on_st record_bad ((s, feed_events None us) : web) = ((s', feed_events None (us ++ [])), Ok ()) /\
    feed_state (us ++ []) s' /\ bad s' = bad s + 1) as Hbad.
  { rewrite app_nil_r. exists (record_bad s). split; [done|]. split; [|done]. destruct Hs. by split. }
  destruct (decode_record data) as [rec|e] eqn:E.
  - destruct (decide _) as [Hk|Hk]; [|exact Hbad].
    destruct (decoded_view _ _ E Hk) as (u & Hv & _). rewrite Hv. cbn [option_list].
    destruct (apply_update_step rec u now s _ us Hv Hs eq_refl) as (s' & E1 & Hs' & Hb). exists s'.
    split_and!; [done|done|]. rewrite Hb. change (zlen _) with 1. lia.
  - rewrite (Hd e eq_refl). exact Hbad.
Qed.

Lemma omap_cons_list {A B} (f : A -> option B) x l : omap f (x :: l) = option_list (f x) ++ omap f l.
Proof. cbn. by destruct (f x). Qed.

Lemma datagrams_run datagrams s us0 :
  Forall (fun d => forall e, decode_record d.1 = Raise e -> e = RecordError) datagrams -> feed_state us0 s ->
  let us := omap (fun d : bytes * Z => good d.1) datagrams in
  exists s', mcast_on_readable datagrams ((s, feed_events None us0) : web) = ((s', feed_events None (us0 ++ us)), Ok ()) /\
    feed_state (us0 ++ us) s' /\ bad s' = bad s + (zlen datagrams - zlen us).
Proof.
  intros Hd. revert s us0. induction Hd as [|[d t] ds Hd _ IH]; intros s us0 Hs us.
  - exists s. unfold us. cbn [omap list_omap]. rewrite app_nil_r. split_and!; [done|done|unfold zlen; cbn [length]; lia].
  - unfold mcast_on_readable in *. cbn [mfor fst snd]. munfold.
    destruct (datagram_step d t s us0 Hd Hs) as (s1 & E1 & Hs1 & Hb1). cbn [fst snd] in *. rewrite E1.
    destruct (IH s1 _ Hs1) as (s2 & E2 & Hs2 & Hb2). exists s2. unfold us. rewrite omap_cons_list. cbn [fst].
    rewrite app_assoc. split_and!; [done|done|]. rewrite Hb2, Hb1, zlen_app. unfold zlen. cbn [length]. lia.
Qed.

(** The datagrams that are read, and how reading them ends: at the first whose decoding
    raises anything but a RecordError, or with the last. *)
Fixpoint readable_part (datagrams : list (bytes * Z)) : list (bytes * Z) * res () :=
  match datagrams with
  | [] => ([], Ok ())
  | d :: ds =>
      match decode_record d.1 with
      | Raise e => if decide (e = RecordError) then (d :: (readable_part ds).1, (readable_part ds).2) else ([], Raise e)
      | Ok _ => (d :: (readable_part ds).1, (readable_part ds).2)
      end
  end.

Lemma readable_part_spec datagrams : let part := readable_part datagrams in
  Forall (fun d => forall e, decode_record d.1 = Raise e -> e = RecordError) part.1 /\
  (part = (datagrams, Ok ()) \/
   exists d rest e, datagrams = part.1 ++ d :: rest /\ decode_record d.1 = Raise e /\ e <> RecordError /\ part.2 = Raise e).
Proof.
  induction datagrams as [|d ds [IH1 IH2]]; cbn [readable_part]; [split; [constructor|by left]|].
  assert (forall l r, (l, r) = readable_part ds -> (forall e, decode_record d.1 = Raise e -> e = RecordError) ->
    let part := (d :: l, r) in Forall (fun d => forall e, decode_record d.1 = Raise e -> e = RecordError) part.1 /\
    (part = (d :: ds, Ok ()) \/ exists d' rest e, d :: ds = part.1 ++ d' :: rest /\ decode_record d'.1 = Raise e /\ e <> RecordError /\ part.2 = Raise e)) as H.
  { intros l r E Hd. rewrite <- E in *. cbn [fst snd] in *. split; [by constructor|]. destruct IH2 as [[= -> ->]|(d' & rest & e & -> & H)]; [by left|].
    right. by exists d', rest, e. }
  destruct (decode_record d.1) as [rec|e] eqn:Ed; [apply H; [by destruct (readable_part ds)|done]|].
  case_decide as He; [apply H; [by destruct (readable_part ds)|by intros ? [= <-]]|]. split; [constructor|]. right. by exists d, ds, e.
Qed.

(** C21. Any burst of datagrams.  Of those read, each a record or not, the latest UPDATE per
    ticker and the last fifty trades per ticker since the feed's last restart, the
    number of restarts, of updates, of lost publications and of bad datagrams, and the
    callbacks in order, are exactly those of the feed; and all are read, unless the
    decoding of one raises something other than a RecordError (text that is not ASCII):
    that leaves the handler, with the datagrams before it applied. *)
Theorem mcast_exact t0 datagrams :
  let '(ds, ended) := readable_part datagrams in
  let us := omap (fun d : bytes * Z => good d.1) ds in
  exists s, mcast_on_readable datagrams ((state_init t0, []) : web) = ((s, feed_events None us), ended) /\
    feed_state us s /\ bad s = zlen ds - zlen us.
Proof.
  pose proof (readable_part_spec datagrams) as [Hd Hp]. destruct (readable_part datagrams) as [ds ended]. cbn [fst snd] in Hd, Hp. intros us.
  assert (feed_state [] (state_init t0)) as H0 by (by split).
  destruct (datagrams_run ds (state_init t0) [] Hd H0) as (s & E & Hs & Hb). exists s.
  split; [|split; [exact Hs|rewrite Hb; apply Z.add_0_l]].
  destruct Hp as [[= <- ->]|(d & rest & e & -> & Ed & He & ->)]; [exact E|].
  unfold mcast_on_readable in *. rewrite mfor_app. cbn [feed_events app] in E. rewrite E. cbn [mfor]. unfold mbind, M_bind, _handle_datagram.
  rewrite Ed. destruct e; done.
Qed.

(** The update with a byte above 127 in its session. *)
Definition demo_text : bytes := take 51 demo_wire ++ [Byte.xff] ++ drop 52 demo_wire.

(** Two updates of one ticker, the second with a trade, around a datagram that is
    no record. *)
Definition demo_datagrams : list (bytes * Z) := [(demo_wire, 5); ([Byte.x00], 6); (demo_wire, 7)].

Lemma mcast_exact_witness :
  (exists s, mcast_on_readable demo_datagrams ((state_init 0, []) : web) = ((s, [EvTicker "7203"; EvTicker "7203"]), Ok ()) /\
    bad s = 1 /\ updates s = 2 /\ tickers s !! "7203" = Some demo_update) /\
  exists s, mcast_on_readable [(demo_wire, 5); (demo_text, 6); (demo_wire, 7)] ((state_init 0, []) : web) =
      ((s, [EvTicker "7203"]), Raise UnicodeDecodeError) /\ bad s = 0 /\ updates s = 1.
Proof.
  split.
  - pose proof (mcast_exact 0 demo_datagrams) as H. assert (readable_part demo_datagrams = (demo_datagrams, Ok ())) as Ep by (vm_compute; reflexivity).
    rewrite Ep in H. destruct H as (s & E & Hs & Hb). exists s. split; [|split; [|split]].
    + etransitivity; [exact E|]. vm_compute. reflexivity.
    + rewrite Hb. vm_compute. reflexivity.
    + rewrite (fs_updates _ _ Hs). vm_compute. reflexivity.
    + rewrite (fs_tickers _ _ Hs). vm_compute. reflexivity.
  - pose proof (mcast_exact 0 [(demo_wire, 5); (demo_text, 6); (demo_wire, 7)]) as H.
    assert (readable_part [(demo_wire, 5); (demo_text, 6); (demo_wire, 7)] = ([(demo_wire, 5)], Raise UnicodeDecodeError)) as Ep by (vm_compute; reflexivity).
    rewrite Ep in H. destruct H as (s & E & Hs & Hb). exists s. split; [|split].
    + etransitivity; [exact E|]. vm_compute. reflexivity.
    + rewrite Hb. vm_compute. reflexivity.
    + rewrite (fs_updates _ _ Hs). vm_compute. reflexivity.
Defined.

(** C24. Merging a database snapshot.  An older incarnation's snapshot changes nothing.
    Otherwise the feed's epoch becomes the snapshot's, with the old image dropped
    if the snapshot is newer, and every ticker shows the freshest of the live
    record and its rows: nothing live is replaced by something older, every row is
    covered, nothing is invented; the feed's own counters stand still and the
    snapshot's count the rows used, one callback each. *)
Theorem merge_never_regresses rows e now s evs : Forall readable rows -> merge_inv (tickers s) (_trades s) ->
  exists s' evs' n, merge_snapshot rows e now ((s, evs) : web) = ((s', evs'), Ok n) /\
    let stale := match last_epoch s with Some live => e <? live | None => false end in
    let newer := match last_epoch s with Some live => live <? e | None => false end in
    let base := if newer then ∅ else tickers s in
    if stale then s' = s /\ evs' = evs /\ n = 0
    else last_epoch s' = Some e /\ updates s' = updates s /\ gaps s' = gaps s /\
      restarts s' = restarts s + (if newer then 1 else 0) /\
      snapshots s' = snapshots s + 1 /\ snapshot_rows s' = snapshot_rows s + n /\
      zlen evs' = zlen evs + (if newer then 1 else 0) + n /\
      forall t,
        match tickers s' !! t with
        | Some c => (base !! t = Some c \/ c ∈ rows_of t rows) /\
            (forall d, base !! t = Some d -> exch_seq d <= exch_seq c) /\
            forall r, r ∈ rows_of t rows -> exch_seq r <= exch_seq c
        | None => base !! t = None /\ rows_of t rows = []
        end.
Proof.
  intros Hr Hi. set (newer := match last_epoch s with Some live => live <? e | None => false end).
  destruct (decide (match last_epoch s with Some live => e <? live | None => false end = true)) as [Hst|Hst].
  { exists s, evs, 0. split; [|cbv zeta; by rewrite Hst]. unfold merge_snapshot. munfold. cbn [st fst web_state].
    by rewrite Hst. }
  apply not_true_iff_false in Hst.
  destruct (merge_snapshot_run rows e now s evs Hr Hi Hst)
    as (s' & evs' & n & E & H1 & H2 & H3 & H4 & H5 & H6 & H7 & H8).
  exists s', evs', n. split; [exact E|]. cbv zeta. rewrite Hst. fold newer in H4, H7, H8 |- *. split_and!; try done.
  intros t. rewrite H8. apply freshest_spec.
Qed.

(** A live record, a newer row of the same ticker, and a row of another one. *)
Definition demo_row (ticker : str) (seq : Z) : rdict :=
  [("ticker", RStr ticker); ("exch_seq", RInt seq); ("exch_ns", RInt 1); ("last_price", RInt 1000);
   ("last_qty", RInt 5); ("last_trade_ns", RInt 9)].

Lemma merge_never_regresses_witness :
  let s := st_epoch (Some 4) (st_maps {["7203" := demo_row "7203" 10]} ∅ (state_init 0)) in
  exists s' evs', merge_snapshot [demo_row "7203" 9; demo_row "6758" 3] 4 0 ((s, []) : web) = ((s', evs'), Ok 1) /\
    exists c, tickers s' !! "7203" = Some c /\ 10 <= exch_seq c.
Proof.
  intros s. destruct (merge_never_regresses [demo_row "7203" 9; demo_row "6758" 3] 4 0 s [])
    as (s' & evs' & n & E & H).
  - repeat constructor; try (vm_compute; reflexivity); eexists; vm_compute; reflexivity.
  - split; [|apply map_Forall_empty]. apply map_Forall_singleton.
    split; try (vm_compute; reflexivity). eexists; vm_compute; reflexivity.
  - assert (n = 1) as ->.
    { apply (f_equal snd) in E. cbn [snd] in E. apply Ok_inj. rewrite <- E. vm_compute. reflexivity. }
    exists s', evs'. split; [exact E|]. cbn in H. destruct H as (_ & _ & _ & _ & _ & _ & _ & H).
    specialize (H "7203"). destruct (tickers s' !! "7203") as [c|].
    + exists c. split; [reflexivity|]. destruct H as (_ & H & _). apply (H (demo_row "7203" 10)). vm_compute. reflexivity.
    + exfalso. destruct H as [H _]. vm_compute in H. discriminate H.
Defined.

(** A datagram with a byte above 127 in an alpha field is not counted as bad: the
    error leaves the handler. *)
Theorem datagram_error_escapes s :
  _handle_datagram (take 51 demo_wire ++ [Byte.xff] ++ drop 52 demo_wire) 0 ((s, []) : web)
  = ((s, []), Raise UnicodeDecodeError).
Proof. unfold _handle_datagram. rewrite alpha_not_record_error. done. Qed.
