(* ===== verification/Pcap.v ===== *)
(** jnxfeed/pcapio.py: classic pcap files, the link layers, IPv4, MoldUDP64 and TCP
    reassembly.

    A file is its bytes; a generator is what it yields and how it ends.  A
    timestamp is exact: integer nanoseconds where the source has a float of
    seconds. *)
From S2P Require Export PyBytes PyDict.

Definition _MAGIC_TABLE : list (bytes * (endian * Z)) := [
  ([xa1; xb2; xc3; xd4]%byte, (Big, 1000)); ([xd4; xc3; xb2; xa1]%byte, (Little, 1000));
  ([xa1; xb2; x3c; x4d]%byte, (Big, 1)); ([x4d; x3c; xb2; xa1]%byte, (Little, 1))].
Definition _GLOBAL_HEADER_REST_LEN : nat := 20.
Definition LINKTYPE_ETHERNET : Z := 1.
Definition LINKTYPE_LINUX_SLL : Z := 113.
Definition _IP_PROTO_TCP : Z := 6.
Definition _IP_PROTO_UDP : Z := 17.
Definition _VLAN_ETHERTYPES : list Z := [0x8100; 0x88A8; 0x9100; 0x9200; 0x9300].
Definition _ETHERTYPE_IPV4 : Z := 0x0800.
Definition _MAX_VLAN_TAGS : nat := 8.
Definition _TCP_FLAG_FIN : Z := 1.
Definition _TCP_FLAG_SYN : Z := 2.

(** * The file *)

Definition _read_global_header : M bytes (endian * Z * Z) :=
  magic ← f_read 4;
  if negb (length magic =? 4)%nat then mraise PcapError
  else
    match dget magic _MAGIC_TABLE with
    | None => mraise PcapError
    | Some (endian, frac_scale) =>
        rest ← f_read _GLOBAL_HEADER_REST_LEN;
        if negb (length rest =? _GLOBAL_HEADER_REST_LEN)%nat then mraise PcapError
        else
          vs ← mlift (struct_unpack endian [U 2; U 2; I4; U 4; U 4; U 4] rest);
          match vs with
          | [_; _; _; _; _; VInt linktype] => mret (endian, frac_scale, linktype)
          | _ => mraise StructError
          end
    end.

(** One turn of the loop of [_iter_raw_frames]: [None] at a clean end of file. *)
Definition next_frame (e : endian) (frac_scale : Z) : M bytes (option (Z * bytes)) :=
  rec ← f_read 16;
  if decide (rec = []) then mret None
  else if negb (length rec =? 16)%nat then mraise PcapError
  else
    vs ← mlift (struct_unpack e [U 4; U 4; U 4; U 4] rec);
    match vs with
    | [VInt ts_sec; VInt ts_frac; VInt incl_len; _] =>
        data ← f_read (Z.to_nat incl_len);
        if negb (zlen data =? incl_len) then mraise PcapError
        else mret (Some (ts_sec * 10 ^ 9 + ts_frac * frac_scale, data))
    | _ => mraise StructError
    end.

(** Every turn that yields consumes sixteen bytes. *)
Fixpoint frames_loop (fuel : nat) (e : endian) (frac_scale : Z) (f : bytes) : list (Z * bytes) * res () :=
  match fuel with
  | O => ([], Ok ())
  | S fuel' =>
      match next_frame e frac_scale f with
      | (_, Raise x) => ([], Raise x)
      | (_, Ok None) => ([], Ok ())
      | (f', Ok (Some r)) => let '(l, x) := frames_loop fuel' e frac_scale f' in (r :: l, x)
      end
  end.
Definition _iter_raw_frames (e : endian) (frac_scale : Z) (f : bytes) : list (Z * bytes) * res () :=
  frames_loop (S (length f)) e frac_scale f.

(** * The link layer *)

(** [struct.unpack(">H", data\[i:i+2\])\[0\]] and the like, where the code has checked the length. *)
Definition be_at (n i : nat) (data : bytes) : Z := be_val (slice i (i + n) data).
Definition byte_at (i : nat) (data : bytes) : Z := be_at 1 i data.

Fixpoint vlan_loop (hops : nat) (ethertype : Z) (offset : nat) (data : bytes) : option (Z * nat) :=
  match hops with
  | O => Some (ethertype, offset)
  | S hops' =>
      if decide (ethertype ∈ _VLAN_ETHERTYPES) then
        if (length data <? offset + 4)%nat then None
        else vlan_loop hops' (be_at 2 (offset + 2) data) (offset + 4) data
      else Some (ethertype, offset)
  end.
Definition _strip_ethernet (data : bytes) : option (Z * nat) :=
  if (length data <? 14)%nat then None else vlan_loop _MAX_VLAN_TAGS (be_at 2 12 data) 14 data.
Definition _strip_sll (data : bytes) : option (Z * nat) :=
  if (length data <? 16)%nat then None else Some (be_at 2 14 data, 16%nat).

(** * IPv4 *)

Inductive parsed : Type :=
| Udp (src_ip dst_ip : str) (sport dport : Z) (payload : bytes)
| Tcp (src_ip dst_ip : str) (sport dport : Z) (payload : bytes) (seq ack flags : Z).

(** ["{}.{}.{}.{}".format( *l )] *)
Definition dotted (l : bytes) : str :=
  match map (fun b => py_str_b (b2z b)) l with
  | [a; b; c; d] => l2s (a ++ ["."%byte] ++ b ++ ["."%byte] ++ c ++ ["."%byte] ++ d)
  | _ => ""
  end.

Definition _parse_ipv4_and_transport (ip_data : bytes) : option parsed :=
  if (length ip_data <? 20)%nat then None
  else
    let ver_ihl := byte_at 0 ip_data in
    if negb (Z.shiftr ver_ihl 4 =? 4) then None
    else
      let ihl := Z.to_nat (Z.land ver_ihl 0x0F * 4) in
      if (ihl <? 20)%nat || (length ip_data <? ihl)%nat then None
      else
        let total_len := Z.to_nat (be_at 2 2 ip_data) in
        let ip_proto := byte_at 9 ip_data in
        let src_ip := dotted (slice 12 16 ip_data) in
        let dst_ip := dotted (slice 16 20 ip_data) in
        let ip_end := if (ihl <=? total_len)%nat then Nat.min (length ip_data) total_len else length ip_data in
        let transport := slice ihl ip_end ip_data in
        if ip_proto =? _IP_PROTO_UDP then
          if (length transport <? 8)%nat then None
          else
            let udp_len := Z.to_nat (be_at 2 4 transport) in
            let payload := if (8 <=? udp_len)%nat then slice 8 udp_len transport else drop 8 transport in
            Some (Udp src_ip dst_ip (be_at 2 0 transport) (be_at 2 2 transport) payload)
        else if ip_proto =? _IP_PROTO_TCP then
          if (length transport <? 20)%nat then None
          else
            let offset_flags := be_at 2 12 transport in
            let data_offset := Z.to_nat (Z.shiftr offset_flags 12 * 4) in
            let flags := Z.land offset_flags 0x3F in
            if (data_offset <? 20)%nat || (length transport <? data_offset)%nat then None
            else Some (Tcp src_ip dst_ip (be_at 2 0 transport) (be_at 2 2 transport) (drop data_offset transport)
                         (be_at 4 4 transport) (be_at 4 8 transport) flags)
        else None.

(** * read_pcap *)

Inductive proto : Type := PROTO_TCP | PROTO_UDP.
Definition pcap_record : Type := (Z * proto * str * str * Z * Z * bytes)%type.

(** [strip_link] for the file's link type. *)
Definition strip_link (linktype : Z) : res (bytes -> option (Z * nat)) :=
  if linktype =? LINKTYPE_ETHERNET then Ok _strip_ethernet
  else if linktype =? LINKTYPE_LINUX_SLL then Ok _strip_sll
  else Raise PcapError.

(** The parts of the two loops up to the parsed packet: [None] is [continue]. *)
Definition parse_frame (strip : bytes -> option (Z * nat)) (frame : bytes) : option parsed :=
  match strip frame with
  | Some (ethertype, offset) =>
      if negb (ethertype =? _ETHERTYPE_IPV4) then None else _parse_ipv4_and_transport (drop offset frame)
  | None => None
  end.

Definition record_of (strip : bytes -> option (Z * nat)) (r : Z * bytes) : option pcap_record :=
  match parse_frame strip r.2 with
  | Some (Udp src dst sport dport payload) => Some (r.1, PROTO_UDP, src, dst, sport, dport, payload)
  | Some (Tcp src dst sport dport payload _ _ _) => Some (r.1, PROTO_TCP, src, dst, sport, dport, payload)
  | None => None
  end.

Definition open_pcap : M bytes (endian * Z * (bytes -> option (Z * nat))) :=
  h ← _read_global_header;
  let '(e, frac_scale, linktype) := h in
  strip ← mlift (strip_link linktype);
  mret (e, frac_scale, strip).

Definition read_pcap (file : bytes) : list pcap_record * res () :=
  match open_pcap file with
  | (_, Raise x) => ([], Raise x)
  | (f, Ok (e, frac_scale, strip)) =>
      let '(frames, r) := _iter_raw_frames e frac_scale f in (omap (record_of strip) frames, r)
  end.

(** * MoldUDP64 *)

Definition _MOLD_HEADER_LEN : nat := 20.
Definition _MOLD_SESSION_LEN : nat := 10.
Definition _MOLD_SEQUENCE_LEN : nat := 8.
Definition MOLD_HEARTBEAT_COUNT : Z := 0.
Definition MOLD_END_OF_SESSION_COUNT : Z := 0xFFFF.

Record MoldHeader : Type := mkMold { mold_session : str; mold_sequence : Z; mold_count : Z }.

Definition is_heartbeat (h : MoldHeader) : bool := mold_count h =? MOLD_HEARTBEAT_COUNT.
Definition is_end_of_session (h : MoldHeader) : bool := mold_count h =? MOLD_END_OF_SESSION_COUNT.

Definition parse_mold_header (payload : bytes) : res MoldHeader :=
  if (length payload <? _MOLD_HEADER_LEN)%nat then Raise ValueError
  else
    s ← decode_ascii (slice 0 _MOLD_SESSION_LEN payload);
    Ok (mkMold (strip s) (be_at _MOLD_SEQUENCE_LEN _MOLD_SESSION_LEN payload)
          (be_val (slice (_MOLD_SESSION_LEN + _MOLD_SEQUENCE_LEN) _MOLD_HEADER_LEN payload))).

(** The [for _ in range(header.count)] loop. *)
Fixpoint mold_blocks (count : nat) (offset : nat) (seq : Z) (payload : bytes) : list (Z * bytes) * res () :=
  match count with
  | O => ([], Ok ())
  | S count' =>
      if (length payload <? offset + 2)%nat then ([], Raise ValueError)
      else
        let msg_len := Z.to_nat (be_at 2 offset payload) in
        let message := slice (offset + 2) (offset + 2 + msg_len) payload in
        if negb (length message =? msg_len)%nat then ([], Raise ValueError)
        else
          let '(l, r) := mold_blocks count' (offset + 2 + msg_len) (seq + 1) payload in ((seq, message) :: l, r)
  end.

Definition iter_mold_messages (payload : bytes) : list (Z * bytes) * res () :=
  match parse_mold_header payload with
  | Raise e => ([], Raise e)
  | Ok h =>
      if is_heartbeat h || is_end_of_session h then ([], Ok ())
      else mold_blocks (Z.to_nat (mold_count h)) _MOLD_HEADER_LEN (mold_sequence h) payload
  end.

(** * TCP reassembly *)

Definition tcp_key : Type := (str * Z * str * Z)%type.
Record tcp_state : Type := mkTcp { expected_seq : list (tcp_key * Z); streams : list (tcp_key * bytes) }.

#[export] Instance tcp_key_eq_dec : EqDecision tcp_key := _.

(** [if key not in expected_seq]: the first segment of a direction. *)
Definition tcp_sync (key : tcp_key) (seq : Z) (s : tcp_state) : tcp_state :=
  match dget key (expected_seq s) with
  | None => mkTcp (dset key seq (expected_seq s)) (dset key [] (streams s))
  | Some _ => s
  end.

(** One frame of the loop of [reassemble_tcp_streams]. *)
Definition tcp_step (strip : bytes -> option (Z * nat)) (frame : bytes) : M tcp_state () :=
  match parse_frame strip frame with
  | Some (Tcp src_ip dst_ip sport dport payload seq _ flags) =>
      let key : tcp_key := (src_ip, sport, dst_ip, dport) in
      let consumed := zlen payload + (if Z.land flags _TCP_FLAG_SYN =? 0 then 0 else 1)
                      + (if Z.land flags _TCP_FLAG_FIN =? 0 then 0 else 1) in
      mmod (tcp_sync key seq) ;;
      s ← mget;
      next_expected ← mlift (of_option KeyError (dget key (expected_seq s)));
      let delta := Z.land (seq - next_expected) 0xFFFFFFFF in
      if delta =? 0 then
        old ← mlift (of_option KeyError (dget key (streams s)));
        mput (mkTcp (dset key (Z.land (next_expected + consumed) 0xFFFFFFFF) (expected_seq s))
                (dset key (old ++ payload) (streams s)))
      else if delta <? 0x80000000 then mraise PcapError
      else mret ()
  | _ => mret ()
  end.

Definition reassemble_tcp_streams (file : bytes) : res (list (tcp_key * bytes)) :=
  match open_pcap file with
  | (_, Raise x) => Raise x
  | (f, Ok (e, frac_scale, strip)) =>
      let '(frames, r) := _iter_raw_frames e frac_scale f in
      match mfor frames (fun fr => tcp_step strip fr.2) (mkTcp [] []) with
      | (_, Raise x) => Raise x
      | (s, Ok _) => match r with Raise x => Raise x | Ok _ => Ok (streams s) end
      end
  end.

(** * The packets of a capture, from their parts *)

Inductive link : Type := Eth (macs : bytes) (tags : list (Z * Z)) | Sll (head : bytes).
Definition is_vlan (t : Z) : bool := bool_decide (t ∈ _VLAN_ETHERTYPES).

(** The type field and what follows it, behind a stack of VLAN tags. *)
Fixpoint tagged_tail (tags : list (Z * Z)) (type : Z) (payload : bytes) : bytes :=
  match tags with
  | [] => payload
  | (_, tci) :: tags' =>
      be_bytes 2 tci ++ be_bytes 2 (match tags' with [] => type | (t, _) :: _ => t end) ++ tagged_tail tags' type payload
  end.
Definition tagged_type (tags : list (Z * Z)) (type : Z) : Z := match tags with [] => type | (t, _) :: _ => t end.

Definition link_frame (lk : link) (type : Z) (payload : bytes) : bytes :=
  match lk with
  | Eth macs tags => macs ++ be_bytes 2 (tagged_type tags type) ++ tagged_tail tags type payload
  | Sll head => head ++ be_bytes 2 type ++ payload
  end.
Definition link_type (lk : link) : Z := match lk with Eth _ _ => LINKTYPE_ETHERNET | Sll _ => LINKTYPE_LINUX_SLL end.
Definition link_strip (lk : link) : bytes -> option (Z * nat) :=
  match lk with Eth _ _ => _strip_ethernet | Sll _ => _strip_sll end.
Definition link_ok (lk : link) : bool :=
  match lk with
  | Eth macs tags => (length macs =? 12)%nat && (length tags <=? _MAX_VLAN_TAGS)%nat && forallb (fun t => is_vlan t.1) tags
  | Sll head => (length head =? 14)%nat
  end.

Record ip_head : Type := mkIp { ih_tos : byte; ih_mid : bytes; ih_ck : bytes; ih_src : bytes; ih_dst : bytes; ih_opts : bytes }.
Definition ip_ok (h : ip_head) (transport : bytes) : bool :=
  (length (ih_mid h) =? 5)%nat && (length (ih_ck h) =? 2)%nat && (length (ih_src h) =? 4)%nat
  && (length (ih_dst h) =? 4)%nat && (length (ih_opts h) mod 4 =? 0)%nat && (length (ih_opts h) <=? 40)%nat
  && (20 + zlen (ih_opts h) + zlen transport <? 65536).
(** [pad] is what the link layer added behind the packet. *)
Definition ip_packet (h : ip_head) (ip_proto : Z) (transport pad : bytes) : bytes :=
  [z2b (69 + Z.of_nat (length (ih_opts h) / 4)); ih_tos h]
  ++ be_bytes 2 (20 + zlen (ih_opts h) + zlen transport) ++ ih_mid h ++ [z2b ip_proto] ++ ih_ck h
  ++ ih_src h ++ ih_dst h ++ ih_opts h ++ transport ++ pad.

Definition udp_segment (sport dport : Z) (ck payload : bytes) : bytes :=
  be_bytes 2 sport ++ be_bytes 2 dport ++ be_bytes 2 (8 + zlen payload) ++ ck ++ payload.
Definition tcp_segment (sport dport seq ack reserved flags : Z) (rest opts payload : bytes) : bytes :=
  be_bytes 2 sport ++ be_bytes 2 dport ++ be_bytes 4 seq ++ be_bytes 4 ack
  ++ be_bytes 2 ((5 + Z.of_nat (length opts / 4)) * 4096 + reserved * 64 + flags) ++ rest ++ opts ++ payload.

(** * Lemmas *)

Lemma slice_mid {A} (a b c : list A) i j : i = length a -> j = (length a + length b)%nat -> slice i j (a ++ b ++ c) = b.
Proof.
  intros -> ->. unfold slice. rewrite drop_app_length. replace (_ - _)%nat with (length b) by lia. apply take_app_length.
Qed.

Lemma slice_end {A} (a b : list A) i j : i = length a -> j = (length a + length b)%nat -> slice i j (a ++ b) = b.
Proof. intros Hi Hj. rewrite <- (app_nil_r b) at 1. by apply slice_mid. Qed.

Lemma be_at_mid n i a z c : i = length a -> 0 <= z < 256 ^ Z.of_nat n -> be_at n i (a ++ be_bytes n z ++ c) = z.
Proof.
  intros -> Hz. unfold be_at. rewrite slice_mid; [by apply be_val_bytes_small|done|by rewrite be_bytes_length].
Qed.

Lemma vlan_loop_ok tags type payload hops pre : (length tags <= hops)%nat ->
  forallb (fun t => is_vlan t.1) tags = true -> Forall (fun t : Z * Z => 0 <= t.1 < 65536) tags ->
  is_vlan type = false -> 0 <= type < 65536 ->
  let data := pre ++ tagged_tail tags type payload in
  vlan_loop hops (tagged_type tags type) (length pre) data = Some (type, (length pre + 4 * length tags)%nat) /\
  drop (length pre + 4 * length tags) data = payload.
Proof.
  intros Hh Hv Hr Ht Htr. revert hops pre Hh. induction tags as [|[t tci] tags IH]; intros hops pre Hh data; unfold data.
  - cbn [tagged_tail tagged_type length Nat.mul]. rewrite Nat.add_0_r. split; [|by rewrite drop_app_length].
    destruct hops; [done|]. cbn [vlan_loop]. unfold is_vlan in Ht. apply bool_decide_eq_false in Ht.
    by rewrite decide_False.
  - cbn [forallb] in Hv. apply andb_true_iff in Hv as [Hvt Hv]. apply Forall_cons in Hr as [Hrt Hr].
    cbn [fst] in *. apply bool_decide_eq_true in Hvt.
    destruct hops as [|hops]; [cbn in Hh; lia|]. cbn [tagged_type vlan_loop]. rewrite decide_True by done.
    set (nt := tagged_type tags type).
    assert (0 <= nt < 65536) as Hnt.
    { unfold nt. destruct tags as [|[t2 c2] tags]; [done|]. by apply Forall_cons in Hr as [? _]. }
    cbn [tagged_tail]. change (match tags with [] => type | (t0, _) :: _ => t0 end) with nt.
    destruct (Nat.ltb_spec (length (pre ++ be_bytes 2 tci ++ be_bytes 2 nt ++ tagged_tail tags type payload)) (length pre + 4))
      as [Hl|_]; [rewrite !length_app, !be_bytes_length in Hl; lia|].
    rewrite (app_assoc pre). rewrite (be_at_mid 2) by (rewrite ?length_app, ?be_bytes_length; done).
    rewrite app_assoc.
    destruct (IH Hv Hr hops ((pre ++ be_bytes 2 tci) ++ be_bytes 2 nt)) as [E1 E2]; [cbn in Hh; lia|].
    rewrite !length_app, !be_bytes_length in E1, E2.
    replace (length pre + 2 + 2)%nat with (length pre + 4)%nat in * by lia.
    replace (length pre + 4 * length ((t, tci) :: tags))%nat with (length pre + 4 + 4 * length tags)%nat by (cbn; lia).
    by split.
Qed.

Lemma strip_ok lk type payload : link_ok lk = true -> is_vlan type = false -> 0 <= type < 65536 ->
  exists off, link_strip lk (link_frame lk type payload) = Some (type, off) /\
    drop off (link_frame lk type payload) = payload.
Proof.
  destruct lk as [macs tags|head]; cbn [link_ok link_strip link_frame]; rewrite ?andb_true_iff, ?Nat.eqb_eq, ?Nat.leb_le.
  - intros [[Hm Ht] Hv] Hty Hr.
    assert (Forall (fun t : Z * Z => 0 <= t.1 < 65536) tags) as Hrt.
    { rewrite Forall_forall. intros t Hin. rewrite forallb_forall in Hv. specialize (Hv t (proj1 (list_elem_of_In _ _) Hin)).
      apply bool_decide_eq_true in Hv. unfold _VLAN_ETHERTYPES in Hv. rewrite !elem_of_cons in Hv.
      destruct Hv as [->|[->|[->|[->|[->|Hv]]]]]; try lia. by apply elem_of_nil in Hv. }
    assert (0 <= tagged_type tags type < 65536) as Hnt.
    { destruct tags as [|[t2 c2] tags]; [done|]. by apply Forall_cons in Hrt as [? _]. }
    destruct (vlan_loop_ok tags type payload _MAX_VLAN_TAGS (macs ++ be_bytes 2 (tagged_type tags type)) Ht Hv Hrt Hty Hr)
      as [E1 E2].
    rewrite <- app_assoc, length_app, be_bytes_length, Hm in E1, E2. cbn [Nat.add] in E1, E2. eexists. split; [|exact E2].
    unfold _strip_ethernet. destruct (Nat.ltb_spec (length (macs ++ be_bytes 2 (tagged_type tags type) ++ tagged_tail tags type payload)) 14)
      as [Hl|_]; [rewrite !length_app, be_bytes_length in Hl; lia|].
    rewrite (be_at_mid 2) by done. exact E1.
  - intros Hh _ Hr. exists 16%nat. unfold _strip_sll.
    destruct (Nat.ltb_spec (length (head ++ be_bytes 2 type ++ payload)) 16) as [Hl|_];
      [rewrite !length_app, be_bytes_length in Hl; lia|].
    rewrite (be_at_mid 2) by done. split; [done|]. rewrite app_assoc. apply drop_app_length'.
    rewrite length_app, be_bytes_length. lia.
Qed.

Lemma byte_at_z2b z : 0 <= z < 256 -> be_val [z2b z] = z.
Proof. intros Hz. change (be_val [z2b z]) with (0 * 256 + b2z (z2b z)). rewrite b2z_z2b_small by done. lia. Qed.

Lemma ver_ihl_ok k : (k <= 10)%nat ->
  Z.shiftr (69 + Z.of_nat k) 4 = 4 /\ Z.to_nat (Z.land (69 + Z.of_nat k) 0x0F * 4) = (20 + 4 * k)%nat.
Proof. intros Hk. do 11 (destruct k as [|k]; [by vm_compute|]). lia. Qed.

(** What the parser reads of an IPv4 packet. *)
Lemma ip_parts h ip_proto transport pad : ip_ok h transport = true -> 0 <= ip_proto < 256 ->
  let d := ip_packet h ip_proto transport pad in
  (20 <= length d)%nat /\ Z.shiftr (byte_at 0 d) 4 = 4 /\
  exists ihl, Z.to_nat (Z.land (byte_at 0 d) 0x0F * 4) = ihl /\ (20 <= ihl <= length d)%nat /\
    byte_at 9 d = ip_proto /\ slice 12 16 d = ih_src h /\ slice 16 20 d = ih_dst h /\
    slice ihl (if (ihl <=? Z.to_nat (be_at 2 2 d))%nat then Nat.min (length d) (Z.to_nat (be_at 2 2 d)) else length d) d
    = transport.
Proof.
  destruct h as [tos mid ck src dst opts]. unfold ip_ok. cbn [ih_mid ih_ck ih_src ih_dst ih_opts].
  rewrite !andb_true_iff, !Nat.eqb_eq, Nat.leb_le, Z.ltb_lt. intros [[[[[[Hm Hc] Hs] Hd] Ho4] Ho] Ht] Hp. set (d := ip_packet _ ip_proto transport pad).
  do 6 (destruct mid as [|? mid]; try done). do 3 (destruct ck as [|? ck]; try done).
  do 5 (destruct src as [|? src]; try done). do 5 (destruct dst as [|? dst]; try done).
  set (k := (length opts / 4)%nat).
  assert (length opts = (4 * k)%nat) as Ek by (unfold k; pose proof (Nat.div_mod_eq (length opts) 4); lia).
  assert (k <= 10)%nat as Hk by lia. destruct (ver_ihl_ok k Hk) as [V1 V2].
  set (total := 20 + zlen opts + zlen transport) in *.
  assert (0 <= total < 65536) as Htot by (unfold total, zlen in *; lia).
  assert (byte_at 0 d = 69 + Z.of_nat k) as E0 by (apply byte_at_z2b; lia).
  assert (be_at 2 2 d = total) as E2 by (apply (be_val_bytes_small 2); cbn; lia).
  assert (length d = (20 + length opts + length transport + length pad)%nat) as El.
  { unfold d, ip_packet. rewrite !length_app, be_bytes_length. cbn [length ih_mid ih_ck ih_src ih_dst ih_opts]. lia. }
  split; [lia|]. rewrite E0, V1, V2. split; [done|]. exists (20 + 4 * k)%nat. split; [done|]. split; [lia|].
  split; [by apply byte_at_z2b|]. split; [done|]. split; [done|].
  rewrite E2. assert (Z.to_nat total = (20 + 4 * k + length transport)%nat) as -> by (unfold total, zlen; lia).
  rewrite (proj2 (Nat.leb_le _ _)), Nat.min_r by lia.
  change d with (([z2b (69 + Z.of_nat k); tos] ++ be_bytes 2 total ++ [b; b0; b1; b2; b3] ++ [z2b ip_proto] ++ [b4; b5]
    ++ [b6; b7; b8; b9] ++ [b10; b11; b12; b13]) ++ opts ++ transport ++ pad).
  rewrite (app_assoc _ opts). apply slice_mid; rewrite !length_app, !be_bytes_length; cbn [length]; lia.
Qed.

Definition port (p : Z) : Prop := 0 <= p < 65536.

Lemma parse_udp h sport dport ck payload pad : ip_ok h (udp_segment sport dport ck payload) = true ->
  port sport -> port dport -> length ck = 2%nat ->
  _parse_ipv4_and_transport (ip_packet h _IP_PROTO_UDP (udp_segment sport dport ck payload) pad)
  = Some (Udp (dotted (ih_src h)) (dotted (ih_dst h)) sport dport payload).
Proof.
  intros Hok Hsp Hdp Hck. set (tr := udp_segment sport dport ck payload) in *.
  destruct (ip_parts h _IP_PROTO_UDP tr pad Hok ltac:(unfold _IP_PROTO_UDP; lia)) as (H1 & H2 & ihl & H3 & H4 & H5 & H6 & H7 & H8).
  unfold _parse_ipv4_and_transport. rewrite (proj2 (Nat.ltb_ge _ _)) by lia. rewrite H2, H3.
  rewrite !(proj2 (Nat.ltb_ge _ _)) by lia. cbn [negb orb Z.eqb Pos.eqb]. rewrite H5, H6, H7, H8.
  assert (zlen tr = 8 + zlen payload) as Ez.
  { unfold tr, udp_segment. rewrite !zlen_app. unfold zlen. rewrite !be_bytes_length, Hck. lia. }
  unfold ip_ok in Hok. rewrite !andb_true_iff in Hok. destruct Hok as [_ Htot%Z.ltb_lt]. unfold zlen in *.
  rewrite (proj2 (Nat.ltb_ge _ _)) by lia. cbn [Z.eqb Pos.eqb _IP_PROTO_UDP].
  assert (be_at 2 4 tr = 8 + zlen payload) as -> by (unfold tr, udp_segment; rewrite (app_assoc (be_bytes 2 sport));
    apply (be_at_mid 2); [done|unfold zlen; lia]).
  unfold zlen. replace (Z.to_nat (8 + Z.of_nat (length payload))) with (8 + length payload)%nat by lia.
  rewrite (proj2 (Nat.leb_le _ _)) by lia.
  assert (be_at 2 0 tr = sport) as -> by (apply (be_at_mid 2 0 []); done).
  assert (be_at 2 2 tr = dport) as -> by (apply (be_at_mid 2 2 (be_bytes 2 sport)); done).
  do 2 f_equal. unfold tr, udp_segment. rewrite !(app_assoc _ _ payload).
  apply slice_end; rewrite !length_app, !be_bytes_length, Hck; done.
Qed.

(** The TCP header fields that fit. *)
Record tcp_fits (sport dport seq ack reserved flags : Z) (rest opts : bytes) : Prop := {
  tf_sport : port sport; tf_dport : port dport; tf_seq : 0 <= seq < 2 ^ 32; tf_ack : 0 <= ack < 2 ^ 32;
  tf_reserved : 0 <= reserved < 64; tf_flags : 0 <= flags < 64;
  tf_rest : length rest = 6%nat; tf_opts : (length opts mod 4 = 0)%nat /\ (length opts <= 40)%nat }.

Lemma offset_flags_ok j r f : 0 <= j <= 10 -> 0 <= r < 64 -> 0 <= f < 64 ->
  Z.shiftr ((5 + j) * 4096 + r * 64 + f) 12 = 5 + j /\ Z.land ((5 + j) * 4096 + r * 64 + f) 0x3F = f /\
  0 <= (5 + j) * 4096 + r * 64 + f < 65536.
Proof.
  intros Hj Hr Hf. split_and!; [| |lia|lia].
  - rewrite Z.shiftr_div_pow2 by lia. change (2 ^ 12) with 4096. symmetry. apply Z.div_unique with (r * 64 + f); lia.
  - change 0x3F with (Z.ones 6). rewrite Z.land_ones by lia. change (2 ^ 6) with 64. symmetry.
    apply Z.mod_unique with ((5 + j) * 64 + r); lia.
Qed.

Lemma parse_tcp h sport dport seq ack reserved flags rest opts payload pad :
  ip_ok h (tcp_segment sport dport seq ack reserved flags rest opts payload) = true ->
  tcp_fits sport dport seq ack reserved flags rest opts ->
  _parse_ipv4_and_transport
    (ip_packet h _IP_PROTO_TCP (tcp_segment sport dport seq ack reserved flags rest opts payload) pad)
  = Some (Tcp (dotted (ih_src h)) (dotted (ih_dst h)) sport dport payload seq ack flags).
Proof.
  intros Hok [Hsp Hdp Hseq Hack Hres Hfl Hrest [Ho4 Ho]].
  set (tr := tcp_segment sport dport seq ack reserved flags rest opts payload) in *.
  destruct (ip_parts h _IP_PROTO_TCP tr pad Hok ltac:(unfold _IP_PROTO_TCP; lia)) as (H1 & H2 & ihl & H3 & H4 & H5 & H6 & H7 & H8).
  unfold _parse_ipv4_and_transport. rewrite (proj2 (Nat.ltb_ge _ _)) by lia. rewrite H2, H3.
  rewrite !(proj2 (Nat.ltb_ge _ _)) by lia. cbn [negb orb Z.eqb Pos.eqb]. rewrite H5, H6, H7, H8.
  cbn [Z.eqb Pos.eqb _IP_PROTO_UDP _IP_PROTO_TCP].
  set (j := (length opts / 4)%nat).
  assert (length opts = (4 * j)%nat) as Ej by (unfold j; pose proof (Nat.div_mod_eq (length opts) 4); lia).
  destruct (offset_flags_ok (Z.of_nat j) reserved flags) as (V1 & V2 & V3); [lia|done|done|].
  assert (length tr = (20 + length opts + length payload)%nat) as El.
  { unfold tr, tcp_segment. rewrite !length_app, !be_bytes_length, Hrest. lia. }
  assert (be_at 2 12 tr = (5 + Z.of_nat j) * 4096 + reserved * 64 + flags) as Ef.
  { unfold tr, tcp_segment. rewrite (app_assoc (be_bytes 2 sport)), (app_assoc _ (be_bytes 4 seq)), (app_assoc _ (be_bytes 4 ack)).
    by apply (be_at_mid 2). }
  rewrite Ef, V1, V2. replace (Z.to_nat ((5 + Z.of_nat j) * 4)) with (20 + length opts)%nat by lia.
  rewrite !(proj2 (Nat.ltb_ge _ _)) by lia. cbn [orb].
  assert (be_at 2 0 tr = sport) as -> by (apply (be_at_mid 2 0 []); done).
  assert (be_at 2 2 tr = dport) as -> by (apply (be_at_mid 2 2 (be_bytes 2 sport)); done).
  assert (be_at 4 4 tr = seq) as ->.
  { unfold tr, tcp_segment. rewrite (app_assoc (be_bytes 2 sport)). apply (be_at_mid 4); [done|by change (256 ^ _) with (2 ^ 32)]. }
  assert (be_at 4 8 tr = ack) as ->.
  { unfold tr, tcp_segment. rewrite (app_assoc (be_bytes 2 sport)), (app_assoc _ (be_bytes 4 seq)).
    apply (be_at_mid 4); [done|by change (256 ^ _) with (2 ^ 32)]. }
  do 2 f_equal. unfold tr, tcp_segment. rewrite !(app_assoc _ _ payload).
  apply drop_app_length'. rewrite !length_app, !be_bytes_length, Hrest. done.
Qed.

(** * Capture files *)

Inductive transport : Type :=
| TUdp (sport dport : Z) (ck payload : bytes)
| TTcp (sport dport seq ack reserved flags : Z) (rest opts payload : bytes).
Definition transport_bytes (t : transport) : bytes :=
  match t with
  | TUdp sport dport ck payload => udp_segment sport dport ck payload
  | TTcp sport dport seq ack reserved flags rest opts payload =>
      tcp_segment sport dport seq ack reserved flags rest opts payload
  end.
Definition transport_ok (t : transport) : Prop :=
  match t with
  | TUdp sport dport ck payload => port sport /\ port dport /\ length ck = 2%nat
  | TTcp sport dport seq ack reserved flags rest opts payload => tcp_fits sport dport seq ack reserved flags rest opts
  end.
Definition transport_proto (t : transport) : Z := match t with TUdp _ _ _ _ => _IP_PROTO_UDP | _ => _IP_PROTO_TCP end.

(** What was captured: an IPv4 packet with link-layer padding, or a frame of another
    protocol. *)
Inductive item : Type :=
| Packet (lk : link) (h : ip_head) (t : transport) (pad : bytes)
| Other (lk : link) (type : Z) (payload : bytes).
Definition item_link (i : item) : link := match i with Packet lk _ _ _ => lk | Other lk _ _ => lk end.
Definition item_bytes (i : item) : bytes :=
  match i with
  | Packet lk h t pad => link_frame lk _ETHERTYPE_IPV4 (ip_packet h (transport_proto t) (transport_bytes t) pad)
  | Other lk type payload => link_frame lk type payload
  end.
Definition item_ok (i : item) : Prop :=
  link_ok (item_link i) = true /\ zlen (item_bytes i) < 2 ^ 32 /\
  match i with
  | Packet lk h t pad => ip_ok h (transport_bytes t) = true /\ transport_ok t
  | Other lk type payload => is_vlan type = false /\ 0 <= type < 65536 /\ type <> _ETHERTYPE_IPV4
  end.
Definition item_parsed (i : item) : option parsed :=
  match i with
  | Packet _ h (TUdp sport dport _ payload) _ => Some (Udp (dotted (ih_src h)) (dotted (ih_dst h)) sport dport payload)
  | Packet _ h (TTcp sport dport seq ack _ flags _ _ payload) _ =>
      Some (Tcp (dotted (ih_src h)) (dotted (ih_dst h)) sport dport payload seq ack flags)
  | Other _ _ _ => None
  end.

Definition frame_record (e : endian) (ts : Z * Z) (orig : bytes) (data : bytes) : bytes :=
  byte_order e (be_bytes 4 ts.1) ++ byte_order e (be_bytes 4 ts.2) ++ byte_order e (be_bytes 4 (zlen data))
  ++ orig ++ data.
(** [head]: the sixteen bytes of the global header between the magic and the link type. *)
Definition pcap_file (magic : bytes) (e : endian) (head : bytes) (linktype : Z) (items : list (Z * Z * bytes * item)) : bytes :=
  magic ++ head ++ byte_order e (be_bytes 4 linktype)
  ++ concat (map (fun '(ts, orig, i) => frame_record e ts orig (item_bytes i)) items).

Lemma parse_item i : item_ok i -> parse_frame (link_strip (item_link i)) (item_bytes i) = item_parsed i.
Proof.
  intros (Hl & _ & Hi). unfold parse_frame. destruct i as [lk h t pad|lk type payload]; cbn [item_link item_bytes item_parsed] in *.
  - destruct (strip_ok lk _ETHERTYPE_IPV4 (ip_packet h (transport_proto t) (transport_bytes t) pad) Hl) as (off & E & Ed);
      [done|by unfold _ETHERTYPE_IPV4|].
    rewrite E, Ed. cbn [negb Z.eqb Pos.eqb _ETHERTYPE_IPV4]. destruct Hi as [Hok Ht].
    destruct t; cbn [transport_proto transport_bytes transport_ok] in *; [apply parse_udp|by apply parse_tcp]; tauto.
  - destruct Hi as (Hv & Hr & Hne). destruct (strip_ok lk type payload Hl Hv Hr) as (off & E & _). rewrite E.
    by rewrite (proj2 (Z.eqb_neq _ _) Hne).
Qed.

Lemma unpack_fields_U e n z f l : 0 <= z < 256 ^ Z.of_nat n ->
  unpack_fields e (U n :: f) (byte_order e (be_bytes n z) ++ l) = VInt z :: unpack_fields e f l.
Proof.
  intros Hz. assert (length (byte_order e (be_bytes n z)) = n) as Hl by by rewrite byte_order_length, be_bytes_length.
  cbn [unpack_fields code_size unpack_one]. rewrite take_app_length', drop_app_length' by done.
  by rewrite byte_order_involutive, be_val_bytes_small.
Qed.

Lemma unpack_fields_app e f1 f2 l :
  unpack_fields e (f1 ++ f2) l = unpack_fields e f1 l ++ unpack_fields e f2 (drop (calcsize f1) l).
Proof.
  revert l. induction f1 as [|c f1 IH]; intros l; [done|]. cbn [app unpack_fields]. rewrite IH, drop_drop. done.
Qed.

Definition u32 (z : Z) : Prop := 0 <= z < 2 ^ 32.

Lemma next_frame_ok e scale ts orig data f : u32 ts.1 -> u32 ts.2 -> length orig = 4%nat -> zlen data < 2 ^ 32 ->
  next_frame e scale (frame_record e ts orig data ++ f) = (f, Ok (Some (ts.1 * 10 ^ 9 + ts.2 * scale, data))).
Proof.
  intros H1 H2 Ho Hd. destruct ts as [sec frac]. cbn [fst snd] in *. unfold frame_record. cbn [fst snd].
  set (hd := byte_order e (be_bytes 4 sec) ++ byte_order e (be_bytes 4 frac) ++ byte_order e (be_bytes 4 (zlen data)) ++ orig).
  assert (length hd = 16%nat) as Lh.
  { unfold hd. rewrite !length_app, !byte_order_length, !be_bytes_length, Ho. done. }
  assert (struct_unpack e [U 4; U 4; U 4; U 4] hd =
    Ok [VInt sec; VInt frac; VInt (zlen data); unpack_one e (U 4) (take 4 orig)]) as Eu.
  { unfold struct_unpack. rewrite decide_True by done. f_equal. unfold hd.
    rewrite !unpack_fields_U; [done|change (256 ^ _) with (2 ^ 32); pose proof (zlen_nonneg data); lia|exact H2|exact H1]. }
  replace (byte_order e (be_bytes 4 sec) ++ byte_order e (be_bytes 4 frac) ++ byte_order e (be_bytes 4 (zlen data)) ++ orig ++ data)
    with (hd ++ data) by (unfold hd; by rewrite <- !app_assoc).
  unfold next_frame, f_read. munfold. rewrite <- app_assoc, take_app_length', drop_app_length' by done.
  rewrite decide_False by (intros E; by rewrite E in Lh). rewrite Lh. cbn [Nat.eqb negb]. rewrite Eu.
  replace (Z.to_nat (zlen data)) with (length data) by (unfold zlen; lia).
  by rewrite take_app_length, drop_app_length, Z.eqb_refl.
Qed.

Definition stamped_ok (x : Z * Z * bytes * item) : Prop :=
  u32 x.1.1.1 /\ u32 x.1.1.2 /\ length x.1.2 = 4%nat /\ item_ok x.2.
(** The timestamps in nanoseconds. *)
Definition ns (scale : Z) (x : Z * Z * bytes * item) : Z := x.1.1.1 * 10 ^ 9 + x.1.1.2 * scale.

Lemma frames_loop_ok e scale items fuel : Forall stamped_ok items -> (length items < fuel)%nat ->
  frames_loop fuel e scale (concat (map (fun '(ts, orig, i) => frame_record e ts orig (item_bytes i)) items))
  = (map (fun x => (ns scale x, item_bytes x.2)) items, Ok ()).
Proof.
  intros H. revert fuel. induction H as [|[[ts orig] i] items (H1 & H2 & H3 & Hi) _ IH]; intros [|fuel] Hf; try (cbn in Hf; lia).
  - done.
  - cbn [map concat frames_loop]. rewrite next_frame_ok; try done; [|apply Hi].
    rewrite IH by (cbn in Hf; lia). done.
Qed.

Definition file_ok (magic : bytes) (e : endian) (scale : Z) (head : bytes) (linktype : Z) (items : list (Z * Z * bytes * item)) : Prop :=
  dget magic _MAGIC_TABLE = Some (e, scale) /\ length head = 16%nat /\
  (linktype = LINKTYPE_ETHERNET \/ linktype = LINKTYPE_LINUX_SLL) /\
  Forall (fun x => stamped_ok x /\ link_type (item_link x.2) = linktype) items.

Lemma open_pcap_ok magic e scale head linktype items : file_ok magic e scale head linktype items ->
  exists strip, open_pcap (pcap_file magic e head linktype items) =
    (concat (map (fun '(ts, orig, i) => frame_record e ts orig (item_bytes i)) items), Ok (e, scale, strip)) /\
    Forall (fun x => strip = link_strip (item_link x.2)) items.
Proof.
  intros (Hm & Hh & Hl & Hi).
  assert (length magic = 4%nat) as Lm.
  { unfold _MAGIC_TABLE in Hm. cbn [dget] in Hm. repeat (case_decide; [by subst|]). done. }
  unfold open_pcap, _read_global_header, f_read, pcap_file. munfold.
  set (body := concat _). rewrite take_app_length', drop_app_length' by done. rewrite Lm, Hm. cbn [Nat.eqb negb].
  rewrite app_assoc. set (rest := head ++ byte_order e (be_bytes 4 linktype)).
  assert (length rest = 20%nat) as Lr by (unfold rest; rewrite length_app, byte_order_length, be_bytes_length, Hh; done).
  rewrite take_app_length', drop_app_length' by done. rewrite Lr. cbn [Nat.eqb negb _GLOBAL_HEADER_REST_LEN].
  assert (exists a b c d x, struct_unpack e [U 2; U 2; I4; U 4; U 4; U 4] rest = Ok [a; b; c; d; x; VInt linktype])
    as (a & b & c & d & x & Eu).
  { unfold struct_unpack. rewrite decide_True by done. unfold rest. rewrite <- (app_nil_r (byte_order e _)).
    change [U 2; U 2; I4; U 4; U 4; U 4] with ([U 2; U 2; I4; U 4; U 4] ++ [U 4]).
    rewrite unpack_fields_app. change (calcsize [U 2; U 2; I4; U 4; U 4]) with 16%nat.
    rewrite drop_app_length', unpack_fields_U by (done || destruct Hl as [->| ->]; by cbn).
    eexists _, _, _, _, _. reflexivity. }
  rewrite Eu. unfold strip_link. destruct Hl as [->| ->]; cbn [Z.eqb Pos.eqb LINKTYPE_ETHERNET LINKTYPE_LINUX_SLL];
    eexists; (split; [reflexivity|]); eapply Forall_impl; try exact Hi; intros y [_ Hy];
    by destruct (item_link y.2).
Qed.

Lemma pcap_frames magic e scale head linktype items : file_ok magic e scale head linktype items ->
  exists strip f, open_pcap (pcap_file magic e head linktype items) = (f, Ok (e, scale, strip)) /\
    _iter_raw_frames e scale f = (map (fun x => (ns scale x, item_bytes x.2)) items, Ok ()) /\
    Forall (fun x => parse_frame strip (item_bytes x.2) = item_parsed x.2) items.
Proof.
  intros H. destruct (open_pcap_ok _ _ _ _ _ _ H) as (strip & E & Hs). destruct H as (_ & _ & _ & Hi).
  exists strip, (concat (map (fun '(ts, orig, i) => frame_record e ts orig (item_bytes i)) items)).
  split; [exact E|]. split.
  - apply frames_loop_ok; [by eapply Forall_impl; [exact Hi|]; intros ? []|].
    clear. induction items as [|[[ts orig] i] items IH]; [cbn; lia|]. cbn [map concat length].
    unfold frame_record at 1. rewrite !length_app, byte_order_length, be_bytes_length. lia.
  - rewrite Forall_forall in *. intros x Hx. rewrite (Hs x Hx). apply parse_item. by apply (Hi x Hx).
Qed.

Definition parsed_record (ts : Z) (p : parsed) : pcap_record :=
  match p with
  | Udp src dst sport dport payload => (ts, PROTO_UDP, src, dst, sport, dport, payload)
  | Tcp src dst sport dport payload _ _ _ => (ts, PROTO_TCP, src, dst, sport, dport, payload)
  end.

(** ** Reassembly *)

(** One direction of a conversation: the initial sequence number and what is sent,
    one unit per sequence number ([None] is a SYN or a FIN). *)
Definition direction : Type := (Z * list (option byte))%type.
Definition unit_bytes (us : list (option byte)) : bytes := omap id us.

(** A segment: its direction, its first unit and how many units it carries. *)
Definition segment : Type := (tcp_key * nat * nat)%type.

Definition carries (conv : tcp_key -> option direction) (p : option parsed) (s : option segment) : Prop :=
  match p, s with
  | Some (Tcp src dst sport dport payload seq _ flags), Some (k, off, n) =>
      k = (src, sport, dst, dport) /\
      exists isn us, conv k = Some (isn, us) /\ (off + n <= length us)%nat /\
        payload = unit_bytes (slice off (off + n) us) /\ seq = (isn + Z.of_nat off) mod 2 ^ 32 /\
        Z.of_nat n = zlen payload + (if Z.land flags _TCP_FLAG_SYN =? 0 then 0 else 1)
                     + (if Z.land flags _TCP_FLAG_FIN =? 0 then 0 else 1)
  | Some (Udp _ _ _ _ _), None | None, None => True
  | _, _ => False
  end.

(** Where the reassembly of each direction started and how far it is. *)
Definition cover : Type := list (tcp_key * (nat * nat)).
Definition cover_at (m : cover) (s : segment) : nat * nat := default (s.1.2, s.1.2) (dget s.1.1 m).
Definition advance (m : cover) (s : segment) : cover :=
  let '(a, c) := cover_at m s in
  dset s.1.1 (a, if decide (s.1.2 = c) then (s.1.2 + s.2)%nat else c) m.

(** A clean capture: no segment starts beyond what has been covered, and none is
    older than half the sequence space. *)
Fixpoint clean (m : cover) (segs : list segment) : Prop :=
  match segs with
  | [] => True
  | s :: segs => (s.1.2 <= (cover_at m s).2)%nat /\ Z.of_nat (cover_at m s).2 - Z.of_nat s.1.2 <= 2 ^ 31 /\
      clean (advance m s) segs
  end.

Definition tcp_rep (conv : tcp_key -> option direction) (m : cover) (st : tcp_state) : Prop :=
  forall k,
    match dget k m with
    | Some (a, c) => exists isn us, conv k = Some (isn, us) /\ (a <= c <= length us)%nat /\
        dget k (expected_seq st) = Some ((isn + Z.of_nat c) mod 2 ^ 32) /\
        dget k (streams st) = Some (unit_bytes (slice a c us))
    | None => dget k (expected_seq st) = None /\ dget k (streams st) = None
    end.

Lemma land_u32 z : Z.land z 0xFFFFFFFF = z mod 2 ^ 32.
Proof. change 0xFFFFFFFF with (Z.ones 32). by rewrite Z.land_ones by lia. Qed.

Lemma slice_slice_app {A} a b c (l : list A) : (a <= b)%nat -> (b <= c)%nat -> slice a b l ++ slice b c l = slice a c l.
Proof.
  intros H1 H2. unfold slice. replace (drop b l) with (drop (b - a) (drop a l)) by (rewrite drop_drop; f_equal; lia).
  rewrite take_take_drop. f_equal. lia.
Qed.

Lemma unit_bytes_app a b : unit_bytes (a ++ b) = unit_bytes a ++ unit_bytes b.
Proof. apply omap_app. Qed.

(** One segment on a state that agrees with the cover. *)
Lemma tcp_step_ok conv strip frame m st s : tcp_rep conv m st -> carries conv (parse_frame strip frame) (Some s) ->
  (s.1.2 <= (cover_at m s).2)%nat -> Z.of_nat (cover_at m s).2 - Z.of_nat s.1.2 <= 2 ^ 31 ->
  exists st', tcp_step strip frame st = (st', Ok ()) /\ tcp_rep conv (advance m s) st'.
Proof.
  destruct s as [[k off] n]. cbn [fst snd]. unfold cover_at. cbn [fst snd]. intros Hrep Hc Hle Hwin. unfold tcp_step.
  destruct (parse_frame strip frame) as [[|src dst sport dport payload seq ack flags]|]; try done.
  destruct Hc as (Ek & isn & us & Econv & Hlen & Ep & Eseq & En). rewrite <- Ek.
  unfold mmod. munfold. set (consumed := zlen payload + _ + _) in *. rewrite <- En.
  assert (exists e0 b0 a c,
    tcp_sync k seq st = mkTcp e0 b0 /\ default (off, off) (dget k m) = (a, c) /\ (a <= c <= length us)%nat /\
    dget k e0 = Some ((isn + Z.of_nat c) mod 2 ^ 32) /\ dget k b0 = Some (unit_bytes (slice a c us)) /\
    (forall k', k' <> k -> dget k' e0 = dget k' (expected_seq st) /\ dget k' b0 = dget k' (streams st)))
    as (e0 & b0 & a & c & E0 & Em & Hac & He0 & Hb0 & Hoth).
  { specialize (Hrep k). unfold tcp_sync. destruct (dget k m) as [[a c]|].
    - destruct Hrep as (isn' & us' & Econv' & Hac & He & Hb). rewrite Econv in Econv'. injection Econv' as <- <-.
      rewrite He. exists (expected_seq st), (streams st), a, c. destruct st.
      repeat (split; [done|]). intros; by split.
    - destruct Hrep as [He Hb]. rewrite He.
      exists (dset k seq (expected_seq st)), (dset k [] (streams st)), off, off. split; [done|]. split; [done|]. split; [lia|].
      split; [by rewrite dget_dset_eq, Eseq|]. split.
      + rewrite dget_dset_eq. unfold slice. by rewrite Nat.sub_diag.
      + intros k' Hk'. by rewrite !dget_dset_ne by congruence. }
  rewrite E0. cbn [expected_seq streams]. rewrite He0. cbn [of_option]. rewrite Em in Hle, Hwin. cbn [snd] in Hle, Hwin.
  rewrite land_u32, Eseq.
  assert (((isn + Z.of_nat off) mod 2 ^ 32 - (isn + Z.of_nat c) mod 2 ^ 32) mod 2 ^ 32 = (Z.of_nat off - Z.of_nat c) mod 2 ^ 32) as ->.
  { rewrite <- Zminus_mod. f_equal. lia. }
  assert (advance m (k, off, n) = dset k (a, if decide (off = c) then (off + n)%nat else c) m) as Eadv.
  { unfold advance, cover_at. cbn [fst snd]. by rewrite Em. }
  rewrite Eadv. clear Eadv.
  assert (forall st' c', (c <= c' <= length us)%nat ->
    dget k (expected_seq st') = Some ((isn + Z.of_nat c') mod 2 ^ 32) ->
    dget k (streams st') = Some (unit_bytes (slice a c' us)) ->
    (forall k', k' <> k -> dget k' (expected_seq st') = dget k' e0 /\ dget k' (streams st') = dget k' b0) ->
    tcp_rep conv (dset k (a, c') m) st') as Hfin.
  { intros st' c' Hc' H1 H2 H3 k'. destruct (decide (k' = k)) as [->|Hk'].
    - rewrite dget_dset_eq. exists isn, us. split_and!; try done; lia.
    - rewrite dget_dset_ne by congruence. destruct (H3 k' Hk') as [-> ->]. destruct (Hoth k' Hk') as [-> ->]. apply Hrep. }
  destruct (decide (off = c)) as [->|Hne].
  - rewrite Z.sub_diag, Z.mod_0_l by lia. cbn [Z.eqb]. rewrite Hb0. cbn [of_option]. eexists. split; [reflexivity|].
    apply Hfin; cbn [expected_seq streams]; [lia| | |].
    + rewrite dget_dset_eq, land_u32. rewrite Zplus_mod_idemp_l. do 2 f_equal. lia.
    + rewrite dget_dset_eq, Ep, <- unit_bytes_app, slice_slice_app by lia. done.
    + intros k' Hk'. by rewrite !dget_dset_ne by congruence.
  - assert ((Z.of_nat off - Z.of_nat c) mod 2 ^ 32 = Z.of_nat off - Z.of_nat c + 2 ^ 32) as ->.
    { symmetry. apply Z.mod_unique with (-1); lia. }
    rewrite (proj2 (Z.eqb_neq _ _)) by lia. rewrite (proj2 (Z.ltb_ge _ _)) by lia.
    eexists. split; [reflexivity|]. apply Hfin; [lia|done|done|done].
Qed.

Lemma tcp_skip conv strip frame st : carries conv (parse_frame strip frame) None -> tcp_step strip frame st = (st, Ok ()).
Proof. unfold tcp_step. by destruct (parse_frame strip frame) as [[|]|]. Qed.

Lemma tcp_run conv strip frames segs m st : tcp_rep conv m st ->
  Forall2 (fun fr s => carries conv (parse_frame strip fr.2) s) frames segs -> clean m (omap id segs) ->
  exists st', mfor frames (fun fr : Z * bytes => tcp_step strip fr.2) st = (st', Ok ()) /\
    tcp_rep conv (foldl advance m (omap id segs)) st'.
Proof.
  intros Hrep H. revert m st Hrep. induction H as [|fr [s|] frames segs Hc _ IH]; intros m st Hrep Hcl.
  - by exists st.
  - cbn [omap list_omap id clean foldl] in *. destruct Hcl as (H1 & H2 & H3).
    destruct (tcp_step_ok _ _ _ _ _ _ Hrep Hc H1 H2) as (st1 & E1 & Hrep1).
    cbn [mfor]. munfold. rewrite E1. by apply IH.
  - cbn [omap list_omap id] in *. cbn [mfor]. munfold. rewrite (tcp_skip _ _ _ _ Hc). by apply IH.
Qed.

(** A segment ahead of what its direction has covered is a hole. *)
Lemma tcp_step_gap conv strip frame m st s a c : tcp_rep conv m st -> carries conv (parse_frame strip frame) (Some s) ->
  dget s.1.1 m = Some (a, c) -> 0 < Z.of_nat s.1.2 - Z.of_nat c < 2 ^ 31 ->
  exists st', tcp_step strip frame st = (st', Raise PcapError).
Proof.
  destruct s as [[k off] n]. cbn [fst snd]. intros Hrep Hc Hm Hgap. unfold tcp_step.
  destruct (parse_frame strip frame) as [[|src dst sport dport payload seq ack flags]|]; try done.
  destruct Hc as (Ek & isn & us & Econv & Hlen & Ep & Eseq & En). rewrite <- Ek. unfold mmod. munfold.
  specialize (Hrep k). rewrite Hm in Hrep. destruct Hrep as (isn' & us' & Econv' & Hac & He & Hb).
  rewrite Econv in Econv'. injection Econv' as <- <-.
  unfold tcp_sync. rewrite He. cbn [of_option]. rewrite He. cbn [of_option]. rewrite land_u32, Eseq.
  assert (((isn + Z.of_nat off) mod 2 ^ 32 - (isn + Z.of_nat c) mod 2 ^ 32) mod 2 ^ 32 = Z.of_nat off - Z.of_nat c) as ->.
  { rewrite <- Zminus_mod. replace (_ - _) with (Z.of_nat off - Z.of_nat c) by lia. apply Z.mod_small. lia. }
  rewrite (proj2 (Z.eqb_neq _ _)) by lia. rewrite (proj2 (Z.ltb_lt _ _)) by lia. by eexists.
Qed.

(** ** MoldUDP64 packets *)

Definition mold_block (m : bytes) : bytes := be_bytes 2 (zlen m) ++ m.
Definition mold_packet (session : bytes) (seq count : Z) (blocks : bytes) : bytes :=
  session ++ be_bytes 8 seq ++ be_bytes 2 count ++ blocks.
Definition mold_numbered (seq : Z) (ms : list bytes) : list (Z * bytes) := imap (fun i m => (seq + Z.of_nat i, m)) ms.

Lemma mold_numbered_cons seq m ms : mold_numbered seq (m :: ms) = (seq, m) :: mold_numbered (seq + 1) ms.
Proof. unfold mold_numbered. cbn. rewrite Z.add_0_r. f_equal. apply imap_ext. intros. cbn. f_equal. lia. Qed.

Lemma mold_blocks_ok ms n seq pre rest : Forall (fun m => zlen m < 65536) ms ->
  mold_blocks (length ms + n) (length pre) seq (pre ++ concat (map mold_block ms) ++ rest) =
  let '(l, r) := mold_blocks n (length pre + length (concat (map mold_block ms))) (seq + zlen ms)
                   (pre ++ concat (map mold_block ms) ++ rest) in (mold_numbered seq ms ++ l, r).
Proof.
  intros H. revert pre seq. induction H as [|m ms Hm _ IH]; intros pre seq.
  - cbn [concat map length app Nat.add]. rewrite Nat.add_0_r, Z.add_0_r. by destruct (mold_blocks _ _ _ _).
  - cbn [concat map length Nat.add mold_blocks]. set (data := pre ++ (mold_block m ++ concat (map mold_block ms)) ++ rest).
    pose proof (zlen_nonneg m) as Hm0.
    assert (data = pre ++ be_bytes 2 (zlen m) ++ (m ++ concat (map mold_block ms) ++ rest)) as Ed.
    { unfold data, mold_block. by rewrite <- !app_assoc. }
    rewrite (proj2 (Nat.ltb_ge _ _)) by (rewrite Ed, !length_app, be_bytes_length; lia).
    assert (be_at 2 (length pre) data = zlen m) as -> by (rewrite Ed; apply (be_at_mid 2); [done|cbn; lia]).
    assert (Z.to_nat (zlen m) = length m) as -> by (unfold zlen; lia).
    assert (slice (length pre + 2) (length pre + 2 + length m) data = m) as ->.
    { rewrite Ed, app_assoc. apply slice_mid; rewrite length_app, be_bytes_length; lia. }
    rewrite Nat.eqb_refl. cbn [negb].
    specialize (IH (pre ++ mold_block m) (seq + 1)).
    assert (length (pre ++ mold_block m) = (length pre + 2 + length m)%nat) as El.
    { unfold mold_block. rewrite !length_app, be_bytes_length. lia. }
    assert ((pre ++ mold_block m) ++ concat (map mold_block ms) ++ rest = data) as Ed2.
    { unfold data. by rewrite <- !app_assoc. }
    rewrite El, Ed2 in IH. rewrite IH.
    rewrite mold_numbered_cons.
    replace (length pre + 2 + length m + length (concat (map mold_block ms)))%nat
      with (length pre + length (mold_block m ++ concat (map mold_block ms)))%nat
      by (unfold mold_block; rewrite !length_app, be_bytes_length; lia).
    replace (seq + 1 + zlen ms) with (seq + zlen (m :: ms)) by (unfold zlen; cbn [length]; lia).
    match goal with |- context [mold_blocks n ?a ?b ?c] => generalize (mold_blocks n a b c) end. by intros [l r].
Qed.

Lemma parse_mold_ok session seq count blocks : length session = 10%nat -> forallb is_ascii session = true ->
  0 <= seq < 2 ^ 64 -> 0 <= count < 65536 ->
  parse_mold_header (mold_packet session seq count blocks) = Ok (mkMold (strip (l2s session)) seq count).
Proof.
  intros Hs Ha Hq Hc. unfold parse_mold_header, mold_packet.
  rewrite (proj2 (Nat.ltb_ge _ _)) by (rewrite !length_app, !be_bytes_length, Hs; unfold _MOLD_HEADER_LEN; lia).
  assert (slice 0 _MOLD_SESSION_LEN (session ++ be_bytes 8 seq ++ be_bytes 2 count ++ blocks) = session) as ->.
  { apply (slice_mid []); [done|by rewrite Hs]. }
  unfold decode_ascii. rewrite Ha. cbn [mbind res_bind].
  rewrite (be_at_mid 8) by (done || by change (256 ^ _) with (2 ^ 64)).
  rewrite app_assoc. rewrite slice_mid by (rewrite length_app, be_bytes_length, Hs; done).
  by rewrite be_val_bytes_small.
Qed.

(** * Properties *)

(** A capture file of either byte order and either timestamp resolution, on either
    link layer: [read_pcap] yields the TCP and UDP payloads in order with their
    addresses and exact times, whatever VLAN tags, IP and TCP options and link
    padding are around them, and skips frames of other protocols. *)
Theorem read_pcap_exact magic e scale head linktype items : file_ok magic e scale head linktype items ->
  read_pcap (pcap_file magic e head linktype items)
  = (omap (fun x => parsed_record (ns scale x) <$> item_parsed x.2) items, Ok ()).
Proof.
  intros H. destruct (pcap_frames _ _ _ _ _ _ H) as (strip & f & E1 & E2 & Hp).
  unfold read_pcap. rewrite E1, E2. f_equal. clear - Hp. induction Hp as [|x items Hx _ IH]; [done|].
  cbn [map omap list_omap]. unfold record_of at 1. cbn [fst snd]. rewrite Hx, IH.
  by destruct (item_parsed x.2) as [[]|].
Qed.

(** A UDP datagram under two VLAN tags with padding, and an ARP frame. *)
Definition demo_head : ip_head :=
  mkIp x00 [x01; x02; x03; x04; x40]%byte [x00; x00]%byte [x0a; x00; x00; x01]%byte [xe0; x01; x02; x03]%byte [].
Definition demo_eth (tags : list (Z * Z)) : link := Eth (replicate 12 x11%byte) tags.
Definition demo_items : list (Z * Z * bytes * item) := [
  ((5, 7), [x00; x00; x00; x00]%byte,
    Packet (demo_eth [(0x88A8, 3); (0x8100, 9)]) demo_head (TUdp 1000 2000 [x00; x00]%byte ["h"; "i"]%byte) [x00; x00]%byte);
  ((6, 0), [x00; x00; x00; x00]%byte, Other (demo_eth []) 0x0806 [x01]%byte)].

Lemma demo_file_ok : file_ok [xd4; xc3; xb2; xa1]%byte Little 1000 (replicate 16 x00%byte) LINKTYPE_ETHERNET demo_items.
Proof.
  split; [vm_compute; reflexivity|]. split; [reflexivity|]. split; [by left|].
  assert (forall z, 0 <=? z = true -> z <? 65536 = true -> 0 <= z < 65536) as Hz by (intros; lia).
  repeat constructor; try (by vm_compute); try (apply Hz; by vm_compute).
Qed.

Lemma read_pcap_exact_witness :
  read_pcap (pcap_file [xd4; xc3; xb2; xa1]%byte Little (replicate 16 x00%byte) LINKTYPE_ETHERNET demo_items)
  = ([(5000007000, PROTO_UDP, "10.0.0.1", "224.1.2.3", 1000, 2000, ["h"; "i"]%byte)], Ok ()).
Proof.
  etransitivity; [exact (read_pcap_exact _ _ 1000 _ _ _ demo_file_ok)|]. vm_compute. reflexivity.
Defined.

(** C25. Reassembly of a clean capture: whatever directions are interleaved and whatever
    is retransmitted, and across the wrap of the 32-bit sequence numbers, each
    direction's stream is exactly the bytes sent from its first captured segment to
    the end of the in-order data. *)
Theorem reassembly_exact conv magic e scale head linktype items segs :
  file_ok magic e scale head linktype items ->
  Forall2 (fun x s => carries conv (item_parsed x.2) s) items segs -> clean [] (omap id segs) ->
  exists ss, reassemble_tcp_streams (pcap_file magic e head linktype items) = Ok ss /\
    forall k, match dget k (foldl advance [] (omap id segs)) with
              | Some (a, c) => exists isn us, conv k = Some (isn, us) /\ (a <= c <= length us)%nat /\
                  dget k ss = Some (unit_bytes (slice a c us))
              | None => dget k ss = None
              end.
Proof.
  intros Hf Hc Hcl. destruct (pcap_frames _ _ _ _ _ _ Hf) as (strip & f & E1 & E2 & Hp).
  assert (Forall2 (fun (fr : Z * bytes) s => carries conv (parse_frame strip fr.2) s)
            (map (fun x => (ns scale x, item_bytes x.2)) items) segs) as Hc2.
  { clear - Hp Hc. induction Hc as [|x s items segs Hx _ IH]; [constructor|].
    apply Forall_cons in Hp as [Hpx Hp]. constructor; [cbn [snd]; by rewrite Hpx|by apply IH]. }
  destruct (tcp_run conv strip _ segs [] (mkTcp [] []) ltac:(by intros k) Hc2 Hcl) as (st & E3 & Hrep).
  exists (streams st). unfold reassemble_tcp_streams. rewrite E1, E2, E3. split; [done|].
  intros k. specialize (Hrep k). destruct (dget k _) as [[a c]|]; [|by destruct Hrep].
  destruct Hrep as (isn & us & H1 & H2 & _ & H4). by exists isn, us.
Qed.

(** A direction that wraps: SYN, "abc", FIN; "ab" is sent again. *)
Definition demo_units : list (option byte) := [None; Some "a"; Some "b"; Some "c"; None]%byte.
Definition demo_conv (k : tcp_key) : option direction := Some (2 ^ 32 - 2, demo_units).
Definition demo_tcp (seq flags : Z) (payload : bytes) : Z * Z * bytes * item :=
  ((1, 0), [x00; x00; x00; x00]%byte,
    Packet (Sll (replicate 14 x00%byte)) demo_head (TTcp 80 90 seq 0 0 flags [x00; x00; x00; x00; x00; x00]%byte [] payload) []).
Definition demo_tcp_items : list (Z * Z * bytes * item) :=
  [demo_tcp (2 ^ 32 - 2) 2 []; demo_tcp (2 ^ 32 - 1) 16 ["a"; "b"]%byte; demo_tcp (2 ^ 32 - 1) 16 ["a"; "b"]%byte;
   demo_tcp 1 17 ["c"]%byte].
Definition demo_key : tcp_key := ("10.0.0.1", 80, "224.1.2.3", 90).
Definition demo_segs : list (option segment) :=
  [Some (demo_key, 0%nat, 1%nat); Some (demo_key, 1%nat, 2%nat); Some (demo_key, 1%nat, 2%nat); Some (demo_key, 3%nat, 2%nat)].

Ltac demo_ok :=
  repeat match goal with
  | |- _ /\ _ => split
  | |- Forall _ _ => constructor
  | |- Forall2 _ _ _ => constructor
  | |- _ <= _ => apply Z.leb_le; vm_compute; reflexivity
  | |- _ < _ => apply Z.ltb_lt; vm_compute; reflexivity
  | |- (_ <= _)%nat => apply Nat.leb_le; vm_compute; reflexivity
  | |- (_ < _)%nat => apply Nat.ltb_lt; vm_compute; reflexivity
  | |- _ = _ => vm_compute; reflexivity
  | |- True => exact I
  end.

Lemma demo_tcp_file_ok : file_ok [xa1; xb2; xc3; xd4]%byte Big 1000 (replicate 16 x00%byte) LINKTYPE_LINUX_SLL demo_tcp_items.
Proof.
  split; [vm_compute; reflexivity|]. split; [reflexivity|]. split; [by right|].
  unfold stamped_ok, item_ok, u32. repeat (constructor; cbn [fst snd demo_tcp]); unfold port; demo_ok.
Qed.

Lemma demo_carries seq flags payload off n : let x := demo_tcp seq flags payload in
  (off + n <= 5)%nat -> payload = unit_bytes (slice off (off + n) demo_units) -> seq = (2 ^ 32 - 2 + Z.of_nat off) mod 2 ^ 32 ->
  Z.of_nat n = zlen payload + (if Z.land flags _TCP_FLAG_SYN =? 0 then 0 else 1) + (if Z.land flags _TCP_FLAG_FIN =? 0 then 0 else 1) ->
  carries demo_conv (item_parsed x.2) (Some (demo_key, off, n)).
Proof.
  intros x H1 H2 H3 H4. split; [by vm_compute|]. exists (2 ^ 32 - 2), demo_units. split_and!; done.
Qed.

Lemma demo_segs_ok : Forall2 (fun x s => carries demo_conv (item_parsed x.2) s) demo_tcp_items demo_segs.
Proof. unfold demo_tcp_items, demo_segs. do 4 (constructor; [apply demo_carries; demo_ok|]). constructor. Qed.

Lemma reassembly_exact_witness :
  exists ss, reassemble_tcp_streams (pcap_file [xa1; xb2; xc3; xd4]%byte Big (replicate 16 x00%byte) LINKTYPE_LINUX_SLL demo_tcp_items)
    = Ok ss /\ dget demo_key ss = Some ["a"; "b"; "c"]%byte.
Proof.
  destruct (reassembly_exact demo_conv _ _ _ _ _ _ demo_segs demo_tcp_file_ok demo_segs_ok) as (ss & E & H).
  { cbn [omap list_omap id demo_segs clean]. unfold cover_at. demo_ok. }
  exists ss. split; [exact E|]. specialize (H demo_key).
  assert (dget demo_key (foldl advance [] (omap id demo_segs)) = Some (0%nat, 5%nat)) as Ec by (vm_compute; reflexivity).
  rewrite Ec in H. destruct H as (isn & us & Econv & _ & Hs). injection Econv as <- <-.
  etransitivity; [exact Hs|]. vm_compute. reflexivity.
Defined.

(** Loss is never silent: a segment that starts beyond what its direction has
    covered makes the reassembly raise, wherever it is in the capture. *)
Theorem gap_detected conv magic e scale head linktype items1 x items2 segs1 s a c :
  file_ok magic e scale head linktype (items1 ++ x :: items2) ->
  Forall2 (fun x s => carries conv (item_parsed x.2) s) items1 segs1 -> clean [] (omap id segs1) ->
  carries conv (item_parsed x.2) (Some s) ->
  dget s.1.1 (foldl advance [] (omap id segs1)) = Some (a, c) -> 0 < Z.of_nat s.1.2 - Z.of_nat c < 2 ^ 31 ->
  reassemble_tcp_streams (pcap_file magic e head linktype (items1 ++ x :: items2)) = Raise PcapError.
Proof.
  intros Hf Hc Hcl Hx Hcov Hgap. destruct (pcap_frames _ _ _ _ _ _ Hf) as (strip & f & E1 & E2 & Hp).
  apply Forall_app in Hp as [Hp1 [Hpx _]%Forall_cons].
  assert (Forall2 (fun (fr : Z * bytes) s => carries conv (parse_frame strip fr.2) s)
            (map (fun x => (ns scale x, item_bytes x.2)) items1) segs1) as Hc2.
  { clear - Hp1 Hc. induction Hc as [|y t items segs Hy _ IH]; [constructor|].
    apply Forall_cons in Hp1 as [Hpy Hp]. constructor; [cbn [snd]; by rewrite Hpy|by apply IH]. }
  destruct (tcp_run conv strip _ segs1 [] (mkTcp [] []) ltac:(by intros k) Hc2 Hcl) as (st & E3 & Hrep).
  rewrite <- Hpx in Hx. destruct (tcp_step_gap _ _ _ _ _ _ _ _ Hrep Hx Hcov Hgap) as (st' & E4).
  unfold reassemble_tcp_streams. rewrite E1, E2, map_app, mfor_app, E3. cbn [map mfor]. munfold. cbn [snd]. by rewrite E4.
Qed.

Definition demo_gap_items : list (Z * Z * bytes * item) := [demo_tcp (2 ^ 32 - 2) 2 []] ++ demo_tcp 0 16 ["b"]%byte :: [].

Lemma demo_gap_file_ok : file_ok [xa1; xb2; xc3; xd4]%byte Big 1000 (replicate 16 x00%byte) LINKTYPE_LINUX_SLL demo_gap_items.
Proof.
  split; [vm_compute; reflexivity|]. split; [reflexivity|]. split; [by right|].
  unfold stamped_ok, item_ok, u32. repeat (constructor; cbn [fst snd demo_tcp]); unfold port; demo_ok.
Qed.

Lemma gap_detected_witness :
  reassemble_tcp_streams (pcap_file [xa1; xb2; xc3; xd4]%byte Big (replicate 16 x00%byte) LINKTYPE_LINUX_SLL demo_gap_items)
  = Raise PcapError.
Proof.
  apply (gap_detected demo_conv _ _ _ _ _ _ _ _ [Some (demo_key, 0%nat, 1%nat)] (demo_key, 2%nat, 1%nat) 0 1 demo_gap_file_ok).
  - constructor; [apply demo_carries; demo_ok|constructor].
  - cbn [omap list_omap id clean]. unfold cover_at. demo_ok.
  - apply demo_carries; demo_ok.
  - vm_compute. reflexivity.
  - cbn [fst snd]. split; [apply Z.ltb_lt|apply Z.ltb_lt]; vm_compute; reflexivity.
Defined.

(** A MoldUDP64 packet yields its messages numbered from the header's sequence
    number; heartbeats and the end of session yield none; a packet cut inside its
    last block yields the messages before it and raises. *)
Theorem mold_exact session seq ms m n : length session = 10%nat -> forallb is_ascii session = true ->
  0 <= seq < 2 ^ 64 -> Forall (fun m => zlen m < 65536) (ms ++ [m]) -> zlen (ms ++ [m]) < 65535 ->
  (n < length (mold_block m))%nat ->
  iter_mold_messages (mold_packet session seq (zlen (ms ++ [m])) (concat (map mold_block (ms ++ [m]))))
  = (mold_numbered seq (ms ++ [m]), Ok ()) /\
  iter_mold_messages (mold_packet session seq (zlen (ms ++ [m])) (concat (map mold_block ms) ++ take n (mold_block m)))
  = (mold_numbered seq ms, Raise ValueError) /\
  (forall blocks, iter_mold_messages (mold_packet session seq 0 blocks) = ([], Ok ())) /\
  (forall blocks, iter_mold_messages (mold_packet session seq 0xFFFF blocks) = ([], Ok ())).
Proof.
  intros Hs Ha Hq Hm Hlen Hn. set (all := ms ++ [m]) in *.
  assert (0 < zlen all) as Hpos by (unfold all; rewrite zlen_app; unfold zlen; cbn [length]; lia).
  assert (forall blocks, iter_mold_messages (mold_packet session seq (zlen all) blocks)
    = mold_blocks (length all) 20 seq ((session ++ be_bytes 8 seq ++ be_bytes 2 (zlen all)) ++ blocks)) as Hiter.
  { intros blocks. unfold iter_mold_messages. rewrite parse_mold_ok by (done || lia).
    unfold is_heartbeat, is_end_of_session, MOLD_HEARTBEAT_COUNT, MOLD_END_OF_SESSION_COUNT. cbn [mold_count mold_sequence].
    rewrite !(proj2 (Z.eqb_neq _ _)) by lia. cbn [orb]. unfold zlen at 1. rewrite Nat2Z.id. unfold mold_packet.
    by rewrite <- !app_assoc. }
  set (pre := session ++ be_bytes 8 seq ++ be_bytes 2 (zlen all)) in *.
  assert (length pre = 20%nat) as Lp by (unfold pre; rewrite !length_app, !be_bytes_length, Hs; done).
  split_and!.
  - rewrite Hiter, <- Lp. pose proof (mold_blocks_ok all 0 seq pre [] Hm) as H.
    rewrite app_nil_r, Nat.add_0_r in H. rewrite H. cbn [mold_blocks]. by rewrite app_nil_r.
  - rewrite Hiter, <- Lp. apply Forall_app in Hm as [Hms [Hml _]%Forall_cons].
    replace (length all) with (length ms + 1)%nat by (unfold all; rewrite length_app; done).
    rewrite mold_blocks_ok by done. set (pre2 := pre ++ concat (map mold_block ms)).
    replace (length pre + length (concat (map mold_block ms)))%nat with (length pre2) by (unfold pre2; by rewrite length_app).
    rewrite app_assoc. fold pre2. cbn [mold_blocks].
    destruct (Nat.ltb_spec (length (pre2 ++ take n (mold_block m))) (length pre2 + 2)) as [|Hl];
      [by rewrite app_nil_r|].
    rewrite length_app, length_take in Hl. pose proof (zlen_nonneg m).
    assert (take n (mold_block m) = be_bytes 2 (zlen m) ++ take (n - 2) m) as Et.
    { unfold mold_block. rewrite take_app_ge by (rewrite be_bytes_length; lia). by rewrite be_bytes_length. }
    rewrite Et, (be_at_mid 2) by (done || cbn; lia).
    assert (Z.to_nat (zlen m) = length m) as -> by (unfold zlen; lia).
    assert ((length (slice (length pre2 + 2) (length pre2 + 2 + length m) (pre2 ++ be_bytes 2 (zlen m) ++ take (n - 2) m)) < length m)%nat) as Hlt.
    { unfold slice. rewrite length_take, length_drop, !length_app, be_bytes_length, length_take.
      unfold mold_block in Hn. rewrite length_app, be_bytes_length in Hn. lia. }
    rewrite (proj2 (Nat.eqb_neq _ _)) by lia. cbn [negb]. by rewrite app_nil_r.
  - intros blocks. unfold iter_mold_messages. by rewrite parse_mold_ok by (done || lia).
  - intros blocks. unfold iter_mold_messages. by rewrite parse_mold_ok by (done || lia).
Qed.

Lemma mold_exact_witness :
  iter_mold_messages (mold_packet (replicate 10 "S"%byte) 41 2 (concat (map mold_block [["a"]; ["b"; "c"]]%byte)))
  = ([(41, ["a"]%byte); (42, ["b"; "c"]%byte)], Ok ()).
Proof.
  destruct (mold_exact (replicate 10 "S"%byte) 41 [["a"]%byte] ["b"; "c"]%byte 3) as (E & _); [demo_ok..|].
  etransitivity; [exact E|]. vm_compute. reflexivity.
Defined.
