(* ===== verification/Wsock.v ===== *)
(** jnxweb/wsock.py: WebSocket framing, the per-browser clients and the hub that
    fans the web state's changes out to them.

    Client objects live in the hub's store and are referred to by index, since the
    hub's list, the reactor's callbacks and the loops over the list share them.
    Sockets are [socket] objects (never reused), times integer milliseconds.  The
    JSON text of what is sent is [PyText.dumps]; what [json.loads] makes of a
    browser's text frame is an operation of the interface ([ws_sub]). *)
From S2P Require Export WebState Tcp PyText.

#[global] Set Default Goal Selector "!".

Definition GUID : str := "258EAFA5-E914-47DA-95CA-C5AB0DC85B11".
Definition OP_CONTINUATION : Z := 0.
Definition OP_TEXT : Z := 1.
Definition OP_BINARY : Z := 2.
Definition OP_CLOSE : Z := 8.
Definition OP_PING : Z := 9.
Definition OP_PONG : Z := 10.
Definition MAX_SEND_BUF : Z := 256 * 1024.
Definition MIN_PUSH_INTERVAL : Z := 100.

Definition compute_accept_key (client_key : str) : res str :=
  l ← encode_ascii (String.append client_key GUID); decode_ascii (b64encode (sha1 l)).

(** * Frames *)

Definition encode_frame (opcode : Z) (payload : bytes) : res bytes :=
  let out := [z2b (Z.lor 128 (Z.land opcode 15))] in
  let length := zlen payload in
  len ← (if length <? 126 then Ok [z2b length]
         else if length <? 65536 then n ← pack1 Big (U 2) length; Ok (z2b 126 :: n)
         else n ← pack1 Big (U 8) length; Ok (z2b 127 :: n));
  Ok (out ++ len ++ payload).

Definition encode_text_frame (text : bytes) : res bytes := encode_frame OP_TEXT text.
Definition encode_close_frame (code : Z) : res bytes := c ← pack1 Big (U 2) code; encode_frame OP_CLOSE c.

(** The bytes of [raw] xored with the four key bytes in turn. *)
Fixpoint unmask (i : nat) (raw mask_key : bytes) : bytes :=
  match raw with
  | [] => []
  | b :: t => z2b (Z.lxor (b2z b) (b2z (nth (i mod 4) mask_key Byte.x00))) :: unmask (S i) t mask_key
  end.

(** The [if length == 126 .. elif length == 127] block: the payload length and the
    offset after it, or [None] when the bytes are not there yet. *)
Definition read_length (buf : bytes) (length : Z) : res (option (Z * nat)) :=
  if length =? 126 then
    if decide (List.length buf < 2 + 2)%nat then Ok None
    else n ← unpack1 Big (U 2) (slice 2 4 buf); Ok (Some (n, 4%nat))
  else if length =? 127 then
    if decide (List.length buf < 2 + 8)%nat then Ok None
    else n ← unpack1 Big (U 8) (slice 2 10 buf); Ok (Some (n, 10%nat))
  else Ok (Some (length, 2%nat)).

Definition decode_frame (buf : bytes) : res (option (bool * Z * bytes * nat)) :=
  match buf with
  | c0 :: c1 :: _ =>
      let b0 := b2z c0 in
      let b1 := b2z c1 in
      if negb (Z.land b0 112 =? 0) then Raise FrameError
      else
        let fin := negb (Z.land b0 128 =? 0) in
        let opcode := Z.land b0 15 in
        let masked := negb (Z.land b1 128 =? 0) in
        r ← read_length buf (Z.land b1 127);
        match r with
        | None => Ok None
        | Some (len, offset) =>
            if negb masked then Raise FrameError
            else if decide (length buf < offset + 4)%nat then Ok None
            else
              let mask_key := slice offset (offset + 4) buf in
              let offset := (offset + 4)%nat in
              if zlen buf <? Z.of_nat offset + len then Ok None
              else
                let raw := slice offset (offset + Z.to_nat len) buf in
                Ok (Some (fin, opcode, unmask 0 raw mask_key, (offset + Z.to_nat len)%nat))
        end
  | _ => Ok None
  end.

(** * Clients and the hub *)

Record WebSocketClient : Type := mkWs {
  ws_sock : nat; ws_recv_buf : bytes; ws_send_buf : bytes; subscribed : option str;
  _pending_payload : option json; _last_push : Z; _flush_timer : option Z;
  _closing : bool; _torn_down : bool }.

Definition ws_init (sock : nat) : WebSocketClient := mkWs sock [] [] None None 0 None false false.

Definition x_recv_buf (x : bytes) (c : WebSocketClient) : WebSocketClient :=
  mkWs (ws_sock c) x (ws_send_buf c) (subscribed c) (_pending_payload c) (_last_push c) (_flush_timer c) (_closing c) (_torn_down c).
Definition x_send_buf (x : bytes) (c : WebSocketClient) : WebSocketClient :=
  mkWs (ws_sock c) (ws_recv_buf c) x (subscribed c) (_pending_payload c) (_last_push c) (_flush_timer c) (_closing c) (_torn_down c).
Definition x_subscribed (x : option str) (c : WebSocketClient) : WebSocketClient :=
  mkWs (ws_sock c) (ws_recv_buf c) (ws_send_buf c) x (_pending_payload c) (_last_push c) (_flush_timer c) (_closing c) (_torn_down c).
Definition x_pending (x : option json) (c : WebSocketClient) : WebSocketClient :=
  mkWs (ws_sock c) (ws_recv_buf c) (ws_send_buf c) (subscribed c) x (_last_push c) (_flush_timer c) (_closing c) (_torn_down c).
Definition x_last_push (x : Z) (c : WebSocketClient) : WebSocketClient :=
  mkWs (ws_sock c) (ws_recv_buf c) (ws_send_buf c) (subscribed c) (_pending_payload c) x (_flush_timer c) (_closing c) (_torn_down c).
Definition x_flush_timer (x : option Z) (c : WebSocketClient) : WebSocketClient :=
  mkWs (ws_sock c) (ws_recv_buf c) (ws_send_buf c) (subscribed c) (_pending_payload c) (_last_push c) x (_closing c) (_torn_down c).
Definition x_closing (x : bool) (c : WebSocketClient) : WebSocketClient :=
  mkWs (ws_sock c) (ws_recv_buf c) (ws_send_buf c) (subscribed c) (_pending_payload c) (_last_push c) (_flush_timer c) x (_torn_down c).
Definition x_torn_down (x : bool) (c : WebSocketClient) : WebSocketClient :=
  mkWs (ws_sock c) (ws_recv_buf c) (ws_send_buf c) (subscribed c) (_pending_payload c) (_last_push c) (_flush_timer c) (_closing c) x.

(** [clients] is the hub's list of clients, [ws_objs] the client objects. *)
Record WsHub : Type := mkHub { ws_objs : list WebSocketClient; clients : list nat }.
Definition hub_init : WsHub := mkHub [] [].

Inductive ws_cb : Type := WsReadable | WsWritable | WsFlushTimer.

Class WsOf (W CB : Type) : Type := {
  hub : W -> WsHub;
  set_hub : WsHub -> W -> W;
  ws_name : nat -> ws_cb -> CB;
  ws_recv : nat -> M W recv_res;
  ws_send : nat -> bytes -> M W send_res;
  ws_close : nat -> M W ();
  (* the stripped str(msg["sub"]) of a text frame that holds a JSON object with
     that key, None for any other text *)
  ws_sub : bytes -> option str }.

(** ** What is sent *)

Definition json_of_rval (v : rval) : json :=
  match v with
  | RInt z => JInt z
  | RStr s => JStr s
  | RLevels l => JList ((fun x => JList [JInt x.1.1; JInt x.1.2; JInt x.2]) <$> l)
  end.
Definition json_of_record (r : rdict) : list (str * json) := (fun kv => (kv.1, json_of_rval kv.2)) <$> r.
(** [State.snapshot]: the record with the trades under one more key. *)
Definition json_of_snapshot (s : rdict * list rdict) : json :=
  JObj (dset "trades" (JList ((fun t => JObj (json_of_record t)) <$> s.2)) (json_of_record s.1)).
Definition unknown_error : json := JObj [("error", JStr "unknown")].
Definition restarted_event (epoch : Z) : json := JObj [("event", JStr "restarted"); ("epoch", JInt epoch)].

Section ws.
  Context {W CB : Type} `{ReactorOf W CB} `{StateOf W} `{WsOf W CB}.

Definition client_at (i : nat) (w : W) : WebSocketClient := default (ws_init 0) (ws_objs (hub w) !! i).
Definition get_ws (i : nat) : M W WebSocketClient := mgets (client_at i).
Definition mod_ws (i : nat) (f : WebSocketClient -> WebSocketClient) : M W () :=
  mmod (fun w => set_hub (mkHub (alter f i (ws_objs (hub w))) (clients (hub w))) w).

(** [list.remove]: the first occurrence goes, a missing one is ignored. *)
Fixpoint remove_first (i : nat) (l : list nat) : list nat :=
  match l with [] => [] | j :: l => if decide (j = i) then l else j :: remove_first i l end.
Definition hub_remove (i : nat) : M W () :=
  mmod (fun w => set_hub (mkHub (ws_objs (hub w)) (remove_first i (clients (hub w)))) w).

Definition cancel_flush_timer (i : nat) : M W () :=
  c ← get_ws i;
  match _flush_timer c with
  | Some h => mod_rx (timer_cancel h) ;; mod_ws i (x_flush_timer None)
  | None => mret ()
  end.

Definition _teardown (i : nat) : M W () :=
  c ← get_ws i;
  if _torn_down c then mret ()
  else
    mod_ws i (x_torn_down true) ;;
    cancel_flush_timer i ;;
    mod_rx (unregister (ws_sock c)) ;;
    ws_close (ws_sock c) ;;
    hub_remove i.

Definition _enqueue (i : nat) (frame_bytes : bytes) : M W () :=
  c ← get_ws i;
  if _torn_down c then mret ()
  else if MAX_SEND_BUF <? zlen (ws_send_buf c) + zlen frame_bytes then _teardown i
  else
    mod_ws i (fun c => x_send_buf (ws_send_buf c ++ frame_bytes) c) ;;
    mod_rx (register_write (ws_sock c) (ws_name i WsWritable)).

Definition _send_json (i : nat) (obj : json) : M W () :=
  f ← mlift (encode_text_frame (dumps obj)); _enqueue i f.

Definition _initiate_close (i : nat) (code : Z) : M W () :=
  f ← mlift (encode_close_frame code); _enqueue i f ;; mod_ws i (x_closing true).

Definition _flush_pending (i : nat) (payload : json) : M W () :=
  mod_ws i (x_pending None) ;;
  now ← monotonic;
  mod_ws i (x_last_push now) ;;
  _send_json i payload.

Definition queue_update (i : nat) (payload : json) : M W () :=
  c ← get_ws i;
  if _torn_down c || _closing c then mret ()
  else
    mod_ws i (x_pending (Some payload)) ;;
    now ← monotonic;
    let elapsed := now - _last_push c in
    if MIN_PUSH_INTERVAL <=? elapsed then _flush_pending i payload
    else
      match _flush_timer c with
      | None =>
          h ← schedule (MIN_PUSH_INTERVAL - elapsed) (ws_name i WsFlushTimer);
          mod_ws i (x_flush_timer (Some h))
      | Some _ => mret ()
      end.

Definition _on_flush_timer (i : nat) : M W () :=
  mod_ws i (x_flush_timer None) ;;
  c ← get_ws i;
  match _pending_payload c with Some payload => _flush_pending i payload | None => mret () end.

Definition send_event (i : nat) (obj : json) : M W () :=
  c ← get_ws i;
  if _torn_down c || _closing c then mret () else _send_json i obj.

Definition lookup_snapshot (ticker : str) : M W (option (rdict * list rdict)) :=
  mgets (fun w => WebState.snapshot ticker (st w)).

Definition _handle_text (i : nat) (payload : bytes) : M W () :=
  match ws_sub payload with
  | None => mret ()
  | Some ticker =>
      mod_ws i (fun c => x_last_push 0 (x_pending None (x_subscribed (Some ticker) c))) ;;
      cancel_flush_timer i ;;
      snap ← lookup_snapshot ticker;
      match snap with
      | None => _send_json i unknown_error
      | Some s => _send_json i (json_of_snapshot s)
      end
  end.

Definition _handle_frame (i : nat) (opcode : Z) (payload : bytes) : M W () :=
  if opcode =? OP_TEXT then _handle_text i payload
  else if opcode =? OP_CLOSE then _initiate_close i 1000
  else if opcode =? OP_PING then f ← mlift (encode_frame OP_PONG payload); _enqueue i f
  else if opcode =? OP_PONG then mret ()
  else _initiate_close i 1003.

(** The [while True] of [_on_readable]; a frame takes bytes from the buffer, so its
    length is enough fuel. *)
Fixpoint read_loop (fuel i : nat) : M W () :=
  match fuel with
  | O => mret ()
  | S fuel' =>
      c ← get_ws i;
      match decode_frame (ws_recv_buf c) with
      | Raise FrameError => _teardown i
      | Raise e => mraise e
      | Ok None => mret ()
      | Ok (Some (fin, opcode, payload, consumed)) =>
          mod_ws i (fun c => x_recv_buf (drop consumed (ws_recv_buf c)) c) ;;
          if negb fin then _initiate_close i 1003
          else
            _handle_frame i opcode payload ;;
            c ← get_ws i;
            if _torn_down c then mret () else read_loop fuel' i
      end
  end.

Definition ws_on_readable (i : nat) : M W () :=
  c ← get_ws i;
  r ← ws_recv (ws_sock c);
  match r with
  | RecvBlock => mret ()
  | RecvError => _teardown i
  | RecvData [] => _teardown i
  | RecvData data =>
      mod_ws i (fun c => x_recv_buf (ws_recv_buf c ++ data) c) ;;
      c ← get_ws i;
      read_loop (S (length (ws_recv_buf c))) i
  end.

Definition ws_on_writable (i : nat) : M W () :=
  c ← get_ws i;
  if decide (ws_send_buf c = []) then mod_rx (unregister_write (ws_sock c))
  else
    r ← ws_send (ws_sock c) (ws_send_buf c);
    match r with
    | SendBlock => mret ()
    | SendError => _teardown i
    | SendBytes n =>
        mod_ws i (fun c => x_send_buf (drop n (ws_send_buf c)) c) ;;
        c ← get_ws i;
        if decide (ws_send_buf c = []) then
          mod_rx (unregister_write (ws_sock c)) ;;
          if _closing c then _teardown i else mret ()
        else mret ()
    end.

(** [WebSocketClient(sock, ..)] appended to the hub's list. *)
Definition attach (sock : nat) : M W nat :=
  w ← mget;
  let i := length (ws_objs (hub w)) in
  mmod (fun w => set_hub (mkHub (ws_objs (hub w) ++ [ws_init sock]) (clients (hub w))) w) ;;
  mod_rx (register_read sock (ws_name i WsReadable)) ;;
  mmod (fun w => set_hub (mkHub (ws_objs (hub w)) (clients (hub w) ++ [i])) w) ;;
  mret i.

(** A [for] loop over the hub's list reads the list by position while the body may
    remove from it, so that the element after a removed one is not visited. *)
Fixpoint ticker_loop (fuel pos : nat) (ticker : str) (snap : option (rdict * list rdict)) : M W () :=
  match fuel with
  | O => mret ()
  | S fuel' =>
      w ← mget;
      match clients (hub w) !! pos with
      | None => mret ()
      | Some i =>
          if decide (subscribed (client_at i w) = Some ticker) then
            match (match snap with Some s => Some s | None => WebState.snapshot ticker (st w) end) with
            | None => mret ()
            | Some s =>
                queue_update i (json_of_snapshot s) ;;
                ticker_loop fuel' (S pos) ticker (Some s)
            end
          else ticker_loop fuel' (S pos) ticker snap
      end
  end.
Definition hub_on_ticker_update (ticker : str) : M W () :=
  w ← mget; ticker_loop (S (length (clients (hub w)))) 0 ticker None.

Fixpoint event_loop (fuel pos : nat) (event : json) : M W () :=
  match fuel with
  | O => mret ()
  | S fuel' =>
      w ← mget;
      match clients (hub w) !! pos with
      | None => mret ()
      | Some i => send_event i event ;; event_loop fuel' (S pos) event
      end
  end.
Definition hub_on_restart (epoch : Z) : M W () :=
  w ← mget; event_loop (S (length (clients (hub w)))) 0 (restarted_event epoch).

Definition run_ws_cb (i : nat) (cb : ws_cb) : M W () :=
  match cb with
  | WsReadable => ws_on_readable i
  | WsWritable => ws_on_writable i
  | WsFlushTimer => _on_flush_timer i
  end.
End ws.

Example accept_key_rfc : compute_accept_key "dGhlIHNhbXBsZSBub25jZQ==" = Ok "s3pPLMBiTxaQ9kYGzzhZRbK+xOo=".
Proof. vm_compute. reflexivity. Qed.

(** * Lemmas: frames *)

(** A browser's frame as RFC 6455 section 5.2 lays it out; the length may be in any
    of the three forms it fits. *)
Inductive len_form : Type := Short | Medium | Long.
Record cframe : Type := mkCFrame {
  f_fin : bool; f_op : Z; f_form : len_form; f_key : bytes; f_payload : bytes }.

Definition form_max (f : len_form) : Z :=
  match f with Short => 126 | Medium => 65536 | Long => 18446744073709551616 end.
Definition form_bytes (mask : Z) (f : len_form) (n : Z) : bytes :=
  match f with
  | Short => [z2b (mask + n)]
  | Medium => z2b (mask + 126) :: be_bytes 2 n
  | Long => z2b (mask + 127) :: be_bytes 8 n
  end.
Definition cframe_bytes (f : cframe) : bytes :=
  z2b ((if f_fin f then 128 else 0) + f_op f) ::
  form_bytes 128 (f_form f) (zlen (f_payload f)) ++ f_key f ++ unmask 0 (f_payload f) (f_key f).
Definition cframe_ok (f : cframe) : Prop :=
  0 <= f_op f < 16 /\ length (f_key f) = 4%nat /\ zlen (f_payload f) < form_max (f_form f).

(** What a browser reads of an unmasked final frame: opcode, payload, rest. *)
Definition browser_read (l : bytes) : option (Z * bytes * bytes) :=
  match l with
  | c0 :: c1 :: t =>
      let op := b2z c0 - 128 in
      let n := b2z c1 in
      if n <? 126 then Some (op, take (Z.to_nat n) t, drop (Z.to_nat n) t)
      else
        let k := if n =? 126 then 2%nat else 8%nat in
        let len := Z.to_nat (be_val (take k t)) in
        Some (op, take len (drop k t), drop len (drop k t))
  | _ => None
  end.

Lemma unmask_length raw key : forall i, length (unmask i raw key) = length raw.
Proof. induction raw as [|b raw IH]; intros i; cbn; [done|]. by rewrite IH. Qed.

Lemma lxor_byte a b : 0 <= Z.lxor (b2z a) (b2z b) < 256.
Proof.
  pose proof (b2z_range a). pose proof (b2z_range b). split; [apply Z.lxor_nonneg; lia|].
  destruct (Z.eq_dec (Z.lxor (b2z a) (b2z b)) 0) as [->|Hne]; [lia|].
  apply (Z.log2_lt_pow2 _ 8); [assert (0 <= Z.lxor (b2z a) (b2z b)) by (apply Z.lxor_nonneg; lia); lia|].
  assert (forall z, 0 <= z < 256 -> Z.log2 z < 8) as Hl.
  { intros z Hz. destruct (Z.eq_dec z 0) as [->|]; [cbn; lia|]. apply Z.log2_lt_pow2; lia. }
  eapply Z.le_lt_trans; [apply Z.log2_lxor; lia|]. apply Z.max_lub_lt; by apply Hl.
Qed.

Lemma unmask_twice raw key : forall i, unmask i (unmask i raw key) key = raw.
Proof.
  induction raw as [|b raw IH]; intros i; cbn; [done|]. rewrite IH. f_equal. apply z2b_eq.
  rewrite b2z_z2b_small by apply lxor_byte.
  rewrite Z.lxor_assoc, Z.lxor_nilpotent, Z.lxor_0_r. apply Z.mod_small, b2z_range.
Qed.

(** The bit tests on the first two bytes, checked on every byte. *)
Definition bits_check (h : bool) (n : nat) : bool :=
  let z := (if h then 128 else 0) + Z.of_nat n in
  bool_decide (Z.land z 127 = Z.of_nat n) && bool_decide (negb (Z.land z 128 =? 0) = h) &&
  (negb (n <? 16)%nat || (bool_decide (Z.land z 112 = 0) && bool_decide (Z.land z 15 = Z.of_nat n))).

Lemma bits_ok (h : bool) z : 0 <= z < 128 ->
  let b := (if h then 128 else 0) + z in
  Z.land b 127 = z /\ negb (Z.land b 128 =? 0) = h /\ (z < 16 -> Z.land b 112 = 0 /\ Z.land b 15 = z).
Proof.
  intros Hz b. assert (forallb (bits_check h) (seq 0 128) = true) as Hall by (destruct h; vm_compute; reflexivity).
  rewrite forallb_forall in Hall. specialize (Hall (Z.to_nat z)). rewrite in_seq in Hall.
  specialize (Hall ltac:(lia)). unfold bits_check in Hall. rewrite !Z2Nat.id in Hall by lia.
  fold b in Hall. apply andb_true_iff in Hall as [[H1 H2]%andb_true_iff H3].
  apply bool_decide_eq_true in H1, H2. split_and!; [done|done|]. intros Hlt.
  rewrite (proj2 (Nat.ltb_lt _ _)) in H3 by lia. cbn [negb orb] in H3.
  apply andb_true_iff in H3 as [H3 H4]. by apply bool_decide_eq_true in H3, H4.
Qed.

Lemma form_bytes_length m f n : length (form_bytes m f n) = match f with Short => 1 | Medium => 3 | Long => 9 end%nat.
Proof. destruct f; cbn [form_bytes length]; rewrite ?be_bytes_length; done. Qed.

(** Reading the length of a masked frame: all of it is needed. *)
Lemma read_length_form c0 f n t : 0 <= n < form_max f ->
  exists c1 r, form_bytes 128 f n = c1 :: r /\ negb (Z.land (b2z c1) 128 =? 0) = true /\
    read_length (c0 :: c1 :: r ++ t) (Z.land (b2z c1) 127) = Ok (Some (n, S (length (form_bytes 128 f n)))) /\
    forall k, (k < length r)%nat -> read_length (take (2 + k) (c0 :: c1 :: r)) (Z.land (b2z c1) 127) = Ok None.
Proof.
  intros Hn. destruct f; cbn [form_bytes form_max] in *.
  - eexists _, []. split; [done|]. rewrite b2z_z2b_small by lia. destruct (bits_ok true n) as (-> & -> & _); [lia|].
    split; [done|]. unfold read_length.
    rewrite (proj2 (Z.eqb_neq n 126)), (proj2 (Z.eqb_neq n 127)) by lia. split; [done|]. intros k Hk. cbn in Hk. lia.
  - exists (z2b (128 + 126)), (be_bytes 2 n). split; [done|]. rewrite b2z_z2b_small by lia.
    change (Z.land (128 + 126) 127) with 126. split; [done|]. unfold read_length. change (126 =? 126) with true. cbn iota.
    split.
    + rewrite decide_False by (cbn [length]; rewrite length_app, be_bytes_length; lia).
      unfold slice. change (4 - 2)%nat with 2%nat. cbn [drop]. rewrite drop_0, take_app_length' by by rewrite be_bytes_length.
      rewrite unpack1_U by apply be_bytes_length. cbn [byte_order mbind res_bind].
      rewrite be_val_bytes_small by (change (256 ^ Z.of_nat 2) with 65536; lia). cbn [length]. by rewrite be_bytes_length.
    + intros k Hk. rewrite be_bytes_length in Hk. rewrite decide_True; [done|]. rewrite length_take. lia.
  - exists (z2b (128 + 127)), (be_bytes 8 n). split; [done|]. rewrite b2z_z2b_small by lia.
    change (Z.land (128 + 127) 127) with 127. split; [done|]. unfold read_length.
    change (127 =? 126) with false. change (127 =? 127) with true. cbn iota.
    split.
    + rewrite decide_False by (cbn [length]; rewrite length_app, be_bytes_length; lia).
      unfold slice. change (10 - 2)%nat with 8%nat. cbn [drop]. rewrite drop_0, take_app_length' by by rewrite be_bytes_length.
      rewrite unpack1_U by apply be_bytes_length. cbn [byte_order mbind res_bind].
      rewrite be_val_bytes_small by (change (256 ^ Z.of_nat 8) with 18446744073709551616; lia). cbn [length].
      by rewrite be_bytes_length.
    + intros k Hk. rewrite be_bytes_length in Hk. rewrite decide_True; [done|]. rewrite length_take. lia.
Qed.

Lemma take_drop_mid {A} (n m : nat) (l1 l2 l3 : list A) : length l1 = n -> length l2 = m ->
  slice n (n + m) (l1 ++ l2 ++ l3) = l2.
Proof.
  intros H1 H2. unfold slice. replace (n + m - n)%nat with m by lia.
  rewrite drop_app_length' by done. by rewrite take_app_length' by done.
Qed.

Lemma decode_frame_whole f rest : cframe_ok f ->
  decode_frame (cframe_bytes f ++ rest) = Ok (Some (f_fin f, f_op f, f_payload f, length (cframe_bytes f))).
Proof.
  intros (Hop & Hkey & Hlen). destruct f as [fin op form key p]; cbn [f_fin f_op f_form f_key f_payload] in *.
  unfold cframe_bytes; cbn [f_fin f_op f_form f_key f_payload].
  set (c0 := z2b _). set (body := unmask 0 p key).
  destruct (read_length_form c0 form (zlen p) (key ++ body ++ rest)) as (c1 & r & Ef & Hm & Hr & _);
    [split; [auto with py|done]|].
  rewrite Ef in *. cbn [app length] in *. rewrite <- !app_assoc. cbn [decode_frame].
  assert (b2z c0 = (if fin then 128 else 0) + op) as E0 by (unfold c0; rewrite b2z_z2b_small; [done|destruct fin; lia]).
  rewrite E0. destruct (bits_ok fin op) as (_ & -> & Hbits); [lia|]. destruct Hbits as [-> ->]; [lia|].
  cbn [negb Z.eqb]. rewrite Hr. cbn [mbind res_bind]. rewrite Hm. cbn [negb].
  pose proof (unmask_length p key 0) as Hb. fold body in Hb. unfold zlen.
  rewrite decide_False by (cbn [length]; rewrite !length_app; lia).
  rewrite (proj2 (Z.ltb_ge _ _)) by (cbn [length]; rewrite !length_app; lia). rewrite Nat2Z.id.
  do 4 f_equal.
  - change (c0 :: c1 :: r ++ key ++ body ++ rest) with ((c0 :: c1 :: r) ++ key ++ body ++ rest).
    rewrite (take_drop_mid _ 4 (c0 :: c1 :: r)) by done.
    rewrite (app_assoc _ key). rewrite take_drop_mid; [apply unmask_twice| |done].
    rewrite length_app, Hkey. cbn [length]. lia.
  - rewrite !length_app, Hkey, Hb. lia.
Qed.

Lemma decode_frame_prefix f k : cframe_ok f -> (k < length (cframe_bytes f))%nat ->
  decode_frame (take k (cframe_bytes f)) = Ok None.
Proof.
  intros (Hop & Hkey & Hlen) Hk. destruct f as [fin op form key p]; cbn [f_fin f_op f_form f_key f_payload] in *.
  unfold cframe_bytes in *; cbn [f_fin f_op f_form f_key f_payload] in *.
  set (c0 := z2b _) in *. set (body := unmask 0 p key) in *.
  destruct k as [|[|k]]; [done|by destruct form|].
  set (j := (k + 1 - length (form_bytes 128 form (zlen p)))%nat).
  destruct (read_length_form c0 form (zlen p) (take j (key ++ body))) as (c1 & r & Ef & Hm & Hr & Hp);
    [split; [auto with py|done]|].
  assert (b2z c0 = (if fin then 128 else 0) + op) as E0 by (unfold c0; rewrite b2z_z2b_small; [done|destruct fin; lia]).
  pose proof (unmask_length p key 0) as Hb. fold body in Hb.
  rewrite Ef in *. cbn [app length take] in *. cbn [decode_frame].
  rewrite E0. destruct (bits_ok fin op) as (_ & -> & Hbits); [lia|]. destruct Hbits as [-> ->]; [lia|]. cbn [negb Z.eqb].
  destruct (decide (k < length r)%nat) as [Hlt|Hge].
  - rewrite take_app_le by lia. specialize (Hp k Hlt). cbn [Nat.add take] in Hp. by rewrite Hp.
  - rewrite take_app_ge by lia. assert (j = k - length r)%nat as Ej by (subst j; rewrite Ef; cbn [length]; lia).
    rewrite <- Ej, Hr. clearbody j.
    cbn [mbind res_bind]. rewrite Hm. cbn [negb]. case_decide as Hd; [done|].
    rewrite (proj2 (Z.ltb_lt _ _)); [done|]. unfold zlen in *. cbn [length] in *.
    rewrite !length_app in *. rewrite length_take, length_app in *. lia.
Qed.

Lemma encode_frame_ok op p : 0 <= op < 16 -> zlen p < form_max Long ->
  exists f, encode_frame op p = Ok (z2b (128 + op) :: form_bytes 0 f (zlen p) ++ p) /\ zlen p < form_max f /\
    (f = Medium -> 126 <= zlen p) /\ (f = Long -> 65536 <= zlen p).
Proof.
  intros Hop Hp. pose proof (zlen_nonneg p) as H0. unfold encode_frame.
  destruct (bits_ok false op) as (_ & _ & Hbits); [lia|]. destruct Hbits as [_ Hl]; [lia|].
  assert (Z.lor 128 (Z.land op 15) = 128 + op) as ->.
  { change (Z.land op 15 = op) in Hl. rewrite Hl. assert (forallb (fun n => bool_decide (Z.lor 128 (Z.of_nat n) = 128 + Z.of_nat n)) (seq 0 16) = true) as Hall
      by (vm_compute; reflexivity). rewrite forallb_forall in Hall. specialize (Hall (Z.to_nat op)).
    rewrite in_seq, bool_decide_eq_true, Z2Nat.id in Hall by lia. apply Hall. lia. }
  destruct (Z.ltb_spec (zlen p) 126); [|destruct (Z.ltb_spec (zlen p) 65536)].
  - by exists Short.
  - rewrite pack1_U by (change (256 ^ Z.of_nat 2) with 65536; lia). exists Medium. by split_and!.
  - rewrite pack1_U by (change (256 ^ Z.of_nat 8) with 18446744073709551616; cbn in Hp; lia). exists Long. by split_and!.
Qed.

(** WebSocket framing: a browser's frame, whole and followed by anything, is decoded
    to its fields and length, and no proper prefix of it is anything but
    incomplete; a server frame is read back by a browser. *)
Theorem ws_frames_exact (f : cframe) rest op p : cframe_ok f -> 0 <= op < 16 -> zlen p < form_max Long ->
  decode_frame (cframe_bytes f ++ rest) = Ok (Some (f_fin f, f_op f, f_payload f, length (cframe_bytes f))) /\
  (forall k, (k < length (cframe_bytes f))%nat -> decode_frame (take k (cframe_bytes f)) = Ok None) /\
  exists l, encode_frame op p = Ok l /\ browser_read (l ++ rest) = Some (op, p, rest).
Proof.
  intros Hf Hop Hp. split_and!; [by apply decode_frame_whole|intros; by apply decode_frame_prefix|].
  destruct (encode_frame_ok op p Hop Hp) as (form & E & Hmax & _ & _). eexists. split; [exact E|].
  pose proof (zlen_nonneg p) as H0. unfold browser_read.
  destruct form; cbn [form_bytes form_max app] in *; rewrite !b2z_z2b_small by lia.
  - rewrite (proj2 (Z.ltb_lt _ _)) by lia. unfold zlen. rewrite Z.add_0_l, Nat2Z.id, take_app_length, drop_app_length.
    f_equal. f_equal. f_equal. lia.
  - change (0 + 126 <? 126) with false. change (0 + 126 =? 126) with true. cbn iota.
    rewrite <- app_assoc. rewrite take_app_length', drop_app_length' by by rewrite be_bytes_length.
    rewrite be_val_bytes_small by (change (256 ^ Z.of_nat 2) with 65536; lia).
    unfold zlen. rewrite Nat2Z.id, take_app_length, drop_app_length. f_equal. f_equal. f_equal. lia.
  - change (0 + 127 <? 126) with false. change (0 + 127 =? 126) with false. cbn iota.
    rewrite <- app_assoc. rewrite take_app_length', drop_app_length' by by rewrite be_bytes_length.
    rewrite be_val_bytes_small by (change (256 ^ Z.of_nat 8) with 18446744073709551616; lia).
    unfold zlen. rewrite Nat2Z.id, take_app_length, drop_app_length. f_equal. f_equal. f_equal. lia.
Qed.

(** * A world for the hub

    The reactor, the hub, the web state whose callbacks are the hub's, the clock
    and what the next socket calls return. *)
Record wsw : Type := mkWsw {
  v_rx : Reactor (nat * ws_cb); v_hub : WsHub; v_st : State; v_now : Z;
  v_recv : recv_res; v_send : send_res; v_closed : list nat }.

Definition w_rx (x : Reactor (nat * ws_cb)) (w : wsw) : wsw :=
  mkWsw x (v_hub w) (v_st w) (v_now w) (v_recv w) (v_send w) (v_closed w).
Definition w_hub (x : WsHub) (w : wsw) : wsw :=
  mkWsw (v_rx w) x (v_st w) (v_now w) (v_recv w) (v_send w) (v_closed w).
Definition w_st (x : State) (w : wsw) : wsw :=
  mkWsw (v_rx w) (v_hub w) x (v_now w) (v_recv w) (v_send w) (v_closed w).
Definition w_closed (x : list nat) (w : wsw) : wsw :=
  mkWsw (v_rx w) (v_hub w) (v_st w) (v_now w) (v_recv w) (v_send w) x.
Definition w_env (now : Z) (r : recv_res) (s : send_res) (w : wsw) : wsw :=
  mkWsw (v_rx w) (v_hub w) (v_st w) now r s (v_closed w).

Definition wsw_init (s : State) : wsw := mkWsw reactor_init hub_init s 0 RecvBlock SendBlock [].

#[export] Instance wsw_reactor : ReactorOf wsw (nat * ws_cb) :=
  {| rx := v_rx; set_rx := w_rx; monotonic := mgets v_now |}.
#[export] Instance wsw_state : StateOf wsw := {| st := v_st; set_st := w_st |}.

Section hub_world.
  Context (sub : bytes -> option str).

#[local] Instance wsw_ws : WsOf wsw (nat * ws_cb) := {|
  hub := v_hub; set_hub := w_hub; ws_name := pair;
  ws_recv := fun _ => mgets v_recv; ws_send := fun _ _ => mgets v_send;
  ws_close := fun s => mmod (fun w => w_closed (v_closed w ++ [s]) w); ws_sub := sub |}.
#[local] Instance wsw_callbacks : StateCallbacks wsw :=
  {| on_ticker_update := hub_on_ticker_update; on_restart := hub_on_restart |}.

(** What happens to the hub: a new connection (on a socket nobody has registered), socket events and timers from the
    reactor, changes of the web state, its callbacks, shutdown, time. *)
Inductive ws_op : Type :=
| OAttach (sock : nat) | ORead (i : nat) (r : recv_res) | OWrite (i : nat) (r : send_res)
| OTimer | OTicker (ticker : str) | ORestart (epoch : Z) | OState (s : State) | OClose (i : nat) | OTime (d : Z).

Definition known (i : nat) (w : wsw) : bool := (i <? length (ws_objs (v_hub w)))%nat.

Definition ws_step (o : ws_op) : M wsw () := fun w =>
  match o with
  | OAttach sock =>
      if existsb (fun c => ws_sock c =? sock)%nat (ws_objs (v_hub w)) || bool_decide (is_Some (states (v_rx w) !! sock))
      then (w, Ok ())
      else (attach sock ;; mret ()) w
  | ORead i r => if known i w then ws_on_readable i (w_env (v_now w) r (v_send w) w) else (w, Ok ())
  | OWrite i r => if known i w then ws_on_writable i (w_env (v_now w) (v_recv w) r w) else (w, Ok ())
  | OTimer =>
      match timers (v_rx w) with
      | t :: l =>
          if deadline t <=? v_now w then
            let w1 := w_rx (set_timers l (v_rx w)) w in
            if cancelled t then (w1, Ok ()) else run_ws_cb (callback t).1 (callback t).2 w1
          else (w, Ok ())
      | [] => (w, Ok ())
      end
  | OTicker t => hub_on_ticker_update t w
  | ORestart e => hub_on_restart e w
  | OState s => (w_st s w, Ok ())
  | OClose i => if known i w then _teardown i w else (w, Ok ())
  | OTime d => (w_env (v_now w + Z.max 0 d) (v_recv w) (v_send w) w, Ok ())
  end.
Definition ws_run (ops : list ws_op) (w : wsw) : wsw := foldl (fun w o => fst (ws_step o w)) w ops.

(** ** The invariant *)

Record client_ok (r : Reactor (nat * ws_cb)) (ids : list nat) (i : nat) (c : WebSocketClient) : Prop := {
  ck_cap : zlen (ws_send_buf c) <= MAX_SEND_BUF;
  ck_live : _torn_down c = false <-> i ∈ ids;
  ck_torn : _torn_down c = true -> _flush_timer c = None;
  ck_cbs : cbs_of r (ws_sock c) =
    if _torn_down c then (None, None)
    else (Some (i, WsReadable), if decide (ws_send_buf c = []) then None else Some (i, WsWritable));
  ck_timer : forall h, _flush_timer c = Some h ->
    exists t, t ∈ timers r /\ tseq t = h /\ cancelled t = false /\ callback t = (i, WsFlushTimer);
  ck_pending : _pending_payload c <> None -> _torn_down c = false -> _flush_timer c <> None }.

(** A timer that will fire is the flush timer of a client, due within the push
    interval of the client's last push. *)
Definition timer_ok (objs : list WebSocketClient) (t : TimerHandle (nat * ws_cb)) : Prop :=
  cancelled t = false -> exists i c, callback t = (i, WsFlushTimer) /\ objs !! i = Some c /\
    _flush_timer c = Some (tseq t) /\ deadline t <= _last_push c + MIN_PUSH_INTERVAL.

Record hub_inv (r : Reactor (nat * ws_cb)) (h : WsHub) : Prop := {
  hi_rx : interest_inv r;
  hi_tm : timers_inv r;
  hi_seq : NoDup (tseq <$> timers r);
  hi_nodup : NoDup (clients h);
  hi_known : forall i, i ∈ clients h -> (i < length (ws_objs h))%nat;
  hi_socks : forall i j ci cj, ws_objs h !! i = Some ci -> ws_objs h !! j = Some cj -> ws_sock ci = ws_sock cj -> i = j;
  hi_client : forall i c, ws_objs h !! i = Some c -> client_ok r (clients h) i c;
  hi_timer : forall t, t ∈ timers r -> timer_ok (ws_objs h) t }.

Definition ws_inv (w : wsw) : Prop := hub_inv (v_rx w) (v_hub w).

(** One client and its part of the reactor change. *)
Lemma hub_inv_update r h i c c' r' ids' : hub_inv r h -> ws_objs h !! i = Some c -> ws_sock c' = ws_sock c ->
  interest_inv r' -> timers_inv r' -> NoDup (tseq <$> timers r') ->
  NoDup ids' -> (forall j, j <> i -> j ∈ ids' <-> j ∈ clients h) ->
  (forall s, s <> ws_sock c -> cbs_of r' s = cbs_of r s) ->
  client_ok r' ids' i c' ->
  (forall t, t ∈ timers r' -> cancelled t = false ->
     callback t = (i, WsFlushTimer) /\ _flush_timer c' = Some (tseq t) /\ deadline t <= _last_push c' + MIN_PUSH_INTERVAL \/
     (callback t).1 <> i /\ t ∈ timers r) ->
  (forall t, t ∈ timers r -> cancelled t = false -> (callback t).1 <> i -> t ∈ timers r') ->
  hub_inv r' (mkHub (alter (fun _ => c') i (ws_objs h)) ids').
Proof.
  intros [Hrx Htm Hseq Hnd Hkn Hso Hcl Hti] Hi Hsock Hrx' Htm' Hseq' Hnd' Hids Hcbs Hc' Ht1 Ht2.
  assert (forall j, alter (fun _ => c') i (ws_objs h) !! j = if decide (j = i) then Some c' else ws_objs h !! j) as Hl.
  { intros j. case_decide; [subst|].
    - by rewrite list_lookup_alter_eq, Hi.
    - by rewrite list_lookup_alter_ne. }
  split; cbn [ws_objs clients]; try done.
  - intros j Hj. rewrite length_alter. destruct (decide (j = i)) as [->|Hne]; [by eapply lookup_lt_Some|].
    by apply Hkn, Hids.
  - intros j k cj ck. rewrite !Hl. case_decide as E1; case_decide as E2; subst; try done.
    + intros [= <-] Hk E. rewrite Hsock in E. by eapply Hso.
    + intros Hj [= <-] E. rewrite Hsock in E. by eapply Hso.
    + intros Hj Hk E. by eapply Hso.
  - intros j cj. rewrite Hl. case_decide as E; [intros [= <-]; by subst|]. intros Hj.
    destruct (Hcl j cj Hj) as [K1 K2 K3 K4 K5 K6]. split; try done.
    + by rewrite Hids.
    + rewrite Hcbs; [done|]. intros E'. apply E. by eapply Hso.
    + intros hd Hhd. destruct (K5 hd Hhd) as (t & Ht & <- & Hc & Hcb). exists t. split_and!; try done.
      apply Ht2; [done|done|]. by rewrite Hcb.
  - intros t Ht Hc. destruct (Ht1 t Ht Hc) as [(Hcb & Hf & Hd)|[Hne Hin]].
    + exists i, c'. rewrite Hl, decide_True by done. done.
    + destruct (Hti t Hin Hc) as (j & cj & Hcb & Hj & Hf & Hd). exists j, cj. rewrite Hl, decide_False; [done|].
      intros ->. apply Hne. by rewrite Hcb.
Qed.

Lemma alter_at {A} (f : A -> A) i (l : list A) c : l !! i = Some c -> alter f i l = alter (fun _ => f c) i l.
Proof. revert i; induction l as [|x l IH]; intros [|i] E; cbn in *; [done|done|by injection E as ->|]. f_equal. by apply IH. Qed.

Lemma hub_inv_same_timers r h i c c' r' ids' : hub_inv r h -> ws_objs h !! i = Some c -> ws_sock c' = ws_sock c ->
  interest_inv r' -> timers r' = timers r -> timer_seq r' = timer_seq r ->
  NoDup ids' -> (forall j, j <> i -> j ∈ ids' <-> j ∈ clients h) ->
  (forall s, s <> ws_sock c -> cbs_of r' s = cbs_of r s) ->
  _flush_timer c' = _flush_timer c ->
  (forall t, t ∈ timers r -> cancelled t = false -> callback t = (i, WsFlushTimer) ->
     deadline t <= _last_push c' + MIN_PUSH_INTERVAL) ->
  client_ok r' ids' i c' -> hub_inv r' (mkHub (alter (fun _ => c') i (ws_objs h)) ids').
Proof.
  intros Hinv Hi Hsock Hrx' Ht Hs Hnd Hids Hcbs Hf Hd Hc'. pose proof Hinv as [Hrx [Htm1 Htm2] Hseq _ _ _ _ Hti].
  eapply hub_inv_update; try done.
  - split; rewrite ?Ht, ?Hs; done.
  - by rewrite Ht.
  - rewrite Ht. intros t Hin Hc. destruct (Hti t Hin Hc) as (j & cj & Hcb & Hj & Hfj & Hdj).
    rewrite Hcb. cbn [fst]. destruct (decide (j = i)) as [->|Hne]; [left|by right].
    rewrite Hi in Hj. injection Hj as <-. rewrite Hf. split_and!; [done|done|]. by apply Hd.
  - by rewrite Ht.
Qed.

(** The deadline of a client's own timer. *)
Lemma own_timer r h i c t : hub_inv r h -> ws_objs h !! i = Some c -> t ∈ timers r -> cancelled t = false ->
  callback t = (i, WsFlushTimer) -> _flush_timer c = Some (tseq t) /\ deadline t <= _last_push c + MIN_PUSH_INTERVAL.
Proof.
  intros Hinv Hi Hin Hc Hcb. destruct (hi_timer _ _ Hinv t Hin Hc) as (j & cj & Hcb' & Hj & Hf & Hd).
  rewrite Hcb in Hcb'. injection Hcb' as <-. rewrite Hi in Hj. by injection Hj as <-.
Qed.

(** A change of a client's fields that nobody else looks at. *)
Definition benign (c c' : WebSocketClient) : Prop :=
  ws_sock c' = ws_sock c /\ ws_send_buf c' = ws_send_buf c /\ _flush_timer c' = _flush_timer c /\
  _torn_down c' = _torn_down c /\ (_pending_payload c' <> None -> _pending_payload c <> None).

Lemma client_ok_benign r ids i c c' : benign c c' -> client_ok r ids i c -> client_ok r ids i c'.
Proof.
  intros (E1 & E2 & E3 & E4 & E5) [K1 K2 K3 K4 K5 K6]. split; rewrite ?E1, ?E2, ?E3, ?E4; auto.
Qed.

(** [good i]: the invariant, for an existing client [i]. *)
Definition good (i : nat) (w : wsw) : Prop := ws_inv w /\ (i < length (ws_objs (v_hub w)))%nat.
Definition keeps_good (i : nat) (w w' : wsw) : Prop := good i w -> good i w'.
#[local] Instance keeps_good_preorder i : PreOrder (keeps_good i).
Proof. split; [by intros w H|intros a b c H1 H2 H; apply H2, H1, H]. Qed.

Lemma good_client i w : good i w -> exists c, ws_objs (v_hub w) !! i = Some c /\ client_at i w = c /\ ws_inv w.
Proof.
  intros [Hinv Hlt]. destruct (lookup_lt_is_Some_2 _ _ Hlt) as [c E]. exists c. unfold client_at. cbn. by rewrite E.
Qed.

Lemma good_mod i f : (forall c, benign c (f c) /\ _last_push (f c) = _last_push c) -> keeps (keeps_good i) (mod_ws i f).
Proof.
  intros Hf w Hg. destruct (good_client _ _ Hg) as (c & Hc & _ & Hinv). destruct Hg as [_ Hlt].
  destruct (Hf c) as [Hb Hl]. pose proof Hb as (E1 & _ & E3 & _).
  split; cbn; [|by rewrite length_alter]. unfold ws_inv; cbn. rewrite (alter_at _ _ _ _ Hc).
  apply hub_inv_same_timers with (c := c) (r := v_rx w); try done.
  - apply Hinv.
  - apply Hinv.
  - intros t Ht Hca Hcb. rewrite Hl. exact (proj2 (own_timer _ _ _ _ _ Hinv Hc Ht Hca Hcb)).
  - eapply client_ok_benign; [done|]. by apply (hi_client _ _ Hinv).
Qed.

Lemma at_alter i f w c : ws_objs (v_hub w) !! i = Some c ->
  client_at i (w_hub (mkHub (alter f i (ws_objs (v_hub w))) (clients (v_hub w))) w) = f c.
Proof. intros E. unfold client_at. cbn. by rewrite list_lookup_alter_eq, E. Qed.

Lemma alter_const_twice {A} (f : A -> A) (x : A) (i : nat) (l : list A) : alter f i (alter (fun _ => x) i l) = alter (fun _ => f x) i l.
Proof. revert i; induction l as [|y l IH]; intros [|i]; cbn; try done. f_equal. apply IH. Qed.

(** ** Tearing down *)

Definition torn_client (c : WebSocketClient) : WebSocketClient := x_flush_timer None (x_torn_down true c).
Definition cancel_opt (o : option Z) (r : Reactor (nat * ws_cb)) : Reactor (nat * ws_cb) :=
  match o with Some h => timer_cancel h r | None => r end.

Lemma teardown_run i w c : ws_objs (v_hub w) !! i = Some c -> _torn_down c = false ->
  _teardown i w =
  (mkWsw (unregister (ws_sock c) (cancel_opt (_flush_timer c) (v_rx w)))
     (mkHub (alter (fun _ => torn_client c) i (ws_objs (v_hub w))) (remove_first i (clients (v_hub w))))
     (v_st w) (v_now w) (v_recv w) (v_send w) (v_closed w ++ [ws_sock c]), Ok ()).
Proof.
  intros Hc Ht. unfold _teardown, cancel_flush_timer, get_ws, mod_ws, hub_remove, mod_rx. munfold.
  assert (client_at i w = c) as -> by (unfold client_at; cbn; by rewrite Hc). rewrite Ht. cbn [hub set_hub wsw_ws].
  rewrite (at_alter _ _ _ _ Hc). change (_flush_timer (x_torn_down true c)) with (_flush_timer c).
  destruct (_flush_timer c) as [hd|] eqn:Ef; cbn; rewrite (alter_at _ _ _ _ Hc), ?alter_const_twice; [done|].
  unfold torn_client. do 4 f_equal. unfold x_flush_timer, x_torn_down; cbn. by rewrite Ef.
Qed.

Lemma remove_first_elem i l : NoDup l -> forall j, j ∈ remove_first i l <-> j ∈ l /\ j <> i.
Proof.
  induction 1 as [|x l Hx Hl IH]; intros j; cbn; [set_solver|]. case_decide; [subst|].
  - split; [intros Hj; split; [by right|intros ->; done]|]. intros [Hj Hne]. set_solver.
  - rewrite !elem_of_cons, IH. naive_solver.
Qed.

Lemma remove_first_NoDup i l : NoDup l -> NoDup (remove_first i l).
Proof.
  intros Hl. induction Hl as [|x l Hx Hl IH]; cbn; [constructor|]. case_decide; [done|].
  constructor; [|done]. rewrite remove_first_elem by done. by intros [? _].
Qed.

Lemma cancel_opt_props r h i c : hub_inv r h -> ws_objs h !! i = Some c ->
  let r' := cancel_opt (_flush_timer c) r in
  interest_inv r' /\ timers_inv r' /\ NoDup (tseq <$> timers r') /\ (forall s, cbs_of r' s = cbs_of r s) /\
  timer_seq r' = timer_seq r /\
  (forall t, t ∈ timers r' -> cancelled t = false -> (callback t).1 <> i /\ t ∈ timers r) /\
  (forall t, t ∈ timers r -> cancelled t = false -> (callback t).1 <> i -> t ∈ timers r').
Proof.
  intros Hinv Hi r'. pose proof Hinv as [Hrx Htm Hseq _ _ _ Hcl Hti].
  assert (forall t, t ∈ timers r -> cancelled t = false -> (callback t).1 = i -> _flush_timer c = Some (tseq t)) as Hown.
  { intros t Ht Hc Hcb. destruct (Hti t Ht Hc) as (j & cj & Hcb' & Hj & Hf & _). rewrite Hcb' in Hcb. cbn in Hcb. subst.
    rewrite Hi in Hj. by injection Hj as <-. }
  subst r'. destruct (_flush_timer c) as [hd|] eqn:Ef; cbn [cancel_opt].
  - split_and!; try done.
    + by apply cancel_interest.
    + by apply cancel_inv.
    + by rewrite cancel_seqs.
    + intros t Ht Hc. destruct (cancel_elem _ _ _ Ht Hc) as [Hin Hne]. split; [|done]. intros Hcb.
      specialize (Hown t Hin Hc Hcb). congruence.
    + intros t Ht Hc Hcb. apply cancel_elem'; [done|]. intros <-.
      destruct (ck_timer _ _ _ _ (Hcl i c Hi) (tseq t) Ef) as (t' & Ht' & E' & _ & Hcb').
      rewrite (seq_unique r t t') in Hcb by done. by rewrite Hcb' in Hcb.
  - split_and!; try done. intros t Ht Hc. split; [|done]. intros Hcb. by specialize (Hown t Ht Hc Hcb).
Qed.

Lemma good_teardown i : keeps (keeps_good i) (_teardown i).
Proof.
  intros w Hg. destruct (good_client _ _ Hg) as (c & Hc & Eat & Hinv). pose proof Hg as [_ Hlt].
  destruct (_torn_down c) eqn:Et.
  { unfold _teardown, get_ws. munfold. rewrite Eat, Et. done. }
  rewrite (teardown_run _ _ _ Hc Et). split; cbn [fst v_hub]; [|cbn; by rewrite length_alter].
  unfold ws_inv; cbn [v_rx v_hub].
  destruct (cancel_opt_props _ _ _ _ Hinv Hc) as (P1 & P2 & P3 & P4 & _ & P5 & P6).
  pose proof (hi_nodup _ _ Hinv) as Hnd. pose proof (hi_client _ _ Hinv i c Hc) as K.
  assert (forall r : Reactor (nat * ws_cb), timers (unregister (ws_sock c) r) = timers r /\ timer_seq (unregister (ws_sock c) r) = timer_seq r) as Hun.
  { intros r. unfold unregister. by case_match. }
  destruct (Hun (cancel_opt (_flush_timer c) (v_rx w))) as [Hu1 Hu2].
  apply hub_inv_update with (c := c) (r := v_rx w); rewrite ?Hu1; try done.
  - by apply unregister_inv.
  - destruct P2. split; rewrite ?Hu1, ?Hu2; done.
  - by apply remove_first_NoDup.
  - intros j Hj. rewrite remove_first_elem by done. naive_solver.
  - intros s Hs. rewrite cbs_unregister, decide_False by done. apply P4.
  - destruct K as [K1 K2 K3 K4 K5 K6]. split; cbn; try done.
    + rewrite remove_first_elem by done. split; [done|]. by intros [_ ?].
    + by rewrite cbs_unregister, decide_True.
  - intros t Ht Hca. right. by apply P5.
Qed.

(** ** Sending *)

Lemma enqueue_run i w c fr : ws_objs (v_hub w) !! i = Some c -> _torn_down c = false ->
  zlen (ws_send_buf c) + zlen fr <= MAX_SEND_BUF ->
  _enqueue i fr w =
  (mkWsw (register_write (ws_sock c) (i, WsWritable) (v_rx w))
     (mkHub (alter (fun _ => x_send_buf (ws_send_buf c ++ fr) c) i (ws_objs (v_hub w))) (clients (v_hub w)))
     (v_st w) (v_now w) (v_recv w) (v_send w) (v_closed w), Ok ()).
Proof.
  intros Hc Ht Hcap. unfold _enqueue, get_ws, mod_ws, mod_rx. munfold.
  assert (client_at i w = c) as -> by (unfold client_at; cbn; by rewrite Hc).
  rewrite Ht, (proj2 (Z.ltb_ge _ _)) by done. cbn. by rewrite (alter_at _ _ _ _ Hc).
Qed.

Lemma good_enqueue i fr : fr <> [] -> keeps (keeps_good i) (_enqueue i fr).
Proof.
  intros Hfr w Hg. destruct (good_client _ _ Hg) as (c & Hc & Eat & Hinv). pose proof Hg as [_ Hlt].
  destruct (_torn_down c) eqn:Et.
  { unfold _enqueue, get_ws. munfold. rewrite Eat, Et. done. }
  destruct (Z.ltb_spec MAX_SEND_BUF (zlen (ws_send_buf c) + zlen fr)) as [Hcap|Hcap].
  { unfold _enqueue, get_ws. munfold. rewrite Eat, Et, (proj2 (Z.ltb_lt _ _)) by done. by apply good_teardown. }
  rewrite (enqueue_run _ _ _ _ Hc Et Hcap). split; cbn [fst v_hub]; [|cbn; by rewrite length_alter].
  unfold ws_inv; cbn [v_rx v_hub]. pose proof (hi_client _ _ Hinv i c Hc) as [K1 K2 K3 K4 K5 K6].
  pose proof (hi_rx _ _ Hinv) as Hrx. unfold register_write.
  destruct (set_interest_timers (ws_sock c) Leave (SetTo (i, WsWritable)) (v_rx w)) as [E1 E2].
  apply hub_inv_same_timers with (c := c) (r := v_rx w); try done.
  - by apply set_interest_inv.
  - apply Hinv.
  - intros s Hs. rewrite cbs_set_interest by done. by rewrite decide_False.
  - intros t Ht Hca Hcb. exact (proj2 (own_timer _ _ _ _ _ Hinv Hc Ht Hca Hcb)).
  - split; cbn; rewrite ?E1; try done.
    + rewrite zlen_app. exact Hcap.
    + rewrite cbs_set_interest by done. rewrite decide_True, K4, Et by done. cbn. rewrite decide_False; [done|].
      by intros [_ ?]%app_nil.
Qed.

Lemma encode_frame_nonempty op p l : encode_frame op p = Ok l -> l <> [].
Proof. unfold encode_frame. intros H. inv_ok. done. Qed.

Lemma good_send_frame i r : (forall l, r = Ok l -> l <> []) -> keeps (keeps_good i) (f ← mlift r; _enqueue i f).
Proof.
  intros Hr w. munfold. destruct r as [l|e]; [|done]. by apply good_enqueue, Hr.
Qed.

Lemma good_send_json i j : keeps (keeps_good i) (_send_json i j).
Proof. apply good_send_frame. intros l. apply encode_frame_nonempty. Qed.

Lemma good_initiate_close i code : keeps (keeps_good i) (_initiate_close i code).
Proof.
  unfold _initiate_close. intros w. munfold. destruct (encode_close_frame code) as [l|e] eqn:E; [|done].
  assert (l <> []) as Hl. { unfold encode_close_frame in E. inv_ok. by eapply encode_frame_nonempty. }
  revert w. apply keeps_bind; [apply _|by apply good_enqueue|]. intros _. apply good_mod. done.
Qed.

(** ** The coalesced pushes *)

Lemma flush_pending_eq i w c j : ws_objs (v_hub w) !! i = Some c ->
  _flush_pending i j w =
  _send_json i j (w_hub (mkHub (alter (fun _ => x_last_push (v_now w) (x_pending None c)) i (ws_objs (v_hub w)))
    (clients (v_hub w))) w).
Proof.
  intros Hc. unfold _flush_pending, mod_ws. munfold. cbn.
  by rewrite (alter_at _ _ _ _ Hc), alter_const_twice.
Qed.

(** The push itself, when no own timer is due later than the interval from now. *)
Lemma good_flush_pending i j w : good i w ->
  (forall t, t ∈ timers (v_rx w) -> cancelled t = false -> callback t = (i, WsFlushTimer) ->
     deadline t <= v_now w + MIN_PUSH_INTERVAL) ->
  good i (fst (_flush_pending i j w)).
Proof.
  intros Hg Hd. destruct (good_client _ _ Hg) as (c & Hc & _ & Hinv). pose proof Hg as [_ Hlt].
  rewrite (flush_pending_eq _ _ _ _ Hc). apply good_send_json.
  split; cbn; [|by rewrite length_alter]. unfold ws_inv; cbn.
  apply hub_inv_same_timers with (c := c) (r := v_rx w); try done; try apply (hi_rx _ _ Hinv); try apply (hi_nodup _ _ Hinv).
  pose proof (hi_client _ _ Hinv i c Hc) as [K1 K2 K3 K4 K5 K6]. by split.
Qed.

Lemma good_arm i w c j : good i w -> ws_objs (v_hub w) !! i = Some c -> _torn_down c = false -> _flush_timer c = None ->
  let now := v_now w in
  good i (fst ((h ← schedule (MIN_PUSH_INTERVAL - (now - _last_push c)) (i, WsFlushTimer); mod_ws i (x_flush_timer (Some h)))
    (w_hub (mkHub (alter (fun _ => x_pending (Some j) c) i (ws_objs (v_hub w))) (clients (v_hub w))) w))).
Proof.
  intros Hg Hc Ht Hf now. pose proof Hg as [Hinv Hlt]. unfold schedule, mod_ws, on_rx. munfold. cbn.
  split; cbn; [|by rewrite !length_alter]. unfold ws_inv; cbn. rewrite alter_const_twice.
  pose proof (hi_client _ _ Hinv i c Hc) as [K1 K2 K3 K4 K5 K6].
  set (d := MIN_PUSH_INTERVAL - (now - _last_push c)).
  change (mkReactor _ _ _ _ _ _) with (fst (call_later now d (i, WsFlushTimer) (v_rx w))).
  set (r' := fst _). pose proof (hi_tm _ _ Hinv) as Htm.
  assert (forall t, t ∈ timers r' <-> t = mkTimer (now + d) (timer_seq (v_rx w)) (i, WsFlushTimer) false \/ t ∈ timers (v_rx w)) as Hin.
  { intros t. subst r'. cbn. by rewrite heappush_perm, elem_of_cons. }
  apply hub_inv_update with (c := c) (r := v_rx w); try done.
  - destruct (hi_rx _ _ Hinv) as [H1 H2 H3 H4]. by split.
  - by apply call_later_inv.
  - subst r'. cbn. rewrite heappush_perm. cbn. constructor; [|apply Hinv].
    intros (t & E & Ht')%list_elem_of_fmap. pose proof (tv_seq _ Htm t Ht'). lia.
  - apply Hinv.
  - split; cbn; try done.
    + by rewrite Ht.
    + intros h [= <-]. eexists. split; [apply Hin; by left|]. done.
  - intros t [->|Ht']%Hin Hca; [left; cbn; split_and!; [done|done|subst d now; unfold MIN_PUSH_INTERVAL; lia]|].
    right. split; [|done]. intros Hcb. destruct (hi_timer _ _ Hinv t Ht' Hca) as (k & ck & Hcb' & Hk & Hfk & _).
    rewrite Hcb' in Hcb. cbn in Hcb. subst k. rewrite Hc in Hk. injection Hk as <-. congruence.
  - intros t Ht' _ _. apply Hin. by right.
Qed.

Lemma good_queue_update i j : keeps (keeps_good i) (queue_update i j).
Proof.
  intros w Hg. destruct (good_client _ _ Hg) as (c & Hc & Eat & Hinv). pose proof Hg as [_ Hlt].
  unfold queue_update, get_ws. munfold. rewrite Eat. destruct (_torn_down c || _closing c) eqn:E0; [done|].
  apply orb_false_iff in E0 as [Et _]. unfold mod_ws at 1. munfold. cbn [hub set_hub wsw_ws monotonic wsw_reactor].
  unfold mgets. rewrite (alter_at _ _ _ _ Hc). set (w1 := w_hub _ _). cbn [fst snd].
  pose proof (hi_client _ _ Hinv i c Hc) as K.
  assert (ws_objs (v_hub w1) !! i = Some (x_pending (Some j) c)) as Hc1 by (cbn; by rewrite list_lookup_alter_eq, Hc).
  change (v_now w1) with (v_now w).
  assert (_flush_timer c <> None -> good i w1) as Hw1.
  { intros Hf. split; [|cbn; by rewrite length_alter]. unfold ws_inv; cbn.
    apply hub_inv_same_timers with (c := c) (r := v_rx w); try done; try apply (hi_rx _ _ Hinv); try apply (hi_nodup _ _ Hinv).
    - intros t Ht Hca Hcb. exact (proj2 (own_timer _ _ _ _ _ Hinv Hc Ht Hca Hcb)).
    - destruct K as [K1 K2 K3 K4 K5 K6]. by split. }
  destruct (Z.leb_spec MIN_PUSH_INTERVAL (v_now w - _last_push c)) as [Hle|Hlt'].
  - rewrite (flush_pending_eq _ _ _ _ Hc1). cbn. rewrite alter_const_twice.
    change (w_hub _ w1) with (w_hub (mkHub (alter (fun _ => x_last_push (v_now w) (x_pending None c)) i
      (ws_objs (v_hub w))) (clients (v_hub w))) w).
    rewrite <- (flush_pending_eq _ _ _ _ Hc). apply good_flush_pending; [done|].
    intros t Ht Hca Hcb. destruct (own_timer _ _ _ _ _ Hinv Hc Ht Hca Hcb). unfold MIN_PUSH_INTERVAL in *. lia.
  - destruct (_flush_timer c) as [hd|] eqn:Ef; [by apply Hw1|].
    by apply good_arm.
Qed.

(** ** Timers *)

Lemma timers_inv_tail r t l : timers_inv r -> timers r = t :: l ->
  timers_inv (set_timers l r : Reactor (nat * ws_cb)).
Proof.
  intros [Hs Hq] E. rewrite E in Hs, Hq. inversion Hs; subst. split; cbn; [done|]. intros t' Ht'. apply Hq. by right.
Qed.

Lemma interest_set_timers l (r : Reactor (nat * ws_cb)) : interest_inv r -> interest_inv (set_timers l r).
Proof. intros [H1 H2 H3 H4]. by split. Qed.

Lemma pop_cancelled w t l : ws_inv w -> timers (v_rx w) = t :: l -> cancelled t = true ->
  ws_inv (w_rx (set_timers l (v_rx w)) w).
Proof.
  intros Hinv E Hc. pose proof Hinv as [Hrx Htm Hseq Hnd Hkn Hso Hcl Hti].
  unfold ws_inv; cbn [v_rx v_hub w_rx]. split; try done.
  - by apply interest_set_timers.
  - by eapply timers_inv_tail.
  - rewrite E in Hseq. cbn in *. by apply NoDup_cons in Hseq as [_ ?].
  - intros i c Hi. destruct (Hcl i c Hi) as [K1 K2 K3 K4 K5 K6]. split; try done.
    intros h Hh. destruct (K5 h Hh) as (t' & Ht' & ? & Hc' & ?). exists t'. split_and!; try done.
    rewrite E in Ht'. apply elem_of_cons in Ht' as [->|?]; [congruence|done].
  - intros t' Ht'. apply Hti. rewrite E. by right.
Qed.

(** The flush timer fires: its handle has left the heap. *)
Lemma fire_flush w t l i c c' : ws_inv w -> timers (v_rx w) = t :: l -> cancelled t = false ->
  callback t = (i, WsFlushTimer) -> ws_objs (v_hub w) !! i = Some c ->
  ws_sock c' = ws_sock c -> ws_send_buf c' = ws_send_buf c -> _torn_down c' = _torn_down c ->
  _flush_timer c' = None -> _pending_payload c' = None ->
  good i (w_hub (mkHub (alter (fun _ => c') i (ws_objs (v_hub w))) (clients (v_hub w)))
    (w_rx (set_timers l (v_rx w)) w)).
Proof.
  intros Hinv E Hc Hcb Hi E1 E2 E3 E4 E5. pose proof Hinv as [Hrx Htm Hseq Hnd Hkn Hso Hcl Hti].
  split; [|cbn; rewrite length_alter; by eapply lookup_lt_Some].
  unfold ws_inv; cbn [v_rx v_hub w_rx w_hub].
  assert (forall t', t' ∈ l -> cancelled t' = false -> (callback t').1 <> i) as Hl.
  { intros t' Ht' Hc' Hcb'. destruct (Hti t') as (k & ck & Ek & Hk & Hfk & _); [rewrite E; by right|done|].
    rewrite Ek in Hcb'. cbn in Hcb'. subst k.
    destruct (own_timer _ _ i ck t Hinv Hk) as [Hf _]; [rewrite E; left|done|done|].
    rewrite Hfk in Hf. injection Hf as Hf. rewrite E in Hseq. cbn in Hseq. apply NoDup_cons in Hseq as [Hseq _].
    apply Hseq. rewrite <- Hf. by apply list_elem_of_fmap_2. }
  apply hub_inv_update with (c := c) (r := v_rx w); try done.
  - by apply interest_set_timers.
  - by eapply timers_inv_tail.
  - rewrite E in Hseq. cbn in *. by apply NoDup_cons in Hseq as [_ ?].
  - destruct (Hcl i c Hi) as [K1 K2 K3 K4 K5 K6]. split; rewrite ?E1, ?E2, ?E3, ?E4, ?E5; try done.
  - intros t' Ht' Hc'. right. split; [by apply Hl|]. rewrite E. by right.
  - intros t' Ht' Hc' Hne. rewrite E in Ht'. apply elem_of_cons in Ht' as [->|?]; [by rewrite Hcb in Hne|done].
Qed.

Lemma inv_timer w : ws_inv w -> ws_inv (fst (ws_step OTimer w)).
Proof.
  intros Hinv. cbn [ws_step]. destruct (timers (v_rx w)) as [|t l] eqn:E; [done|].
  destruct (deadline t <=? v_now w); [|done]. cbv zeta. destruct (cancelled t) eqn:Ec; [by eapply pop_cancelled|].
  destruct (hi_timer _ _ Hinv t) as (i & c & Hcb & Hi & _); [rewrite E; left|done|].
  rewrite Hcb. cbn [fst snd run_ws_cb]. unfold _on_flush_timer, mod_ws at 1, get_ws. munfold.
  cbn [hub set_hub wsw_ws v_hub w_rx fst snd]. rewrite (alter_at _ _ _ _ Hi). set (w1 := w_rx _ w).
  assert (ws_objs (v_hub (w_hub (mkHub (alter (fun _ => x_flush_timer None c) i (ws_objs (v_hub w))) (clients (v_hub w))) w1)) !! i
    = Some (x_flush_timer None c)) as Hi2 by (cbn; by rewrite list_lookup_alter_eq, Hi).
  set (w2 := w_hub _ w1) in *. assert (client_at i w2 = x_flush_timer None c) as ->.
  { unfold client_at. change (hub w2) with (v_hub w2). by rewrite Hi2. }
  cbn [_pending_payload x_flush_timer]. destruct (_pending_payload c) as [p|] eqn:Ep.
  - rewrite (flush_pending_eq _ _ _ _ Hi2). apply good_send_json. subst w2 w1. cbn. rewrite alter_const_twice.
    by eapply fire_flush.
  - subst w2 w1. by eapply fire_flush.
Qed.

(** ** What a browser sends *)

Lemma good_handle_text i p : keeps (keeps_good i) (_handle_text i p).
Proof.
  intros w Hg. destruct (good_client _ _ Hg) as (c & Hc & _ & Hinv). pose proof Hg as [_ Hlt].
  unfold _handle_text. cbn [ws_sub wsw_ws]. destruct (sub p) as [t|]; [|done].
  set (f := fun c => x_last_push 0 (x_pending None (x_subscribed (Some t) c))).
  unfold cancel_flush_timer, mod_ws, mod_rx, get_ws, lookup_snapshot. munfold.
  cbn [hub set_hub wsw_ws v_hub]. rewrite (at_alter _ _ _ _ Hc). change (_flush_timer (f c)) with (_flush_timer c).
  set (c' := x_flush_timer None (f c)).
  assert (good i (w_hub (mkHub (alter (fun _ => c') i (ws_objs (v_hub w))) (clients (v_hub w)))
    (w_rx (cancel_opt (_flush_timer c) (v_rx w)) w))) as Hg'.
  { split; [|cbn; by rewrite length_alter]. unfold ws_inv; cbn [v_rx v_hub w_rx w_hub].
    destruct (cancel_opt_props _ _ _ _ Hinv Hc) as (P1 & P2 & P3 & P4 & _ & P5 & P6).
    apply hub_inv_update with (c := c) (r := v_rx w); try done; try apply (hi_nodup _ _ Hinv).
    - pose proof (hi_client _ _ Hinv i c Hc) as [K1 K2 K3 K4 K5 K6]. split; cbn; try done. by rewrite P4.
    - intros t' Ht' Hca. right. by apply P5. }
  destruct (_flush_timer c) as [hd|] eqn:Ef; cbn [cancel_opt] in Hg'; cbn -[alter].
  - rewrite (alter_at _ _ _ _ Hc), alter_const_twice. case_match; by apply good_send_json.
  - rewrite (alter_at _ _ _ _ Hc).
    assert (f c = c') as ->. { subst c' f. unfold x_flush_timer, x_last_push, x_pending, x_subscribed; cbn. by rewrite Ef. }
    case_match; by apply good_send_json.
Qed.

Lemma good_handle_frame i op p : keeps (keeps_good i) (_handle_frame i op p).
Proof.
  unfold _handle_frame. repeat case_match; try by intros w.
  - apply good_handle_text.
  - apply good_initiate_close.
  - apply good_send_frame. intros l. apply encode_frame_nonempty.
  - apply good_initiate_close.
Qed.

Lemma good_read_loop i fuel : keeps (keeps_good i) (read_loop fuel i).
Proof.
  induction fuel as [|fuel IH]; [by intros w|]. cbn [read_loop].
  apply keeps_bind; [apply _|by intros w|]. intros c.
  destruct (decode_frame (ws_recv_buf c)) as [[[[[fin op] p] n]|]|e]; [|by intros w|].
  - apply keeps_bind; [apply _|by apply good_mod|]. intros _. destruct fin; cbn [negb]; [|apply good_initiate_close].
    apply keeps_bind; [apply _|apply good_handle_frame|]. intros _.
    apply keeps_bind; [apply _|by intros w|]. intros c'. destruct (_torn_down c'); [by intros w|done].
  - destruct e; try by intros w. apply good_teardown.
Qed.

Lemma good_on_readable i : keeps (keeps_good i) (ws_on_readable i).
Proof.
  unfold ws_on_readable. apply keeps_bind; [apply _|by intros w|]. intros c.
  apply keeps_bind; [apply _|by intros w|]. intros r. destruct r as [[|b data]| |]; try apply good_teardown; [|by intros w].
  apply keeps_bind; [apply _|by apply good_mod|]. intros _.
  apply keeps_bind; [apply _|by intros w|]. intros c'. apply good_read_loop.
Qed.

(** The write interest goes exactly when the buffer is empty. *)
Lemma good_unwrite i w c c' : good i w -> ws_objs (v_hub w) !! i = Some c -> benign c (x_send_buf (ws_send_buf c) c') ->
  _last_push c' = _last_push c -> ws_send_buf c' = [] ->
  good i (w_rx (unregister_write (ws_sock c) (v_rx w))
    (w_hub (mkHub (alter (fun _ => c') i (ws_objs (v_hub w))) (clients (v_hub w))) w)).
Proof.
  intros [Hinv Hlt] Hc (E1 & _ & E3 & E4 & E5) El Eb. cbn in *. split; [|cbn; by rewrite length_alter].
  unfold ws_inv; cbn [v_rx v_hub w_rx w_hub]. unfold unregister_write.
  destruct (set_interest_timers (ws_sock c) Leave Clear (v_rx w)) as [T1 T2]. pose proof (hi_rx _ _ Hinv) as Hrx.
  apply hub_inv_same_timers with (c := c) (r := v_rx w); try done.
  - by apply set_interest_inv.
  - apply (hi_nodup _ _ Hinv).
  - intros s Hs. rewrite cbs_set_interest by done. by rewrite decide_False.
  - intros t Ht Hca Hcb. rewrite El. exact (proj2 (own_timer _ _ _ _ _ Hinv Hc Ht Hca Hcb)).
  - pose proof (hi_client _ _ Hinv i c Hc) as [K1 K2 K3 K4 K5 K6]. split; rewrite ?E1, ?E3, ?E4, ?Eb, ?T1; try done; [|by auto].
    rewrite cbs_set_interest by done. rewrite decide_True, K4 by done. by destruct (_torn_down c).
Qed.

Lemma alter_id (i : nat) (l : list WebSocketClient) c : l !! i = Some c -> alter (fun _ => c) i l = l.
Proof. revert i; induction l as [|x l IH]; intros [|i] E; cbn in *; try done; [by injection E as ->|]. f_equal. by apply IH. Qed.

Lemma good_on_writable i : keeps (keeps_good i) (ws_on_writable i).
Proof.
  intros w Hg. destruct (good_client _ _ Hg) as (c & Hc & Eat & Hinv). pose proof Hg as [_ Hlt].
  pose proof (hi_client _ _ Hinv i c Hc) as K.
  unfold ws_on_writable, get_ws, mod_rx, mod_ws. munfold. rewrite Eat. case_decide as Eb.
  - cbn. replace (v_hub w) with (mkHub (alter (fun _ => c) i (ws_objs (v_hub w))) (clients (v_hub w))) at 1.
    + assert (good i (w_rx (unregister_write (ws_sock c) (v_rx w))
        (w_hub (mkHub (alter (fun _ => c) i (ws_objs (v_hub w))) (clients (v_hub w))) w))) as Hgoal
        by (by apply good_unwrite).
      rewrite alter_id in Hgoal by done. by destruct w as [? [] ? ? ? ? ?].
    + rewrite alter_id by done. by destruct (v_hub w).
  - cbn -[alter]. destruct (v_send w) as [n| |]; [|done|by apply good_teardown].
    rewrite (alter_at _ _ _ _ Hc). set (c' := x_send_buf (drop n (ws_send_buf c)) c). set (w1 := w_hub _ w).
    assert (ws_objs (v_hub w1) !! i = Some c') as Hc1 by (cbn; by rewrite list_lookup_alter_eq, Hc).
    assert (client_at i w1 = c') as -> by (unfold client_at; change (hub w1) with (v_hub w1); by rewrite Hc1).
    case_decide as Eb'.
    + assert (good i (w_rx (unregister_write (ws_sock c) (v_rx w)) w1)) as Hg1.
      { by apply good_unwrite. }
      destruct (_closing c'); [|exact Hg1]. apply good_teardown. exact Hg1.
    + split; [|cbn; by rewrite length_alter]. unfold ws_inv; cbn [v_rx v_hub w1 w_hub].
      apply hub_inv_same_timers with (c := c) (r := v_rx w); try done; try apply (hi_rx _ _ Hinv); try apply (hi_nodup _ _ Hinv).
      * intros t Ht Hca Hcb. exact (proj2 (own_timer _ _ _ _ _ Hinv Hc Ht Hca Hcb)).
      * destruct K as [K1 K2 K3 K4 K5 K6]. split; try done.
        -- cbn. unfold zlen in *. rewrite length_drop. lia.
        -- cbn in *. rewrite decide_False in K4 by done. by rewrite decide_False by done.
Qed.

(** ** New clients *)

Lemma good_attach w sock : ws_inv w -> (forall c, c ∈ ws_objs (v_hub w) -> ws_sock c <> sock) ->
  cbs_of (v_rx w) sock = (None, None) -> ws_inv (fst (attach sock w)).
Proof.
  intros Hinv Hnew Hcbs. pose proof Hinv as [Hrx Htm Hseq Hnd Hkn Hso Hcl Hti].
  unfold attach, mod_rx. munfold. cbn. unfold ws_inv; cbn [v_rx v_hub w_rx w_hub ws_objs clients]. unfold register_read.
  set (n := length (ws_objs (v_hub w))).
  destruct (set_interest_timers sock (SetTo (n, WsReadable)) Leave (v_rx w)) as [T1 T2].
  assert (n ∉ clients (v_hub w)) as Hn by (intros Hin; apply Hkn in Hin; lia).
  assert (forall i c, (ws_objs (v_hub w) ++ [ws_init sock]) !! i = Some c ->
    ws_objs (v_hub w) !! i = Some c /\ i <> n \/ i = n /\ c = ws_init sock) as Hl.
  { intros i c [Hi|[Hi1 Hi2]]%lookup_app_Some; [left; split; [done|]; apply lookup_lt_Some in Hi; lia|right].
    apply list_lookup_singleton_Some in Hi2 as [Hi2 <-]. split; [lia|done]. }
  split; cbn [ws_objs clients]; rewrite ?T1; try done.
  - by apply set_interest_inv.
  - destruct Htm. split; rewrite ?T1, ?T2; done.
  - apply NoDup_app. split_and!; [done| |apply NoDup_singleton]. intros x Hx ->%list_elem_of_singleton. done.
  - intros i. rewrite elem_of_app, list_elem_of_singleton, length_app. cbn. intros [Hi%Hkn| ->]; lia.
  - intros i j ci cj [[Hi _]|[-> ->]]%Hl [[Hj _]|[-> ->]]%Hl; cbn; try done.
    + by apply (Hso _ _ _ _ Hi Hj).
    + intros E. exfalso. apply (Hnew ci); [by eapply list_elem_of_lookup_2|done].
    + intros E. exfalso. apply (Hnew cj); [by eapply list_elem_of_lookup_2|done].
  - intros i c [[Hi Hne]|[-> ->]]%Hl.
    + destruct (Hcl i c Hi) as [K1 K2 K3 K4 K5 K6]. split; rewrite ?T1; try done.
      * rewrite elem_of_app, list_elem_of_singleton. naive_solver.
      * rewrite cbs_set_interest by done. rewrite decide_False; [done|]. apply Hnew. by eapply list_elem_of_lookup_2.
    + split; cbn; try done.
      * rewrite elem_of_app, list_elem_of_singleton. naive_solver.
      * rewrite cbs_set_interest by done. by rewrite decide_True, Hcbs.
  - intros t Ht Hc. destruct (Hti t Ht Hc) as (i & c & H1 & H2 & H3). exists i, c. split_and!; try apply H3; [done|].
    by rewrite lookup_app_l by by eapply lookup_lt_Some.
Qed.

(** ** The hub's loops *)

Definition keeps_inv (w w' : wsw) : Prop := ws_inv w -> ws_inv w'.
#[local] Instance keeps_inv_preorder : PreOrder keeps_inv.
Proof. split; [by intros w H|intros a b c H1 H2 H; apply H2, H1, H]. Qed.

Lemma ticker_loop_inv fuel t : forall pos snap, keeps keeps_inv (ticker_loop fuel pos t snap).
Proof.
  induction fuel as [|fuel IH]; intros pos snap w Hinv; [done|]. cbn [ticker_loop]. munfold. cbn [hub wsw_ws].
  destruct (clients (v_hub w) !! pos) as [i|] eqn:Ei; [|done].
  case_decide; [|by apply IH]. case_match; [|done].
  match goal with |- context [queue_update i ?j w] => pose proof (good_queue_update i j w) as Hq;
    destruct (queue_update i j w) as [w' [[]|e]] end; cbn [fst] in Hq;
    (assert (ws_inv w') as Hw' by (apply Hq; split; [done|]; eapply hi_known; [done|]; by eapply list_elem_of_lookup_2)).
  - by apply IH.
  - done.
Qed.

Lemma good_send_event i j : keeps (keeps_good i) (send_event i j).
Proof. intros w Hg. unfold send_event, get_ws. munfold. case_match; [done|]. by apply good_send_json. Qed.

Lemma event_loop_inv fuel j : forall pos, keeps keeps_inv (event_loop fuel pos j).
Proof.
  induction fuel as [|fuel IH]; intros pos w Hinv; [done|]. cbn [event_loop]. munfold. cbn [hub wsw_ws].
  destruct (clients (v_hub w) !! pos) as [i|] eqn:Ei; [|done].
  pose proof (good_send_event i j w) as Hq. destruct (send_event i j w) as [w' [[]|e]]; cbn [fst] in Hq;
    (assert (ws_inv w') as Hw' by (apply Hq; split; [done|]; eapply hi_known; [done|]; by eapply list_elem_of_lookup_2)).
  - by apply IH.
  - done.
Qed.

Lemma inv_step o w : ws_inv w -> ws_inv (fst (ws_step o w)).
Proof.
  intros Hinv. destruct o as [sock|i r|i r| |t|e|s|i|d]; cbn [ws_step].
  - destruct (existsb _ _ || _) eqn:E; [done|]. apply orb_false_iff in E as [E1 E2].
    assert (ws_inv (fst (attach sock w))) as Ha.
    { apply good_attach; [done| |].
      - intros c Hc Es. apply not_true_iff_false in E1. apply E1. apply existsb_exists. exists c.
        split; [by apply list_elem_of_In|by apply Nat.eqb_eq].
      - unfold cbs_of. apply bool_decide_eq_false in E2. apply eq_None_not_Some in E2. by rewrite E2. }
    munfold. by destruct (attach sock w) as [w' [n|e]].
  - unfold known. destruct (Nat.ltb_spec i (length (ws_objs (v_hub w)))); [|done]. by apply good_on_readable.
  - unfold known. destruct (Nat.ltb_spec i (length (ws_objs (v_hub w)))); [|done]. by apply good_on_writable.
  - by apply inv_timer.
  - by apply ticker_loop_inv.
  - by apply event_loop_inv.
  - done.
  - unfold known. destruct (Nat.ltb_spec i (length (ws_objs (v_hub w)))); [|done]. by apply good_teardown.
  - done.
Qed.

Lemma inv_run ops w : ws_inv w -> ws_inv (ws_run ops w).
Proof. revert w. induction ops as [|o ops IH]; intros w Hinv; cbn; [done|]. by apply IH, inv_step. Qed.

Lemma inv_init s : ws_inv (wsw_init s).
Proof.
  split; cbn; try done; try (intros; set_solver); try constructor; cbn; try (constructor || intros; set_solver).
Qed.

(** ** Fan-out *)

(** What pushing the snapshot [j], framed as [f], does to a client at [now]. *)
Definition delivered (now : Z) (j : json) (f : bytes) (c c' : WebSocketClient) : Prop :=
  if _torn_down c || _closing c then c' = c
  else if MIN_PUSH_INTERVAL <=? now - _last_push c then
    c' = x_send_buf (ws_send_buf c ++ f) (x_last_push now (x_pending None c))
  else exists h, c' = x_flush_timer (Some h) (x_pending (Some j) c).

Definition others_same (i : nat) (w w' : wsw) : Prop :=
  clients (v_hub w') = clients (v_hub w) /\ v_st w' = v_st w /\ v_now w' = v_now w /\
  forall k, k <> i -> ws_objs (v_hub w') !! k = ws_objs (v_hub w) !! k.

Lemma queue_update_delivers i w c j f : ws_objs (v_hub w) !! i = Some c ->
  encode_text_frame (dumps j) = Ok f -> zlen (ws_send_buf c) + zlen f <= MAX_SEND_BUF ->
  exists w' c', queue_update i j w = (w', Ok ()) /\ ws_objs (v_hub w') !! i = Some c' /\
    delivered (v_now w) j f c c' /\ others_same i w w'.
Proof.
  intros Hc Hf Hcap. unfold queue_update, get_ws, delivered. munfold.
  assert (client_at i w = c) as -> by (unfold client_at; cbn; by rewrite Hc).
  destruct (_torn_down c || _closing c) eqn:E0; [by exists w, c|]. apply orb_false_iff in E0 as [Et _].
  unfold mod_ws at 1. munfold. cbn [hub set_hub wsw_ws monotonic wsw_reactor]. unfold mgets.
  rewrite (alter_at _ _ _ _ Hc). set (w1 := w_hub _ _). cbn [fst snd]. change (v_now w1) with (v_now w).
  assert (ws_objs (v_hub w1) !! i = Some (x_pending (Some j) c)) as Hc1 by (cbn; by rewrite list_lookup_alter_eq, Hc).
  destruct (MIN_PUSH_INTERVAL <=? v_now w - _last_push c).
  - rewrite (flush_pending_eq _ _ _ _ Hc1). cbn. rewrite alter_const_twice. unfold _send_json, mlift. munfold. rewrite Hf.
    set (c2 := x_last_push _ _). set (w2 := w_hub _ _).
    assert (ws_objs (v_hub w2) !! i = Some c2) as Hc2 by (cbn; by rewrite list_lookup_alter_eq, Hc).
    rewrite (enqueue_run i w2 c2 f Hc2 Et Hcap). subst w2 w1. cbn [v_hub w_hub ws_objs clients].
    rewrite alter_const_twice. eexists _, _. split; [reflexivity|]. cbn [v_hub ws_objs].
    rewrite list_lookup_alter_eq, Hc. split; [done|]. split; [done|].
    split_and!; [done..|]. intros k Hk. cbn [v_hub ws_objs]. by rewrite list_lookup_alter_ne.
  - destruct (_flush_timer c) as [h|] eqn:Ef.
    + exists w1, (x_pending (Some j) c). split; [done|]. split; [done|]. split.
      * exists h. unfold x_flush_timer, x_pending; cbn. by rewrite Ef.
      * split_and!; [done..|]. intros k Hk. cbn. by rewrite list_lookup_alter_ne.
    + unfold schedule, mod_ws, on_rx. munfold. subst w1. cbn -[alter]. rewrite alter_const_twice.
      eexists _, _. split; [reflexivity|]. cbn [v_hub w_hub ws_objs].
      rewrite list_lookup_alter_eq, Hc. split; [done|]. split; [by eexists|].
      split_and!; [done..|]. intros k Hk. cbn [v_hub w_hub ws_objs]. by rewrite list_lookup_alter_ne.
Qed.

(** The loop from position [pos], when no push overflows a buffer. *)
Lemma ticker_loop_delivers t s f fuel : forall pos snap w,
  WebState.snapshot t (v_st w) = Some s -> snap = None \/ snap = Some s ->
  encode_text_frame (dumps (json_of_snapshot s)) = Ok f ->
  NoDup (clients (v_hub w)) -> (forall i, i ∈ clients (v_hub w) -> (i < length (ws_objs (v_hub w)))%nat) ->
  (forall i c, i ∈ drop pos (clients (v_hub w)) -> ws_objs (v_hub w) !! i = Some c -> subscribed c = Some t ->
     zlen (ws_send_buf c) + zlen f <= MAX_SEND_BUF) ->
  (length (clients (v_hub w)) < fuel + pos)%nat ->
  exists w', ticker_loop fuel pos t snap w = (w', Ok ()) /\ clients (v_hub w') = clients (v_hub w) /\
    forall i c, ws_objs (v_hub w) !! i = Some c -> exists c', ws_objs (v_hub w') !! i = Some c' /\
      if decide (i ∈ drop pos (clients (v_hub w)) /\ subscribed c = Some t)
      then delivered (v_now w) (json_of_snapshot s) f c c' else c' = c.
Proof.
  induction fuel as [|fuel IH]; intros pos snap w Hs Hsnap Hf Hnd Hkn Hcap Hfuel.
  { exists w. split; [done|]. split; [done|]. intros i c Hi. exists c. split; [done|].
    rewrite drop_ge by lia. rewrite decide_False; [done|]. intros [Hin _]. by apply elem_of_nil in Hin. }
  cbn [ticker_loop]. munfold. cbn [hub wsw_ws].
  destruct (clients (v_hub w) !! pos) as [i|] eqn:Ei.
  2:{ exists w. split; [done|]. split; [done|]. intros k c Hk. exists c. split; [done|].
      apply lookup_ge_None in Ei. rewrite drop_ge by lia. rewrite decide_False; [done|]. intros [Hin _].
      by apply elem_of_nil in Hin. }
  pose proof (drop_S _ _ _ Ei) as Ed.
  assert (i ∉ drop (S pos) (clients (v_hub w))) as Hi'.
  { assert (NoDup (drop pos (clients (v_hub w)))) as Hn by (rewrite <- (take_drop pos (clients (v_hub w))) in Hnd; by apply NoDup_app in Hnd as (_ & _ & ?)).
    rewrite Ed in Hn. by apply NoDup_cons in Hn as [? _]. }
  destruct (lookup_lt_is_Some_2 _ _ (Hkn i (list_elem_of_lookup_2 _ _ _ Ei))) as [ci Hci].
  assert (client_at i w = ci) as Eat by (unfold client_at; cbn; by rewrite Hci). rewrite Eat.
  destruct (decide (subscribed ci = Some t)) as [Hsub|Hsub].
  - change (st w) with (v_st w). rewrite Hs.
    destruct (queue_update_delivers i w ci (json_of_snapshot s) f Hci Hf) as (w1 & c1 & E1 & Hc1 & Hd & Hcl & Hst & Hno & Hoth).
    { apply (Hcap i); [rewrite Ed; left|done|done]. }
    assert (length (ws_objs (v_hub w)) <= length (ws_objs (v_hub w1)))%nat as Hlen.
    { destruct (decide (length (ws_objs (v_hub w)) <= length (ws_objs (v_hub w1)))%nat); [done|exfalso].
      set (k := length (ws_objs (v_hub w1))) in *.
      assert (k <> i) as Hki by (apply lookup_lt_Some in Hc1; lia).
      assert (is_Some (ws_objs (v_hub w) !! k)) as [x Hx] by (apply lookup_lt_is_Some_2; lia).
      rewrite <- Hoth in Hx by done. apply lookup_lt_Some in Hx. lia. }
    destruct (IH (S pos) (Some s) w1) as (w' & E' & Hcl' & Hall); rewrite ?Hcl, ?Hst; try done; [by right| |  | |].
    + intros k Hk. apply Hkn in Hk. lia.
    + intros k c Hk Hck. assert (k <> i) by congruence. rewrite Hoth in Hck by done.
      intros. eapply Hcap; [rewrite Ed; by right|done|done].
    + lia.
    + exists w'. rewrite Hcl in Hcl', Hall. split; [|split; [done|]].
      { destruct Hsnap as [->| ->]; by rewrite E1. }
      intros k c Hk. destruct (decide (k = i)) as [->|Hne].
      * rewrite Hci in Hk. injection Hk as <-. destruct (Hall i c1 Hc1) as (c' & Hc' & Hx). exists c'. split; [done|].
        rewrite decide_False in Hx by tauto. subst c'. rewrite decide_True; [done|]. split; [rewrite Ed; left|done].
      * destruct (Hall k c) as (c' & Hc' & Hx); [by rewrite Hoth|]. exists c'. split; [done|]. rewrite Hno in Hx.
        rewrite Ed. destruct (decide (k ∈ drop (S pos) _ /\ _)) as [[H1 H2]|Hn].
        -- rewrite decide_True; [done|]. split; [by right|done].
        -- rewrite decide_False; [done|]. intros [[H1|H1]%elem_of_cons H2]; [done|tauto].
  - destruct (IH (S pos) snap w) as (w' & E' & Hcl' & Hall); try done; [|lia|].
    + intros k c Hk. apply Hcap. rewrite Ed. by right.
    + exists w'. split; [done|]. split; [done|]. intros k c Hk. destruct (Hall k c Hk) as (c' & Hc' & Hx). exists c'. split; [done|].
      rewrite Ed. destruct (decide (k ∈ drop (S pos) _ /\ _)) as [[H1 H2]|Hn].
      * rewrite decide_True; [done|]. split; [by right|done].
      * rewrite decide_False; [done|]. intros [[->|H1]%elem_of_cons H2]; [|tauto]. rewrite Hci in Hk. by injection Hk as ->.
Qed.

(** ** From a datagram to the browsers *)

Lemma append_trade_hub ticker rec x w : trade_entry rec = Ok x ->
  append_trade ticker rec w =
  (w_st (st_maps (tickers (v_st w)) (<[ticker := deque_append TRADE_RING_SIZE x (default [] (_trades (v_st w) !! ticker))]>
     (_trades (v_st w))) (v_st w)) w, Ok ()).
Proof.
  intros E. unfold append_trade, on_st. munfold. cbn [st wsw_state].
  destruct (_trades (v_st w) !! ticker) as [l|] eqn:El; rewrite E; cbn -[deque_append]; [by rewrite El|].
  unfold w_st, st_maps. cbn -[deque_append]. by rewrite lookup_insert_eq, insert_insert_eq.
Qed.

(** The ticker's trades after the update, newest first. *)
Definition trades_after (u : upd) (s : State) : list rdict :=
  reverse (default [] (upd_trades u (_trades s) !! u_ticker u)).

Lemma apply_update_hub rec u now w : view rec = Some u ->
  last_epoch (v_st w) = None \/ last_epoch (v_st w) = Some (u_epoch u) ->
  exists s', apply_update rec now w = hub_on_ticker_update (u_ticker u) (w_st s' w) /\
    WebState.snapshot (u_ticker u) s' = Some (rec, trades_after u (v_st w)).
Proof.
  intros Hv He. destruct (view_reads _ _ Hv) as (E1 & E2 & E3 & E4 & E5 & E6).
  unfold apply_update, restart, on_st. munfold. rewrite E1. destruct w as [r h s n rr ss cl].
  destruct s as [ti tr up ba ga re sn sr le lr ts ex]. cbn [st v_st last_epoch wsw_state] in *.
  destruct He as [->| ->]; rewrite ?Z.eqb_refl; cbn -[rec_int rec_str append_trade hub_on_ticker_update decide];
    rewrite ?(decide_True (P := Some (u_epoch u) = Some (u_epoch u))) by done;
    rewrite ?(decide_False (P := None = Some (u_epoch u))) by done;
    cbn -[rec_int rec_str append_trade hub_on_ticker_update decide]; rewrite E2;
    cbn -[rec_int rec_str append_trade hub_on_ticker_update decide]; rewrite E3;
    cbn -[rec_int rec_str append_trade hub_on_ticker_update decide]; rewrite E4;
    cbn -[rec_int rec_str append_trade hub_on_ticker_update decide].
  all: destruct (decide (u_trigger u = "E"));
    [match goal with |- context [append_trade ?t ?r ?w] => rewrite (append_trade_hub t r _ w E5) end|];
    cbn -[hub_on_ticker_update deque_append].
  all: eexists; split; [reflexivity|]; unfold WebState.snapshot, trades_after, upd_trades; cbn -[lookup deque_append decide reverse].
  all: first [rewrite (decide_True (P := u_trigger u = "E")) by done|rewrite (decide_False (P := u_trigger u = "E")) by done].
  all: by rewrite ?lookup_insert_eq.
Qed.

(** C36. When no push overflows a buffer, a datagram that decodes to an UPDATE of the
    current epoch, or to the first, reaches every browser subscribed to its ticker, and
    only those: the new snapshot, which carries the update, is appended to the client's
    buffer as one text frame, or kept as its pending update with a timer armed when the
    last push is too recent.  What an overflow does is shown below. *)
Theorem datagram_reaches_browsers ops s0 data rec u now f :
  let w := ws_run ops (wsw_init s0) in
  decode_record data = Ok rec -> dget "kind" rec = Some (RStr KIND_UPDATE) -> view rec = Some u ->
  last_epoch (v_st w) = None \/ last_epoch (v_st w) = Some (u_epoch u) ->
  let snap := (rec, trades_after u (v_st w)) in
  encode_text_frame (dumps (json_of_snapshot snap)) = Ok f ->
  (forall i c, ws_objs (v_hub w) !! i = Some c -> subscribed c = Some (u_ticker u) ->
     zlen (ws_send_buf c) + zlen f <= MAX_SEND_BUF) ->
  exists w', _handle_datagram data now w = (w', Ok ()) /\
    clients (v_hub w') = clients (v_hub w) /\
    forall i c, ws_objs (v_hub w) !! i = Some c -> exists c', ws_objs (v_hub w') !! i = Some c' /\
      if decide (i ∈ clients (v_hub w) /\ subscribed c = Some (u_ticker u))
      then delivered (v_now w) (json_of_snapshot snap) f c c' else c' = c.
Proof.
  intros w Hrec Hk Hv He snap Hf Hb. unfold _handle_datagram. rewrite Hrec, decide_True by done.
  destruct (apply_update_hub rec u now w Hv He) as (s' & -> & Hs).
  assert (ws_inv w) as Hinv by apply inv_run, inv_init.
  destruct (ticker_loop_delivers (u_ticker u) snap f (S (length (clients (v_hub w)))) 0 None (w_st s' w))
    as (w' & E & Hcl & Hall); try done; cbn [v_hub w_st].
  - by left.
  - apply (hi_nodup _ _ Hinv).
  - apply (hi_known _ _ Hinv).
  - intros i c _ Hi Hsub. by eapply Hb.
  - lia.
  - exists w'. split; [exact E|]. split; [exact Hcl|]. intros i c Hi. exact (Hall i c Hi).
Qed.

Lemma client_at_Some i w c : ws_objs (v_hub w) !! i = Some c -> client_at i w = c.
Proof. intros E. unfold client_at. cbn. by rewrite E. Qed.

(** Two browsers on one ticker: when the push to the first overflows its buffer it
    is dropped while the loop runs over the hub's list, and the second one is passed
    over: it gets neither a frame nor a pending update. *)
Theorem hub_skips_after_drop t s f w ci cj :
  clients (v_hub w) = [0%nat; 1%nat] ->
  ws_objs (v_hub w) !! 0%nat = Some ci -> ws_objs (v_hub w) !! 1%nat = Some cj ->
  WebState.snapshot t (v_st w) = Some s -> encode_text_frame (dumps (json_of_snapshot s)) = Ok f ->
  subscribed ci = Some t -> subscribed cj = Some t -> _torn_down ci = false -> _closing ci = false ->
  MIN_PUSH_INTERVAL <= v_now w - _last_push ci -> MAX_SEND_BUF < zlen (ws_send_buf ci) + zlen f ->
  exists w', hub_on_ticker_update t w = (w', Ok ()) /\ clients (v_hub w') = [1%nat] /\
    ws_objs (v_hub w') !! 1%nat = Some cj.
Proof.
  intros Hcl Hi Hj Hs Hf Hsi Hsj Ht Hc He Hcap. unfold hub_on_ticker_update. munfold.
  change (hub w) with (v_hub w). rewrite Hcl. cbn [length ticker_loop]. munfold. change (hub w) with (v_hub w).
  rewrite Hcl. cbn [lookup list_lookup]. rewrite (client_at_Some _ _ _ Hi), Hsi, decide_True by done.
  change (st w) with (v_st w). rewrite Hs. unfold queue_update, get_ws. munfold.
  rewrite (client_at_Some _ _ _ Hi), Ht, Hc. unfold mod_ws at 1. munfold. cbn [orb hub set_hub wsw_ws monotonic wsw_reactor]. unfold mgets.
  rewrite (alter_at _ _ _ _ Hi). set (w1 := w_hub _ w). cbn [fst snd]. change (v_now w1) with (v_now w).
  assert (ws_objs (v_hub w1) !! 0%nat = Some (x_pending (Some (json_of_snapshot s)) ci)) as Hc1
    by (cbn [w1 v_hub w_hub ws_objs]; by rewrite list_lookup_alter_eq, Hi).
  rewrite (proj2 (Z.leb_le _ _)) by done. rewrite (flush_pending_eq _ _ _ _ Hc1). subst w1.
  cbn [v_hub w_hub ws_objs clients v_now]. rewrite alter_const_twice. unfold _send_json, mlift. munfold. rewrite Hf.
  set (c2 := x_last_push _ _). set (w2 := w_hub _ _).
  assert (ws_objs (v_hub w2) !! 0%nat = Some c2) as Hc2 by (cbn [w2 v_hub w_hub ws_objs]; by rewrite list_lookup_alter_eq, Hi).
  unfold _enqueue, get_ws. munfold. rewrite (client_at_Some _ _ _ Hc2). change (_torn_down c2) with (_torn_down ci).
  change (ws_send_buf c2) with (ws_send_buf ci). rewrite Ht, (proj2 (Z.ltb_lt _ _)) by done.
  rewrite (teardown_run _ _ _ Hc2 Ht). cbn [hub wsw_ws v_hub clients]. subst w2. cbn [v_hub w_hub clients ws_objs].
  rewrite Hcl. cbn [remove_first]. rewrite decide_True by done. cbn [lookup list_lookup].
  eexists. split; [reflexivity|]. cbn [v_hub clients ws_objs]. split; [done|].
  by rewrite alter_const_twice, list_lookup_alter_ne.
Qed.
End hub_world.

(** C26. Browser connections, whatever arrives, gets sent or fails and whenever timers
    run: no client ever buffers more than the cap; a client that was dropped is off
    the hub's list, watched by nothing and has no timer to fire; every other client
    is on the list, is read from, is written to exactly while it has unsent bytes,
    and an update held back for it has a timer due within the push interval. *)
Theorem ws_hub_safe (sub : bytes -> option str) s (ops : list ws_op) :
  let w := ws_run sub ops (wsw_init s) in
  NoDup (clients (v_hub w)) /\
  forall i c, ws_objs (v_hub w) !! i = Some c ->
    zlen (ws_send_buf c) <= 262144 /\
    (_torn_down c = true ->
       i ∉ clients (v_hub w) /\ cbs_of (v_rx w) (ws_sock c) = (None, None) /\
       forall t, t ∈ timers (v_rx w) -> (callback t).1 = i -> cancelled t = true) /\
    (_torn_down c = false ->
       i ∈ clients (v_hub w) /\
       cbs_of (v_rx w) (ws_sock c) =
         (Some (i, WsReadable), if decide (ws_send_buf c = []) then None else Some (i, WsWritable)) /\
       (_pending_payload c <> None ->
        exists t, t ∈ timers (v_rx w) /\ cancelled t = false /\ callback t = (i, WsFlushTimer) /\
          deadline t <= _last_push c + MIN_PUSH_INTERVAL)).
Proof.
  intros w. assert (ws_inv w) as Hinv by apply inv_run, inv_init. split; [by apply (hi_nodup _ _ Hinv)|].
  intros i c Hc. pose proof (hi_client _ _ Hinv i c Hc) as [K1 K2 K3 K4 K5 K6].
  split; [exact K1|]. split; intros Ht; rewrite Ht in K4.
  - split_and!; [rewrite <- K2; by rewrite Ht|done|]. intros t Hin Hcb. destruct (cancelled t) eqn:Eca; [done|].
    destruct (hi_timer _ _ Hinv t Hin Eca) as (k & ck & Ek & Hk & Hf & _). rewrite Ek in Hcb. cbn in Hcb. subst k.
    rewrite Hc in Hk. injection Hk as <-. by rewrite K3 in Hf.
  - split_and!; [by apply K2|done|]. intros Hp. destruct (_flush_timer c) as [h|] eqn:Ef; [|by destruct (K6 Hp Ht)].
    destruct (K5 h eq_refl) as (t & Hin & <- & Hca & Hcb). exists t. split_and!; try done.
    exact (proj2 (own_timer _ _ _ _ _ Hinv Hc Hin Hca Hcb)).
Qed.

(** The cap of one push per interval: an update that arrives when the flush timer is
    due but has not run yet is pushed at once, the next one waits for that timer, and
    the timer pushes it in the same instant. *)
Example push_cap_exceeded :
  let st0 := st_maps {["A" := []]} ∅ (state_init 0) in
  let frame := cframe_bytes (mkCFrame true OP_TEXT Short (replicate 4 Byte.x01) []) in
  let w1 := ws_run (fun _ => Some "A") [OState st0; OAttach 7; ORead 0 (RecvData frame); OTime 1000; OTicker "A";
    OTime 50; OTicker "A"; OTime 60; OTicker "A"; OTicker "A"] (wsw_init st0) in
  let w2 := ws_run (fun _ => Some "A") [OTimer] w1 in
  (_last_push <$> ws_objs (v_hub w1), v_now w1) = ([1110], 1110) /\
  (_last_push <$> ws_objs (v_hub w2), v_now w2) = ([1110], 1110) /\
  ((fun c => length (ws_send_buf c)) <$> ws_objs (v_hub w2)) =
    ((fun c => length (ws_send_buf c) + length (dumps (json_of_snapshot ([], []))) + 2)%nat <$> ws_objs (v_hub w1)).
Proof. vm_compute. auto. Qed.

(** ** Concrete runs *)

Definition demo_frame : cframe := mkCFrame true OP_TEXT Short [z2b 1; z2b 2; z2b 3; z2b 4] (s2l "sub").

Lemma ws_frames_exact_witness :
  decode_frame (cframe_bytes demo_frame ++ [z2b 7]) = Ok (Some (true, OP_TEXT, s2l "sub", 9%nat)) /\
  decode_frame (take 8 (cframe_bytes demo_frame)) = Ok None /\
  exists l, encode_frame OP_TEXT (s2l "hello") = Ok l /\ browser_read (l ++ [z2b 7]) = Some (OP_TEXT, s2l "hello", [z2b 7]).
Proof.
  destruct (ws_frames_exact demo_frame [z2b 7] OP_TEXT (s2l "hello")) as (H1 & H2 & H3).
  - split_and!; vm_compute; congruence.
  - unfold OP_TEXT. lia.
  - vm_compute. reflexivity.
  - split_and!; [exact H1|apply H2; vm_compute; lia|exact H3].
Defined.

Definition demo_ticker : str := match rec_str "ticker" demo_update with Ok t => t | Raise _ => "" end.
Definition demo_sub (l : bytes) : option str := Some demo_ticker.
Definition demo_ops : list ws_op := [OAttach 7; ORead 0 (RecvData (cframe_bytes demo_frame)); OTime 1000].
Definition demo_state : State := state_init 0.
Definition demo_upd : upd :=
  match view demo_update with Some u => u | None => mkUpd 0 0 "" "" [] [] end.
Definition demo_push : bytes :=
  match encode_text_frame (dumps (json_of_snapshot (demo_update, trades_after demo_upd demo_state))) with
  | Ok f => f | Raise _ => [] end.

Lemma datagram_reaches_browsers_witness :
  exists w' c c', @_handle_datagram wsw wsw_state (wsw_callbacks demo_sub) demo_wire 5 (ws_run demo_sub demo_ops (wsw_init demo_state))
      = (w', Ok ()) /\
    ws_objs (v_hub (ws_run demo_sub demo_ops (wsw_init demo_state))) !! 0%nat = Some c /\
    ws_objs (v_hub w') !! 0%nat = Some c' /\ ws_send_buf c' = ws_send_buf c ++ demo_push.
Proof.
  destruct (datagram_reaches_browsers demo_sub demo_ops demo_state demo_wire demo_update demo_upd 5 demo_push)
    as (w' & E & _ & Hall).
  - vm_compute. reflexivity.
  - vm_compute. reflexivity.
  - vm_compute. reflexivity.
  - left. vm_compute. reflexivity.
  - vm_compute. reflexivity.
  - intros [|i] c Hi _; [|vm_compute in Hi; discriminate Hi].
    vm_compute in Hi. injection Hi as <-. vm_compute. discriminate.
  - destruct (Hall 0%nat (client_at (H1 := wsw_ws demo_sub) 0 (ws_run demo_sub demo_ops (wsw_init demo_state))))
      as (c' & Hc' & Hd); [vm_compute; reflexivity|].
    eexists w', _, c'. split; [exact E|]. split; [|split; [exact Hc'|]].
    2:{ rewrite decide_True in Hd by (split; [vm_compute; left|vm_compute; reflexivity]).
        unfold delivered in Hd.
        set (k := client_at _ _) in *. assert (_torn_down k || _closing k = false) as E1 by (vm_compute; reflexivity).
        assert (MIN_PUSH_INTERVAL <=? v_now (ws_run demo_sub demo_ops (wsw_init demo_state)) - _last_push k = true) as E2
          by (vm_compute; reflexivity).
        rewrite E1, E2 in Hd. rewrite Hd. reflexivity. }
    vm_compute. reflexivity.
Defined.

Definition slow_client : WebSocketClient := x_subscribed (Some "A") (x_send_buf (replicate 262144 Byte.x00) (ws_init 0)).
Definition skip_world : wsw :=
  w_env 1000 RecvBlock SendBlock
    (w_hub (mkHub [slow_client; x_subscribed (Some "A") (ws_init 1)] [0%nat; 1%nat])
       (wsw_init (st_maps {["A" := []]} ∅ (state_init 0)))).

Lemma hub_skips_after_drop_witness :
  exists w', @hub_on_ticker_update wsw (nat * ws_cb) wsw_reactor wsw_state (wsw_ws demo_sub) "A" skip_world = (w', Ok ()) /\
    clients (v_hub w') = [1%nat] /\ ws_objs (v_hub w') !! 1%nat = Some (x_subscribed (Some "A") (ws_init 1)).
Proof.
  eapply (hub_skips_after_drop demo_sub "A" ([], []) _ skip_world slow_client); try reflexivity.
  vm_compute. discriminate.
Defined.
