(* ===== verification/DbQuery.v ===== *)
(** jnxweb/dbquery_client.py: one ORDERS round trip against jnxdb's query port.

    [OrdersQuery] and [snapshot.SnapshotQuery] are the same non-blocking skeleton
    around a command and a reply parser; the skeleton is written once here, over the
    type [D] of what the query's [on_done] closure has captured.  Query objects live
    in a store and are referred to by index, since the reactor's callbacks and their
    owner share them.  A skeleton error is the text [on_done] gets. *)
From S2P Require Export PyText Tcp.

#[global] Set Default Goal Selector "!".

Definition DEFAULT_TIMEOUT : Z := 3000.

Record Query (D : Type) : Type := mkQuery {
  q_sock : nat; q_recv_buf : bytes; q_send_buf : bytes; q_finished : bool; q_connecting : bool;
  q_timer : option Z; q_done : D }.
Arguments mkQuery {D} _ _ _ _ _ _ _.
Arguments q_sock {D} _.
Arguments q_recv_buf {D} _.
Arguments q_send_buf {D} _.
Arguments q_finished {D} _.
Arguments q_connecting {D} _.
Arguments q_timer {D} _.
Arguments q_done {D} _.

Definition q_set_recv {D} (x : bytes) (q : Query D) : Query D :=
  mkQuery (q_sock q) x (q_send_buf q) (q_finished q) (q_connecting q) (q_timer q) (q_done q).
Definition q_set_send {D} (x : bytes) (q : Query D) : Query D :=
  mkQuery (q_sock q) (q_recv_buf q) x (q_finished q) (q_connecting q) (q_timer q) (q_done q).
Definition q_set_finished {D} (q : Query D) : Query D :=
  mkQuery (q_sock q) (q_recv_buf q) (q_send_buf q) true (q_connecting q) (q_timer q) (q_done q).
Definition q_set_connected {D} (q : Query D) : Query D :=
  mkQuery (q_sock q) (q_recv_buf q) (q_send_buf q) (q_finished q) false (q_timer q) (q_done q).
Definition q_set_timer {D} (x : option Z) (q : Query D) : Query D :=
  mkQuery (q_sock q) (q_recv_buf q) (q_send_buf q) (q_finished q) (q_connecting q) x (q_done q).

Inductive query_cb : Type := QWritable | QReadable | QTimeout.

Class QueryOf (W CB D : Type) : Type := {
  queries : W -> list (Query D);
  set_queries : list (Query D) -> W -> W;
  query_name : nat -> query_cb -> CB;
  query_socket : M W nat;
  query_connect : nat -> M W connect_res;
  query_so_error : nat -> M W Z;
  query_recv : nat -> M W recv_res;
  query_send : nat -> bytes -> M W send_res;
  query_close : nat -> M W ();
  query_strerror : M W str   (* str(exc) of the OSError a call just raised *) }.

(** The reply is complete: a lone [.] ends it. *)
Definition complete_reply (buf : bytes) : bool :=
  endswith [z2b 10; z2b 46; z2b 10] buf || bool_decide (buf = [z2b 46; z2b 10]).

Definition TIMED_OUT : str := "timed out contacting jnxdb".
Definition CLOSED_EARLY : str := "jnxdb closed the connection before the terminator line".
Definition EMPTY_REPLY : str := "empty reply from jnxdb".

Section query.
  Context {W CB D : Type} `{ReactorOf W CB} `{QueryOf W CB D}.

Definition mod_query (i : nat) (f : Query D -> Query D) : M W () :=
  mmod (fun w => set_queries (alter f i (queries w)) w).
(** Run a method of the query object [i]. *)
Definition with_query (i : nat) (f : Query D -> M W ()) : M W () := fun w =>
  match queries w !! i with Some q => f q w | None => (w, Ok ()) end.

(** The part of [_finish] before the callback ([_teardown] in snapshot.py). *)
Definition query_teardown (i : nat) : M W () :=
  with_query i (fun q =>
    (match q_timer q with
     | Some h => mod_rx (timer_cancel h) ;; mod_query i (q_set_timer None)
     | None => mret ()
     end) ;;
    mod_rx (unregister (q_sock q)) ;;
    query_close (q_sock q)).

(** What a query gives its owner: an error, or the reply's text. *)
Definition _finish (on_end : D -> M W ()) (i : nat) : M W () :=
  with_query i (fun q =>
    if q_finished q then mret ()
    else
      mod_query i q_set_finished ;;
      query_teardown i ;;
      on_end (q_done q)).

Definition query_cancel (i : nat) : M W () :=
  with_query i (fun q =>
    if q_finished q then mret () else mod_query i q_set_finished ;; query_teardown i).

Context (on_error : D -> str -> M W ()).

Definition fail (i : nat) (error : str) : M W () := _finish (fun d => on_error d error) i.
Definition fail_os (i : nat) : M W () := text ← query_strerror; fail i text.

(** [__init__]: the new object's index. *)
Definition query_init (command : bytes) (done : D) (timeout : Z) : M W nat :=
  sock ← query_socket;
  w ← mget;
  let i := length (queries w) in
  mmod (fun w => set_queries (queries w ++ [mkQuery sock [] command false true None done]) w) ;;
  r ← query_connect sock;
  match r with
  | ConnectError => fail_os i ;; mret i
  | _ =>
      mod_rx (register_write sock (query_name i QWritable)) ;;
      h ← schedule timeout (query_name i QTimeout);
      mod_query i (q_set_timer (Some h)) ;;
      mret i
  end.

Definition _on_timeout (i : nat) : M W () := mod_query i (q_set_timer None) ;; fail i TIMED_OUT.

(** The [send] of [_on_writable]; then the query waits for the reply. *)
Definition query_flush (i : nat) : M W () :=
  with_query i (fun q =>
    let wait_reply :=
      mod_rx (unregister_write (q_sock q)) ;; mod_rx (register_read (q_sock q) (query_name i QReadable)) in
    if decide (q_send_buf q = []) then wait_reply
    else
      r ← query_send (q_sock q) (q_send_buf q);
      match r with
      | SendBlock => mret ()
      | SendError => fail_os i
      | SendBytes n =>
          mod_query i (q_set_send (drop n (q_send_buf q))) ;;
          if decide (drop n (q_send_buf q) = []) then wait_reply else mret ()
      end).

Definition query_on_writable (i : nat) : M W () :=
  with_query i (fun q =>
    if q_connecting q then
      mod_query i q_set_connected ;;
      err ← query_so_error (q_sock q);
      if err =? 0 then query_flush i else fail_os i
    else query_flush i).

Context (on_text : D -> str -> M W ()).

Definition query_on_readable (i : nat) : M W () :=
  with_query i (fun q =>
    r ← query_recv (q_sock q);
    match r with
    | RecvBlock => mret ()
    | RecvError => fail_os i
    | RecvData [] => fail i CLOSED_EARLY
    | RecvData data =>
        let buf := q_recv_buf q ++ data in
        mod_query i (q_set_recv buf) ;;
        if complete_reply buf then _finish (fun d => on_text d (decode_ascii_replace buf)) i else mret ()
    end).

Definition run_query_cb (i : nat) (cb : query_cb) : M W () :=
  match cb with
  | QWritable => query_on_writable i
  | QReadable => query_on_readable i
  | QTimeout => _on_timeout i
  end.
End query.

(** * The ORDERS reply *)

Record order_row : Type := mkOrderRow {
  w_order_number : str; w_side : str; w_price : str; w_qty_remaining : Z; w_order_type : str }.

(** The reply's lines without the terminator, as both parsers read them. *)
Definition reply_lines (text : str) : list str :=
  let lines := splitlines text in
  match last lines with
  | Some l => if decide (l = ".") then take (length lines - 1) lines else lines
  | None => lines
  end.

(** The body of the [for]: a blank line and one without five fields are skipped. *)
Definition parse_order_line (line : str) : res (option order_row) :=
  match split_ws line with
  | [n; s; p; q; t] => qty ← py_int q; Ok (Some (mkOrderRow n s p qty t))
  | _ => Ok None
  end.

Definition _parse_orders_reply (text : str) : res (list order_row + str) :=
  match reply_lines text with
  | [] => Ok (inr EMPTY_REPLY)
  | l :: ls =>
      if startswith (s2l "ERR") (s2l l) then Ok (inr "unknown")
      else
        match rmap parse_order_line ls with
        | Ok rows => Ok (inl (omap (M := list) id rows))
        | Raise e => Raise e
        end
  end.

Definition ORDERS_COMMAND (ticker : str) : res bytes :=
  encode_ascii (String.append "ORDERS " (String.append ticker (l2s [z2b 10]))).

(** * The reply, read in any pieces *)

Definition nl : byte := z2b 10.
Definition dot : bytes := [z2b 46].
Definition lines_bytes (ls : list bytes) : bytes := concat ((fun l => l ++ [nl]) <$> ls).

(** jnxdb's reply: lines, each ended by a line feed, then the lone [.]. *)
Definition reply_of (ls : list bytes) : bytes := lines_bytes (ls ++ [dot]).

(** A line jnxdb may send: ASCII, no line boundary and no lone dot. *)
Definition line_ok (l : bytes) : bool :=
  forallb (fun b => negb (is_eol b) && is_ascii b) l && negb (bool_decide (l = dot)).

Lemma line_ok_parts l : line_ok l = true ->
  forallb (fun b => negb (is_eol b)) l = true /\ forallb is_ascii l = true /\ l <> dot.
Proof.
  unfold line_ok. intros [H Hd]%andb_true_iff. apply negb_true_iff, bool_decide_eq_false in Hd.
  split_and!; [| |done]; clear Hd; induction l as [|b l IH]; cbn in *; [done| |done|];
    apply andb_true_iff in H as [[H1 H2]%andb_true_iff H]; rewrite ?H1, ?H2; by apply IH.
Qed.

Lemma decode_ascii_replace_ascii l : forallb is_ascii l = true -> decode_ascii_replace l = l2s l.
Proof.
  intros Hl. unfold decode_ascii_replace. f_equal. induction l as [|b l IH]; [done|].
  cbn in *. apply andb_true_iff in Hl as [-> Hl]. f_equal. by apply IH.
Qed.

Lemma no_eol_nl l : forallb (fun b => negb (is_eol b)) l = true -> nl ∉ l.
Proof. rewrite forallb_forall. intros H Hin%list_elem_of_In. by specialize (H _ Hin). Qed.

Lemma lines_bytes_app l1 l2 : lines_bytes (l1 ++ l2) = lines_bytes l1 ++ lines_bytes l2.
Proof. unfold lines_bytes. by rewrite fmap_app, concat_app. Qed.

Lemma lines_bytes_cons l ls : lines_bytes (l :: ls) = l ++ nl :: lines_bytes ls.
Proof. unfold lines_bytes. cbn. by rewrite <- app_assoc. Qed.

Lemma lines_bytes_ascii ls : Forall (fun l => forallb is_ascii l = true) ls -> forallb is_ascii (lines_bytes ls) = true.
Proof. induction 1 as [|l ls Hl _ IH]; [done|]. rewrite lines_bytes_cons, forallb_app, Hl. cbn. exact IH. Qed.

(** What is read of a reply when its last line feed so far has come. *)
Lemma lines_prefix ls p t : Forall (fun l => nl ∉ l) ls -> p ++ nl :: t = lines_bytes ls ->
  exists l1 l l2, ls = l1 ++ l :: l2 /\ p = lines_bytes l1 ++ l.
Proof.
  intros Hls. revert p. induction Hls as [|l ls Hl _ IH]; intros p E; [by destruct p|].
  rewrite lines_bytes_cons in E. apply app_eq_app in E as [k [[-> E]|[-> E]]].
  - destruct k as [|b k].
    + exists [], l, ls. split; [done|]. by rewrite app_nil_r.
    + injection E as Eb E. subst b. symmetry in E. destruct (IH _ E) as (l1 & l' & l2 & -> & ->).
      exists (l :: l1), l', l2. split; [done|]. by rewrite lines_bytes_cons, <- app_assoc.
  - destruct k as [|b k].
    + exists [], p, ls. rewrite app_nil_r. done.
    + injection E as Eb E. subst b. exfalso. apply Hl. rewrite elem_of_app. right. left.
Qed.

Lemma lines_bytes_end l1 : lines_bytes l1 = [] \/ exists x, lines_bytes l1 = x ++ [nl].
Proof.
  destruct l1 as [|l l1 _] using rev_ind; [by left|]. right. rewrite lines_bytes_app. cbn.
  rewrite app_nil_r, app_assoc. by eexists.
Qed.

Lemma endswith_app x l : endswith x (l ++ x) = true.
Proof.
  unfold endswith. rewrite length_app. replace (length l + length x - length x)%nat with (length l) by lia.
  rewrite drop_app_length. by apply bool_decide_eq_true.
Qed.

Lemma endswith_inv x l : endswith x l = true -> exists t, l = t ++ x.
Proof.
  unfold endswith. intros H%bool_decide_eq_true. exists (take (length l - length x) l). rewrite <- H at 2.
  by rewrite take_drop.
Qed.

Lemma complete_whole ls : complete_reply (reply_of ls) = true.
Proof.
  unfold complete_reply, reply_of. rewrite lines_bytes_app. destruct (lines_bytes_end ls) as [->|[x ->]].
  - by vm_compute.
  - rewrite <- app_assoc. apply orb_true_iff. left. apply (endswith_app [nl; z2b 46; nl]).
Qed.

(** No proper prefix of the reply ends it. *)
Lemma complete_prefix ls p t : Forall (fun l => line_ok l = true) ls -> t <> [] -> p ++ t = reply_of ls ->
  complete_reply p = false.
Proof.
  intros Hls Ht E. apply not_true_iff_false. intros Hc.
  assert (Forall (fun l => nl ∉ l) (ls ++ [dot])) as Hnl.
  { apply Forall_app. split; [|by repeat constructor; apply (bool_decide_unpack _)].
    eapply Forall_impl; [exact Hls|]. intros l (H & _)%line_ok_parts. by apply no_eol_nl. }
  assert (exists q, p = q ++ [nl] /\ (q = dot \/ exists x, q = x ++ [nl; z2b 46])) as (q & -> & Hq).
  { apply orb_true_iff in Hc as [(x & ->)%endswith_inv|Hc%bool_decide_eq_true].
    - exists (x ++ [nl; z2b 46]). rewrite <- app_assoc. split; [done|]. right. by eexists.
    - exists dot. split; [done|by left]. }
  rewrite <- app_assoc in E. cbn in E. destruct (lines_prefix _ _ _ Hnl E) as (l1 & l & l2 & El & ->).
  assert (nl ∉ l) as Hl. { rewrite El in Hnl. apply Forall_app in Hnl as [_ Hnl]. by apply Forall_cons in Hnl as [? _]. }
  assert (l = dot) as ->.
  { destruct Hq as [Hq|[x Hq]].
    - destruct (lines_bytes_end l1) as [E1|[y Ey]]; [by rewrite E1 in Hq|]. rewrite Ey in Hq.
      destruct y as [|b [|]]; [|done..]. by destruct l.
    - replace (x ++ [nl; z2b 46]) with ((x ++ [nl]) ++ [z2b 46]) in Hq by by rewrite <- app_assoc.
      destruct l as [|b l _] using rev_ind.
      + rewrite app_nil_r in Hq. destruct (lines_bytes_end l1) as [E1|[y Ey]]; [by rewrite E1 in Hq; destruct x|].
        rewrite Ey in Hq. by apply app_inj_tail in Hq as [_ ?].
      + rewrite app_assoc in Hq. apply app_inj_tail in Hq as [Hq ->].
        destruct l as [|b l _] using rev_ind; [done|]. exfalso. rewrite app_assoc in Hq.
        apply app_inj_tail in Hq as [_ ->]. apply Hl. rewrite !elem_of_app. left. right. left. }
  destruct l2 as [|l' l2 _] using rev_ind.
  - apply app_inj_tail in El as [-> _]. unfold reply_of in E. rewrite lines_bytes_app, <- app_assoc in E.
    apply app_inv_head in E. cbn in E. by destruct t.
  - rewrite app_comm_cons, app_assoc in El. apply app_inj_tail in El as [El _].
    rewrite El in Hls. apply Forall_app in Hls as [_ Hls]. apply Forall_cons in Hls as [(_ & _ & Hd)%line_ok_parts _]. done.
Qed.

(** The parsers get jnxdb's lines back. *)
Lemma reply_lines_of ls : Forall (fun l => line_ok l = true) ls ->
  reply_lines (decode_ascii_replace (reply_of ls)) = l2s <$> ls.
Proof.
  intros Hls. unfold reply_lines, splitlines. rewrite decode_ascii_replace_ascii.
  2: { apply lines_bytes_ascii, Forall_app. split; [|by repeat constructor].
    eapply Forall_impl; [exact Hls|]. by intros l (_ & H & _)%line_ok_parts. }
  rewrite s2l_l2s. unfold reply_of, lines_bytes.
  rewrite split_lines_all.
  2: { apply Forall_app. split; [|by repeat constructor].
    eapply Forall_impl; [exact Hls|]. by intros l (H & _)%line_ok_parts. }
  rewrite fmap_app. change (l2s <$> [dot]) with ["."]. rewrite last_snoc, decide_True by done.
  rewrite length_app. cbn [length]. rewrite Nat.add_sub. by rewrite take_app_length.
Qed.

(** ** The ORDERS reply (cpp/db/query.cpp): a header and a line per resting order *)

Definition order_words (r : order_row) : list bytes :=
  [s2l (w_order_number r); s2l (w_side r); s2l (w_price r); py_str_b (w_qty_remaining r); s2l (w_order_type r)].
Definition orders_lines (rows : list order_row) : list bytes :=
  s2l "order_number side price qty_remaining type" :: ((fun r => PyText.join [z2b 32] (order_words r)) <$> rows).

(** Texts that are one word each, and a quantity. *)
Definition word_ok (s : str) : bool := forallb plain_b (s2l s) && negb (bool_decide (s2l s = [])).
Definition order_row_ok (r : order_row) : bool :=
  word_ok (w_order_number r) && word_ok (w_side r) && word_ok (w_price r) && word_ok (w_order_type r)
  && (0 <=? w_qty_remaining r).

Lemma word_ok_solid s : word_ok s = true -> solid (s2l s) = true /\ forallb plain_b (s2l s) = true.
Proof.
  intros [H Hn]%andb_true_iff. split; [|done]. apply plain_solid; [done|].
  by apply negb_true_iff, bool_decide_eq_false in Hn.
Qed.

Lemma order_words_ok r : order_row_ok r = true ->
  Forall (fun w => solid w = true /\ forallb plain_b w = true) (order_words r).
Proof.
  intros [[[[H1 H2]%andb_true_iff H3]%andb_true_iff H4]%andb_true_iff H5%Z.leb_le]%andb_true_iff.
  repeat constructor; try by apply word_ok_solid. all: try by apply dec_bytes_solid. all: by try apply plain_py_str.
Qed.

Lemma parse_order_line_ok r : order_row_ok r = true ->
  parse_order_line (l2s (PyText.join [z2b 32] (order_words r))) = Ok (Some r).
Proof.
  intros H. pose proof (order_words_ok r H) as Hw. unfold parse_order_line, split_ws.
  rewrite s2l_l2s, split_words_join by (eapply Forall_impl; [exact Hw|]; by intros ? [? _]).
  unfold order_words. cbn [fmap list_fmap]. rewrite !l2s_s2l.
  apply andb_true_iff in H as [_ Hq%Z.leb_le]. fold (py_str (w_qty_remaining r)). rewrite py_int_str by done.
  by destruct r.
Qed.

Lemma join_chars (p : byte -> bool) ws : p (z2b 32) = true -> Forall (fun w => forallb p w = true) ws ->
  forallb p (PyText.join [z2b 32] ws) = true.
Proof.
  intros Hp H. destruct H as [|w ws Hw H]; [done|]. unfold PyText.join. rewrite forallb_app, Hw. cbn [andb].
  induction H as [|w' ws Hw' _ IH]; [done|]. cbn [fmap list_fmap concat]. rewrite !forallb_app. cbn [forallb].
  rewrite Hp, Hw'. exact IH.
Qed.

Lemma orders_lines_ok rows : Forall (fun r => order_row_ok r = true) rows ->
  Forall (fun l => line_ok l = true) (orders_lines rows).
Proof.
  intros H. constructor; [by vm_compute|]. apply Forall_fmap. eapply Forall_impl; [exact H|].
  intros r Hr. pose proof (order_words_ok r Hr) as Hw. apply andb_true_iff. split.
  - apply join_chars; [done|]. eapply Forall_impl; [exact Hw|]. intros w [_ Hp]. eapply forallb_impl; [|exact Hp].
    intros b [-> Hb%negb_true_iff]%andb_true_iff. by rewrite (ws_eol _ Hb).
  - apply negb_true_iff, bool_decide_eq_false. unfold order_words, PyText.join. cbn [fmap list_fmap concat].
    intros E. by destruct (s2l (w_order_number r)) as [|a [|]].
Qed.

Lemma orders_reply_ok rows : Forall (fun r => order_row_ok r = true) rows ->
  _parse_orders_reply (decode_ascii_replace (reply_of (orders_lines rows))) = Ok (inl rows).
Proof.
  intros H. unfold _parse_orders_reply. rewrite reply_lines_of by by apply orders_lines_ok.
  unfold orders_lines. cbn [fmap list_fmap]. change (startswith (s2l "ERR") _) with false. cbn iota.
  match goal with |- context [rmap parse_order_line ?l] => assert (rmap parse_order_line l = Ok (Some <$> rows)) as -> end.
  { induction H as [|r rows Hr _ IH]; [done|]. cbn [fmap list_fmap rmap]. rewrite (parse_order_line_ok r Hr).
    cbn [mbind res_bind]. by rewrite IH. }
  f_equal. f_equal. induction rows as [|r rows IH]; [done|]. cbn. f_equal. apply IH. by apply Forall_cons in H as [_ ?].
Qed.
