(* ===== verification/Snapshot.v ===== *)
(** jnxweb/snapshot.py: seeding the web state from jnxdb's SNAP reply.

    [SnapshotQuery] is the query skeleton of DbQuery with the SNAP command and reply
    parser; what its [on_done] closure captured is the pair of the expected epoch
    and the attempt number.  [SnapshotBootstrap] owns the fetches: the first one, one
    after every restart of the feed, and the bounded retries. *)
From S2P Require Export DbQuery WebState.

#[global] Set Default Goal Selector "!".

Definition SNAP_TIMEOUT : Z := 15000.
Definition DEFAULT_RESTART_DEBOUNCE : Z := 1500.
Definition DEFAULT_RETRY_DELAY : Z := 1000.
Definition DEFAULT_MAX_ATTEMPTS : Z := 3.
Definition SNAP_COMMAND : bytes := s2l "SNAP" ++ [nl].

(** * The SNAP reply *)

(** Why a fetch failed; the texts only go to the log. *)
Inductive snap_error : Type :=
| FetchError (text : str) | EmptyReply | Rejected | BadHeader | MissingField | BadRow | NotUpdate | Truncated.

Definition _parse_header (line : str) : option (list (str * str)) :=
  match split_ws line with
  | [] => None
  | p :: toks =>
      if decide (p = "SNAP") then
        Some (foldl (fun fields tok =>
          let '(key, sep, val) := partition_b (z2b 61) (s2l tok) in
          if (sep : bool) then dset (l2s key) (l2s val) fields else fields) [] toks)
      else None
  end.

Definition header_int (key : str) (header : list (str * str)) : res Z :=
  v ← of_option KeyError (dget key header); py_int v.

(** [b64decode(line, validate=True)], then the record codec. *)
Definition decode_row (line : str) : res rdict := raw ← b64decode_validate (s2l line); decode_record raw.

(** The [for] over the lines: the first bad row ends it. *)
Fixpoint snap_rows (lines : list str) : res (list rdict + snap_error) :=
  match lines with
  | [] => Ok (inl [])
  | line :: lines' =>
      if decide (line = "") then snap_rows lines'
      else
        match decode_row line with
        | Raise e => if is_ValueError e || bool_decide (e = RecordError) then Ok (inr BadRow) else Raise e
        | Ok rec =>
            if decide (dget "kind" rec = Some (RStr KIND_UPDATE)) then
              r ← snap_rows lines';
              Ok (match r with inl rows => inl (rec :: rows) | inr e => inr e end)
            else Ok (inr NotUpdate)
        end
  end.

Definition _parse_snap_reply (text : str) : res (list rdict * Z + snap_error) :=
  match reply_lines text with
  | [] => Ok (inr EmptyReply)
  | l :: lines =>
      if startswith (s2l "ERR") (s2l l) then Ok (inr Rejected)
      else
        match _parse_header l with
        | None => Ok (inr BadHeader)
        | Some header =>
            match (a ← header_int "epoch" header; b ← header_int "count" header; Ok (a, b)) with
            | Raise e => if is_ValueError e || bool_decide (e = KeyError) then Ok (inr MissingField) else Raise e
            | Ok (snap_epoch, count) =>
                r ← snap_rows lines;
                Ok (match r with
                    | inr e => inr e
                    | inl rows => if zlen rows =? count then inl (rows, snap_epoch) else inr Truncated
                    end)
            end
        end
  end.

(** * SnapshotBootstrap *)

Definition snap_done : Type := (option Z * Z)%type.   (* expected_epoch, attempt *)

Record SnapshotBootstrap : Type := mkBoot {
  db_addr : bool;   (* whether there is one *)
  b_timeout : Z; restart_debounce : Z; retry_delay : Z; max_attempts : Z;
  _query : option nat; _debounce_timer : option Z; _retry_timer : option Z; _applying : bool }.

Definition boot_init (db_addr : bool) : SnapshotBootstrap :=
  mkBoot db_addr SNAP_TIMEOUT DEFAULT_RESTART_DEBOUNCE DEFAULT_RETRY_DELAY DEFAULT_MAX_ATTEMPTS None None None false.

Definition b_set_query (x : option nat) (b : SnapshotBootstrap) : SnapshotBootstrap :=
  mkBoot (db_addr b) (b_timeout b) (restart_debounce b) (retry_delay b) (max_attempts b) x (_debounce_timer b)
    (_retry_timer b) (_applying b).
Definition b_set_debounce (x : option Z) (b : SnapshotBootstrap) : SnapshotBootstrap :=
  mkBoot (db_addr b) (b_timeout b) (restart_debounce b) (retry_delay b) (max_attempts b) (_query b) x
    (_retry_timer b) (_applying b).
Definition b_set_retry (x : option Z) (b : SnapshotBootstrap) : SnapshotBootstrap :=
  mkBoot (db_addr b) (b_timeout b) (restart_debounce b) (retry_delay b) (max_attempts b) (_query b) (_debounce_timer b)
    x (_applying b).
Definition b_set_applying (x : bool) (b : SnapshotBootstrap) : SnapshotBootstrap :=
  mkBoot (db_addr b) (b_timeout b) (restart_debounce b) (retry_delay b) (max_attempts b) (_query b) (_debounce_timer b)
    (_retry_timer b) x.

Inductive boot_cb : Type :=
| BootFire (expected_epoch : option Z) (attempt : Z) | BootRetry (expected_epoch : option Z) (attempt : Z).

Class BootOf (W CB : Type) : Type := {
  boot : W -> SnapshotBootstrap;
  set_boot : SnapshotBootstrap -> W -> W;
  boot_name : boot_cb -> CB;
  boot_time : M W Z   (* time.time() *) }.

Section boot.
  Context {W CB : Type} `{ReactorOf W CB} `{QueryOf W CB snap_done} `{BootOf W CB}.

Definition mod_boot (f : SnapshotBootstrap -> SnapshotBootstrap) : M W () := mmod (fun w => set_boot (f (boot w)) w).

Definition cancel_timer (get : SnapshotBootstrap -> option Z) (clear : SnapshotBootstrap -> SnapshotBootstrap) : M W () :=
  w ← mget;
  match get (boot w) with
  | Some h => mod_rx (timer_cancel h) ;; mod_boot clear
  | None => mret ()
  end.
Definition _cancel_pending : M W () :=
  cancel_timer _debounce_timer (b_set_debounce None) ;; cancel_timer _retry_timer (b_set_retry None).

(** A newer request supersedes the query in flight. *)
Definition drop_query : M W () :=
  w ← mget;
  match _query (boot w) with
  | Some i => query_cancel (D := snap_done) i ;; mod_boot (b_set_query None)
  | None => mret ()
  end.

Definition _maybe_retry (expected_epoch : option Z) (attempt : Z) : M W () :=
  w ← mget;
  if max_attempts (boot w) <=? attempt then mret ()
  else
    h ← schedule (retry_delay (boot w)) (boot_name (BootRetry expected_epoch (attempt + 1)));
    mod_boot (b_set_retry (Some h)).

(** [_on_done] with an error. *)
Definition _on_done_error (d : snap_done) (error : snap_error) : M W () :=
  mod_boot (b_set_query None) ;; _maybe_retry d.1 d.2.
Definition on_fetch_error (d : snap_done) (text : str) : M W () := _on_done_error d (FetchError text).

(** [SnapshotQuery]: its methods are the skeleton's. *)
Definition snap_query (d : snap_done) (timeout : Z) : M W nat := query_init on_fetch_error SNAP_COMMAND d timeout.
Definition snap_on_timeout (i : nat) : M W () := _on_timeout (D := snap_done) on_fetch_error i.
Definition snap_on_writable (i : nat) : M W () := query_on_writable (D := snap_done) on_fetch_error i.

Definition _begin (expected_epoch : option Z) (attempt : Z) : M W () :=
  mod_boot (b_set_debounce None) ;;
  w ← mget;
  if db_addr (boot w) then
    i ← snap_query (expected_epoch, attempt) (b_timeout (boot w));
    mod_boot (b_set_query (Some i))
  else mraise TypeError.

Definition _begin_retry (expected_epoch : option Z) (attempt : Z) : M W () :=
  mod_boot (b_set_retry None) ;; _begin expected_epoch attempt.

Definition _schedule (expected_epoch : option Z) (attempt delay : Z) : M W () :=
  _cancel_pending ;;
  drop_query ;;
  if delay <=? 0 then _begin expected_epoch attempt
  else
    h ← schedule delay (boot_name (BootFire expected_epoch attempt));
    mod_boot (b_set_debounce (Some h)).

Definition boot_start : M W () :=
  w ← mget; if db_addr (boot w) then _schedule None 1 0 else mret ().

Definition boot_on_restart (epoch : Z) : M W () :=
  w ← mget;
  if negb (db_addr (boot w)) || _applying (boot w) then mret ()
  else _schedule (Some epoch) 1 (restart_debounce (boot w)).

Definition boot_close : M W () := _cancel_pending ;; drop_query.

Definition run_boot_cb (cb : boot_cb) : M W () :=
  match cb with
  | BootFire e a => _begin e a
  | BootRetry e a => _begin_retry e a
  end.

Context `{StateOf W} `{StateCallbacks W}.

(** The merge; the flag keeps its restart hook from fetching again. *)
Definition apply_snapshot (rows : list rdict) (snap_epoch : Z) : M W () :=
  mod_boot (b_set_applying true) ;;
  mfinally (now ← boot_time; merge_snapshot rows snap_epoch now ;; mret ()) (mod_boot (b_set_applying false)).

(** [_on_done] with rows. *)
Definition _on_done (rows : list rdict) (snap_epoch : Z) (d : snap_done) : M W () :=
  mod_boot (b_set_query None) ;;
  if match d.1 with Some e => negb (snap_epoch =? e) | None => false end then _maybe_retry d.1 d.2
  else apply_snapshot rows snap_epoch.

(** The part of [_finish] after the teardown, with a complete reply. *)
Definition on_snap_text (d : snap_done) (text : str) : M W () :=
  r ← mlift (_parse_snap_reply text);
  match r with
  | inl (rows, snap_epoch) => _on_done rows snap_epoch d
  | inr e => _on_done_error d e
  end.

Definition snap_on_readable (i : nat) : M W () := query_on_readable on_fetch_error on_snap_text i.

Definition run_snap_cb (i : nat) (cb : query_cb) : M W () :=
  match cb with
  | QWritable => snap_on_writable i
  | QReadable => snap_on_readable i
  | QTimeout => snap_on_timeout i
  end.
End boot.

(** * Lemmas: the reply jnxdb sends parses to its rows *)

(** cpp/db/query.cpp: the header and one base64 line per UPDATE record. *)
Definition header_token (key : str) (val : bytes) : bytes := s2l key ++ z2b 61 :: val.
Definition snap_header (epoch last_seq : Z) (session : bytes) (count : Z) : bytes :=
  PyText.join [z2b 32] [s2l "SNAP"; header_token "epoch" (py_str_b epoch); header_token "last_exch_seq" (py_str_b last_seq);
                 header_token "session" session; header_token "count" (py_str_b count)].
Definition snap_lines (epoch last_seq : Z) (session : bytes) (raws : list bytes) : list bytes :=
  snap_header epoch last_seq session (zlen raws) :: (b64encode <$> raws).

Lemma plain_token key val : forallb plain_b (s2l key) = true -> forallb plain_b val = true ->
  forallb plain_b (header_token key val) = true.
Proof. intros Hk Hv. unfold header_token. rewrite forallb_app, Hk. cbn [forallb andb]. by rewrite Hv. Qed.

Section reply.
  Context (epoch last_seq : Z) (session : bytes) (count : Z).
  Hypothesis He : 0 <= epoch.
  Hypothesis Hl : 0 <= last_seq.
  Hypothesis Hs : forallb plain_b session = true.
  Hypothesis Hc : 0 <= count.

Lemma header_words : split_words (snap_header epoch last_seq session count) [] =
  [s2l "SNAP"; header_token "epoch" (py_str_b epoch); header_token "last_exch_seq" (py_str_b last_seq);
   header_token "session" session; header_token "count" (py_str_b count)].
Proof.
  apply split_words_join. repeat constructor;
    (apply plain_solid; [|by destruct session || done]; try by apply plain_token; try apply plain_py_str); by vm_compute.
Qed.

Lemma header_plain : forallb (fun b => is_ascii b && negb (is_eol b)) (snap_header epoch last_seq session count) = true.
Proof.
  assert (forall l, forallb plain_b l = true -> forallb (fun b => is_ascii b && negb (is_eol b)) l = true) as Hp.
  { intros l. apply forallb_impl. intros b [-> Hb%negb_true_iff]%andb_true_iff. cbn. by rewrite (ws_eol _ Hb). }
  unfold snap_header, PyText.join. cbn [fmap list_fmap concat]. rewrite app_nil_r. rewrite !forallb_app.
  rewrite !(Hp (header_token _ _)); [by vm_compute|..]; apply plain_token; try by vm_compute.
  all: try done; by apply plain_py_str.
Qed.

Lemma header_parses : exists header, _parse_header (l2s (snap_header epoch last_seq session count)) = Some header /\
  header_int "epoch" header = Ok epoch /\ header_int "count" header = Ok count.
Proof.
  unfold _parse_header, split_ws. rewrite s2l_l2s, header_words. cbn [fmap list_fmap]. rewrite l2s_s2l, decide_True by done.
  eexists. split; [reflexivity|]. cbn [foldl]. rewrite !s2l_l2s. unfold header_token.
  rewrite !partition_b_app by done. unfold header_int. cbn -[py_int py_str_b l2s].
  split; by apply py_int_str.
Qed.
End reply.

Lemma b64_line_ok raw : line_ok (b64encode raw) = true.
Proof.
  pose proof (b64encode_chars raw) as H. apply andb_true_iff. split.
  - eapply forallb_impl; [|exact H]. intros b (Ha & Hw & _)%is_b64_plain. by rewrite Ha, (ws_eol _ Hw).
  - apply negb_true_iff, bool_decide_eq_false. intros E. rewrite E in H. by vm_compute in H.
Qed.

Lemma snap_lines_ok epoch last_seq session raws : 0 <= epoch -> 0 <= last_seq -> forallb plain_b session = true ->
  Forall (fun l => line_ok l = true) (snap_lines epoch last_seq session raws).
Proof.
  intros He Hl Hs. constructor.
  - apply andb_true_iff. split.
    + eapply forallb_impl; [|apply (header_plain epoch last_seq session (zlen raws)); unfold zlen; auto; lia].
      intros b [-> ->]%andb_true_iff. done.
    + by apply negb_true_iff, bool_decide_eq_false.
  - apply Forall_fmap, Forall_forall. intros raw _. apply b64_line_ok.
Qed.

Definition is_update (raw : bytes) (rec : rdict) : Prop :=
  decode_record raw = Ok rec /\ dget "kind" rec = Some (RStr KIND_UPDATE).

Lemma snap_rows_ok raws rows : Forall2 is_update raws rows -> snap_rows (l2s <$> (b64encode <$> raws)) = Ok (inl rows).
Proof.
  induction 1 as [|raw rec raws rows [Hd Hk] _ IH]; [done|]. cbn [fmap list_fmap snap_rows].
  assert (raw <> []) as Hne by (intros ->; by vm_compute in Hd).
  rewrite decide_False.
  2: { intros E%(f_equal s2l). rewrite s2l_l2s in E. by apply (b64encode_nonempty _ Hne). }
  unfold decode_row. rewrite s2l_l2s, b64_roundtrip. cbn [mbind res_bind]. rewrite Hd, decide_True by done.
  by rewrite IH.
Qed.

Lemma snap_reply_ok epoch last_seq session raws rows :
  0 <= epoch -> 0 <= last_seq -> forallb plain_b session = true -> Forall2 is_update raws rows ->
  _parse_snap_reply (decode_ascii_replace (reply_of (snap_lines epoch last_seq session raws))) = Ok (inl (rows, epoch)).
Proof.
  intros He Hl Hs Hr. unfold _parse_snap_reply. rewrite reply_lines_of by by apply snap_lines_ok.
  unfold snap_lines. cbn [fmap list_fmap]. rewrite s2l_l2s.
  destruct (header_parses epoch last_seq session (zlen raws) He Hl Hs ltac:(unfold zlen; lia)) as (header & -> & -> & ->).
  cbn [mbind res_bind].
  change (list_fmap _ _ l2s (list_fmap _ _ b64encode raws)) with (l2s <$> (b64encode <$> raws)).
  rewrite (snap_rows_ok _ _ Hr). cbn [mbind res_bind].
  apply Forall2_length in Hr. unfold zlen. rewrite Hr, Z.eqb_refl. done.
Qed.
