(* ===== verification/StateTypes.v ===== *)
(** The types of the web state (jnxweb/state.py), over the two ways data gets into it:
    a datagram of the live feed (mcast.py) and the text of a SNAP reply (snapshot.py).

    [typed] says what every consumer of the state (the hub's pushes, /snap, the merge's
    comparisons) relies on without a check. *)
From S2P Require Export Snapshot.

#[global] Set Default Goal Selector "!".

(** A decoded UPDATE: every key is there, with a value of its type, under [bids] and
    [asks] a list of levels. *)
Record row_typed (rec : rdict) : Prop := {
  rt_kind : dget "kind" rec = Some (RStr KIND_UPDATE);
  rt_fields : forall k c, (k, c) ∈ env_fields \/ (k, c) ∈ rest_fields -> exists y, dget k rec = Some y /\ value_of c y;
  rt_bids : exists l, dget "bids" rec = Some (RLevels l);
  rt_asks : exists l, dget "asks" rec = Some (RLevels l) }.

(** A trade of a ring: four ints. *)
Definition entry_typed (x : rdict) : Prop := exists a b c d,
  x = [("exch_seq", RInt a); ("exch_ns", RInt b); ("price", RInt c); ("qty", RInt d)].

Record typed (s : State) : Prop := {
  ty_tickers : map_Forall (fun t rec => row_typed rec /\ rec_str "ticker" rec = Ok t) (tickers s);
  ty_rings : map_Forall (fun _ ring => (length ring <= TRADE_RING_SIZE)%nat /\ Forall entry_typed ring) (_trades s) }.

(** * What the wire gives *)

Lemma decoded_typed l rec : decode_record l = Ok rec -> dget "kind" rec = Some (RStr KIND_UPDATE) -> row_typed rec.
Proof.
  intros H Hk. split; [done|by eapply decoded_items| |];
    destruct (decode_record_update _ _ H Hk) as (v & nb & na & bids & asks & w & env & rest & _ & He & Hr & Erec);
    pose proof (update_keys env nb na bids asks rest (items_of_keys _ _ _ He) (items_of_keys _ _ _ Hr)) as Hnd;
    rewrite <- Erec in Hnd; eexists; (apply elem_dget; [done|]); rewrite Erec; unfold update_dict;
    rewrite !elem_of_app; right; left; [left|right; left].
Qed.

Lemma typed_entry rec : row_typed rec -> exists x, trade_entry rec = Ok x /\ entry_typed x.
Proof.
  intros [_ Hv _ _]. update_item Hv "exch_seq" (U 8) y5. update_item Hv "exch_ns" (U 8) y6.
  update_item Hv "last_price" (U 4) y7. update_item Hv "last_qty" (U 4) y8. cbn in *.
  repeat match goal with H : exists _, _ |- _ => destruct H as [? ->] end.
  unfold trade_entry, rec_item. repeat match goal with H : dget _ rec = _ |- _ => rewrite H; clear H end.
  eexists. split; [reflexivity|]. by eexists _, _, _, _.
Qed.

Lemma typed_readable rec : row_typed rec -> readable rec.
Proof.
  intros Hr. destruct (typed_entry rec Hr) as (x & Hx & _). destruct Hr as [_ Hv _ _].
  update_item Hv "exch_seq" (U 8) y5. update_item Hv "ticker" (Sx 4) y3. cbn in *.
  repeat match goal with H : exists _, _ |- _ => destruct H as [? ->] end.
  unfold readable, ticker_of, exch_seq. split; [| |by exists x]; unfold rec_int, rec_str, rec_item;
    by repeat match goal with H : dget _ rec = _ |- _ => rewrite H end.
Qed.

Lemma typed_view rec : row_typed rec -> exists u, view rec = Some u /\ u_rec u = rec.
Proof.
  intros Hr. destruct (typed_entry rec Hr) as (x & Hx & _). destruct Hr as [_ Hv _ _].
  update_item Hv "epoch" (U 8) y1. update_item Hv "pub_seq" (U 8) y2. update_item Hv "ticker" (Sx 4) y3.
  update_item Hv "trigger" Cx y4. cbn in *.
  repeat match goal with H : exists _, _ |- _ => destruct H as [? ->] end.
  unfold view. rewrite Hx. unfold rec_int, rec_str, rec_item.
  repeat match goal with H : dget _ rec = _ |- _ => rewrite H; clear H end. by eexists.
Qed.

Lemma snap_rows_typed lines rows : snap_rows lines = Ok (inl rows) -> Forall row_typed rows.
Proof.
  revert rows. induction lines as [|line lines IH]; intros rows; cbn [snap_rows]; [by intros [= <-]|].
  case_decide; [by apply IH|]. destruct (decode_row line) as [rec|e] eqn:Ed; [|by destruct (_ || _)].
  case_decide as Hk; [|done]. destruct (snap_rows lines) as [[rows'|err]|e]; [|done..].
  intros [= <-]. constructor; [|by apply IH]. unfold decode_row in Ed.
  destruct (b64decode_validate (s2l line)) as [raw|]; [|done]. by eapply decoded_typed.
Qed.

Lemma snap_reply_typed text rows e : _parse_snap_reply text = Ok (inl (rows, e)) -> Forall row_typed rows.
Proof.
  unfold _parse_snap_reply. destruct (reply_lines text) as [|l lines]; [done|]. destruct (startswith _ _); [done|].
  destruct (_parse_header l) as [header|]; [|done]. destruct (mbind _ _) as [[a b]|ex]; [|by destruct (_ || _)].
  destruct (snap_rows lines) as [[rows'|err]|ex] eqn:Es; cbn [mbind res_bind]; [|done..].
  destruct (_ =? _); [|done]. intros [= <- <-]. by eapply snap_rows_typed.
Qed.

(** * What the operations keep *)

Definition keeps_typed (w w' : web) : Prop := typed w.1 -> typed w'.1.
#[export] Instance keeps_typed_preorder : PreOrder keeps_typed.
Proof. split; unfold keeps_typed; [by intros w|auto]. Qed.

Lemma on_st_keeps f : (forall s, typed s -> typed (f s)) -> keeps keeps_typed (on_st (W := web) f).
Proof. intros Hf [s evs] Hs. by apply Hf. Qed.

Lemma push_typed t x s : entry_typed x -> typed s ->
  typed (st_maps (tickers s) (<[t := deque_append TRADE_RING_SIZE x (default [] (_trades s !! t))]> (_trades s)) s).
Proof.
  intros Hx [H1 H2]. split; [done|]. cbn [_trades st_maps]. apply map_Forall_insert_2; [|done].
  assert (Forall entry_typed (default [] (_trades s !! t))) as Hf.
  { destruct (_trades s !! t) as [ring|] eqn:E; [|by constructor]. by apply (H2 t ring E). }
  split.
  - unfold deque_append. rewrite length_drop. lia.
  - unfold deque_append. apply Forall_drop, Forall_app. split; [done|by repeat constructor].
Qed.

Lemma append_trade_keeps t rec : row_typed rec -> keeps keeps_typed (append_trade (W := web) t rec).
Proof.
  intros Hr [s evs] Hs. destruct (typed_entry rec Hr) as (x & Hx & Ht). rewrite (append_trade_eq _ _ _ _ _ Hx). by apply push_typed.
Qed.

Lemma put_typed t rec s : row_typed rec -> rec_str "ticker" rec = Ok t -> typed s ->
  typed (st_maps (<[t := rec]> (tickers s)) (_trades s) s).
Proof. intros Hr Ht [H1 H2]. split; [by apply map_Forall_insert_2|done]. Qed.

Lemma merge_row_keeps rec : row_typed rec -> keeps keeps_typed (merge_row (W := web) rec).
Proof.
  intros Hr. assert (forall t, rec_str "ticker" rec = Ok t -> keeps keeps_typed (insert_row (W := web) t rec)) as Hins.
  { intros t Ht. apply keeps_bind; [apply _|apply on_st_keeps; intros; by apply put_typed|]. intros _.
    apply keeps_bind; [apply _| |].
    - unfold _seed_trade. destruct (_ || _); [by intros w|]. apply keeps_bind; [apply _|by intros w|]. intros w.
      destruct (last _) as [newest|]; [|by apply append_trade_keeps].
      apply keeps_bind; [apply _|apply keeps_lift, _|]. intros seq. apply keeps_bind; [apply _|apply keeps_lift, _|].
      intros have. destruct (_ <=? _); [by intros w'|by apply append_trade_keeps].
    - intros _. apply keeps_bind; [apply _|by intros w Hw|]. intros _. by intros w. }
  unfold merge_row. intros w. unfold mbind at 1, M_bind at 1, mlift at 1.
  destruct (rec_str "ticker" rec) as [t|e]; [|by cbn].
  revert w. change (keeps keeps_typed (w ← mget; fresher ← mlift (match tickers (st w) !! t with
    | Some cur => a ← rec_int "exch_seq" cur; b ← rec_int "exch_seq" rec; Ok (b <=? a) | None => Ok false end);
    if (fresher : bool) then mret false else insert_row (W := web) t rec)).
  apply keeps_bind; [apply _|by intros w|]. intros w. apply keeps_bind; [apply _|apply keeps_lift, _|].
  intros [|]; [by intros w'|by apply Hins].
Qed.

Lemma merge_rows_keeps rows : Forall row_typed rows -> keeps keeps_typed (mmapM (merge_row (W := web)) rows).
Proof.
  induction 1 as [|r rows Hr _ IH]; [by intros w|]. cbn [mmapM]. apply keeps_bind; [apply _|by apply merge_row_keeps|].
  intros b. apply keeps_bind; [apply _|done|]. intros bs. by intros w.
Qed.

Lemma empty_typed s : typed (st_maps ∅ ∅ s).
Proof. split; apply map_Forall_empty. Qed.

Lemma merge_keeps rows e now : Forall row_typed rows -> keeps keeps_typed (merge_snapshot (W := web) rows e now).
Proof.
  intros Hr. unfold merge_snapshot. apply keeps_bind; [apply _|by intros w|]. intros w.
  destruct (match last_epoch (st w) with Some e0 => e <? e0 | None => false end); [by intros w'|].
  apply keeps_bind; [apply _| |].
  - assert (keeps keeps_typed (on_st (W := web) (st_epoch (Some e)))) as He.
    { apply on_st_keeps. intros s [H1 H2]. by split. }
    destruct (last_epoch (st w)) as [live|]; [|done]. destruct (live <? e); [|by intros w'].
    apply keeps_bind; [apply _| |].
    + apply keeps_bind; [apply _|apply on_st_keeps; intros; apply empty_typed|]. intros _.
      apply on_st_keeps. intros s [H1 H2]. by split.
    + intros _. apply keeps_bind; [apply _|done|]. intros _. by intros w' Hw'.
  - intros _. apply keeps_bind; [apply _|by apply merge_rows_keeps|]. intros flags.
    apply keeps_bind; [apply _|apply on_st_keeps; intros s [H1 H2]; by split|]. intros _. by intros w'.
Qed.

Lemma update_keeps rec now : row_typed rec -> keeps keeps_typed (apply_update (W := web) rec now).
Proof.
  intros Hr [s evs] Hs. destruct (typed_view rec Hr) as (u & Hv & Eu). rewrite (apply_update_eq _ _ _ _ _ Hv). cbn [fst].
  destruct (view_reads _ _ Hv) as (_ & _ & Et & _ & Ee & _).
  set (changed := match last_epoch s with Some e => negb (u_epoch u =? e) | None => false end).
  set (s0 := if changed then st_maps ∅ ∅ s else s).
  assert (typed s0) as H0 by (unfold s0; destruct changed; [apply empty_typed|done]).
  assert (typed (st_maps (<[u_ticker u := rec]> (tickers s0)) (_trades s0) s0)) as [H1 _] by by apply put_typed.
  destruct (typed_entry rec Hr) as (x & Hx & Htx). rewrite Hx in Ee. injection Ee as Ex.
  pose proof (push_typed (u_ticker u) x s0 Htx H0) as [_ H2]. cbn [tickers _trades st_maps] in H1, H2.
  split; cbn [tickers _trades].
  - unfold upd_tickers. rewrite Eu. unfold s0 in H1. by destruct changed.
  - unfold upd_trades. destruct H0 as [_ H3]. unfold s0 in H2, H3. rewrite <- Ex.
    destruct changed; cbn [_trades st_maps] in H2, H3; by case_decide.
Qed.

(** * The state of every run *)

Inductive web_op : Type := Datagram (data : bytes) (now : Z) | SnapReply (text : str) (now : Z).

Definition web_step (o : web_op) : M web () :=
  match o with
  | Datagram data now => _handle_datagram data now
  | SnapReply text now =>
      r ← mlift (_parse_snap_reply text);
      match r with inl (rows, epoch) => merge_snapshot rows epoch now ;; mret () | inr _ => mret () end
  end.
Definition web_run (ops : list web_op) (w : web) : web := foldl (fun w o => (web_step o w).1) w ops.

Lemma typed_merge_inv s : typed s -> merge_inv (tickers s) (_trades s).
Proof.
  intros [H1 H2]. split.
  - intros t rec Hrec. apply typed_readable. by apply (H1 t rec Hrec).
  - intros t ring Hring x Hx. destruct (H2 t ring Hring) as [_ Hf]. apply last_Some_elem_of in Hx.
    rewrite Forall_forall in Hf. destruct (Hf x Hx) as (a & b & c & d & ->). by exists a.
Qed.

Lemma web_step_ok o w : typed w.1 -> typed (web_step o w).1.1 /\
  match o with
  | Datagram data _ => (web_step o w).2 = Ok () \/
      exists e, (web_step o w).2 = Raise e /\ decode_record data = Raise e /\ e <> RecordError
  | SnapReply text _ => (web_step o w).2 = Ok () \/ exists e, (web_step o w).2 = Raise e /\ _parse_snap_reply text = Raise e
  end.
Proof.
  intros Hw. destruct o as [data now|text now]; cbn [web_step].
  - unfold _handle_datagram. destruct (decode_record data) as [rec|e] eqn:Ed.
    + case_decide as Hk; [|split; [|by left]; by destruct Hw].
      pose proof (decoded_typed data rec Ed Hk) as Hr. split; [by apply update_keeps|]. left.
      destruct (typed_view rec Hr) as (u & Hv & _). destruct w as [s evs]. by rewrite (apply_update_eq _ _ _ _ _ Hv).
    + destruct e; try (split; [by destruct Hw|right; eexists; by split_and!]). split; [|by left]. by destruct Hw.
  - unfold mbind at 1 3, M_bind at 1 3, mlift. destruct (_parse_snap_reply text) as [[[rows e]|err]|ex] eqn:Ep.
    + pose proof (snap_reply_typed text rows e Ep) as Hr. pose proof (merge_keeps rows e now Hr w Hw) as Hk.
      destruct w as [s evs]. assert (exists n, (merge_snapshot rows e now ((s, evs) : web)).2 = Ok n) as [n En].
      { destruct (match last_epoch s with Some live => e <? live | None => false end) eqn:Est.
        - exists 0. unfold merge_snapshot. munfold. cbn [st web_state fst]. by rewrite Est.
        - destruct (merge_snapshot_run rows e now s evs) as (s' & evs' & n & -> & _); [|by apply typed_merge_inv|done|by exists n].
          eapply Forall_impl; [exact Hr|]. intros. by apply typed_readable. }
      unfold mbind, M_bind. destruct (merge_snapshot rows e now ((s, evs) : web)) as [w' r]. cbn in *. subst r. split; [done|by left].
    + split; [done|by left].
    + split; [done|]. right. by exists ex.
Qed.

(** C34. Whatever datagrams and snapshot replies come, in any order, those that are
    rejected included: every row of the state is a complete, well-typed UPDATE under
    its own ticker, every ring is a list of at most fifty well-typed trades, so the
    merge can always compare them; and no operation raises but what the codec or the
    reply parser raised on its input. *)
Theorem state_typed t0 ops o : let w := web_run ops (state_init t0, []) in
  typed w.1 /\ merge_inv (tickers w.1) (_trades w.1) /\
  match o with
  | Datagram data _ => (web_step o w).2 = Ok () \/
      exists e, (web_step o w).2 = Raise e /\ decode_record data = Raise e /\ e <> RecordError
  | SnapReply text _ => (web_step o w).2 = Ok () \/ exists e, (web_step o w).2 = Raise e /\ _parse_snap_reply text = Raise e
  end.
Proof.
  intros w. assert (typed w.1) as Hw.
  { unfold w, web_run. induction ops as [|o' ops IH] using rev_ind; [apply (empty_typed (state_init t0))|].
    rewrite foldl_app. by apply web_step_ok. }
  split; [done|]. split; [by apply typed_merge_inv|]. by apply web_step_ok.
Qed.
