(* ===== verification/Bootseq.v ===== *)
(** The snapshot bootstrap (Snapshot) with a reactor, a web state and jnxdb's socket
    calls: one fetch in flight, bounded attempts, and what a fetch does.

    [bw] is a world of its own: the clock and the results of the next socket calls
    are set by the operations.  Timers fire from the reactor's heap and sockets are
    dispatched through the selector, so only callbacks that are registered run. *)
From S2P Require Export Snapshot.

#[global] Set Default Goal Selector "!".

Inductive bw_cb : Type := BQ (i : nat) (cb : query_cb) | BB (cb : boot_cb).

Record bw : Type := mkBw {
  bw_rx : Reactor bw_cb; bw_st : State; bw_boot : SnapshotBootstrap; bw_qs : list (Query snap_done); bw_sock : nat;
  bw_now : Z; bw_connect : connect_res; bw_err : Z; bw_recv : recv_res; bw_send : send_res;
  bw_events : list web_event; bw_closed : list nat }.

Definition bw_set_rx (x : Reactor bw_cb) (w : bw) : bw :=
  mkBw x (bw_st w) (bw_boot w) (bw_qs w) (bw_sock w) (bw_now w) (bw_connect w) (bw_err w) (bw_recv w) (bw_send w)
    (bw_events w) (bw_closed w).
Definition bw_set_st (x : State) (w : bw) : bw :=
  mkBw (bw_rx w) x (bw_boot w) (bw_qs w) (bw_sock w) (bw_now w) (bw_connect w) (bw_err w) (bw_recv w) (bw_send w)
    (bw_events w) (bw_closed w).
Definition bw_set_boot (x : SnapshotBootstrap) (w : bw) : bw :=
  mkBw (bw_rx w) (bw_st w) x (bw_qs w) (bw_sock w) (bw_now w) (bw_connect w) (bw_err w) (bw_recv w) (bw_send w)
    (bw_events w) (bw_closed w).
Definition bw_set_qs (x : list (Query snap_done)) (w : bw) : bw :=
  mkBw (bw_rx w) (bw_st w) (bw_boot w) x (bw_sock w) (bw_now w) (bw_connect w) (bw_err w) (bw_recv w) (bw_send w)
    (bw_events w) (bw_closed w).
Definition bw_new_sock (w : bw) : bw :=
  mkBw (bw_rx w) (bw_st w) (bw_boot w) (bw_qs w) (S (bw_sock w)) (bw_now w) (bw_connect w) (bw_err w) (bw_recv w)
    (bw_send w) (bw_events w) (bw_closed w).
Definition bw_env (c : connect_res) (err : Z) (r : recv_res) (s : send_res) (w : bw) : bw :=
  mkBw (bw_rx w) (bw_st w) (bw_boot w) (bw_qs w) (bw_sock w) (bw_now w) c err r s (bw_events w) (bw_closed w).
Definition bw_later (d : Z) (w : bw) : bw :=
  mkBw (bw_rx w) (bw_st w) (bw_boot w) (bw_qs w) (bw_sock w) (bw_now w + Z.max 0 d) (bw_connect w) (bw_err w)
    (bw_recv w) (bw_send w) (bw_events w) (bw_closed w).
Definition bw_event (e : web_event) (w : bw) : bw :=
  mkBw (bw_rx w) (bw_st w) (bw_boot w) (bw_qs w) (bw_sock w) (bw_now w) (bw_connect w) (bw_err w) (bw_recv w)
    (bw_send w) (bw_events w ++ [e]) (bw_closed w).
Definition bw_close (s : nat) (w : bw) : bw :=
  mkBw (bw_rx w) (bw_st w) (bw_boot w) (bw_qs w) (bw_sock w) (bw_now w) (bw_connect w) (bw_err w) (bw_recv w)
    (bw_send w) (bw_events w) (bw_closed w ++ [s]).

#[export] Instance bw_reactor : ReactorOf bw bw_cb := {| rx := bw_rx; set_rx := bw_set_rx; monotonic := mgets bw_now |}.
#[export] Instance bw_state : StateOf bw := {| st := bw_st; set_st := bw_set_st |}.
#[export] Instance bw_query : QueryOf bw bw_cb snap_done := {|
  queries := bw_qs; set_queries := bw_set_qs; query_name := BQ;
  query_socket := fun w => (bw_new_sock w, Ok (bw_sock w));
  query_connect := fun _ => mgets bw_connect; query_so_error := fun _ => mgets bw_err;
  query_recv := fun _ => mgets bw_recv; query_send := fun _ _ => mgets bw_send;
  query_close := fun s => mmod (bw_close s); query_strerror := mret "" |}.
#[export] Instance bw_bootof : BootOf bw bw_cb := {|
  boot := bw_boot; set_boot := bw_set_boot; boot_name := BB; boot_time := mgets bw_now |}.

(** The state's callbacks as [main] wires them, with an event for the hub's part. *)
#[export] Instance bw_callbacks : StateCallbacks bw := {|
  on_ticker_update := fun t => mmod (bw_event (EvTicker t));
  on_restart := fun e => mmod (bw_event (EvRestart e)) ;; boot_on_restart e |}.

#[export] Instance bw_loop : LoopOf bw bw_cb := {|
  run_cb := fun cb => match cb with BQ i c => run_snap_cb i c | BB c => run_boot_cb c end;
  select := fun _ => mret [] |}.

Definition bw_init (db_addr : bool) (s : State) (now : Z) : bw :=
  mkBw (set_running true reactor_init) s (boot_init db_addr) [] 0 now ConnectPending 0 RecvBlock SendBlock [] [].

(** What happens: [start] and [close], a restart seen by the live feed, the least
    timer firing, a socket ready, time passing.  The results of the socket calls of
    the operation are part of it. *)
Inductive bop : Type :=
| OStart (c : connect_res) | OClose | ORestart (epoch : Z) (c : connect_res) | OFire (c : connect_res)
| OReady (sock : nat) (err : Z) (r : recv_res) (s : send_res) | OTime (d : Z) | OLive (s : State).

Definition fire : M bw () := fun w =>
  match timers (bw_rx w) with
  | t :: l =>
      if deadline t <=? bw_now w then
        let w1 := bw_set_rx (set_timers l (bw_rx w)) w in
        if cancelled t then (w1, Ok ()) else run_cb (callback t) w1
      else (w, Ok ())
  | [] => (w, Ok ())
  end.

Definition bstep (o : bop) : M bw () := fun w =>
  match o with
  | OStart c => boot_start (bw_env c 0 RecvBlock SendBlock w)
  | OClose => boot_close w
  | ORestart epoch c => boot_on_restart epoch (bw_env c 0 RecvBlock SendBlock w)
  | OFire c => fire (bw_env c 0 RecvBlock SendBlock w)
  | OReady sock err r s =>
      match selector (bw_rx w) !! sock with
      | Some (mask, o) => dispatch o mask (bw_env ConnectPending err r s w)
      | None => (w, Ok ())
      end
  | OTime d => (bw_later d w, Ok ())
  | OLive s => (bw_set_st s w, Ok ())
  end.
Definition brun (ops : list bop) (w : bw) : bw := foldl (fun w o => fst (bstep o w)) w ops.

(** The requests for a snapshot: each may make [max_attempts] fetches. *)
Definition is_request (o : bop) : bool := match o with OStart _ | ORestart _ _ => true | _ => false end.
Definition requests (ops : list bop) : Z := zlen (List.filter is_request ops).

(** * The merge touches the web state only *)

Definition only_state (w w' : bw) : Prop :=
  _applying (bw_boot w) = true -> exists s evs, w' =
    mkBw (bw_rx w) s (bw_boot w) (bw_qs w) (bw_sock w) (bw_now w) (bw_connect w) (bw_err w) (bw_recv w) (bw_send w)
      (bw_events w ++ evs) (bw_closed w).

#[export] Instance only_state_preorder : PreOrder only_state.
Proof.
  split.
  - intros w _. exists (bw_st w), []. rewrite app_nil_r. by destruct w.
  - intros a b c H1 H2 Ha. destruct (H1 Ha) as (s & evs & ->). destruct H2 as (s' & evs' & ->); [done|].
    exists s', (evs ++ evs'). cbn. by rewrite app_assoc.
Qed.

Lemma os_st f : keeps only_state (on_st (W := bw) f).
Proof. intros w _. exists (f (bw_st w)), []. cbn. by rewrite app_nil_r. Qed.

Lemma os_ticker t : keeps only_state (on_ticker_update (W := bw) t).
Proof. intros w _. by exists (bw_st w), [EvTicker t]. Qed.

Lemma os_restart e : keeps only_state (on_restart (W := bw) e).
Proof.
  intros w Ha. exists (bw_st w), [EvRestart e]. cbn -[boot_on_restart]. munfold. cbn -[boot_on_restart].
  unfold boot_on_restart. munfold. cbn. rewrite Ha, orb_true_r. done.
Qed.

Ltac os_steps :=
  repeat match goal with
  | |- keeps _ (mbind _ _) => apply (keeps_bind only_state)
  | |- keeps _ (mlift _) => apply (keeps_lift only_state)
  | |- keeps _ (on_st _) => apply os_st
  | |- keeps _ (on_restart _) => apply os_restart
  | |- keeps _ (on_ticker_update _) => apply os_ticker
  | |- keeps _ mget => intros ?; cbn; reflexivity
  | |- keeps _ (mret _) => intros ?; cbn; reflexivity
  | |- forall _, _ => intros
  | |- keeps _ (match ?x with _ => _ end) => destruct x
  end.

Lemma os_append_trade t rec : keeps only_state (append_trade (W := bw) t rec).
Proof. unfold append_trade. os_steps. Qed.

Lemma os_merge_row rec : keeps only_state (merge_row (W := bw) rec).
Proof.
  unfold merge_row, insert_row, _seed_trade. os_steps; apply os_append_trade.
Qed.

Lemma os_mmapM rows : keeps only_state (mmapM (merge_row (W := bw)) rows).
Proof. induction rows as [|r rows IH]; cbn [mmapM]; os_steps; [apply os_merge_row|apply IH]. Qed.

Lemma os_merge rows e now : keeps only_state (merge_snapshot (W := bw) rows e now).
Proof. unfold merge_snapshot, restart. os_steps. all: try apply os_mmapM. Qed.

(** * The phases

    Nothing pending; one timer of the bootstrap pending; or one query in flight,
    registered for writing or for reading, with its timeout armed. *)
Inductive phase : Type :=
| Idle | Waiting (retry : bool) (h : Z) (expected_epoch : option Z) (attempt : Z) | Fetching (i : nat).

Definition all_finished (l : list (Query snap_done)) : Prop := forall i q, l !! i = Some q -> q_finished q = true.
Definition no_sockets (r : Reactor bw_cb) : Prop := forall s, cbs_of r s = (None, None).
Definition boot_timer (retry : bool) (e : option Z) (a : Z) : bw_cb :=
  BB (if retry then BootRetry e a else BootFire e a).

(** [n] requests so far, of which [b] fetches may still be made. *)
Record core (n b : Z) (w : bw) : Prop := {
  co_rx : rx_inv (bw_rx w);
  co_conf : db_addr (bw_boot w) = true /\ max_attempts (bw_boot w) = DEFAULT_MAX_ATTEMPTS;
  co_applying : _applying (bw_boot w) = false;
  co_max : 1 <= max_attempts (bw_boot w);
  co_budget : 0 <= b;
  co_spent : zlen (bw_qs w) + b <= max_attempts (bw_boot w) * n }.

Record idle (n b : Z) (w : bw) : Prop := {
  id_core : core n b w;
  id_done : all_finished (bw_qs w);
  id_socks : no_sockets (bw_rx w);
  id_armed : forall h cb, ~ armed (bw_rx w) h cb;
  id_debounce : _debounce_timer (bw_boot w) = None;
  id_retry : _retry_timer (bw_boot w) = None }.

Record waiting (n : Z) (retry : bool) (h : Z) (e : option Z) (a : Z) (w : bw) : Prop := {
  wa_core : core n (max_attempts (bw_boot w) - a + 1) w;
  wa_done : all_finished (bw_qs w);
  wa_socks : no_sockets (bw_rx w);
  wa_armed : forall h' cb, armed (bw_rx w) h' cb <-> h' = h /\ cb = boot_timer retry e a;
  wa_attempt : 1 <= a <= max_attempts (bw_boot w);
  wa_debounce : _debounce_timer (bw_boot w) = if retry then None else Some h;
  wa_retry : _retry_timer (bw_boot w) = if retry then Some h else None }.

Record fetching (n : Z) (i : nat) (q : Query snap_done) (w : bw) : Prop := {
  fe_core : core n (max_attempts (bw_boot w) - (q_done q).2) w;
  fe_at : bw_qs w !! i = Some q;
  fe_live : q_finished q = false;
  fe_query : _query (bw_boot w) = Some i;
  fe_done : forall j q', bw_qs w !! j = Some q' -> j <> i -> q_finished q' = true;
  fe_socks : forall s, s <> q_sock q -> cbs_of (bw_rx w) s = (None, None);
  fe_cbs : cbs_of (bw_rx w) (q_sock q) = (None, Some (BQ i QWritable)) \/
           cbs_of (bw_rx w) (q_sock q) = (Some (BQ i QReadable), None);
  fe_timer : is_Some (q_timer q);
  fe_armed : forall h cb, armed (bw_rx w) h cb <-> q_timer q = Some h /\ cb = BQ i QTimeout;
  fe_attempt : 1 <= (q_done q).2;
  fe_debounce : _debounce_timer (bw_boot w) = None;
  fe_retry : _retry_timer (bw_boot w) = None }.

Definition in_phase (n : Z) (p : phase) (w : bw) : Prop :=
  match p with
  | Idle => exists b, idle n b w
  | Waiting retry h e a => waiting n retry h e a w
  | Fetching i => exists q, fetching n i q w
  end.

(** ** The merge is the web state's own *)

(** The web state and its events, as WebState's own world has them. *)
Definition same_web (w : bw) (v : web) : Prop :=
  _applying (bw_boot w) = true /\ bw_st w = fst v /\ bw_events w = snd v.

Definition agree {A} (m : M bw A) (m' : M web A) : Prop := forall w v, same_web w v ->
  same_web (m w).1 (m' v).1 /\ (m w).2 = (m' v).2.

Lemma agree_ret {A} (a : A) : agree (mret a) (mret a).
Proof. intros w v H. done. Qed.

Lemma agree_lift {A} (r : res A) : agree (mlift r) (mlift r).
Proof. intros w v H. done. Qed.

Lemma agree_bind {A B} (m : M bw A) (m' : M web A) (f : A -> M bw B) (f' : A -> M web B) :
  agree m m' -> (forall a, agree (f a) (f' a)) -> agree (m ≫= f) (m' ≫= f').
Proof.
  intros Hm Hf w v H. unfold mbind, M_bind. destruct (Hm w v H) as [H1 H2].
  destruct (m w) as [w1 r], (m' v) as [v1 r']. cbn in H1, H2. subst r'. destruct r as [a|e]; [by apply Hf|done].
Qed.

Lemma agree_get {B} (f : bw -> M bw B) (f' : web -> M web B) :
  (forall w v, bw_st w = fst v -> agree (f w) (f' v)) -> agree (mget ≫= f) (mget ≫= f').
Proof. intros Hf w v H. pose proof H as (_ & E & _). apply (Hf w v E w v H). Qed.

Lemma agree_st f : agree (on_st f) (on_st f).
Proof. intros w v (H1 & H2 & H3). split; [|done]. split; [done|]. cbn. by rewrite H2. Qed.

Lemma agree_ticker t : agree (on_ticker_update t) (on_ticker_update t).
Proof. intros w v (H1 & H2 & H3). split; [|done]. split; [done|]. cbn. by rewrite H3. Qed.

Lemma agree_restart e : agree (on_restart e) (on_restart e).
Proof.
  intros w v (H1 & H2 & H3). cbn [on_restart bw_callbacks web_callbacks]. unfold boot_on_restart. munfold.
  cbn. rewrite H1, orb_true_r. split; [|done]. split; [done|]. cbn. by rewrite H3.
Qed.

Ltac agree_steps :=
  repeat match goal with
  | |- agree (mget ≫= _) _ => apply agree_get; let w := fresh "w" in let v := fresh "v" in let E := fresh "E" in
      intros w v E; cbn [st bw_state web_state]; rewrite E; clear E
  | |- agree (_ ≫= _) _ => apply agree_bind
  | |- agree (mret _) _ => apply agree_ret
  | |- agree (mlift _) _ => apply agree_lift
  | |- agree (on_st _) _ => apply agree_st
  | |- agree (on_ticker_update _) _ => apply agree_ticker
  | |- agree (on_restart _) _ => apply agree_restart
  | |- agree (match ?x with _ => _ end) _ => destruct x
  | |- forall _, _ => intros
  end.

Lemma agree_append t rec : agree (append_trade t rec) (append_trade t rec).
Proof. unfold append_trade. agree_steps. Qed.

Lemma agree_row rec : agree (merge_row rec) (merge_row rec).
Proof. unfold merge_row, insert_row, _seed_trade. agree_steps; apply agree_append. Qed.

Lemma agree_rows rows : agree (mmapM merge_row rows) (mmapM merge_row rows).
Proof. induction rows as [|r rows IH]; cbn [mmapM]; agree_steps; [apply agree_row|apply IH]. Qed.

Lemma agree_merge rows e now : agree (merge_snapshot rows e now) (merge_snapshot rows e now).
Proof. unfold merge_snapshot, restart. agree_steps. all: apply agree_rows. Qed.

(** ** The end of a query *)

Lemma alter_insert {A} (f : A -> A) i (l : list A) c : l !! i = Some c -> alter f i l = <[i := f c]> l.
Proof. revert i. induction l as [|x l IH]; intros [|i] E; cbn in *; [done|done|by injection E as ->|]. f_equal. by apply IH. Qed.

Lemma alter_last {A} (f : A -> A) (l : list A) x : alter f (length l) (l ++ [x]) = l ++ [f x].
Proof. induction l as [|z l IH]; [done|]. cbn. by f_equal. Qed.

Definition ended (q : Query snap_done) : Query snap_done := q_set_timer None (q_set_finished q).
Definition torn (i : nat) (q : Query snap_done) (w : bw) : bw :=
  bw_close (q_sock q)
    (bw_set_rx (unregister (q_sock q) (match q_timer q with Some h => timer_cancel h (bw_rx w) | None => bw_rx w end))
       (bw_set_qs (<[i := ended q]> (bw_qs w)) w)).

Lemma finish_eq on_end i q w : bw_qs w !! i = Some q -> q_finished q = false ->
  _finish (W := bw) on_end i w = on_end (q_done q) (torn i q w).
Proof.
  intros Hi Hf. pose proof (lookup_lt_Some _ _ _ Hi) as Hlt.
  unfold _finish, with_query, mod_query, query_teardown, with_query, mod_rx. munfold. cbn. rewrite Hi, Hf.
  rewrite (alter_insert _ _ _ _ Hi), list_lookup_insert_eq by done. destruct q as [k rb sb f c [h|] d]; cbn in *; subst f.
  - rewrite (alter_insert _ _ _ _ (list_lookup_insert_eq _ _ _ Hlt)), list_insert_insert_eq. reflexivity.
  - reflexivity.
Qed.

Lemma cancel_eq i q w : bw_qs w !! i = Some q ->
  query_cancel (D := snap_done) i w = (if q_finished q then w else torn i q w, Ok ()).
Proof.
  intros Hi. destruct (q_finished q) eqn:Hf.
  - unfold query_cancel, with_query. cbn. by rewrite Hi, Hf.
  - pose proof (finish_eq (fun _ => mret ()) i q w Hi Hf) as E.
    unfold _finish, query_cancel, with_query in *. cbn in *. rewrite Hi, Hf in *. munfold. cbn in *.
    destruct (query_teardown i _) as [w' [[]|e]]; [exact E|done].
Qed.

Lemma core_le n b b' w : core n b w -> 0 <= b' <= b -> core n b' w.
Proof. intros [? ? ? ? ? ?] ?. split; try done; lia. Qed.

(** The query ends when nothing else is pending. *)
Lemma torn_idle n i q w x : core n (max_attempts (bw_boot w) - (q_done q).2) w ->
  bw_qs w !! i = Some q ->
  (forall j q', bw_qs w !! j = Some q' -> j <> i -> q_finished q' = true) ->
  (forall s, s <> q_sock q -> cbs_of (bw_rx w) s = (None, None)) ->
  (forall h cb, armed (bw_rx w) h cb -> q_timer q = Some h) ->
  _debounce_timer (bw_boot w) = None -> _retry_timer (bw_boot w) = None ->
  x = max_attempts (bw_boot w) - (q_done q).2 -> idle n x (torn i q w).
Proof.
  intros [H1 H2 H3 H4 H5 H6] Hi Hd Hs Ha Hdb Hrt ->. unfold torn. pose proof (lookup_lt_Some _ _ _ Hi) as Hlt.
  set (r1 := match q_timer q with Some h => timer_cancel h (bw_rx w) | None => bw_rx w end).
  assert (rx_inv r1 /\ (forall h cb, ~ armed r1 h cb) /\ forall s, cbs_of r1 s = cbs_of (bw_rx w) s) as (R1 & R2 & R3).
  { subst r1. destruct (q_timer q) as [h|].
    - destruct (rx_cancel h _ H1) as [R Har]. split; [done|]. split; [|done]. intros h' cb [Hx Hne]%Har.
      apply Ha in Hx. congruence.
    - split; [done|]. split; [|done]. intros h cb Hx. by apply Ha in Hx. }
  split; cbn; try done.
  - split; cbn; try done; [by apply rx_unregister|]. unfold zlen in *. by rewrite length_insert.
  - intros j q'. destruct (decide (j = i)) as [->|Hne].
    + rewrite list_lookup_insert_eq by done. by intros [= <-].
    + rewrite list_lookup_insert_ne by done. intros Hj. by eapply Hd.
  - intros s. rewrite cbs_unregister. case_decide; [done|]. rewrite R3. by apply Hs.
  - intros h cb Hx. destruct (unregister_timers (q_sock q) r1) as [E _]. apply (armed_same r1 _ _ _ E) in Hx. by eapply R2.
Qed.

(** ** Starting things from the idle phase *)

Lemma set_query_idle n b x w : idle n b w -> idle n b (bw_set_boot (b_set_query x (bw_boot w)) w).
Proof. intros [[? ? ? ? ? ?] ? ? ? ? ?]. by split; [split|..]. Qed.

(** A timer of the bootstrap scheduled from the idle phase. *)
Lemma wait_from_idle n b retry e a d w : idle n b w -> 1 <= a <= max_attempts (bw_boot w) -> b = max_attempts (bw_boot w) - a + 1 ->
  let h := timer_seq (bw_rx w) in
  waiting n retry h e a
    (bw_set_boot ((if retry then b_set_retry else b_set_debounce) (Some h) (bw_boot w))
       (bw_set_rx (call_later (bw_now w) d (boot_timer retry e a) (bw_rx w)).1 w)).
Proof.
  intros [[H1 H2 H3 H4 H5 H6] Hd Hs Ha Hdb Hrt] Hge -> h.
  destruct (rx_call_later (bw_now w) d (boot_timer retry e a) _ H1) as (R1 & R2 & R3).
  destruct retry; split; cbn; try done; try (split; done).
  all: intros h' cb; rewrite R2; split; [intros [Hx|?]; [by apply Ha in Hx|done]|by right].
Qed.

(** How far a phase is from the end: two timers for every attempt left, and the heap. *)
Definition attempt_of (q : Query snap_done) : Z := (q_done q).2.
Definition load (p : phase) (w : bw) : Z :=
  let m := max_attempts (bw_boot w) in
  zlen (timers (bw_rx w)) +
  match p with
  | Idle => 0
  | Waiting _ _ _ a => 2 * (m - a + 1)
  | Fetching i => match bw_qs w !! i with Some q => 2 * (m - attempt_of q) + 1 | None => 0 end
  end.

Lemma later_length now d fn (r : Reactor bw_cb) : zlen (timers (call_later now d fn r).1) = zlen (timers r) + 1.
Proof.
  unfold zlen. cbn. rewrite (Permutation_length (heappush_perm _ _)). cbn. lia.
Qed.

Lemma torn_length i q w : zlen (timers (bw_rx (torn i q w))) = zlen (timers (bw_rx w)).
Proof.
  unfold torn. cbn. rewrite (proj1 (unregister_timers _ _)). destruct (q_timer q) as [h|]; [|done].
  unfold zlen. f_equal. pose proof (f_equal length (cancel_seqs h (bw_rx w))) as E. by rewrite !length_fmap in E.
Qed.

(** [_maybe_retry] after attempt [a]. *)
Lemma maybe_retry_run n b e a w : idle n b w -> 1 <= a -> b = max_attempts (bw_boot w) - a ->
  exists w' p, _maybe_retry e a w = (w', Ok ()) /\ in_phase n p w' /\
    max_attempts (bw_boot w') = max_attempts (bw_boot w) /\
    p = (if max_attempts (bw_boot w) <=? a then Idle else Waiting true (timer_seq (bw_rx w)) e (a + 1)) /\ bw_qs w' = bw_qs w /\ bw_st w' = bw_st w /\
    load p w' <= zlen (timers (bw_rx w)) + 2 * b + 1.
Proof.
  intros Hi Hge Hb. unfold _maybe_retry. munfold. cbn. destruct (Z.leb_spec (max_attempts (bw_boot w)) a) as [Hle|Hlt].
  - exists w, Idle. split; [done|]. split; [by exists b|]. split; [done|]. split; [done|]. split; [done|]. split; [done|].
    unfold load. pose proof (co_budget _ _ _ (id_core _ _ _ Hi)). lia.
  - unfold schedule, on_rx. munfold. cbn. eexists _, (Waiting true (timer_seq (bw_rx w)) e (a + 1)). split; [reflexivity|].
    split; [|split; [done|split; [done|split; [done|split; [done|]]]]].
    2: { change (load _ _) with
           (zlen (timers (call_later (bw_now w) (retry_delay (bw_boot w)) (BB (BootRetry e (a + 1))) (bw_rx w)).1)
            + 2 * (max_attempts (bw_boot w) - (a + 1) + 1)). rewrite later_length. lia. }
    apply (wait_from_idle n b true e (a + 1) (retry_delay (bw_boot w)) w); [done|lia|lia].
Qed.

(** The bootstrap may have a stale handle of a timer that has just fired. *)
Definition almost_idle (n b : Z) (w : bw) : Prop := idle n b (bw_set_boot (b_set_debounce None (bw_boot w)) w).

Lemma idle_almost n b w : idle n b w -> almost_idle n b w.
Proof. intros [[? ? ? ? ? ?] ? ? ? ? ?]. by split; [split|..]. Qed.

(** What [query_init] does in this world. *)
Definition new_query (d : snap_done) (w : bw) : Query snap_done := mkQuery (bw_sock w) [] SNAP_COMMAND false true None d.
Definition with_new (d : snap_done) (w : bw) : bw := bw_set_qs (bw_qs w ++ [new_query d w]) (bw_new_sock w).
Definition opened (d : snap_done) (timeout : Z) (w : bw) : bw :=
  let i := length (bw_qs w) in
  let r := call_later (bw_now w) timeout (BQ i QTimeout) (register_write (bw_sock w) (BQ i QWritable) (bw_rx w)) in
  bw_set_qs (bw_qs w ++ [q_set_timer (Some r.2) (new_query d w)]) (bw_set_rx r.1 (bw_new_sock w)).

Lemma query_init_eq d timeout w : let i := length (bw_qs w) in
  query_init (W := bw) on_fetch_error SNAP_COMMAND d timeout w =
  match bw_connect w with
  | ConnectError => (on_fetch_error d "" ;; mret i) (torn i (new_query d w) (with_new d w))
  | _ => (opened d timeout w, Ok i)
  end.
Proof.
  intros i. assert (bw_qs (with_new d w) !! i = Some (new_query d w)) as Hi by by apply list_lookup_middle.
  unfold query_init. cbn [query_socket query_connect queries set_queries bw_query].
  unfold mbind, M_bind, mget, mmod, mgets. cbn [fst snd].
  change (bw_set_qs (bw_qs (bw_new_sock w) ++ _) (bw_new_sock w)) with (with_new d w).
  change (bw_connect (with_new d w)) with (bw_connect w). change (length (bw_qs (bw_new_sock w))) with i.
  destruct (bw_connect w).
  1, 2: subst i; unfold mod_rx, mod_query, schedule, on_rx; munfold; cbn -[register_write]; by rewrite alter_last.
  unfold fail_os, fail. cbn [query_strerror bw_query]. unfold mret, M_ret, mbind, M_bind.
  by rewrite (finish_eq _ i (new_query d w)).
Qed.

(** A query that has just been opened. *)
Lemma opened_fetching n b e a timeout w : idle n b w -> 1 <= a <= max_attempts (bw_boot w) ->
  b = max_attempts (bw_boot w) - a + 1 ->
  let i := length (bw_qs w) in let h := timer_seq (bw_rx w) in
  fetching n i (q_set_timer (Some h) (new_query (e, a) w))
    (bw_set_boot (b_set_query (Some i) (bw_boot w)) (opened (e, a) timeout w)).
Proof.
  intros [[H1 H2 H3 H4 H5 H6] Hd Hs Ha Hdb Hrt] Hge Hb i h.
  pose proof (rx_interest (bw_sock w) Leave (SetTo (BQ i QWritable)) _ H1) as R.
  fold (register_write (bw_sock w) (BQ i QWritable) (bw_rx w)) in R.
  destruct (rx_call_later (bw_now w) timeout (BQ i QTimeout) _ R) as (R1 & R2 & R3).
  destruct (set_interest_timers (bw_sock w) Leave (SetTo (BQ i QWritable)) (bw_rx w)) as [E1 E2].
  assert (forall s, cbs_of (bw_rx (opened (e, a) timeout w)) s =
            if decide (s = bw_sock w) then (None, Some (BQ i QWritable)) else (None, None)) as Hcb.
  { intros s. unfold opened. cbn [bw_rx bw_set_qs bw_set_rx]. rewrite R3. unfold register_write.
    rewrite cbs_set_interest by by destruct H1. cbn [new_cb]. by rewrite !Hs. }
  assert (bw_qs (opened (e, a) timeout w) !! i = Some (q_set_timer (Some h) (new_query (e, a) w))) as Hi.
  { unfold h. rewrite <- E2. by apply list_lookup_middle. }
  split; try done.
  - split; try done; [cbn; lia|]. change (zlen (bw_qs w ++ [q_set_timer (Some (timer_seq (register_write (bw_sock w) (BQ i QWritable)
      (bw_rx w)))) (new_query (e, a) w)]) + (max_attempts (bw_boot w) - a) <= max_attempts (bw_boot w) * n).
    rewrite zlen_app. change (zlen [_]) with 1. lia.
  - intros j q' Hj Hne. cbn in Hj. apply lookup_snoc_Some in Hj as [[_ Hj]|[-> _]]; [by eapply Hd|done].
  - intros s Hne. cbn in Hne. change (cbs_of (bw_rx (opened (e, a) timeout w)) s = (None, None)).
    by rewrite Hcb, decide_False.
  - left. change (cbs_of (bw_rx (opened (e, a) timeout w)) (bw_sock w) = (None, Some (BQ i QWritable))).
    by rewrite Hcb, decide_True.
  - intros h' cb. change (armed (bw_rx (opened (e, a) timeout w)) h' cb <-> Some h = Some h' /\ cb = BQ i QTimeout).
    etransitivity; [apply R2|].
    rewrite (armed_same _ _ h' cb E1). replace (timer_seq (register_write _ _ _)) with h by (unfold h; by rewrite <- E2). split; [intros [Hx|[-> ->]]; [by apply Ha in Hx|done]|].
    intros [[= <-] ->]. by right.
  - apply Hge.
Qed.

Lemma opened_load b e a timeout w : b = max_attempts (bw_boot w) - a + 1 -> let i := length (bw_qs w) in
  load (Fetching i) (bw_set_boot (b_set_query (Some i) (bw_boot w)) (opened (e, a) timeout w)) <= zlen (timers (bw_rx w)) + 2 * b.
Proof.
  intros -> i. unfold load, opened. cbn [bw_boot bw_set_boot b_set_query max_attempts bw_qs bw_set_qs bw_rx bw_set_rx bw_new_sock].
  rewrite list_lookup_middle by done. rewrite later_length. unfold attempt_of. cbn [q_done q_set_timer new_query snd].
  unfold register_write. rewrite (proj1 (set_interest_timers _ _ _ _)). lia.
Qed.

Lemma begin_run n b e a w : almost_idle n b w -> 1 <= a <= max_attempts (bw_boot w) ->
  b = max_attempts (bw_boot w) - a + 1 ->
  exists w' p, _begin e a w = (w', Ok ()) /\ in_phase n p w' /\ max_attempts (bw_boot w') = max_attempts (bw_boot w) /\
    bw_st w' = bw_st w /\ load p w' <= zlen (timers (bw_rx w)) + 2 * b.
Proof.
  intros Hid Hge Hb. unfold _begin, mod_boot. unfold mbind at 1, M_bind at 1, mmod at 1. cbn [set_boot boot bw_bootof].
  set (w0 := bw_set_boot _ w). change (idle n b w0) in Hid. change (bw_st w) with (bw_st w0).
  change (bw_rx w) with (bw_rx w0).
  change (max_attempts (bw_boot w)) with (max_attempts (bw_boot w0)) in *. clearbody w0. clear w. rename w0 into w.
  pose proof Hid as [[H1 H2 H3 H4 H5 H6] Hd Hs Ha Hdb Hrt].
  unfold mbind at 1, M_bind at 1, mget. cbn [boot bw_bootof]. rewrite (proj1 H2). unfold mbind, M_bind, snap_query. rewrite query_init_eq.
  set (i := length (bw_qs w)). set (d := (e, a)).
  assert (idle n (max_attempts (bw_boot w) - a) (torn i (new_query d w) (with_new d w))) as Hidle.
  { eapply (torn_idle n i (new_query d w)).
    - split; try done; [cbn; lia|]. change (zlen (bw_qs w ++ [new_query d w]) + (max_attempts (bw_boot w) - a) <= max_attempts (bw_boot w) * n).
      rewrite zlen_app. change (zlen [new_query d w]) with 1. lia.
    - by apply list_lookup_middle.
    - intros j q' Hj Hne. cbn in Hj. apply lookup_snoc_Some in Hj as [[_ Hj]|[-> _]]; [by eapply Hd|done].
    - intros s _. apply Hs.
    - intros h cb Hx. by apply Ha in Hx.
    - done.
    - done.
    - done. }
  destruct (bw_connect w).
  1, 2: eexists _, (Fetching i); split; [reflexivity|]; split; [eexists; exact (opened_fetching n b e a _ w Hid Hge Hb)|];
    split; [done|]; split; [done|]; exact (opened_load b e a _ w Hb).
  unfold on_fetch_error, _on_done_error, mod_boot. unfold mbind, M_bind, mmod. cbn [set_boot boot bw_bootof].
  destruct (maybe_retry_run n (max_attempts (bw_boot w) - a) e a _ (set_query_idle _ _ None _ Hidle) ltac:(lia) eq_refl)
    as (w3 & p & E & Hp & Hm & Hcase & Eq & Est & Hl).
  cbn [fst snd d]. rewrite E. eexists _, p. split; [reflexivity|].
  split; [|split; [cbn; by rewrite Hm|split; [cbn; by rewrite Est|]]].
  2: { etransitivity; [exact Hl|]. cbn [bw_rx bw_set_boot]. rewrite torn_length. cbn. lia. }
  subst p. destruct (_ <=? _).
  - destruct Hp as [b' Hp]. exists b'. by apply set_query_idle.
  - destruct Hp as [[? ? ? ? ? ?] ? ? ? ? ? ?]. by split; [split|..].
Qed.

(** ** A new request supersedes whatever is pending *)

Lemma cancel_pending_run n p w : in_phase n p w ->
  exists w', _cancel_pending (W := bw) w = (w', Ok ()) /\ in_phase n (match p with Fetching i => Fetching i | _ => Idle end) w' /\
    max_attempts (bw_boot w') = max_attempts (bw_boot w).
Proof.
  unfold _cancel_pending, cancel_timer, mod_rx, mod_boot. munfold. cbn.
  destruct p as [|retry h e a|i]; cbn.
  - intros (b & Hi). destruct Hi as [Hc Hd Hs Ha Hdb Hrt]. rewrite Hdb, Hrt. exists w. split; [done|]. split; [|done].
    exists b. by split.
  - intros [[H1 H2 H3 H4 H5 H6] Hd Hs Ha Hge Hdb Hrt]. destruct (rx_cancel h _ H1) as [R1 R2].
    assert (forall h' cb, ~ armed (timer_cancel h (bw_rx w)) h' cb) as Hno.
    { intros h' cb [[-> _]%Ha Hne]%R2. done. }
    rewrite Hdb. destruct retry; cbn; rewrite Hrt; eexists; (split; [reflexivity|]); (split; [|done]);
      exists 0; (split; [split; try done; cbn; lia|..]); done.
  - intros (q & Hf). pose proof Hf as []. rewrite fe_debounce0, fe_retry0. exists w. split; [done|]. split; [|done]. by exists q.
Qed.

Lemma drop_query_run n p w : in_phase n p w -> (forall r h e a, p <> Waiting r h e a) ->
  exists w', drop_query (W := bw) w = (w', Ok ()) /\ idle n 0 w' /\ max_attempts (bw_boot w') = max_attempts (bw_boot w).
Proof.
  intros Hp Hw. unfold drop_query, mod_boot. munfold. cbn -[query_cancel].
  assert (forall n b w, idle n b w -> idle n 0 w) as Hle.
  { intros n0 b w0 [Hc ? ? ? ? ?]. split; try done. eapply core_le; [done|]. destruct Hc. lia. }
  destruct p as [|r h e a|i]; [|by destruct (Hw r h e a)|].
  - destruct Hp as (b & Hi). destruct (_query (bw_boot w)) as [i|].
    + destruct (bw_qs w !! i) as [q|] eqn:Eq.
      * rewrite (cancel_eq i q w Eq), (id_done _ _ _ Hi i q Eq). cbn. eexists. split; [reflexivity|]. split; [|done].
        eapply Hle. by apply set_query_idle.
      * unfold query_cancel, with_query. cbn. rewrite Eq. eexists. split; [reflexivity|]. split; [|done].
        eapply Hle. by apply set_query_idle.
    + exists w. split; [done|]. split; [|done]. by eapply Hle.
  - destruct Hp as (q & Hf). pose proof Hf as [Hc Hi Hl Hq Hd Hs _ _ Ha _ Hdb Hrt]. rewrite Hq.
    rewrite (cancel_eq i q w Hi), Hl. cbn. eexists. split; [reflexivity|]. split; [|done].
    eapply Hle, (set_query_idle _ _ None (torn i q w)), (torn_idle n i q w); try done. by intros h cb [? _]%Ha.
Qed.

Lemma schedule_run n p e delay w : in_phase n p w ->
  exists w' p', _schedule e 1 delay w = (w', Ok ()) /\ in_phase (n + 1) p' w'.
Proof.
  intros Hp. unfold _schedule.
  destruct (cancel_pending_run n p w Hp) as (w1 & E1 & Hp1 & Hm1).
  destruct (drop_query_run n _ w1 Hp1) as (w2 & E2 & Hi & Hm2); [by destruct p|].
  unfold mbind at 1, M_bind at 1. rewrite E1. unfold mbind at 1, M_bind at 1. rewrite E2.
  assert (idle (n + 1) (max_attempts (bw_boot w2)) w2) as Hi'.
  { destruct Hi as [[? ? ? ? ? ?] ? ? ? ? ?]. split; try done. split; try done; lia. }
  destruct (delay <=? 0).
  - destruct (begin_run (n + 1) (max_attempts (bw_boot w2)) e 1 w2) as (w3 & p3 & E3 & Hp3 & _).
    + by apply idle_almost.
    + destruct Hi as [[] ? ? ? ? ?]. lia.
    + lia.
    + by exists w3, p3.
  - unfold schedule, on_rx, mod_boot. munfold. cbn. eexists _, (Waiting false (timer_seq (bw_rx w2)) e 1).
    split; [reflexivity|]. apply (wait_from_idle (n + 1) (max_attempts (bw_boot w2)) false e 1 delay w2 Hi').
    + destruct Hi as [[] ? ? ? ? ?]. lia.
    + lia.
Qed.

(** The merge itself. *)
Lemma apply_run n b rows epoch w : idle n b w ->
  idle n b (apply_snapshot rows epoch w).1 /\
  (bw_st (apply_snapshot rows epoch w).1, bw_events (apply_snapshot rows epoch w).1)
  = (merge_snapshot rows epoch (bw_now w) ((bw_st w, bw_events w) : web)).1.
Proof.
  intros [[? ? ? ? ? ?] ? ? ? ? ?]. unfold apply_snapshot, mod_boot, mfinally. munfold. cbn -[merge_snapshot].
  set (w2 := bw_set_boot _ w).
  destruct (os_merge rows epoch (bw_now w) w2 eq_refl) as (s & evs & E2).
  destruct (agree_merge rows epoch (bw_now w) w2 (bw_st w, bw_events w)) as [(_ & A1 & A2) _]; [done|].
  destruct (merge_snapshot rows epoch (bw_now w) w2) as [w3 r]. cbn [fst] in E2, A1, A2. subst w3.
  destruct (merge_snapshot rows epoch (bw_now w) (bw_st w, bw_events w)) as [v r']. cbn [fst] in A1, A2 |- *.
  rewrite (surjective_pairing v), <- A1, <- A2. split; [|by destruct r].
  destruct r; cbn; by split; [split|..].
Qed.

(** ** The callbacks of the query in flight *)

(** A query that fails: a retry, or nothing more. *)
Lemma failed_run n i q w text : fetching n i q w ->
  exists w' p, fail (W := bw) on_fetch_error i text w = (w', Ok ()) /\ in_phase n p w'.
Proof.
  intros Hf. pose proof Hf as [Hc Hi Hl Hq Hd Hs _ _ Ha Hge Hdb Hrt]. unfold fail. rewrite (finish_eq _ i q) by done.
  assert (idle n (max_attempts (bw_boot w) - (q_done q).2) (torn i q w)) as Hid.
  { eapply (torn_idle n i q w); try done. by intros h cb [? _]%Ha. }
  unfold on_fetch_error, _on_done_error, mod_boot. unfold mbind, M_bind, mmod. cbn [set_boot boot bw_bootof].
  destruct (maybe_retry_run n _ (q_done q).1 (q_done q).2 _ (set_query_idle _ _ None _ Hid) Hge eq_refl)
    as (w' & p & E & Hp & _). by exists w', p.
Qed.

(** The reply has come. *)
Lemma text_run n i q w text : fetching n i q w ->
  exists p, in_phase n p (_finish (W := bw) (fun d => on_snap_text d text) i w).1.
Proof.
  intros Hf. pose proof Hf as [Hc Hi Hl Hq Hd Hs _ _ Ha Hge Hdb Hrt]. rewrite (finish_eq _ i q) by done.
  assert (idle n (max_attempts (bw_boot w) - (q_done q).2) (torn i q w)) as Hid.
  { eapply (torn_idle n i q w); try done. by intros h cb [? _]%Ha. }
  unfold on_snap_text, _on_done, _on_done_error, mod_boot. unfold mbind, M_bind, mmod, mlift. cbn [set_boot boot bw_bootof].
  destruct (maybe_retry_run n _ (q_done q).1 (q_done q).2 _ (set_query_idle _ _ None _ Hid) Hge eq_refl)
    as (w' & p & E & Hp & _).
  destruct (_parse_snap_reply text) as [[[rows epoch]|err]|ex].
  - destruct (match (q_done q).1 with Some e => _ | None => _ end); [rewrite E; by exists p|].
    exists Idle. exists (max_attempts (bw_boot w) - (q_done q).2). cbn.
    set (w1 := bw_set_boot _ _). assert (idle n (max_attempts (bw_boot w) - (q_done q).2) w1) as H1
      by exact (set_query_idle _ _ None _ Hid).
    by apply apply_run.
  - rewrite E. by exists p.
  - exists Idle. by eexists.
Qed.

(** Changes of the query's own buffers. *)
Lemma fetching_query n i q w f : fetching n i q w ->
  (forall q, q_sock (f q) = q_sock q /\ q_finished (f q) = q_finished q /\ q_timer (f q) = q_timer q /\ q_done (f q) = q_done q) ->
  fetching n i (f q) (bw_set_qs (alter f i (bw_qs w)) w).
Proof.
  intros [[H1 H2 H3 H4 H5 H6] Hi Hl Hq Hd Hs Hcb Ht Ha Hge Hdb Hrt] Hf. destruct (Hf q) as (E1 & E2 & E3 & E4).
  rewrite (alter_insert _ _ _ _ Hi). pose proof (lookup_lt_Some _ _ _ Hi).
  split; cbn; rewrite ?E1, ?E2, ?E3, ?E4; try done.
  - split; cbn; try done. unfold zlen in *. by rewrite length_insert.
  - by apply list_lookup_insert_eq.
  - intros j q' Hj Hne. rewrite list_lookup_insert_ne in Hj by done. by eapply Hd.
Qed.

(** The query waits for the reply. *)
Lemma fetching_wait n i q w : fetching n i q w ->
  fetching n i q (bw_set_rx (register_read (q_sock q) (BQ i QReadable) (unregister_write (q_sock q) (bw_rx w))) w).
Proof.
  intros [[H1 H2 H3 H4 H5 H6] Hi Hl Hq Hd Hs Hcb Ht Ha Hge Hdb Hrt].
  set (r1 := unregister_write (q_sock q) (bw_rx w)). assert (rx_inv r1) as R1 by by apply rx_interest.
  set (r2 := register_read (q_sock q) (BQ i QReadable) r1). assert (rx_inv r2) as R2 by by apply rx_interest.
  assert (timers r2 = timers (bw_rx w)) as Et.
  { etransitivity; apply set_interest_timers. }
  assert (forall s, cbs_of r2 s = if decide (s = q_sock q) then (Some (BQ i QReadable), None) else (None, None)) as Hc.
  { intros s. unfold r2, register_read. rewrite cbs_set_interest by apply R1. unfold r1, unregister_write.
    rewrite !cbs_set_interest by apply H1. rewrite (decide_True (P := q_sock q = q_sock q)) by done. cbn [new_cb fst snd].
    case_decide; [done|]. by apply Hs. }
  split; cbn; try done.
  - intros s Hne. by rewrite Hc, decide_False.
  - right. by rewrite Hc, decide_True.
  - intros h cb. rewrite (armed_same _ _ h cb Et). apply Ha.
Qed.

(** ** One step *)

Lemma flush_run n i q w : fetching n i q w ->
  exists w' p, query_flush (W := bw) on_fetch_error i w = (w', Ok ()) /\ in_phase n p w'.
Proof.
  intros Hf. unfold query_flush, with_query. cbn [queries bw_query]. rewrite (fe_at _ _ _ _ Hf).
  assert (forall q w, fetching n i q w -> exists w' p,
    (mod_rx (unregister_write (q_sock q)) ;; mod_rx (register_read (q_sock q) (query_name i QReadable))) w = (w', Ok ()) /\
    in_phase n p w') as Hwait.
  { intros q0 w0 H0. eexists _, (Fetching i). split; [reflexivity|]. exists q0. exact (fetching_wait n i q0 w0 H0). }
  destruct (decide (q_send_buf q = [])); [by apply Hwait|].
  unfold mbind at 1, M_bind at 1. cbn [query_send bw_query]. unfold mgets. destruct (bw_send w) as [k| |].
  - unfold mod_query. unfold mbind at 1, M_bind at 1, mmod.
    pose proof (fetching_query n i q w (q_set_send (drop k (q_send_buf q))) Hf) as H1.
    specialize (H1 ltac:(by intros)). case_decide.
    + exact (Hwait _ _ H1).
    + eexists _, (Fetching i). split; [reflexivity|]. by eexists.
  - exists w, (Fetching i). split; [done|]. by exists q.
  - unfold fail_os. unfold mbind, M_bind. cbn [query_strerror bw_query]. unfold mret, M_ret. by eapply failed_run.
Qed.

Lemma writable_run n i q w : fetching n i q w ->
  exists w' p, query_on_writable (W := bw) on_fetch_error i w = (w', Ok ()) /\ in_phase n p w'.
Proof.
  intros Hf. unfold query_on_writable, with_query. cbn [queries bw_query]. rewrite (fe_at _ _ _ _ Hf).
  destruct (q_connecting q); [|by eapply flush_run].
  unfold mod_query. unfold mbind at 1, M_bind at 1, mmod.
  pose proof (fetching_query n i q w q_set_connected Hf ltac:(by intros)) as H1. cbn [set_queries queries bw_query].
  set (w1 := bw_set_qs _ w) in *. unfold mbind at 1, M_bind at 1. cbn [query_so_error bw_query]. unfold mgets.
  destruct (bw_err w1 =? 0); [by eapply flush_run|].
  unfold fail_os. unfold mbind, M_bind. cbn [query_strerror bw_query]. unfold mret, M_ret. by eapply failed_run.
Qed.

Lemma readable_run n i q w : fetching n i q w ->
  exists p, in_phase n p (query_on_readable (W := bw) on_fetch_error on_snap_text i w).1.
Proof.
  intros Hf. unfold query_on_readable, with_query. cbn [queries bw_query]. rewrite (fe_at _ _ _ _ Hf).
  unfold mbind at 1, M_bind at 1. cbn [query_recv bw_query]. unfold mgets.
  assert (forall text, exists p, in_phase n p (fail (W := bw) on_fetch_error i text w).1) as Hfail.
  { intros text. destruct (failed_run n i q w text Hf) as (w' & p & -> & Hp). by exists p. }
  destruct (bw_recv w) as [[|b data]| |].
  - apply Hfail.
  - cbv zeta. unfold mod_query. unfold mbind at 1, M_bind at 1, mmod.
    pose proof (fetching_query n i q w (q_set_recv (q_recv_buf q ++ b :: data)) Hf ltac:(by intros)) as H1.
    destruct (complete_reply _); [by eapply text_run|]. exists (Fetching i). by eexists.
  - exists (Fetching i). by exists q.
  - unfold fail_os. unfold mbind, M_bind. cbn [query_strerror bw_query]. unfold mret, M_ret. apply Hfail.
Qed.

(** The callback a socket's selector key leads to. *)
Lemma dispatch_run n p w sock mask o : in_phase n p w -> selector (bw_rx w) !! sock = Some (mask, o) ->
  exists p', in_phase n p' (dispatch o mask w).1.
Proof.
  intros Hp Hsel.
  assert (interest_inv (bw_rx w)) as Hi.
  { destruct p; cbn in Hp; [destruct Hp as (? & [[[]] ? ? ? ? ?])|destruct Hp as [[[]] ? ? ? ? ? ?]|
      destruct Hp as (? & [[[]] ? ? ? ? ? ? ? ? ? ? ?])]; done. }
  destruct Hi as [_ _ Hs Hm]. rewrite Hs in Hsel. destruct (states (bw_rx w) !! sock) as [o'|] eqn:Es; [|done].
  injection Hsel as <- ->. specialize (Hm sock o Es).
  assert (cbs_of (bw_rx w) sock = (read_cb (obj_at (bw_rx w) o), write_cb (obj_at (bw_rx w) o))) as Hc
    by (unfold cbs_of; by rewrite Es).
  assert (no_sockets (bw_rx w) -> False) as Hnone.
  { intros Hno. rewrite Hno in Hc. injection Hc as H1 H2. apply Hm, mask_zero. done. }
  destruct p as [|r h e a|i]; cbn in Hp.
  - destruct Hp as (b & [_ _ Hno _ _ _]). by destruct Hnone.
  - destruct Hp as [_ _ Hno _ _ _ _]. by destruct Hnone.
  - destruct Hp as (q & Hf). destruct (decide (sock = q_sock q)) as [->|Hne].
    2: { rewrite (fe_socks _ _ _ _ Hf) in Hc by done. injection Hc as H1 H2. destruct Hm. by apply mask_zero. }
    unfold dispatch, mask_of. munfold. cbn [rx bw_reactor].
    destruct (fe_cbs _ _ _ _ Hf) as [E|E]; rewrite E in Hc; injection Hc as H1 H2; rewrite <- H1, <- H2.
    + change (negb (Z.land (Z.lor 0 EVENT_WRITE) EVENT_READ =? 0)) with false.
      change (negb (Z.land (Z.lor 0 EVENT_WRITE) EVENT_WRITE =? 0)) with true. cbn iota beta.
      destruct (running (bw_rx w)); cbn [andb]; [|exists (Fetching i), q; exact Hf].
      rewrite <- H2. cbn [run_cb bw_loop]. unfold run_snap_cb, snap_on_writable, snap_on_readable, snap_on_timeout.
      destruct (writable_run n i q w Hf) as (w' & p' & -> & Hp'). by exists p'.
    + change (negb (Z.land (Z.lor EVENT_READ 0) EVENT_READ =? 0)) with true.
      change (negb (Z.land (Z.lor EVENT_READ 0) EVENT_WRITE =? 0)) with false. cbn iota beta.
      cbn [run_cb bw_loop]. unfold run_snap_cb, snap_on_writable, snap_on_readable, snap_on_timeout. destruct (readable_run n i q w Hf) as (p' & Hp').
      destruct (query_on_readable _ _ i w) as [w' [[]|ex]]; exists p'; [|done].
      by rewrite andb_false_r.
Qed.

(** The world with other environment answers, another clock or another web state. *)
Lemma in_phase_same n p w w' : in_phase n p w ->
  bw_rx w' = bw_rx w -> bw_boot w' = bw_boot w -> bw_qs w' = bw_qs w -> in_phase n p w'.
Proof.
  intros Hp E1 E2 E3. destruct p as [|r h e a|i]; cbn in *.
  - destruct Hp as (b & [[? ? ? ? ? ?] ? ? ? ? ?]). exists b. split; [split|..]; rewrite ?E1, ?E2, ?E3; done.
  - destruct Hp as [[? ? ? ? ? ?] ? ? ? ? ? ?]. split; [split|..]; rewrite ?E1, ?E2, ?E3; done.
  - destruct Hp as (q & [[? ? ? ? ? ?] ? ? ? ? ? ? ? ? ? ? ?]). exists q. split; [split|..]; rewrite ?E1, ?E2, ?E3; done.
Qed.

(** A phase does not change when a cancelled timer leaves the heap. *)
Lemma phase_pop_cancelled n p t l w : in_phase n p w -> timers (bw_rx w) = t :: l -> cancelled t = true ->
  in_phase n p (bw_set_rx (set_timers l (bw_rx w)) w).
Proof.
  intros Hp E Hc.
  assert (forall r : Reactor bw_cb, r = bw_rx w -> rx_inv r -> rx_inv (set_timers l r) /\ forall h cb, armed (set_timers l r) h cb <-> armed r h cb) as Hpop.
  { intros r -> Hr. destruct (rx_pop t l _ E Hr) as [R1 R2]. split; [done|]. intros h cb. rewrite R2. split; [by intros [? _]|].
    intros Hx. split; [done|]. intros ->. destruct Hx as (t' & Ht' & Eq & Hc' & _). destruct Hr as [_ _ Hnd].
    rewrite (seq_unique _ t' t Hnd) in Hc'; [congruence|done| |done]. rewrite E. left. }
  destruct p as [|r h e a|i]; cbn in *.
  - destruct Hp as (b & [[H1 ? ? ? ? ?] ? ? Ha ? ?]). destruct (Hpop _ eq_refl H1) as [R1 R2]. exists b.
    split; [by split|..]; try done. intros h cb Hx%R2. by apply Ha in Hx.
  - destruct Hp as [[H1 ? ? ? ? ?] ? ? Ha ? ? ?]. destruct (Hpop _ eq_refl H1) as [R1 R2].
    split; [by split|..]; try done. intros h' cb. cbn. by rewrite R2.
  - destruct Hp as (q & [[H1 ? ? ? ? ?] ? ? ? ? ? ? ? Ha ? ? ?]). destruct (Hpop _ eq_refl H1) as [R1 R2]. exists q.
    split; [by split|..]; try done. intros h' cb. cbn. by rewrite R2.
Qed.

(** Firing: the web state is left alone, and a timer that fires brings the end nearer. *)
Definition nearer (n : Z) (p : phase) (w w' : bw) : Prop :=
  exists p', in_phase n p' w' /\ bw_st w' = bw_st w /\ load p' w' <= load p w - 1.

Lemma pop_length t l (r : Reactor bw_cb) : timers r = t :: l -> zlen (timers (set_timers l r)) = zlen (timers r) - 1.
Proof. intros ->. unfold zlen. cbn. lia. Qed.

Lemma fire_due n p w t l : in_phase n p w -> timers (bw_rx w) = t :: l -> deadline t <= bw_now w ->
  nearer n p w (fire w).1.
Proof.
  intros Hp Et Hdue. unfold fire. rewrite Et, (proj2 (Z.leb_le _ _) Hdue). pose proof (pop_length t l (bw_rx w) Et) as Hlen.
  destruct (cancelled t) eqn:Ec.
  { exists p. split; [by apply (phase_pop_cancelled n p t l w)|]. split; [done|]. unfold load.
    cbn [fst bw_rx bw_set_rx bw_boot bw_qs]. lia. }
  assert (armed (bw_rx w) (tseq t) (callback t)) as Har by (exists t; rewrite Et; repeat split; [left|done]).
  assert (rx_inv (bw_rx w)) as Hrx.
  { destruct p; cbn in Hp; [destruct Hp as (? & [[] ? ? ? ? ?])|destruct Hp as [[] ? ? ? ? ? ?]|
      destruct Hp as (? & [[] ? ? ? ? ? ? ? ? ? ? ?])]; done. }
  destruct (rx_pop t l _ Et Hrx) as [R1 R2].
  destruct p as [|r h e a|i]; cbn in Hp.
  - destruct Hp as (b & [_ _ _ Ha _ _]). by apply Ha in Har.
  - destruct Hp as [[H1 H2 H3 H4 H5 H6] Hd Hs Ha Hge Hdb Hrt]. pose proof Har as [Eh Ecb]%Ha.
    assert (forall w2, bw_rx w2 = set_timers l (bw_rx w) -> bw_qs w2 = bw_qs w ->
      bw_boot w2 = b_set_debounce None (if r then b_set_retry None (bw_boot w) else bw_boot w) ->
      idle n (max_attempts (bw_boot w) - a + 1) w2) as Hidle.
    { intros w2 Erx Eqs Eb. split; rewrite ?Erx, ?Eqs, ?Eb; try done.
      - split; rewrite ?Erx, ?Eqs, ?Eb; try done; destruct r; cbn; done || lia.
      - intros h' cb [[-> _]%Ha Hne]%R2. by rewrite Eh in Hne.
      - by destruct r. }
    assert (forall w2, bw_rx w2 = set_timers l (bw_rx w) -> bw_qs w2 = bw_qs w -> bw_st w2 = bw_st w ->
      bw_boot w2 = (if r then b_set_retry None (bw_boot w) else bw_boot w) ->
      nearer n (Waiting r h e a) w (_begin e a w2).1) as Hbegin.
    { intros w2 Erx Eqs Est Eb.
      destruct (begin_run n (max_attempts (bw_boot w) - a + 1) e a w2) as (w3 & p3 & -> & Hp3 & _ & Est3 & Hl3).
      - apply Hidle; [done|done|]. cbn. by rewrite Eb.
      - rewrite Eb. by destruct r.
      - rewrite Eb. by destruct r.
      - exists p3. split; [done|]. split; [by cbn; rewrite Est3|]. rewrite Erx, Hlen in Hl3. unfold load at 2. cbn [fst]. lia. }
    rewrite Ecb. cbn [boot_timer run_cb bw_loop]. destruct r; cbn [run_boot_cb].
    + unfold _begin_retry, mod_boot. unfold mbind, M_bind, mmod. cbn [boot set_boot bw_bootof]. by apply Hbegin.
    + by apply Hbegin.
  - destruct Hp as (q & [[H1 H2 H3 H4 H5 H6] Hi Hl Hq Hd Hs Hcb Htm Ha Hge Hdb Hrt]). pose proof Har as [Eh Ecb]%Ha.
    rewrite Ecb. cbn [run_cb bw_loop]. unfold run_snap_cb, snap_on_writable, snap_on_readable, snap_on_timeout, _on_timeout, mod_query, fail.
    unfold mbind, M_bind, mmod. cbn [queries set_queries bw_query]. set (w1 := bw_set_rx _ w).
    change (bw_qs w1) with (bw_qs w). rewrite (alter_insert _ _ _ _ Hi). pose proof (lookup_lt_Some _ _ _ Hi) as Hlt.
    set (w2 := bw_set_qs _ w1). set (q2 := q_set_timer None q).
    assert (bw_qs w2 !! i = Some q2) as Hi2 by by apply list_lookup_insert_eq.
    rewrite (finish_eq _ i q2 w2 Hi2 Hl).
    assert (idle n (max_attempts (bw_boot w) - (q_done q).2) (torn i q2 w2)) as Hid.
    { eapply (torn_idle n i q2 w2); try done.
      - split; try done. cbn. unfold zlen in *. by rewrite length_insert.
      - intros j q' Hj Hne. cbn in Hj. rewrite list_lookup_insert_ne in Hj by done. by eapply Hd.
      - intros h cb [[E' _]%Ha Hne]%R2. congruence. }
    unfold on_fetch_error, _on_done_error, mod_boot. unfold mbind, M_bind, mmod. cbn [set_boot boot bw_bootof].
    destruct (maybe_retry_run n _ (q_done q).1 (q_done q).2 _ (set_query_idle _ _ None _ Hid) Hge eq_refl)
      as (w' & p & E & Hp & _ & _ & _ & Est & Hload). change (q_done q2) with (q_done q). rewrite E. exists p.
    split; [done|]. split; [exact Est|]. cbn [bw_rx bw_set_boot] in Hload. rewrite torn_length in Hload.
    change (bw_rx w2) with (set_timers l (bw_rx w)) in Hload. rewrite Hlen in Hload.
    assert (load (Fetching i) w = zlen (timers (bw_rx w)) + (2 * (max_attempts (bw_boot w) - (q_done q).2) + 1)) as ->
      by (unfold load; rewrite Hi; done). cbn [fst]. lia.
Qed.

Lemma fire_run n p w : in_phase n p w -> exists p', in_phase n p' (fire w).1.
Proof.
  intros Hp. destruct (timers (bw_rx w)) as [|t l] eqn:Et; [|destruct (Z.leb_spec (deadline t) (bw_now w)) as [Hle|Hgt]].
  - exists p. unfold fire. by rewrite Et.
  - destruct (fire_due n p w t l Hp Et Hle) as (p' & Hp' & _). by exists p'.
  - exists p. unfold fire. by rewrite Et, (proj2 (Z.leb_gt _ _) Hgt).
Qed.

Lemma phase_core n p w : in_phase n p w -> exists b, core n b w.
Proof.
  destruct p; cbn; [intros (b & [Hc _ _ _ _ _])|intros [Hc _ _ _ _ _ _]|intros (q & [Hc _ _ _ _ _ _ _ _ _ _ _])]; by eexists.
Qed.

Lemma bstep_run n p o w : in_phase n p w -> exists p', in_phase (n + if is_request o then 1 else 0) p' (bstep o w).1.
Proof.
  intros Hp. destruct (phase_core _ _ _ Hp) as (b & [H1 [Hdb Hmax] Happ H4 H5 H6]).
  assert (forall m p w, in_phase m p w -> exists p, in_phase (m + 0) p w) as H0 by (intros m p0 w0; rewrite Z.add_0_r; by exists p0).
  destruct o as [c| |epoch c|c|sock err r s|d|s]; cbn [bstep is_request].
  - pose proof (in_phase_same n p w (bw_env c 0 RecvBlock SendBlock w) Hp eq_refl eq_refl eq_refl) as Hp'.
    unfold boot_start. munfold. cbn [boot bw_bootof bw_boot bw_env]. rewrite Hdb.
    destruct (schedule_run n p None 0 _ Hp') as (w' & p' & -> & Hw). by exists p'.
  - unfold boot_close. destruct (cancel_pending_run n p w Hp) as (w1 & E1 & Hp1 & _).
    destruct (drop_query_run n _ w1 Hp1) as (w2 & E2 & Hi & _); [by destruct p|].
    unfold mbind, M_bind. rewrite E1, E2. apply (H0 n Idle). by exists 0.
  - pose proof (in_phase_same n p w (bw_env c 0 RecvBlock SendBlock w) Hp eq_refl eq_refl eq_refl) as Hp'.
    unfold boot_on_restart. munfold. cbn [boot bw_bootof bw_boot bw_env]. rewrite Hdb, Happ. cbn [negb orb].
    destruct (schedule_run n p (Some epoch) (restart_debounce (bw_boot w)) _ Hp') as (w' & p' & -> & Hw). by exists p'.
  - pose proof (in_phase_same n p w (bw_env c 0 RecvBlock SendBlock w) Hp eq_refl eq_refl eq_refl) as Hp'.
    destruct (fire_run n p _ Hp') as (p' & Hf). by eapply H0.
  - destruct (selector (bw_rx w) !! sock) as [[mask o]|] eqn:Es; [|by eapply H0].
    pose proof (in_phase_same n p w (bw_env ConnectPending err r s w) Hp eq_refl eq_refl eq_refl) as Hp'.
    destruct (dispatch_run n p _ sock mask o Hp' Es) as (p' & Hf). by eapply H0.
  - apply (H0 n p). by apply (in_phase_same n p w).
  - apply (H0 n p). by apply (in_phase_same n p w).
Qed.

(** ** Reading a reply *)

(** A reply that comes in pieces. *)
Definition readings (sock : nat) (chunks : list bytes) : list bop :=
  (fun c => OReady sock 0 (RecvData c) SendBlock) <$> chunks.

(** The key of a socket that waits for data. *)
Lemma reading_key r sock cb : interest_inv r -> cbs_of r sock = (Some cb, None) ->
  exists o, selector r !! sock = Some (EVENT_READ, o) /\ read_cb (obj_at r o) = Some (cb : bw_cb).
Proof.
  intros [_ _ Hs _] Hc. rewrite Hs. unfold cbs_of in Hc. destruct (states r !! sock) as [o|]; [|done].
  injection Hc as H1 H2. exists o. split; [|done]. unfold mask_of. by rewrite H1, H2.
Qed.

Definition got (i : nat) (buf c : bytes) (w : bw) : bw :=
  bw_set_qs (alter (q_set_recv buf) i (bw_qs w)) (bw_env ConnectPending 0 (RecvData c) SendBlock w).

Lemma read_some n i q c w : fetching n i q w -> cbs_of (bw_rx w) (q_sock q) = (Some (BQ i QReadable), None) -> c <> [] ->
  let buf := q_recv_buf q ++ c in
  (bstep (OReady (q_sock q) 0 (RecvData c) SendBlock) w).1 =
  if complete_reply buf then (_finish (W := bw) (fun d => on_snap_text d (decode_ascii_replace buf)) i (got i buf c w)).1
  else got i buf c w.
Proof.
  intros Hf Hcb Hc buf. pose proof Hf as [[[Hi _ _] _ _ _ _ _] Hat _ _ _ _ _ _ _ _ _ _].
  destruct (reading_key _ _ _ Hi Hcb) as (o & Hsel & Hobj). cbn [bstep]. rewrite Hsel.
  unfold dispatch. unfold mbind at 1, M_bind at 1, mget at 1. cbn [rx bw_reactor bw_env bw_rx]. rewrite Hobj.
  change (negb (Z.land EVENT_READ EVENT_READ =? 0)) with true. change (negb (Z.land EVENT_READ EVENT_WRITE =? 0)) with false.
  cbn iota. cbn [run_cb bw_loop]. unfold run_snap_cb, snap_on_writable, snap_on_readable, snap_on_timeout, query_on_readable, with_query.
  unfold mbind at 1, M_bind at 1. cbn [queries bw_query bw_qs bw_env]. rewrite Hat.
  unfold mbind at 1, M_bind at 1. cbn [query_recv bw_query]. unfold mgets. cbn [bw_recv bw_env].
  destruct c as [|x c]; [done|]. cbv zeta. fold buf. unfold mod_query at 1. unfold mbind at 1, M_bind at 1, mmod.
  cbn [queries set_queries bw_query]. change (bw_set_qs _ _) with (got i buf (x :: c) w).
  destruct (complete_reply buf).
  - destruct (_finish _ i _) as [w2 [[]|e]]; [|done]. munfold. by rewrite andb_false_r.
  - unfold mret, M_ret. munfold. by rewrite andb_false_r.
Qed.

Lemma read_reply ls i chunks n : Forall (fun l => line_ok l = true) ls -> Forall (fun c => c <> []) chunks -> chunks <> [] ->
  forall q w, fetching n i q w -> cbs_of (bw_rx w) (q_sock q) = (Some (BQ i QReadable), None) ->
  q_recv_buf q ++ concat chunks = reply_of ls ->
  exists q' w1, fetching n i q' w1 /\ q_done q' = q_done q /\ bw_st w1 = bw_st w /\ bw_events w1 = bw_events w /\
    brun (readings (q_sock q) chunks) w =
      (_finish (W := bw) (fun d => on_snap_text d (decode_ascii_replace (reply_of ls))) i w1).1.
Proof.
  intros Hls Hne. induction Hne as [|c chunks Hc Hne IH]; intros Hnil q w Hf Hcb Hr; [done|].
  cbn [readings fmap list_fmap brun foldl concat] in *.
  rewrite app_assoc in Hr. set (buf := q_recv_buf q ++ c) in *.
  pose proof (read_some n i q c w Hf Hcb Hc) as E. cbv zeta in E. fold buf in E. rewrite E. clear E.
  assert (fetching n i (q_set_recv buf q) (got i buf c w)) as Hf1.
  { unfold got. apply (fetching_query n i q (bw_env ConnectPending 0 (RecvData c) SendBlock w)); [|by intros].
    destruct Hf as [[? ? ? ? ? ?] ? ? ? ? ? ? ? ? ? ? ?]. by split; [split|..]. }
  destruct chunks as [|c' chunks].
  - cbn [concat] in Hr. rewrite app_nil_r in Hr. rewrite Hr, complete_whole. exists (q_set_recv buf q), (got i buf c w).
    cbn [readings fmap list_fmap foldl]. rewrite <- Hr. done.
  - apply Forall_cons in Hne as [Hc' Hne].
    rewrite (complete_prefix ls buf (concat (c' :: chunks)) Hls); [|by destruct c'|done].
    destruct (IH ltac:(done) (q_set_recv buf q) _ Hf1) as (q' & w1 & H1 & H2 & H3 & H4 & H5); [exact Hcb|exact Hr|].
    exists q', w1. by split_and!.
Qed.

(** * Properties *)

Lemma bw_phase ops s now : exists p, in_phase (requests ops) p (brun ops (bw_init true s now)).
Proof.
  unfold brun. induction ops as [|o ops IH] using rev_ind.
  - exists Idle. exists 0. cbn. split; try done.
    + split; try done. split; [|split; [constructor|]|constructor].
      * split; cbn; intros *; rewrite ?lookup_empty; done.
      * intros t Ht. by apply elem_of_nil in Ht.
    + intros h cb (t & Ht & _). by apply elem_of_nil in Ht.
  - destruct IH as (p & Hp). rewrite foldl_app. cbn [foldl].
    destruct (bstep_run _ _ o _ Hp) as (p' & Hp'). exists p'.
    replace (requests (ops ++ [o])) with (requests ops + (if is_request o then 1 else 0)); [exact Hp'|].
    unfold requests. rewrite List.filter_app, zlen_app. cbn. by destruct (is_request o).
Qed.

(** C30. The bootstrap under any sequence of starts, restarts of the feed, timers, socket
    events and shutdowns: always either nothing is pending, or exactly one of its
    timers is armed, or exactly one query is in flight with its timeout armed and its
    socket the only one registered ([in_phase]); nothing is left marked as applying;
    and the fetches made so far are at most three per request. *)
Theorem one_fetch_at_a_time ops s now : let w := brun ops (bw_init true s now) in
  (exists p, in_phase (requests ops) p w) /\ _applying (bw_boot w) = false /\
  zlen (bw_qs w) <= DEFAULT_MAX_ATTEMPTS * requests ops.
Proof.
  intros w. destruct (bw_phase ops s now) as (p & Hp). fold w in Hp.
  destruct (phase_core _ _ _ Hp) as (b & [_ [_ Hm] Ha _ Hb Hs]). rewrite Hm in Hs. split; [by exists p|]. split; [done|lia].
Qed.

(** jnxdb says nothing: the reactor sleeps until the least timer is due and fires it,
    again and again; [cs] are the results of the [connect] calls it leads to. *)
Definition until_due (w : bw) : Z :=
  match timers (bw_rx w) with t :: _ => Z.max 0 (deadline t - bw_now w) | [] => 0 end.
Fixpoint silence (cs : list connect_res) (w : bw) : bw :=
  match cs with [] => w | c :: cs' => silence cs' (brun [OTime (until_due w); OFire c] w) end.

Lemma silence_step n p c w : in_phase n p w -> timers (bw_rx w) <> [] ->
  nearer n p w (brun [OTime (until_due w); OFire c] w).
Proof.
  intros Hp Ht. destruct (timers (bw_rx w)) as [|t l] eqn:Et; [done|].
  cbn [brun foldl bstep fst]. set (w1 := bw_env c 0 RecvBlock SendBlock (bw_later (until_due w) w)).
  assert (in_phase n p w1) as Hp1 by by apply (in_phase_same n p w).
  destruct (fire_due n p w1 t l Hp1 Et) as (p' & H1 & H2 & H3); [|by exists p'].
  cbn. unfold until_due. rewrite Et. lia.
Qed.

Lemma load_none n p w : in_phase n p w -> timers (bw_rx w) = [] -> p = Idle.
Proof.
  intros Hp E. assert (forall h cb, ~ armed (bw_rx w) h cb) as Hno.
  { intros h cb (t & Ht & _). rewrite E in Ht. by apply elem_of_nil in Ht. }
  destruct p as [|r h e a|i]; [done|..].
  - destruct Hp as [_ _ _ Ha _ _ _]. exfalso. by eapply Hno, Ha.
  - destruct Hp as (q & [_ _ _ _ _ _ _ [h Hh] Ha _ _ _]). exfalso. by eapply (Hno h), Ha.
Qed.

Lemma load_bound n p w : in_phase n p w -> zlen (timers (bw_rx w)) <= load p w <= zlen (timers (bw_rx w)) + 6.
Proof.
  intros Hp. destruct (phase_core _ _ _ Hp) as (b & [_ [_ Hm] _ _ _ _]). unfold load. rewrite Hm. change DEFAULT_MAX_ATTEMPTS with 3.
  destruct p as [|r h e a|i]; [lia|..].
  - destruct Hp as [_ _ _ _ Ha _ _]. rewrite Hm in Ha. change DEFAULT_MAX_ATTEMPTS with 3 in Ha. lia.
  - destruct Hp as (q & [Hc Hi _ _ _ _ _ _ _ Ha _ _]). rewrite Hi. destruct Hc as [_ _ _ _ Hb _]. rewrite Hm in Hb.
    change DEFAULT_MAX_ATTEMPTS with 3 in Hb. unfold attempt_of. lia.
Qed.

Lemma silence_none cs w : timers (bw_rx w) = [] -> timers (bw_rx (silence cs w)) = [] /\ bw_st (silence cs w) = bw_st w /\
  forall n, in_phase n Idle w -> in_phase n Idle (silence cs w).
Proof.
  revert w. induction cs as [|c cs IH]; intros w E; [done|]. cbn [silence].
  assert (brun [OTime (until_due w); OFire c] w = bw_env c 0 RecvBlock SendBlock (bw_later (until_due w) w)) as ->.
  { cbn [brun foldl bstep fst]. unfold fire. cbn [bw_rx bw_env bw_later]. by rewrite E. }
  destruct (IH (bw_env c 0 RecvBlock SendBlock (bw_later (until_due w) w)) E) as (H1 & H2 & H3). split; [done|]. split; [done|].
  intros n Hn. apply H3. by apply (in_phase_same n Idle w).
Qed.

Lemma silence_ends n cs : forall p w, in_phase n p w -> load p w <= zlen cs ->
  let w' := silence cs w in in_phase n Idle w' /\ timers (bw_rx w') = [] /\ bw_st w' = bw_st w.
Proof.
  induction cs as [|c cs IH]; intros p w Hp Hl.
  - pose proof (load_bound _ _ _ Hp) as Hb. assert (timers (bw_rx w) = []) as E.
    { destruct (timers (bw_rx w)); [done|]. unfold zlen in *. cbn in *. lia. }
    split; [|by split]. by rewrite (load_none n p w Hp E) in Hp.
  - destruct (timers (bw_rx w)) as [|t l] eqn:E.
    + destruct (silence_none (c :: cs) w E) as (H1 & H2 & H3). split; [|by split]. apply H3.
      by rewrite (load_none n p w Hp E) in Hp.
    + destruct (silence_step n p c w Hp) as (p' & Hp' & Hst & Hl'); [by rewrite E|].
      destruct (IH p' _ Hp') as (H1 & H2 & H3); [unfold zlen in *; cbn [length] in Hl; lia|].
      split; [done|]. split; [done|]. cbn [silence]. by rewrite H3.
Qed.

(** C32. The bootstrap gives up: at any time of any run, if jnxdb then never answers, the
    reactor firing each timer when it is due empties the heap within the number of
    its timers and six more, whatever the connects return: nothing is scheduled, no query is
    in flight, no socket is registered, and the web state is as the feed left it. *)
Theorem bootstrap_gives_up ops s now cs : let w := brun ops (bw_init true s now) in
  zlen (timers (bw_rx w)) + 6 <= zlen cs ->
  let w' := silence cs w in
  in_phase (requests ops) Idle w' /\ timers (bw_rx w') = [] /\ bw_st w' = bw_st w.
Proof.
  intros w Hk. destruct (bw_phase ops s now) as (p & Hp). fold w in Hp. apply (silence_ends _ _ p); [done|].
  pose proof (load_bound _ _ _ Hp). lia.
Qed.

Lemma bootstrap_gives_up_witness :
  let w := brun [OStart ConnectPending; ORestart 2 ConnectPending] (bw_init true (state_init 0) 0) in
  zlen (timers (bw_rx w)) = 2 /\ timers (bw_rx (silence (replicate 8 ConnectPending) w)) = [].
Proof.
  split; [vm_compute; reflexivity|].
  apply (bootstrap_gives_up [OStart ConnectPending; ORestart 2 ConnectPending] (state_init 0) 0 (replicate 8 ConnectPending)).
  vm_compute. discriminate.
Defined.

Lemma fetching_in_phase n p i (q : Query snap_done) w : in_phase n p w -> bw_qs w !! i = Some q -> q_finished q = false -> fetching n i q w.
Proof.
  intros Hp Hi Hl. destruct p as [|r h e a|j]; cbn in Hp.
  - destruct Hp as (b & [_ Hd _ _ _ _]). by rewrite (Hd i q Hi) in Hl.
  - destruct Hp as [_ Hd _ _ _ _ _]. by rewrite (Hd i q Hi) in Hl.
  - destruct Hp as (q' & Hf). destruct (decide (i = j)) as [->|Hne'].
    + rewrite (fe_at _ _ _ _ Hf) in Hi. by injection Hi as <-.
    + by rewrite (fe_done _ _ _ _ Hf i q Hi Hne') in Hl.
Qed.

(** What a whole reply does once it is read: with another epoch than the expected one a
    retry, otherwise the merge. *)
Lemma seed_text n i (q : Query snap_done) w text rows epoch : fetching n i q w -> _parse_snap_reply text = Ok (inl (rows, epoch)) ->
  let w' := (_finish (W := bw) (fun d => on_snap_text d text) i w).1 in
  if match (q_done q).1 with Some e => negb (epoch =? e) | None => false end then
    bw_st w' = bw_st w /\ exists h,
      in_phase n (if DEFAULT_MAX_ATTEMPTS <=? (q_done q).2 then Idle else Waiting true h (q_done q).1 ((q_done q).2 + 1)) w'
  else in_phase n Idle w' /\ exists now evs,
    (bw_st w', bw_events w') = (merge_snapshot rows epoch now ((bw_st w, evs) : web)).1.
Proof.
  intros Hf Hp w'. pose proof Hf as [Hc Hi Hl Hq Hd Hs _ _ Ha Hge Hdb Hrt].
  assert (idle n (max_attempts (bw_boot w) - (q_done q).2) (torn i q w)) as Hid0 by (apply (torn_idle n i q w); try done; by intros h cb [? _]%Ha).
  pose proof (set_query_idle _ _ None _ Hid0) as Hid. set (w2 := bw_set_boot (b_set_query None _) (torn i q w)) in Hid.
  assert (w' = ((if match (q_done q).1 with Some e => negb (epoch =? e) | None => false end
                 then _maybe_retry (q_done q).1 (q_done q).2 else apply_snapshot rows epoch) w2).1) as ->.
  { unfold w'. rewrite (finish_eq _ i q) by done. unfold on_snap_text. by rewrite Hp. }
  destruct (match (q_done q).1 with Some e => _ | None => _ end).
  - destruct (maybe_retry_run n _ (q_done q).1 (q_done q).2 _ Hid Hge eq_refl) as (w' & p & E & Hp' & _ & -> & _ & Hst & _).
    rewrite E. split; [exact Hst|]. exists (timer_seq (bw_rx w2)). change (max_attempts (bw_boot w2)) with (max_attempts (bw_boot w)) in Hp'.
    by rewrite (proj2 (co_conf _ _ _ Hc)) in Hp'.
  - destruct (apply_run _ _ rows epoch _ Hid) as [Hid' Hst']. split; [by eexists|]. eexists _, _. exact Hst'.
Qed.

(** C27. A query that waits for its reply, at any time of any run, when jnxdb's reply has
    come, however it is cut into reads.  If the bootstrap expects another epoch than the
    reply's, the web state is as it was and, unless this was the last attempt, a retry is
    scheduled for the same epoch.  Otherwise the fetch is over with nothing pending, and
    the web state is what [merge_snapshot] makes of the rows jnxdb sent: an older
    incarnation's snapshot changes nothing, else every ticker shows the freshest of the
    live record and its rows. *)
Theorem snapshot_seeds ops s0 now i (q : Query snap_done) chunks epoch last_seq session raws rows :
  let w := brun ops (bw_init true s0 now) in
  bw_qs w !! i = Some q -> q_finished q = false ->
  cbs_of (bw_rx w) (q_sock q) = (Some (BQ i QReadable), None) -> q_recv_buf q = [] ->
  merge_inv (tickers (bw_st w)) (_trades (bw_st w)) ->
  0 <= epoch -> 0 <= last_seq -> forallb plain_b session = true -> Forall2 is_update raws rows ->
  Forall (fun c => c <> []) chunks -> concat chunks = reply_of (snap_lines epoch last_seq session raws) ->
  let w' := brun (readings (q_sock q) chunks) w in
  let live := last_epoch (bw_st w) in
  if match (q_done q).1 with Some e => negb (epoch =? e) | None => false end then
    bw_st w' = bw_st w /\ exists h,
      in_phase (requests ops) (if DEFAULT_MAX_ATTEMPTS <=? (q_done q).2 then Idle else Waiting true h (q_done q).1 ((q_done q).2 + 1)) w'
  else in_phase (requests ops) Idle w' /\
    if match live with Some e => epoch <? e | None => false end then bw_st w' = bw_st w
    else last_epoch (bw_st w') = Some epoch /\ updates (bw_st w') = updates (bw_st w) /\
      forall t, tickers (bw_st w') !! t =
        foldl freshest ((if match live with Some e => e <? epoch | None => false end then ∅ else tickers (bw_st w)) !! t)
          (rows_of t rows).
Proof.
  intros w Hi Hl Hcb Hbuf Hinv He Hls Hsess Hrows Hne Hcat w' live.
  destruct (bw_phase ops s0 now) as (p & Hp). fold w in Hp.
  pose proof (fetching_in_phase _ p i q w Hp Hi Hl) as Hf.
  destruct (read_reply (snap_lines epoch last_seq session raws) i chunks (requests ops)) with (q := q) (w := w)
    as (q' & w1 & Hf1 & Hd1 & Hst & Hev & E); [by apply snap_lines_ok|done| |done|done|by rewrite Hbuf|].
  { intros ->. pose proof (complete_whole (snap_lines epoch last_seq session raws)) as Hc.
    rewrite <- Hcat in Hc. by vm_compute in Hc. }
  pose proof (seed_text _ i q' w1 _ rows epoch Hf1 (snap_reply_ok epoch last_seq session raws rows He Hls Hsess Hrows)) as Ht.
  assert (w' = (_finish (W := bw) (fun d => on_snap_text d (decode_ascii_replace (reply_of (snap_lines epoch last_seq session raws)))) i w1).1) as Ew by exact E. rewrite <- Ew in Ht. clear E Ew. rewrite Hd1, Hst in Ht.
  destruct (match (q_done q).1 with Some e => _ | None => _ end); [exact Ht|].
  destruct Ht as [Hid (now' & evs & Hst')]. split; [exact Hid|].
  assert (Forall readable rows) as Hread.
  { clear - Hrows. induction Hrows as [|raw rec raws rows [H1 H2] _ IH]; constructor; [by eapply decoded_readable|done]. }
  fold live in Hst' |- *. destruct (match live with Some e => epoch <? e | None => false end) eqn:Hst2.
  - apply (f_equal fst) in Hst'. cbn [fst] in Hst'. rewrite Hst'. unfold merge_snapshot. munfold. cbn [st web_state fst].
    fold live. by rewrite Hst2.
  - destruct (merge_snapshot_run rows epoch now' (bw_st w) evs Hread Hinv Hst2)
      as (s' & evs' & n & E1 & H1 & H2 & _ & _ & _ & _ & _ & H8).
    rewrite E1 in Hst'. injection Hst' as -> _. split_and!; [done|done|]. exact H8.
Qed.

(** A start, the command sent in two pieces, and a reply with one row that comes in
    three reads. *)
Definition seed_ops : list bop :=
  [OStart ConnectPending; OReady 0 0 RecvBlock (SendBytes 2); OReady 0 0 RecvBlock (SendBytes 3)].
Definition seed_reply : bytes := Eval vm_compute in reply_of (snap_lines 3 17 (s2l "SIM0000001") [demo_wire]).
Definition seed_chunks : list bytes := [take 30 seed_reply; take 2 (drop 30 seed_reply); drop 32 seed_reply].
Definition seed_world : bw := Eval vm_compute in brun seed_ops (bw_init true (state_init 0) 0).
Definition seed_query : Query snap_done := mkQuery 0 [] [] false false (Some 0) (None, 1).

(** The feed restarts with epoch 4, and jnxdb still answers with epoch 3. *)
Definition early_ops : list bop :=
  [ORestart 4 ConnectPending; OTime 1500; OFire ConnectPending; OReady 0 0 RecvBlock (SendBytes 5)].
Definition early_world : bw := Eval vm_compute in brun early_ops (bw_init true (state_init 0) 0).
Definition early_query : Query snap_done := mkQuery 0 [] [] false false (Some 1) (Some 4, 1).

Lemma snapshot_seeds_witness :
  (let w' := brun (readings 0 seed_chunks) seed_world in
   in_phase 1 Idle w' /\ last_epoch (bw_st w') = Some 3 /\ tickers (bw_st w') !! "7203" = Some demo_update) /\
  (let w' := brun (readings 0 seed_chunks) early_world in bw_st w' = bw_st early_world /\ exists h, in_phase 1 (Waiting true h (Some 4) 2) w').
Proof.
  assert (brun seed_ops (bw_init true (state_init 0) 0) = seed_world) as Ew by (vm_compute; reflexivity).
  assert (brun early_ops (bw_init true (state_init 0) 0) = early_world) as Ee by (vm_compute; reflexivity).
  assert (Forall2 is_update [demo_wire] [demo_update]) as Hu by (repeat constructor; vm_compute; reflexivity).
  assert (Forall (fun c : bytes => c <> []) seed_chunks) as Hn by (repeat constructor; vm_compute; discriminate).
  split.
  - pose proof (snapshot_seeds seed_ops (state_init 0) 0 0 seed_query seed_chunks 3 17 (s2l "SIM0000001") [demo_wire] [demo_update]) as H.
    rewrite Ew in H. destruct H as [Hp Hst]; [reflexivity..| | | | |exact Hu|exact Hn| |].
    + split; vm_compute; intros; discriminate.
    + vm_compute. discriminate.
    + vm_compute. discriminate.
    + vm_compute. reflexivity.
    + vm_compute. reflexivity.
    + split; [exact Hp|]. destruct Hst as (H1 & _ & H2). split; [exact H1|]. etransitivity; [apply H2|]. vm_compute. reflexivity.
  - pose proof (snapshot_seeds early_ops (state_init 0) 0 0 early_query seed_chunks 3 17 (s2l "SIM0000001") [demo_wire] [demo_update]) as H.
    rewrite Ee in H. apply H; [reflexivity..| | | | |exact Hu|exact Hn|].
    + split; vm_compute; intros; discriminate.
    + vm_compute. discriminate.
    + vm_compute. discriminate.
    + vm_compute. reflexivity.
    + vm_compute. reflexivity.
Defined.
