(* ===== verification/Httpd.v ===== *)
(** jnxweb/httpd.py: the HTTP server in front of the web state and the hub.

    Connection objects live in a store and are referred to by index.  A request or a
    response is the bytes on the socket; [page_html] is the embedded page, encoded.
    An ORDERS query's [on_done] closure has captured the connection and the ticker. *)
From S2P Require Export DbQuery Wsock.

#[global] Set Default Goal Selector "!".

Definition crlf : bytes := [z2b 13; z2b 10].

Definition _REASON : list (Z * str) := [
  (200, "OK"); (101, "Switching Protocols"); (400, "Bad Request"); (404, "Not Found"); (405, "Method Not Allowed")].

Definition _MAX_REQUEST_HEADER_BYTES : Z := 16384.
Definition _json_bytes (obj : json) : bytes := dumps obj.

Inductive after_flush : Type := ThenClose | ThenUpgrade | ThenNothing.

Record HttpConnection : Type := mkHttp {
  c_sock : nat; c_recv_buf : bytes; c_send_buf : bytes; _after_flush : after_flush }.

Definition c_set_recv (x : bytes) (c : HttpConnection) : HttpConnection := mkHttp (c_sock c) x (c_send_buf c) (_after_flush c).
Definition c_set_send (x : bytes) (c : HttpConnection) : HttpConnection := mkHttp (c_sock c) (c_recv_buf c) x (_after_flush c).
Definition c_set_after (x : after_flush) (c : HttpConnection) : HttpConnection := mkHttp (c_sock c) (c_recv_buf c) (c_send_buf c) x.

Inductive http_cb : Type := HReadable | HWritable.
Definition orders_done : Type := (nat * str)%type.

Class HttpOf (W CB : Type) : Type := {
  conns : W -> list HttpConnection;
  set_conns : list HttpConnection -> W -> W;
  http_name : nat -> http_cb -> CB;
  http_recv : nat -> M W recv_res;
  http_send : nat -> bytes -> M W send_res;
  http_close : nat -> M W ();
  page_html : bytes;
  db_query_addr : bool;      (* whether there is one *)
  http_time : M W Z;         (* time.time() *)
  float_repr : Z -> bytes    (* repr of that many milliseconds, in seconds *) }.

(** * A request *)

Definition headers_of (lines : list bytes) : list (str * str) :=
  foldl (fun headers line =>
    let '(key, sep, value) := partition_b (z2b 58) line in
    if (sep : bool) then dset (lower (strip (decode_ascii_replace key))) (strip (l2s value)) headers else headers) [] lines.

(** The request line of a well-formed request: method and path. *)
Definition request_line (line : bytes) : option (bytes * bytes) :=
  match split_b [z2b 32] line with
  | [method; path; version] => if startswith (s2l "HTTP/") version then Some (method, path) else None
  | _ => None
  end.

Definition stats_json (float_repr : Z -> bytes) (now : Z) (s : State) : json :=
  JObj ((fun kv => (kv.1, if decide (kv.1 = "uptime") then JFloat (float_repr (default 0 kv.2))
                         else match kv.2 with Some z => JInt z | None => JNull end)) <$> stats now s).

Definition json_of_order (r : order_row) : json :=
  JObj [("order_number", JStr (w_order_number r)); ("side", JStr (w_side r)); ("price", JStr (w_price r));
        ("qty_remaining", JInt (w_qty_remaining r)); ("order_type", JStr (w_order_type r))].

Definition error_json (e : str) : json := JObj [("error", JStr e)].

(** ** Responses *)

Definition http_line (s : str) : bytes := s2l s ++ crlf.
Definition response_head (status : Z) (content_type : str) (length : Z) : bytes :=
  let reason := default "OK" (dget status _REASON) in
  s2l "HTTP/1.1 " ++ py_str_b status ++ s2l " " ++ http_line reason ++
  s2l "Content-Type: " ++ http_line content_type ++
  s2l "Content-Length: " ++ py_str_b length ++ crlf ++
  http_line "Connection: close" ++ crlf.
Definition upgrade_head (accept : str) : bytes :=
  http_line "HTTP/1.1 101 Switching Protocols" ++ http_line "Upgrade: websocket" ++ http_line "Connection: Upgrade" ++
  s2l "Sec-WebSocket-Accept: " ++ http_line accept ++ crlf.

Section http.
  Context {W CB : Type} `{ReactorOf W CB} `{HttpOf W CB} `{StateOf W} `{QueryOf W CB orders_done}.

Definition mod_http (i : nat) (f : HttpConnection -> HttpConnection) : M W () :=
  mmod (fun w => set_conns (alter f i (conns w)) w).
(** Run a method of the connection object [i]. *)
Definition with_http (i : nat) (f : HttpConnection -> M W ()) : M W () := fun w =>
  match conns w !! i with Some c => f c w | None => (w, Ok ()) end.

Definition http_conn_close (i : nat) : M W () :=
  with_http i (fun c => mod_rx (unregister (c_sock c)) ;; http_close (c_sock c)).

Definition http_enqueue (i : nat) (data : bytes) : M W () :=
  mod_http i (fun c => c_set_send (c_send_buf c ++ data) c) ;;
  with_http i (fun c => mod_rx (register_write (c_sock c) (http_name i HWritable))).

Definition _respond (i : nat) (status : Z) (body : bytes) (content_type : str) : M W () :=
  mod_http i (c_set_after ThenClose) ;;
  http_enqueue i (response_head status content_type (zlen body) ++ body).

Definition respond_html (i : nat) (status : Z) (body_text : bytes) : M W () :=
  _respond i status body_text "text/html; charset=utf-8".
Definition respond_json (i : nat) (status : Z) (obj : json) : M W () :=
  _respond i status (_json_bytes obj) "application/json".

Definition upgrade_to_websocket (i : nat) (sec_websocket_key : str) : M W () :=
  accept ← mlift (compute_accept_key sec_websocket_key);
  mod_http i (c_set_after ThenUpgrade) ;;
  http_enqueue i (upgrade_head accept).

(** ** Routes *)

(** [on_done] of the ORDERS query: its two ways of being called. *)
Definition orders_error (d : orders_done) (error : str) : M W () :=
  if decide (error = "unknown") then respond_json d.1 404 (error_json "unknown")
  else respond_json d.1 502 (error_json error).
Definition orders_rows (d : orders_done) (rows : list order_row) : M W () :=
  respond_json d.1 200 (JObj [("ticker", JStr d.2); ("orders", JList (json_of_order <$> rows))]).
Definition on_orders_text (d : orders_done) (text : str) : M W () :=
  r ← mlift (_parse_orders_reply text);
  match r with inl rows => orders_rows d rows | inr e => orders_error d e end.

Definition _handle_orders (i : nat) (ticker : str) : M W () :=
  if db_query_addr then
    command ← mlift (ORDERS_COMMAND ticker);
    query_init orders_error command (i, ticker) DEFAULT_TIMEOUT ;; mret ()
  else respond_json i 503 (error_json "db query not configured").

Definition _handle_ws_upgrade (i : nat) (headers : list (str * str)) : M W () :=
  let upgrade_ok := bool_decide (lower (default "" (dget "upgrade" headers)) = "websocket") in
  let key := default "" (dget "sec-websocket-key" headers) in
  let version_ok := bool_decide (dget "sec-websocket-version" headers = Some "13") in
  if upgrade_ok && negb (bool_decide (key = "")) && version_ok then upgrade_to_websocket i key
  else respond_json i 400 (error_json "bad websocket upgrade").

Definition http_state : M W State := mgets st.

Definition route (i : nat) (path : bytes) (headers : list (str * str)) : M W () :=
  if decide (path = s2l "/") then respond_html i 200 page_html
  else if decide (path = s2l "/tickers") then
    s ← http_state; respond_json i 200 (JList (JStr <$> ticker_list s))
  else if startswith (s2l "/snap/") path then
    s ← http_state;
    match snapshot (l2s (drop 6 path)) s with
    | None => respond_json i 404 (error_json "unknown")
    | Some snap => respond_json i 200 (json_of_snapshot snap)
    end
  else if startswith (s2l "/orders/") path then _handle_orders i (l2s (drop 8 path))
  else if decide (path = s2l "/stats") then
    s ← http_state; now ← http_time; respond_json i 200 (stats_json float_repr now s)
  else if decide (path = s2l "/ws") then _handle_ws_upgrade i headers
  else respond_json i 404 (error_json "not found").

(** [self._respond_json] in the error branches: the class has no such method. *)
Definition _respond_json (i : nat) (status : Z) (obj : json) : M W () := mraise AttributeError.

Definition _handle_request (i : nat) (header_bytes : bytes) : M W () :=
  match split_b crlf header_bytes with
  | [] => mraise IndexError
  | line :: lines =>
      match request_line line with
      | None => _respond_json i 400 (error_json "bad request")
      | Some (method, path) =>
          let headers := headers_of lines in
          if decide (method <> s2l "GET") then _respond_json i 405 (error_json "method not allowed")
          else route i path headers
      end
  end.

Definition http_on_readable (i : nat) : M W () :=
  with_http i (fun c =>
    r ← http_recv (c_sock c);
    match r with
    | RecvBlock => mret ()
    | RecvError => http_conn_close i
    | RecvData [] => http_conn_close i
    | RecvData data =>
        let buf := c_recv_buf c ++ data in
        mod_http i (c_set_recv buf) ;;
        if _MAX_REQUEST_HEADER_BYTES <? zlen buf then
          mod_rx (unregister_read (c_sock c)) ;;
          _respond_json i 400 (error_json "request too large")
        else
          match find_b (crlf ++ crlf) buf with
          | None => mret ()
          | Some idx =>
              mod_rx (unregister_read (c_sock c)) ;;
              _handle_request i (take idx buf)
          end
    end).

(** The [for] of accepted sockets in [_on_accept], each a new [HttpConnection]. *)
Definition http_accept (sock : nat) : M W () :=
  w ← mget;
  let i := length (conns w) in
  mmod (fun w => set_conns (conns w ++ [mkHttp sock [] [] ThenClose]) w) ;;
  mod_rx (register_read sock (http_name i HReadable)).
Definition _on_accept (socks : list nat) : M W () := mfor socks http_accept.

Context `{WsOf W CB}.

(** [_complete_ws_upgrade]: the socket now belongs to the hub. *)
Definition _complete_ws_upgrade (i : nat) : M W () := with_http i (fun c => attach (c_sock c) ;; mret ()).

Definition http_on_writable (i : nat) : M W () :=
  with_http i (fun c =>
    if decide (c_send_buf c = []) then mod_rx (unregister_write (c_sock c))
    else
      r ← http_send (c_sock c) (c_send_buf c);
      match r with
      | SendBlock => mret ()
      | SendError => http_conn_close i
      | SendBytes n =>
          let rest := drop n (c_send_buf c) in
          mod_http i (c_set_send rest) ;;
          if decide (rest = []) then
            mod_rx (unregister_write (c_sock c)) ;;
            mod_http i (c_set_after ThenNothing) ;;
            match _after_flush c with
            | ThenClose => http_conn_close i
            | ThenUpgrade => _complete_ws_upgrade i
            | ThenNothing => mret ()
            end
          else mret ()
      end).

Definition run_http_cb (i : nat) (cb : http_cb) : M W () :=
  match cb with HReadable => http_on_readable i | HWritable => http_on_writable i end.
Definition run_orders_cb (i : nat) (cb : query_cb) : M W () := run_query_cb orders_error on_orders_text i cb.
End http.

Example head_example : response_head 404 "application/json" 20 =
  s2l "HTTP/1.1 404 Not Found" ++ crlf ++ s2l "Content-Type: application/json" ++ crlf ++
  s2l "Content-Length: 20" ++ crlf ++ s2l "Connection: close" ++ crlf ++ crlf.
Proof. vm_compute. reflexivity. Qed.

(** * Lemmas: requests *)

Definition CR : byte := z2b 13.
Definition header_line (h : bytes * bytes) : bytes := h.1 ++ [z2b 58; z2b 32] ++ h.2.
Definition request_block (method path : bytes) (headers : list (bytes * bytes)) : bytes :=
  PyText.join crlf (PyText.join [z2b 32] [method; path; s2l "HTTP/1.1"] :: (header_line <$> headers)).
Definition http_request (method path : bytes) (headers : list (bytes * bytes)) : bytes :=
  request_block method path headers ++ crlf ++ crlf.

(** No spaces, no CR; a header name also has no colon; a header value has no CR. *)
Definition token_ok (l : bytes) : bool := forallb (fun b => negb (b2z b =? 32) && negb (b2z b =? 13)) l.
Definition header_ok (h : bytes * bytes) : bool :=
  forallb (fun b => negb (b2z b =? 58) && negb (b2z b =? 13)) h.1 && forallb (fun b => negb (b2z b =? 13)) h.2.

Lemma not_in_byte (c : Z) (b : byte) l : b = z2b c -> 0 <= c < 256 -> forallb (fun x => negb (b2z x =? c)) l = true -> b ∉ l.
Proof.
  intros -> Hc H Hin. rewrite forallb_forall in H. apply list_elem_of_In in Hin. specialize (H _ Hin).
  rewrite b2z_z2b_small, Z.eqb_refl in H by done. done.
Qed.

Lemma token_parts l : token_ok l = true -> z2b 32 ∉ l /\ CR ∉ l.
Proof.
  intros H. split; (eapply not_in_byte; [reflexivity|lia|]); (eapply forallb_impl; [|exact H]);
    by intros b [? ?]%andb_true_iff.
Qed.

Lemma header_line_cr h : header_ok h = true -> CR ∉ header_line h /\ header_line h <> [].
Proof.
  intros [H1 H2]%andb_true_iff. split; [|by destruct h as [[|]]].
  assert (CR ∉ h.1 /\ CR ∉ h.2) as [N1 N2].
  { split; (eapply not_in_byte; [reflexivity|lia|]); [|exact H2]. eapply forallb_impl; [|exact H1].
    by intros b [_ ?]%andb_true_iff. }
  unfold header_line. rewrite !elem_of_app. intros [?|[Hc|?]]; [done| |done].
  revert Hc. apply (bool_decide_unpack _). vm_compute. done.
Qed.

Lemma block_lines method path headers : token_ok method = true -> token_ok path = true ->
  Forall (fun h => header_ok h = true) headers ->
  Forall (fun l => CR ∉ l /\ l <> []) (PyText.join [z2b 32] [method; path; s2l "HTTP/1.1"] :: (header_line <$> headers)).
Proof.
  intros Hm Hp Hh. constructor.
  - split; [|by destruct method]. apply token_parts in Hm as [_ Hm], Hp as [_ Hp].
    unfold PyText.join. cbn [fmap list_fmap concat]. rewrite app_nil_r. rewrite !not_elem_of_app.
    split_and!; try done; apply (bool_decide_unpack _); vm_compute; done.
  - apply Forall_fmap. eapply Forall_impl; [exact Hh|]. intros h. apply header_line_cr.
Qed.

(** The end of the block is where the blank line is, and not before. *)
Lemma find_blank l ls : Forall (fun l => CR ∉ l /\ l <> []) (l :: ls) ->
  find_b (crlf ++ crlf) (PyText.join crlf (l :: ls) ++ crlf ++ crlf) = Some (length (PyText.join crlf (l :: ls))).
Proof.
  revert l. induction ls as [|l' ls IH]; intros l [[Hl Hne] Hls]%Forall_cons; change (crlf ++ crlf) with (CR :: [z2b 10; CR; z2b 10]) at 1.
  - cbn [PyText.join fmap list_fmap concat]. rewrite app_nil_r. rewrite find_b_skip by done.
    rewrite find_b_hit by done. cbn. by rewrite Nat.add_0_r.
  - pose proof Hls as [[Hl' Hne'] _]%Forall_cons.
    assert (PyText.join crlf (l :: l' :: ls) = l ++ crlf ++ PyText.join crlf (l' :: ls)) as ->
      by (unfold PyText.join; cbn [fmap list_fmap concat]; by rewrite <- app_assoc).
    rewrite <- !app_assoc. rewrite find_b_skip by done. specialize (IH l' Hls).
    assert (exists b t, PyText.join crlf (l' :: ls) ++ crlf ++ crlf = b :: t /\ b <> CR) as (b & t & E & Hb).
    { destruct l' as [|b l']; [done|]. eexists b, _. split; [reflexivity|]. intros ->. apply Hl'. left. }
    change (CR :: [z2b 10; CR; z2b 10]) with (crlf ++ crlf). rewrite E in *. unfold crlf at 3. cbn [app].
    rewrite find_b_miss by (intros [=]; done). rewrite find_b_miss by (intros [=]; done). rewrite IH.
    cbn [fmap option_fmap option_map]. f_equal. rewrite !length_app. change (length crlf) with 2%nat. lia.
Qed.

Lemma rstrip_cons p (b : byte) l : p b = true -> lstrip_b p (rstrip_b p (b :: l)) = lstrip_b p (rstrip_b p l).
Proof. intros Hb. cbn [rstrip_b]. destruct (rstrip_b p l) as [|c r]; [by rewrite Hb|]. cbn [lstrip_b]. by rewrite Hb. Qed.

Definition header_step (d : list (str * str)) (h : bytes * bytes) : list (str * str) :=
  dset (lower (strip (decode_ascii_replace h.1))) (strip (l2s h.2)) d.

Lemma headers_of_lines headers : Forall (fun h => header_ok h = true) headers ->
  headers_of (header_line <$> headers) = foldl header_step [] headers.
Proof.
  unfold headers_of. generalize (@nil (str * str)) as d. intros d H. revert d.
  induction H as [|[k v] headers Hh _ IH]; intros d; [done|]. cbn [fmap list_fmap foldl].
  assert (partition_b (z2b 58) (header_line (k, v)) = (k, true, z2b 32 :: v)) as ->.
  { unfold header_line. cbn [fst snd app]. apply partition_b_app. apply andb_true_iff in Hh as [H1 _].
    eapply forallb_impl; [|exact H1]. intros b [Hb _]%andb_true_iff. by rewrite b2z_z2b_small. }
  rewrite IH. f_equal. unfold header_step. cbn [fst snd]. f_equal. unfold strip, strip_b. rewrite !s2l_l2s.
  by rewrite rstrip_cons.
Qed.

Lemma block_parts method path headers : token_ok method = true -> token_ok path = true ->
  Forall (fun h => header_ok h = true) headers ->
  exists line, split_b crlf (request_block method path headers) = line :: (header_line <$> headers) /\
    request_line line = Some (method, path).
Proof.
  intros Hm Hp Hh. eexists. split.
  - apply split_b_join. eapply Forall_impl; [by apply block_lines|]. by intros l [? _].
  - unfold request_line. rewrite split_b_join.
    + done.
    + repeat constructor; [by apply token_parts|by apply token_parts|]. apply (bool_decide_unpack _). vm_compute. done.
Qed.
