(* ===== verification/Gateway.v ===== *)
(** jnxweb/__main__.py: the web gateway put together.

    [gw] is the whole process: the reactor, the web state, the WebSocket hub, the
    snapshot bootstrap, the HTTP connections and both kinds of jnxdb queries.  What
    the sockets and clocks return is a script ([genv]); sockets are numbers that are
    never reused.  The page, the JSON parser for browser frames and the text of a
    float are parameters. *)
From S2P Require Export Snapshot Httpd.

#[global] Set Default Goal Selector "!".

Definition STATS_INTERVAL : Z := 5000.

Inductive gw_cb : Type :=
| GWs (i : nat) (cb : ws_cb) | GHttp (i : nat) (cb : http_cb) | GOrders (i : nat) (cb : query_cb)
| GSnap (i : nat) (cb : query_cb) | GBoot (cb : boot_cb) | GAccept | GMcast | GStats.

(** What the environment answers next; a list that has run out blocks. *)
Record genv : Type := mkGenv {
  e_now : Z; e_wall : Z; e_next_sock : nat;
  e_recvs : list recv_res; e_sends : list send_res; e_connects : list connect_res; e_so_errors : list Z;
  e_accepts : list nat; e_datagrams : list bytes; e_closed : list nat; e_wire : list (nat * bytes) }.

Record gw : Type := mkGw {
  g_rx : Reactor gw_cb; g_st : State; g_hub : WsHub; g_boot : SnapshotBootstrap; g_conns : list HttpConnection;
  g_orders : list (Query orders_done); g_snaps : list (Query snap_done); g_env : genv }.

Definition g_set_rx (x : Reactor gw_cb) (w : gw) : gw :=
  mkGw x (g_st w) (g_hub w) (g_boot w) (g_conns w) (g_orders w) (g_snaps w) (g_env w).
Definition g_set_st (x : State) (w : gw) : gw :=
  mkGw (g_rx w) x (g_hub w) (g_boot w) (g_conns w) (g_orders w) (g_snaps w) (g_env w).
Definition g_set_hub (x : WsHub) (w : gw) : gw :=
  mkGw (g_rx w) (g_st w) x (g_boot w) (g_conns w) (g_orders w) (g_snaps w) (g_env w).
Definition g_set_boot (x : SnapshotBootstrap) (w : gw) : gw :=
  mkGw (g_rx w) (g_st w) (g_hub w) x (g_conns w) (g_orders w) (g_snaps w) (g_env w).
Definition g_set_conns (x : list HttpConnection) (w : gw) : gw :=
  mkGw (g_rx w) (g_st w) (g_hub w) (g_boot w) x (g_orders w) (g_snaps w) (g_env w).
Definition g_set_orders (x : list (Query orders_done)) (w : gw) : gw :=
  mkGw (g_rx w) (g_st w) (g_hub w) (g_boot w) (g_conns w) x (g_snaps w) (g_env w).
Definition g_set_snaps (x : list (Query snap_done)) (w : gw) : gw :=
  mkGw (g_rx w) (g_st w) (g_hub w) (g_boot w) (g_conns w) (g_orders w) x (g_env w).
Definition g_set_env (x : genv) (w : gw) : gw :=
  mkGw (g_rx w) (g_st w) (g_hub w) (g_boot w) (g_conns w) (g_orders w) (g_snaps w) x.

(** The next answer of a script. *)
Definition pop {A} (d : A) (get : genv -> list A) (set : list A -> genv -> genv) : M gw A := fun w =>
  match get (g_env w) with
  | [] => (w, Ok d)
  | a :: l => (g_set_env (set l (g_env w)) w, Ok a)
  end.
Definition e_set_recvs (x : list recv_res) (e : genv) : genv :=
  mkGenv (e_now e) (e_wall e) (e_next_sock e) x (e_sends e) (e_connects e) (e_so_errors e) (e_accepts e) (e_datagrams e) (e_closed e) (e_wire e).
Definition e_set_sends (x : list send_res) (e : genv) : genv :=
  mkGenv (e_now e) (e_wall e) (e_next_sock e) (e_recvs e) x (e_connects e) (e_so_errors e) (e_accepts e) (e_datagrams e) (e_closed e) (e_wire e).
Definition e_set_connects (x : list connect_res) (e : genv) : genv :=
  mkGenv (e_now e) (e_wall e) (e_next_sock e) (e_recvs e) (e_sends e) x (e_so_errors e) (e_accepts e) (e_datagrams e) (e_closed e) (e_wire e).
Definition e_set_so_errors (x : list Z) (e : genv) : genv :=
  mkGenv (e_now e) (e_wall e) (e_next_sock e) (e_recvs e) (e_sends e) (e_connects e) x (e_accepts e) (e_datagrams e) (e_closed e) (e_wire e).
Definition e_set_in (accepts : list nat) (datagrams : list bytes) (e : genv) : genv :=
  mkGenv (e_now e) (e_wall e) (e_next_sock e) (e_recvs e) (e_sends e) (e_connects e) (e_so_errors e) accepts datagrams (e_closed e) (e_wire e).
Definition e_close (s : nat) (e : genv) : genv :=
  mkGenv (e_now e) (e_wall e) (e_next_sock e) (e_recvs e) (e_sends e) (e_connects e) (e_so_errors e) (e_accepts e)
    (e_datagrams e) (e_closed e ++ [s]) (e_wire e).
Definition e_new_sock (e : genv) : genv :=
  mkGenv (e_now e) (e_wall e) (S (e_next_sock e)) (e_recvs e) (e_sends e) (e_connects e) (e_so_errors e) (e_accepts e)
    (e_datagrams e) (e_closed e) (e_wire e).

Definition e_sent (s : nat) (data : bytes) (e : genv) : genv :=
  mkGenv (e_now e) (e_wall e) (e_next_sock e) (e_recvs e) (e_sends e) (e_connects e) (e_so_errors e) (e_accepts e)
    (e_datagrams e) (e_closed e) (e_wire e ++ [(s, data)]).

Definition g_recv : M gw recv_res := pop RecvBlock e_recvs e_set_recvs.
(** What [send] takes goes on the wire. *)
Definition g_send (sock : nat) (data : bytes) : M gw send_res :=
  r ← pop SendBlock e_sends e_set_sends;
  (match r with
   | SendBytes n => mmod (fun w => g_set_env (e_sent sock (take n data) (g_env w)) w)
   | _ => mret ()
   end) ;;
  mret r.
Definition g_close (s : nat) : M gw () := mmod (fun w => g_set_env (e_close s (g_env w)) w).
Definition g_socket : M gw nat := fun w => (g_set_env (e_new_sock (g_env w)) w, Ok (e_next_sock (g_env w))).

#[export] Instance gw_reactor : ReactorOf gw gw_cb :=
  {| rx := g_rx; set_rx := g_set_rx; monotonic := mgets (fun w => e_now (g_env w)) |}.
#[export] Instance gw_state : StateOf gw := {| st := g_st; set_st := g_set_st |}.
#[export] Instance gw_bootof : BootOf gw gw_cb :=
  {| boot := g_boot; set_boot := g_set_boot; boot_name := GBoot; boot_time := mgets (fun w => e_wall (g_env w)) |}.

Definition query_ops {D} (qs : gw -> list (Query D)) (set : list (Query D) -> gw -> gw) (name : nat -> query_cb -> gw_cb) :
    QueryOf gw gw_cb D := {|
  queries := qs; set_queries := set; query_name := name; query_socket := g_socket;
  query_connect := fun _ => pop ConnectPending e_connects e_set_connects;
  query_so_error := fun _ => pop 0 e_so_errors e_set_so_errors;
  query_recv := fun _ => g_recv; query_send := g_send; query_close := g_close;
  query_strerror := mret "" |}.
#[export] Instance gw_orders : QueryOf gw gw_cb orders_done := query_ops g_orders g_set_orders GOrders.
#[export] Instance gw_snaps : QueryOf gw gw_cb snap_done := query_ops g_snaps g_set_snaps GSnap.

Section gateway.
  Context (html : bytes) (has_db : bool) (repr : Z -> bytes) (sub : bytes -> option str).

#[local] Instance gw_ws : WsOf gw gw_cb := {|
  hub := g_hub; set_hub := g_set_hub; ws_name := GWs; ws_recv := fun _ => g_recv; ws_send := g_send;
  ws_close := g_close; ws_sub := sub |}.
#[local] Instance gw_http : HttpOf gw gw_cb := {|
  conns := g_conns; set_conns := g_set_conns; http_name := GHttp; http_recv := fun _ => g_recv;
  http_send := g_send; http_close := g_close; page_html := html; db_query_addr := has_db;
  http_time := mgets (fun w => e_wall (g_env w)); float_repr := repr |}.

(** [main]'s [on_ticker_update] and [on_restart]. *)
#[local] Instance gw_callbacks : StateCallbacks gw := {|
  on_ticker_update := hub_on_ticker_update;
  on_restart := fun epoch => hub_on_restart epoch ;; boot_on_restart epoch |}.

Definition log_stats : M gw () := schedule STATS_INTERVAL GStats ;; mret ().

(** The sockets waiting to be accepted, the datagrams waiting to be read. *)
Definition gw_accept : M gw () :=
  w ← mget;
  mmod (g_set_env (e_set_in [] (e_datagrams (g_env w)) (g_env w))) ;; _on_accept (e_accepts (g_env w)).
Definition gw_mcast : M gw () :=
  w ← mget;
  mmod (g_set_env (e_set_in (e_accepts (g_env w)) [] (g_env w))) ;;
  mcast_on_readable ((fun d => (d, e_wall (g_env w))) <$> e_datagrams (g_env w)).

Definition run_gw_cb (cb : gw_cb) : M gw () :=
  match cb with
  | GWs i c => run_ws_cb i c
  | GHttp i c => run_http_cb i c
  | GOrders i c => run_orders_cb i c
  | GSnap i c => run_snap_cb i c
  | GBoot c => run_boot_cb c
  | GAccept => gw_accept
  | GMcast => gw_mcast
  | GStats => log_stats
  end.

#[local] Instance gw_loop : LoopOf gw gw_cb := {| run_cb := run_gw_cb; select := fun _ => mret [] |}.
End gateway.

Definition gw_init (has_db : bool) (e : genv) : gw :=
  mkGw (set_running true reactor_init) (state_init (e_wall e)) hub_init (boot_init has_db) [] [] [] e.
Definition env_init : genv := mkGenv 0 0 10 [] [] [] [] [] [] [] [].

(** * HTTP: reading a request and writing the response in any pieces *)

Section serve.
  Context (html : bytes) (has_db : bool) (repr : Z -> bytes) (sub : bytes -> option str).

#[local] Existing Instance gw_ws.
Notation run := (run_gw_cb html has_db repr sub).
#[local] Instance http : HttpOf gw gw_cb := gw_http html has_db repr.
#[local] Instance wsi : WsOf gw gw_cb := gw_ws sub.

(** One read of connection [i]; one write that takes [n] bytes. *)
Definition recv_piece (i : nat) (c : bytes) : M gw () :=
  mmod (fun w => g_set_env (e_set_recvs [RecvData c] (g_env w)) w) ;; run (GHttp i HReadable).
Definition send_piece (i : nat) (n : nat) : M gw () :=
  mmod (fun w => g_set_env (e_set_sends [SendBytes n] (g_env w)) w) ;; run (GHttp i HWritable).

(** What has gone out on a socket. *)
Definition sent (sock : nat) (e : genv) : bytes :=
  concat ((fun x => if (x.1 =? sock)%nat then x.2 else []) <$> e_wire e).

(** The status, content type and body of the answer to a GET. *)
Definition answer (s : State) (wall : Z) (path : bytes) : Z * str * bytes :=
  let js := "application/json" in
  if decide (path = s2l "/") then (200, "text/html; charset=utf-8", html)
  else if decide (path = s2l "/tickers") then (200, js, dumps (JList (JStr <$> ticker_list s)))
  else if startswith (s2l "/snap/") path then
    match snapshot (l2s (drop 6 path)) s with
    | Some snap => (200, js, dumps (json_of_snapshot snap))
    | None => (404, js, dumps (error_json "unknown"))
    end
  else if startswith (s2l "/orders/") path then (503, js, dumps (error_json "db query not configured"))
  else if decide (path = s2l "/stats") then (200, js, dumps (stats_json repr wall s))
  else (404, js, dumps (error_json "not found")).
Definition response (a : Z * str * bytes) : bytes := response_head a.1.1 a.1.2 (zlen a.2) ++ a.2.

(** The world when a whole request has been read. *)
Definition requested (i : nat) (req : bytes) (c : HttpConnection) (w : gw) : gw :=
  g_set_rx (unregister_read (c_sock c) (g_rx w))
    (g_set_conns (<[i := c_set_recv req c]> (g_conns w)) (g_set_env (e_set_recvs [] (g_env w)) w)).

Lemma alter_insert_g {A} (f : A -> A) i (l : list A) c : l !! i = Some c -> alter f i l = <[i := f c]> l.
Proof. revert i. induction l as [|x l IH]; intros [|i] E; cbn in *; [done|done|by injection E as ->|]. f_equal. by apply IH. Qed.

Lemma recv_env sock r w : http_recv sock (g_set_env (e_set_recvs [r] (g_env w)) w)
  = (g_set_env (e_set_recvs [] (g_env w)) w, Ok r).
Proof. reflexivity. Qed.

(** A read that does not complete the header block, and the one that does. *)
Lemma recv_more i c d w : g_conns w !! i = Some c -> d <> [] -> zlen (c_recv_buf c ++ d) <= _MAX_REQUEST_HEADER_BYTES ->
  find_b (crlf ++ crlf) (c_recv_buf c ++ d) = None ->
  recv_piece i d w = (g_set_conns (<[i := c_set_recv (c_recv_buf c ++ d) c]> (g_conns w))
                        (g_set_env (e_set_recvs [] (g_env w)) w), Ok ()).
Proof.
  intros Hi Hd Hl Hf. unfold recv_piece. unfold mbind, M_bind, mmod. cbn [run_gw_cb run_http_cb].
  unfold http_on_readable, with_http. cbn [conns http gw_http]. cbn [g_set_env g_conns]. rewrite Hi.
  unfold mbind at 1, M_bind at 1. rewrite recv_env.
  destruct d as [|x d]; [done|]. cbv zeta. unfold mod_http. unfold mbind at 1, M_bind at 1, mmod.
  rewrite (proj2 (Z.ltb_ge _ _)) by done. rewrite Hf. cbn [conns set_conns http gw_http].
  unfold mret, M_ret. cbn. by rewrite (alter_insert_g _ _ _ _ Hi).
Qed.

Lemma recv_last i c d n w : g_conns w !! i = Some c -> d <> [] -> zlen (c_recv_buf c ++ d) <= _MAX_REQUEST_HEADER_BYTES ->
  find_b (crlf ++ crlf) (c_recv_buf c ++ d) = Some n ->
  recv_piece i d w = _handle_request i (take n (c_recv_buf c ++ d)) (requested i (c_recv_buf c ++ d) c w).
Proof.
  intros Hi Hd Hl Hf. unfold recv_piece. unfold mbind, M_bind, mmod. cbn [run_gw_cb run_http_cb].
  unfold http_on_readable, with_http. cbn [conns http gw_http]. cbn [g_set_env g_conns]. rewrite Hi.
  unfold mbind at 1, M_bind at 1. rewrite recv_env.
  destruct d as [|x d]; [done|]. cbv zeta. unfold mod_http, mod_rx. unfold mbind at 1, M_bind at 1, mmod.
  rewrite (proj2 (Z.ltb_ge _ _)) by done. rewrite Hf. unfold mbind, M_bind. cbn [conns set_conns http gw_http].
  cbn [g_conns g_set_env]. rewrite (alter_insert_g _ _ _ _ Hi). reflexivity.
Qed.

Lemma recv_long i c d w : g_conns w !! i = Some c -> d <> [] -> _MAX_REQUEST_HEADER_BYTES < zlen (c_recv_buf c ++ d) ->
  recv_piece i d w = (requested i (c_recv_buf c ++ d) c w, Raise AttributeError).
Proof.
  intros Hi Hd Hl. unfold recv_piece. unfold mbind, M_bind, mmod. cbn [run_gw_cb run_http_cb].
  unfold http_on_readable, with_http. cbn [conns http gw_http]. cbn [g_set_env g_conns]. rewrite Hi.
  unfold mbind at 1, M_bind at 1. rewrite recv_env.
  destruct d as [|x d]; [done|]. cbv zeta. unfold mod_http, mod_rx. unfold mbind at 1, M_bind at 1, mmod.
  rewrite (proj2 (Z.ltb_lt _ _)) by done. unfold mbind, M_bind. cbn [conns set_conns http gw_http].
  cbn [g_conns g_set_env]. rewrite (alter_insert_g _ _ _ _ Hi). reflexivity.
Qed.

Lemma recv_request i block chunks : chunks <> [] -> Forall (fun d => d <> []) chunks ->
  find_b (crlf ++ crlf) (block ++ crlf ++ crlf) = Some (length block) ->
  zlen (block ++ crlf ++ crlf) <= _MAX_REQUEST_HEADER_BYTES ->
  forall c w, g_conns w !! i = Some c -> c_recv_buf c ++ concat chunks = block ++ crlf ++ crlf ->
  mfor chunks (recv_piece i) w = _handle_request i block (requested i (block ++ crlf ++ crlf) c w).
Proof.
  intros Hn Hne Hf Hl. induction Hne as [|d chunks Hd Hne IH]; intros c w Hi E; [done|].
  cbn [concat] in E. rewrite app_assoc in E. cbn [mfor].
  assert (zlen (c_recv_buf c ++ d) <= _MAX_REQUEST_HEADER_BYTES) as Hl1.
  { etransitivity; [|exact Hl]. rewrite <- E, (zlen_app (c_recv_buf c ++ d)). pose proof (zlen_nonneg (concat chunks)). lia. }
  destruct chunks as [|d' chunks].
  - cbn [concat] in E. rewrite app_nil_r in E. unfold mbind, M_bind.
    rewrite (recv_last i c d (length block)) by (done || by rewrite E). rewrite E, take_app_length.
    destruct (_handle_request i block _) as [w' [[]|e]]; done.
  - unfold mbind, M_bind. pose proof (lookup_lt_Some _ _ _ Hi) as Hlt.
    rewrite (recv_more i c d); [|done|done|done|].
    2: { rewrite <- E in Hf. eapply find_b_prefix; [done|exact Hf|].
         apply (f_equal length) in E. rewrite length_app in E. rewrite !length_app in E. apply Forall_cons in Hne as [Hd' _].
         destruct d'; [done|]. cbn in E. rewrite !length_app. cbn. lia. }
    rewrite (IH ltac:(done) (c_set_recv (c_recv_buf c ++ d) c)).
    + unfold requested. cbn. by rewrite list_insert_insert_eq.
    + by apply list_lookup_insert_eq.
    + exact E.
Qed.

(** A response is queued: the connection closes once it is out. *)
Definition responding (i : nat) (c : HttpConnection) (data : bytes) (after : after_flush) (w : gw) : gw :=
  g_set_rx (register_write (c_sock c) (GHttp i HWritable) (g_rx w))
    (g_set_conns (<[i := mkHttp (c_sock c) (c_recv_buf c) (c_send_buf c ++ data) after]> (g_conns w)) w).

Lemma http_enqueue_run i c data after w : g_conns w !! i = Some c ->
  (mod_http i (c_set_after after) ;; http_enqueue i data) w = (responding i c data after w, Ok ()).
Proof.
  intros Hi. pose proof (lookup_lt_Some _ _ _ Hi) as Hlt.
  unfold http_enqueue, mod_http, with_http, mod_rx. munfold. cbn [conns set_conns http gw_http g_conns g_set_conns].
  rewrite (alter_insert_g _ _ _ _ Hi), (alter_insert_g _ _ _ _ (list_lookup_insert_eq _ _ _ Hlt)), list_insert_insert_eq.
  rewrite list_lookup_insert_eq by done. reflexivity.
Qed.

Lemma route_answer i path headers w : path <> s2l "/ws" -> (startswith (s2l "/orders/") path = true -> has_db = false) ->
  let a := answer (g_st w) (e_wall (g_env w)) path in
  route i path headers w = _respond i a.1.1 a.2 a.1.2 w.
Proof.
  intros Hws Hdb a. subst a. unfold route, answer, http_state, respond_html, respond_json, _json_bytes.
  case_decide; [reflexivity|]. case_decide; [reflexivity|].
  destruct (startswith (s2l "/snap/") path).
  { unfold mbind, M_bind, mgets. cbn [st gw_state]. by destruct (snapshot _ _). }
  destruct (startswith (s2l "/orders/") path).
  { unfold _handle_orders. cbn [db_query_addr http gw_http]. by rewrite (Hdb eq_refl). }
  case_decide; [reflexivity|]. by rewrite decide_False.
Qed.

(** The number of bytes each [send] takes: enough of them, none after the last byte. *)
Fixpoint enough (len : nat) (ns : list nat) : Prop :=
  match ns with
  | [] => False
  | [n] => (0 < len <= n)%nat
  | n :: ns' => (0 < n < len)%nat /\ enough (len - n) ns'
  end.

Lemma send_env sock r data w : http_send sock data (g_set_env (e_set_sends [r] (g_env w)) w)
  = (g_set_env (match r with SendBytes n => e_sent sock (take n data) | _ => id end (e_set_sends [] (g_env w))) w, Ok r).
Proof. by destruct r. Qed.

Definition wrote (sock : nat) (ds : list bytes) (e : genv) : genv :=
  foldl (fun e d => e_sent sock d e) (e_set_sends [] e) ds.

(** The end of a response: what [_after_flush] says. *)
Definition flushed (i : nat) (c : HttpConnection) (after : after_flush) (w : gw) : gw :=
  g_set_rx (unregister_write (c_sock c) (g_rx w))
    (g_set_conns (<[i := mkHttp (c_sock c) (c_recv_buf c) [] ThenNothing]> (g_conns w)) w).
Definition after_action (i : nat) (after : after_flush) : M gw () :=
  match after with ThenClose => http_conn_close i | ThenUpgrade => _complete_ws_upgrade i | ThenNothing => mret () end.

Lemma sent_wrote sock ds e : sent sock (wrote sock ds e) = sent sock e ++ concat ds.
Proof.
  unfold wrote. assert (sent sock (e_set_sends [] e) = sent sock e) as <- by done. generalize (e_set_sends [] e) as e0.
  induction ds as [|d ds IH]; intros e0; cbn [foldl concat]; [by rewrite app_nil_r|].
  rewrite IH. unfold sent. cbn [e_wire e_sent]. rewrite fmap_app, concat_app. cbn. rewrite Nat.eqb_refl, app_nil_r.
  by rewrite <- app_assoc.
Qed.

Lemma send_response i ns : forall c w, g_conns w !! i = Some c -> enough (length (c_send_buf c)) ns ->
  exists ds, concat ds = c_send_buf c /\
    mfor ns (send_piece i) w =
      after_action i (_after_flush c) (flushed i c (_after_flush c) (g_set_env (wrote (c_sock c) ds (g_env w)) w)).
Proof.
  assert (forall n c w, g_conns w !! i = Some c -> c_send_buf c <> [] ->
    send_piece i n w =
      let w1 := g_set_env (wrote (c_sock c) [take n (c_send_buf c)] (g_env w)) w in
      if decide (drop n (c_send_buf c) = []) then after_action i (_after_flush c) (flushed i c (_after_flush c) w1)
      else (g_set_conns (<[i := c_set_send (drop n (c_send_buf c)) c]> (g_conns w)) w1, Ok ())) as Hstep.
  { intros n c w Hi Hne. pose proof (lookup_lt_Some _ _ _ Hi) as Hlt.
    unfold send_piece. unfold mbind, M_bind, mmod. cbn [run_gw_cb run_http_cb].
    unfold http_on_writable, with_http. cbn [conns http gw_http]. cbn [g_set_env g_conns]. rewrite Hi.
    rewrite decide_False by done. unfold mbind at 1, M_bind at 1. rewrite send_env. cbv zeta.
    unfold mod_http, mod_rx, mmod. unfold mbind, M_bind. cbn [conns set_conns http gw_http g_conns g_set_env].
    rewrite (alter_insert_g _ _ _ _ Hi). case_decide as E; [|reflexivity].
    cbn [conns set_conns http gw_http g_conns g_set_env g_set_conns rx set_rx gw_reactor g_rx g_set_rx].
    rewrite (alter_insert_g _ _ _ _ (list_lookup_insert_eq _ _ _ Hlt)), list_insert_insert_eq. rewrite E.
    unfold after_action, flushed. by destruct (_after_flush c). }
  induction ns as [|n ns IH]; intros c w Hi He; [done|]. destruct ns as [|n' ns].
  - exists [take n (c_send_buf c)]. cbn in He.
    assert (c_send_buf c <> []) as Hne by (destruct (c_send_buf c); [cbn in He; lia|done]).
    cbn [concat mfor]. rewrite app_nil_r. split; [apply take_ge; lia|].
    unfold mbind, M_bind. rewrite (Hstep n c w Hi Hne). cbv zeta. rewrite decide_True by (apply drop_ge; lia).
    destruct (after_action _ _ _) as [w' [[]|e]]; done.
  - destruct He as [Hn He]. pose proof (lookup_lt_Some _ _ _ Hi) as Hlt.
    assert (c_send_buf c <> []) as Hne by (destruct (c_send_buf c); [cbn in Hn; lia|done]).
    set (c1 := c_set_send (drop n (c_send_buf c)) c). set (w1 := g_set_conns (<[i := c1]> (g_conns w))
      (g_set_env (wrote (c_sock c) [take n (c_send_buf c)] (g_env w)) w)).
    destruct (IH c1 w1) as (ds & Hds & E).
    { by apply list_lookup_insert_eq. }
    { unfold c1. cbn [c_send_buf c_set_send]. by rewrite length_drop. }
    exists (take n (c_send_buf c) :: ds). cbn [concat]. rewrite Hds. split; [apply take_drop|].
    change (mfor (n :: n' :: ns) (send_piece i)) with (send_piece i n ;; mfor (n' :: ns) (send_piece i)).
    unfold mbind at 1, M_bind at 1. rewrite (Hstep n c w Hi Hne). cbv zeta. rewrite decide_False.
    2: { intros Ed%(f_equal length). rewrite length_drop in Ed. cbn in Ed. lia. }
    fold c1 w1. rewrite E. unfold flushed, w1, c1. cbn. by rewrite list_insert_insert_eq.
Qed.

(** ** A connection, from its accept to the routed request *)

Definition accepted (sock : nat) (w : gw) : gw :=
  g_set_rx (register_read sock (GHttp (length (g_conns w)) HReadable) (g_rx w))
    (g_set_conns (g_conns w ++ [mkHttp sock [] [] ThenClose]) w).

Lemma accept_run sock w : http_accept sock w = (accepted sock w, Ok ()).
Proof. reflexivity. Qed.

Lemma accepted_conn sock w : g_conns (accepted sock w) !! length (g_conns w) = Some (mkHttp sock [] [] ThenClose).
Proof. cbn. rewrite lookup_app_r by done. by rewrite Nat.sub_diag. Qed.

Definition request_ok (method path : bytes) (headers : list (bytes * bytes)) : Prop :=
  token_ok method = true /\ token_ok path = true /\ Forall (fun h => header_ok h = true) headers /\
  zlen (http_request method path headers) <= _MAX_REQUEST_HEADER_BYTES.

Lemma request_run method path headers sock chunks w : request_ok method path headers ->
  Forall (fun d => d <> []) chunks -> concat chunks = http_request method path headers ->
  let i := length (g_conns w) in
  (http_accept sock ;; mfor chunks (recv_piece i)) w =
    (if decide (method <> s2l "GET") then _respond_json i 405 (error_json "method not allowed")
     else route i path (foldl header_step [] headers))
      (requested i (http_request method path headers) (mkHttp sock [] [] ThenClose) (accepted sock w)).
Proof.
  intros (Hm & Hp & Hh & Hl) Hne E i. unfold mbind, M_bind. rewrite accept_run.
  rewrite (recv_request i (request_block method path headers) chunks) with (c := mkHttp sock [] [] ThenClose).
  - unfold _handle_request. destruct (block_parts method path headers Hm Hp Hh) as (line & -> & ->).
    rewrite headers_of_lines by done. by destruct (decide (method <> s2l "GET")).
  - intros ->. cbn in E. symmetry in E. unfold http_request in E. by apply app_eq_nil in E as [_ ?].
  - done.
  - unfold request_block. apply find_blank. by apply block_lines.
  - done.
  - apply accepted_conn.
  - exact E.
Qed.

(** The callbacks of the new connection's socket while its request is read, and after. *)
Lemma requested_cbs req c sock w s : interest_inv (g_rx w) -> c_sock c = sock ->
  let w1 := requested (length (g_conns w)) req c (accepted sock w) in
  interest_inv (g_rx w1) /\
  cbs_of (g_rx w1) s = if decide (s = sock) then (None, (cbs_of (g_rx w) s).2) else cbs_of (g_rx w) s.
Proof.
  intros Hr <- w1. cbn. unfold unregister_read, register_read.
  split; [by apply set_interest_inv, set_interest_inv|].
  rewrite cbs_set_interest by by apply set_interest_inv. rewrite !cbs_set_interest by done.
  case_decide; [|done]. subst. by rewrite decide_True.
Qed.

Lemma wrote_env sock ds e : e_closed (wrote sock ds e) = e_closed e /\ e_wall (wrote sock ds e) = e_wall e /\
  e_recvs (wrote sock ds e) = e_recvs e.
Proof.
  unfold wrote. assert (forall e0, e_closed (foldl (fun e d => e_sent sock d e) e0 ds) = e_closed e0 /\
    e_wall (foldl (fun e d => e_sent sock d e) e0 ds) = e_wall e0 /\
    e_recvs (foldl (fun e d => e_sent sock d e) e0 ds) = e_recvs e0) as H.
  { induction ds as [|d ds IH]; intros e0; [done|]. cbn [foldl]. by destruct (IH (e_sent sock d e0)) as (-> & -> & ->). }
  by destruct (H (e_set_sends [] e)) as (-> & -> & ->).
Qed.

(** The whole connection but its end: the request in any pieces, the response [data]
    in any pieces. *)
Lemma exchange_run method path headers sock chunks ns data after w :
  request_ok method path headers -> Forall (fun d => d <> []) chunks ->
  concat chunks = http_request method path headers -> method = s2l "GET" ->
  let i := length (g_conns w) in
  let c := mkHttp sock (http_request method path headers) [] ThenClose in
  let w1 := requested i (http_request method path headers) (mkHttp sock [] [] ThenClose) (accepted sock w) in
  route i path (foldl header_step [] headers) w1 = (responding i c data after w1, Ok ()) ->
  enough (length data) ns ->
  exists ds, concat ds = data /\
    (http_accept sock ;; mfor chunks (recv_piece i) ;; mfor ns (send_piece i)) w =
    after_action i after (flushed i (mkHttp sock (http_request method path headers) data after) after
      (g_set_env (wrote sock ds (e_set_recvs [] (g_env w))) (responding i c data after w1))).
Proof.
  intros Hok Hne E Hm i c w1 Hroute Hns.
  pose proof (request_run method path headers sock chunks w Hok Hne E) as Hr. cbv zeta in Hr. fold i w1 in Hr.
  rewrite decide_False in Hr by (intros H; by apply H). rewrite Hroute in Hr.
  destruct (send_response i ns (mkHttp sock (http_request method path headers) data after) (responding i c data after w1))
    as (ds & Hds & Es); [|exact Hns|].
  { cbn. apply list_lookup_insert_eq. rewrite length_insert, length_app. cbn. unfold i. lia. }
  exists ds. split; [exact Hds|]. revert Hr. unfold mbind, M_bind. rewrite accept_run. intros ->. exact Es.
Qed.

Lemma close_run i c w : g_conns w !! i = Some c ->
  http_conn_close i w = (g_set_env (e_close (c_sock c) (g_env w)) (g_set_rx (unregister (c_sock c) (g_rx w)) w), Ok ()).
Proof. intros Hi. unfold http_conn_close, with_http. cbn [conns http gw_http]. rewrite Hi. reflexivity. Qed.

Lemma upgrade_run i c w : g_conns w !! i = Some c ->
  let k := length (ws_objs (g_hub w)) in
  _complete_ws_upgrade i w =
    (g_set_hub (mkHub (ws_objs (g_hub w) ++ [ws_init (c_sock c)]) (clients (g_hub w) ++ [k]))
       (g_set_rx (register_read (c_sock c) (GWs k WsReadable) (g_rx w)) w), Ok ()).
Proof. intros Hi k. unfold _complete_ws_upgrade, with_http. cbn [conns http gw_http]. rewrite Hi. reflexivity. Qed.

(** ** /orders/<ticker>: jnxdb's reply in any pieces becomes the connection's response *)

Definition orders_piece (j : nat) (c : bytes) : M gw () :=
  mmod (fun w => g_set_env (e_set_recvs [RecvData c] (g_env w)) w) ;; run (GOrders j QReadable).

(** The world with [buf] read of query [j]'s reply. *)
Definition orders_got (j : nat) (buf : bytes) (q : Query orders_done) (w : gw) : gw :=
  g_set_orders (<[j := q_set_recv buf q]> (g_orders w)) (g_set_env (e_set_recvs [] (g_env w)) w).

(** A query that is over: its timer cancelled, its socket unregistered and closed. *)
Definition orders_over (j : nat) (q : Query orders_done) (w : gw) : gw :=
  let q1 := q_set_finished q in
  let w1 := match q_timer q with
            | Some h => g_set_orders (<[j := q_set_timer None q1]> (g_orders w)) (g_set_rx (timer_cancel h (g_rx w)) w)
            | None => g_set_orders (<[j := q1]> (g_orders w)) w
            end in
  g_set_env (e_close (q_sock q) (g_env w)) (g_set_rx (unregister (q_sock q) (g_rx w1)) w1).

Lemma query_over (on_end : orders_done -> M gw ()) j q w : g_orders w !! j = Some q -> q_finished q = false ->
  _finish on_end j w = on_end (q_done q) (orders_over j q w).
Proof.
  intros Hj Hf. pose proof (lookup_lt_Some _ _ _ Hj) as Hlt.
  unfold _finish, query_teardown, with_query, mod_query, mod_rx, mmod, mbind, M_bind.
  cbn [queries set_queries gw_orders query_ops]. rewrite Hj, Hf. cbn [queries set_queries gw_orders query_ops g_orders g_set_orders].
  rewrite (alter_insert_g _ _ _ _ Hj), (list_lookup_insert_eq _ _ _ Hlt).
  change (q_timer (q_set_finished q)) with (q_timer q). unfold orders_over. destruct (q_timer q) as [h|]; [|reflexivity].
  cbv zeta beta iota. cbn [set_rx rx gw_reactor g_set_rx g_rx g_orders g_set_orders].
  by rewrite (alter_insert_g _ _ _ _ (list_lookup_insert_eq _ _ _ Hlt)), list_insert_insert_eq.
Qed.

Lemma over_facts j q w : rx_inv (g_rx w) -> let w1 := orders_over j q w in
  g_env w1 = e_close (q_sock q) (g_env w) /\ g_conns w1 = g_conns w /\ rx_inv (g_rx w1) /\
  (forall s, cbs_of (g_rx w1) s = if decide (s = q_sock q) then (None, None) else cbs_of (g_rx w) s) /\
  forall h cb, armed (g_rx w1) h cb <-> armed (g_rx w) h cb /\ q_timer q <> Some h.
Proof.
  intros Hr w1. unfold w1, orders_over. destruct (q_timer q) as [h0|]; cbn [g_set_env g_set_rx g_set_orders g_rx g_env g_conns].
  - destruct (rx_cancel h0 _ Hr) as [Hr' Ha]. split_and!; [done|done|by apply rx_unregister| |].
    + intros s. rewrite cbs_unregister. by case_decide.
    + intros h cb. rewrite (armed_same _ _ h cb (proj1 (unregister_timers _ _))), Ha. naive_solver.
  - split_and!; [done|done|by apply rx_unregister| |].
    + intros s. apply cbs_unregister.
    + intros h cb. rewrite (armed_same _ _ h cb (proj1 (unregister_timers _ _))). naive_solver.
Qed.

(** What the reactor has left of a socket that was written and closed. *)
Lemma closed_facts sock cb0 (r : Reactor gw_cb) : rx_inv r ->
  let r' := unregister sock (unregister_write sock (register_write sock cb0 r)) in
  rx_inv r' /\ (forall s, cbs_of r' s = if decide (s = sock) then (None, None) else cbs_of r s) /\
  forall h cb, armed r' h cb <-> armed r h cb.
Proof.
  intros Hr r'. split_and!.
  - by apply rx_unregister, rx_interest, rx_interest.
  - intros s. unfold r'. rewrite cbs_unregister. case_decide; [done|]. destruct Hr as [Hi _ _].
    unfold unregister_write, register_write. rewrite !cbs_set_interest by auto using set_interest_inv.
    by rewrite !decide_False.
  - intros h cb. apply armed_same. unfold r', unregister_write, register_write.
    rewrite (proj1 (unregister_timers _ _)). by rewrite !(proj1 (set_interest_timers _ _ _ _)).
Qed.

Lemma orders_more j q d w : g_orders w !! j = Some q -> d <> [] ->
  orders_piece j d w =
    (if complete_reply (q_recv_buf q ++ d)
     then _finish (fun x => on_orders_text x (decode_ascii_replace (q_recv_buf q ++ d))) j else mret ())
      (orders_got j (q_recv_buf q ++ d) q w).
Proof.
  intros Hj Hd. unfold orders_piece. unfold mbind, M_bind, mmod. cbn [run_gw_cb]. unfold run_orders_cb. cbn [run_query_cb].
  unfold query_on_readable, with_query. cbn [queries gw_orders query_ops g_orders g_set_env]. rewrite Hj.
  unfold mbind at 1, M_bind at 1.
  change (query_recv (q_sock q) (g_set_env (e_set_recvs [RecvData d] (g_env w)) w))
    with (g_set_env (e_set_recvs [] (g_env w)) w, Ok (RecvData d)).
  destruct d as [|x d]; [done|]. cbv zeta. unfold mod_query. unfold mbind at 1, M_bind at 1, mmod.
  cbn [queries set_queries gw_orders query_ops g_orders g_set_env]. rewrite (alter_insert_g _ _ _ _ Hj).
  by destruct (complete_reply _).
Qed.

Lemma orders_read ls j chunks : Forall (fun l => line_ok l = true) ls -> Forall (fun c => c <> []) chunks -> chunks <> [] ->
  forall q w, g_orders w !! j = Some q -> q_recv_buf q ++ concat chunks = reply_of ls ->
  mfor chunks (orders_piece j) w =
    _finish (fun x => on_orders_text x (decode_ascii_replace (reply_of ls))) j (orders_got j (reply_of ls) q w).
Proof.
  intros Hls Hne. induction Hne as [|d chunks Hd Hne IH]; intros Hn q w Hj E; [done|].
  pose proof (lookup_lt_Some _ _ _ Hj) as Hlt. cbn [concat] in E. rewrite app_assoc in E.
  destruct chunks as [|d' chunks].
  - cbn [concat] in E. rewrite app_nil_r in E. cbn [mfor]. unfold mbind, M_bind. rewrite (orders_more j q d w Hj Hd), E.
    rewrite complete_whole. by destruct (_finish _ _ _) as [w' [[]|e]].
  - change (mfor (d :: d' :: chunks) (orders_piece j)) with (orders_piece j d ;; mfor (d' :: chunks) (orders_piece j)).
    unfold mbind at 1, M_bind at 1. rewrite (orders_more j q d w Hj Hd).
    rewrite (complete_prefix ls _ (concat (d' :: chunks)) Hls); [|by apply Forall_cons in Hne as [? _]; destruct d'|done].
    unfold mret, M_ret. cbv beta iota. rewrite (IH ltac:(done) (q_set_recv (q_recv_buf q ++ d) q)).
    + f_equal. unfold orders_got. cbn. by rewrite list_insert_insert_eq.
    + by apply list_lookup_insert_eq.
    + exact E.
Qed.

(** The response to an orders query. *)
Definition orders_page (ticker : str) (rows : list order_row) : bytes :=
  response (200, "application/json", dumps (JObj [("ticker", JStr ticker); ("orders", JList (json_of_order <$> rows))])).

Lemma respond_run i status body ctype c w : g_conns w !! i = Some c ->
  _respond i status body ctype w = (responding i c (response (status, ctype, body)) ThenClose w, Ok ()).
Proof. intros Hi. unfold _respond. by rewrite (http_enqueue_run i c). Qed.

(** Everything but one socket and its own, newest connection is as it was: the web state,
    the hub, the bootstrap, the other connections with their buffers, the queries, what
    went out on the other sockets, the callbacks of the other sockets and the timers. *)
Record elsewhere (sock : nat) (w w' : gw) : Prop := {
  el_st : g_st w' = g_st w;
  el_hub : g_hub w' = g_hub w;
  el_boot : g_boot w' = g_boot w;
  el_conns : exists c, g_conns w' = g_conns w ++ [c] /\ c_sock c = sock;
  el_queries : g_orders w' = g_orders w /\ g_snaps w' = g_snaps w;
  el_sent : forall s, s <> sock -> sent s (g_env w') = sent s (g_env w);
  el_cbs : forall s, s <> sock -> cbs_of (g_rx w') s = cbs_of (g_rx w) s;
  el_timers : timers (g_rx w') = timers (g_rx w) /\ running (g_rx w') = running (g_rx w) }.

Lemma sent_other s sock ds e : s <> sock -> sent s (wrote sock ds e) = sent s e.
Proof.
  intros Hs. unfold wrote. assert (sent s (e_set_sends [] e) = sent s e) as <- by done. generalize (e_set_sends [] e) as e0.
  induction ds as [|d ds IH]; intros e0; cbn [foldl]; [done|]. rewrite IH. unfold sent. cbn [e_wire e_sent].
  rewrite fmap_app, concat_app. cbn [fmap list_fmap fst snd concat]. rewrite (proj2 (Nat.eqb_neq _ _)) by congruence. by rewrite !app_nil_r.
Qed.

(** * Properties *)

(** C28. A plain GET, from the accept to the close, of any path but the upgrade's [/ws] and,
    when there is a jnxdb to ask, [/orders/...]: whatever pieces the request comes in and
    the socket takes the response in, what goes out on the socket is the response of the
    page that the path names, the socket is closed once, the reactor has no interest in
    it left, and nothing else is touched. *)
Theorem http_served path headers sock chunks ns w :
  request_ok (s2l "GET") path headers -> path <> s2l "/ws" ->
  (startswith (s2l "/orders/") path = true -> has_db = false) ->
  Forall (fun d => d <> []) chunks -> concat chunks = http_request (s2l "GET") path headers ->
  let i := length (g_conns w) in
  let page := response (answer (g_st w) (e_wall (g_env w)) path) in
  enough (length page) ns -> interest_inv (g_rx w) ->
  exists w', (http_accept sock ;; mfor chunks (recv_piece i) ;; mfor ns (send_piece i)) w = (w', Ok ()) /\
    sent sock (g_env w') = sent sock (g_env w) ++ page /\ e_closed (g_env w') = e_closed (g_env w) ++ [sock] /\
    interest_inv (g_rx w') /\ cbs_of (g_rx w') sock = (None, None) /\ elsewhere sock w w'.
Proof.
  intros Hok Hws Hdb Hne E i page Hns Hr.
  destruct (exchange_run (s2l "GET") path headers sock chunks ns page ThenClose w Hok Hne E eq_refl) as (ds & Hds & Ex);
    [|exact Hns|].
  { rewrite route_answer by done. apply (http_enqueue_run i (mkHttp sock (http_request (s2l "GET") path headers) [] ThenClose)).
    apply list_lookup_insert_eq. cbn. rewrite length_app. cbn. lia. }
  subst i. rewrite Ex. cbn [after_action]. rewrite close_run with (c := mkHttp sock (http_request (s2l "GET") path headers) [] ThenNothing).
  2: { apply list_lookup_insert_eq. cbn. rewrite !length_insert, length_app. cbn. lia. }
  eexists. split; [reflexivity|]. destruct (wrote_env sock ds (e_set_recvs [] (g_env w))) as (Hc & _).
  destruct (requested_cbs (http_request (s2l "GET") path headers) (mkHttp sock [] [] ThenClose) sock w sock Hr eq_refl) as [Hr1 _].
  split_and!.
  - rewrite <- Hds. apply (sent_wrote sock ds (e_set_recvs [] (g_env w))).
  - cbn. by rewrite Hc.
  - by apply unregister_inv, set_interest_inv, set_interest_inv.
  - cbn -[requested]. rewrite cbs_unregister. by rewrite decide_True.
  - split; [done..| |done| | |].
    + cbn. rewrite !insert_app_r_alt by done. rewrite Nat.sub_diag. cbn. by eexists.
    + intros s Hs. apply (sent_other s sock ds (e_set_recvs [] (g_env w)) Hs).
    + intros s Hs. cbn -[requested]. rewrite cbs_unregister, decide_False by done.
      unfold unregister_write, register_write. rewrite !cbs_set_interest by (done || by apply set_interest_inv).
      rewrite !decide_False by done.
      destruct (requested_cbs (http_request (s2l "GET") path headers) (mkHttp sock [] [] ThenClose) sock w s Hr eq_refl) as [_ E1].
      by rewrite decide_False in E1.
    + cbn. unfold unregister_write, register_write, unregister_read, register_read.
      rewrite (proj1 (unregister_timers _ _)), running_unregister, !running_set_interest.
      by rewrite !(proj1 (set_interest_timers _ _ _ _)).
Qed.

(** A WebSocket upgrade: the 101 with the accept key goes out and the socket, still
    open, is the hub's newest client, its reads the hub's. *)
Theorem ws_upgraded headers sock chunks ns w key accept :
  request_ok (s2l "GET") (s2l "/ws") headers ->
  let d := foldl header_step [] headers in
  lower (default "" (dget "upgrade" d)) = "websocket" -> dget "sec-websocket-version" d = Some "13" ->
  dget "sec-websocket-key" d = Some key -> key <> "" -> compute_accept_key key = Ok accept ->
  Forall (fun d => d <> []) chunks -> concat chunks = http_request (s2l "GET") (s2l "/ws") headers ->
  let i := length (g_conns w) in
  enough (length (upgrade_head accept)) ns -> interest_inv (g_rx w) ->
  let k := length (ws_objs (g_hub w)) in
  exists w', (http_accept sock ;; mfor chunks (recv_piece i) ;; mfor ns (send_piece i)) w = (w', Ok ()) /\
    sent sock (g_env w') = sent sock (g_env w) ++ upgrade_head accept /\ e_closed (g_env w') = e_closed (g_env w) /\
    g_hub w' = mkHub (ws_objs (g_hub w) ++ [ws_init sock]) (clients (g_hub w) ++ [k]) /\
    (forall s, cbs_of (g_rx w') s = if decide (s = sock) then (Some (GWs k WsReadable), None) else cbs_of (g_rx w) s) /\
    g_st w' = g_st w.
Proof.
  intros Hok d Hup Hver Hkey Hne0 Hacc Hne E i Hns Hr k. set (req := http_request (s2l "GET") (s2l "/ws") headers) in *.
  destruct (exchange_run (s2l "GET") (s2l "/ws") headers sock chunks ns (upgrade_head accept) ThenUpgrade w Hok Hne E eq_refl)
    as (ds & Hds & Ex); [|exact Hns|].
  { unfold route. rewrite !decide_False by done. rewrite decide_True by done. fold d. unfold _handle_ws_upgrade.
    rewrite Hup, Hver, Hkey. change (default "" (Some key)) with key. rewrite !bool_decide_true by done. rewrite bool_decide_false by done. cbn [andb negb].
    unfold upgrade_to_websocket, mlift, mbind at 1, M_bind at 1. rewrite Hacc.
    apply (http_enqueue_run i (mkHttp sock req [] ThenClose)). apply list_lookup_insert_eq. cbn. rewrite length_app. cbn. lia. }
  subst i. rewrite Ex. cbn [after_action].
  rewrite upgrade_run with (c := mkHttp sock req [] ThenNothing).
  2: { apply list_lookup_insert_eq. cbn. rewrite !length_insert, length_app. cbn. lia. }
  eexists. split; [reflexivity|]. destruct (wrote_env sock ds (e_set_recvs [] (g_env w))) as (Hc & _).
  split_and!; [| |done| |done].
  - rewrite <- Hds. apply (sent_wrote sock ds (e_set_recvs [] (g_env w))).
  - exact Hc.
  - intros s. destruct (requested_cbs req (mkHttp sock [] [] ThenClose) sock w s Hr eq_refl) as [Hr1 E1].
    set (w1 := requested _ _ _ _) in Hr1, E1.
    transitivity (cbs_of (_set_interest sock (SetTo (GWs k WsReadable)) Leave (_set_interest sock Leave Clear
      (_set_interest sock Leave (SetTo (GHttp (length (g_conns w)) HWritable)) (g_rx w1)))) s); [reflexivity|].
    rewrite !cbs_set_interest by auto using set_interest_inv. rewrite E1.
    case_decide; [by rewrite !(decide_True (P := sock = sock))|done].
Qed.

(** C40. The error answers that are never sent: a header block over 16 KiB, a request line
    that is not one, a method other than GET.  The handler calls a method the class
    does not have, so the read callback raises; nothing is queued or sent, the socket
    stays open, and the reactor no longer reads it. *)
Theorem bad_request_raises i c d w : g_conns w !! i = Some c -> d <> [] ->
  let buf := c_recv_buf c ++ d in
  _MAX_REQUEST_HEADER_BYTES < zlen buf \/
  (exists idx, find_b (crlf ++ crlf) buf = Some idx /\
     match split_b crlf (take idx buf) with l :: _ => forall path, request_line l <> Some (s2l "GET", path) | [] => False end) ->
  interest_inv (g_rx w) ->
  exists w', recv_piece i d w = (w', Raise AttributeError) /\
    e_wire (g_env w') = e_wire (g_env w) /\ e_closed (g_env w') = e_closed (g_env w) /\
    g_conns w' !! i = Some (c_set_recv buf c) /\ (cbs_of (g_rx w') (c_sock c)).1 = None.
Proof.
  intros Hi Hd buf Hbad Hr. exists (requested i buf c w). pose proof (lookup_lt_Some _ _ _ Hi) as Hlt.
  assert (forall w', w' = requested i buf c w -> e_wire (g_env w') = e_wire (g_env w) /\
    e_closed (g_env w') = e_closed (g_env w) /\ g_conns w' !! i = Some (c_set_recv buf c) /\
    (cbs_of (g_rx w') (c_sock c)).1 = None) as Hrest.
  { intros w' ->. split_and!; [done|done|by apply list_lookup_insert_eq|]. cbn. unfold unregister_read.
    rewrite cbs_set_interest by done. by rewrite decide_True. }
  split; [|by apply Hrest]. destruct (decide (_MAX_REQUEST_HEADER_BYTES < zlen buf)) as [Hlong|Hshort].
  - by apply recv_long.
  - destruct Hbad as [|(idx & Hf & Hl)]; [done|]. rewrite (recv_last i c d idx) by (done || by apply Z.nlt_ge). fold buf.
    unfold _handle_request. destruct (split_b crlf (take idx buf)) as [|l ls]; [done|].
    destruct (request_line l) as [[method path]|] eqn:El; [|done]. rewrite decide_True; [done|].
    intros ->. by apply (Hl path).
Qed.

(** C35. A query for /orders/<ticker> in flight, with the connection [i] waiting for it:
    when jnxdb's reply has come, however it is cut into reads, and the response has
    gone out, however it is cut into writes, what the connection sent is the rows of
    the reply in JSON, both sockets are closed, the query's first, no interest in
    either is left and the query's timeout cannot fire any more. *)
Theorem orders_served j q i c ticker rows chunks ns w :
  g_orders w !! j = Some q -> q_finished q = false -> q_recv_buf q = [] -> q_done q = (i, ticker) ->
  g_conns w !! i = Some c -> c_send_buf c = [] -> Forall (fun r => order_row_ok r = true) rows ->
  Forall (fun d => d <> []) chunks -> concat chunks = reply_of (orders_lines rows) ->
  enough (length (orders_page ticker rows)) ns -> rx_inv (g_rx w) ->
  exists w', (mfor chunks (orders_piece j) ;; mfor ns (send_piece i)) w = (w', Ok ()) /\
    sent (c_sock c) (g_env w') = sent (c_sock c) (g_env w) ++ orders_page ticker rows /\
    e_closed (g_env w') = e_closed (g_env w) ++ [q_sock q; c_sock c] /\
    rx_inv (g_rx w') /\
    (forall s, cbs_of (g_rx w') s =
      if decide (s = c_sock c \/ s = q_sock q) then (None, None) else cbs_of (g_rx w) s) /\
    (forall h cb, armed (g_rx w') h cb <-> armed (g_rx w) h cb /\ q_timer q <> Some h).
Proof.
  intros Hj Hf Hb Hd Hi Hsb Hrows Hne E Hns Hr. pose proof (lookup_lt_Some _ _ _ Hi) as Hlt.
  assert (mfor chunks (orders_piece j) w =
    (responding i c (orders_page ticker rows) ThenClose
      (orders_over j (q_set_recv (reply_of (orders_lines rows)) q) (orders_got j (reply_of (orders_lines rows)) q w)), Ok ()))
    as E1.
  { assert (chunks <> []) as Hn.
    { intros ->. pose proof (complete_whole (orders_lines rows)) as Hc. rewrite <- E in Hc. by vm_compute in Hc. }
    assert (q_recv_buf q ++ concat chunks = reply_of (orders_lines rows)) as Eq by by rewrite Hb.
    rewrite (orders_read (orders_lines rows) j chunks (orders_lines_ok rows Hrows) Hne Hn q w Hj Eq).
    rewrite query_over with (q := q_set_recv (reply_of (orders_lines rows)) q); [|apply list_lookup_insert_eq, (lookup_lt_Some _ _ _ Hj)|done].
    unfold on_orders_text. rewrite orders_reply_ok by done. cbn [q_done q_set_recv]. rewrite Hd.
    apply respond_run. unfold orders_over. by destruct (q_timer _). }
  pose proof (over_facts j (q_set_recv (reply_of (orders_lines rows)) q) (orders_got j (reply_of (orders_lines rows)) q w) Hr) as Hw1.
  cbv zeta in Hw1. set (w1 := orders_over _ _ _) in E1, Hw1. clearbody w1.
  destruct (send_response i ns (mkHttp (c_sock c) (c_recv_buf c) (orders_page ticker rows) ThenClose)
    (responding i c (orders_page ticker rows) ThenClose w1)) as (ds & Hds & Es); [|exact Hns|].
  { destruct Hw1 as (_ & Ec & _). cbn [g_conns responding g_set_rx g_set_conns]. rewrite Hsb.
    apply list_lookup_insert_eq. by rewrite Ec. }
  unfold mbind, M_bind. rewrite E1, Es. cbn [_after_flush after_action].
  rewrite close_run with (c := mkHttp (c_sock c) (c_recv_buf c) [] ThenNothing).
  2: { destruct Hw1 as (_ & Ec & _). apply list_lookup_insert_eq. cbn. by rewrite length_insert, Ec. }
  destruct Hw1 as (Eenv & _ & Hr1 & Hcb1 & Harm1).
  destruct (closed_facts (c_sock c) (GHttp i HWritable) (g_rx w1) Hr1) as (Hr2 & Hcb2 & Harm2).
  eexists. split; [reflexivity|]. split_and!; [| |exact Hr2| |].
  - transitivity (sent (c_sock c) (g_env w1) ++ orders_page ticker rows); [|by rewrite Eenv].
    cbn [c_send_buf] in Hds. rewrite <- Hds. apply (sent_wrote (c_sock c) ds (g_env w1)).
  - destruct (wrote_env (c_sock c) ds (g_env w1)) as (Hc & _).
    transitivity (e_closed (wrote (c_sock c) ds (g_env w1)) ++ [c_sock c]); [reflexivity|].
    rewrite Hc, Eenv. cbn. by rewrite <- app_assoc.
  - intros s. etransitivity; [apply Hcb2|]. rewrite Hcb1. cbn [q_sock q_set_recv].
    destruct (decide (s = c_sock c)) as [->|N1]; [by rewrite decide_True by by left|].
    destruct (decide (s = q_sock q)) as [->|N2]; [by rewrite decide_True by by right|].
    by rewrite decide_False by by intros [?|?].
  - intros h cb. etransitivity; [apply Harm2|]. apply Harm1.
Qed.
End serve.

(** * Witnesses *)

Definition demo_headers : list (bytes * bytes) := [
  (s2l "Host", s2l "gui"); (s2l "Upgrade", s2l "WebSocket"); (s2l "Sec-WebSocket-Version", s2l "13");
  (s2l "Sec-WebSocket-Key", s2l "dGhlIHNhbXBsZSBub25jZQ==")].
Definition demo_get (path : str) : bytes := http_request (s2l "GET") (s2l path) demo_headers.
Definition demo_pieces (l : bytes) : list bytes := [take 20 l; drop 20 l].
Definition demo_gw : gw := gw_init false env_init.
Definition demo_page : bytes := s2l "<p>".
Definition demo_repr (t : Z) : bytes := s2l "0.0".
Definition demo_sub (l : bytes) : option str := None.

Lemma demo_request path : token_ok (s2l path) = true -> zlen (demo_get path) <= _MAX_REQUEST_HEADER_BYTES ->
  request_ok (s2l "GET") (s2l path) demo_headers.
Proof. intros Hp Hl. split_and!; [done|done|by repeat constructor|done]. Qed.

Lemma demo_gw_interest : interest_inv (g_rx demo_gw).
Proof. split; cbn; intros *; rewrite ?lookup_empty; done. Qed.

Lemma http_served_witness : exists w',
  (http_accept (H0 := gw_http demo_page false demo_repr) 7 ;;
   mfor (demo_pieces (demo_get "/tickers")) (recv_piece demo_page false demo_repr demo_sub 0) ;;
   mfor [1; 200]%nat (send_piece demo_page false demo_repr demo_sub 0)) demo_gw = (w', Ok ()) /\
  sent 7 (g_env w') = response (200, "application/json", s2l "[]") /\ e_closed (g_env w') = [7%nat].
Proof.
  destruct (http_served demo_page false demo_repr demo_sub (s2l "/tickers") demo_headers 7 (demo_pieces (demo_get "/tickers"))
    [1; 200]%nat demo_gw) as (w' & E & H1 & H2 & _).
  - apply demo_request; vm_compute; done.
  - by vm_compute.
  - by vm_compute.
  - repeat constructor; by vm_compute.
  - by vm_compute.
  - vm_compute. lia.
  - apply demo_gw_interest.
  - exists w'. split; [exact E|]. split; [|exact H2]. rewrite H1. vm_compute. reflexivity.
Defined.

Lemma ws_upgraded_witness : exists w',
  (http_accept (H0 := gw_http demo_page false demo_repr) 7 ;;
   mfor (demo_pieces (demo_get "/ws")) (recv_piece demo_page false demo_repr demo_sub 0) ;;
   mfor [1; 200]%nat (send_piece demo_page false demo_repr demo_sub 0)) demo_gw = (w', Ok ()) /\
  sent 7 (g_env w') = upgrade_head "s3pPLMBiTxaQ9kYGzzhZRbK+xOo=" /\ clients (g_hub w') = [0%nat].
Proof.
  destruct (ws_upgraded demo_page false demo_repr demo_sub demo_headers 7 (demo_pieces (demo_get "/ws")) [1; 200]%nat demo_gw
    "dGhlIHNhbXBsZSBub25jZQ==" "s3pPLMBiTxaQ9kYGzzhZRbK+xOo=") as (w' & E & H1 & _ & H2 & _).
  - apply demo_request; vm_compute; done.
  - by vm_compute.
  - by vm_compute.
  - by vm_compute.
  - done.
  - by vm_compute.
  - repeat constructor; by vm_compute.
  - by vm_compute.
  - vm_compute. lia.
  - apply demo_gw_interest.
  - exists w'. split; [exact E|]. split; [exact H1|by rewrite H2].
Defined.

(** A POST. *)
Lemma bad_request_raises_witness : exists w',
  recv_piece demo_page false demo_repr demo_sub 0 (http_request (s2l "POST") (s2l "/") demo_headers)
    (g_set_conns [mkHttp 7 [] [] ThenClose] demo_gw) = (w', Raise AttributeError) /\ e_wire (g_env w') = [].
Proof.
  destruct (bad_request_raises demo_page false demo_repr demo_sub 0 (mkHttp 7 [] [] ThenClose)
    (http_request (s2l "POST") (s2l "/") demo_headers) (g_set_conns [mkHttp 7 [] [] ThenClose] demo_gw))
    as (w' & E & H1 & _).
  - done.
  - by vm_compute.
  - right. exists (length (request_block (s2l "POST") (s2l "/") demo_headers)). split; [by vm_compute|].
    vm_compute. intros path. discriminate.
  - apply demo_gw_interest.
  - exists w'. by split.
Defined.

(** A query on socket 9 for the connection on socket 7; two orders rest. *)
Definition demo_rows : list order_row :=
  [mkOrderRow "11" "B" "1000.5" 300 "L"; mkOrderRow "12" "S" "1001" 20 "L"].
Definition demo_reply : bytes := reply_of (orders_lines demo_rows).
Definition demo_query : Query orders_done := mkQuery 9 [] [] false false (Some 0) (0%nat, "7203").
Definition demo_waiting : gw := Eval vm_compute in
  g_set_rx (call_later 0 3000 (GOrders 0 QTimeout) (register_read 9 (GOrders 0 QReadable) (g_rx demo_gw))).1
    (g_set_orders [demo_query] (g_set_conns [mkHttp 7 [] [] ThenClose] demo_gw)).

Lemma orders_served_witness : exists w',
  (mfor (demo_pieces demo_reply) (orders_piece demo_page true demo_repr demo_sub 0) ;;
   mfor [1; 900]%nat (send_piece demo_page true demo_repr demo_sub 0)) demo_waiting = (w', Ok ()) /\
  sent 7 (g_env w') = orders_page "7203" demo_rows /\ e_closed (g_env w') = [9; 7]%nat /\
  cbs_of (g_rx w') 9 = (None, None).
Proof.
  assert (rx_inv (g_rx demo_waiting)) as Hr.
  { apply (rx_call_later 0 3000 (GOrders 0 QTimeout) (register_read 9 (GOrders 0 QReadable) (g_rx demo_gw))).
    apply rx_interest. split; [apply demo_gw_interest| |constructor]. split; [constructor|by intros ? ?%elem_of_nil]. }
  destruct (orders_served demo_page true demo_repr demo_sub 0 demo_query 0 (mkHttp 7 [] [] ThenClose) "7203" demo_rows
    (demo_pieces demo_reply) [1; 900]%nat demo_waiting) as (w' & E & H1 & H2 & _ & H3 & _).
  - done.
  - done.
  - done.
  - done.
  - done.
  - done.
  - repeat constructor; by vm_compute.
  - repeat constructor; by vm_compute.
  - by vm_compute.
  - vm_compute. lia.
  - exact Hr.
  - exists w'. split; [exact E|]. split; [exact H1|]. split; [exact H2|]. rewrite H3. by rewrite decide_True by by right.
Defined.
