(* ===== verification/GatewayMain.v ===== *)
(** jnxweb/__main__.py with the sockets it opens: mcast.py's and httpd.py's set-up, and
    tools/mcast_spy.py's, which is mcast.py's with a timeout.

    The socket calls are an interface ([SockOs]); [inet_aton] is part of it.  [select] and
    the number of turns of the loop are arguments, as in Reactor; a signal arrives in
    [select], which may run [handle_sigint].  Logging is left out. *)
From S2P Require Export Gateway.

#[global] Set Default Goal Selector "!".

(** * Sockets *)

Inductive family : Type := AF_INET | AF_UNIX.
Inductive sock_kind : Type := SOCK_STREAM | SOCK_DGRAM.
Inductive address : Type := InetAddr (host : str) (port : Z) | UnixAddr (path : str).
Inductive sockopt : Type := SO_REUSEADDR | SO_RCVBUF (size : Z) | IP_ADD_MEMBERSHIP (mreq : bytes).

Class SockOs (W : Type) : Type := {
  os_socket : family -> sock_kind -> M W nat;
  os_setsockopt : nat -> sockopt -> M W ();
  os_bind : nat -> address -> M W ();
  os_listen : nat -> Z -> M W ();
  os_setblocking : nat -> bool -> M W ();
  os_settimeout : nat -> Z -> M W ();
  os_sockport : nat -> M W Z;                      (* getsockname()[1] *)
  os_unlink : str -> M W ();
  inet_aton : str -> res bytes }.

Definition pass_OSError {W} (e : exn) : option (M W ()) := if is_OSError e then Some (mret ()) else None.

Section sockets.
Context {W : Type} `{SockOs W}.

(** The first size the kernel takes; none is as good. *)
Fixpoint grow_rcvbuf (sock : nat) (sizes : list Z) : M W () :=
  match sizes with
  | [] => mret ()
  | size :: sizes =>
      done ← mtry (os_setsockopt sock (SO_RCVBUF size) ;; mret true) (fun e => if is_OSError e then Some (mret false) else None);
      if done : bool then mret () else grow_rcvbuf sock sizes
  end.

Definition join_group (group : str) (port : Z) (iface : str) : M W nat :=
  sock ← os_socket AF_INET SOCK_DGRAM;
  os_setsockopt sock SO_REUSEADDR ;;
  grow_rcvbuf sock [67108864; 16777216; 4194304] ;;
  os_bind sock (InetAddr "" port) ;;
  g ← mlift (inet_aton group); i ← mlift (inet_aton (if decide (iface = "") then "0.0.0.0" else iface));
  mreq ← mlift (struct_pack Big [Sx 4; Sx 4] [VBytes g; VBytes i]);
  os_setsockopt sock (IP_ADD_MEMBERSHIP mreq) ;;
  mret sock.

Definition open_mcast_socket (group : str) (port : Z) (iface : str) : M W nat :=
  sock ← join_group group port iface; os_setblocking sock false ;; mret sock.
(** mcast_spy.py's, with a timeout of 200 ms. *)
Definition open_socket (group : str) (port : Z) (iface : str) : M W nat :=
  sock ← join_group group port iface; os_settimeout sock 200 ;; mret sock.

Definition open_test_feed_socket (path : str) : M W nat :=
  mtry (os_unlink path) pass_OSError ;;
  sock ← os_socket AF_UNIX SOCK_DGRAM;
  os_bind sock (UnixAddr path) ;;
  os_setblocking sock false ;;
  mret sock.

Definition open_listener (host : str) (port : Z) : M W nat :=
  sock ← os_socket AF_INET SOCK_STREAM;
  os_setsockopt sock SO_REUSEADDR ;;
  os_bind sock (InetAddr host port) ;;
  os_listen sock 64 ;;
  os_setblocking sock false ;;
  mret sock.
End sockets.

(** * The process *)

(** The command line. *)
Record gateway_args : Type := mkGatewayArgs {
  ga_mcast : str * Z; ga_http_host : str; ga_http_port : Z; ga_mcast_if : str; ga_test_feed : option str; ga_db : option (str * Z) }.

Section main.
Context (html : bytes) (repr : Z -> bytes) (sub : bytes -> option str) (sel : option Z -> M gw (list (nat * Z))) `{SockOs gw}.

Definition has_db (a : gateway_args) : bool := match ga_db a with Some _ => true | None => false end.

#[local] Instance gateway_ws : WsOf gw gw_cb := gw_ws sub.
#[local] Instance gateway_http (a : gateway_args) : HttpOf gw gw_cb := gw_http html (has_db a) repr.
#[local] Instance gateway_loop (a : gateway_args) : LoopOf gw gw_cb := {| run_cb := run_gw_cb html (has_db a) repr sub; select := sel |}.

(** [McastReceiver] and [HttpServer]: made on their sockets, and closed. *)
Definition mcast_init (sock : nat) : M gw () := mod_rx (register_read sock GMcast).
Definition mcast_close (sock : nat) : M gw () := mod_rx (unregister sock) ;; g_close sock.
Definition server_init (host : str) (port : Z) : M gw (nat * Z) :=
  sock ← open_listener host port; port ← os_sockport sock; mod_rx (register_read sock GAccept) ;; mret (sock, port).
Definition server_close (sock : nat) : M gw () := mod_rx (unregister sock) ;; g_close sock.

Definition open_feed (a : gateway_args) : M gw nat :=
  match given (ga_test_feed a) with
  | Some path => open_test_feed_socket path
  | None => open_mcast_socket (ga_mcast a).1 (ga_mcast a).2 (ga_mcast_if a)
  end.

(** [main] up to the loop: the feed's socket, the server's, and the port to announce. *)
Definition gateway_setup (a : gateway_args) : M gw (nat * nat * Z) :=
  feed ← open_feed a;
  mcast_init feed ;;
  boot_start ;;
  server ← server_init (ga_http_host a) (ga_http_port a);
  log_stats ;;
  mret (feed, server.1, server.2).

Definition handle_sigint : M gw () := stop.

(** The [finally]. *)
Definition gateway_close (feed server : nat) : M gw () :=
  boot_close ;;
  mcast_close feed ;;
  server_close server ;;
  w ← mget;
  mfor (clients (g_hub w)) (fun i => _teardown i).

Definition gateway_serve (a : gateway_args) (turns fuel : nat) (feed server : nat) : M gw Z :=
  mfinally (Reactor.run (H0 := gateway_loop a) turns fuel) (gateway_close feed server) ;; mret 0.

Definition gateway_run (a : gateway_args) (turns fuel : nat) : M gw Z :=
  s ← gateway_setup a; gateway_serve a turns fuel s.1.1 s.1.2.

End main.

(** * Facts *)

Section facts.
Context (sub : bytes -> option str).
#[local] Instance facts_ws : WsOf gw gw_cb := gateway_ws sub.

(** The sockets closed stay closed, those out of the selector stay out, and a browser
    dropped stays dropped. *)
Definition out_of (sock : nat) (w : gw) : Prop := states (g_rx w) !! sock = None.
Definition dropped (i : nat) (w : gw) : Prop := forall c, ws_objs (g_hub w) !! i = Some c -> _torn_down c = true.
Record letting_go (w w' : gw) : Prop := {
  lg_closed : e_closed (g_env w) ⊆ e_closed (g_env w');
  lg_out : forall sock, out_of sock w -> out_of sock w';
  lg_dropped : forall i, dropped i w -> dropped i w' }.

#[local] Instance letting_go_preorder : PreOrder letting_go.
Proof.
  split; [by split|]. intros w1 w2 w3 [A1 B1 C1] [A2 B2 C2]. split; [by etransitivity|auto..].
Qed.

(** The same, with the hub as it was. *)
Definition quiet (w w' : gw) : Prop := letting_go w w' /\ g_hub w' = g_hub w.
#[local] Instance quiet_preorder : PreOrder quiet.
Proof. split; [by split|]. intros w1 w2 w3 [A B] [C D]. split; [by etransitivity|congruence]. Qed.
Lemma quiet_lets {A} (m : M gw A) : safe quiet m -> safe letting_go m.
Proof. intros H w. destruct (H w) as (w' & a & E & [R _]). by exists w', a. Qed.

Lemma quiet_rx (f : Reactor gw_cb -> Reactor gw_cb) : (forall r sock, states r !! sock = None -> states (f r) !! sock = None) ->
  safe quiet (mod_rx f).
Proof. intros Hf. apply safe_mmod. intros w. split; [|done]. split; [done| |done]. intros sock Hs. by apply Hf. Qed.
Lemma quiet_cancel h : safe quiet (mod_rx (W := gw) (timer_cancel h)).
Proof. by apply quiet_rx. Qed.
Lemma quiet_unregister sock : safe quiet (mod_rx (W := gw) (unregister sock)).
Proof.
  apply quiet_rx. intros r s Hs. unfold unregister. destruct (states r !! sock); [|done]. cbn. by apply lookup_delete_None; right.
Qed.
Lemma quiet_close sock : safe quiet (g_close sock).
Proof. apply safe_mmod. intros w. split; [|done]. split; [|done..]. cbn. set_solver. Qed.
Hint Resolve quiet_cancel quiet_unregister quiet_close quiet_lets : core.

Lemma lets_ws i (f : WebSocketClient -> WebSocketClient) : (forall c, _torn_down c = true -> _torn_down (f c) = true) ->
  safe letting_go (mod_ws i f).
Proof.
  intros Hf. apply safe_mmod. intros w. split; [done..|]. intros j Hj c. cbn. intros E.
  destruct (decide (i = j)) as [<-|Hne].
  - rewrite list_lookup_alter_eq in E. apply fmap_Some in E as (c0 & E0 & ->). by apply Hf, Hj.
  - rewrite list_lookup_alter_ne in E by done. by apply Hj.
Qed.
Lemma lets_remove i : safe letting_go (hub_remove i).
Proof. apply safe_mmod. by intros w. Qed.
Hint Resolve lets_remove : core.

Lemma lets_cancel_flush i : safe letting_go (cancel_flush_timer i).
Proof. unfold cancel_flush_timer, get_ws. safe_steps; auto using lets_ws. Qed.
Hint Resolve lets_cancel_flush : core.

(** What [_teardown] does once the client is marked. *)
Lemma lets_rest i c : safe letting_go (cancel_flush_timer i ;; mod_rx (unregister (ws_sock c)) ;; ws_close (ws_sock c) ;; hub_remove i).
Proof. safe_steps; auto. Qed.

Lemma lets_teardown i : safe letting_go (_teardown i).
Proof. unfold _teardown, get_ws. safe_steps; auto using lets_ws. Qed.

Lemma teardown_drops i w : dropped i (_teardown i w).1.
Proof.
  unfold _teardown, get_ws. unfold mbind at 1, M_bind at 1, mgets. destruct (_torn_down (client_at i w)) eqn:Et.
  - intros c Hc. cbn in Hc. unfold client_at in Et. change (ws_objs (hub w)) with (ws_objs (g_hub w)) in Et. by rewrite Hc in Et.
  - unfold mbind at 1, M_bind at 1. unfold mod_ws, mmod. 
    match goal with |- dropped _ (?m ?w1).1 => destruct (lets_rest i (client_at i w) w1) as (w2 & [] & E & HR); rewrite E end.
    apply HR. intros c Hc. cbn in Hc. rewrite list_lookup_alter_eq in Hc. by apply fmap_Some in Hc as (c0 & _ & ->).
Qed.

Lemma teardowns_drop l i w : i ∈ l -> dropped i (mfor l (fun j => _teardown j) w).1.
Proof.
  revert w. induction l as [|j l IH]; intros w Hi; [by apply elem_of_nil in Hi|]. cbn [mfor]. unfold mbind, M_bind.
  pose proof (teardown_drops j w) as Hj. destruct (lets_teardown j w) as (w1 & [] & E & HR). rewrite E in Hj |- *.
  apply elem_of_cons in Hi as [->|Hi]; [|by apply IH].
  assert (keeps letting_go (mfor l (fun k => _teardown k))) as Hk by (apply keeps_mfor; [apply _|]; intros k _; apply safe_keeps, lets_teardown).
  by apply (Hk w1).
Qed.

Lemma quiet_boot f : safe quiet (mod_boot (W := gw) f).
Proof. apply safe_mmod. by intros w. Qed.
Lemma quiet_query i f : safe quiet (mod_query (W := gw) (D := snap_done) i f).
Proof. apply safe_mmod. by intros w. Qed.
Lemma quiet_with i (f : Query snap_done -> M gw ()) : (forall q, safe quiet (f q)) -> safe quiet (with_query (D := snap_done) i f).
Proof. intros Hf w. unfold with_query. destruct (_ !! i); [apply Hf|]. exists w, tt. by split. Qed.
Hint Resolve quiet_boot quiet_query : core.

Lemma quiet_query_teardown i : safe quiet (query_teardown (D := snap_done) i).
Proof. unfold query_teardown. apply quiet_with. intros q. safe_steps; auto. Qed.
Lemma quiet_query_cancel i : safe quiet (query_cancel (D := snap_done) i).
Proof. unfold query_cancel. apply quiet_with. intros q. safe_steps; auto using quiet_query_teardown. Qed.
Lemma quiet_boot_close : safe quiet boot_close.
Proof. unfold boot_close, _cancel_pending, cancel_timer, drop_query. safe_steps; auto using quiet_query_cancel. Qed.

Lemma unregister_out sock w : out_of sock (mod_rx (unregister sock) w).1.
Proof. unfold mod_rx, mmod, out_of, unregister. cbn. destruct (states (g_rx w) !! sock) eqn:E; cbn; [apply lookup_delete_eq|done]. Qed.
Lemma close_closes sock w : sock ∈ e_closed (g_env (g_close sock w).1).
Proof. cbn. set_solver. Qed.

(** Both kinds of socket owner. *)
Lemma mcast_close_run sock w : exists w', mcast_close sock w = (w', Ok ()) /\ quiet w w' /\ out_of sock w' /\ sock ∈ e_closed (g_env w').
Proof.
  unfold mcast_close, mbind, M_bind. pose proof (unregister_out sock w) as Ho. destruct (quiet_unregister sock w) as (w1 & [] & E1 & R1). rewrite E1 in Ho |- *.
  pose proof (close_closes sock w1) as Hc. destruct (quiet_close sock w1) as (w2 & [] & E2 & R2). rewrite E2 in Hc |- *.
  exists w2. split_and!; [done|by etransitivity|by apply R2|done].
Qed.

(** What the [finally] leaves. *)
Record let_go (feed server : nat) (w w' : gw) : Prop := {
  go_feed : out_of feed w' /\ feed ∈ e_closed (g_env w');
  go_server : out_of server w' /\ server ∈ e_closed (g_env w');
  go_clients : forall i, i ∈ clients (g_hub w) -> dropped i w' }.

Lemma gateway_close_run feed server w : exists w', gateway_close sub feed server w = (w', Ok ()) /\ let_go feed server w w'.
Proof.
  unfold gateway_close. change (gateway_ws sub) with facts_ws. destruct (quiet_boot_close w) as (w1 & [] & E1 & R1). destruct (mcast_close_run feed w1) as (w2 & E2 & R2 & Of & Cf).
  destruct (mcast_close_run server w2) as (w3 & E3 & R3 & Os & Cs). change (mcast_close server w2) with (server_close server w2) in E3.
  assert (safe letting_go (mfor (clients (g_hub w3)) (fun i => _teardown i))) as Hs.
  { generalize (clients (g_hub w3)) as l. induction l as [|j l IH]; [apply safe_ret; apply _|]. cbn [mfor]. safe_steps; auto using lets_teardown. }
  pose proof (fun i => teardowns_drop (clients (g_hub w3)) i w3) as Hd. destruct (Hs w3) as (w4 & [] & E4 & R4). rewrite E4 in Hd.
  exists w4. unfold mbind, M_bind. rewrite E1, E2, E3. unfold mget. rewrite E4. split; [done|]. split.
  - split; [apply R4, R3, Of|by apply R4, R3].
  - split; [by apply R4|by apply R4].
  - intros i Hi. apply Hd. destruct R1 as [_ H1], R2 as [_ H2], R3 as [_ H3]. by rewrite H3, H2, H1.
Qed.

(** However the loop ends, by a stop or by an exception a callback raised, [main] then
    has let go of its sockets and dropped every browser, and the exception goes on. *)
Lemma gateway_lets_go html repr sel a turns fuel feed server w :
  let loop := Reactor.run (H0 := gateway_loop html repr sub sel a) turns fuel w in
  exists w', gateway_serve html repr sub sel a turns fuel feed server w = (w', match loop.2 with Ok _ => Ok 0 | Raise e => Raise e end) /\
    let_go feed server loop.1 w'.
Proof.
  cbv zeta. unfold gateway_serve, mfinally, mbind, M_bind. destruct (Reactor.run turns fuel w) as [w1 r].
  destruct (gateway_close_run feed server w1) as (w' & E & Hg). rewrite E. exists w'. by destruct r.
Qed.
End facts.
