(* ===== verification/SoupClient.v ===== *)
(** jnxfeed/cli/soupclient.py: the blocking SoupBinTCP client of the command line tools.

    The socket and the clock are operations of the world ([NetOf]); [recv] raises
    [SocketTimeout] when nothing came within its timeout.  Times are milliseconds.
    The [while True] loops take [patience]: how many turns they may run. *)
From S2P Require Export SoupPackets.

#[global] Set Default Goal Selector "!".

Definition SC_HEARTBEAT_INTERVAL : Z := 1000.
Definition SC_SILENCE_TIMEOUT : Z := 15000.

Record SoupClient : Type := mkClient {
  silence_timeout : Z; sc_sock : bool; sc_frames : bytes; _pending : list packet;
  _last_sent : Z; _last_received : Z; connect_latency : option Z }.

Definition new_client (silence : Z) : SoupClient := mkClient silence false [] [] 0 0 None.

Definition sc_set_sock (x : bool) (c : SoupClient) : SoupClient :=
  mkClient (silence_timeout c) x (sc_frames c) (_pending c) (_last_sent c) (_last_received c) (connect_latency c).
Definition sc_set_pending (x : list packet) (c : SoupClient) : SoupClient :=
  mkClient (silence_timeout c) (sc_sock c) (sc_frames c) x (_last_sent c) (_last_received c) (connect_latency c).
Definition sc_set_frames (x : bytes) (c : SoupClient) : SoupClient :=
  mkClient (silence_timeout c) (sc_sock c) x (_pending c) (_last_sent c) (_last_received c) (connect_latency c).
Definition sc_set_sent (x : Z) (c : SoupClient) : SoupClient :=
  mkClient (silence_timeout c) (sc_sock c) (sc_frames c) (_pending c) x (_last_received c) (connect_latency c).
Definition sc_set_received (x : Z) (c : SoupClient) : SoupClient :=
  mkClient (silence_timeout c) (sc_sock c) (sc_frames c) (_pending c) (_last_sent c) x (connect_latency c).
Definition sc_set_latency (x : Z) (c : SoupClient) : SoupClient :=
  mkClient (silence_timeout c) (sc_sock c) (sc_frames c) (_pending c) (_last_sent c) (_last_received c) (Some x).

Class NetOf (W : Type) : Type := {
  net_client : W -> SoupClient;
  set_client : SoupClient -> W -> W;
  net_now : M W Z;                (* time.monotonic() *)
  net_connect : Z -> M W ();      (* create_connection: OSError *)
  net_sendall : bytes -> M W ();  (* OSError *)
  net_recv : Z -> M W bytes;      (* settimeout, then recv: SocketTimeout, OSError *)
  net_close : M W ();             (* OSError *)
  net_sleep : Z -> M W () }.      (* time.sleep *)

Section soupclient.
  Context {W : Type} `{NetOf W} (patience : nat).

Definition mod_client (f : SoupClient -> SoupClient) : M W () := mmod (fun w => set_client (f (net_client w)) w).
Definition get_client : M W SoupClient := mgets net_client.

(** [except OSError: raise e] *)
Definition os_error_is {A} (e : exn) (m : M W A) : M W A :=
  mtry m (fun x => if is_OSError x then Some (mraise e) else None).

Definition sc_connect (timeout : Z) : M W Z :=
  start ← net_now;
  os_error_is ConnectFailed (net_connect timeout) ;;
  mod_client (sc_set_sock true) ;;
  now ← net_now;
  mod_client (sc_set_latency (now - start)) ;;
  now ← net_now;
  mod_client (fun c => sc_set_received now (sc_set_sent now c)) ;;
  c ← get_client;
  mret (default 0 (connect_latency c)).

Definition sc_close : M W () :=
  c ← get_client;
  if sc_sock c then
    mtry net_close (fun x => if is_OSError x then Some (mret ()) else None) ;;
    mod_client (sc_set_sock false)
  else mret ().

Definition sc_send (wire : bytes) : M W () :=
  c ← get_client;
  if negb (sc_sock c) then mraise ConnectionLost
  else
    os_error_is ConnectionLost (net_sendall wire) ;;
    now ← net_now;
    mod_client (sc_set_sent now).

Definition send_login (username password requested_session : str) (requested_seq : Z) : M W () :=
  l ← mlift (encode_packet (LoginRequest username password requested_session requested_seq)); sc_send l.
Definition send_heartbeat : M W () := l ← mlift (encode_packet ClientHeartbeat); sc_send l.
Definition send_logout : M W () := l ← mlift (encode_packet LogoutRequest); sc_send l.

(** [self._pending.pop(0)] *)
Definition pop_pending : M W (option packet) :=
  c ← get_client;
  match _pending c with
  | [] => mret None
  | p :: ps => mod_client (sc_set_pending ps) ;; mret (Some p)
  end.

(** The timeout of the next [recv]. *)
Definition recv_wait (now : Z) (deadline : option Z) (c : SoupClient) : Z :=
  let wait := SC_HEARTBEAT_INTERVAL - (now - _last_sent c) in
  let wait := Z.min wait (silence_timeout c - (now - _last_received c)) in
  let wait := match deadline with Some d => Z.min wait (d - now) | None => wait end in
  Z.max wait 50.

(** What a [recv] gives: [None] for a timeout. *)
Definition recv_some (wait : Z) : M W (option bytes) :=
  mtry (data ← net_recv wait; mret (Some data))
    (fun x => if decide (x = SocketTimeout) then Some (mret None)
              else if is_OSError x then Some (mraise ConnectionLost) else None).

Definition feed_client (data : bytes) : M W () := fun w =>
  match feed data (sc_frames (net_client w)) with
  | (buf, Ok ps) => (set_client (sc_set_pending (_pending (net_client w) ++ ps) (sc_set_frames buf (net_client w))) w, Ok ())
  | (buf, Raise e) => (set_client (sc_set_frames buf (net_client w)) w, Raise e)
  end.

(** The [while True] of [next_packet]. *)
Fixpoint wait_loop (n : nat) (deadline : option Z) : M W packet :=
  match n with
  | O => mraise OutOfFuel
  | S n' =>
      now ← net_now;
      c ← get_client;
      (if SC_HEARTBEAT_INTERVAL <=? now - _last_sent c then send_heartbeat else mret ()) ;;
      c ← get_client;
      if silence_timeout c <=? now - _last_received c then mraise PeerSilent
      else if match deadline with Some d => d <=? now | None => false end then mraise WaitTimeout
      else
        r ← recv_some (recv_wait now deadline c);
        match r with
        | None => wait_loop n' deadline
        | Some [] => mraise ConnectionLost
        | Some data =>
            now ← net_now;
            mod_client (sc_set_received now) ;;
            feed_client data ;;
            p ← pop_pending;
            match p with Some p => mret p | None => wait_loop n' deadline end
        end
  end.

Definition next_packet (timeout : option Z) : M W packet :=
  p ← pop_pending;
  match p with
  | Some p => mret p
  | None =>
      c ← get_client;
      if negb (sc_sock c) then mraise ConnectionLost
      else
        deadline ← (match timeout with Some t => now ← net_now; mret (Some (now + t)) | None => mret None end);
        wait_loop patience deadline
  end.

(** The [while True] of [login]. *)
Fixpoint login_loop (n : nat) (deadline : Z) : M W (str * Z) :=
  match n with
  | O => mraise OutOfFuel
  | S n' =>
      now ← net_now;
      let remaining := deadline - now in
      if remaining <=? 0 then mraise WaitTimeout
      else
        pkt ← next_packet (Some remaining);
        match pkt with
        | LoginAccepted session sequence => mret (session, sequence)
        | LoginRejected code => mraise (LoginRejectedError code)
        | ServerHeartbeat | DebugPacket _ => login_loop n' deadline
        | _ => mraise ProtocolError
        end
  end.

Definition sc_login (username password requested_session : str) (requested_seq timeout : Z) : M W (str * Z) :=
  send_login username password requested_session requested_seq ;;
  now ← net_now;
  login_loop patience (now + timeout).

(** [except SoupClientError] *)
Definition is_SoupClientError (e : exn) : bool :=
  match e with
  | ConnectFailed | LoginRejectedError _ | ConnectionLost | PeerSilent | WaitTimeout | ProtocolError => true
  | _ => false
  end.

Definition sc_logout : M W () :=
  mtry send_logout (fun x => if is_SoupClientError x then Some (mret ()) else None) ;;
  sc_close.
End soupclient.
