(* ===== verification/Capture.v ===== *)
(** jnxfeed/cli/capture.py: streaming a session to a .itch file, with resume.

    The client is used through [ClientOf]: its operations may do anything to the world
    but see the capture's own objects.  The sidecar is the record its JSON holds,
    without the timestamps; [counts] is a map, its order in the JSON is not modelled.
    Buffering of the output file is not modelled. *)
From S2P Require Export SoupClient ItchFile.

#[global] Set Default Goal Selector "!".

Definition EXIT_OK : Z := 0.
Definition EXIT_CONNECT : Z := 3.
Definition EXIT_REJECTED : Z := 4.
Definition EXIT_PROTOCOL : Z := 5.
Definition _SIDECAR_EVERY : Z := 500.

(** The command line arguments the capture reads. *)
Record cap_args : Type := mkArgs {
  a_out : str; a_seq : option Z; a_session : str; a_retries : Z; a_retry_delay : Z; a_max_messages : option Z }.

Record Meta : Type := mkMeta {
  m_session : str; m_first_seq : option Z; m_next_seq : Z; m_message_count : Z; m_counts : gmap str Z;
  m_reconnects : Z; m_end_reason : option str }.

Record Capture : Type := mkCapture {
  k_session : str; first_seq : option Z; k_next_seq : Z; counts : gmap str Z; message_count : Z; reconnects : Z;
  end_reason : option str; k_append : bool; _since_sidecar : Z }.

Definition k_set_session (x : str) (c : Capture) : Capture :=
  mkCapture x (first_seq c) (k_next_seq c) (counts c) (message_count c) (reconnects c) (end_reason c) (k_append c) (_since_sidecar c).
Definition k_set_next (x : Z) (c : Capture) : Capture :=
  mkCapture (k_session c) (first_seq c) x (counts c) (message_count c) (reconnects c) (end_reason c) (k_append c) (_since_sidecar c).
Definition k_set_end (x : str) (c : Capture) : Capture :=
  mkCapture (k_session c) (first_seq c) (k_next_seq c) (counts c) (message_count c) (reconnects c) (Some x) (k_append c) (_since_sidecar c).
Definition k_set_reconnects (x : Z) (c : Capture) : Capture :=
  mkCapture (k_session c) (first_seq c) (k_next_seq c) (counts c) (message_count c) x (end_reason c) (k_append c) (_since_sidecar c).
Definition k_set_since (x : Z) (c : Capture) : Capture :=
  mkCapture (k_session c) (first_seq c) (k_next_seq c) (counts c) (message_count c) (reconnects c) (end_reason c) (k_append c) x.

(** [chr(message\[0\]) if message else "?"] *)
Definition msg_type (message : bytes) : str := match message with b :: _ => l2s [b] | [] => "?" end.

(** What [_write] counts of a message. *)
Definition k_count (message : bytes) (c : Capture) : Capture :=
  let t := msg_type message in
  mkCapture (k_session c) (Some (default (k_next_seq c) (first_seq c))) (k_next_seq c)
    (<[t := default 0 (counts c !! t) + 1]> (counts c)) (message_count c + 1) (reconnects c) (end_reason c) (k_append c)
    (_since_sidecar c + 1).

Definition meta_of (final : bool) (c : Capture) : Meta :=
  mkMeta (k_session c) (first_seq c) (k_next_seq c) (message_count c) (counts c) (reconnects c)
    (if final then end_reason c else None).

(** [__init__] and [_resume]: [meta] is the sidecar if the output file exists. *)
Definition resume (a : cap_args) (meta : option Meta) : Capture :=
  match a_seq a, meta with
  | Some seq, _ => mkCapture (a_session a) None seq ∅ 0 0 None false 0
  | None, Some m =>
      mkCapture (if decide (a_session a = "") then m_session m else a_session a) (m_first_seq m) (m_next_seq m) (m_counts m)
        (m_message_count m) 0 None true 0
  | None, None => mkCapture (a_session a) None 1 ∅ 0 0 None false 0
  end.

(** The client and the network: a world of its own. *)
Class ClientOf (W : Type) : Type := {
  cl_connect : M W ();                    (* SoupClient(...), then connect *)
  cl_login : str -> Z -> M W (str * Z);   (* requested session and sequence *)
  cl_next_packet : M W packet;
  cl_logout : M W ();
  cl_close : M W ();
  cl_sleep : Z -> M W () }.

(** What the tool works on: its own state, the files, the sidecar, and the network. *)
Record tool (N : Type) : Type := mkTool { cap : Capture; disk : files; sidecar : option Meta; net : N }.
Arguments mkTool {N} _ _ _ _.
Arguments cap {N} _.
Arguments disk {N} _.
Arguments sidecar {N} _.
Arguments net {N} _.

Inductive pump_status : Type := Done | Disconnected | MadeProgress.

Section capture.
  Context {N : Type} `{ClientOf N} (patience : nat) (args : cap_args).

Abbreviation W := (tool N).
Definition mod_cap (f : Capture -> Capture) : M W () := mmod (fun w => mkTool (f (cap w)) (disk w) (sidecar w) (net w)).
Definition get_cap : M W Capture := mgets cap.
Definition on_disk {A} (m : M files A) : M W A := zoom disk (fun d w => mkTool (cap w) d (sidecar w) (net w)) m.
Definition on_net {A} (m : M N A) : M W A := zoom net (fun n w => mkTool (cap w) (disk w) (sidecar w) n) m.

Definition _resume : M W () := fun w =>
  let meta := match disk w !! a_out args with Some _ => sidecar w | None => None end in
  (mkTool (resume args meta) (disk w) (sidecar w) (net w), Ok ()).

Definition write_sidecar (final : bool) : M W () :=
  mmod (fun w => mkTool (cap w) (disk w) (Some (meta_of final (cap w))) (net w)) ;; mod_cap (k_set_since 0).

Definition capture_write (writer : ItchFileWriter) (message : bytes) : M W () :=
  on_disk (writer_write writer message) ;;
  mod_cap (k_count message) ;;
  c ← get_cap;
  if _SIDECAR_EVERY <=? _since_sidecar c then on_disk (writer_flush writer) ;; write_sidecar false else mret ().

Definition max_reached (c : Capture) : bool :=
  match a_max_messages args with Some n => n <=? message_count c | None => false end.

(** [None] for ConnectionLost and PeerSilent. *)
Definition pump_packet : M W (option packet) :=
  mtry (p ← on_net cl_next_packet; mret (Some p))
    (fun x => match x with ConnectionLost | PeerSilent => Some (mret None) | _ => None end).

(** The [while True] of [_pump]. *)
Fixpoint pump_loop (n : nat) (writer : ItchFileWriter) (seq : Z) (wrote_any : bool) : M W pump_status :=
  match n with
  | O => mraise OutOfFuel
  | S n' =>
      c ← get_cap;
      if max_reached c then
        mod_cap (k_set_end "max_messages") ;; on_net cl_logout ;; mret Done
      else
        pkt ← pump_packet;
        match pkt with
        | None => mret (if wrote_any then MadeProgress else Disconnected)
        | Some (SequencedData message) =>
            c ← get_cap;
            if seq =? k_next_seq c then
              capture_write writer message ;;
              mod_cap (k_set_next (seq + 1)) ;;
              pump_loop n' writer (seq + 1) true
            else pump_loop n' writer (seq + 1) wrote_any
        | Some EndOfSession =>
            mod_cap (k_set_end "end_of_session") ;; on_net cl_close ;; mret Done
        | Some _ => pump_loop n' writer seq wrote_any
        end
  end.

Definition _pump (writer : ItchFileWriter) (server_seq : Z) : M W pump_status :=
  mfinally (pump_loop patience writer server_seq false) (on_net cl_close).

(** How a login ended: accepted, rejected, or with another client error. *)
Inductive login_outcome : Type := Accepted (session : str) (sequence : Z) | Rejected (code : str) | LoginFailed.
Definition try_login : M W login_outcome :=
  c ← get_cap;
  mtry (r ← on_net (cl_login (k_session c) (k_next_seq c)); mret (Accepted r.1 r.2))
    (fun x => match x with
              | LoginRejectedError code => Some (mret (Rejected code))
              | _ => if is_SoupClientError x then Some (mret LoginFailed) else None
              end).
Definition try_connect : M W bool :=
  mtry (on_net cl_connect ;; mret true) (fun x => if decide (x = ConnectFailed) then Some (mret false) else None).

(** The [while True] of [run]. *)
Fixpoint capture_loop (n : nat) (writer : ItchFileWriter) (retries_left : Z) : M W Z :=
  let retry (reason : str) : (Z -> M W Z) -> M W Z := fun again =>
    if retries_left <=? 0 then mod_cap (k_set_end reason) ;; mret EXIT_CONNECT
    else on_net (cl_sleep (a_retry_delay args)) ;; again (retries_left - 1) in
  match n with
  | O => mraise OutOfFuel
  | S n' =>
      ok ← try_connect;
      if negb ok then retry "connect_failed" (capture_loop n' writer)
      else
        r ← try_login;
        match r with
        | Rejected code =>
            mod_cap (k_set_end (String.append "login_rejected_" code)) ;; on_net cl_close ;; mret EXIT_REJECTED
        | LoginFailed => on_net cl_close ;; retry "login_failed" (capture_loop n' writer)
        | Accepted session sequence =>
            mod_cap (k_set_session session) ;;
            c ← get_cap;
            if k_next_seq c <? sequence then
              mod_cap (k_set_end "sequence_gap") ;; on_net cl_logout ;; mret EXIT_PROTOCOL
            else
              status ← _pump writer sequence;
              let left := match status with MadeProgress => a_retries args | _ => retries_left end in
              match status with
              | Done => mret EXIT_OK
              | _ =>
                  if left <=? 0 then mod_cap (k_set_end "retries_exhausted") ;; mret EXIT_CONNECT
                  else
                    mod_cap (fun c => k_set_reconnects (reconnects c + 1) c) ;;
                    write_sidecar false ;;
                    on_net (cl_sleep (a_retry_delay args)) ;;
                    capture_loop n' writer (left - 1)
              end
        end
  end.

Definition capture_run (turns : nat) : M W Z :=
  c ← get_cap;
  writer ← on_disk (writer_open (a_out args) (k_append c));
  mfinally
    (mtry (capture_loop turns writer (a_retries args))
       (fun x => if decide (x = KeyboardInterrupt)
                 then Some (mod_cap (k_set_end "interrupted") ;; mret EXIT_OK) else None))
    (on_disk (writer_flush writer) ;;
     writer ← mret (writer_close writer);
     c ← get_cap;
     (if end_reason c then mret () else mod_cap (k_set_end "unknown")) ;;
     write_sidecar true).

(** One invocation of the tool. *)
Definition capture_main (turns : nat) : M W Z := _resume ;; capture_run turns.
End capture.

(** * What the file holds *)

(** What the client promises: after a login accepted at [k], the sequenced messages it
    returns are the server's, in order, from number [k] on.  [good] is what makes it
    so; [serving n k] says that the next one is number [k]. *)
Class Serves {N} `{ClientOf N} (msgs : list bytes) (good : N -> Prop) (serving : N -> Z -> Prop) : Prop := {
  sv_connect : forall n, good n -> good (cl_connect n).1;
  sv_logout : forall n, good n -> good (cl_logout n).1;
  sv_close : forall n, good n -> good (cl_close n).1;
  sv_sleep : forall d n, good n -> good (cl_sleep d n).1;
  sv_login : forall s q n, good n -> good (cl_login s q n).1 /\
    forall sess k, (cl_login s q n).2 = Ok (sess, k) -> 1 <= k /\ serving (cl_login s q n).1 k;
  sv_next : forall n k, good n -> serving n k -> good (cl_next_packet n).1 /\
    match (cl_next_packet n).2 with
    | Ok (SequencedData m) => msgs !! Z.to_nat (k - 1) = Some m /\ serving (cl_next_packet n).1 (k + 1)
    | Ok _ => serving (cl_next_packet n).1 k
    | Raise _ => True
    end }.

Definition tally (ms : list bytes) : gmap str Z :=
  foldl (fun c m => <[msg_type m := default 0 (c !! msg_type m) + 1]> c) ∅ ms.

(** The messages numbered from [a] up to [b]. *)
Definition from_to (msgs : list bytes) (a b : Z) : list bytes := take (Z.to_nat (b - a)) (drop (Z.to_nat (a - 1)) msgs).

(** A file captured from message [a] with [next] as the next one needed. *)
Record captured (msgs : list bytes) (a : Z) (file : bytes) (first : option Z) (next count : Z) (cs : gmap str Z) : Prop := {
  ca_range : 1 <= a <= next;
  ca_len : zlen (from_to msgs a next) = next - a;
  ca_file : file = concat (frame16 <$> from_to msgs a next);
  ca_first : first = if next =? a then None else Some a;
  ca_count : count = next - a;
  ca_counts : cs = tally (from_to msgs a next) }.

Lemma captured_none msgs a : 1 <= a -> captured msgs a [] None a 0 ∅.
Proof.
  intros Ha. assert (from_to msgs a a = []) as E by (unfold from_to; by rewrite Z.sub_diag).
  split; rewrite ?E; try done; try lia; [unfold zlen; cbn [length]; lia|by rewrite Z.eqb_refl].
Qed.

Lemma from_to_snoc msgs a next m : 1 <= a <= next -> msgs !! Z.to_nat (next - 1) = Some m ->
  from_to msgs a (next + 1) = from_to msgs a next ++ [m].
Proof.
  intros Hr Hm. unfold from_to. replace (Z.to_nat (next + 1 - a)) with (S (Z.to_nat (next - a))) by lia. apply take_S_r.
  rewrite lookup_drop. by replace (Z.to_nat (a - 1) + Z.to_nat (next - a))%nat with (Z.to_nat (next - 1)) by lia.
Qed.

Lemma captured_write msgs a file first next count cs m : captured msgs a file first next count cs ->
  msgs !! Z.to_nat (next - 1) = Some m ->
  captured msgs a (file ++ frame16 m) (Some (default next first)) (next + 1) (count + 1)
    (<[msg_type m := default 0 (cs !! msg_type m) + 1]> cs).
Proof.
  intros [Hr Hl Hf Hfs Hc Hcs] Hm.
  pose proof (from_to_snoc msgs a next m Hr Hm) as E.
  split; rewrite ?E.
  - lia.
  - rewrite zlen_app, Hl. unfold zlen. cbn [length]. lia.
  - by rewrite fmap_app, concat_app, <- Hf; cbn; rewrite app_nil_r.
  - rewrite (proj2 (Z.eqb_neq _ _)) by lia. rewrite Hfs. destruct (Z.eqb_spec next a) as [->|]; done.
  - lia.
  - unfold tally. rewrite foldl_app. cbn. by rewrite Hcs.
Qed.

Section exact.
  Context {N : Type} `{ClientOf N} (msgs : list bytes) (good : N -> Prop) (serving : N -> Z -> Prop) `{!Serves msgs good serving}.
  Context (patience : nat) (args : cap_args) (a : Z).
  Implicit Types (w : tool N).

Definition out_file (w : tool N) : option bytes := disk w !! a_out args.

(** The invariant of a run, and of the sidecar a run leaves. *)
Record holds (w : tool N) : Prop := {
  ho_good : good (net w);
  ho_captured : exists file, out_file w = Some file /\
    captured msgs a file (first_seq (cap w)) (k_next_seq (cap w)) (message_count (cap w)) (counts (cap w)) }.

Definition safely {A} (m : M (tool N) A) : Prop := forall w, holds w -> holds (m w).1.

Lemma safely_bind {A B} (m : M (tool N) A) (f : A -> M (tool N) B) : safely m -> (forall x, safely (f x)) -> safely (m ≫= f).
Proof.
  intros Hm Hf w Hw. unfold mbind, M_bind. specialize (Hm w Hw). destruct (m w) as [w' [x|e]]; [by apply Hf|done].
Qed.
Lemma safely_ret {A} (x : A) : safely (mret x).
Proof. by intros w. Qed.
Lemma safely_get {A} (f : tool N -> A) : safely (mgets f).
Proof. by intros w. Qed.
Lemma safely_net {A} (m : M N A) : (forall n, good n -> good (m n).1) -> safely (on_net m).
Proof.
  intros Hm w [Hg Hc]. unfold on_net, zoom. specialize (Hm _ Hg). destruct (m (net w)) as [n r]. by split.
Qed.
Lemma safely_cap f : (forall c, first_seq (f c) = first_seq c /\ k_next_seq (f c) = k_next_seq c /\
    message_count (f c) = message_count c /\ counts (f c) = counts c) -> safely (mod_cap (N := N) f).
Proof.
  intros Hf w [Hg (file & Ho & Hc)]. split; [done|]. exists file. split; [done|]. cbn.
  by destruct (Hf (cap w)) as (-> & -> & -> & ->).
Qed.
Lemma safely_sidecar final : safely (write_sidecar (N := N) final).
Proof. intros w [Hg (file & Ho & Hc)]. split; [done|]. by exists file. Qed.
Lemma safely_try {A} (m : M (tool N) A) h : safely m -> (forall e k, h e = Some k -> safely k) -> safely (mtry m h).
Proof.
  intros Hm Hh w Hw. unfold mtry. specialize (Hm w Hw). destruct (m w) as [w' [x|e]]; [done|].
  destruct (h e) eqn:E; [by eapply Hh|done].
Qed.
Lemma safely_finally {A} (m : M (tool N) A) f : safely m -> safely f -> safely (mfinally m f).
Proof.
  intros Hm Hf w Hw. unfold mfinally. specialize (Hm w Hw). destruct (m w) as [w' r]. specialize (Hf w' Hm).
  by destruct (f w') as [w2 [[]|e]].
Qed.

Let writer : ItchFileWriter := mkWriter (a_out args) false.

Lemma disk_write m file w : disk w !! a_out args = Some file ->
  on_disk (writer_write writer m) w =
    if MAX_MESSAGE_LEN <? zlen m then (w, Raise ValueError)
    else (mkTool (cap w) (<[a_out args := file ++ frame16 m]> (disk w)) (sidecar w) (net w), Ok ()).
Proof.
  intros Ho. unfold on_disk, writer_write, zoom. cbn [w_closed w_path writer]. rewrite Ho. cbn [default from_option id].
  destruct (MAX_MESSAGE_LEN <? zlen m) eqn:El.
  - unfold write_message. rewrite El. cbn. rewrite insert_id by done. by destruct w.
  - apply Z.ltb_ge in El. by rewrite write_message_ok.
Qed.

(** The world after a message was written and numbered. *)
Definition written (m file : bytes) (w : tool N) : tool N :=
  let c := k_count m (cap w) in
  let late := _SIDECAR_EVERY <=? _since_sidecar c in
  mkTool (k_set_next (k_next_seq (cap w) + 1) (if late then k_set_since 0 c else c))
    (<[a_out args := file ++ frame16 m]> (disk w)) (if late then Some (meta_of false c) else sidecar w) (net w).

Lemma write_step m file w : disk w !! a_out args = Some file ->
  (capture_write writer m ;; mod_cap (k_set_next (k_next_seq (cap w) + 1))) w =
    if MAX_MESSAGE_LEN <? zlen m then (w, Raise ValueError) else (written m file w, Ok ()).
Proof.
  intros Ho. unfold capture_write. unfold mbind, M_bind. rewrite (disk_write m file w Ho).
  destruct (MAX_MESSAGE_LEN <? zlen m); [done|]. unfold mod_cap, get_cap, mgets, mmod, write_sidecar, written. munfold.
  cbn -[_SIDECAR_EVERY]. by destruct (_SIDECAR_EVERY <=? _).
Qed.

(** The sidecar written every [_SIDECAR_EVERY] messages counts the message just written
    and asks for it again. *)
Lemma periodic_sidecar m file w : _SIDECAR_EVERY <= _since_sidecar (cap w) + 1 ->
  exists meta, sidecar (written m file w) = Some meta /\ m_message_count meta = message_count (cap w) + 1 /\
    m_next_seq meta = k_next_seq (cap w) /\ k_next_seq (cap (written m file w)) = k_next_seq (cap w) + 1.
Proof.
  intros Hl. unfold written. cbn -[_SIDECAR_EVERY]. rewrite (proj2 (Z.leb_le _ _)) by done. by eexists.
Qed.

Lemma written_holds m file w : holds w -> disk w !! a_out args = Some file ->
  msgs !! Z.to_nat (k_next_seq (cap w) - 1) = Some m -> holds (written m file w).
Proof.
  intros [Hg (file' & Ho & Hc)] Ho' Hm. unfold out_file in Ho. rewrite Ho' in Ho. injection Ho as <-.
  split; [exact Hg|]. exists (file ++ frame16 m). split; [apply lookup_insert_eq|].
  pose proof (captured_write msgs a file _ _ _ _ m Hc Hm) as Hc'. unfold written.
  by destruct (_SIDECAR_EVERY <=? _).
Qed.

Lemma holds_file w : holds w -> exists file, disk w !! a_out args = Some file.
Proof. intros [_ (file & Ho & _)]. by exists file. Qed.

(** ** The loops *)

Lemma pump_packet_run w k : holds w -> serving (net w) k ->
  holds (pump_packet w).1 /\ cap (pump_packet w).1 = cap w /\
  match (pump_packet w).2 with
  | Ok (Some (SequencedData m)) =>
      msgs !! Z.to_nat (k - 1) = Some m /\ serving (net (pump_packet w).1) (k + 1)
  | Ok (Some _) => serving (net (pump_packet w).1) k
  | _ => True
  end.
Proof.
  intros [Hg Hc] Hk. destruct (sv_next _ _ Hg Hk) as [Hg' Hn]. unfold pump_packet, mtry, on_net, zoom. munfold.
  destruct (cl_next_packet (net w)) as [n r]. cbn in *. destruct r as [p|e]; cbn; [by split_and!|].
  destruct e; by split_and!.
Qed.

Lemma pump_loop_holds n : forall w seq b, holds w -> serving (net w) seq -> 1 <= seq <= k_next_seq (cap w) ->
  holds (pump_loop args n writer seq b w).1.
Proof.
  induction n as [|n IH]; intros w seq b Hw Hcur Hseq; cbn [pump_loop]; [exact Hw|].
  unfold mbind at 1, M_bind at 1, get_cap at 1, mgets. destruct (max_reached args (cap w)).
  { apply (safely_bind (mod_cap _)); [by apply safely_cap| |exact Hw]. intros _.
    apply safely_bind; [apply safely_net, sv_logout|intros; apply safely_ret]. }
  unfold mbind at 1, M_bind at 1. destruct (pump_packet_run w seq Hw Hcur) as (Hw1 & Hcap & Hp).
  destruct (pump_packet w) as [w1 [[p|]|e]]; cbn [fst snd] in *; [|exact Hw1|exact Hw1].
  destruct p; try (apply IH; [exact Hw1|exact Hp|by rewrite Hcap]).
  - destruct Hp as [Hm Hcur1]. unfold mbind at 1, M_bind at 1, get_cap at 1, mgets. rewrite Hcap.
    destruct (Z.eqb_spec seq (k_next_seq (cap w))) as [Eq|Hne].
    + destruct (holds_file w1 Hw1) as [file Hfile].
      assert (forall (k : M (tool N) pump_status), (capture_write writer message ;; mod_cap (k_set_next (seq + 1)) ;; k) w1 =
        match (capture_write writer message ;; mod_cap (k_set_next (seq + 1))) w1 with
        | (w2, Ok _) => k w2 | (w2, Raise e) => (w2, Raise e) end) as Eassoc.
      { intros k. unfold mbind, M_bind. by destruct (capture_write writer message w1) as [? [|]]. }
      rewrite Eassoc. assert (seq = k_next_seq (cap w1)) as Eq1 by by rewrite Hcap.
      rewrite Eq1, (write_step message file w1 Hfile). destruct (MAX_MESSAGE_LEN <? zlen message); [exact Hw1|].
      apply IH.
      * apply written_holds; [done..|]. rewrite <- Eq1. exact Hm.
      * rewrite <- Eq1. exact Hcur1.
      * unfold written. cbn. lia.
    + apply IH; [exact Hw1|exact Hcur1|rewrite Hcap; lia].
  - apply (safely_bind (mod_cap _)); [by apply safely_cap| |exact Hw1]. intros _.
    apply safely_bind; [apply safely_net, sv_close|intros; apply safely_ret].
Qed.

Lemma pump_holds w seq : holds w -> serving (net w) seq -> 1 <= seq <= k_next_seq (cap w) ->
  holds (_pump patience args writer seq w).1.
Proof.
  intros Hw Hc Hs. unfold _pump, mfinally. pose proof (pump_loop_holds patience w seq false Hw Hc Hs) as H1.
  destruct (pump_loop _ _ _ _ _ w) as [w1 r]. pose proof (safely_net cl_close sv_close w1 H1) as H2.
  by destruct (on_net cl_close w1) as [w2 [[]|e]].
Qed.

Lemma try_login_run w : holds w ->
  holds (try_login w).1 /\ cap (try_login w).1 = cap w /\
  match (try_login w).2 with
  | Ok (Accepted _ k) => 1 <= k /\ serving (net (try_login w).1) k
  | _ => True
  end.
Proof.
  intros [Hg Hc]. destruct (sv_login (k_session (cap w)) (k_next_seq (cap w)) _ Hg) as [Hg' Hl].
  unfold try_login, get_cap, mtry, on_net, zoom. munfold.
  destruct (cl_login (k_session (cap w)) (k_next_seq (cap w)) (net w)) as [n r]. cbn in *.
  destruct r as [[sess k]|e]; cbn; [by split_and!; try apply (Hl sess k eq_refl)|]. destruct e; by split_and!.
Qed.

(** A retry after [reason], or the end of the tries. *)
Lemma retry_holds reason left (again : M (tool N) Z) : safely again ->
  safely (if left <=? 0 then mod_cap (k_set_end reason) ;; mret EXIT_CONNECT
          else on_net (cl_sleep (a_retry_delay args)) ;; again).
Proof.
  intros Hk. destruct (left <=? 0).
  - apply safely_bind; [by apply safely_cap|intros; apply safely_ret].
  - apply safely_bind; [apply safely_net, sv_sleep|done].
Qed.

Lemma capture_loop_holds n : forall left, safely (capture_loop patience args n writer left).
Proof.
  induction n as [|n IH]; intros left; [by intros w|]. cbn [capture_loop].
  apply safely_bind.
  { apply safely_try; [apply safely_bind; [apply safely_net, sv_connect|intros; apply safely_ret]|].
    intros e k. case_decide; [|done]. intros [= <-]. apply safely_ret. }
  intros [|]; cbn [negb]; [|by apply (retry_holds "connect_failed" left (capture_loop patience args n writer (left - 1)))].
  intros w Hw. unfold mbind at 1, M_bind at 1. destruct (try_login_run w Hw) as (Hw1 & Hcap & Hl).
  destruct (try_login w) as [w1 [[session k|code|]|e]]; cbn [fst snd] in *; [| | |exact Hw1].
  - destruct Hl as [Hk Hcur]. unfold mbind at 1, M_bind at 1. unfold mod_cap at 1, mmod at 1.
    set (w2 := mkTool _ _ _ _). assert (holds w2) as Hw2.
    { exact (safely_cap (k_set_session session) ltac:(by intros) w1 Hw1). }
    change (net w1) with (net w2) in Hcur. clearbody w2. clear Hw1 Hcap Hw w w1.
    unfold mbind at 1, M_bind at 1, get_cap at 1, mgets. destruct (Z.ltb_spec (k_next_seq (cap w2)) k) as [Hgap|Hok].
    + apply (safely_bind (mod_cap _)); [by apply safely_cap| |exact Hw2]. intros _.
      apply safely_bind; [apply safely_net, sv_logout|intros; apply safely_ret].
    + unfold mbind at 1, M_bind at 1. pose proof (pump_holds w2 k Hw2 Hcur ltac:(lia)) as Hw3.
      destruct (_pump patience args writer k w2) as [w3 [st|e]]; [|exact Hw3]. cbn [fst] in Hw3.
      set (left' := match st with MadeProgress => a_retries args | _ => left end).
      assert (safely (if left' <=? 0 then mod_cap (k_set_end "retries_exhausted") ;; mret EXIT_CONNECT
        else mod_cap (fun c => k_set_reconnects (reconnects c + 1) c) ;; write_sidecar false ;;
             on_net (cl_sleep (a_retry_delay args)) ;; capture_loop patience args n writer (left' - 1))) as Hr.
      { destruct (left' <=? 0).
        - apply safely_bind; [by apply safely_cap|intros; apply safely_ret].
        - apply safely_bind; [by apply safely_cap|intros _].
          apply safely_bind; [apply safely_sidecar|intros _].
          apply safely_bind; [apply safely_net, sv_sleep|intros _]. apply IH. }
      destruct st; [exact Hw3|by apply Hr|by apply Hr].
  - apply (safely_bind (mod_cap _)); [by apply safely_cap| |exact Hw1]. intros _.
    apply safely_bind; [apply safely_net, sv_close|intros; apply safely_ret].
  - apply (safely_bind (on_net cl_close)); [apply safely_net, sv_close| |exact Hw1]. intros _.
    by apply (retry_holds "login_failed" left (capture_loop patience args n writer (left - 1))).
Qed.

(** The output file and the sidecar before a run: nothing to resume, or what a run left. *)
Definition resumable (w : tool N) : Prop :=
  match a_seq args with
  | Some seq => seq = a
  | None =>
      match disk w !! a_out args, sidecar w with
      | Some file, Some m => captured msgs a file (m_first_seq m) (m_next_seq m) (m_message_count m) (m_counts m)
      | _, _ => a = 1
      end
  end.

Lemma open_holds w : 1 <= a -> good (net w) -> resumable w ->
  let w0 := (_resume args w).1 in
  holds (mkTool (cap w0) (<[a_out args := if k_append (cap w0) then default [] (disk w !! a_out args) else []]> (disk w)) (sidecar w) (net w)).
Proof.
  intros Ha Hg Hr w0. split; [done|]. cbn [net cap disk sidecar out_file]. unfold out_file. cbn [disk]. rewrite lookup_insert_eq.
  eexists. split; [reflexivity|]. unfold w0, _resume, resume, resumable in *. cbn [fst cap].
  destruct (a_seq args) as [seq|]; [subst seq; cbn; by apply captured_none|].
  destruct (disk w !! a_out args) as [file|]; [|subst a; cbn; by apply captured_none].
  destruct (sidecar w) as [m|]; [exact Hr|subst a; cbn; by apply captured_none].
Qed.
End exact.

(** Against a server that serves [msgs], whatever the network does (connects and logins
    that fail, drops at any packet, silence, an interrupt, a message the file cannot
    take), and however a run ends: the file holds exactly the messages from [a] up to
    the next one needed, each once and in order, the counters agree with it, and the
    final sidecar says the same, so that the next run may start from what this one
    left. *)
Lemma capture_main_holds {N} `{ClientOf N} msgs good serving `{!Serves msgs good serving} patience args turns a (w : tool N) :
  1 <= a -> good (net w) -> resumable msgs args a w ->
  let w' := (capture_main patience args turns w).1 in
  exists file, disk w' !! a_out args = Some file /\
    captured msgs a file (first_seq (cap w')) (k_next_seq (cap w')) (message_count (cap w')) (counts (cap w')) /\
    sidecar w' = Some (meta_of true (k_set_since 0 (cap w'))) /\ end_reason (cap w') <> None /\
    good (net w') /\ (a_seq args = None -> resumable msgs args a w').
Proof.
  intros Ha Hg Hr w'. pose proof (open_holds msgs good args a w Ha Hg Hr) as H0. cbv zeta in H0.
  set (w1 := mkTool _ _ _ _) in H0.
  set (writer := mkWriter (a_out args) false).
  set (main := mtry (capture_loop patience args turns writer (a_retries args))
    (fun x => if decide (x = KeyboardInterrupt) then Some (mod_cap (N := N) (k_set_end "interrupted") ;; mret EXIT_OK) else None)).
  set (fin := (on_disk (N := N) (writer_flush writer) ;; _ ← mret (writer_close writer); c ← get_cap (N := N);
    (if end_reason c then mret () else mod_cap (k_set_end "unknown")) ;; write_sidecar true) : M (tool N) ()).
  assert (capture_main patience args turns w = mfinally main fin w1) as E by reflexivity.
  assert (holds msgs good args a (main w1).1) as Hm.
  { apply safely_try; [by apply (capture_loop_holds msgs good serving patience args a)| |exact H0]. intros e k. case_decide; [|done]. intros [= <-].
    apply safely_bind; [by apply safely_cap|intros; apply safely_ret]. }
  assert (exists r, mfinally main fin w1 = ((fin (main w1).1).1, r)) as [r Er].
  { unfold mfinally. destruct (main w1) as [w2 r]. cbn [fst]. exists r. unfold fin, on_disk, writer_flush, zoom, get_cap, mod_cap, write_sidecar. munfold.
    cbn. by destruct (end_reason (cap w2)). }
  assert (w' = (fin (main w1).1).1) as -> by (unfold w'; by rewrite E, Er).
  destruct Hm as [Hg2 (file & Ho & Hc)]. destruct (main w1) as [w2 r2]. cbn [fst] in *. exists file.
  unfold fin, on_disk, writer_flush, zoom, get_cap, mod_cap, write_sidecar. munfold. unfold resumable. cbn.
  destruct (end_reason (cap w2)) eqn:Ee; cbn; rewrite ?Ee; (split_and!; [exact Ho|exact Hc|done|done|done|]); intros ->;
    unfold out_file in Ho; by rewrite Ho.
Qed.
