(* ===== verification/CaptureNet.v ===== *)
(** The capture tool over the blocking client: what a network promises
    ([HonestNet]: a connection that succeeds carries the packets of a server that
    serves one session's messages), the proof that the client then gives the tool what
    [Serves] asks, and the capture's theorem over such a network. *)
From S2P Require Export Capture.

#[global] Set Default Goal Selector "!".

(** The arguments of the client: user, password, --timeout, --idle-timeout. *)
Record client_args : Type := mkClientArgs { o_user : str; o_pass : str; o_timeout : Z; o_idle : Z }.

(** The client as the capture uses it. *)
Definition soup_client {W} `{NetOf W} (patience : nat) (o : client_args) : ClientOf W := {|
  cl_connect := mod_client (fun _ => new_client (o_idle o)) ;; sc_connect (o_timeout o) ;; mret ();
  cl_login s q := sc_login patience (o_user o) (o_pass o) s q (o_timeout o);
  cl_next_packet := next_packet patience None;
  cl_logout := sc_logout;
  cl_close := sc_close;
  cl_sleep := net_sleep |}.

(** * What the network promises *)

(** Packets after a login accepted at [k]. *)
Fixpoint served (msgs : list bytes) (k : Z) (ps : list packet) : Prop :=
  match ps with
  | [] => True
  | SequencedData m :: ps => msgs !! Z.to_nat (k - 1) = Some m /\ served msgs (k + 1) ps
  | LoginAccepted _ _ :: _ => False
  | _ :: ps => served msgs k ps
  end.

(** Packets of a connection: whatever comes before, a login is accepted once, at the
    number the messages after it start from. *)
Fixpoint honest (msgs : list bytes) (ps : list packet) : Prop :=
  match ps with
  | [] => True
  | LoginAccepted _ k :: ps => 1 <= k /\ served msgs k ps
  | _ :: ps => honest msgs ps
  end.

Definition quiet {W} `{NetOf W} {A} (sane : W -> Prop) (flight : W -> bytes -> Prop) (m : M W A) : Prop :=
  forall w, sane w -> sane (m w).1 /\ net_client (m w).1 = net_client w /\ forall bs, flight w bs -> flight (m w).1 bs.

(** [flight w bs]: [bs] is what the connection of [w] will still carry to the client,
    up to its loss.  A cut packet at the end is allowed. *)
Class HonestNet {W} `{NetOf W} (msgs : list bytes) (sane : W -> Prop) (flight : W -> bytes -> Prop) : Prop := {
  hn_get : forall c w, net_client (set_client c w) = c;
  hn_set : forall c w, sane w -> sane (set_client c w) /\ forall bs, flight w bs -> flight (set_client c w) bs;
  hn_now : quiet sane flight net_now;
  hn_clock : forall w, exists t, (net_now w).2 = Ok t;
  hn_sendall : forall b, quiet sane flight (net_sendall b);
  hn_close : quiet sane flight net_close;
  hn_sleep : forall d, quiet sane flight (net_sleep d);
  hn_connect : forall t w, sane w -> sane (net_connect t w).1 /\ net_client (net_connect t w).1 = net_client w /\
    forall r, (net_connect t w).2 = Ok r -> exists bs rest ps,
      flight (net_connect t w).1 bs /\ feed bs [] = (rest, Ok ps) /\ honest msgs ps;
  hn_recv : forall t w, sane w -> sane (net_recv t w).1 /\ net_client (net_recv t w).1 = net_client w /\
    forall bs, flight w bs -> match (net_recv t w).2 with
      | Ok d => exists bs', bs = d ++ bs' /\ flight (net_recv t w).1 bs'
      | Raise _ => flight (net_recv t w).1 bs
      end }.

Section honest.
  Context {W : Type} `{NetOf W} (msgs : list bytes) (sane : W -> Prop) (flight : W -> bytes -> Prop) `{!HonestNet msgs sane flight}.
  Implicit Types (w : W) (ps : list packet).

(** [ps]: what the client will still return, [d] read and not fed yet. *)
Definition coming (d : bytes) w ps : Prop := exists bs rest ps', flight w bs /\ feed (d ++ bs) (sc_frames (net_client w)) = (rest, Ok ps') /\
  ps = _pending (net_client w) ++ ps'.

Definition sound w : Prop := sane w /\ (sc_sock (net_client w) = true -> exists ps, coming [] w ps /\ honest msgs ps).
Definition serving w (k : Z) : Prop := exists ps, coming [] w ps /\ served msgs k ps.

Lemma served_honest ps : forall k, served msgs k ps -> honest msgs ps.
Proof. induction ps as [|[] ps IH]; intros k; cbn; try done; try apply IH. intros [_ Hs]. by eapply IH. Qed.

Lemma honest_tail p ps : honest msgs (p :: ps) -> honest msgs ps.
Proof. destruct p; cbn; try done. intros [_ Hs]. by eapply served_honest. Qed.

(** An operation that reads nothing. *)
Definition calm {A} (m : M W A) : Prop := forall w, sane w ->
  sane (m w).1 /\ (sc_sock (net_client (m w).1) = true -> sc_sock (net_client w) = true) /\
  forall d ps, coming d w ps -> coming d (m w).1 ps.

Lemma calm_bind {A B} (m : M W A) (f : A -> M W B) : calm m -> (forall x, calm (f x)) -> calm (m ≫= f).
Proof.
  intros Hm Hf w Hw. rewrite bind_run. destruct (Hm w Hw) as (H1 & H2 & H3).
  destruct (m w) as [w1 [x|e]]; [|done]. cbn in *. destruct (Hf x w1 H1) as (H4 & H5 & H6). by split_and!; auto.
Qed.
Lemma calm_ret {A} (x : A) : calm (mret x).
Proof. by intros w. Qed.
Lemma calm_raise {A} e : calm (mraise e : M W A).
Proof. by intros w. Qed.
Lemma calm_gets {A} (f : W -> A) : calm (mgets f).
Proof. by intros w. Qed.
Lemma calm_try {A} (m : M W A) h : calm m -> (forall e k, h e = Some k -> calm k) -> calm (mtry m h).
Proof.
  intros Hm Hh w Hw. unfold mtry. destruct (Hm w Hw) as (H1 & H2 & H3). destruct (m w) as [w1 [x|e]]; [done|].
  destruct (h e) as [k|] eqn:E; [|done]. destruct (Hh e k E w1 H1) as (H4 & H5 & H6). by split_and!; auto.
Qed.
Lemma calm_quiet {A} (m : M W A) : quiet sane flight m -> calm m.
Proof.
  intros Hm w Hw. destruct (Hm w Hw) as (H1 & H2 & H3). unfold coming. rewrite H2. split_and!; [done..|].
  intros d ps (bs & rest & ps' & Hf & E & ->). exists bs, rest, ps'. by auto.
Qed.
Lemma calm_client f : (forall c, sc_frames (f c) = sc_frames c /\ _pending (f c) = _pending c /\
    (sc_sock (f c) = true -> sc_sock c = true)) -> calm (mod_client f).
Proof.
  intros Hf w Hw. unfold mod_client, mmod. cbn [fst]. destruct (hn_set (f (net_client w)) w Hw) as [H1 H2].
  destruct (Hf (net_client w)) as (E1 & E2 & E3). unfold coming. rewrite hn_get, E1, E2. split_and!; [done..|].
  intros d ps (bs & rest & ps' & Hfl & E & ->). exists bs, rest, ps'. by auto.
Qed.
Lemma calm_lift {A} (r : res A) : calm (mlift r).
Proof. by intros w. Qed.
Lemma calm_now : calm net_now.
Proof. apply calm_quiet, hn_now. Qed.

Create HintDb calm.
#[local] Hint Resolve calm_ret calm_raise calm_gets calm_lift calm_now calm_bind calm_try : calm.
#[local] Hint Extern 1 (calm (mod_client _)) => apply calm_client; intros; by split_and! : calm.

(** Break a program into its steps. *)
Ltac calm := repeat (first
  [ apply calm_bind; [|intros ?] | apply calm_try; [|intros [] ?; cbn; intros [= <-]]
  | progress (eauto 2 with calm) | case_match ]).

Lemma calm_send wire : calm (sc_send wire).
Proof. unfold sc_send, get_client, os_error_is. calm. apply calm_quiet, hn_sendall. Qed.
Lemma calm_heartbeat : calm send_heartbeat.
Proof. unfold send_heartbeat. apply calm_bind; [auto with calm|intros; apply calm_send]. Qed.
Lemma calm_close : calm sc_close.
Proof. unfold sc_close, get_client. calm. apply calm_quiet, hn_close. Qed.
Lemma calm_logout : calm sc_logout.
Proof.
  unfold sc_logout, send_logout. apply calm_bind; [|intros; apply calm_close].
  apply calm_try; [apply calm_bind; [auto with calm|intros; apply calm_send]|].
  intros e k. destruct (is_SoupClientError e); intros [= <-]. apply calm_ret.
Qed.

Lemma calm_sound {A} (m : M W A) w : calm m -> sound w -> sound (m w).1.
Proof.
  intros Hm [Hs Hc]. destruct (Hm w Hs) as (H1 & H2 & H3). split; [done|]. intros Hk.
  destruct (Hc (H2 Hk)) as (ps & Hp & Hh). exists ps. by auto.
Qed.

(** ** Reading *)

(** An operation that returns the next packet, or raises and has taken none; [d] was
    read before it. *)
Definition reads_from (d : bytes) (m : M W packet) : Prop := forall w, sane w ->
  sane (m w).1 /\ (sc_sock (net_client (m w).1) = true -> sc_sock (net_client w) = true) /\
  forall ps, coming d w ps -> match (m w).2 with
    | Ok p => exists ps', ps = p :: ps' /\ coming [] (m w).1 ps'
    | Raise _ => coming [] (m w).1 ps
    end.
Abbreviation reads := (reads_from []).

Lemma reads_bind {A} d (m : M W A) (f : A -> M W packet) : calm m -> (d = [] \/ forall w e, (m w).2 <> Raise e) ->
  (forall x, reads_from d (f x)) -> reads_from d (m ≫= f).
Proof.
  intros Hm Hd Hf w Hw. rewrite bind_run. destruct (Hm w Hw) as (H1 & H2 & H3).
  destruct (m w) as [w1 [x|e]] eqn:E; cbn in *.
  - destruct (Hf x w1 H1) as (H4 & H5 & H6). split_and!; [done|auto|].
    intros ps Hp. exact (H6 ps (H3 d ps Hp)).
  - destruct Hd as [->|Hd]; [by split_and!; auto|]. destruct (Hd w e). by rewrite E.
Qed.
Lemma reads_raise e : reads (mraise e).
Proof. by intros w. Qed.

(** [pop_pending], then something else when there is nothing. *)
Lemma reads_pop (k : M W packet) : reads k -> reads (p ← pop_pending; match p with Some p => mret p | None => k end).
Proof.
  intros Hk w Hw. unfold pop_pending, get_client, mgets, mod_client, mmod. unfold mbind, M_bind.
  destruct (_pending (net_client w)) as [|p qs] eqn:E; [exact (Hk w Hw)|]. cbn.
  destruct (hn_set (sc_set_pending qs (net_client w)) w Hw) as [H1 H2]. rewrite hn_get. split_and!; [done..|].
  intros ps (bs & rest & ps' & Hf & Ef & ->). rewrite E. exists (qs ++ ps'). split; [done|].
  exists bs, rest, ps'. rewrite hn_get. cbn. by auto.
Qed.

(** What was read, fed to the buffer. *)
Lemma reads_feed d (k : M W packet) : reads k -> reads_from d (feed_client d ;; k).
Proof.
  intros Hk w Hw. unfold mbind, M_bind, feed_client.
  destruct (feed d (sc_frames (net_client w))) as [buf [ps1|e]] eqn:E1.
  - set (c := sc_set_pending _ _). destruct (hn_set c w Hw) as [H1 H2]. destruct (Hk _ H1) as (H3 & H4 & H5).
    rewrite hn_get in H4. split_and!; [done..|]. intros ps (bs & rest & ps' & Hf & E & ->). apply H5.
    destruct (feed_app_ok _ _ _ _ _ E) as (b1 & p1 & p2 & E2 & E3 & ->). rewrite E2 in E1. injection E1 as <- <-.
    exists bs, rest, p2. rewrite hn_get. cbn. rewrite app_assoc. by auto.
  - destruct (hn_set (sc_set_frames buf (net_client w)) w Hw) as [H1 _]. cbn. rewrite hn_get. split_and!; [done..|].
    intros ps (bs & rest & ps' & Hf & E & ->). destruct (feed_app_ok _ _ _ _ _ E) as (b1 & p1 & p2 & E2 & _). congruence.
Qed.

(** A read. *)
Lemma recv_some_run t w : sane w ->
  sane (recv_some t w).1 /\ net_client (recv_some t w).1 = net_client w /\
  forall ps, coming [] w ps ->
    coming (match (recv_some t w).2 with Ok (Some d) => d | _ => [] end) (recv_some t w).1 ps.
Proof.
  intros Hw. destruct (hn_recv t w Hw) as (H1 & H2 & H3). unfold recv_some, mtry. munfold.
  destruct (net_recv t w) as [w1 [d|e]]; cbn in *; unfold coming.
  - rewrite H2. split_and!; [done..|]. intros ps (bs & rest & ps' & Hf & E & ->).
    destruct (H3 bs Hf) as (bs' & -> & Hf'). by exists bs', rest, ps'.
  - destruct (decide (e = SocketTimeout)); [|destruct (is_OSError e)]; cbn; rewrite H2; (split_and!; [done..|]);
      intros ps (bs & rest & ps' & Hf & E & ->); exists bs, rest, ps'; by auto.
Qed.

Lemma reads_wait n deadline : reads (wait_loop n deadline).
Proof.
  induction n as [|n IH]; [apply reads_raise|]. cbn [wait_loop].
  apply reads_bind; [apply calm_now|by left|intros now]. apply reads_bind; [apply calm_gets|by left|intros c].
  apply reads_bind; [destruct (_ <=? _); [apply calm_heartbeat|apply calm_ret]|by left|intros _].
  apply reads_bind; [apply calm_gets|by left|intros c']. destruct (_ <=? _); [apply reads_raise|].
  destruct (match deadline with Some d => d <=? now | None => false end); [apply reads_raise|].
  set (t := recv_wait now deadline c'). clearbody t.
  assert (forall d, reads_from d (now ← net_now; mod_client (sc_set_received now) ;; feed_client d ;;
    p ← pop_pending; match p with Some p => mret p | None => wait_loop n deadline end)) as Hd.
  { intros d. apply reads_bind; [apply calm_now| |intros now'].
    { right. intros w e. destruct (hn_clock w) as [x Ex]. by rewrite Ex. }
    apply reads_bind; [auto with calm|by right|intros _]. by apply reads_feed, reads_pop. }
  intros w Hw. rewrite bind_run. destruct (recv_some_run t w Hw) as (H1 & H2 & H3).
  destruct (recv_some t w) as [w1 [[[|b d]|]|e]]; cbn [fst snd] in *; rewrite <- H2;
    [split_and!; [exact H1|done|exact H3]| | |split_and!; [exact H1|done|exact H3]].
  - destruct (Hd (b :: d) w1 H1) as (H4 & H5 & H6). split_and!; [done..|]. intros ps Hp. exact (H6 ps (H3 ps Hp)).
  - destruct (IH w1 H1) as (H4 & H5 & H6). split_and!; [done..|]. intros ps Hp. exact (H6 ps (H3 ps Hp)).
Qed.

Lemma reads_next patience timeout : reads (next_packet patience timeout).
Proof.
  unfold next_packet. apply reads_pop, reads_bind; [apply calm_gets|by left|intros c].
  destruct (negb (sc_sock c)); [apply reads_raise|]. apply reads_bind; [|by left|intros; apply reads_wait].
  destruct timeout; [apply calm_bind; [apply calm_now|intros; apply calm_ret]|apply calm_ret].
Qed.

(** ** Logging in *)

Lemma login_loop_run patience n deadline : forall w ps, sane w -> coming [] w ps -> honest msgs ps ->
  let m := login_loop patience n deadline w in
  sane m.1 /\ exists ps', coming [] m.1 ps' /\ honest msgs ps' /\
    forall s k, m.2 = Ok (s, k) -> 1 <= k /\ served msgs k ps'.
Proof.
  induction n as [|n IH]; intros w ps Hw Hp Hh; [by split; [|exists ps]|]. cbn [login_loop].
  rewrite bind_run. destruct (calm_now w Hw) as (H1 & _ & H2). specialize (H2 [] ps Hp).
  destruct (net_now w) as [w1 [now|e]]; cbn [fst snd] in *; [|by split; [|exists ps]].
  destruct (_ <=? 0); [by split; [|exists ps]|]. rewrite bind_run.
  destruct (reads_next patience (Some (deadline - now)) w1 H1) as (H3 & _ & H4). specialize (H4 ps H2).
  destruct (next_packet _ _ w1) as [w2 [p|e]]; cbn [fst snd] in *; [|by split; [|exists ps]].
  destruct H4 as (ps' & -> & H4). pose proof (honest_tail _ _ Hh) as Ht.
  destruct p; cbn [fst snd mret M_ret mraise]; try (by split; [|exists ps']); try by apply (IH w2 ps').
  split; [done|]. exists ps'. split_and!; [done..|]. intros s k [= <- <-]. exact Hh.
Qed.

(** ** The client serves *)

Section serves.
  Context (patience : nat) (o : client_args).
#[local] Instance the_client : ClientOf W := soup_client patience o.

Lemma sound_connect w : sane w -> sound (cl_connect w).1.
Proof.
  intros Hw. cbn [cl_connect the_client soup_client]. rewrite bind_run.
  unfold mod_client at 1, mmod. destruct (hn_set (new_client (o_idle o)) w Hw) as [Hs _]. set (w0 := set_client _ w) in *.
  assert (net_client w0 = new_client (o_idle o)) as E0 by apply hn_get. clearbody w0. clear Hw w.
  rewrite bind_run. unfold sc_connect. rewrite bind_run.
  destruct (hn_now w0 Hs) as (Hs1 & E1 & _). destruct (net_now w0) as [w1 [start|e]]; cbn [fst] in *;
    [|split; [done|by rewrite E1, E0]].
  rewrite bind_run. unfold os_error_is, mtry. destruct (hn_connect (o_timeout o) w1 Hs1) as (Hs2 & E2 & Hr).
  destruct (net_connect (o_timeout o) w1) as [w2 [[]|e]]; cbn [fst snd] in *.
  2: { assert (sound w2) by (split; [done|by rewrite E2, E1, E0]). by destruct (is_OSError e). }
  destruct (Hr () eq_refl) as (bs & rest & ps & Hf & Ef & Hh).
  rewrite bind_run. unfold mod_client at 1, mmod. destruct (hn_set (sc_set_sock true (net_client w2)) w2 Hs2) as [Hs3 Hf3].
  set (w3 := set_client _ w2) in *. assert (sound w3) as H3.
  { split; [done|]. intros _. exists ps. split; [|done]. unfold coming. assert (net_client w3 = sc_set_sock true (net_client w2)) as -> by apply hn_get. rewrite E2, E1, E0.
    exists bs, rest, ps. split_and!; [by apply Hf3|exact Ef|done]. }
  set (tail := now ← net_now; _). assert (calm tail) as Ht by (unfold tail, get_client; calm).
  pose proof (calm_sound tail w3 Ht H3) as H4. by destruct (tail w3) as [w4 [x|e]].
Qed.

Lemma calm_send_login u pw s q : calm (send_login u pw s q).
Proof. unfold send_login. apply calm_bind; [auto with calm|intros; apply calm_send]. Qed.

Lemma send_login_sock u pw s q w r : (send_login u pw s q w).2 = Ok r -> sc_sock (net_client w) = true.
Proof.
  unfold send_login. rewrite bind_run. unfold mlift. destruct (encode_packet _); [|done].
  unfold sc_send, get_client, mgets. rewrite bind_run. by destruct (sc_sock (net_client w)).
Qed.

Lemma sound_login s q w : sound w ->
  sound (cl_login s q w).1 /\ forall sess k, (cl_login s q w).2 = Ok (sess, k) -> 1 <= k /\ serving (cl_login s q w).1 k.
Proof.
  intros Hw. cbn [cl_login the_client soup_client]. unfold sc_login. rewrite bind_run.
  pose proof (calm_send_login (o_user o) (o_pass o) s q) as Hc. pose proof (calm_sound _ w Hc Hw) as H1.
  pose proof (send_login_sock (o_user o) (o_pass o) s q w) as Hk. destruct Hw as [Hs Hw]. destruct (Hc w Hs) as (_ & _ & H2).
  destruct (send_login _ _ _ _ w) as [w1 [r|e]]; cbn [fst snd] in *; [|by split].
  destruct (Hw (Hk r eq_refl)) as (ps & Hp & Hh). specialize (H2 [] ps Hp). rewrite bind_run.
  destruct (calm_now w1 (proj1 H1)) as (H3 & _ & H4). pose proof (calm_sound _ w1 calm_now H1) as H5.
  destruct (net_now w1) as [w2 [now|e]]; cbn [fst snd] in *; [|by split].
  destruct (login_loop_run patience patience (now + o_timeout o) w2 ps H3 (H4 [] ps H2) Hh) as (H6 & ps' & H7 & H8 & H9).
  split; [split; [done|]; intros _; by exists ps'|]. intros sess k E. destruct (H9 sess k E) as [Hk1 Hsv].
  split; [done|by exists ps'].
Qed.

#[export] Instance serves : Serves msgs sound serving.
Proof.
  split.
  - intros w [Hs _]. by apply sound_connect.
  - intros w. apply calm_sound, calm_logout.
  - intros w. apply calm_sound, calm_close.
  - intros d w. apply calm_sound, calm_quiet, hn_sleep.
  - apply sound_login.
  - intros w k [Hs Hw] (ps & Hp & Hk). destruct (reads_next patience None w Hs) as (H1 & H2 & H3).
    cbn [cl_next_packet the_client soup_client]. split; [split; [done|]|].
    + intros Hsock. destruct (Hw (H2 Hsock)) as (qs & Hq & Hh). specialize (H3 qs Hq).
      destruct (next_packet patience None w).2 as [p|e]; [|by exists qs]. destruct H3 as (qs' & -> & Hq').
      exists qs'. split; [done|]. by eapply honest_tail.
    + specialize (H3 ps Hp). destruct (next_packet patience None w).2 as [p|e]; [|done].
      destruct H3 as (ps' & -> & Hq'). destruct p; cbn in Hk; try (by exists ps'); try done.
      destruct Hk as [Hm Hk]. split; [done|by exists ps'].
Qed.
End serves.
End honest.

(** * A scripted network *)

(** A connection: refused, or its reads ([None]: nothing within the timeout), and its loss. *)
Abbreviation script := (option (list (option bytes))).

Record script_net : Type := mkScript { sn_client : SoupClient; sn_clock : Z; sn_conns : list script; sn_reads : list (option bytes) }.

#[export] Instance script_net_of : NetOf script_net := {|
  net_client := sn_client;
  set_client c w := mkScript c (sn_clock w) (sn_conns w) (sn_reads w);
  net_now := mgets sn_clock;
  net_connect t := fun w =>
    match sn_conns w with
    | Some reads :: conns => (mkScript (sn_client w) (sn_clock w) conns reads, Ok ())
    | None :: conns => (mkScript (sn_client w) (sn_clock w) conns (sn_reads w), Raise OSError)
    | [] => (w, Raise OSError)
    end;
  net_sendall _ := mret ();
  net_recv t := fun w =>
    match sn_reads w with
    | Some d :: reads => (mkScript (sn_client w) (sn_clock w) (sn_conns w) reads, Ok d)
    | None :: reads => (mkScript (sn_client w) (sn_clock w + t) (sn_conns w) reads, Raise SocketTimeout)
    | [] => (w, Raise OSError)
    end;
  net_close := mret ();
  net_sleep d := mmod (fun w => mkScript (sn_client w) (sn_clock w + d) (sn_conns w) (sn_reads w)) |}.

Definition carried (reads : list (option bytes)) : bytes := concat (default [] <$> reads).
Definition script_flight (w : script_net) (bs : bytes) : Prop := bs = carried (sn_reads w).
Definition script_sane (msgs : list bytes) (w : script_net) : Prop :=
  Forall (fun c => match c with
    | Some reads => exists rest ps, feed (carried reads) [] = (rest, Ok ps) /\ honest msgs ps
    | None => True
    end) (sn_conns w).

#[export] Instance script_honest msgs : HonestNet msgs (script_sane msgs) script_flight.
Proof.
  split; try done.
  - intros w. by exists (sn_clock w).
  - intros t w Hw. cbn. unfold script_sane in *. destruct (sn_conns w) as [|[reads|] conns] eqn:E; cbn.
    + rewrite E. by split_and!.
    + apply Forall_cons in Hw as [(rest & ps & Ef & Hh) Hc]. split_and!; [done..|].
      intros r _. by exists (carried reads), rest, ps.
    + apply Forall_cons in Hw as [_ Hc]. by split_and!.
  - intros t w Hw. cbn. unfold script_flight. destruct (sn_reads w) as [|[d|] reads] eqn:E; cbn.
    + rewrite E. by split_and!.
    + split_and!; [done..|]. intros bs ->. by exists (carried reads).
    + split_and!; [done..|]. by intros bs ->.
Qed.

(** * Properties *)

(** C3. The capture tool over its client and a network that carries a server's session.
    Whatever the network does (refused connections, lost or silent ones at any byte,
    reads cut anywhere, logins that fail, a message the file cannot take), and however
    the run ends: the file holds exactly the messages from [a] up to the next one
    needed, each once and in order, the counters agree with it, and the final sidecar
    says the same, so that the next run may start from what this one left. *)
Theorem capture_exact {W} `{NetOf W} msgs sane flight `{!HonestNet msgs sane flight} patience o args turns a (w : tool W) :
  1 <= a -> sane (net w) -> sc_sock (net_client (net w)) = false -> resumable msgs args a w ->
  let w' := (capture_main (H := soup_client patience o) patience args turns w).1 in
  exists file, disk w' !! a_out args = Some file /\
    captured msgs a file (first_seq (cap w')) (k_next_seq (cap w')) (message_count (cap w')) (counts (cap w')) /\
    sidecar w' = Some (meta_of true (k_set_since 0 (cap w'))) /\ end_reason (cap w') <> None /\
    sane (net w') /\ (a_seq args = None -> resumable msgs args a w').
Proof.
  intros Ha Hs Hk Hr. assert (sound msgs sane flight (net w)) as Hw by (split; [done|congruence]).
  destruct (capture_main_holds (H := soup_client patience o) msgs (sound msgs sane flight) (serving msgs flight)
    (Serves0 := serves msgs sane flight patience o) patience args turns a w Ha Hw Hr)
    as (file & H1 & H2 & H3 & H4 & [H5 _] & H6). by exists file.
Qed.

(** Two connections: the first is refused, the next is lost within the third message;
    the last replays the second message. *)
Definition day : list bytes := s2l <$> ["Sopen"; "Atwo"; "Athree"].
Definition wire (ps : list packet) : bytes := concat ((fun p => match encode_packet p with Ok d => d | Raise _ => [] end) <$> ps).
Definition first_connection : bytes :=
  take 60 (wire (LoginAccepted "DAY1" 1 :: ServerHeartbeat :: (SequencedData <$> day))).
Definition last_connection : bytes :=
  wire (LoginAccepted "DAY1" 2 :: (SequencedData <$> drop 1 day) ++ [EndOfSession]).
Definition day_net : script_net := mkScript (new_client 15000) 0
  [None; Some [Some (take 7 first_connection); None; Some (drop 7 first_connection)];
   Some [Some (take 40 last_connection); Some (drop 40 last_connection)]] [].
Definition day_args : cap_args := mkArgs "day.itch" None "" 5 1000 None.

Lemma capture_exact_witness :
  let w' := (capture_main (H := soup_client 20 (mkClientArgs "user" "pass" 10000 15000)) 20 day_args 5
    (mkTool (resume day_args None) ∅ None day_net)).1 in
  disk w' !! "day.itch" = Some (concat (frame16 <$> day)) /\ end_reason (cap w') = Some "end_of_session" /\
  reconnects (cap w') = 1 /\
  exists file, disk w' !! "day.itch" = Some file /\
    captured day 1 file (first_seq (cap w')) (k_next_seq (cap w')) (message_count (cap w')) (counts (cap w')).
Proof.
  split_and!; [vm_compute; reflexivity..|].
  destruct (capture_exact day (script_sane day) script_flight 20 (mkClientArgs "user" "pass" 10000 15000) day_args 5 1
    (mkTool (resume day_args None) ∅ None day_net)) as (file & H1 & H2 & _).
  - lia.
  - cbn. unfold script_sane. cbn [sn_conns day_net]. repeat apply Forall_cons_2; [done| | |by apply Forall_nil_2].
    + eexists _, _. split; [vm_compute; reflexivity|]. cbn. by repeat split.
    + eexists _, _. split; [vm_compute; reflexivity|]. cbn. by repeat split.
  - reflexivity.
  - reflexivity.
  - exists file. by split.
Defined.
