(* ===== verification/Fixtures.v ===== *)
(** jnxfeed/cli/fixtures.py: scanning the sample captures, and the .itch files cut
    from them.

    A generator is the list of what it yields and how it ends, as in Pcap.  The
    manifests are records, without the name of the source; their tables are sorted.
    The pcap is read after the output files were opened. *)
From S2P Require Export Market Pcap ItchFile SoupPackets.

#[global] Set Default Goal Selector "!".

Definition ITCH_TCP_PORT : Z := 15001.
Definition GLIMPSE_TCP_PORT : Z := 15002.
Definition DEFAULT_SLICE_COUNT : Z := 2000.

(** * The UDP sample *)

Abbreviation sample_item := (str * Z * bytes)%type.   (* session, seq, message *)

(** The body of the loop of [iter_udp_sample], for one record. *)
Definition udp_record (rec : pcap_record) : list sample_item * res () :=
  let '(_, proto, _, _, _, _, payload) := rec in
  match proto with
  | PROTO_TCP => ([], Ok ())
  | PROTO_UDP =>
      match parse_mold_header payload with
      | Raise e => ([], Raise e)
      | Ok header =>
          let '(l, r) := iter_mold_messages payload in ((fun x => (mold_session header, x.1, x.2)) <$> l, r)
      end
  end.

(** [ended]: how reading the records ends. *)
Fixpoint udp_records (records : list pcap_record) (ended : res ()) : list sample_item * res () :=
  match records with
  | [] => ([], ended)
  | rec :: records =>
      match udp_record rec with
      | (l, Raise e) => (l, Raise e)
      | (l, Ok _) => let '(l', r) := udp_records records ended in (l ++ l', r)
      end
  end.

Definition iter_udp_sample (fs : files) (pcap_path : str) : list sample_item * res () :=
  match fs !! pcap_path with
  | None => ([], Raise OSError)
  | Some f => let '(records, r) := read_pcap f in udp_records records r
  end.

(** The local variables of [scan_udp_sample]. *)
Record udp_scan : Type := mkScan {
  u_session : option str; u_first_seq : option Z; u_last_seq : option Z; u_count : Z;
  u_type_counts : list (str * Z); u_slice_counts : list (str * Z); u_slice_last_seq : option Z }.

Definition bump_type (k : str) (d : list (str * Z)) : list (str * Z) := dset k (default 0 (dget k d) + 1) d.

(** [chr(message\[0\])] *)
Definition type_of (message : bytes) : res str :=
  match message with [] => Raise IndexError | b :: _ => Ok (l2s [b]) end.

(** The three tests on the sequence of the messages. *)
Definition check_sequence (session : str) (seq : Z) (s : udp_scan) : res () :=
  match u_session s with
  | None => Ok ()
  | Some first =>
      if decide (session <> first) then Raise SampleError
      else match u_last_seq s with
           | Some last => if seq =? last + 1 then Ok () else Raise SampleError
           | None => Raise TypeError
           end
  end.

Definition write_opt (w : option ItchFileWriter) (message : bytes) : M files () :=
  match w with Some w => writer_write w message | None => mret () end.

(** The body of the loop: the scan's variables beside the files. *)
Definition scan_step (writer slice_writer : option ItchFileWriter) (slice_count : Z) (i : sample_item) : M (udp_scan * files) () :=
  let '(session, seq, message) := i in
  s ← mgets fst;
  mlift (check_sequence session seq s) ;;
  t ← mlift (type_of message);
  mlift (Itch.decode message) ;;
  let count := u_count s + 1 in
  let s := mkScan (Some (default session (u_session s))) (if u_session s then u_first_seq s else Some seq) (Some seq) count
             (bump_type t (u_type_counts s)) (u_slice_counts s) (u_slice_last_seq s) in
  mmod (fun x => (s, x.2)) ;;
  zoom snd (fun fs x => (x.1, fs)) (write_opt writer message) ;;
  if bool_decide (is_Some slice_writer) && (count <=? slice_count) then
    zoom snd (fun fs x => (x.1, fs)) (write_opt slice_writer message) ;;
    mmod (fun x => (mkScan (u_session s) (u_first_seq s) (u_last_seq s) count (u_type_counts s)
                      (bump_type t (u_slice_counts s)) (Some seq), x.2))
  else mret ().

Record manifest : Type := mkManifest {
  mf_session : option str; mf_first_seq : option Z; mf_last_seq : option Z; mf_message_count : Z;
  mf_type_counts : list (str * Z) }.

Definition open_opt (path : option str) : M files (option ItchFileWriter) :=
  match path with
  | None | Some EmptyString => mret None
  | Some p => w ← writer_open p false; mret (Some w)
  end.

Definition scan_init : udp_scan := mkScan None None None 0 [] [] None.

Definition scan_udp_sample (pcap_path : str) (out_path slice_path : option str) (slice_count : Z) : M files (manifest * option manifest) :=
  writer ← open_opt out_path;
  slice_writer ← open_opt slice_path;
  fs ← mget;
  let '(items, ended) := iter_udp_sample fs pcap_path in
  s ← (fun fs => match mfor items (scan_step writer slice_writer slice_count) (scan_init, fs) with
                 | ((s, fs'), Ok _) => (fs', Ok s)
                 | ((_, fs'), Raise e) => (fs', Raise e)
                 end);
  mlift ended ;;
  mret (mkManifest (u_session s) (u_first_seq s) (u_last_seq s) (u_count s) (sorted_items (u_type_counts s)),
        match slice_path with
        | Some _ => Some (mkManifest (u_session s) (u_first_seq s) (u_slice_last_seq s) (Z.min (u_count s) slice_count)
                            (sorted_items (u_slice_counts s)))
        | None => None
        end).

(** * The TCP samples *)

Record soup_manifest : Type := mkSoupManifest {
  sm_server_port : Z; sm_session : str; sm_login_sequence : Z; sm_message_count : Z; sm_type_counts : list (str * Z);
  sm_heartbeats : Z; sm_end_of_session : bool; sm_trailing_bytes : Z; sm_last_message : option message }.

Record soup_scan : Type := mkSoupScan {
  ss_count : Z; ss_type_counts : list (str * Z); ss_heartbeats : Z; ss_end_of_session : bool; ss_last_msg : option message }.

Definition soup_step (p : packet) : M soup_scan () := fun s =>
  match p with
  | SequencedData m =>
      match type_of m with
      | Raise e => (s, Raise e)
      | Ok t =>
          match Itch.decode m with
          | Raise e => (s, Raise e)
          | Ok msg => (mkSoupScan (ss_count s + 1) (bump_type t (ss_type_counts s)) (ss_heartbeats s) (ss_end_of_session s) (Some msg), Ok ())
          end
      end
  | ServerHeartbeat => (mkSoupScan (ss_count s) (ss_type_counts s) (ss_heartbeats s + 1) (ss_end_of_session s) (ss_last_msg s), Ok ())
  | EndOfSession => (mkSoupScan (ss_count s) (ss_type_counts s) (ss_heartbeats s) true (ss_last_msg s), Ok ())
  | LoginAccepted _ _ | LoginRejected _ => (s, Raise SampleError)
  | _ => (s, Ok ())
  end.

Definition scan_soup_sample (fs : files) (pcap_path : str) (server_port : Z) : res soup_manifest :=
  f ← of_option OSError (fs !! pcap_path);
  streams ← reassemble_tcp_streams f;
  match filter (fun kv => kv.1.1.1.2 = server_port) streams with
  | [] => Raise SampleError
  | [(_, stream)] =>
      match feed stream [] with
      | (_, Raise e) => Raise e
      | (buf, Ok packets) =>
          match packets with
          | LoginAccepted session sequence :: packets =>
              match mfor packets soup_step (mkSoupScan 0 [] 0 false None) with
              | (_, Raise e) => Raise e
              | (s, Ok _) =>
                  Ok (mkSoupManifest server_port session sequence (ss_count s) (sorted_items (ss_type_counts s)) (ss_heartbeats s)
                        (ss_end_of_session s) (pending_bytes buf) (ss_last_msg s))
              end
          | _ => Raise SampleError
          end
      end
  | _ => Raise SampleError
  end.

(** * What a scan found *)

Definition seq_of (i : sample_item) : Z := i.1.2.

(** Messages of one session, numbered from [first]. *)
Fixpoint numbered (session : str) (first : Z) (ms : list bytes) : list sample_item :=
  match ms with [] => [] | m :: ms => (session, first, m) :: numbered session (first + 1) ms end.

Definition type_str (m : bytes) : str := match type_of m with Ok t => t | Raise _ => "" end.
Definition type_tally (ms : list bytes) : list (str * Z) := foldl (fun d m => bump_type (type_str m) d) [] ms.

Definition decodes (m : bytes) : Prop := exists msg, Itch.decode m = Ok msg.

Lemma numbered_app session first ms ms' :
  numbered session first (ms ++ ms') = numbered session first ms ++ numbered session (first + zlen ms) ms'.
Proof.
  revert first. induction ms as [|m ms IH]; intros first; cbn [numbered app]; [by rewrite Z.add_0_r|].
  rewrite IH. by replace (first + zlen (m :: ms)) with (first + 1 + zlen ms) by (unfold zlen; cbn [length]; lia).
Qed.

Lemma numbered_msgs session first ms : (numbered session first ms).*2 = ms.
Proof. revert first. induction ms as [|m ms IH]; intros first; cbn; [done|]. by rewrite IH. Qed.

Lemma numbered_last session first ms x : last (numbered session first ms) = Some x -> x.1.2 = first + zlen ms - 1.
Proof.
  destruct ms as [|m ms _] using rev_ind; [done|]. rewrite numbered_app, zlen_app. cbn [numbered]. rewrite last_snoc. intros [= <-].
  unfold zlen. cbn. lia.
Qed.

Lemma numbered_zlen session first ms : zlen (numbered session first ms) = zlen ms.
Proof. unfold zlen. by rewrite <- (numbered_msgs session first ms) at 2; rewrite length_fmap. Qed.

Lemma numbered_take session first ms n : take n (numbered session first ms) = numbered session first (take n ms).
Proof. revert first n. induction ms as [|m ms IH]; intros first [|n]; cbn; [done..|]. by rewrite IH. Qed.

Lemma numbered_last_seq session first ms : seq_of <$> last (numbered session first ms) =
  match ms with [] => None | _ => Some (first + zlen ms - 1) end.
Proof.
  destruct (last (numbered session first ms)) as [x|] eqn:E.
  - pose proof (numbered_last _ _ _ _ E) as Hx. destruct ms; [done|]. cbn [fmap option_fmap option_map]. unfold seq_of. by rewrite Hx.
  - apply last_None in E. by destruct ms.
Qed.

(** What an output file holds. *)
Definition file_is (w : option ItchFileWriter) (ms : list bytes) (fs : files) : Prop :=
  match w with
  | Some w => w_closed w = false /\ fs !! w_path w = Some (concat (frame16 <$> ms)) /\ Forall short ms
  | None => True
  end.
Definition apart (w w' : option ItchFileWriter) : Prop :=
  match w, w' with Some w, Some w' => w_path w <> w_path w' | _, _ => True end.

Definition elsewhere (w : option ItchFileWriter) (p : str) : Prop := match w with Some w => p <> w_path w | None => True end.

Lemma write_opt_elsewhere w m fs fs' r p : elsewhere w p -> write_opt w m fs = (fs', r) -> fs' !! p = fs !! p.
Proof.
  destruct w as [w|]; cbn; [|by intros _ [= <- _]]. unfold writer_write, zoom. intros Hp.
  destruct (w_closed w); [by intros [= <- _]|]. destruct (write_message m _) as [f r']. intros [= <- _]. by rewrite lookup_insert_ne.
Qed.

Lemma write_opt_ok w w' m ms ms' fs fs' : file_is w ms fs -> file_is w' ms' fs -> apart w w' ->
  write_opt w m fs = (fs', Ok ()) -> file_is w (ms ++ [m]) fs' /\ file_is w' ms' fs'.
Proof.
  destruct w as [w|]; cbn; [|by intros _ H' _ [= <-]]. intros (Hc & Hf & Hs) H' Ha. unfold writer_write, zoom. rewrite Hc, Hf.
  cbn [default from_option id]. destruct (write_message_cases m (concat (frame16 <$> ms))) as [E|E]; rewrite E; intros [= <-].
  assert (short m) as Hm.
  { unfold short. destruct (Z.le_gt_cases (zlen m) MAX_MESSAGE_LEN) as [|Hg]; [done|]. unfold write_message in E.
    by rewrite (proj2 (Z.ltb_lt _ _)) in E by lia. }
  split.
  - split_and!; [done| |apply Forall_app; by repeat constructor]. rewrite lookup_insert_eq, fmap_app, concat_app. cbn.
    by rewrite app_nil_r.
  - destruct w' as [w'|]; [|done]. destruct H' as (Hc' & Hf' & Hs'). split_and!; [done| |done].
    cbn in Ha. by rewrite lookup_insert_ne.
Qed.


(** The state of a scan over [items]: [w] gets every message, [sw] the first [n]. *)
Record scanned (w sw : option ItchFileWriter) (n : Z) (fs0 : files) (items : list sample_item) (s : udp_scan) (fs : files) : Prop := {
  sd_session : u_session s = (fun i => i.1.1) <$> head items;
  sd_first : u_first_seq s = seq_of <$> head items;
  sd_last : u_last_seq s = seq_of <$> last items;
  sd_count : u_count s = zlen items;
  sd_types : u_type_counts s = type_tally items.*2;
  sd_slice_types : u_slice_counts s = if sw then type_tally (take (Z.to_nat n) items.*2) else [];
  sd_slice_last : u_slice_last_seq s = if sw then seq_of <$> last (take (Z.to_nat n) items) else None;
  sd_numbered : exists session first, items = numbered session first items.*2;
  sd_decodes : Forall decodes items.*2;
  sd_out : file_is w items.*2 fs;
  sd_slice : file_is sw (take (Z.to_nat n) items.*2) fs;
  sd_others : forall p, elsewhere w p -> elsewhere sw p -> fs !! p = fs0 !! p }.

Lemma take_snoc {A} n (l : list A) x : take n (l ++ [x]) = if decide (length l < n)%nat then take n l ++ [x] else take n l.
Proof.
  case_decide.
  - rewrite !take_ge by (rewrite ?length_app; cbn; lia). done.
  - by rewrite take_app_le by lia.
Qed.

Lemma type_tally_snoc ms m : type_tally (ms ++ [m]) = bump_type (type_str m) (type_tally ms).
Proof. unfold type_tally. by rewrite foldl_app. Qed.

Lemma check_sequence_ok w sw n fs0 items s fs session seq m : scanned w sw n fs0 items s fs -> check_sequence session seq s = Ok () ->
  Some (default session (u_session s)) = (fun i => i.1.1) <$> head (items ++ [(session, seq, m)]) /\
  (if u_session s then u_first_seq s else Some seq) = seq_of <$> head (items ++ [(session, seq, m)]) /\
  exists session' first, items ++ [(session, seq, m)] = numbered session' first (items ++ [(session, seq, m)]).*2.
Proof.
  intros [Hss Hf Hl _ _ _ _ (s0 & f0 & Hn) _ _ _ _]. unfold check_sequence. rewrite Hss, Hf, Hl.
  destruct items as [|[[s1 q1] m1] items].
  { intros _. cbn. by split_and!; [| |exists session, seq]. }
  cbn [head fmap option_fmap option_map fst snd]. destruct (decide (session <> s1)) as [Hne|He];  [intros; discriminate|]. apply dec_stable in He as <-.
  match goal with |- context [last ?l] => destruct (last l) as [x|] eqn:El end; [|cbn; intros; discriminate]. cbn [fmap option_fmap option_map].
  destruct (Z.eqb_spec seq (seq_of x + 1)) as [->|]; [|intros; discriminate].
  intros _. split; [done|]. split; [done|]. exists s0, f0. rewrite fmap_app, numbered_app, <- Hn. f_equal.
  rewrite Hn in El. apply numbered_last in El. cbn in El, Hn |- *. injection Hn as <- <- _. unfold seq_of. rewrite El.
  by replace (q1 + zlen (m1 :: items.*2) - 1 + 1) with (q1 + zlen (m1 :: items.*2)) by lia.
Qed.

Lemma scan_step_ok w sw n fs0 items s fs i s' fs' : scanned w sw n fs0 items s fs -> apart w sw ->
  scan_step w sw n i (s, fs) = ((s', fs'), Ok ()) -> scanned w sw n fs0 (items ++ [i]) s' fs'.
Proof.
  intros Hs Ha. destruct i as [[session seq] m]. unfold scan_step, mgets, mlift, mmod, zoom. munfold. cbn [fst snd].
  destruct (check_sequence session seq s) as [[]|e] eqn:Ec; [|done].
  destruct (check_sequence_ok _ _ _ _ _ _ _ session seq m Hs Ec) as (Hn1 & Hn2 & Hn3). destruct Hs.
  destruct (type_of m) as [t|e] eqn:Et; [|done]. destruct (Itch.decode m) as [msg|e] eqn:Ed; [|done]. cbn [fst snd].
  destruct (write_opt w m fs) as [fs1 [[]|e]] eqn:Ew; [|done]. cbn [fst snd].
  destruct (write_opt_ok w sw m _ _ fs fs1 sd_out0 sd_slice0 Ha Ew) as [Ho Hsl].
  assert (type_str m = t) as Ets by (unfold type_str; by rewrite Et).
  assert (decodes m) as Hdm by by exists msg.
  assert ((items ++ [(session, seq, m)]).*2 = items.*2 ++ [m]) as Em by by rewrite fmap_app.
  destruct sw as [sw|]; cbn [bool_decide is_Some_dec].
  2: { intros [= <- <-]. split; cbn -[head last]; rewrite ?Em, ?last_snoc, ?type_tally_snoc, ?Ets, ?sd_types0, ?sd_count0; try done.
    - by rewrite zlen_app.
    - by rewrite <- Em.
    - apply Forall_app. by repeat constructor.
    - intros p Hp Hp'. by rewrite (write_opt_elsewhere _ _ _ _ _ p Hp Ew), sd_others0. }
  cbn [is_Some_dec bool_decide decide_rel decide].
  assert (forall A (l : list A) x, length l = length items -> take (Z.to_nat n) (l ++ [x]) =
    if u_count s + 1 <=? n then take (Z.to_nat n) l ++ [x] else take (Z.to_nat n) l) as Et2.
  { intros A l x El. rewrite take_snoc, El, sd_count0. unfold zlen.
    case_decide; [rewrite (proj2 (Z.leb_le _ _)) by lia|rewrite (proj2 (Z.leb_gt _ _)) by lia]; done. }
  pose proof (Et2 _ items.*2 m ltac:(by rewrite length_fmap)) as Et3. specialize (Et2 _ items (session, seq, m) eq_refl).
  destruct (u_count s + 1 <=? n).
  - cbn -[head last write_opt]. destruct (write_opt (Some sw) m fs1) as [fs2 [[]|e]] eqn:Ew2; [|done]. intros [= <- <-].
    destruct (write_opt_ok (Some sw) w m _ _ fs1 fs2 Hsl Ho) as [Hsl2 Ho2]; [|done|]. { by destruct w; cbn in *. }
    split; cbn -[head last file_is]; rewrite ?Em, ?Et2, ?Et3, ?last_snoc, ?type_tally_snoc, ?Ets, ?sd_types0, ?sd_slice_types0, ?sd_count0;
      try done;
      [by rewrite zlen_app|by rewrite <- Em|apply Forall_app; by repeat constructor|].
    intros p Hp Hp'. by rewrite (write_opt_elsewhere (Some sw) _ _ _ _ p Hp' Ew2), (write_opt_elsewhere _ _ _ _ _ p Hp Ew), sd_others0.
  - intros [= <- <-].
    split; cbn -[head last file_is]; rewrite ?Em, ?Et2, ?Et3, ?last_snoc, ?type_tally_snoc, ?Ets, ?sd_types0, ?sd_slice_types0, ?sd_count0;
      try done;
      [by rewrite zlen_app|by rewrite <- Em|apply Forall_app; by repeat constructor|].
    intros p Hp Hp'. by rewrite (write_opt_elsewhere _ _ _ _ _ p Hp Ew), sd_others0.
Qed.

Lemma scan_init_ok w sw n fs : file_is w [] fs -> file_is sw [] fs -> scanned w sw n fs [] scan_init fs.
Proof. intros H H'. split; cbn; rewrite ?take_nil; try done; try (by destruct sw). by exists "", 0. Qed.

Lemma scan_loop_ok w sw n fs items : file_is w [] fs -> file_is sw [] fs -> apart w sw -> forall s' fs',
  mfor items (scan_step w sw n) (scan_init, fs) = ((s', fs'), Ok ()) -> scanned w sw n fs items s' fs'.
Proof.
  intros Hw Hsw Ha. induction items as [|i items IH] using rev_ind; intros s' fs'.
  { intros [= <- <-]. by apply scan_init_ok. }
  rewrite mfor_app. destruct (mfor items _ _) as [[s1 fs1] [[]|e]]; [|done].
  intros E. eapply (scan_step_ok w sw n fs items s1 fs1 i); [by apply IH|done|]. revert E. cbn [mfor]. rewrite bind_run.
  by destruct (scan_step w sw n i (s1, fs1)) as [[s2 fs2] [[]|e]].
Qed.

Lemma wire_length_small t n : wire_length t = Some n -> (n <= 1000)%nat.
Proof.
  unfold wire_length, total_length, payload_length. destruct (dget t SCHEMAS) as [fields|] eqn:E; [|done].
  apply dget_Some_elem in E. cbn. intros [= <-].
  assert (forallb (fun kv : str * list field => S (foldr (fun f k => (f.1.2 + k)%nat) 0%nat kv.2) <=? 1000)%nat SCHEMAS = true) as Hall by (vm_compute; reflexivity).
  rewrite forallb_forall in Hall. apply Nat.leb_le. apply (Hall (t, fields)). by apply list_elem_of_In.
Qed.

Lemma decoded_short m : decodes m -> short m.
Proof.
  intros [msg Hd]. pose proof (decode_cases m) as Hc. destruct m as [|tb payload]; [by rewrite Hd in Hc|].
  destruct (wire_length (l2s [tb])) as [n|] eqn:El; [|by rewrite Hd in Hc].
  destruct (dget (l2s [tb]) SCHEMAS); [|by rewrite Hd in Hc]. destruct (decide (length (tb :: payload) = n)) as [E|]; [|by rewrite Hd in Hc].
  apply wire_length_small in El. unfold short, zlen, MAX_MESSAGE_LEN. rewrite E. lia.
Qed.

Lemma write_opt_runs w m fs ms : file_is w ms fs -> short m -> exists fs', write_opt w m fs = (fs', Ok ()).
Proof.
  destruct w as [w|]; cbn; [|by eexists]. intros (Hc & Hf & _) Hm. unfold writer_write, zoom. rewrite Hc, Hf.
  cbn [default from_option id]. rewrite write_message_ok by done. by eexists.
Qed.

(** The next message of a session that decodes is scanned. *)
Lemma scan_step_runs w sw n fs0 items s fs session first ms m : scanned w sw n fs0 items s fs -> apart w sw ->
  items = numbered session first ms -> decodes m ->
  exists s' fs', scan_step w sw n (session, first + zlen ms, m) (s, fs) = ((s', fs'), Ok ()).
Proof.
  intros Hs Ha Hi [msg Hd]. assert (short m) as Hm by (apply decoded_short; by exists msg).
  unfold scan_step, mgets, mlift, mmod, zoom. munfold. cbn [fst snd].
  assert (check_sequence session (first + zlen ms) s = Ok ()) as ->.
  { unfold check_sequence. rewrite (sd_session _ _ _ _ _ _ _ Hs), (sd_last _ _ _ _ _ _ _ Hs), Hi.
    destruct ms as [|m1 ms]; [done|]. cbn [numbered hd_error fmap option_fmap option_map fst].
    rewrite decide_False by (intros Hn; by apply Hn).
    change ((session, first, m1) :: _) with (numbered session first (m1 :: ms)).
    destruct (last (numbered session first (m1 :: ms))) as [x|] eqn:El.
    - apply numbered_last in El. cbn. unfold seq_of. by rewrite El, Z.sub_add, Z.eqb_refl.
    - by apply last_None in El. }
  destruct m as [|b m]; [done|]. cbn [type_of]. rewrite Hd. cbn [fst snd].
  destruct (write_opt_runs w (b :: m) fs _ (sd_out _ _ _ _ _ _ _ Hs) Hm) as [fs1 E1]. rewrite E1. cbn [fst snd].
  destruct (_ && _); [|by eexists _, _]. 
  destruct (write_opt_ok w sw (b :: m) _ _ fs fs1 (sd_out _ _ _ _ _ _ _ Hs) (sd_slice _ _ _ _ _ _ _ Hs) Ha E1) as [_ Hsl].
  destruct (write_opt_runs sw (b :: m) fs1 _ Hsl Hm) as [fs2 E2]. cbn [fst snd]. rewrite E2. by eexists _, _.
Qed.

Lemma scan_loop_runs w sw n fs session first ms : file_is w [] fs -> file_is sw [] fs -> apart w sw -> Forall decodes ms ->
  exists s' fs', mfor (numbered session first ms) (scan_step w sw n) (scan_init, fs) = ((s', fs'), Ok ()).
Proof.
  intros Hw Hsw Ha. induction ms as [|m ms IH] using rev_ind; [by eexists _, _|]. intros [Hd [Hm _]%Forall_cons]%Forall_app.
  destruct (IH Hd) as (s1 & fs1 & E1). rewrite numbered_app, mfor_app, E1. cbn [numbered mfor]. rewrite bind_run.
  destruct (scan_step_runs w sw n fs _ s1 fs1 session first ms m
    (scan_loop_ok w sw n fs _ Hw Hsw Ha s1 fs1 E1) Ha eq_refl Hm) as (s2 & fs2 & E2).
  rewrite E2. by eexists _, _.
Qed.

Lemma open_opt_ok p fs : p <> "" -> open_opt (Some p) fs = (<[p := []]> fs, Ok (Some (mkWriter p false))).
Proof. intros Hp. by destruct p. Qed.

Definition manifest_of (session : str) (first : Z) (ms all : list bytes) : manifest :=
  mkManifest (match all with [] => None | _ => Some session end) (match all with [] => None | _ => Some first end)
    (match ms with [] => None | _ => Some (first + zlen ms - 1) end) (zlen ms) (sorted_items (type_tally ms)).

(** A scan returns exactly when the capture is one session's messages, numbered without
    a gap, that all decode; then the two files hold them and the first of them. *)
Lemma scan_udp_sample_iff fs pcap out slice n fs' mans : out <> "" -> slice <> "" -> out <> slice -> pcap <> out -> pcap <> slice -> 0 <= n ->
  scan_udp_sample pcap (Some out) (Some slice) n fs = (fs', Ok mans) <->
  exists session first ms, iter_udp_sample fs pcap = (numbered session first ms, Ok ()) /\ Forall decodes ms /\
    fs' = <[slice := concat (frame16 <$> take (Z.to_nat n) ms)]> (<[out := concat (frame16 <$> ms)]> fs) /\
    mans = (manifest_of session first ms ms, Some (manifest_of session first (take (Z.to_nat n) ms) ms)).
Proof.
  intros Ho Hs Hos Hpo Hps Hn. set (fs1 := <[slice := []]> (<[out := []]> fs)). set (w := Some (mkWriter out false)).
  set (sw := Some (mkWriter slice false)).
  assert (file_is w [] fs1 /\ file_is sw [] fs1 /\ apart w sw) as (Hw & Hsw & Ha).
  { cbn. unfold fs1. rewrite lookup_insert_ne, !lookup_insert_eq by done. by split_and!. }
  assert (iter_udp_sample fs1 pcap = iter_udp_sample fs pcap) as Ei by (unfold iter_udp_sample, fs1; by rewrite !lookup_insert_ne).
  assert (forall session first ms s' fs', scanned w sw n fs1 (numbered session first ms) s' fs' ->
    fs' = <[slice := concat (frame16 <$> take (Z.to_nat n) ms)]> (<[out := concat (frame16 <$> ms)]> fs) /\
    mkManifest (u_session s') (u_first_seq s') (u_last_seq s') (u_count s') (sorted_items (u_type_counts s')) = manifest_of session first ms ms /\
    mkManifest (u_session s') (u_first_seq s') (u_slice_last_seq s') (Z.min (u_count s') n) (sorted_items (u_slice_counts s')) =
      manifest_of session first (take (Z.to_nat n) ms) ms) as Hres.
  { intros session first ms s' f' [H1 H2 H3 H4 H5 H6 H7 _ _ H8 H9 H10]. rewrite numbered_msgs in *. split_and!.
    - apply map_eq. intros p. destruct (decide (p = slice)) as [->|Hp1]; [rewrite lookup_insert_eq; apply H9|].
      rewrite lookup_insert_ne by done. destruct (decide (p = out)) as [->|Hp2]; [rewrite lookup_insert_eq; apply H8|].
      rewrite lookup_insert_ne by done. rewrite H10 by done. unfold fs1. by rewrite !lookup_insert_ne.
    - unfold manifest_of. rewrite H1, H2, H3, H4, H5, numbered_zlen, numbered_last_seq. by destruct ms.
    - unfold manifest_of. rewrite H1, H2, H7, H4, H6, numbered_zlen, numbered_take, numbered_last_seq.
      cbn [sw]. unfold zlen. rewrite length_take. replace (Z.of_nat (Z.to_nat n `min` length ms)) with (Z.min (Z.of_nat (length ms)) n) by lia.
      by destruct ms. }
  unfold scan_udp_sample. rewrite bind_run, open_opt_ok, bind_run, open_opt_ok by done. fold fs1 w sw.
  unfold mget. rewrite bind_run, Ei. destruct (iter_udp_sample fs pcap) as [items ended].
  rewrite bind_run. split.
  - destruct (mfor items _ _) as [[s' f'] [[]|e]] eqn:E; [|done]. rewrite bind_run. unfold mlift. destruct ended as [[]|e]; [|done].
    intros [= <- <-]. pose proof (scan_loop_ok w sw n fs1 items Hw Hsw Ha s' f' E) as Hsc.
    destruct (sd_numbered _ _ _ _ _ _ _ Hsc) as (session & first & Hi). exists session, first, items.*2. rewrite <- Hi.
    split; [done|]. split; [apply Hsc|]. rewrite Hi in Hsc. destruct (Hres _ _ _ _ _ Hsc) as (H1 & H2 & H3). split; [done|].
    by rewrite H2, H3.
  - intros (session & first & ms & [= -> ->] & Hd & -> & ->).
    destruct (scan_loop_runs w sw n fs1 session first ms Hw Hsw Ha Hd) as (s' & f' & E). rewrite E.
    pose proof (scan_loop_ok w sw n fs1 _ Hw Hsw Ha s' f' E) as Hsc. destruct (Hres _ _ _ _ _ Hsc) as (H1 & H2 & H3).
    rewrite bind_run. unfold mlift, mret, M_ret. by rewrite H1, H2, H3.
Qed.
