(* ===== verification/Sources.v ===== *)
(** jnxfeed/cli/sources.py: one replay abstraction over an ITCH data file, a capture
    of the UDP feed, or a live session.

    [run_source] is [run] for the first two; the live source is LiveRun's. *)
From S2P Require Export PyText Fixtures.

#[global] Set Default Goal Selector "!".

(** The source arguments of the command line. *)
Record source_args : Type := mkSourceArgs {
  s_itch_file : option str; s_pcap : option str; s_host : option str; s_port : option Z; s_user : option str;
  s_password : option str; s_glimpse_host : option str; s_glimpse_port : option Z; s_seq : Z }.

Inductive replay_source : Type := FileSource (path : str) | PcapSource (path : str).
Inductive source : Type := Replay (r : replay_source) | LiveSource (host : str).

Definition source_mode (a : source_args) : res source :=
  match given (s_itch_file a), given (s_pcap a), given (s_host a) with
  | Some f, None, None => Ok (Replay (FileSource f))
  | None, Some f, None => Ok (Replay (PcapSource f))
  | None, None, Some h =>
      if bool_decide (s_port a = None) || bool_decide (s_user a = None) || bool_decide (s_password a = None) then Raise SourceError
      else if negb (eqb (bool_decide (s_glimpse_host a = None)) (bool_decide (s_glimpse_port a = None))) then Raise SourceError
      else Ok (LiveSource h)
  | _, _, _ => Raise SourceError
  end.

Definition _iter_file (fs : files) (path : str) : list (Z * bytes) * res () :=
  let '(l, r) := read_file fs path in (imap (fun i raw => (Z.of_nat i + 1, raw)) l, r).
Definition _iter_pcap (fs : files) (path : str) : list (Z * bytes) * res () :=
  let '(l, r) := iter_udp_sample fs path in ((fun i => (seq_of i, i.2)) <$> l, r).

Section run.
  Context {C : Type} (on_message : option (Z -> message -> M C bool)).

(** [on_message is not None and on_message(seq, msg) is False]: the callback returns
    whether to go on. *)
Definition stop_asked (seq : Z) (msg : message) : M (C * Market) bool :=
  match on_message with
  | None => mret false
  | Some f => go_on ← zoom fst (fun c w => (c, w.2)) (f seq msg); mret (negb go_on)
  end.

Fixpoint replay_items (items : list (Z * bytes)) (ended : res ()) (count : Z) : M (C * Market) Z :=
  match items with
  | [] => mlift ended ;; mret count
  | (seq, raw) :: items =>
      msg ← mlift (Itch.decode raw);
      zoom snd (fun k w => (w.1, k)) (market_apply (OMsg msg)) ;;
      stop ← stop_asked seq msg;
      if stop : bool then mret (count + 1) else replay_items items ended (count + 1)
  end.

(** [run] for a file or a capture: the message count of the result. *)
Definition run_source (fs : files) (s : replay_source) : M (C * Market) Z :=
  match s with
  | FileSource f => let '(items, ended) := _iter_file fs f in replay_items items ended 0
  | PcapSource f => let '(items, ended) := _iter_pcap fs f in replay_items items ended 0
  end.
End run.
Arguments run_source {C} _ _ _.
Arguments replay_items {C} _ _ _ _.

(** * Lemmas *)

Lemma imap_numbered {A} (f : Z -> bytes -> A) session first ms :
  imap (fun i m => f (Z.of_nat i + first) m) ms = (fun i => f (seq_of i) i.2) <$> numbered session first ms.
Proof.
  revert first. induction ms as [|m ms IH]; intros first; [done|]. cbn [imap numbered fmap list_fmap]. f_equal.
  rewrite <- IH. apply imap_ext. intros i x _. cbn. f_equal. lia.
Qed.

(** Two sources whose messages are the same, the callback seeing its own numbers. *)
Lemma replay_shift {C} (f : Z -> message -> M C bool) d items ended : forall count w,
  replay_items (Some (fun seq => f (seq + d))) items ended count w =
  replay_items (Some f) ((fun i => (i.1 + d, i.2)) <$> items) ended count w.
Proof.
  induction items as [|[seq raw] items IH]; intros count w; [done|]. cbn [replay_items fmap list_fmap fst snd].
  rewrite !bind_run. destruct (mlift (Itch.decode raw) w) as [w1 [msg|e]]; [|done]. rewrite !bind_run.
  destruct (zoom _ _ _ w1) as [w2 [x|e]]; [|done]. rewrite !bind_run.
  change (stop_asked (Some (fun seq => f (seq + d))) seq msg) with (stop_asked (Some f) (seq + d) msg).
  destruct (stop_asked (Some f) (seq + d) msg w2) as [w3 [[|]|e]]; [done| |done]. apply IH.
Qed.

Lemma read_frames fs path ms : fs !! path = Some (concat (frame16 <$> ms)) -> Forall short ms -> read_file fs path = (ms, Ok ()).
Proof.
  intros Hf Hs. unfold read_file. rewrite Hf. pose proof (iter_messages_frames ms [] Hs) as E. rewrite app_nil_r in E.
  change (iter_messages (concat (frame16 <$> ms)) = (ms, Ok ())) with (iter_messages (concat (map frame16 ms)) = (ms, Ok ())).
  rewrite E. by rewrite iter_loop_nil, app_nil_r.
Qed.

(** * Properties *)

(** C5. A scan of the UDP sample returns exactly when the capture is one session's
    messages, numbered without a gap, that all decode.  Then the manifest counts them,
    and replaying the .itch file it wrote is replaying the capture: from any market and
    with any callback the same effects, the same errors and the same count, the numbers
    being positions in the file; and the slice replays as the first messages do. *)
Theorem file_replays_sample fs pcap out slice n : out <> "" -> slice <> "" -> out <> slice -> pcap <> out -> pcap <> slice -> 0 <= n ->
  let '(fs', r) := scan_udp_sample pcap (Some out) (Some slice) n fs in
  ((exists mans, r = Ok mans) <-> exists session first ms, iter_udp_sample fs pcap = (numbered session first ms, Ok ()) /\ Forall decodes ms) /\
  (forall man sman, r = Ok (man, sman) ->
    let first := default 1 (mf_first_seq man) in
    (forall l, mf_last_seq man = Some l -> mf_message_count man = l - first + 1) /\
    (forall C (f : Z -> message -> M C bool) w,
      run_source (Some (fun i => f (i + (first - 1)))) fs' (FileSource out) w = run_source (Some f) fs' (PcapSource pcap) w) /\
    read_file fs' slice = (take (Z.to_nat n) (read_file fs' out).1, Ok ())).
Proof.
  intros Ho Hs Hos Hpo Hps Hn. pose proof (fun f m => scan_udp_sample_iff fs pcap out slice n f m Ho Hs Hos Hpo Hps Hn) as Hiff.
  destruct (scan_udp_sample pcap (Some out) (Some slice) n fs) as [fs' r]. split.
  { split.
    - intros [mans ->]. destruct (proj1 (Hiff fs' mans) eq_refl) as (session & first & ms & E & Hd & _). by exists session, first, ms.
    - intros (session & first & ms & E & Hd). destruct (Hiff (<[slice := concat (frame16 <$> take (Z.to_nat n) ms)]> (<[out := concat (frame16 <$> ms)]> fs))
        (manifest_of session first ms ms, Some (manifest_of session first (take (Z.to_nat n) ms) ms))) as [_ Hr].
      assert ((fs', r) = (_, Ok _)) as [= _ ->] by (apply Hr; by exists session, first, ms). by eexists. }
  intros man sman ->. destruct (proj1 (Hiff fs' (man, sman)) eq_refl) as (session & first & ms & E & Hd & -> & [= -> _]).
  assert (Forall short ms) as Hshort by (eapply Forall_impl; [exact Hd|apply decoded_short]).
  set (fs' := <[slice := _]> _). assert (read_file fs' out = (ms, Ok ())) as Eo.
  { apply read_frames; [|done]. unfold fs'. by rewrite lookup_insert_ne, lookup_insert_eq. }
  assert (iter_udp_sample fs' pcap = (numbered session first ms, Ok ())) as Ep.
  { rewrite <- E. unfold iter_udp_sample, fs'. by rewrite !lookup_insert_ne. }
  cbv zeta. split_and!.
  - intros l Hl. unfold manifest_of in *. cbn in *. destruct ms; [done|]. injection Hl as <-. cbn. lia.
  - intros C f w. unfold run_source, _iter_file, _iter_pcap. rewrite Eo, Ep, replay_shift. f_equal.
    cbn [manifest_of mf_first_seq]. destruct ms as [|m ms]; [done|]. cbn [default from_option id].
    rewrite <- (imap_numbered pair session first (m :: ms)), fmap_imap. apply imap_ext. intros i x _. cbn. f_equal. lia.
  - rewrite Eo. cbn [fst]. apply read_frames; [unfold fs'; by rewrite lookup_insert_eq|]. by apply Forall_take.
Qed.

Definition sample_messages : list bytes :=
  (fun m => match encode_msg m with Ok d => d | Raise _ => [] end) <$>
  [TimestampSeconds 32400; OrderAdded 5 1001 "B" 100 "1301" "DAY" 25000; OrderDeleted 9 1001].
Definition sample_capture : bytes :=
  let packet seq ms := Packet (demo_eth []) demo_head (TUdp 15000 15000 [x00; x00]%byte (mold_packet (s2l "0000000001") seq (zlen ms) (concat (mold_block <$> ms)))) [] in
  pcap_file [xd4; xc3; xb2; xa1]%byte Little (replicate 16 x00%byte) LINKTYPE_ETHERNET
    [(1, 0, replicate 4 x00%byte, packet 7 (take 2 sample_messages)); (2, 0, replicate 4 x00%byte, packet 9 []);
     (3, 0, replicate 4 x00%byte, packet 9 (drop 2 sample_messages))].
Definition sample_files : files := {[ "s.pcap" := sample_capture ]}.
(** A callback that records the numbers it sees. *)
Definition log_seq (seq : Z) (_ : message) : M (list Z) bool := fun l => (l ++ [seq], Ok true).

Lemma file_replays_sample_witness :
  let x := scan_udp_sample "s.pcap" (Some "s.itch") (Some "head.itch") 2 sample_files in
  let k := market_init 10 in
  (exists mans, x.2 = Ok mans) /\
  run_source (Some (fun i => log_seq (i + 6))) x.1 (FileSource "s.itch") ([], k) =
    run_source (Some log_seq) x.1 (PcapSource "s.pcap") ([], k) /\
  (run_source (Some log_seq) x.1 (PcapSource "s.pcap") ([], k)).1.1 = [7; 8; 9].
Proof.
  pose proof (file_replays_sample sample_files "s.pcap" "s.itch" "head.itch" 2 ltac:(done) ltac:(done) ltac:(done) ltac:(done) ltac:(done) ltac:(done)) as H.
  destruct (scan_udp_sample "s.pcap" (Some "s.itch") (Some "head.itch") 2 sample_files) as [fs' r] eqn:E.
  cbv zeta. cbn [fst snd].
  assert (exists man sman, r = Ok (man, sman) /\ mf_first_seq man = Some 7) as (man & sman & Er & Ef).
  { assert (r = (scan_udp_sample "s.pcap" (Some "s.itch") (Some "head.itch") 2 sample_files).2) as -> by by rewrite E.
    eexists _, _. split; vm_compute; reflexivity. }
  destruct H as [_ H]. destruct (H man sman Er) as (_ & Hr & _). rewrite Ef in Hr. split_and!; [by eexists|by apply (Hr _ log_seq)|].
  assert (fs' = (scan_udp_sample "s.pcap" (Some "s.itch") (Some "head.itch") 2 sample_files).1) as -> by by rewrite E.
  vm_compute. reflexivity.
Defined.
