(* ===== verification/LiveRun.v ===== *)
(** jnxfeed/cli/sources.py, the live source: a FeedHandler on a reactor of its own.

    The driver's callbacks are the handler's owner of Client: they count messages, ask
    the handler to stop when [on_message] says so, note a failure and stop the reactor at
    the end; their variables are [k_owner].  What [on_message] answers is a function of
    the events so far.  The interval callback only displays and is recorded; closing the
    selector at the end is left out.  The selector is an argument. *)
From S2P Require Export Sources Client.

#[global] Set Default Goal Selector "!".

(** The handler of [_run_live]. *)
Definition live_handler (a : source_args) : FeedHandler :=
  handler_init (default "" (s_user a)) (default "" (s_password a)) (bool_decide (is_Some (s_glimpse_host a))) (s_seq a).

Record live_result : Type := mkLive { lr_count : Z; lr_handler : FeedHandler; lr_failure : option reason }.

(** [state\["count"\] += 1] and [state\["failure"\] = reason]. *)
Definition count_message : M client () := mmod (fun w => k_set_owner (mkOwner (w_count (k_owner w) + 1) (w_failure (k_owner w))) w).
Definition note_failure (r : reason) : M client () := mmod (fun w => k_set_owner (mkOwner (w_count (k_owner w)) (Some r)) w).

Section live_run.
Context (asks_stop : list handler_event -> bool) (interval : option Z) (select : option Z -> M client (list (nat * Z))).

#[local] Instance live_ends : EndCallbacks := {|
  on_ended_cb _ := Reactor.stop (CB := client_cb);
  on_failed_cb r := note_failure r ;; Reactor.stop (CB := client_cb) |}.

Definition handler_message : M client () :=
  count_message ;;
  log ← mgets k_log; if asks_stop log then Handler.stop else mret ().

#[local] Instance live_messages : MessageCallback := {| on_message_cb _ _ := handler_message |}.

Definition set_tick : M client () := match interval with Some d => schedule d CInterval ;; mret () | None => mret () end.
Definition tick : M client () := mmod (k_event HInterval) ;; set_tick.

#[local] Instance live_loop : LoopOf client client_cb := {| run_cb := Handler.run_client_cb tick; Reactor.select := select |}.

(** [reactor.run()], which returns when it is stopped; [OutOfFuel]: it still runs. *)
Definition run_to_end (turns fuel : nat) : M client () :=
  run turns fuel ;;
  rx ← mgets k_rx;
  if running rx then mraise OutOfFuel else mret ().

Definition _run_live (turns fuel : nat) : M client live_result :=
  mmod (k_set_owner (mkOwner 0 None)) ;;
  set_tick ;;
  Handler.start ;;
  mtry (run_to_end turns fuel) (fun e => if decide (e = KeyboardInterrupt) then Some Handler.stop else None) ;;
  w ← mget;
  mret (mkLive (w_count (k_owner w)) (k_handler w) (w_failure (k_owner w))).
End live_run.

(** * What there is to report *)

(** The messages handed on and the last failure told. *)
Definition live_count (log : list handler_event) : Z := zlen (omap (fun e => match e with HMessage _ _ => Some () | _ => None end) log).
Definition live_failure (log : list handler_event) : option reason :=
  last (omap (fun e => match e with HFailed r => Some r | _ => None end) log).

(** * What the owner was told *)

Definition ends_of (log : list handler_event) : list handler_event := List.filter is_end_event log.

(** The server accepted a login after the end. *)
Definition relogged (log : list handler_event) : Prop := exists l1 n l2, log = l1 ++ HLive n :: l2 /\ ends_of l1 <> [].

Definition told (w : client) : Prop :=
  relogged (k_log w) \/
  match h_state (k_handler w) with
  | HS_ENDED => exists r, ends_of (k_log w) = [HEnded r] /\ h_end_reason (k_handler w) = Some r
  | HS_FAILED => exists r, ends_of (k_log w) = [HFailed r] /\ h_end_reason (k_handler w) = Some r
  | _ => ends_of (k_log w) = []
  end.

(** The loop has not been stopped before the end. *)
Definition awake (w : client) : Prop := running (k_rx w) = false -> ends_of (k_log w) <> [].

(** The driver's variables agree with what happened. *)
Definition counted (w : client) : Prop := w_count (k_owner w) = live_count (k_log w) /\ w_failure (k_owner w) = live_failure (k_log w).

Definition live_step (w w' : client) : Prop := (told w -> told w') /\ (awake w -> awake w') /\ (counted w -> counted w').

#[export] Instance live_step_preorder : PreOrder live_step.
Proof. split; [by intros w|]. intros w1 w2 w3 (?&?&?) (?&?&?). split_and!; auto. Qed.

(** The end has not moved, nor what was told of it. *)
Definition still (w w' : client) : Prop :=
  k_log w' = k_log w /\ h_state (k_handler w') = h_state (k_handler w) /\
  h_end_reason (k_handler w') = h_end_reason (k_handler w) /\ running (k_rx w') = running (k_rx w) /\ k_owner w' = k_owner w.

#[export] Instance still_preorder : PreOrder still.
Proof. split; [by intros w|]. intros w1 w2 w3 (?&?&?&?&?) (?&?&?&?&?). unfold still. by split_and!; etransitivity. Qed.

Lemma still_step w w' : still w w' -> live_step w w'.
Proof. intros (El & Es & Er & Ex & Eo). unfold live_step, told, awake, counted. by rewrite El, Es, Er, Ex, Eo. Qed.

Lemma keeps_still {A} (m : M client A) : keeps still m -> keeps live_step m.
Proof. intros H w. apply still_step, H. Qed.

Lemma safe_still {A} (m : M client A) : safe still m -> safe live_step m.
Proof. intros H w. destruct (H w) as (w' & a & E & Hs). exists w', a. split; [done|by apply still_step]. Qed.

Lemma ends_of_app l1 l2 : ends_of (l1 ++ l2) = ends_of l1 ++ ends_of l2.
Proof. apply List.filter_app. Qed.

Lemma relogged_app l1 l2 : relogged l1 -> relogged (l1 ++ l2).
Proof. intros (a & n & b & -> & H). exists a, n, (b ++ l2). by rewrite <- app_assoc. Qed.

Lemma live_count_app l1 l2 : live_count (l1 ++ l2) = live_count l1 + live_count l2.
Proof. unfold live_count. by rewrite omap_app, zlen_app. Qed.

Lemma live_failure_app l1 l2 : live_failure (l1 ++ l2) = match live_failure l2 with Some r => Some r | None => live_failure l1 end.
Proof. unfold live_failure. rewrite omap_app, last_app. by destruct (last _). Qed.

Lemma report_step w w' st ev r : Live.is_terminal (h_state (k_handler w)) = false ->
  (st = HS_ENDED /\ ev = HEnded r \/ st = HS_FAILED /\ ev = HFailed r) ->
  k_log w' = k_log w ++ [ev] -> h_state (k_handler w') = st -> h_end_reason (k_handler w') = Some r ->
  k_owner w' = mkOwner (w_count (k_owner w)) (if decide (st = HS_FAILED) then Some r else w_failure (k_owner w)) -> live_step w w'.
Proof.
  intros Ht Hev El Es Er Eo. split_and!.
  - intros [Hr|Hw]; [left; rewrite El; by apply relogged_app|]. right. rewrite El, Es, Er, ends_of_app.
    assert (ends_of (k_log w) = []) as -> by by destruct (h_state (k_handler w)).
    destruct Hev as [[-> ->]|[-> ->]]; by exists r.
  - intros _ _. rewrite El, ends_of_app. destruct Hev as [[_ ->]|[_ ->]]; by destruct (ends_of (k_log w)).
  - intros [Hc Hf]. unfold counted. rewrite El, Eo, live_count_app, live_failure_app. destruct Hev as [[-> ->]|[-> ->]]; cbn [w_count w_failure];
      (split; [by rewrite Hc, Z.add_0_r|done]).
Qed.

Lemma safe_mod_rx (f : Reactor client_cb -> Reactor client_cb) : (forall r, running (f r) = running r) -> safe still (mod_rx f).
Proof. intros Hf. apply safe_mmod. intros w. unfold still. cbn. by rewrite Hf. Qed.

Lemma safe_on_rx_still {A} (f : Reactor client_cb -> Reactor client_cb * A) : (forall r, running (f r).1 = running r) -> safe still (on_rx f).
Proof. intros Hf w. specialize (Hf (k_rx w)). unfold on_rx. cbn. destruct (f (k_rx w)) as [r a]. by exists (k_set_rx r w), a. Qed.

(** What the frame lemmas of Tcp ask of the system calls. *)
Ltac still_frame :=
  intros;
  first [apply _
        |by apply safe_mod_rx|by apply safe_on_rx_still
        |by apply safe_mmod|by apply safe_mgets, _|by apply safe_ret, _
        |by (intros ?; eexists _, _; split; [reflexivity|])
        |by (apply safe_k_send; intros; subst)].

Lemma stop_connector_still : safe still Live.stop_connector.
Proof. unfold Live.stop_connector, get_handler. safe_steps. apply safe_stop; still_frame. Qed.

Lemma stop_itch_still : safe still Live.stop_itch.
Proof. apply safe_stop; still_frame. Qed.

Lemma glimpse_stop_still : safe still Glimpse.stop.
Proof.
  unfold Glimpse.stop, get_glimpse, mod_glimpse. safe_steps; try still_frame. apply safe_stop; still_frame.
Qed.

Section steps.
#[local] Existing Instance live_ends.

Lemma safe_live_end r : safe live_step (Live._end r).
Proof.
  intros w. unfold Live._end, get_handler, mod_handler. munfold. destruct (Live.is_terminal (h_state (k_handler w))) eqn:Et.
  { by exists w, tt. }
  destruct (stop_connector_still (k_set_handler (h_set_reason r (k_handler w)) w)) as (w1 & [] & E & El & Es & Er & _ & Eo). rewrite E.
  eexists _, tt. split; [reflexivity|]. apply (report_step _ _ HS_ENDED (HEnded r) r); [done|by left|..]; cbn in *; rewrite ?El, ?Er, ?Eo; by destruct (k_owner w).
Qed.

Lemma safe_live_fail r : safe live_step (Live._fail r).
Proof.
  intros w. unfold Live._fail, get_handler, mod_handler. munfold. destruct (Live.is_terminal (h_state (k_handler w))) eqn:Et.
  { by exists w, tt. }
  destruct (stop_connector_still (k_set_handler (h_set_reason r (k_handler w)) w)) as (w1 & [] & E & El & Es & Er & _ & Eo). rewrite E.
  eexists _, tt. split; [reflexivity|]. apply (report_step _ _ HS_FAILED (HFailed r) r); [done|by right|..]; cbn in *; by rewrite ?El, ?Er, ?Eo.
Qed.

Lemma safe_live_disconnect e : safe live_step (Live._on_disconnect e).
Proof.
  apply safe_still. intros w. unfold Live._on_disconnect, get_handler, mod_handler. munfold. case_decide; by eexists _, tt.
Qed.

Lemma safe_glimpse_fail r : safe live_step (Glimpse._fail r).
Proof.
  unfold Glimpse._fail, get_glimpse, mod_glimpse, Live._on_snapshot_failed, mod_handler. safe_steps;
    first [apply safe_live_fail|apply safe_still; first [apply glimpse_stop_still|still_frame]].
Qed.

(** The frame lemmas' questions, for [live_step]. *)
Ltac step_frame :=
  intros;
  first [apply _|apply safe_live_disconnect|apply safe_live_fail|apply safe_glimpse_fail|apply safe_still; solve [still_frame]].

(** What is left are the session's callbacks. *)
Ltac conn_frame := intros; lazymatch goal with |- keeps _ _ => idtac | |- _ => step_frame end.

Lemma safe_start_itch n : safe live_step (Live._start_itch n).
Proof. unfold Live._start_itch, get_handler, mod_handler. safe_steps; try solve [step_frame]. apply safe_start; step_frame. Qed.

Lemma safe_logout_live : safe live_step Live.logout_itch.
Proof.
  unfold Live.logout_itch. safe_steps; [step_frame| |apply safe_flush; step_frame].
  intros w. unfold on_sess, zoom. cbn. unfold logout, queue. munfold. cbn. eexists _, tt. by split.
Qed.

Lemma safe_logout_snapshot : safe live_step Glimpse.logout_glimpse.
Proof.
  unfold Glimpse.logout_glimpse. safe_steps; [step_frame| |apply safe_flush; step_frame].
  intros w. unfold on_sess, zoom. cbn. unfold logout, queue. munfold. cbn. eexists _, tt. by split.
Qed.

Lemma handler_stop_eq w : exists w', Handler.stop w = (w', Ok ()) /\ live_step w w' /\ Live.is_terminal (h_state (k_handler w')) = true.
Proof.
  assert (forall (m : M client ()) (f : () -> M client ()), safe live_step m ->
    (forall w1, exists w2, f tt w1 = (w2, Ok ()) /\ live_step w1 w2 /\ Live.is_terminal (h_state (k_handler w2)) = true) ->
    forall w1, exists w2, (m ≫= f) w1 = (w2, Ok ()) /\ live_step w1 w2 /\ Live.is_terminal (h_state (k_handler w2)) = true) as Hbind.
  { intros m f Hm Hf w1. destruct (Hm w1) as (w2 & [] & E & H1). destruct (Hf w2) as (w3 & E3 & H3 & Ht). rewrite bind_run, E, E3.
    exists w3. split_and!; [done|by transitivity w2|done]. }
  unfold Handler.stop, get_handler, mod_handler. rewrite bind_run. unfold mgets at 1. set (h := k_handler w). clearbody h.
  apply Hbind; [destruct (h_glimpse h); [apply safe_still, glimpse_stop_still|step_frame]|]. clear w. intros w.
  apply Hbind; clear w; [|intros w].
  { destruct (h_connector h); [|step_frame]. apply safe_bind; [apply _|apply safe_logout_live|intros _; apply safe_still, stop_itch_still]. }
  munfold. destruct (Live.is_terminal (h_state (k_handler w))) eqn:Et; [by exists w|].
  unfold Live._transition, mod_handler. munfold. eexists. split; [reflexivity|]. split; [|done].
  apply (report_step _ _ HS_ENDED (HEnded StoppedByCaller) StoppedByCaller); [done|by left|done..|]. by destruct w as [???????????????? []].
Qed.

Lemma safe_handler_stop : safe live_step Handler.stop.
Proof. intros w. destruct (handler_stop_eq w) as (w' & E & H & _). by exists w', tt. Qed.

Lemma safe_transition_snapshot w : h_state (k_handler w) = HS_INIT -> live_step w (k_set_handler (h_set_state HS_SNAPSHOT (k_handler w)) w).
Proof. intros Ei. split; [|done]. intros [Hr|Hw]; [by left|right]. by rewrite Ei in Hw. Qed.

Lemma safe_handler_start w : h_state (k_handler w) = HS_INIT -> exists w', Handler.start w = (w', Ok ()) /\ live_step w w'.
Proof.
  intros Ei. unfold Handler.start, get_handler. rewrite bind_run. unfold mgets at 1. rewrite decide_True by done.
  destruct (h_glimpse_host (k_handler w)).
  - unfold Live._transition. rewrite bind_run.
    change (mod_handler (h_set_state HS_SNAPSHOT) w) with (k_set_handler (h_set_state HS_SNAPSHOT (k_handler w)) w, @Ok () ()). cbv iota beta.
    pose proof (safe_transition_snapshot w Ei) as H1. revert H1. generalize (k_set_handler (h_set_state HS_SNAPSHOT (k_handler w)) w). intros w1 H1.
    match goal with |- context [?m w1] => assert (safe live_step m) as Hs end.
    { unfold Glimpse.start, get_glimpse, mod_glimpse, mod_handler, schedule. safe_steps; try solve [step_frame]. apply safe_start; step_frame. }
    destruct (Hs w1) as (w2 & [] & E & H2). exists w2. split; [exact E|by transitivity w1].
  - destruct (safe_start_itch (h_requested_seq (k_handler w)) w) as (w' & [] & E & H). by exists w'.
Qed.

(** ** The callbacks of the two connections *)

Context (asks_stop : list handler_event -> bool) (interval : option Z).
#[local] Instance stop_messages : MessageCallback := live_messages asks_stop.

Lemma keeps_apply payload : keeps live_step (apply_payload payload).
Proof.
  unfold apply_payload. keeps_steps. apply keeps_still. intros w. unfold zoom. destruct (market_apply _ (k_market w)). by split_and!.
Qed.

Lemma event_step e o w : is_end_event e = false ->
  o = mkOwner (w_count (k_owner w) + live_count [e]) (w_failure (k_owner w)) -> live_step w (k_set_owner o (k_event e w)).
Proof.
  intros He ->. assert (ends_of (k_log w ++ [e]) = ends_of (k_log w)) as E.
  { rewrite ends_of_app. unfold ends_of. cbn. by rewrite He, app_nil_r. }
  unfold live_step, told, awake, counted. cbn [k_set_owner k_event k_log k_handler k_rx k_owner w_count w_failure].
  rewrite E, live_count_app, live_failure_app. split_and!; [|done|].
  - intros [Hr|Hw]; [left|by right]. by apply relogged_app.
  - intros [-> ->]. split; [done|]. by destruct e.
Qed.

Lemma keeps_event e : is_end_event e = false -> live_count [e] = 0 -> keeps live_step (mmod (k_event e)).
Proof.
  intros He Hc w. unfold mmod. cbn [fst]. pose proof (event_step e (k_owner w) w He) as H. rewrite Hc, Z.add_0_r in H.
  specialize (H ltac:(by destruct (k_owner w))). by destruct w.
Qed.

(** A message and the driver's count of it. *)
Lemma keeps_live_message seq msg (rest : M client ()) : keeps live_step rest ->
  keeps live_step (mmod (k_event (HMessage seq msg)) ;; on_message_cb seq msg ;; rest).
Proof.
  intros Hr w. pose proof (event_step (HMessage seq msg) _ w eq_refl eq_refl) as Hw. etransitivity; [exact Hw|].
  match type of Hw with live_step _ ?w1 =>
    change (live_step w1 ((((if asks_stop (k_log w1) then Handler.stop else mret ()) : M client ()) ;; rest) w1).1) end.
  generalize (k_set_owner (mkOwner (w_count (k_owner w) + live_count [HMessage seq msg]) (w_failure (k_owner w))) (k_event (HMessage seq msg) w)).
  intros w1. apply keeps_bind; [apply _| |by intros _]. apply safe_keeps. destruct (asks_stop _); first [apply safe_handler_stop|step_frame].
Qed.

Lemma keeps_itch_message seq payload : keeps live_step (Live._on_itch_message seq payload).
Proof.
  unfold Live._on_itch_message. apply keeps_bind; [apply _|apply keeps_apply|]. intros msg. apply keeps_live_message.
  keeps_steps; first [apply safe_keeps, safe_live_end|apply safe_keeps; step_frame].
Qed.

(** A login accepted after the end is where the handler is live again. *)
Lemma keeps_login_accepted sid n : keeps live_step (Live._on_login_accepted sid n).
Proof.
  intros w. unfold Live._on_login_accepted, Live._transition, mod_handler. munfold. cbn [fst]. split_and!.
  - unfold told. cbn. rewrite ends_of_app. cbn. rewrite app_nil_r. intros [Hr|Hw]; [left; by apply relogged_app|].
    destruct (ends_of (k_log w)) eqn:E; [by right|]. left. exists (k_log w), n, []. by rewrite E.
  - unfold awake. cbn. rewrite ends_of_app. cbn. by rewrite app_nil_r.
  - unfold counted. cbn. rewrite live_count_app, live_failure_app. intros [-> ->]. by rewrite Z.add_0_r.
Qed.

Lemma keeps_peer_silent : keeps live_step Live._on_peer_silent.
Proof.
  apply safe_keeps. unfold Live._on_peer_silent, get_handler. safe_steps; try solve [step_frame]. apply safe_reconnect; step_frame.
Qed.

Lemma keeps_on_sess {A} `{!SessionOf client} (m : M SoupSession A) : (forall s w, still w (set_sess s w)) -> keeps live_step (on_sess m).
Proof. intros H. apply keeps_still. intros w. unfold on_sess, zoom. destruct (m (sess w)). apply H. Qed.

Lemma keeps_run_itch cb : keeps live_step (Live.run_itch cb).
Proof.
  unfold Live.run_itch, Glimpse.run_glimpse. apply keeps_conn_cb; conn_frame.
  - by apply keeps_on_sess.
  - apply keeps_login_accepted.
  - apply safe_keeps, safe_live_fail.
  - apply keeps_itch_message.
  - apply safe_keeps, safe_live_end.
  - apply keeps_peer_silent.
Qed.

Lemma keeps_complete n : keeps live_step (Glimpse._complete n).
Proof.
  unfold Glimpse._complete, mod_glimpse, get_glimpse, Live._on_snapshot_complete, mod_handler.
  keeps_steps; apply safe_keeps; first [apply safe_logout_snapshot|apply safe_still, glimpse_stop_still|apply safe_start_itch|step_frame].
Qed.

Lemma keeps_snapshot_message seq payload : keeps live_step (Glimpse._on_message seq payload).
Proof.
  unfold Glimpse._on_message, get_glimpse, mod_glimpse.
  keeps_steps; first [apply keeps_apply|apply keeps_complete|apply safe_keeps; step_frame].
Qed.

Lemma keeps_run_glimpse cb : keeps live_step (Glimpse.run_glimpse cb).
Proof.
  unfold Live.run_itch, Glimpse.run_glimpse. apply keeps_conn_cb; conn_frame.
  - by apply keeps_on_sess.
  - by apply safe_keeps, safe_ret, _.
  - apply safe_keeps, safe_glimpse_fail.
  - apply keeps_snapshot_message.
  - apply safe_keeps, safe_glimpse_fail.
  - by apply safe_keeps, safe_ret, _.
Qed.

Lemma keeps_set_tick : keeps still (set_tick interval).
Proof. unfold set_tick, schedule. keeps_steps; apply safe_keeps; still_frame. Qed.

Lemma keeps_client_cb cb : keeps live_step (Handler.run_client_cb (tick interval) cb).
Proof.
  destruct cb as [cb|cb| |]; cbn [Handler.run_client_cb].
  - apply keeps_run_glimpse.
  - apply keeps_run_itch.
  - unfold Glimpse._on_timeout, mod_glimpse. keeps_steps; apply safe_keeps; first [apply safe_glimpse_fail|step_frame].
  - unfold tick. keeps_steps; [by apply keeps_event|apply keeps_still, keeps_set_tick].
Qed.
End steps.

(** * The run *)

Section live_facts.
Context (asks_stop : list handler_event -> bool) (interval : option Z) (select : option Z -> M client (list (nat * Z))).
Context (Hselect : forall t, keeps still (select t)).

#[local] Existing Instance live_ends.
#[local] Instance facts_loop : LoopOf client client_cb := live_loop asks_stop interval select.

Lemma wake_step w : live_step w (k_set_rx (set_running true (k_rx w)) w).
Proof. by split. Qed.

Lemma keeps_live_run turns fuel : keeps live_step (run turns fuel).
Proof.
  apply keeps_run; [apply _|..].
  - intros f Hf. by apply safe_keeps, safe_still, safe_mod_rx.
  - intros w. apply wake_step.
  - by apply keeps_still, safe_keeps, safe_mgets, _.
  - intros cb. apply keeps_client_cb.
  - intros t. by apply keeps_still.
Qed.

(** Once the loop runs, it ends only after the end was told. *)
Lemma live_told turns fuel w : told w -> counted w -> let w' := (run turns fuel w).1 in told w' /\ awake w' /\ counted w'.
Proof.
  intros Ht Hc. cbv zeta. destruct (keeps_live_run turns fuel (k_set_rx (set_running true (k_rx w)) w)) as (H1 & H2 & H3).
  change (run turns fuel (k_set_rx (set_running true (k_rx w)) w)) with (run turns fuel w) in *.
  split_and!; [by apply H1|by apply H2|by apply H3].
Qed.

Definition settled (w : client) : Prop :=
  relogged (k_log w) \/ exists r, h_end_reason (k_handler w) = Some r /\
    (ends_of (k_log w) = [HEnded r] /\ h_state (k_handler w) = HS_ENDED \/ ends_of (k_log w) = [HFailed r] /\ h_state (k_handler w) = HS_FAILED).

Lemma told_settled w : told w -> ends_of (k_log w) <> [] \/ Live.is_terminal (h_state (k_handler w)) = true -> settled w.
Proof.
  intros [Hr|Ht] He; [by left|right]. destruct (h_state (k_handler w)); try (destruct He; [by rewrite Ht in *|done]);
    destruct Ht as (r & E & Er); exists r; auto.
Qed.

Lemma live_run_settled turns fuel w0 w res : h_state (k_handler w0) = HS_INIT -> k_log w0 = [] ->
  _run_live asks_stop interval select turns fuel w0 = (w, Ok res) ->
  settled w /\ res = mkLive (live_count (k_log w)) (k_handler w) (live_failure (k_log w)).
Proof.
  intros Hs Hl. unfold _run_live. rewrite bind_run. unfold mmod at 1.
  assert (told (k_set_owner (mkOwner 0 None) w0)) as Ht0 by (right; cbn; by rewrite Hs, Hl).
  assert (counted (k_set_owner (mkOwner 0 None) w0)) as Hc0 by (unfold counted; cbn; by rewrite Hl).
  assert (h_state (k_handler (k_set_owner (mkOwner 0 None) w0)) = HS_INIT) as Hs0 by done.
  revert Ht0 Hc0 Hs0. generalize (k_set_owner (mkOwner 0 None) w0). clear w0 Hs Hl. intros w0 Ht0 Hc0 Hs0.
  rewrite bind_run. pose proof (keeps_set_tick interval w0) as Hk. destruct (set_tick interval w0) as [w1 [[]|e]]; [|done]. cbn [fst] in Hk.
  destruct (still_step _ _ Hk) as (H1 & _ & H1c). destruct Hk as (_ & Hs1 & _).
  rewrite bind_run. destruct (safe_handler_start w1) as (w2 & E2 & H2 & _ & H2c); [congruence|]. rewrite E2.
  rewrite bind_run. unfold mtry, run_to_end. rewrite bind_run.
  destruct (live_told turns fuel w2) as (Ht3 & Ha3 & Hc3); [auto..|]. unfold facts_loop in *.
  assert (forall w', counted w' -> mkLive (w_count (k_owner w')) (k_handler w') (w_failure (k_owner w')) =
    mkLive (live_count (k_log w')) (k_handler w') (live_failure (k_log w'))) as Hres by by intros w' [-> ->].
  destruct (run turns fuel w2) as [w3 [[]|e]]; cbn [fst] in *.
  - munfold. destruct (running (k_rx w3)) eqn:Er; cbn.
    + by rewrite decide_False.
    + intros [= <- <-]. split; [|by apply Hres]. apply told_settled; auto.
  - destruct (decide (e = KeyboardInterrupt)); [|done]. destruct (handler_stop_eq w3) as (w4 & E4 & (H4 & _ & H4c) & Ht4). rewrite E4.
    munfold. intros [= <- <-]. split; [|apply Hres; auto]. apply told_settled; auto.
Qed.
End live_facts.

Lemma failure_ends log : live_failure log = last (omap (fun e => match e with HFailed r => Some r | _ => None end) (ends_of log)).
Proof. unfold live_failure, ends_of. f_equal. induction log as [|e log IH]; [done|]. cbn. destruct e; cbn; by rewrite IH. Qed.

(** ** A loop with nothing to wait for *)

Definition idle (w : client) : Prop :=
  running (k_rx w) = true /\ selector (k_rx w) = ∅ /\ Forall (fun t => cancelled t = true) (timers (k_rx w)).

Section idle_facts.
Context (asks_stop : list handler_event -> bool) (interval : option Z) (select : option Z -> M client (list (nat * Z))).
Context (Hselect : forall w, selector (k_rx w) = ∅ -> select None w = (w, Ok [])).
#[local] Instance idle_loop : LoopOf client client_cb := live_loop asks_stop interval select.

Lemma idle_due fuel now w : idle w -> exists w', due_loop fuel now w = (w', Ok ()) /\ idle w'.
Proof.
  revert w. induction fuel as [|fuel IH]; intros w Hw; cbn [due_loop]; [by exists w|].
  destruct Hw as (Hr & Hs & Ht). cbn [rx client_reactor]. destruct (timers (k_rx w)) as [|t l] eqn:E; [exists w; by rewrite <- E in Ht|].
  destruct (deadline t <=? now); [|exists w; by rewrite <- E in Ht]. inversion Ht as [|? ? Hc Hl]. rewrite Hc. by apply IH.
Qed.

Lemma drop_all {CB} (l : list (TimerHandle CB)) : Forall (fun t => cancelled t = true) l -> drop_cancelled l = [].
Proof. induction 1 as [|t l Ht Hl IH]; cbn; [done|]. by rewrite Ht. Qed.

Lemma idle_turn fuel w : idle w -> exists w', turn fuel w = (w', Ok ()) /\ idle w'.
Proof.
  intros Hw. unfold turn, _run_due_timers. cbn [monotonic client_reactor]. munfold.
  destruct (idle_due fuel (k_clock w) w Hw) as (w1 & -> & Hr & Hs & Ht). cbn [rx client_reactor]. rewrite Hr.
  unfold on_rx, _next_timeout. cbn [rx set_rx client_reactor]. rewrite drop_all by done.
  cbn [Reactor.select idle_loop live_loop]. rewrite Hselect by done. cbn. rewrite Hr. cbn.
  eexists. split; [reflexivity|]. by split_and!.
Qed.

Lemma idle_forever turns fuel w : idle w -> exists w', run_loop turns fuel w = (w', Ok ()) /\ idle w'.
Proof.
  revert w. induction turns as [|turns IH]; intros w Hw; cbn [run_loop]; [by exists w|].
  pose proof Hw as (Hr & _). cbn [rx client_reactor]. rewrite Hr. destruct (idle_turn fuel w Hw) as (w1 & -> & Hw1). by apply IH.
Qed.
End idle_facts.

(** The snapshot connection refused while the handler starts. *)
Lemma start_refused user password seq cs rs :
  exists w, Handler.start (EC := live_ends) (client_init (handler_init user password true seq) (ConnectError :: cs) rs) = (w, Ok ()) /\
    selector (k_rx w) = ∅ /\ Forall (fun t => cancelled t = true) (timers (k_rx w)) /\
    live_failure (k_log w) = Some (SnapshotFailed LostBeforeEnd).
Proof.
  set (x := Handler.start _). vm_compute in x. subst x. eexists. split; [reflexivity|]. split; [reflexivity|]. split; [|reflexivity].
  by repeat constructor.
Qed.

(** * Properties *)


(** Everything that is registered is ready, and time passes by the timeout. *)
Definition demo_select (t : option Z) : M client (list (nat * Z)) := fun w =>
  let events := (fun kv : nat * (Z * nat) => (kv.2.2, kv.2.1)) <$> map_to_list (selector (k_rx w)) in
  match t with
  | None => (w, Ok events)
  | Some d => (mkClient (k_rx w) (k_clock w + d) (k_nsock w) (k_connects w) (k_errors w) (k_recvs w) (k_sends w) (k_market w)
                 (k_gsess w) (k_gconn w) (k_glimpse w) (k_isess w) (k_iconn w) (k_handler w) (k_sent w) (k_log w) (k_owner w), Ok events)
  end.

Definition demo_live : source_args := mkSourceArgs None None (Some "127.0.0.1") (Some 15001) (Some "U") (Some "P") None None 1.
Definition demo_snapshot : source_args :=
  mkSourceArgs None None (Some "127.0.0.1") (Some 15001) (Some "U") (Some "P") (Some "nowhere") (Some 15002) 1.
Definition demo_packets (l : list packet) : bytes := concat ((fun p => match encode_packet p with Ok b => b | Raise _ => [] end) <$> l).
Definition demo_messages : list packet :=
  [SequencedData (msg_bytes (TimestampSeconds 7)); SequencedData (msg_bytes (TimestampSeconds 8)); SequencedData (msg_bytes (TimestampSeconds 9))].

(** A server that sends three messages in one read and then ends the session. *)
Definition demo_limit (n : Z) (log : list handler_event) : bool := n <=? live_count log.
Definition demo_recvs : list recv_res :=
  [RecvData (demo_packets (LoginAccepted "S1" 1 :: demo_messages)); RecvData (demo_packets [EndOfSession])].
Abbreviation demo_run n := (_run_live (demo_limit n) None demo_select 20 5 (client_init (live_handler demo_live) [] demo_recvs)).

Lemma demo_run_log : k_log (demo_run 100).1 =
  [HLive 1; HMessage 1 (TimestampSeconds 7); HMessage 2 (TimestampSeconds 8); HMessage 3 (TimestampSeconds 9); HEnded EndOfSoupSession].
Proof. by vm_compute. Qed.

Lemma demo_run_returns : exists w res, demo_run 100 = (w, Ok res) /\ w = (demo_run 100).1.
Proof.
  assert (is_Ok (demo_run 100).2 = true) as Hok by by vm_compute. destruct (demo_run 100) as [w [res|e]]; [by exists w, res|done].
Qed.

Lemma demo_not_relogged : ~ relogged (k_log (demo_run 100).1).
Proof.
  rewrite demo_run_log. intros (l1 & n & l2 & Ed & He). destruct l1 as [|? l1]; [by apply He|injection Ed as _ Ed].
  repeat (destruct l1 as [|? l1]; [done|injection Ed as _ Ed]). by destruct l1.
Qed.

