(* ===== verification/Describe.v ===== *)
(** jnxfeed/cli/describe.py: one line of text for a message. *)
From S2P Require Export Itch Types PyText.

#[global] Set Default Goal Selector "!".

Definition _PRICE_FIELDS : list str :=
  concat ((fun t : str * list field => (fun f => f.1.1) <$> filter (fun f : field => f.2 = PRICE) t.2) <$> SCHEMAS).

(** [type(msg).__name__] *)
Definition class_name (m : message) : str :=
  match m with
  | TimestampSeconds _ => "TimestampSeconds"
  | SystemEvent _ _ _ => "SystemEvent"
  | PriceTickSize _ _ _ _ => "PriceTickSize"
  | OrderbookDirectory _ _ _ _ _ _ _ _ _ => "OrderbookDirectory"
  | TradingState _ _ _ _ => "TradingState"
  | ShortSellRestriction _ _ _ _ => "ShortSellRestriction"
  | OrderAdded _ _ _ _ _ _ _ => "OrderAdded"
  | OrderAddedWithAttributes _ _ _ _ _ _ _ _ _ => "OrderAddedWithAttributes"
  | OrderExecuted _ _ _ _ => "OrderExecuted"
  | OrderDeleted _ _ => "OrderDeleted"
  | OrderReplaced _ _ _ _ _ => "OrderReplaced"
  | EndOfSnapshot _ => "EndOfSnapshot"
  end.

(** [msg._fields]: the names of the schema. *)
Definition _fields (m : message) : list str := map (fun f : field => f.1.1) (default [] (dget (type_char m) SCHEMAS)).

(** [" ".join(parts)] and the like. *)
Definition str_join (sep : str) (l : list str) : str := String.concat sep l.

Definition show_field (name : str) (value : fval) : str :=
  name +:+ "=" +:+ match value with
                   | FInt z => if bool_decide (name ∈ _PRICE_FIELDS) then price_to_str z else py_str z
                   | FStr s => s
                   end.

Definition describe_msg (m : message) (tc : option str) : str :=
  default (type_char m) tc +:+ " " +:+ class_name m +:+ " " +:+ str_join " " (zip_with show_field (_fields m) (msg_fields m)).

(** [payload.hex()] *)
Definition hex (l : bytes) : str := l2s (concat ((fun b => [hex_digit (b2z b / 16); hex_digit (b2z b mod 16)]) <$> l)).

(** The text of a DecodeError is not modelled: [error_text] gives it. *)
Definition describe_itch (error_text : exn -> str) (payload : bytes) : str :=
  match Itch.decode payload with
  | Raise e => "?? undecodable (" +:+ error_text e +:+ "): " +:+ hex payload
  | Ok m => describe_msg m (match payload with [] => None | b :: _ => Some (l2s [b]) end)
  end.

(** * Lemmas *)

(** The type char of a decoded message is the first byte of its payload. *)
Lemma describe_itch_decoded error_text payload m : Itch.decode payload = Ok m -> describe_itch error_text payload = describe_msg m None.
Proof.
  intros E. unfold describe_itch. rewrite E. unfold describe_msg. destruct payload as [|b payload]; [done|].
  assert (l2s [b] = type_char m) as ->; [|done]. revert E. unfold Itch.decode.
  destruct (dget (l2s [b]) STRUCTS); [|done]. case_decide; [|done]. munfold. unfold res_bind.
  destruct (struct_unpack Big l payload); [|done]. destruct (of_option KeyError (dget (l2s [b]) SCHEMAS)); [|done].
  destruct (rmap decode_value _); [|done]. intros E. by apply make_msg_inv in E as [-> _].
Qed.

Example describe_order :
  describe_msg (OrderAdded 5 1001 "B" 100 "1301" "DAY" 25005) None
  = "A OrderAdded ns=5 order_number=1001 side=B qty=100 orderbook_id=1301 group=DAY price=2500.5".
Proof. vm_compute. reflexivity. Qed.
