(* ===== verification/Probe.v ===== *)
(** jnxfeed/cli/probe.py: the connectivity diagnostic.

    The report is the JSON object, as the list of its items in order; the text lines
    repeat it and are not modelled, nor are the address and time of the target.  The
    text of an exception is given by [error_text]; times are milliseconds. *)
From S2P Require Export Describe CaptureNet.

#[global] Set Default Goal Selector "!".

(** A value of the report. *)
Inductive pval : Type :=
| PStr (s : str) | PInt (z : Z) | PBool (b : bool) | PTexts (l : list (Z * str)) | PCounts (d : list (str * Z)).

Record probe_args : Type := mkProbeArgs {
  pa_user : str; pa_password : str; pa_seq : Z; pa_session : str; pa_glimpse : bool; pa_messages : Z; pa_timeout : Z }.

(** The program's state: the network with the client in it, and the report. *)
Record prober (W : Type) : Type := mkProber { pnet : W; report : list (str * pval) }.
Arguments mkProber {W} _ _.
Arguments pnet {W} _.
Arguments report {W} _.

(** [REJECT_MEANINGS.get(code, "unknown reject code")] *)
Definition reject_meaning (code : str) : str :=
  if decide (code = "A") then "not authorized: bad username/password or username not valid on this TCP port (username-port pairs are fixed per assignment)"
  else if decide (code = "S") then "requested session is not available"
  else "unknown reject code".

Section probe.
  Context {W : Type} `{NetOf W} (error_text : exn -> str) (patience : nat) (args : probe_args).

Definition put (key : str) (value : pval) : M (prober W) () := mmod (fun w => mkProber (pnet w) (dset key value (report w))).
Definition on_client {A} (m : M W A) : M (prober W) A := zoom pnet (fun n w => mkProber n (report w)) m.

(** The local variables of [_run_itch]. *)
Record itch_run : Type := mkItchRun {
  ir_messages : list (Z * bytes); ir_heartbeat : bool; ir_end : bool; ir_seq : Z; ir_error : option exn }.

(** [next_packet(timeout=remaining)]: the packet, WaitTimeout, or another client error. *)
Inductive waited : Type := Got (p : packet) | Expired | Broken (e : exn).
Definition wait_packet (remaining : Z) : M W waited :=
  mtry (p ← next_packet patience (Some remaining); mret (Got p))
    (fun e => if decide (e = WaitTimeout) then Some (mret Expired)
              else if is_SoupClientError e then Some (mret (Broken e)) else None).

(** The loop of [_run_itch]. *)
Fixpoint collect (n : nat) (wanted deadline : Z) (s : itch_run) : M W itch_run :=
  match n with
  | O => mraise OutOfFuel
  | S n' =>
      if wanted <=? zlen (ir_messages s) then mret s
      else
        now ← net_now;
        let remaining := deadline - now in
        if remaining <=? 0 then mret s
        else
          r ← wait_packet remaining;
          match r with
          | Expired => mret s
          | Broken e => mret (mkItchRun (ir_messages s) (ir_heartbeat s) (ir_end s) (ir_seq s) (Some e))
          | Got (SequencedData m) =>
              let messages := if zlen (ir_messages s) <? wanted then ir_messages s ++ [(ir_seq s, m)] else ir_messages s in
              collect n' wanted deadline (mkItchRun messages (ir_heartbeat s) (ir_end s) (ir_seq s + 1) (ir_error s))
          | Got ServerHeartbeat =>
              collect n' wanted deadline (mkItchRun (ir_messages s) true (ir_end s) (ir_seq s) (ir_error s))
          | Got EndOfSession => mret (mkItchRun (ir_messages s) (ir_heartbeat s) true (ir_seq s) (ir_error s))
          | Got _ => collect n' wanted deadline s
          end
  end.

(** What [_run_itch] reports and returns for what it collected. *)
Definition itch_report (s : itch_run) : M (prober W) Z :=
  let messages := ir_messages s in
  put "messages_received" (PInt (zlen messages)) ;;
  put "messages" (PTexts ((fun x => (x.1, describe_itch error_text x.2)) <$> messages)) ;;
  put "server_heartbeat"
    (PStr (if ir_heartbeat s then "observed"
           else match messages with
                | _ :: _ => "not observed (sequenced data flowing, link is healthy)"
                | [] => "NOT observed"
                end)) ;;
  (if ir_end s then put "end_of_session" (PBool true) else mret ()) ;;
  match ir_error s with
  | Some e => put "error" (PStr (error_text e)) ;; mret EXIT_PROTOCOL
  | None =>
      if bool_decide (messages = []) && negb (ir_heartbeat s) && negb (ir_end s) then
        put "error" (PStr "nothing received within timeout window") ;; mret EXIT_PROTOCOL
      else mret EXIT_OK
  end.

Definition _run_itch (sequence : Z) : M (prober W) Z :=
  now ← on_client net_now;
  s ← on_client (collect patience (Z.max (pa_messages args) 0) (now + pa_timeout args) (mkItchRun [] false false sequence None));
  itch_report s.

(** The local variables of [_run_glimpse]. *)
Record glimpse_run : Type := mkGlimpseRun { gr_counts : list (str * Z); gr_total : Z; gr_next_live : option Z }.

(** How the loop of [_run_glimpse] ends: with its variables, or returning an error. *)
Fixpoint read_snapshot (n : nat) (deadline : Z) (s : glimpse_run) : M W (glimpse_run + exn) :=
  match n with
  | O => mraise OutOfFuel
  | S n' =>
      match gr_next_live s with
      | Some _ => mret (inl s)
      | None =>
          now ← net_now;
          let remaining := deadline - now in
          if remaining <=? 0 then mret (inl s)
          else
            r ← wait_packet remaining;
            match r with
            | Expired => mret (inl s)
            | Broken e => mret (inr e)
            | Got (SequencedData payload) =>
                let t := msg_type payload in
                let counts := dset t (default 0 (dget t (gr_counts s)) + 1) (gr_counts s) in
                if decide (t = "G") then
                  match Itch.decode payload with
                  | Ok (EndOfSnapshot q) => read_snapshot n' deadline (mkGlimpseRun counts (gr_total s + 1) (Some q))
                  | Ok _ => mraise AttributeError
                  | Raise e => if is_DecodeError e then mret (inr e) else mraise e
                  end
                else read_snapshot n' deadline (mkGlimpseRun counts (gr_total s + 1) None)
            | Got EndOfSession => mret (inl s)
            | Got _ => read_snapshot n' deadline s
            end
      end
  end.

(** The error of a bad G message has a prefix. *)
Definition snapshot_error (e : exn) : str := if is_DecodeError e then "bad G message: " +:+ error_text e else error_text e.

Definition _run_glimpse : M (prober W) Z :=
  now ← on_client net_now;
  r ← on_client (read_snapshot patience (now + pa_timeout args) (mkGlimpseRun [] 0 None));
  match r with
  | inr e => put "error" (PStr (snapshot_error e)) ;; mret EXIT_PROTOCOL
  | inl s =>
      put "snapshot_message_count" (PInt (gr_total s)) ;;
      put "snapshot_counts" (PCounts (gr_counts s)) ;;
      match gr_next_live s with
      | None => put "error" (PStr "snapshot did not complete (no G) within timeout") ;; mret EXIT_PROTOCOL
      | Some q => put "next_live_seq" (PInt q) ;; mret EXIT_OK
      end
  end.

(** [except LoginRejected], [except SoupClientError] of the login. *)
Definition login_failed (e : exn) : M (prober W) Z :=
  match e with
  | LoginRejectedError code =>
      put "login" (PStr "rejected") ;; put "reject_code" (PStr code) ;; put "reject_meaning" (PStr (reject_meaning code)) ;;
      mret EXIT_REJECTED
  | _ => put "login" (PStr "error") ;; put "error" (PStr (error_text e)) ;; mret EXIT_PROTOCOL
  end.

(** The login and what follows it, inside the [try ... finally: client.close()]. *)
Definition logged_in : M (prober W) Z :=
  r ← mtry (x ← on_client (sc_login patience (pa_user args) (pa_password args)
                             (if pa_glimpse args then "" else pa_session args) (pa_seq args) (pa_timeout args)); mret (inl x))
        (fun e => if is_SoupClientError e then Some (mret (inr e)) else None);
  match r with
  | inr e => login_failed e
  | inl (session, sequence) =>
      put "login" (PStr "accepted") ;; put "session" (PStr session) ;; put "server_next_seq" (PInt sequence) ;;
      code ← (if pa_glimpse args then _run_glimpse else _run_itch sequence);
      (if code =? EXIT_OK then on_client sc_logout ;; put "logout" (PStr "clean") else mret ()) ;;
      mret code
  end.

Definition _run : M (prober W) Z :=
  on_client (mod_client (fun _ => new_client SC_SILENCE_TIMEOUT)) ;;
  r ← mtry (x ← on_client (sc_connect (pa_timeout args)); mret (inl x))
        (fun e => if decide (e = ConnectFailed) then Some (mret (inr e)) else None);
  match r with
  | inr e => put "connect" (PStr "failed") ;; put "error" (PStr (error_text e)) ;; mret EXIT_CONNECT
  | inl latency => put "connect_latency_ms" (PInt latency) ;; mfinally logged_in (on_client sc_close)
  end.

(** [main], after the arguments: the report begins with [target]. *)
Definition probe_main : M (prober W) Z :=
  code ← mtry _run (fun e => if decide (e = KeyboardInterrupt) then Some (put "result" (PStr "interrupted") ;; mret EXIT_PROTOCOL) else None);
  put "exit_code" (PInt code) ;;
  mret code.
End probe.

(** * Lemmas *)

Definition count_types (ms : list bytes) : list (str * Z) :=
  foldl (fun d m => dset (msg_type m) (default 0 (dget (msg_type m) d) + 1) d) [] ms.

Section honest.
  Context {W : Type} `{NetOf W} (msgs : list bytes) (sane : W -> Prop) (flight : W -> bytes -> Prop) `{!HonestNet msgs sane flight}.
  Context (error_text : exn -> str) (patience : nat) (args : probe_args).

Lemma wait_packet_run t w q : sane w -> serving msgs flight w q ->
  sane (wait_packet patience t w).1 /\
  match (wait_packet patience t w).2 with
  | Ok (Got (SequencedData m)) => msgs !! Z.to_nat (q - 1) = Some m /\ serving msgs flight (wait_packet patience t w).1 (q + 1)
  | Ok _ => serving msgs flight (wait_packet patience t w).1 q
  | Raise _ => True
  end.
Proof.
  intros Hw (ps & Hp & Hs). destruct (reads_next msgs sane flight patience (Some t) w Hw) as (H1 & _ & H3). specialize (H3 ps Hp).
  unfold wait_packet, mtry. rewrite bind_run. destruct (next_packet patience (Some t) w) as [w1 [p|e]]; cbn [fst snd] in *.
  - split; [done|]. destruct H3 as (ps' & -> & H3). destruct p; cbn in Hs; try done; try by exists ps'.
    destruct Hs as [Hm Hs]. split; [done|by exists ps'].
  - destruct (decide (e = WaitTimeout)); [|destruct (is_SoupClientError e)]; (split; [done|]); try done; by exists ps.
Qed.

(** The messages numbered from [k] up to [q]. *)
Definition gathered (k : Z) (s : itch_run) : Prop :=
  k <= ir_seq s /\ zlen (from_to msgs k (ir_seq s)) = ir_seq s - k /\
  ir_messages s = imap (fun i m => (k + Z.of_nat i, m)) (from_to msgs k (ir_seq s)).

Lemma collect_run k wanted deadline n : 1 <= k -> forall s w, sane w -> serving msgs flight w (ir_seq s) ->
  gathered k s -> zlen (ir_messages s) <= Z.max wanted 0 -> forall s', (collect patience n wanted deadline s w).2 = Ok s' ->
  gathered k s' /\ zlen (ir_messages s') <= Z.max wanted 0.
Proof.
  intros Hk. induction n as [|n IH]; intros s w Hw Hs Hg Hl s'; [done|]. cbn [collect].
  destruct (Z.leb_spec wanted (zlen (ir_messages s))) as [|Hlt]; [by intros [= <-]|]. rewrite bind_run.
  destruct (hn_now w Hw) as (H1 & E1 & H2). destruct (calm_now msgs sane flight w Hw) as (_ & _ & H3).
  destruct (net_now w) as [w1 [now|e]]; [|done]. cbn [fst snd] in *. cbv zeta.
  destruct (deadline - now <=? 0); [by intros [= <-]|]. rewrite bind_run.
  assert (serving msgs flight w1 (ir_seq s)) as Hs1.
  { destruct Hs as (ps & Hp & Hsv). exists ps. split; [exact (H3 [] ps Hp)|done]. }
  destruct (wait_packet_run (deadline - now) w1 (ir_seq s) H1 Hs1) as (H4 & H5).
  destruct (wait_packet patience (deadline - now) w1) as [w2 [[p| |e]|e]]; cbn [fst snd] in *; [|by intros [= <-]|by intros [= <-]|done].
  destruct p; try (by apply IH); try (by intros [= <-]).
  destruct H5 as [Hm H5]. apply IH; [done|done| |].
  - destruct Hg as (Hg1 & Hg2 & Hg3). unfold gathered. cbn [ir_seq ir_messages]. rewrite (proj2 (Z.ltb_lt _ _) Hlt).
    rewrite (from_to_snoc msgs k (ir_seq s) message) by (done || lia). rewrite zlen_app, Hg2, imap_app, <- Hg3.
    split; [lia|]. split; [unfold zlen; cbn; lia|]. cbn [imap]. unfold zlen in Hg2. 
    repeat f_equal. cbn. lia.
  - cbn [ir_messages]. rewrite (proj2 (Z.ltb_lt _ _) Hlt), zlen_app. unfold zlen at 2. cbn. lia.
Qed.

(** The messages of a snapshot up to number [k + total], with their counts. *)
Record snapshot_of (k : Z) (s : glimpse_run) : Prop := {
  sn_total : 0 <= gr_total s /\ zlen (from_to msgs k (k + gr_total s)) = gr_total s;
  sn_counts : gr_counts s = count_types (from_to msgs k (k + gr_total s));
  sn_end : match gr_next_live s with
    | None => Forall (fun m => msg_type m <> "G") (from_to msgs k (k + gr_total s))
    | Some q => exists ms p, from_to msgs k (k + gr_total s) = ms ++ [p] /\ Forall (fun m => msg_type m <> "G") ms /\
        Itch.decode p = Ok (EndOfSnapshot q)
    end }.

Lemma read_snapshot_run k deadline n : 1 <= k -> forall s w, sane w -> serving msgs flight w (k + gr_total s) -> snapshot_of k s ->
  forall s', (read_snapshot patience n deadline s w).2 = Ok (inl s') -> snapshot_of k s'.
Proof.
  intros Hk. induction n as [|n IH]; intros s w Hw Hs Hg s'; [done|]. cbn [read_snapshot].
  destruct (gr_next_live s) as [q|] eqn:Eq; [by intros [= <-]|]. rewrite bind_run.
  destruct (hn_now w Hw) as (H1 & E1 & H2). destruct (calm_now msgs sane flight w Hw) as (_ & _ & H3).
  destruct (net_now w) as [w1 [now|e]]; [|done]. cbn [fst snd] in *. cbv zeta.
  destruct (deadline - now <=? 0); [by intros [= <-]|]. rewrite bind_run.
  assert (serving msgs flight w1 (k + gr_total s)) as Hs1.
  { destruct Hs as (ps & Hp & Hsv). exists ps. split; [exact (H3 [] ps Hp)|done]. }
  destruct (wait_packet_run (deadline - now) w1 _ H1 Hs1) as (H4 & H5).
  destruct (wait_packet patience (deadline - now) w1) as [w2 [[p| |e]|e]]; cbn [fst snd] in *; [|by intros [= <-]|done|done].
  destruct p; try (by apply IH); try (by intros [= <-]).
  destruct H5 as [Hm H5]. destruct Hg as [[Ht Hl] Hc He]. rewrite Eq in He.
  assert (from_to msgs k (k + (gr_total s + 1)) = from_to msgs k (k + gr_total s) ++ [message]) as Ef.
  { replace (k + (gr_total s + 1)) with (k + gr_total s + 1) by lia. apply from_to_snoc; [lia|done]. }
  assert (forall q, (match q with None => msg_type message <> "G" | Some q => Itch.decode message = Ok (EndOfSnapshot q) end) ->
    snapshot_of k (mkGlimpseRun (dset (msg_type message) (default 0 (dget (msg_type message) (gr_counts s)) + 1) (gr_counts s)) (gr_total s + 1) q)) as Hn.
  { intros q Hq. split; cbn [gr_total gr_counts gr_next_live]; rewrite Ef.
    - split; [lia|]. rewrite zlen_app, Hl. done.
    - unfold count_types. rewrite foldl_app. cbn. fold (count_types (from_to msgs k (k + gr_total s))). by rewrite <- Hc.
    - destruct q as [q|]; [by eexists _, _|]. apply Forall_app. by repeat constructor. }
  destruct (decide (msg_type message = "G")) as [EG|NG].
  - destruct (Itch.decode message) as [[]|e] eqn:Ed; try done; [|by destruct (is_DecodeError e)].
    apply IH; [done| |by apply Hn]. cbn [gr_total]. by rewrite Z.add_assoc.
  - apply IH; [done| |by apply Hn]. cbn [gr_total]. by rewrite Z.add_assoc.
Qed.

(** ** What the report says *)

(** The messages shown are the server's, from the number it accepted on. *)
Definition shows (rep : list (str * pval)) : Prop := forall l, dget "messages" rep = Some (PTexts l) ->
  exists k ms, 1 <= k /\ dget "server_next_seq" rep = Some (PInt k) /\ ms = take (length ms) (drop (Z.to_nat (k - 1)) msgs) /\
    zlen ms <= Z.max (pa_messages args) 0 /\ l = imap (fun i m => (k + Z.of_nat i, describe_itch error_text m)) ms.

(** The snapshot ran to its G message, which carries the next live number. *)
Definition snapshot_told (rep : list (str * pval)) : Prop := exists k q ms p,
  1 <= k /\ dget "server_next_seq" rep = Some (PInt k) /\ dget "next_live_seq" rep = Some (PInt q) /\
  ms ++ [p] = take (length (ms ++ [p])) (drop (Z.to_nat (k - 1)) msgs) /\ Forall (fun m => msg_type m <> "G") ms /\
  Itch.decode p = Ok (EndOfSnapshot q) /\ dget "snapshot_message_count" rep = Some (PInt (zlen (ms ++ [p]))) /\
  dget "snapshot_counts" rep = Some (PCounts (count_types (ms ++ [p]))).

Lemma from_to_take k q : 1 <= k -> zlen (from_to msgs k q) = q - k -> from_to msgs k q = take (length (from_to msgs k q)) (drop (Z.to_nat (k - 1)) msgs).
Proof. intros Hk Hl. unfold zlen in Hl. replace (length (from_to msgs k q)) with (Z.to_nat (q - k)) by lia. done. Qed.

Lemma shows_put key v rep : key <> "messages" -> key <> "server_next_seq" -> shows rep -> shows (dset key v rep).
Proof. intros H1 H2 Hs l. rewrite !dget_dset_ne by done. apply Hs. Qed.

Definition still_shows (w w' : prober W) : Prop := shows (report w) -> shows (report w').
#[local] Instance still_shows_pre : PreOrder still_shows.
Proof. split; [intros w H1; exact H1|intros w1 w2 w3 H1 H2 Hw; exact (H2 (H1 Hw))]. Qed.

Lemma keeps_put key v : key <> "messages" -> key <> "server_next_seq" -> keeps still_shows (put (W := W) key v).
Proof. intros H1 H2 w Hw. exact (shows_put key v (report w) H1 H2 Hw). Qed.
Lemma keeps_client {A} (m : M W A) : keeps still_shows (on_client m).
Proof. intros w Hw. unfold on_client, zoom. by destruct (m (pnet w)). Qed.

(** After the messages were put, nothing else touches them. *)
Lemma itch_report_shows k s (w : prober W) : 1 <= k -> dget "server_next_seq" (report w) = Some (PInt k) -> gathered k s ->
  zlen (ir_messages s) <= Z.max (pa_messages args) 0 -> shows (report (itch_report error_text s w).1).
Proof.
  intros Hk Hq (Hg1 & Hg2 & Hg3) Hl. unfold itch_report. rewrite bind_run. unfold put at 1, mmod. rewrite bind_run. unfold put at 1, mmod.
  cbn [pnet report]. set (w1 := mkProber _ _).
  assert (shows (report w1)) as H1.
  { intros l. unfold w1. cbn [report]. rewrite dget_dset_eq. intros [= <-]. exists k, (from_to msgs k (ir_seq s)).
    rewrite !dget_dset_ne by done. split_and!; [done|done|by apply from_to_take| |].
    - by rewrite Hg3 in Hl; unfold zlen in *; rewrite length_imap in Hl.
    - rewrite Hg3, fmap_imap. by apply imap_ext. }
  clearbody w1. revert H1. match goal with |- _ -> shows (report (?m w1).1) => enough (keeps still_shows m) as Hm by exact (Hm w1) end.
  apply keeps_bind; [apply _|by apply keeps_put|intros _].
  apply keeps_bind; [apply _|destruct (ir_end s); [by apply keeps_put|by intros w2]|intros _].
  destruct (ir_error s); [apply keeps_bind; [apply _|by apply keeps_put|by intros _ w2]|].
  destruct (_ && _); [apply keeps_bind; [apply _|by apply keeps_put|by intros _ w2]|by intros w2].
Qed.

(** The state after a login accepted at [k]. *)
Definition accepted (k : Z) (w : prober W) : Prop :=
  1 <= k /\ dget "server_next_seq" (report w) = Some (PInt k) /\ dget "messages" (report w) = None /\
  sane (pnet w) /\ serving msgs flight (pnet w) k.

Lemma accepted_now k (w : prober W) : accepted k w -> exists now w1, on_client net_now w = (w1, Ok now) /\ accepted k w1.
Proof.
  intros (Hk & Hq & Hm & Hs & ps & Hp & Hsv). destruct (hn_clock (pnet w)) as [now E]. destruct (calm_now msgs sane flight (pnet w) Hs) as (H1 & _ & H3).
  unfold on_client, zoom. destruct (net_now (pnet w)) as [n1 r]. cbn [fst snd] in *. subst r. exists now. eexists. split; [reflexivity|].
  unfold accepted. cbn [pnet report]. split_and!; [done..|]. exists ps. split; [exact (H3 [] ps Hp)|done].
Qed.

Lemma run_itch_shows k (w : prober W) : accepted k w -> shows (report (_run_itch error_text patience args k w).1).
Proof.
  intros Hw. unfold _run_itch. rewrite bind_run. destruct (accepted_now k w Hw) as (now & w1 & E & Hk & Hq & Hm & Hs & Hsv).
  rewrite E, bind_run. unfold on_client at 1, zoom.
  assert (gathered k (mkItchRun [] false false k None)) as Hg.
  { unfold gathered. cbn [ir_seq ir_messages]. assert (from_to msgs k k = []) as -> by (unfold from_to; by rewrite Z.sub_diag).
    split_and!; [done|unfold zlen; cbn; lia|done]. }
  pose proof (collect_run k (Z.max (pa_messages args) 0) (now + pa_timeout args) patience Hk (mkItchRun [] false false k None) (pnet w1) Hs Hsv Hg ltac:(unfold zlen; cbn; lia)) as Hc.
  destruct (collect patience _ _ _ _ (pnet w1)) as [n2 [s|e]]; cbn [fst snd] in *.
  - destruct (Hc s eq_refl) as [Hg' Hl]. apply (itch_report_shows k); [done|done|done|lia].
  - intros l. cbn [report]. by rewrite Hm.
Qed.

Lemma run_glimpse_told k (w : prober W) : accepted k w -> dget "messages" (report (_run_glimpse error_text patience args w).1) = None /\
  ((_run_glimpse error_text patience args w).2 = Ok EXIT_OK -> snapshot_told (report (_run_glimpse error_text patience args w).1)).
Proof.
  intros Hw. unfold _run_glimpse. rewrite bind_run. destruct (accepted_now k w Hw) as (now & w1 & E & Hk & Hq & Hm & Hs & Hsv). rewrite E.
  rewrite bind_run. unfold on_client, zoom.
  assert (snapshot_of k (mkGlimpseRun [] 0 None)) as Hg.
  { assert (from_to msgs k (k + 0) = []) as Ef by (unfold from_to; by rewrite Z.add_simpl_l).
    split; cbn [gr_total gr_counts gr_next_live]; by rewrite Ef. }
  pose proof (read_snapshot_run k (now + pa_timeout args) patience Hk (mkGlimpseRun [] 0 None) (pnet w1) Hs ltac:(by rewrite Z.add_0_r) Hg) as Hc.
  destruct (read_snapshot patience patience (now + pa_timeout args) (mkGlimpseRun [] 0 None) (pnet w1)) as [n2 [[s|e]|e]]; cbn [fst snd] in *.
  - destruct (Hc s eq_refl) as [[Ht Hl] Hcn He]. unfold put, mmod. munfold. cbn [pnet report].
    destruct (gr_next_live s) as [q|]; cbn [fst snd report].
    + rewrite !dget_dset_ne by done. split; [done|]. intros _. destruct He as (ms & p & Ef & Hng & Hd).
      exists k, q, ms, p. rewrite dget_dset_eq, !(dget_dset_ne "next_live_seq"), !(dget_dset_ne "snapshot_counts"), !dget_dset_eq by done.
      rewrite !(dget_dset_ne "snapshot_message_count") by done. rewrite <- Ef, Hcn.
      split_and!; try done; [apply from_to_take; [done|lia]|by rewrite Hl].
    + rewrite !dget_dset_ne by done. by split.
  - unfold put, mmod. munfold. cbn [fst snd report]. rewrite !dget_dset_ne by done. by split.
  - by split.
Qed.

Lemma told_put key v rep : key <> "server_next_seq" -> key <> "next_live_seq" -> key <> "snapshot_message_count" ->
  key <> "snapshot_counts" -> snapshot_told rep -> snapshot_told (dset key v rep).
Proof.
  intros H1 H2 H3 H4 (k & q & ms & p & Hk & E1 & E2 & E3 & E4 & E5 & E6 & E7). exists k, q, ms, p. by rewrite !dget_dset_ne by done.
Qed.

Lemma on_client_report {A} (m : M W A) (w : prober W) : report (on_client m w).1 = report w /\
  pnet (on_client m w).1 = (m (pnet w)).1 /\ (on_client m w).2 = (m (pnet w)).2.
Proof. unfold on_client, zoom. by destruct (m (pnet w)). Qed.

Lemma login_failed_run e (w : prober W) : dget "messages" (report w) = None ->
  dget "messages" (report (login_failed error_text e w).1) = None /\ (login_failed error_text e w).2 <> Ok EXIT_OK.
Proof. intros Hm. destruct e; unfold login_failed, put, mmod; munfold; cbn [fst snd report]; by rewrite !dget_dset_ne by done. Qed.

(** What [logged_in] says. *)
Definition told (x : prober W * res Z) : Prop :=
  shows (report x.1) /\ (x.2 = Ok EXIT_OK -> pa_glimpse args = true -> snapshot_told (report x.1)).

Lemma logged_in_told (w : prober W) : sound msgs sane flight (pnet w) -> dget "messages" (report w) = None ->
  told (logged_in error_text patience args w).
Proof.
  intros Hw Hm. unfold logged_in. set (login := sc_login patience _ _ _ _ _).
  destruct (sound_login msgs sane flight patience (mkClientArgs (pa_user args) (pa_password args) (pa_timeout args) 0)
    (if pa_glimpse args then "" else pa_session args) (pa_seq args) (pnet w) Hw) as [H1 H2].
  change (cl_login _ _) with login in H1, H2. rewrite bind_run. unfold mtry at 1. rewrite bind_run.
  unfold on_client at 1, zoom. destruct (login (pnet w)) as [n1 [[session k]|e]]; cbn [fst snd] in *.
  2: { destruct (is_SoupClientError e); [|split; [intros l; cbn; by rewrite Hm|done]]. unfold mret, M_ret.
    destruct (login_failed_run e (mkProber n1 (report w)) Hm) as [E1 E2].
    destruct (login_failed error_text e _) as [w2 r2]. cbn [fst snd] in *. split; [intros l; cbn; by rewrite E1|done]. }
  destruct (H2 session k eq_refl) as [Hk Hsv]. unfold mret at 1, M_ret. rewrite bind_run. unfold put at 1, mmod. rewrite bind_run.
  unfold put at 1, mmod. rewrite bind_run. unfold put at 1, mmod. cbn [pnet report]. set (w3 := mkProber n1 _).
  assert (accepted k w3) as Ha.
  { unfold accepted, w3. cbn [pnet report]. rewrite dget_dset_eq, !dget_dset_ne by done. by destruct H1. }
  clearbody w3. rewrite bind_run. set (run := if pa_glimpse args then _ else _).
  assert (shows (report (run w3).1) /\ ((run w3).2 = Ok EXIT_OK -> pa_glimpse args = true -> snapshot_told (report (run w3).1))) as [Hr1 Hr2].
  { unfold run. destruct (pa_glimpse args).
    - destruct (run_glimpse_told k w3 Ha) as [E1 E2]. split; [intros l; by rewrite E1|auto].
    - split; [by apply run_itch_shows|done]. }
  destruct (run w3) as [w4 [code|e]]; cbn [fst snd] in *; [|by split]. rewrite bind_run.
  destruct (Z.eqb_spec code EXIT_OK) as [->|Hne]; [|split; [done|intros [= ->]; done]].
  rewrite bind_run. destruct (on_client_report sc_logout w4) as (E1 & E2 & E3). destruct (on_client sc_logout w4) as [w5 [x|e]]; cbn [fst snd] in *.
  - unfold put, mmod, mret, M_ret. cbn [fst snd report]. unfold told. cbn [fst snd report]. rewrite E1. split; [by apply shows_put|].
    intros _ Hgl. apply told_put; try done. by apply Hr2.
  - unfold told. cbn [fst snd]. rewrite E1. by split.
Qed.

(** ** Main *)

Lemma told_put_exit (w : prober W) (code : Z) : told (w, Ok code) -> told (mkProber (pnet w) (dset "exit_code" (PInt code) (report w)), Ok code).
Proof.
  intros [H1 H2]. unfold told in *. cbn [fst snd report] in *. split; [by apply shows_put|]. intros E Hg. apply told_put; try done. by apply H2.
Qed.

Lemma sc_close_closes (w : W) : (forall w e, (net_close w).2 = Raise e -> is_OSError e = true) ->
  (sc_close w).2 = Ok () /\ sc_sock (net_client (sc_close w).1) = false.
Proof.
  intros Hc. unfold sc_close, get_client, mgets. rewrite bind_run. destruct (sc_sock (net_client w)) eqn:Es; [|by split].
  rewrite bind_run. unfold mtry. specialize (Hc w). destruct (net_close w) as [w1 [[]|e]]; cbn [fst snd] in *.
  - unfold mod_client, mmod. cbn. by rewrite (hn_get (HonestNet := HonestNet0)).
  - rewrite (Hc e eq_refl). unfold mret, M_ret, mod_client, mmod. cbn. by rewrite (hn_get (HonestNet := HonestNet0)).
Qed.

Lemma clock_run (w : W) : sane w -> exists now w1, net_now w = (w1, Ok now) /\ sane w1 /\ net_client w1 = net_client w.
Proof.
  intros Hw. destruct (hn_clock w) as [now E], (hn_now w Hw) as (H1 & H2 & _). destruct (net_now w) as [w1 r]. cbn in *. subst r.
  by exists now, w1.
Qed.

(** A connect that fails leaves no socket. *)
Lemma sc_connect_fails t (w w1 : W) e : sane w -> sc_sock (net_client w) = false -> sc_connect t w = (w1, Raise e) ->
  sc_sock (net_client w1) = false.
Proof.
  intros Hw Hs. unfold sc_connect. rewrite bind_run. destruct (clock_run w Hw) as (t0 & w2 & -> & H2 & E2). rewrite bind_run.
  unfold os_error_is, mtry. destruct (hn_connect t w2 H2) as (H3 & E3 & _).
  destruct (net_connect t w2) as [w3 [[]|x]]; cbn [fst] in *.
  - rewrite bind_run. unfold mod_client at 1, mmod. destruct (hn_set (sc_set_sock true (net_client w3)) w3 H3) as [H4 _].
    set (w4 := set_client _ w3) in *. clearbody w4. rewrite bind_run. destruct (clock_run w4 H4) as (t1 & w5 & -> & H5 & _).
    rewrite bind_run. unfold mod_client at 1, mmod. destruct (hn_set (sc_set_latency (t1 - t0) (net_client w5)) w5 H5) as [H6 _].
    set (w6 := set_client _ w5) in *. clearbody w6. rewrite bind_run. by destruct (clock_run w6 H6) as (t2 & w7 & -> & _).
  - destruct (is_OSError x); intros [= <- _]; by rewrite E3, E2.
Qed.

Definition told_closed (x : prober W * res Z) : Prop := told x /\ sc_sock (net_client (pnet x.1)) = false.

Lemma run_told (n : W) : sane n -> (forall w e, (net_close w).2 = Raise e -> is_OSError e = true) ->
  told_closed (_run error_text patience args (mkProber n [])).
Proof.
  intros Hn Hc. unfold _run. rewrite bind_run. unfold on_client at 1, zoom, mod_client, mmod. cbn [pnet report].
  set (n0 := set_client _ n). assert (sane n0 /\ sc_sock (net_client n0) = false) as [Hn0 Hs0].
  { unfold n0. split; [by apply (hn_set (HonestNet := HonestNet0))|by rewrite (hn_get (HonestNet := HonestNet0))]. }
  pose proof (sound_connect msgs sane flight patience (mkClientArgs "" "" (pa_timeout args) SC_SILENCE_TIMEOUT) n Hn) as Hsd.
  cbn [cl_connect the_client soup_client] in Hsd. rewrite bind_run in Hsd. unfold mod_client at 1, mmod in Hsd. cbn [o_idle o_timeout] in Hsd.
  fold n0 in Hsd. rewrite bind_run in Hsd. clearbody n0.
  pose proof (sc_connect_fails (pa_timeout args) n0) as Hf. rewrite bind_run. unfold mtry. rewrite bind_run. unfold on_client at 1, zoom. cbn [pnet report].
  destruct (sc_connect (pa_timeout args) n0) as [n1 [latency|e]]; cbn [fst snd] in *.
  - unfold mret at 1, M_ret. rewrite bind_run. unfold put at 1, mmod. cbn [pnet report]. set (w2 := mkProber n1 _).
    pose proof (logged_in_told w2 Hsd eq_refl) as Ht. unfold mfinally. destruct (logged_in _ _ _ w2) as [w3 r3].
    destruct (on_client_report sc_close w3) as (E1 & E2 & E3). destruct (sc_close_closes (pnet w3) Hc) as [Hok Hcl].
    destruct (on_client sc_close w3) as [w4 r4]. cbn [fst snd] in *. rewrite Hok in E3. subst r4. rewrite <- E2 in Hcl.
    split; [|exact Hcl]. unfold told in *. cbn [fst snd] in *. rewrite E1. exact Ht.
  - specialize (Hf n1 e Hn0 Hs0 eq_refl). destruct (decide (e = ConnectFailed)).
    + unfold mret, M_ret, put, mmod. munfold. cbn [pnet report]. split; [|done]. by split; [intros l|].
    + cbn [pnet report]. split; [|done]. by split; [intros l|].
Qed.
End honest.

(** * Properties *)

(** C7. A probe of a server that serves a session: the messages it shows are the server's,
    numbered on from the number the login was accepted at, and no more than asked for.
    When a snapshot probe exits 0, the snapshot was read up to its G message, counted by
    type, and the reported next live number is the one the G carries.  However it ends,
    no socket is left open. *)
Theorem probe_reports {W} `{NetOf W} msgs sane flight `{!HonestNet msgs sane flight} error_text patience args (n : W) :
  sane n -> (forall w e, (net_close w).2 = Raise e -> is_OSError e = true) ->
  let '(w', r) := probe_main error_text patience args (mkProber n []) in
  shows msgs error_text args (report w') /\
  (r = Ok EXIT_OK -> pa_glimpse args = true -> snapshot_told msgs (report w')) /\
  sc_sock (net_client (pnet w')) = false.
Proof.
  intros Hn Hc. destruct (run_told msgs sane flight error_text patience args n Hn Hc) as [Ht Hs]. unfold probe_main.
  rewrite bind_run. unfold mtry. destruct (_run error_text patience args (mkProber n [])) as [w1 [code|e]]; cbn [fst snd] in *.
  - destruct (told_put_exit _ _ _ w1 code Ht) as [H1 H2]. cbn. by split_and!.
  - destruct Ht as [H1 H2]. cbn [fst snd] in *. destruct (decide (e = KeyboardInterrupt)); [|by split_and!].
    unfold put, mmod. munfold. cbn [pnet report]. split_and!; [|done|done]. by repeat apply shows_put.
Qed.

Definition snapshot_day : list bytes :=
  (fun m => match encode_msg m with Ok d => d | Raise _ => [] end) <$>
  [TimestampSeconds 32400; OrderAdded 5 1001 "B" 100 "1301" "DAY" 25000; EndOfSnapshot 77].
Definition snapshot_stream : bytes := wire (LoginAccepted "DAY1" 1 :: ServerHeartbeat :: (SequencedData <$> snapshot_day)).
Definition snapshot_net : script_net := mkScript (new_client 15000) 0 [Some [Some (take 33 snapshot_stream); None; Some (drop 33 snapshot_stream)]] [].
Definition probe_of (glimpse : bool) : probe_args := mkProbeArgs "user" "pass" 1 "" glimpse 2 10000.

Lemma probe_reports_witness :
  let x := probe_main (fun _ => "?") 20 (probe_of true) (mkProber snapshot_net []) in
  x.2 = Ok EXIT_OK /\ dget "next_live_seq" (report x.1) = Some (PInt 77) /\ snapshot_told snapshot_day (report x.1) /\
  shows snapshot_day (fun _ => "?") (probe_of false) (report (probe_main (fun _ => "?") 20 (probe_of false) (mkProber snapshot_net [])).1).
Proof.
  assert (script_sane snapshot_day snapshot_net) as Hs.
  { unfold script_sane. cbn [sn_conns snapshot_net]. apply Forall_cons_2; [|by apply Forall_nil_2].
    eexists _, _. split; [vm_compute; reflexivity|]. cbn. by repeat split. }
  assert (forall (w : script_net) e, (net_close w).2 = Raise e -> is_OSError e = true) as Hc by done.
  pose proof (probe_reports snapshot_day (script_sane snapshot_day) script_flight (fun _ => "?") 20 (probe_of true) snapshot_net Hs Hc) as H1.
  pose proof (probe_reports snapshot_day (script_sane snapshot_day) script_flight (fun _ => "?") 20 (probe_of false) snapshot_net Hs Hc) as H2.
  assert ((probe_main (fun _ => "?") 20 (probe_of true) (mkProber snapshot_net [])).2 = Ok EXIT_OK) as E by (vm_compute; reflexivity).
  assert (dget "next_live_seq" (report (probe_main (fun _ => "?") 20 (probe_of true) (mkProber snapshot_net [])).1) = Some (PInt 77)) as E'
    by (vm_compute; reflexivity).
  destruct (probe_main (fun _ => "?") 20 (probe_of true) (mkProber snapshot_net [])) as [w1 r1].
  destruct (probe_main (fun _ => "?") 20 (probe_of false) (mkProber snapshot_net [])) as [w2 r2].
  cbn [fst snd] in *. split_and!; [done|done|by apply H1|by apply H2].
Defined.

(** With --messages 0 the loop is left before anything is read, so a probe of a healthy
    server fails. *)
Lemma messages_zero {W} `{NetOf W} error_text patience args q (w : prober W) code : pa_messages args <= 0 ->
  (_run_itch error_text (S patience) args q w).2 = Ok code ->
  code = EXIT_PROTOCOL /\ dget "error" (report (_run_itch error_text (S patience) args q w).1) = Some (PStr "nothing received within timeout window").
Proof.
  intros Hm. unfold _run_itch. rewrite bind_run. destruct (on_client net_now w) as [w1 [now|e]]; [|done].
  rewrite bind_run. rewrite Z.max_r by done. cbn [collect].
  destruct (Z.leb_spec 0 (zlen (ir_messages (mkItchRun [] false false q None)))) as [_|Hl]; [|cbv in Hl; discriminate].
  unfold on_client, zoom, itch_report, put, mmod. munfold. cbn [fst snd report ir_messages ir_heartbeat ir_end ir_error].
  rewrite bool_decide_true by done. cbn. intros [= <-]. split; [done|]. by rewrite dget_dset_eq.
Qed.
