(* ===== verification/Views.v ===== *)
(** jnxfeed/cli/views.py: what the static, tail, book and stats commands print.

    A screen is the text written.  Floats: the average price of [render_book] and the
    rates of [render_stats] are printed by [fmt_float], given the exact quotient. *)
From S2P Require Export Describe Sources.

#[global] Set Default Goal Selector "!".

Definition _fmt (value : option str) : str := default "-" value.
Definition _fmt_int (value : option Z) : str := default "-" (py_str <$> value).
Definition _fmt_price (value : option Z) : str := default "-" (price_to_str <$> value).

Definition blanks (n : nat) : str := l2s (replicate n " "%byte).
(** ["{:<w}"], ["{:>w}"] of a text and ["{:0wd}"] of a number that is not negative. *)
Definition ljust (w : nat) (s : str) : str := s +:+ blanks (w - String.length s).
Definition rjust (w : nat) (s : str) : str := blanks (w - String.length s) +:+ s.
Definition zpad (w : nat) (z : Z) : str := let s := py_str z in l2s (replicate (w - String.length s) "0"%byte) +:+ s.
Definition newline : str := l2s [x0a]%byte.
(** [text.rstrip()] *)
Definition rstrip (s : str) : str := l2s (rstrip_b is_ws (s2l s)).

Definition _fmt_ts (ns : Z) : str :=
  let seconds := ns / 10 ^ 9 in
  zpad 2 (seconds / 3600) +:+ ":" +:+ zpad 2 (seconds / 60 mod 60) +:+ ":" +:+ zpad 2 (seconds mod 60) +:+ "." +:+
  zpad 3 (ns mod 10 ^ 9 / 10 ^ 6).

(** * static *)

Definition _STATIC_HEADER : list str :=
  ["SICC"; "ISIN"; "Group"; "Lot"; "TickTbl"; "PriceDec"; "Lower"; "Upper"; "State"; "SSRestr"; "RefPrice"; "SSP"].

Definition static_row (market : Market) (sicc : str) (inst : Instrument) : res (list str) :=
  let stats := book_stats (tape market) sicc in
  let last_price := st ← stats; bs_last_price st in
  let uptick := match stats with Some st => bs_uptick st | None => false end in
  let tick_table := id ← i_tick_table_id inst; tick_tables (refdata market) !! id in
  ssp ← compute_ssp (i_short_sell_state inst) (i_reference_price inst) last_price uptick tick_table;
  Ok [sicc; _fmt (i_isin inst); _fmt (i_group inst); _fmt_int (i_round_lot inst); _fmt_int (i_tick_table_id inst);
      _fmt_int (i_price_decimals inst); _fmt_price (i_lower_limit inst); _fmt_price (i_upper_limit inst);
      i_trading_state inst; i_short_sell_state inst; _fmt_price (i_reference_price inst); _fmt_price (Some ssp)].

Definition str_le (a b : str) : Prop := String.leb a b = true.
#[export] Instance str_le_dec : RelDecision str_le.
Proof. intros a b. unfold str_le. apply _. Defined.

Definition static_rows (market : Market) : res (list (list str)) :=
  let insts := instruments (refdata market) in
  rmap (fun sicc => inst ← of_option KeyError (dget sicc insts); static_row market sicc inst) (merge_sort str_le (dkeys insts)).

(** The loop over the rows: a row longer than the header raises IndexError. *)
Fixpoint widen (widths : list nat) (row : list str) : res (list nat) :=
  match widths, row with
  | ws, [] => Ok ws
  | [], _ :: _ => Raise IndexError
  | w :: ws, cell :: row => ws ← widen ws row; Ok (Nat.max w (String.length cell) :: ws)
  end.
Fixpoint table_widths (widths : list nat) (rows : list (list str)) : res (list nat) :=
  match rows with [] => Ok widths | row :: rows => ws ← widen widths row; table_widths ws rows end.

(** [fmt.format( *row ).rstrip()]: too few cells raise IndexError. *)
Definition format_row (widths : list nat) (row : list str) : res str :=
  if (length row <? length widths)%nat then Raise IndexError
  else Ok (rstrip (str_join "  " (zip_with ljust widths row))).

Definition render_table (header : list str) (rows : list (list str)) : res str :=
  widths ← table_widths (String.length <$> header) rows;
  head ← format_row widths header;
  let rule := str_join "  " ((fun w => l2s (replicate w "-"%byte)) <$> widths) in
  lines ← rmap (format_row widths) rows;
  Ok (foldr (fun l t => l +:+ newline +:+ t) "" (head :: rule :: lines)).

(** * tail *)

Record tail_args : Type := mkTailArgs { ta_types : option str; ta_book : option str; ta_limit : option Z }.

(** [text.upper()] of ASCII. *)
Definition upper (s : str) : str :=
  l2s ((fun b => if (97 <=? b2z b) && (b2z b <=? 122) then z2b (b2z b - 32) else b) <$> s2l s).

(** [args.types.split(",")], stripped, in capitals, the empty ones left out. *)
Definition wanted_types (types : option str) : option (list str) :=
  match given types with
  | None => None
  | Some t => Some ((fun x => upper (strip x)) <$> filter (fun x => strip x <> "") (l2s <$> split_b [","]%byte (s2l t)))
  end.

(** [getattr(msg, "orderbook_id", None)] *)
Definition orderbook_id_of (m : message) : option str :=
  match dget "orderbook_id" (zip (_fields m) (msg_fields m)) with Some (FStr s) => Some s | _ => None end.

Definition shown (a : tail_args) (m : message) : bool :=
  match wanted_types (ta_types a) with Some ts => bool_decide (type_char m ∈ ts) | None => true end &&
  match ta_book a with Some b => bool_decide (orderbook_id_of m = Some b) | None => true end.

Definition tail_line (seq : Z) (m : message) : str := rjust 10 (py_str seq) +:+ "  " +:+ describe_msg m None +:+ newline.

(** The callback of [main_tail]: the lines written so far, one for each printed; it
    returns whether to go on. *)
Definition limit_reached (a : tail_args) (out : list str) : bool :=
  match ta_limit a with Some n => n <=? zlen out | None => false end.
Definition tail_on_message (a : tail_args) (seq : Z) (m : message) : M (list str) bool :=
  out ← mget;
  if limit_reached a out then mret false
  else if negb (shown a m) then mret true
  else
    let out := out ++ [tail_line seq m] in
    mput out ;; mret (negb (limit_reached a out)).

(** * book *)

Section floats.
  (** ["{:.1f}".format(x)] and ["{:.0f}"], for the float nearest to an exact quotient. *)
  Context (fmt_float : nat -> Q -> str).

Definition book_line (bids asks : list (Z * Z)) (i : nat) : str :=
  let price l := match l !! i with Some (p, _) => price_to_str p | None => "" end in
  let qty l := match l !! i with Some (_, q) => py_str q | None => "" end in
  rstrip (rjust 12 (qty bids) +:+ " " +:+ rjust 12 (price bids) +:+ " | " +:+ ljust 12 (price asks) +:+ " " +:+ ljust 12 (qty asks)).

Definition spread_text (bids asks : list (Z * Z)) : str :=
  match bids, asks with (b, _) :: _, (a, _) :: _ => price_to_str (a - b) | _, _ => "-" end.

Definition traded_line (stats : option BookStats) : str :=
  match stats with
  | None => "traded: nothing yet"
  | Some st =>
      "traded: " +:+ py_str (bs_trade_count st) +:+ " fills, volume=" +:+ py_str (bs_volume st) +:+ ", vwap=" +:+
      match vwap st with None => "-" | Some q => fmt_float 1 (q / inject_Z 10)%Q end +:+ ", last=" +:+
      _fmt_price (bs_last_price st) +:+ " x " +:+ _fmt_int (bs_last_qty st)
  end.

Definition trade_line (e : TapeEntry) : str :=
  "  " +:+ _fmt_ts (te_timestamp e) +:+ "  " +:+ rjust 10 (price_to_str (te_price e)) +:+ " x " +:+ ljust 8 (py_str (te_qty e)) +:+
  " match=" +:+ py_str (te_match_number e).

Definition zsum_qty (l : list (Z * Z)) : Z := zsum (snd <$> l).

(** [depth] is not negative. *)
Definition render_book (market : Market) (sicc : str) (depth : nat) (trades : Z) : res str :=
  let state := match dget sicc (instruments (refdata market)) with Some inst => i_trading_state inst | None => "?" end in
  let book := books (mbooks market) !! sicc in
  bids ← match book with Some b => bid_levels b (Some depth) | None => Ok [] end;
  asks ← match book with Some b => ask_levels b (Some depth) | None => Ok [] end;
  total_bid ← match book with Some b => zsum_qty <$> levels_ascending (b_bids b) | None => Ok 0 end;
  total_ask ← match book with Some b => zsum_qty <$> levels_ascending (b_asks b) | None => Ok 0 end;
  let lines :=
    ("book " +:+ sicc +:+ "  state=" +:+ state +:+ "  clock=" +:+ _fmt_ts (seconds market * 10 ^ 9)) ::
    ("spread=" +:+ spread_text bids asks +:+ "  bid_qty_total=" +:+ py_str total_bid +:+ "  ask_qty_total=" +:+ py_str total_ask) ::
    (rjust 12 "bid_qty" +:+ " " +:+ rjust 12 "bid" +:+ " | " +:+ ljust 12 "ask" +:+ " " +:+ ljust 12 "ask_qty") ::
    (book_line bids asks <$> seq 0 (Nat.max (Nat.max (length bids) (length asks)) 1)) ++
    traded_line (book_stats (tape market) sicc) ::
    (trade_line <$> reverse (recent (tape market) (Some trades) (Some sicc))) in
  Ok (str_join newline lines +:+ newline).

(** * stats *)

Definition type_counts_text (d : list (str * Z)) : str :=
  match d with [] => "(none)" | _ => str_join " " ((fun kv => kv.1 +:+ "=" +:+ py_str kv.2) <$> sorted_items d) end.

Definition counter (k : Market) (name : str) : str :=
  match dget name (counters k) with Some (CInt z) => py_str z | _ => "" end.

(** What a live screen shows of the feed handler. *)
Record handler_view : Type := mkHandlerView {
  hv_session_id : option str; hv_next_seq : option Z; hv_state : str; hv_reconnects : Z }.

Definition rate_le (x y : str * Q) : Prop := String.leb x.1 y.1 = true.
#[export] Instance rate_le_dec : RelDecision rate_le.
Proof. intros x y. unfold rate_le. apply _. Defined.

(** The rates that are not zero, by type. *)
Definition rates_text (rates : list (str * Q)) : str :=
  match filter (fun kv => Qeq_bool kv.2 0 = false) (merge_sort rate_le rates) with
  | [] => "(idle)"
  | l => str_join " " ((fun kv => kv.1 +:+ "=" +:+ fmt_float 0 kv.2) <$> l)
  end.

Definition opt_line {A} (o : option A) (f : A -> str) : list str := match o with Some a => [f a] | None => [] end.

(** [elapsed] is in milliseconds, and no overall rate is shown when it is zero. *)
Definition render_stats (market : Market) (rates : option (list (str * Q))) (handler : option handler_view) (elapsed : option Z) : str :=
  let rate := match elapsed with
    | Some e => if e =? 0 then "" else
        "  (" +:+ fmt_float 0 (inject_Z (zsum (dvalues (message_counts market))) / (inject_Z e / inject_Z 1000))%Q +:+ " msgs/s over " +:+
        fmt_float 2 (inject_Z e / inject_Z 1000)%Q +:+ "s)"
    | None => "" end in
  let by_type := match dget "by_type" (counters market) with Some (CDict d) => d | _ => [] end in
  str_join newline (
    opt_line handler (fun h => "session=" +:+ _fmt (hv_session_id h) +:+ "  next_seq=" +:+ _fmt_int (hv_next_seq h) +:+ "  state=" +:+
      hv_state h +:+ "  reconnects=" +:+ py_str (hv_reconnects h)) ++
    ["messages=" +:+ counter market "messages" +:+ rate; "by type: " +:+ type_counts_text by_type] ++
    opt_line rates (fun r => "rates/s: " +:+ rates_text r) ++
    ["instruments=" +:+ counter market "instruments" +:+ "  live_orders=" +:+ counter market "live_orders" +:+ "  books=" +:+ counter market "books";
     "orphans: E=" +:+ counter market "orphan_executes" +:+ " D=" +:+ counter market "orphan_deletes" +:+ " U=" +:+ counter market "orphan_replaces" +:+
       "  collisions=" +:+ counter market "collisions" +:+ "  unknown=" +:+ counter market "unknown";
     "trades=" +:+ counter market "executions" +:+ "  volume=" +:+ counter market "executed_volume" +:+ "  on_tape=" +:+ counter market "trades_on_tape"]
  ) +:+ newline.
End floats.

(** * What tail prints *)

(** The lines of the messages to show, in order. *)
Definition tail_lines (a : tail_args) (items : list (Z * bytes)) : list str :=
  omap (fun i => match Itch.decode i.2 with Ok m => if shown a m then Some (tail_line i.1 m) else None | Raise _ => None end) items.
Definition up_to (limit : option Z) (printed : nat) {A} (l : list A) : list A :=
  match limit with Some n => take (Z.to_nat n - printed) l | None => l end.

Lemma tail_callback a seq m out : tail_on_message a seq m out =
  if limit_reached a out then (out, Ok false)
  else if shown a m then (out ++ [tail_line seq m], Ok (negb (limit_reached a (out ++ [tail_line seq m]))))
  else (out, Ok true).
Proof. unfold tail_on_message, mget, mput. munfold. destruct (limit_reached a out); [done|]. by destruct (shown a m). Qed.

Lemma up_to_reached a out {A} (l : list A) : limit_reached a out = true -> up_to (ta_limit a) (length out) l = [].
Proof.
  unfold limit_reached, up_to. destruct (ta_limit a) as [n|]; [|done]. rewrite Z.leb_le. unfold zlen. intros Hn.
  by replace (Z.to_nat n - length out)%nat with 0%nat by lia.
Qed.

Lemma up_to_line a out (x : str) l : limit_reached a out = false ->
  up_to (ta_limit a) (length out) (x :: l) = x :: up_to (ta_limit a) (length (out ++ [x])) l.
Proof.
  unfold limit_reached, up_to. destruct (ta_limit a) as [n|]; [|done]. rewrite Z.leb_gt. unfold zlen. intros Hn. rewrite length_app. cbn [length].
  by replace (Z.to_nat n - length out)%nat with (S (Z.to_nat n - (length out + 1))) by lia.
Qed.

(** A source that ends without an error: the lines printed are those of the messages to
    show, up to the limit. *)
Theorem tail_prints a items ended : forall count out k w n,
  replay_items (Some (tail_on_message a)) items ended count (out, k) = (w, Ok n) ->
  w.1 = out ++ up_to (ta_limit a) (length out) (tail_lines a items).
Proof.
  induction items as [|[seq raw] items IH]; intros count out k w n; cbn [replay_items].
  { rewrite bind_run. destruct ended; [|done]. intros [= <- _]. cbn. unfold up_to. destruct (ta_limit a); by rewrite ?take_nil, app_nil_r. }
  rewrite bind_run. unfold mlift. destruct (Itch.decode raw) as [m|e] eqn:Ed; [|done]. rewrite bind_run. unfold zoom at 1. cbn [fst snd].
  destruct (market_apply (OMsg m) k) as [k1 [x|e]]; [|done]. rewrite bind_run. unfold stop_asked. rewrite bind_run. unfold zoom at 1. cbn [fst snd].
  rewrite tail_callback. cbn [tail_lines omap list_omap fst snd]. rewrite Ed.
  destruct (limit_reached a out) eqn:El.
  { intros [= <- _]. rewrite (up_to_reached a out _ El). by rewrite app_nil_r. }
  destruct (shown a m); [|apply IH]. unfold mret at 1, M_ret. destruct (limit_reached a (out ++ [tail_line seq m])) eqn:El2; cbn [negb].
  - intros [= <- _]. rewrite up_to_line by done. by rewrite (up_to_reached a _ _ El2).
  - intros E. apply IH in E. rewrite E, up_to_line by done. by rewrite <- app_assoc.
Qed.

Example tail_two : (run_source (Some (tail_on_message (mkTailArgs (Some "a,d") None (Some 1)))) sample_files (PcapSource "s.pcap") ([], market_init 10)).1.1
  = ["         8  A OrderAdded ns=5 order_number=1001 side=B qty=100 orderbook_id=1301 group=DAY price=2500.0" +:+ newline].
Proof. vm_compute. reflexivity. Qed.

(** The spread of a crossed book: half a yen below is shown as minus one and a half. *)
Example crossed_spread : spread_text [(10005, 1)] [(10000, 1)] = "-1.5".
Proof. vm_compute. reflexivity. Qed.

Example small_table : render_table ["SICC"; "Lot"] [["1301"; "100"]; ["7203"; "-"]]
  = Ok (str_join newline ["SICC  Lot"; "----  ---"; "1301  100"; "7203  -"; ""]).
Proof. vm_compute. reflexivity. Qed.
