(* ===== verification/ViewsMain.v ===== *)
(** jnxfeed/cli/views.py: the static, tail, book and stats commands.

    The arguments are as [argparse] gives them.  A screen is the list of the texts
    written; [exn_text] is [str] of an exception.  What a live session does is the
    argument [live]: given the callbacks it returns the handler's last state and the
    failure, if any; times are milliseconds. *)
From S2P Require Export Views.

#[global] Set Default Goal Selector "!".

(** [csv.writer(out).writerow(row)]: minimal quoting, lines ended by CR LF. *)
Definition csv_special (b : byte) : bool := let z := b2z b in (z =? 44) || (z =? 34) || (z =? 13) || (z =? 10).
Definition csv_cell (cell : str) : bytes :=
  if existsb csv_special (s2l cell) then z2b 34 :: concat ((fun b => if b2z b =? 34 then [b; b] else [b]) <$> s2l cell) ++ [z2b 34]
  else s2l cell.
Definition csv_row (row : list str) : str :=
  l2s ((if decide (row = [""]) then [z2b 34; z2b 34] else PyText.join (s2l ",") (csv_cell <$> row)) ++ [z2b 13; z2b 10]).

(** What is written, and what [main_stats] remembers of its last refresh. *)
Record Screen : Type := mkScreen { sc_out : list str; sc_counts : list (str * Z); sc_time : Z }.
Definition sc_set_out (out : list str) (s : Screen) : Screen := mkScreen out (sc_counts s) (sc_time s).
Definition sc_set_prev (counts : list (str * Z)) (now : Z) (s : Screen) : Screen := mkScreen (sc_out s) counts now.

(** [SourceResult]: a replay's count, or the handler's last state and the failure. *)
Inductive source_result : Type := Replayed (count : Z) | LiveEnded (count : Z) (handler : handler_view) (failure : option str).

Definition EXIT_OK : Z := 0.
Definition EXIT_USAGE : Z := 2.
Definition EXIT_SOURCE : Z := 3.
Definition _CLEAR : str := l2s [x1b; x5b; x32; x4a; x1b; x5b; x48]%byte.

Section views.
Context (fmt_float : nat -> Q -> str) (exn_text : exn -> str) (fs : files).

Definition V : Type := Screen * Market.
Definition write (text : str) : M V () := mmod (fun w => (sc_set_out (sc_out w.1 ++ [text]) w.1, w.2)).
Definition market_now : M V Market := mgets snd.

(** A callback for each message, and one for each interval with the time and the handler. *)
Definition message_cb : Type := Z -> message -> M Screen bool.
Definition interval_cb : Type := Z -> handler_view -> M V ().
Context (live : source_args -> option message_cb -> option interval_cb -> M V source_result).

(** [sources.run] *)
Definition run_any (a : source_args) (on_message : option message_cb) (icb : option interval_cb) : M V source_result :=
  mode ← mlift (source_mode a);
  match mode with
  | Replay r => count ← run_source on_message fs r; mret (Replayed count)
  | LiveSource _ => live a on_message icb
  end.

Definition failure_of (r : source_result) : option str := match r with LiveEnded _ _ f => f | Replayed _ => None end.

(** The result, when there is one, and the exit code. *)
Definition _run_source (a : source_args) (on_message : option message_cb) (icb : option interval_cb) : M V (option source_result * Z) :=
  r ← mtry (r ← run_any a on_message icb; mret (inl r)) (fun e =>
        if decide (e = SourceError) then Some (write ("error: " +:+ exn_text e +:+ newline) ;; mret (inr EXIT_USAGE))
        else if is_OSError e || is_ValueError e then Some (write ("error: " +:+ exn_text e +:+ newline) ;; mret (inr EXIT_SOURCE))
        else None);
  match r with
  | inr code => mret (None, code)
  | inl result =>
      match failure_of result with
      | Some reason => write ("live session failed: " +:+ reason +:+ newline) ;; mret (Some result, EXIT_SOURCE)
      | None => mret (Some result, EXIT_OK)
      end
  end.

Definition is_live (r : option source_result) : bool := match r with Some (LiveEnded _ _ _) => true | _ => false end.

(** * static *)

Definition MASTER_NOTE : str :=
  "note: --master enrichment is not implemented in the prototype (Stock Master CSV parsing is out of scope)" +:+ newline.

Definition main_static (a : source_args) (csv : bool) (master : option str) : M V Z :=
  (if given master then write MASTER_NOTE else mret ()) ;;
  rc ← _run_source a None None;
  let '(_, code) := (rc : option source_result * Z) in
  if negb (code =? EXIT_OK) then mret code
  else
    market ← market_now;
    rows ← mlift (static_rows market);
    (if csv then mfor (_STATIC_HEADER :: rows) (fun row => write (csv_row row))
     else
       text ← mlift (render_table _STATIC_HEADER rows);
       write text ;;
       write (py_str (zlen rows) +:+ " instrument(s)" +:+ newline)) ;;
    mret EXIT_OK.

(** * tail *)

Definition tail_message (t : tail_args) : message_cb := fun seq msg =>
  zoom sc_out sc_set_out (tail_on_message t seq msg).
Definition main_tail (a : source_args) (t : tail_args) : M V Z :=
  rc ← _run_source a (Some (tail_message t)) None; mret rc.2.

(** * book *)

(** [tty]: whether the output is a terminal, which is cleared before each screen. *)
Definition clear_of (tty : bool) : str := if tty then _CLEAR else "".
Definition show_live (tty : bool) (text : str) : M V () :=
  write (clear_of tty +:+ text) ;; if tty then mret () else write newline.

Definition book_refresh (tty : bool) (sicc : str) (depth : nat) (trades : Z) : interval_cb := fun _ _ =>
  market ← market_now; text ← mlift (render_book fmt_float market sicc depth trades); show_live tty text.

Definition main_book (a : source_args) (tty : bool) (sicc : str) (depth : nat) (trades : Z) : M V Z :=
  rc ← _run_source a None (Some (book_refresh tty sicc depth trades));
  let '(result, code) := (rc : option source_result * Z) in
  if negb (code =? EXIT_OK) then mret code
  else
    (if is_live result then mret ()
     else market ← market_now; text ← mlift (render_book fmt_float market sicc depth trades); write text) ;;
    mret EXIT_OK.

(** * stats *)

(** Messages per second by type since the last refresh; at least a nanosecond has passed. *)
Definition rates_since (prev counts : list (str * Z)) (elapsed : Z) : list (str * Q) :=
  let dt := if elapsed <=? 0 then (1 # 1000000000)%Q else (elapsed # 1000)%Q in
  (fun kv : str * Z => let n := kv.2 - default 0 (dget kv.1 prev) in (kv.1, (inject_Z n / dt)%Q)) <$> counts.

Definition stats_refresh (tty : bool) : interval_cb := fun now handler =>
  market ← market_now;
  s ← mgets fst;
  let counts := message_counts market in
  let rates := rates_since (sc_counts s) counts (now - sc_time s) in
  mmod (fun w => (sc_set_prev counts now w.1, w.2)) ;;
  show_live tty (render_stats fmt_float market (Some rates) (Some handler) None).

(** [elapsed]: how long the source took. *)
Definition main_stats (a : source_args) (tty : bool) (elapsed : Z) : M V Z :=
  rc ← _run_source a None (Some (stats_refresh tty));
  let '(result, code) := (rc : option source_result * Z) in
  if negb (code =? EXIT_OK) then mret code
  else
    market ← market_now;
    write (match result with
           | Some (LiveEnded _ handler _) => render_stats fmt_float market None (Some handler) None
           | _ => render_stats fmt_float market None None (Some elapsed)
           end) ;;
    mret EXIT_OK.

(** A command from a fresh market and an empty screen started at [now]. *)
Definition start_view (now : Z) : V := (mkScreen [] [] now, market_init DEFAULT_MAX_ENTRIES).
End views.

(** * Facts *)

(** A source whose messages all decode, no callback: the market of the feed. *)
Lemma replay_market {C} items ended ms : Forall2 (fun i m => Itch.decode i.2 = Ok m) items ms -> forallb feed_ok ms = true ->
  forall count (c : C) k a, market_rep k a -> exists k', replay_items None items ended count (c, k) =
    ((c, k'), match ended with Ok _ => Ok (count + zlen items) | Raise e => Raise e end) /\ market_rep k' (foldl am_step a (OMsg <$> ms)).
Proof.
  induction 1 as [|[seq raw] m items ms Hd Hds IH]; intros Hf count c k a Hk.
  - exists k. cbn [replay_items]. rewrite bind_run. unfold mlift. destruct ended; [|done]. unfold mret, M_ret. unfold zlen. cbn. by rewrite Z.add_0_r.
  - cbn [forallb] in Hf. apply andb_true_iff in Hf as [Hfm Hf]. cbn [snd] in Hd.
    destruct (market_apply_rep k a (OMsg m) Hk Hfm) as (k1 & E1 & Hk1). destruct (IH Hf (count + 1) c k1 _ Hk1) as (k' & E & Hk').
    exists k'. cbn [replay_items]. rewrite bind_run. unfold mlift. rewrite Hd, bind_run. unfold zoom. cbn [fst snd]. rewrite E1.
    rewrite bind_run. cbn [stop_asked mret M_ret]. rewrite E. split; [|exact Hk'].
    do 2 f_equal. destruct ended; [|done]. f_equal. unfold zlen. cbn [length]. lia.
Qed.

(** The levels the market has for a book, best first, with their totals. *)
Lemma book_levels k a sicc : market_rep k a -> exists bids asks,
  (match books (mbooks k) !! sicc with Some b => bid_levels b None | None => Ok [] end) = Ok bids /\
  (match books (mbooks k) !! sicc with Some b => ask_levels b None | None => Ok [] end) = Ok asks /\
  lists_levels Z.gt (level_qty (am_orders a) sicc true) bids /\ lists_levels Z.lt (level_qty (am_orders a) sicc false) asks.
Proof.
  intros Hk. pose proof (mr_orders _ _ Hk) as Ho. destruct (mr_store _ _ Hk) as [_ _ Hb]. rewrite <- Ho.
  destruct (books (mbooks k) !! sicc) as [b|] eqn:E.
  - destruct (books_rep_levels _ _ sicc b true Hb E) as (l & El & Hl). destruct (books_rep_levels _ _ sicc b false Hb E) as (l' & El' & Hl').
    exists (reverse l), l'. unfold bid_levels, ask_levels. cbn [book_side] in El, El'. rewrite El, El'. cbn [mbind res_bind cut_depth].
    split_and!; [done|done|by apply lists_levels_reverse|done].
  - exists [], []. specialize (Hb sicc). rewrite E in Hb. split_and!; [done|done|..]; (split; [constructor|]); intros p q; rewrite Hb;
      (split; [by intros ?%elem_of_nil|by intros [<- ?]]).
Qed.

(** The book screen of a market with these levels. *)
Definition book_screen (fmt_float : nat -> Q -> str) (k : Market) (sicc : str) (depth : nat) (trades : Z) (bids asks : list (Z * Z)) : str :=
  let state := match dget sicc (instruments (refdata k)) with Some inst => i_trading_state inst | None => "?" end in
  let b := take depth bids in let s := take depth asks in
  str_join newline (
    ("book " +:+ sicc +:+ "  state=" +:+ state +:+ "  clock=" +:+ _fmt_ts (seconds k * 10 ^ 9)) ::
    ("spread=" +:+ spread_text b s +:+ "  bid_qty_total=" +:+ py_str (zsum_qty bids) +:+ "  ask_qty_total=" +:+ py_str (zsum_qty asks)) ::
    (rjust 12 "bid_qty" +:+ " " +:+ rjust 12 "bid" +:+ " | " +:+ ljust 12 "ask" +:+ " " +:+ ljust 12 "ask_qty") ::
    (book_line b s <$> seq 0 (Nat.max (Nat.max (length b) (length s)) 1)) ++
    traded_line fmt_float (book_stats (tape k) sicc) :: (trade_line <$> reverse (recent (tape k) (Some trades) (Some sicc)))) +:+ newline.

Lemma zsum_reverse l : zsum (reverse l) = zsum l.
Proof. induction l as [|z l IH]; [done|]. rewrite reverse_cons, zsum_app, IH. unfold zsum. cbn. lia. Qed.
Lemma zsum_qty_reverse l : zsum_qty (reverse l) = zsum_qty l.
Proof. unfold zsum_qty. by rewrite fmap_reverse, zsum_reverse. Qed.

Lemma render_book_screen fmt_float k a sicc depth trades : market_rep k a -> exists bids asks,
  render_book fmt_float k sicc depth trades = Ok (book_screen fmt_float k sicc depth trades bids asks) /\
  lists_levels Z.gt (level_qty (am_orders a) sicc true) bids /\ lists_levels Z.lt (level_qty (am_orders a) sicc false) asks.
Proof.
  intros Hk. destruct (book_levels k a sicc Hk) as (bids & asks & Eb & Ea & Hb & Ha). exists bids, asks. split; [|by split].
  unfold render_book, book_screen. destruct (books (mbooks k) !! sicc) as [b|] eqn:E.
  - unfold bid_levels, ask_levels in *. destruct (levels_ascending (b_bids b)) as [l|e]; [|done]. destruct (levels_ascending (b_asks b)) as [l'|e]; [|done].
    cbn [mbind res_bind cut_depth fmap res_fmap] in *. injection Eb as <-. injection Ea as <-. by rewrite zsum_qty_reverse.
  - injection Eb as <-. injection Ea as <-. cbn [mbind res_bind]. by rewrite !take_nil.
Qed.

(** The file as a source, as far as it decodes. *)
Lemma file_items fs path raws ended : read_file fs path = (raws, ended) ->
  _iter_file fs path = (imap (fun i raw => (Z.of_nat i + 1, raw)) raws, ended).
Proof. intros E. unfold _iter_file. by rewrite E. Qed.

Lemma imap_decodes (g : nat -> bytes -> Z) raws ms : Forall2 (fun raw m => Itch.decode raw = Ok m) raws ms ->
  Forall2 (fun (i : Z * bytes) m => Itch.decode i.2 = Ok m) (imap (fun i raw => (g i raw, raw)) raws) ms.
Proof. intros H. revert g. induction H as [|raw m raws ms Hr _ IH]; intros g; cbn; [constructor|]. constructor; [done|]. apply IH. Qed.

Lemma run_file_ok {C} fs path raws ms ended (c : C) : read_file fs path = (raws, ended) -> rmap Itch.decode raws = Ok ms -> forallb feed_ok ms = true ->
  exists k, run_source None fs (FileSource path) (c, market_init DEFAULT_MAX_ENTRIES) =
    ((c, k), match ended with Ok _ => Ok (zlen ms) | Raise e => Raise e end) /\ market_rep k (obj_run ms).
Proof.
  intros Hr Hd Hf. apply rmap_Ok_iff in Hd. unfold run_source. rewrite (file_items _ _ _ _ Hr).
  destruct (replay_market _ ended ms (imap_decodes (fun i _ => Z.of_nat i + 1) _ _ Hd) Hf 0 c _ am_init (market_init_rep DEFAULT_MAX_ENTRIES)) as (k & E & Hk).
  exists k. split; [|exact Hk]. rewrite E. unfold zlen. rewrite length_imap, (Forall2_length _ _ _ Hd). done.
Qed.

Lemma run_source_replay exn_text fs live a r on_message icb w w' x : source_mode a = Ok (Replay r) -> run_source on_message fs r w = (w', x) ->
  _run_source exn_text fs live a on_message icb w =
  match x with
  | Ok n => (w', Ok (Some (Replayed n), EXIT_OK))
  | Raise e =>
      let failed code := let '(w2, _) := write ("error: " +:+ exn_text e +:+ newline) w' in (w2, Ok (None, code)) in
      if decide (e = SourceError) then failed EXIT_USAGE else if is_OSError e || is_ValueError e then failed EXIT_SOURCE else (w', Raise e)
  end.
Proof.
  intros Hm E. unfold _run_source, run_any, mtry. munfold. rewrite Hm, E. destruct x as [n|e]; [done|].
  case_decide; [done|]. by destruct (is_OSError e || is_ValueError e).
Qed.

(** * Properties *)

(** C8. The book command on a data file.  When the file is well formed it prints one
    screen, the levels being the live orders' added up by price, best first, and exits
    with 0.  An error of the operating system is reported, with 3; any other, such as that
    of a truncated file, escapes. *)
Theorem book_command_exact fmt_float exn_text fs live a path raws ms ended tty sicc depth trades now :
  source_mode a = Ok (Replay (FileSource path)) -> read_file fs path = (raws, ended) -> rmap Itch.decode raws = Ok ms -> forallb feed_ok ms = true ->
  let '((screen, k), r) := main_book fmt_float exn_text fs live a tty sicc depth trades (start_view now) in
  market_rep k (obj_run ms) /\
  match ended with
  | Ok _ => r = Ok EXIT_OK /\ exists bids asks, sc_out screen = [book_screen fmt_float k sicc depth trades bids asks] /\
      lists_levels Z.gt (level_qty (am_orders (obj_run ms)) sicc true) bids /\ lists_levels Z.lt (level_qty (am_orders (obj_run ms)) sicc false) asks
  | Raise e =>
      e <> SourceError ->
      if is_OSError e || is_ValueError e then r = Ok EXIT_SOURCE /\ sc_out screen = ["error: " +:+ exn_text e +:+ newline]
      else r = Raise e /\ sc_out screen = []
  end.
Proof.
  intros Hm Hr Hd Hf. destruct (run_file_ok fs path raws ms ended (mkScreen [] [] now) Hr Hd Hf) as (k & E & Hk).
  unfold main_book. rewrite bind_run, (run_source_replay _ _ _ _ _ _ _ _ _ _ Hm E). destruct ended as [[]|e]; cbn beta iota.
  - destruct (render_book_screen fmt_float k _ sicc depth trades Hk) as (bids & asks & Et & Hb & Ha).
    unfold market_now, write. munfold. cbn [fst snd is_live negb EXIT_OK Z.eqb]. rewrite Et. cbn. split; [exact Hk|]. split; [done|]. by exists bids, asks.
  - case_decide as Hs; [subst; cbn; split; [exact Hk|by intros []]|]. destruct (is_OSError e || is_ValueError e) eqn:Ee; cbn; (split; [exact Hk|]); intros _; by rewrite ?Ee.
Qed.

Definition view_feed : list message := [
  OrderAdded 1 11 "B" 500 "7203" "DAY" 20000; OrderAdded 2 12 "B" 300 "7203" "DAY" 20010; OrderAdded 3 13 "S" 100 "7203" "DAY" 20050;
  OrderExecuted 4 11 200 901].
Definition view_raws : list bytes := (fun m => match encode_msg m with Ok d => d | Raise _ => [] end) <$> view_feed.
Definition view_files : files :=
  {[ "day.itch" := concat (frame16 <$> view_raws); "cut.itch" := removelast (concat (frame16 <$> view_raws)) ]}.
Definition view_args (path : str) : source_args := mkSourceArgs (Some path) None None None None None None None 1.
Definition view_live : source_args -> option message_cb -> option interval_cb -> M V source_result := fun _ _ _ => mraise OSError.

Lemma book_command_exact_witness :
  let main path := main_book (fun _ _ => "20000.0") (fun _ => "e") view_files view_live (view_args path) false "7203" 5 5 (start_view 0) in
  ((main "day.itch").1.1.(sc_out), (main "day.itch").2) =
    ([str_join newline ["book 7203  state=?  clock=00:00:00.000"; "spread=4.0  bid_qty_total=600  ask_qty_total=100";
        "     bid_qty          bid | ask          ask_qty     "; "         300       2001.0 | 2005.0       100"; "         300       2000.0 |";
        "traded: 1 fills, volume=200, vwap=20000.0, last=2000.0 x 200"; "  00:00:00.000      2000.0 x 200      match=901"; ""]], Ok 0) /\
  (main "cut.itch").2 = Raise ItchFileError /\ market_rep (main "cut.itch").1.2 (obj_run (take 3 view_feed)) /\
  ((main "no.itch").1.1.(sc_out), (main "no.itch").2) = (["error: e" +:+ newline], Ok 3).
Proof.
  intros main. split; [vm_compute; reflexivity|]. split; [vm_compute; reflexivity|]. split; [|vm_compute; reflexivity].
  pose proof (book_command_exact (fun _ _ => "20000.0") (fun _ => "e") view_files view_live (view_args "cut.itch") "cut.itch" (take 3 view_raws) (take 3 view_feed)
    (Raise ItchFileError) false "7203" 5 5 0 eq_refl) as H.
  assert (read_file view_files "cut.itch" = (take 3 view_raws, Raise ItchFileError)) as Er by (vm_compute; reflexivity).
  specialize (H Er ltac:(vm_compute; reflexivity) ltac:(vm_compute; reflexivity)). unfold main.
  destruct (main_book _ _ _ _ (view_args "cut.itch") _ _ _ _ _) as [[sc k] r]. exact (proj1 H).
Defined.
