(* ===== verification/StateDump.v ===== *)
(** tools/proto_state_dump.py: the canonical dump of the market after a data file.

    The rows of each CSV file are a list, of records or of lines; a file is written at
    once, from its rows. *)
From S2P Require Export Views.

#[global] Set Default Goal Selector "!".

(** [opt]: [None] is the empty text. *)
Definition opt (value : option str) : str := default "" value.
Definition opt_int (value : option Z) : str := default "" (py_str <$> value).

Definition csv_line (cells : list str) : str := str_join "," cells.

(** The loop over the file: the market, and the match number of each book's last
    execution. *)
Fixpoint dump_loop (raws : list bytes) (ended : res ()) : M (Market * gmap str Z) () :=
  match raws with
  | [] => mlift ended
  | raw :: raws =>
      msg ← mlift (Itch.decode raw);
      execution ← zoom fst (fun k w => (k, w.2)) (market_apply (OMsg msg));
      (match execution with
       | Some x => mmod (fun w => (w.1, <[ex_orderbook_id x := ex_match_number x]> w.2))
       | None => mret ()
       end) ;;
      dump_loop raws ended
  end.

Definition group_of (market : Market) (orderbook_id : str) : str :=
  match dget orderbook_id (instruments (refdata market)) with Some inst => opt (i_group inst) | None => "" end.

(** * refdata.csv *)

Definition refdata_header : str :=
  "orderbook_id,isin,group,round_lot,tick_table_id,price_decimals,upper_limit,lower_limit,trading_state,short_sell_state,reference_price,directory_missing".
Definition refdata_line (inst : Instrument) : str :=
  csv_line [i_orderbook_id inst; opt (i_isin inst); opt (i_group inst); opt_int (i_round_lot inst); opt_int (i_tick_table_id inst);
            opt_int (i_price_decimals inst); opt_int (i_upper_limit inst); opt_int (i_lower_limit inst); i_trading_state inst;
            i_short_sell_state inst; opt_int (i_reference_price inst); if i_directory_missing inst then "1" else "0"].
Definition refdata_lines (market : Market) : res (list str) :=
  let insts := instruments (refdata market) in
  rmap (fun oid => inst ← of_option KeyError (dget oid insts); Ok (refdata_line inst)) (merge_sort str_le (dkeys insts)).

(** * books.csv *)

(** The live orders by book, side and price, and by book and side. *)
Definition tick_up {K} `{Countable K} (k : K) (m : gmap K Z) : gmap K Z := <[k := default 0 (m !! k) + 1]> m.
Definition level_orders (os : list (Z * Order)) : gmap (str * str * Z) Z :=
  foldl (fun m o => tick_up (o_orderbook_id o, o_side o, o_price o) m) ∅ (dvalues os).
Definition side_orders (os : list (Z * Order)) : gmap (str * str) Z :=
  foldl (fun m o => tick_up (o_orderbook_id o, o_side o) m) ∅ (dvalues os).

Inductive book_row : Type :=
| BLevel (oid grp side : str) (price qty order_count : Z)
| BTotal (oid grp side : str) (qty order_count : Z).

Definition book_rows (market : Market) (oid : str) (book : Book) : res (list book_row) :=
  let os := orders (mbooks market) in
  let grp := group_of market oid in
  let level side (pq : Z * Z) := BLevel oid grp side pq.1 pq.2 (default 0 (level_orders os !! (oid, side, pq.1))) in
  let total side sl := BTotal oid grp side (side_total_qty sl) (default 0 (side_orders os !! (oid, side))) in
  bids ← bid_levels book None;
  asks ← ask_levels book None;
  Ok ((level "B" <$> bids) ++ (level "S" <$> asks) ++ [total "B" (b_bids book); total "S" (b_asks book)]).

Definition books_rows (market : Market) : res (list book_row) :=
  let bs := books (mbooks market) in
  l ← rmap (fun oid => book ← of_option KeyError (bs !! oid); book_rows market oid book)
         (merge_sort str_le (map_to_list bs).*1);
  Ok (concat l).

Definition books_header : str := "orderbook_id,group,kind,side,price,qty,order_count".
Definition book_row_line (r : book_row) : str :=
  match r with
  | BLevel oid grp side price qty n => csv_line [oid; grp; "level"; side; py_str price; py_str qty; py_str n]
  | BTotal oid grp side qty n => csv_line [oid; grp; "total"; side; ""; py_str qty; py_str n]
  end.

(** * orders.csv, trades.csv, stats.csv *)

Definition orders_header : str := "order_number,orderbook_id,group,side,price,remaining_qty".
Definition order_rows (market : Market) : res (list Order) :=
  let os := orders (mbooks market) in
  rmap (fun number => of_option KeyError (dget number os)) (merge_sort Z.le (dkeys os)).
Definition order_line (o : Order) : str :=
  csv_line [py_str (o_order_number o); o_orderbook_id o; o_group o; o_side o; py_str (o_price o); py_str (o_remaining_qty o)].

Definition trades_header : str := "orderbook_id,group,trade_count,cum_qty,cum_turnover,last_price,last_qty,last_match_number".
Definition trade_lines (market : Market) (last_match : gmap str Z) : res (list str) :=
  let st := stats (tape market) in
  rmap (fun oid => s ← of_option KeyError (st !! oid);
                   Ok (csv_line [oid; group_of market oid; py_str (bs_trade_count s); py_str (bs_volume s); py_str (bs_notional s);
                                 opt_int (bs_last_price s); opt_int (bs_last_qty s); opt_int (last_match !! oid)]))
    (merge_sort str_le (map_to_list st).*1).

Definition stats_rows (market : Market) : list (str * Z) :=
  let insts := instruments (refdata market) in
  let s := mbooks market in
  [("messages_applied", zsum (dvalues (message_counts market))); ("unknown", unknown_count market)] ++
  ((fun kv => ("msg_" +:+ kv.1, kv.2)) <$> sorted_items (message_counts market)) ++
  [("instruments", zlen insts); ("auto_created_books", zlen (filter (fun inst => i_directory_missing inst = true) (dvalues insts)));
   ("books", Z.of_nat (size (books s))); ("live_orders", zlen (orders s)); ("collisions", collisions s);
   ("orphan_executes", orphan_executes s); ("orphan_deletes", orphan_deletes s); ("orphan_replaces", orphan_replaces s);
   ("ref_price_ignored", ref_price_ignored s); ("execution_count", execution_count s); ("executed_volume", executed_volume s);
   ("trade_count", trade_count (tape market)); ("total_volume", total_volume (tape market))].

(** * The dump *)

Definition csv_path (outdir name : str) : str := path_join outdir name.
Definition csv_text (header : str) (lines : list str) : bytes := s2l (foldr (fun l t => l +:+ newline +:+ t) "" (header :: lines)).
Definition write_csv (outdir name header : str) (lines : list str) : M files () :=
  mmod (fun fs => <[csv_path outdir name := csv_text header lines]> fs).

Definition write_dump (outdir : str) (market : Market) (last_match : gmap str Z) : M files () :=
  refs ← mlift (refdata_lines market);
  write_csv outdir "refdata.csv" refdata_header refs ;;
  rows ← mlift (books_rows market);
  write_csv outdir "books.csv" books_header (book_row_line <$> rows) ;;
  os ← mlift (order_rows market);
  write_csv outdir "orders.csv" orders_header (order_line <$> os) ;;
  trades ← mlift (trade_lines market last_match);
  write_csv outdir "trades.csv" trades_header trades ;;
  write_csv outdir "stats.csv" "key,value" ((fun kv => csv_line [kv.1; py_str kv.2]) <$> stats_rows market).

Definition dump (itch_path outdir : str) : M files () := fun fs =>
  let '(raws, ended) := read_file fs itch_path in
  match dump_loop raws ended (market_init DEFAULT_MAX_ENTRIES, ∅) with
  | (_, Raise e) => (fs, Raise e)
  | ((market, last_match), Ok _) => write_dump outdir market last_match fs
  end.

(** * What the rows add up to *)

(** The orders of a book and side, and of one level of it. *)
Definition of_side (oid side : str) (l : list Order) : list Order := filter (fun o => o_orderbook_id o = oid /\ o_side o = side) l.
Definition of_level (oid side : str) (price : Z) (l : list Order) : list Order :=
  filter (fun o => o_orderbook_id o = oid /\ o_side o = side /\ o_price o = price) l.
Definition total_remaining (l : list Order) : Z := zsum (o_remaining_qty <$> l).

(** books.csv is what orders.csv adds up to: a level row for each price with a live
    order, with the sum and the number of its orders, and total rows per side. *)
Record adds_up (rows : list book_row) (os : list Order) : Prop := {
  au_level : forall oid grp side price qty n, BLevel oid grp side price qty n ∈ rows ->
    qty = total_remaining (of_level oid side price os) /\ n = zlen (of_level oid side price os) /\ 0 < n;
  au_total : forall oid grp side qty n, BTotal oid grp side qty n ∈ rows ->
    qty = total_remaining (of_side oid side os) /\ n = zlen (of_side oid side os);
  au_order : forall o, o ∈ os -> exists grp qty n qty' n',
    BLevel (o_orderbook_id o) grp (o_side o) (o_price o) qty n ∈ rows /\ BTotal (o_orderbook_id o) grp (o_side o) qty' n' ∈ rows }.

(** ** Counting with a dict *)

Lemma tick_up_count {A K} `{Countable K} (key : A -> K) l k : forall m,
  default 0 (foldl (fun m x => tick_up (key x) m) m l !! k) = default 0 (m !! k) + zlen (filter (fun x => key x = k) l).
Proof.
  induction l as [|x l IH]; intros m; cbn [foldl]; [unfold zlen; cbn; lia|]. rewrite IH. unfold tick_up. rewrite filter_cons.
  destruct (decide (key x = k)) as [<-|Hk]; [rewrite lookup_insert_eq|rewrite lookup_insert_ne by done]; unfold zlen; cbn; lia.
Qed.

Lemma level_orders_count os oid side p : default 0 (level_orders os !! (oid, side, p)) = zlen (of_level oid side p (dvalues os)).
Proof.
  unfold level_orders. rewrite (tick_up_count (fun o => (o_orderbook_id o, o_side o, o_price o))). rewrite lookup_empty, Z.add_0_l.
  unfold of_level. f_equal. apply list_filter_iff. intros o. naive_solver.
Qed.
Lemma side_orders_count os oid side : default 0 (side_orders os !! (oid, side)) = zlen (of_side oid side (dvalues os)).
Proof.
  unfold side_orders. rewrite (tick_up_count (fun o => (o_orderbook_id o, o_side o))). rewrite lookup_empty, Z.add_0_l.
  unfold of_side. f_equal. apply list_filter_iff. intros o. naive_solver.
Qed.

(** ** Levels and sums *)

Definition two_sided (o : Order) : Prop := o_side o = "B" \/ o_side o = "S".
Definition side_char (buy : bool) : str := if buy then "B" else "S".

Lemma two_sided_buy o buy : two_sided o -> is_buy (o_side o) = buy <-> o_side o = side_char buy.
Proof. unfold two_sided, is_buy. intros [->| ->]; destruct buy; vm_compute; split; done. Qed.

Lemma level_qty_remaining os oid buy p : Forall two_sided (dvalues os) ->
  level_qty os oid buy p = total_remaining (of_level oid (side_char buy) p (dvalues os)).
Proof.
  unfold level_qty, dsum, total_remaining, of_level. induction 1 as [|o l Ho Hl IH]; [done|].
  rewrite fmap_cons, filter_cons. change (zsum (?a :: ?b)) with (a + zsum b). rewrite IH. unfold contrib.
  pose proof (two_sided_buy o buy Ho) as Hs. case_decide as Hd.
  - destruct Hd as (H1 & H2 & H3). rewrite bool_decide_true, (proj2 Hs H2), Bool.eqb_reflx, H3, Z.eqb_refl by done. done.
  - destruct (bool_decide _ && _ && _) eqn:E; [|lia]. exfalso. apply Hd.
    apply andb_true_iff in E as [[E1%bool_decide_eq_true E2%Bool.eqb_prop]%andb_true_iff E3%Z.eqb_eq]. by rewrite <- Hs.
Qed.

Lemma zsum_cons a l : zsum (a :: l) = a + zsum l.
Proof. done. Qed.
Lemma zsum_map_add {A} (f g : A -> Z) l : zsum ((fun x => f x + g x) <$> l) = zsum (f <$> l) + zsum (g <$> l).
Proof. induction l as [|x l IH]; [done|]. rewrite !fmap_cons, !zsum_cons, IH. lia. Qed.
Lemma zsum_map_zero {A} (f : A -> Z) l : (forall x, x ∈ l -> f x = 0) -> zsum (f <$> l) = 0.
Proof.
  induction l as [|x l IH]; intros Hf; [done|]. rewrite fmap_cons, zsum_cons, IH; [rewrite Hf; [done|left]|intros y Hy; apply Hf; by right].
Qed.
Lemma zsum_pick {K} `{EqDecision K} (x : K) v (l : list K) : NoDup l -> x ∈ l -> zsum ((fun p => if decide (x = p) then v else 0) <$> l) = v.
Proof.
  induction 1 as [|p l Hn Hd IH]; intros Hx; [by apply not_elem_of_nil in Hx|]. rewrite fmap_cons, zsum_cons.
  apply elem_of_cons in Hx as [<-|Hx].
  - rewrite decide_True, zsum_map_zero by (done || intros p Hp; rewrite decide_False by (intros ->; done); done). lia.
  - rewrite decide_False by (intros ->; done). by rewrite IH.
Qed.

Lemma of_level_cons oid side p o l : total_remaining (of_level oid side p (o :: l)) =
  (if decide (o_orderbook_id o = oid /\ o_side o = side) then if decide (o_price o = p) then o_remaining_qty o else 0 else 0) +
  total_remaining (of_level oid side p l).
Proof. unfold of_level. rewrite filter_cons. repeat case_decide; try naive_solver; unfold total_remaining; rewrite ?fmap_cons, ?zsum_cons; done. Qed.

(** The levels of a side, summed, are its orders, summed. *)
Lemma zsum_levels (ps : list Z) (l : list Order) oid side : NoDup ps ->
  (forall o, o ∈ of_side oid side l -> o_price o ∈ ps) ->
  zsum ((fun p => total_remaining (of_level oid side p l)) <$> ps) = total_remaining (of_side oid side l).
Proof.
  intros Hnd. induction l as [|o l IH]; intros Hp; [by apply zsum_map_zero|].
  rewrite (list_fmap_ext _ _ ps (fun i p _ => of_level_cons oid side p o l)), zsum_map_add, IH.
  2: { intros o' Ho'. apply Hp. unfold of_side in *. rewrite filter_cons. case_decide; [by right|done]. }
  unfold of_side at 2. rewrite filter_cons. fold (of_side oid side l). case_decide as Hd; [|by rewrite zsum_map_zero].
  unfold total_remaining at 2. rewrite fmap_cons, zsum_cons, zsum_pick; [done..|]. apply Hp. unfold of_side. rewrite filter_cons, decide_True by done. left.
Qed.

Lemma zsum_perm l l' : l ≡ₚ l' -> zsum l = zsum l'.
Proof. induction 1; rewrite ?zsum_cons; lia. Qed.

Lemma levels_nodup R f l : (forall p, ~ R p p) -> lists_levels R f l -> NoDup l.*1.
Proof.
  intros Hirr [Hs _]. induction Hs as [|p ps Hs IH Hp]; constructor; [|done]. intros Hin.
  rewrite Forall_forall in Hp. exact (Hirr p (Hp p Hin)).
Qed.

Lemma side_total_rep sl f l : side_rep sl f -> lists_levels Z.lt f l -> side_total_qty sl = zsum l.*2.
Proof.
  intros Hr Hl. unfold side_total_qty. rewrite map_fold_foldr. transitivity (zsum (map_to_list (sl_qty sl)).*2).
  { induction (map_to_list (sl_qty sl)) as [|[p q] m IH]; [done|]. cbn [foldr uncurry fmap list_fmap]. by rewrite zsum_cons, <- IH. }
  apply zsum_perm, fmap_Permutation, NoDup_Permutation.
  - apply NoDup_map_to_list.
  - apply (NoDup_fmap_1 fst). eapply levels_nodup; [|exact Hl]. lia.
  - intros [p q]. rewrite elem_of_map_to_list. destruct Hl as [_ Hl]. rewrite Hl, (sr_qty _ _ Hr).
    destruct (Z.eqb_spec (f p) 0) as [E|E]; split; try done; [naive_solver lia|naive_solver|naive_solver].
Qed.

(** A level list of a side, against the live orders. *)
Lemma levels_of_orders os oid buy l : Forall two_sided (dvalues os) ->
  Forall (fun o => 0 < o_remaining_qty o) (dvalues os) -> lists_levels Z.lt (level_qty os oid buy) l ->
  l = (fun p => (p, total_remaining (of_level oid (side_char buy) p (dvalues os)))) <$> l.*1 /\
  (forall p, p ∈ l.*1 <-> of_level oid (side_char buy) p (dvalues os) <> []) /\
  zsum l.*2 = total_remaining (of_side oid (side_char buy) (dvalues os)).
Proof.
  intros Hs Hpos Hl. pose proof (levels_nodup Z.lt _ l ltac:(lia) Hl) as Hnd. destruct Hl as [_ Hl].
  assert (forall p q, (p, q) ∈ l -> q = total_remaining (of_level oid (side_char buy) p (dvalues os))) as Hq.
  { intros p q [<- _]%Hl. by apply level_qty_remaining. }
  assert (l = (fun p => (p, total_remaining (of_level oid (side_char buy) p (dvalues os)))) <$> l.*1) as El.
  { rewrite <- list_fmap_compose. clear - Hq. induction l as [|[p q] l IH]; [done|]. cbn. f_equal.
    - f_equal. apply Hq. left.
    - apply IH. intros p' q' Hin. apply Hq. by right. }
  assert (forall p, p ∈ l.*1 <-> of_level oid (side_char buy) p (dvalues os) <> []) as Hin.
  { intros p. transitivity (level_qty os oid buy p <> 0).
    - rewrite list_elem_of_fmap. split; [intros ([p' q] & -> & [<- Hne]%Hl); done|].
      intros Hne. exists (p, level_qty os oid buy p). split; [done|]. by apply Hl.
    - rewrite level_qty_remaining by done. unfold of_level.
      assert (Forall (fun o => 0 < o_remaining_qty o) (of_level oid (side_char buy) p (dvalues os))) as Hp.
      { apply Forall_forall. intros o Ho. unfold of_level in Ho. apply list_elem_of_filter in Ho as [_ Ho]. rewrite Forall_forall in Hpos. by apply Hpos. }
      fold (of_level oid (side_char buy) p (dvalues os)). destruct Hp as [|o os' Ho Hp]; [done|]. split; [done|intros _].
      unfold total_remaining. rewrite fmap_cons, zsum_cons.
      assert (0 <= zsum (o_remaining_qty <$> os')); [|lia]. clear - Hp. induction Hp as [|o os Ho Hp IH]; [done|]. rewrite fmap_cons, zsum_cons. lia. }
  split_and!; [done|done|]. rewrite El at 1. rewrite <- list_fmap_compose. unfold compose. cbn [snd]. apply zsum_levels; [done|].
  intros o Ho. apply Hin. unfold of_side in Ho. apply list_elem_of_filter in Ho as [[H1 H2] Ho]. intros E.
  assert (o ∈ of_level oid (side_char buy) (o_price o) (dvalues os)) as Hbad by by apply list_elem_of_filter.
  rewrite E in Hbad. by apply not_elem_of_nil in Hbad.
Qed.

(** A row that agrees with the orders. *)
Definition row_sound (os : list Order) (r : book_row) : Prop :=
  match r with
  | BLevel oid _ side p qty n => qty = total_remaining (of_level oid side p os) /\ n = zlen (of_level oid side p os) /\ 0 < n
  | BTotal oid _ side qty n => qty = total_remaining (of_side oid side os) /\ n = zlen (of_side oid side os)
  end.

(** What the live orders of a market must be for the rows to agree with them. *)
Record dumpable (k : Market) : Prop := {
  db_store : store_inv (mbooks k);
  db_sides : Forall two_sided (dvalues (orders (mbooks k))) }.

Lemma dumpable_positive k : dumpable k -> Forall (fun o => 0 < o_remaining_qty o) (dvalues (orders (mbooks k))).
Proof.
  intros [[Hnd Ho _] _]. apply Forall_forall. intros o ([n o'] & -> & Hin)%list_elem_of_fmap. by apply (Ho n), elem_dget.
Qed.

Lemma level_row_sound k oid grp buy l : dumpable k -> lists_levels Z.lt (level_qty (orders (mbooks k)) oid buy) l ->
  let os := orders (mbooks k) in
  let level (pq : Z * Z) := BLevel oid grp (side_char buy) pq.1 pq.2 (default 0 (level_orders os !! (oid, side_char buy, pq.1))) in
  Forall (row_sound (dvalues os)) (level <$> l) /\
  forall o, o ∈ dvalues os -> o_orderbook_id o = oid -> o_side o = side_char buy ->
    exists qty n, BLevel oid grp (side_char buy) (o_price o) qty n ∈ (level <$> l).
Proof.
  intros Hk Hl os level. destruct (levels_of_orders os oid buy l (db_sides k Hk) (dumpable_positive k Hk) Hl) as (El & Hin & _).
  split.
  - apply Forall_forall. intros r (pq & -> & Hpq)%list_elem_of_fmap. unfold level. cbn [row_sound].
    rewrite level_orders_count. assert (pq.1 ∈ l.*1) as Hp by (apply list_elem_of_fmap; by exists pq).
    rewrite El in Hpq. apply list_elem_of_fmap in Hpq as (p & -> & _). cbn [fst snd] in *. split_and!; [done..|].
    apply Hin in Hp. destruct (of_level oid (side_char buy) p (dvalues os)); [done|]. unfold zlen. cbn. lia.
  - intros o Ho Hoid Hside. assert (o_price o ∈ l.*1) as Hp.
    { apply Hin. intros E. assert (o ∈ of_level oid (side_char buy) (o_price o) (dvalues os)) as Hbad by by apply list_elem_of_filter.
      rewrite E in Hbad. by apply not_elem_of_nil in Hbad. }
    apply list_elem_of_fmap in Hp as (pq & Ep & Hpq). eexists _, _. apply list_elem_of_fmap. exists pq. split; [|done].
    unfold level. rewrite Ep. reflexivity.
Qed.

Lemma book_rows_ok k oid b : dumpable k -> books (mbooks k) !! oid = Some b ->
  exists rows, book_rows k oid b = Ok rows /\ Forall (row_sound (dvalues (orders (mbooks k)))) rows /\
    forall o, o ∈ dvalues (orders (mbooks k)) -> o_orderbook_id o = oid -> exists grp qty n qty' n',
      BLevel oid grp (o_side o) (o_price o) qty n ∈ rows /\ BTotal oid grp (o_side o) qty' n' ∈ rows.
Proof.
  intros Hk Hb. set (os := orders (mbooks k)). pose proof (si_books _ (db_store k Hk) oid) as Hrep. rewrite Hb in Hrep. destruct Hrep as [_ Hrep].
  destruct (levels_ascending_rep _ _ (Hrep true)) as (lb & Eb & Hlb). destruct (levels_ascending_rep _ _ (Hrep false)) as (la & Ea & Hla).
  destruct (level_row_sound k oid (group_of k oid) true lb Hk Hlb) as [Sb Ib].
  destruct (level_row_sound k oid (group_of k oid) false la Hk Hla) as [Sa Ia].
  destruct (levels_of_orders os oid true lb (db_sides k Hk) (dumpable_positive k Hk) Hlb) as (_ & _ & Tb).
  destruct (levels_of_orders os oid false la (db_sides k Hk) (dumpable_positive k Hk) Hla) as (_ & _ & Ta).
  unfold book_rows, bid_levels, ask_levels. cbn [book_side] in Eb, Ea. rewrite Eb, Ea. cbn [mbind res_bind cut_depth].
  eexists. split; [reflexivity|]. rewrite fmap_reverse. cbn [side_char] in *. split.
  - apply Forall_app. split; [by apply Forall_reverse|]. apply Forall_app. split; [done|].
    repeat constructor; cbn [row_sound]; rewrite ?side_orders_count; try done.
    + by rewrite (side_total_rep (b_bids b) _ lb (Hrep true) Hlb).
    + by rewrite (side_total_rep (b_asks b) _ la (Hrep false) Hla).
  - intros o Ho Hoid. pose proof (db_sides k Hk) as Hs. rewrite Forall_forall in Hs. exists (group_of k oid).
    destruct (Hs o Ho) as [E|E]; rewrite E.
    + destruct (Ib o Ho Hoid E) as (q & n & Hin). exists q, n. eexists _, _. rewrite !elem_of_app, elem_of_reverse. split; [by left|].
      do 2 right. left.
    + destruct (Ia o Ho Hoid E) as (q & n & Hin). exists q, n. eexists _, _. rewrite !elem_of_app. split; [right; by left|].
      do 2 right. right. left.
Qed.

(** ** The files *)

Lemma rmap_forall2 {A B} (f : A -> res B) (P : A -> B -> Prop) l : (forall x, x ∈ l -> exists y, f x = Ok y /\ P x y) ->
  exists ys, rmap f l = Ok ys /\ Forall2 P l ys.
Proof.
  induction l as [|x l IH]; intros Hf; [by exists []|]. destruct (Hf x) as (y & Ey & Hy); [left|].
  destruct IH as (ys & E & HP); [intros z Hz; apply Hf; by right|]. exists (y :: ys). cbn [rmap]. rewrite Ey. cbn. rewrite E. split; [done|by constructor].
Qed.

Lemma dget_key {K V} `{EqDecision K} (k : K) (d : list (K * V)) : k ∈ dkeys d -> exists v, dget k d = Some v.
Proof. intros Hk. destruct (dget k d) as [v|] eqn:E; [by exists v|]. by apply dget_None in E. Qed.

Lemma refdata_lines_ok k : exists lines, refdata_lines k = Ok lines /\ length lines = length (instruments (refdata k)).
Proof.
  unfold refdata_lines. destruct (rmap_forall2 (fun oid => inst ← of_option KeyError (dget oid (instruments (refdata k))); Ok (refdata_line inst))
    (fun _ _ => True) (merge_sort str_le (dkeys (instruments (refdata k))))) as (lines & E & Hl).
  - intros oid Hin. rewrite merge_sort_Permutation in Hin. destruct (dget_key _ _ Hin) as [inst ->]. by eexists.
  - exists lines. split; [exact E|]. rewrite <- (Forall2_length _ _ _ Hl), merge_sort_Permutation. unfold dkeys. by rewrite length_fmap.
Qed.

Lemma trade_lines_ok k last : exists lines, trade_lines k last = Ok lines.
Proof.
  unfold trade_lines. destruct (rmap_forall2 (fun oid => s ← of_option KeyError (stats (tape k) !! oid);
      Ok (csv_line [oid; group_of k oid; py_str (bs_trade_count s); py_str (bs_volume s); py_str (bs_notional s);
                    opt_int (bs_last_price s); opt_int (bs_last_qty s); opt_int (last !! oid)])) (fun _ _ => True)
    (merge_sort str_le (map_to_list (stats (tape k))).*1)) as (lines & E & _); [|by exists lines].
  intros oid Hin. rewrite merge_sort_Permutation in Hin. apply list_elem_of_fmap in Hin as ([oid' s] & -> & Hin).
  apply elem_of_map_to_list in Hin. cbn. rewrite Hin. by eexists.
Qed.

Lemma order_rows_ok k : NoDup (dkeys (orders (mbooks k))) ->
  exists os, order_rows k = Ok os /\ os ≡ₚ dvalues (orders (mbooks k)) /\ Forall2 (fun n o => dget n (orders (mbooks k)) = Some o) (merge_sort Z.le (dkeys (orders (mbooks k)))) os.
Proof.
  intros Hnd. unfold order_rows. set (d := orders (mbooks k)) in *.
  destruct (rmap_forall2 (fun number => of_option KeyError (dget number d)) (fun n o => dget n d = Some o) (merge_sort Z.le (dkeys d))) as (os & E & Hos).
  - intros n Hin. rewrite merge_sort_Permutation in Hin. destruct (dget_key _ _ Hin) as [o Ho]. rewrite Ho. by eexists.
  - exists os. split; [done|]. split; [|done]. set (get n := default (mkOrder 0 "" "" "" 0 0) (dget n d)).
    assert (os = get <$> merge_sort Z.le (dkeys d)) as ->.
    { clear - Hos. induction Hos as [|n o ns os Ho Hos IH]; [done|]. cbn. unfold get at 1. by rewrite Ho, IH. }
    assert (dvalues d = get <$> dkeys d) as ->; [|by rewrite merge_sort_Permutation].
    unfold dvalues, dkeys. rewrite <- list_fmap_compose. apply list_fmap_ext. intros i [n o] Hi. cbn. unfold get.
    apply list_elem_of_lookup_2 in Hi. by rewrite (elem_dget n o d Hnd Hi).
Qed.

Lemma books_rows_ok k : dumpable k -> exists rows, books_rows k = Ok rows /\ adds_up rows (dvalues (orders (mbooks k))).
Proof.
  intros Hk. unfold books_rows. set (bs := books (mbooks k)). set (os := dvalues (orders (mbooks k))).
  set (P oid rows := Forall (row_sound os) rows /\ forall o, o ∈ os -> o_orderbook_id o = oid -> exists grp qty n qty' n',
      BLevel oid grp (o_side o) (o_price o) qty n ∈ rows /\ BTotal oid grp (o_side o) qty' n' ∈ rows).
  destruct (rmap_forall2 (fun oid => book ← of_option KeyError (bs !! oid); book_rows k oid book) P (merge_sort str_le (map_to_list bs).*1)) as (l & E & Hl).
  { intros oid Hin. rewrite merge_sort_Permutation in Hin. apply list_elem_of_fmap in Hin as ([oid' b] & -> & Hin).
    apply elem_of_map_to_list in Hin. cbn [fst]. rewrite Hin. destruct (book_rows_ok k oid' b Hk Hin) as (rows & Er & H1 & H2).
    exists rows. by split. }
  rewrite E. cbn. eexists. split; [reflexivity|].
  assert (forall r, r ∈ concat l -> row_sound os r) as Hsound.
  { intros r Hr. apply list_elem_of_In, in_concat in Hr as (rows & H1 & H2). apply list_elem_of_In in H1, H2.
    apply list_elem_of_lookup_1 in H1 as [i Hi]. destruct (Forall2_lookup_r _ _ _ _ _ Hl Hi) as (oid & _ & Hp & _). rewrite Forall_forall in Hp. by apply Hp. }
  split.
  - intros oid grp side p qty n Hr. exact (Hsound _ Hr).
  - intros oid grp side qty n Hr. exact (Hsound _ Hr).
  - intros o Ho. assert (exists b, bs !! o_orderbook_id o = Some b) as [b Hb].
    { destruct (bs !! o_orderbook_id o) as [b|] eqn:Eb; [by exists b|]. exfalso.
      pose proof (si_books _ (db_store k Hk) (o_orderbook_id o)) as Hn. fold bs in Hn. rewrite Eb in Hn.
      apply list_elem_of_fmap in Ho as ([n o'] & -> & Hin). cbn in Hn. destruct (db_store k Hk) as [Hnd Hok _].
      pose proof (elem_dget n o' _ Hnd Hin) as Hd. destruct (Hok n o' Hd) as [_ Hpos].
      pose proof (level_qty_ge _ (fun k o E => proj2 (Hok k o E)) n o' Hnd Hd) as Hge. rewrite Hn in Hge. lia. }
    assert (o_orderbook_id o ∈ merge_sort str_le (map_to_list bs).*1) as Hkey.
    { rewrite merge_sort_Permutation. apply list_elem_of_fmap. exists (o_orderbook_id o, b). split; [done|]. by apply elem_of_map_to_list. }
    apply list_elem_of_lookup_1 in Hkey as [i Hi]. destruct (Forall2_lookup_l _ _ _ _ _ Hl Hi) as (rows & Hrows & _ & Hin).
    destruct (Hin o Ho eq_refl) as (grp & q & n & q' & n' & H1 & H2). exists grp, q, n, q', n'.
    apply list_elem_of_lookup_2 in Hrows. split; apply list_elem_of_In, in_concat; exists rows; split; by apply list_elem_of_In.
Qed.

Lemma adds_up_perm rows os os' : os ≡ₚ os' -> adds_up rows os -> adds_up rows os'.
Proof.
  intros Hp [H1 H2 H3].
  assert (forall oid side p, of_level oid side p os ≡ₚ of_level oid side p os') as Hl by (intros; unfold of_level; by rewrite Hp).
  assert (forall oid side, of_side oid side os ≡ₚ of_side oid side os') as Hs by (intros; unfold of_side; by rewrite Hp).
  assert (forall l l' : list Order, l ≡ₚ l' -> total_remaining l = total_remaining l' /\ zlen l = zlen l') as Ht.
  { intros l l' Hll. split; [unfold total_remaining; apply zsum_perm; by rewrite Hll|unfold zlen; by rewrite Hll]. }
  split.
  - intros oid grp side p qty n Hr. destruct (Ht _ _ (Hl oid side p)) as [<- <-]. by eapply H1.
  - intros oid grp side qty n Hr. destruct (Ht _ _ (Hs oid side)) as [<- <-]. by eapply H2.
  - intros o Ho. apply H3. by rewrite Hp.
Qed.

(** ** The replay *)

Definition sides_ok (m : message) : bool :=
  match m with
  | OrderAdded _ n side _ _ _ _ | OrderAddedWithAttributes _ n side _ _ _ _ _ _ => (n =? 0) || bool_decide (side = "B") || bool_decide (side = "S")
  | _ => true
  end.

Lemma sides_two n side : (n =? 0) || bool_decide (side = "B") || bool_decide (side = "S") = true -> n <> 0 -> side = "B" \/ side = "S".
Proof.
  intros [[H|H%bool_decide_eq_true]%orb_true_iff|H%bool_decide_eq_true]%orb_true_iff Hn; [|by left|by right]. by apply Z.eqb_eq in H.
Qed.

Lemma dremove_two (n : Z) os : Forall two_sided (dvalues os) -> Forall two_sided (dvalues (dremove n os)).
Proof.
  rewrite !Forall_forall. intros Hs o ([k o'] & -> & Hin)%list_elem_of_fmap. apply Hs. apply list_elem_of_fmap. exists (k, o').
  split; [done|]. by eapply dremove_elem.
Qed.

Lemma spec_orders_two m os : sides_ok m = true -> Forall two_sided (dvalues os) -> Forall two_sided (dvalues (spec_orders m os)).
Proof.
  intros Hm Hs. assert (forall n o, two_sided o -> Forall two_sided (dvalues (spec_put n o os))) as Hput.
  { intros n o Ho. unfold spec_put, dvalues. rewrite fmap_app. apply Forall_app. split; [by apply dremove_two|by apply Forall_singleton]. }
  assert (forall n o, dget n os = Some o -> two_sided o) as Hget.
  { intros n o Ho. rewrite Forall_forall in Hs. apply Hs. by eapply dvalues_elem. }
  destruct m as [| | | | | |ns n side qty oid grp price|ns n side qty oid grp price at_ ot|ns n q mn|ns n|ns orig new qty price|]; cbn [spec_orders sides_ok] in *; try done.
  - pose proof (sides_two n side Hm) as Hn. destruct (Z.eqb_spec n 0) as [|Hne]; [done|]. by apply Hput, Hn.
  - pose proof (sides_two n side Hm) as Hn. destruct (Z.eqb_spec n 0) as [|Hne]; [done|]. by apply Hput, Hn.
  - destruct (dget n os) as [o|] eqn:Eo; [|done]. destruct (_ <=? _); [by apply dremove_two|].
    apply Forall_forall. intros o' ([k x] & -> & [Hx|Hx]%dset_elem)%list_elem_of_fmap; [|].
    + injection Hx as -> ->. exact (Hget n o Eo).
    + rewrite Forall_forall in Hs. apply Hs. apply list_elem_of_fmap. by exists (k, x).
  - by apply dremove_two.
  - destruct (dget orig os) as [o|] eqn:Eo; [|done]. unfold spec_put, dvalues. rewrite fmap_app. apply Forall_app.
    split; [by apply dremove_two, dremove_two|]. apply Forall_singleton. exact (Hget orig o Eo).
Qed.

Definition last_matches (calls : list call) : gmap str Z :=
  foldl (fun m (c : call) => <[ex_orderbook_id c.1.1 := ex_match_number c.1.1]> m) ∅ calls.

Lemma dump_loop_run raws ms k a : rmap Itch.decode raws = Ok ms -> forallb feed_ok ms = true -> forallb sides_ok ms = true ->
  market_rep k a -> Forall two_sided (dvalues (am_orders a)) ->
  let a' := foldl am_step a (OMsg <$> ms) in
  exists k', dump_loop raws (Ok ()) (k, last_matches (am_calls a)) = ((k', last_matches (am_calls a')), Ok ()) /\
    market_run (OMsg <$> ms) k = (k', Ok ()) /\ market_rep k' a' /\ Forall two_sided (dvalues (am_orders a')).
Proof.
  intros Hd. apply rmap_Ok_iff in Hd. revert k a. induction Hd as [|raw m raws ms Hm Hd IH]; intros k a Hf Hsd Hr Hs; [by exists k|].
  cbn [forallb] in Hf, Hsd. apply andb_true_iff in Hf as [Hf Hfs], Hsd as [Hsd Hsds].
  destruct (market_apply_rep k a (OMsg m) Hr Hf) as (k1 & E1 & Hr1).
  destruct (IH k1 (am_step a (OMsg m)) Hfs Hsds Hr1 (spec_orders_two m (am_orders a) Hsd Hs)) as (k' & E2 & E3 & H4).
  exists k'. cbn [fmap list_fmap foldl]. split_and!; [|unfold market_run in *; cbn [mfor]; rewrite bind_run, bind_run, E1; exact E3|apply H4|apply H4].
  rewrite <- E2. cbn [dump_loop]. rewrite bind_run. unfold mlift at 1. rewrite Hm, bind_run. unfold zoom. cbn [fst snd]. rewrite E1. rewrite bind_run.
  assert (last_matches (am_calls (am_step a (OMsg m))) = match spec_execution m (am_orders a) with
    | Some x => <[ex_orderbook_id x := ex_match_number x]> (last_matches (am_calls a)) | None => last_matches (am_calls a) end) as ->.
  { cbn [am_step am_calls]. unfold last_matches, am_call. rewrite foldl_app. destruct m; try done. by destruct (spec_execution _ _). }
  by destruct (spec_execution m (am_orders a)).
Qed.


Lemma csv_path_ne outdir a b : a <> b -> csv_path outdir a <> csv_path outdir b.
Proof. apply path_join_same. Qed.

Lemma write_dump_ok outdir k last fs : dumpable k ->
  exists fs' rows os, write_dump outdir k last fs = (fs', Ok ()) /\ adds_up rows os /\ os ≡ₚ dvalues (orders (mbooks k)) /\
    order_rows k = Ok os /\ books_rows k = Ok rows /\
    fs' !! csv_path outdir "books.csv" = Some (csv_text books_header (book_row_line <$> rows)) /\
    fs' !! csv_path outdir "orders.csv" = Some (csv_text orders_header (order_line <$> os)).
Proof.
  intros Hk. destruct (refdata_lines_ok k) as (refs & Er & _). destruct (books_rows_ok k Hk) as (rows & Eb & Ha).
  destruct (order_rows_ok k (si_nodup _ (db_store k Hk))) as (os & Eo & Hp & _). destruct (trade_lines_ok k last) as (trades & Et).
  eexists _, rows, os. unfold write_dump, mlift. rewrite bind_run, Er, bind_run. unfold write_csv at 1, mmod. rewrite bind_run, Eb, bind_run.
  unfold write_csv at 1, mmod. rewrite bind_run, Eo, bind_run. unfold write_csv at 1, mmod. rewrite bind_run, Et, bind_run.
  unfold write_csv, mmod. split; [reflexivity|]. split; [by eapply adds_up_perm|]. split_and!; [done|done|done| |].
  - rewrite !(lookup_insert_ne _ _ (csv_path outdir "books.csv")) by by apply csv_path_ne. by rewrite lookup_insert_eq.
  - rewrite !(lookup_insert_ne _ _ (csv_path outdir "orders.csv")) by by apply csv_path_ne. by rewrite lookup_insert_eq.
Qed.

(** * Properties *)

(** C9. The dump of a data file whose messages decode, have positive quantities and one of
    the sides B and S, succeeds, and its files agree: the orders are those of the abstract
    market, sorted by number, and the books are what the orders add up to, level by level
    and side by side. *)
Theorem dump_adds_up fs path outdir raws ms : read_file fs path = (raws, Ok ()) -> rmap Itch.decode raws = Ok ms ->
  forallb feed_ok ms = true -> forallb sides_ok ms = true ->
  exists fs' rows os, dump path outdir fs = (fs', Ok ()) /\
    fs' !! csv_path outdir "books.csv" = Some (csv_text books_header (book_row_line <$> rows)) /\
    fs' !! csv_path outdir "orders.csv" = Some (csv_text orders_header (order_line <$> os)) /\
    adds_up rows os /\ os ≡ₚ dvalues (am_orders (obj_run ms)) /\ Sorted Z.le (o_order_number <$> os).
Proof.
  intros Hr Hd Hf Hs. unfold dump. rewrite Hr.
  destruct (dump_loop_run raws ms (market_init DEFAULT_MAX_ENTRIES) am_init Hd Hf Hs (market_init_rep _) (Forall_nil_2 _)) as (k & E & _ & Hk & Hsd).
  change (last_matches (am_calls am_init)) with (∅ : gmap str Z) in E. rewrite E.
  assert (dumpable k) as Hdb by (split; [apply Hk|]; by rewrite (mr_orders _ _ Hk)).
  destruct (write_dump_ok outdir k (last_matches (am_calls (obj_run ms))) fs Hdb) as (fs' & rows & os & Ew & Ha & Hp & Eo & _ & H1 & H2).
  exists fs', rows, os. split_and!; [exact Ew|done|done|done|by rewrite Hp, (mr_orders _ _ Hk)|].
  destruct (order_rows_ok k (si_nodup _ (db_store k Hdb))) as (os' & Eo' & _ & Hall). rewrite Eo in Eo'. injection Eo' as <-.
  assert (o_order_number <$> os = merge_sort Z.le (dkeys (orders (mbooks k)))) as ->; [|apply Sorted_merge_sort; intros x y; lia].
  clear - Hall Hdb. induction Hall as [|n o ns os Ho Hall IH]; [done|]. rewrite fmap_cons, IH. f_equal. by apply (si_order _ (db_store k Hdb)).
Qed.

Definition dump_raws : list bytes := (fun m => match encode_msg m with Ok d => d | Raise _ => [] end) <$> demo_feed.
Definition dump_files : files := {[ "day.itch" := concat (frame16 <$> dump_raws) ]}.

Lemma dump_adds_up_witness :
  l2s <$> (dump "day.itch" "out" dump_files).1 !! "out/books.csv" = Some (str_join newline [
    books_header; "7203,,level,B,20010,500,2"; "7203,,level,B,20000,300,1"; "7203,,total,B,,800,3"; "7203,,total,S,,0,0"; ""]) /\
  exists fs' rows os, dump "day.itch" "out" dump_files = (fs', Ok ()) /\ adds_up rows os /\ os ≡ₚ dvalues (am_orders (obj_run demo_feed)).
Proof.
  split; [vm_compute; reflexivity|].
  destruct (dump_adds_up dump_files "day.itch" "out" dump_raws demo_feed) as (fs' & rows & os & E & _ & _ & Ha & Hp & _);
    [vm_compute; reflexivity..|].
  exists fs', rows, os. split; [exact E|]. split; [exact Ha|exact Hp].
Defined.
