(* ===== verification/Spy.v ===== *)
(** tools/mcast_spy.py: joining the multicast group and counting what it carries.

    A turn of the loop is the clock before it and what [recv] gives, with the clock
    after a datagram; times are milliseconds.  The socket set-up and the command line
    are not modelled; the summary and the lines are the text printed. *)
From S2P Require Export WebState Views.

#[global] Set Default Goal Selector "!".

Definition spy_price (raw : Z) : str := if raw =? 0 then "-" else py_str (raw / 10) +:+ "." +:+ py_str (raw mod 10).

Definition _ENVELOPE : list code := [U 2; U 1; Cx; U 2; U 2; U 8; U 8].

Record spy_args : Type := mkSpyArgs { sa_stats : bool; sa_until_idle : option Z; sa_max_wait : Z }.

(** The local variables of [main], and the lines printed. *)
Record Spy : Type := mkSpy {
  sp_updates : Z; sp_gaps : Z; sp_bad : Z; sp_epochs : gset Z; sp_first : option Z; sp_last : option Z;
  sp_expected : option Z; sp_cur_epoch : option Z; sp_last_rx : option Z; sp_out : list str }.
Definition spy_init : Spy := mkSpy 0 0 0 ∅ None None None None None [].

Definition spy_bad (s : Spy) : Spy :=
  mkSpy (sp_updates s) (sp_gaps s) (sp_bad s + 1) (sp_epochs s) (sp_first s) (sp_last s) (sp_expected s) (sp_cur_epoch s)
    (sp_last_rx s) (sp_out s).
Definition spy_rx (now : Z) (s : Spy) : Spy :=
  mkSpy (sp_updates s) (sp_gaps s) (sp_bad s) (sp_epochs s) (sp_first s) (sp_last s) (sp_expected s) (sp_cur_epoch s)
    (Some now) (sp_out s).
Definition spy_print (line : str) (s : Spy) : Spy :=
  mkSpy (sp_updates s) (sp_gaps s) (sp_bad s) (sp_epochs s) (sp_first s) (sp_last s) (sp_expected s) (sp_cur_epoch s)
    (sp_last_rx s) (sp_out s ++ [line]).

(** The counting of one update. *)
Definition spy_count (epoch seq : Z) (s : Spy) : Spy :=
  let gap := if decide (sp_cur_epoch s = Some epoch)
             then match sp_expected s with Some e => if e <? seq then seq - e else 0 | None => 0 end else 0 in
  mkSpy (sp_updates s + 1) (sp_gaps s + gap) (sp_bad s) (sp_epochs s ∪ {[epoch]})
    (Some (default seq (sp_first s))) (Some seq) (Some (seq + 1)) (Some epoch) (sp_last_rx s) (sp_out s).

(** The fast path of [--stats]: the epoch and number of what looks like an update. *)
Definition fast_envelope (data : bytes) : res (option (Z * Z)) :=
  if (length data <? calcsize _ENVELOPE)%nat then Ok None
  else
    v ← struct_unpack Big _ENVELOPE (take (calcsize _ENVELOPE) data);
    match v with
    | [VInt magic; VInt version; VBytes kind_b; VInt _; VInt _; VInt epoch; VInt seq] =>
        if negb (magic =? RECORD_MAGIC) || negb (version =? RECORD_VERSION) || negb (bool_decide (kind_b = ["U"%byte]))
        then Ok None else Ok (Some (epoch, seq))
    | _ => Raise StructError
    end.

(** [lvl\[key\]] where [lvl] is a tuple, as the record decoder makes levels. *)
Definition level_item (lvl : level) (key : str) : res Z := Raise TypeError.
Definition level_text (rec : rdict) (count side : str) : res str :=
  n ← rec_int count rec;
  if 0 <? n then
    l ← rec_item side rec;
    lvl ← match l with RLevels l => get_at 0 l | _ => Raise TypeError end;
    price ← level_item lvl "price"; qty ← level_item lvl "qty";
    Ok (spy_price price +:+ "x" +:+ py_str qty)
  else Ok "-".
Definition spy_line (seq : Z) (rec : rdict) : res str :=
  bid ← level_text rec "level_count_bid" "bids";
  ask ← level_text rec "level_count_ask" "asks";
  trades ← rec_int "trade_count" rec;
  last ← (if 0 <? trades then p ← rec_int "last_price" rec; q ← rec_int "last_qty" rec; Ok (spy_price p +:+ "x" +:+ py_str q)
          else Ok "-");
  trigger ← rec_str "trigger" rec;
  ticker ← rec_str "ticker" rec;
  Ok (py_str seq +:+ " " +:+ trigger +:+ " " +:+ ljust 4 (if bool_decide (ticker = "") then "-" else ticker) +:+
      " bid=" +:+ bid +:+ " ask=" +:+ ask +:+ " last=" +:+ last).

(** One datagram, after [last_rx] is set. *)
Definition spy_datagram (stats : bool) (data : bytes) : M Spy () :=
  if stats then
    e ← mlift (fast_envelope data);
    match e with
    | None => mmod spy_bad
    | Some (epoch, seq) => mmod (spy_count epoch seq)
    end
  else
    match decode_record data with
    | Raise RecordError => mmod spy_bad
    | Raise e => mraise e
    | Ok rec =>
        if decide (dget "kind" rec = Some (RStr "U")) then
          seq ← mlift (rec_int "pub_seq" rec);
          epoch ← mlift (rec_int "epoch" rec);
          mmod (spy_count epoch seq) ;;
          line ← mlift (spy_line seq rec);
          mmod (spy_print line)
        else mmod spy_bad
    end.

Inductive spy_recv : Type := GotData (data : bytes) (now : Z) | GotTimeout | GotOSError | GotInterrupt.
Definition spy_turn : Type := Z * spy_recv.

Definition idle_over (a : spy_args) (started now : Z) (s : Spy) : bool :=
  match sa_until_idle a with
  | None => false
  | Some idle =>
      match sp_last_rx s with
      | None => sa_max_wait a <? now - started
      | Some t => idle <? now - t
      end
  end.

(** The [while True]: [true] when it ended, [false] when the turns ran out. *)
Fixpoint spy_loop (a : spy_args) (started : Z) (turns : list spy_turn) : M Spy bool :=
  match turns with
  | [] => mret false
  | (now, r) :: turns =>
      s ← mget;
      if idle_over a started now s then mret true
      else
        match r with
        | GotTimeout => spy_loop a started turns
        | GotOSError | GotInterrupt => mret true
        | GotData data t => mmod (spy_rx t) ;; spy_datagram (sa_stats a) data ;; spy_loop a started turns
        end
  end.

Definition spy_summary (s : Spy) : str :=
  "updates=" +:+ py_str (sp_updates s) +:+ " gaps=" +:+ py_str (sp_gaps s) +:+ " bad=" +:+ py_str (sp_bad s) +:+
  " epochs=" +:+ py_str (Z.of_nat (size (sp_epochs s))) +:+ " first_pub_seq=" +:+ _fmt_int (sp_first s) +:+
  " last_pub_seq=" +:+ _fmt_int (sp_last s).

(** What is printed once the loop has ended, and the exit code. *)
Definition spy_main (a : spy_args) (started : Z) (turns : list spy_turn) : Spy * res (option (list str * Z)) :=
  match spy_loop a started turns spy_init with
  | (s, Ok true) => (s, Ok (Some (sp_out s ++ [spy_summary s], 0)))
  | (s, Ok false) => (s, Ok None)
  | (s, Raise e) => (s, Raise e)
  end.

(** * Lemmas *)

(** The header and envelope of a datagram, and the rest of it. *)
Lemma envelope_read data : (24 <= length data)%nat -> exists h e q rest magic version kind len res,
  data = h ++ e ++ q ++ rest /\ length h = 8%nat /\ length e = 8%nat /\ length q = 8%nat /\
  struct_unpack Big _HEADER h = Ok [VInt magic; VInt version; VBytes kind; VInt len; VInt res] /\
  struct_unpack Big _ENVELOPE (take 24 data) =
    Ok [VInt magic; VInt version; VBytes kind; VInt len; VInt res; VInt (be_val e); VInt (be_val q)].
Proof.
  intros Hl. do 24 (destruct data as [|? data]; [cbn in Hl; lia|]).
  eexists [_;_;_;_;_;_;_;_], [_;_;_;_;_;_;_;_], [_;_;_;_;_;_;_;_], data, _, _, _, _, _.
  split_and!; reflexivity.
Qed.

(** The first two fields of a decoded update. *)
Lemma update_numbers e q rest rec : length e = 8%nat -> length q = 8%nat -> _decode_update_body (e ++ q ++ rest) = Ok rec ->
  rec_int "epoch" rec = Ok (be_val e) /\ rec_int "pub_seq" rec = Ok (be_val q).
Proof.
  intros He Hq H. destruct (struct_unpack Big _UPDATE_BODY (e ++ q ++ rest)) as [vs|] eqn:Eu; [|by unfold _decode_update_body in H; rewrite Eu in H].
  apply (unpack_typed_ok _UPDATE_BODY _ _ eq_refl) in Eu as Ht.
  destruct (update_shape_ok _ Ht) as (v & nb & na & bids & asks & w & -> & Hs).
  destruct (proj1 (decode_update_spec _ _ _ _ _ _ _ _ Hs Eu) H) as (env & rst & _ & Hi & _ & ->). clear H.
  unfold struct_unpack in Eu. case_decide; [|done]. apply Ok_inj in Eu.
  change _UPDATE_BODY with (U 8 :: U 8 :: drop 2 _UPDATE_BODY) in Eu. cbn [unpack_fields code_size] in Eu.
  rewrite !drop_app_length', !take_app_length' in Eu by done.
  pose proof (us_v _ _ _ _ _ _ Hs) as Hv. change (env_fields.*2) with (U 8 :: U 8 :: drop 2 env_fields.*2) in Hv.
  inversion Hv as [|? x ? v1 _ Hv1]; subst. inversion Hv1 as [|? y ? v2 _ _]; subst.
  unfold update_vals in Eu. cbn [app] in Eu. injection Eu as <- <- _.
  unfold items_of in Hi. change env_fields with (("epoch", U 8) :: ("pub_seq", U 8) :: drop 2 env_fields) in Hi.
  inversion Hi as [|? ? [k1 y1] ? ? ? [Hk1 Hy1] Hi1]; subst. inversion Hi1 as [|? ? [k2 y2] ? ? ? [Hk2 Hy2] _]; subst.
  cbn in Hk1, Hk2, Hy1, Hy2. injection Hy1 as <-. injection Hy2 as <-. subst k1 k2. by split.
Qed.

(** The fast path reads of an update what the decoder reads. *)
Lemma fast_of_decoded data u : good data = Some u -> fast_envelope data = Ok (Some (u_epoch u, u_seq u)).
Proof.
  unfold good. destruct (decode_record data) as [rec|] eqn:Ed; [|done]. case_decide as Hk; [|done]. intros Hv.
  destruct (view_reads _ _ Hv) as (He & Hq & _). destruct (decode_record_length _ _ Ed) as (kind & n & Eh & El).
  pose proof (decode_header_kind _ _ _ Eh) as Hn. revert Ed. unfold decode_record. rewrite Eh. cbn [mbind res_bind].
  rewrite El, Nat.eqb_refl. cbn [negb]. intros Ed.
  assert (kind = KIND_UPDATE) as ->.
  { destruct (kinds _ _ Hn) as [->|[[fs Ef]|[Hc ->]]]; [done| |].
    - destruct (flat_bodies _ _ Ef) as (dec & _ & E1 & _ & Hdec & _). rewrite E1, Hdec in Ed. inv_ok.
      cbn [dget] in Hk. rewrite decide_True in Hk by done. injection Hk as ->. by vm_compute in Ef.
    - destruct (control_kinds _ Hc) as (E1 & _). rewrite E1 in Ed. unfold _decode_empty_body in Ed.
      destruct (slice _ _ _); [|done]. injection Ed as <-. cbn [dget] in Hk. rewrite decide_True in Hk by done. by injection Hk. }
  injection Hn as <-. assert (24 <= length data)%nat as Hl by (rewrite El; vm_compute; lia).
  destruct (envelope_read data Hl) as (h & e & q & rest & magic & version & kb & len & rs & -> & Lh & Le & Lq & Eu & Ev).
  change (_decode_update_body (slice 8 (8 + 429) (h ++ e ++ q ++ rest)) = Ok rec) in Ed.
  unfold slice in Ed. rewrite drop_app_length', take_ge in Ed by (done || rewrite ?length_drop; rewrite !length_app in El; rewrite ?length_app; cbn in El; lia).
  destruct (update_numbers _ _ _ _ Le Lq Ed) as [E1 E2]. rewrite E1 in He. rewrite E2 in Hq. injection He as <-. injection Hq as <-.
  unfold fast_envelope. rewrite (proj2 (Nat.ltb_ge _ _)) by exact Hl. change (calcsize _ENVELOPE) with 24%nat. rewrite Ev. cbn [mbind res_bind].
  revert Eh. unfold decode_header. rewrite (proj2 (Nat.ltb_ge _ _)) by (unfold RECORD_HEADER_SIZE; lia). unfold RECORD_HEADER_SIZE.
  rewrite take_app_length' by done. rewrite Eu. cbn [mbind res_bind].
  destruct (magic =? RECORD_MAGIC); [|done]. destruct (version =? RECORD_VERSION); [|done]. cbn [negb orb].
  destruct (dget (decode_latin1 kb) BODY_SIZES); [|done]. destruct (negb _); [done|]. intros [= Ek _].
  unfold decode_latin1, KIND_UPDATE in Ek. apply (f_equal s2l) in Ek. rewrite s2l_l2s in Ek. by subst kb.
Qed.

Lemma fast_total data : exists r, fast_envelope data = Ok r.
Proof.
  unfold fast_envelope. destruct (Nat.ltb_spec (length data) (calcsize _ENVELOPE)) as [|Hl]; [by eexists|].
  destruct (envelope_read data Hl) as (h & e & q & rest & magic & version & kb & len & rs & _ & _ & _ & _ & _ & Ev).
  change (calcsize _ENVELOPE) with 24%nat. rewrite Ev. cbn [mbind res_bind]. case_match; by eexists.
Qed.

(** The datagrams the loop reads, and whether it ends, given when the last one came. *)
Fixpoint received (a : spy_args) (started : Z) (last_rx : option Z) (turns : list spy_turn) : list (bytes * Z) * bool :=
  match turns with
  | [] => ([], false)
  | (now, r) :: turns =>
      if idle_over a started now (mkSpy 0 0 0 ∅ None None None None last_rx []) then ([], true)
      else
        match r with
        | GotTimeout => received a started last_rx turns
        | GotOSError | GotInterrupt => ([], true)
        | GotData data t => let '(ds, e) := received a started (Some t) turns in ((data, t) :: ds, e)
        end
  end.

(** What the counters say of the updates seen. *)
Record spy_of (us : list upd) (bads : Z) (s : Spy) : Prop := {
  so_updates : sp_updates s = zlen us;
  so_gaps : sp_gaps s = adj_sum gap_between us;
  so_bad : sp_bad s = bads;
  so_epochs : sp_epochs s = list_to_set (u_epoch <$> us);
  so_first : sp_first s = u_seq <$> head us;
  so_last : sp_last s = u_seq <$> last us;
  so_expected : sp_expected s = (fun u => u_seq u + 1) <$> last us;
  so_epoch : sp_cur_epoch s = u_epoch <$> last us;
  so_out : sp_out s = [] }.

Lemma spy_count_of us bads s u : spy_of us bads s -> spy_of (us ++ [u]) bads (spy_count (u_epoch u) (u_seq u) s).
Proof.
  intros [H1 H2 H3 H4 H5 H6 H7 H8 H9]. split; cbn; rewrite ?last_snoc; try done.
  - rewrite H1, zlen_app. done.
  - rewrite H2, H7, H8, adj_sum_snoc. f_equal. unfold gap_between. destruct (last us) as [v|]; cbn; [|by rewrite decide_False].
    destruct (Z.eqb_spec (u_epoch v) (u_epoch u)) as [->|Hne]; [rewrite decide_True by done; zcases; lia|].
    rewrite decide_False; [done|]. by intros [= ?].
  - rewrite H4, fmap_app, list_to_set_app_L. cbn. set_solver.
  - rewrite H5. by destruct us.
Qed.

(** Datagrams on which the fast path and the decoder agree. *)
Definition agree (data : bytes) : Prop := fast_envelope data = Ok None \/ is_Some (good data).

Lemma stats_step data us bads s : agree data -> spy_of us bads s -> exists s',
  spy_datagram true data s = (s', Ok ()) /\ sp_last_rx s' = sp_last_rx s /\
  spy_of (us ++ option_list (good data)) (bads + (1 - zlen (option_list (good data)))) s'.
Proof.
  intros Ha Hs. unfold spy_datagram. munfold. destruct (good data) as [u|] eqn:Eg.
  - rewrite (fast_of_decoded _ _ Eg). eexists. split_and!; [done|done|]. cbn [option_list]. change (zlen [u]) with 1.
    rewrite Z.sub_diag, Z.add_0_r. by apply spy_count_of.
  - destruct Ha as [->|[u Hu]]; [|congruence]. eexists. split_and!; [done|done|]. cbn [option_list]. rewrite app_nil_r.
    destruct Hs as [? ? Hb]. split; try done. unfold zlen. cbn. rewrite Hb. lia.
Qed.

Lemma stats_loop a started turns : sa_stats a = true -> forall us bads s,
  let '(ds, ended) := received a started (sp_last_rx s) turns in
  Forall (fun d => agree d.1) ds -> spy_of us bads s ->
  let new := omap (fun d : bytes * Z => good d.1) ds in
  exists s', spy_loop a started turns s = (s', Ok ended) /\ spy_of (us ++ new) (bads + (zlen ds - zlen new)) s'.
Proof.
  intros Ha. induction turns as [|[now r] turns IH]; intros us bads s; cbn [received spy_loop].
  { intros _ Hs. exists s. split; [done|]. cbn. by rewrite app_nil_r, Z.add_0_r. }
  rewrite bind_run. unfold mget. change (idle_over a started now (mkSpy 0 0 0 ∅ None None None None (sp_last_rx s) []))
    with (idle_over a started now s).
  assert (forall us bads s, spy_of us bads s -> spy_of (us ++ []) (bads + 0) s) as Hnil.
  { intros us0 b0 s0 H0. by rewrite app_nil_r, Z.add_0_r. }
  destruct (idle_over a started now s); [intros _ Hs; exists s; split; [done|by apply Hnil]|].
  destruct r as [data t| | |]; try (intros _ Hs; exists s; split; [done|by apply Hnil]); [|apply IH].
  rewrite bind_run. unfold mmod. pose proof (IH (us ++ option_list (good data))) as IH'.
  destruct (received a started (Some t) turns) as [ds ended] eqn:Er. intros [Hd Hds]%Forall_cons Hs.
  assert (spy_of us bads (spy_rx t s)) as Hs1 by by destruct Hs.
  destruct (stats_step data us bads (spy_rx t s) Hd Hs1) as (s2 & E2 & El & Hs2). rewrite Ha, bind_run, E2.
  specialize (IH' (bads + (1 - zlen (option_list (good data)))) s2). rewrite El in IH'. cbn in IH'. rewrite Er in IH'.
  destruct (IH' Hds Hs2) as (s3 & E3 & Hs3). exists s3. split; [done|]. rewrite omap_cons_list, app_assoc. cbn [fst].
  replace (bads + _) with (bads + (1 - zlen (option_list (good data))) + (zlen ds - zlen (omap (fun d : bytes * Z => good d.1) ds))).
  { done. }
  rewrite zlen_app. unfold zlen. cbn [length]. lia.
Qed.

(** The crash of the default mode: a decoded update with a level is not a line. *)
Lemma full_mode_raises data rec n s : decode_record data = Ok rec -> dget "kind" rec = Some (RStr "U") ->
  rec_int "level_count_bid" rec = Ok n -> 0 < n -> exists s', spy_datagram false data s = (s', Raise TypeError).
Proof.
  intros Ed Hk Hn Hpos. destruct (decoded_view _ _ Ed Hk) as (u & Hv & _). destruct (view_reads _ _ Hv) as (He & Hq & _).
  unfold spy_datagram. rewrite Ed, decide_True, bind_run by done. unfold mlift. rewrite Hq, bind_run, He, bind_run. unfold mmod. rewrite bind_run.
  assert (level_text rec "level_count_bid" "bids" = Raise TypeError) as E.
  { unfold level_text. rewrite Hn. cbn [mbind res_bind]. rewrite (proj2 (Z.ltb_lt _ _)) by done.
    destruct (decode_record_update _ _ Ed Hk) as (v & nb & na & bids & asks & w & env & rest & Hs & Hi & Hr & Er).
    pose proof (update_keys env nb na bids asks rest (items_of_keys _ _ _ Hi) (items_of_keys _ _ _ Hr)) as Hnd. rewrite <- Er in Hnd.
    unfold rec_item. rewrite (elem_dget "bids" (RLevels bids) rec Hnd); [|rewrite Er; unfold update_dict; rewrite !elem_of_app; right; left; left].
    cbn [mbind res_bind of_option]. pose proof (us_bids _ _ _ _ _ _ Hs). by destruct bids. }
  unfold spy_line. rewrite E. by eexists.
Qed.

(** * Properties *)

(** C22. [--stats] on a feed whose datagrams the fast path and the decoder take alike:
    the spy ends when its socket is silent for too long, fails or is interrupted, does not
    raise, and its updates, gaps and bad datagrams are exactly those of the gateway's
    receiver on the datagrams it read; the epochs and the first and last number are
    those of the updates. *)
Theorem spy_counts_as_gateway a started turns t0 : sa_stats a = true ->
  let '(ds, ended) := received a started None turns in
  let us := omap (fun d : bytes * Z => good d.1) ds in
  Forall (fun d => agree d.1) ds -> Forall (fun d => forall e, decode_record d.1 = Raise e -> e = RecordError) ds ->
  exists s st evs, mcast_on_readable ds ((state_init t0, []) : web) = ((st, evs), Ok ()) /\
    spy_main a started turns = (s, Ok (if ended then Some ([spy_summary s], 0) else None)) /\
    sp_updates s = updates st /\ sp_gaps s = gaps st /\ sp_bad s = bad st /\ sp_cur_epoch s = last_epoch st /\
    (forall e, e ∈ sp_epochs s <-> exists u, u ∈ us /\ u_epoch u = e) /\
    sp_first s = u_seq <$> head us /\ sp_last s = u_seq <$> last us.
Proof.
  intros Ha. pose proof (stats_loop a started turns Ha [] 0 spy_init) as Hl. change (sp_last_rx spy_init) with (None : option Z) in Hl.
  destruct (received a started None turns) as [ds ended]. intros us Hag Hd.
  destruct (Hl Hag) as (s & E & Hs); [by split|]. rewrite app_nil_l in Hs. fold us in Hs.
  destruct (datagrams_run ds (state_init t0) [] Hd) as (st & Em & Hst & Hb); [by split|]. fold us in Em, Hst, Hb.
  exists s, st, (feed_events None us). destruct Hs as [H1 H2 H3 H4 H5 H6 H7 H8 H9]. split_and!; try done.
  - unfold spy_main. rewrite E, H9. by destruct ended.
  - by rewrite H1, (fs_updates _ _ Hst).
  - by rewrite H2, (fs_gaps _ _ Hst).
  - by rewrite H3, Hb.
  - by rewrite H8, (fs_epoch _ _ Hst).
  - intros e. rewrite H4, elem_of_list_to_set, list_elem_of_fmap. naive_solver.
Qed.

(** An update, garbage, the update again, then silence for more than two seconds. *)
Definition demo_turns : list spy_turn :=
  [(0, GotTimeout); (200, GotData demo_wire 250); (250, GotData [Byte.x00] 300); (300, GotData demo_wire 400); (2350, GotTimeout); (2401, GotTimeout)].

Lemma spy_counts_as_gateway_witness :
  spy_main (mkSpyArgs true (Some 2000) 60000) 0 demo_turns =
    (mkSpy 2 0 1 {[3]} (Some 7) (Some 7) (Some 8) (Some 3) (Some 400) [],
     Ok (Some (["updates=2 gaps=0 bad=1 epochs=1 first_pub_seq=7 last_pub_seq=7"], 0))) /\
  exists s st, spy_main (mkSpyArgs true (Some 2000) 60000) 0 demo_turns = (s, Ok (Some ([spy_summary s], 0))) /\
    sp_updates s = updates st /\ sp_bad s = bad st.
Proof.
  split; [vm_compute; reflexivity|].
  destruct (spy_counts_as_gateway (mkSpyArgs true (Some 2000) 60000) 0 demo_turns 0 eq_refl) as (s & st & evs & _ & E & H1 & _ & H3 & _).
  { constructor; [right; vm_compute; by eexists|]. constructor; [left; vm_compute; done|]. constructor; [right; vm_compute; by eexists|constructor]. }
  { repeat constructor; cbn [fst]; intros e; vm_compute; congruence. }
  exists s, st. split_and!; assumption.
Defined.

(** The demo update has a bid, and the default mode does not survive it. *)
Example full_mode_crash : snd (spy_main (mkSpyArgs false None 60000) 0 demo_turns) = Raise TypeError.
Proof. vm_compute. reflexivity. Qed.
