(* ===== verification/WsProbe.v ===== *)
(** tools/ws_probe.py: the command line WebSocket client that checks the gateway.

    The socket, the clock and [os.urandom] are operations of the world ([ProbeOf]);
    [recv] raises [SocketTimeout] when nothing came in time, and TimeoutError is that
    class too, ConnectionError an [OSError].  Times are milliseconds.  A printed frame
    is its payload; what is written to stderr is not modelled.  The [while] loops take
    [patience]: how many turns they may run. *)
From S2P Require Export Gateway.

#[global] Set Default Goal Selector "!".

Record ws_args : Type := mkWsArgs { wa_hostport : str; wa_ticker : str; wa_frames : Z; wa_timeout : Z; wa_path : str }.

(** [text.rpartition(c)] for one character: before its last occurrence, and after. *)
Definition rpartition_b (c : byte) (l : bytes) : bytes * bool * bytes :=
  let '(y, f, x) := partition_b c (rev l) in if (f : bool) then (rev x, true, rev y) else ([], false, l).

(** The ASCII lower case and white space of [bytes]. *)
Definition lower_ascii (b : byte) : byte := if (65 <=? b2z b) && (b2z b <=? 90) then z2b (b2z b + 32) else b.
Definition is_bytes_ws (b : byte) : bool := ((9 <=? b2z b) && (b2z b <=? 13)) || (b2z b =? 32).

(** [text.encode("utf-8")] of code points below 256. *)
Definition utf8 (s : str) : bytes :=
  concat ((fun b => if is_ascii b then [b] else [z2b (192 + b2z b / 64); z2b (128 + b2z b mod 64)]) <$> s2l s).

Definition expected_accept (key : str) : res str :=
  l ← encode_ascii (key +:+ "258EAFA5-E914-47DA-95CA-C5AB0DC85B11"); decode_ascii (b64encode (sha1 l)).

(** * Frames *)

(** The frame of [encode_client_frame], given its masking key. *)
Definition client_frame (opcode : Z) (payload mask_key : bytes) : res bytes :=
  let length := zlen payload in
  len ← (if length <? 126 then Ok [z2b (Z.lor 128 length)]
         else if length <? 65536 then n ← pack1 Big (U 2) length; Ok (z2b (Z.lor 128 126) :: n)
         else n ← pack1 Big (U 8) length; Ok (z2b (Z.lor 128 127) :: n));
  Ok ([z2b (Z.lor 128 (Z.land opcode 15))] ++ len ++ mask_key ++ unmask 0 payload mask_key).

Definition server_length (buf : bytes) (length : Z) : option (Z * nat) :=
  if length =? 126 then
    if (List.length buf <? 2 + 2)%nat then None else Some (be_val (slice 2 4 buf), 4%nat)
  else if length =? 127 then
    if (List.length buf <? 2 + 8)%nat then None else Some (be_val (slice 2 10 buf), 10%nat)
  else Some (length, 2%nat).
Definition decode_server_frame (buf : bytes) : option (bool * Z * bytes * nat) :=
  match buf with
  | c0 :: c1 :: _ =>
      match server_length buf (Z.land (b2z c1) 127) with
      | None => None
      | Some (length, offset) =>
          if zlen buf <? Z.of_nat offset + length then None
          else Some (negb (Z.land (b2z c0) 128 =? 0), Z.land (b2z c0) 15, slice offset (offset + Z.to_nat length) buf,
                     (offset + Z.to_nat length)%nat)
      end
  | _ => None
  end.

(** * The request and the response's header *)

Definition probe_headers (host : str) (port : Z) (key : str) : list (bytes * bytes) := [
  (s2l "Host", s2l (host +:+ ":" +:+ py_str port)); (s2l "Upgrade", s2l "websocket"); (s2l "Connection", s2l "Upgrade");
  (s2l "Sec-WebSocket-Key", s2l key); (s2l "Sec-WebSocket-Version", s2l "13")].
Definition nl_text : str := l2s crlf.
Definition probe_request (host : str) (port : Z) (path key : str) : str :=
  "GET " +:+ path +:+ " HTTP/1.1" +:+ nl_text +:+ "Host: " +:+ host +:+ ":" +:+ py_str port +:+ nl_text +:+
  "Upgrade: websocket" +:+ nl_text +:+ "Connection: Upgrade" +:+ nl_text +:+ "Sec-WebSocket-Key: " +:+ key +:+ nl_text +:+
  "Sec-WebSocket-Version: 13" +:+ nl_text +:+ nl_text.

(** The last [sec-websocket-accept] line decides. *)
Definition accept_of (lines : list bytes) : res (option str) :=
  foldl (fun acc line =>
    a ← acc;
    if startswith (s2l "sec-websocket-accept:") (lower_ascii <$> line) then
      let '(_, _, v) := partition_b (z2b 58) line in Some <$> decode_ascii (strip_b is_bytes_ws v)
    else Ok a) (Ok None) lines.

(** The checks of [handshake] on the header block of the response. *)
Definition check_response (key : str) (header_bytes : bytes) : res () :=
  let lines := split_b crlf header_bytes in
  let status_line := decode_ascii_replace (default [] (head lines)) in
  match find_b (s2l " 101 ") (s2l status_line) with
  | None => Raise OSError
  | Some _ =>
      accept ← accept_of (drop 1 lines);
      e ← expected_accept key;
      if decide (accept = Some e) then Ok () else Raise OSError
  end.

Class ProbeOf (W : Type) : Type := {
  pn_now : M W Z;                  (* time.monotonic() *)
  pn_urandom : nat -> M W bytes;
  pn_connect : M W ();             (* OSError *)
  pn_settimeout : Z -> M W ();
  pn_sendall : bytes -> M W ();    (* OSError *)
  pn_recv : nat -> M W bytes;      (* SocketTimeout, OSError *)
  pn_close : M W ();
  pn_print : bytes -> M W () }.

Section probe.
  Context {W : Type} `{ProbeOf W} (patience : nat).

Definition encode_client_frame (opcode : Z) (payload : bytes) : M W bytes :=
  mask_key ← pn_urandom 4; mlift (client_frame opcode payload mask_key).

Definition make_client_key : M W str := r ← pn_urandom 16; mlift (decode_ascii (b64encode r)).

(** The [while] of [recv_line_headers]. *)
Fixpoint header_loop (n : nat) (deadline : Z) (buf : bytes) : M W (bytes * bytes) :=
  match find_b (crlf ++ crlf) buf with
  | Some idx => mret (take idx buf, drop (idx + 4) buf)
  | None =>
      match n with
      | O => mraise OutOfFuel
      | S n =>
          now ← pn_now;
          if deadline <? now then mraise SocketTimeout
          else
            chunk ← pn_recv 4096;
            match chunk with
            | [] => mraise OSError
            | _ => header_loop n deadline (buf ++ chunk)
            end
      end
  end.
Definition recv_line_headers (deadline : Z) : M W (bytes * bytes) := header_loop patience deadline [].

Definition handshake (host : str) (port : Z) (path : str) (timeout : Z) : M W bytes :=
  key ← make_client_key;
  request ← mlift (encode_ascii (probe_request host port path key));
  pn_sendall request ;;
  now ← pn_now;
  r ← recv_line_headers (now + timeout);
  mlift (check_response key r.1) ;;
  mret r.2.

(** The [while printed < args.frames] loop, to the exit code. *)
Fixpoint frame_loop (n : nat) (deadline frames printed : Z) (buf : bytes) : M W Z :=
  if negb (printed <? frames) then mret 0
  else
    match n with
    | O => mraise OutOfFuel
    | S n =>
        now ← pn_now;
        let remaining := deadline - now in
        if remaining <=? 0 then mret 1
        else
          pn_settimeout remaining ;;
          match decode_server_frame buf with
          | None =>
              chunk ← mtry (c ← pn_recv 65536; mret (Some c)) (fun x => if decide (x = SocketTimeout) then Some (mret None) else None);
              match chunk with
              | None => frame_loop n deadline frames printed buf
              | Some [] => mret 1
              | Some c => frame_loop n deadline frames printed (buf ++ c)
              end
          | Some (_, opcode, payload, consumed) =>
              let buf := drop consumed buf in
              if opcode =? OP_TEXT then pn_print payload ;; frame_loop n deadline frames (printed + 1) buf
              else if opcode =? OP_PING then
                f ← encode_client_frame OP_PONG payload; pn_sendall f ;; frame_loop n deadline frames printed buf
              else if opcode =? OP_CLOSE then mret 1
              else frame_loop n deadline frames printed buf
          end
    end.

Definition sub_payload (ticker : str) : bytes := utf8 ("{" +:+ l2s [z2b 34] +:+ "sub" +:+ l2s [z2b 34] +:+ ": " +:+ l2s [z2b 34] +:+ ticker +:+ l2s [z2b 34] +:+ "}").

(** After the handshake: the subscription, the frames, and the [finally]. *)
Definition probe_session (a : ws_args) (deadline : Z) (leftover : bytes) : M W Z :=
  f ← encode_client_frame OP_TEXT (sub_payload (wa_ticker a));
  pn_sendall f ;;
  mfinally (frame_loop patience deadline (wa_frames a) 0 leftover)
    (mtry (f ← encode_client_frame OP_CLOSE []; pn_sendall f) (fun x => if is_OSError x then Some (mret ()) else None) ;;
     pn_close).

Definition split_hostport (hostport : str) : res (option (str * Z)) :=
  let '(host, _, port_str) := rpartition_b (z2b 58) (s2l hostport) in
  match host, port_str with
  | [], _ | _, [] => Ok None
  | _, _ => port ← py_int (l2s port_str); Ok (Some (l2s host, port))
  end.

Definition ws_probe_main (a : ws_args) : M W Z :=
  hp ← mlift (split_hostport (wa_hostport a));
  match hp with
  | None => mret 2
  | Some (host, port) =>
      now ← pn_now;
      let deadline := now + wa_timeout a in
      pn_settimeout (wa_timeout a) ;;
      leftover ← mtry (pn_connect ;; l ← handshake host port (wa_path a) (wa_timeout a); mret (Some l))
        (fun x => if is_OSError x then Some (pn_close ;; mret None) else None);
      match leftover with
      | None => mret 1
      | Some l => probe_session a deadline l
      end
  end.
End probe.

(** * Lemmas: frames *)

(** What the server's decoder makes of a frame the probe sends. *)
Definition sent_as (f : Z * bytes) (l : bytes) : Prop := decode_frame l = Ok (Some (true, f.1, f.2, length l)).

Lemma lor_128 z : 0 <= z < 128 -> Z.lor 128 z = 128 + z.
Proof.
  intros Hz. assert (forallb (fun n => bool_decide (Z.lor 128 (Z.of_nat n) = 128 + Z.of_nat n)) (seq 0 128) = true) as Hall by (vm_compute; reflexivity).
  rewrite forallb_forall in Hall. specialize (Hall (Z.to_nat z)). rewrite in_seq, bool_decide_eq_true, Z2Nat.id in Hall by lia. apply Hall. lia.
Qed.

(** The probe's frames are browser frames as the gateway expects them. *)
Lemma client_frame_sent op p key : 0 <= op < 16 -> length key = 4%nat -> zlen p < form_max Long ->
  exists l, client_frame op p key = Ok l /\ sent_as (op, p) l.
Proof.
  intros Hop Hk Hp. pose proof (zlen_nonneg p) as H0. unfold client_frame.
  destruct (bits_ok false op) as (_ & _ & Hbits); [lia|]. destruct Hbits as [_ Hl]; [lia|]. change (Z.land op 15 = op) in Hl. rewrite Hl, lor_128 by lia.
  assert (exists f, zlen p < form_max f /\
    (if zlen p <? 126 then Ok [z2b (Z.lor 128 (zlen p))]
     else if zlen p <? 65536 then n ← pack1 Big (U 2) (zlen p); Ok (z2b (Z.lor 128 126) :: n)
     else n ← pack1 Big (U 8) (zlen p); Ok (z2b (Z.lor 128 127) :: n)) = Ok (form_bytes 128 f (zlen p))) as (f & Hf & ->).
  { destruct (Z.ltb_spec (zlen p) 126); [|destruct (Z.ltb_spec (zlen p) 65536)].
    - exists Short. split; [done|]. by rewrite lor_128 by lia.
    - exists Medium. split; [done|]. by rewrite pack1_U by (change (256 ^ Z.of_nat 2) with 65536; lia).
    - exists Long. split; [done|]. by rewrite pack1_U by (change (256 ^ Z.of_nat 8) with 18446744073709551616; cbn in Hp; lia). }
  cbn [mbind res_bind]. eexists. split; [reflexivity|]. unfold sent_as.
  assert (cframe_ok (mkCFrame true op f key p)) as Hok by (split; [exact Hop|by split]).
  pose proof (decode_frame_whole (mkCFrame true op f key p) [] Hok) as Hd. rewrite app_nil_r in Hd. exact Hd.
Qed.

(** A frame of the hub is read back whole, and no prefix of it is read as one. *)
Lemma server_frame_read op p l : 0 <= op < 16 -> zlen p < form_max Long -> encode_frame op p = Ok l ->
  (forall rest, decode_server_frame (l ++ rest) = Some (true, op, p, length l)) /\
  (forall k, (k < length l)%nat -> decode_server_frame (take k l) = None) /\ (2 <= length l)%nat.
Proof.
  intros Hop Hp E. destruct (encode_frame_ok op p Hop Hp) as (f & E2 & Hmax & _ & _). rewrite E2 in E. injection E as <-.
  pose proof (zlen_nonneg p) as H0. destruct (bits_ok true op) as (_ & Hb1 & Hbits); [lia|]. destruct Hbits as [_ Hb2]; [lia|].
  assert (b2z (z2b (128 + op)) = 128 + op) as Eb by (apply b2z_z2b_small; lia).
  assert (exists c1 r, form_bytes 0 f (zlen p) = c1 :: r /\
    (forall t, server_length (z2b (128 + op) :: c1 :: r ++ t) (Z.land (b2z c1) 127) = Some (zlen p, (2 + length r)%nat)) /\
    (forall k, (k < length r)%nat -> server_length (take (2 + k) (z2b (128 + op) :: c1 :: r)) (Z.land (b2z c1) 127) = None)) as (c1 & r & Ef & Hr & Hk).
  { destruct f; cbn [form_bytes form_max] in *.
    - eexists _, []. split; [done|]. rewrite b2z_z2b_small by lia. destruct (bits_ok false (zlen p)) as (Hland & _ & _); [lia|].
      change (Z.land (0 + zlen p) 127 = zlen p) in Hland. rewrite Hland. unfold server_length.
      rewrite (proj2 (Z.eqb_neq _ 126)), (proj2 (Z.eqb_neq _ 127)) by lia. split; [done|]. intros k Hk. cbn in Hk. lia.
    - eexists _, (be_bytes 2 (zlen p)). split; [done|]. rewrite b2z_z2b_small by lia. change (Z.land (0 + 126) 127) with 126.
      unfold server_length. change (126 =? 126) with true. cbn iota. rewrite be_bytes_length. split.
      + intros t. rewrite (proj2 (Nat.ltb_ge _ _)) by (cbn [length]; rewrite length_app, be_bytes_length; lia).
        unfold slice. change (4 - 2)%nat with 2%nat. cbn [drop]. rewrite drop_0, take_app_length' by by rewrite be_bytes_length.
        by rewrite be_val_bytes_small by (change (256 ^ Z.of_nat 2) with 65536; lia).
      + intros k Hk. rewrite (proj2 (Nat.ltb_lt _ _)); [done|]. rewrite length_take. lia.
    - eexists _, (be_bytes 8 (zlen p)). split; [done|]. rewrite b2z_z2b_small by lia. change (Z.land (0 + 127) 127) with 127.
      unfold server_length. change (127 =? 126) with false. change (127 =? 127) with true. cbn iota. rewrite be_bytes_length. split.
      + intros t. rewrite (proj2 (Nat.ltb_ge _ _)) by (cbn [length]; rewrite length_app, be_bytes_length; lia).
        unfold slice. change (10 - 2)%nat with 8%nat. cbn [drop]. rewrite drop_0, take_app_length' by by rewrite be_bytes_length.
        by rewrite be_val_bytes_small by (change (256 ^ Z.of_nat 8) with 18446744073709551616; lia).
      + intros k Hk. rewrite (proj2 (Nat.ltb_lt _ _)); [done|]. rewrite length_take. lia. }
  rewrite Ef. cbn [app]. split_and!.
  - intros rest. rewrite <- app_assoc. cbn [decode_server_frame]. rewrite Hr, Eb.
    rewrite (proj2 (Z.ltb_ge _ _)) by (unfold zlen; cbn [length]; rewrite !length_app; lia).
    unfold zlen. rewrite Nat2Z.id.
    change (z2b (128 + op) :: c1 :: r ++ p ++ rest) with ((z2b (128 + op) :: c1 :: r) ++ p ++ rest).
    rewrite take_drop_mid, Hb1, Hb2 by done. cbn [length]. rewrite length_app. do 2 f_equal.
  - intros [|[|k]] Hlt; [done|done|]. cbn [take]. cbn [decode_server_frame]. cbn [length] in Hlt. rewrite length_app in Hlt.
    destruct (decide (k < length r)%nat) as [Hk1|Hk1].
    + rewrite take_app_le by lia. specialize (Hk k Hk1). cbn [Nat.add take] in Hk. by rewrite Hk.
    + rewrite take_app_ge by lia. rewrite Hr. rewrite (proj2 (Z.ltb_lt _ _)); [done|].
      unfold zlen. cbn [length]. rewrite length_app, length_take. lia.
  - cbn [length]. lia.
Qed.

(** * A scripted peer *)

(** [pe_rx]: what comes, each piece after a delay; then silence. *)
Record peer : Type := mkPeer {
  pe_now : Z; pe_rand : bytes; pe_rx : list (Z * bytes); pe_tx : list bytes; pe_out : list bytes; pe_wait : Z; pe_closed : bool }.

Definition peer_recv (n : nat) : M peer bytes := fun w =>
  match pe_rx w with
  | [] => (mkPeer (pe_now w + pe_wait w) (pe_rand w) [] (pe_tx w) (pe_out w) (pe_wait w) (pe_closed w), Raise SocketTimeout)
  | (d, c) :: rx =>
      (mkPeer (pe_now w + d) (pe_rand w) (if (n <? length c)%nat then (0, drop n c) :: rx else rx)
        (pe_tx w) (pe_out w) (pe_wait w) (pe_closed w), Ok (take n c))
  end.
#[export] Instance peer_probe : ProbeOf peer := {|
  pn_now := mgets pe_now;
  pn_urandom := fun n w => (mkPeer (pe_now w) (drop n (pe_rand w)) (pe_rx w) (pe_tx w) (pe_out w) (pe_wait w) (pe_closed w), Ok (take n (pe_rand w)));
  pn_connect := mret ();
  pn_settimeout := fun t => mmod (fun w => mkPeer (pe_now w) (pe_rand w) (pe_rx w) (pe_tx w) (pe_out w) t (pe_closed w));
  pn_sendall := fun l => mmod (fun w => mkPeer (pe_now w) (pe_rand w) (pe_rx w) (pe_tx w ++ [l]) (pe_out w) (pe_wait w) (pe_closed w));
  pn_recv := peer_recv;
  pn_close := mmod (fun w => mkPeer (pe_now w) (pe_rand w) (pe_rx w) (pe_tx w) (pe_out w) (pe_wait w) true);
  pn_print := fun l => mmod (fun w => mkPeer (pe_now w) (pe_rand w) (pe_rx w) (pe_tx w) (pe_out w ++ [l]) (pe_wait w) (pe_closed w)) |}.

(** The bytes still to come, when the last of them comes, and that no piece is empty. *)
Definition to_come (w : peer) : bytes := concat (pe_rx w).*2.
Definition done_by (w : peer) : Z := pe_now w + zsum (pe_rx w).*1.
Definition rx_ok (w : peer) : Prop := Forall (fun p : Z * bytes => 0 <= p.1 /\ p.2 <> []) (pe_rx w).

Lemma zsum_nonneg l : Forall (fun z => 0 <= z) l -> 0 <= zsum l.
Proof. induction 1 as [|z l Hz _ IH]; cbn in *; [done|]. unfold zsum in *. cbn. lia. Qed.

(** What a [recv] of a positive size does while there is something to come. *)
Lemma peer_recv_step n w : (0 < n)%nat -> rx_ok w -> to_come w <> [] -> exists c w', peer_recv n w = (w', Ok c) /\ c <> [] /\
  c ++ to_come w' = to_come w /\ done_by w' = done_by w /\ rx_ok w' /\ pe_now w <= pe_now w' /\ pe_now w' <= done_by w /\
  pe_rand w' = pe_rand w /\ pe_tx w' = pe_tx w /\ pe_out w' = pe_out w /\ pe_closed w' = pe_closed w.
Proof.
  intros Hn Hok Hne. unfold peer_recv, to_come, done_by, rx_ok in *. destruct (pe_rx w) as [|[d c] rx]; [done|].
  apply Forall_cons in Hok as [[Hd Hc] Hok]. cbn [fst snd] in *. eexists _, _. split; [reflexivity|]. cbn -[Nat.ltb].
  assert (0 <= zsum rx.*1) as Hz by (apply zsum_nonneg, Forall_fmap; eapply Forall_impl; [exact Hok|by intros ? [? _]]).
  assert (take n c <> []) as Ht by (destruct c; [done|]; by destruct n; [lia|]).
  destruct (Nat.ltb_spec n (length c)) as [Hlt|Hge]; cbn; unfold zsum in *; cbn; split_and!; try done; try lia.
  - by rewrite app_assoc, take_drop.
  - constructor; [|done]. split; [cbn; lia|]. cbn. intros E%(f_equal length). rewrite length_drop in E. cbn in E. lia.
  - by rewrite take_ge by lia.
Qed.

(** ** The frames *)

(** The frames up to the [n]th text. *)
Fixpoint until_text (n : nat) (fs : list (Z * bytes)) : list (Z * bytes) :=
  match n, fs with
  | O, _ | _, [] => []
  | S n', f :: fs => f :: until_text (if f.1 =? OP_TEXT then n' else n) fs
  end.
Definition texts (fs : list (Z * bytes)) : list bytes := (filter (fun f => f.1 = OP_TEXT) fs).*2.
Definition pings (fs : list (Z * bytes)) : list (Z * bytes) := (fun f => (OP_PONG, f.2)) <$> filter (fun f => f.1 = OP_PING) fs.

(** Frames a hub may send to a client that stays connected. *)
Definition hub_frame (f : Z * bytes) : Prop := 0 <= f.1 < 16 /\ f.1 <> OP_CLOSE /\ zlen f.2 < form_max Long.

Lemma texts_cons f fs : texts (f :: fs) = if decide (f.1 = OP_TEXT) then f.2 :: texts fs else texts fs.
Proof. unfold texts. rewrite filter_cons. by case_decide. Qed.
Lemma pings_cons f fs : pings (f :: fs) = if decide (f.1 = OP_PING) then (OP_PONG, f.2) :: pings fs else pings fs.
Proof. unfold pings. rewrite filter_cons. by case_decide. Qed.

Lemma until_text_texts n fs : texts (until_text n fs) = take n (texts fs).
Proof.
  revert n. induction fs as [|f fs IH]; intros [|n]; [done|done|done|]. cbn [until_text]. rewrite !texts_cons, IH.
  destruct (Z.eqb_spec f.1 OP_TEXT) as [E|Hne]; [by rewrite !(decide_True (P := f.1 = OP_TEXT))|by rewrite !(decide_False (P := f.1 = OP_TEXT))].
Qed.

(** What the peer's clock and script promise, over any step. *)
Record step_ok (w w' : peer) : Prop := {
  so_done : done_by w' = done_by w; so_ok : rx_ok w'; so_now : pe_now w' <= done_by w;
  so_closed : pe_closed w' = pe_closed w }.

Lemma now_done w : rx_ok w -> pe_now w <= done_by w.
Proof.
  intros H. unfold done_by. assert (0 <= zsum (pe_rx w).*1); [|lia]. apply zsum_nonneg, Forall_fmap.
  eapply Forall_impl; [exact H|by intros ? [? _]].
Qed.

(** The loop over the frames, however they are cut: a frame is only read once whole. *)
Lemma frame_loop_run deadline frames n : forall printed fs ls buf w,
  (length fs + length (to_come w) < n)%nat -> 0 <= frames - printed -> frames - printed <= zlen (texts fs) ->
  Forall hub_frame fs -> Forall2 (fun f l => encode_frame f.1 f.2 = Ok l) fs ls ->
  buf ++ to_come w = concat ls -> rx_ok w -> done_by w < deadline -> (4 * length fs <= length (pe_rand w))%nat ->
  let got := until_text (Z.to_nat (frames - printed)) fs in
  exists w' pongs, frame_loop n deadline frames printed buf w = (w', Ok 0) /\ step_ok w w' /\
    pe_out w' = pe_out w ++ texts got /\ pe_tx w' = pe_tx w ++ pongs /\ Forall2 sent_as (pings got) pongs /\
    (length (pe_rand w) - 4 * length fs <= length (pe_rand w'))%nat.
Proof.
  induction n as [|n IH]; intros printed fs ls buf w Hn H0 Ht Hf Hl Hb Hok Hd Hr got; [lia|]. cbn [frame_loop].
  destruct (Z.ltb_spec printed frames) as [Hlt|Hge]; cbn [negb].
  2: { exists w, []. assert (got = []) as -> by (unfold got; replace (Z.to_nat (frames - printed)) with 0%nat by lia; by destruct fs).
       cbn. rewrite !app_nil_r. split_and!; try done; try (by constructor); try lia. split; try done. by apply now_done. }
  pose proof (now_done w Hok) as Hnow.
  rewrite bind_run. change (pn_now w) with (w, Ok (pe_now w)). cbn iota beta. rewrite (proj2 (Z.leb_gt _ _)) by lia.
  rewrite bind_run. unfold pn_settimeout, peer_probe, mmod. cbn iota beta.
  set (w0 := mkPeer (pe_now w) (pe_rand w) (pe_rx w) (pe_tx w) (pe_out w) (deadline - pe_now w) (pe_closed w)).
  destruct Hl as [|f l fs ls Hfl Hl]; [unfold zlen in Ht; cbn in Ht; lia|].
  apply Forall_cons in Hf as [(Hop & Hncl & Hsz) Hf]. destruct f as [op p]. cbn [fst snd] in *.
  destruct (server_frame_read op p l Hop Hsz Hfl) as (Hwhole & Hpart & Hlen). cbn [concat] in Hb.
  destruct (decide (length l <= length buf)%nat) as [Hbig|Hsmall].
  - (* a whole frame *)
    subst w0.
    assert (exists rest, buf = l ++ rest /\ rest ++ to_come w = concat ls) as (rest & -> & Hrest).
    { exists (drop (length l) buf). assert (take (length l) buf = l) as E.
      { apply (f_equal (take (length l))) in Hb. rewrite take_app_le in Hb by done. by rewrite take_app_length in Hb. }
      split; [by rewrite <- E at 1; rewrite take_drop|]. apply (f_equal (drop (length l))) in Hb.
      rewrite drop_app_le in Hb by done. by rewrite drop_app_length in Hb. }
    rewrite Hwhole, drop_app_length.
    assert (got = (op, p) :: until_text (Z.to_nat (frames - (if op =? OP_TEXT then printed + 1 else printed))) fs) as ->.
    { unfold got. destruct (Z.to_nat (frames - printed)) as [|m] eqn:Em; [lia|]. cbn [until_text fst]. do 2 f_equal.
      destruct (op =? OP_TEXT); lia. }
    rewrite texts_cons, pings_cons. rewrite texts_cons in Ht. cbn [fst snd] in *.
    destruct (Z.eqb_spec op OP_TEXT) as [->|Hnt]; [|rewrite decide_False in * by done].
    + rewrite decide_True in * by done. rewrite decide_False by done. rewrite bind_run. unfold pn_print, peer_probe, mmod. cbn iota beta.
      edestruct (IH (printed + 1) fs ls rest) as (w' & pongs & E & [S1 S2 S3 S4] & Ho & Htx & Hp & Hrd); [..|rewrite E].
      1: unfold to_come in *; cbn [length pe_rx] in *; lia. 1: lia. 1: unfold zlen in *; cbn [length] in Ht; lia. 1-4: done. 1: exact Hd. 1: cbn [length pe_rand] in *; lia.
      exists w', pongs. split_and!; [done|by split| |done|done|cbn [length pe_rand] in *; lia]. rewrite Ho. cbn. by rewrite <- app_assoc.
    + destruct (Z.eqb_spec op OP_PING) as [->|Hnp]; [|rewrite decide_False by done].
      * rewrite decide_True by done. rewrite bind_run. unfold encode_client_frame. rewrite bind_run. unfold pn_urandom, peer_probe. cbn beta iota delta [pe_now pe_rand pe_rx pe_tx pe_out pe_wait pe_closed].
        assert (length (take 4 (pe_rand w)) = 4%nat) as Hk by (rewrite length_take; cbn [length] in Hr; lia).
        destruct (client_frame_sent OP_PONG p _ ltac:(vm_compute; done) Hk Hsz) as (fr & Ef & Hs). unfold mlift. rewrite Ef. cbn iota beta.
        rewrite bind_run. unfold pn_sendall, mmod. cbn iota beta.
        edestruct (IH printed fs ls rest) as (w' & pongs & E & [S1 S2 S3 S4] & Ho & Htx & Hp & Hrd); [..|rewrite E].
        1: unfold to_come in *; cbn [length pe_rx] in *; lia. 1-2: done. 1-4: done. 1: exact Hd. 1: cbn [pe_rand]; rewrite length_drop; cbn [length] in *; lia.
        exists w', (fr :: pongs). split_and!; [done|by split|done| |by constructor|cbn [length pe_rand] in *; rewrite length_drop in *; lia].
        rewrite Htx. cbn. by rewrite <- app_assoc.
      * rewrite (proj2 (Z.eqb_neq op OP_CLOSE)) by done.
        edestruct (IH printed fs ls rest) as (w' & pongs & E & [S1 S2 S3 S4] & Ho & Htx & Hp & Hrd); [..|rewrite E].
        1: unfold to_come in *; cbn [length pe_rx] in *; lia. 1-2: done. 1-4: done. 1: exact Hd. 1: cbn [length pe_rand] in *; lia.
        exists w', pongs. split_and!; [done|by split|done|done|done|cbn [length pe_rand] in *; lia].
  - (* part of a frame: more is read *)
    assert (buf = take (length buf) l) as Ebuf.
    { apply (f_equal (take (length buf))) in Hb. by rewrite take_app_length, take_app_le in Hb by lia. }
    assert (decode_server_frame buf = None) as -> by (rewrite Ebuf; apply Hpart; lia).
    assert (to_come w0 <> []) as Hne.
    { change (to_come w0) with (to_come w). intros E. rewrite E, app_nil_r in Hb. apply (f_equal length) in Hb. rewrite length_app in Hb. lia. }
    destruct (peer_recv_step 65536 w0 ltac:(apply Nat.ltb_lt; vm_compute; done) Hok Hne) as (c & w1 & E1 & Hc & Htc & Hdb & Hok1 & Hn1 & Hn2 & R1 & R2 & R3 & R4).
    rewrite bind_run. unfold mtry. rewrite bind_run. change (pn_recv 65536 w0) with (peer_recv 65536 w0). rewrite E1. cbn iota beta.
    unfold mret, M_ret. destruct c as [|x c]; [done|].
    edestruct (IH printed ((op, p) :: fs) (l :: ls) (buf ++ x :: c) w1) as (w' & pongs & E & [S1 S2 S3 S4] & Ho & Htx & Hp & Hrd); [..|].
    1: change (to_come w0) with (to_come w) in Htc; rewrite <- Htc in Hn; rewrite length_app in Hn; cbn [length] in *; lia.
    1-2: done. 1: by constructor. 1: by constructor. 1: rewrite <- app_assoc; change (to_come w0) with (to_come w) in Htc; by rewrite Htc.
    1: done. 1: change (done_by w0) with (done_by w) in Hdb; lia. 1: by rewrite R1.
    change (done_by w0) with (done_by w) in *. exists w', pongs. rewrite R1 in Hrd. rewrite R2 in Htx. rewrite R3 in Ho. rewrite R4 in S4.
    split_and!; [exact E| |exact Ho|exact Htx|exact Hp|exact Hrd]. split; [congruence|done|congruence|exact S4].
Qed.

(** ** The handshake *)

(** A base64 text: plain ASCII on both ends and inside. *)
Lemma b64_clean l : forallb is_b64 l = true ->
  decode_ascii l = Ok (l2s l) /\ encode_ascii (l2s l) = Ok l /\ CR ∉ l /\ strip_b is_ws l = l /\ strip_b is_bytes_ws l = l /\
  forallb is_ascii l = true.
Proof.
  intros H. assert (forallb is_ascii l = true /\ forallb (fun b => negb (is_ws b)) l = true) as [Ha Hw].
  { split; (eapply forallb_impl; [|exact H]); intros b Hb; destruct (is_b64_plain b Hb) as (? & E & _); [done|by rewrite E]. }
  assert (forall p, (forall b, p b = true -> is_ws b = true) -> strip_b p l = l) as Hs.
  { intros p Hp. assert (forallb (fun b => negb (p b)) l = true) as Hn.
    { eapply forallb_impl; [|exact Hw]. intros b Hb. destruct (p b) eqn:E; [|done]. apply Hp in E. cbn in Hb. by rewrite E in Hb. }
    unfold strip_b. rewrite rstrip_id, lstrip_id; [done| |].
    - destruct l as [|b l]; [done|]. cbn in *. by apply andb_true_iff in Hn as [-> _].
    - unfold no_trail. destruct (last l) as [b|] eqn:E; [|done]. apply last_Some in E as [l' ->]. rewrite forallb_app in Hn.
      apply andb_true_iff in Hn as [_ Hn]. cbn in Hn. by apply andb_true_iff in Hn as [-> _]. }
  unfold decode_ascii, encode_ascii. rewrite s2l_l2s, Ha. split_and!; try done.
  - intros Hin%list_elem_of_In. rewrite forallb_forall in Hw. by specialize (Hw _ Hin).
  - by apply Hs.
  - apply Hs. unfold is_bytes_ws, is_ws. intros b Hb. lia.
Qed.

Lemma accept_b64 key accept : compute_accept_key key = Ok accept ->
  expected_accept key = Ok accept /\ exists l, accept = l2s l /\ forallb is_b64 l = true /\ l <> [].
Proof.
  unfold compute_accept_key, expected_accept. change "258EAFA5-E914-47DA-95CA-C5AB0DC85B11" with GUID.
  intros E. split; [exact E|]. destruct (encode_ascii _) as [l|]; [|done]. cbn [mbind res_bind] in E.
  destruct (b64_clean _ (b64encode_chars (sha1 l))) as (Ed & _). rewrite Ed in E. injection E as <-.
  exists (b64encode (sha1 l)). split_and!; [done|apply b64encode_chars|]. apply b64encode_nonempty.
  unfold sha1. destruct (sha1_blocks _ _ _) as [[[[a b] c] d] e]. unfold be_bytes at 1. done.
Qed.

Definition accept_lines (accept : bytes) : list bytes :=
  [s2l "Upgrade: websocket"; s2l "Connection: Upgrade"; s2l "Sec-WebSocket-Accept: " ++ accept].
Definition accept_block (accept : bytes) : bytes :=
  PyText.join crlf (s2l "HTTP/1.1 101 Switching Protocols" :: accept_lines accept).

Lemma upgrade_head_block l : upgrade_head (l2s l) = accept_block l ++ crlf ++ crlf.
Proof.
  unfold upgrade_head, accept_block, accept_lines, http_line, PyText.join. rewrite s2l_l2s. cbn [fmap list_fmap concat].
  rewrite app_nil_r. by rewrite <- !app_assoc.
Qed.

Lemma accept_cr l : CR ∉ l -> Forall (fun l => CR ∉ l) (s2l "HTTP/1.1 101 Switching Protocols" :: accept_lines l).
Proof.
  intros Hl. repeat constructor; try (apply (bool_decide_unpack _); vm_compute; done).
  intros [Hc|Hc]%elem_of_app; [|done]. revert Hc. apply (bool_decide_unpack _). vm_compute. done.
Qed.

(** The gateway's 101 passes the probe's checks. *)
Lemma response_accepted key accept : compute_accept_key key = Ok accept ->
  check_response key (accept_block (s2l accept)) = Ok ().
Proof.
  intros E. destruct (accept_b64 _ _ E) as (E2 & l & -> & Hl & Hne). destruct (b64_clean l Hl) as (Hd & _ & Hcr & _ & Hs & _).
  rewrite s2l_l2s. unfold check_response. change crlf with (CR :: [z2b 10]) at 1. unfold accept_block. change crlf with (CR :: [z2b 10]).
  rewrite split_b_join by by apply accept_cr. cbv zeta. cbn [head default from_option id].
  change (drop 1 (s2l "HTTP/1.1 101 Switching Protocols" :: accept_lines l)) with (accept_lines l).
  destruct (find_b (s2l " 101 ") (s2l (decode_ascii_replace (s2l "HTTP/1.1 101 Switching Protocols")))) eqn:Ef; [|by vm_compute in Ef].
  assert (accept_of (accept_lines l) = Ok (Some (l2s l))) as ->.
  2: { cbn [mbind res_bind]. rewrite E2. cbn [mbind res_bind]. by rewrite decide_True. }
  unfold accept_of, accept_lines. cbn [foldl mbind res_bind].
  change (startswith (s2l "sec-websocket-accept:") (lower_ascii <$> s2l "Upgrade: websocket")) with false.
  change (startswith (s2l "sec-websocket-accept:") (lower_ascii <$> s2l "Connection: Upgrade")) with false. cbn iota.
  rewrite fmap_app. unfold startswith. rewrite take_app_le by (vm_compute; lia). rewrite bool_decide_true by (vm_compute; done).
  change (s2l "Sec-WebSocket-Accept: " ++ l) with (s2l "Sec-WebSocket-Accept" ++ z2b 58 :: z2b 32 :: l).
  rewrite partition_b_app by (vm_compute; done).
  assert (strip_b is_bytes_ws (z2b 32 :: l) = l) as ->.
  { unfold strip_b in *. cbn [rstrip_b]. destruct (rstrip_b is_bytes_ws l) as [|b t] eqn:Er; [by destruct l|]. exact Hs. }
  by rewrite Hd.
Qed.

(** The header block is found, however it is cut, and what follows it is left over. *)
Lemma header_loop_run deadline block rest n : forall buf w,
  find_b (crlf ++ crlf) (block ++ crlf ++ crlf) = Some (length block) ->
  buf ++ to_come w = (block ++ crlf ++ crlf) ++ rest -> (length (to_come w) < n)%nat -> rx_ok w -> done_by w <= deadline ->
  exists w' left, header_loop n deadline buf w = (w', Ok (block, left)) /\ left ++ to_come w' = rest /\ step_ok w w' /\
    pe_rand w' = pe_rand w /\ pe_tx w' = pe_tx w /\ pe_out w' = pe_out w /\ (length (to_come w') <= length (to_come w))%nat.
Proof.
  induction n as [|n IH]; intros buf w Hf Hb Hn Hok Hd; [lia|].
  destruct (decide (length block + 4 <= length buf)%nat) as [Hbig|Hsmall].
  - assert (exists left, buf = (block ++ crlf ++ crlf) ++ left /\ left ++ to_come w = rest) as (left & -> & Hleft).
    { exists (drop (length block + 4) buf). assert (length (block ++ crlf ++ crlf) = (length block + 4)%nat) as Hlen by by rewrite length_app.
      assert (take (length block + 4) buf = block ++ crlf ++ crlf) as E.
      { apply (f_equal (take (length block + 4))) in Hb. rewrite take_app_le in Hb by done. rewrite Hb, <- Hlen. apply take_app_length. }
      split; [rewrite <- E; by rewrite take_drop|]. apply (f_equal (drop (length block + 4))) in Hb.
      rewrite drop_app_le in Hb by done. rewrite Hb, <- Hlen. apply drop_app_length. }
    exists w, left. cbn [header_loop]. destruct (find_b_app (crlf ++ crlf) _ _ ltac:(done) Hf) as [_ Hfa]. rewrite Hfa.
    rewrite <- app_assoc, take_app_length. rewrite app_assoc.
    replace (length block + 4)%nat with (length (block ++ crlf ++ crlf)) by by rewrite length_app.
    rewrite drop_app_length. split_and!; try done. split; try done. by apply now_done.
  - pose proof (now_done w Hok) as Hnow.
    assert (to_come w <> []) as Hne.
    { intros E. rewrite E, app_nil_r in Hb. apply (f_equal length) in Hb. rewrite !length_app in Hb. cbn in Hb. lia. }
    assert (find_b (crlf ++ crlf) buf = None) as Hnone.
    { destruct (find_b_app (crlf ++ crlf) _ _ ltac:(done) Hf) as [_ Hfa]. specialize (Hfa rest). rewrite <- Hb in Hfa.
      eapply find_b_prefix; [done|exact Hfa|]. cbn. lia. }
    cbn [header_loop]. rewrite Hnone, bind_run. change (pn_now w) with (w, Ok (pe_now w)). cbn iota beta.
    rewrite (proj2 (Z.ltb_ge _ _)) by lia.
    destruct (peer_recv_step 4096 w ltac:(apply Nat.ltb_lt; vm_compute; done) Hok Hne) as (c & w1 & E1 & Hc & Htc & Hdb & Hok1 & Hn1 & Hn2 & R1 & R2 & R3 & R4).
    rewrite bind_run. change (pn_recv 4096 w) with (peer_recv 4096 w). rewrite E1. cbn iota beta. destruct c as [|x c]; [done|].
    edestruct (IH (buf ++ x :: c) w1) as (w' & left & E & Hl & [S1 S2 S3 S4] & P1 & P2 & P3 & P4); [done| |..].
    + rewrite <- app_assoc. by rewrite Htc.
    + rewrite <- Htc in Hn. rewrite length_app in Hn. cbn in Hn. lia.
    + done.
    + lia.
    + exists w', left. split_and!; [exact E|done| |congruence|congruence|congruence|rewrite <- Htc, length_app; lia].
      split; [congruence|done|congruence|congruence].
Qed.

(** ** The request, as the gateway reads it *)

Lemma request_text host port path key : s2l (probe_request host port path key) = http_request (s2l "GET") (s2l path) (probe_headers host port key).
Proof.
  unfold probe_request, http_request, request_block, probe_headers, PyText.join, header_line, nl_text.
  rewrite !s2l_cat, !s2l_l2s. cbn [fmap list_fmap concat fst snd]. rewrite !app_nil_r.
  change (s2l "GET ") with (s2l "GET" ++ [z2b 32]). change (s2l " HTTP/1.1") with ([z2b 32] ++ s2l "HTTP/1.1").
  change (s2l "Host: ") with (s2l "Host" ++ [z2b 58; z2b 32]).
  change (s2l "Upgrade: websocket") with (s2l "Upgrade" ++ [z2b 58; z2b 32] ++ s2l "websocket").
  change (s2l "Connection: Upgrade") with (s2l "Connection" ++ [z2b 58; z2b 32] ++ s2l "Upgrade").
  change (s2l "Sec-WebSocket-Key: ") with (s2l "Sec-WebSocket-Key" ++ [z2b 58; z2b 32]).
  change (s2l "Sec-WebSocket-Version: 13") with (s2l "Sec-WebSocket-Version" ++ [z2b 58; z2b 32] ++ s2l "13").
  by rewrite <- !app_assoc.
Qed.

Definition host_ok (host : str) : Prop := forallb (fun b => is_ascii b && negb (b2z b =? 13)) (s2l host) = true.

Lemma probe_headers_ok host port l : host_ok host -> 0 <= port -> forallb is_b64 l = true ->
  Forall (fun h => header_ok h = true) (probe_headers host port (l2s l)).
Proof.
  intros Hh Hp Hl. assert (forall x, forallb is_ascii x = true -> forallb (fun b => negb (is_ws b)) x = true -> forallb (fun b => negb (b2z b =? 13)) x = true) as Hx.
  { intros x _ H. eapply forallb_impl; [|exact H]. intros b Hb. unfold is_ws in Hb. lia. }
  assert (forallb (fun b => negb (b2z b =? 13)) l = true) as H1.
  { eapply forallb_impl; [|exact Hl]. intros b Hb. destruct (is_b64_plain b Hb) as (_ & E & _). unfold is_ws in E. lia. }
  assert (forallb (fun b => negb (b2z b =? 13)) (s2l (host +:+ ":" +:+ py_str port)) = true) as H2.
  { rewrite !s2l_cat, !forallb_app. apply andb_true_iff. split.
    - eapply forallb_impl; [|exact Hh]. by intros b [_ ?]%andb_true_iff.
    - unfold py_str. rewrite s2l_l2s. apply andb_true_iff. split; [done|]. eapply forallb_impl; [|exact (plain_py_str port Hp)].
      intros b [_ Hb]%andb_true_iff. unfold is_ws in Hb. lia. }
  unfold probe_headers, header_ok. repeat constructor; cbn [fst snd]; rewrite ?s2l_l2s, ?H1, ?H2; vm_compute; done.
Qed.

(** The gateway finds in the request what an upgrade needs. *)
Lemma probe_header_dict host port l : forallb is_b64 l = true ->
  let d := foldl header_step [] (probe_headers host port (l2s l)) in
  lower (default "" (dget "upgrade" d)) = "websocket" /\ dget "sec-websocket-version" d = Some "13" /\
  dget "sec-websocket-key" d = Some (l2s l).
Proof.
  intros Hl. cbv zeta. unfold probe_headers, header_step. cbn [foldl fst snd].
  assert (strip (l2s (s2l (l2s l))) = l2s l) as ->.
  { unfold strip. destruct (b64_clean l Hl) as (_ & _ & _ & E & _). by rewrite s2l_l2s, s2l_l2s, E. }
  generalize (strip (l2s (s2l (host +:+ ":" +:+ py_str port)))) as v. generalize (l2s l) as k. intros k v.
  change (lower (strip (decode_ascii_replace (s2l "Host")))) with "host".
  change (lower (strip (decode_ascii_replace (s2l "Upgrade")))) with "upgrade".
  change (lower (strip (decode_ascii_replace (s2l "Connection")))) with "connection".
  change (lower (strip (decode_ascii_replace (s2l "Sec-WebSocket-Key")))) with "sec-websocket-key".
  change (lower (strip (decode_ascii_replace (s2l "Sec-WebSocket-Version")))) with "sec-websocket-version".
  split_and!; vm_compute; reflexivity.
Qed.

Lemma request_ascii host port path l : host_ok host -> 0 <= port -> forallb is_ascii (s2l path) = true -> forallb is_b64 l = true ->
  encode_ascii (probe_request host port path (l2s l)) = Ok (s2l (probe_request host port path (l2s l))).
Proof.
  intros Hh Hp Ha Hl. unfold encode_ascii. assert (forallb is_ascii (s2l (probe_request host port path (l2s l))) = true) as ->; [|done].
  assert (forallb is_ascii (s2l host) = true) as H1 by (eapply forallb_impl; [|exact Hh]; by intros b [? _]%andb_true_iff).
  assert (forallb is_ascii (s2l (py_str port)) = true) as H2.
  { unfold py_str. rewrite s2l_l2s. eapply forallb_impl; [|exact (plain_py_str port Hp)]. by intros b [? _]%andb_true_iff. }
  destruct (b64_clean l Hl) as (_ & _ & _ & _ & _ & H3).
  unfold probe_request, nl_text. rewrite !s2l_cat, !forallb_app, s2l_l2s, s2l_l2s, H1, H2, H3, Ha. vm_compute. reflexivity.
Qed.

(** The peer after [n] random bytes are taken, and after [l] is sent. *)
Definition took (n : nat) (w : peer) : peer :=
  mkPeer (pe_now w) (drop n (pe_rand w)) (pe_rx w) (pe_tx w) (pe_out w) (pe_wait w) (pe_closed w).
Definition sent_out (l : bytes) (w : peer) : peer :=
  mkPeer (pe_now w) (pe_rand w) (pe_rx w) (pe_tx w ++ [l]) (pe_out w) (pe_wait w) (pe_closed w).
Definition waiting (t : Z) (w : peer) : peer :=
  mkPeer (pe_now w) (pe_rand w) (pe_rx w) (pe_tx w) (pe_out w) t (pe_closed w).

Lemma send_frame_run op p w : 0 <= op < 16 -> zlen p < form_max Long -> (4 <= length (pe_rand w))%nat ->
  exists l, sent_as (op, p) l /\ forall {A} (k : M peer A),
    (f ← encode_client_frame op p; pn_sendall f ;; k) w = k (sent_out l (took 4 w)).
Proof.
  intros Hop Hp Hr. assert (length (take 4 (pe_rand w)) = 4%nat) as Hk by (rewrite length_take; lia).
  destruct (client_frame_sent op p _ Hop Hk Hp) as (l & E & Hl). exists l. split; [exact Hl|]. intros A k.
  unfold encode_client_frame. rewrite !bind_run. change (pn_urandom 4 w) with (took 4 w, Ok (take 4 (pe_rand w))). cbn iota beta.
  unfold mlift. rewrite E. reflexivity.
Qed.

Lemma handshake_run patience a host port w accept ls :
  let key := l2s (b64encode (take 16 (pe_rand w))) in
  let request := probe_request host port (wa_path a) key in
  host_ok host -> 0 <= port -> forallb is_ascii (s2l (wa_path a)) = true -> compute_accept_key key = Ok accept ->
  to_come w = upgrade_head accept ++ concat ls -> rx_ok w -> done_by w < pe_now w + wa_timeout a ->
  (length (to_come w) < patience)%nat ->
  exists w' left, handshake patience host port (wa_path a) (wa_timeout a) w = (w', Ok left) /\ left ++ to_come w' = concat ls /\
    step_ok w w' /\ pe_rand w' = drop 16 (pe_rand w) /\ pe_tx w' = pe_tx w ++ [s2l request] /\ pe_out w' = pe_out w /\
    (length (to_come w') <= length (to_come w))%nat.
Proof.
  intros key request Hhost Hport Hpath Hacc Hcome Hok Hdone Hpat.
  pose proof (b64encode_chars (take 16 (pe_rand w))) as Hk. destruct (b64_clean _ Hk) as (Hkd & _). fold key in Hkd.
  destruct (accept_b64 _ _ Hacc) as (_ & l & -> & Hl64 & _). rewrite upgrade_head_block in Hcome.
  assert (find_b (crlf ++ crlf) (accept_block l ++ crlf ++ crlf) = Some (length (accept_block l))) as Hfind.
  { apply find_blank. destruct (b64_clean l Hl64) as (_ & _ & Hcr & _). pose proof (accept_cr l Hcr) as Hall.
    apply Forall_forall. intros x Hx. rewrite Forall_forall in Hall. split; [by apply Hall|]. intros ->.
    unfold accept_lines in Hx. rewrite !elem_of_cons in Hx. by destruct Hx as [?|[?|[?|[?|Hx%elem_of_nil]]]]. }
  set (w1 := sent_out (s2l request) (took 16 w)).
  destruct (header_loop_run (pe_now w + wa_timeout a) (accept_block l) (concat ls) patience [] w1 Hfind) as (w2 & left & Eh & Hleft & S & P1 & P2 & P3 & P4);
    [exact Hcome|exact Hpat|exact Hok|change (done_by w1) with (done_by w); lia|].
  exists w2, left. split_and!; [|done|by destruct S|done|done|done|done].
  unfold handshake, make_client_key. rewrite !bind_run. change (pn_urandom 16 w) with (took 16 w, Ok (take 16 (pe_rand w))). cbn iota beta.
  unfold mlift at 1. rewrite Hkd. cbn iota beta. rewrite bind_run. unfold mlift at 1.
  unfold key. rewrite request_ascii by done. fold key. fold request. cbn iota beta. rewrite bind_run.
  change (pn_sendall (s2l request) (took 16 w)) with (w1, Ok ()). cbn iota beta.
  rewrite bind_run. change (pn_now w1) with (w1, Ok (pe_now w)). cbn iota beta. rewrite bind_run. unfold recv_line_headers. rewrite Eh. cbn iota beta.
  rewrite bind_run. unfold mlift. cbn [fst snd]. rewrite <- (s2l_l2s l). rewrite (response_accepted _ _ Hacc). reflexivity.
Qed.

(** What is sent after the request: the subscription, the pongs, the close frame. *)
Definition probe_frames (a : ws_args) (fs : list (Z * bytes)) : list (Z * bytes) :=
  (OP_TEXT, sub_payload (wa_ticker a)) :: pings (until_text (Z.to_nat (wa_frames a)) fs) ++ [(OP_CLOSE, [])].

Lemma session_run patience a deadline left w fs ls : Forall hub_frame fs -> Forall2 (fun f l => encode_frame f.1 f.2 = Ok l) fs ls ->
  left ++ to_come w = concat ls -> rx_ok w -> done_by w < deadline -> 0 <= wa_frames a <= zlen (texts fs) ->
  (length fs + length (to_come w) < patience)%nat -> (8 + 4 * length fs <= length (pe_rand w))%nat ->
  zlen (sub_payload (wa_ticker a)) < form_max Long ->
  exists w' out, probe_session patience a deadline left w = (w', Ok 0) /\ pe_closed w' = true /\
    pe_out w' = pe_out w ++ take (Z.to_nat (wa_frames a)) (texts fs) /\ pe_tx w' = pe_tx w ++ out /\ Forall2 sent_as (probe_frames a fs) out.
Proof.
  intros Hf Hl Hcat Hok Hdone Hfr Hpat Hr Hsub. unfold probe_session.
  destruct (send_frame_run OP_TEXT (sub_payload (wa_ticker a)) w ltac:(vm_compute; done) Hsub ltac:(lia)) as (fsub & Hfs & E). rewrite E.
  set (w3 := sent_out fsub (took 4 w)).
  destruct (frame_loop_run deadline (wa_frames a) patience 0 fs ls left w3) as (w4 & pongs & E4 & _ & Ho & Htx & Hp & Hrd); try done; try lia.
  { cbn. rewrite length_drop. lia. }
  rewrite Z.sub_0_r in *. cbn [pe_rand w3 sent_out took] in Hrd. rewrite length_drop in Hrd.
  destruct (send_frame_run OP_CLOSE [] w4 ltac:(vm_compute; done) ltac:(vm_compute; done) ltac:(lia)) as (fcl & Hfc & Ec).
  unfold mfinally. rewrite E4, bind_run. unfold mtry. specialize (Ec _ (mret ())).
  assert ((f ← encode_client_frame OP_CLOSE []; pn_sendall f) w4 = (sent_out fcl (took 4 w4), Ok ())) as ->.
  { revert Ec. unfold encode_client_frame. rewrite !bind_run. destruct (pn_urandom 4 w4) as [w5 [m|]]; [|done]. cbn iota beta.
    destruct (mlift _ w5) as [w6 [fr|]]; [|done]. rewrite bind_run. by destruct (pn_sendall fr w6) as [w7 [[]|]]. }
  eexists _, (fsub :: pongs ++ [fcl]). split; [reflexivity|]. cbn -[sent_as]. split_and!.
  - done.
  - rewrite Ho. by rewrite until_text_texts.
  - rewrite Htx. cbn. by rewrite <- !app_assoc.
  - unfold probe_frames. constructor; [done|]. apply Forall2_app; [done|by repeat constructor].
Qed.

(** * Properties *)

(** C29. The probe and the gateway.  The key is random.  The gateway, on any socket and given
    the request in any pieces, answers it with the 101 and makes the socket a client of
    the hub.  Given that answer and then at least as many text frames as asked for, the
    whole cut anywhere and in time, the probe prints the text frames in order up to the
    number asked for and exits 0 with the socket closed; what it sent is the request,
    then frames the gateway decodes as the subscription, a pong for each ping on the
    way, and the close. *)
Theorem probe_meets_gateway html has_db repr sub patience a host port w accept :
  let key := l2s (b64encode (take 16 (pe_rand w))) in
  let request := probe_request host port "/ws" key in
  split_hostport (wa_hostport a) = Ok (Some (host, port)) -> wa_path a = "/ws" -> host_ok host -> 0 <= port ->
  compute_accept_key key = Ok accept -> pe_rand w <> [] -> zlen (s2l request) <= _MAX_REQUEST_HEADER_BYTES ->
  (forall sock chunks ns g, Forall (fun d => d <> []) chunks -> concat chunks = s2l request ->
    enough (length (upgrade_head accept)) ns -> interest_inv (g_rx g) ->
    exists g', (http_accept (H0 := gw_http html has_db repr) sock ;; mfor chunks (recv_piece html has_db repr sub (length (g_conns g))) ;;
                mfor ns (send_piece html has_db repr sub (length (g_conns g)))) g = (g', Ok ()) /\
      sent sock (g_env g') = sent sock (g_env g) ++ upgrade_head accept /\ clients (g_hub g') = clients (g_hub g) ++ [length (ws_objs (g_hub g))]) /\
  (forall fs ls, Forall hub_frame fs -> Forall2 (fun f l => encode_frame f.1 f.2 = Ok l) fs ls ->
    to_come w = upgrade_head accept ++ concat ls -> rx_ok w -> done_by w < pe_now w + wa_timeout a ->
    0 <= wa_frames a <= zlen (texts fs) -> (length fs + length (to_come w) < patience)%nat ->
    (24 + 4 * length fs <= length (pe_rand w))%nat -> zlen (sub_payload (wa_ticker a)) < form_max Long ->
    exists w' out, ws_probe_main patience a w = (w', Ok 0) /\ pe_closed w' = true /\
      pe_out w' = pe_out w ++ take (Z.to_nat (wa_frames a)) (texts fs) /\
      pe_tx w' = pe_tx w ++ s2l request :: out /\ Forall2 sent_as (probe_frames a fs) out).
Proof.
  intros key request Hhp Hpath Hhost Hport Hacc Hrand Hsize.
  pose proof (b64encode_chars (take 16 (pe_rand w))) as Hk. split.
  - intros sock chunks ns g Hc Hcat Hns Hg. unfold request in Hcat. rewrite request_text in Hcat.
    destruct (probe_header_dict host port _ Hk) as (D1 & D2 & D3). fold key in D1, D2, D3.
    destruct (ws_upgraded html has_db repr sub (probe_headers host port key) sock chunks ns g key accept) as (g' & E & E1 & _ & E2 & _); try done.
    + split; [done|]. split; [done|]. split; [by apply probe_headers_ok|]. rewrite <- request_text. exact Hsize.
    + intros E%(f_equal s2l). unfold key in E. rewrite s2l_l2s in E. apply b64encode_nonempty in E; [done|].
      by destruct (pe_rand w).
    + exists g'. split_and!; [exact E|exact E1|by rewrite E2].
  - intros fs ls Hf Hl Hcome Hok Hdone Hfr Hpat Hr Hsub. unfold ws_probe_main. rewrite bind_run. unfold mlift at 1. rewrite Hhp. cbn iota beta.
    rewrite bind_run. change (pn_now w) with (w, Ok (pe_now w)). cbn iota beta zeta. rewrite bind_run.
    change (pn_settimeout (wa_timeout a) w) with (waiting (wa_timeout a) w, Ok ()). cbn iota beta.
    destruct (handshake_run patience a host port (waiting (wa_timeout a) w) accept ls) as (w2 & left & E2 & Hleft & [S1 S2 S3 S4] & P1 & P2 & P3 & P4);
      try done; [by rewrite Hpath|change (to_come (waiting (wa_timeout a) w)) with (to_come w); lia|].
    rewrite bind_run. unfold mtry at 1. rewrite bind_run. change (pn_connect (waiting (wa_timeout a) w)) with (waiting (wa_timeout a) w, Ok ()). cbn iota beta.
    rewrite bind_run, E2. cbn iota beta. unfold mret at 1, M_ret at 1. cbn iota beta.
    change (done_by (waiting (wa_timeout a) w)) with (done_by w) in *. change (to_come (waiting (wa_timeout a) w)) with (to_come w) in *.
    destruct (session_run patience a (pe_now w + wa_timeout a) left w2 fs ls) as (w' & out & E & Hc & Ho & Htx & Hout); try done; try lia.
    { rewrite P1. cbn. rewrite length_drop. lia. }
    exists w', out. split_and!; [exact E|done|by rewrite Ho, P3| |done]. rewrite Htx, P2. cbn [pe_tx waiting]. rewrite Hpath. by rewrite <- app_assoc.
Qed.

(** Two updates with a ping between them, the stream cut inside the header and inside
    a frame. *)
Definition demo_probe : ws_args := mkWsArgs "localhost:8080" "7203" 2 15000 "/ws".
Definition demo_frames : list (Z * bytes) := [(OP_TEXT, s2l "[1]"); (OP_PING, s2l "p"); (OP_TEXT, s2l "[2]")].
Definition demo_encoded : list bytes := omap (fun f => match encode_frame f.1 f.2 with Ok l => Some l | Raise _ => None end) demo_frames.
Definition demo_accept : str := Eval vm_compute in
  match compute_accept_key (l2s (b64encode (replicate 16 Byte.x00))) with Ok s => s | Raise _ => "" end.
Definition demo_stream : bytes := Eval vm_compute in upgrade_head demo_accept ++ concat demo_encoded.
Definition demo_peer : peer :=
  mkPeer 100 (replicate 64 Byte.x00) [(5, take 50 demo_stream); (200, slice 50 133 demo_stream); (7, drop 133 demo_stream)] [] [] 0 false.

Lemma probe_meets_gateway_witness : exists w' out,
  ws_probe_main 400 demo_probe demo_peer = (w', Ok 0) /\ pe_out w' = [s2l "[1]"; s2l "[2]"] /\
  Forall2 sent_as [(OP_TEXT, sub_payload "7203"); (OP_PONG, s2l "p"); (OP_CLOSE, [])] out.
Proof.
  destruct (probe_meets_gateway demo_page false demo_repr demo_sub 400 demo_probe "localhost" 8080 demo_peer demo_accept) as [_ Hp];
    try (vm_compute; done).
  destruct (Hp demo_frames demo_encoded) as (w' & out & E & _ & Ho & _ & Hout).
  - repeat constructor; vm_compute; congruence.
  - repeat constructor; vm_compute; reflexivity.
  - vm_compute. reflexivity.
  - repeat constructor; vm_compute; congruence.
  - vm_compute. reflexivity.
  - vm_compute. split; congruence.
  - vm_compute. lia.
  - vm_compute. lia.
  - vm_compute. reflexivity.
  - exists w', out. split; [exact E|]. split; [exact Ho|exact Hout].
Defined.

(** A server that says nothing more: the probe gives up when its time is over. *)
Example probe_times_out : snd (ws_probe_main 400 demo_probe (mkPeer 100 (replicate 64 Byte.x00) [(5, demo_stream)] [] [] 0 false)) = Ok 0 /\
  snd (ws_probe_main 400 (mkWsArgs "localhost:8080" "7203" 3 15000 "/ws") demo_peer) = Ok 1.
Proof. vm_compute. split; reflexivity. Qed.
