(* ===== verification/CompareDb.v ===== *)
(** tools/dbquery.py and tools/compare_db_dump.py: jnxdb's tables against a dumped
    directory.

    jnxdb is at rest while it is compared: a connection is answered by the command line
    alone ([Jnxdb]).  Files are read as ASCII text, so a file that is not raises where a
    UTF-8 locale reads it.  An issue is the data of the line printed for it. *)
From S2P Require Export StateDump DbQuery.

#[global] Set Default Goal Selector "!".

(** * tools/dbquery.py *)

(** What jnxdb does: whether it can be connected to, and for a line sent the pieces
    [recv] returns, then the end of the stream or an exception. *)
Record Jnxdb : Type := mkJnxdb { db_connect : res (); db_reply : bytes -> list bytes * res () }.

(** The [while] of [query]. *)
Fixpoint recv_reply (chunks : list bytes) (ended : res ()) (joined : bytes) : res bytes :=
  match chunks with
  | [] => _ ← ended; Ok joined
  | [] :: _ => Ok joined
  | data :: chunks =>
      if complete_reply (joined ++ data) then Ok (joined ++ data) else recv_reply chunks ended (joined ++ data)
  end.

Definition query (db : Jnxdb) (line : str) : res (list str) :=
  _ ← db_connect db;
  command ← encode_ascii line;
  let '(chunks, ended) := db_reply db (command ++ [nl]) in
  text ← recv_reply chunks ended [];
  Ok (reply_lines (decode_ascii_replace text)).

Definition is_ERR (lines : list str) : bool :=
  match lines with l :: _ => startswith (s2l "ERR") (s2l l) | [] => false end.

(** [main]: the lines printed and the exit code. *)
Definition dbquery_main (db : Jnxdb) (words : list str) : res (list str * Z) :=
  match query db (str_join " " words) with
  | Ok lines => Ok (lines, if is_ERR lines then 1 else 0)
  | Raise e => if is_OSError e then Ok ([], 2) else Raise e
  end.

(** * tools/compare_db_dump.py *)

Definition raw_price (text : str) : res (option Z) :=
  let text := strip_b is_ws (s2l text) in
  if decide (text = s2l "-") then Ok None
  else
    match split1 "."%byte text with
    | Some (whole, frac) => w ← py_int (l2s whole); f ← py_int (l2s frac); Ok (Some (w * 10 + f))
    | None => w ← py_int (l2s text); Ok (Some (w * 10))
    end.

(** The lines of a text file, with universal newlines; [cur] is the line so far,
    reversed. *)
Fixpoint text_lines (l cur : bytes) : list bytes :=
  match l with
  | [] => match cur with [] => [] | _ => [rev cur] end
  | b :: t =>
      if b2z b =? 10 then rev cur :: text_lines t []
      else if b2z b =? 13 then
        rev cur :: match t with c :: t' => if b2z c =? 10 then text_lines t' [] else text_lines t [] | [] => [] end
      else text_lines t (b :: cur)
  end.

Definition cells (ln : str) : list str := l2s <$> split_b (s2l ",") (s2l ln).
(** [dict(zip(header, cells))] *)
Definition row_dict (header ln : list str) : list (str * str) :=
  foldl (fun d (kv : str * str) => dset kv.1 kv.2 d) [] (zip header ln).
Definition col (k : str) (d : list (str * str)) : res str := of_option KeyError (dget k d).
(** [int(text) if text else 0] *)
Definition int_or_zero (text : str) : res Z := if decide (text = "") then Ok 0 else py_int text.

(** [\[ln.rstrip("\n") for ln in f if ln.strip()\]] *)
Definition _read_lines (fs : files) (path : str) : res (list str) :=
  l ← of_option OSError (fs !! path);
  text ← decode_ascii l;
  Ok (l2s <$> filter (fun ln => strip_b is_ws ln <> []) (text_lines (s2l text) [])).

Definition read_csv (fs : files) (path : str) : res (list (list (str * str))) :=
  lines ← _read_lines fs path;
  match lines with
  | [] => Raise IndexError
  | header :: lines => Ok ((fun ln => row_dict (cells header) (cells ln)) <$> lines)
  end.

(** [name]'s rows by ticker: a ticker's last row, where its first one was. *)
Definition db_table (db : Jnxdb) (name : str) : res (list (str * list (str * str))) :=
  lines ← query db ("TABLE " +:+ name);
  match lines with
  | [] => Raise IndexError
  | header :: lines =>
      Ok (foldl (fun rows ln =>
        let d := row_dict (cells header) (cells ln) in
        match dget "ticker" d with
        | None | Some "" => rows
        | Some ticker => dset ticker d rows
        end) [] lines)
  end.

Inductive issue : Type :=
| OrdersDiffer (ticker : str) (missing extra differing : list Z)
| OrderCount (db dump : Z)
| NoBookRow (ticker : str)
| LevelsDiffer (ticker side : str)
| TotalsDiffer (ticker side : str) (db dump : option (Z * Z))
| TradedNoRow (ticker : str)
| IntDiffers (ticker key : str) (db dump : Z)
| TradesOnlyInDb (ticker : str)
| StaticsUnknown (ticker : str)
| TextDiffers (ticker key db dump : str)
| DirectorySeen (ticker seen missing : str)
| StatesUnknown (ticker ts ssr ref : str).

Definition check (cond : bool) (what : issue) : list issue := if cond then [] else [what].

(** A loop whose body makes checks. *)
Definition checks {A} (f : A -> res (list issue)) (l : list A) : res (list issue) := ls ← rmap f l; Ok (concat ls).

Inductive printed : Type :=
| Matches (name : str)                                        (* OK *)
| Mismatches (name : str) (count : Z) (shown : list issue) (more : Z).   (* more: 0 prints nothing *)

Definition section_report (name : str) (mismatches : list issue) : M (list printed) bool :=
  match mismatches with
  | [] => mmod (fun out => out ++ [Matches name]) ;; mret true
  | _ => mmod (fun out => out ++ [Mismatches name (zlen mismatches) (take 10 mismatches) (Z.max 0 (zlen mismatches - 10))]) ;; mret false
  end.

(** ** orders *)

(** Side, price and quantity of an order. *)
Definition entry : Type := str * option Z * Z.

(** [want_by_ticker], each ticker's dict in the order of the dump. *)
Definition want_orders (dump_orders : list (list (str * str))) : res (gmap str (list (Z * entry))) :=
  foldl (fun acc o =>
    m ← acc;
    side ← col "side" o; price ← col "price" o; p ← py_int price; qty ← col "remaining_qty" o; q ← py_int qty;
    ticker ← col "orderbook_id" o; number ← col "order_number" o; n ← py_int number;
    Ok (<[ticker := dset n (side, Some p, q) (default [] (m !! ticker))]> m)) (Ok ∅) dump_orders.

(** [got]: the rows of an ORDERS reply. *)
Definition got_orders (lines : list str) : res (gmap Z entry) :=
  match lines with
  | [] => Ok ∅
  | _ :: rows =>
      if is_ERR lines then Ok ∅
      else foldl (fun acc ln =>
        got ← acc;
        match split_ws ln with
        | [n; side; price; qty; _] => p ← raw_price price; q ← py_int qty; n ← py_int n; Ok (<[n := (side, p, q)]> got)
        | _ => Ok got
        end) (Ok ∅) rows
  end.

Definition orders_differ (ticker : str) (got : gmap Z entry) (want : list (Z * entry)) : list issue :=
  let w : gmap Z entry := list_to_map want in
  if decide (got = w) then []
  else [OrdersDiffer ticker
          (take 3 (merge_sort Z.le (elements (dom w ∖ dom got))))
          (take 3 (merge_sort Z.le (elements (dom got ∖ dom w))))
          (take 3 (filter (fun n => is_Some (got !! n) /\ got !! n <> w !! n) (dkeys want)))].

Definition compared_tickers (dump_orders : list (list (str * str))) (db_static : list (str * list (str * str))) : res (list str) :=
  ids ← rmap (col "orderbook_id") dump_orders;
  Ok (merge_sort str_le (elements (list_to_set ids ∪ list_to_set (dkeys db_static) : gset str))).

(** One turn of the loop: [len(got)], and the ticker's issue. *)
Definition compare_ticker (db : Jnxdb) (want_by_ticker : gmap str (list (Z * entry))) (ticker : str) : res (Z * list issue) :=
  lines ← query db ("ORDERS " +:+ ticker);
  got ← got_orders lines;
  Ok (Z.of_nat (size got), orders_differ ticker got (default [] (want_by_ticker !! ticker))).

Definition orders_section (db : Jnxdb) (dump_orders : list (list (str * str))) (db_static : list (str * list (str * str))) : res (list issue) :=
  tickers ← compared_tickers dump_orders db_static;
  want_by_ticker ← want_orders dump_orders;
  l ← rmap (compare_ticker db want_by_ticker) tickers;
  let db_order_count := zsum l.*1 in
  Ok (concat l.*2 ++ check (db_order_count =? zlen dump_orders) (OrderCount db_order_count (zlen dump_orders))).

(** ** books *)

Record wanted_books : Type := mkWantedBooks { wb_levels : gmap (str * str) (list (Z * Z * Z)); wb_totals : gmap (str * str) (Z * Z) }.

(** The first 10 level rows of each ticker and side, and the total rows. *)
Definition want_books (dump_books : list (list (str * str))) : res wanted_books :=
  foldl (fun acc row =>
    w ← acc;
    oid ← col "orderbook_id" row; side ← col "side" row; kind ← col "kind" row;
    if decide (kind = "level") then
      let lst := default [] (wb_levels w !! (oid, side)) in
      if (length lst <? 10)%nat then
        price ← col "price" row; p ← py_int price; qty ← col "qty" row; q ← py_int qty; count ← col "order_count" row; n ← py_int count;
        Ok (mkWantedBooks (<[(oid, side) := lst ++ [(p, q, n)]]> (wb_levels w)) (wb_totals w))
      else Ok w
    else
      qty ← col "qty" row; q ← py_int qty; count ← col "order_count" row; n ← py_int count;
      Ok (mkWantedBooks (wb_levels w) (<[(oid, side) := (q, n)]> (wb_totals w)))) (Ok (mkWantedBooks ∅ ∅)) dump_books.

Record got_book : Type := mkGotBook { gb_bids : list (option Z * Z * Z); gb_asks : list (option Z * Z * Z); gb_totals : option ((Z * Z) * (Z * Z)) }.

(** [dict(p.split("=") for p in words)] *)
Definition key_values (words : list str) : res (list (str * str)) :=
  foldl (fun acc p =>
    d ← acc;
    match split_b (s2l "=") (s2l p) with [k; v] => Ok (dset (l2s k) (l2s v) d) | _ => Raise ValueError end) (Ok []) words.

Definition totals_line (text : bytes) : res ((Z * Z) * (Z * Z)) :=
  kv ← key_values (split_ws (l2s (drop 8 text)));
  bid_qty ← col "bid_qty" kv; bq ← py_int bid_qty; bid_orders ← col "bid_orders" kv; bn ← py_int bid_orders;
  ask_qty ← col "ask_qty" kv; aq ← py_int ask_qty; ask_orders ← col "ask_orders" kv; an ← py_int ask_orders;
  Ok ((bq, bn), (aq, an)).

Definition contains (pat : str) (ln : str) : bool := bool_decide (is_Some (find_b (s2l pat) (s2l ln))).

Definition book_line (g : got_book) (ln : str) : res got_book :=
  let text := strip_b is_ws (s2l ln) in
  if startswith (s2l "totals:") text then
    t ← totals_line text; Ok (mkGotBook (gb_bids g) (gb_asks g) (Some t))
  else if contains "|" ln && negb (contains "bid_orders" ln) then
    match split_b (s2l "|") (s2l ln) with
    | [lhs; rhs] =>
        bids ← match split_ws (l2s lhs) with
               | [n; q; p] => p ← raw_price p; q ← py_int q; n ← py_int n; Ok (gb_bids g ++ [(p, q, n)])
               | _ => Ok (gb_bids g)
               end;
        asks ← match split_ws (l2s rhs) with
               | [p; q; n] => p ← raw_price p; q ← py_int q; n ← py_int n; Ok (gb_asks g ++ [(p, q, n)])
               | _ => Ok (gb_asks g)
               end;
        Ok (mkGotBook bids asks (gb_totals g))
    | _ => Raise ValueError
    end
  else Ok g.

Definition some_price (l : Z * Z * Z) : option Z * Z * Z := (Some l.1.1, l.1.2, l.2).

Definition compare_book (db : Jnxdb) (w : wanted_books) (ticker : str) : res (list issue) :=
  lines ← query db ("BOOK " +:+ ticker);
  if bool_decide (lines = []) || is_ERR lines then Ok [NoBookRow ticker]
  else
    g ← foldl (fun acc ln => g ← acc; book_line g ln) (Ok (mkGotBook [] [] None)) lines;
    let levels side := some_price <$> default [] (wb_levels w !! (ticker, side)) in
    let totals side got := check (bool_decide (got = wb_totals w !! (ticker, side))) (TotalsDiffer ticker side got (wb_totals w !! (ticker, side))) in
    Ok (check (bool_decide (gb_bids g = levels "B")) (LevelsDiffer ticker "B") ++
        check (bool_decide (gb_asks g = levels "S")) (LevelsDiffer ticker "S") ++
        totals "B" (fst <$> gb_totals g) ++ totals "S" (snd <$> gb_totals g)).

Definition books_section (db : Jnxdb) (dump_books : list (list (str * str))) : res (list issue) :=
  w ← want_books dump_books;
  checks (compare_book db w) (merge_sort str_le (elements (list_to_set (map_to_list (wb_totals w)).*1.*1 : gset str))).

(** ** trades, static, state *)

(** A dict of rows in the order of [sorted(d.items())]: the keys are unique. *)
Definition item_le (a b : str * list (str * str)) : Prop := str_le a.1 b.1.
#[export] Instance item_le_dec : RelDecision item_le.
Proof. intros a b. unfold item_le. apply _. Defined.
Definition sorted_rows (d : list (str * list (str * str))) : list (str * list (str * str)) := merge_sort item_le d.

(** [dict((r\["orderbook_id"\], r) for r in rows)] *)
Definition by_ticker (rows : list (list (str * str))) : res (list (str * list (str * str))) :=
  foldl (fun acc r => d ← acc; ticker ← col "orderbook_id" r; Ok (dset ticker r d)) (Ok []) rows.

Definition TRADE_KEYS : list str := ["trade_count"; "cum_qty"; "cum_turnover"; "last_price"; "last_qty"; "last_match_number"].
Definition STATIC_KEYS : list str := ["round_lot"; "tick_table_id"; "price_decimals"; "upper_limit"; "lower_limit"].

Definition trade_key (ticker : str) (r d : list (str * str)) (k : str) : res (list issue) :=
  text ← col k r; want_v ← int_or_zero text;
  db_text ← col k d; got_v ← py_int db_text;
  Ok (check (got_v =? want_v) (IntDiffers ticker k got_v want_v)).

Definition compare_trades (db_trades : list (str * list (str * str))) (tr : str * list (str * str)) : res (list issue) :=
  match dget tr.1 db_trades with
  | None => Ok [TradedNoRow tr.1]
  | Some d => checks (trade_key tr.1 tr.2 d) TRADE_KEYS
  end.
Definition trades_only_in_db (dump_by_ticker : list (str * list (str * str))) (td : str * list (str * str)) : res (list issue) :=
  text ← col "trade_count" td.2; n ← py_int text;
  Ok (check (negb ((0 <? n) && bool_decide (dget td.1 dump_by_ticker = None))) (TradesOnlyInDb td.1)).

Definition trades_section (dump_trades : list (list (str * str))) (db_trades : list (str * list (str * str))) : res (list issue) :=
  dump_by_ticker ← by_ticker dump_trades;
  l ← checks (compare_trades db_trades) (sorted_rows dump_by_ticker);
  l' ← checks (trades_only_in_db dump_by_ticker) (sorted_rows db_trades);
  Ok (l ++ l').

Definition static_key (ticker : str) (r d : list (str * str)) (k : str) : res (list issue) :=
  text ← col k r; want_v ← int_or_zero text;
  db_text ← col k d; got_v ← py_int db_text;
  Ok (check (got_v =? want_v) (IntDiffers ticker k got_v want_v)).

(** [d\[k\] == v], as a step of a conjunction. *)
Definition col_is (k v : str) (d : list (str * str)) (rest : res bool) : res bool :=
  x ← col k d; if decide (x = v) then rest else Ok false.

Definition compare_static (ref_by_ticker : list (str * list (str * str))) (td : str * list (str * str)) : res (list issue) :=
  let '(ticker, d) := td in
  match dget ticker ref_by_ticker with
  | None =>
      absent ← col_is "directory_seen" "0" d (col_is "isin" "" d (col_is "round_lot" "0" d (Ok true)));
      Ok (check absent (StaticsUnknown ticker))
  | Some r =>
      isin ← col "isin" d; want_isin ← col "isin" r;
      l ← checks (static_key ticker r d) STATIC_KEYS;
      missing ← col "directory_missing" r;
      let want_seen := if decide (missing = "1") then "0" else "1" in
      seen ← col "directory_seen" d;
      Ok (check (bool_decide (isin = want_isin)) (TextDiffers ticker "isin" isin want_isin) ++ l ++
          check (bool_decide (seen = want_seen)) (DirectorySeen ticker seen missing))
  end.
Definition static_section (ref_by_ticker db_static : list (str * list (str * str))) : res (list issue) :=
  checks (compare_static ref_by_ticker) (sorted_rows db_static).

Definition compare_state (ref_by_ticker : list (str * list (str * str))) (td : str * list (str * str)) : res (list issue) :=
  let '(ticker, d) := td in
  match dget ticker ref_by_ticker with
  | None =>
      unknown ← col_is "trading_state" "?" d (col_is "short_sell_restriction" "?" d (col_is "reference_price" "0" d (Ok true)));
      ts ← col "trading_state" d; ssr ← col "short_sell_restriction" d; ref ← col "reference_price" d;
      Ok (check unknown (StatesUnknown ticker ts ssr ref))
  | Some r =>
      ts ← col "trading_state" d; want_ts ← col "trading_state" r;
      ssr ← col "short_sell_restriction" d; want_ssr ← col "short_sell_state" r;
      text ← col "reference_price" r; want_ref ← int_or_zero text;
      db_text ← col "reference_price" d; got_ref ← py_int db_text;
      Ok (check (bool_decide (ts = want_ts)) (TextDiffers ticker "trading_state" ts want_ts) ++
          check (bool_decide (ssr = want_ssr)) (TextDiffers ticker "short_sell" ssr want_ssr) ++
          check (got_ref =? want_ref) (IntDiffers ticker "reference_price" got_ref want_ref))
  end.
Definition state_section (ref_by_ticker db_state : list (str * list (str * str))) : res (list issue) :=
  checks (compare_state ref_by_ticker) (sorted_rows db_state).

(** ** [main]: the reports printed, and the exit code *)

Definition run_section (name : str) (section : res (list issue)) (ok : bool) : M (list printed) bool :=
  mismatches ← mlift section;
  r ← section_report name mismatches;
  mret (r && ok).

Definition compare_main (db : Jnxdb) (fs : files) (dump_dir : str) : list printed * res Z :=
  (dump_orders ← mlift (read_csv fs (csv_path dump_dir "orders.csv"));
   dump_books ← mlift (read_csv fs (csv_path dump_dir "books.csv"));
   dump_trades ← mlift (read_csv fs (csv_path dump_dir "trades.csv"));
   dump_refdata ← mlift (read_csv fs (csv_path dump_dir "refdata.csv"));
   db_static ← mlift (db_table db "static");
   db_state ← mlift (db_table db "state");
   db_trades ← mlift (db_table db "trades");
   ok ← run_section "orders" (orders_section db dump_orders db_static) true;
   ok ← run_section "books" (books_section db dump_books) ok;
   ok ← run_section "trades" (trades_section dump_trades db_trades) ok;
   ref_by_ticker ← mlift (by_ticker dump_refdata);
   ok ← run_section "static" (static_section ref_by_ticker db_static) ok;
   ok ← run_section "state" (state_section ref_by_ticker db_state) ok;
   mret (if ok : bool then 0 else 1)) [].

(** * Facts *)

(** ** One query *)

(** jnxdb answers the command with these lines, in any pieces. *)
Definition serves (db : Jnxdb) (line : str) (lines : list bytes) : Prop :=
  forallb is_ascii (s2l line) = true /\ db_connect db = Ok () /\
  exists chunks ended, db_reply db (s2l line ++ [nl]) = (chunks, ended) /\ Forall (fun c => c <> []) chunks /\ concat chunks = reply_of lines.

Lemma recv_reply_whole ls chunks ended : Forall (fun l => line_ok l = true) ls -> Forall (fun c => c <> []) chunks -> forall joined,
  chunks <> [] -> joined ++ concat chunks = reply_of ls -> recv_reply chunks ended joined = Ok (reply_of ls).
Proof.
  intros Hls. induction 1 as [|c chunks Hc Hcs IH]; intros joined Hn E; [done|]. cbn [recv_reply].
  destruct c as [|b c]; [done|]. cbn [concat] in E. rewrite app_assoc in E.
  destruct (complete_reply (joined ++ b :: c)) eqn:Ec.
  - destruct (concat chunks) as [|x t] eqn:Et; [by rewrite app_nil_r in E; rewrite E|].
    exfalso. rewrite (complete_prefix ls (joined ++ b :: c) (x :: t)) in Ec; [done..|exact E].
  - destruct chunks as [|c' chunks]; [|by apply IH]. exfalso. cbn in E. rewrite app_nil_r in E. by rewrite E, complete_whole in Ec.
Qed.

Lemma query_serves db line lines : serves db line lines -> Forall (fun l => line_ok l = true) lines -> query db line = Ok (l2s <$> lines).
Proof.
  intros (Ha & Hc & chunks & ended & Er & Hne & E) Hl. unfold query, encode_ascii. rewrite Hc, Ha. cbn [mbind res_bind]. rewrite Er.
  rewrite (recv_reply_whole lines chunks ended Hl Hne []); [cbn [mbind res_bind]; by rewrite reply_lines_of| |done].
  intros ->. cbn in E. unfold reply_of in E. rewrite lines_bytes_app in E. destruct (lines_bytes lines); done.
Qed.

(** ** A CSV file read back *)

Definition is_cell (b : byte) : bool := is_ascii b && negb (b2z b =? 10) && negb (b2z b =? 13) && negb (b2z b =? 44).
Definition is_text (b : byte) : bool := is_ascii b && negb (b2z b =? 10) && negb (b2z b =? 13).
Definition cell_ok (s : str) : bool := forallb is_cell (s2l s).

Lemma text_lines_cur l t cur : forallb is_text l = true -> text_lines (l ++ nl :: t) cur = (rev cur ++ l) :: text_lines t [].
Proof.
  revert cur. induction l as [|b l IH]; intros cur Hl; cbn [app text_lines].
  - change (b2z nl =? 10) with true. cbn iota. by rewrite app_nil_r.
  - cbn [forallb] in Hl. apply andb_true_iff in Hl as [[[_ H1]%andb_true_iff H2]%andb_true_iff Hl].
    apply negb_true_iff in H1, H2. rewrite H1, H2, IH by done. cbn [rev]. by rewrite <- app_assoc.
Qed.
Lemma text_lines_all ls : Forall (fun l => forallb is_text l = true) ls -> text_lines (lines_bytes ls) [] = ls.
Proof. induction 1 as [|l ls Hl _ IH]; [done|]. rewrite lines_bytes_cons, text_lines_cur by done. cbn [rev app]. by rewrite IH. Qed.

Lemma strip_visible p b l : b ∈ l -> p b = false -> strip_b p l <> [].
Proof.
  intros Hin Hb E. assert (forall l, rstrip_b p l = [] -> b ∉ l) as Hr.
  { clear - Hb. induction l as [|a l IH]; intros E Hin; [by apply not_elem_of_nil in Hin|]. cbn in E.
    destruct (rstrip_b p l) eqn:Er; [|done]. destruct (p a) eqn:Ea; [|done].
    apply elem_of_cons in Hin as [->|Hin]; [congruence|by apply IH]. }
  assert (forall l, lstrip_b p l = [] -> b ∉ l) as Hl.
  { clear - Hb. induction l as [|a l IH]; intros E Hin; [by apply not_elem_of_nil in Hin|]. cbn in E.
    destruct (p a) eqn:Ea; [|done]. apply elem_of_cons in Hin as [->|Hin]; [congruence|by apply IH]. }
  apply Hl in E. revert Hin E. clear Hl. induction l as [|a l IH]; intros Hin; [by apply not_elem_of_nil in Hin|]. cbn [rstrip_b].
  apply elem_of_cons in Hin as [<-|Hin].
  - destruct (rstrip_b p l); [rewrite Hb|]; intros H; apply H; left.
  - intros H. specialize (IH Hin). destruct (rstrip_b p l) as [|x r] eqn:Er; [by apply Hr in Er|]. apply IH. intros Hx. apply H. by right.
Qed.

Lemma csv_text_lines header lines : csv_text header lines = lines_bytes (s2l <$> (header :: lines)).
Proof.
  unfold csv_text. induction (header :: lines) as [|l ls IH]; [done|]. cbn [foldr]. rewrite fmap_cons, lines_bytes_cons, <- IH.
  rewrite !s2l_cat. unfold newline. by rewrite s2l_l2s.
Qed.

Lemma l2s_s2l_map (l : list str) : l2s <$> (s2l <$> l) = l.
Proof. induction l as [|x l IH]; [done|]. by rewrite !fmap_cons, IH, l2s_s2l. Qed.

Lemma cells_csv_line l : l <> [] -> Forall (fun s => cell_ok s = true) l -> cells (csv_line l) = l.
Proof.
  intros Hn Hl. unfold cells, csv_line, str_join.
  assert (s2l (String.concat "," l) = PyText.join (s2l ",") (s2l <$> l)) as ->.
  { clear. destruct l as [|x l]; [done|]. revert x. induction l as [|y l IH]; intros x; [cbn; by rewrite app_nil_r|].
    change (String.concat "," (x :: y :: l)) with (x +:+ "," +:+ String.concat "," (y :: l)). rewrite !s2l_cat, IH. done. }
  destruct l as [|x l]; [done|]. rewrite fmap_cons. change (s2l ",") with [","%byte]. rewrite split_b_join.
  - rewrite <- fmap_cons. apply l2s_s2l_map.
  - rewrite <- fmap_cons. apply Forall_fmap. eapply Forall_impl; [exact Hl|]. intros s Hs Hin. unfold cell_ok in Hs.
    rewrite forallb_forall in Hs. specialize (Hs ","%byte). rewrite <- list_elem_of_In in Hs. by apply Hs in Hin.
Qed.

Lemma csv_line_text l : Forall (fun s => cell_ok s = true) l -> forallb is_text (s2l (csv_line l)) = true.
Proof.
  assert (forall s, cell_ok s = true -> forallb is_text (s2l s) = true) as Hc.
  { intros s. apply forallb_impl. by intros b [H _]%andb_true_iff. }
  unfold csv_line, str_join. induction 1 as [|x l Hx Hl IH]; [done|]. destruct l as [|y l]; [by apply Hc|].
  change (String.concat "," (x :: y :: l)) with (x +:+ "," +:+ String.concat "," (y :: l)).
  rewrite !s2l_cat, !forallb_app, IH, Hc by done. done.
Qed.

(** A line of [csv_line] cells, one of them not blank. *)
Definition csv_row_ok (l : list str) : Prop := Forall (fun s => cell_ok s = true) l /\ exists s b, s ∈ l /\ b ∈ s2l s /\ is_ws b = false.

Lemma elem_csv_line s b l : s ∈ l -> b ∈ s2l s -> b ∈ s2l (csv_line l).
Proof.
  unfold csv_line, str_join. induction l as [|x l IH]; intros Hs Hb; [by apply not_elem_of_nil in Hs|]. destruct l as [|y l].
  - by apply list_elem_of_singleton in Hs as ->.
  - change (String.concat "," (x :: y :: l)) with (x +:+ "," +:+ String.concat "," (y :: l)). rewrite !s2l_cat, !elem_of_app.
    apply elem_of_cons in Hs as [->|Hs]; [by left|right; right; by apply IH].
Qed.

Lemma read_csv_text fs path header lines : fs !! path = Some (csv_text (csv_line header) (csv_line <$> lines)) ->
  csv_row_ok header -> Forall csv_row_ok lines -> read_csv fs path = Ok (row_dict header <$> lines).
Proof.
  intros Hf Hh Hl. unfold read_csv, _read_lines. rewrite Hf, csv_text_lines, <- fmap_cons. cbn [of_option mbind res_bind].
  assert (Forall csv_row_ok (header :: lines)) as Hall by by constructor.
  assert (Forall (fun l => forallb is_text l = true) (s2l <$> (csv_line <$> header :: lines))) as Ht.
  { do 2 apply Forall_fmap. eapply Forall_impl; [exact Hall|]. intros l [H _]. by apply csv_line_text. }
  unfold decode_ascii. rewrite lines_bytes_ascii.
  2: { eapply Forall_impl; [exact Ht|]. intros l. apply forallb_impl. by intros b [[H _]%andb_true_iff _]%andb_true_iff. }
  cbn [mbind res_bind]. rewrite s2l_l2s, text_lines_all by done. cbn [mbind res_bind].
  assert (filter (fun ln => strip_b is_ws ln <> []) (s2l <$> (csv_line <$> header :: lines)) = s2l <$> (csv_line <$> header :: lines)) as ->.
  { clear - Hall. induction Hall as [|l ls [_ (s & b & Hs & Hb & Hw)] Hls IH]; [done|]. rewrite !fmap_cons, filter_cons, decide_True, IH; [done|].
    eapply strip_visible; [|exact Hw]. by eapply elem_csv_line. }
  rewrite l2s_s2l_map, fmap_cons.
  assert (forall l, csv_row_ok l -> cells (csv_line l) = l) as Hc.
  { intros l [H (s & _ & Hs & _)]. apply cells_csv_line; [|done]. intros ->. by apply not_elem_of_nil in Hs. }
  rewrite Hc by done. f_equal. rewrite <- list_fmap_compose. clear - Hl Hc. induction Hl as [|l ls Hl Hls IH]; [done|].
  rewrite !fmap_cons, IH. f_equal. unfold compose. by rewrite Hc.
Qed.

(** ** The orders file *)

Definition ORDER_COLUMNS : list str := ["order_number"; "orderbook_id"; "group"; "side"; "price"; "remaining_qty"].
Definition order_cells (o : Order) : list str :=
  [py_str (o_order_number o); o_orderbook_id o; o_group o; o_side o; py_str (o_price o); py_str (o_remaining_qty o)].

(** An order whose text and numbers the file can carry. *)
Definition order_plain (o : Order) : bool :=
  (0 <=? o_order_number o) && (0 <=? o_price o) && (0 <=? o_remaining_qty o) &&
  cell_ok (o_orderbook_id o) && cell_ok (o_group o) && cell_ok (o_side o).

Lemma digits_cell z : 0 <= z -> cell_ok (py_str z) = true.
Proof.
  intros Hz. unfold cell_ok, py_str. rewrite s2l_l2s, py_str_b_nonneg by done. eapply forallb_impl; [|by apply dec_bytes_digits].
  intros b [H1 H2]%is_dec_bounds. unfold is_cell, is_ascii. rewrite (proj2 (Z.ltb_lt _ _)) by lia.
  rewrite !(proj2 (Z.eqb_neq _ _)) by lia. done.
Qed.

Lemma order_cells_ok o : order_plain o = true -> csv_row_ok (order_cells o).
Proof.
  intros [[[[[H1%Z.leb_le H2%Z.leb_le]%andb_true_iff H3%Z.leb_le]%andb_true_iff H4]%andb_true_iff H5]%andb_true_iff H6]%andb_true_iff.
  split; [by repeat constructor; first [done|apply digits_cell]|].
  exists (py_str (o_order_number o)). unfold py_str at 2. rewrite s2l_l2s, py_str_b_nonneg by done.
  destruct (dec_bytes (o_order_number o)) as [|b l] eqn:E; [by apply dec_bytes_nonempty in E|]. exists b.
  split; [left|]. split; [left|]. apply is_dec_not_ws. pose proof (dec_bytes_digits _ H1) as Hd. rewrite E in Hd. by apply andb_true_iff in Hd as [? _].
Qed.

Lemma read_orders fs path os : fs !! path = Some (csv_text orders_header (order_line <$> os)) -> forallb order_plain os = true ->
  read_csv fs path = Ok ((fun o => row_dict ORDER_COLUMNS (order_cells o)) <$> os).
Proof.
  intros Hf Ho. rewrite (read_csv_text fs path ORDER_COLUMNS (order_cells <$> os)).
  - by rewrite <- list_fmap_compose.
  - rewrite Hf, <- list_fmap_compose. done.
  - split; [by repeat constructor|]. exists "side", "s"%byte. by vm_compute; split_and!; [do 3 right; left|left|].
  - apply Forall_fmap. apply Forall_forall. intros o Hin. apply order_cells_ok. rewrite forallb_forall in Ho. by apply Ho, list_elem_of_In.
Qed.

Lemma order_cols o : let d := row_dict ORDER_COLUMNS (order_cells o) in
  col "side" d = Ok (o_side o) /\ col "price" d = Ok (py_str (o_price o)) /\ col "remaining_qty" d = Ok (py_str (o_remaining_qty o)) /\
  col "orderbook_id" d = Ok (o_orderbook_id o) /\ col "order_number" d = Ok (py_str (o_order_number o)).
Proof. by split_and!. Qed.

(** ** What is compared *)

Definition entry_of (o : Order) : entry := (o_side o, Some (o_price o), o_remaining_qty o).
Definition ticker_orders (t : str) (os : list Order) : list Order := filter (fun o => o_orderbook_id o = t) os.
(** The live orders of a ticker, by number. *)
Definition live_entries (t : str) (os : list Order) : gmap Z entry :=
  list_to_map ((fun o => (o_order_number o, entry_of o)) <$> ticker_orders t os).

Lemma foldl_raise {A B} (f : res B -> A -> res B) e l : (forall x, f (Raise e) x = Raise e) -> foldl f (Raise e) l = Raise e.
Proof. intros Hf. induction l as [|x l IH]; [done|]. cbn. by rewrite Hf. Qed.

Lemma list_to_map_dset (n : Z) (e : entry) d : (list_to_map (dset n e d) : gmap Z entry) = <[n := e]> (list_to_map d).
Proof.
  induction d as [|[k v] d IH]; [done|]. cbn [dset]. case_decide as Hk; [subst; cbn; by rewrite insert_insert_eq|].
  rewrite !list_to_map_cons, IH. by apply insert_insert_ne.
Qed.

Lemma of_ticker_app t os o : ticker_orders t (os ++ [o]) = ticker_orders t os ++ (if decide (o_orderbook_id o = t) then [o] else []).
Proof. unfold ticker_orders. by rewrite filter_app. Qed.

Lemma of_ticker_numbers t os o : o_order_number o ∉ o_order_number <$> os ->
  o_order_number o ∉ ((fun o => (o_order_number o, entry_of o)) <$> ticker_orders t os).*1.
Proof.
  intros Hn (x & E & (o' & -> & Hin)%list_elem_of_fmap)%list_elem_of_fmap. apply Hn. apply list_elem_of_fmap.
  exists o'. split; [exact E|]. by apply list_elem_of_filter in Hin as [_ ?].
Qed.

Lemma want_orders_live os : NoDup (o_order_number <$> os) -> forallb order_plain os = true ->
  exists m, want_orders ((fun o => row_dict ORDER_COLUMNS (order_cells o)) <$> os) = Ok m /\
    forall t, (list_to_map (default [] (m !! t)) : gmap Z entry) = live_entries t os.
Proof.
  unfold want_orders. induction os as [|o os IH] using rev_ind; intros Hnd Hp; [exists ∅; split; [done|]; intros t; by rewrite lookup_empty|].
  rewrite fmap_app in Hnd. apply NoDup_app in Hnd as (Hnd & Hd & _).
  rewrite forallb_app in Hp. apply andb_true_iff in Hp as [Hp [Ho _]%andb_true_iff].
  destruct (IH Hnd Hp) as (m & E & Hm). rewrite fmap_app, foldl_app, E. cbn [fmap list_fmap foldl].
  destruct (order_cols o) as (-> & -> & -> & -> & ->). cbn [mbind res_bind].
  apply andb_true_iff in Ho as [[[[[H1%Z.leb_le H2%Z.leb_le]%andb_true_iff H3%Z.leb_le]%andb_true_iff _]%andb_true_iff _]%andb_true_iff _].
  rewrite !py_int_str by done. eexists. split; [reflexivity|]. intros t. unfold live_entries. rewrite of_ticker_app.
  assert (o_order_number o ∉ o_order_number <$> os) as Hn by (intros Hin; apply (Hd _ Hin); by apply list_elem_of_singleton).
  case_decide as Ht.
  - subst t. rewrite lookup_insert_eq. cbn [from_option id]. rewrite list_to_map_dset, Hm, fmap_app. cbn [fmap list_fmap].
    unfold live_entries. by rewrite list_to_map_snoc by by apply of_ticker_numbers.
  - rewrite lookup_insert_ne, app_nil_r by done. apply Hm.
Qed.

(** An order of jnxdb, and the words of its row. *)
Record db_order : Type := mkDbOrder { d_number : Z; d_side : str; d_price : Z; d_qty : Z; d_type : str }.
Definition db_row (r : db_order) : order_row := mkOrderRow (py_str (d_number r)) (d_side r) (price_to_str (d_price r)) (d_qty r) (d_type r).
Definition db_order_ok (r : db_order) : bool :=
  (0 <=? d_number r) && (0 <=? d_price r) && (0 <=? d_qty r) && word_ok (d_side r) && word_ok (d_type r).

(** What the comparison reads of a row: no price is shown as a dash. *)
Definition db_entry (r : db_order) : entry := (d_side r, if d_price r =? NO_PRICE then None else Some (d_price r), d_qty r).
Definition db_entries (rows : list db_order) : gmap Z entry := foldl (fun m r => <[d_number r := db_entry r]> m) ∅ rows.

Lemma raw_price_text p : 0 <= p -> raw_price (price_to_str p) = Ok (if p =? NO_PRICE then None else Some p).
Proof.
  intros Hp. unfold price_to_str. destruct (Z.eqb_spec p NO_PRICE) as [->|Hn]; [by vm_compute|].
  assert (0 <= p / 10) by (apply Z.div_pos; lia). pose proof (Z.mod_pos_bound p 10 ltac:(lia)) as Hm. rewrite !py_str_b_nonneg by lia.
  assert (forallb is_dec (dec_bytes (p / 10)) = true) as Hw by (apply dec_bytes_digits; lia).
  assert (forallb is_dec (dec_bytes (p mod 10)) = true) as Hd by (apply dec_bytes_digits; lia).
  destruct (price_text_shape _ _ Hw (dec_bytes_nonempty _) Hd (dec_bytes_nonempty _)) as [Hs Hnd].
  unfold raw_price. rewrite s2l_l2s, Hs, decide_False by done. rewrite split1_app by by apply (digits_not_elem "."%byte _ Hw).
  rewrite !py_int_dec by (done || apply dec_bytes_nonempty). cbn [mbind res_bind]. rewrite !dec_bytes_val by lia. do 2 f_equal. dlia.
Qed.

Lemma word_plain s : s <> "" -> forallb plain_b (s2l s) = true -> word_ok s = true.
Proof.
  intros Hn Hp. unfold word_ok. rewrite Hp. apply negb_true_iff, bool_decide_eq_false. intros E. apply Hn. apply s2l_inj. done.
Qed.

Lemma db_row_ok r : db_order_ok r = true -> order_row_ok (db_row r) = true.
Proof.
  intros [[[[H1%Z.leb_le H2%Z.leb_le]%andb_true_iff H3]%andb_true_iff H4]%andb_true_iff H5]%andb_true_iff.
  unfold order_row_ok, db_row. cbn [w_order_number w_side w_price w_qty_remaining w_order_type]. rewrite H3, H4, H5.
  assert (word_ok (py_str (d_number r)) = true) as ->.
  { unfold word_ok, py_str. rewrite s2l_l2s, plain_py_str by done. rewrite py_str_b_nonneg by done.
    apply negb_true_iff, bool_decide_eq_false. apply dec_bytes_nonempty. }
  assert (word_ok (price_to_str (d_price r)) = true) as ->; [|done].
  unfold price_to_str. destruct (Z.eqb_spec (d_price r) NO_PRICE); [by vm_compute|]. assert (0 <= d_price r / 10) by (apply Z.div_pos; lia).
  pose proof (Z.mod_pos_bound (d_price r) 10 ltac:(lia)). unfold word_ok. rewrite s2l_l2s, forallb_app. cbn [forallb].
  rewrite !plain_py_str by lia. apply negb_true_iff, bool_decide_eq_false. by destruct (py_str_b (d_price r / 10)).
Qed.

Lemma got_orders_rows rows : forallb db_order_ok rows = true -> got_orders (l2s <$> orders_lines (db_row <$> rows)) = Ok (db_entries rows).
Proof.
  intros Hr. unfold orders_lines. rewrite fmap_cons. unfold got_orders. change (is_ERR (l2s (s2l _) :: _)) with false. cbn iota.
  unfold db_entries. generalize (∅ : gmap Z entry). induction rows as [|r rows IH]; intros m; [done|].
  cbn [forallb] in Hr. apply andb_true_iff in Hr as [Ho Hr]. cbn [fmap list_fmap foldl]. rewrite <- IH by done. f_equal.
  cbn [mbind res_bind]. pose proof (order_words_ok _ (db_row_ok r Ho)) as Hw. unfold split_ws. rewrite s2l_l2s, split_words_join by (eapply Forall_impl; [exact Hw|]; by intros ? [? _]).
  apply andb_true_iff in Ho as [[[[H1%Z.leb_le H2%Z.leb_le]%andb_true_iff H3%Z.leb_le]%andb_true_iff _]%andb_true_iff _].
  unfold order_words, db_row. cbn [fmap list_fmap w_order_number w_side w_price w_qty_remaining w_order_type]. rewrite !l2s_s2l.
  rewrite raw_price_text by done. cbn [mbind res_bind]. fold (py_str (d_qty r)). rewrite !py_int_str by done. done.
Qed.

(** ** The section *)

(** jnxdb's answer to ORDERS: the rows of its orders, or an error when it has none. *)
Definition serves_orders (db : Jnxdb) (t : str) (rows : list db_order) : Prop :=
  forallb db_order_ok rows = true /\
  (serves db ("ORDERS " +:+ t) (orders_lines (db_row <$> rows)) \/ rows = [] /\ serves db ("ORDERS " +:+ t) [s2l "ERR unknown"]).

Lemma rmap_total {A B} (f : A -> res B) g l : (forall x, x ∈ l -> f x = Ok (g x)) -> rmap f l = Ok (g <$> l).
Proof.
  induction l as [|x l IH]; intros Hf; [done|]. cbn [rmap]. rewrite Hf by left. cbn [mbind res_bind].
  rewrite IH by (intros y Hy; apply Hf; by right). done.
Qed.

Lemma compare_ticker_rows db want t rows : serves_orders db t rows ->
  compare_ticker db want t = Ok (Z.of_nat (size (db_entries rows)), orders_differ t (db_entries rows) (default [] (want !! t))).
Proof.
  intros [Hr [Hs|[-> Hs]]]; unfold compare_ticker.
  - rewrite (query_serves _ _ _ Hs). 2: { apply orders_lines_ok, Forall_fmap, Forall_forall. intros r Hin. apply db_row_ok.
      rewrite forallb_forall in Hr. by apply Hr, list_elem_of_In. }
    cbn [mbind res_bind]. by rewrite got_orders_rows.
  - rewrite (query_serves _ _ _ Hs) by by repeat constructor. done.
Qed.

Lemma orders_differ_nil t got want : orders_differ t got want = [] <-> got = list_to_map want.
Proof. unfold orders_differ. case_decide as Hd; [done|]. split; [done|]. by intros E. Qed.

Lemma compared_tickers_live os statics : exists ts, compared_tickers ((fun o => row_dict ORDER_COLUMNS (order_cells o)) <$> os) statics = Ok ts /\
  NoDup ts /\ forall t, t ∈ ts <-> t ∈ o_orderbook_id <$> os \/ t ∈ dkeys statics.
Proof.
  unfold compared_tickers.
  assert (rmap (col "orderbook_id") ((fun o => row_dict ORDER_COLUMNS (order_cells o)) <$> os) = Ok (o_orderbook_id <$> os)) as ->.
  { induction os as [|o os IH]; [done|]. rewrite !fmap_cons. cbn [rmap]. destruct (order_cols o) as (_ & _ & _ & -> & _). cbn [mbind res_bind]. by rewrite IH. }
  cbn [mbind res_bind]. eexists. split; [reflexivity|]. split; [rewrite merge_sort_Permutation; apply NoDup_elements|].
  intros t. rewrite merge_sort_Permutation. set_solver.
Qed.

Lemma list_to_map_size (l : list (Z * entry)) : NoDup l.*1 -> size (list_to_map l : gmap Z entry) = length l.
Proof.
  induction l as [|[k v] l IH]; intros Hn; [done|]. cbn in Hn. apply NoDup_cons in Hn as [Hk Hn].
  rewrite list_to_map_cons, map_size_insert_None by by apply not_elem_of_list_to_map_1. by rewrite IH.
Qed.

Lemma live_entries_size t os : NoDup (o_order_number <$> os) -> size (live_entries t os) = length (ticker_orders t os).
Proof.
  intros Hn. unfold live_entries. rewrite list_to_map_size; [by rewrite length_fmap|]. rewrite <- list_fmap_compose.
  unfold ticker_orders. induction os as [|o os IH]; [constructor|]. cbn in Hn. apply NoDup_cons in Hn as [Ho Hn]. rewrite filter_cons.
  case_decide; [|by apply IH]. rewrite fmap_cons. constructor; [|by apply IH].
  intros (o' & E & Hin)%list_elem_of_fmap. apply Ho, list_elem_of_fmap. exists o'. split; [exact E|]. by apply list_elem_of_filter in Hin as [_ ?].
Qed.

Lemma zsum_tickers ts os : NoDup ts -> (forall o, o ∈ os -> o_orderbook_id o ∈ ts) -> zsum ((fun t => zlen (ticker_orders t os)) <$> ts) = zlen os.
Proof.
  intros Hnd. induction os as [|o os IH]; intros Hin; [by apply zsum_map_zero|].
  rewrite (list_fmap_ext _ (fun t => (if decide (o_orderbook_id o = t) then 1 else 0) + zlen (ticker_orders t os)) ts).
  - rewrite zsum_map_add, IH by (intros o' Ho'; apply Hin; by right). rewrite zsum_pick by (done || apply Hin; left). unfold zlen. cbn [length]. lia.
  - intros i t _. unfold ticker_orders. rewrite filter_cons. case_decide; unfold zlen; cbn [length]; lia.
Qed.

Lemma orders_section_exact db os statics rows : NoDup (o_order_number <$> os) -> forallb order_plain os = true ->
  (forall t, t ∈ o_orderbook_id <$> os \/ t ∈ dkeys statics -> serves_orders db t (rows t)) ->
  exists issues, orders_section db ((fun o => row_dict ORDER_COLUMNS (order_cells o)) <$> os) statics = Ok issues /\
    (issues = [] <-> forall t, t ∈ o_orderbook_id <$> os \/ t ∈ dkeys statics -> db_entries (rows t) = live_entries t os).
Proof.
  intros Hnd Hp Hs. unfold orders_section. destruct (compared_tickers_live os statics) as (ts & -> & Hts & Hin).
  destruct (want_orders_live os Hnd Hp) as (want & -> & Hw). cbn [mbind res_bind].
  rewrite (rmap_total _ (fun t => (Z.of_nat (size (db_entries (rows t))), orders_differ t (db_entries (rows t)) (default [] (want !! t))))).
  2: { intros t Ht. by apply compare_ticker_rows, Hs, Hin. }
  cbn [mbind res_bind]. eexists. split; [reflexivity|]. rewrite <- !list_fmap_compose. unfold zlen at 1. rewrite length_fmap. fold (zlen os).
  split.
  - intros [E _]%app_eq_nil t Ht. rewrite <- Hw. apply (orders_differ_nil t). apply concat_nil_Forall in E. rewrite Forall_forall in E.
    apply E. apply list_elem_of_fmap. exists t. split; [done|]. by apply Hin.
  - intros Heq.
    assert (forall t, t ∈ ts -> db_entries (rows t) = live_entries t os) as Heq' by (intros t Ht; by apply Heq, Hin).
    assert (concat ((snd ∘ (fun t => (Z.of_nat (size (db_entries (rows t))), orders_differ t (db_entries (rows t)) (default [] (want !! t))))) <$> ts) = []) as ->.
    { clear - Heq' Hw. induction ts as [|t ts IH]; [done|]. rewrite fmap_cons. cbn [concat]. rewrite IH by (intros t' Ht'; apply Heq'; by right).
      rewrite app_nil_r. unfold compose. cbn [snd]. apply orders_differ_nil. rewrite Hw. apply Heq'. left. }
    assert (zsum ((fst ∘ (fun t => (Z.of_nat (size (db_entries (rows t))), orders_differ t (db_entries (rows t)) (default [] (want !! t))))) <$> ts) = zlen os) as ->.
    { transitivity (zsum ((fun t => zlen (ticker_orders t os)) <$> ts)).
      - f_equal. clear - Heq' Hnd. induction ts as [|t ts IH]; [done|]. rewrite !fmap_cons, IH by (intros t' Ht'; apply Heq'; by right).
        f_equal. unfold compose. cbn [fst]. rewrite Heq' by left. by rewrite live_entries_size.
      - apply zsum_tickers; [done|]. intros o Ho. apply Hin. left. by apply list_elem_of_fmap_2. }
    by rewrite Z.eqb_refl.
Qed.

(** ** The dump *)

(** The orders file of a dump lists the market's live orders. *)
Lemma dump_orders_file fs path outdir raws ms : read_file fs path = (raws, Ok ()) -> rmap Itch.decode raws = Ok ms ->
  forallb feed_ok ms = true -> forallb sides_ok ms = true ->
  exists fs' os, dump path outdir fs = (fs', Ok ()) /\ fs' !! csv_path outdir "orders.csv" = Some (csv_text orders_header (order_line <$> os)) /\
    os ≡ₚ dvalues (am_orders (obj_run ms)) /\ NoDup (o_order_number <$> os).
Proof.
  intros Hr Hd Hf Hs. unfold dump. rewrite Hr.
  destruct (dump_loop_run raws ms (market_init DEFAULT_MAX_ENTRIES) am_init Hd Hf Hs (market_init_rep _) (Forall_nil_2 _)) as (k & E & _ & Hk & Hsd).
  change (last_matches (am_calls am_init)) with (∅ : gmap str Z) in E. rewrite E.
  assert (dumpable k) as Hdb by (split; [apply Hk|]; by rewrite (mr_orders _ _ Hk)).
  destruct (write_dump_ok outdir k (last_matches (am_calls (obj_run ms))) fs Hdb) as (fs' & rows & os & Ew & _ & Hp & _ & _ & _ & H2).
  exists fs', os. split; [exact Ew|]. split; [done|]. split; [by rewrite Hp, (mr_orders _ _ Hk)|].
  rewrite Hp. pose proof (db_store k Hdb) as [Hnd Ho _]. unfold dvalues. rewrite <- list_fmap_compose.
  rewrite (list_fmap_ext _ fst (orders (mbooks k))); [exact Hnd|]. intros i [n o] Hi%list_elem_of_lookup_2. cbn. by apply (Ho n), elem_dget.
Qed.

Lemma live_entries_perm t os os' : os ≡ₚ os' -> NoDup (o_order_number <$> os) -> live_entries t os = live_entries t os'.
Proof.
  intros Hp Hn. unfold live_entries. apply list_to_map_proper.
  - rewrite <- list_fmap_compose. unfold ticker_orders. clear Hp. induction os as [|o os IH]; [constructor|]. cbn in Hn. apply NoDup_cons in Hn as [Ho Hn].
    rewrite filter_cons. case_decide; [|by apply IH]. rewrite fmap_cons. constructor; [|by apply IH].
    intros (o' & E & Hin)%list_elem_of_fmap. apply Ho, list_elem_of_fmap. exists o'. split; [exact E|]. by apply list_elem_of_filter in Hin as [_ ?].
  - apply fmap_Permutation. unfold ticker_orders. by rewrite Hp.
Qed.

Lemma section_report_run name l out : section_report name l out = (out ++ [match l with [] => Matches name | _ => Mismatches name (zlen l) (take 10 l) (Z.max 0 (zlen l - 10)) end], Ok (bool_decide (l = []))).
Proof. by destruct l. Qed.

Lemma run_section_keeps name section ok out : exists more, (run_section name section ok out).1 = out ++ more.
Proof.
  unfold run_section. rewrite bind_run. unfold mlift. destruct section as [l|e]; [|exists []; by rewrite app_nil_r].
  rewrite bind_run, section_report_run. by eexists.
Qed.

(** A later section adds to what is printed and cannot make a failed comparison pass. *)
Lemma run_section_false name section out out' r : run_section name section false out = (out', Ok r) -> r = false.
Proof.
  unfold run_section. rewrite bind_run. unfold mlift. destruct section as [l|e]; [|done]. rewrite bind_run, section_report_run. cbn.
  rewrite andb_false_r. by intros [= _ <-].
Qed.

(** The sections after the first. *)
Definition run_rest (db : Jnxdb) (dump_books dump_trades dump_refdata : list (list (str * str)))
    (db_static db_state db_trades : list (str * list (str * str))) (ok : bool) : M (list printed) Z :=
  ok ← run_section "books" (books_section db dump_books) ok;
  ok ← run_section "trades" (trades_section dump_trades db_trades) ok;
  ref_by_ticker ← mlift (by_ticker dump_refdata);
  ok ← run_section "static" (static_section ref_by_ticker db_static) ok;
  ok ← run_section "state" (state_section ref_by_ticker db_state) ok;
  mret (if ok : bool then 0 else 1).

Lemma run_rest_keeps db b t rd st ss tr ok out : exists more, (run_rest db b t rd st ss tr ok out).1 = out ++ more.
Proof.
  unfold run_rest. rewrite bind_run. destruct (run_section_keeps "books" (books_section db b) ok out) as [m1 E1].
  destruct (run_section _ _ ok out) as [o1 [ok1|e]]; [|by exists m1]. cbn in E1. subst o1.
  rewrite bind_run. destruct (run_section_keeps "trades" (trades_section t tr) ok1 (out ++ m1)) as [m2 E2].
  destruct (run_section _ _ ok1 _) as [o2 [ok2|e]]; cbn in E2; subst o2; rewrite <- app_assoc; [|by eexists].
  rewrite bind_run. unfold mlift. destruct (by_ticker rd) as [r|e]; [|by eexists]. rewrite bind_run.
  destruct (run_section_keeps "static" (static_section r st) ok2 (out ++ m1 ++ m2)) as [m3 E3].
  destruct (run_section _ _ ok2 _) as [o3 [ok3|e]]; cbn in E3; subst o3; rewrite <- !app_assoc; [|by eexists].
  rewrite bind_run. destruct (run_section_keeps "state" (state_section r ss) ok3 (out ++ m1 ++ m2 ++ m3)) as [m4 E4].
  destruct (run_section _ _ ok3 _) as [o4 [ok4|e]]; cbn in E4; subst o4; rewrite <- !app_assoc; by eexists.
Qed.

Lemma run_rest_false db b t rd st ss tr out out' : run_rest db b t rd st ss tr false out <> (out', Ok 0).
Proof.
  unfold run_rest. intros E. rewrite bind_run in E. destruct (run_section "books" _ _ _) as [o1 [ok1|e]] eqn:E1; [|done].
  apply run_section_false in E1 as ->. rewrite bind_run in E. destruct (run_section "trades" _ _ _) as [o2 [ok2|e]] eqn:E2; [|done].
  apply run_section_false in E2 as ->. rewrite bind_run in E. unfold mlift in E. destruct (by_ticker rd) as [r|e]; [|done].
  rewrite bind_run in E. destruct (run_section "static" _ _ _) as [o3 [ok3|e]] eqn:E3; [|done]. apply run_section_false in E3 as ->.
  rewrite bind_run in E. destruct (run_section "state" _ _ _) as [o4 [ok4|e]] eqn:E4; [|done]. by apply run_section_false in E4 as ->.
Qed.

(** * Properties *)

(** C10. The comparison of a dump with jnxdb starts with the orders, and passes them exactly
    when for every ticker compared jnxdb's ORDERS rows are the market's live orders by
    number, side, price and remaining quantity; jnxdb may send its reply in any
    pieces.  The exit code is 0 only then.  (An order at the price that means no price
    always differs: jnxdb shows it as a dash.) *)
Theorem compare_orders_exact fs path outdir raws ms db statics states trades rows :
  read_file fs path = (raws, Ok ()) -> rmap Itch.decode raws = Ok ms -> forallb feed_ok ms = true -> forallb sides_ok ms = true ->
  let live := dvalues (am_orders (obj_run ms)) in
  let fs' := (dump path outdir fs).1 in
  forallb order_plain live = true ->
  (forall name, name ∈ ["books.csv"; "trades.csv"; "refdata.csv"] -> is_Ok (read_csv fs' (csv_path outdir name)) = true) ->
  db_table db "static" = Ok statics -> db_table db "state" = Ok states -> db_table db "trades" = Ok trades ->
  (forall t, t ∈ o_orderbook_id <$> live \/ t ∈ dkeys statics -> serves_orders db t (rows t)) ->
  let agree := forall t, t ∈ o_orderbook_id <$> live \/ t ∈ dkeys statics -> db_entries (rows t) = live_entries t live in
  exists first rest r, compare_main db fs' outdir = (first :: rest, r) /\ (first = Matches "orders" <-> agree) /\ (r = Ok 0 -> agree).
Proof.
  intros Hr Hd Hf Hs live fs' Hp Hcsv Est Ess Etr Hdb agree.
  destruct (dump_orders_file fs path outdir raws ms Hr Hd Hf Hs) as (fs0 & os & Ed & Eo & Hperm & Hnd).
  assert (fs' = fs0) as -> by (unfold fs'; by rewrite Ed). fold live in Hperm.
  assert (forallb order_plain os = true) as Hpo.
  { apply forallb_forall. intros o Hin. rewrite forallb_forall in Hp. apply Hp. apply list_elem_of_In. rewrite <- Hperm. by apply list_elem_of_In. }
  destruct (orders_section_exact db os statics rows Hnd Hpo) as (issues & Ei & Hi).
  { intros t Ht. apply Hdb. by rewrite <- Hperm. }
  assert (issues = [] <-> agree) as Ha.
  { rewrite Hi. unfold agree. split; intros H t Ht; [rewrite <- (live_entries_perm t os live) by done|rewrite (live_entries_perm t os live) by done];
      apply H; first [by rewrite Hperm|by rewrite <- Hperm]. }
  assert (forall name, name ∈ ["books.csv"; "trades.csv"; "refdata.csv"] -> exists x, read_csv fs0 (csv_path outdir name) = Ok x) as Hx.
  { intros name Hin. specialize (Hcsv name Hin). destruct (read_csv fs0 (csv_path outdir name)) as [x|]; [by exists x|done]. }
  destruct (Hx "books.csv") as [xb Eb]; [left|]. destruct (Hx "trades.csv") as [xt Et]; [right; left|]. destruct (Hx "refdata.csv") as [xr Er]; [do 2 right; left|].
  assert (compare_main db fs0 outdir = run_rest db xb xt xr statics states trades (bool_decide (issues = []))
     [match issues with [] => Matches "orders" | _ => Mismatches "orders" (zlen issues) (take 10 issues) (Z.max 0 (zlen issues - 10)) end]) as ->.
  { unfold compare_main. rewrite bind_run. unfold mlift at 1. rewrite (read_orders _ _ os Eo Hpo).
    rewrite bind_run. unfold mlift at 1. rewrite Eb. rewrite bind_run. unfold mlift at 1. rewrite Et. rewrite bind_run. unfold mlift at 1. rewrite Er.
    rewrite bind_run. unfold mlift at 1. rewrite Est. rewrite bind_run. unfold mlift at 1. rewrite Ess. rewrite bind_run. unfold mlift at 1. rewrite Etr.
    rewrite bind_run. unfold run_section at 1. rewrite bind_run. unfold mlift at 1. rewrite Ei, bind_run, section_report_run. cbn [app].
    unfold mret at 1, M_ret at 1. rewrite andb_true_r. reflexivity. }
  destruct (run_rest_keeps db xb xt xr statics states trades (bool_decide (issues = []))
     [match issues with [] => Matches "orders" | _ => Mismatches "orders" (zlen issues) (take 10 issues) (Z.max 0 (zlen issues - 10)) end]) as [rest Erest].
  destruct (run_rest _ _ _ _ _ _ _ _ _) as [out r] eqn:Erun. cbn in Erest. subst out. cbn [app]. eexists _, rest, r. split; [reflexivity|]. split.
  - rewrite <- Ha. by destruct issues.
  - intros ->. apply Ha. destruct issues as [|i issues]; [done|]. exfalso. by eapply run_rest_false.
Qed.

(** jnxdb after the same feed, its replies cut after the fifth byte; [qty] is the
    remaining quantity it has for order 13. *)
Definition demo_rows (qty : Z) : list db_order := [mkDbOrder 11 "B" 20000 300 "-"; mkDbOrder 13 "B" 20010 qty "-"; mkDbOrder 15 "B" 20010 400 "-"].
Definition demo_reply (qty : Z) (command : bytes) : list bytes :=
  if decide (command = s2l "TABLE static" ++ [nl]) then
    [s2l "ticker,group,isin,round_lot,tick_table_id,price_decimals,upper_limit,lower_limit,directory_seen"; s2l "7203,DAY,,0,0,0,0,0,0"]
  else if decide (command = s2l "TABLE state" ++ [nl]) then
    [s2l "ticker,group,trading_state,short_sell_restriction,reference_price,last_system_event,short_sell_price,last_exch_seq,last_update_ns";
     s2l ",DAY,?,?,0,S,0,1,1"; s2l "7203,DAY,?,?,0,-,0,8,8"]
  else if decide (command = s2l "TABLE trades" ++ [nl]) then
    [s2l "ticker,group,last_price,last_qty,last_match_number,last_trade_ns,cum_qty,cum_turnover,trade_count"; s2l "7203,DAY,20000,200,901,5,200,4000000,1"]
  else if decide (command = s2l "ORDERS 7203" ++ [nl]) then orders_lines (db_row <$> demo_rows qty)
  else if decide (command = s2l "BOOK 7203" ++ [nl]) then
    [s2l "ticker=7203 group=DAY"; s2l "  bid_orders    bid_qty  bid_price | ask_price    ask_qty  ask_orders";
     s2l "           2        500     2001.0 |                                  "; s2l "           1        300     2000.0 |                                  ";
     s2l "  totals: bid_qty=800 ask_qty=0 bid_orders=3 ask_orders=0"]
  else [s2l "ERR unknown"].
Definition demo_db (qty : Z) : Jnxdb :=
  mkJnxdb (Ok ()) (fun command => let reply := reply_of (demo_reply qty command) in ([take 5 reply; drop 5 reply], Ok ())).

Lemma compare_orders_exact_witness :
  let fs' := (dump "day.itch" "out" dump_files).1 in
  compare_main (demo_db 100) fs' "out" = ([Matches "orders"; Matches "books"; Matches "trades"; Matches "static"; Matches "state"], Ok 0) /\
  compare_main (demo_db 99) fs' "out" =
    ([Mismatches "orders" 1 [OrdersDiffer "7203" [] [] [13]] 0; Matches "books"; Matches "trades"; Matches "static"; Matches "state"], Ok 1) /\
  (forall t, t ∈ ["7203"; "7203"; "7203"] \/ t ∈ ["7203"] -> db_entries (demo_rows 100) = live_entries t (dvalues (am_orders (obj_run demo_feed)))).
Proof.
  split; [vm_compute; reflexivity|]. split; [vm_compute; reflexivity|].
  destruct (compare_orders_exact dump_files "day.itch" "out" dump_raws demo_feed (demo_db 100)
    (match db_table (demo_db 100) "static" with Ok d => d | Raise _ => [] end) (match db_table (demo_db 100) "state" with Ok d => d | Raise _ => [] end)
    (match db_table (demo_db 100) "trades" with Ok d => d | Raise _ => [] end) (fun _ => demo_rows 100))
    as (first & rest & r & E & _ & Hz); [vm_compute; reflexivity..| | | | | |].
  - intros name Hin. repeat (apply elem_of_cons in Hin as [->|Hin]; [vm_compute; reflexivity|]). by apply not_elem_of_nil in Hin.
  - vm_compute; reflexivity.
  - vm_compute; reflexivity.
  - vm_compute; reflexivity.
  - intros t Ht. assert (t = "7203") as ->.
    { destruct Ht as [Ht|Ht]; vm_compute in Ht.
      - repeat (apply elem_of_cons in Ht as [->|Ht]; [reflexivity|]). by apply not_elem_of_nil in Ht.
      - by apply list_elem_of_singleton in Ht. }
    split; [vm_compute; reflexivity|]. left. split; [vm_compute; reflexivity|]. split; [reflexivity|].
    eexists _, _. split; [reflexivity|]. split; [|vm_compute; reflexivity]. repeat constructor; vm_compute; discriminate.
  - apply Hz. apply (f_equal snd) in E. cbn [snd] in E. rewrite <- E. vm_compute. reflexivity.
Defined.
