(* ===== verification/PyJson.v ===== *)
(** Python's [json]: [dumps] with an indent, with and without sorted keys, and [loads].

    A float is the literal it was read from; a character above 255, which [loads] takes
    from a \u escape, is the byte 255. *)
From S2P Require Export PyText PyDict.

#[global] Set Default Goal Selector "!".

(** * json.dumps(obj, indent=2) *)

Definition nl_indent (lvl : nat) : bytes := z2b 10 :: replicate (2 * lvl) (z2b 32).

Fixpoint dump_at (lvl : nat) (j : json) : bytes :=
  match j with
  | JNull => s2l "null"
  | JBool b => s2l (if b then "true" else "false")
  | JFloat r => r
  | JInt z => py_str_b z
  | JStr s => json_str s
  | JList [] => s2l "[]"
  | JList l => s2l "[" ++ PyText.join (s2l ",") ((fun x => nl_indent (S lvl) ++ dump_at (S lvl) x) <$> l) ++ nl_indent lvl ++ s2l "]"
  | JObj [] => s2l "{}"
  | JObj items =>
      s2l "{" ++
      PyText.join (s2l ",") ((fun kv => nl_indent (S lvl) ++ json_str kv.1 ++ s2l ": " ++ dump_at (S lvl) kv.2) <$> items) ++
      nl_indent lvl ++ s2l "}"
  end.
Definition dumps_in_order (j : json) : bytes := dump_at 0 j.

(** [sort_keys=True] *)
Definition item_key_le (x y : str * json) : Prop := String.leb x.1 y.1 = true.
#[export] Instance item_key_le_dec x y : Decision (item_key_le x y) := decide (String.leb x.1 y.1 = true).
Fixpoint sorted_keys (j : json) : json :=
  match j with
  | JList l => JList (sorted_keys <$> l)
  | JObj items => JObj (merge_sort item_key_le ((fun kv => (kv.1, sorted_keys kv.2)) <$> items))
  | _ => j
  end.
Definition dumps_indent (j : json) : bytes := dump_at 0 (sorted_keys j).

(** * json.loads *)

Definition is_json_ws (b : byte) : bool := let z := b2z b in (z =? 32) || (z =? 9) || (z =? 10) || (z =? 13).
Fixpoint skip_ws (l : bytes) : bytes :=
  match l with b :: t => if is_json_ws b then skip_ws t else l | [] => [] end.

Definition hex_val (b : byte) : option Z :=
  let z := b2z b in
  if is_dec b then Some (z - 48)
  else if (97 <=? z) && (z <=? 102) then Some (z - 87)
  else if (65 <=? z) && (z <=? 70) then Some (z - 55)
  else None.
Definition unescape (b : byte) : option byte :=
  let z := b2z b in
  if (z =? 34) || (z =? 92) || (z =? 47) then Some b
  else if z =? 98 then Some (z2b 8) else if z =? 102 then Some (z2b 12) else if z =? 110 then Some (z2b 10)
  else if z =? 114 then Some (z2b 13) else if z =? 116 then Some (z2b 9)
  else None.
Definition hex4 (h1 h2 h3 h4 : byte) : option byte :=
  a ← hex_val h1; b ← hex_val h2; c ← hex_val h3; d ← hex_val h4;
  Some (z2b (Z.min 255 (((a * 16 + b) * 16 + c) * 16 + d))).

(** A string after its opening quote: its characters, and the rest. *)
Fixpoint json_string (l : bytes) : res (bytes * bytes) :=
  match l with
  | [] => Raise ValueError
  | b :: t =>
      if b2z b =? 34 then Ok ([], t)
      else if b2z b =? 92 then
        match t with
        | [] => Raise ValueError
        | c :: t =>
            if b2z c =? 117 then
              match t with
              | h1 :: h2 :: h3 :: h4 :: t => x ← of_option ValueError (hex4 h1 h2 h3 h4); r ← json_string t; Ok (x :: r.1, r.2)
              | _ => Raise ValueError
              end
            else x ← of_option ValueError (unescape c); r ← json_string t; Ok (x :: r.1, r.2)
        end
      else if b2z b <? 32 then Raise ValueError
      else r ← json_string t; Ok (b :: r.1, r.2)
  end.

(** Numbers: an integer part without leading zeros, a fraction, an exponent. *)
Fixpoint span_digits (l : bytes) : bytes * bytes :=
  match l with b :: t => if is_dec b then let '(d, r) := span_digits t in (b :: d, r) else ([], l) | [] => ([], []) end.
Definition json_sign (l : bytes) : bytes * bytes :=
  match l with b :: t => if b2z b =? 45 then ([b], t) else ([], l) | [] => ([], []) end.
Definition json_frac (l : bytes) : bytes * bytes :=
  match l with
  | b :: t => if b2z b =? 46 then match span_digits t with ([], _) => ([], l) | (d, r) => (b :: d, r) end else ([], l)
  | [] => ([], [])
  end.
Definition json_exp (l : bytes) : bytes * bytes :=
  match l with
  | b :: t =>
      if (b2z b =? 101) || (b2z b =? 69) then
        let '(s, t) := match t with c :: t' => if (b2z c =? 43) || (b2z c =? 45) then ([c], t') else ([], t) | [] => ([], []) end in
        match span_digits t with ([], _) => ([], l) | (d, r) => (b :: s ++ d, r) end
      else ([], l)
  | [] => ([], [])
  end.
Definition json_number (l : bytes) : res (json * bytes) :=
  let '(sign, l) := json_sign l in
  match l with
  | b :: t =>
      if is_dec b then
        let '(d, r) := if b2z b =? 48 then ([], t) else span_digits t in
        let '(frac, r) := json_frac r in
        let '(exp, r) := json_exp r in
        let text := sign ++ b :: d in
        if decide (frac = [] /\ exp = []) then z ← int_of_bytes text; Ok (JInt z, r)
        else Ok (JFloat (text ++ frac ++ exp), r)
      else if startswith (s2l "Infinity") l then Ok (JFloat (sign ++ s2l "Infinity"), drop 8 l)
      else Raise ValueError
  | [] => Raise ValueError
  end.

(** [dict(pairs)] *)
Definition json_dict (pairs : list (str * json)) : list (str * json) := foldl (fun d kv => dset kv.1 kv.2 d) [] pairs.

Fixpoint json_value (fuel : nat) (l : bytes) : res (json * bytes) :=
  match fuel, l with
  | O, _ => Raise OutOfFuel
  | _, [] => Raise ValueError
  | S n, b :: t =>
      if b2z b =? 34 then r ← json_string t; Ok (JStr (l2s r.1), r.2)
      else if b2z b =? 123 then
        match skip_ws t with
        | c :: t' => if b2z c =? 125 then Ok (JObj [], t') else r ← json_pairs n (c :: t'); Ok (JObj (json_dict r.1), r.2)
        | [] => Raise ValueError
        end
      else if b2z b =? 91 then
        match skip_ws t with
        | c :: t' => if b2z c =? 93 then Ok (JList [], t') else r ← json_items n (c :: t'); Ok (JList r.1, r.2)
        | [] => Raise ValueError
        end
      else if startswith (s2l "null") l then Ok (JNull, drop 4 l)
      else if startswith (s2l "true") l then Ok (JBool true, drop 4 l)
      else if startswith (s2l "false") l then Ok (JBool false, drop 5 l)
      else if startswith (s2l "NaN") l then Ok (JFloat (s2l "NaN"), drop 3 l)
      else json_number l
  end
with json_items (fuel : nat) (l : bytes) : res (list json * bytes) :=
  match fuel with
  | O => Raise OutOfFuel
  | S n =>
      r ← json_value n l;
      match skip_ws r.2 with
      | c :: t =>
          if b2z c =? 44 then q ← json_items n (skip_ws t); Ok (r.1 :: q.1, q.2)
          else if b2z c =? 93 then Ok ([r.1], t)
          else Raise ValueError
      | [] => Raise ValueError
      end
  end
with json_pairs (fuel : nat) (l : bytes) : res (list (str * json) * bytes) :=
  match fuel, l with
  | O, _ => Raise OutOfFuel
  | _, [] => Raise ValueError
  | S n, b :: t =>
      if b2z b =? 34 then
        k ← json_string t;
        match skip_ws k.2 with
        | c :: t =>
            if b2z c =? 58 then
              r ← json_value n (skip_ws t);
              match skip_ws r.2 with
              | c :: t =>
                  if b2z c =? 44 then q ← json_pairs n (skip_ws t); Ok ((l2s k.1, r.1) :: q.1, q.2)
                  else if b2z c =? 125 then Ok ([(l2s k.1, r.1)], t)
                  else Raise ValueError
              | [] => Raise ValueError
              end
            else Raise ValueError
        | [] => Raise ValueError
        end
      else Raise ValueError
  end.

(** Every two turns take a byte, so twice the length is enough fuel ([json_loads_fuel]). *)
Definition json_loads (text : bytes) : res json :=
  r ← json_value (2 * length text + 2) (skip_ws text);
  match skip_ws r.2 with [] => Ok r.1 | _ => Raise ValueError end.

Example loads_example : json_loads (s2l "{ " ++ json_str "a" ++ s2l ": [1, -20, 3.5e2, true, {}] , " ++ json_str "b" ++ s2l ":null}") =
  Ok (JObj [("a", JList [JInt 1; JInt (-20); JFloat (s2l "3.5e2"); JBool true; JObj []]); ("b", JNull)]).
Proof. vm_compute. reflexivity. Qed.

(** * Facts *)

(** ** Strings and numbers *)

Lemma json_string_char b t : json_string (json_char b ++ t) = (r ← json_string t; Ok (b :: r.1, r.2)).
Proof. destruct b; reflexivity. Qed.
Lemma json_string_str s t : json_string (concat (json_char <$> s) ++ z2b 34 :: t) = Ok (s, t).
Proof. induction s as [|b s IH]; [done|]. rewrite fmap_cons. cbn [concat]. rewrite <- app_assoc, json_string_char, IH. done. Qed.

Lemma dec_fuel_head fuel : forall z acc, 1 <= z < 2 ^ Z.of_nat fuel -> exists b t, dec_fuel fuel z acc = b :: t /\ b2z b <> 48.
Proof.
  induction fuel as [|f IH]; intros z acc Hz; [cbn in Hz; lia|]. rewrite Nat2Z.inj_succ, Z.pow_succ_r in Hz by lia. cbn [dec_fuel].
  destruct (Z.ltb_spec z 10).
  - eexists _, _. split; [reflexivity|]. rewrite Z.mod_small, b2z_z2b_small by lia. lia.
  - apply IH. pose proof (Z.div_mod z 10 ltac:(lia)). pose proof (Z.mod_pos_bound z 10 ltac:(lia)). lia.
Qed.
Lemma dec_bytes_head z : 0 <= z -> exists b t, dec_bytes z = b :: t /\ is_dec b = true /\ forallb is_dec t = true /\ (b2z b = 48 -> t = []).
Proof.
  intros Hz. pose proof (dec_bytes_digits z Hz) as Hd. destruct (Z.eq_dec z 0) as [->|Hn].
  - exists "0"%byte, []. by split_and!.
  - destruct (dec_fuel_head (S (Z.to_nat (Z.log2 z))) z []) as (b & t & E & Hb).
    { rewrite Nat2Z.inj_succ, Z2Nat.id by apply Z.log2_nonneg. pose proof (Z.log2_spec z ltac:(lia)). lia. }
    exists b, t. unfold dec_bytes in *. rewrite E in *. cbn [forallb] in Hd. apply andb_true_iff in Hd as [H1 H2]. by split_and!.
Qed.

(** What may follow a number. *)
Definition number_end (l : bytes) : bool :=
  match l with b :: _ => negb (is_dec b || (b2z b =? 46) || (b2z b =? 101) || (b2z b =? 69)) | [] => true end.

Lemma span_digits_app d r : forallb is_dec d = true -> number_end r = true -> span_digits (d ++ r) = (d, r).
Proof.
  induction d as [|b d IH]; intros Hd Hr.
  - destruct r as [|b r]; [done|]. cbn in *. by destruct (is_dec b).
  - cbn [forallb] in Hd. apply andb_true_iff in Hd as [Hb Hd]. cbn. by rewrite Hb, IH.
Qed.

Lemma number_tail r : number_end r = true -> json_frac r = ([], r) /\ json_exp r = ([], r).
Proof.
  destruct r as [|b r]; [done|]. cbn. intros [[[_ H1]%orb_false_iff H2]%orb_false_iff H3]%negb_true_iff%orb_false_iff. by rewrite H1, H2, H3.
Qed.

Lemma json_number_digits sign b t r z : is_dec b = true -> forallb is_dec t = true -> (b2z b = 48 -> t = []) -> number_end r = true ->
  sign = [] \/ sign = ["-"%byte] -> int_of_bytes (sign ++ b :: t) = Ok z -> json_number (sign ++ b :: t ++ r) = Ok (JInt z, r).
Proof.
  intros Hb Ht H0 Hr Hs Hz. pose proof (is_dec_bounds b Hb) as Hbb.
  assert (json_sign (sign ++ b :: t ++ r) = (sign, b :: t ++ r)) as E.
  { destruct Hs as [->| ->]; cbn; [|done]. destruct (Z.eqb_spec (b2z b) 45); [lia|done]. }
  unfold json_number. rewrite E, Hb.
  assert ((if b2z b =? 48 then ([], t ++ r) else span_digits (t ++ r)) = (t, r)) as ->.
  { destruct (Z.eqb_spec (b2z b) 48) as [E0|]; [by rewrite (H0 E0)|by apply span_digits_app]. }
  destruct (number_tail r Hr) as [-> ->]. rewrite decide_True by done. by rewrite Hz.
Qed.

Lemma json_number_str z r : number_end r = true -> json_number (py_str_b z ++ r) = Ok (JInt z, r).
Proof.
  intros Hr. pose proof (int_of_str_b z) as Hz. unfold py_str_b in *. destruct (Z.ltb_spec z 0).
  - destruct (dec_bytes_head (- z) ltac:(lia)) as (b & t & E & Hb & Ht & H0). rewrite E in *.
    apply (json_number_digits ["-"%byte] b t r z); auto.
  - destruct (dec_bytes_head z ltac:(lia)) as (b & t & E & Hb & Ht & H0). rewrite E in *. apply (json_number_digits [] b t r z); auto.
Qed.

(** ** Induction on a JSON value *)

Lemma json_nested_ind (P : json -> Prop) :
  P JNull -> (forall b, P (JBool b)) -> (forall r, P (JFloat r)) -> (forall z, P (JInt z)) -> (forall s, P (JStr s)) ->
  (forall l, Forall P l -> P (JList l)) -> (forall items, Forall (fun kv => P kv.2) items -> P (JObj items)) -> forall j, P j.
Proof.
  intros Hn Hb Hf Hi Hs Hl Ho. fix IH 1. intros [| | | | |l|items]; [done|apply Hb|apply Hf|apply Hi|apply Hs| |].
  - apply Hl. induction l as [|x l IHl]; constructor; [apply IH|exact IHl].
  - apply Ho. induction items as [|[k x] items IHl]; constructor; [apply IH|exact IHl].
Qed.

(** Without floats, and with distinct keys: what is read back as it was. *)
Fixpoint json_plain (j : json) : bool :=
  match j with
  | JFloat _ => false
  | JList l => forallb json_plain l
  | JObj items => bool_decide (NoDup items.*1) && forallb (fun kv => json_plain kv.2) items
  | _ => true
  end.

(** ** Reading back what was written *)

(** The turns [json_value] takes on a value's text. *)
Fixpoint json_turns (j : json) : nat :=
  match j with
  | JList l => S (list_sum ((fun x => S (json_turns x)) <$> l))
  | JObj items => S (list_sum ((fun kv => S (json_turns kv.2)) <$> items))
  | _ => 1%nat
  end.

Lemma skip_indent lvl b t : is_json_ws b = false -> skip_ws (nl_indent lvl ++ b :: t) = b :: t.
Proof.
  intros Hb. unfold nl_indent. change (skip_ws ((z2b 10 :: ?r) ++ ?t)) with (skip_ws (r ++ t)).
  induction (2 * lvl)%nat as [|n IH]; [cbn; by rewrite Hb|exact IH].
Qed.

Lemma startswith_other c p b t : b <> c -> startswith (c :: p) (b :: t) = false.
Proof. intros Hne. apply bool_decide_eq_false. cbn. by intros [= ? _]. Qed.

Lemma number_value n b t : is_dec b = true \/ b = "-"%byte -> json_value (S n) (b :: t) = json_number (b :: t).
Proof.
  intros Hb. cbn [json_value]. assert (b2z b = 45 \/ 48 <= b2z b <= 57) as Hz.
  { destruct Hb as [Hb%is_dec_bounds| ->]; [by right|by left]. }
  destruct (Z.eqb_spec (b2z b) 34); [lia|]. destruct (Z.eqb_spec (b2z b) 123); [lia|]. destruct (Z.eqb_spec (b2z b) 91); [lia|].
  assert (forall c, 65 <= b2z c -> b <> c) as Hne by (intros c Hc ->; lia).
  change (s2l "null") with ("n"%byte :: s2l "ull"). change (s2l "true") with ("t"%byte :: s2l "rue").
  change (s2l "false") with ("f"%byte :: s2l "alse"). change (s2l "NaN") with ("N"%byte :: s2l "aN").
  by rewrite !startswith_other by (apply Hne; vm_compute; discriminate).
Qed.

(** The first byte of a text. *)
Lemma dump_head lvl j : json_plain j = true -> exists b t, dump_at lvl j = b :: t /\ is_json_ws b = false /\ b2z b <> 93 /\ b2z b <> 125.
Proof.
  assert (forall s, s <> [] -> match s with b :: _ => is_json_ws b = false /\ b2z b <> 93 /\ b2z b <> 125 | [] => True end ->
    exists b t, s = b :: t /\ is_json_ws b = false /\ b2z b <> 93 /\ b2z b <> 125) as Hx.
  { intros [|b t] Hn H; [done|]. by exists b, t. }
  destruct j as [|[]|r|z|s|[|x l]|[|kv items]]; intros Hp; try done; try (apply Hx; [done|by vm_compute]).
  - assert (exists b t, py_str_b z = b :: t /\ (is_dec b = true \/ b = "-"%byte)) as (b & t & E & Hb).
    { unfold py_str_b. destruct (Z.ltb_spec z 0); [eexists _, _; split; [reflexivity|by right]|].
      destruct (dec_bytes_head z ltac:(lia)) as (b & t & -> & Hb & _). exists b, t. split; [done|by left]. }
    exists b, t. split; [exact E|]. destruct Hb as [Hb%is_dec_bounds| ->]; [|by vm_compute].
    unfold is_json_ws. split; [|lia]. destruct (Z.eqb_spec (b2z b) 32); [lia|]. destruct (Z.eqb_spec (b2z b) 9); [lia|].
    destruct (Z.eqb_spec (b2z b) 10); [lia|]. by destruct (Z.eqb_spec (b2z b) 13); [lia|].
Qed.

Definition reads_back (j : json) : Prop := forall lvl n rest, json_plain j = true -> (json_turns j <= n)%nat -> number_end rest = true ->
  json_value n (dump_at lvl j ++ rest) = Ok (j, rest).

Definition items_tail (lvl : nat) (l : list json) : bytes := concat ((fun y => s2l "," ++ y) <$> ((fun x => nl_indent (S lvl) ++ dump_at (S lvl) x) <$> l)).

Lemma items_tail_end lvl l c rest : number_end (items_tail lvl l ++ nl_indent lvl ++ c :: rest) = true.
Proof. by destruct l. Qed.

Lemma items_read_back lvl rest l : Forall reads_back l -> forall x n, reads_back x -> forallb json_plain (x :: l) = true ->
  (list_sum ((fun x => S (json_turns x)) <$> (x :: l)) <= n)%nat ->
  json_items n (dump_at (S lvl) x ++ items_tail lvl l ++ nl_indent lvl ++ "]"%byte :: rest) = Ok (x :: l, rest).
Proof.
  induction 1 as [|y l Hy Hl IH]; intros x n Hx Hp Hn; cbn [forallb] in Hp; apply andb_true_iff in Hp as [Hpx Hp];
    (destruct n as [|n]; [cbn in Hn; lia|]); cbn [json_items]; rewrite Hx by (done || apply items_tail_end || (cbn in Hn |- *; lia)); cbn [mbind res_bind fst snd].
  - cbn [items_tail fmap list_fmap concat app]. by rewrite skip_indent.
  - unfold items_tail. cbn [fmap list_fmap concat]. rewrite <- !app_assoc. change (skip_ws (s2l "," ++ ?t)) with (","%byte :: t). cbn iota beta.
    change (b2z ","%byte =? 44) with true. cbn iota.
    pose proof Hp as Hp'. cbn [forallb] in Hp'. apply andb_true_iff in Hp' as [Hpy _].
    destruct (dump_head (S lvl) y Hpy) as (b & t & E & Hb & _). rewrite E. cbn [app]. rewrite skip_indent by done. rewrite app_comm_cons, <- E.
    specialize (IH y n Hy Hp). unfold items_tail in IH. rewrite IH; [done|]. cbn in Hn |- *. lia.
Qed.

Definition pair_text (lvl : nat) (kv : str * json) : bytes := json_str kv.1 ++ s2l ": " ++ dump_at (S lvl) kv.2.
Definition pairs_tail (lvl : nat) (l : list (str * json)) : bytes := concat ((fun y => s2l "," ++ y) <$> ((fun kv => nl_indent (S lvl) ++ pair_text lvl kv) <$> l)).

Lemma pairs_tail_end lvl l c rest : number_end (pairs_tail lvl l ++ nl_indent lvl ++ c :: rest) = true.
Proof. by destruct l. Qed.

Lemma pairs_read_back lvl rest l : Forall (fun kv => reads_back kv.2) l -> forall kv n, reads_back kv.2 ->
  forallb (fun kv => json_plain kv.2) (kv :: l) = true -> (list_sum ((fun kv => S (json_turns kv.2)) <$> (kv :: l)) <= n)%nat ->
  json_pairs n (pair_text lvl kv ++ pairs_tail lvl l ++ nl_indent lvl ++ "}"%byte :: rest) = Ok (kv :: l, rest).
Proof.
  assert (forall (kv : str * json) t, exists u, pair_text lvl kv ++ t = z2b 34 :: concat (json_char <$> s2l kv.1) ++ z2b 34 :: u /\ u = s2l ": " ++ dump_at (S lvl) kv.2 ++ t) as Hu.
  { intros kv t. eexists. split; [|reflexivity]. unfold pair_text, json_str. rewrite <- !app_comm_cons, <- !app_assoc. done. }
  induction 1 as [|kv' l Hy Hl IH]; intros kv n Hx Hp Hn; cbn [forallb] in Hp; apply andb_true_iff in Hp as [Hpx Hp];
    (destruct n as [|n]; [cbn in Hn; lia|]);
    (match goal with |- context [pair_text lvl kv ++ ?t] => destruct (Hu kv t) as (u & E & Eu) end); rewrite E; cbn [json_pairs];
    change (b2z (z2b 34) =? 34) with true; cbn iota; rewrite json_string_str; cbn [mbind res_bind fst snd]; subst u;
    change (skip_ws (s2l ": " ++ ?t)) with (":"%byte :: " "%byte :: t); cbn iota beta; change (b2z ":"%byte =? 58) with true; cbn iota;
    destruct (dump_head (S lvl) kv.2 Hpx) as (b & t & Eb & Hb & _);
    (match goal with |- context [skip_ws (" "%byte :: dump_at (S lvl) kv.2 ++ ?r)] =>
       assert (skip_ws (" "%byte :: dump_at (S lvl) kv.2 ++ r) = dump_at (S lvl) kv.2 ++ r) as -> by (rewrite Eb; cbn; by rewrite Hb) end);
    rewrite Hx by (done || apply pairs_tail_end || (cbn in Hn |- *; lia)); cbn [mbind res_bind fst snd]; rewrite l2s_s2l.
  - cbn [pairs_tail fmap list_fmap concat app]. rewrite skip_indent by done. by destruct kv.
  - unfold pairs_tail. cbn [fmap list_fmap concat]. rewrite <- !app_assoc. change (skip_ws (s2l "," ++ ?t)) with (","%byte :: t). cbn iota beta.
    change (b2z ","%byte =? 44) with true. cbn iota.
    match goal with |- context [skip_ws (nl_indent _ ++ pair_text lvl kv' ++ ?t)] => destruct (Hu kv' t) as (u & E' & _) end.
    rewrite E', skip_indent by done. rewrite <- E'. specialize (IH kv' n Hy Hp). unfold pairs_tail in IH. rewrite IH; [by destruct kv|]. cbn in Hn |- *. lia.
Qed.

Lemma json_dict_distinct l : NoDup l.*1 -> json_dict l = l.
Proof.
  unfold json_dict. intros Hn. induction l as [|kv l IH] using rev_ind; [done|]. rewrite fmap_app in Hn. apply NoDup_app in Hn as (Hn & Hd & _).
  rewrite foldl_app, IH by done. cbn [foldl]. rewrite dset_new; [by destruct kv|]. apply dget_None. intros Hin. apply (Hd _ Hin). apply list_elem_of_singleton. done.
Qed.

Lemma list_sum_perm l l' : l ≡ₚ l' -> list_sum l = list_sum l'.
Proof. induction 1; unfold list_sum in *; cbn [foldr]; congruence || lia. Qed.

Lemma json_reads_back j : reads_back j.
Proof.
  induction j as [|[]|r|z|s|l Hl|items Hi] using json_nested_ind; intros lvl n rest Hp Hn Hr;
    try done; (destruct n as [|n]; [cbn in Hn; lia|]); try reflexivity.
  - cbn [dump_at]. rewrite <- (json_number_str z rest Hr). unfold py_str_b. destruct (Z.ltb_spec z 0).
    + apply number_value. by right.
    + destruct (dec_bytes_head z ltac:(lia)) as (b & t & -> & Hb & _). apply number_value. by left.
  - cbn [dump_at]. unfold json_str. cbn [app json_value]. change (b2z (z2b 34) =? 34) with true. cbn iota.
    rewrite <- app_assoc. cbn [app]. rewrite json_string_str. cbn [mbind res_bind fst snd]. by rewrite l2s_s2l.
  - destruct Hl as [|x l Hx Hl]; [reflexivity|]. cbn [json_plain] in Hp. pose proof Hp as Hp'. cbn [forallb] in Hp'. apply andb_true_iff in Hp' as [Hpx _].
    cbn [dump_at]. unfold PyText.join. rewrite fmap_cons. fold (items_tail lvl l). rewrite <- !app_assoc.
    destruct (dump_head (S lvl) x Hpx) as (b & t & E & Hb & H93 & _).
    change (s2l "[" ++ ?t) with ("["%byte :: t). cbn [json_value]. change (b2z "["%byte =? 34) with false. change (b2z "["%byte =? 123) with false.
    change (b2z "["%byte =? 91) with true. cbn iota. rewrite E. cbn [app]. rewrite skip_indent by done. cbn iota beta.
    destruct (Z.eqb_spec (b2z b) 93); [done|]. rewrite app_comm_cons, <- E. change (s2l "]" ++ rest) with ("]"%byte :: rest).
    rewrite items_read_back by (done || (cbn in Hn |- *; lia)). done.
  - destruct Hi as [|kv items Hkv Hi]; [reflexivity|]. cbn [json_plain] in Hp. apply andb_true_iff in Hp as [Hnd%bool_decide_eq_true Hp].
    cbn [dump_at]. unfold PyText.join. rewrite fmap_cons. fold (pair_text lvl kv). rewrite <- !app_assoc.
    change (s2l "{" ++ ?t) with ("{"%byte :: t). cbn [json_value]. change (b2z "{"%byte =? 34) with false. change (b2z "{"%byte =? 123) with true. cbn iota.
    change (s2l "}" ++ rest) with ("}"%byte :: rest). change (concat _ ++ ?t) with (pairs_tail lvl items ++ t).
    assert (exists t, pair_text lvl kv ++ pairs_tail lvl items ++ nl_indent lvl ++ "}"%byte :: rest = z2b 34 :: t) as [t E] by by eexists.
    rewrite E, skip_indent by done. cbn iota beta. change (b2z (z2b 34) =? 125) with false. cbn iota. rewrite <- E.
    rewrite pairs_read_back by (done || (cbn in Hn |- *; lia)). cbn [mbind res_bind fst snd]. by rewrite json_dict_distinct.
Qed.

Lemma list_sum_cons a l : list_sum (a :: l) = (a + list_sum l)%nat.
Proof. done. Qed.
Lemma items_tail_cons lvl x l : items_tail lvl (x :: l) = ","%byte :: nl_indent (S lvl) ++ dump_at (S lvl) x ++ items_tail lvl l.
Proof. unfold items_tail. rewrite !fmap_cons. cbn [concat]. by rewrite <- !app_assoc. Qed.
Lemma pairs_tail_cons lvl kv l : pairs_tail lvl (kv :: l) = ","%byte :: nl_indent (S lvl) ++ pair_text lvl kv ++ pairs_tail lvl l.
Proof. unfold pairs_tail. rewrite !fmap_cons. cbn [concat]. by rewrite <- !app_assoc. Qed.

Definition turns_fit (j : json) : Prop := json_plain j = true -> forall lvl, (json_turns j <= length (dump_at lvl j))%nat.

Lemma items_turns lvl l : Forall turns_fit l -> forallb json_plain l = true ->
  (list_sum ((fun x => S (json_turns x)) <$> l) <= length (items_tail lvl l))%nat.
Proof.
  induction 1 as [|y l Hy Hl IH]; intros Hp; [cbn; lia|]. cbn [forallb] in Hp. apply andb_true_iff in Hp as [Hpy Hp].
  rewrite fmap_cons, list_sum_cons, items_tail_cons. cbn [length]. rewrite !length_app. specialize (Hy Hpy (S lvl)). specialize (IH Hp). lia.
Qed.
Lemma pairs_turns lvl l : Forall (fun kv => turns_fit kv.2) l -> forallb (fun kv => json_plain kv.2) l = true ->
  (list_sum ((fun kv => S (json_turns kv.2)) <$> l) <= length (pairs_tail lvl l))%nat.
Proof.
  induction 1 as [|y l Hy Hl IH]; intros Hp; [cbn; lia|]. cbn [forallb] in Hp. apply andb_true_iff in Hp as [Hpy Hp].
  rewrite fmap_cons, list_sum_cons, pairs_tail_cons. unfold pair_text. cbn [length]. rewrite !length_app. specialize (Hy Hpy (S lvl)). specialize (IH Hp). lia.
Qed.

Lemma json_turns_le j : turns_fit j.
Proof.
  induction j as [|[]|r|z|s|l Hl|items Hi] using json_nested_ind; intros Hp lvl; try done; try (cbn; lia).
  - cbn [json_turns dump_at]. unfold py_str_b. destruct (z <? 0); [cbn; lia|]. pose proof (dec_bytes_nonempty z). destruct (dec_bytes z); [done|cbn; lia].
  - destruct l as [|x l]; [cbn; lia|]. pose proof (items_turns lvl (x :: l) Hl Hp) as Hx. rewrite items_tail_cons in Hx. cbn [json_turns dump_at].
    unfold PyText.join. cbn [fmap list_fmap] in Hx |- *. rewrite !length_app. change (concat _) with (items_tail lvl l). cbn [length] in Hx.
    rewrite !list_sum_cons, !length_app in *. change (length (s2l "[")) with 1%nat. change (length (s2l "]")) with 1%nat. lia.
  - destruct items as [|kv items]; [cbn; lia|]. cbn [json_plain] in Hp. apply andb_true_iff in Hp as [_ Hp].
    pose proof (pairs_turns lvl (kv :: items) Hi Hp) as Hx. rewrite pairs_tail_cons in Hx. cbn [json_turns dump_at]. unfold PyText.join.
    cbn [fmap list_fmap] in Hx |- *. rewrite !length_app. change (concat _) with (pairs_tail lvl items). unfold pair_text in Hx. cbn [length] in Hx.
    rewrite !list_sum_cons, !length_app in *. change (length (s2l "{")) with 1%nat. change (length (s2l "}")) with 1%nat. lia.
Qed.

(** What is dumped in order reads back as it is. *)
Lemma json_loads_in_order j ws : json_plain j = true -> forallb is_json_ws ws = true -> json_loads (dumps_in_order j ++ ws) = Ok j.
Proof.
  intros Hp Hw. unfold json_loads, dumps_in_order. destruct (dump_head 0 j Hp) as (b & t & E & Hb & _).
  assert (skip_ws (dump_at 0 j ++ ws) = dump_at 0 j ++ ws) as -> by (rewrite E; cbn; by rewrite Hb).
  assert (number_end ws = true) as He.
  { destruct ws as [|c ws]; [done|]. cbn [forallb] in Hw. apply andb_true_iff in Hw as [Hc _]. destruct c; done. }
  rewrite json_reads_back; [|done| |done].
  - cbn [mbind res_bind fst snd]. assert (skip_ws ws = []) as ->; [|done]. clear - Hw. induction ws as [|c ws IH]; [done|]. cbn [forallb] in Hw.
    apply andb_true_iff in Hw as [Hc Hw]. cbn. rewrite Hc. by apply IH.
  - pose proof (json_turns_le j Hp 0%nat). rewrite length_app. lia.
Qed.

Lemma sorted_plain j : json_plain j = true -> json_plain (sorted_keys j) = true.
Proof.
  induction j as [|[]|r|z|s|l Hl|items Hi] using json_nested_ind; intros Hp; try done; cbn [json_plain sorted_keys] in *.
  - rewrite forallb_forall in *. rewrite Forall_forall in Hl. intros y (x & -> & Hx)%list_elem_of_In%list_elem_of_fmap. apply Hl; [done|]. by apply Hp, list_elem_of_In.
  - apply andb_true_iff in Hp as [Hnd%bool_decide_eq_true Hp]. apply andb_true_iff. split.
    + apply bool_decide_eq_true. rewrite merge_sort_Permutation, <- list_fmap_compose. exact Hnd.
    + rewrite forallb_forall in *. rewrite Forall_forall in Hi. intros y Hy%list_elem_of_In. rewrite merge_sort_Permutation in Hy.
      apply list_elem_of_fmap in Hy as (x & -> & Hx). cbn [snd]. apply (Hi x Hx). by apply Hp, list_elem_of_In.
Qed.

Lemma json_loads_dumps j ws : json_plain j = true -> forallb is_json_ws ws = true -> json_loads (dumps_indent j ++ ws) = Ok (sorted_keys j).
Proof. intros Hp. apply (json_loads_in_order (sorted_keys j)). by apply sorted_plain. Qed.

(** ** Reading any text *)

(** A step of the parser took some of the text, or raised a ValueError. *)
Definition takes {A} (r : res (A * bytes)) (l : bytes) : Prop :=
  match r with Ok (_, rest) => (length rest < length l)%nat | Raise e => e = ValueError end.

Lemma skip_ws_length l : (length (skip_ws l) <= length l)%nat.
Proof. induction l as [|b l IH]; [done|]. cbn. destruct (is_json_ws b); cbn; lia. Qed.

Lemma takes_bind {A B} (r : res (A * bytes)) (k : A * bytes -> res (B * bytes)) l l' :
  takes r l -> (forall a rest, (length rest < length l)%nat -> takes (k (a, rest)) l') -> takes (mbind (M := res) k r) l'.
Proof. destruct r as [[a rest]|e]; [|by intros -> _]. intros H Hk. by apply Hk. Qed.

Lemma json_string_takes l : takes (json_string l) l.
Proof.
  induction l as [l IH] using (induction_ltof1 _ (@length byte)). unfold ltof in IH.
  assert (forall (o : option byte) t, (length t < length l)%nat -> takes (x ← of_option ValueError o; r ← json_string t; Ok (x :: r.1, r.2)) l) as Hesc.
  { intros [x|] t Ht; [|done]. cbn [of_option mbind res_bind]. eapply takes_bind; [by apply IH|]. intros a rest Hr. cbn. lia. }
  destruct l as [|b t]; [done|]. cbn [json_string]. cbn [length] in *. destruct (b2z b =? 34); [cbn; lia|]. destruct (b2z b =? 92).
  - destruct t as [|c t]; [done|]. cbn [length] in *. destruct (b2z c =? 117); [|apply Hesc; lia].
    destruct t as [|h1 [|h2 [|h3 [|h4 t]]]]; try done. cbn [length] in *. apply Hesc. lia.
  - destruct (b2z b <? 32); [done|]. eapply takes_bind; [apply IH; lia|]. intros a rest Hr. cbn in *. lia.
Qed.

Lemma span_digits_length l : (length (span_digits l).2 <= length l)%nat.
Proof. induction l as [|b l IH]; [done|]. cbn. destruct (is_dec b); [|cbn; lia]. destruct (span_digits l). cbn in *. lia. Qed.
Lemma json_sign_length l : (length (json_sign l).2 <= length l)%nat.
Proof. destruct l as [|b l]; [done|]. cbn. destruct (_ =? _); cbn; lia. Qed.
Lemma json_frac_length l : (length (json_frac l).2 <= length l)%nat.
Proof.
  destruct l as [|b t]; [done|]. cbn. destruct (_ =? _); [|cbn; lia]. pose proof (span_digits_length t). destruct (span_digits t) as [[|d0 d] r]; cbn in *; lia.
Qed.
Lemma json_exp_length l : (length (json_exp l).2 <= length l)%nat.
Proof.
  destruct l as [|b t]; [done|]. cbn. destruct (_ || _); [|cbn; lia].
  destruct t as [|c t']; [cbn; lia|]. destruct ((b2z c =? 43) || (b2z c =? 45)).
  - pose proof (span_digits_length t'). destruct (span_digits t') as [[|d0 d] r]; cbn in *; lia.
  - pose proof (span_digits_length (c :: t')). destruct (span_digits (c :: t')) as [[|d0 d] r]; cbn [length snd] in *; lia.
Qed.

Lemma int_of_bytes_error l e : int_of_bytes l = Raise e -> e = ValueError.
Proof. unfold int_of_bytes. match goal with |- of_option _ ?o = _ -> _ => destruct o end; [done|]. by intros [= <-]. Qed.

Lemma json_number_takes l : takes (json_number l) l.
Proof.
  unfold json_number. pose proof (json_sign_length l) as Hs. destruct (json_sign l) as [sign l1]. cbn [snd] in Hs.
  destruct l1 as [|b t]; [done|]. cbn [length] in Hs. destruct (is_dec b).
  - assert ((length (if Z.eqb (b2z b) 48 then ([], t) else span_digits t).2 <= length t)%nat) as H1 by (destruct (Z.eqb _ _); [cbn; lia|apply span_digits_length]).
    destruct (if b2z b =? 48 then _ else _) as [d r]. pose proof (json_frac_length r) as H2. destruct (json_frac r) as [frac r1].
    pose proof (json_exp_length r1) as H3. destruct (json_exp r1) as [exp r2]. cbn [snd] in *. case_decide; [|cbn; lia].
    destruct (int_of_bytes (sign ++ b :: d)) eqn:E; cbn; [lia|by apply int_of_bytes_error in E].
  - destruct (startswith _ _); [|done]. unfold takes. rewrite length_drop. cbn [length]. lia.
Qed.

Lemma drop_takes n j b t : (0 < n)%nat -> takes (Ok (j : json, drop n (b :: t))) (b :: t).
Proof. intros Hn. unfold takes. rewrite length_drop. cbn. lia. Qed.

Lemma json_parse_takes n :
  (forall l, (2 * length l < n)%nat -> takes (json_value n l) l) /\
  (forall l, (2 * length l + 1 < n)%nat -> takes (json_items n l) l) /\
  (forall l, (2 * length l + 1 < n)%nat -> takes (json_pairs n l) l).
Proof.
  induction n as [|n (IHv & IHi & IHp)]; [split_and!; lia|]. split_and!; intros l Hl.
  - destruct l as [|b t]; [done|]. cbn [json_value]. cbn [length] in Hl. pose proof (skip_ws_length t) as Hw.
    destruct (b2z b =? 34). { eapply takes_bind; [apply json_string_takes|]. intros a rest Hr. cbn in *. lia. }
    destruct (b2z b =? 123).
    { destruct (skip_ws t) as [|c t']; [done|]. cbn [length] in Hw. destruct (b2z c =? 125); [cbn; lia|].
      eapply takes_bind; [apply IHp; cbn [length]; lia|]. intros a rest Hr. cbn in *. lia. }
    destruct (b2z b =? 91).
    { destruct (skip_ws t) as [|c t']; [done|]. cbn [length] in Hw. destruct (b2z c =? 93); [cbn; lia|].
      eapply takes_bind; [apply IHi; cbn [length]; lia|]. intros a rest Hr. cbn in *. lia. }
    repeat (match goal with |- takes (if ?c then _ else _) _ => destruct c; [apply drop_takes; lia|] end). apply json_number_takes.
  - cbn [json_items]. eapply takes_bind; [apply IHv; lia|]. intros a rest Hr. cbn [fst snd].
    pose proof (skip_ws_length rest) as Hw. destruct (skip_ws rest) as [|c t]; [done|]. cbn [length] in Hw.
    destruct (b2z c =? 44); [|destruct (b2z c =? 93); [cbn; lia|done]]. pose proof (skip_ws_length t).
    eapply takes_bind; [apply IHi; lia|]. intros q rest' Hq. cbn in *. lia.
  - destruct l as [|b t]; [done|]. cbn [json_pairs]. cbn [length] in Hl. destruct (b2z b =? 34); [|done].
    eapply takes_bind; [apply json_string_takes|]. intros k rest Hr. cbn [fst snd]. pose proof (skip_ws_length rest) as Hw.
    destruct (skip_ws rest) as [|c t']; [done|]. cbn [length] in Hw. destruct (b2z c =? 58); [|done]. pose proof (skip_ws_length t') as Hw'.
    eapply takes_bind; [apply IHv; lia|]. intros a rest' Hr'. cbn [fst snd]. pose proof (skip_ws_length rest') as Hw2.
    destruct (skip_ws rest') as [|c' t2]; [done|]. cbn [length] in Hw2.
    destruct (b2z c' =? 44); [|destruct (b2z c' =? 125); [cbn; lia|done]]. pose proof (skip_ws_length t2).
    eapply takes_bind; [apply IHp; lia|]. intros q rest2 Hq. cbn in *. lia.
Qed.

(** The fuel is never short: what cannot be read is a ValueError. *)
Lemma json_loads_fuel text : match json_loads text with Ok _ => True | Raise e => e = ValueError end.
Proof.
  unfold json_loads. pose proof (proj1 (json_parse_takes (2 * length text + 2)) (skip_ws text)) as H. pose proof (skip_ws_length text).
  specialize (H ltac:(lia)). destruct (json_value _ _) as [[j rest]|e]; [|exact H]. cbn [mbind res_bind fst snd]. by destruct (skip_ws rest).
Qed.
