(* ===== verification/Sidecar.v ===== *)
(** jnxfeed/cli/capture.py: the sidecar as the JSON text it is.

    Capture keeps the sidecar as a record; here that record is written with [json.dump]
    and read back with [json.load].  The text is ASCII, as [json.dump] writes it, and is
    read as code points.  The time stamps are arguments. *)
From S2P Require Export Capture PyJson.

#[global] Set Default Goal Selector "!".

Definition sidecar_path (out_path : str) : str := out_path +:+ ".meta.json".

Definition opt_json {A} (f : A -> json) (o : option A) : json := match o with Some a => f a | None => JNull end.

(** The dict of [write_sidecar]; [cs]: the counts in the order of the OrderedDict. *)
Definition sidecar_json (final : bool) (c : Capture) (cs : list (str * Z)) (started_at updated_at : str) : json :=
  JObj ([("session", JStr (k_session c)); ("first_seq", opt_json JInt (first_seq c)); ("next_seq", JInt (k_next_seq c));
         ("message_count", JInt (message_count c)); ("message_type_counts", JObj ((fun kv => (kv.1, JInt kv.2)) <$> cs));
         ("reconnects", JInt (reconnects c)); ("started_at", JStr started_at); ("updated_at", JStr updated_at)] ++
        (if final then [("ended_at", JStr updated_at); ("end_reason", opt_json JStr (end_reason c))] else [])).

(** [os.replace]: OSError without a source. *)
Definition os_replace (src dst : str) : M files () :=
  text ← (fun fs => (fs, of_option OSError (fs !! src))); mmod (fun fs => <[dst := text]> (delete src fs)).

Definition write_tmp (path : str) (meta : json) : M files () :=
  mmod (fun fs => <[path +:+ ".tmp" := dumps_in_order meta ++ [z2b 10]]> fs).
Definition _write_sidecar (path : str) (meta : json) : M files () := write_tmp path meta ;; os_replace (path +:+ ".tmp") path.

Definition _load_sidecar (fs : files) (path : str) : res (option json) :=
  match (text ← of_option OSError (fs !! path); json_loads text) with
  | Ok j => Ok (Some j)
  | Raise e => if is_OSError e || is_ValueError e then Ok None else Raise e
  end.

(** [isinstance(x, int)], which a bool is too. *)
Definition as_int (j : json) : option Z := match j with JInt z => Some z | JBool b => Some (if b then 1 else 0) | _ => None end.
Definition is_null (j : option json) : bool := match j with None | Some JNull => true | _ => false end.

(** [sorted((meta.get(...) or {}).items())] of the counts, up to the order. *)
Definition read_counts (l : list (str * json)) : option (list (str * Z)) := mapM (fun kv => z ← as_int kv.2; Some (kv.1, z)) l.

(** What [_resume] takes of a sidecar with an int next_seq, as Capture's record; [None] for
    fields of other types than [write_sidecar] writes. *)
Definition meta_of_json (j : json) : option Meta :=
  match j with
  | JObj items =>
      let field k := dget k items in
      next ← field "next_seq" ≫= as_int;
      first ← (if is_null (field "first_seq") then Some None else Some <$> (field "first_seq" ≫= as_int));
      n ← (match field "message_count" with Some x => as_int x | None => Some 0 end);
      cs ← (match field "message_type_counts" with
            | None | Some JNull => Some []
            | Some (JObj l) => read_counts l
            | _ => None end);
      session ← (match field "session" with None | Some JNull => Some "" | Some (JStr s) => Some s | _ => None end);
      Some (mkMeta session first next n (list_to_map cs) 0 None)
  | _ => None
  end.

(** * Facts *)

(** Looks the names of a concrete dict up. *)
Ltac decide_names := cbn [dget]; repeat first [rewrite decide_False by discriminate | rewrite decide_True by reflexivity].

Lemma counts_plain cs : NoDup cs.*1 -> json_plain (JObj ((fun kv : str * Z => (kv.1, JInt kv.2)) <$> cs)) = true.
Proof.
  intros Hn. cbn [json_plain]. apply andb_true_iff. split.
  - apply bool_decide_eq_true. by rewrite <- list_fmap_compose.
  - apply forallb_forall. by intros y (x & -> & _)%list_elem_of_In%list_elem_of_fmap.
Qed.

Lemma counts_read cs : read_counts ((fun kv : str * Z => (kv.1, JInt kv.2)) <$> cs) = Some cs.
Proof. unfold read_counts. induction cs as [|[k z] cs IH]; [done|]. rewrite fmap_cons. cbn [mapM]. cbn. by rewrite IH. Qed.

Lemma sidecar_plain final c cs started_at updated_at : NoDup cs.*1 -> json_plain (sidecar_json final c cs started_at updated_at) = true.
Proof.
  intros Hn. pose proof (counts_plain cs Hn) as Hc. unfold sidecar_json. 
  set (counts_json := JObj ((fun kv : str * Z => (kv.1, JInt kv.2)) <$> cs)) in *. clearbody counts_json. cbn [json_plain].
  apply andb_true_iff. split; [apply bool_decide_eq_true; destruct final; apply (bool_decide_unpack _); vm_compute; exact I|].
  destruct final; cbn; rewrite Hc; by destruct (first_seq c), (end_reason c).
Qed.

Lemma tmp_ne path : path +:+ ".tmp" <> path.
Proof. intros H%(f_equal s2l). rewrite s2l_cat in H. apply (f_equal length) in H. rewrite length_app in H. cbn in H. lia. Qed.

(** * Properties *)

(** C4. The next run resumes from the text a run left exactly as from the record: the
    sidecar reads back, whatever the counts' order, the times and the texts in it; and
    until the new text replaces it the old one is there, whole. *)
Theorem sidecar_resumes final c cs started_at updated_at path fs : cs ≡ₚ map_to_list (counts c) ->
  let meta := sidecar_json final c cs started_at updated_at in
  (exists fs', _write_sidecar path meta fs = (fs', Ok ()) /\ _load_sidecar fs' path = Ok (Some meta) /\ fs' !! (path +:+ ".tmp") = None) /\
  (write_tmp path meta fs).1 !! path = fs !! path /\
  (exists m, meta_of_json meta = Some m /\ forall a, resume a (Some m) = resume a (Some (meta_of final c))).
Proof.
  intros Hcs. assert (NoDup cs.*1) as Hn by (rewrite Hcs; apply NoDup_fst_map_to_list). cbv zeta. split; [|split].
  - eexists. split; [|split].
    + unfold _write_sidecar, os_replace, write_tmp. munfold. rewrite lookup_insert_eq. reflexivity.
    + unfold _load_sidecar. rewrite lookup_insert_eq. cbn [of_option mbind res_bind]. by rewrite (json_loads_in_order _ _ (sidecar_plain _ _ _ _ _ Hn)).
    + rewrite lookup_insert_ne by (intros E; by apply (tmp_ne path)). apply lookup_delete_eq.
  - unfold write_tmp. munfold. cbn [fst]. apply lookup_insert_ne, tmp_ne.
  - assert (list_to_map cs = counts c) as Hm by (rewrite (list_to_map_proper _ _ Hn Hcs); apply list_to_map_to_list).
    exists (mkMeta (k_session c) (first_seq c) (k_next_seq c) (message_count c) (counts c) 0 None). split; [|reflexivity].
    unfold meta_of_json, sidecar_json. pose proof (counts_read cs) as Hr. remember ((fun kv : str * Z => (kv.1, JInt kv.2)) <$> cs) as l eqn:E. clear E.
    destruct final, (first_seq c); cbn -[read_counts dget]; decide_names; cbn -[read_counts]; by rewrite Hr; cbn; rewrite Hm.
Qed.

Definition sidecar_at : Capture :=
  mkCapture "S1" (Some 5) 9 {[ "A" := 3; "T" := 1 ]} 4 2 (Some "end of session") true 0.

Lemma sidecar_resumes_witness :
  let cs := map_to_list (counts sidecar_at) in
  let fs : files := {[ "x.meta.json" := s2l "{}" ]} in
  cs ≡ₚ map_to_list (counts sidecar_at) /\
  exists fs' meta, _write_sidecar "x.meta.json" meta fs = (fs', Ok ()) /\ _load_sidecar fs' "x.meta.json" = Ok (Some meta) /\
    k_next_seq (resume (mkArgs "x" None "" 0 0 None) (meta_of_json meta)) = 9.
Proof.
  cbv zeta. split; [reflexivity|].
  destruct (sidecar_resumes true sidecar_at (map_to_list (counts sidecar_at)) "2024-01-02T00:00:00Z" "2024-01-02T06:00:00Z" "x.meta.json"
    {[ "x.meta.json" := s2l "{}" ]} (reflexivity _)) as ((fs' & Hw & Hl & _) & _ & (m & Hm & Hr)).
  exists fs'. eexists. split; [exact Hw|]. split; [exact Hl|]. by rewrite Hm, Hr.
Defined.
