(* ===== verification/SampleManifest.v ===== *)
(** jnxfeed/cli/fixtures.py: the golden manifest of the three samples, the files
    extracted with it and the program.

    Files are a map by path; the directory is not created. *)
From S2P Require Export Fixtures Describe PyJson.

#[global] Set Default Goal Selector "!".

Definition UDP_SAMPLE_NAME : str := "Japannext_PTS_ITCH_Equities_v1.7.UDP.pcap".
Definition TCP_SAMPLE_NAME : str := "Japannext_PTS_ITCH_Equities_v1.7.TCP.pcap".
Definition GLIMPSE_SAMPLE_NAME : str := "Japannext_PTS_GLIMPSE_Equities_v1.4.pcap".
Definition FULL_ITCH_NAME : str := "sample_udp.itch".
Definition SLICE_ITCH_NAME : str := "sample_udp_head.itch".
Definition SLICE_MANIFEST_NAME : str := "sample_udp_head.manifest.json".
Definition GOLDEN_MANIFEST_NAME : str := "golden_manifest.json".

(** * The manifests as JSON *)

Definition int_or_null (o : option Z) : json := match o with Some z => JInt z | None => JNull end.
Definition str_or_null (o : option str) : json := match o with Some s => JStr s | None => JNull end.
Definition counts_json (d : list (str * Z)) : json := JObj ((fun kv => (kv.1, JInt kv.2)) <$> d).

(** The OrderedDicts of [scan_udp_sample] and [scan_soup_sample]. *)
Definition udp_manifest_json (pcap_path : str) (m : manifest) : json :=
  JObj [("source", JStr (basename pcap_path)); ("session", str_or_null (mf_session m)); ("first_seq", int_or_null (mf_first_seq m));
        ("last_seq", int_or_null (mf_last_seq m)); ("message_count", JInt (mf_message_count m)); ("type_counts", counts_json (mf_type_counts m))].

Definition soup_manifest_json (pcap_path : str) (m : soup_manifest) : json :=
  JObj ([("source", JStr (basename pcap_path)); ("server_port", JInt (sm_server_port m)); ("session", JStr (sm_session m));
         ("login_sequence", JInt (sm_login_sequence m)); ("message_count", JInt (sm_message_count m)); ("type_counts", counts_json (sm_type_counts m));
         ("server_heartbeats", JInt (sm_heartbeats m)); ("end_of_session", JBool (sm_end_of_session m)); ("trailing_bytes", JInt (sm_trailing_bytes m));
         ("last_message_type", str_or_null (class_name <$> sm_last_message m))] ++
        match sm_last_message m with Some (EndOfSnapshot n) => [("end_of_snapshot_sequence", JInt n)] | _ => [] end).

Definition golden_json (udp tcp glimpse : json) : json := JObj [("udp", udp); ("tcp", tcp); ("glimpse", glimpse)].

(** * The program *)

Definition _write_json (path : str) (data : json) : M files () := mmod (fun fs => <[path := dumps_in_order data ++ [z2b 10]]> fs).

Definition soup_section (pcap_path : str) (server_port : Z) : M files json :=
  m ← (fun fs => (fs, scan_soup_sample fs pcap_path server_port)); mret (soup_manifest_json pcap_path m).

Definition output_paths (fixtures_dir : option str) (write_itch : bool) : res (option str * option str) :=
  if write_itch then
    match fixtures_dir with
    | None => Raise ValueError
    | Some dir => Ok (Some (path_join dir FULL_ITCH_NAME), Some (path_join dir SLICE_ITCH_NAME))
    end
  else Ok (None, None).

Definition write_manifests (dir : str) (slice golden : json) : M files () :=
  _write_json (path_join dir SLICE_MANIFEST_NAME) slice ;; _write_json (path_join dir GOLDEN_MANIFEST_NAME) golden.

Definition build_golden_manifest (specs_dir : str) (fixtures_dir : option str) (slice_count : Z) (write_itch : bool) : M files json :=
  let udp_pcap := path_join specs_dir UDP_SAMPLE_NAME in
  paths ← mlift (output_paths fixtures_dir write_itch);
  scans ← scan_udp_sample udp_pcap paths.1 paths.2 slice_count;
  tcp ← soup_section (path_join specs_dir TCP_SAMPLE_NAME) ITCH_TCP_PORT;
  glimpse ← soup_section (path_join specs_dir GLIMPSE_SAMPLE_NAME) GLIMPSE_TCP_PORT;
  let golden := golden_json (udp_manifest_json udp_pcap scans.1) tcp glimpse in
  (if write_itch then
     write_manifests (default "" fixtures_dir) (match scans.2 with Some m => udp_manifest_json udp_pcap m | None => JNull end) golden
   else mret ()) ;;
  mret golden.

(** What the program prints, and its exit code. *)
Definition fixtures_main (specs_dir fixtures_dir : str) (slice_count : Z) : M files (bytes * Z) :=
  golden ← build_golden_manifest specs_dir (Some fixtures_dir) slice_count true;
  mret (dumps_in_order golden ++ [z2b 10], 0).

(** * Facts *)

(** Closed names differ, and so do their last characters. *)
Ltac paths := first [apply path_join_nonempty; discriminate | apply path_join_same; discriminate | apply path_join_ne; discriminate].

Lemma counts_json_plain d : NoDup d.*1 -> json_plain (counts_json (sorted_items d)) = true.
Proof.
  intros Hn. cbn [json_plain counts_json]. apply andb_true_iff. split.
  - apply bool_decide_eq_true. rewrite <- list_fmap_compose. change ((fst ∘ _) <$> ?l) with l.*1.
    unfold sorted_items. by rewrite merge_sort_Permutation.
  - apply forallb_forall. by intros y (x & -> & _)%list_elem_of_In%list_elem_of_fmap.
Qed.

Lemma bump_nodup t d : NoDup d.*1 -> NoDup (bump_type t d).*1.
Proof. apply NoDup_dset. Qed.

Lemma tally_nodup ms : NoDup (type_tally ms).*1.
Proof.
  induction ms as [|m ms IH] using rev_ind; [constructor|]. rewrite type_tally_snoc. by apply bump_nodup.
Qed.

Lemma soup_step_nodup p s s' r : NoDup (ss_type_counts s).*1 -> soup_step p s = (s', r) -> NoDup (ss_type_counts s').*1.
Proof.
  intros Hn. unfold soup_step. destruct p; repeat case_match; intros [= <- <-]; try done. cbn. by apply bump_nodup.
Qed.

Lemma soup_steps_nodup packets s s' : NoDup (ss_type_counts s).*1 -> mfor packets soup_step s = (s', Ok ()) -> NoDup (ss_type_counts s').*1.
Proof.
  revert s. induction packets as [|p packets IH]; intros s Hn; [by intros [= <-]|]. cbn [mfor]. rewrite bind_run.
  destruct (soup_step p s) as [s1 [[]|e]] eqn:E; [|done]. apply IH. by eapply soup_step_nodup.
Qed.

(** A scan's counts are those of distinct types. *)
Lemma soup_counts fs path port m : scan_soup_sample fs path port = Ok m -> exists d, sm_type_counts m = sorted_items d /\ NoDup d.*1.
Proof.
  unfold scan_soup_sample. destruct (of_option OSError (fs !! path)) as [f|e]; [|done]. cbn [mbind res_bind].
  destruct (reassemble_tcp_streams f) as [streams|e]; [|done]. cbn [mbind res_bind].
  destruct (filter _ streams) as [|[k stream] [|]]; [done| |done]. destruct (feed stream []) as [buf [[|[] packets]|e]]; try done.
  destruct (mfor packets soup_step _) as [s [[]|e]] eqn:E; [|done]. intros [= <-].
  eexists. split; [reflexivity|]. eapply soup_steps_nodup; [|done]. constructor.
Qed.

Lemma manifest_plain path session first ms all : json_plain (udp_manifest_json path (manifest_of session first ms all)) = true.
Proof.
  pose proof (counts_json_plain _ (tally_nodup ms)) as Hc. unfold udp_manifest_json, manifest_of.
  remember (counts_json (sorted_items (type_tally ms))) as cj eqn:E. cbn [mf_session mf_first_seq mf_last_seq mf_message_count mf_type_counts].
  rewrite <- E. clear E. cbn [json_plain]. apply andb_true_iff. split; [apply bool_decide_eq_true, (bool_decide_unpack _); by vm_compute|].
  cbn. rewrite Hc. by destruct ms, all.
Qed.

Lemma soup_manifest_plain fs path port m source : scan_soup_sample fs path port = Ok m -> json_plain (soup_manifest_json source m) = true.
Proof.
  intros (d & Ed & Hd)%soup_counts. pose proof (counts_json_plain d Hd) as Hc. rewrite <- Ed in Hc. unfold soup_manifest_json.
  remember (counts_json (sm_type_counts m)) as cj eqn:E. clear E. cbn [json_plain].
  destruct (sm_last_message m) as [[]|]; (apply andb_true_iff; split; [apply bool_decide_eq_true, (bool_decide_unpack _); by vm_compute|]); cbn;
    by rewrite Hc.
Qed.

Lemma golden_plain udp tcp glimpse : json_plain udp = true -> json_plain tcp = true -> json_plain glimpse = true ->
  json_plain (golden_json udp tcp glimpse) = true.
Proof.
  intros H1 H2 H3. unfold golden_json. cbn [json_plain]. apply andb_true_iff. split; [apply bool_decide_eq_true, (bool_decide_unpack _); by vm_compute|].
  cbn. by rewrite H1, H2, H3.
Qed.

Lemma soup_section_run fs path port : soup_section path port fs = (fs, m ← scan_soup_sample fs path port; Ok (soup_manifest_json path m)).
Proof. unfold soup_section. munfold. by destruct (scan_soup_sample fs path port). Qed.

Lemma scan_soup_reads fs fs' path port : fs' !! path = fs !! path -> scan_soup_sample fs' path port = scan_soup_sample fs path port.
Proof. intros H. unfold scan_soup_sample. by rewrite H. Qed.

Definition json_text (j : json) : bytes := dumps_in_order j ++ [z2b 10].

Lemma json_text_reads j : json_plain j = true -> json_loads (json_text j) = Ok j.
Proof. intros H. by apply json_loads_in_order. Qed.

(** The program step by step. *)
Lemma fixtures_main_run specs dir n fs :
  let udp_pcap := path_join specs UDP_SAMPLE_NAME in
  let tcp_pcap := path_join specs TCP_SAMPLE_NAME in
  let glimpse_pcap := path_join specs GLIMPSE_SAMPLE_NAME in
  fixtures_main specs dir n fs =
  match scan_udp_sample udp_pcap (Some (path_join dir FULL_ITCH_NAME)) (Some (path_join dir SLICE_ITCH_NAME)) n fs with
  | (fs1, Raise e) => (fs1, Raise e)
  | (fs1, Ok mans) =>
      match scan_soup_sample fs1 tcp_pcap ITCH_TCP_PORT, scan_soup_sample fs1 glimpse_pcap GLIMPSE_TCP_PORT with
      | Ok tcp, Ok glimpse =>
          let golden := golden_json (udp_manifest_json udp_pcap mans.1) (soup_manifest_json tcp_pcap tcp) (soup_manifest_json glimpse_pcap glimpse) in
          (<[path_join dir GOLDEN_MANIFEST_NAME := json_text golden]> (
           <[path_join dir SLICE_MANIFEST_NAME := json_text (match mans.2 with Some m => udp_manifest_json udp_pcap m | None => JNull end)]> fs1),
           Ok (json_text golden, 0))
      | Raise e, _ | _, Raise e => (fs1, Raise e)
      end
  end.
Proof.
  cbv zeta. unfold fixtures_main, build_golden_manifest. munfold. cbn [output_paths fst snd].
  destruct (scan_udp_sample _ _ _ n fs) as [fs1 [mans|e]]; [|done]. rewrite soup_section_run.
  destruct (scan_soup_sample fs1 _ ITCH_TCP_PORT) as [tcp|e]; cbn [mbind res_bind]; [|done]. rewrite soup_section_run.
  by destruct (scan_soup_sample fs1 _ GLIMPSE_TCP_PORT).
Qed.

(** * Properties *)

(** The program succeeds exactly when the UDP sample is one gapless session that decodes
    and both TCP samples scan; it then wrote those messages, the first of them, and the
    manifests of both, printed the golden one, and touched no other file; what it printed
    reads back as the manifest. *)
Lemma golden_manifest_exact specs dir n fs fs' out : 0 <= n ->
  let udp_pcap := path_join specs UDP_SAMPLE_NAME in
  let tcp_pcap := path_join specs TCP_SAMPLE_NAME in
  let glimpse_pcap := path_join specs GLIMPSE_SAMPLE_NAME in
  fixtures_main specs dir n fs = (fs', Ok out) <->
  exists session first ms tcp glimpse,
    iter_udp_sample fs udp_pcap = (numbered session first ms, Ok ()) /\ Forall decodes ms /\
    scan_soup_sample fs tcp_pcap ITCH_TCP_PORT = Ok tcp /\ scan_soup_sample fs glimpse_pcap GLIMPSE_TCP_PORT = Ok glimpse /\
    let head := take (Z.to_nat n) ms in
    let golden := golden_json (udp_manifest_json udp_pcap (manifest_of session first ms ms))
                    (soup_manifest_json tcp_pcap tcp) (soup_manifest_json glimpse_pcap glimpse) in
    fs' = <[path_join dir GOLDEN_MANIFEST_NAME := json_text golden]> (
          <[path_join dir SLICE_MANIFEST_NAME := json_text (udp_manifest_json udp_pcap (manifest_of session first head ms))]> (
          <[path_join dir SLICE_ITCH_NAME := concat (frame16 <$> head)]> (
          <[path_join dir FULL_ITCH_NAME := concat (frame16 <$> ms)]> fs))) /\
    out = (json_text golden, 0) /\ json_loads out.1 = Ok golden.
Proof.
  intros Hn. cbv zeta. rewrite fixtures_main_run. cbv zeta.
  pose proof (fun fs' mans => scan_udp_sample_iff fs (path_join specs UDP_SAMPLE_NAME) (path_join dir FULL_ITCH_NAME)
    (path_join dir SLICE_ITCH_NAME) n fs' mans ltac:(paths) ltac:(paths) ltac:(paths) ltac:(paths) ltac:(paths) Hn) as Hiff.
  assert (forall f port full slice, f = TCP_SAMPLE_NAME \/ f = GLIMPSE_SAMPLE_NAME ->
    scan_soup_sample (<[path_join dir SLICE_ITCH_NAME := slice]> (<[path_join dir FULL_ITCH_NAME := full]> fs)) (path_join specs f) port =
    scan_soup_sample fs (path_join specs f) port) as Hreads.
  { intros f port full slice Hf. apply scan_soup_reads. destruct Hf as [-> | ->]; rewrite !lookup_insert_ne by paths; done. }
  split.
  - destruct (scan_udp_sample _ _ _ n fs) as [fs1 [mans|e]]; [|done].
    destruct (proj1 (Hiff fs1 mans) eq_refl) as (session & first & ms & Hi & Hd & -> & ->).
    rewrite !Hreads by auto. destruct (scan_soup_sample fs _ ITCH_TCP_PORT) as [tcp|e] eqn:Et; [|done].
    destruct (scan_soup_sample fs _ GLIMPSE_TCP_PORT) as [glimpse|e] eqn:Eg; [|done]. intros [= <- <-].
    exists session, first, ms, tcp, glimpse. split_and!; try done.
    apply json_text_reads, golden_plain; [apply manifest_plain| |]; by eapply soup_manifest_plain.
  - intros (session & first & ms & tcp & glimpse & Hi & Hd & Et & Eg & -> & -> & _).
    rewrite (proj2 (Hiff _ _)) by eauto 10. by rewrite !Hreads, Et, Eg by auto.
Qed.
