(* ===== verification/Golden.v ===== *)
(** tools/gen_golden_vectors.py: the golden byte vectors the C++ tests read.

    The generated JSON is ASCII, so writing it never raises.  A message printed is its
    data.  [float_is] says whether the float of a literal equals an integer. *)
From S2P Require Export PyJson ItchFile SoupPackets Describe.

#[global] Set Default Goal Selector "!".

(** [bytes.hex] and [bytes.fromhex], which skips white space between bytes. *)
Definition hex_bytes (l : bytes) : str := l2s (concat ((fun b => [hex_digit (b2z b / 16); hex_digit (b2z b mod 16)]) <$> l)).
Fixpoint fromhex_b (l : bytes) : res bytes :=
  match l with
  | [] => Ok []
  | a :: t =>
      if ((9 <=? b2z a) && (b2z a <=? 13)) || (b2z a =? 32) then fromhex_b t
      else
        match t with
        | b :: t => h ← of_option ValueError (hex_val a); l ← of_option ValueError (hex_val b); r ← fromhex_b t; Ok (z2b (h * 16 + l) :: r)
        | [] => Raise ValueError
        end
  end.

Record vector : Type := mkVector { v_name : str; v_type : str; v_hex : str; v_fields : list (str * json) }.
Definition vector_json (v : vector) : json :=
  JObj [("name", JStr (v_name v)); ("type", JStr (v_type v)); ("hex", JStr (v_hex v)); ("fields", JObj (v_fields v))].

(** * ITCH vectors *)

Definition fval_json (v : fval) : json := match v with FInt z => JInt z | FStr s => JStr s end.
(** [dict(msg._asdict())] *)
Definition msg_asdict (m : message) : list (str * json) := zip (_fields m) (fval_json <$> msg_fields m).

Definition _itch_vector (name : str) (msg : message) : res vector :=
  let msg_type := type_char msg in
  encoded ← Itch.encode (OMsg msg);
  expected_len ← total_length msg_type;
  if negb (length encoded =? expected_len)%nat then Raise AssertionError
  else
    decoded ← Itch.decode encoded;
    if decide (decoded = msg) then Ok (mkVector name msg_type (hex_bytes encoded) (msg_asdict decoded))
    else Raise AssertionError.

Definition REFERENCE_VECTORS : list (str * message) := [
  ("t_basic", TimestampSeconds 34200);
  ("t_zero_seconds", TimestampSeconds 0);
  ("t_max_seconds", TimestampSeconds 4294967295);
  ("s_start_of_messages", SystemEvent 1000 "DAY" "O");
  ("s_blank_group_system_wide", SystemEvent 2000 "" "Q");
  ("s_end_of_messages", SystemEvent 3000 "NGHT" "C");
  ("l_basic", PriceTickSize 100 1 1 1000);
  ("l_zero_tick_table", PriceTickSize 200 0 5 0);
  ("l_large_price_start", PriceTickSize 300 7 100 2147483646);
  ("r_daytime_market", OrderbookDirectory 400 "8306" "JP3902400005" "DAY" 100 1 1 200000 100000);
  ("r_night_market", OrderbookDirectory 500 "7203" "JP3633400001" "NGHT" 100 2 1 999999 1);
  ("r_isin_blank_after_strip", OrderbookDirectory 600 "0001" "" "DAYX" 1 0 1 NO_PRICE 0);
  ("h_trading", TradingState 700 "8306" "DAY" "T");
  ("h_suspended", TradingState 800 "7203" "DAY" "V");
  ("h_unknown_state", TradingState 900 "0001" "DAYU" "?");
  ("y_unrestricted", ShortSellRestriction 1000 "8306" "DAY" "0");
  ("y_restricted", ShortSellRestriction 1100 "7203" "DAY" "1");
  ("y_unknown_state", ShortSellRestriction 1200 "0001" "DAYU" "?")].
Definition ORDER_VECTORS : list (str * message) := [
  ("a_buy_basic", OrderAdded 1300 123456789 "B" 100 "8306" "DAY" 15000);
  ("a_sell_max_qty", OrderAdded 1400 987654321 "S" 4294967295 "7203" "DAY" 25000);
  ("a_ref_price_no_price", OrderAdded 1500 0 "B" 0 "8306" "DAY" NO_PRICE);
  ("a_ref_price_real_value", OrderAdded 1600 0 "B" 0 "8306" "DAY" 99999);
  ("f_dlp_order", OrderAddedWithAttributes 1700 42 "B" 500 "8306" "DAY" 15000 "ABCD" "Q");
  ("f_blank_attribution", OrderAddedWithAttributes 1800 43 "S" 600 "7203" "DAY" 16000 "" "Q");
  ("f_regular_order_blank_type", OrderAddedWithAttributes 1900 44 "B" 700 "0001" "DAYU" 17000 "" "");
  ("e_basic", OrderExecuted 2000 42 100 1);
  ("e_large_match_number", OrderExecuted 2100 43 1 18446744073709551615);
  ("e_zero_qty_edge", OrderExecuted 2200 44 0 2);
  ("d_basic", OrderDeleted 2300 42);
  ("d_small_order_number", OrderDeleted 2400 1);
  ("d_max_order_number", OrderDeleted 2500 18446744073709551615);
  ("u_basic", OrderReplaced 2600 42 4200 200 15500);
  ("u_max_qty", OrderReplaced 2700 43 4300 4294967295 16500);
  ("u_min_price", OrderReplaced 2800 44 4400 1 1);
  ("g_zero", EndOfSnapshot 0);
  ("g_basic", EndOfSnapshot 12562);
  ("g_large_binary_seq", EndOfSnapshot 18446744073709551615)].
Definition build_itch_vectors : res (list vector) :=
  rmap (fun nm : str * message => _itch_vector nm.1 nm.2) (REFERENCE_VECTORS ++ ORDER_VECTORS).

(** * SoupBinTCP vectors *)

Inductive pkval : Type := PInt (z : Z) | PStr (s : str) | PBytes (l : bytes).
(** [dict(pkt._asdict())] *)
Definition packet_asdict (p : packet) : list (str * pkval) :=
  match p with
  | LoginAccepted session sequence => [("session", PStr session); ("sequence", PInt sequence)]
  | LoginRejected reject_code => [("reject_code", PStr reject_code)]
  | SequencedData message => [("message", PBytes message)]
  | ServerHeartbeat | EndOfSession | ClientHeartbeat | LogoutRequest => []
  | DebugPacket payload => [("payload", PBytes payload)]
  | LoginRequest username password requested_session requested_sequence =>
      [("username", PStr username); ("password", PStr password); ("requested_session", PStr requested_session);
       ("requested_sequence", PInt requested_sequence)]
  | UnsequencedData message => [("message", PBytes message)]
  end.

(** Bytes go to the end, as hex, under the key's name with [_hex]. *)
Definition hex_field (fields : list (str * pkval)) (key : str) : list (str * pkval) :=
  match dget key fields with
  | Some (PBytes l) => dremove key (dset (key +:+ "_hex") (PStr (hex_bytes l)) fields)
  | _ => fields
  end.
(** No bytes are left by then: the fields that hold bytes are [message] and [payload]. *)
Definition pkval_json (v : pkval) : json := match v with PInt z => JInt z | PStr s => JStr s | PBytes _ => JNull end.

(** The fields as [_soup_vector] and [cmd_verify] record them. *)
Definition packet_fields (p : packet) (type_char : str) : list (str * json) :=
  let fields := hex_field (hex_field (packet_asdict p) "message") "payload" in
  let fields :=
    match dget "message_hex" fields with
    | Some x => if decide (type_char = "S") then dset "payload_hex" x (dremove "message_hex" fields) else fields
    | None => fields
    end in
  (fun kv => (kv.1, pkval_json kv.2)) <$> fields.

Definition _soup_vector (name : str) (pkt : packet) : res vector :=
  encoded ← encode_packet pkt;
  decoded ← decode_frame (drop 2 encoded);
  if decide (decoded = pkt) then
    type_char ← decode_ascii (slice 2 3 encoded);
    Ok (mkVector name type_char (hex_bytes encoded) (packet_fields decoded type_char))
  else Raise AssertionError.

Definition SOUP_VECTORS (inner_t inner_a : bytes) : list (str * packet) := [
  ("login_request_minimal", LoginRequest "" "" "" 0);
  ("login_request_typical", LoginRequest "usr" "pass" "1697659284" 12562);
  ("login_request_exact_width_fill", LoginRequest "USER12" "PASSWORD12" "SESSION123" 18446744073709551615);
  ("login_accepted_minimal", LoginAccepted "1" 1);
  ("login_accepted_typical", LoginAccepted "1697659284" 12562);
  ("login_accepted_exact_width_fill", LoginAccepted "ABCDEFGHIJ" 18446744073709551615);
  ("login_rejected_not_authorized", LoginRejected REJECT_NOT_AUTHORIZED);
  ("login_rejected_session_unavailable", LoginRejected REJECT_SESSION_UNAVAILABLE);
  ("sequenced_data_timestamp", SequencedData inner_t);
  ("sequenced_data_order_added", SequencedData inner_a);
  ("server_heartbeat", ServerHeartbeat);
  ("end_of_session", EndOfSession);
  ("debug_packet", DebugPacket (s2l "debug: replay caught up to seq 234751"));
  ("unsequenced_data", UnsequencedData (s2l "unsequenced-test-payload"));
  ("client_heartbeat", ClientHeartbeat);
  ("logout_request", LogoutRequest)].
Definition build_soup_vectors : res (list vector) :=
  inner_t ← Itch.encode (OMsg (TimestampSeconds 34200));
  inner_a ← Itch.encode (OMsg (OrderAdded 1300 123456789 "B" 100 "8306" "DAY" 15000));
  rmap (fun np : str * packet => _soup_vector np.1 np.2) (SOUP_VECTORS inner_t inner_a).

(** * Files *)

Definition vectors_json (vectors : list vector) : json := JObj [("vectors", JList (vector_json <$> vectors))].
Definition _dumps (vectors : list vector) : bytes := dumps_indent (vectors_json vectors) ++ [z2b 10].

(** Paths are relative to the repository. *)
Definition VECTORS_DIR : str := "cpp/test/vectors".
Definition ITCH_JSON_PATH : str := VECTORS_DIR +:+ "/itch.json".
Definition SOUP_JSON_PATH : str := VECTORS_DIR +:+ "/soup.json".

(** What is printed. *)
Inductive said : Type :=
| Wrote (count : Z) (path : str)
| DoesNotExist (path : str) | Differs (path : str) | MatchesFresh (path : str)
| DecodeRaised (name : json) (e : exn) | FieldsMismatch (name recorded : json) (decoded : list (str * json))
| LengthMismatch (name : json) (len : nat) (schema : nat) (type : json)
| VerifyOK (itch soup : Z).

Definition World : Type := files * list said.
Definition say (x : said) : M World () := mmod (fun w => (w.1, w.2 ++ [x])).
Definition _write (path : str) (vectors : list vector) : M World () := mmod (fun w => (<[path := _dumps vectors]> w.1, w.2)).

(** Text mode: CR and CR LF are read as LF. *)
Fixpoint universal (l : bytes) : bytes :=
  match l with
  | [] => []
  | b :: t =>
      if b2z b =? 13 then z2b 10 :: match t with c :: t' => if b2z c =? 10 then universal t' else universal t | [] => [] end
      else b :: universal t
  end.
Definition read_text (path : str) : M World bytes := fun w =>
  (w, l ← of_option OSError (w.1 !! path); _ ← decode_ascii l; Ok (universal l)).

Definition _generate_all : res (list vector * list vector) :=
  itch_vectors ← build_itch_vectors; soup_vectors ← build_soup_vectors; Ok (itch_vectors, soup_vectors).

Definition cmd_generate : M World Z :=
  vs ← mlift _generate_all;
  _write ITCH_JSON_PATH vs.1 ;;
  _write SOUP_JSON_PATH vs.2 ;;
  say (Wrote (zlen vs.1) ITCH_JSON_PATH) ;;
  say (Wrote (zlen vs.2) SOUP_JSON_PATH) ;;
  mret 0.

(** The body of the loop of [cmd_check]; [false] clears [ok]. *)
Definition check_file (tmp_path committed_path : str) : M World bool :=
  w ← mget;
  match w.1 !! committed_path with
  | None => say (DoesNotExist committed_path) ;; mret false
  | Some _ =>
      fresh ← read_text tmp_path;
      committed ← read_text committed_path;
      if decide (fresh = committed) then say (MatchesFresh committed_path) ;; mret true
      else say (Differs committed_path) ;; mret false
  end.

(** [tmpdir] is the temporary directory, removed at the end. *)
Definition cmd_check (tmpdir : str) : M World Z :=
  vs ← mlift _generate_all;
  let tmp_itch := tmpdir +:+ "/itch.json" in
  let tmp_soup := tmpdir +:+ "/soup.json" in
  mfinally
    (_write tmp_itch vs.1 ;;
     _write tmp_soup vs.2 ;;
     ok1 ← check_file tmp_itch ITCH_JSON_PATH;
     ok2 ← check_file tmp_soup SOUP_JSON_PATH;
     mret (if ok1 && ok2 then 0 else 1))
    (mmod (fun w => (delete tmp_itch (delete tmp_soup w.1), w.2))).

(** ** cmd_verify *)

(** [j\[k\]] and iteration on a JSON value. *)
Definition jget (k : str) (j : json) : res json :=
  match j with JObj items => of_option KeyError (dget k items) | _ => Raise TypeError end.
Definition jiter (j : json) : res (list json) :=
  match j with
  | JList l => Ok l
  | JObj items => Ok ((fun kv => JStr kv.1) <$> items)
  | JStr s => Ok ((fun b => JStr (l2s [b])) <$> s2l s)
  | _ => Raise TypeError
  end.
Definition jfromhex (j : json) : res bytes := match j with JStr s => fromhex_b (s2l s) | _ => Raise TypeError end.
Definition jtotal_length (j : json) : res nat :=
  match j with JStr s => total_length s | JList _ | JObj _ => Raise TypeError | _ => Raise KeyError end.

Section verify.
Context (float_is : bytes -> Z -> bool).

(** Python's [==] of a decoded field and a JSON value, and of the two dicts. *)
Definition field_is (a j : json) : bool :=
  match a, j with
  | JInt x, JInt y => x =? y
  | JInt x, JBool b => x =? Z.b2z b
  | JInt x, JFloat r => float_is r x
  | JStr s, JStr t => bool_decide (s = t)
  | _, _ => false
  end.
Definition dict_is (actual : list (str * json)) (j : json) : bool :=
  match j with
  | JObj items =>
      (length items =? length actual)%nat &&
      forallb (fun kv : str * json => match dget kv.1 items with Some x => field_is kv.2 x | None => false end) actual
  | _ => false
  end.

(** The bodies of the loops; [false] clears [ok]. *)
Definition verify_itch (v : json) : M World bool :=
  hex ← mlift (jget "hex" v); raw ← mlift (jfromhex hex);
  match Itch.decode raw with
  | Raise e => name ← mlift (jget "name" v); say (DecodeRaised name e) ;; mret false
  | Ok decoded =>
      fields ← mlift (jget "fields" v);
      let actual := msg_asdict decoded in
      ok1 ← (if dict_is actual fields then mret true
             else name ← mlift (jget "name" v); say (FieldsMismatch name fields actual) ;; mret false);
      type ← mlift (jget "type" v); n ← mlift (jtotal_length type);
      if (length raw =? n)%nat then mret ok1
      else name ← mlift (jget "name" v); say (LengthMismatch name (length raw) n type) ;; mret false
  end.

Definition is_S (j : json) : bool := match j with JStr s => bool_decide (s = "S") | _ => false end.
Definition verify_soup (v : json) : M World bool :=
  hex ← mlift (jget "hex" v); raw ← mlift (jfromhex hex);
  match decode_frame (drop 2 raw) with
  | Raise e => name ← mlift (jget "name" v); say (DecodeRaised name e) ;; mret false
  | Ok decoded =>
      type ← mlift (jget "type" v);
      let actual := packet_fields decoded (if is_S type then "S" else "") in
      fields ← mlift (jget "fields" v);
      if dict_is actual fields then mret true
      else name ← mlift (jget "name" v); say (FieldsMismatch name fields actual) ;; mret false
  end.

(** A loop over the vectors of a file: whether [ok] is kept, and their number. *)
Definition verify_file (path : str) (body : json -> M World bool) : M World (bool * Z) :=
  text ← read_text path;
  data ← mlift (json_loads text);
  vs ← mlift (jget "vectors" data); l ← mlift (jiter vs);
  oks ← mmapM body l;
  mret (forallb id oks, zlen l).

Definition cmd_verify : M World Z :=
  itch ← verify_file ITCH_JSON_PATH verify_itch;
  soup ← verify_file SOUP_JSON_PATH verify_soup;
  let ok := itch.1 && soup.1 in
  (if ok then say (VerifyOK itch.2 soup.2) else mret ()) ;;
  mret (if ok then 0 else 1).

Definition golden_main (tmpdir : str) (check verify : bool) : M World Z :=
  if check then cmd_check tmpdir else if verify then cmd_verify else cmd_generate.
End verify.

(** * Facts *)

Lemma fromhex_hex l : fromhex_b (s2l (hex_bytes l)) = Ok l.
Proof.
  unfold hex_bytes. rewrite s2l_l2s. induction l as [|b l IH]; [done|]. rewrite fmap_cons. cbn [concat].
  assert (forall t, fromhex_b ([hex_digit (b2z b / 16); hex_digit (b2z b mod 16)] ++ t) = (r ← fromhex_b t; Ok (b :: r))) as -> by (intros t; by destruct b).
  by rewrite IH.
Qed.

(** A value that is an integer or a text. *)
Definition is_atom (j : json) : bool := match j with JInt _ | JStr _ => true | _ => false end.

Lemma dget_perm {V} (k : str) (d d' : list (str * V)) : d ≡ₚ d' -> NoDup (dkeys d) -> dget k d = dget k d'.
Proof.
  intros Hp Hn. assert (NoDup (dkeys d')) as Hn' by (unfold dkeys in *; by rewrite <- Hp).
  destruct (dget k d) as [v|] eqn:E.
  - symmetry. apply elem_dget; [done|]. rewrite <- Hp. by apply dget_Some_elem.
  - symmetry. apply dget_None. apply dget_None in E. unfold dkeys in *. by rewrite <- Hp.
Qed.

Section facts.
Context (float_is : bytes -> Z -> bool).

Lemma dict_is_sorted l : NoDup (dkeys l) -> forallb (fun kv : str * json => is_atom kv.2) l = true -> dict_is float_is l (sorted_keys (JObj l)) = true.
Proof.
  intros Hn Ha. cbn [sorted_keys].
  assert ((fun kv : str * json => (kv.1, sorted_keys kv.2)) <$> l = l) as ->.
  { clear Hn. induction l as [|[k j] l IH]; [done|]. cbn [forallb] in Ha. apply andb_true_iff in Ha as [Hj Ha]. rewrite fmap_cons, IH by done. by destruct j. }
  pose proof (merge_sort_Permutation item_key_le l) as Hp. cbn [dict_is]. apply andb_true_iff. split; [apply Nat.eqb_eq; by rewrite Hp|].
  apply forallb_forall. intros [k j] Hin%list_elem_of_In. rewrite (dget_perm k _ l) by (done || (unfold dkeys in *; by rewrite Hp)).
  rewrite (elem_dget k j l) by done. rewrite forallb_forall in Ha. specialize (Ha (k, j) (proj1 (list_elem_of_In _ _) Hin)).
  cbn [snd] in *. destruct j; try done; cbn; [apply Z.eqb_refl|by apply bool_decide_eq_true].
Qed.

Lemma vector_keys v : sorted_keys (vector_json v) =
  JObj [("fields", sorted_keys (JObj (v_fields v))); ("hex", JStr (v_hex v)); ("name", JStr (v_name v)); ("type", JStr (v_type v))].
Proof. reflexivity. Qed.

Lemma msg_asdict_ok m : NoDup (dkeys (msg_asdict m)) /\ forallb (fun kv : str * json => is_atom kv.2) (msg_asdict m) = true.
Proof. split; [apply (bool_decide_unpack _)|]; destruct m; by vm_compute. Qed.

Lemma vector_gets v : let j := sorted_keys (vector_json v) in
  jget "hex" j = Ok (JStr (v_hex v)) /\ jget "fields" j = Ok (sorted_keys (JObj (v_fields v))) /\ jget "type" j = Ok (JStr (v_type v)).
Proof. by split_and!. Qed.

Lemma verify_itch_vector name msg v w : _itch_vector name msg = Ok v -> verify_itch float_is (sorted_keys (vector_json v)) w = (w, Ok true).
Proof.
  unfold _itch_vector. intros H. inv_ok. rename a into encoded, a0 into n. destruct (length encoded =? n)%nat eqn:El; [|done]. cbn [negb] in H. inv_ok.
  case_decide; [|done]. inv_ok. destruct (vector_gets (mkVector name (type_char msg) (hex_bytes encoded) (msg_asdict msg))) as (E1 & E2 & E3).
  destruct (msg_asdict_ok msg) as [Hn Ha]. unfold verify_itch. rewrite bind_run. unfold mlift at 1. rewrite E1, bind_run. unfold mlift at 1. cbn [jfromhex v_hex].
  rewrite fromhex_hex. rewrite Hr1, bind_run. unfold mlift at 1. rewrite E2. cbn [v_fields]. rewrite dict_is_sorted by done.
  rewrite bind_run. unfold mret at 1, M_ret at 1. rewrite bind_run. unfold mlift at 1. rewrite E3, bind_run. unfold mlift at 1. cbn [jtotal_length v_type].
  rewrite Hr0, El. done.
Qed.

Lemma packet_fields_ok p t : NoDup (dkeys (packet_fields p t)) /\ forallb (fun kv : str * json => is_atom kv.2) (packet_fields p t) = true.
Proof.
  unfold packet_fields. destruct p; cbn [packet_asdict]; try (split; [apply (bool_decide_unpack _)|]; by vm_compute).
  all: destruct (decide (t = "S")); (split; [apply (bool_decide_unpack _)|]); by vm_compute.
Qed.

Lemma verify_soup_vector name pkt v w : _soup_vector name pkt = Ok v -> verify_soup float_is (sorted_keys (vector_json v)) w = (w, Ok true).
Proof.
  unfold _soup_vector. intros H. inv_ok. rename a into encoded. case_decide; [|done]. inv_ok. rename a into t.
  destruct (vector_gets (mkVector name t (hex_bytes encoded) (packet_fields pkt t))) as (E1 & E2 & E3). destruct (packet_fields_ok pkt t) as [Hn Ha].
  unfold verify_soup. rewrite bind_run. unfold mlift at 1. rewrite E1, bind_run. unfold mlift at 1. cbn [jfromhex v_hex]. rewrite fromhex_hex, Hr0.
  rewrite bind_run. unfold mlift at 1. rewrite E3, bind_run. unfold mlift at 1. rewrite E2. cbn [v_fields v_type is_S].
  assert (packet_fields pkt (if bool_decide (t = "S") then "S" else "") = packet_fields pkt t) as ->; [|by rewrite dict_is_sorted].
  destruct (bool_decide_reflect (t = "S")) as [->|Hne]; [done|]. unfold packet_fields. destruct (dget "message_hex" _); [|done].
  by rewrite !decide_False by done.
Qed.

Lemma mmapM_true {S A} (body : A -> M S bool) l w : (forall x, x ∈ l -> body x w = (w, Ok true)) -> mmapM body l w = (w, Ok (replicate (length l) true)).
Proof.
  induction l as [|x l IH]; intros Hb; [done|]. cbn [mmapM length replicate]. rewrite bind_run, Hb by left. rewrite bind_run, IH by (intros y Hy; apply Hb; by right). done.
Qed.

Lemma bind_lift_ok {S A B} (a : A) (f : A -> M S B) w : (mlift (Ok a) ≫= f) w = f a w.
Proof. done. Qed.

Lemma verify_file_ok path body vs w : read_text path w = (w, Ok (_dumps vs)) -> json_plain (vectors_json vs) = true ->
  (forall v, v ∈ vs -> body (sorted_keys (vector_json v)) w = (w, Ok true)) -> verify_file path body w = (w, Ok (true, zlen vs)).
Proof.
  intros Hr Hp Hb. unfold verify_file. rewrite bind_run, Hr. unfold _dumps. rewrite json_loads_dumps, bind_lift_ok by done.
  change (jget "vectors" _) with (Ok (JList (sorted_keys <$> (vector_json <$> vs)))). rewrite bind_lift_ok. cbn [jiter].
  rewrite bind_lift_ok, bind_run, mmapM_true.
  - assert (forall n, forallb id (replicate n true) = true) as -> by (intros n; by induction n). unfold zlen. by rewrite !length_fmap.
  - intros x (y & -> & (v & -> & Hv)%list_elem_of_fmap)%list_elem_of_fmap. by apply Hb.
Qed.

(** ** The files of vectors that were built *)

Definition built (v : vector) : Prop :=
  (exists name msg, _itch_vector name msg = Ok v) \/ (exists name pkt, _soup_vector name pkt = Ok v).

Lemma built_plain v : built v -> json_plain (vector_json v) = true.
Proof.
  assert (forall l, NoDup (dkeys l) /\ forallb (fun kv : str * json => is_atom kv.2) l = true -> json_plain (JObj l) = true) as Hl.
  { intros l [Hn Ha]. cbn [json_plain]. rewrite bool_decide_true by done. eapply forallb_impl; [|exact Ha]. intros [k j] Hj. cbn in *. by destruct j. }
  intros Hv. assert (json_plain (JObj (v_fields v)) = true) as Hf.
  { apply Hl. destruct Hv as [(name & msg & H)|(name & pkt & H)].
    - unfold _itch_vector in H. inv_ok. destruct (negb _); [done|]. inv_ok. case_decide; [|done]. inv_ok. apply msg_asdict_ok.
    - unfold _soup_vector in H. inv_ok. case_decide; [|done]. inv_ok. apply packet_fields_ok. }
  unfold vector_json. cbn [json_plain forallb snd] in *. rewrite Hf. done.
Qed.

Lemma vectors_plain vs : (forall v, v ∈ vs -> built v) -> json_plain (vectors_json vs) = true.
Proof.
  intros Hv. change (forallb json_plain (vector_json <$> vs) && true = true). rewrite andb_true_r. apply forallb_forall.
  intros j (v & -> & Hin)%list_elem_of_In%list_elem_of_fmap. by apply built_plain, Hv.
Qed.

Lemma rmap_elem {A B} (f : A -> res B) l ys y : rmap f l = Ok ys -> y ∈ ys -> exists x, f x = Ok y.
Proof.
  intros H%rmap_Ok_iff Hin. induction H as [|x z l ys Hx _ IH]; [by apply not_elem_of_nil in Hin|].
  apply elem_of_cons in Hin as [->|Hin]; [by exists x|by apply IH].
Qed.

Lemma generated_built itch soup : _generate_all = Ok (itch, soup) ->
  (forall v, v ∈ itch -> exists name msg, _itch_vector name msg = Ok v) /\ (forall v, v ∈ soup -> exists name pkt, _soup_vector name pkt = Ok v).
Proof.
  unfold _generate_all. intros H. destruct build_itch_vectors as [vs|] eqn:Ei; [|done]. cbn [mbind res_bind] in H.
  destruct build_soup_vectors as [vs'|] eqn:Es; [|done]. injection H as -> ->. split; intros v Hin.
  - destruct (rmap_elem _ _ _ _ Ei Hin) as [[n m] E]. by exists n, m.
  - unfold build_soup_vectors in Es. inv_ok. destruct (rmap_elem _ _ _ _ Es Hin) as [[n p] E]. by exists n, p.
Qed.

(** What is read of two files with the generated text verifies. *)
Lemma verify_generated itch soup w : _generate_all = Ok (itch, soup) -> read_text ITCH_JSON_PATH w = (w, Ok (_dumps itch)) ->
  read_text SOUP_JSON_PATH w = (w, Ok (_dumps soup)) -> cmd_verify float_is w = ((w.1, w.2 ++ [VerifyOK (zlen itch) (zlen soup)]), Ok 0).
Proof.
  intros [Hi Hs]%generated_built Ei Es. unfold cmd_verify.
  rewrite bind_run, (verify_file_ok _ _ itch w Ei).
  - rewrite bind_run, (verify_file_ok _ _ soup w Es); [done| |].
    + apply vectors_plain. intros v Hv. right. by apply Hs.
    + intros v Hv. destruct (Hs v Hv) as (name & pkt & E). by eapply verify_soup_vector.
  - apply vectors_plain. intros v Hv. left. by apply Hi.
  - intros v Hv. destruct (Hi v Hv) as (name & msg & E). by eapply verify_itch_vector.
Qed.
End facts.

(** The vectors as they are: they are built, and their text is plain ASCII lines. *)
Definition text_byte (b : byte) : bool := is_ascii b && negb (b2z b =? 13).
Lemma generated : exists itch soup, _generate_all = Ok (itch, soup) /\ forallb text_byte (_dumps itch) = true /\ forallb text_byte (_dumps soup) = true.
Proof.
  assert (match _generate_all with Ok (itch, soup) => forallb text_byte (_dumps itch) && forallb text_byte (_dumps soup) | Raise _ => false end = true) as H by (vm_compute; reflexivity).
  destruct _generate_all as [[itch soup]|]; [|done]. apply andb_true_iff in H as [H1 H2]. by exists itch, soup.
Qed.

Lemma universal_text l : forallb text_byte l = true -> universal l = l.
Proof.
  induction l as [|b l IH]; [done|]. cbn [forallb universal]. intros [[_ Hb%negb_true_iff]%andb_true_iff Hl]%andb_true_iff. by rewrite Hb, IH.
Qed.
Lemma read_text_plain path w l : w.1 !! path = Some l -> forallb text_byte l = true -> read_text path w = (w, Ok l).
Proof.
  intros E Hl. unfold read_text. rewrite E. cbn [of_option mbind res_bind]. unfold decode_ascii.
  rewrite (forallb_impl text_byte is_ascii l); [|by intros b [? _]%andb_true_iff|done]. cbn [mbind res_bind]. by rewrite universal_text.
Qed.

#[local] Opaque _generate_all _dumps.

(** The two files read as the generated ones. *)
Definition up_to_date (w : World) : Prop := exists itch soup, _generate_all = Ok (itch, soup) /\
  read_text ITCH_JSON_PATH w = (w, Ok (_dumps itch)) /\ read_text SOUP_JSON_PATH w = (w, Ok (_dumps soup)).

Lemma read_text_files path w w' : w.1 !! path = w'.1 !! path -> (read_text path w).2 = (read_text path w').2.
Proof. unfold read_text. cbn [snd]. by intros ->. Qed.

Lemma read_text_eq path w r : read_text path w = (w, r) <-> (read_text path w).2 = r.
Proof. unfold read_text. cbn [snd]. split; [by intros [= ->]|by intros ->]. Qed.

Lemma check_file_run tmp path w fresh : w.1 !! tmp = Some fresh -> forallb text_byte fresh = true ->
  exists said' r, check_file tmp path w = ((w.1, said'), r) /\ (r = Ok true <-> (read_text path w).2 = Ok fresh) /\ (forall e, r <> Raise e \/ (read_text path w).2 = Raise e).
Proof.
  intros Et Hf. unfold check_file. rewrite bind_run. unfold mget. destruct (w.1 !! path) as [l|] eqn:El.
  - rewrite bind_run, (read_text_plain tmp w fresh Et Hf), bind_run. unfold read_text at 1. unfold read_text. rewrite El. cbn [of_option mbind res_bind snd].
    unfold decode_ascii. destruct (forallb is_ascii l); cbn [mbind res_bind].
    + case_decide as Hd; eexists _, _; (split; [reflexivity|]); split; try (intros e; by left); split; intros H; try done; [by rewrite Hd|]. injection H as E. by rewrite E in Hd.
    + destruct w. eexists _, _. split; [reflexivity|]. split; [split; done|]. intros e. destruct (decide (e = UnicodeDecodeError)) as [->|]; [by right|left; congruence].
  - eexists _, _. split; [reflexivity|]. unfold read_text. rewrite El. cbn. split; [split; done|]. intros e. by left.
Qed.

Lemma cmd_check_run tmpdir w : (forall n, n ∈ ["/itch.json"; "/soup.json"] -> tmpdir +:+ n <> ITCH_JSON_PATH /\ tmpdir +:+ n <> SOUP_JSON_PATH) ->
  ((cmd_check tmpdir w).2 = Ok 0 <-> up_to_date w) /\ (forall path, path ∈ [ITCH_JSON_PATH; SOUP_JSON_PATH] -> (cmd_check tmpdir w).1.1 !! path = w.1 !! path).
Proof.
  intros Htmp. destruct generated as (itch & soup & Eg & Hi & Hs).
  destruct (Htmp "/itch.json") as [Hii His]; [left|]. destruct (Htmp "/soup.json") as [Hsi Hss]; [right; left|].
  set (ti := tmpdir +:+ "/itch.json") in *. set (ts := tmpdir +:+ "/soup.json") in *.
  assert (ti <> ts) as Hne by (unfold ti, ts; intros E; by apply (inj (String.append tmpdir)) in E).
  set (w1 := (<[ts := _dumps soup]> (<[ti := _dumps itch]> w.1), w.2) : World).
  assert (forall path, path <> ti -> path <> ts -> w1.1 !! path = w.1 !! path) as Hk by (intros path H1 H2; unfold w1; cbn; by rewrite !lookup_insert_ne).
  assert (up_to_date w <-> (read_text ITCH_JSON_PATH w1).2 = Ok (_dumps itch) /\ (read_text SOUP_JSON_PATH w1).2 = Ok (_dumps soup)) as Hup.
  { rewrite !(read_text_files _ w1 w) by (apply Hk; congruence). unfold up_to_date. split.
    - intros (i & s & E & H1%read_text_eq & H2%read_text_eq). rewrite Eg in E. injection E as <- <-. split; [exact H1|exact H2].
    - intros [H1 H2]. exists itch, soup. split; [exact Eg|]. rewrite !read_text_eq. split; [exact H1|exact H2]. }
  destruct (check_file_run ti ITCH_JSON_PATH w1 (_dumps itch)) as (said1 & r1 & E1 & Hr1 & _); [unfold w1; cbn; by rewrite lookup_insert_ne, lookup_insert_eq by done|done|].
  destruct (check_file_run ts SOUP_JSON_PATH (w1.1, said1) (_dumps soup)) as (said2 & r2 & E2 & Hr2 & _); [unfold w1; cbn; by rewrite lookup_insert_eq|done|].
  rewrite (read_text_files SOUP_JSON_PATH (w1.1, said1) w1) in Hr2 by done.
  assert (exists said' r, cmd_check tmpdir w = ((delete ti (delete ts w1.1), said'), r) /\ (r = Ok 0 <-> r1 = Ok true /\ r2 = Ok true)) as (said' & r & E & Hr).
  { unfold cmd_check. rewrite Eg, bind_lift_ok. cbn [fst snd]. fold ti ts. unfold mfinally.
    rewrite bind_run. unfold _write at 1. unfold mmod at 1. rewrite bind_run. unfold _write at 1. unfold mmod at 1. cbn [fst snd]. fold w1.
    rewrite bind_run, E1. destruct r1 as [b1|e1]; [rewrite bind_run, E2; destruct r2 as [b2|e2]|]; unfold mmod, mret, M_ret; cbn [fst snd];
      eexists _, _; (split; [reflexivity|]); 
      [|split; [discriminate|intros [Ha Hb]; discriminate Hb]|split; [discriminate|intros [Ha Hb]; discriminate Ha]].
    clear. destruct b1, b2; cbn [andb]; (split; [intros Ha|intros [Ha Hb]]); first [discriminate Ha|discriminate Hb|by split|reflexivity]. }
  rewrite E. cbn [fst snd]. rewrite Hup, Hr, Hr1, Hr2. split; [reflexivity|]. intros path Hp.
  assert (path <> ti /\ path <> ts) as [H1 H2].
  { apply elem_of_cons in Hp as [->|[->|Hp%not_elem_of_nil]%elem_of_cons];
      [exact (conj (not_eq_sym Hii) (not_eq_sym Hsi))|exact (conj (not_eq_sym His) (not_eq_sym Hss))|destruct Hp]. }
  rewrite lookup_delete_ne by exact (not_eq_sym H1). rewrite lookup_delete_ne by exact (not_eq_sym H2). exact (Hk path H1 H2).
Qed.

Lemma paths_ne : ITCH_JSON_PATH <> SOUP_JSON_PATH.
Proof. discriminate. Qed.

(** * Properties *)

(** C19. Every golden vector can be built.  Generating the files succeeds, and what was
    generated passes both the check and the verification; the check succeeds exactly
    when the two files read as the generated ones, leaves them alone, and a tree that
    passes it passes the verification too. *)
Theorem golden_files_verify float_is tmpdir w :
  (forall n, n ∈ ["/itch.json"; "/soup.json"] -> tmpdir +:+ n <> ITCH_JSON_PATH /\ tmpdir +:+ n <> SOUP_JSON_PATH) ->
  exists w', cmd_generate w = (w', Ok 0) /\ up_to_date w' /\
    (cmd_check tmpdir w').2 = Ok 0 /\ (cmd_verify float_is w').2 = Ok 0 /\
    (forall w1, (cmd_check tmpdir w1).2 = Ok 0 <-> up_to_date w1) /\
    (forall w1 w2, cmd_check tmpdir w1 = (w2, Ok 0) -> (cmd_verify float_is w2).2 = Ok 0).
Proof.
  intros Htmp. destruct generated as (itch & soup & Eg & Hi & Hs).
  assert (forall w0, up_to_date w0 -> (cmd_verify float_is w0).2 = Ok 0) as Hv.
  { intros w0 (i & s & E & H1 & H2). by rewrite (verify_generated float_is i s w0 E H1 H2). }
  assert (exists w', cmd_generate w = (w', Ok 0) /\ up_to_date w') as (w' & E & Hup).
  { unfold cmd_generate. rewrite Eg, bind_lift_ok. cbn [fst snd]. unfold _write, say, mmod. rewrite !bind_run. cbn [fst snd]. eexists. split; [reflexivity|].
    exists itch, soup. split; [exact Eg|]. split; apply read_text_plain; [|exact Hi| |exact Hs]; cbn [fst].
    - rewrite lookup_insert_ne by exact (not_eq_sym paths_ne). apply lookup_insert_eq.
    - apply lookup_insert_eq. }
  exists w'. split; [exact E|]. split; [exact Hup|]. split; [by apply (cmd_check_run tmpdir w' Htmp)|]. split; [exact (Hv w' Hup)|].
  split; [intros w1; exact (proj1 (cmd_check_run tmpdir w1 Htmp))|].
  intros w1 w2 Ec. destruct (cmd_check_run tmpdir w1 Htmp) as [Hiff Hk]. rewrite Ec in Hiff, Hk. cbn [fst snd] in *.
  apply Hv. destruct (proj1 Hiff eq_refl) as (i & s & Eg' & H1 & H2). exists i, s. split; [exact Eg'|].
  rewrite !read_text_eq. rewrite !read_text_eq in H1, H2. rewrite <- H1, <- H2. split; apply read_text_files, Hk; [left|right; left].
Qed.

Lemma golden_files_verify_witness :
  _itch_vector "h_trading" (TradingState 700 "8306" "DAY" "T") =
    Ok (mkVector "h_trading" "H" "48000002bc383330364441592054" [("ns", JInt 700); ("orderbook_id", JStr "8306"); ("group", JStr "DAY"); ("state", JStr "T")]) /\
  exists w', cmd_generate (∅, []) = (w', Ok 0) /\ (cmd_check "/tmp/x" w').2 = Ok 0 /\ (cmd_verify (fun _ _ => false) w').2 = Ok 0.
Proof.
  split; [vm_compute; reflexivity|].
  destruct (golden_files_verify (fun _ _ => false) "/tmp/x" (∅, [])) as (w' & H1 & _ & H2 & H3 & _).
  - intros n Hn. repeat (apply elem_of_cons in Hn as [->|Hn]; [split; discriminate|]). by apply not_elem_of_nil in Hn.
  - exists w'. split; [exact H1|]. split; [exact H2|exact H3].
Defined.
