(* ===== verification/E2e.v ===== *)
(** tools/run_e2e.py, what it computes: the comparison of two dumped directories, the
    trades expected after a snapshot, the looped fixture of the soak test, and what it
    reads of the programs' output.  E2eRun holds the scenarios. *)
From S2P Require Export CompareDb.

#[global] Set Default Goal Selector "!".

(** * Statistics and outputs *)

(** [line.split(c, 1)] when [c] is in the line. *)
Definition split_once (c : byte) (line : str) : option (str * str) := '(k, v) ← split1 c (s2l line); Some (l2s k, l2s v).

(** [dict(line.split("=", 1) for line in lines if "=" in line)] *)
Definition eq_lines (lines : list str) : gmap str str :=
  foldl (fun d line => match split_once "="%byte line with Some (k, v) => <[k := v]> d | None => d end) ∅ lines.

Definition stats_dict (db : Jnxdb) : res (gmap str str) := lines ← query db "STATS"; Ok (eq_lines lines).

(** The sections of the output of compare_db_dump.py. *)
Definition parse_sections (stdout : str) : gmap str str :=
  foldl (fun d line =>
    match split_ws line with
    | name :: verdict :: _ => if decide (verdict ∈ ["OK"; "MISMATCH"]) then <[name := verdict]> d else d
    | _ => d
    end) ∅ (splitlines stdout).

(** * The looped fixture *)

Definition fixture_msg_count (fs : files) (fixture : str) : res Z :=
  let '(l, ended) := read_file fs fixture in _ ← ended; Ok (zlen l).

(** [-(-a // b)] *)
Definition ceil_div (a b : Z) : Z := - (- a / b).

Definition build_looped_fixture (fixture out_path : str) (min_messages : Z) : M files Z := fun fs =>
  (chunk ← mlift (of_option OSError (fs !! fixture));
   per_copy ← mlift (fixture_msg_count fs fixture);
   if per_copy =? 0 then mraise RuntimeError
   else
     let copies := ceil_div min_messages per_copy in
     mmod (fun fs => <[out_path := concat (replicate (Z.to_nat copies) chunk)]> fs) ;;
     mret (copies * per_copy)) fs.

(** * The trades after a cut *)

Definition cum_stats (market : Market) : gmap str (Z * Z * Z) :=
  (fun s => (bs_trade_count s, bs_volume s, bs_notional s)) <$> stats (tape market).

Record cut_state : Type := mkCut { cs_market : Market; cs_snapshot : gmap str (Z * Z * Z); cs_last_match : gmap str Z; cs_i : option Z }.
Definition cut_init : cut_state := mkCut (market_init DEFAULT_MAX_ENTRIES) ∅ ∅ None.

(** The loop over [enumerate(messages)], from index [i]. *)
Fixpoint cut_loop (cut i : Z) (raws : list bytes) (ended : res ()) (st : cut_state) : res cut_state :=
  match raws with
  | [] => _ ← ended; Ok st
  | raw :: raws =>
      let snapshot := if i =? cut then cum_stats (cs_market st) else cs_snapshot st in
      msg ← Itch.decode raw;
      match market_apply (OMsg msg) (cs_market st) with
      | (_, Raise e) => Raise e
      | (market, Ok execution) =>
          let last_match :=
            match execution with Some x => <[ex_orderbook_id x := ex_match_number x]> (cs_last_match st) | None => cs_last_match st end in
          cut_loop cut (i + 1) raws ended (mkCut market snapshot last_match (Some i))
      end
  end.

Definition trade_delta : Type := Z * Z * Z * option Z * option Z * option Z.

(** The ticker's totals less those of the snapshot; [None] without a trade after it. *)
Definition post_cut_row (snapshot : gmap str (Z * Z * Z)) (last_match : gmap str Z) (oid : str) (s : BookStats) : option trade_delta :=
  let '(base_count, base_vol, base_notional) := default (0, 0, 0) (snapshot !! oid) in
  let post_count := bs_trade_count s - base_count in
  if post_count <=? 0 then None
  else Some (post_count, bs_volume s - base_vol, bs_notional s - base_notional, bs_last_price s, bs_last_qty s, last_match !! oid).

(** Without a message [i] is unbound. *)
Definition compute_post_cut_trades (fs : files) (fixture : str) (cut : Z) : res (gmap str trade_delta) :=
  let '(raws, ended) := read_file fs fixture in
  st ← cut_loop cut 0 raws ended cut_init;
  i ← of_option NameError (cs_i st);
  let snapshot := if i + 1 <=? cut then cum_stats (cs_market st) else cs_snapshot st in
  Ok (map_imap (post_cut_row snapshot (cs_last_match st)) (stats (tape (cs_market st)))).

(** * Comparing two dumped directories *)

Definition EXCLUDED_STATS_FIELDS : list str :=
  ["epoch"; "syncs_completed"; "syncs_discarded"; "orders_applied"; "ticks_applied"; "dups_dropped"; "updates_applied"; "rss_kb"].
Definition SECTION_DROP_COLUMNS (sec : str) : list str :=
  if decide (sec = "state") then ["last_system_event"; "last_exch_seq"; "last_update_ns"]
  else if decide (sec = "trades") then ["last_trade_ns"] else [].
Definition SECTIONS_SKIP_EMPTY_TICKER : list str := ["static"; "state"; "trades"].

Definition keep_idx (drop_cols header : list str) : list nat :=
  omap (fun ih : nat * str => if decide (ih.2 ∈ drop_cols) then None else Some ih.1) (zip (seq 0 (length header)) header).
Definition project (keep : list nat) (line : str) : str :=
  let parts := cells line in str_join "," (omap (fun i => parts !! i) keep).

(** [line.split(",", 1)\[0\] != ""] *)
Definition has_ticker (line : str) : bool := negb (bool_decide (default "" (head (cells line)) = "")).

Definition normalize_lines (lines drop_cols : list str) (skip_empty_ticker : bool) : list str :=
  match lines with
  | [] => []
  | header :: body_lines =>
      let keep := keep_idx drop_cols (cells header) in
      let body_lines := if skip_empty_ticker then filter (fun ln => has_ticker ln = true) body_lines else body_lines in
      project keep header :: merge_sort str_le (project keep <$> body_lines)
  end.
Definition normalize_csv (fs : files) (path : str) (drop_cols : list str) (skip_empty_ticker : bool) : res (list str) :=
  lines ← _read_lines fs path; Ok (normalize_lines lines drop_cols skip_empty_ticker).

Definition stats_of_lines (lines : list str) : gmap str str :=
  foldl (fun out ln => match split_once "="%byte ln with
                       | Some (k, v) => if decide (k ∈ EXCLUDED_STATS_FIELDS) then out else <[k := v]> out
                       | None => out end) ∅ lines.
Definition normalize_stats (fs : files) (path : str) : res (gmap str str) := lines ← _read_lines fs path; Ok (stats_of_lines lines).

(** The data of a mismatch string. *)
Inductive problem : Type :=
| SectionDiffers (sec : str) (only_got only_want : list str)
| StatsDiffer (diffs : list (str * option str * option str)).

Definition only_in (a b : list str) : list str :=
  take 5 (merge_sort str_le (elements (list_to_set a ∖ list_to_set b : gset str))).

Definition compare_section (fs : files) (got_dir want_dir sec : str) : res (list problem) :=
  let drop_cols := SECTION_DROP_COLUMNS sec in
  let skip_empty := bool_decide (sec ∈ SECTIONS_SKIP_EMPTY_TICKER) in
  got ← normalize_csv fs (csv_path got_dir (sec +:+ ".csv")) drop_cols skip_empty;
  want ← normalize_csv fs (csv_path want_dir (sec +:+ ".csv")) drop_cols skip_empty;
  Ok (if decide (got = want) then [] else [SectionDiffers sec (only_in got want) (only_in want got)]).

Definition compare_stats_files (fs : files) (got_dir want_dir : str) : res (list problem) :=
  got_stats ← normalize_stats fs (csv_path got_dir "stats.txt");
  want_stats ← normalize_stats fs (csv_path want_dir "stats.txt");
  Ok (if decide (got_stats = want_stats) then []
      else [StatsDiffer (omap (fun k => if decide (got_stats !! k = want_stats !! k) then None else Some (k, got_stats !! k, want_stats !! k))
              (merge_sort str_le (elements (dom got_stats ∪ dom want_stats))))]).

Definition compare_dump_dirs (fs : files) (got_dir want_dir : str) (sections : list str) (compare_stats : bool) : res (bool * list problem) :=
  l ← rmap (compare_section fs got_dir want_dir) sections;
  l' ← (if compare_stats then compare_stats_files fs got_dir want_dir else Ok []);
  let problems := concat l ++ l' in
  Ok (bool_decide (problems = []), problems).

(** The default of [sections]. *)
Definition ALL_SECTIONS : list str := ["static"; "state"; "trades"; "orders"].

(** * Facts *)

(** ** The trades after a cut *)

Definition trades_of (oid : str) (calls : list call) : Z * Z * Z :=
  let cs := of_book oid calls in
  (zlen cs, zsum ((fun c : call => ex_qty c.1.1) <$> cs), zsum ((fun c : call => ex_price c.1.1 * ex_qty c.1.1) <$> cs)).

Lemma cum_stats_calls k a oid : market_rep k a -> default (0, 0, 0) (cum_stats k !! oid) = trades_of oid (am_calls a).
Proof.
  intros Hk. unfold cum_stats, trades_of. rewrite lookup_fmap, (ti_stats _ _ (mr_tape _ _ Hk)).
  destruct (of_book oid (am_calls a)) as [|c cs] eqn:E; [done|]. cbn [fmap option_fmap option_map from_option id].
  destruct (stats_fold_sums oid (c :: cs)) as (-> & -> & ->). done.
Qed.

Lemma am_calls_grow os a : exists more, am_calls (foldl am_step a os) = am_calls a ++ more.
Proof.
  revert a. induction os as [|o os IH]; intros a; [exists []; by rewrite app_nil_r|]. cbn [foldl]. destruct (IH (am_step a o)) as [m E].
  destruct o as [m0|]; cbn [am_step am_calls] in *; rewrite E; [rewrite <- app_assoc|]; by eexists.
Qed.

Lemma last_matches_snoc calls c : last_matches (calls ++ [c]) = <[ex_orderbook_id c.1.1 := ex_match_number c.1.1]> (last_matches calls).
Proof. unfold last_matches. by rewrite foldl_app. Qed.
Lemma last_matches_book oid calls : last_matches calls !! oid = (fun c : call => ex_match_number c.1.1) <$> last (of_book oid calls).
Proof.
  induction calls as [|c calls IH] using rev_ind; [done|]. rewrite last_matches_snoc, of_book_snoc, lookup_insert.
  case_decide; [by rewrite last_snoc|by rewrite app_nil_r].
Qed.

Lemma last_matches_step a m : last_matches (am_calls (am_step a (OMsg m))) = match spec_execution m (am_orders a) with
  | Some x => <[ex_orderbook_id x := ex_match_number x]> (last_matches (am_calls a)) | None => last_matches (am_calls a) end.
Proof. cbn [am_step am_calls]. unfold last_matches, am_call. rewrite foldl_app. destruct m; try done. by destruct (spec_execution _ _). Qed.

(** The loop: the market and the matches at the end, and the snapshot at the cut. *)
Lemma cut_loop_run cut raws ms : rmap Itch.decode raws = Ok ms -> forallb feed_ok ms = true -> forall i k a snap io, market_rep k a ->
  exists k' snap', cut_loop cut i raws (Ok ()) (mkCut k snap (last_matches (am_calls a)) io) =
      Ok (mkCut k' snap' (last_matches (am_calls (foldl am_step a (OMsg <$> ms)))) (match ms with [] => io | _ => Some (i + zlen ms - 1) end)) /\
    market_rep k' (foldl am_step a (OMsg <$> ms)) /\
    (if bool_decide (i <= cut < i + zlen ms)
     then forall oid, default (0, 0, 0) (snap' !! oid) = trades_of oid (am_calls (foldl am_step a (OMsg <$> take (Z.to_nat (cut - i)) ms)))
     else snap' = snap).
Proof.
  intros Hd. apply rmap_Ok_iff in Hd. induction Hd as [|raw m raws ms Hm Hd IH]; intros Hf i k a snap io Hr.
  { exists k, snap. split; [done|]. split; [done|]. rewrite bool_decide_false by (unfold zlen; cbn; lia). done. }
  cbn [forallb] in Hf. apply andb_true_iff in Hf as [Hfm Hf]. destruct (market_apply_rep k a (OMsg m) Hr Hfm) as (k1 & E1 & Hr1).
  set (snap1 := if i =? cut then cum_stats k else snap).
  destruct (IH Hf (i + 1) k1 (am_step a (OMsg m)) snap1 (Some i) Hr1) as (k' & snap' & E & Hr' & Hs).
  exists k', snap'. cbn [fmap list_fmap foldl]. split; [|split; [exact Hr'|]].
  - cbn [cut_loop]. rewrite Hm. cbn [mbind res_bind cs_market]. rewrite E1. cbn [cs_snapshot cs_last_match]. fold snap1.
    rewrite <- last_matches_step, E. do 2 f_equal. destruct ms; [unfold zlen; cbn; f_equal; lia|]. f_equal. unfold zlen. cbn [length]. lia.
  - unfold zlen in *. cbn [length] in *. destruct (bool_decide_reflect (i <= cut < i + Z.of_nat (S (length ms)))) as [Hc|Hc].
    + destruct (Z.eqb_spec i cut) as [<-|Hne].
      * rewrite bool_decide_false in Hs by lia. subst snap'. intros oid. unfold snap1. rewrite Z.sub_diag. cbn. by apply cum_stats_calls.
      * rewrite bool_decide_true in Hs by lia. intros oid. rewrite Hs. replace (Z.to_nat (cut - i)) with (S (Z.to_nat (cut - (i + 1)))) by lia. done.
    + rewrite bool_decide_false in Hs by lia. rewrite Hs. unfold snap1. destruct (Z.eqb_spec i cut); [lia|done].
Qed.

(** What a ticker's row says of the calls after the cut. *)
Definition delta_of (oid : str) (post : list call) : option trade_delta :=
  match last (of_book oid post) with
  | None => None
  | Some c =>
      let '(n, q, t) := trades_of oid post in
      Some (n, q, t, Some (ex_price c.1.1), Some (ex_qty c.1.1), Some (ex_match_number c.1.1))
  end.

Lemma of_book_app oid calls calls' : of_book oid (calls ++ calls') = of_book oid calls ++ of_book oid calls'.
Proof. unfold of_book. apply filter_app. Qed.

Lemma post_cut_row_delta snap k a pre post oid : market_rep k a -> am_calls a = pre ++ post ->
  default (0, 0, 0) (snap !! oid) = trades_of oid pre ->
  (s ← stats (tape k) !! oid; post_cut_row snap (last_matches (am_calls a)) oid s) = delta_of oid post.
Proof.
  intros Hk Ha Hs. rewrite (ti_stats _ _ (mr_tape _ _ Hk)). unfold delta_of. rewrite Ha, of_book_app.
  destruct (of_book oid post) as [|c0 cs0 _] eqn:Epost using rev_ind; rewrite ?app_nil_r.
  - destruct (of_book oid pre) as [|c cs] eqn:Epre; [done|]. cbn [mbind option_bind]. unfold post_cut_row. rewrite Hs. unfold trades_of. rewrite Epre.
    destruct (stats_fold_sums oid (c :: cs)) as (-> & _). rewrite Z.sub_diag. done.
  - rewrite last_snoc, app_assoc. destruct ((of_book oid pre ++ cs0) ++ [c0]) as [|c cs] eqn:E; [by destruct (of_book oid pre ++ cs0)|]. rewrite <- E.
    cbn [mbind option_bind]. unfold post_cut_row. rewrite Hs. unfold trades_of. rewrite Epost.
    destruct (stats_fold_last oid c0 (of_book oid pre ++ cs0)) as [-> ->].
    destruct (stats_fold_sums oid ((of_book oid pre ++ cs0) ++ [c0])) as (-> & -> & ->).
    rewrite <- app_assoc, zlen_app, !(fmap_app _ (of_book oid pre)), !(zsum_app (_ <$> of_book oid pre)), !Z.add_simpl_l.
    rewrite last_matches_book, of_book_app, Epost, app_assoc, last_snoc.
    destruct (Z.leb_spec (zlen (cs0 ++ [c0])) 0) as [Hl|]; [rewrite zlen_app in Hl; unfold zlen in Hl; cbn in Hl; lia|done].
Qed.

Lemma cut_market_calls ms n : exists post, am_calls (obj_run ms) = am_calls (obj_run (take n ms)) ++ post.
Proof.
  destruct (am_calls_grow (OMsg <$> drop n ms) (obj_run (take n ms))) as [post E]. exists post. rewrite <- E. unfold obj_run.
  by rewrite <- foldl_app, <- fmap_app, take_drop.
Qed.

(** ** Comparing *)

Lemma str_leb_cons a s b t : String.leb (String a s) (String b t) = true <->
  (Ascii.N_of_ascii a < Ascii.N_of_ascii b)%N \/ a = b /\ String.leb s t = true.
Proof.
  unfold String.leb. cbn [String.compare]. unfold Ascii.compare. destruct (N.compare_spec (Ascii.N_of_ascii a) (Ascii.N_of_ascii b)) as [E|E|E].
  - assert (a = b) as -> by (rewrite <- (Ascii.ascii_N_embedding a), E; apply Ascii.ascii_N_embedding). split; [by right|]. intros [H|[_ H]]; [lia|done].
  - split; [by left|done].
  - split; [done|]. intros [H|[-> H]]; lia.
Qed.
#[export] Instance str_le_trans : Transitive str_le.
Proof.
  intros x. unfold str_le. induction x as [|a x IH]; intros [|b y] [|c z]; try done.
  rewrite !str_leb_cons. intros [H1|[-> H1]] [H2|[-> H2]]; [left; lia|by left|by left|right]. split; [done|by eapply IH].
Qed.
#[export] Instance str_le_total : Total str_le.
Proof. intros x y. unfold str_le. destruct (String.leb_total x y); auto. Qed.
#[export] Instance str_le_antisymm : AntiSymm eq str_le.
Proof. intros x y. apply String.leb_antisym. Qed.

Lemma sort_eq_perm l l' : merge_sort str_le l = merge_sort str_le l' <-> l ≡ₚ l'.
Proof.
  split; intros H; [by rewrite <- (merge_sort_Permutation str_le l), H, merge_sort_Permutation|].
  apply (Sorted_unique str_le); [by apply Sorted_merge_sort; apply _..|]. by rewrite !merge_sort_Permutation.
Qed.

(** ** The looped fixture *)

Lemma next_message_inv f f' o : next_message f = (f', Ok o) -> match o with None => f = [] | Some m => f = frame16 m ++ f' /\ short m end.
Proof.
  unfold next_message, f_read. munfold. destruct f as [|b0 [|b1 t]]; [by intros [= _ <-]|done|].
  change (take 2 (b0 :: b1 :: t)) with [b0; b1]. change (drop 2 (b0 :: b1 :: t)) with t.
  rewrite bool_decide_false by done. cbn [length Nat.eqb negb]. rewrite unpack1_U by done. cbn [byte_order]. set (n := be_val [b0; b1]).
  pose proof (be_val_range [b0; b1]) as Hr. change (zlen [b0; b1]) with 2 in Hr. fold n in Hr.
  destruct (Z.eqb_spec (zlen (take (Z.to_nat n) t)) n) as [Hn|Hn]; cbn [negb]; [|done]. intros [= <- <-]. unfold frame16. rewrite Hn. unfold n at 1.
  change 2%nat with (length [b0; b1]). rewrite be_bytes_val, <- app_assoc, take_drop. split; [done|]. unfold short, MAX_MESSAGE_LEN. lia.
Qed.

Lemma iter_loop_inv fuel f ms : iter_loop fuel f = (ms, Ok ()) -> (length f < fuel)%nat -> f = concat (map frame16 ms) /\ Forall short ms.
Proof.
  revert f ms. induction fuel as [|fuel IH]; intros f ms; [lia|]. cbn [iter_loop]. intros E Hf.
  destruct (next_message f) as [f' [[m|]|e]] eqn:En; [| |done]; apply next_message_inv in En.
  - destruct En as [-> Hm]. destruct (iter_loop fuel f') as [l r] eqn:El. injection E as <- ->.
    destruct (IH f' l El) as [-> Hs]; [unfold frame16 in Hf; rewrite !length_app, be_bytes_length in Hf; lia|]. split; [done|by constructor].
  - subst f. by injection E as <-.
Qed.

Lemma concat_map_app {A B} (g : A -> list B) l l' : concat (map g (l ++ l')) = concat (map g l) ++ concat (map g l').
Proof. by rewrite map_app, concat_app. Qed.

Lemma concat_replicate_frames n ms : concat (replicate n (concat (map frame16 ms))) = concat (map frame16 (concat (replicate n ms))).
Proof. induction n as [|n IH]; [done|]. cbn [replicate concat]. by rewrite concat_map_app, IH. Qed.

Lemma looped_ok fixture out_path min_messages fs ms : read_file fs fixture = (ms, Ok ()) -> ms <> [] -> 0 < min_messages ->
  exists fs' copies, build_looped_fixture fixture out_path min_messages fs = (fs', Ok (Z.of_nat copies * zlen ms)) /\
    min_messages <= Z.of_nat copies * zlen ms < min_messages + zlen ms /\
    read_file fs' out_path = (concat (replicate copies ms), Ok ()).
Proof.
  intros Hr Hn Hm. pose proof Hr as Hr0. unfold read_file in Hr. destruct (fs !! fixture) as [f|] eqn:Ef; [|done].
  destruct (iter_loop_inv _ _ _ Hr) as [-> Hs]; [lia|].
  assert (0 < zlen ms) as Hl by (unfold zlen; destruct ms; [done|cbn; lia]).
  assert (0 < ceil_div min_messages (zlen ms) /\ min_messages <= ceil_div min_messages (zlen ms) * zlen ms < min_messages + zlen ms) as [Hp Hc].
  { unfold ceil_div. pose proof (Z.div_mod (- min_messages) (zlen ms) ltac:(lia)). pose proof (Z.mod_pos_bound (- min_messages) (zlen ms) Hl). nia. }
  exists (<[out_path := concat (replicate (Z.to_nat (ceil_div min_messages (zlen ms))) (concat (map frame16 ms)))]> fs), (Z.to_nat (ceil_div min_messages (zlen ms))).
  split; [|split; [by rewrite Z2Nat.id by lia|]].
  - unfold build_looped_fixture. rewrite Ef, bind_run. unfold mlift at 1. cbn [of_option]. rewrite bind_run. unfold mlift at 1, fixture_msg_count. rewrite Hr0.
    cbn [mbind res_bind]. destruct (Z.eqb_spec (zlen ms) 0); [lia|]. rewrite bind_run. unfold mmod, mret, M_ret. by rewrite Z2Nat.id by lia.
  - apply read_frames; [rewrite lookup_insert_eq, concat_replicate_frames; done|].
    clear - Hs. induction (Z.to_nat _) as [|n IH]; [constructor|]. cbn [replicate concat]. by apply Forall_app.
Qed.

(** ** The comparison *)

Lemma check_nil (b : bool) (i : problem) : (if b then [] else [i]) = [] <-> b = true.
Proof. by destruct b. Qed.

(** The rows compared of a file with these lines. *)
Definition compared_rows (sec : str) (lines : list str) : list str :=
  match lines with
  | [] => []
  | header :: body =>
      project (keep_idx (SECTION_DROP_COLUMNS sec) (cells header)) <$>
      (if bool_decide (sec ∈ SECTIONS_SKIP_EMPTY_TICKER) then filter (fun ln => has_ticker ln = true) body else body)
  end.
Definition compared_header (sec : str) (lines : list str) : option str :=
  header ← head lines; Some (project (keep_idx (SECTION_DROP_COLUMNS sec) (cells header)) header).

Lemma normalize_eq sec l l' : normalize_lines l (SECTION_DROP_COLUMNS sec) (bool_decide (sec ∈ SECTIONS_SKIP_EMPTY_TICKER)) =
    normalize_lines l' (SECTION_DROP_COLUMNS sec) (bool_decide (sec ∈ SECTIONS_SKIP_EMPTY_TICKER)) <->
  compared_header sec l = compared_header sec l' /\ compared_rows sec l ≡ₚ compared_rows sec l'.
Proof.
  unfold normalize_lines, compared_header, compared_rows. destruct l as [|h b], l' as [|h' b']; cbn [head mbind option_bind]; [by split|naive_solver|naive_solver|].
  rewrite <- sort_eq_perm. split; [by intros [= -> ->]|by intros [[= ->] ->]].
Qed.

Lemma concat_nil_iff {A} (l : list (list A)) : concat l = [] <-> Forall (fun x => x = []) l.
Proof. induction l as [|x l IH]; cbn; [done|]. rewrite app_nil, IH, Forall_cons. done. Qed.

Lemma stats_lookup lines k : stats_of_lines lines !! k = if bool_decide (k ∈ EXCLUDED_STATS_FIELDS) then None else eq_lines lines !! k.
Proof.
  unfold stats_of_lines, eq_lines. induction lines as [|ln lines IH] using rev_ind; [by destruct (bool_decide _)|].
  rewrite !foldl_app. cbn [foldl]. destruct (split_once "="%byte ln) as [[k' v]|]; [|exact IH].
  destruct (decide (k' ∈ EXCLUDED_STATS_FIELDS)) as [Hk|Hk].
  - rewrite IH. destruct (bool_decide_reflect (k ∈ EXCLUDED_STATS_FIELDS)); [done|]. by rewrite lookup_insert_ne by (intros ->; done).
  - destruct (decide (k' = k)) as [->|Hne]; [by rewrite !lookup_insert_eq, bool_decide_false|by rewrite !lookup_insert_ne].
Qed.

(** * Properties *)

(** C14. The trades expected of a cold start from a snapshot at [cut], any integer, on a
    feed with positive quantities that has a message, are those of the executions after
    the cut: per book their number, quantity and turnover and the last one's price,
    quantity and match number, and nothing for a book without one.  A feed without a
    message raises instead. *)
Theorem post_cut_trades_exact fs fixture raws ms cut : read_file fs fixture = (raws, Ok ()) -> rmap Itch.decode raws = Ok ms ->
  forallb feed_ok ms = true ->
  (ms = [] -> compute_post_cut_trades fs fixture cut = Raise NameError) /\
  (ms <> [] -> exists out post, compute_post_cut_trades fs fixture cut = Ok out /\
    am_calls (obj_run ms) = am_calls (obj_run (take (Z.to_nat cut) ms)) ++ post /\ (forall oid, out !! oid = delta_of oid post)).
Proof.
  intros Hr Hd Hf. destruct (cut_market_calls ms (Z.to_nat cut)) as [post Hpost].
  destruct (cut_loop_run cut raws ms Hd Hf 0 _ am_init ∅ None (market_init_rep DEFAULT_MAX_ENTRIES)) as (k & snap & E & Hk & Hs).
  change (last_matches (am_calls am_init)) with (∅ : gmap str Z) in E. fold (obj_run ms) in E, Hk. rewrite Z.sub_0_r in Hs.
  unfold compute_post_cut_trades. rewrite Hr. unfold cut_init. rewrite E. split; [by intros ->|intros Hn].
  assert (0 < zlen ms) as Hl by (unfold zlen; destruct ms; [done|cbn; lia]).
  destruct ms as [|m0 ms0] eqn:Em; [done|]. rewrite <- Em in *. cbn [mbind res_bind of_option cs_i cs_market cs_snapshot cs_last_match].
  eexists _, post. split; [reflexivity|]. split; [exact Hpost|]. intros oid. rewrite map_lookup_imap.
  apply post_cut_row_delta with (pre := am_calls (obj_run (take (Z.to_nat cut) ms))); [done|done|].
  destruct (Z.leb_spec (0 + zlen ms - 1 + 1) cut) as [Hle|Hlt].
  - rewrite take_ge by (unfold zlen in Hle; lia). by apply cum_stats_calls.
  - destruct (decide (0 <= cut)) as [Hc|Hc]; [rewrite bool_decide_true in Hs by lia; apply Hs|].
    rewrite bool_decide_false in Hs by lia. subst snap. by replace (Z.to_nat cut) with 0%nat by lia.
Qed.

Definition e2e_feed : list message := [
  OrderAdded 1 11 "B" 500 "7203" "DAY" 20000; OrderExecuted 2 11 200 901; OrderExecuted 3 11 100 902;
  OrderAdded 4 12 "S" 50 "8306" "DAY" 5000; OrderExecuted 5 11 150 903].
Definition e2e_raws : list bytes := (fun m => match encode_msg m with Ok d => d | Raise _ => [] end) <$> e2e_feed.
Definition e2e_files : files := {[ "day.itch" := concat (frame16 <$> e2e_raws) ]}.

Lemma post_cut_trades_exact_witness :
  (map_to_list <$> compute_post_cut_trades e2e_files "day.itch" 2) = Ok [("7203", (2, 250, 5000000, Some 20000, Some 150, Some 903))] /\
  (exists out post, compute_post_cut_trades e2e_files "day.itch" 2 = Ok out /\
    am_calls (obj_run e2e_feed) = am_calls (obj_run (take 2 e2e_feed)) ++ post /\ out !! "7203" = delta_of "7203" post) /\
  compute_post_cut_trades {[ "none.itch" := [] ]} "none.itch" 2 = Raise NameError.
Proof.
  split; [vm_compute; reflexivity|]. split.
  - destruct (post_cut_trades_exact e2e_files "day.itch" e2e_raws e2e_feed 2) as [_ H]; [vm_compute; reflexivity..|].
    destruct H as (out & post & H1 & H2 & H3); [discriminate|]. exists out, post. split; [exact H1|]. split; [exact H2|apply H3].
  - destruct (post_cut_trades_exact {[ "none.itch" := [] ]} "none.itch" [] [] 2) as [H _]; [vm_compute; reflexivity..|by apply H].
Defined.

(** C11. Two dumped directories compare equal exactly when each section has the same header
    and the same rows in any order, both without the columns and the pseudo-rows that
    may differ, and the statistics agree on every field that is not excluded. *)
Theorem compare_dirs_exact fs got_dir want_dir sections compare_stats (lines : str -> str -> list str) :
  (forall dir name, (dir = got_dir \/ dir = want_dir) -> (exists sec, sec ∈ sections /\ name = sec +:+ ".csv") \/ name = "stats.txt" ->
     _read_lines fs (csv_path dir name) = Ok (lines dir name)) ->
  exists problems, compare_dump_dirs fs got_dir want_dir sections compare_stats = Ok (bool_decide (problems = []), problems) /\
    (problems = [] <->
      (forall sec, sec ∈ sections -> let g := lines got_dir (sec +:+ ".csv") in let w := lines want_dir (sec +:+ ".csv") in
         compared_header sec g = compared_header sec w /\ compared_rows sec g ≡ₚ compared_rows sec w) /\
      (compare_stats = true -> forall k, k ∉ EXCLUDED_STATS_FIELDS ->
         eq_lines (lines got_dir "stats.txt") !! k = eq_lines (lines want_dir "stats.txt") !! k)).
Proof.
  intros Hl. unfold compare_dump_dirs.
  set (norm dir sec := normalize_lines (lines dir (sec +:+ ".csv")) (SECTION_DROP_COLUMNS sec) (bool_decide (sec ∈ SECTIONS_SKIP_EMPTY_TICKER))).
  rewrite (rmap_total _ (fun sec => if decide (norm got_dir sec = norm want_dir sec) then []
    else [SectionDiffers sec (only_in (norm got_dir sec) (norm want_dir sec)) (only_in (norm want_dir sec) (norm got_dir sec))])).
  2: { intros sec Hsec. unfold compare_section, normalize_csv. rewrite !Hl by (auto; left; by exists sec). done. }
  cbn [mbind res_bind].
  assert (exists l', (if compare_stats then compare_stats_files fs got_dir want_dir else Ok []) = Ok l' /\
    (l' = [] <-> (compare_stats = true -> stats_of_lines (lines got_dir "stats.txt") = stats_of_lines (lines want_dir "stats.txt")))) as (l' & El & Hl').
  { destruct compare_stats; [|by exists []]. unfold compare_stats_files, normalize_stats. rewrite !Hl by auto. cbn [mbind res_bind].
    eexists. split; [reflexivity|]. case_decide as Hd; [by split|]. split; [done|]. intros H. by destruct (Hd (H eq_refl)). }
  rewrite El. cbn [mbind res_bind]. eexists. split; [reflexivity|]. rewrite app_nil, concat_nil_iff, Forall_fmap, Forall_forall, Hl'.
  assert (forall A B C D : Prop, (A <-> C) -> (B <-> D) -> (A /\ B <-> C /\ D)) as Hand by tauto. apply Hand; clear Hand.
  - split; intros H sec Hsec.
    + apply normalize_eq. specialize (H sec Hsec). cbn in H. by case_decide.
    + cbn. rewrite decide_True; [done|]. by apply normalize_eq, H.
  - split; intros H Hc.
    + intros k Hk. specialize (H Hc). apply (f_equal (lookup k)) in H. rewrite !stats_lookup, !bool_decide_false in H by done. exact H.
    + apply map_eq. intros k. rewrite !stats_lookup. destruct (bool_decide_reflect (k ∈ EXCLUDED_STATS_FIELDS)) as [|Hk]; [done|]. by apply H.
Qed.

Definition dump_dir_files : files :=
  {[ "g/orders.csv" := csv_text "ticker,order_number,side,price,remaining_qty" ["7203,11,B,2000.0,300"; "7203,13,B,2001.0,100"];
     "w/orders.csv" := csv_text "ticker,order_number,side,price,remaining_qty" ["7203,13,B,2001.0,100"; "7203,11,B,2000.0,300"];
     "g/state.csv" := csv_text "ticker,group,trading_state,last_exch_seq" [",DAY,?,9"; "7203,DAY,T,8"];
     "w/state.csv" := csv_text "ticker,group,trading_state,last_exch_seq" ["7203,DAY,T,7"];
     "g/stats.txt" := csv_text "epoch=5" ["books=1"]; "w/stats.txt" := csv_text "epoch=6" ["books=1"] ]}.

Lemma compare_dirs_exact_witness :
  compare_dump_dirs dump_dir_files "g" "w" ["orders"; "state"] true = Ok (true, []) /\
  compare_dump_dirs (<["g/stats.txt" := csv_text "epoch=5" ["books=2"]]> dump_dir_files) "g" "w" ["orders"; "state"] true =
    Ok (false, [StatsDiffer [("books", Some "2", Some "1")]]) /\
  exists problems, compare_dump_dirs dump_dir_files "g" "w" ["orders"; "state"] true = Ok (bool_decide (problems = []), problems).
Proof.
  split; [vm_compute; reflexivity|]. split; [vm_compute; reflexivity|].
  destruct (compare_dirs_exact dump_dir_files "g" "w" ["orders"; "state"] true
    (fun dir name => match _read_lines dump_dir_files (csv_path dir name) with Ok l => l | Raise _ => [] end)) as (problems & E & _).
  - intros dir name Hd Hn. assert (name = "orders.csv" \/ name = "state.csv" \/ name = "stats.txt") as Hn'.
    { destruct Hn as [(sec & Hin & ->)| ->]; [|auto]. repeat (apply elem_of_cons in Hin as [->|Hin]; [vm_compute; auto|]). by apply not_elem_of_nil in Hin. }
    destruct Hd as [->| ->], Hn' as [->|[->| ->]]; vm_compute; reflexivity.
  - exists problems. exact E.
Defined.
