(* ===== verification/E2eRun.v ===== *)
(** tools/run_e2e.py, the scenarios: the programs started, killed and restarted, what is
    read of them, and the clean-up.

    What a run does to the outside is an operation ([op]); the environment says what each
    returns or raises.  Times are milliseconds; a float text is given by [float_text].
    A line of evidence is its data.  int(total * 0.4) is the exact two fifths, which the
    float product gives below 2^50.  Loops that wait take [patience]: how many turns they
    may run.  Paths are relative to the repository. *)
From S2P Require Export E2e.
From Stdlib Require Import QArith.QArith_base QArith.Qround.

#[global] Set Default Goal Selector "!".
#[global] Open Scope Z_scope.

Inductive op : Type -> Type :=
| Exists (path : str) : op bool
| Makedirs (path : str) : op ()
| Mkdtemp : op str
| Rmtree (path : str) : op ()                     (* ignore_errors *)
| OnFiles (A : Type) (m : M files A) : op A
| RandInt (lo hi : Z) : op Z
| BindPort : op Z                                 (* bind to port 0: the port given *)
| Connect (port : Z) : op ()
| Database (port : Z) : op Jnxdb                  (* the jnxdb behind a query port *)
| Now : op Z
| Sleep (ms : Z) : op ()
| OpenLog (path : str) : op nat
| CloseLog (log : nat) : op ()
| LogText (path : str) : op str
| Spawn (args : list str) (log : nat) : op Z      (* the pid *)
| Poll (pid : Z) : op (option Z)
| Wait (pid timeout : Z) : op Z                   (* TimeoutExpired *)
| Kill (pid : Z) : op ()
| Status (pid : Z) : op (list str)                (* the lines of /proc/<pid>/status *)
| RunTool (args : list str) : op (Z * str)        (* exit code and output *)
| ListDir (path : str) : op (list str)
| IsDir (path : str) : op bool.

Record Proc : Type := mkProc { p_name : str; p_log_path : str; p_log : nat; p_pid : Z }.

Inductive trade_problem : Type :=
| ExpectedNone (ticker : str) (count : Z)
| TradeDiffers (ticker : str) (got want : list Z)
| ExtraTickers (tickers : list str).

#[export] Instance trade_problem_dec : EqDecision trade_problem.
Proof. solve_decision. Defined.

(** Elapsed time, the two resident set sizes and the last sequence number. *)
Definition sample : Type := Z * option Z * option Z * Z.

Inductive evidence : Type :=
| EvExited (rc : Z) | EvDump (dest : str)
| EvKilled (scenario : str) (seq threshold : Z)
| EvResume (line : str) | EvResumed (seq : option Z) (want : Z) | EvNoResume
| EvDups (scenario : str) (dups : Z)
| EvSyncs (syncs : Z) | EvOutage (gaps updates published : Z)
| EvDropped (drop_after : Z) (disconnect reconnect : bool) | EvGaps (gaps : Z)
| EvCut (cut total : Z) | EvSections (sections : gmap str str) | EvOutput (out : str)
| EvPostCut (tickers : nat) (ok : bool) | EvTradeProblems (l : list trade_problem)
| EvRestarted (rc : Z) (last_seq : option str)
| EvSoak (elapsed : Z) (minutes : Q) (samples total_msgs : Z) (ended_early : bool)
| EvNoGrowth (label : str) | EvGrowth (label : str) (pct : Q) (base last : option Z) (within : bool)
| EvCurve (s : sample).

(** What [__init__] fixes, and what changes. *)
Record Runner : Type := mkRunner {
  r_out_dir : str; r_speed : str; r_sock_dir : str; r_mcast_group : str; r_mcast_port : Z;
  r_fixture : str; r_procs : list Proc; r_evidence : list evidence; r_sock_counter : Z }.
Definition set_fixture (x : str) (r : Runner) : Runner :=
  mkRunner (r_out_dir r) (r_speed r) (r_sock_dir r) (r_mcast_group r) (r_mcast_port r) x (r_procs r) (r_evidence r) (r_sock_counter r).
Definition add_proc (x : Proc) (r : Runner) : Runner :=
  mkRunner (r_out_dir r) (r_speed r) (r_sock_dir r) (r_mcast_group r) (r_mcast_port r) (r_fixture r) (r_procs r ++ [x]) (r_evidence r) (r_sock_counter r).
Definition add_evidence (x : evidence) (r : Runner) : Runner :=
  mkRunner (r_out_dir r) (r_speed r) (r_sock_dir r) (r_mcast_group r) (r_mcast_port r) (r_fixture r) (r_procs r) (r_evidence r ++ [x]) (r_sock_counter r).
Definition count_sock (r : Runner) : Runner :=
  mkRunner (r_out_dir r) (r_speed r) (r_sock_dir r) (r_mcast_group r) (r_mcast_port r) (r_fixture r) (r_procs r) (r_evidence r) (r_sock_counter r + 1).

Definition JNXDB : str := "cpp/build/jnxdb".
Definition JNXFH : str := "cpp/build/jnxfh".
Definition BOOK_DUMP : str := "cpp/build/book_dump".
Definition DEFAULT_FIXTURE : str := "tests/fixtures/sample_udp_head.itch".

Section e2e.
Context {E : Type} (run : forall A, op A -> M E A) (float_text : Z -> str) (patience : nat).
Arguments run {A} _.

Definition W : Type := E * Runner.
Definition perform {A} (o : op A) : M W A := zoom fst (fun e w => (e, w.2)) (run o).
Definition on_runner (f : Runner -> Runner) : M W () := mmod (fun w => (w.1, f w.2)).
Definition note (x : evidence) : M W () := on_runner (add_evidence x).
Definition self {A} (f : Runner -> A) : M W A := mgets (fun w => f w.2).

(** * Ports and progress *)

Definition free_port : M W Z := perform BindPort.

Fixpoint wait_port_loop (n : nat) (port deadline : Z) : M W () :=
  match n with
  | O => mraise OutOfFuel
  | S n =>
      now ← perform Now;
      if now <? deadline then
        connected ← mtry (perform (Connect port) ;; mret true) (fun e => if is_OSError e then Some (mret false) else None);
        if connected : bool then mret () else perform (Sleep 20) ;; wait_port_loop n port deadline
      else mraise RuntimeError
  end.
Definition wait_port (port : Z) : M W () := now ← perform Now; wait_port_loop patience port (now + 15000).

Definition db_query (port : Z) (line : str) : M W (list str) := db ← perform (Database port); mlift (query db line).
Definition stats_of (port : Z) : M W (gmap str str) := db ← perform (Database port); mlift (stats_dict db).
(** [int(st.get(field, default))] *)
Definition stat_int (st : gmap str str) (field : str) (d : Z) : res Z :=
  match st !! field with Some text => py_int text | None => Ok d end.

Fixpoint poll_loop (n : nat) (query_port threshold deadline : Z) : M W Z :=
  match n with
  | O => mraise OutOfFuel
  | S n =>
      now ← perform Now;
      if now <? deadline then
        last ← mtry (st ← stats_of query_port; x ← mlift (stat_int st "last_exch_seq" (-1)); mret (Some x))
                 (fun e => if is_OSError e || is_ValueError e then Some (mret None) else None);
        match last with
        | Some x => if threshold <=? x then mret x else perform (Sleep 10) ;; poll_loop n query_port threshold deadline
        | None => perform (Sleep 10) ;; poll_loop n query_port threshold deadline
        end
      else mraise RuntimeError
  end.
Definition poll_progress (query_port threshold : Z) : M W Z := now ← perform Now; poll_loop patience query_port threshold (now + 30000).

(** The first VmRSS line decides. *)
Definition rss_of (lines : list str) : res (option Z) :=
  match filter (fun line => startswith (s2l "VmRSS:") (s2l line) = true) lines with
  | line :: _ => text ← of_option IndexError (split_ws line !! 1%nat); n ← py_int text; Ok (Some n)
  | [] => Ok None
  end.
Definition rss_kb (pid : Z) : M W (option Z) :=
  mtry (lines ← perform (Status pid); mlift (rss_of lines))
    (fun e => if is_OSError e || is_ValueError e || bool_decide (e = IndexError) then Some (mret None) else None).

(** * Proc *)

(** [Proc(...)] and [self.procs.append]. *)
Definition start_proc (name : str) (args : list str) : M W Proc :=
  out_dir ← self r_out_dir;
  let log_path := path_join out_dir (name +:+ ".log") in
  log ← perform (OpenLog log_path);
  pid ← perform (Spawn args log);
  let p := mkProc name log_path log pid in
  on_runner (add_proc p) ;;
  mret p.

Definition proc_wait (p : Proc) (timeout : Z) : M W Z := perform (Wait (p_pid p) timeout).
Definition sigkill (p : Proc) : M W () :=
  st ← perform (Poll (p_pid p));
  match st with
  | None =>
      perform (Kill (p_pid p)) ;;
      mtry (perform (Wait (p_pid p) 5000) ;; mret ()) (fun e => if decide (e = TimeoutExpired) then Some (mret ()) else None)
  | Some _ => mret ()
  end.
Definition proc_close (p : Proc) : M W () :=
  mtry (perform (CloseLog (p_log p))) (fun e => if is_OSError e then Some (mret ()) else None).
Definition log_text (p : Proc) : M W str := perform (LogText (p_log_path p)).

(** * Runner *)

Definition new_sock_path : M W str :=
  on_runner count_sock ;;
  dir ← self r_sock_dir; n ← self r_sock_counter;
  mret (path_join dir ("db" +:+ py_str n +:+ ".sock")).

Definition start_db (sock_path : str) (query_port : Z) (tag : str) : M W Proc :=
  p ← start_proc tag [JNXDB; "--sock=" +:+ sock_path; "--query_port=" +:+ py_str query_port];
  wait_port query_port ;;
  mret p.

Definition start_sim (itch_port glimpse_port : Z) (drop_after glimpse_cut : option Z) : M W Proc :=
  fixture ← self r_fixture; speed ← self r_speed;
  p ← start_proc "sim"
        (["python3"; "-m"; "jnxfeed.sim"; "--itch-file"; fixture; "--itch-port"; py_str itch_port;
          "--glimpse-port"; py_str glimpse_port; "--speed"; speed] ++
         (match drop_after with Some n => ["--drop-after"; py_str n] | None => [] end) ++
         (match glimpse_cut with Some n => ["--glimpse-cut"; py_str n] | None => [] end));
  wait_port itch_port ;;
  mret p.

Definition start_fh (itch_port glimpse_port : Z) (sock_path bootstrap tag : str) : M W Proc :=
  group ← self r_mcast_group; mport ← self r_mcast_port;
  start_proc tag
    [JNXFH; "--itch_host=127.0.0.1"; "--itch_port=" +:+ py_str itch_port; "--glimpse_host=127.0.0.1";
     "--glimpse_port=" +:+ py_str glimpse_port; "--db_sock=" +:+ sock_path; "--bootstrap=" +:+ bootstrap;
     "--mcast_group=" +:+ group; "--mcast_port=" +:+ py_str mport; "--mcast_if=127.0.0.1"].

Definition start_spy (until_idle max_wait : str) : M W Proc :=
  group ← self r_mcast_group; mport ← self r_mcast_port;
  p ← start_proc "spy"
        ["python3"; "tools/mcast_spy.py"; "--group"; group; "--port"; py_str mport; "--iface"; "127.0.0.1"; "--stats";
         "--until-idle"; until_idle; "--max-wait"; max_wait];
  perform (Sleep 1000) ;;
  mret p.

Definition write_text (path text : str) : M W () := perform (OnFiles () (mmod (fun fs => <[path := s2l text]> fs))).
(** Write on to an open file. *)
Definition append_text (path text : str) : M W () :=
  perform (OnFiles () (mmod (fun fs => <[path := default [] (fs !! path) ++ s2l text]> fs))).

Definition order_text (ticker ln : str) : option str :=
  match split_ws ln with
  | [n; side; price; qty; _] => Some (str_join "," [ticker; n; side; price; qty] +:+ newline)
  | _ => None
  end.

Definition collect_dump (query_port : Z) (dest_dir : str) : M W (gmap str str) :=
  perform (Makedirs dest_dir) ;;
  mfor ["static"; "state"; "trades"] (fun table =>
    lines ← db_query query_port ("TABLE " +:+ table);
    write_text (path_join dest_dir (table +:+ ".csv")) (str_join newline lines +:+ newline)) ;;
  static_lines ← db_query query_port "TABLE static";
  let firsts := (fun ln => default "" (head (cells ln))) <$> filter (fun ln => strip_b is_ws (s2l ln) <> []) (drop 1 static_lines) in
  let tickers := merge_sort str_le (elements (list_to_set firsts : gset str)) in
  let orders_csv := path_join dest_dir "orders.csv" in
  write_text orders_csv ("ticker,order_number,side,price,remaining_qty" +:+ newline) ;;
  mfor tickers (fun ticker =>
    lines ← db_query query_port ("ORDERS " +:+ ticker);
    mfor (drop 1 lines) (fun ln => match order_text ticker ln with Some text => append_text orders_csv text | None => mret () end)) ;;
  stats ← stats_of query_port;
  write_text (path_join dest_dir "stats.txt")
    (String.concat "" ((fun k => k +:+ "=" +:+ default "" (stats !! k) +:+ newline) <$> merge_sort str_le (elements (dom stats)))) ;;
  mret stats.

Definition teardown : M W () :=
  procs ← self r_procs;
  mfor procs sigkill ;;
  mfor procs proc_close ;;
  dir ← self r_sock_dir;
  perform (Rmtree dir).

(** * Scenarios *)

(** [int(total_msgs * 0.4)] *)
Definition two_fifths (total_msgs : Z) : Z := total_msgs * 2 / 5.

(** [int(stats.get(field, default))] of the spy's summary, the last line it printed. *)
Definition spy_summary (spy : Proc) : M W str :=
  text ← log_text spy;
  if decide (strip text = "") then mret ""
  else text ← log_text spy; mret (default "" (last (splitlines (strip text)))).
Definition spy_fields (summary : str) : res (list (str * str)) :=
  if decide (summary = "") then Ok [] else key_values (split_ws summary).
Definition field_int (fields : list (str * str)) (field : str) (d : Z) : res Z :=
  match dget field fields with Some text => py_int text | None => Ok d end.

Definition run_baseline (bootstrap : str) (glimpse_cut : option Z) (out_name : str) : M W (bool * str) :=
  sock_path ← new_sock_path;
  query_port ← free_port; itch_port ← free_port; glimpse_port ← free_port;
  start_db sock_path query_port "jnxdb" ;;
  start_sim itch_port glimpse_port None glimpse_cut ;;
  spy ← start_spy "3.0" "90.0";
  fh ← start_fh itch_port glimpse_port sock_path bootstrap "jnxfh";
  rc ← proc_wait fh 120000;
  out_dir ← self r_out_dir;
  let dest := path_join out_dir out_name in
  if negb (rc =? 0) then note (EvExited rc) ;; mret (false, dest)
  else
    proc_wait spy 120000 ;;
    collect_dump query_port dest ;;
    note (EvDump dest) ;;
    mret (true, dest).

(** [int(line.split("seq=")\[1\].split()\[0\])] *)
Definition seq_of_resume (line : str) : res Z :=
  piece ← of_option IndexError (split_b (s2l "seq=") (s2l line) !! 1%nat);
  word ← of_option IndexError (split_ws (l2s piece) !! 0%nat);
  py_int word.

Definition run_kill_fh (total_msgs : Z) : M W (bool * str) :=
  sock_path ← new_sock_path;
  query_port ← free_port; itch_port ← free_port; glimpse_port ← free_port;
  let threshold := two_fifths total_msgs in
  start_db sock_path query_port "jnxdb" ;;
  start_sim itch_port glimpse_port None None ;;
  spy ← start_spy "3.0" "90.0";
  fh1 ← start_fh itch_port glimpse_port sock_path "replay" "jnxfh_1";
  seq_at_kill ← poll_progress query_port threshold;
  sigkill fh1 ;;
  note (EvKilled "kill_fh" seq_at_kill threshold) ;;
  st ← stats_of query_port;
  db_seq_after_kill ← mlift (text ← of_option KeyError (st !! "last_exch_seq"); py_int text);
  fh2 ← start_fh itch_port glimpse_port sock_path "replay" "jnxfh_2";
  rc ← proc_wait fh2 120000;
  proc_wait spy 120000 ;;
  log2 ← log_text fh2;
  let resume_line := strip <$> head (filter (fun ln => contains "resume mode:" ln = true) (splitlines log2)) in
  ok ← match resume_line with
       | Some line =>
           seq_resumed ← mtry (x ← mlift (seq_of_resume line); mret (Some x))
                           (fun e => if is_ValueError e || bool_decide (e = IndexError) then Some (mret None) else None);
           note (EvResume line) ;;
           note (EvResumed seq_resumed (db_seq_after_kill + 1)) ;;
           mret ((rc =? 0) && bool_decide (seq_resumed = Some (db_seq_after_kill + 1)))
       | None => note EvNoResume ;; mret false
       end;
  stats ← stats_of query_port;
  dups ← mlift (stat_int stats "dups_dropped" (-1));
  note (EvDups "kill_fh" dups) ;;
  out_dir ← self r_out_dir;
  let dest := path_join out_dir "kill_fh" in
  collect_dump query_port dest ;;
  mret (ok && (dups =? 0), dest).

(** [runner.procs\[0\]] *)
Definition first_proc : M W Proc := procs ← self r_procs; mlift (get_at 0 procs).

Definition run_kill_db (total_msgs : Z) : M W (bool * str) :=
  sock_path ← new_sock_path;
  query_port ← free_port; itch_port ← free_port; glimpse_port ← free_port;
  let threshold := two_fifths total_msgs in
  start_db sock_path query_port "jnxdb_1" ;;
  start_sim itch_port glimpse_port None None ;;
  spy ← start_spy "3.0" "120.0";
  fh ← start_fh itch_port glimpse_port sock_path "replay" "jnxfh";
  seq_at_kill ← poll_progress query_port threshold;
  db1 ← first_proc;
  sigkill db1 ;;
  note (EvKilled "kill_db" seq_at_kill threshold) ;;
  perform (Sleep 2000) ;;
  start_db sock_path query_port "jnxdb_2" ;;
  rc ← proc_wait fh 120000;
  proc_wait spy 120000 ;;
  stats ← stats_of query_port;
  syncs ← mlift (stat_int stats "syncs_completed" 0);
  note (EvSyncs syncs) ;;
  summary ← spy_summary spy;
  fields ← mlift (spy_fields summary);
  gaps ← mlift (field_int fields "gaps" (-1));
  updates ← mlift (field_int fields "updates" (-1));
  published ← mlift (stat_int stats "updates_applied" (-1));
  note (EvOutage gaps updates published) ;;
  out_dir ← self r_out_dir;
  let dest := path_join out_dir "kill_db" in
  collect_dump query_port dest ;;
  mret ((rc =? 0) && (1 <=? syncs) && (gaps =? 0), dest).

Definition run_drop_exchange (total_msgs : Z) : M W (bool * str) :=
  sock_path ← new_sock_path;
  query_port ← free_port; itch_port ← free_port; glimpse_port ← free_port;
  let drop_after := two_fifths total_msgs in
  start_db sock_path query_port "jnxdb" ;;
  start_sim itch_port glimpse_port (Some drop_after) None ;;
  spy ← start_spy "3.0" "90.0";
  fh ← start_fh itch_port glimpse_port sock_path "replay" "jnxfh";
  rc ← proc_wait fh 120000;
  proc_wait spy 120000 ;;
  log ← log_text fh;
  let saw_disconnect := existsb (contains "connection lost") (splitlines log) in
  let saw_reconnect := existsb (fun ln => contains "logging in" ln && contains "seq=" ln) (drop 1 (splitlines log)) in
  note (EvDropped drop_after saw_disconnect saw_reconnect) ;;
  stats ← stats_of query_port;
  dups ← mlift (stat_int stats "dups_dropped" (-1));
  note (EvDups "drop_exchange" dups) ;;
  summary ← spy_summary spy;
  fields ← mlift (spy_fields summary);
  gaps ← mlift (field_int fields "gaps" (-1));
  note (EvGaps gaps) ;;
  out_dir ← self r_out_dir;
  let dest := path_join out_dir "drop_exchange" in
  collect_dump query_port dest ;;
  mret ((rc =? 0) && saw_disconnect && saw_reconnect && (dups =? 0) && (gaps =? 0), dest).

Definition run_kill_both (total_msgs : Z) : M W (bool * str) :=
  sock_path ← new_sock_path;
  query_port ← free_port; itch_port ← free_port; glimpse_port ← free_port;
  let threshold := two_fifths total_msgs in
  start_db sock_path query_port "jnxdb_1" ;;
  start_sim itch_port glimpse_port None None ;;
  spy ← start_spy "3.0" "120.0";
  fh1 ← start_fh itch_port glimpse_port sock_path "replay" "jnxfh_1";
  seq_at_kill ← poll_progress query_port threshold;
  db1 ← first_proc;
  sigkill db1 ;;
  sigkill fh1 ;;
  note (EvKilled "kill_both" seq_at_kill threshold) ;;
  perform (Sleep 500) ;;
  start_db sock_path query_port "jnxdb_2" ;;
  fh2 ← start_fh itch_port glimpse_port sock_path "replay" "jnxfh_2";
  rc ← proc_wait fh2 120000;
  proc_wait spy 120000 ;;
  stats ← stats_of query_port;
  note (EvRestarted rc (stats !! "last_exch_seq")) ;;
  out_dir ← self r_out_dir;
  let dest := path_join out_dir "kill_both" in
  collect_dump query_port dest ;;
  mret (rc =? 0, dest).

(** ** A snapshot in the middle of the fixture *)

Definition _compare_db_dump_sections (query_port : Z) (dump_dir : str) : M W (gmap str str * str) :=
  result ← perform (RunTool ["python3"; "tools/compare_db_dump.py"; "--port"; py_str query_port; dump_dir]);
  mret (parse_sections result.2, result.2).

(** The rows of TABLE trades with a ticker and a trade, by ticker. *)
Definition db_trades_of (lines : list str) : res (gmap str (list (str * str))) :=
  match lines with
  | [] => Raise IndexError
  | header :: lines =>
      foldl (fun acc ln =>
        db_trades ← acc;
        let d := row_dict (cells header) (cells ln) in
        let ticker := default "" (dget "ticker" d) in
        if decide (ticker = "") then Ok db_trades
        else text ← col "trade_count" d; n ← py_int text; Ok (if 0 <? n then <[ticker := d]> db_trades else db_trades)) (Ok ∅) lines
  end.

Definition TRADE_COLUMNS : list str := ["trade_count"; "cum_qty"; "cum_turnover"; "last_price"; "last_qty"; "last_match_number"].

Definition trade_problems_of (expected_trades : gmap str trade_delta) (db_trades : gmap str (list (str * str))) : res (list trade_problem) :=
  l ← rmap (fun ticker =>
        match expected_trades !! ticker with
        | None => Ok []
        | Some (tc, qty, turnover, price, lqty, match_number) =>
            match db_trades !! ticker with
            | None => Ok [ExpectedNone ticker tc]
            | Some d =>
                got ← rmap (fun c => text ← col c d; py_int text) TRADE_COLUMNS;
                let want := [tc; qty; turnover; default 0 price; default 0 lqty; default 0 match_number] in
                Ok (if decide (got = want) then [] else [TradeDiffers ticker got want])
            end
        end) (merge_sort str_le (elements (dom expected_trades)));
  let extra := merge_sort str_le (elements (dom db_trades ∖ dom expected_trades)) in
  Ok (concat l ++ (if decide (extra = []) then [] else [ExtraTickers extra])).

Definition run_glimpse_cold (total_msgs : Z) : M W (bool * str * gmap str trade_delta) :=
  sock_path ← new_sock_path;
  query_port ← free_port; itch_port ← free_port; glimpse_port ← free_port;
  let cut := two_fifths total_msgs in
  start_db sock_path query_port "jnxdb" ;;
  start_sim itch_port glimpse_port None (Some cut) ;;
  spy ← start_spy "3.0" "90.0";
  fh ← start_fh itch_port glimpse_port sock_path "glimpse" "jnxfh";
  rc ← proc_wait fh 120000;
  proc_wait spy 120000 ;;
  note (EvCut cut total_msgs) ;;
  out_dir ← self r_out_dir; fixture ← self r_fixture;
  let full_ref := path_join out_dir "glimpse_cold_full_ref" in
  result ← perform (RunTool [BOOK_DUMP; fixture; full_ref]);
  mlift (if result.1 =? 0 then Ok () else Raise CalledProcessError) ;;
  full ← _compare_db_dump_sections query_port full_ref;
  let '(full_sections, full_out) := full in
  let sections_ok := forallb (fun sec => bool_decide (full_sections !! sec = Some "OK")) ["orders"; "books"; "static"] in
  note (EvSections full_sections) ;;
  (if sections_ok then mret () else note (EvOutput full_out)) ;;
  expected_trades ← perform (OnFiles _ (fun fs => (fs, compute_post_cut_trades fs fixture cut)));
  db_trades_lines ← db_query query_port "TABLE trades";
  db_trades ← mlift (db_trades_of db_trades_lines);
  trade_problems ← mlift (trade_problems_of expected_trades db_trades);
  let trades_ok := bool_decide (trade_problems = []) in
  note (EvPostCut (size expected_trades) trades_ok) ;;
  (if trades_ok then mret () else note (EvTradeProblems (take 10 trade_problems))) ;;
  let dest := path_join out_dir "glimpse_cold" in
  collect_dump query_port dest ;;
  mret ((rc =? 0) && sections_ok && trades_ok, dest, expected_trades).

(** ** The soak test *)

Definition opt_text (o : option Z) : str := match o with Some z => py_str z | None => "None" end.

(** [p.poll() is not None] *)
Definition exited (p : Proc) : M W bool := st ← perform (Poll (p_pid p)); mret (bool_decide (is_Some st)).

(** [a() or b()], [a() and not b()] evaluate the second only when needed. *)
Definition either_exited (p q : Proc) : M W bool := x ← exited p; if x : bool then mret true else exited q.

Definition take_sample (db fh : Proc) (query_port elapsed : Z) : M W sample :=
  db_rss ← rss_kb (p_pid db); fh_rss ← rss_kb (p_pid fh);
  last_seq ← mtry (st ← stats_of query_port; mlift (stat_int st "last_exch_seq" (-1)))
               (fun e => if is_OSError e then Some (mret (-1)) else None);
  mret (elapsed, db_rss, fh_rss, last_seq).

Fixpoint nap_loop (n : nat) (db fh : Proc) (poll_interval duration elapsed slept : Z) : M W () :=
  match n with
  | O => mraise OutOfFuel
  | S n =>
      if (slept <? poll_interval) && (elapsed + slept <? duration) then
        perform (Sleep (1000 `min` (poll_interval - slept))) ;;
        gone ← either_exited fh db;
        if gone : bool then mret () else nap_loop n db fh poll_interval duration elapsed (slept + 1000)
      else mret ()
  end.

(** The samples, and whether a program ended early. *)
Fixpoint soak_loop (n : nat) (db fh : Proc) (query_port poll_interval duration start : Z) (samples : list sample) : M W (list sample * bool) :=
  match n with
  | O => mraise OutOfFuel
  | S n =>
      now ← perform Now;
      let elapsed := now - start in
      if duration <=? elapsed then mret (samples, false)
      else
        gone ← either_exited fh db;
        if gone : bool then mret (samples, true)
        else
          s ← take_sample db fh query_port elapsed;
          nap_loop patience db fh poll_interval duration elapsed 0 ;;
          soak_loop n db fh query_port poll_interval duration start (samples ++ [s])
  end.

(** The first value after the warm-up, the last, and the growth in percent. *)
Definition growth (values : list (option Z)) : option Z * option Z * option Q :=
  let clean := omap id values in
  if (length clean <? 2)%nat then (None, None, None)
  else
    let warmup := 1 `max` (zlen clean / 5) in
    let post := match drop (Z.to_nat warmup) clean with [] => lastn 1 clean | l => l end in
    let base := default 0 (head post) in
    let last := default 0 (last post) in
    if base <=? 0 then (Some base, Some last, None)
    else (Some base, Some last, Some (100 * (last - base) # Z.to_pos base)%Q).

Definition growth_ok (g : option Z * option Z * option Q) : bool :=
  match g.2 with Some pct => negb (Qle_bool 5 pct) | None => false end.
Definition note_growth (label : str) (g : option Z * option Z * option Q) : M W () :=
  match g.2 with None => note (EvNoGrowth label) | Some pct => note (EvGrowth label pct g.1.1 g.1.2 (growth_ok g)) end.

Definition sample_row (s : sample) : str :=
  let '(elapsed, db, fh, seq) := s in str_join "," [float_text elapsed; opt_text db; opt_text fh; py_str seq] +:+ newline.

Definition run_soak (minutes speed : Q) (poll_interval : Z) : M W (bool * str) :=
  let duration := Qceiling (minutes * 60000) in
  let min_messages := Qfloor (minutes * 60 * speed * (13 # 10)) + 1 in
  dir ← self r_sock_dir; fixture ← self r_fixture;
  let looped_path := path_join dir "soak_loop.itch" in
  total_msgs ← perform (OnFiles Z (build_looped_fixture fixture looped_path min_messages));
  on_runner (set_fixture looped_path) ;;
  sock_path ← new_sock_path;
  query_port ← free_port; itch_port ← free_port; glimpse_port ← free_port;
  db ← start_db sock_path query_port "jnxdb";
  start_sim itch_port glimpse_port None None ;;
  fh ← start_fh itch_port glimpse_port sock_path "replay" "jnxfh";
  start ← perform Now;
  done ← soak_loop patience db fh query_port poll_interval duration start [];
  let '(samples, ended_early) := done in
  gone ← either_exited fh db;
  samples ← (if gone : bool then mret samples
             else s ← take_sample db fh query_port 0; now ← perform Now;
                  let '(_, db_rss, fh_rss, last_seq) := s in mret (samples ++ [(now - start, db_rss, fh_rss, last_seq)]));
  now ← perform Now;
  note (EvSoak (now - start) minutes (zlen samples) total_msgs ended_early) ;;
  let db_growth := growth ((fun s : sample => s.1.1.2) <$> samples) in
  let fh_growth := growth ((fun s : sample => s.1.2) <$> samples) in
  note_growth "jnxdb" db_growth ;;
  note_growth "jnxfh" fh_growth ;;
  mfor samples (fun s => note (EvCurve s)) ;;
  out_dir ← self r_out_dir;
  let dest := path_join out_dir "soak" in
  perform (Makedirs dest) ;;
  let csv := path_join dest "rss_curve.csv" in
  write_text csv ("elapsed_s,db_rss_kb,fh_rss_kb,last_exch_seq" +:+ newline) ;;
  mfor samples (fun s => append_text csv (sample_row s)) ;;
  mret (negb ended_early && (4 <=? zlen samples) && growth_ok db_growth && growth_ok fh_growth, dest).

(** * main *)

Inductive scenario : Type := Baseline | KillFh | KillDb | DropExchange | GlimpseCold | KillBoth | Soak.

(** The arguments as [argparse] gives them. *)
Record e2e_args : Type := mkArgs {
  a_scenario : scenario; a_fixture : option str; a_out : option str; a_paced : bool;
  a_speed : Q; a_speed_text : str; a_minutes : Q; a_poll_interval : Z }.

Definition needs_pacing (sc : scenario) : bool := match sc with KillFh | KillDb | KillBoth | Soak => true | _ => false end.

Definition run_scenario (args : e2e_args) (fixture : str) : M W (bool * str) :=
  match a_scenario args with
  | Soak => run_soak (a_minutes args) (a_speed args) (a_poll_interval args)
  | sc =>
      total_msgs ← perform (OnFiles Z (fun fs => (fs, fixture_msg_count fs fixture)));
      match sc with
      | Baseline => run_baseline "replay" None "expected"
      | KillFh => run_kill_fh total_msgs
      | KillDb => run_kill_db total_msgs
      | DropExchange => run_drop_exchange total_msgs
      | GlimpseCold => r ← run_glimpse_cold total_msgs; mret r.1
      | _ => run_kill_both total_msgs
      end
  end.

(** [Runner(...)], before any program is started. *)
Definition new_runner (fixture out_dir speed : str) : M E Runner :=
  run (Makedirs out_dir) ;;
  sock_dir ← run Mkdtemp;
  a ← run (RandInt 1 254); b ← run (RandInt 1 254);
  port ← run BindPort;
  mret (mkRunner out_dir speed sock_dir ("239.192." +:+ py_str a +:+ "." +:+ py_str b) port fixture [] [] 0).

(** [try: ... finally: runner.teardown()]: the verdict and the runner, for what is printed last. *)
Definition run_and_teardown (args : e2e_args) (fixture : str) (runner : Runner) : M E (bool * Runner) := fun e =>
  let '((e', runner'), r) := mfinally (run_scenario args fixture) teardown (e, runner) in
  (e', (fun x : bool * str => (x.1, runner')) <$> r).

(** The exit code and, past the checks, the runner. *)
Definition e2e_main (args : e2e_args) : M E (Z * option Runner) :=
  match a_fixture args, a_scenario args with
  | None, (Baseline | KillFh | KillDb | DropExchange | GlimpseCold | KillBoth) => mret (2, None)
  | _, _ =>
      let fixture := default DEFAULT_FIXTURE (a_fixture args) in
      has_db ← run (Exists JNXDB);
      has_fh ← (if has_db : bool then run (Exists JNXFH) else mret true);
      if negb (has_db && has_fh) then mret (2, None)
      else
        let speed := if a_paced args || needs_pacing (a_scenario args) then a_speed_text args else "max" in
        out_dir ← (let out := default "" (a_out args) in if decide (out = "") then run Mkdtemp else mret out);
        run (Makedirs out_dir) ;;
        runner ← new_runner fixture out_dir speed;
        done ← run_and_teardown args fixture runner;
        let '(ok, runner) := (done : bool * Runner) in
        mret (if ok then 0 else 1, Some runner)
  end.

End e2e.

(** * Facts *)

(** What the operating system promises of the programs started: [running], those neither
    ended nor killed, grows only by a successful [Spawn]; a program [poll] finds ended and
    one that is killed is not running; waiting raises nothing but TimeoutExpired. *)
Definition spawned {A} (o : op A) : res A -> gset Z :=
  match o with Spawn _ _ => fun r => match r with Ok pid => {[pid]} | Raise _ => ∅ end | _ => fun _ => ∅ end.

Class OsLaws {E : Type} (run : forall A, op A -> M E A) (running : E -> gset Z) : Prop := {
  os_spawn A (o : op A) e : running (run A o e).1 ⊆ running e ∪ spawned o (run A o e).2;
  os_poll pid e : match (run _ (Poll pid) e).2 with Ok None => True | Ok (Some _) => pid ∉ running (run _ (Poll pid) e).1 | Raise _ => False end;
  os_kill pid e : (run _ (Kill pid) e).2 = Ok () /\ pid ∉ running (run _ (Kill pid) e).1;
  os_wait pid timeout e x : (run _ (Wait pid timeout) e).2 = Raise x -> x = TimeoutExpired }.

Section laws.
Context {E : Type} (run : forall A, op A -> M E A) (running : E -> gset Z) `{!OsLaws run running} (float_text : Z -> str) (patience : nat).

Definition pids (r : Runner) : gset Z := list_to_set (p_pid <$> r_procs r).
Definition covered (base : gset Z) (w : W (E := E)) : Prop := running w.1 ⊆ base ∪ pids w.2.
(** The running programs stay among those the runner knows of. *)
Definition known (w w' : W (E := E)) : Prop := forall base, covered base w -> covered base w'.

#[local] Instance known_preorder : PreOrder known.
Proof. split; [intros w base; tauto|intros w1 w2 w3 H1 H2 base H; auto]. Qed.

Lemma perform_run {A} (o : op A) w : perform run o w = (((run A o w.1).1, w.2), (run A o w.1).2).
Proof. unfold perform, zoom. by destruct (run A o w.1) as [e r]. Qed.

Lemma known_perform {A} (o : op A) : (forall r, spawned o r = ∅) -> keeps known (perform run o).
Proof.
  intros Ho w base Hc. rewrite perform_run. unfold covered in *. cbn [fst snd]. pose proof (os_spawn A o w.1) as H.
  rewrite Ho in H. set_solver.
Qed.

Lemma known_runner f : (forall r, pids r ⊆ pids (f r)) -> keeps known (on_runner f).
Proof. intros Hf w base Hc. unfold covered in *. cbn. pose proof (Hf w.2). set_solver. Qed.

Lemma pids_add p r : pids (add_proc p r) = pids r ∪ {[p_pid p]}.
Proof. unfold pids. cbn. rewrite fmap_app, list_to_set_app_L. cbn. by rewrite union_empty_r_L. Qed.

(** Starting a program: the runner knows it before anything else happens. *)
Lemma known_start name args : keeps known (start_proc run name args).
Proof.
  unfold start_proc. apply keeps_bind; [apply _|apply keeps_gets, _|intros dir]. apply keeps_bind; [apply _|by apply known_perform|intros log].
  intros w base Hc. rewrite bind_run, perform_run. pose proof (os_spawn _ (Spawn args log) w.1) as H.
  unfold covered in Hc. destruct (run Z (Spawn args log) w.1) as [e [pid|x]]; cbn [fst snd spawned] in H; [|unfold covered; cbn; set_solver].
  change (covered base (e, add_proc (mkProc name (path_join dir (name +:+ ".log")) log pid) w.2)).
  unfold covered. cbn [fst snd]. rewrite pids_add. cbn [p_pid]. set_solver.
Qed.

Lemma known_loop_O {A} : keeps known (mraise (A := A) OutOfFuel).
Proof. apply (keeps_lift _ (Raise OutOfFuel)). Qed.
#[local] Hint Resolve known_start known_loop_O : known.

(** Split a scenario into its steps: none but [start_proc] starts a program. *)
Ltac known_steps :=
  repeat
    match goal with
    | |- forall _, _ => intros
    | |- PreOrder _ => apply _
    | |- keeps _ (perform _ _) => apply known_perform; reflexivity
    | |- keeps _ (on_runner _) => apply known_runner; intros; done
    | |- keeps _ _ => solve [auto with known]
    | |- keeps _ (mbind _ _) => apply keeps_bind
    | |- keeps _ (mtry _ _) => apply keeps_try
    | |- keeps _ (mfor _ _) => apply keeps_mfor
    | |- keeps _ (mret ?a) => apply (keeps_lift _ (Ok a))
    | |- keeps _ (mlift _) => apply keeps_lift
    | |- keeps _ (mraise ?e) => apply (keeps_lift _ (Raise e))
    | |- keeps _ (mgets _) => apply keeps_gets
    | |- keeps _ (self _) => apply keeps_gets
    | |- keeps _ (note _) => apply known_runner; intros; done
    | |- keeps _ (let _ := _ in _) => cbv zeta
    | |- keeps _ (match ?x with _ => _ end) => destruct x
    | H : (match ?x with _ => _ end) = Some _ |- keeps _ _ => destruct x
    | H : Some _ = Some _ |- keeps _ _ => injection H as <-
    | H : None = Some _ |- keeps _ _ => discriminate H
    end.

Lemma known_wait_port port : keeps known (wait_port run patience port).
Proof.
  unfold wait_port. apply keeps_bind; [apply _|by apply known_perform|intros now0]. generalize (now0 + 15000) as deadline.
  intros deadline. induction patience as [|n IH]; cbn [wait_port_loop]; known_steps.
Qed.
#[local] Hint Resolve known_wait_port : known.
Lemma known_poll port threshold : keeps known (poll_progress run patience port threshold).
Proof.
  unfold poll_progress, stats_of. apply keeps_bind; [apply _|by apply known_perform|intros now0]. generalize (now0 + 30000) as deadline.
  intros deadline. induction patience as [|n IH]; cbn [poll_loop]; unfold stats_of; known_steps.
Qed.
Lemma known_sigkill p : keeps known (sigkill run p).
Proof. unfold sigkill. known_steps. Qed.
Lemma known_sock : keeps known new_sock_path.
Proof. unfold new_sock_path. known_steps. Qed.
#[local] Hint Resolve known_poll known_sigkill known_sock : known.

Lemma known_db sock_path port tag : keeps known (start_db run patience sock_path port tag).
Proof. unfold start_db. known_steps. Qed.
Lemma known_sim itch_port glimpse_port drop_after cut : keeps known (start_sim run patience itch_port glimpse_port drop_after cut).
Proof. unfold start_sim. known_steps. Qed.
Lemma known_fh itch_port glimpse_port sock_path bootstrap tag : keeps known (start_fh run itch_port glimpse_port sock_path bootstrap tag).
Proof. unfold start_fh. known_steps. Qed.
Lemma known_spy until_idle max_wait : keeps known (start_spy run until_idle max_wait).
Proof. unfold start_spy. known_steps. Qed.
Lemma known_stats port : keeps known (stats_of run port).
Proof. unfold stats_of. known_steps. Qed.
#[local] Hint Resolve known_db known_sim known_fh known_spy known_stats : known.
Lemma known_dump port dest : keeps known (collect_dump run port dest).
Proof. unfold collect_dump, db_query, write_text, append_text. known_steps. Qed.
Lemma known_summary spy : keeps known (spy_summary run spy).
Proof. unfold spy_summary, log_text. known_steps. Qed.
Lemma known_port : keeps known (free_port run).
Proof. unfold free_port. known_steps. Qed.
Lemma known_first : keeps known first_proc.
Proof. unfold first_proc. known_steps. Qed.
Lemma known_proc_wait p t : keeps known (proc_wait run p t).
Proof. unfold proc_wait. known_steps. Qed.
Lemma known_log p : keeps known (log_text run p).
Proof. unfold log_text. known_steps. Qed.
#[local] Hint Resolve known_dump known_summary known_port known_first known_proc_wait known_log : known.

Lemma known_baseline bootstrap cut out_name : keeps known (run_baseline run patience bootstrap cut out_name).
Proof. unfold run_baseline. known_steps. Qed.
Lemma known_kill_fh n : keeps known (run_kill_fh run patience n).
Proof. unfold run_kill_fh. known_steps. Qed.
Lemma known_kill_db n : keeps known (run_kill_db run patience n).
Proof. unfold run_kill_db. known_steps. Qed.
Lemma known_drop n : keeps known (run_drop_exchange run patience n).
Proof. unfold run_drop_exchange. known_steps. Qed.
Lemma known_kill_both n : keeps known (run_kill_both run patience n).
Proof. unfold run_kill_both. known_steps. Qed.
Lemma known_sections port dir : keeps known (_compare_db_dump_sections run port dir).
Proof. unfold _compare_db_dump_sections. known_steps. Qed.
#[local] Hint Resolve known_sections : known.
Lemma known_glimpse n : keeps known (run_glimpse_cold run patience n).
Proof. unfold run_glimpse_cold, db_query. known_steps. Qed.

Lemma known_either p q : keeps known (either_exited run p q).
Proof. unfold either_exited, exited. known_steps. Qed.
#[local] Hint Resolve known_either : known.
Lemma known_sample db fh port t : keeps known (take_sample run db fh port t).
Proof. unfold take_sample, rss_kb. known_steps. Qed.
#[local] Hint Resolve known_sample : known.
Lemma known_nap n db fh itv d t s : keeps known (nap_loop run n db fh itv d t s).
Proof. revert s. induction n as [|n IH]; intros s; cbn [nap_loop]; known_steps. Qed.
#[local] Hint Resolve known_nap : known.
Lemma known_soak_loop n db fh port itv d start l : keeps known (soak_loop run patience n db fh port itv d start l).
Proof. revert l. induction n as [|n IH]; intros l; cbn [soak_loop]; known_steps. Qed.
#[local] Hint Resolve known_soak_loop : known.
Lemma known_soak minutes speed itv : keeps known (run_soak run float_text patience minutes speed itv).
Proof. unfold run_soak, note_growth, write_text, append_text. known_steps. Qed.
#[local] Hint Resolve known_baseline known_kill_fh known_kill_db known_drop known_kill_both known_glimpse known_soak : known.
Lemma known_scenario args fixture : keeps known (run_scenario run float_text patience args fixture).
Proof. unfold run_scenario. known_steps. Qed.

(** No program is started any more. *)
Definition shrinks (w w' : W (E := E)) : Prop := running w'.1 ⊆ running w.1 /\ w'.2 = w.2.
#[local] Instance shrinks_preorder : PreOrder shrinks.
Proof. split; [done|]. intros w1 w2 w3 [H1 E1] [H2 E2]. split; [set_solver|congruence]. Qed.

Lemma run_shrinks {A} (o : op A) e : (forall r, spawned o r = ∅) -> running (run A o e).1 ⊆ running e.
Proof. intros Ho. pose proof (os_spawn A o e) as H. rewrite Ho in H. set_solver. Qed.
Lemma shrinks_perform {A} (o : op A) : (forall r, spawned o r = ∅) -> keeps shrinks (perform run o).
Proof. intros Ho w. rewrite perform_run. split; [by apply run_shrinks|done]. Qed.

Lemma sigkill_ends p w : exists w', sigkill run p w = (w', Ok ()) /\ shrinks w w' /\ p_pid p ∉ running w'.1.
Proof.
  unfold sigkill. rewrite bind_run, perform_run. pose proof (os_poll (p_pid p) w.1) as Hp.
  pose proof (run_shrinks (Poll (p_pid p)) w.1 (fun _ => eq_refl)) as Hs.
  destruct (run _ (Poll (p_pid p)) w.1) as [e [[rc|]|x]]; cbn [fst snd] in *; [| |done]; [exists (e, w.2); done|].
  rewrite bind_run, perform_run. cbn [fst snd]. destruct (os_kill (p_pid p) e) as [Ek Hk].
  pose proof (run_shrinks (Kill (p_pid p)) e (fun _ => eq_refl)) as Hs2.
  destruct (run _ (Kill (p_pid p)) e) as [e2 r]; cbn [fst snd] in *. subst r.
  unfold mtry. rewrite bind_run, perform_run. cbn [fst snd]. pose proof (os_wait (p_pid p) 5000 e2) as Hw.
  pose proof (run_shrinks (Wait (p_pid p) 5000) e2 (fun _ => eq_refl)) as Hs3.
  destruct (run _ (Wait (p_pid p) 5000) e2) as [e3 [rc|x]]; cbn [fst snd] in *; [|rewrite (Hw x eq_refl), decide_True by done];
    exists (e3, w.2); (split; [done|]); split; try (split; [set_solver|done]); set_solver.
Qed.

Lemma kill_all l w : exists w', mfor l (sigkill run) w = (w', Ok ()) /\ shrinks w w' /\ forall p, p ∈ l -> p_pid p ∉ running w'.1.
Proof.
  revert w. induction l as [|p l IH]; intros w; [exists w; split; [done|]; split; [done|]; intros p; by rewrite elem_of_nil|].
  destruct (sigkill_ends p w) as (w1 & E1 & H1 & Hp). destruct (IH w1) as (w2 & E2 & H2 & Hl). exists w2. cbn [mfor].
  rewrite bind_run, E1. split; [done|]. split; [by transitivity w1|]. intros q [->|Hq]%elem_of_cons; [|by apply Hl].
  destruct H2 as [H2 _]. set_solver.
Qed.

Lemma teardown_ends w base : covered base w -> running (teardown run w).1.1 ⊆ base.
Proof.
  intros Hc. unfold teardown. rewrite bind_run. cbn [self mgets fst]. rewrite bind_run.
  destruct (kill_all (r_procs w.2) w) as (w1 & -> & [Hs _] & Hl).
  assert (running w1.1 ⊆ base) as Hb.
  { intros pid Hpid. pose proof (Hs _ Hpid) as H. apply Hc in H. apply elem_of_union in H as [H|H]; [done|].
    unfold pids in H. rewrite elem_of_list_to_set, list_elem_of_fmap in H. destruct H as (p & -> & Hp). by destruct (Hl p Hp). }
  match goal with |- running (?m w1).1.1 ⊆ _ => assert (keeps shrinks m) as Hk end.
  { apply keeps_bind; [apply _| |].
    - apply keeps_mfor; [apply _|]. intros p _. unfold proc_close. apply keeps_try; [apply _|by apply shrinks_perform|].
      intros x k. destruct (is_OSError x); intros [= <-]. apply (keeps_lift _ (Ok ())).
    - intros _. apply keeps_bind; [apply _|apply keeps_gets, _|]. intros dir. by apply shrinks_perform. }
  destruct (Hk w1) as [H _]. set_solver.
Qed.

Lemma scenario_ends args fixture runner e : r_procs runner = [] -> running (run_and_teardown run float_text patience args fixture runner e).1 ⊆ running e.
Proof.
  intros Hr. unfold run_and_teardown, mfinally. pose proof (known_scenario args fixture (e, runner) (running e)) as H.
  destruct (run_scenario _ _ _ args fixture (e, runner)) as [w r] eqn:Ew. cbn [fst] in H.
  assert (covered (running e) w) as Hc by (apply H; unfold covered, pids; cbn [snd]; rewrite Hr; cbn; set_solver).
  pose proof (teardown_ends w _ Hc) as Ht. destruct (teardown run w) as [[e2 r2] [[]|x]]; exact Ht.
Qed.

(** The same on the environment alone. *)
Definition fewer (e e' : E) : Prop := running e' ⊆ running e.
#[local] Instance fewer_preorder : PreOrder fewer.
Proof. split; [intros e|intros e1 e2 e3]; unfold fewer; set_solver. Qed.

Lemma fewer_run {A} (o : op A) : (forall r, spawned o r = ∅) -> keeps fewer (run A o).
Proof. intros Ho e. by apply run_shrinks. Qed.

Lemma new_runner_fresh fixture out_dir speed {B} (k : Runner -> M E B) :
  (forall runner, r_procs runner = [] -> keeps fewer (k runner)) -> keeps fewer (new_runner run fixture out_dir speed ≫= k).
Proof.
  intros Hk. assert (forall e, fewer e (new_runner run fixture out_dir speed e).1 /\
    forall runner, (new_runner run fixture out_dir speed e).2 = Ok runner -> r_procs runner = []) as H.
  { intros e. unfold new_runner.
    repeat (rewrite bind_run; match goal with |- context [run ?A ?o ?e0] => pose proof (fewer_run o (fun _ => eq_refl) e0); destruct (run A o e0) as [? [?|?]] end;
      cbn [fst snd] in *; [|split; [repeat (etransitivity; [eassumption|]); done|done]]).
    cbn. split; [repeat (etransitivity; [eassumption|]); done|]. by intros runner [= <-]. }
  intros e. destruct (H e) as [H1 H2]. rewrite bind_run. destruct (new_runner run fixture out_dir speed e) as [e1 [runner|x]]; [|done].
  cbn [fst snd] in *. transitivity e1; [done|]. apply (Hk runner); by apply H2.
Qed.

Lemma scenario_fewer args fixture runner : r_procs runner = [] -> keeps fewer (run_and_teardown run float_text patience args fixture runner).
Proof. intros Hr e. by apply scenario_ends. Qed.

Ltac fewer_steps :=
  repeat
    match goal with
    | |- forall _, _ => intros
    | |- PreOrder _ => apply _
    | |- keeps _ (run _ _) => apply fewer_run; reflexivity
    | |- keeps _ (mbind _ (new_runner _ _ _ _)) => apply new_runner_fresh
    | |- keeps _ (mbind _ _) => apply keeps_bind
    | |- keeps _ (run_and_teardown _ _ _ _ _ _) => apply scenario_fewer; assumption
    | |- keeps _ (mret ?a) => apply (keeps_lift _ (Ok a))
    | |- keeps _ (let _ := _ in _) => cbv zeta
    | |- keeps _ (match ?x with _ => _ end) => destruct x
    end.

Lemma main_fewer args : keeps fewer (e2e_main run float_text patience args).
Proof. unfold e2e_main. fewer_steps. Qed.
End laws.

(** * Theorems *)

(** C31. Whatever the scenario, the answers of the environment, the exceptions and the
    patience, no program the runner started is running when it ends. *)
Theorem no_program_survives {E : Type} (run : forall A, op A -> M E A) (running : E -> gset Z) float_text patience args e :
  OsLaws run running -> running (e2e_main run float_text patience args e).1 ⊆ running e.
Proof. intros Hos. by apply main_fewer. Qed.

(** An environment: the next pid, the clock and the programs running. *)
Record demo_os : Type := mkOs { os_next : Z; os_clock : Z; os_running : gset Z }.
Definition demo_jnxdb : Jnxdb := mkJnxdb (Ok ()) (fun command =>
  if decide (command = s2l "STATS" ++ [nl]) then ([s2l "last_exch_seq=9" ++ [nl] ++ s2l "dups_dropped=0" ++ [nl; nl]], Ok ())
  else ([s2l "ticker" ++ [nl; nl]], Ok ())).
Definition demo_e2e_files : files := {[ "day.itch" := concat (replicate 20 (frame16 [x53; x01]%byte)) ]}.

Definition demo_run (A : Type) (o : op A) : M demo_os A :=
  match o with
  | Exists _ => fun e => (e, Ok true)
  | Makedirs _ | Rmtree _ | CloseLog _ => fun e => (e, Ok ())
  | Mkdtemp => fun e => (e, Ok "tmp")
  | OnFiles A m => fun e => (e, (m demo_e2e_files).2)
  | RandInt lo _ => fun e => (e, Ok lo)
  | BindPort => fun e => (e, Ok 20000)
  | Connect _ => fun e => (e, Ok ())
  | Database _ => fun e => (e, Ok demo_jnxdb)
  | Now => fun e => (e, Ok (os_clock e))
  | Sleep ms => fun e => (mkOs (os_next e) (os_clock e + ms) (os_running e), Ok ())
  | OpenLog _ => fun e => (e, Ok 0%nat)
  | LogText _ => fun e => (e, Ok "jnxfh: resume mode: session='S' seq=10")
  | Spawn _ _ => fun e => (mkOs (os_next e + 1) (os_clock e) ({[os_next e]} ∪ os_running e), Ok (os_next e))
  | Poll pid => fun e => (e, Ok (if decide (pid ∈ os_running e) then None else Some 0))
  | Wait pid _ => fun e => (e, Ok 0)
  | Kill pid => fun e => (mkOs (os_next e) (os_clock e) (os_running e ∖ {[pid]}), Ok ())
  | Status _ => fun e => (e, Ok ["VmRSS: 100 kB"])
  | RunTool _ => fun e => (e, Ok (0, ""))
  | ListDir _ => fun e => (e, Ok [])
  | IsDir _ => fun e => (e, Ok true)
  end.

Lemma demo_laws : OsLaws demo_run os_running.
Proof.
  split.
  - intros A o e. destruct o; cbn; set_solver.
  - intros pid e. cbn. by destruct (decide _).
  - intros pid e. cbn. set_solver.
  - done.
Qed.

(** Killing and restarting the handler passes with five programs started, none left. *)
Lemma no_program_survives_witness :
  let args := mkArgs KillFh (Some "day.itch") (Some "out") false 300 "300.0" 30 15000 in
  let '(e, r) := e2e_main demo_run py_str 5 args (mkOs 100 0 {[7]}) in
  (match r with Ok (code, Some runner) => (code, p_pid <$> r_procs runner) | _ => (2, []) end) = (0, [100; 101; 102; 103; 104]) /\
  os_next e = 105 /\ os_running e ⊆ {[7]}.
Proof.
  intros args. pose proof (no_program_survives demo_run os_running py_str 5 args (mkOs 100 0 {[7]}) demo_laws) as H.
  destruct (e2e_main _ _ _ args _) as [e r] eqn:Em. split; [|split; [|exact H]].
  - replace r with (e2e_main demo_run py_str 5 args (mkOs 100 0 {[7]})).2 by (by rewrite Em). vm_compute. reflexivity.
  - replace e with (e2e_main demo_run py_str 5 args (mkOs 100 0 {[7]})).1 by (by rewrite Em). vm_compute. reflexivity.
Defined.
