(* ===== verification/Py36.v ===== *)
(** tools/py36check.py: the Python 3.6 linter.

    The abstract syntax is a tree of nodes with the fields the checker looks at; a list
    field comes as children in the order of [ast.iter_child_nodes] ([Call]: func, args,
    keywords; [Attribute]: its value first; [Arguments]: the positional-only ones first).
    [ast.parse] and [tokenize] are parameters; reading a file is one too. *)
From S2P Require Export PyText.

#[global] Set Default Goal Selector "!".

Inductive node_class : Type :=
| NamedExpr | Match | JoinedStr | Constant (value : option str) | FormattedValue | Arguments (posonly : nat)
| Import | ImportFrom (module : option str) | Alias (name : str) (asname : option str)
| Call | Keyword (arg : option str) | Attribute (attr : str) | Name (id : str) | OtherNode.

Inductive node : Type := Node (cls : node_class) (lineno : option Z) (fields : list node).
Definition cls_of (n : node) : node_class := let 'Node c _ _ := n in c.
Definition lineno_of (n : node) : option Z := let 'Node _ l _ := n in l.
Definition fields_of (n : node) : list node := let 'Node _ _ fs := n in fs.

(** Line and reason. *)
Definition Violation : Type := Z * str.

Definition FORBIDDEN_IMPORTS : list (str * str) := [
  ("dataclasses", "'dataclasses' module not available before Python 3.7");
  ("asyncio", "'asyncio' is forbidden by project rules (no asyncio at all)");
  ("contextvars", "'contextvars' module not available before Python 3.7");
  ("zoneinfo", "'zoneinfo' module not available before Python 3.9");
  ("graphlib", "'graphlib' module not available before Python 3.9");
  ("importlib.metadata", "'importlib.metadata' not available before Python 3.8")].
Definition FORBIDDEN_TYPING_NAMES : list (str * str) := [
  ("Literal", "typing.Literal not available before Python 3.8");
  ("Protocol", "typing.Protocol not available before Python 3.8");
  ("Final", "typing.Final not available before Python 3.8")].
Definition SUBPROCESS_FUNCS : list str := ["run"; "check_output"; "Popen"].
Definition SUBPROCESS_BAD_KWARGS : list (str * str) := [
  ("capture_output", "subprocess ... capture_output= kwarg not available before Python 3.7");
  ("text", "subprocess ... text= kwarg not available before Python 3.7")].

Definition WALRUS : str := "walrus operator (:=) not allowed before Python 3.8".
Definition MATCH : str := "match statement not allowed before Python 3.10".
Definition FSTRING_EQ : str := "f-string self-documenting '=' specifier not allowed before Python 3.8".
Definition POSONLY : str := "positional-only parameters ('/') not allowed before Python 3.8".
Definition FUTURE : str := "'from __future__ import annotations' not allowed (PEP 563 stringized annotations are a 3.7+ feature and change runtime annotation semantics)".
Definition BREAKPOINT : str := "breakpoint() not available before Python 3.7".
Definition TIME_NS : str := "time.time_ns() not available before Python 3.7".

(** * The text rules *)

(** [\w] on code points below 256. *)
Definition is_word (b : byte) : bool :=
  let z := b2z b in
  is_dec b || ((65 <=? z) && (z <=? 90)) || (z =? 95) || ((97 <=? z) && (z <=? 122)) ||
  bool_decide (z ∈ [170; 178; 179; 181; 185; 186; 188; 189; 190]) || ((192 <=? z) && negb (z =? 215) && negb (z =? 247)).

(** A pattern: a word not preceded by one of [tr_not_after], then [\s*\(]. *)
Record text_rule : Type := mkTextRule { tr_not_after : byte -> bool; tr_word : bytes; tr_reason : str }.
Definition _TEXT_RULES : list text_rule := [
  mkTextRule (fun b => is_word b || bool_decide (b = "."%byte)) (s2l "breakpoint") BREAKPOINT;
  mkTextRule is_word (s2l "time.time_ns") TIME_NS].

(** [pattern.match] at a position whose previous character is [prev]. *)
Definition rule_here (tr : text_rule) (prev : option byte) (l : bytes) : bool :=
  negb (match prev with Some b => tr_not_after tr b | None => false end) &&
  startswith (tr_word tr) l && startswith (s2l "(") (lstrip_b is_ws (drop (length (tr_word tr)) l)).
(** [pattern.search] *)
Fixpoint rule_search (tr : text_rule) (prev : option byte) (l : bytes) : bool :=
  rule_here tr prev l || match l with [] => false | b :: t => rule_search tr (Some b) t end.

(** * The checker *)

(** [dict.get] of a table. *)
Definition lookup_reason (k : str) (table : list (str * str)) : option str := snd <$> head (filter (fun kv => kv.1 = k) table).

(** [s or t] for a string that may be absent. *)
Definition str_or (s : option str) (t : str) : str := match s with Some "" | None => t | Some s => s end.

(** The aliases an Import or ImportFrom names: line, name and asname. *)
Definition names_of (fs : list node) : list (option Z * str * option str) :=
  omap (fun n => match n with Node (Alias name asname) l _ => Some (l, name, asname) | _ => None end) fs.

Record aliases : Type := mkAliases { typing_aliases : list str; subprocess_aliases : list str; subprocess_func_names : list str }.
Definition aliases_app (a b : aliases) : aliases :=
  mkAliases (typing_aliases a ++ typing_aliases b) (subprocess_aliases a ++ subprocess_aliases b)
            (subprocess_func_names a ++ subprocess_func_names b).

(** The names under which an import binds the modules and functions looked for. *)
Definition import_aliases (module : str) (fs : list node) : list str :=
  omap (fun a : option Z * str * option str => let '(_, name, asname) := a in if decide (name = module) then Some (str_or asname name) else None) (names_of fs).
Definition import_from_funcs (fs : list node) : list str :=
  omap (fun a : option Z * str * option str => let '(_, name, asname) := a in if decide (name ∈ SUBPROCESS_FUNCS) then Some (str_or asname name) else None) (names_of fs).
Definition node_aliases (n : node) : aliases :=
  match n with
  | Node Import _ fs => mkAliases (import_aliases "typing" fs) (import_aliases "subprocess" fs) []
  | Node (ImportFrom module) _ fs => mkAliases [] [] (if decide (module = Some "subprocess") then import_from_funcs fs else [])
  | _ => mkAliases [] [] []
  end.

(** The nodes of a tree, parents first; the order of [ast.walk] differs, which the sets
    it fills do not show. *)
Fixpoint walk (n : node) : list node := let 'Node _ _ fs := n in n :: concat (map walk fs).
Definition _prescan_aliases (tree : node) : aliases := foldr (fun n a => aliases_app (node_aliases n) a) (mkAliases [] [] []) (walk tree).

Section checker.
Context (al : aliases).

(** [getattr(node, "lineno", 0)] *)
Definition line_or_0 (n : node) : Z := default 0 (lineno_of n).

Definition check_typing_attr (n : node) : list Violation :=
  match n with
  | Node (Attribute attr) l (Node (Name id) _ _ :: _) =>
      match lookup_reason attr FORBIDDEN_TYPING_NAMES with
      | Some reason => if decide (id ∈ typing_aliases al) then [(line_or_0 n, reason)] else []
      | None => []
      end
  | _ => []
  end.

(** A [Constant] ending in = followed by a [FormattedValue]. *)
Fixpoint fstring_eqs (values : list node) : list Violation :=
  match values with
  | value :: rest =>
      match value, rest with
      | Node (Constant (Some text)) _ _, Node FormattedValue _ _ :: _ =>
          if endswith (s2l "=") (rstrip_b is_ws (s2l text)) then [(line_or_0 value, FSTRING_EQ)] else []
      | _, _ => []
      end ++ fstring_eqs rest
  | [] => []
  end.

Definition is_subprocess_call (fs : list node) : bool :=
  match fs with
  | Node (Attribute attr) _ (Node (Name id) _ _ :: _) :: _ => bool_decide (attr ∈ SUBPROCESS_FUNCS) && bool_decide (id ∈ subprocess_aliases al)
  | Node (Name id) _ _ :: _ => bool_decide (id ∈ subprocess_func_names al)
  | _ => false
  end.

(** The [visit_] methods, less [generic_visit]; [line] is the node's. *)
Definition visit_Import (line : Z) (fs : list node) : list Violation :=
  omap (fun a : option Z * str * option str =>
          (fun reason => (line, reason +:+ " (import " +:+ a.1.2 +:+ ")")) <$> lookup_reason a.1.2 FORBIDDEN_IMPORTS) (names_of fs).
Definition visit_ImportFrom (line : Z) (module : option str) (fs : list node) : list Violation :=
  let module := str_or module "" in
  (if decide (module = "__future__") then
     omap (fun a : option Z * str * option str => if decide (a.1.2 = "annotations") then Some (line, FUTURE) else None) (names_of fs)
   else []) ++
  (match lookup_reason module FORBIDDEN_IMPORTS with
   | Some reason => [(line, reason +:+ " (from " +:+ module +:+ " import ...)")]
   | None => []
   end) ++
  (if decide (module = "importlib") then
     omap (fun a : option Z * str * option str =>
             if decide (a.1.2 = "metadata") then
               Some (default line a.1.1, "'importlib.metadata' not available before Python 3.8 (from importlib import metadata)")
             else None) (names_of fs)
   else []) ++
  (if decide (module = "typing") then
     omap (fun a : option Z * str * option str =>
             (fun reason => (default line a.1.1, reason)) <$> lookup_reason a.1.2 FORBIDDEN_TYPING_NAMES) (names_of fs)
   else []).
Definition visit_Call (line : Z) (fs : list node) : list Violation :=
  (match fs with Node (Name id) _ _ :: _ => if decide (id = "breakpoint") then [(line, BREAKPOINT)] else [] | _ => [] end) ++
  (match fs with
   | Node (Attribute attr) _ (Node (Name id) _ _ :: _) :: _ => if decide (attr = "time_ns" /\ id = "time") then [(line, TIME_NS)] else []
   | _ => []
   end) ++
  (match fs with func :: _ => check_typing_attr func | [] => [] end) ++
  (if is_subprocess_call fs then
     omap (fun kw => match kw with
                     | Node (Keyword (Some arg)) _ _ => (fun reason => (line, reason)) <$> lookup_reason arg SUBPROCESS_BAD_KWARGS
                     | _ => None end) fs
   else []).

Definition visit_node (n : node) : list Violation :=
  let 'Node c l fs := n in
  let line := line_or_0 n in
  match c with
  | NamedExpr => [(line, WALRUS)]
  | Match => [(line, MATCH)]
  | JoinedStr => fstring_eqs fs
  | Arguments (S _) => match fs with arg :: _ => [(line_or_0 arg, POSONLY)] | [] => [] end
  | Import => visit_Import line fs
  | ImportFrom module => visit_ImportFrom line module fs
  | Call => visit_Call line fs
  | Attribute _ => check_typing_attr n
  | _ => []
  end.

(** [checker.visit(tree)]: every method ends in [generic_visit]. *)
Fixpoint visit (n : node) : list Violation := let 'Node _ _ fs := n in visit_node n ++ concat (map visit fs).
End checker.

(** * check_source *)

(** [source.splitlines(True)] *)
Fixpoint keep_lines (l cur : bytes) : list bytes :=
  match l with
  | [] => match cur with [] => [] | _ => [rev cur] end
  | b :: t =>
      if is_eol b then
        match t with
        | c :: t' => if (b2z b =? 13) && (b2z c =? 10) then rev (c :: b :: cur) :: keep_lines t' [] else rev (b :: cur) :: keep_lines t []
        | [] => [rev (b :: cur)]
        end
      else keep_lines t (b :: cur)
  end.

(** A STRING or COMMENT token: start and end row and column. *)
Record token : Type := mkToken { srow : nat; scol : nat; erow : nat; ecol : nat }.
Definition mask_line (col_start col_end : nat) (line : bytes) : bytes :=
  imap (fun col c => if bool_decide (col_start <= col < col_end)%nat && negb (b2z c =? 10) then " "%byte else c) line.
Definition mask_token (masked : list bytes) (tok : token) : list bytes :=
  imap (fun i line =>
    let row := S i in
    if bool_decide (srow tok <= row <= erow tok)%nat
    then mask_line (if decide (row = srow tok) then scol tok else 0%nat) (if decide (row = erow tok) then ecol tok else length line) line
    else line) masked.

Definition seen_before (seen : list Violation) (v : Violation) : bool := bool_decide (v ∈ seen).
Fixpoint dedup_from (seen violations : list Violation) : list Violation :=
  match violations with
  | [] => []
  | v :: l => if seen_before seen v then dedup_from seen l else v :: dedup_from (v :: seen) l
  end.
Definition _dedup (violations : list Violation) : list Violation := dedup_from [] violations.

(** [violations.sort(key=lambda v: v.line)], stable. *)
Fixpoint insert_by_line (v : Violation) (l : list Violation) : list Violation :=
  match l with
  | w :: l' => if v.1 <=? w.1 then v :: l else w :: insert_by_line v l'
  | [] => [v]
  end.
Definition sort_by_line (l : list Violation) : list Violation := foldr insert_by_line [] l.

Inductive parsed : Type := Parsed (tree : node) | SyntaxErr (lineno : option Z) (msg : str).

Section source.
(** [tokens]: those of the file before it ends or the tokenizer raises, which is caught. *)
Context (parse : str -> parsed) (tokens : str -> list token).

Definition _mask_strings_and_comments (source : str) : list bytes := foldl mask_token (keep_lines (s2l source) []) (tokens source).

Definition text_violations (masked_lines : list bytes) : list Violation :=
  concat (imap (fun i line => omap (fun tr => if rule_search tr None line then Some (Z.of_nat (S i), tr_reason tr) else None) _TEXT_RULES) masked_lines).

(** Before duplicates are dropped and the lines sorted. *)
Definition found (tree : node) (source : str) : list Violation :=
  visit (_prescan_aliases tree) tree ++ text_violations (_mask_strings_and_comments source).

Definition check_source (source : str) : list Violation :=
  match parse source with
  | SyntaxErr lineno msg => [(default 0 lineno, "SyntaxError: " +:+ msg)]
  | Parsed tree => sort_by_line (_dedup (found tree source))
  end.

(** * The programs *)

Context (read : str -> res str).
Definition check_file (path : str) : res (list Violation) := source ← read path; Ok (check_source source).

Definition violation_line (path : str) (v : Violation) : str := path +:+ ":" +:+ py_str v.1 +:+ ": " +:+ v.2.

(** [main] past the arguments; the state is what was printed. *)
Definition lint_file (path : str) : M (list str) bool :=
  violations ← mlift (check_file path);
  mmod (fun out => out ++ (violation_line path <$> violations)) ;;
  mret (negb (bool_decide (violations = []))).
Fixpoint lint_files (files : list str) (any_violations : bool) : M (list str) bool :=
  match files with
  | [] => mret any_violations
  | path :: files => bad ← lint_file path; lint_files files (any_violations || bad)
  end.
Definition lint_main (files : list str) : M (list str) Z :=
  match files with
  | [] => mret 2                                   (* parser.error *)
  | _ => any_violations ← lint_files files false; mret (if any_violations : bool then 1 else 0)
  end.

(** [re.compile(r"#\s*BAD:").search] *)
Fixpoint bad_marker (l : bytes) : bool :=
  match l with
  | [] => false
  | b :: t => (bool_decide (b = "#"%byte) && startswith (s2l "BAD:") (lstrip_b is_ws t)) || bad_marker t
  end.

Inductive selftest_line : Type :=
| ExpectedClean (name : str) (violations : list Violation) | CleanOk (name : str)
| MissingAt (name : str) (lines : list Z) | AllCaught (name : str) (planted : nat).

(** [f.readlines()] of a text read with universal newlines. *)
Fixpoint nl_lines (l cur : bytes) : list bytes :=
  match l with
  | [] => match cur with [] => [] | _ => [rev cur] end
  | b :: t => if b2z b =? 10 then rev (b :: cur) :: nl_lines t [] else nl_lines t (b :: cur)
  end.
Definition expected_lines (lines : list bytes) : list Z := omap (fun il : Z * bytes => if bad_marker il.2 then Some il.1 else None) (zip (seqZ 1 (zlen lines)) lines).

(** One fixture: what is printed, and whether it passes. *)
Definition selftest_file (dir name : str) : res (selftest_line * bool) :=
  let path := path_join dir name in
  text ← read path;
  let expected := expected_lines (nl_lines (s2l text) []) in
  violations ← check_file path;
  if decide (name = "clean.py") then
    Ok (if decide (violations = []) then (CleanOk name, true) else (ExpectedClean name violations, false))
  else
    let missing := filter (fun line => line ∉ violations.*1) expected in
    Ok (if decide (missing = []) then (AllCaught name (length expected), true) else (MissingAt name missing, false)).

(** [listing]: the names in the directory of fixtures, sorted; [None]: not a directory. *)
Definition _run_selftest (dir : str) (listing : option (list str)) : M (list selftest_line) Z :=
  match listing with
  | None => mret 1
  | Some names =>
      oks ← mmapM (fun name =>
              r ← mlift (selftest_file dir name);
              mmod (fun out => out ++ [r.1]) ;; mret r.2) (filter (fun name => endswith (s2l ".py") (s2l name) = true) names);
      mret (if forallb id oks then 0 else 1)
  end.
End source.

(** * Facts *)

(** The nested induction on trees. *)
Lemma node_ind' (P : node -> Prop) : (forall c l fs, Forall P fs -> P (Node c l fs)) -> forall n, P n.
Proof.
  intros H. fix IH 1. intros [c l fs]. apply H. induction fs as [|f fs IHfs]; constructor; [apply IH|apply IHfs].
Qed.

Lemma elem_of_concat_map {A B} (f : A -> list B) l (v : B) : v ∈ concat (map f l) <-> exists x, x ∈ l /\ v ∈ f x.
Proof.
  induction l as [|x l IH]; cbn; [split; [by intros ?%elem_of_nil|by intros (x & ?%elem_of_nil & _)]|].
  rewrite elem_of_app, IH. setoid_rewrite elem_of_cons. split; [intros [H|(y & Hy & H)]; eauto|intros (y & [->|Hy] & H); eauto].
Qed.

(** The checker's methods see every node once. *)
Lemma elem_of_visit al n v : v ∈ visit al n <-> exists m, m ∈ walk n /\ v ∈ visit_node al m.
Proof.
  induction n as [c l fs IH] using node_ind'. cbn [visit walk]. setoid_rewrite elem_of_cons. rewrite elem_of_app, elem_of_concat_map.
  setoid_rewrite elem_of_concat_map. rewrite Forall_forall in IH. split.
  - intros [H|(f & Hf & H)]; [by eexists; split; [left|]|]. apply IH in H as (m & Hm & H); [|done]. eauto 10.
  - intros (m & [->|(f & Hf & Hm)] & H); [by left|]. right. exists f. split; [done|]. apply IH; eauto.
Qed.

Lemma walk_self n : n ∈ walk n.
Proof. destruct n. cbn. left. Qed.
Lemma walk_field c l fs f m : f ∈ fs -> m ∈ walk f -> m ∈ walk (Node c l fs).
Proof. intros Hf Hm. cbn [walk]. right. apply elem_of_concat_map. eauto. Qed.
Lemma walk_trans n m k : m ∈ walk n -> k ∈ walk m -> k ∈ walk n.
Proof.
  revert m. induction n as [c l fs IH] using node_ind'. intros m [->|Hm]%elem_of_cons Hk; [done|].
  apply elem_of_concat_map in Hm as (f & Hf & Hm). rewrite Forall_forall in IH. eapply walk_field; [done|]. by eapply IH.
Qed.

(** ** Duplicates and order *)

Lemma dedup_spec seen l : NoDup (dedup_from seen l) /\ forall v, v ∈ dedup_from seen l <-> v ∈ l /\ v ∉ seen.
Proof.
  revert seen. induction l as [|w l IH]; intros seen; cbn [dedup_from].
  - split; [constructor|]. intros v. split; [by intros ?%elem_of_nil|by intros [?%elem_of_nil _]].
  - unfold seen_before. destruct (bool_decide_reflect (w ∈ seen)) as [Hw|Hw]; [destruct (IH seen) as [Hn Hs]|destruct (IH (w :: seen)) as [Hn Hs]].
    + split; [done|]. intros v. rewrite Hs, elem_of_cons. naive_solver.
    + split; [constructor; [rewrite Hs; set_solver|done]|]. intros v. rewrite !elem_of_cons, Hs, elem_of_cons.
      destruct (decide (v = w)); naive_solver.
Qed.

Definition line_le (v w : Violation) : Prop := v.1 <= w.1.
Lemma insert_perm v l : insert_by_line v l ≡ₚ v :: l.
Proof. induction l as [|w l IH]; cbn; [done|]. destruct (v.1 <=? w.1); [done|]. rewrite IH. by constructor. Qed.
Lemma sort_perm l : sort_by_line l ≡ₚ l.
Proof. induction l as [|v l IH]; cbn; [done|]. by rewrite insert_perm, IH. Qed.
Lemma insert_sorted v l : Sorted line_le l -> Sorted line_le (insert_by_line v l).
Proof.
  induction 1 as [|w l Hs IH Hd]; cbn; [by repeat constructor|]. destruct (Z.leb_spec v.1 w.1); [by repeat constructor|].
  constructor; [done|]. destruct Hd as [|u l Hu]; cbn; [|destruct (Z.leb_spec v.1 u.1)]; constructor; unfold line_le in *; lia.
Qed.
Lemma sort_sorted l : Sorted line_le (sort_by_line l).
Proof. induction l; cbn; [constructor|]. by apply insert_sorted. Qed.

(** ** The text rules *)

(** The word, white space and a parenthesis, the word at the start of a line or after a
    character the pattern allows. *)
Definition calls_word (tr : text_rule) (line : bytes) : Prop :=
  exists pre ws post, line = pre ++ tr_word tr ++ ws ++ s2l "(" ++ post /\ forallb is_ws ws = true /\
    forall b, last pre = Some b -> tr_not_after tr b = false.

Lemma startswith_app p l : startswith p l = true <-> exists t, l = p ++ t.
Proof.
  unfold startswith. rewrite bool_decide_eq_true. split; [|by intros (t & ->); rewrite take_app_length].
  intros H. exists (drop (length p) l). by rewrite <- H at 1; rewrite take_drop.
Qed.
Lemma lstrip_spec l t c : is_ws c = false -> lstrip_b is_ws l = c :: t <-> exists ws, l = ws ++ c :: t /\ forallb is_ws ws = true.
Proof.
  intros Hc. induction l as [|b l IH]; cbn [lstrip_b].
  - split; [done|]. intros ([|? ?] & H & _); discriminate H.
  - destruct (is_ws b) eqn:Hb.
    + rewrite IH. split; intros (ws & E & Hw).
      * exists (b :: ws). subst. cbn. by rewrite Hb.
      * destruct ws as [|b' ws]; [injection E as -> _; congruence|]. injection E as -> ->. cbn in Hw. apply andb_true_iff in Hw as [_ Hw]. eauto.
    + split; [intros [= -> ->]; by exists []|]. intros ([|b' ws] & E & Hw); [done|]. injection E as -> _. cbn in Hw. rewrite Hb in Hw. done.
Qed.

Lemma rule_here_spec tr prev l : rule_here tr prev l = true <->
  (forall b, prev = Some b -> tr_not_after tr b = false) /\ exists ws post, l = tr_word tr ++ ws ++ s2l "(" ++ post /\ forallb is_ws ws = true.
Proof.
  unfold rule_here. rewrite !andb_true_iff, negb_true_iff, !startswith_app.
  assert ((match prev with Some b => tr_not_after tr b | None => false end) = false <-> forall b, prev = Some b -> tr_not_after tr b = false) as ->.
  { destruct prev; naive_solver. }
  split.
  - intros [[Hp (t & ->)] (post & H)]. split; [done|]. rewrite drop_app_length in H. apply lstrip_spec in H as (ws & -> & Hw); [|done]. eauto.
  - intros (Hp & ws & post & -> & Hw). split; [split; [done|by eexists]|]. rewrite drop_app_length. exists post. by apply lstrip_spec; eauto.
Qed.

Lemma rule_search_spec tr prev l : tr_word tr <> [] -> rule_search tr prev l = true <->
  exists pre ws post, l = pre ++ tr_word tr ++ ws ++ s2l "(" ++ post /\ forallb is_ws ws = true /\
    forall b, last (option_list prev ++ pre) = Some b -> tr_not_after tr b = false.
Proof.
  intros Hne. revert prev. induction l as [|c l IH]; intros prev; cbn [rule_search]; rewrite orb_true_iff, rule_here_spec.
  - split; [intros [(Hp & ws & post & E & _)|]; [|done]|intros (pre & ws & post & E & _)]; exfalso; apply Hne;
      [by destruct (tr_word tr)|by destruct pre, (tr_word tr)].
  - rewrite IH. split.
    + intros [(Hp & ws & post & -> & Hw)|(pre & ws & post & -> & Hw & Hb)].
      * exists [], ws, post. split; [done|]. split; [done|]. intros b Hl. apply Hp. by destruct prev.
      * exists (c :: pre), ws, post. split; [done|]. split; [done|]. intros b Hl. apply Hb. destruct prev; [|done]. by cbn in *.
    + intros ([|c' pre] & ws & post & E & Hw & Hb).
      * left. split; [|eauto]. intros b ->. apply Hb. done.
      * injection E as -> ->. right. exists pre, ws, post. split; [done|]. split; [done|]. intros b Hl. apply Hb. destruct prev; [|done]. by cbn in *.
Qed.

Definition text_offends (masked_lines : list bytes) (v : Violation) : Prop :=
  exists i line tr, masked_lines !! i = Some line /\ tr ∈ _TEXT_RULES /\ calls_word tr line /\ v = (Z.of_nat (S i), tr_reason tr).

Lemma elem_of_concat_imap {A B} (f : nat -> A -> list B) l v : v ∈ concat (imap f l) <-> exists i x, l !! i = Some x /\ v ∈ f i x.
Proof.
  rewrite list_elem_of_In, in_concat. setoid_rewrite <- list_elem_of_In. split.
  - intros (ys & (i & Hi)%list_elem_of_lookup & Hv). rewrite list_lookup_imap in Hi. destruct (l !! i) as [x|] eqn:E; [|done]. injection Hi as <-. eauto.
  - intros (i & x & Hx & Hv). exists (f i x). split; [|done]. apply list_elem_of_lookup. exists i. by rewrite list_lookup_imap, Hx.
Qed.

Lemma text_violations_spec masked_lines v : v ∈ text_violations masked_lines <-> text_offends masked_lines v.
Proof.
  unfold text_violations, text_offends. rewrite elem_of_concat_imap.
  assert (forall tr, tr ∈ _TEXT_RULES -> tr_word tr <> []) as Hne by (intros tr; unfold _TEXT_RULES; rewrite !elem_of_cons, elem_of_nil; intros [->|[->|[]]]; done).
  split.
  - intros (i & line & Hl & (tr & Htr & Hv)%list_elem_of_omap). destruct (rule_search tr None line) eqn:E; [|done]. injection Hv as <-.
    exists i, line, tr. split; [done|]. split; [done|]. split; [|done]. by apply rule_search_spec in E; auto.
  - intros (i & line & tr & Hl & Htr & Hc & ->). exists i, line. split; [done|]. apply list_elem_of_omap. exists tr. split; [done|].
    assert (rule_search tr None line = true) as ->; [|done]. by apply rule_search_spec; auto.
Qed.

(** ** The rules on the tree *)

(** An import anywhere binds [module], or a function of subprocess, to [id]. *)
Definition binds (tree : node) (module id : str) : Prop :=
  exists l fs asname la fa, Node Import l fs ∈ walk tree /\ Node (Alias module asname) la fa ∈ fs /\ id = str_or asname module.
Definition binds_func (tree : node) (id : str) : Prop :=
  exists l fs f asname la fa, Node (ImportFrom (Some "subprocess")) l fs ∈ walk tree /\ Node (Alias f asname) la fa ∈ fs /\
    f ∈ SUBPROCESS_FUNCS /\ id = str_or asname f.

Definition line_of (l : option Z) : Z := default 0 l.

(** What a call of subprocess looks like: its function. *)
Inductive subprocess_func (tree : node) : node -> Prop :=
| sub_attr attr l id li fi fs : attr ∈ SUBPROCESS_FUNCS -> binds tree "subprocess" id ->
    subprocess_func tree (Node (Attribute attr) l (Node (Name id) li fi :: fs))
| sub_name id l fs : binds_func tree id -> subprocess_func tree (Node (Name id) l fs).

(** The forms Python 3.6 does not have and those the project forbids. *)
Inductive offends (tree : node) : node -> Violation -> Prop :=
| off_walrus l fs : offends tree (Node NamedExpr l fs) (line_of l, WALRUS)
| off_match l fs : offends tree (Node Match l fs) (line_of l, MATCH)
| off_fstring l pre text lc fc lv fv post : endswith (s2l "=") (rstrip_b is_ws (s2l text)) = true ->
    offends tree (Node JoinedStr l (pre ++ Node (Constant (Some text)) lc fc :: Node FormattedValue lv fv :: post)) (line_of lc, FSTRING_EQ)
| off_posonly n l arg fs : offends tree (Node (Arguments (S n)) l (arg :: fs)) (line_or_0 arg, POSONLY)
| off_import l fs name asname la fa reason : Node (Alias name asname) la fa ∈ fs -> (name, reason) ∈ FORBIDDEN_IMPORTS ->
    offends tree (Node Import l fs) (line_of l, reason +:+ " (import " +:+ name +:+ ")")
| off_from l fs module reason : (module, reason) ∈ FORBIDDEN_IMPORTS ->
    offends tree (Node (ImportFrom (Some module)) l fs) (line_of l, reason +:+ " (from " +:+ module +:+ " import ...)")
| off_future l fs asname la fa : Node (Alias "annotations" asname) la fa ∈ fs ->
    offends tree (Node (ImportFrom (Some "__future__")) l fs) (line_of l, FUTURE)
| off_metadata l fs asname la fa : Node (Alias "metadata" asname) la fa ∈ fs ->
    offends tree (Node (ImportFrom (Some "importlib")) l fs)
      (default (line_of l) la, "'importlib.metadata' not available before Python 3.8 (from importlib import metadata)")
| off_typing_import l fs name asname la fa reason : Node (Alias name asname) la fa ∈ fs -> (name, reason) ∈ FORBIDDEN_TYPING_NAMES ->
    offends tree (Node (ImportFrom (Some "typing")) l fs) (default (line_of l) la, reason)
| off_breakpoint l lf ff fs : offends tree (Node Call l (Node (Name "breakpoint") lf ff :: fs)) (line_of l, BREAKPOINT)
| off_time_ns l lf lt ft ff fs : offends tree (Node Call l (Node (Attribute "time_ns") lf (Node (Name "time") lt ft :: ff) :: fs)) (line_of l, TIME_NS)
| off_typing_attr attr reason l id li fi fs : (attr, reason) ∈ FORBIDDEN_TYPING_NAMES -> binds tree "typing" id ->
    offends tree (Node (Attribute attr) l (Node (Name id) li fi :: fs)) (line_of l, reason)
| off_subprocess l func fs arg lk fk reason : subprocess_func tree func -> Node (Keyword (Some arg)) lk fk ∈ func :: fs ->
    (arg, reason) ∈ SUBPROCESS_BAD_KWARGS -> offends tree (Node Call l (func :: fs)) (line_of l, reason).

Lemma names_spec fs la name asname : (la, name, asname) ∈ names_of fs <-> exists fa, Node (Alias name asname) la fa ∈ fs.
Proof.
  unfold names_of. rewrite list_elem_of_omap. split.
  - intros ([[] l fa] & Hn & E); try discriminate E. injection E as -> -> ->. eauto.
  - intros (fa & Hn). eexists. split; [exact Hn|done].
Qed.

(** A table without two entries of a key: looking a key up finds its entry. *)
Lemma lookup_reason_spec k r table : NoDup table.*1 -> lookup_reason k table = Some r <-> (k, r) ∈ table.
Proof.
  unfold lookup_reason. intros Hn. induction table as [|[k' r'] table IH]; [split; [done|by intros ?%elem_of_nil]|].
  rewrite fmap_cons in Hn. apply NoDup_cons in Hn as [Hk Hn]. cbn [fst] in Hk. rewrite filter_cons, elem_of_cons. cbn [fst].
  destruct (decide (k' = k)) as [->|Hne]; cbn [head fmap option_fmap option_map snd].
  - split; [intros [= ->]; by left|]. intros [[= ->]|H]; [done|]. destruct Hk. apply list_elem_of_fmap. by exists (k, r).
  - rewrite (IH Hn). split; [by right|]. intros [[= -> ->]|H]; [by destruct Hne|done].
Qed.
Lemma tables_nodup : NoDup FORBIDDEN_IMPORTS.*1 /\ NoDup FORBIDDEN_TYPING_NAMES.*1 /\ NoDup SUBPROCESS_BAD_KWARGS.*1.
Proof. split; [|split]; apply (bool_decide_unpack _); vm_compute; exact I. Qed.

Lemma fold_aliases l : let a := foldr (fun n a => aliases_app (node_aliases n) a) (mkAliases [] [] []) l in
  typing_aliases a = concat (map (fun n => typing_aliases (node_aliases n)) l) /\
  subprocess_aliases a = concat (map (fun n => subprocess_aliases (node_aliases n)) l) /\
  subprocess_func_names a = concat (map (fun n => subprocess_func_names (node_aliases n)) l).
Proof. induction l as [|n l (IH1 & IH2 & IH3)]; cbn; [done|]. by rewrite <- IH1, <- IH2, <- IH3. Qed.

Lemma import_aliases_spec module fs id : id ∈ import_aliases module fs <->
  exists asname la fa, Node (Alias module asname) la fa ∈ fs /\ id = str_or asname module.
Proof.
  unfold import_aliases. rewrite list_elem_of_omap. split.
  - intros ([[la name] asname] & Hn & E). case_decide as Hd; [|done]. subst. injection E as <-. apply names_spec in Hn as (fa & Hn). eauto.
  - intros (asname & la & fa & Hn & ->). exists (la, module, asname). split; [by apply names_spec; eauto|]. by rewrite decide_True.
Qed.
Lemma import_from_spec fs id : id ∈ import_from_funcs fs <->
  exists f asname la fa, Node (Alias f asname) la fa ∈ fs /\ f ∈ SUBPROCESS_FUNCS /\ id = str_or asname f.
Proof.
  unfold import_from_funcs. rewrite list_elem_of_omap. split.
  - intros ([[la name] asname] & Hn & E). case_decide as Hd; [|done]. injection E as <-. apply names_spec in Hn as (fa & Hn). eauto 10.
  - intros (f & asname & la & fa & Hn & Hf & ->). exists (la, f, asname). split; [by apply names_spec; eauto|]. by rewrite decide_True.
Qed.

(** The tables of names, class by class. *)
Ltac by_class c := destruct c as [| | |?|?|?| |?|? ?| |?|?|?|]; cbn [node_aliases typing_aliases subprocess_aliases subprocess_func_names] in *;
  try match goal with H : _ ∈ [] |- _ => by apply elem_of_nil in H end.

Lemma typing_aliases_spec tree id : id ∈ typing_aliases (_prescan_aliases tree) <-> binds tree "typing" id.
Proof.
  unfold _prescan_aliases. destruct (fold_aliases (walk tree)) as (-> & _). rewrite elem_of_concat_map. unfold binds. split.
  - intros ([c l fs] & Hn & H). by_class c. apply import_aliases_spec in H as (asname & la & fa & Ha & ->). eauto 10.
  - intros (l & fs & asname & la & fa & Hn & Ha & ->). exists (Node Import l fs). split; [done|]. apply import_aliases_spec. eauto.
Qed.
Lemma subprocess_aliases_spec tree id : id ∈ subprocess_aliases (_prescan_aliases tree) <-> binds tree "subprocess" id.
Proof.
  unfold _prescan_aliases. destruct (fold_aliases (walk tree)) as (_ & -> & _). rewrite elem_of_concat_map. unfold binds. split.
  - intros ([c l fs] & Hn & H). by_class c. apply import_aliases_spec in H as (asname & la & fa & Ha & ->). eauto 10.
  - intros (l & fs & asname & la & fa & Hn & Ha & ->). exists (Node Import l fs). split; [done|]. apply import_aliases_spec. eauto.
Qed.
Lemma func_names_spec tree id : id ∈ subprocess_func_names (_prescan_aliases tree) <-> binds_func tree id.
Proof.
  unfold _prescan_aliases. destruct (fold_aliases (walk tree)) as (_ & _ & ->). rewrite elem_of_concat_map. unfold binds_func. split.
  - intros ([c l fs] & Hn & H). by_class c. case_decide as Hd; [|by apply elem_of_nil in H]. subst.
    apply import_from_spec in H as (f & asname & la & fa & Ha & Hf & ->). eauto 12.
  - intros (l & fs & f & asname & la & fa & Hn & Ha & Hf & ->). eexists. split; [exact Hn|]. cbn [node_aliases subprocess_func_names].
    rewrite decide_True by done. apply import_from_spec. eauto 10.
Qed.

Lemma subprocess_call_spec tree fs : is_subprocess_call (_prescan_aliases tree) fs = true <-> exists func rest, fs = func :: rest /\ subprocess_func tree func.
Proof.
  split.
  - intros H. destruct fs as [|[c l ffs] rest]; [done|]. exists (Node c l ffs), rest. split; [done|]. cbn in H. destruct c; try done.
    + destruct ffs as [|[[] ? ?] ?]; try done. apply andb_true_iff in H as [H1%bool_decide_eq_true H2%bool_decide_eq_true].
      constructor; [done|]. by apply subprocess_aliases_spec.
    + apply bool_decide_eq_true in H. constructor. by apply func_names_spec.
  - intros (func & rest & -> & [attr l id li fi ffs Ha Hb|id l ffs Hb]); cbn.
    + by rewrite !bool_decide_true by (try apply subprocess_aliases_spec; done).
    + by rewrite bool_decide_true by (by apply func_names_spec).
Qed.

Lemma typing_attr_spec tree n v : v ∈ check_typing_attr (_prescan_aliases tree) n <->
  exists attr reason l id li fi fs, n = Node (Attribute attr) l (Node (Name id) li fi :: fs) /\ v = (line_of l, reason) /\
    (attr, reason) ∈ FORBIDDEN_TYPING_NAMES /\ binds tree "typing" id.
Proof.
  destruct tables_nodup as (_ & Hn & _). split.
  - intros H. destruct n as [c l fs]. destruct c as [| | |?|?|?| |?|? ?| |?|attr|?|]; try by apply elem_of_nil in H.
    destruct fs as [|[c li fi] fs]; [by apply elem_of_nil in H|]. destruct c as [| | |?|?|?| |?|? ?| |?|?|id|]; try by apply elem_of_nil in H.
    cbn [check_typing_attr] in H. destruct (lookup_reason attr FORBIDDEN_TYPING_NAMES) as [reason|] eqn:E; [|by apply elem_of_nil in H].
    case_decide as Hd; [|by apply elem_of_nil in H]. apply list_elem_of_singleton in H as ->. apply lookup_reason_spec in E; [|done].
    apply typing_aliases_spec in Hd. eauto 12.
  - intros (attr & reason & l & id & li & fi & fs & -> & -> & Ha & Hb). cbn [check_typing_attr].
    apply lookup_reason_spec in Ha; [|done]. rewrite Ha, decide_True by (by apply typing_aliases_spec). by apply list_elem_of_singleton.
Qed.

Lemma fstring_spec values v : v ∈ fstring_eqs values <-> exists pre text lc fc lv fv post,
  values = pre ++ Node (Constant (Some text)) lc fc :: Node FormattedValue lv fv :: post /\
  endswith (s2l "=") (rstrip_b is_ws (s2l text)) = true /\ v = (line_of lc, FSTRING_EQ).
Proof.
  induction values as [|x values IH]; [split; [by intros ?%elem_of_nil|by intros ([] & ? & ? & ? & ? & ? & ? & ? & _)]|].
  cbn [fstring_eqs]. rewrite elem_of_app, IH. clear IH. split.
  - intros [H|(pre & text & lc & fc & lv & fv & post & -> & He & ->)]; [|exists (x :: pre); eauto 12].
    destruct x as [c lc fc]. destruct c as [| | |[text|]|?|?| |?|? ?| |?|?|?|]; try by apply elem_of_nil in H.
    destruct values as [|[c lv fv] post]; [by apply elem_of_nil in H|]. destruct c as [| | |?| |?| |?|? ?| |?|?|?|]; try by apply elem_of_nil in H.
    destruct (endswith _ _) eqn:He; [|by apply elem_of_nil in H]. apply list_elem_of_singleton in H as ->. exists []. eauto 12.
  - intros ([|y pre] & text & lc & fc & lv & fv & post & E & He & ->).
    + injection E as -> ->. left. rewrite He. by apply list_elem_of_singleton.
    + injection E as -> ->. right. eauto 12.
Qed.

Lemma str_or_empty m k : str_or m "" = k -> k <> "" -> m = Some k.
Proof. intros <- H. destruct m as [[|c s]|]; done. Qed.

Lemma import_offends tree l fs v : v ∈ visit_Import (line_of l) fs -> offends tree (Node Import l fs) v.
Proof.
  destruct tables_nodup as (Hn & _). unfold visit_Import. intros ([[la name] asname] & Ha & Hv)%list_elem_of_omap. cbn [fst snd] in Hv.
  destruct (lookup_reason name FORBIDDEN_IMPORTS) as [reason|] eqn:E; [|done]. injection Hv as <-.
  apply names_spec in Ha as (fa & Ha). apply lookup_reason_spec in E; [|done]. by econstructor.
Qed.

Lemma from_offends tree l module fs v : v ∈ visit_ImportFrom (line_of l) module fs -> offends tree (Node (ImportFrom module) l fs) v.
Proof.
  destruct tables_nodup as (Hni & Hnt & _). unfold visit_ImportFrom. cbv zeta. rewrite !elem_of_app.
  assert (forall k, k <> "" -> str_or module "" = k -> module = Some k) as Hmod by (intros; by apply str_or_empty).
  intros [H|[H|[H|H]]]; [| |case_decide as Hm; [|by apply elem_of_nil in H]..].
  - case_decide as Hm; [|by apply elem_of_nil in H]. apply Hmod in Hm as ->; [|done].
    apply list_elem_of_omap in H as ([[la name] asname] & Hn & Hv). cbn [fst snd] in Hv. case_decide as Hd; [|done]. injection Hv as <-. subst name.
    apply names_spec in Hn as (fa & Hn). by econstructor.
  - destruct (lookup_reason (str_or module "") FORBIDDEN_IMPORTS) as [reason|] eqn:E; [|by apply elem_of_nil in H].
    apply list_elem_of_singleton in H as ->. destruct module as [[|c s]|]; [done| |done]. constructor. by apply lookup_reason_spec in E.
  - apply Hmod in Hm as ->; [|done]. apply list_elem_of_omap in H as ([[la name] asname] & Hn & Hv). cbn [fst snd] in Hv.
    case_decide as Hd; [|done]. injection Hv as <-. subst name. apply names_spec in Hn as (fa & Hn). by econstructor.
  - apply Hmod in Hm as ->; [|done]. apply list_elem_of_omap in H as ([[la name] asname] & Hn & Hv). cbn [fst snd] in Hv.
    destruct (lookup_reason name FORBIDDEN_TYPING_NAMES) as [reason|] eqn:E; [|done]. injection Hv as <-.
    apply names_spec in Hn as (fa & Hn). apply lookup_reason_spec in E; [|done]. by econstructor.
Qed.

(** A call reports itself, or the attribute it calls. *)
Lemma call_offends tree l fs v : v ∈ visit_Call (_prescan_aliases tree) (line_of l) fs ->
  offends tree (Node Call l fs) v \/ exists func, func ∈ fs /\ offends tree func v.
Proof.
  destruct tables_nodup as (_ & _ & Hnk). unfold visit_Call. rewrite !elem_of_app. intros [H|[H|[H|H]]].
  - destruct fs as [|[[] lf ff] fs]; try (by apply elem_of_nil in H). case_decide as Hd; [|by apply elem_of_nil in H].
    apply list_elem_of_singleton in H as ->. subst. left. constructor.
  - destruct fs as [|[[] lf [|[[] lt ft] ff]] fs]; try (by apply elem_of_nil in H). case_decide as Hd; [|by apply elem_of_nil in H].
    apply list_elem_of_singleton in H as ->. destruct Hd as [-> ->]. left. constructor.
  - destruct fs as [|func fs]; [by apply elem_of_nil in H|]. right. exists func. split; [left|].
    apply typing_attr_spec in H as (attr & reason & la & id & li & fi & ffs & -> & -> & Ha & Hb). by constructor.
  - destruct (is_subprocess_call _ fs) eqn:E; [|by apply elem_of_nil in H]. apply subprocess_call_spec in E as (func & rest & -> & Hf).
    apply list_elem_of_omap in H as (kw & Hk & Hv). destruct kw as [[] lk fk]; try discriminate Hv. destruct arg as [arg|]; [|discriminate Hv].
    destruct (lookup_reason arg SUBPROCESS_BAD_KWARGS) as [reason|] eqn:E; [|done]. injection Hv as <-.
    apply lookup_reason_spec in E; [|done]. left. by econstructor.
Qed.

Lemma visit_offends tree n v : v ∈ visit_node (_prescan_aliases tree) n -> exists m, m ∈ walk n /\ offends tree m v.
Proof.
  assert (offends tree n v -> exists m, m ∈ walk n /\ offends tree m v) as Hself by (intros Ho; exists n; split; [apply walk_self|done]).
  destruct n as [c l fs]. destruct c as [| | |?|?|posonly| |module|? ?| |?|attr|?|]; cbn [visit_node]; try (by intros ?%elem_of_nil).
  - intros ->%list_elem_of_singleton. apply Hself. constructor.
  - intros ->%list_elem_of_singleton. apply Hself. constructor.
  - intros (pre & text & lc & fc & lv & fv & post & -> & He & ->)%fstring_spec. apply Hself. by constructor.
  - destruct posonly as [|k], fs as [|arg fs]; try (by intros ?%elem_of_nil). intros ->%list_elem_of_singleton. apply Hself. constructor.
  - intros H%(import_offends tree l). by apply Hself.
  - intros H%(from_offends tree l). by apply Hself.
  - intros [H|(func & Hf & H)]%call_offends; [by apply Hself|]. exists func. split; [|done]. eapply walk_field; [done|apply walk_self].
  - intros (attr' & reason & la & id & li & fi & ffs & E & -> & Ha & Hb)%typing_attr_spec. injection E as -> -> ->. apply Hself. by constructor.
Qed.

Lemma offends_visit tree n v : offends tree n v -> v ∈ visit_node (_prescan_aliases tree) n.
Proof.
  destruct tables_nodup as (Hni & Hnt & Hnk).
  intros [l fs|l fs|l pre text lc fc lv fv post He|k l arg fs|l fs name asname la fa reason Ha Hr|l fs module reason Hr|l fs asname la fa Ha|l fs asname la fa Ha
         |l fs name asname la fa reason Ha Hr|l lf ff fs|l lf lt ft ff fs|attr reason l id li fi fs Hr Hb|l func fs arg lk fk reason Hf Hk Hr]; cbn [visit_node].
  - by apply list_elem_of_singleton.
  - by apply list_elem_of_singleton.
  - apply fstring_spec. eauto 12.
  - by apply list_elem_of_singleton.
  - apply list_elem_of_omap. exists (la, name, asname). split; [by apply names_spec; eauto|]. cbn [fst snd].
    by apply lookup_reason_spec in Hr as ->.
  - apply elem_of_app. right. apply elem_of_app. left.
    assert (str_or (Some module) "" = module) as -> by (by destruct module). apply lookup_reason_spec in Hr as ->; [|done]. by apply list_elem_of_singleton.
  - apply elem_of_app. left. apply list_elem_of_omap. exists (la, "annotations", asname). split; [by apply names_spec; eauto|done].
  - apply elem_of_app. right. apply elem_of_app. right. apply elem_of_app. left. apply list_elem_of_omap. exists (la, "metadata", asname).
    split; [by apply names_spec; eauto|done].
  - do 3 (apply elem_of_app; right). apply list_elem_of_omap. exists (la, name, asname). split; [by apply names_spec; eauto|]. cbn [fst snd].
    by apply lookup_reason_spec in Hr as ->.
  - apply elem_of_app. left. by apply list_elem_of_singleton.
  - apply elem_of_app. right. apply elem_of_app. left. by apply list_elem_of_singleton.
  - apply typing_attr_spec. eauto 12.
  - do 3 (apply elem_of_app; right). assert (is_subprocess_call (_prescan_aliases tree) (func :: fs) = true) as -> by (apply subprocess_call_spec; eauto).
    apply list_elem_of_omap. eexists. split; [exact Hk|]. cbn. by apply lookup_reason_spec in Hr as ->.
Qed.

(** * Properties *)

(** The linter reports, line by line and without duplicates, exactly the offending
    forms of the syntax tree and the calls its text rules look for outside strings and
    comments; a file that cannot be parsed is one violation. *)
Theorem lint_exact parse tokens source :
  match parse source with
  | SyntaxErr lineno msg => check_source parse tokens source = [(line_of lineno, "SyntaxError: " +:+ msg)]
  | Parsed tree =>
      let violations := check_source parse tokens source in
      NoDup violations /\ Sorted line_le violations /\
      forall v, v ∈ violations <-> (exists n, n ∈ walk tree /\ offends tree n v) \/ text_offends (_mask_strings_and_comments tokens source) v
  end.
Proof.
  unfold check_source. destruct (parse source) as [tree|lineno msg]; [|done]. cbv zeta.
  destruct (dedup_spec [] (found tokens tree source)) as [Hn Hs]. split; [by rewrite sort_perm|]. split; [apply sort_sorted|]. intros v.
  rewrite sort_perm. unfold _dedup. rewrite Hs. unfold found. rewrite elem_of_app, text_violations_spec, elem_of_visit.
  assert ((exists m, m ∈ walk tree /\ v ∈ visit_node (_prescan_aliases tree) m) <-> exists n, n ∈ walk tree /\ offends tree n v) as ->.
  { split; [|intros (n & Hw & Ho); exists n; split; [done|by apply offends_visit]].
    intros (m & Hw & (k & Hk & Ho)%visit_offends). exists k. split; [|done]. by eapply walk_trans. }
  split; [by intros [H _]|]. intros H. split; [done|]. apply not_elem_of_nil.
Qed.

(** f"count={n}", which Python 3.6 accepts, has the tree the rule looks for. *)
Example plain_fstring_reported :
  let tree := Node OtherNode None [Node JoinedStr (Some 3) [Node (Constant (Some "count=")) (Some 3) []; Node FormattedValue (Some 3) [Node (Name "n") (Some 3) []]]] in
  check_source (fun _ => Parsed tree) (fun _ => []) "" = [(3, FSTRING_EQ)].
Proof. vm_compute. reflexivity. Qed.

(** A form feed ends a line of [splitlines] but no row of the tokenizer: the comment after
    it is not masked. *)
Example form_feed_unmasks :
  let source := String (Ascii.ascii_of_nat 12) "# breakpoint(" in
  check_source (fun _ => Parsed (Node OtherNode None [])) (fun _ => [mkToken 1 1 1 14]) source = [(2, BREAKPOINT)].
Proof. vm_compute. reflexivity. Qed.

(** import subprocess as sp; sp.run(text=True) on line 2, once; asyncio on line 1. *)
Example lint_demo :
  let tree := Node OtherNode None [
    Node Import (Some 1) [Node (Alias "asyncio" None) (Some 1) []; Node (Alias "subprocess" (Some "sp")) (Some 1) []];
    Node Call (Some 2) [Node (Attribute "run") (Some 2) [Node (Name "sp") (Some 2) []]; Node (Keyword (Some "text")) (Some 2) []];
    Node Call (Some 2) [Node (Name "breakpoint") (Some 2) []]] in
  check_source (fun _ => Parsed tree) (fun _ => []) ("import asyncio, subprocess as sp" +:+ l2s [x0a]%byte +:+ "sp.run(text=True); breakpoint()") =
    [(1, "'asyncio' is forbidden by project rules (no asyncio at all) (import asyncio)");
     (2, "subprocess ... text= kwarg not available before Python 3.7"); (2, BREAKPOINT)].
Proof. vm_compute. reflexivity. Qed.
