(* ===== verification/PyArgs.v ===== *)
(** Python's [argparse], as the programs here use it (the 3.6 library): long options that
    take one argument or none, [-h] and [--help], and positional arguments; unique
    prefixes of an option stand for it, [--option=text] gives its argument.

    A parser is a table.  Messages are not modelled: a bad command line exits with 2, a
    request for help with 0, and a command line on which [argparse] itself fails escapes
    with its exception. *)
From S2P Require Export PyText PyDict.

#[global] Set Default Goal Selector "!".

(** * Values *)

(** A float is the decimal number its text says, before it is rounded. *)
Inductive py_float : Type := Decimal (mantissa exponent : Z) | Infinite (negative : bool) | NotANumber.

Inductive value : Type :=
| VNone | VStr (s : str) | VInt (z : Z) | VFloat (x : py_float) | VBool (b : bool) | VList (l : list str) | VAddr (host : str) (port : Z).

Definition str_arg (s : str) : option value := Some (VStr s).
Definition int_arg (s : str) : option value := match py_int s with Ok z => Some (VInt z) | Raise _ => None end.

(** ** [float(text)] *)

(** Digits with single underscores between them; how many, their value and the rest. *)
Fixpoint digit_run (l : bytes) (n acc : Z) (after_digit : bool) : option (Z * Z * bytes) :=
  match l with
  | [] => if after_digit || (n =? 0) then Some (n, acc, []) else None
  | b :: t =>
      if is_dec b then digit_run t (n + 1) (acc * 10 + (b2z b - 48)) true
      else if (b2z b =? 95) && after_digit then digit_run t n acc false
      else if after_digit || (n =? 0) then Some (n, acc, l) else None
  end.

Definition exponent_of (l : bytes) : option Z :=
  match l with
  | [] => Some 0
  | e :: t =>
      if (b2z e =? 101) || (b2z e =? 69) then
        let '(neg, t) := match t with
                         | b :: t' => if b2z b =? 45 then (true, t') else if b2z b =? 43 then (false, t') else (false, t)
                         | [] => (false, t)
                         end in
        match digit_run t 0 0 false with
        | Some (n, z, []) => if n =? 0 then None else Some (if neg : bool then - z else z)
        | _ => None
        end
      else None
  end.

Definition unsigned_float (l : bytes) : option py_float :=
  if bool_decide (lower (l2s l) = "inf") || bool_decide (lower (l2s l) = "infinity") then Some (Infinite false)
  else if decide (lower (l2s l) = "nan") then Some NotANumber
  else
    '(n, whole, rest) ← digit_run l 0 0 false;
    '(m, mantissa, rest) ← match rest with
                           | b :: t =>
                               if b2z b =? 46 then
                                 '(m, frac, rest) ← digit_run t 0 0 false; Some (m, whole * 10 ^ m + frac, rest)
                               else Some (0, whole, rest)
                           | [] => Some (0, whole, rest)
                           end;
    if n + m =? 0 then None else e ← exponent_of rest; Some (Decimal mantissa (e - m)).

Definition float_neg (x : py_float) : py_float :=
  match x with Decimal m e => Decimal (- m) e | Infinite b => Infinite (negb b) | NotANumber => NotANumber end.
Definition py_float_of (s : str) : option py_float :=
  match strip_b is_ws (s2l s) with
  | b :: t =>
      if b2z b =? 45 then float_neg <$> unsigned_float t
      else if b2z b =? 43 then unsigned_float t
      else unsigned_float (b :: t)
  | [] => None
  end.
Definition float_arg (s : str) : option value := VFloat <$> py_float_of s.

(** [choices=...]. *)
Definition choice_arg (choices : list str) (s : str) : option value := if decide (s ∈ choices) then Some (VStr s) else None.

(** ** Numbers as they are printed *)

Lemma int_arg_str z : int_arg (py_str z) = Some (VInt z).
Proof. unfold int_arg. by rewrite py_int_any. Qed.

Lemma py_str_not_dashes z : py_str z <> "--".
Proof.
  intros E. pose proof (int_of_str_b z) as H. unfold py_str in E. apply (f_equal s2l) in E. rewrite s2l_l2s in E. by rewrite E in H.
Qed.

Lemma digit_run_dec l rest n acc : forallb is_dec l = true -> l <> [] ->
  match rest with b :: _ => is_dec b = false /\ (b2z b =? 95) = false | [] => True end ->
  digit_run (l ++ rest) n acc false = Some (n + zlen l, dec_val acc l, rest).
Proof.
  intros Hl Hne Hr. assert (forall a, a = true \/ l <> [] -> digit_run (l ++ rest) n acc a = Some (n + zlen l, dec_val acc l, rest)) as H;
    [|apply H; by right]. clear Hne. revert n acc. induction l as [|b l IH]; intros n acc a Ha.
  - destruct Ha as [->|]; [|done]. cbn [app zlen length dec_val]. rewrite Z.add_0_r. destruct rest as [|b t]; [done|].
    destruct Hr as [H1 H2]. cbn [digit_run]. by rewrite H1, H2.
  - apply andb_true_iff in Hl as [Hb Hl]. cbn [app digit_run dec_val]. rewrite Hb, IH by auto. do 3 f_equal. unfold zlen. cbn [length]. lia.
Qed.

(** A byte string that begins with a digit is no name of a float. *)
Lemma digit_not_name b t name : is_dec b = true -> match s2l name with c :: _ => is_dec c = false | [] => True end ->
  lower (l2s (b :: t)) <> name.
Proof.
  intros Hb Hn <-. unfold lower in Hn. rewrite !s2l_l2s in Hn. cbn in Hn. by destruct b.
Qed.

Lemma unsigned_float_digits l rest e : forallb is_dec l = true -> l <> [] ->
  rest = [] \/ (exists t, rest = z2b 101 :: t) -> exponent_of rest = Some e ->
  unsigned_float (l ++ rest) = Some (Decimal (dec_val 0 l) e).
Proof.
  intros Hl Hne Hr He. unfold unsigned_float. destruct l as [|b l]; [done|]. pose proof Hl as [Hb _]%andb_true_iff.
  assert (forall name, match s2l name with c :: _ => is_dec c = false | [] => True end -> lower (l2s ((b :: l) ++ rest)) <> name) as Hx
    by (intros name; by apply (digit_not_name b (l ++ rest))).
  rewrite !bool_decide_eq_false_2 by by apply Hx. cbn [orb]. rewrite decide_False by by apply Hx.
  rewrite digit_run_dec by (try done; destruct Hr as [->|(t & ->)]; done). cbn [mbind option_bind].
  assert (0 + zlen (b :: l) + 0 =? 0 = false) as Hz by (apply Z.eqb_neq; unfold zlen; cbn [length]; lia).
  destruct Hr as [->|(t & ->)].
  - cbn [mbind option_bind]. rewrite Hz, He. cbn [mbind option_bind]. by rewrite Z.sub_0_r.
  - change (b2z (z2b 101) =? 46) with false. cbn [mbind option_bind]. rewrite Hz, He. cbn [mbind option_bind]. by rewrite Z.sub_0_r.
Qed.

(** A number of milliseconds as seconds, and an integer as a float. *)
Definition exp_text (z : Z) (k : nat) : str := py_str z +:+ "e-" +:+ py_str (Z.of_nat k).
Definition ms_text (z : Z) : str := py_str z +:+ "e-3".

Lemma py_float_of_digits z rest e : forallb (fun b => negb (is_ws b)) rest = true ->
  rest = [] \/ (exists t, rest = z2b 101 :: t) -> exponent_of rest = Some e ->
  py_float_of (l2s (py_str_b z ++ rest)) = Some (Decimal z e).
Proof.
  intros Hw Hr He. unfold py_float_of. rewrite s2l_l2s, strip_none by by rewrite forallb_app, py_str_b_no_ws.
  unfold py_str_b. destruct (Z.ltb_spec z 0) as [Hz|Hz].
  - cbn [app]. change (b2z "-"%byte =? 45) with true. cbn iota.
    rewrite (unsigned_float_digits _ _ e) by (try done; try (by apply dec_bytes_digits; lia); apply dec_bytes_nonempty).
    cbn [fmap option_fmap option_map float_neg]. rewrite dec_bytes_val by lia. by rewrite Z.opp_involutive.
  - pose proof (dec_bytes_digits z Hz) as Hd. transitivity (Some (Decimal (dec_val 0 (dec_bytes z)) e)); [|by rewrite dec_bytes_val].
    rewrite <- (unsigned_float_digits _ rest e Hd (dec_bytes_nonempty z) Hr He).
    destruct (dec_bytes z) as [|b l] eqn:E; [by apply dec_bytes_nonempty in E|]. cbn [app].
    apply andb_true_iff in Hd as [Hb%is_dec_bounds _]. by rewrite !(proj2 (Z.eqb_neq _ _)) by lia.
Qed.

Lemma float_arg_int z : float_arg (py_str z) = Some (VFloat (Decimal z 0)).
Proof. unfold float_arg, py_str. rewrite <- (app_nil_r (py_str_b z)), (py_float_of_digits z [] 0); [done|done|by left|done]. Qed.
Lemma exponent_text k : exponent_of (s2l "e-" ++ dec_bytes (Z.of_nat k)) = Some (- Z.of_nat k).
Proof.
  change (s2l "e-") with ["e"%byte; "-"%byte]. cbn [app exponent_of]. change (b2z "e"%byte =? 101) with true. change (b2z "-"%byte =? 45) with true. cbn [orb].
  rewrite <- (app_nil_r (dec_bytes _)), digit_run_dec by (done || apply dec_bytes_nonempty || apply dec_bytes_digits; lia).
  rewrite dec_bytes_val by lia. rewrite (proj2 (Z.eqb_neq _ _)); [done|]. pose proof (dec_bytes_nonempty (Z.of_nat k)).
  unfold zlen. destruct (dec_bytes _); [done|]. cbn [length]. lia.
Qed.

Lemma float_arg_exp z k : float_arg (exp_text z k) = Some (VFloat (Decimal z (- Z.of_nat k))).
Proof.
  unfold float_arg, exp_text, py_str. replace (l2s (py_str_b z) +:+ "e-" +:+ l2s (py_str_b (Z.of_nat k)))
    with (l2s (py_str_b z ++ s2l "e-" ++ dec_bytes (Z.of_nat k))).
  - rewrite (py_float_of_digits z _ (- Z.of_nat k)); [done| |right; by eexists|apply exponent_text].
    rewrite forallb_app. apply andb_true_iff. split; [done|]. pose proof (py_str_b_no_ws (Z.of_nat k)) as H.
    unfold py_str_b in H. by rewrite (proj2 (Z.ltb_ge _ _)) in H by lia.
  - apply s2l_inj. rewrite !s2l_cat, !s2l_l2s. unfold py_str_b at 3. by rewrite (proj2 (Z.ltb_ge _ _)) by lia.
Qed.
Lemma exp_text_not_dashes z k : exp_text z k <> "--".
Proof. intros E. pose proof (float_arg_exp z k) as H. by rewrite E in H. Qed.
Lemma float_arg_ms z : float_arg (ms_text z) = Some (VFloat (Decimal z (-3))).
Proof. apply (float_arg_exp z 3). Qed.
Lemma ms_text_not_dashes z : ms_text z <> "--".
Proof. intros E. pose proof (float_arg_ms z) as H. by rewrite E in H. Qed.

(** * Parsers *)

(** [o_type]: what makes the argument of its text; [None] for [store_true]. *)
Record option_spec : Type := mkOption {
  o_name : str; o_dest : str; o_type : option (str -> option value); o_default : value; o_required : bool }.

Inductive nargs : Type := One | Plus | Star.
Record positional : Type := mkPositional { p_dest : str; p_nargs : nargs }.
Record parser : Type := mkParser { options : list option_spec; positionals : list positional }.

Definition namespace : Type := list (str * value).

Inductive stopped : Type := SystemExit (code : Z) | Escapes (e : exn).
Definition usage_error {A} : A + stopped := inr (SystemExit 2).

Definition sbind {A B} (m : A + stopped) (f : A -> B + stopped) : B + stopped := match m with inl a => f a | inr s => inr s end.

(** * Which arguments are options *)

Inductive target : Type := Help (short : bool) | Opt (o : option_spec).
Definition target_string (t : target) : str := match t with Help true => "-h" | Help false => "--help" | Opt o => o_name o end.
Definition targets (p : parser) : list target := Help true :: Help false :: (Opt <$> options p).

Definition exact (p : parser) (s : str) : option target := List.find (fun t => bool_decide (target_string t = s)) (targets p).

(** [_get_option_tuples]: the options an abbreviation may mean. *)
Definition abbreviated (p : parser) (s : bytes) : list (target * option str) :=
  match s with
  | _ :: c :: rest =>
      if b2z c =? 45 then
        let '(prefix, eq, text) := partition_b (z2b 61) s in
        (fun t => (t, if (eq : bool) then Some (l2s text) else None)) <$>
          List.filter (fun t => startswith prefix (s2l (target_string t))) (targets p)
      else
        omap (fun t => if decide (s2l (target_string t) = take 2 s) then Some (t, Some (l2s rest))
                       else if startswith s (s2l (target_string t)) then Some (t, None) else None) (targets p)
  | _ => []
  end.

(** [^-\d+$|^-\d*\.\d+$] *)
Definition negative_number (s : bytes) : bool :=
  match s with
  | b :: t =>
      (b2z b =? 45) &&
      (let t := match last t with Some c => if b2z c =? 10 then removelast t else t | None => t end in
       match split_b [z2b 46] t with
       | [whole] => negb (bool_decide (whole = [])) && forallb is_dec whole
       | [whole; frac] => forallb is_dec whole && negb (bool_decide (frac = [])) && forallb is_dec frac
       | _ => false
       end)
  | [] => false
  end.

Inductive arg_class : Type := Arg | Dashes | Match (t : target) (text : option str) | Unknown.

(** [_parse_optional] *)
Definition _parse_optional (p : parser) (arg : str) : arg_class + stopped :=
  let s := s2l arg in
  match s with
  | [] => inl Arg
  | b :: t =>
      if negb (b2z b =? 45) then inl Arg
      else
        match exact p arg with
        | Some x => inl (Match x None)
        | None =>
            if decide (t = []) then inl Arg
            else
              let '(name, eq, text) := partition_b (z2b 61) s in
              match (if (eq : bool) then exact p (l2s name) else None) with
              | Some x => inl (Match x (Some (l2s text)))
              | None =>
                  match abbreviated p s with
                  | _ :: _ :: _ => usage_error
                  | [(x, text)] => inl (Match x text)
                  | [] => inl (if negative_number s then Arg else if existsb (fun c => b2z c =? 32) s then Arg else Unknown)
                  end
              end
        end
  end.

(** After the first [--] everything is an argument. *)
Fixpoint classify (p : parser) (args : list str) : list (str * arg_class) + stopped :=
  match args with
  | [] => inl []
  | a :: args =>
      if decide (a = "--") then inl ((a, Dashes) :: ((fun x => (x, Arg)) <$> args))
      else sbind (_parse_optional p a) (fun c => sbind (classify p args) (fun l => inl ((a, c) :: l)))
  end.

(** * Taking them *)

Record progress : Type := mkProgress { ns : namespace; seen : list str; left : list positional; extras : bool }.

Definition is_option (c : arg_class) : bool := match c with Match _ _ | Unknown => true | _ => false end.
Definition is_arg (c : arg_class) : bool := match c with Arg => true | _ => false end.
Definition is_dashes (c : arg_class) : bool := match c with Dashes => true | _ => false end.

(** [_get_values] drops one [--]. *)
Fixpoint drop_dashes (l : list str) : list str :=
  match l with [] => [] | s :: l => if decide (s = "--") then l else s :: drop_dashes l end.

(** [-hx]: the letters of joined short options, of which there is only [h]. *)
Fixpoint help_letters (text : bytes) : namespace + stopped :=
  match text with
  | [] => inr (SystemExit 0)
  | b :: t => if b2z b =? 104 then help_letters t else usage_error
  end.

(** The explicit argument of an option that takes none. *)
Definition no_argument {A} (t : target) (text : str) : A + stopped :=
  match t with
  | Help true =>
      match s2l text with
      | [] => inr (Escapes IndexError)
      | l => match help_letters l with inl _ => usage_error | inr s => inr s end
      end
  | _ => usage_error
  end.

Definition store (o : option_spec) (v : value) (st : progress) : progress :=
  mkProgress (dset (o_dest o) v (ns st)) (o_name o :: seen st) (left st) (extras st).

(** The argument of an option, from its text. *)
Definition take_option (o : option_spec) (conv : str -> option value) (text : str) (st : progress) : progress + stopped :=
  if decide (text = "--") then inr (Escapes ValueError)
  else match conv text with Some v => inl (store o v st) | None => usage_error end.

Definition consume_optional (c : arg_class) (rest : list (str * arg_class)) (st : progress) : (progress * list (str * arg_class)) + stopped :=
  match c with
  | Match (Opt o) text =>
      match o_type o, text with
      | None, None => inl (store o (VBool true) st, rest)
      | None, Some text => no_argument (Opt o) text
      | Some conv, Some text => sbind (take_option o conv text st) (fun st => inl (st, rest))
      | Some conv, None =>
          match rest with
          | (text, Arg) :: rest => sbind (take_option o conv text st) (fun st => inl (st, rest))
          | _ => usage_error
          end
      end
  | Match (Help b) None => inr (SystemExit 0)
  | Match (Help b) (Some text) => no_argument (Help b) text
  | _ => inl (mkProgress (ns st) (seen st) (left st) true, rest)
  end.

(** How many arguments a positional takes from the front: its pattern over [A] and [-]. *)
Fixpoint run_of (p : arg_class -> bool) (l : list arg_class) : nat :=
  match l with c :: l => if p c then S (run_of p l) else O | [] => O end.
Definition match_one (n : nargs) (l : list arg_class) : option nat :=
  let d := run_of is_dashes l in
  let more := run_of (fun c => is_arg c || is_dashes c) (drop (S d) l) in
  match drop d l with
  | Arg :: l' => Some (S (d + match n with One => run_of is_dashes l' | _ => more end))%nat
  | _ => match n with Star => Some d | _ => None end
  end.

(** [_match_arguments_partial]: as many positionals as match.  None follows a [*] or [+]
    here, so taking them one by one is what the joined pattern does. *)
Fixpoint match_partial (ps : list positional) (l : list arg_class) : list nat :=
  match ps with
  | [] => []
  | p :: ps => match match_one (p_nargs p) l with Some n => n :: match_partial ps (drop n l) | None => [] end
  end.

Definition positional_value (p : positional) (l : list str) : value + stopped :=
  match p_nargs p, drop_dashes l with
  | One, [s] => inl (VStr s)
  | One, _ => inr (Escapes ValueError)
  | _, l => inl (VList l)
  end.

Fixpoint take_positionals (counts : list nat) (st : progress) (l : list (str * arg_class)) : (progress * list (str * arg_class)) + stopped :=
  match counts, left st with
  | n :: counts, p :: ps =>
      sbind (positional_value p (take n l).*1) (fun v =>
        take_positionals counts (mkProgress (dset (p_dest p) v (ns st)) (seen st) ps (extras st)) (drop n l))
  | _, _ => inl (st, l)
  end.
Definition consume_positionals (st : progress) (l : list (str * arg_class)) : (progress * list (str * arg_class)) + stopped :=
  take_positionals (match_partial (left st) l.*2) st l.

Fixpoint from_option (l : list (str * arg_class)) : list (str * arg_class) :=
  match l with [] => [] | x :: l' => if is_option x.2 then l else from_option l' end.

(** The loop of [_parse_known_args]. *)
Fixpoint parse_loop (fuel : nat) (st : progress) (l : list (str * arg_class)) : progress + stopped :=
  match fuel with
  | O => inr (Escapes OutOfFuel)
  | S fuel =>
      if existsb (fun x => is_option x.2) l then
        match l with
        | (s, c) :: rest =>
            if is_option c then sbind (consume_optional c rest st) (fun '(st, l) => parse_loop fuel st l)
            else
              sbind (consume_positionals st l) (fun '(st', l') =>
                if decide (length l' < length l)%nat then parse_loop fuel st' l'
                else parse_loop fuel (mkProgress (ns st') (seen st') (left st') true) (from_option l'))
        | [] => inl st
        end
      else
        sbind (consume_positionals st l) (fun '(st', l') =>
          inl (mkProgress (ns st') (seen st') (left st') (extras st' || negb (bool_decide (l' = [])))))
  end.

Definition defaults (p : parser) : namespace :=
  ((fun o => (o_dest o, o_default o)) <$> options p) ++ ((fun q => (p_dest q, VNone)) <$> positionals p).

(** [parser.parse_args(argv)] *)
Definition parse_args (p : parser) (argv : list str) : namespace + stopped :=
  sbind (classify p argv) (fun l =>
  sbind (parse_loop (S (length argv)) (mkProgress (defaults p) [] (positionals p) false) l) (fun st =>
    if existsb (fun o => o_required o && negb (bool_decide (o_name o ∈ seen st))) (options p) then usage_error
    else if negb (bool_decide (left st = [])) then usage_error
    else if extras st then usage_error
    else inl (ns st))).

(** * Command lines that set options *)

Definition option_ok (o : option_spec) : bool :=
  startswith (s2l "--") (s2l (o_name o)) && negb (bool_decide (o_name o = "--help")) &&
  (3 <=? zlen (s2l (o_name o))) && forallb (fun b => negb (b2z b =? b2z (z2b 61))) (s2l (o_name o)).
Definition parser_ok (p : parser) : bool := forallb option_ok (options p) && bool_decide (NoDup (o_name <$> options p)).

(** [--option=text], or [--option] for one that takes none. *)
Definition option_text (o : option_spec) (text : str) : str :=
  match o_type o with Some _ => o_name o +:+ "=" +:+ text | None => o_name o end.

(** An option of the parser, a text for it and the value the text stands for. *)
Definition sets_option (p : parser) (a : option_spec * str * value) : Prop :=
  a.1.1 ∈ options p /\
  match o_type a.1.1 with Some conv => a.1.2 <> "--" /\ conv a.1.2 = Some a.2 | None => a.2 = VBool true end.

Definition plain (w : str) : Prop := match s2l w with b :: _ => b2z b <> 45 | [] => True end.

(** What the words after the options give the positionals. *)
Inductive words_give : list positional -> list str -> namespace -> Prop :=
| WNone : words_give [] [] []
| WOne d w ps ws vs : plain w -> words_give ps ws vs -> words_give (mkPositional d One :: ps) (w :: ws) ((d, VStr w) :: vs)
| WPlus d w ws : plain w -> Forall plain ws -> words_give [mkPositional d Plus] (w :: ws) [(d, VList (w :: ws))]
| WStar d ws : Forall plain ws -> words_give [mkPositional d Star] ws [(d, VList ws)].

Definition with_values (vs : namespace) (n : namespace) : namespace := foldl (fun n kv => dset kv.1 kv.2 n) n vs.

Lemma find_option (l : list option_spec) o : o ∈ l -> NoDup (o_name <$> l) ->
  List.find (fun t => bool_decide (target_string t = o_name o)) (Opt <$> l) = Some (Opt o).
Proof.
  intros Hin Hn. induction l as [|x l IH]; [by apply elem_of_nil in Hin|]. rewrite fmap_cons in *. cbn [List.find target_string].
  apply NoDup_cons in Hn as [Hx Hn]. apply elem_of_cons in Hin as [->|Hin]; [by rewrite bool_decide_eq_true_2|].
  rewrite bool_decide_eq_false_2; [by apply IH|]. intros E. apply Hx. rewrite E. by apply list_elem_of_fmap_2.
Qed.

Lemma option_ok_facts o : option_ok o = true -> exists a b c t, s2l (o_name o) = a :: b :: c :: t /\ b2z a = 45 /\ b2z b = 45 /\
  o_name o <> "-h" /\ o_name o <> "--help" /\ forallb (fun c => negb (b2z c =? b2z (z2b 61))) (s2l (o_name o)) = true.
Proof.
  unfold option_ok. intros [[[H1 H2]%andb_true_iff H3]%andb_true_iff H4]%andb_true_iff. unfold startswith in H1.
  apply bool_decide_eq_true in H1. apply negb_true_iff, bool_decide_eq_false in H2. apply Z.leb_le in H3.
  destruct (s2l (o_name o)) as [|a [|b [|c t]]] eqn:E; [done..|]. injection H1 as -> ->. exists x2d, x2d, c, t. split_and!; try done.
  intros Eh. rewrite Eh in E. by injection E.
Qed.

Lemma exact_option p o : parser_ok p = true -> o ∈ options p -> exact p (o_name o) = Some (Opt o).
Proof.
  intros [Ho Hn%bool_decide_eq_true]%andb_true_iff Hin. unfold exact, targets. cbn [List.find target_string].
  rewrite forallb_forall in Ho. destruct (option_ok_facts o) as (a & b & c & t & _ & _ & _ & H1 & H2 & _); [apply Ho; by apply list_elem_of_In|].
  rewrite !bool_decide_eq_false_2 by done. by apply find_option.
Qed.

Lemma exact_no_equals p s : parser_ok p = true -> forallb (fun c => negb (b2z c =? b2z (z2b 61))) (s2l s) = false -> exact p s = None.
Proof.
  intros [Ho _]%andb_true_iff Hs. unfold exact. destruct (List.find _ _) as [x|] eqn:E; [|done].
  apply List.find_some in E as [Hx <-%bool_decide_eq_true].
  destruct Hx as [<-|[<-|Hx]]; [done|done|]. apply list_elem_of_In, list_elem_of_fmap in Hx as (o & -> & Hin).
  rewrite forallb_forall in Ho. destruct (option_ok_facts o) as (? & ? & ? & ? & _ & _ & _ & _ & _ & H); [apply Ho; by apply list_elem_of_In|].
  cbn [target_string] in Hs. congruence.
Qed.

Definition class_of (a : option_spec * str * value) : arg_class :=
  Match (Opt a.1.1) (match o_type a.1.1 with Some _ => Some a.1.2 | None => None end).

Lemma parse_set_option p a : parser_ok p = true -> sets_option p a ->
  _parse_optional p (option_text a.1.1 a.1.2) = inl (class_of a).
Proof.
  intros Hp (Hin & Ht). destruct a as [[o text] v]. cbn [fst snd] in *. unfold class_of, option_text. cbn [fst snd].
  assert (option_ok o = true) as Hok.
  { apply andb_true_iff in Hp as [Hp _]. rewrite forallb_forall in Hp. apply Hp. by apply list_elem_of_In. }
  destruct (option_ok_facts _ Hok) as (x & y & z & t & E & Hx & Hy & _ & _ & Heq). unfold _parse_optional.
  destruct (o_type o) as [conv|].
  - rewrite !s2l_cat. change (s2l "=") with [z2b 61]. rewrite E. cbn [app]. rewrite Hx, Z.eqb_refl. cbn [negb].
    rewrite (exact_no_equals p) by (done || by rewrite !s2l_cat, !forallb_app, Heq).
    rewrite decide_False by done. change (x :: y :: z :: t ++ z2b 61 :: s2l text) with ((x :: y :: z :: t) ++ z2b 61 :: s2l text).
    rewrite <- E, partition_b_app by done. cbn beta iota. by rewrite !l2s_s2l, exact_option.
  - rewrite E, Hx, Z.eqb_refl. cbn [negb]. by rewrite exact_option.
Qed.

Lemma parse_plain p w : plain w -> _parse_optional p w = inl Arg.
Proof. unfold plain, _parse_optional. destruct (s2l w) as [|b t]; [done|]. intros H. by rewrite (proj2 (Z.eqb_neq _ _)). Qed.

Lemma plain_not_dashes w : plain w -> w <> "--".
Proof. by intros H ->. Qed.

Definition as_args (ws : list str) : list (str * arg_class) := (fun w => (w, Arg)) <$> ws.

Lemma classify_plain p ws : Forall plain ws -> classify p ws = inl (as_args ws).
Proof.
  induction 1 as [|w ws Hw _ IH]; [done|]. cbn [classify fmap list_fmap]. rewrite decide_False by by apply plain_not_dashes.
  rewrite parse_plain by done. cbn [sbind]. by rewrite IH.
Qed.

Lemma option_text_not_dashes o text : option_ok o = true -> option_text o text <> "--".
Proof.
  intros Ho E. destruct (option_ok_facts _ Ho) as (x & y & z & t & En & _). apply (f_equal s2l) in E. revert E. unfold option_text.
  destruct (o_type o); rewrite ?s2l_cat, En; done.
Qed.

Lemma classify_given p sets ws : parser_ok p = true -> Forall (sets_option p) sets -> Forall plain ws ->
  classify p (((fun a => option_text a.1.1 a.1.2) <$> sets) ++ ws) =
    inl (((fun a => (option_text a.1.1 a.1.2, class_of a)) <$> sets) ++ as_args ws).
Proof.
  intros Hp Hs Hw. induction Hs as [|a sets Ha _ IH]; [by apply classify_plain|]. rewrite !fmap_cons, <- !app_comm_cons. cbn [classify].
  rewrite decide_False.
  - rewrite parse_set_option by done. cbn [sbind]. by rewrite IH.
  - apply option_text_not_dashes. destruct Ha as [Hin _]. apply andb_true_iff in Hp as [Hp _]. rewrite forallb_forall in Hp.
    apply Hp. by apply list_elem_of_In.
Qed.

Definition stored (sets : list (option_spec * str * value)) (st : progress) : progress := foldl (fun st a => store a.1.1 a.2 st) st sets.

Lemma consume_given p a rest st : sets_option p a -> consume_optional (class_of a) rest st = inl (store a.1.1 a.2 st, rest).
Proof.
  destruct a as [[o text] v]. intros [_ Ha]. unfold class_of. cbn [consume_optional fst snd] in *. destruct (o_type o) as [conv|].
  - destruct Ha as [Ht Hc]. unfold take_option. rewrite decide_False by done. by rewrite Hc.
  - by subst v.
Qed.

Lemma loop_options p n sets st l : Forall (sets_option p) sets ->
  parse_loop (length sets + n) st (((fun a => (option_text a.1.1 a.1.2, class_of a)) <$> sets) ++ l) = parse_loop n (stored sets st) l.
Proof.
  intros Hs. revert st. induction Hs as [|a sets Ha _ IH]; intros st; [done|]. rewrite fmap_cons.
  cbn [length Nat.add app parse_loop existsb snd].
  change (is_option (class_of a)) with true. cbn [orb]. rewrite (consume_given p) by done. cbn [sbind]. apply IH.
Qed.

Lemma dashes_none ws : run_of is_dashes (as_args ws).*2 = 0%nat.
Proof. by destruct ws. Qed.
Lemma args_all ws : run_of (fun c => is_arg c || is_dashes c) (as_args ws).*2 = length ws.
Proof. induction ws as [|w ws IH]; [done|]. cbn. by f_equal. Qed.
Lemma match_one_arg n w ws : match_one n (as_args (w :: ws)).*2 = Some (match n with One => 1 | _ => S (length ws) end)%nat.
Proof.
  unfold match_one. change (as_args (w :: ws)).*2 with (Arg :: (as_args ws).*2). cbn [run_of is_dashes drop Nat.add].
  rewrite dashes_none, drop_0, args_all. by destruct n.
Qed.
Lemma as_args_texts ws : (as_args ws).*1 = ws.
Proof. induction ws as [|w ws IH]; [done|]. cbn. by f_equal. Qed.
Lemma as_args_length ws : length (as_args ws) = length ws.
Proof. apply length_fmap. Qed.

Lemma drop_dashes_plain ws : Forall plain ws -> drop_dashes ws = ws.
Proof.
  induction 1 as [|w ws Hw _ IH]; [done|]. cbn [drop_dashes]. rewrite decide_False by by apply plain_not_dashes. by rewrite IH.
Qed.

Lemma words_plain ps ws vs : words_give ps ws vs -> Forall plain ws.
Proof. induction 1; eauto. Qed.

Lemma take_words ps ws vs : words_give ps ws vs -> forall n s x,
  let l := as_args ws in
  take_positionals (match_partial ps l.*2) (mkProgress n s ps x) l = inl (mkProgress (with_values vs n) s [] x, []).
Proof.
  induction 1 as [|d w ps ws vs Hw H IH|d w ws Hw Hws|d ws Hws]; intros n s x l; subst l; [done|..].
  - cbn [match_partial p_nargs]. rewrite match_one_arg. cbn [take_positionals left p_dest].
    assert (positional_value (mkPositional d One) (take 1 (as_args (w :: ws))).*1 = inl (VStr w)) as ->.
    { unfold positional_value. cbn. by rewrite decide_False by by apply plain_not_dashes. }
    cbn [sbind]. apply IH.
  - cbn [match_partial p_nargs]. rewrite match_one_arg. cbn [take_positionals left]. unfold positional_value. cbn [p_nargs p_dest].
    rewrite take_ge, drop_ge, as_args_texts, drop_dashes_plain by (rewrite ?as_args_length; cbn; auto). done.
  - destruct ws as [|w ws]; [done|]. cbn [match_partial p_nargs]. rewrite match_one_arg. cbn [take_positionals left]. unfold positional_value. cbn [p_nargs p_dest].
    rewrite take_ge, drop_ge, as_args_texts, drop_dashes_plain by (rewrite ?as_args_length; cbn; auto). done.
Qed.

Lemma no_option_args ws : existsb (fun x : str * arg_class => is_option x.2) (as_args ws) = false.
Proof. by induction ws. Qed.

Lemma stored_facts sets st :
  ns (stored sets st) = with_values ((fun a => (o_dest a.1.1, a.2)) <$> sets) (ns st) /\
  left (stored sets st) = left st /\ extras (stored sets st) = extras st /\
  (forall s, s ∈ seen (stored sets st) <-> s ∈ ((fun a => o_name a.1.1) <$> sets) \/ s ∈ seen st).
Proof.
  revert st. induction sets as [|a sets IH]; intros st; [split_and!; try done; set_solver|].
  destruct (IH (store a.1.1 a.2 st)) as (H1 & H2 & H3 & H4). change (stored (a :: sets) st) with (stored sets (store a.1.1 a.2 st)).
  rewrite H1, H2, H3. split_and!; try done. intros s. rewrite H4, fmap_cons. unfold store. cbn [seen]. set_solver.
Qed.

Lemma with_values_app a b n : with_values (a ++ b) n = with_values b (with_values a n).
Proof. apply foldl_app. Qed.

(** The options a parser insists on are among those set. *)
Definition all_required (p : parser) (sets : list (option_spec * str * value)) : Prop :=
  forall o, o ∈ options p -> o_required o = true -> exists a, a ∈ sets /\ o_name a.1.1 = o_name o.

Lemma all_required_by p sets :
  forallb (fun o => negb (o_required o) || existsb (fun a : option_spec * str * value => bool_decide (o_name a.1.1 = o_name o)) sets) (options p) = true ->
  all_required p sets.
Proof.
  rewrite forallb_forall. intros H o Ho Hr. specialize (H o (proj1 (list_elem_of_In _ _) Ho)). rewrite Hr in H.
  apply existsb_exists in H as (a & Ha & E%bool_decide_eq_true). exists a. split; [by apply list_elem_of_In|done].
Qed.

Lemma parse_args_given p sets ws vs : parser_ok p = true -> Forall (sets_option p) sets -> all_required p sets ->
  words_give (positionals p) ws vs ->
  parse_args p (((fun a => option_text a.1.1 a.1.2) <$> sets) ++ ws) =
    inl (with_values (((fun a => (o_dest a.1.1, a.2)) <$> sets) ++ vs) (defaults p)).
Proof.
  intros Hp Hs Hr Hw. unfold parse_args. rewrite classify_given by (try done; by eapply words_plain). cbn [sbind].
  rewrite length_app, length_fmap, plus_n_Sm, (loop_options p) by done. cbn [parse_loop]. rewrite no_option_args.
  destruct (stored_facts sets (mkProgress (defaults p) [] (positionals p) false)) as (H1 & H2 & H3 & H4).
  destruct (stored _ _) as [n s l x] eqn:E. cbn [ns left extras seen] in *. subst. unfold consume_positionals. cbn [left].
  rewrite (take_words _ _ _ Hw). cbn [sbind extras ns left seen]. rewrite !bool_decide_eq_true_2 by done. cbn [negb orb].
  rewrite with_values_app. destruct (existsb _ _) eqn:Ex; [|done]. exfalso.
  apply existsb_exists in Ex as (o & Ho & [Hreq Hn]%andb_true_iff). apply negb_true_iff, bool_decide_eq_false in Hn.
  destruct (Hr o) as (a & Ha & Eq); [by apply list_elem_of_In|done|]. apply Hn, H4. left. rewrite <- Eq.
  by apply (list_elem_of_fmap_2 (fun a : option_spec * str * value => o_name a.1.1)).
Qed.

(** ** The loop ends *)

Lemma sbind_answers {A B} (m : A + stopped) (f : A -> B + stopped) x :
  m <> inr x -> (forall a, m = inl a -> f a <> inr x) -> sbind m f <> inr x.
Proof. destruct m as [a|y]; cbn; [by eauto|]. by intros H _ [= ->]. Qed.

Lemma take_positionals_drops counts st l : forall st' l', take_positionals counts st l = inl (st', l') -> exists k, l' = drop k l.
Proof.
  revert st l. induction counts as [|n counts IH]; intros st l st' l' H; cbn [take_positionals] in H; [by simplify_eq; exists 0%nat; rewrite drop_0|].
  destruct (left st) as [|q ps]; [by simplify_eq; exists 0%nat; rewrite drop_0|].
  destruct (positional_value _ _) as [v|]; [|done]. cbn [sbind] in H. apply IH in H as (k & ->). exists (n + k)%nat. by rewrite drop_drop.
Qed.

Lemma from_option_length l : (length (from_option l) <= length l)%nat.
Proof. induction l as [|x l IH]; [done|]. cbn. destruct (is_option _); cbn; lia. Qed.

Lemma consume_optional_length c rest st st' l' : consume_optional c rest st = inl (st', l') -> (length l' <= length rest)%nat.
Proof.
  unfold consume_optional, no_argument, take_option. intros H.
  repeat (case_match; simplify_eq; cbn [sbind length] in *; simplify_eq; try done; try lia).
Qed.

Lemma consume_optional_answers c rest st : consume_optional c rest st <> inr (Escapes OutOfFuel).
Proof.
  assert (forall t text, no_argument (A := progress * list (str * arg_class)) t text <> inr (Escapes OutOfFuel)) as Hn.
  { intros t text. unfold no_argument. destruct t as [[|]|]; [|done..]. destruct (s2l text) as [|b l]; [done|].
    enough (forall l, help_letters l <> inr (Escapes OutOfFuel)) as Hh.
    { specialize (Hh (b :: l)). destruct (help_letters (b :: l)); [done|]. intros [= ->]. by apply Hh. }
    clear. induction l as [|b l IH]; [done|]. cbn. by destruct (b2z b =? 104). }
  unfold consume_optional, take_option. repeat (case_match; simplify_eq; cbn [sbind] in *; try done; try apply Hn).
Qed.

Lemma take_positionals_answers counts st l : take_positionals counts st l <> inr (Escapes OutOfFuel).
Proof.
  revert st l. induction counts as [|n counts IH]; intros st l; cbn [take_positionals]; [done|]. destruct (left st) as [|q ps]; [done|].
  unfold positional_value. destruct (p_nargs q); [|apply IH..]. destruct (drop_dashes _) as [|? [|]]; [done|apply IH|done].
Qed.

Lemma parse_loop_answers fuel st l : (length l < fuel)%nat -> parse_loop fuel st l <> inr (Escapes OutOfFuel).
Proof.
  revert st l. induction fuel as [|fuel IH]; intros st l Hf; [lia|]. cbn [parse_loop].
  assert (consume_positionals st l <> inr (Escapes OutOfFuel)) as Hp by apply take_positionals_answers.
  destruct (existsb _ l); [|apply sbind_answers; [done|]; by intros [st' l']].
  destruct l as [|[s c] rest]; [done|]. cbn [length] in Hf. destruct (is_option c) eqn:Ec.
  - apply sbind_answers; [apply consume_optional_answers|]. intros [st' l'] E. apply consume_optional_length in E. apply IH. lia.
  - apply sbind_answers; [done|]. intros [st' l'] E. apply take_positionals_drops in E as [[|k] ->].
    + rewrite drop_0, decide_False by lia. apply IH. cbn [from_option snd]. rewrite Ec. pose proof (from_option_length rest). lia.
    + cbn [drop length]. rewrite length_drop, decide_True by lia. apply IH. rewrite length_drop. lia.
Qed.

Lemma classify_length p args l : classify p args = inl l -> length l = length args.
Proof.
  revert l. induction args as [|a args IH]; intros l H; cbn [classify] in H; [by simplify_eq|].
  destruct (decide (a = "--")); [simplify_eq; cbn; by rewrite length_fmap|]. destruct (_parse_optional p a); [|done]. cbn [sbind] in H.
  destruct (classify p args); [|done]. cbn [sbind] in H. simplify_eq. cbn. by rewrite IH.
Qed.

Lemma classify_answers p args : classify p args <> inr (Escapes OutOfFuel).
Proof.
  induction args as [|a args IH]; [done|]. cbn [classify]. destruct (decide (a = "--")); [done|].
  apply sbind_answers; [|intros c _; by apply sbind_answers].
  unfold _parse_optional, usage_error. intros E. repeat (case_match; simplify_eq; try done).
Qed.

(** Every command line gets an answer. *)
Lemma parse_args_answers p argv : parse_args p argv <> inr (Escapes OutOfFuel).
Proof.
  apply sbind_answers; [apply classify_answers|]. intros l E. apply sbind_answers; [|intros st _; by repeat case_match].
  apply parse_loop_answers. rewrite (classify_length _ _ _ E). lia.
Qed.

(** * Printing a command line *)

(** A text for each option of a parser that is given. *)
Definition given_line (os : list option_spec) (ts : list (option str)) : list str :=
  omap (fun ot : option_spec * option str => option_text ot.1 <$> ot.2) (zip os ts).

(** What the option's value is then. *)
Definition reads (o : option_spec) (t : option str) (v : value) : Prop :=
  match t with
  | None => o_required o = false /\ v = o_default o
  | Some s => match o_type o with Some conv => s <> "--" /\ conv s = Some v | None => v = VBool true end
  end.

Definition dests_ok (p : parser) : bool := bool_decide (NoDup (dkeys (defaults p))).

Lemma with_values_other k vs n : k ∉ vs.*1 -> dget k (with_values vs n) = dget k n.
Proof.
  revert n. induction vs as [|[k' v'] vs IH]; intros n Hk; [done|]. change (with_values ((k', v') :: vs) n) with (with_values vs (dset k' v' n)).
  rewrite fmap_cons in Hk. rewrite IH by set_solver. apply dget_dset_ne. set_solver.
Qed.
Lemma with_values_in k v vs n : NoDup vs.*1 -> (k, v) ∈ vs -> dget k (with_values vs n) = Some v.
Proof.
  revert n. induction vs as [|[k' v'] vs IH]; intros n Hn Hk; [by apply elem_of_nil in Hk|].
  change (with_values ((k', v') :: vs) n) with (with_values vs (dset k' v' n)).
  rewrite fmap_cons in Hn. apply NoDup_cons in Hn as [Hk' Hn]. apply elem_of_cons in Hk as [[= -> ->]|Hk]; [|by apply IH].
  rewrite with_values_other by done. apply dget_dset_eq.
Qed.

Lemma words_dests ps ws vs : words_give ps ws vs -> vs.*1 = p_dest <$> ps.
Proof. induction 1; [done|cbn; by f_equal|done..]. Qed.

Section printing.
Context (p : parser) (Hp : parser_ok p = true) (Hd : dests_ok p = true).

Definition dest_of (a : option_spec * str * value) : str * value := (o_dest a.1.1, a.2).

(** The options given, and where the others stand. *)
Record covers (os : list option_spec) (ts : list (option str)) (vs : list value) (sets : list (option_spec * str * value)) : Prop := {
  cv_line : (fun a => option_text a.1.1 a.1.2) <$> sets = given_line os ts;
  cv_sets : Forall (sets_option p) sets;
  cv_required : forall o, o ∈ os -> o_required o = true -> exists a, a ∈ sets /\ o_name a.1.1 = o_name o;
  cv_nodup : NoDup (dest_of <$> sets).*1;
  cv_among : (dest_of <$> sets).*1 ⊆ o_dest <$> os;
  cv_values : forall o v, (o, v) ∈ zip os vs -> (o_dest o, v) ∈ dest_of <$> sets \/ (o_dest o ∉ (dest_of <$> sets).*1 /\ v = o_default o) }.

Lemma reads_covers os ts vs : os ⊆ options p -> NoDup (o_dest <$> os) -> Forall3 reads os ts vs -> exists sets, covers os ts vs sets.
Proof.
  intros Hos Hn Hr. induction Hr as [|o t v os ts vs H Hr IH]; [exists []; split; try done; set_solver|].
  rewrite fmap_cons in Hn. apply NoDup_cons in Hn as [Ho Hn]. destruct IH as (sets & [Hl Hs Hq Hu Ha Hv]); [set_solver|done|].
  assert (o_dest o ∉ (dest_of <$> sets).*1) as Hx by (intros Hi; by apply Ho, Ha).
  assert (forall o' v', (o', v') ∈ zip os vs -> o_dest o' <> o_dest o) as Hne.
  { intros o' v' Hz%elem_of_zip_l E. apply Ho. rewrite <- E. by apply list_elem_of_fmap_2. }
  destruct t as [s|].
  - exists ((o, s, v) :: sets). split.
    + rewrite fmap_cons. unfold given_line in *. cbn. by rewrite Hl.
    + constructor; [|done]. split; [set_solver|exact H].
    + intros o' [->|Ho']%elem_of_cons Hreq; [exists (o, s, v); split; [left|done]|]. destruct (Hq o' Ho' Hreq) as (a & Ha' & E).
      exists a. split; [by right|done].
    + cbn. by constructor.
    + intros x [->|Hx']%elem_of_cons; [left|right; by apply Ha].
    + intros o' v' [[= -> ->]|Hz]%elem_of_cons; [left; left|]. destruct (Hv _ _ Hz) as [Hi|[Hi ->]]; [left; by right|right]. split; [|done].
      cbn. apply not_elem_of_cons. split; [by eapply Hne|done].
  - destruct H as [Hreq ->]. exists sets. split; try done.
    + intros o' [->|Ho']%elem_of_cons Hreq'; [congruence|by apply Hq].
    + intros x Hx'. right. by apply Ha.
    + intros o' v' [[= -> ->]|Hz]%elem_of_cons; [by right|by apply Hv].
Qed.

(** The options that are given have what is read of their texts, the others their
    defaults, and the positionals their words. *)
Lemma line_reads ts vs ws wvs : Forall3 reads (options p) ts vs -> words_give (positionals p) ws wvs ->
  exists n, parse_args p (given_line (options p) ts ++ ws) = inl n /\
    Forall2 (fun o v => dget (o_dest o) n = Some v) (options p) vs /\ Forall (fun kv => dget kv.1 n = Some kv.2) wvs.
Proof.
  intros Hr Hw. pose proof (words_dests _ _ _ Hw) as Hwd. pose proof Hd as Hkeys. apply bool_decide_eq_true in Hkeys. pose proof Hkeys as Hn.
  unfold dkeys, defaults in Hn. rewrite fmap_app, <- !list_fmap_compose in Hn. apply NoDup_app in Hn as (Ho & Hop & Hpos).
  destruct (reads_covers _ _ _ (reflexivity _) Ho Hr) as (sets & [Hl Hs Hq Hu Ha Hv]). rewrite <- Hl.
  eexists. split; [by apply parse_args_given|]. change ((fun a => (o_dest a.1.1, a.2)) <$> sets) with (dest_of <$> sets).
  assert (NoDup ((dest_of <$> sets) ++ wvs).*1) as Hall.
  { rewrite fmap_app. apply NoDup_app. split; [done|]. rewrite Hwd. split; [intros x Hx; apply Hop; by apply Ha|done]. }
  split.
  - apply Forall2_same_length_lookup. split; [by eapply Forall3_length_lr|]. intros i o v Hio Hiv.
    assert ((o, v) ∈ zip (options p) vs) as Hz by (apply list_elem_of_lookup; exists i; apply lookup_zip_with_Some; eauto).
    destruct (Hv _ _ Hz) as [Hi|[Hi ->]].
    + apply with_values_in; [done|]. apply elem_of_app. by left.
    + rewrite with_values_other.
      * apply elem_dget; [done|]. unfold defaults. apply elem_of_app. left. apply list_elem_of_fmap. exists o. split; [done|].
        by eapply list_elem_of_lookup_2.
      * rewrite fmap_app, elem_of_app, Hwd. intros [Hx|Hx]; [done|]. apply (Hop (o_dest o)); [|done].
        apply list_elem_of_fmap. exists o. split; [done|]. by eapply list_elem_of_lookup_2.
  - apply Forall_forall. intros [k v] Hkv. apply with_values_in; [done|]. apply elem_of_app. by right.
Qed.
End printing.
