(* ===== verification/Cli.v ===== *)
(** The command lines of the programs: [python -m jnxfeed] and its subcommands,
    [python -m jnxfeed.sim], [python -m jnxfeed.cli.fixtures], [python -m jnxweb] and
    tools/.

    Each program has its parser as a table, and the function from a command line to what
    the program then runs ([command]), with the argument records of the files that model
    it.  Times on the command line are seconds, in the models milliseconds: an argument
    the models cannot say (a time between two milliseconds, a negative depth) is
    [OffModel].  The group of options that name a message source is shared, as in
    sources.py. *)
From S2P Require Import Exchange GatewayMain CaptureNet Probe ViewsMain Spy WsProbe E2eRun.
From S2P Require Export PyArgs.

#[global] Set Default Goal Selector "!".

(** * Reading the namespace *)

Definition as_str (v : value) : option str := match v with VStr s => Some s | _ => None end.
Definition as_int (v : value) : option Z := match v with VInt z => Some z | _ => None end.
Definition as_bool (v : value) : option bool := match v with VBool b => Some b | _ => None end.
Definition as_list (v : value) : option (list str) := match v with VList l => Some l | _ => None end.
Definition as_float (v : value) : option py_float := match v with VFloat x => Some x | _ => None end.
Definition or_none {A} (as_a : value -> option A) (v : value) : option (option A) := match v with VNone => Some None | _ => Some <$> as_a v end.

(** Seconds as whole milliseconds. *)
Definition whole_ms (x : py_float) : option Z :=
  match x with
  | Decimal m e =>
      if 0 <=? e + 3 then Some (m * 10 ^ (e + 3))
      else if m mod 10 ^ (- (e + 3)) =? 0 then Some (m / 10 ^ (- (e + 3))) else None
  | _ => None
  end.
Definition as_ms (v : value) : option Z := as_float v ≫= whole_ms.
Definition rational (x : py_float) : option Q :=
  match x with Decimal m e => Some (if 0 <=? e then inject_Z (m * 10 ^ e) else (m # Z.to_pos (10 ^ (- e)))%Q) | _ => None end.
Definition as_nat (v : value) : option nat := z ← as_int v; if 0 <=? z then Some (Z.to_nat z) else None.

Definition arg {A} (as_a : value -> option A) (key : str) (n : namespace) : option A := dget key n ≫= as_a.

(** * Options *)

Definition string (name dest : str) (d : value) : option_spec := mkOption name dest (Some str_arg) d false.
Definition integer (name dest : str) (d : value) : option_spec := mkOption name dest (Some int_arg) d false.
Definition seconds (name dest : str) (d : value) : option_spec := mkOption name dest (Some float_arg) d false.
Definition flag (name dest : str) : option_spec := mkOption name dest None (VBool false) false.
Definition required (o : option_spec) : option_spec := mkOption (o_name o) (o_dest o) (o_type o) (o_default o) true.

(** * What a program runs *)

Record sim_args : Type := mkSimArgs {
  si_itch_file : str; si_itch_port : Z; si_glimpse_port : Z; si_user : str; si_password : str; si_session : str;
  si_speed : speed_spec; si_glimpse_cut : cut_spec; si_drop_after : option Z }.

Inductive command : Type :=
| RunProbe (host : str) (port : Z) (a : probe_args) (report : option str)
| RunCapture (host : str) (port : Z) (o : client_args) (a : cap_args)
| RunStatic (a : source_args) (csv : bool) (master : option str)
| RunTail (a : source_args) (t : tail_args)
| RunBook (a : source_args) (sicc : str) (depth : nat) (trades interval : Z)
| RunStats (a : source_args) (interval : Z)
| RunSim (a : sim_args)
| RunFixtures (specs_dir fixtures_dir : str) (slice_count : Z)
| RunGateway (a : gateway_args)
| RunDbquery (host : str) (port : Z) (words : list str)
| RunCompare (host : str) (port : Z) (dump_dir : str)
| RunSpy (group : str) (port : Z) (iface : str) (a : spy_args)
| RunWsProbe (a : ws_args)
| RunGolden (check verify : bool)
| RunLint (files : list str) | RunSelftest
| RunE2e (a : e2e_args)
| RunDump (itch_path outdir : str).

Inductive outcome : Type := Runs (c : command) | Exits (code : Z) | Fails (e : exn) | OffModel.

(** [views._parse_or_usage], and the [try] of the other subcommands: the program that is
    not given its arguments exits with argparse's code.  Where nobody catches [SystemExit]
    the process exits with the same code. *)
Definition _parse_or_usage (p : parser) (to_run : namespace -> option command) (argv : list str) : outcome :=
  match parse_args p argv with
  | inl n => match to_run n with Some c => Runs c | None => OffModel end
  | inr (SystemExit code) => Exits code
  | inr (Escapes e) => Fails e
  end.

(** * python -m jnxfeed *)

Definition probe_parser : parser := mkParser [
  required (string "--host" "host" VNone); required (integer "--port" "port" VNone); required (string "--user" "user" VNone);
  required (string "--pass" "password" VNone); integer "--seq" "seq" (VInt 1); string "--session" "session" (VStr "");
  flag "--glimpse" "glimpse"; integer "--messages" "messages" (VInt 10); seconds "--timeout" "timeout" (VFloat (Decimal 100 (-1)));
  string "--report" "report" VNone] [].

Definition probe_command (n : namespace) : option command :=
  host ← arg as_str "host" n; port ← arg as_int "port" n; user ← arg as_str "user" n; password ← arg as_str "password" n;
  seq ← arg as_int "seq" n; session ← arg as_str "session" n; glimpse ← arg as_bool "glimpse" n; messages ← arg as_int "messages" n;
  timeout ← arg as_ms "timeout" n; report ← arg (or_none as_str) "report" n;
  Some (RunProbe host port (mkProbeArgs user password seq session glimpse messages timeout) report).

Definition capture_parser : parser := mkParser [
  required (string "--host" "host" VNone); required (integer "--port" "port" VNone); required (string "--user" "user" VNone);
  required (string "--pass" "password" VNone); required (string "--out" "out" VNone); integer "--seq" "seq" VNone;
  string "--session" "session" (VStr ""); seconds "--timeout" "timeout" (VFloat (Decimal 100 (-1)));
  seconds "--idle-timeout" "idle_timeout" (VFloat (Decimal DEFAULT_SILENCE_TIMEOUT (-3))); integer "--retries" "retries" (VInt 5);
  seconds "--retry-delay" "retry_delay" (VFloat (Decimal 10 (-1))); integer "--max-messages" "max_messages" VNone] [].

Definition capture_command (n : namespace) : option command :=
  host ← arg as_str "host" n; port ← arg as_int "port" n; user ← arg as_str "user" n; password ← arg as_str "password" n;
  out ← arg as_str "out" n; seq ← arg (or_none as_int) "seq" n; session ← arg as_str "session" n; timeout ← arg as_ms "timeout" n;
  idle ← arg as_ms "idle_timeout" n; retries ← arg as_int "retries" n; delay ← arg as_ms "retry_delay" n;
  max ← arg (or_none as_int) "max_messages" n;
  Some (RunCapture host port (mkClientArgs user password timeout idle) (Capture.mkArgs out seq session retries delay max)).

Definition add_source_arguments : list option_spec := [
  string "--itch-file" "itch_file" VNone; string "--pcap" "pcap" VNone; string "--host" "host" VNone; integer "--port" "port" VNone;
  string "--user" "user" VNone; string "--pass" "password" VNone; string "--glimpse-host" "glimpse_host" VNone;
  integer "--glimpse-port" "glimpse_port" VNone; integer "--seq" "seq" (VInt 1)].

Definition source_args_of (n : namespace) : option source_args :=
  itch_file ← arg (or_none as_str) "itch_file" n; pcap ← arg (or_none as_str) "pcap" n; host ← arg (or_none as_str) "host" n;
  port ← arg (or_none as_int) "port" n; user ← arg (or_none as_str) "user" n; password ← arg (or_none as_str) "password" n;
  glimpse_host ← arg (or_none as_str) "glimpse_host" n; glimpse_port ← arg (or_none as_int) "glimpse_port" n; seq ← arg as_int "seq" n;
  Some (mkSourceArgs itch_file pcap host port user password glimpse_host glimpse_port seq).

Definition static_parser : parser := mkParser (add_source_arguments ++ [flag "--csv" "csv"; string "--master" "master" VNone]) [].
Definition static_command (n : namespace) : option command :=
  a ← source_args_of n; csv ← arg as_bool "csv" n; master ← arg (or_none as_str) "master" n; Some (RunStatic a csv master).

Definition tail_parser : parser :=
  mkParser (add_source_arguments ++ [string "--types" "types" VNone; string "--book" "book" VNone; integer "--limit" "limit" VNone]) [].
Definition tail_command (n : namespace) : option command :=
  a ← source_args_of n; types ← arg (or_none as_str) "types" n; book ← arg (or_none as_str) "book" n;
  limit ← arg (or_none as_int) "limit" n; Some (RunTail a (mkTailArgs types book limit)).

Definition book_parser : parser := mkParser
  (add_source_arguments ++ [integer "--depth" "depth" (VInt 5); integer "--trades" "trades" (VInt 5); seconds "--interval" "interval" (VFloat (Decimal 5 (-1)))])
  [mkPositional "sicc" One].
Definition book_command (n : namespace) : option command :=
  a ← source_args_of n; sicc ← arg as_str "sicc" n; depth ← arg as_nat "depth" n; trades ← arg as_int "trades" n;
  interval ← arg as_ms "interval" n; Some (RunBook a sicc depth trades interval).

Definition stats_parser : parser := mkParser (add_source_arguments ++ [seconds "--interval" "interval" (VFloat (Decimal 10 (-1)))]) [].
Definition stats_command (n : namespace) : option command :=
  a ← source_args_of n; interval ← arg as_ms "interval" n; Some (RunStats a interval).

Definition main_probe : list str -> outcome := _parse_or_usage probe_parser probe_command.
Definition main_capture : list str -> outcome := _parse_or_usage capture_parser capture_command.
Definition main_static_line : list str -> outcome := _parse_or_usage static_parser static_command.
Definition main_tail_line : list str -> outcome := _parse_or_usage tail_parser tail_command.
Definition main_book_line : list str -> outcome := _parse_or_usage book_parser book_command.
Definition main_stats_line : list str -> outcome := _parse_or_usage stats_parser stats_command.

(** The usage text goes to the standard error in either case. *)
Definition jnxfeed_main (argv : list str) : outcome :=
  match argv with
  | [] => Exits 2
  | cmd :: rest =>
      if bool_decide (cmd = "-h") || bool_decide (cmd = "--help") then Exits 0
      else if decide (cmd = "probe") then main_probe rest
      else if decide (cmd = "capture") then main_capture rest
      else if decide (cmd = "static") then main_static_line rest
      else if decide (cmd = "tail") then main_tail_line rest
      else if decide (cmd = "book") then main_book_line rest
      else if decide (cmd = "stats") then main_stats_line rest
      else Exits 2
  end.

(** * python -m jnxfeed.sim *)

(** [SPEED_MAX] is None. *)
Definition parse_speed (text : str) : option value :=
  if decide (text = "max") then Some VNone
  else if decide (text = "realtime") then Some (VStr "realtime")
  else float_arg text.

(** A rate as the simulator keeps it: whole milliseconds from message to message. *)
Definition as_speed (v : value) : option speed_spec :=
  match v with
  | VNone => Some SPEED_MAX
  | VStr s => if decide (s = "realtime") then Some SPEED_REALTIME else None
  | VFloat x =>
      q ← rational x;
      let rate := Qnum q in
      if (0 <? rate) && ((1000 * Z.pos (Qden q)) mod rate =? 0) then Some (SPEED_RATE (1000 * Z.pos (Qden q) / rate)) else None
  | _ => None
  end.
(** A cut point that is no fraction below one is cut off to a count. *)
Definition as_cut (v : value) : option cut_spec :=
  x ← as_float v; q ← rational x;
  if Qnum q <? 0 then None
  else Some (if Qnum q <? Z.pos (Qden q) then CutFraction (Z.to_nat (Qnum q)) (Pos.to_nat (Qden q)) else CutInt (Z.to_nat (Qnum q / Z.pos (Qden q)))).

Definition sim_parser : parser := mkParser [
  required (string "--itch-file" "itch_file" VNone); integer "--itch-port" "itch_port" (VInt 15001);
  integer "--glimpse-port" "glimpse_port" (VInt 15002); string "--user" "user" (VStr "TEST"); string "--pass" "password" (VStr "SECRET");
  string "--session" "session" (VStr "SIM0000001"); mkOption "--speed" "speed" (Some parse_speed) VNone false;
  seconds "--glimpse-cut" "glimpse_cut" (VFloat (Decimal 5 (-1))); integer "--drop-after" "drop_after" VNone] [].
Definition sim_command (n : namespace) : option command :=
  itch_file ← arg as_str "itch_file" n; itch_port ← arg as_int "itch_port" n; glimpse_port ← arg as_int "glimpse_port" n;
  user ← arg as_str "user" n; password ← arg as_str "password" n; session ← arg as_str "session" n; speed ← arg as_speed "speed" n;
  cut ← arg as_cut "glimpse_cut" n; drop_after ← arg (or_none as_int) "drop_after" n;
  Some (RunSim (mkSimArgs itch_file itch_port glimpse_port user password session speed cut drop_after)).
Definition sim_main : list str -> outcome := _parse_or_usage sim_parser sim_command.

(** * python -m jnxfeed.cli.fixtures *)

(** The second default is relative to the repository. *)
Definition DEFAULT_SPECS_DIR : str := "/workspace/jnx-specs".
Definition DEFAULT_FIXTURES_DIR : str := path_join "tests" "fixtures".

Definition fixtures_parser : parser := mkParser [
  string "--specs-dir" "specs_dir" (VStr DEFAULT_SPECS_DIR); string "--fixtures-dir" "fixtures_dir" (VStr DEFAULT_FIXTURES_DIR);
  integer "--slice-count" "slice_count" (VInt DEFAULT_SLICE_COUNT)] [].
Definition fixtures_command (n : namespace) : option command :=
  specs ← arg as_str "specs_dir" n; fixtures ← arg as_str "fixtures_dir" n; slice ← arg as_int "slice_count" n;
  Some (RunFixtures specs fixtures slice).
Definition fixtures_line : list str -> outcome := _parse_or_usage fixtures_parser fixtures_command.

(** * python -m jnxweb *)

Definition parse_mcast_arg (text : str) : option value :=
  let '(group, _, port_str) := rpartition_b (z2b 58) (s2l text) in
  match group, port_str with
  | [], _ | _, [] => None
  | _, _ => match py_int (l2s port_str) with Ok port => Some (VAddr (l2s group) port) | Raise _ => None end
  end.

Definition build_arg_parser : parser := mkParser [
  mkOption "--mcast" "mcast" (Some parse_mcast_arg) (VAddr "239.192.1.1" 26400) false; integer "--http-port" "http_port" (VInt 8080);
  string "--http-host" "http_host" (VStr "0.0.0.0"); string "--mcast-if" "mcast_if" (VStr "127.0.0.1");
  string "--test-feed" "test_feed" VNone; string "--db-query-host" "db_query_host" (VStr "127.0.0.1");
  integer "--db-query-port" "db_query_port" (VInt 26401)] [].

Definition as_addr (v : value) : option (str * Z) := match v with VAddr h p => Some (h, p) | _ => None end.
(** Port 0 switches the database queries off. *)
Definition gateway_command (n : namespace) : option command :=
  mcast ← arg as_addr "mcast" n; port ← arg as_int "http_port" n; host ← arg as_str "http_host" n; iface ← arg as_str "mcast_if" n;
  test_feed ← arg (or_none as_str) "test_feed" n; db_host ← arg as_str "db_query_host" n; db_port ← arg as_int "db_query_port" n;
  Some (RunGateway (mkGatewayArgs mcast host port iface test_feed (if db_port =? 0 then None else Some (db_host, db_port)))).
Definition gateway_main : list str -> outcome := _parse_or_usage build_arg_parser gateway_command.

(** * tools/ *)

Definition dbquery_parser : parser :=
  mkParser [string "--host" "host" (VStr "127.0.0.1"); integer "--port" "port" (VInt 26401)] [mkPositional "words" Plus].
Definition dbquery_command (n : namespace) : option command :=
  host ← arg as_str "host" n; port ← arg as_int "port" n; words ← arg as_list "words" n; Some (RunDbquery host port words).
Definition dbquery_line : list str -> outcome := _parse_or_usage dbquery_parser dbquery_command.

Definition compare_parser : parser :=
  mkParser [string "--host" "host" (VStr "127.0.0.1"); integer "--port" "port" (VInt 26401)] [mkPositional "dump_dir" One].
Definition compare_command (n : namespace) : option command :=
  host ← arg as_str "host" n; port ← arg as_int "port" n; dir ← arg as_str "dump_dir" n; Some (RunCompare host port dir).
Definition compare_line : list str -> outcome := _parse_or_usage compare_parser compare_command.

Definition spy_parser : parser := mkParser [
  string "--group" "group" (VStr "239.192.1.1"); integer "--port" "port" (VInt 26400); string "--iface" "iface" (VStr "127.0.0.1");
  flag "--stats" "stats"; seconds "--until-idle" "until_idle" VNone; seconds "--max-wait" "max_wait" (VFloat (Decimal 600 (-1)))] [].
Definition spy_command (n : namespace) : option command :=
  group ← arg as_str "group" n; port ← arg as_int "port" n; iface ← arg as_str "iface" n; stats ← arg as_bool "stats" n;
  idle ← arg (or_none as_ms) "until_idle" n; wait ← arg as_ms "max_wait" n; Some (RunSpy group port iface (mkSpyArgs stats idle wait)).
Definition spy_line_main : list str -> outcome := _parse_or_usage spy_parser spy_command.

Definition ws_parser : parser := mkParser
  [integer "--frames" "frames" (VInt 5); seconds "--timeout" "timeout" (VFloat (Decimal 150 (-1))); string "--path" "path" (VStr "/ws")]
  [mkPositional "hostport" One; mkPositional "ticker" One].
Definition ws_command (n : namespace) : option command :=
  hostport ← arg as_str "hostport" n; ticker ← arg as_str "ticker" n; frames ← arg as_int "frames" n; timeout ← arg as_ms "timeout" n;
  path ← arg as_str "path" n; Some (RunWsProbe (mkWsArgs hostport ticker frames timeout path)).
Definition ws_line : list str -> outcome := _parse_or_usage ws_parser ws_command.

Definition golden_parser : parser := mkParser [flag "--check" "check"; flag "--verify" "verify"] [].
Definition golden_command (n : namespace) : option command :=
  check ← arg as_bool "check" n; verify ← arg as_bool "verify" n; Some (RunGolden check verify).
Definition golden_line : list str -> outcome := _parse_or_usage golden_parser golden_command.

Definition py36_parser : parser := mkParser [flag "--selftest" "selftest"] [mkPositional "files" Star].
Definition py36_command (n : namespace) : option command :=
  files ← arg as_list "files" n; selftest ← arg as_bool "selftest" n; Some (if selftest : bool then RunSelftest else RunLint files).
Definition py36_line (argv : list str) : outcome :=
  match _parse_or_usage py36_parser py36_command argv with
  | Runs (RunLint []) => Exits 2                   (* parser.error *)
  | o => o
  end.

Definition SCENARIOS : list (str * scenario) := [
  ("baseline", Baseline); ("kill_fh", KillFh); ("kill_db", KillDb); ("drop_exchange", DropExchange); ("glimpse_cold", GlimpseCold);
  ("kill_both", KillBoth); ("soak", Soak)].
Definition e2e_parser : parser := mkParser [
  mkOption "--scenario" "scenario" (Some (choice_arg SCENARIOS.*1)) VNone true; string "--fixture" "fixture" VNone;
  string "--out" "out" VNone; flag "--paced" "paced"; seconds "--speed" "speed" (VFloat (Decimal 3000 (-1)));
  seconds "--minutes" "minutes" (VFloat (Decimal 300 (-1))); seconds "--poll-interval" "poll_interval" (VFloat (Decimal 150 (-1)))] [].
(** [float_text]: [str] of a float. *)
Definition e2e_command (float_text : py_float -> str) (n : namespace) : option command :=
  scenario ← arg as_str "scenario" n; scenario ← dget scenario SCENARIOS; fixture ← arg (or_none as_str) "fixture" n;
  out ← arg (or_none as_str) "out" n; paced ← arg as_bool "paced" n; speed ← arg as_float "speed" n; rate ← rational speed;
  minutes ← arg as_float "minutes" n ≫= rational; poll ← arg as_ms "poll_interval" n;
  Some (RunE2e (E2eRun.mkArgs scenario fixture out paced rate (float_text speed) minutes poll)).
Definition e2e_line (float_text : py_float -> str) : list str -> outcome := _parse_or_usage e2e_parser (e2e_command float_text).

(** proto_state_dump.py counts its arguments itself; the first is its own name. *)
Definition dump_line (argv : list str) : outcome := match argv with [_; itch_path; outdir] => Runs (RunDump itch_path outdir) | _ => Exits 2 end.

(** * Examples *)

Example probe_line : main_probe ["--host"; "h"; "--port=15001"; "--user"; "u"; "--pass"; "p"; "--mess=3"; "--timeout"; "2.5"] =
  Runs (RunProbe "h" 15001 (mkProbeArgs "u" "p" 1 "" false 3 2500) None).
Proof. by vm_compute. Qed.
(** [--p] may be [--port] or [--pass]. *)
Example ambiguous_line : main_probe ["--host"; "h"; "--p=15001"; "--user"; "u"; "--pass"; "p"] = Exits 2.
Proof. by vm_compute. Qed.
Example book_line : jnxfeed_main ["book"; "1570"; "--itch-file"; "day.itch"; "--depth"; "3"] =
  Runs (RunBook (mkSourceArgs (Some "day.itch") None None None None None None None 1) "1570" 3 5 500).
Proof. by vm_compute. Qed.
Example negative_line : jnxfeed_main ["stats"; "--itch-file=day.itch"; "--seq"; "-5"] =
  Runs (RunStats (mkSourceArgs (Some "day.itch") None None None None None None None (-5)) 1000).
Proof. by vm_compute. Qed.
Example missing_line : main_capture ["--host"; "h"] = Exits 2.
Proof. by vm_compute. Qed.
Example sim_line : sim_main ["--itch-file=f"; "--speed=50"; "--glimpse-cut"; "7"] =
  Runs (RunSim (mkSimArgs "f" 15001 15002 "TEST" "SECRET" "SIM0000001" (SPEED_RATE 20) (CutInt 7) None)).
Proof. by vm_compute. Qed.
Example gateway_line : gateway_main ["--mcast"; "239.0.0.1:9"; "--db-query-port=0"] =
  Runs (RunGateway (mkGatewayArgs ("239.0.0.1", 9) "0.0.0.0" 8080 "127.0.0.1" None None)).
Proof. by vm_compute. Qed.
Example words_line : dbquery_line ["GET"; "8306"; "--port"; "7"] = Runs (RunDbquery "127.0.0.1" 7 ["GET"; "8306"]).
Proof. by vm_compute. Qed.
Example help_line : py36_line ["-h"; "--nonsense"] = Exits 0.
Proof. by vm_compute. Qed.
Example dashes_line : dbquery_line ["--"; "-x"; "--host"] = Runs (RunDbquery "127.0.0.1" 26401 ["-x"; "--host"]).
Proof. by vm_compute. Qed.
(** argparse 3.6 takes the dashes out of an option's argument and has none left. *)
Example dashes_escape : main_probe ["--host=--"] = Fails ValueError.
Proof. by vm_compute. Qed.

(** * Asking for a command *)

(** The texts of the options, in the order of the parser's table; a flag has the empty one. *)
Definition flag_text (b : bool) : option str := if b then Some "" else None.
Definition source_texts (a : source_args) : list (option str) := [
  s_itch_file a; s_pcap a; s_host a; py_str <$> s_port a; s_user a; s_password a; s_glimpse_host a; py_str <$> s_glimpse_port a;
  Some (py_str (s_seq a))].
(** The exponent of the power of ten [d]. *)
Definition tens (d : Z) : nat := pred (length (dec_bytes d)).
Definition q_text (q : Q) : str := exp_text (Qnum q) (tens (Z.pos (Qden q))).
(** Digits enough for the rate of [d] milliseconds a message, when it has finitely many. *)
Definition rate_digits (d : Z) : nat := Z.to_nat (Z.log2 d).
Definition rate_num (d : Z) : Z := 1000 * 10 ^ Z.of_nat (rate_digits d).
Definition speed_text (sp : speed_spec) : str :=
  match sp with SPEED_MAX => "max" | SPEED_REALTIME => "realtime" | SPEED_RATE d => exp_text (rate_num d / d) (rate_digits d) end.
Definition cut_text (c : cut_spec) : str := 
  match c with CutInt n => py_str (Z.of_nat n) | CutFraction a b => exp_text (Z.of_nat a) (tens (Z.of_nat b)) | CutNone => "0.5" end.
Definition scenario_text (sc : scenario) : str :=
  match sc with
  | Baseline => "baseline" | KillFh => "kill_fh" | KillDb => "kill_db" | DropExchange => "drop_exchange" | GlimpseCold => "glimpse_cold"
  | KillBoth => "kill_both" | Soak => "soak"
  end.
Definition addr_text (a : str * Z) : str := a.1 +:+ ":" +:+ py_str a.2.

Definition option_texts (c : command) : list (option str) :=
  match c with
  | RunProbe host port a report => [
      Some host; Some (py_str port); Some (pa_user a); Some (pa_password a); Some (py_str (pa_seq a)); Some (pa_session a);
      flag_text (pa_glimpse a); Some (py_str (pa_messages a)); Some (ms_text (pa_timeout a)); report]
  | RunCapture host port o a => [
      Some host; Some (py_str port); Some (o_user o); Some (o_pass o); Some (Capture.a_out a); py_str <$> a_seq a; Some (a_session a);
      Some (ms_text (o_timeout o)); Some (ms_text (o_idle o)); Some (py_str (a_retries a)); Some (ms_text (a_retry_delay a));
      py_str <$> a_max_messages a]
  | RunStatic a csv master => source_texts a ++ [flag_text csv; master]
  | RunTail a t => source_texts a ++ [ta_types t; ta_book t; py_str <$> ta_limit t]
  | RunBook a _ depth trades interval => source_texts a ++ [Some (py_str (Z.of_nat depth)); Some (py_str trades); Some (ms_text interval)]
  | RunStats a interval => source_texts a ++ [Some (ms_text interval)]
  | RunSim a => [
      Some (si_itch_file a); Some (py_str (si_itch_port a)); Some (py_str (si_glimpse_port a)); Some (si_user a); Some (si_password a);
      Some (si_session a); Some (speed_text (si_speed a)); Some (cut_text (si_glimpse_cut a)); py_str <$> si_drop_after a]
  | RunFixtures specs fixtures slice => [Some specs; Some fixtures; Some (py_str slice)]
  | RunGateway a => [
      Some (addr_text (ga_mcast a)); Some (py_str (ga_http_port a)); Some (ga_http_host a); Some (ga_mcast_if a); ga_test_feed a;
      fst <$> ga_db a; Some (py_str (default 0 (snd <$> ga_db a)))]
  | RunDbquery host port _ => [Some host; Some (py_str port)]
  | RunCompare host port _ => [Some host; Some (py_str port)]
  | RunSpy group port iface a => [
      Some group; Some (py_str port); Some iface; flag_text (sa_stats a); ms_text <$> sa_until_idle a; Some (ms_text (sa_max_wait a))]
  | RunWsProbe a => [Some (py_str (wa_frames a)); Some (ms_text (wa_timeout a)); Some (wa_path a)]
  | RunGolden check verify => [flag_text check; flag_text verify]
  | RunLint _ => [None]
  | RunSelftest => [Some ""]
  | RunE2e a => [
      Some (scenario_text (a_scenario a)); a_fixture a; E2eRun.a_out a; flag_text (a_paced a); Some (q_text (a_speed a));
      Some (q_text (a_minutes a)); Some (ms_text (a_poll_interval a))]
  | RunDump _ _ => []
  end.

Definition words_of (c : command) : list str :=
  match c with
  | RunBook _ sicc _ _ _ => [sicc] | RunDbquery _ _ words => words | RunCompare _ _ dir => [dir]
  | RunWsProbe a => [wa_hostport a; wa_ticker a] | RunLint files => files | RunDump itch_path outdir => [itch_path; outdir] | _ => []
  end.

Definition parser_of (c : command) : parser :=
  match c with
  | RunProbe _ _ _ _ => probe_parser | RunCapture _ _ _ _ => capture_parser | RunStatic _ _ _ => static_parser | RunTail _ _ => tail_parser
  | RunBook _ _ _ _ _ => book_parser | RunStats _ _ => stats_parser | RunSim _ => sim_parser | RunFixtures _ _ _ => fixtures_parser
  | RunGateway _ => build_arg_parser | RunDbquery _ _ _ => dbquery_parser | RunCompare _ _ _ => compare_parser
  | RunSpy _ _ _ _ => spy_parser | RunWsProbe _ => ws_parser | RunGolden _ _ => golden_parser | RunLint _ => py36_parser
  | RunSelftest => py36_parser | RunE2e _ => e2e_parser | RunDump _ _ => mkParser [] []
  end.

(** The words before the options: the subcommand, or the program's own name. *)
Definition first_words (c : command) : list str :=
  match c with
  | RunProbe _ _ _ _ => ["probe"] | RunCapture _ _ _ _ => ["capture"] | RunStatic _ _ _ => ["static"] | RunTail _ _ => ["tail"]
  | RunBook _ _ _ _ _ => ["book"] | RunStats _ _ => ["stats"] | RunDump _ _ => ["proto_state_dump.py"] | _ => []
  end.
Definition command_line (c : command) : list str :=
  first_words c ++ given_line (options (parser_of c)) (option_texts c) ++ words_of c.

Definition program_of (float_text : py_float -> str) (c : command) : list str -> outcome :=
  match c with
  | RunProbe _ _ _ _ | RunCapture _ _ _ _ | RunStatic _ _ _ | RunTail _ _ | RunBook _ _ _ _ _ | RunStats _ _ => jnxfeed_main
  | RunSim _ => sim_main | RunFixtures _ _ _ => fixtures_line | RunGateway _ => gateway_main | RunDbquery _ _ _ => dbquery_line
  | RunCompare _ _ _ => compare_line | RunSpy _ _ _ _ => spy_line_main | RunWsProbe _ => ws_line | RunGolden _ _ => golden_line
  | RunLint _ | RunSelftest => py36_line | RunE2e _ => e2e_line float_text | RunDump _ _ => dump_line
  end.

(** The number has finitely many decimals; its denominator is the power of ten. *)
Definition decimal (q : Q) : Prop := Z.pos (Qden q) = 10 ^ Z.of_nat (tens (Z.pos (Qden q))).
(** A fraction below one, or a count; 0 is a fraction. *)
Definition cut_sayable (c : cut_spec) : Prop :=
  match c with
  | CutInt n => (1 <= n)%nat
  | CutFraction a b => (a < b)%nat /\ Z.of_nat b = 10 ^ Z.of_nat (tens (Z.of_nat b))
  | CutNone => False
  end.
Definition speed_sayable (sp : speed_spec) : Prop := match sp with SPEED_RATE d => 0 < d /\ rate_num d mod d = 0 | _ => True end.

(** The commands that can be asked for: no argument of an option is the bare [--], no
    word begins with a dash, and a number has finitely many decimals. *)
Definition sayable (float_text : py_float -> str) (c : command) : Prop :=
  match c with
  | RunSim a =>
      cut_sayable (si_glimpse_cut a) /\ speed_sayable (si_speed a)
  | RunGateway a => (ga_mcast a).1 <> "" /\ match ga_db a with Some (_, p) => p <> 0 | None => True end
  | RunDbquery _ _ words => words <> []
  | RunLint files => files <> []
  | RunE2e a =>
      decimal (a_speed a) /\ decimal (a_minutes a) /\
      a_speed_text a = float_text (Decimal (Qnum (a_speed a)) (- Z.of_nat (tens (Z.pos (Qden (a_speed a))))))
  | _ => True
  end.
Definition typable (float_text : py_float -> str) (c : command) : Prop :=
  Forall (fun t => t <> Some "--") (option_texts c) /\ Forall plain (words_of c) /\ sayable float_text c.

(** * Lemmas *)

Definition or_absent {A} (f : A -> value) (x : option A) : value := match x with Some a => f a | None => VNone end.

Section reading.
Context (name dest : str).

Lemma reads_string d s : Some s <> Some "--" -> reads (string name dest d) (Some s) (VStr s).
Proof. intros H. split; [congruence|done]. Qed.
Lemma reads_given o s v : reads o (Some s) v -> reads (required o) (Some s) v.
Proof. done. Qed.
Lemma reads_string_opt t : t <> Some "--" -> reads (string name dest VNone) t (or_absent VStr t).
Proof. destruct t as [s|]; [apply reads_string|done]. Qed.
Lemma reads_string_default h t : t <> Some "--" -> reads (string name dest (VStr h)) t (VStr (default h t)).
Proof. destruct t as [s|]; [apply reads_string|done]. Qed.
Lemma reads_integer d z : reads (integer name dest d) (Some (py_str z)) (VInt z).
Proof. split; [apply py_str_not_dashes|apply int_arg_str]. Qed.
Lemma reads_integer_opt z : reads (integer name dest VNone) (py_str <$> z) (or_absent VInt z).
Proof. destruct z; [apply reads_integer|done]. Qed.
Lemma reads_seconds d z : reads (seconds name dest d) (Some (ms_text z)) (VFloat (Decimal z (-3))).
Proof. split; [apply ms_text_not_dashes|apply float_arg_ms]. Qed.
Lemma reads_seconds_opt z : reads (seconds name dest VNone) (ms_text <$> z) (or_absent (fun z => VFloat (Decimal z (-3))) z).
Proof. destruct z; [apply reads_seconds|done]. Qed.
Lemma reads_rate d z : reads (seconds name dest d) (Some (py_str z)) (VFloat (Decimal z 0)).
Proof. split; [apply py_str_not_dashes|apply float_arg_int]. Qed.
Lemma reads_flag b : reads (flag name dest) (flag_text b) (VBool b).
Proof. by destruct b. Qed.
End reading.

Create HintDb cli discriminated.
#[export] Hint Resolve reads_string reads_string_default reads_given reads_string_opt reads_integer reads_integer_opt reads_seconds reads_seconds_opt reads_rate reads_flag : cli.

Lemma arg_is {A} (as_a : value -> option A) key n v x : dget key n = Some v -> as_a v = Some x -> arg as_a key n = Some x.
Proof. unfold arg. by intros ->. Qed.

Lemma as_ms_of z : as_ms (VFloat (Decimal z (-3))) = Some z.
Proof. cbn. by rewrite Z.mul_1_r. Qed.
Lemma as_nat_of n : as_nat (VInt (Z.of_nat n)) = Some n.
Proof. unfold as_nat. cbn. rewrite (proj2 (Z.leb_le _ _)) by lia. by rewrite Nat2Z.id. Qed.
Lemma or_none_of {A} (as_a : value -> option A) (f : A -> value) x :
  (forall a, as_a (f a) = Some a) -> (forall a, f a <> VNone) -> or_none as_a (or_absent f x) = Some x.
Proof. intros H Hn. destruct x as [a|]; [|done]. cbn. specialize (Hn a). unfold or_none. rewrite H. by destruct (f a). Qed.
Lemma or_none_str t : or_none as_str (or_absent VStr t) = Some t.
Proof. by apply or_none_of. Qed.
Lemma or_none_int t : or_none as_int (or_absent VInt t) = Some t.
Proof. by apply or_none_of. Qed.
Lemma or_none_ms t : or_none as_ms (or_absent (fun z => VFloat (Decimal z (-3))) t) = Some t.
Proof. apply or_none_of; [apply as_ms_of|done]. Qed.

(** A command is run if its texts read as values from which it is made. *)
Lemma runs_by p to_run ts vs ws wvs c : parser_ok p = true -> dests_ok p = true -> Forall3 reads (options p) ts vs ->
  words_give (positionals p) ws wvs ->
  (forall n, Forall2 (fun o v => dget (o_dest o) n = Some v) (options p) vs -> Forall (fun kv => dget kv.1 n = Some kv.2) wvs -> to_run n = Some c) ->
  _parse_or_usage p to_run (given_line (options p) ts ++ ws) = Runs c.
Proof.
  intros Hp Hd Hr Hw Hc. destruct (line_reads p Hp Hd ts vs ws wvs Hr Hw) as (n & E & Hn & Hwn). unfold _parse_or_usage. rewrite E.
  by rewrite Hc.
Qed.

Ltac invert_all := repeat match goal with
  | H : Forall _ (_ :: _) |- _ => apply Forall_cons in H as [? ?]
  | H : Forall2 _ (_ :: _) (_ :: _) |- _ => apply Forall2_cons in H as [? ?]
  | H : Forall _ [] |- _ => clear H
  | H : Forall2 _ [] [] |- _ => clear H
  end.
Ltac read_texts := repeat (apply Forall3_cons; [by eauto with cli|]); apply Forall3_nil.
(** ** The arguments that are not plain numbers or texts *)

Definition speed_value (sp : speed_spec) : value :=
  match sp with SPEED_MAX => VNone | SPEED_REALTIME => VStr "realtime" | SPEED_RATE d => VFloat (Decimal (rate_num d / d) (- Z.of_nat (rate_digits d))) end.

Lemma exp_text_ne z k w : float_arg w = None -> exp_text z k <> w.
Proof. intros Hw E. pose proof (float_arg_exp z k) as H. by rewrite E, Hw in H. Qed.

Lemma reads_speed sp name dest d : reads (mkOption name dest (Some parse_speed) d false) (Some (speed_text sp)) (speed_value sp).
Proof.
  destruct sp as [| |d']; [done..|]. split; [apply exp_text_not_dashes|]. cbn [speed_text speed_value]. unfold parse_speed.
  rewrite !decide_False by by apply exp_text_ne. apply float_arg_exp.
Qed.

Lemma ten_pos k : Z.pos (Z.to_pos (10 ^ Z.of_nat k)) = 10 ^ Z.of_nat k.
Proof. apply Z2Pos.id, Z.pow_pos_nonneg; lia. Qed.
Lemma rational_exp m k : rational (Decimal m (- Z.of_nat k)) = Some (m # Z.to_pos (10 ^ Z.of_nat k))%Q.
Proof.
  unfold rational. destruct k as [|k]; [cbn; by rewrite Z.mul_1_r|]. rewrite (proj2 (Z.leb_gt _ _)) by lia. by rewrite Z.opp_involutive.
Qed.
Lemma rational_q q : decimal q -> rational (Decimal (Qnum q) (- Z.of_nat (tens (Z.pos (Qden q))))) = Some q.
Proof. unfold decimal. intros E. rewrite rational_exp, <- E. by destruct q. Qed.

Lemma as_speed_of sp : speed_sayable sp -> as_speed (speed_value sp) = Some sp.
Proof.
  destruct sp as [| |d]; [done..|]. intros [Hd Hm]. cbn [speed_value as_speed]. rewrite rational_exp. cbn [mbind option_bind Qnum Qden].
  rewrite ten_pos. fold (rate_num d). pose proof (Z.div_mod (rate_num d) d ltac:(lia)) as E. rewrite Hm, Z.add_0_r in E.
  assert (0 < rate_num d) by (unfold rate_num; pose proof (Z.pow_pos_nonneg 10 (Z.of_nat (rate_digits d))); lia).
  set (q := rate_num d / d) in *. assert (0 < q) as Hq by nia. rewrite (proj2 (Z.ltb_lt _ _) Hq). cbn [andb].
  rewrite E, Z.mod_mul by lia. cbn [Z.eqb]. by rewrite Z.div_mul by lia.
Qed.

Definition cut_value (c : cut_spec) : value :=
  match c with
  | CutInt n => VFloat (Decimal (Z.of_nat n) 0)
  | CutFraction a b => VFloat (Decimal (Z.of_nat a) (- Z.of_nat (tens (Z.of_nat b))))
  | CutNone => VFloat (Decimal 5 (-1))
  end.
Lemma reads_cut c name dest d : reads (seconds name dest d) (Some (cut_text c)) (cut_value c).
Proof. destruct c as [|n|a b]; [done|apply reads_rate|]. split; [apply exp_text_not_dashes|apply float_arg_exp]. Qed.
Lemma as_cut_of c : cut_sayable c -> as_cut (cut_value c) = Some c.
Proof.
  unfold as_cut. destruct c as [|n|a b]; [done| |]; cbn [cut_sayable cut_value as_float mbind option_bind].
  - intros Hn. change (rational _) with (rational (Decimal (Z.of_nat n) (- Z.of_nat 0))). rewrite rational_exp. cbn [mbind option_bind Qnum Qden].
    rewrite ten_pos. change (10 ^ Z.of_nat 0) with 1. rewrite !(proj2 (Z.ltb_ge _ _)) by lia. by rewrite Z.div_1_r, Nat2Z.id.
  - intros [Hlt Hb]. rewrite rational_exp. cbn [mbind option_bind Qnum Qden]. rewrite ten_pos, <- Hb.
    rewrite (proj2 (Z.ltb_ge _ _)), (proj2 (Z.ltb_lt _ _)) by lia. rewrite Nat2Z.id, <- Z2Nat.inj_pos, Z2Pos.id, Nat2Z.id by lia. done.
Qed.

Lemma py_str_no_colon z : forallb (fun b => negb (b2z b =? b2z (z2b 58))) (rev (py_str_b z)) = true.
Proof.
  assert (forall y, 0 <= y -> forallb (fun b => negb (b2z b =? b2z (z2b 58))) (dec_bytes y) = true) as H.
  { intros y Hy. eapply forallb_impl; [|by apply dec_bytes_digits]. intros b Hb%is_dec_bounds.
    apply negb_true_iff, Z.eqb_neq. change (b2z (z2b 58)) with 58. lia. }
  rewrite forallb_forall. intros b Hb%in_rev. revert b Hb. rewrite <- forallb_forall.
  unfold py_str_b. destruct (Z.ltb_spec z 0); [cbn; apply H; lia|by apply H].
Qed.

Lemma parse_addr a : a.1 <> "" -> parse_mcast_arg (addr_text a) = Some (VAddr a.1 a.2).
Proof.
  destruct a as [h z]. cbn [fst snd]. intros Hh. unfold parse_mcast_arg, addr_text, rpartition_b. cbn [fst snd].
  rewrite !s2l_cat. change (s2l ":") with [z2b 58]. unfold py_str at 1. rewrite !rev_app_distr, s2l_l2s, <- app_assoc.
  cbn [rev app]. rewrite partition_b_app by apply py_str_no_colon. cbn iota. rewrite !rev_involutive.
  destruct (s2l h) as [|b l] eqn:E; [by apply (f_equal l2s) in E; rewrite l2s_s2l in E|].
  destruct (py_str_b z) as [|c t] eqn:Ez; [by pose proof (int_of_str_b z) as H; rewrite Ez in H|]. rewrite <- E, <- Ez, l2s_s2l.
  change (l2s (py_str_b z)) with (py_str z). by rewrite py_int_any.
Qed.
Lemma reads_addr a name dest d : a.1 <> "" -> Some (addr_text a) <> Some "--" ->
  reads (mkOption name dest (Some parse_mcast_arg) d false) (Some (addr_text a)) (VAddr a.1 a.2).
Proof. intros Ha Ht. split; [congruence|by apply parse_addr]. Qed.

Lemma reads_scenario sc name dest d :
  reads (mkOption name dest (Some (choice_arg SCENARIOS.*1)) d true) (Some (scenario_text sc)) (VStr (scenario_text sc)).
Proof. by destruct sc. Qed.
Lemma scenario_of_text sc : dget (scenario_text sc) SCENARIOS = Some sc.
Proof. by destruct sc. Qed.
Lemma reads_q q name dest d : reads (seconds name dest d) (Some (q_text q)) (VFloat (Decimal (Qnum q) (- Z.of_nat (tens (Z.pos (Qden q)))))).
Proof. split; [apply exp_text_not_dashes|apply float_arg_exp]. Qed.
#[export] Hint Resolve reads_speed reads_cut reads_q reads_addr reads_scenario : cli.

Ltac read_args :=
  let n := fresh "n" in intros n ? ?; invert_all; cbn [o_dest string integer seconds flag required fst snd] in *;
  repeat (erewrite arg_is; [|eassumption|first [apply as_ms_of | apply as_nat_of | apply or_none_ms | apply or_none_str | apply or_none_int | by apply as_speed_of | by apply as_cut_of | reflexivity]];
    cbn [mbind option_bind]).

(** The case of a command with a parser: read the texts, then the words, then the namespace. *)
Ltac by_table p to_run words :=
  match goal with |- _ = Runs ?c => eapply (runs_by p to_run (option_texts c) _ (words_of c)) end;
  [by vm_compute|by vm_compute|unfold option_texts, source_texts, options, p, add_source_arguments; cbn [app]; read_texts|unfold words_of; words|
    unfold to_run, source_args_of, options, p, add_source_arguments; cbn [app]; read_args].

(** * Properties *)

(** C18. Of each program that takes arguments, every typable run can be asked for on its
    command line, and is then what runs: the program, given its subcommand, the options
    with the printed values of the command's arguments ([--option=text], the absent ones
    and unset flags left out) and then the words, parses them and runs exactly that
    command.  Typable: no option's text is the bare [--], no word begins with a dash,
    speeds, rates and minutes have finitely many decimals, the snapshot cut is a decimal
    fraction below one or a count from one, a word list that must not be empty is not,
    and the gateway's multicast group and database port are not empty and not 0. *)
Theorem commands_roundtrip float_text c : typable float_text c -> program_of float_text c (command_line c) = Runs c.
Proof.
  intros (Ht & Hw & Hs). destruct c; unfold option_texts, source_texts, words_of in Ht, Hw; cbn [app] in *; invert_all.
  - by_table probe_parser probe_command constructor. destruct a; reflexivity.
  - by_table capture_parser capture_command constructor. destruct o, a; reflexivity.
  - by_table static_parser static_command constructor. destruct a; reflexivity.
  - by_table tail_parser tail_command constructor. destruct a, t; reflexivity.
  - by_table book_parser book_command ltac:(by repeat constructor). destruct a; reflexivity.
  - by_table stats_parser stats_command constructor. destruct a; reflexivity.
  - destruct Hs as [Hc Hsp]. by_table sim_parser sim_command constructor. destruct a; reflexivity.
  - by_table fixtures_parser fixtures_command constructor. reflexivity.
  - destruct Hs as [Hm Hdb].
    by_table build_arg_parser gateway_command constructor. destruct a as [[h p] hh hp mi tf [[dh dp]|]]; [|reflexivity].
    cbn in *. by rewrite (proj2 (Z.eqb_neq _ _) Hdb).
  - by_table dbquery_parser dbquery_command ltac:(destruct words; [done|invert_all; by constructor]). reflexivity.
  - by_table compare_parser compare_command ltac:(by repeat constructor). reflexivity.
  - by_table spy_parser spy_command constructor. destruct a; reflexivity.
  - by_table ws_parser ws_command ltac:(by repeat constructor). destruct a; reflexivity.
  - by_table golden_parser golden_command constructor. reflexivity.
  - assert (_parse_or_usage py36_parser py36_command (command_line (RunLint files)) = Runs (RunLint files)) as E
      by (by_table py36_parser py36_command ltac:(by repeat constructor); reflexivity).
    cbn [program_of]. unfold py36_line. rewrite E. by destruct files.
  - done.
  - destruct Hs as (Hsp & Hmi & Htx). cbn [program_of]. unfold e2e_line.
    eapply (runs_by e2e_parser _ (option_texts (RunE2e a)) _ []); [by vm_compute|by vm_compute|unfold option_texts, options, e2e_parser; read_texts| |].
    + exact WNone.
    + unfold e2e_command, options, e2e_parser. read_args. rewrite scenario_of_text. cbn [mbind option_bind].
      rewrite !rational_q by done. cbn [mbind option_bind]. rewrite <- Htx. destruct a; reflexivity.
  - done.
Qed.

Definition demo_capture : command := RunCapture "itch1" 15001 (mkClientArgs "U" "-p=q" 10000 15000) (Capture.mkArgs "day.itch" (Some (-7)) "" 5 250 None).

(** Half a message a second from half of the file on. *)
Definition demo_sim : command := RunSim (mkSimArgs "day.itch" 1 2 "U" "P" "S" (SPEED_RATE 2000) (CutFraction 5 10) None).

Lemma commands_roundtrip_witness :
  jnxfeed_main ["capture"; "--host=itch1"; "--port=15001"; "--user=U"; "--pass=-p=q"; "--out=day.itch"; "--seq=-7"; "--session=";
                "--timeout=10000e-3"; "--idle-timeout=15000e-3"; "--retries=5"; "--retry-delay=250e-3"] = Runs demo_capture /\
  sim_main ["--itch-file=day.itch"; "--itch-port=1"; "--glimpse-port=2"; "--user=U"; "--pass=P"; "--session=S"; "--speed=5000000000e-10";
            "--glimpse-cut=5e-1"] = Runs demo_sim.
Proof.
  split.
  - apply (commands_roundtrip (fun _ => "") demo_capture). split_and!; [|done|done]. repeat constructor; vm_compute; congruence.
  - apply (commands_roundtrip (fun _ => "") demo_sim). split_and!; [|done|repeat split; vm_compute; try lia; reflexivity].
    repeat constructor; vm_compute; congruence.
Defined.
