(* ===== verification/Dist.v ===== *)
(** tools/make_dist.py: what is in the source tarball.

    The repository is a tree, the staging directory the directories made in it and the
    files copied to it; paths are lists of names.  Symbolic links, the temporary
    directory, the compression and the date in the name are left out: the tarball holds
    what the staging directory holds. *)
From S2P Require Export PyText PyDict.

#[global] Set Default Goal Selector "!".

Definition path : Type := list str.

(** * The repository *)

Inductive node : Type := File (content : bytes) | Dir (entries : list (str * node)).

Fixpoint tree_get (n : node) (p : path) : option node :=
  match p with
  | [] => Some n
  | name :: p => match n with Dir es => c ← dget name es; tree_get c p | File _ => None end
  end.

Definition EXCLUDE_DIRS : list str := ["build"; "build-asan"; "__pycache__"; ".git"].
Definition EXCLUDE_SUFFIXES : list str := [".pyc"; ".pyo"].
Definition excluded_file (fn : str) : bool := existsb (fun x => endswith (s2l x) (s2l fn)) EXCLUDE_SUFFIXES.

Definition files_of (es : list (str * node)) : list str :=
  omap (fun e : str * node => match e.2 with File _ => Some e.1 | Dir _ => None end) es.

(** [os.walk], with the directories in [EXCLUDE_DIRS] taken out of [dirs] on the way:
    each directory below, relative to the root, and its files. *)
Fixpoint walk (rel : path) (n : node) : list (path * list str) :=
  match n with
  | File _ => []
  | Dir es =>
      (rel, files_of es) ::
      (fix subdirs (es : list (str * node)) : list (path * list str) :=
         match es with
         | [] => []
         | (d, c) :: es =>
             (match c with Dir _ => if decide (d ∈ EXCLUDE_DIRS) then [] else walk (rel ++ [d]) c | File _ => [] end) ++ subdirs es
         end) es
  end.

(** * The staging directory *)

Record staging : Type := mkStaging { made : gset path; held : gmap path bytes }.
Definition staging_init : staging := mkStaging {[ [] ]} ∅.

Fixpoint prefixes (p : path) : list path := [] :: match p with [] => [] | x :: p => cons x <$> prefixes p end.

(** [os.makedirs(..., exist_ok=True)]. *)
Definition makedirs (p : path) : M staging () := fun s =>
  if decide (Forall (fun q => held s !! q = None) (prefixes p)) then (mkStaging (list_to_set (prefixes p) ∪ made s) (held s), Ok ())
  else (s, Raise OSError).

Section dist.
Context (repo : node).

(** [shutil.copy2] to a path that is no directory. *)
Definition copy2 (src dst : path) : M staging () := fun s =>
  match tree_get repo src with
  | Some (File data) =>
      if decide (removelast dst ∈ made s) then (mkStaging (made s) (<[dst := data]> (held s)), Ok ()) else (s, Raise OSError)
  | _ => (s, Raise OSError)
  end.

(** A source that is no directory has nothing to walk. *)
Definition copy_tree_filtered (src dst : path) : M staging () :=
  mfor (default [] (walk [] <$> tree_get repo src)) (fun d =>
    let '(rel, files) := (d : path * list str) in
    makedirs (dst ++ rel) ;;
    mfor files (fun fn => if excluded_file fn then mret () else copy2 (src ++ rel ++ [fn]) (dst ++ rel ++ [fn]))).

Definition copy_same (p : path) : M staging () := copy2 p p.

Definition TARGET_TOOLS : list str := ["dbquery.py"; "mcast_spy.py"; "ws_probe.py"; "py36check.py"].
Definition TOP_DOCS : list str := ["OPERATIONS.md"; "RECOVERY.md"; "TARGET_VALIDATION.md"].

Definition make_dist : M staging () :=
  copy_tree_filtered ["cpp"] ["cpp"] ;;
  copy_tree_filtered ["jnxweb"] ["jnxweb"] ;;
  makedirs ["jnxfeed"; "net"] ;;
  copy_same ["jnxfeed"; "__init__.py"] ;;
  copy_same ["jnxfeed"; "net"; "__init__.py"] ;;
  copy_same ["jnxfeed"; "net"; "reactor.py"] ;;
  makedirs ["tools"] ;;
  mfor TARGET_TOOLS (fun fn => copy_same ["tools"; fn]) ;;
  copy_tree_filtered ["etc"] ["etc"] ;;
  makedirs ["docs"] ;;
  copy_same ["docs"; "wire_spec.md"] ;;
  mfor TOP_DOCS (fun fn => copy_same [fn]) ;;
  makedirs ["tests"; "fixtures"] ;;
  copy_same ["tests"; "fixtures"; "sample_udp_head.itch"].

(** * What is shipped *)

Definition SINGLE_FILES : list path :=
  [["jnxfeed"; "__init__.py"]; ["jnxfeed"; "net"; "__init__.py"]; ["jnxfeed"; "net"; "reactor.py"]] ++
  ((fun fn => ["tools"; fn]) <$> TARGET_TOOLS) ++ [["docs"; "wire_spec.md"]] ++ ((fun fn => [fn]) <$> TOP_DOCS) ++
  [["tests"; "fixtures"; "sample_udp_head.itch"]].
Definition SHIPPED_TREES : list str := ["cpp"; "jnxweb"; "etc"].

(** A source under one of the trees, with no build directory on its path, or one of the
    files named. *)
Definition ships (p : path) : Prop :=
  (exists d, tree_get repo p = Some (File d)) /\
  (p ∈ SINGLE_FILES \/
   exists top rel fn, p = top :: rel ++ [fn] /\ top ∈ SHIPPED_TREES /\ Forall (fun d => d ∉ EXCLUDE_DIRS) rel /\ excluded_file fn = false).

End dist.

(** No directory has two entries of one name. *)
Inductive named_once : node -> Prop :=
| OnceFile d : named_once (File d)
| OnceDir es : NoDup es.*1 -> Forall (fun e => named_once e.2) es -> named_once (Dir es).

(** * Lemmas: the tree *)

Section node_ind.
Context (P : node -> Prop) (HF : forall d, P (File d)) (HD : forall es, Forall (fun e => P e.2) es -> P (Dir es)).
Fixpoint node_nested_ind (n : node) : P n :=
  match n with
  | File d => HF d
  | Dir es => HD es ((fix all (es : list (str * node)) : Forall (fun e => P e.2) es :=
                        match es with [] => Forall_nil_2 _ | e :: es => Forall_cons_2 _ _ _ (node_nested_ind e.2) (all es) end) es)
  end.
End node_ind.

Lemma tree_get_app n p q : tree_get n (p ++ q) = (c ← tree_get n p; tree_get c q).
Proof.
  revert n. induction p as [|x p IH]; intros n; [done|]. cbn. destruct n as [d|es]; [done|]. destruct (dget x es) as [c|]; [apply IH|done].
Qed.

Definition walk_entry (rel : path) (e : str * node) : list (path * list str) :=
  match e.2 with Dir _ => if decide (e.1 ∈ EXCLUDE_DIRS) then [] else walk (rel ++ [e.1]) e.2 | File _ => [] end.
Lemma walk_dir rel es : walk rel (Dir es) = (rel, files_of es) :: concat (walk_entry rel <$> es).
Proof. cbn [walk]. f_equal. induction es as [|[d c] es IH]; [done|]. rewrite fmap_cons. cbn [concat]. by rewrite <- IH. Qed.

Lemma walk_spec n : named_once n -> forall rel r fs,
  (r, fs) ∈ walk rel n <-> exists ds es, r = rel ++ ds /\ Forall (fun d => d ∉ EXCLUDE_DIRS) ds /\ tree_get n ds = Some (Dir es) /\ fs = files_of es.
Proof.
  induction n as [d|es IH] using node_nested_ind; intros Ho rel r fs.
  { split; [by intros ?%elem_of_nil|]. intros ([|x ds] & es & _ & _ & E & _); done. }
  inversion Ho as [|es' Hn Hs]; subst. rewrite walk_dir, elem_of_cons, list_elem_of_In, in_concat. split.
  - intros [[= -> ->]|(l & Hl & Hin)]; [exists [], es; by rewrite app_nil_r|]. apply list_elem_of_In, list_elem_of_fmap in Hl as ([k c] & -> & He).
    unfold walk_entry in Hin. cbn [fst snd] in Hin. destruct c as [|es1]; [done|]. case_decide as Hx; [done|].
    rewrite Forall_forall in IH, Hs. apply list_elem_of_In, (IH _ He (Hs _ He)) in Hin as (ds & es2 & -> & Hds & E & ->).
    exists (k :: ds), es2. rewrite <- app_assoc. split_and!; [done|by constructor| |done]. cbn. by rewrite (elem_dget k _ _ Hn He).
  - intros (ds & es1 & -> & Hds & E & ->). destruct ds as [|k ds]; [left; cbn in E; injection E as ->; by rewrite app_nil_r|]. right.
    cbn in E. destruct (dget k es) as [c|] eqn:Ek; [|done]. cbn in E. apply dget_Some_elem in Ek. apply Forall_cons in Hds as [Hk Hds].
    exists (walk (rel ++ [k]) c). split.
    + apply list_elem_of_In, list_elem_of_fmap. exists (k, c). split; [|done]. unfold walk_entry. cbn [fst snd]. rewrite decide_False by done.
      destruct c; [|done]. by destruct ds.
    + rewrite Forall_forall in IH, Hs. apply list_elem_of_In, (IH _ Ek (Hs _ Ek)). exists ds, es1. by rewrite <- app_assoc.
Qed.

Lemma files_of_elem es fn : fn ∈ files_of es <-> exists d, (fn, File d) ∈ es.
Proof.
  unfold files_of. rewrite list_elem_of_omap. split.
  - intros ([k [d|]] & Hk & E); [|done]. injection E as <-. by exists d.
  - intros (d & Hd). by exists (fn, File d).
Qed.

Lemma dir_file es fn : NoDup es.*1 -> fn ∈ files_of es <-> exists d, dget fn es = Some (File d).
Proof.
  intros Hn. rewrite files_of_elem. split; intros (d & Hd); exists d; [by apply elem_dget|by apply dget_Some_elem].
Qed.

Lemma named_once_get n p c : named_once n -> tree_get n p = Some c -> named_once c.
Proof.
  revert n. induction p as [|x p IH]; intros n Hn E; [by injection E as <-|]. destruct n as [|es]; [done|]. cbn in E.
  destruct (dget x es) as [c'|] eqn:Ex; [|done]. inversion Hn as [|? _ Hs]; subst. apply (IH c'); [|done].
  rewrite Forall_forall in Hs. apply (Hs (x, c')). by apply dget_Some_elem.
Qed.

(** * Lemmas: what a step adds *)

Section steps.
Context (repo : node) (Hrepo : named_once repo).

Definition is_file (p : path) : Prop := exists d, tree_get repo p = Some (File d).
Definition is_dir (p : path) : Prop := exists es, tree_get repo p = Some (Dir es).

(** The staging directory is a part of the repository. *)
Record part (s : staging) : Prop := {
  part_files : forall p d, held s !! p = Some d -> tree_get repo p = Some (File d);
  part_dirs : forall p, p ∈ made s -> is_dir p }.

(** Given the directories [q], the step makes [r] and adds the files [P], with the
    repository's contents, and raises nothing. *)
Definition grows (q r : gset path) (P : path -> Prop) (m : M staging ()) : Prop :=
  forall s, part s -> q ⊆ made s -> exists s', m s = (s', Ok ()) /\ part s' /\ made s ∪ r ⊆ made s' /\
    forall p, is_Some (held s' !! p) <-> is_Some (held s !! p) \/ P p.

Lemma grows_iff q r P P' m : grows q r P m -> (forall p, P p <-> P' p) -> grows q r P' m.
Proof. intros H HP s Hs Hq. destruct (H s Hs Hq) as (s' & E & Hs' & Hr & Hd). exists s'. split_and!; [done..|]. intros p. by rewrite Hd, HP. Qed.

Lemma grows_weak q r q' r' P m : grows q r P m -> q ⊆ q' -> r' ⊆ r -> grows q' r' P m.
Proof. intros H Hq Hr s Hs Hq'. destruct (H s Hs ltac:(set_solver)) as (s' & E & Hs' & Hr' & Hd). exists s'. split_and!; [done|done|set_solver|done]. Qed.

Lemma grows_ret : grows ∅ ∅ (fun _ => False) (mret ()).
Proof. intros s Hs _. exists s. split_and!; [done|done|set_solver|tauto]. Qed.

Lemma grows_bind q1 r1 q2 r2 P1 P2 m1 m2 : grows q1 r1 P1 m1 -> grows q2 r2 P2 m2 -> q2 ⊆ q1 ∪ r1 ->
  grows q1 (r1 ∪ r2) (fun p => P1 p \/ P2 p) (m1 ;; m2).
Proof.
  intros H1 H2 Hq s Hs Hs1. destruct (H1 s Hs Hs1) as (s1 & E1 & Hp1 & Hr1 & Hd1). destruct (H2 s1 Hp1 ltac:(set_solver)) as (s2 & E2 & Hp2 & Hr2 & Hd2).
  exists s2. unfold mbind, M_bind. rewrite E1. split_and!; [done|done|set_solver|]. intros p. rewrite Hd2, Hd1. tauto.
Qed.

Lemma grows_mfor {A} (l : list A) q (P : A -> path -> Prop) f : (forall x, x ∈ l -> grows q ∅ (P x) (f x)) ->
  grows q ∅ (fun p => exists x, x ∈ l /\ P x p) (mfor l f).
Proof.
  induction l as [|x l IH]; intros Hf.
  - intros s Hs _. exists s. split_and!; [done|done|set_solver|]. intros p. split; [by left|]. intros [H|(x & Hx & _)]; [done|by apply elem_of_nil in Hx].
  - intros s Hs Hq. destruct (Hf x ltac:(left) s Hs Hq) as (s1 & E1 & Hp1 & Hr1 & Hd1).
    destruct (IH ltac:(intros y Hy; apply Hf; by right) s1 Hp1 ltac:(set_solver)) as (s2 & E2 & Hp2 & Hr2 & Hd2).
    exists s2. cbn [mfor]. unfold mbind, M_bind. rewrite E1. split_and!; [done|done|set_solver|]. intros p. rewrite Hd2, Hd1. split.
    + intros [[H|H]|(y & Hy & H)]; [by left|right; exists x; by split; [left|]|right; exists y; by split; [right|]].
    + intros [H|(y & [->|Hy]%elem_of_cons & H)]; [by left; left|by left; right|right; by exists y].
Qed.

Lemma prefixes_app p q : q ∈ prefixes p -> exists t, p = q ++ t.
Proof.
  revert q. induction p as [|x p IH]; intros q; cbn [prefixes].
  - intros ->%list_elem_of_singleton. by exists [].
  - intros [->|Hq]%elem_of_cons; [by exists (x :: p)|]. apply list_elem_of_fmap in Hq as (q' & -> & Hq). destruct (IH _ Hq) as (t & ->). by exists t.
Qed.
Lemma prefix_dir p q : is_dir p -> q ∈ prefixes p -> is_dir q.
Proof.
  intros [es E] (t & ->)%prefixes_app. rewrite tree_get_app in E. destruct (tree_get repo q) as [[d|es']|] eqn:Eq; [by destruct t|by exists es'|done].
Qed.
Lemma parent_dir p : p <> [] -> is_file p -> is_dir (removelast p).
Proof.
  intros Hp [d E]. rewrite (app_removelast_last "" Hp), tree_get_app in E.
  destruct (tree_get repo (removelast p)) as [[d'|es]|] eqn:Ep; [done|by exists es|done].
Qed.

Lemma grows_makedirs p : is_dir p -> grows ∅ (list_to_set (prefixes p)) (fun _ => False) (makedirs p).
Proof.
  intros Hp s [Hf Hd] _. unfold makedirs. rewrite decide_True.
  - eexists. split; [done|]. split; [|split; [cbn; set_solver|cbn; tauto]]. split; [done|]. cbn. intros q [Hq|Hq]%elem_of_union; [|by apply Hd].
    apply elem_of_list_to_set in Hq. by eapply prefix_dir.
  - apply Forall_forall. intros q Hq. destruct (held s !! q) as [d|] eqn:E; [|done]. apply Hf in E. destruct (prefix_dir _ _ Hp Hq). congruence.
Qed.

Lemma grows_copy p : is_file p -> grows {[removelast p]} ∅ (fun x => x = p) (copy_same repo p).
Proof.
  intros [d E] s [Hf Hd] Hq. unfold copy_same, copy2. rewrite E, decide_True by set_solver. eexists. split; [done|].
  split; [split; cbn; [|done]|].
  - intros q d' Hl. destruct (decide (p = q)) as [<-|Hne]; [rewrite lookup_insert_eq in Hl; by injection Hl as <-|].
    rewrite lookup_insert_ne in Hl by done. by apply Hf.
  - split; [cbn; set_solver|]. intros q. cbn. destruct (decide (p = q)) as [<-|Hne]; [rewrite lookup_insert_eq; naive_solver|].
    rewrite lookup_insert_ne by done. naive_solver.
Qed.

(** A tree: all its files with no build directory on the path and no compiled suffix. *)
Definition tree_ships (top : str) (p : path) : Prop :=
  is_file p /\ exists rel fn, p = top :: rel ++ [fn] /\ Forall (fun d => d ∉ EXCLUDE_DIRS) rel /\ excluded_file fn = false.

Lemma walk_at top rel fs : (rel, fs) ∈ default [] (walk [] <$> tree_get repo [top]) ->
  Forall (fun d => d ∉ EXCLUDE_DIRS) rel /\ is_dir (top :: rel) /\ forall fn, fn ∈ fs <-> is_file (top :: rel ++ [fn]).
Proof.
  destruct (tree_get repo [top]) as [n|] eqn:En; [|by intros ?%elem_of_nil]. pose proof (named_once_get _ _ _ Hrepo En) as Hn.
  cbn [fmap option_fmap option_map default]. intros (ds & es & -> & Hds & E & ->)%walk_spec; [|done]. cbn [app]. split; [done|].
  assert (tree_get repo (top :: ds) = Some (Dir es)) as Ed by (change (top :: ds) with ([top] ++ ds); rewrite tree_get_app, En; exact E).
  split; [by exists es|]. intros fn. pose proof (named_once_get _ _ _ Hn E) as Hes. inversion Hes as [|? Hk _]; subst. rewrite dir_file by done.
  unfold is_file. change (top :: ds ++ [fn]) with ((top :: ds) ++ [fn]). rewrite tree_get_app, Ed. cbn.
  split; intros (d & Hd); exists d; by destruct (dget fn es).
Qed.

(** One directory of the walk. *)
Lemma grows_one top rel fs : is_dir (top :: rel) -> (forall fn, fn ∈ fs <-> is_file (top :: rel ++ [fn])) ->
  grows ∅ ∅ (fun p => exists fn, fn ∈ fs /\ excluded_file fn = false /\ p = top :: rel ++ [fn])
    (makedirs ([top] ++ rel) ;;
     mfor fs (fun fn => if excluded_file fn then mret () else copy2 repo ([top] ++ rel ++ [fn]) ([top] ++ rel ++ [fn]))).
Proof.
  intros Hdir Hfs. eapply grows_iff.
  - eapply grows_weak; [|reflexivity|apply empty_subseteq]. eapply (grows_bind ∅ _ {[top :: rel]} ∅).
    + by apply grows_makedirs.
    + apply (grows_mfor fs _ (fun fn p => excluded_file fn = false /\ p = top :: rel ++ [fn])). intros fn Hin. destruct (excluded_file fn).
      * eapply grows_iff; [eapply grows_weak; [apply grows_ret|apply empty_subseteq|done]|naive_solver].
      * eapply grows_iff; [eapply grows_weak; [apply (grows_copy (top :: rel ++ [fn])); by apply Hfs| |done]|naive_solver].
        change (top :: rel ++ [fn]) with ((top :: rel) ++ [fn]). by rewrite removelast_last.
    + apply singleton_subseteq_l, elem_of_union. right. apply elem_of_list_to_set. cbn [app prefixes]. right. apply list_elem_of_fmap.
      exists rel. split; [done|]. clear. induction rel as [|x rel IH]; cbn [prefixes]; [left|right]. apply list_elem_of_fmap. by exists rel.
  - intros p. cbn. naive_solver.
Qed.

Lemma grows_tree top : grows ∅ ∅ (tree_ships top) (copy_tree_filtered repo [top] [top]).
Proof.
  eapply grows_iff.
  - unfold copy_tree_filtered. apply (grows_mfor _ _ (fun d p => exists fn, fn ∈ d.2 /\ excluded_file fn = false /\ p = top :: d.1 ++ [fn])).
    intros [rel fs] Hin. destruct (walk_at _ _ _ Hin) as (_ & Hdir & Hfs). by apply grows_one.
  - intros p. split.
    + intros ([rel fs] & Hin & fn & Hfn & Hx & ->). cbn [fst snd] in *. destruct (walk_at _ _ _ Hin) as (Hds & _ & Hfs).
      split; [by apply Hfs|by exists rel, fn].
    + intros (Hf & rel & fn & -> & Hds & Hx).
      destruct (parent_dir (top :: rel ++ [fn]) ltac:(done) Hf) as [es E]. change (top :: rel ++ [fn]) with ((top :: rel) ++ [fn]) in E.
      rewrite removelast_last in E. change (top :: rel) with ([top] ++ rel) in E. rewrite tree_get_app in E.
      destruct (tree_get repo [top]) as [n|] eqn:En; [|done]. cbn [mbind option_bind] in E.
      exists (rel, files_of es). split.
      * cbn [default fmap option_fmap option_map]. apply walk_spec; [by eapply named_once_get|]. by exists rel, es.
      * exists fn. split; [|done]. cbn [snd]. assert (named_once (Dir es)) as Hes by (eapply (named_once_get n); [by eapply named_once_get|done]).
        inversion Hes as [|? Hk _]; subst. apply dir_file; [done|]. destruct Hf as [d Hd]. exists d.
        change (top :: rel ++ [fn]) with ([top] ++ rel ++ [fn]) in Hd. rewrite tree_get_app, En in Hd. cbn [mbind option_bind] in Hd.
        rewrite tree_get_app, E in Hd. cbn in Hd. by destruct (dget fn es).
Qed.

Lemma grows_seq q r1 r2 P1 P2 m1 m2 : grows q r1 P1 m1 -> grows (q ∪ r1) r2 P2 m2 -> grows q (r1 ∪ r2) (fun p => P1 p \/ P2 p) (m1 ;; m2).
Proof.
  intros H1 H2 s Hs Hs1. destruct (H1 s Hs Hs1) as (s1 & E1 & Hp1 & Hr1 & Hd1). destruct (H2 s1 Hp1 ltac:(set_solver)) as (s2 & E2 & Hp2 & Hr2 & Hd2).
  exists s2. unfold mbind, M_bind. rewrite E1. split_and!; [done|done|set_solver|]. intros p. rewrite Hd2, Hd1. tauto.
Qed.

Context (Hfiles : Forall is_file SINGLE_FILES).
Lemma single p : p ∈ SINGLE_FILES -> is_file p.
Proof. intros Hp. rewrite Forall_forall in Hfiles. by apply Hfiles. Qed.

Lemma grows_single q p : p ∈ SINGLE_FILES -> removelast p ∈ q -> grows q ∅ (fun x => x = p) (copy_same repo p).
Proof. intros Hp Hq. eapply grows_weak; [apply grows_copy; by apply single|set_solver|done]. Qed.
Lemma grows_dirs q p fn : p ++ [fn] ∈ SINGLE_FILES -> grows q (list_to_set (prefixes p)) (fun _ => False) (makedirs p).
Proof.
  intros Hp. eapply grows_weak; [apply grows_makedirs|apply empty_subseteq|done].
  rewrite <- (removelast_last p fn). apply parent_dir; [by destruct p|by apply single].
Qed.
Lemma grows_tree' q top : grows q ∅ (tree_ships top) (copy_tree_filtered repo [top] [top]).
Proof. eapply grows_weak; [apply grows_tree|apply empty_subseteq|done]. Qed.

Lemma in_tools fn : fn ∈ TARGET_TOOLS -> ["tools"; fn] ∈ SINGLE_FILES.
Proof. intros H. unfold SINGLE_FILES. apply elem_of_app. right. apply elem_of_app. left. by apply (list_elem_of_fmap_2 (fun fn => ["tools"; fn])). Qed.
Lemma in_docs fn : fn ∈ TOP_DOCS -> [fn] ∈ SINGLE_FILES.
Proof.
  intros H. unfold SINGLE_FILES. apply elem_of_app. right. apply elem_of_app. right. apply elem_of_app. right. apply elem_of_app. left.
  by apply (list_elem_of_fmap_2 (fun fn => [fn])).
Qed.

Ltac by_computing := apply (bool_decide_unpack _); vm_compute; exact I.
Ltac dist_step :=
  match goal with
  | |- grows _ _ _ (copy_tree_filtered _ _ _) => apply grows_tree'
  | |- grows _ _ _ (makedirs ["jnxfeed"; _]) => apply (grows_dirs _ _ "reactor.py"); by_computing
  | |- grows _ _ _ (makedirs ["tools"]) => apply (grows_dirs _ _ "dbquery.py"); by_computing
  | |- grows _ _ _ (makedirs ["docs"]) => apply (grows_dirs _ _ "wire_spec.md"); by_computing
  | |- grows _ _ _ (makedirs _) => apply (grows_dirs _ _ "sample_udp_head.itch"); by_computing
  | |- grows _ _ _ (copy_same _ _) => apply grows_single; by_computing
  | |- grows _ _ _ (mfor TARGET_TOOLS _) => apply (grows_mfor _ _ (fun fn p => p = ["tools"; fn])); intros; apply grows_single; [by apply in_tools|by_computing]
  | |- grows _ _ _ (mfor TOP_DOCS _) => apply (grows_mfor _ _ (fun fn p => p = [fn])); intros; apply grows_single; [by apply in_docs|by_computing]
  | |- grows _ _ _ (mbind _ _) => eapply grows_seq
  end.

Lemma grows_dist : exists r, grows {[ [] ]} r (fun p => p ∈ SINGLE_FILES \/ exists top, top ∈ SHIPPED_TREES /\ tree_ships top p) (make_dist repo).
Proof.
  eexists. eapply grows_iff.
  - unfold make_dist. repeat dist_step.
  - intros p. cbn beta. assert ((exists top, top ∈ SHIPPED_TREES /\ tree_ships top p) <-> tree_ships "cpp" p \/ tree_ships "jnxweb" p \/ tree_ships "etc" p) as ->.
    { unfold SHIPPED_TREES. split; [|intros [H|[H|H]]; eexists; (split; [|exact H]); set_solver].
      intros (top & Ht & H). rewrite !elem_of_cons, elem_of_nil in Ht. naive_solver. }
    unfold SINGLE_FILES. rewrite !elem_of_app, !list_elem_of_fmap, !elem_of_cons, !elem_of_nil.
    generalize (tree_ships "cpp" p) (tree_ships "jnxweb" p) (tree_ships "etc" p). intros T1 T2 T3. naive_solver.
Qed.
End steps.

(** * The tarball *)

(** Given a repository in which no directory has two entries of one name and the files
    named exist, the script raises nothing and the tarball holds, with their contents,
    exactly those files and the files of cpp/, jnxweb/ and etc/ with no build directory on
    their path and no compiled suffix. *)
Theorem dist_exact repo : named_once repo -> Forall (is_file repo) SINGLE_FILES ->
  exists s, make_dist repo staging_init = (s, Ok ()) /\ (forall p, is_Some (held s !! p) <-> ships repo p) /\
    forall p d, held s !! p = Some d -> tree_get repo p = Some (File d).
Proof.
  intros Hn Hf. destruct (grows_dist repo Hn Hf) as (r & Hg).
  assert (part repo staging_init) as Hp.
  { split; [done|]. intros p Hp. cbn [made staging_init] in Hp. apply elem_of_singleton in Hp as ->. apply Forall_cons in Hf as [[d E] _].
    destruct repo as [|es]; [done|]. by exists es. }
  destruct (Hg staging_init Hp ltac:(done)) as (s & E & [Hs _] & _ & Hd). exists s. split_and!; [done| |exact Hs].
  intros p. rewrite Hd. cbn. rewrite lookup_empty. unfold ships, tree_ships. split.
  - intros [[x Hx]|[Hp'|(top & Ht & Hfile & rel & fn & -> & H)]]; [done| |].
    + split; [by apply (single repo Hf)|by left].
    + split; [exact Hfile|]. right. by exists top, rel, fn.
  - intros [Hfile [Hp'|(top & rel & fn & -> & Ht & H)]]; right; [by left|]. right. exists top. split; [done|]. split; [done|]. by exists rel, fn.
Qed.

Definition text (s : str) : node := File (s2l s).
Definition demo_repo : node := Dir [
  ("cpp", Dir [("Makefile", text "all:"); ("build", Dir [("jnxfh", text "ELF")]); ("fh", Dir [("main.cc", text "int main"); ("x.pyc", text "")])]);
  ("etc", Dir [("jnxdb.cfg", text "port=1")]); ("jnxfeed", Dir [("__init__.py", text ""); ("handler.py", text "class");
     ("net", Dir [("__init__.py", text ""); ("reactor.py", text "import")])]);
  ("tools", Dir [("dbquery.py", text "a"); ("mcast_spy.py", text "b"); ("ws_probe.py", text "c"); ("py36check.py", text "d"); ("compare_db_dump.py", text "e")]);
  ("docs", Dir [("wire_spec.md", text "w"); ("short_sell.md", text "s")]); ("OPERATIONS.md", text "o"); ("RECOVERY.md", text "r");
  ("TARGET_VALIDATION.md", text "t"); ("tests", Dir [("fixtures", Dir [("sample_udp_head.itch", text "i")])])].

Lemma demo_repo_once : named_once demo_repo.
Proof.
  repeat first [apply OnceFile | apply OnceDir; [apply (bool_decide_unpack _); vm_compute; exact I|repeat apply Forall_cons_2; try apply Forall_nil_2; cbn [snd]]].
Qed.

Lemma dist_exact_witness : exists s, make_dist demo_repo staging_init = (s, Ok ()) /\
  held s !! ["cpp"; "fh"; "main.cc"] = Some (s2l "int main") /\ held s !! ["cpp"; "build"; "jnxfh"] = None /\ size (held s) = 15%nat /\
  forall p, is_Some (held s !! p) <-> ships demo_repo p.
Proof.
  destruct (dist_exact demo_repo demo_repo_once) as (s & E & H & _).
  - unfold SINGLE_FILES. repeat apply Forall_cons_2; try apply Forall_nil_2; eexists; vm_compute; reflexivity.
  - exists s. split; [exact E|]. assert (s = (make_dist demo_repo staging_init).1) as Hs by (by rewrite E). clear E. subst s.
    split_and!; [vm_compute; reflexivity..|exact H].
Defined.
