(* ===== verification/Bench.v ===== *)
(** The measuring and checking scripts over the library and the runner of run_e2e.py:
    bench/bench_replay.py, tools/bench.py and tools/run_asan_pipeline.py.

    They do to the outside what run_e2e.py does (E2eRun's operations); the clocks are one,
    in milliseconds, so a rate is messages over milliseconds times 1000.  What is printed is
    the data of the lines.  [mktime] makes the seconds of a local time. *)
From S2P Require Export E2eRun Exchange.
From S2P Require Import SampleManifest.

#[global] Set Default Goal Selector "!".

Definition ITCH_REPLAY : str := "cpp/build/itch_replay".
Definition FULL_FIXTURE : str := "tests/fixtures/sample_udp.itch".
Definition REPETITIONS : nat := 3.

(** Messages a second; [elapsed] is in milliseconds. *)
Definition per_second (messages elapsed : Z) : res Q :=
  if elapsed =? 0 then Raise ZeroDivisionError else Ok (inject_Z (1000 * messages) / inject_Z elapsed)%Q.

Section scripts.
Context {E : Type} (run : forall A, op A -> M E A).
Arguments run {A} _.

(** * bench/bench_replay.py *)

Definition bench_decode (messages : list bytes) : res () := _ ← rmap Itch.decode messages; Ok ().
Definition bench_decode_apply (messages : list bytes) : res () := (apply_raw messages (market_init DEFAULT_MAX_ENTRIES)).2.

Fixpoint best_rate_loop (n : nat) (fn : list bytes -> res ()) (messages : list bytes) (best : Q) : M E Q :=
  match n with
  | O => mret best
  | S n =>
      start ← run Now;
      mlift (fn messages) ;;
      finish ← run Now;
      rate ← mlift (per_second (zlen messages) (finish - start));
      best_rate_loop n fn messages (if Qle_bool rate best then best else rate)
  end.
Definition best_rate (fn : list bytes -> res ()) (messages : list bytes) : M E Q := best_rate_loop REPETITIONS fn messages 0%Q.

(** [sys.exit(1)] is [Some 1]. *)
Definition ensure_fixture : M E (option Z) :=
  there ← run (E2eRun.Exists FULL_FIXTURE);
  if there : bool then mret None
  else
    specs ← run (IsDir "/workspace/jnx-specs");
    if specs : bool then
      run (OnFiles (bytes * Z) (fixtures_main "/workspace/jnx-specs" (path_join "tests" "fixtures") DEFAULT_SLICE_COUNT)) ;; mret None
    else mret (Some 1).

(** The exit code, and the two rates printed. *)
Definition bench_replay_main : M E (Z * list (str * Q)) :=
  stop ← ensure_fixture;
  match stop with
  | Some code => mret (code, [])
  | None =>
      messages ← run (OnFiles (list bytes) (fun fs => (fs, let '(l, ended) := read_file fs FULL_FIXTURE in _ ← ended; Ok l)));
      d ← best_rate bench_decode messages;
      a ← best_rate bench_decode_apply messages;
      mret (0, [("decode only", d); ("decode + Market.apply", a)])
  end.

(** * tools/bench.py *)

(** [re.search(key + r"(\d+)", text)] *)
Fixpoint digits_of (l : bytes) : bytes := match l with b :: t => if is_dec b then b :: digits_of t else [] | [] => [] end.
Fixpoint number_after (key l : bytes) : option Z :=
  match (if startswith key l then digits_of (drop (length key) l) else []) with
  | [] => match l with [] => None | _ :: t => number_after key t end
  | ds => Some (dec_val 0 ds)
  end.

(** [_TS_RE]: [d] stands for a digit. *)
Definition TS_SHAPE : bytes := s2l "dddd-dd-ddTdd:dd:dd.ddd".
Definition _parse_ts (line : str) : option (str * Z) :=
  let t := take 23 (s2l line) in
  if bool_decide (length t = 23%nat) && forallb (fun cb => if decide (cb.1 = "d"%byte) then is_dec cb.2 else bool_decide (cb.1 = cb.2)) (zip TS_SHAPE t)
  then Some (l2s (take 19 t), dec_val 0 (drop 20 t)) else None.
(** In milliseconds. *)
Definition _ts_seconds (mktime : str -> res Z) (line : str) : res (option Z) :=
  match _parse_ts line with None => Ok None | Some (tm, ms) => s ← mktime tm; Ok (Some (s * 1000 + ms)) end.

Definition least (best : option Z) (elapsed : Z) : option Z := match best with Some b => Some (if elapsed <? b then elapsed else b) | None => Some elapsed end.

(** What both timings of a tool do: run it, read its count, keep the shortest time. *)
Fixpoint time_tool (n : nat) (prepare : M E (list str)) (count : Z * str -> M E Z) (total : Z) (best : option Z) : M E (Z * option Z) :=
  match n with
  | O => mret (total, best)
  | S n =>
      args ← prepare;
      t0 ← run Now; out ← run (RunTool args); t1 ← run Now;
      total ← count out;
      time_tool n prepare count total (least best (t1 - t0))
  end.
Definition rated (r : Z * option Z) : M E (Z * Z * Q) :=
  match r.2 with Some best => rate ← mlift (per_second r.1 best); mret (r.1, best, rate) | None => mraise TypeError end.

Definition bench_decode_only (reps : nat) : M E (Z * Z * Q) :=
  r ← time_tool reps (mret [ITCH_REPLAY; FULL_FIXTURE])
        (fun out => mlift (of_option RuntimeError (number_after (s2l "total=") (s2l out.2)))) 0 None;
  rated r.
Definition bench_book_dump (reps : nat) : M E (Z * Z * Q) :=
  r ← time_tool reps (outdir ← run Mkdtemp; mret [BOOK_DUMP; FULL_FIXTURE; outdir])
        (fun out => if negb (out.1 =? 0) then mraise RuntimeError else run (OnFiles Z (fun fs => (fs, fixture_msg_count fs FULL_FIXTURE)))) 0 None;
  rated r.

(** What the log of jnxfh says: when the live loop started, when the session ended, how
    much was published, and the rates of its own statistics. *)
Record fh_log : Type := mkFhLog { fl_start : option Z; fl_end : option Z; fl_published : option Z; fl_stats : list Z }.
Definition fh_line (mktime : str -> res Z) (s : fh_log) (line : str) : res fh_log :=
  start ← (if contains "starting live loop:" line && bool_decide (fl_start s = None) then _ts_seconds mktime line else Ok (fl_start s));
  '(finish, published) ←
    (if contains "end of session (Z):" line then
       t ← _ts_seconds mktime line;
       Ok (t, match number_after (s2l "published=") (s2l line) with Some n => Some n | None => fl_published s end)
     else Ok (fl_end s, fl_published s));
  Ok (mkFhLog start finish published
        (if contains "stats: msgs/s=" line then fl_stats s ++ option_list (number_after (s2l "msgs/s=") (s2l line)) else fl_stats s)).
Fixpoint read_fh_log (mktime : str -> res Z) (lines : list str) (s : fh_log) : res fh_log :=
  match lines with [] => Ok s | line :: lines => s ← fh_line mktime s line; read_fh_log mktime lines s end.

(** At least a microsecond has passed. *)
Definition elapsed_seconds (start finish : Z) : Q := if finish - start <=? 0 then (1 # 1000000)%Q else (inject_Z (finish - start) / 1000)%Q.

Section pipeline.
Context (mktime : str -> res Z) (patience : nat).

(** One run of the pipeline, its programs stopped whatever happens. *)
Definition baseline_run (runner : Runner) : M E (bool * str * Runner) := fun e =>
  let '((e', runner'), r) := mfinally (run_baseline (@run) patience "replay" None "expected") (teardown (@run)) (e, runner) in
  (e', (fun x : bool * str => (x, runner')) <$> r).

Definition log_of (runner : Runner) (name : str) : M E str :=
  match List.find (fun p => bool_decide (p_name p = name)) (r_procs runner) with
  | Some p => run (LogText (p_log_path p))
  | None => mraise RuntimeError
  end.

(** The best run so far: published, elapsed, rate. *)
Fixpoint pipeline_loop (n : nat) (best : option (Z * Q * Q)) (samples : list Z) : M E (option (Z * Q * Q) * list Z) :=
  match n with
  | O => mret (best, samples)
  | S n =>
      out_dir ← run Mkdtemp;
      runner ← new_runner (@run) FULL_FIXTURE out_dir "max";
      done ← baseline_run runner;
      let '(ok, dest, runner) := (done : bool * str * Runner) in
      if negb ok then mraise RuntimeError
      else
        text ← log_of runner "jnxfh";
        s ← mlift (read_fh_log mktime (splitlines text) (mkFhLog None None None []));
        match fl_start s, fl_end s, fl_published s with
        | Some start, Some finish, Some published =>
            let elapsed := elapsed_seconds start finish in
            let rate := (inject_Z published / elapsed)%Q in
            let best := match best with Some b => if Qle_bool rate b.2 then Some b else Some (published, elapsed, rate) | None => Some (published, elapsed, rate) end in
            pipeline_loop n best (samples ++ fl_stats s)
        | _, _, _ => mraise RuntimeError
        end
  end.
Definition bench_full_pipeline (reps : nat) : M E (Z * Q * Q * list Z) :=
  run (OnFiles Z (fun fs => (fs, fixture_msg_count fs FULL_FIXTURE))) ;;
  r ← pipeline_loop reps None [];
  match r.1 with Some b => mret (b, r.2) | None => mraise TypeError end.

(** The three measurements, and whether the pipeline is as fast as it has to be. *)
Record bench_report : Type := mkBench { br_decode : Z * Z * Q; br_apply : Z * Z * Q; br_pipeline : Z * Q * Q * list Z; br_accepted : bool }.
Definition FLOOR : Q := 500000.

Fixpoint all_exist (paths : list str) : M E bool :=
  match paths with [] => mret true | p :: paths => there ← run (E2eRun.Exists p); if there : bool then all_exist paths else mret false end.

Definition bench_main : M E (Z * option bench_report) :=
  there ← all_exist [FULL_FIXTURE; ITCH_REPLAY; BOOK_DUMP; JNXDB; JNXFH];
  if negb there then mret (2, None)
  else
    d ← bench_decode_only 3;
    a ← bench_book_dump 3;
    p ← bench_full_pipeline 3;
    mret (0, Some (mkBench d a p (Qle_bool FLOOR p.1.2))).

(** * tools/run_asan_pipeline.py *)

Definition _SANITIZER_MARKERS : list str := [
  "ERROR: AddressSanitizer"; "ERROR: LeakSanitizer"; "runtime error:"; "SUMMARY: AddressSanitizer"; "SUMMARY: UndefinedBehaviorSanitizer"].
Definition suspicious (line : str) : bool := existsb (fun marker => contains marker line) _SANITIZER_MARKERS.

(** The findings of one log: its name, the line's number and the line. *)
Definition findings_of (name text : str) : list (str * nat * str) :=
  omap (fun il : nat * str => if suspicious il.2 then Some (name, S il.1, il.2) else None) (imap pair (l2s <$> text_lines (s2l text) [])).

Fixpoint scan_names (out_dir : str) (names : list str) : M E (list (str * nat * str)) :=
  match names with
  | [] => mret []
  | name :: names =>
      if endswith (s2l ".log") (s2l name) then
        text ← run (LogText (path_join out_dir name));
        rest ← scan_names out_dir names;
        mret (findings_of name text ++ rest)
      else scan_names out_dir names
  end.
Definition scan_logs (out_dir : str) : M E (list (str * nat * str)) :=
  names ← run (ListDir out_dir); scan_names out_dir (merge_sort str_le names).
End pipeline.
End scripts.

(** [run_e2e.JNXDB = ...; run_e2e.JNXFH = ...]: the runner then starts these programs. *)
Definition with_binaries {E} (run : forall A, op A -> M E A) (jnxdb jnxfh : str) : forall A, op A -> M E A := fun A o =>
  match o in op A return M E A with
  | Spawn (prog :: args) log =>
      run _ (Spawn ((if decide (prog = JNXDB) then jnxdb else if decide (prog = JNXFH) then jnxfh else prog) :: args) log)
  | o => run _ o
  end.

(** [environ]: the environment variables. *)
Definition asan_main {E} (run : forall A, op A -> M E A) (patience : nat) (environ : str -> option str) : M E (Z * list (str * nat * str)) :=
  let jnxdb := default (path_join "cpp" (path_join "build-asan" "jnxdb")) (environ "JNXDB_BIN") in
  let jnxfh := default (path_join "cpp" (path_join "build-asan" "jnxfh")) (environ "JNXFH_BIN") in
  there ← all_exist run [jnxdb; jnxfh];
  if negb there then mret (2, [])
  else
    let run := with_binaries run jnxdb jnxfh in
    out_dir ← run _ Mkdtemp;
    run _ (OnFiles Z (fun fs => (fs, fixture_msg_count fs DEFAULT_FIXTURE))) ;;
    runner ← new_runner run DEFAULT_FIXTURE out_dir "max";
    done ← baseline_run run patience runner;
    findings ← scan_logs run out_dir;
    mret (if done.1.1 && bool_decide (findings = []) then 0 else 1, findings).

(** * Facts *)

(** A program put in another's place is still the runner's. *)
Lemma with_binaries_laws {E} (run : forall A, op A -> M E A) (running : E -> gset Z) jnxdb jnxfh :
  OsLaws run running -> OsLaws (with_binaries run jnxdb jnxfh) running.
Proof.
  intros H. split; try apply H. intros A o e. destruct o; try apply H. destruct args as [|prog args].
  - apply (os_spawn (run := run) _ (Spawn [] log)).
  - cbn [with_binaries]. match goal with |- context [run _ (Spawn ?l log)] => exact (os_spawn (run := run) _ (Spawn l log) e) end.
Qed.

Section facts.
Context {E : Type} (run : forall A, op A -> M E A) (running : E -> gset Z) `{!OsLaws run running} (patience : nat).
#[local] Instance fewer_pre : PreOrder (fewer running).
Proof. split; [intros e|intros e1 e2 e3]; unfold fewer; set_solver. Qed.

Lemma fewer_op {A} (o : op A) : (forall r, spawned o r = ∅) -> keeps (fewer running) (run A o).
Proof. apply (fewer_run run running py_str). Qed.

Lemma baseline_fewer runner : r_procs runner = [] -> keeps (fewer running) (baseline_run run patience runner).
Proof.
  intros Hr e. unfold baseline_run, mfinally. pose proof (known_baseline run running py_str patience "replay" None "expected" (e, runner) (running e)) as H.
  destruct (run_baseline _ _ _ _ _ (e, runner)) as [w r] eqn:Ew. cbn [fst] in H.
  assert (covered running (running e) w) as Hc by (apply H; unfold covered, pids; cbn [snd]; rewrite Hr; cbn; set_solver).
  pose proof (teardown_ends run running py_str w _ Hc) as Ht. destruct (teardown run w) as [[e2 r2] [[]|x]]; exact Ht.
Qed.

Lemma scan_fewer out_dir : keeps (fewer running) (scan_logs run out_dir).
Proof.
  unfold scan_logs. apply keeps_bind; [apply _|by apply fewer_op|]. intros names. generalize (merge_sort str_le names) as l.
  induction l as [|name l IH]; cbn [scan_names]; keeps_steps; try done; by apply fewer_op.
Qed.

Lemma exist_fewer paths : keeps (fewer running) (all_exist run paths).
Proof. induction paths as [|p l IH]; cbn [all_exist]; keeps_steps; try done; by apply fewer_op. Qed.
End facts.

(** The sanitizer run leaves no program running either. *)
Lemma asan_leaves_none {E} (run : forall A, op A -> M E A) (running : E -> gset Z) patience environ :
  OsLaws run running -> keeps (fewer running) (asan_main run patience environ).
Proof.
  intros Hos. unfold asan_main.
  set (db := default _ (environ "JNXDB_BIN")). set (fh := default _ (environ "JNXFH_BIN")). cbv zeta.
  pose proof (with_binaries_laws run running db fh Hos) as Hw. set (run' := with_binaries run db fh) in *.
  assert (PreOrder (fewer running)) as Hpre by (split; [intros e|intros e1 e2 e3]; unfold fewer; set_solver).
  apply keeps_bind; [done|by apply exist_fewer|]. intros there. destruct (negb there); [apply (keeps_lift _ (Ok _))|].
  apply keeps_bind; [done|by apply (fewer_op run' running)|]. intros out_dir.
  apply keeps_bind; [done|by apply (fewer_op run' running)|]. intros _.
  apply (new_runner_fresh run' running py_str). intros runner Hr. apply keeps_bind; [done|by apply baseline_fewer|]. intros done'.
  apply keeps_bind; [done|by apply scan_fewer|]. intros findings. apply (keeps_lift _ (Ok _)).
Qed.

Lemma least_from ts b m : foldl least (Some b) ts = Some m -> (m = b \/ m ∈ ts) /\ m <= b /\ forall t, t ∈ ts -> m <= t.
Proof.
  revert b. induction ts as [|t ts IH]; intros b E; cbn [foldl least] in E; [injection E as ->; split_and!; [by left|lia|by intros t ?%elem_of_nil]|].
  destruct (IH _ E) as (Hin & Hle & Hall). destruct (Z.ltb_spec t b); (split_and!; [|lia|intros t' [->|Ht]%elem_of_cons; [lia|by apply Hall]]).
  - right. apply elem_of_cons. naive_solver.
  - destruct Hin as [->|Hin]; [by left|right; by right].
Qed.

(** The shortest of the times measured. *)
Lemma least_is_least ts m : foldl least None ts = Some m -> m ∈ ts /\ forall t, t ∈ ts -> m <= t.
Proof.
  destruct ts as [|t ts]; [done|]. intros (Hin & Hle & Hall)%least_from. split; [destruct Hin as [->|Hin]; [left|by right]|].
  intros t' [->|Ht]%elem_of_cons; [done|by apply Hall].
Qed.

(** A log is clean when no line of it has a marker. *)
Lemma findings_none name text : findings_of name text = [] <-> Forall (fun line => suspicious (l2s line) = false) (text_lines (s2l text) []).
Proof.
  unfold findings_of. generalize (text_lines (s2l text) []) as ls. intros ls.
  set (f := fun il : nat * str => if suspicious il.2 then Some (name, S il.1, il.2) else None).
  assert (forall l, omap f l = [] <-> Forall (fun il => suspicious il.2 = false) l) as ->.
  { induction l as [|[i x] l IH]; [by split|]. rewrite Forall_cons, <- IH.
    change (omap f ((i, x) :: l)) with (match f (i, x) with Some y => y :: omap f l | None => omap f l end). unfold f at 1. cbn [snd].
    destruct (suspicious x); [split; [done|by intros [? _]]|tauto]. }
  rewrite Forall_lookup. setoid_rewrite list_lookup_imap. split.
  - intros H. apply Forall_lookup. intros i x Hx. apply (H i (i, l2s x)). rewrite list_lookup_fmap, Hx. done.
  - intros H i [j x] E. rewrite Forall_lookup in H. rewrite list_lookup_fmap in E. destruct (ls !! i) as [y|] eqn:Ey; [|done].
    cbn in E. injection E as <- <-. by apply (H i).
Qed.

Lemma scan_clean {E} (run : forall A, op A -> M E A) (logs : str -> str) out_dir names e :
  (forall path e, run _ (LogText path) e = (e, Ok (logs path))) ->
  exists findings, scan_names run out_dir names e = (e, Ok findings) /\
    (findings = [] <-> forall name, name ∈ names -> endswith (s2l ".log") (s2l name) = true ->
       Forall (fun line => suspicious (l2s line) = false) (text_lines (s2l (logs (path_join out_dir name))) [])).
Proof.
  intros Hl. induction names as [|name names (fs & Ef & Hf)]; cbn [scan_names]; [exists []; split; [done|]; split; [by intros _ name ?%elem_of_nil|done]|].
  destruct (endswith _ (s2l name)) eqn:En.
  - unfold mbind, M_bind. rewrite Hl, Ef. eexists. split; [reflexivity|]. rewrite app_nil, findings_none, Hf. split.
    + intros [H1 H2] name' [->|Hn]%elem_of_cons He; [done|by apply H2].
    + intros H. split; [apply H; [left|done]|]. intros name' Hn He. apply H; [by right|done].
  - exists fs. split; [exact Ef|]. rewrite Hf. split; intros H name' Hn He.
    + apply elem_of_cons in Hn as [->|Hn]; [congruence|by apply H].
    + apply H; [by right|done].
Qed.

Example ts_line : _parse_ts "2026-07-01T08:00:01.250 INFO jnxfh: starting live loop:" = Some ("2026-07-01T08:00:01", 250).
Proof. by vm_compute. Qed.
Example total_line : number_after (s2l "total=") (s2l "total= total=12x total=9") = Some 12.
Proof. by vm_compute. Qed.
